(* ===== verification/_CoqProject ===== *)
-Q . S2P
Prelude.v
Mem.v
Codec.v
DpsTypes.v
TlvSet.v
TlvGet.v
Wire.v
WireSet.v
WireGet.v
Msg.v
CalcLen.v
Env.v
Send.v
SendSpec.v
Client.v
Process.v
Retransmit.v
Header.v
Decode.v
Receive.v
Terminate.v
RecvSpec.v
Protocol.v
Delivery.v
Exchange.v
RoundTrip.v
RawTimer.v
TimerSpec.v
TimerSweep.v
Timer.v
HList.v
VnidMap.v
VnidOps.v
VnidRefine.v
FdProcess.v
FdLoop.v
ClientCtrl.v
ClientXmit.v
ClientRecv.v
ClientServers.v
ClientStart.v
OswReg.v
OswTask.v
OswTasks.v
OswSems.v
OswTimer.v
OswTurn.v
OswTimers.v
OswOnTime.v
OswClock.v
OswQueue.v
OswFifo.v
RtQueue.v
RtSpec.v
SvrCtrl.v
DhPy.v
DhSend.v
DhMsg.v
DhSound.v
SvrWait.v
EndToEnd.v
HaTask.v
HaTasks.v
HaPeers.v
HaCtrl.v
GwSlots.v
GwSvc.v
GwMsg.v
GwTables.v
GwTunnels.v
GwCtrl.v
GwRefine.v
GwLin.v
GwSound.v
GwTold.v
GwReply.v
DhAnswer.v
NodeMsg.v
NodeTold.v
GwAnswer.v
