(* ===== verification/Prelude.v ===== *)
(** * Open DOVE (opendaylight/archived-opendove): a verification of its C core

    Open DOVE builds virtual networks over an IP network.  A DOVE Connectivity
    Server (DCS) knows where every virtual machine is and which policy holds
    between two networks; switches and gateways (clients) ask it over UDP with
    the DOVE Policy Service (DPS) protocol.  This library models the parts that
    make those questions and answers work, under [src/odcs/]: the protocol,
    its retransmission timer, the client, the server with its data handler, the loop that waits for
    datagrams and the layer over the operating system; and, under
    [src/odgw/dgadmin/], the task by which two gateways watch each other.

    ** How the parts interact

    A user of the protocol fills a [dps_client_data_t] and calls
    [dps_protocol_client_send]: the message gets a buffer, is encoded, given a
    query id and passed to [dps_protocol_xmit], which finds the address of a
    server in the table of networks, starts a retransmission timer if an answer
    is expected and calls [sendto].  The descriptor loop calls
    [dps_process_data_rcvd] when a datagram arrives; its sender is learnt as the
    server of the network in the packet and [dps_process_rcvd_pkt] decodes the
    packet, stops the timer, acknowledges and delivers.  When the timer gives up
    it calls [dps_retransmit_callback], which delivers an answer with an error
    and forgets the server.  The threads, queues and timers that the modules
    around these use come from the OS layer.

    ** Conventions

    A function that touches memory returns an [out]: [Done], [Fault] (an access
    C does not define) or [Timeout] (the fuel ran out).  Memory is a list of
    bytes for a buffer and a finite map from addresses to nodes for the heap;
    an address is never used again after it is freed, so that a use after a free
    is a [Fault].  Integers are [Z] with their wrap-around written ([u8], [u16],
    [u32], [u64]).  What a system call answers is an argument.  A mutex that is
    held is not modelled; where code releases one, what the other threads do
    then is an argument.

    Fuel is the bound of a loop.  Every loop over the bytes of a packet is given
    more than the bytes it may read ([Terminate], [Protocol.rcvd_terminates]);
    every loop over a linked list at least as much as allocations made
    ([nodup_length]).  Theorems state that the result is [Done].

    ** The protocol: [client_server_protocol/src/dps_pkt_process.c],
       [inc/dps_client_common.h], [inc/dps_pkt.h]

    - [DpsTypes]: the message types, constants and structures, a record each.
    - [Mem], [Codec]: buffers; writers, readers and the loops over a packet.
    - [TlvSet], [TlvGet]: every [dps_set_...] and [dps_get_...] function.
    - [CalcLen]: [calc_pkt_len]; [Env]: what the packet handling needs of the
      node (a class: its state, its identity, the transmission and delivery).
    - [Send], [Process], [Retransmit]: the functions of the two dispatch tables
      and the callback of the timer; [Client]: the entry points, statistics and
      acknowledgements.
    - Specification: [Wire] and [Msg] state the format as a function from a
      message to bytes; [WireSet] and [WireGet] that the encoders write it and
      the decoders read it; [SendSpec], [Header], [Decode], [Receive],
      [Terminate] and [RecvSpec] the same for whole functions.
    - Theorems: [Protocol], [Delivery], [Exchange], [RoundTrip].  Sending lays
      exactly the packet of the message; the length computed in advance is its
      length; headers, requests, lists and acknowledgements come out as they
      went in; every packet is counted once; parsing ends for all types but four.

    ** The retransmission timer: [timer/src/raw_proto_timer.c]

    - [RawTimer]: the hash table of linked nodes, start, stop and the sweep, in
      which the callback runs with the mutex released.
    - [TimerSpec], [TimerSweep], [Timer]: the table represents a
      list of timers per bucket, which start, stop and sweep refine; no use of
      freed memory from positive ids; a request nobody answers is sent as often
      as it may be and given up once.

    ** The client: [client_server_protocol/src/dps_client_ctrl.c], [inc/dps_list.h]

    - [HList]: intrusive lists with back pointers, and what they represent.
    - [VnidMap]: the table of networks; [VnidOps], [VnidRefine]:
      it is a finite map, and everything is freed.
    - [ClientCtrl]: socket addresses, the slot of the server, transmission,
      reception and the request for another server; [ClientXmit],
      [ClientRecv], [ClientServers], [ClientStart]: packets go to the right
      server, answers find their requests, servers come, go and are forgotten.

    ** The descriptor loop: [fd_process/fd_process.c]

    - [FdProcess]; [FdLoop]: the array is a list of registrations, a round calls
      the routines of the ready ones.

    ** The OS layer: [osw/*.c]

    - [OswReg]: the lists of named objects its modules share.  [OswTask],
      [OswTasks]: tasks are found by name, an event is received once.  [OswSems]:
      a semaphore counts.  [OswQueue], [OswFifo]: a
      queue is first in, first out.
    - [OswTimer]: the hierarchical timer wheel.  [OswTurn]: where a timer may
      be, what a tick fires and moves; [OswTimers]: the schedule that is the
      specification; [OswOnTime]: the wheel implements it, a timer fires at its
      tick and at no other.  [OswClock]: the ticks follow the clock.

    ** The server: [client_server_protocol/src/dps_svr_ctrl.c],
       [data_handler/src/retransmit_interface.c], [data_handler/python/retransmit_handler.py]

    - [RtQueue]: the dictionary of requests the server waits on, kept by a
      Python class, and the C structures it points at; start, stop, and the
      routine that runs every five seconds.  [RtSpec]: it is a finite map from
      query ids to requests; nothing is used after it is freed or lost.
    - [SvrCtrl]: transmission, reception, delivery and start-up, and the server
      as the environment of the protocol ([server_env]).
    - [SvrWait]: any sequence of transmissions, replies and periods
      refines a map; an accepted request is sent four times at most, and either
      answered with its context or given up with one notice.
    - [EndToEnd]: a datagram is handed over once with the address it came from; a client's question is answered by a server and the
      answer delivered to the asker ([location_resolved]).

    ** The data handler of the server: [data_handler/src/client_protocol_interface.c]

    The database of the server is kept by Python classes; the C side turns a
    message into a call of a method and its answer into a reply, and sends what
    the methods ask for.

    - [DhPy]: the border.  The interpreter is a record of functions ([py_env]):
      what an object parses to, what a method answers and which C functions it
      calls meanwhile, whether there is memory and whether a message is
      accepted.  The one call whose arguments do not fit its format is built by
      an interpreter of formats ([Py_BuildValue]), which is a [Fault] there.
      The state is the contexts and replies that are outstanding, their count
      and the trace of calls and messages.  A reused buffer holds what was
      there before ([py_stale_word] and the like).
    - [DhSend]: the fourteen C functions Python calls, and a call of Python with
      the C functions it calls in turn.  [DhMsg]: the function for each type of
      message, [dps_protocol_send_to_server], replication to other nodes and
      the forwarding of what another node keeps.  Fuel is only needed by
      [dps_msg_endpoint_update], which calls itself for the address space all
      networks share: two are enough unless that space had a shared one itself
      ([one_shared]).
    - [DhSound]: every function is a sequence of eleven small moves and ends.
      [DhAnswer]: messages have the body of their type, contexts and their
      count, questions and their answers down to what a gateway makes of a
      policy, copies of updates, forwarding, acknowledgements, and a question
      that stops the server.

    ** The nodes of the server: [data_handler/src/statistics.c], [heartbeat.c],
       the part of [cluster_database.c] between them and Python, the handlers of
       [controller_protocol/src/rest_req_handler.c]

    The nodes of a cluster tell each other over HTTP what they serve and who is
    up.

    - [NodeMsg]: what Python has sent and what the two tasks send; the handlers
      of the four requests and what they tell Python; the intervals.  Jansson
      and the texts of addresses are classes of functions ([json_lib],
      [inet_lib]), the interpreter and the process a record ([node_env]) as in
      [DhPy].  [strtok_r], [atoi] and the buffers of the handlers are written
      out.  Every loop is structural.
    - [NodeTold]: what the two libraries are relied on for ([json_laws],
      [inet_laws]); a heart beat, a list of nodes and the statistics reach the
      Python of the node they are for as they left ([heartbeat_told],
      [node_status_told], [statistics_told]), but a list with an IPv6 address
      does not; the lock of the interpreter is given back by every operation but
      one ([lock_balanced], [general_statistics_kept]).

    ** The gateways: [odgw/dgadmin/dgwy_vlan_ha_task.c], [dgwy_ctrl_task.c]

    - [HaTask]: the table of peers, the connections, the MAC addresses that are
      exchanged, the keep alives and the loop of the task; what the rest of the
      system answers is a record of functions of the number of the call.
    - [HaTasks]: the small steps the task may take, and what they keep; every
      pass of the loop completes and is made of such steps, so the task is safe
      for ever and tells the control task each change once.
    - [HaPeers]: what a tick declares, what two gateways learn of
      each other, and that a lost connection is never noticed.
    - [HaCtrl]: the control task, whose messages may wait, and the listener.

    ** The service of a gateway: [odgw/dgadmin/dgadmutil.c], [dgadmin_generic_api.c]

    - [GwSlots]: the loops over arrays of slots all the tables share, and that an
      array so kept is a finite map of bounded size (class [Slot]).
    - [GwSvc]: the entries, the table of services and its locks; the other
      threads are a function of the number of the look at the table.  [GwMsg]:
      the messages to the server.  [GwTables], [GwTunnels]: every change of the
      service and every question; the tunnels that follow.  [GwCtrl]: the
      commands of the command line, the REST server and the kernel module.
    - [GwRefine], [GwLin]: the service is a record of finite maps; each
      operation acts at one instant as its specification says, whatever the
      other threads do, or changes nothing ([svc_op_atomic]).
    - [GwSound]: whatever the commands, widths are kept and every
      message is one the protocol sends as its packet.  [GwTold]: which tunnels,
      joins and addresses the server is told of, and two tunnels that are
      deregistered wrongly.
    - [GwReply]: the answers of the server ([dgwy_handle_dps_response]) and the
      queries of the kernel module ([dgwy_device_poll]), with the contexts of
      the questions: memory that is given back once.  The addresses and routes
      of the host and the words behind a message are a record of functions; a
      service that is locked is waited for [patience] times, and [svc_wait] says
      how many are enough.  [GwAnswer]: every answer is handled, policies are
      enforced, a network the gateways share has one master, and a whole
      conversation keeps the widths and sends only messages of the protocol.

    ** Evaluated inputs

    Every numbered theorem (C1, C2, ...) with a hypothesis has a witness, an
    instance at a concrete input, next to it, at the end of its file or in a
    file after it ([RecvSpec] holds the messages).

    ** Not modelled

    - [dps_dump_...], [dps_log.c] and the other logging: they only print.
    - The rest of the data handler ([data_handler/]): the database is kept in
      Python; [cluster_database.c] and [controller_interface.c] pass the
      commands of the controller on to it.  Of [client_protocol_interface.c] the
      reference counts and the lock of the interpreter, the look-up of the
      methods, the functions that only pass a call on to the cluster
      ([dps_vnids_replicate] and its like) and [inet_ntop] for the log.
    - The rest of the REST interface and the command line: HTTP, JSON and menus
      over libevent and jansson.  Of what the nodes tell each other the transport
      (a request is handed to another thread and to libevent), the reference
      counts of JSON values and the creation and stopping of the two tasks; the
      address, id and role of a node do not change while a function runs.
    - The rest of the gateway ([src/odgw/]): the commands that run ip, ifconfig
      and brctl, the lists the command line shows and the REST client; of the
      part that is modelled the files under [/etc/iproute2] are left out.
    - [src/ovs-agent/]: built inside the Open vSwitch tree.  [src/common/]:
      copies of the files above.  [src/odmc/]: Java.
    - The branches that are not compiled: [CALLBACK_THREAD] of the timer, POSIX
      message queues.  [osw/init.c] calls four initialisers.
    - The ids of the data handler ([uuid.c]) and the forwarding of REST requests
      to the nodes of a domain. *)
From stdpp Require Export base list option numbers.

(** ** Outcomes

    A C function either completes ([Done]), touches memory outside the object
    it was given ([Fault], undefined behaviour in C), or is still looping when
    the fuel of the model runs out ([Timeout]). *)
Inductive out (A : Type) : Type :=
| Done (a : A)
| Fault
| Timeout.
Arguments Done {A} a.
Arguments Fault {A}.
Arguments Timeout {A}.

Definition obind {A B} (m : out A) (k : A -> out B) : out B :=
  match m with Done a => k a | Fault => Fault | Timeout => Timeout end.

Declare Scope dove_scope.
Delimit Scope dove_scope with dove.
Notation "'let*' x := m 'in' k" := (obind m (fun x => k))
  (at level 10, x pattern, m at level 100, k at level 200)
  : dove_scope.
Open Scope dove_scope.

Definition of_option {A} (o : option A) : out A :=
  match o with Some a => Done a | None => Fault end.

Definition is_done {A} (m : out A) : bool :=
  match m with Done _ => true | _ => false end.

Lemma obind_Done_inv {A B} (m : out A) (k : A -> out B) r :
  obind m k = Done r -> exists a, m = Done a /\ k a = Done r.
Proof. destruct m; simpl; intros H; try discriminate. eauto. Qed.

Lemma obind_Timeout_inv {A B} (m : out A) (k : A -> out B) :
  obind m k = Timeout -> m = Timeout \/ exists a, m = Done a /\ k a = Timeout.
Proof. destruct m; simpl; intros H; try discriminate; eauto. Qed.

Lemma of_option_not_timeout {A} (o : option A) : of_option o <> Timeout.
Proof. destruct o; discriminate. Qed.

(** ** Machine integers: unsigned values of a fixed width, kept in [Z]. *)
Definition u8 (z : Z) : Z := z mod 256.
Definition u16 (z : Z) : Z := z mod 65536.
Definition u32 (z : Z) : Z := z mod 4294967296.

Definition in8 (z : Z) : Prop := (0 <= z < 256)%Z.
Definition in16 (z : Z) : Prop := (0 <= z < 65536)%Z.
Definition in32 (z : Z) : Prop := (0 <= z < 4294967296)%Z.

#[export] Instance in8_dec z : Decision (in8 z).
Proof. unfold in8. apply _. Defined.
#[export] Instance in16_dec z : Decision (in16 z).
Proof. unfold in16. apply _. Defined.
#[export] Instance in32_dec z : Decision (in32 z).
Proof. unfold in32. apply _. Defined.

Lemma u8_small z : in8 z -> u8 z = z.
Proof. apply Z.mod_small. Qed.
Lemma u16_small z : in16 z -> u16 z = z.
Proof. apply Z.mod_small. Qed.
Lemma u32_small z : in32 z -> u32 z = z.
Proof. apply Z.mod_small. Qed.
Lemma u8_in z : in8 (u8 z).
Proof. unfold in8, u8. apply Z.mod_pos_bound. lia. Qed.
Lemma u16_in z : in16 (u16 z).
Proof. unfold in16, u16. apply Z.mod_pos_bound. lia. Qed.
Lemma u32_in z : in32 (u32 z).
Proof. unfold in32, u32. apply Z.mod_pos_bound. lia. Qed.

(** ** Byte strings of integers

    [be16 v] and [be32 v] are the bytes, in memory order, of [htons(v)] and
    [htonl(v)] stored through a [uint16_t *] or a [uint32_t *]: network order,
    whatever the host.  [le32 v] is a [uint32_t] in host memory; the hosts the
    Makefiles target are little endian. *)
Definition be16 (v : Z) : list Z := [v / 256 mod 256; v mod 256]%Z.
Definition be32 (v : Z) : list Z :=
  [v / 16777216 mod 256; v / 65536 mod 256; v / 256 mod 256; v mod 256]%Z.
Definition of_be16 (b0 b1 : Z) : Z := (b0 * 256 + b1)%Z.
Definition of_be32 (b0 b1 b2 b3 : Z) : Z :=
  (b0 * 16777216 + b1 * 65536 + b2 * 256 + b3)%Z.
Definition le32 (v : Z) : list Z :=
  [v mod 256; v / 256 mod 256; v / 65536 mod 256; v / 16777216 mod 256]%Z.
Definition le16 (v : Z) : list Z := [v mod 256; v / 256 mod 256]%Z.
Definition of_le32 (b0 b1 b2 b3 : Z) : Z := of_be32 b3 b2 b1 b0.
(** [ntohl] of a value in memory. *)
Definition ntohl (v : Z) : Z :=
  match le32 v with [b0; b1; b2; b3] => of_be32 b0 b1 b2 b3 | _ => 0%Z end.

Lemma of_be16_be16 v :
  in16 v -> of_be16 (v / 256 mod 256)%Z (v mod 256)%Z = v.
Proof. unfold in16, of_be16. intros. Z.div_mod_to_equations. lia. Qed.

Lemma of_be32_be32 v :
  in32 v ->
  of_be32 (v / 16777216 mod 256)%Z (v / 65536 mod 256)%Z
          (v / 256 mod 256)%Z (v mod 256)%Z = v.
Proof. unfold in32, of_be32. intros. Z.div_mod_to_equations. lia. Qed.

Lemma of_be16_in b0 b1 : in8 b0 -> in8 b1 -> in16 (of_be16 b0 b1).
Proof. unfold in8, in16, of_be16. lia. Qed.

Lemma of_be32_in b0 b1 b2 b3 :
  in8 b0 -> in8 b1 -> in8 b2 -> in8 b3 -> in32 (of_be32 b0 b1 b2 b3).
Proof. unfold in8, in32, of_be32. lia. Qed.

Lemma ntohl_in32 x : in32 (ntohl x).
Proof. unfold ntohl, le32. apply of_be32_in; unfold in8; Z.div_mod_to_equations; lia. Qed.

Lemma le32_of_le32 b0 b1 b2 b3 :
  in8 b0 -> in8 b1 -> in8 b2 -> in8 b3 ->
  le32 (of_le32 b0 b1 b2 b3) = [b0; b1; b2; b3].
Proof.
  unfold in8, le32, of_le32, of_be32. intros.
  repeat f_equal; Z.div_mod_to_equations; lia.
Qed.

Lemma length_be16 v : length (be16 v) = 2.
Proof. done. Qed.
Lemma length_be32 v : length (be32 v) = 4.
Proof. done. Qed.
Lemma length_le32 v : length (le32 v) = 4.
Proof. done. Qed.

(** ** Lists as C arrays

    [arr_write cap l i x] is [a[i] = x] for an array with room for [cap]
    elements whose first [length l] elements have been written: the write is
    inside the array, extends the written prefix, or is a [Fault]. *)
Definition arr_write {A} (cap : nat) (l : list A) (i : nat) (x : A)
  : out (list A) :=
  if decide (i < cap /\ i < length l) then Done (<[i := x]> l)
  else if decide (i < cap /\ i = length l) then Done (l ++ [x])
  else Fault.

(** [arr_read l i] is [a[i]]: reading past the written prefix is a [Fault]. *)
Definition arr_read {A} (l : list A) (i : nat) : out A := of_option (l !! i).

Lemma arr_write_app {A} cap (l : list A) x :
  length l < cap -> arr_write cap l (length l) x = Done (l ++ [x]).
Proof.
  intros. unfold arr_write.
  rewrite decide_False by lia. by rewrite decide_True by lia.
Qed.

Lemma arr_write_full {A} (l : list A) i x cap :
  cap <= i -> arr_write cap l i x = Fault.
Proof.
  intros. unfold arr_write. by rewrite !decide_False by lia.
Qed.

Lemma arr_write_spec {A} cap (l l' : list A) i x :
  arr_write cap l i x = Done l' ->
  i < cap /\ l' !! i = Some x /\ length l <= length l' /\
  (forall j, j <> i -> l' !! j = l !! j).
Proof.
  unfold arr_write. repeat case_decide; intros [= <-].
  - rewrite length_insert, list_lookup_insert_eq by lia.
    split_and!; [lia | done | lia |]. intros j ?.
    by rewrite list_lookup_insert_ne.
  - rewrite length_app; simpl. split_and!; [lia | | lia |].
    + rewrite lookup_app_r by lia. by replace (i - length l) with 0 by lia.
    + intros j ?. destruct (decide (j < length l)).
      * by rewrite lookup_app_l.
      * rewrite !lookup_ge_None_2; [done | lia |]. rewrite length_app; simpl. lia.
Qed.

(** Distinct numbers below [m] are at most [m]: a bound for the length of lists of
    addresses. *)
Lemma nodup_length (l : list nat) m : NoDup l -> (forall x, x ∈ l -> x < m) -> length l <= m.
Proof.
intros Hnd Hl. rewrite <- (length_seq m 0). apply submseteq_length.
apply NoDup_submseteq; [done|]. intros x Hx. apply elem_of_seq. specialize (Hl x Hx). lia.
Qed.

(** ** Tactics *)

(** Decompose a successful computation into its steps. *)
Ltac inv_done :=
  repeat match goal with
  | H : obind _ _ = Done _ |- _ =>
      let a := fresh "r" in let E := fresh "E" in
      apply obind_Done_inv in H as (a & E & H)
  | H : Done _ = Done _ |- _ => injection H as H; subst
  | H : Fault = Done _ |- _ => discriminate H
  | H : Timeout = Done _ |- _ => discriminate H
  | H : (_, _) = (_, _) |- _ => injection H as H; subst
  | p : (_ * _)%type |- _ => destruct p; simpl in *
  end.

(** The hint database of the development: lengths and ranges of the byte
    strings, used by [eauto with dove]. *)
Create HintDb dove.
Create Rewrite HintDb dove.
#[export] Hint Resolve u8_in u16_in u32_in of_be16_in of_be32_in : dove.
#[export] Hint Rewrite @length_app @length_replicate @length_fmap
  length_be16 length_be32 length_le32 @length_insert : dove.

(** ** Sequences of operations

    [run] performs an operation, [stp] says what it should do; [ok] is what it
    may rely on. *)
Section runs.
Context {op res conc abst : Type}.
Context (run : op -> conc -> out (res * conc)) (stp : op -> abst -> res * abst).
Context (ok : op -> abst -> Prop).

Fixpoint run_all (ops : list op) (s : conc) : out (list res * conc) :=
  match ops with
  | [] => Done ([], s)
  | o :: ops => let* (r, s) := run o s in let* (rs, s) := run_all ops s in Done (r :: rs, s)
  end.
Fixpoint step_all (ops : list op) (a : abst) : list res * abst :=
  match ops with
  | [] => ([], a)
  | o :: ops => let '(r, a) := stp o a in let '(rs, a) := step_all ops a in (r :: rs, a)
  end.
Fixpoint ok_all (ops : list op) (a : abst) : Prop :=
  match ops with
  | [] => True
  | o :: ops => ok o a /\ ok_all ops (stp o a).2
  end.

Lemma step_all_app ops ops' a :
  step_all (ops ++ ops') a =
    ((step_all ops a).1 ++ (step_all ops' (step_all ops a).2).1, (step_all ops' (step_all ops a).2).2).
Proof.
  revert a. induction ops as [|o ops IH]; intros a; cbn; [by destruct (step_all ops' a)|].
  destruct (stp o a) as [r a1]. rewrite IH. by destruct (step_all ops a1).
Qed.

(** A simulation of single operations is one of sequences of them; [R n] holds
    before the last [n] operations. *)
Context (R : nat -> conc -> abst -> Prop).
Lemma run_all_refines :
  (forall n o s a, R (S n) s a -> ok o a ->
    exists s', run o s = Done ((stp o a).1, s') /\ R n s' (stp o a).2) ->
  forall ops s a, R (length ops) s a -> ok_all ops a ->
  exists s', run_all ops s = Done ((step_all ops a).1, s') /\ R 0 s' (step_all ops a).2.
Proof.
  intros Hstep. induction ops as [|o ops IH]; intros s a HR Ha; cbn; [by exists s|].
  destruct Ha as [Ho Ha]. destruct (Hstep _ o s a HR Ho) as (s1 & -> & HR1). cbn.
  destruct (IH s1 _ HR1 Ha) as (s2 & E & HR2). rewrite E. cbn.
  destruct (stp o a) as [r a1]. cbn in *. destruct (step_all ops a1) as [rs a2]. by exists s2.
Qed.
End runs.

#[export] Instance ok_all_dec {op res abst} (stp : op -> abst -> res * abst)
    (ok : op -> abst -> Prop) `{!forall o a, Decision (ok o a)} ops a : Decision (ok_all stp ok ops a).
Proof.
  revert a. induction ops as [|o ops IH]; intros a; cbn; [apply _|].
  apply and_dec; [apply _ | apply IH].
Defined.
