(* ===== verification/Mem.v ===== *)
(** * Byte buffers: stores, loads and the patterns they realise

    A packet buffer is the list of its bytes; a pointer into it is an offset.
    Every store and load is checked against the end of the buffer and is a
    [Fault] beyond it.  A [pat] is what the documentation's packet diagrams
    draw: one entry per byte, [Some v] where the byte is determined and [None]
    where it is padding that the encoder leaves as it was. *)
From S2P Require Import Prelude.

Abbreviation buf := (list Z).
Abbreviation pat := (list (option Z)).

(** ** Stores and loads *)
Definition store (b : buf) (off : nat) (bs : list Z) : out buf :=
  if decide (off + length bs <= length b)
  then Done (list_inserts off bs b) else Fault.

Definition store8 (b : buf) (off : nat) (v : Z) : out buf := store b off [u8 v].
(** [( *(uint16_t * )p) = htons(v)] *)
Definition store16 (b : buf) (off : nat) (v : Z) : out buf :=
  store b off (be16 (u16 v)).
(** [( *(uint32_t * )p) = htonl(v)] *)
Definition store32 (b : buf) (off : nat) (v : Z) : out buf :=
  store b off (be32 (u32 v)).
(** [memcpy(p, src, n)] from an array of which [src] has been written *)
Definition memcpy (b : buf) (off : nat) (src : list Z) (n : nat) : out buf :=
  if decide (n <= length src) then store b off (take n src) else Fault.

Definition load8 (b : buf) (off : nat) : out Z := arr_read b off.
(** [ntohs( *((uint16_t * )p))] *)
Definition load16 (b : buf) (off : nat) : out Z :=
  let* b0 := load8 b off in
  let* b1 := load8 b (off + 1) in
  Done (of_be16 b0 b1).
(** [ntohl( *((uint32_t * )p))] *)
Definition load32 (b : buf) (off : nat) : out Z :=
  let* b0 := load8 b off in
  let* b1 := load8 b (off + 1) in
  let* b2 := load8 b (off + 2) in
  let* b3 := load8 b (off + 3) in
  Done (of_be32 b0 b1 b2 b3).
(** the [n] bytes a [memcpy] out of the buffer reads *)
Definition loadn (b : buf) (off n : nat) : out (list Z) :=
  if decide (off + n <= length b) then Done (take n (drop off b)) else Fault.

(** ** Patterns *)
Definition lit (bs : list Z) : pat := Some <$> bs.
Definition pad (n : nat) : pat := replicate n None.

Fixpoint merge (p : pat) (b : buf) : buf :=
  match p, b with
  | [], _ => b
  | _, [] => []
  | o :: p, x :: b => default x o :: merge p b
  end.

(** The buffer after the determined bytes of [p] are stored from [off] on. *)
Definition lay (b : buf) (off : nat) (p : pat) : buf := merge (pad off ++ p) b.

Lemma length_lit bs : length (lit bs) = length bs.
Proof. apply length_fmap. Qed.
Lemma length_pad n : length (pad n) = n.
Proof. apply length_replicate. Qed.
Lemma lit_app l k : lit (l ++ k) = lit l ++ lit k.
Proof. apply fmap_app. Qed.

Lemma length_merge p b : length (merge p b) = length b.
Proof. revert b. induction p; intros [|]; simpl; auto. Qed.
Lemma length_lay b off p : length (lay b off p) = length b.
Proof. apply length_merge. Qed.

#[export] Hint Rewrite length_lit length_pad length_lay : dove.

Lemma lookup_merge p b i :
  merge p b !! i = (fun x => default x (mjoin (p !! i))) <$> b !! i.
Proof.
  revert b i. induction p as [|o p IH]; intros b i.
  - simpl. by destruct (b !! i).
  - destruct b as [|x b], i as [|i]; simpl; auto.
Qed.

Lemma lookup_lay b off p i :
  lay b off p !! i =
  (fun x => if decide (off <= i) then default x (mjoin (p !! (i - off))) else x)
    <$> b !! i.
Proof.
  unfold lay, pad. rewrite lookup_merge.
  destruct (b !! i); simpl; [apply (f_equal Some) | done]. case_decide.
  - by rewrite lookup_app_r, length_replicate by (rewrite length_replicate; lia).
  - rewrite lookup_app_l by (rewrite length_replicate; lia).
    by rewrite lookup_replicate_2 by lia.
Qed.

Lemma lay_nil b off : lay b off [] = b.
Proof.
  apply list_eq. intros i. rewrite lookup_lay.
  destruct (b !! i); simpl; [|done]. by case_decide.
Qed.

(** Two adjacent stores are one. *)
Lemma lay_app b off p q :
  lay (lay b off p) (off + length p) q = lay b off (p ++ q).
Proof.
  apply list_eq. intros i. rewrite !lookup_lay.
  destruct (b !! i); simpl; [apply (f_equal Some) | done].
  repeat case_decide; try lia.
  - rewrite lookup_app_r by lia.
    rewrite (lookup_ge_None_2 p) by lia. simpl.
    by replace (i - (off + length p)) with (i - off - length p) by lia.
  - by rewrite lookup_app_l by lia.
Qed.

(** A store may leave the bytes before it for later: a header patched in. *)
Lemma lay_before b off p q n :
  n = length p -> lay (lay b (off + n) q) off p = lay b off (p ++ q).
Proof.
  intros ->. apply list_eq. intros i. rewrite !lookup_lay.
  destruct (b !! i); simpl; [apply (f_equal Some) | done].
  repeat case_decide; try lia.
  - rewrite (lookup_ge_None_2 p) by lia. simpl. rewrite lookup_app_r by lia.
    by replace (i - (off + length p)) with (i - off - length p) by lia.
  - by rewrite lookup_app_l by lia.
Qed.

Lemma lay_pad b off p n : lay b off (p ++ pad n) = lay b off p.
Proof.
  apply list_eq. intros i. rewrite !lookup_lay.
  destruct (b !! i); simpl; [apply (f_equal Some) | done]. case_decide; [|done].
  destruct (decide (i - off < length p)); [by rewrite lookup_app_l by lia|].
  rewrite lookup_app_r, (lookup_ge_None_2 p) by lia.
  unfold pad. destruct (decide (i - off - length p < n)).
  - by rewrite lookup_replicate_2 by lia.
  - by rewrite lookup_ge_None_2 by (rewrite length_replicate; lia).
Qed.

Lemma store_lay b off bs :
  off + length bs <= length b -> store b off bs = Done (lay b off (lit bs)).
Proof.
  intros H. unfold store. rewrite decide_True by done. f_equal.
  apply list_eq. intros i. rewrite lookup_lay.
  destruct (decide (off <= i < off + length bs)) as [Hi|Hi].
  - rewrite list_lookup_inserts by lia.
    destruct (lookup_lt_is_Some_2 b i) as [x ->]; [lia|]. simpl.
    rewrite decide_True by lia. unfold lit. rewrite list_lookup_fmap.
    destruct (lookup_lt_is_Some_2 bs (i - off)) as [y ->]; [lia|]. done.
  - destruct (decide (i < off)).
    + rewrite list_lookup_inserts_lt by lia. destruct (b !! i); simpl; [|done].
      by rewrite decide_False by lia.
    + rewrite list_lookup_inserts_ge by lia. destruct (b !! i); simpl; [|done].
      rewrite decide_True by lia. unfold lit.
      by rewrite lookup_ge_None_2 by (rewrite length_fmap; lia).
Qed.

Lemma memcpy_lay b off src n :
  length src = n -> off + n <= length b ->
  memcpy b off src n = Done (lay b off (lit src)).
Proof.
  intros <- ?. unfold memcpy. rewrite decide_True by lia.
  rewrite take_ge by lia. by apply store_lay.
Qed.
