(* ===== verification/Codec.v ===== *)
(** * Writers, readers and loops over a packet buffer

    The reasoning rules for code that fills a buffer front to back (with
    headers patched in once the length is known) and for code that walks a
    buffer with a cursor: what a writer lays down, when a buffer matches a
    pattern, and the [for] and [while] loops of the C code. *)
From S2P Require Export Prelude Mem.

(** ** Writers *)

(** A function of the C code that stores at [buff] and returns the number of
    bytes to advance by. *)
Abbreviation writer := (buf -> nat -> out (buf * nat)).

(** [writes f p]: where [p] fits, [f] stores exactly the determined bytes of
    [p], leaves every other byte of the buffer alone and returns [length p]. *)
Definition writes (f : writer) (p : pat) : Prop :=
  forall b off, off + length p <= length b ->
                f b off = Done (lay b off p, length p).

(** [for (i = i0; i < i0 + n; i++) buff += body(i, buff);] *)
Fixpoint for_write (body : nat -> writer) (i n : nat) (b : buf) (off : nat)
  : out (buf * nat) :=
  match n with
  | 0 => Done (b, 0)
  | S n' =>
      let* (b, k) := body i b off in
      let* (b, m) := for_write body (S i) n' b (off + k) in
      Done (b, k + m)
  end.

Lemma writes_nil f : (forall b off, f b off = Done (b, 0)) -> writes f [].
Proof. intros H b off _. by rewrite H, lay_nil. Qed.

Lemma for_write_spec (body : nat -> writer) (ps : list pat) i :
  (forall k p, ps !! k = Some p -> writes (body (i + k)) p) ->
  writes (for_write body i (length ps)) (concat ps).
Proof.
  revert i. induction ps as [|p ps IH]; intros i H b off Hfit; simpl in *.
  - by rewrite lay_nil.
  - rewrite length_app in *.
    pose proof (H 0 p eq_refl) as H0. rewrite Nat.add_0_r in H0.
    rewrite H0 by lia. simpl. rewrite (IH (S i)).
    + simpl. by rewrite lay_app.
    + intros k q Hk. replace (S i + k) with (i + S k) by lia. by apply H.
    + rewrite length_lay. lia.
Qed.

(** ** Combining stores *)

Lemma lay_app' b off off' p q :
  off' = off + length p -> lay (lay b off p) off' q = lay b off (p ++ q).
Proof. intros ->. apply lay_app. Qed.

Lemma lay_before' b off off' p q :
  off' = off + length p -> lay (lay b off' q) off p = lay b off (p ++ q).
Proof. intros ->. by apply lay_before. Qed.

Lemma lay_gap b off off' n p q :
  off' = off + length p + n ->
  lay (lay b off p) off' q = lay b off (p ++ pad n ++ q).
Proof.
  intros ->. rewrite <- (lay_pad b off p n), lay_app'.
  - by rewrite <- app_assoc.
  - rewrite length_app, length_pad. lia.
Qed.

(** Arithmetic on the lengths of buffers and patterns. *)
Ltac len := autounfold with dove in *; autorewrite with dove in *; simpl in *; lia.

(** Evaluate the stores of a writer whose pattern fits the buffer. *)
Ltac run_stores :=
  repeat (first
    [ rewrite store_lay by len
    | rewrite memcpy_lay by len
    | progress cbn [obind] ]).

(** Collect adjacent stores. *)
Ltac join_lays :=
  repeat match goal with
  | |- context [lay (lay ?b ?o ?p) ?o' ?q] =>
      first [ rewrite (lay_app' b o o' p q) by len
            | rewrite (lay_before' b o' o q p) by len ]
  end.

(** ** Matching a buffer *)

(** The bytes of [b] from [off] on are those of [p], padding aside. *)
Definition matches (b : buf) (off : nat) (p : pat) : Prop :=
  off + length p <= length b /\
  forall i v, p !! i = Some (Some v) -> b !! (off + i) = Some v.

Lemma matches_app b off p q :
  matches b off (p ++ q) <-> matches b off p /\ matches b (off + length p) q.
Proof.
  unfold matches. rewrite length_app. split.
  - intros [Hl H]. split; split; try lia.
    + intros i v Hi. apply H. by apply lookup_app_l_Some.
    + intros i v Hi. rewrite <- Nat.add_assoc. apply H.
      rewrite lookup_app_r by lia. by replace (length p + i - length p) with i by lia.
  - intros [[Hl1 H1] [Hl2 H2]]. split; [lia|].
    intros i v. rewrite lookup_app_Some. intros [Hi|[Hle Hi]]; [by apply H1|].
    replace (off + i) with (off + length p + (i - length p)) by lia. by apply H2.
Qed.

Lemma matches_lay b off p :
  off + length p <= length b -> matches (lay b off p) off p.
Proof.
  intros Hl. split; [by rewrite length_lay|]. intros i v Hi.
  rewrite lookup_lay. destruct (lookup_lt_is_Some_2 b (off + i)) as [x ->].
  - apply lookup_lt_Some in Hi. lia.
  - simpl. rewrite decide_True by lia.
    replace (off + i - off) with i by lia. by rewrite Hi.
Qed.

Lemma matches_at b off off' p : matches b off p -> off' = off -> matches b off' p.
Proof. by intros ? ->. Qed.

Lemma matches_lit_lookup b off bs i v :
  matches b off (lit bs) -> bs !! i = Some v -> b !! (off + i) = Some v.
Proof.
  intros [_ H] Hi. apply H. unfold lit. by rewrite list_lookup_fmap, Hi.
Qed.

Lemma load8_matches b off v : matches b off (lit [v]) -> load8 b off = Done v.
Proof.
  intros H. unfold load8, arr_read.
  pose proof (matches_lit_lookup b off [v] 0 v H eq_refl) as E.
  rewrite Nat.add_0_r in E. by rewrite E.
Qed.

Lemma load16_matches b off v :
  matches b off (lit (be16 v)) -> in16 v -> load16 b off = Done v.
Proof.
  intros H Hv. unfold load16, load8, arr_read.
  pose proof (fun i w => matches_lit_lookup b off (be16 v) i w H) as L.
  rewrite <- (Nat.add_0_r off) at 1.
  rewrite (L 0 _ eq_refl), (L 1 _ eq_refl). simpl. by rewrite of_be16_be16.
Qed.

Lemma load32_matches b off v :
  matches b off (lit (be32 v)) -> in32 v -> load32 b off = Done v.
Proof.
  intros H Hv. unfold load32, load8, arr_read.
  pose proof (fun i w => matches_lit_lookup b off (be32 v) i w H) as L.
  rewrite <- (Nat.add_0_r off) at 1.
  rewrite (L 0 _ eq_refl), (L 1 _ eq_refl), (L 2 _ eq_refl), (L 3 _ eq_refl).
  simpl. by rewrite of_be32_be32.
Qed.

Lemma loadn_matches b off bs n :
  matches b off (lit bs) -> n = length bs -> loadn b off n = Done bs.
Proof.
  intros H ->. pose proof H as [Hl _]. rewrite length_lit in Hl.
  unfold loadn. rewrite decide_True by done. f_equal.
  apply list_eq. intros i. destruct (decide (i < length bs)).
  - rewrite lookup_take_lt, lookup_drop by lia.
    destruct (lookup_lt_is_Some_2 bs i) as [v Hv]; [done|].
    rewrite Hv. by apply (matches_lit_lookup b off bs).
  - by rewrite lookup_take_ge, lookup_ge_None_2 by lia.
Qed.

(** ** Cursor loops *)

(** How a pass through a [switch] leaves the loop body: [Go] goes round again,
    [Exit] is a [goto error] or a [return]. *)
Inductive ctl : Set := Go | Exit.

(** [while (buff < end) body;] with the cursor as an offset; [Timeout] when
    [fuel] passes were not enough. *)
Fixpoint while {A} (fuel : nat) (end_ : Z) (body : nat -> A -> out (ctl * nat * A))
  (off : nat) (s : A) : out (ctl * nat * A) :=
  match fuel with
  | 0 => Timeout
  | S fuel' =>
      if (Z.of_nat off <? end_)%Z then
        let* (c, off', s') := body off s in
        match c with
        | Go => while fuel' end_ body off' s'
        | Exit => Done (Exit, off', s')
        end
      else Done (Go, off, s)
  end.

Section while_rules.
Context {A : Type} (body : nat -> A -> out (ctl * nat * A)).

Lemma while_step fuel end_ off s off' s' :
  0 < fuel -> (Z.of_nat off < end_)%Z -> body off s = Done (Go, off', s') ->
  while fuel end_ body off s = while (fuel - 1) end_ body off' s'.
Proof.
  intros Hf Hlt Hb. destruct fuel as [|fuel]; [lia|]. simpl.
  apply Z.ltb_lt in Hlt. rewrite Hlt, Hb. simpl. by rewrite Nat.sub_0_r.
Qed.

Lemma while_end fuel end_ off s :
  0 < fuel -> (end_ <= Z.of_nat off)%Z ->
  while fuel end_ body off s = Done (Go, off, s).
Proof.
  intros Hf Hle. destruct fuel as [|fuel]; [lia|]. simpl.
  apply Z.ltb_ge in Hle. by rewrite Hle.
Qed.

(** A sequence of elements, each of which the body consumes whole; [R i] is
    what holds of the state after [i] of them. *)
Lemma while_rel b (R : nat -> A -> Prop) (ps : list pat) fuel off s end_ :
  length ps < fuel -> matches b off (concat ps) ->
  end_ = Z.of_nat (off + length (concat ps)) -> R 0 s ->
  (forall i p off s, ps !! i = Some p -> R i s -> matches b off p ->
    0 < length p /\
    exists s', body off s = Done (Go, off + length p, s') /\ R (S i) s') ->
  exists s', while fuel end_ body off s = Done (Go, off + length (concat ps), s')
    /\ R (length ps) s'.
Proof.
  revert R fuel off s. induction ps as [|p ps IH];
    intros R fuel off s Hf Hm Hend HR Hb; simpl in *.
  - exists s. rewrite while_end by lia. by rewrite Nat.add_0_r.
  - apply matches_app in Hm as [Hm1 Hm2]. rewrite length_app in *.
    destruct (Hb 0 p off s eq_refl HR Hm1) as (Hp & s1 & E & HR1).
    erewrite while_step; [|lia|lia|exact E].
    destruct (IH (fun i => R (S i)) (fuel - 1) (off + length p) s1)
      as (s' & -> & HR'); [lia | done | lia | done | |].
    + intros i q o t Hi. by apply (Hb (S i)).
    + exists s'. by rewrite Nat.add_assoc.
Qed.

(** Enough fuel: every pass moves the cursor forward and reads the buffer. *)
Lemma while_terminates (n : nat) fuel end_ off s :
  (forall off s, body off s <> Timeout) ->
  (forall off s off' s', body off s = Done (Go, off', s') ->
    off < n /\ off < off') ->
  n - off < fuel ->
  while fuel end_ body off s <> Timeout.
Proof.
  intros Hnt Hadv. revert off s. induction fuel as [|fuel IH]; [lia|].
  intros off s Hf. simpl. destruct (_ <? _)%Z; [|done].
  destruct (body off s) as [[[[] off'] s']| |] eqn:E; simpl; try done.
  - apply Hadv in E as [? ?]. apply IH. lia.
  - by apply Hnt in E.
Qed.

(** A pass that changes nothing repeats for ever. *)
Lemma while_stuck fuel end_ off s :
  (Z.of_nat off < end_)%Z -> body off s = Done (Go, off, s) ->
  while fuel end_ body off s = Timeout.
Proof.
  intros Hlt Hb. induction fuel as [|fuel IH]; [done|].
  simpl. apply Z.ltb_lt in Hlt. by rewrite Hlt, Hb.
Qed.

(** On a normal exit the cursor has reached the end. *)
Lemma while_exit fuel end_ off s off' s' :
  while fuel end_ body off s = Done (Go, off', s') -> (end_ <= Z.of_nat off')%Z.
Proof.
  revert off s. induction fuel as [|fuel IH]; intros off s; simpl; [done|].
  destruct (_ <? _)%Z eqn:E; [|intros [= <- <-]; apply Z.ltb_ge in E; lia].
  intros H. inv_done. destruct c; [eauto | discriminate].
Qed.
End while_rules.
