(* ===== verification/DpsTypes.v ===== *)
(** * The DPS protocol: message types, constants and client structures

    [odcs/client_server_protocol/inc/dps_client_common.h] and [dps_pkt.h]. *)
From S2P Require Export Prelude.
#[local] Open Scope Z_scope.

(** ** Address families (the platform's [AF_INET] and [AF_INET6]) *)
Definition AF_INET : Z := 2.
Definition AF_INET6 : Z := 10.
Definition SOCK_DGRAM : Z := 2.

(** ** Lengths *)
Definition DPS_PKT_HDR_TLV_LEN : nat := 4.
Definition DPS_PKT_HDR_LEN : nat := 20.
Definition DPS_MAC_ADDR_LEN : nat := 6.
Definition DPS_PROTOCOL_VER : Z := 1.
Definition DPS_VNID_LEN : nat := 4.
Definition DPS_DATA_VER_LEN : nat := 4.
Definition DPS_IP4_ADDR_LEN : nat := 4.
Definition DPS_IP6_ADDR_LEN : nat := 16.
Definition SZ_OF_INT16 : nat := 2.
Definition SZ_OF_INT32 : nat := 4.
Definition DPS_IP4_TUNNEL_INFO_LEN : nat := (DPS_IP4_ADDR_LEN + DPS_VNID_LEN + 8)%nat.
Definition DPS_IP6_TUNNEL_INFO_LEN : nat := (DPS_IP6_ADDR_LEN + DPS_VNID_LEN + 8)%nat.
Definition DPS_TLV_HDR_LEN : nat := 4.
Definition DPS_VMAC_TLV_LEN : nat := (DPS_TLV_HDR_LEN + 8)%nat.
Definition DPS_IP4_TLV_LEN : nat := (DPS_TLV_HDR_LEN + 4)%nat.
Definition DPS_IP6_TLV_LEN : nat := (DPS_TLV_HDR_LEN + 16)%nat.
Definition DPS_EUID_TLV_LEN : nat := (DPS_TLV_HDR_LEN + 12)%nat.
Definition DPS_SVCLOC4_TLV_LEN : nat := (DPS_TLV_HDR_LEN + 8)%nat.
Definition DPS_SVCLOC6_TLV_LEN : nat := (DPS_TLV_HDR_LEN + 20)%nat.
Definition DPS_POLICY_ID_TLV_LEN : nat := (DPS_TLV_HDR_LEN + 12)%nat.
Definition DPS_ENDPOINT4_INFO_TLV_LEN : nat := (DPS_TLV_HDR_LEN + 12 + DPS_IP4_TLV_LEN)%nat.
Definition DPS_ENDPOINT6_INFO_TLV_LEN : nat := (DPS_TLV_HDR_LEN + 12 + DPS_IP6_TLV_LEN)%nat.
Definition MAX_VIP_ADDR : nat := 16.
Definition DPS_MAX_BUFF_SZ : nat := Z.to_nat 32768.
Definition DPS_SEND_BUFF_SZ : nat := Z.to_nat 4096.

#[export] Hint Unfold DPS_PKT_HDR_TLV_LEN DPS_PKT_HDR_LEN DPS_MAC_ADDR_LEN DPS_VNID_LEN
  DPS_DATA_VER_LEN DPS_IP4_ADDR_LEN DPS_IP6_ADDR_LEN SZ_OF_INT16 SZ_OF_INT32
  DPS_IP4_TUNNEL_INFO_LEN DPS_IP6_TUNNEL_INFO_LEN DPS_TLV_HDR_LEN DPS_VMAC_TLV_LEN
  DPS_IP4_TLV_LEN DPS_IP6_TLV_LEN DPS_EUID_TLV_LEN DPS_SVCLOC4_TLV_LEN
  DPS_SVCLOC6_TLV_LEN DPS_POLICY_ID_TLV_LEN DPS_ENDPOINT4_INFO_TLV_LEN
  DPS_ENDPOINT6_INFO_TLV_LEN : dove.

(** ** TLV types *)
Definition VMAC_TLV : Z := 1.
Definition IP_ADDR_TLV : Z := 2.
Definition EUID_TLV : Z := 3.
Definition ENDPOINT_LOC_TLV : Z := 5.
Definition SERVICE_LOC_TLV : Z := 6.
Definition POLICY_TLV : Z := 7.
Definition POLICY_ID_TLV : Z := 8.
Definition POLICY_TYPE_TLV : Z := 9.
Definition REPLY_SERVICE_LOC_TLV : Z := 10.
Definition ENDPOINT_INFO_TLV : Z := 11.
Definition IPV4_ADDR_LIST_TLV : Z := 12.
Definition IPV6_ADDR_LIST_TLV : Z := 13.
Definition MCAST_ADDR_MAC_TLV : Z := 14.
Definition MCAST_ADDR_V4_TLV : Z := 15.
Definition MCAST_ADDR_V4_ICB_RANGE_TLV : Z := 16.
Definition MCAST_ADDR_V6_TLV : Z := 17.
Definition MCAST_GRP_REC_TLV : Z := 18.
Definition TUNNEL_LIST_TLV : Z := 19.
Definition VNID_TUNNEL_LIST_TLV : Z := 20.
Definition ENDPOINT_UPDATE_REPLY_TLV : Z := 21.
Definition EPRI_TLV : Z := 22.
Definition IP4_INFO_LIST_TLV : Z := 23.
Definition IP6_INFO_LIST_TLV : Z := 24.

(** ** Multicast address kinds *)
Definition MCAST_ADDR_MAC : Z := 0.
Definition MCAST_ADDR_V4 : Z := 1.
Definition MCAST_ADDR_V6 : Z := 2.
Definition MCAST_ADDR_V4_ICB_RANGE : Z := 3.

(** ** Policy types, return values and response codes *)
Definition DPS_POLICY_TYPE_CONNECTIVITY : Z := 1.
Definition DPS_POLICY_TYPE_SOURCE_ROUTING : Z := 2.
Definition DPS_DVG_PERMIT : Z := 1.
Definition DPS_SUCCESS : Z := 0.
Definition DPS_ERROR : Z := 1.
Definition DPS_ERROR_EXCEEDS_CAP : Z := 2.
Definition DPS_ERROR_NO_RESOURCES : Z := 3.
Definition DPS_XMIT_ERROR : Z := 4.
Definition DPS_NO_ERR : Z := 0.
Definition DPS_INVALID_SRC_IP : Z := 1.
Definition DPS_NO_MEMORY : Z := 9.
Definition DPS_NO_RESPONSE : Z := 14.
Definition DPS_ERROR_RETRY : Z := 16.
Definition DPS_ERROR_NO_ROUTE : Z := 17.
Definition DPS_TRANSACTION_NORMAL : Z := 1.
Definition DPS_TRANSACTION_REPLICATION : Z := 2.
Definition DPS_TRANSACTION_MASS_COPY : Z := 3.

(** ** Tunnels, and who speaks *)
Definition TUNNEL_TYPE_VXLAN : Z := 0.
Definition TUNNEL_IS_DESIGNATED_MCAST_GW : Z := 1.
Definition DPS_TUNNEL_REG : Z := 1.
Definition DPS_TUNNEL_DEREG : Z := 2.
Definition DPS_ENDPOINT_LOC_REPLY_VM : Z := 0.
Definition DPS_ENDPOINT_LOC_REPLY_GW : Z := 1.
Definition DPS_POLICY_SERVER_ID : Z := 1.
Definition DPS_SWITCH_AGENT_ID : Z := 2.

(** ** Message types *)
Definition DPS_ENDPOINT_LOC_REQ : Z := 1.
Definition DPS_ENDPOINT_LOC_REPLY : Z := 2.
Definition DPS_POLICY_REQ : Z := 3.
Definition DPS_POLICY_REPLY : Z := 4.
Definition DPS_POLICY_INVALIDATE : Z := 5.
Definition DPS_ENDPOINT_UPDATE : Z := 6.
Definition DPS_ENDPOINT_UPDATE_REPLY : Z := 7.
Definition DPS_ADDR_RESOLVE : Z := 8.
Definition DPS_ADDR_REPLY : Z := 9.
Definition DPS_INTERNAL_GW_REQ : Z := 10.
Definition DPS_INTERNAL_GW_REPLY : Z := 11.
Definition DPS_UNSOLICITED_VNID_POLICY_LIST : Z := 12.
Definition DPS_BCAST_LIST_REQ : Z := 13.
Definition DPS_BCAST_LIST_REPLY : Z := 14.
Definition DPS_VM_MIGRATION_EVENT : Z := 15.
Definition DPS_MCAST_SENDER_REGISTRATION : Z := 16.
Definition DPS_MCAST_SENDER_DEREGISTRATION : Z := 17.
Definition DPS_MCAST_RECEIVER_JOIN : Z := 18.
Definition DPS_MCAST_RECEIVER_LEAVE : Z := 19.
Definition DPS_MCAST_RECEIVER_DS_LIST : Z := 20.
Definition DPS_UNSOLICITED_BCAST_LIST_REPLY : Z := 21.
Definition DPS_UNSOLICITED_INTERNAL_GW_REPLY : Z := 22.
Definition DPS_GENERAL_ACK : Z := 23.
Definition DPS_UNSOLICITED_EXTERNAL_GW_LIST : Z := 24.
Definition DPS_UNSOLICITED_VLAN_GW_LIST : Z := 25.
Definition DPS_TUNNEL_REGISTER : Z := 26.
Definition DPS_TUNNEL_DEREGISTER : Z := 27.
Definition DPS_REG_DEREGISTER_ACK : Z := 28.
Definition DPS_EXTERNAL_GW_LIST_REQ : Z := 29.
Definition DPS_EXTERNAL_GW_LIST_REPLY : Z := 30.
Definition DPS_VLAN_GW_LIST_REQ : Z := 31.
Definition DPS_VLAN_GW_LIST_REPLY : Z := 32.
Definition DPS_UNSOLICITED_ENDPOINT_LOC_REPLY : Z := 33.
Definition DPS_VNID_POLICY_LIST_REQ : Z := 34.
Definition DPS_VNID_POLICY_LIST_REPLY : Z := 35.
Definition DPS_MCAST_CTRL_GW_REQ : Z := 36.
Definition DPS_MCAST_CTRL_GW_REPLY : Z := 37.
Definition DPS_UNSOLICITED_VNID_DEL_REQ : Z := 38.
Definition DPS_CTRL_PLANE_HB : Z := 39.
Definition DPS_GET_DCS_NODE : Z := 40.
Definition DPS_UNSOLICITED_VM_LOC_INFO : Z := 41.
Definition DPS_MAX_MSG_TYPE : Z := 42.
#[global] Opaque DPS_MAX_BUFF_SZ DPS_SEND_BUFF_SZ.

(** ** Addresses

    The anonymous [union { uint32_t ip4; uint8_t ip6[16]; }] of [ip_addr_t] and
    [dps_tunnel_endpoint_t] is its sixteen bytes; the [ip4] member is the first
    four, in host order. *)
Definition ip_union := list Z.
Definition zero_ip : ip_union := replicate 16 0.
Definition get_ip4 (u : ip_union) : Z :=
  match u with b0 :: b1 :: b2 :: b3 :: _ => of_le32 b0 b1 b2 b3 | _ => 0 end.
Definition set_ip4 (u : ip_union) (v : Z) : ip_union := le32 (u32 v) ++ drop 4 u.

(** [port_http] shares its storage with [status]. *)
Record ip_addr_t := mk_ip_addr {
  ia_family : Z; ia_port : Z; ia_xport_type : Z; ia_port_http : Z;
  ia_ip : ip_union }.
Definition zero_ip_addr : ip_addr_t := mk_ip_addr 0 0 0 0 zero_ip.
Definition ia_ip4 (a : ip_addr_t) : Z := get_ip4 (ia_ip a).

Record dps_ip4_info_t := mk_ip4_info { i4_ip : Z; i4_flags : Z; i4_reserved : Z }.
Record dps_ip6_info_t := mk_ip6_info { i6_ip : list Z; i6_flags : Z; i6_reserved : Z }.
Record dps_ip4_info_list_t := mk_ip4_info_list {
  i4l_num_of_ips : Z; i4l_ip_info : list dps_ip4_info_t }.
Record dps_ip6_info_list_t := mk_ip6_info_list {
  i6l_num_of_ips : Z; i6l_ip_info : list dps_ip6_info_t }.

Record dps_tunnel_endpoint_t := mk_tunnel {
  te_family : Z; te_port : Z; te_vnid : Z; te_tunnel_type : Z; te_flags : Z;
  te_ip : ip_union }.
Definition te_ip4 (t : dps_tunnel_endpoint_t) : Z := get_ip4 (te_ip t).

(** Arrays at the end of a structure ([tunnel_list[1]], [gw_list[0]], ...) run
    on into the rest of the allocation: they are the list of the elements that
    have been written. *)
Record dps_tunnel_list_t := mk_tunnel_list {
  tl_num_of_tunnels : Z; tl_tunnel_list : list dps_tunnel_endpoint_t }.
Definition zero_tunnel_list : dps_tunnel_list_t := mk_tunnel_list 0 [].

(** [dps_client_hdr_t] *)
Record dps_client_hdr_t := mk_client_hdr {
  ch_type : Z; ch_sub_type : Z; ch_client_id : Z; ch_transaction_type : Z;
  ch_vnid : Z; ch_resp_status : Z; ch_query_id : Z; ch_reply_addr : ip_addr_t }.
Definition zero_client_hdr : dps_client_hdr_t := mk_client_hdr 0 0 0 0 0 0 0 zero_ip_addr.

Definition zero_mac : list Z := replicate 6 0.

Record dps_endpoint_loc_req_t := mk_endpoint_loc_req {
  elq_vnid : Z; elq_mac : list Z; elq_vm_ip_addr : ip_addr_t;
  elq_dps_client_addr : ip_addr_t }.
Definition zero_endpoint_loc_req := mk_endpoint_loc_req 0 zero_mac zero_ip_addr zero_ip_addr.

Record dps_endpoint_loc_reply_t := mk_endpoint_loc_reply {
  elr_vnid : Z; elr_mac : list Z; elr_vm_ip_addr : ip_addr_t; elr_version : Z;
  elr_tunnel_info : dps_tunnel_list_t }.
Definition zero_endpoint_loc_reply :=
  mk_endpoint_loc_reply 0 zero_mac zero_ip_addr 0 zero_tunnel_list.

Record dps_endpoint_update_t := mk_endpoint_update {
  eu_vnid : Z; eu_mac : list Z; eu_version : Z; eu_vm_ip_addr : ip_addr_t;
  eu_dps_client_addr : ip_addr_t; eu_tunnel_info : dps_tunnel_list_t }.
Definition zero_endpoint_update :=
  mk_endpoint_update 0 zero_mac 0 zero_ip_addr zero_ip_addr zero_tunnel_list.

Record dps_endpoint_update_reply_t := mk_endpoint_update_reply {
  eur_vnid : Z; eur_mac : list Z; eur_version : Z; eur_num_of_vip : Z;
  eur_vm_ip_addr : list ip_addr_t; eur_tunnel_info : dps_tunnel_list_t }.
Definition zero_endpoint_update_reply :=
  mk_endpoint_update_reply 0 zero_mac 0 0 (replicate MAX_VIP_ADDR zero_ip_addr)
    zero_tunnel_list.

Record dps_endpoint_info_t := mk_endpoint_info {
  ei_vnid : Z; ei_mac : list Z; ei_vm_ip_addr : ip_addr_t }.
Definition zero_endpoint_info := mk_endpoint_info 0 zero_mac zero_ip_addr.

Record src_dst_vnid_t := mk_rule { sd_svnid : Z; sd_dvnid : Z }.

(** The [vnid_policy] member of the union in [dps_policy_t]; its
    [source_routing] member, "not yet supported", shares the first counter. *)
Record dps_policy_t := mk_policy {
  pl_version : Z; pl_policy_type : Z; pl_num_permit_rules : Z;
  pl_num_deny_rules : Z; pl_src_dst_vnid : list src_dst_vnid_t }.
Definition pl_address_count (p : dps_policy_t) : Z := pl_num_permit_rules p.

Record dps_policy_info_t := mk_policy_info {
  pi_policy_id : Z; pi_version : Z; pi_ttl : Z; pi_dps_policy : dps_policy_t }.
Definition zero_policy_info := mk_policy_info 0 0 0 (mk_policy 0 0 0 0 []).

Record dps_policy_req_t := mk_policy_req {
  pq_dst_endpoint : dps_endpoint_info_t; pq_src_endpoint : dps_endpoint_info_t;
  pq_dps_client_addr : ip_addr_t }.
Record dps_policy_reply_t := mk_policy_reply {
  pr_dps_policy_info : dps_policy_info_t;
  pr_dst_endpoint_loc_reply : dps_endpoint_loc_reply_t }.
Record dps_bulk_vnid_policy_t := mk_bulk_policy {
  bp_num_permit_rules : Z; bp_num_deny_rules : Z;
  bp_src_dst_vnid : list src_dst_vnid_t }.

Record dps_epri_t := mk_epri {
  ep_vnid : Z; ep_mac : list Z; ep_vm_ip4_addr : dps_ip4_info_list_t;
  ep_vm_ip6_addr : dps_ip6_info_list_t; ep_tunnel_info : dps_tunnel_list_t }.
Definition zero_epri :=
  mk_epri 0 zero_mac (mk_ip4_info_list 0 []) (mk_ip6_info_list 0 []) zero_tunnel_list.

(** Packed lists: [num_v4] words holding an IPv4 address each, followed by
    four words for each of the [num_v6] IPv6 addresses. *)
Record dps_internal_gw_t := mk_internal_gw {
  gw_num_v4_gw : Z; gw_num_v6_gw : Z; gw_gw_list : list Z }.
Record dps_pkd_tunnel_list_t := mk_pkd_tunnel_list {
  pk_vnid : Z; pk_num_v4_tunnels : Z; pk_num_v6_tunnels : Z;
  pk_tunnel_list : list Z }.

Record dps_gen_msg_req_t := mk_gen_msg_req { gm_dps_client_addr : ip_addr_t }.
Record dps_vm_migration_event_t := mk_vm_migration {
  vm_migrated_vm_info : dps_endpoint_info_t;
  vm_src_vm_loc : dps_endpoint_loc_reply_t }.
Record dps_tunnel_reg_dereg_t := mk_tunnel_reg {
  tr_dps_client_addr : ip_addr_t; tr_tunnel_info : dps_tunnel_list_t }.

Record dps_mcast_addr_t := mk_mcast_addr {
  ma_mcast_addr_type : Z; ma_mcast_mac : list Z; ma_ip : ip_union }.
Definition ma_mcast_ip4 (m : dps_mcast_addr_t) : Z := get_ip4 (ma_ip m).
Definition zero_mcast_addr := mk_mcast_addr 0 zero_mac zero_ip.
Record dps_mcast_group_record_t := mk_mcast_group_record {
  mg_mcast_addr : dps_mcast_addr_t; mg_num_of_srcs : Z; mg_family : Z;
  mg_src_addr : list Z }.
Record dps_mcast_sender_t := mk_mcast_sender {
  ms_tunnel_endpoint : ip_addr_t; ms_mcast_src_vm : dps_endpoint_info_t;
  ms_mcast_addr : dps_mcast_addr_t; ms_dps_client_addr : ip_addr_t }.
Record dps_mcast_receiver_t := mk_mcast_receiver {
  mr_tunnel_endpoint : ip_addr_t; mr_dps_client_addr : ip_addr_t;
  mr_mcast_group_rec : dps_mcast_group_record_t }.
Record dps_mcast_receiver_ds_list_t := mk_mcast_ds_list {
  md_mcast_addr : dps_mcast_addr_t; md_num_of_rec : Z;
  md_mcast_recvr_list : list dps_pkd_tunnel_list_t }.

(** The union in [dps_client_data_t], by the member in use. *)
Inductive dps_client_body :=
| Body_none
| Body_endpoint_loc_req (x : dps_endpoint_loc_req_t)
| Body_endpoint_loc_reply (x : dps_endpoint_loc_reply_t)
| Body_policy_req (x : dps_policy_req_t)
| Body_policy_reply (x : dps_policy_reply_t)
| Body_endpoint_update (x : dps_endpoint_update_t)
| Body_endpoint_update_reply (x : dps_endpoint_update_reply_t)
| Body_internal_gw_list (x : dps_internal_gw_t)
| Body_bulk_vnid_policy (x : dps_bulk_vnid_policy_t)
| Body_gen_msg_req (x : dps_gen_msg_req_t)
| Body_dove_switch_list (x : dps_pkd_tunnel_list_t)
| Body_vm_migration_event (x : dps_vm_migration_event_t)
| Body_mcast_sender (x : dps_mcast_sender_t)
| Body_mcast_receiver (x : dps_mcast_receiver_t)
| Body_mcast_receiver_ds_list (x : dps_mcast_receiver_ds_list_t)
| Body_tunnel_info (x : dps_tunnel_list_t)
| Body_tunnel_reg_dereg (x : dps_tunnel_reg_dereg_t)
| Body_address_resolve (x : dps_endpoint_loc_req_t)
| Body_vm_invalidate_msg (x : dps_epri_t).

(** [context] is an opaque pointer of the client; [0] is [NULL]. *)
Record dps_client_data_t := mk_client_data {
  cd_context : Z; cd_hdr : dps_client_hdr_t; cd_body : dps_client_body }.

(** ** The members of the union

    A handler works on one member; a body held under another member is outside
    the model and reads as a [Fault]. *)
Definition as_endpoint_loc_reply (b : dps_client_body) : out dps_endpoint_loc_reply_t :=
  match b with Body_endpoint_loc_reply x => Done x | _ => Fault end.
Definition as_policy_req (b : dps_client_body) : out dps_policy_req_t :=
  match b with Body_policy_req x => Done x | _ => Fault end.
Definition as_policy_reply (b : dps_client_body) : out dps_policy_reply_t :=
  match b with Body_policy_reply x => Done x | _ => Fault end.
Definition as_endpoint_update (b : dps_client_body) : out dps_endpoint_update_t :=
  match b with Body_endpoint_update x => Done x | _ => Fault end.
Definition as_endpoint_update_reply (b : dps_client_body) : out dps_endpoint_update_reply_t :=
  match b with Body_endpoint_update_reply x => Done x | _ => Fault end.
Definition as_internal_gw_list (b : dps_client_body) : out dps_internal_gw_t :=
  match b with Body_internal_gw_list x => Done x | _ => Fault end.
Definition as_bulk_vnid_policy (b : dps_client_body) : out dps_bulk_vnid_policy_t :=
  match b with Body_bulk_vnid_policy x => Done x | _ => Fault end.
Definition as_gen_msg_req (b : dps_client_body) : out dps_gen_msg_req_t :=
  match b with Body_gen_msg_req x => Done x | _ => Fault end.
Definition as_dove_switch_list (b : dps_client_body) : out dps_pkd_tunnel_list_t :=
  match b with Body_dove_switch_list x => Done x | _ => Fault end.
Definition as_vm_migration_event (b : dps_client_body) : out dps_vm_migration_event_t :=
  match b with Body_vm_migration_event x => Done x | _ => Fault end.
Definition as_mcast_sender (b : dps_client_body) : out dps_mcast_sender_t :=
  match b with Body_mcast_sender x => Done x | _ => Fault end.
Definition as_mcast_receiver (b : dps_client_body) : out dps_mcast_receiver_t :=
  match b with Body_mcast_receiver x => Done x | _ => Fault end.
Definition as_mcast_receiver_ds_list (b : dps_client_body) : out dps_mcast_receiver_ds_list_t :=
  match b with Body_mcast_receiver_ds_list x => Done x | _ => Fault end.
Definition as_tunnel_info (b : dps_client_body) : out dps_tunnel_list_t :=
  match b with Body_tunnel_info x => Done x | _ => Fault end.
Definition as_tunnel_reg_dereg (b : dps_client_body) : out dps_tunnel_reg_dereg_t :=
  match b with Body_tunnel_reg_dereg x => Done x | _ => Fault end.
Definition as_vm_invalidate_msg (b : dps_client_body) : out dps_epri_t :=
  match b with Body_vm_invalidate_msg x => Done x | _ => Fault end.
(** [endpoint_loc_req] and [address_resolve] are the same structure. *)
Definition as_endpoint_loc_req (b : dps_client_body) : out dps_endpoint_loc_req_t :=
  match b with
  | Body_endpoint_loc_req x | Body_address_resolve x => Done x
  | _ => Fault
  end.
