(* ===== verification/TlvSet.v ===== *)
(** * TLV construction: the [dps_set_*] functions of [dps_pkt_process.c]

    Each definition follows its C function statement by statement: [buff] is
    the buffer with the offset of the pointer, and the result is the buffer
    after the stores with the number of bytes the function returns. *)
From S2P Require Export Codec DpsTypes.

(** ** Integers in network order *)
Definition dps_get_int32 (buff : buf) (off : nat) : out Z :=
  let* b0 := load8 buff off in
  let* b1 := load8 buff (off + 1) in
  let* b2 := load8 buff (off + 2) in
  let* b3 := load8 buff (off + 3) in
  Done (Z.lor (Z.lor (Z.lor (Z.shiftl b0 24) (Z.shiftl b1 16)) (Z.shiftl b2 8)) b3).

Definition dps_set_int32 (buff : buf) (off : nat) (val : Z) : out buf :=
  let* b := store8 buff off (Z.land (Z.shiftr val 24) 255) in
  let* b := store8 b (off + 1) (Z.land (Z.shiftr val 16) 255) in
  let* b := store8 b (off + 2) (Z.land (Z.shiftr val 8) 255) in
  store8 b (off + 3) (Z.land val 255).

Definition dps_get_int16 (buff : buf) (off : nat) : out Z :=
  let* b0 := load8 buff off in
  let* b1 := load8 buff (off + 1) in
  Done (Z.lor (Z.shiftl b0 8) b1).

Definition dps_set_int16 (buff : buf) (off : nat) (val : Z) : out buf :=
  let* b := store8 buff off (Z.land (Z.shiftr val 8) 255) in
  store8 b (off + 1) (Z.land val 255).

(** ** Headers *)
Definition dps_set_tlv_hdr (buff : buf) (off : nat) (ver data_type : Z) (len : nat)
  : out buf :=
  let* b := store8 buff off ver in
  let* b := store8 b (off + 1) data_type in
  store16 b (off + 2) (Z.of_nat len).

(** ** Addresses and identifiers *)
Definition dps_set_ip4_tlv (buff : buf) (off : nat) (ip4 : Z) : out (buf * nat) :=
  let* b := dps_set_tlv_hdr buff off 4 IP_ADDR_TLV (DPS_IP4_TLV_LEN - DPS_TLV_HDR_LEN) in
  let* b := store32 b (off + DPS_TLV_HDR_LEN) ip4 in
  Done (b, DPS_IP4_TLV_LEN).

Definition dps_set_ip6_tlv (buff : buf) (off : nat) (ip6 : ip_union) : out (buf * nat) :=
  let* b := dps_set_tlv_hdr buff off 6 IP_ADDR_TLV (DPS_IP6_TLV_LEN - DPS_TLV_HDR_LEN) in
  let* b := memcpy b (off + DPS_TLV_HDR_LEN) ip6 DPS_IP6_ADDR_LEN in
  Done (b, DPS_IP6_TLV_LEN).

Definition dps_set_vmac_tlv (buff : buf) (off : nat) (mac : list Z) : out (buf * nat) :=
  let* b := dps_set_tlv_hdr buff off 1 VMAC_TLV (DPS_VMAC_TLV_LEN - DPS_TLV_HDR_LEN) in
  let* b := memcpy b (off + DPS_TLV_HDR_LEN) mac DPS_MAC_ADDR_LEN in
  Done (b, DPS_VMAC_TLV_LEN).

Definition dps_set_ip_tlv (buff : buf) (off : nat) (ip : ip_addr_t) : out (buf * nat) :=
  let* (b, len) :=
    if ((ia_family ip =? AF_INET) || (ia_family ip =? 0))%Z
    then dps_set_ip4_tlv buff off (ia_ip4 ip) else Done (buff, 0) in
  if (ia_family ip =? AF_INET6)%Z
  then dps_set_ip6_tlv b off (ia_ip ip) else Done (b, len).

(** [client_euid] points at the [vnid] member; the MAC address is the six bytes
    that follow it in every structure the function is called on. *)
Definition dps_set_euid_tlv (buff : buf) (off : nat) (vnid : Z) (mac : list Z)
  : out (buf * nat) :=
  let* b := dps_set_tlv_hdr buff off 1 EUID_TLV (DPS_EUID_TLV_LEN - DPS_TLV_HDR_LEN) in
  let* b := store32 b (off + 4) vnid in
  let* b := memcpy b (off + 8) mac DPS_MAC_ADDR_LEN in
  Done (b, DPS_EUID_TLV_LEN).

(** The transport type (offset 4) is never stored. *)
Definition dps_set_svcloc_tlv (buff : buf) (off : nat) (phy_loc : ip_addr_t)
  : out (buf * nat) :=
  if ((ia_family phy_loc =? AF_INET) || (ia_family phy_loc =? 0))%Z then
    let* b := dps_set_tlv_hdr buff off 4 SERVICE_LOC_TLV
                (DPS_SVCLOC4_TLV_LEN - DPS_TLV_HDR_LEN) in
    let* b := store32 b (off + 8) (ia_ip4 phy_loc) in
    let* b := store16 b (off + 6) (ia_port phy_loc) in
    Done (b, DPS_SVCLOC4_TLV_LEN)
  else
    let* b := dps_set_tlv_hdr buff off 6 SERVICE_LOC_TLV
                (DPS_SVCLOC6_TLV_LEN - DPS_TLV_HDR_LEN) in
    let* b := memcpy b (off + 8) (ia_ip phy_loc) DPS_IP6_ADDR_LEN in
    let* b := store16 b (off + 6) (ia_port phy_loc) in
    Done (b, DPS_SVCLOC6_TLV_LEN).

(** ** Tunnel lists *)
Definition dps_set_ipv4_tunnel_info (buff : buf) (off : nat) (t : dps_tunnel_endpoint_t)
  : out (buf * nat) :=
  let* b := store16 buff off 4 in
  let off := off + SZ_OF_INT16 in
  let* b := store16 b off (te_port t) in
  let off := off + SZ_OF_INT16 in
  let* b := store16 b off (te_tunnel_type t) in
  let off := off + SZ_OF_INT16 in
  let* b := store16 b off (te_flags t) in
  let off := off + SZ_OF_INT16 in
  let* b := store32 b off (te_vnid t) in
  let off := off + DPS_VNID_LEN in
  let* b := store32 b off (te_ip4 t) in
  Done (b, DPS_IP4_TUNNEL_INFO_LEN).

Definition dps_set_ipv6_tunnel_info (buff : buf) (off : nat) (t : dps_tunnel_endpoint_t)
  : out (buf * nat) :=
  let* b := store16 buff off 6 in
  let off := off + SZ_OF_INT16 in
  let* b := store16 b off (te_port t) in
  let off := off + SZ_OF_INT16 in
  let* b := store16 b off (te_tunnel_type t) in
  let off := off + SZ_OF_INT16 in
  let* b := store16 b off (te_flags t) in
  let off := off + SZ_OF_INT16 in
  let* b := store32 b off (te_vnid t) in
  let off := off + DPS_VNID_LEN in
  let* b := memcpy b off (te_ip t) DPS_IP6_ADDR_LEN in
  Done (b, DPS_IP6_TUNNEL_INFO_LEN).

Definition set_tunnel (tunnel_list : list dps_tunnel_endpoint_t) (i : nat) : writer :=
  fun buff off =>
    let* t := arr_read tunnel_list i in
    if (te_family t =? AF_INET)%Z then dps_set_ipv4_tunnel_info buff off t
    else if (te_family t =? AF_INET6)%Z then dps_set_ipv6_tunnel_info buff off t
    else Done (buff, 0).

Definition dps_set_tunnel_list_tlv (buff : buf) (off : nat)
  (client_buff : list dps_tunnel_endpoint_t) (num_of_tunnels : Z) : out (buf * nat) :=
  if (num_of_tunnels =? 0)%Z then Done (buff, 0)
  else
    let* (b, n) := for_write (set_tunnel client_buff) 0 (Z.to_nat num_of_tunnels)
                     buff (off + DPS_TLV_HDR_LEN) in
    let len := DPS_TLV_HDR_LEN + n in
    let* b := dps_set_tlv_hdr b off 1 TUNNEL_LIST_TLV (len - DPS_TLV_HDR_LEN) in
    Done (b, len).

(** ** Packed address lists *)
Definition dps_set_ipv4_list_tlv (buff : buf) (off : nat) (client_buff : list Z)
  (num_v4_addr : Z) : out (buf * nat) :=
  let* b := dps_set_tlv_hdr buff off 1 IPV4_ADDR_LIST_TLV
              (Z.to_nat num_v4_addr * DPS_IP4_ADDR_LEN) in
  let* (b, n) := for_write (fun i b off =>
                     let* w := arr_read client_buff i in
                     let* b := store32 b off w in Done (b, DPS_IP4_ADDR_LEN))
                   0 (Z.to_nat num_v4_addr) b (off + DPS_TLV_HDR_LEN) in
  Done (b, DPS_TLV_HDR_LEN + n).

(** [client_buff] is the byte view of a word array. *)
Definition dps_set_ipv6_list_tlv (buff : buf) (off : nat) (client_buff : list Z)
  (num_v6_addr : Z) : out (buf * nat) :=
  let* b := dps_set_tlv_hdr buff off 1 IPV6_ADDR_LIST_TLV
              (Z.to_nat num_v6_addr * DPS_IP6_ADDR_LEN) in
  let* (b, n) := for_write (fun i b off =>
                     let* b := memcpy b off (drop (i * DPS_IP6_ADDR_LEN) client_buff)
                                 DPS_IP6_ADDR_LEN in
                     Done (b, DPS_IP6_ADDR_LEN))
                   0 (Z.to_nat num_v6_addr) b (off + DPS_TLV_HDR_LEN) in
  Done (b, DPS_TLV_HDR_LEN + n).

(** The bytes of a [uint32_t] array in host memory. *)
Definition as_bytes (ws : list Z) : list Z := concat (le32 <$> ws).

Definition dps_set_ip4_info_tlv (buff : buf) (off : nat) (c : dps_ip4_info_list_t)
  : out (buf * nat) :=
  let* b := dps_set_tlv_hdr buff off 1 IP4_INFO_LIST_TLV
              (Z.to_nat (i4l_num_of_ips c) * 8) in
  let* (b, n) := for_write (fun i b off =>
                     let* x := arr_read (i4l_ip_info c) i in
                     let* b := store32 b off (i4_ip x) in
                     let* b := store16 b (off + 4) (i4_flags x) in
                     let* b := store16 b (off + 6) (i4_reserved x) in
                     Done (b, 8))
                   0 (Z.to_nat (i4l_num_of_ips c)) b (off + DPS_TLV_HDR_LEN) in
  Done (b, DPS_TLV_HDR_LEN + n).

Definition dps_set_ip6_info_tlv (buff : buf) (off : nat) (c : dps_ip6_info_list_t)
  : out (buf * nat) :=
  let* b := dps_set_tlv_hdr buff off 1 IP6_INFO_LIST_TLV
              (Z.to_nat (i6l_num_of_ips c) * 20) in
  let* (b, n) := for_write (fun i b off =>
                     let* x := arr_read (i6l_ip_info c) i in
                     let* b := memcpy b off (i6_ip x) DPS_IP6_ADDR_LEN in
                     let* b := store16 b (off + 16) (i6_flags x) in
                     let* b := store16 b (off + 18) (i6_reserved x) in
                     Done (b, 20))
                   0 (Z.to_nat (i6l_num_of_ips c)) b (off + DPS_TLV_HDR_LEN) in
  Done (b, DPS_TLV_HDR_LEN + n).

(** ** Endpoints *)
Definition dps_set_endpoint_info_tlv (buff : buf) (off : nat) (c : dps_endpoint_info_t)
  : out (buf * nat) :=
  let* b := store32 buff (off + 4) (ei_vnid c) in
  let* b := memcpy b (off + 8) (ei_mac c) DPS_MAC_ADDR_LEN in
  let k := DPS_TLV_HDR_LEN + DPS_VNID_LEN + (DPS_MAC_ADDR_LEN + 2) in
  if (ia_family (ei_vm_ip_addr c) =? AF_INET6)%Z then
    let* b := dps_set_tlv_hdr b off 1 ENDPOINT_INFO_TLV
                (DPS_ENDPOINT6_INFO_TLV_LEN - DPS_TLV_HDR_LEN) in
    let* (b, n) := dps_set_ip6_tlv b (off + k) (ia_ip (ei_vm_ip_addr c)) in
    Done (b, k + n)
  else
    let* b := dps_set_tlv_hdr b off 1 ENDPOINT_INFO_TLV
                (DPS_ENDPOINT4_INFO_TLV_LEN - DPS_TLV_HDR_LEN) in
    let* (b, n) := dps_set_ip4_tlv b (off + k) (ia_ip4 (ei_vm_ip_addr c)) in
    Done (b, k + n).

(** the [if (AF_INET || 0) ... else if (AF_INET6) ...] of the location TLVs *)
Definition set_vm_ip (buff : buf) (off : nat) (ip : ip_addr_t) : out (buf * nat) :=
  if ((ia_family ip =? AF_INET) || (ia_family ip =? 0))%Z
  then dps_set_ip4_tlv buff off (ia_ip4 ip)
  else if (ia_family ip =? AF_INET6)%Z then dps_set_ip6_tlv buff off (ia_ip ip)
  else Done (buff, 0).

Definition dps_set_endpoint_loc_reply_tlv (buff : buf) (off : nat)
  (c : dps_endpoint_loc_reply_t) : out (buf * nat) :=
  let n := DPS_TLV_HDR_LEN in
  let* b := store32 buff (off + n) (elr_version c) in
  let n := n + DPS_DATA_VER_LEN in
  let* (b, k) := dps_set_euid_tlv b (off + n) (elr_vnid c) (elr_mac c) in
  let n := n + k in
  let* (b, k) := set_vm_ip b (off + n) (elr_vm_ip_addr c) in
  let n := n + k in
  let* (b, k) := dps_set_tunnel_list_tlv b (off + n)
                   (tl_tunnel_list (elr_tunnel_info c))
                   (tl_num_of_tunnels (elr_tunnel_info c)) in
  let len := n + k in
  let* b := dps_set_tlv_hdr b off 1 ENDPOINT_LOC_TLV (len - DPS_TLV_HDR_LEN) in
  Done (b, len).

Definition dps_set_endpoint_update_tlv (buff : buf) (off : nat)
  (c : dps_endpoint_update_t) (buff_len : nat) : out (buf * nat) :=
  let n := DPS_TLV_HDR_LEN in
  let* b := store32 buff (off + n) (eu_version c) in
  let n := n + DPS_DATA_VER_LEN in
  let* (b, k) := dps_set_euid_tlv b (off + n) (eu_vnid c) (eu_mac c) in
  let n := n + k in
  let* (b, k) := set_vm_ip b (off + n) (eu_vm_ip_addr c) in
  let n := n + k in
  let* (b, k) := dps_set_tunnel_list_tlv b (off + n)
                   (tl_tunnel_list (eu_tunnel_info c))
                   (tl_num_of_tunnels (eu_tunnel_info c)) in
  let len := n + k in
  let* b := dps_set_tlv_hdr b off 1 ENDPOINT_LOC_TLV (len - DPS_TLV_HDR_LEN) in
  Done (b, len).

(** The loop of [dps_set_endpoint_update_reply_tlv] that sorts the addresses
    into [vip4_buff] and [vip6_buff], arrays of [MAX_VIP_ADDR] entries. *)
Fixpoint split_vips (vips : list ip_addr_t) (i n : nat) (vip4 : list Z)
  (vip6 : list ip_union) : out (list Z * list ip_union) :=
  match n with
  | 0 => Done (vip4, vip6)
  | S n' =>
      let* a := arr_read vips i in
      if (ia_family a =? AF_INET)%Z then
        let* vip4 := arr_write MAX_VIP_ADDR vip4 (length vip4) (ia_ip4 a) in
        split_vips vips (S i) n' vip4 vip6
      else if (ia_family a =? AF_INET6)%Z then
        let* vip6 := arr_write MAX_VIP_ADDR vip6 (length vip6) (ia_ip a) in
        split_vips vips (S i) n' vip4 vip6
      else split_vips vips (S i) n' vip4 vip6
  end.

Definition dps_set_endpoint_update_reply_tlv (buff : buf) (off : nat)
  (c : dps_endpoint_update_reply_t) (len : nat) : out (buf * nat) :=
  let n := DPS_TLV_HDR_LEN in
  let* b := store32 buff (off + n) (eur_version c) in
  let n := n + DPS_DATA_VER_LEN in
  let* (b, k) := dps_set_euid_tlv b (off + n) (eur_vnid c) (eur_mac c) in
  let n := n + k in
  let* (vip4, vip6) := split_vips (eur_vm_ip_addr c) 0
                         (Z.to_nat (eur_num_of_vip c)) [] [] in
  let* (b, k) := if decide (length vip4 = 0) then Done (b, 0)
                 else dps_set_ipv4_list_tlv b (off + n) vip4 (Z.of_nat (length vip4)) in
  let n := n + k in
  let* (b, k) := if decide (length vip6 = 0) then Done (b, 0)
                 else dps_set_ipv6_list_tlv b (off + n) (concat vip6)
                        (Z.of_nat (length vip6)) in
  let n := n + k in
  let* (b, k) := dps_set_tunnel_list_tlv b (off + n)
                   (tl_tunnel_list (eur_tunnel_info c))
                   (tl_num_of_tunnels (eur_tunnel_info c)) in
  let buff_len := n + k in
  let* b := dps_set_tlv_hdr b off 1 ENDPOINT_UPDATE_REPLY_TLV
              (buff_len - DPS_TLV_HDR_LEN) in
  Done (b, buff_len).

(** ** Policies *)
Definition dps_set_policy_id_tlv (buff : buf) (off : nat) (id version ttl : Z)
  : out (buf * nat) :=
  let* b := dps_set_tlv_hdr buff off 1 POLICY_ID_TLV
              (DPS_POLICY_ID_TLV_LEN - DPS_TLV_HDR_LEN) in
  let* b := store32 b (off + 4) id in
  let* b := store32 b (off + 8) version in
  let* b := store32 b (off + 12) ttl in
  Done (b, DPS_POLICY_ID_TLV_LEN).

(** A [uint16_t] counter used as an index. *)
Definition idx16 (n : nat) : nat := Z.to_nat (u16 (Z.of_nat n)).

(** One rule: [src_dst_vnid[j0 + i]] *)
Definition set_rule (rules : list src_dst_vnid_t) (j0 i : nat) : writer :=
  fun b off =>
    let* r := arr_read rules (idx16 (j0 + i)) in
    let* b := store32 b off (sd_svnid r) in
    let* b := store32 b (off + SZ_OF_INT32) (sd_dvnid r) in
    Done (b, SZ_OF_INT32 + SZ_OF_INT32).

(** The [if (num) { action; count; for ... }] block for one kind of rule. *)
Definition set_rule_block (action num : Z) (rules : list src_dst_vnid_t) (j0 : nat)
  : writer :=
  fun b off =>
    if (num =? 0)%Z then Done (b, 0)
    else
      let* b := store16 b off action in
      let* b := store16 b (off + SZ_OF_INT16) num in
      let* (b, n) := for_write (set_rule rules j0) 0 (Z.to_nat num) b (off + 4) in
      Done (b, 4 + n).

(** [len] is a [uint16_t]: it is what the function returns and what the
    header gets. *)
Definition dps_set_policy_type_tlv (buff : buf) (off : nat) (c : dps_policy_t)
  : out (buf * nat) :=
  let* b := store8 buff (off + 4) (pl_version c) in
  let* b := store8 b (off + 5) (pl_policy_type c) in
  let* (b, len) :=
    if (pl_policy_type c =? DPS_POLICY_TYPE_CONNECTIVITY)%Z then
      let* b := store16 b (off + 6) (pl_num_permit_rules c + pl_num_deny_rules c)%Z in
      let* (b, n) := set_rule_block 1 (pl_num_permit_rules c) (pl_src_dst_vnid c) 0
                       b (off + 8) in
      let* (b, m) := set_rule_block 0 (pl_num_deny_rules c) (pl_src_dst_vnid c)
                       (Z.to_nat (pl_num_permit_rules c)) b (off + 8 + n) in
      Done (b, idx16 (8 + n + m))
    else Done (b, 8) in
  let* b := dps_set_tlv_hdr b off 1 POLICY_TYPE_TLV
              (Z.to_nat (u16 (Z.of_nat len - Z.of_nat DPS_TLV_HDR_LEN))) in
  Done (b, len).

Definition dps_set_policy_tlv (buff : buf) (off : nat) (c : dps_policy_info_t)
  : out (buf * nat) :=
  let n := DPS_TLV_HDR_LEN in
  let* (b, k) := dps_set_policy_id_tlv buff (off + n) (pi_policy_id c)
                   (pi_version c) (pi_ttl c) in
  let n := n + k in
  let* (b, k) := dps_set_policy_type_tlv b (off + n) (pi_dps_policy c) in
  let len := n + k in
  let* b := dps_set_tlv_hdr b off 1 POLICY_TLV (len - DPS_TLV_HDR_LEN) in
  Done (b, len).

Definition dps_set_policy_reply_tlv (buff : buf) (off : nat) (c : dps_policy_reply_t)
  (hdr : dps_client_hdr_t) (len : nat) : out (buf * nat) :=
  let* (b, n) := dps_set_endpoint_loc_reply_tlv buff off (pr_dst_endpoint_loc_reply c) in
  if (ch_resp_status hdr =? DPS_NO_ERR)%Z then
    let* (b, k) := dps_set_policy_tlv b (off + n) (pr_dps_policy_info c) in
    Done (b, n + k)
  else Done (b, n).

(** [i] and [j] are [uint32_t]; a size mismatch with [len] is only logged. *)
Definition set_bulk_rule (rules : list src_dst_vnid_t) (j0 i : nat) : writer :=
  fun b off =>
    let* r := arr_read rules (j0 + i) in
    let* b := store32 b off (sd_svnid r) in
    let* b := store32 b (off + SZ_OF_INT32) (sd_dvnid r) in
    Done (b, SZ_OF_INT32 + SZ_OF_INT32).

Definition dps_set_bulk_policy_xfer (buff : buf) (off : nat)
  (c : dps_bulk_vnid_policy_t) (len : nat) : out (buf * nat) :=
  let np := Z.to_nat (bp_num_permit_rules c) in
  let nd := Z.to_nat (bp_num_deny_rules c) in
  let* b := store16 buff off (bp_num_permit_rules c) in
  let* b := store16 b (off + SZ_OF_INT16) (bp_num_deny_rules c) in
  let n := SZ_OF_INT16 + SZ_OF_INT16 in
  let* (b, k) := for_write (set_bulk_rule (bp_src_dst_vnid c) 0) 0 np b (off + n) in
  let n := n + k in
  let* (b, k) := for_write (set_bulk_rule (bp_src_dst_vnid c) np) 0 nd b (off + n) in
  Done (b, n + k).

(** ** Multicast *)
Definition mcast_tlv_type (mcast_addr_type : Z) : Z :=
  if (mcast_addr_type =? MCAST_ADDR_V6)%Z then MCAST_ADDR_V6_TLV
  else if (mcast_addr_type =? MCAST_ADDR_MAC)%Z then MCAST_ADDR_MAC_TLV
  else if (mcast_addr_type =? MCAST_ADDR_V4)%Z then MCAST_ADDR_V4_TLV
  else MCAST_ADDR_V4_ICB_RANGE_TLV.

Definition dps_set_mcast_addr_tlv (buff : buf) (off : nat) (c : dps_mcast_addr_t)
  : out (buf * nat) :=
  let n := DPS_TLV_HDR_LEN in
  let* (b, k) := dps_set_vmac_tlv buff (off + n) (ma_mcast_mac c) in
  let n := n + k in
  let tlv_type := mcast_tlv_type (ma_mcast_addr_type c) in
  let* (b, k) := if (ma_mcast_addr_type c =? MCAST_ADDR_V6)%Z
                 then dps_set_ip6_tlv b (off + n) (ma_ip c)
                 else dps_set_ip4_tlv b (off + n) (ma_mcast_ip4 c) in
  let len := n + k in
  let* b := dps_set_tlv_hdr b off 1 tlv_type (len - DPS_TLV_HDR_LEN) in
  Done (b, len).

Definition dps_set_mcast_grp_rec_tlv (buff : buf) (off : nat)
  (c : dps_mcast_group_record_t) : out (buf * nat) :=
  let n := DPS_TLV_HDR_LEN in
  let* (b, k) := dps_set_mcast_addr_tlv buff (off + n) (mg_mcast_addr c) in
  let n := n + k in
  let* (b, k) :=
    if (mg_num_of_srcs c =? 0)%Z then Done (b, 0)
    else if (mg_family c =? AF_INET)%Z
    then dps_set_ipv4_list_tlv b (off + n) (mg_src_addr c) (mg_num_of_srcs c)
    else if (mg_family c =? AF_INET6)%Z
    then dps_set_ipv6_list_tlv b (off + n) (as_bytes (mg_src_addr c)) (mg_num_of_srcs c)
    else Done (b, 0) in
  let len := n + k in
  let* b := dps_set_tlv_hdr b off 1 MCAST_GRP_REC_TLV (len - DPS_TLV_HDR_LEN) in
  Done (b, len).

(** The packed list of [dps_pkd_tunnel_list_t] and [dps_internal_gw_t]: the
    IPv4 words, then the IPv6 quadruples. *)
Definition set_packed_lists (buff : buf) (off : nat) (tunnels : list Z)
  (num_v4 num_v6 : Z) : out (buf * nat) :=
  let* (b, k1) := if (num_v4 =? 0)%Z then Done (buff, 0)
                  else dps_set_ipv4_list_tlv buff off tunnels num_v4 in
  let tunnels := if (num_v4 =? 0)%Z then tunnels else drop (Z.to_nat num_v4) tunnels in
  let* (b, k2) := if (num_v6 =? 0)%Z then Done (b, 0)
                  else dps_set_ipv6_list_tlv b (off + k1) (as_bytes tunnels) num_v6 in
  Done (b, k1 + k2).

Definition dps_set_vnid_tunnel_list_tlv (buff : buf) (off : nat)
  (c : dps_pkd_tunnel_list_t) : out (buf * nat) :=
  let n := DPS_TLV_HDR_LEN in
  let* b := store32 buff (off + n) (pk_vnid c) in
  let n := n + DPS_VNID_LEN in
  let* (b, k) := set_packed_lists b (off + n) (pk_tunnel_list c)
                   (pk_num_v4_tunnels c) (pk_num_v6_tunnels c) in
  let len := n + k in
  let* b := dps_set_tlv_hdr b off 1 VNID_TUNNEL_LIST_TLV (len - DPS_TLV_HDR_LEN) in
  Done (b, len).

(** ** Endpoint reachability *)
Definition dps_set_epri_tlv (buff : buf) (off : nat) (c : dps_epri_t)
  : out (buf * nat) :=
  let n := DPS_TLV_HDR_LEN in
  let* (b, k) := dps_set_euid_tlv buff (off + n) (ep_vnid c) (ep_mac c) in
  let n := n + k in
  let* (b, k) := dps_set_ip4_info_tlv b (off + n) (ep_vm_ip4_addr c) in
  let n := n + k in
  let* (b, k) := dps_set_ip6_info_tlv b (off + n) (ep_vm_ip6_addr c) in
  let n := n + k in
  let* (b, k) := dps_set_tunnel_list_tlv b (off + n)
                   (tl_tunnel_list (ep_tunnel_info c))
                   (tl_num_of_tunnels (ep_tunnel_info c)) in
  let len := n + k in
  let* b := dps_set_tlv_hdr b off 1 EPRI_TLV (len - DPS_TLV_HDR_LEN) in
  Done (b, len).
