(* ===== verification/TlvGet.v ===== *)
(** * TLV parsing: the [dps_get_*] functions of [dps_pkt_process.c]

    Each function takes the buffer with the offset of the pointer, the client
    structure as it stands, and gives the structure as it is after the call and
    the number of bytes the function returns.  The loops over a TLV take their
    fuel as an argument; [cap] arguments are the number of elements the
    destination array has room for. *)
From S2P Require Export Codec DpsTypes.

(** ** Headers *)
Definition dps_get_pkt_hdr (buff : buf) (off : nat) (client_hdr : dps_client_hdr_t)
  : out (dps_client_hdr_t * Z) :=
  let* type := load8 buff (off + 1) in
  let* len := load16 buff (off + 2) in
  let* query_id := load32 buff (off + 4) in
  let* vnid := load32 buff (off + 8) in
  let* sub_type := load16 buff (off + 12) in
  let* resp_status := load16 buff (off + 14) in
  let* client_id := load8 buff (off + 16) in
  let* transaction_type := load8 buff (off + 17) in
  Done (mk_client_hdr type (u8 sub_type) client_id transaction_type vnid resp_status
          query_id (ch_reply_addr client_hdr),
        u32 (len * 4 - Z.of_nat DPS_PKT_HDR_LEN + Z.of_nat DPS_PKT_HDR_TLV_LEN)).

Record tlv_hdr := mk_tlv_hdr { th_ver : Z; th_type : Z; th_len : Z }.

(** [dps_get_tlv_hdr] always returns [DPS_TLV_HDR_LEN]. *)
Definition dps_get_tlv_hdr (buff : buf) (off : nat) : out tlv_hdr :=
  let* ver := load8 buff off in
  let* type := load8 buff (off + 1) in
  let* len := load16 buff (off + 2) in
  Done (mk_tlv_hdr ver type len).

(** ** Addresses and identifiers *)
Definition dps_get_vmac_tlv (buff : buf) (off : nat) : out (list Z * nat) :=
  let* mac := loadn buff (off + 4) DPS_MAC_ADDR_LEN in
  Done (mac, DPS_VMAC_TLV_LEN).

Definition dps_get_euid_tlv (buff : buf) (off : nat) : out (Z * list Z * nat) :=
  let* vnid := load32 buff (off + 4) in
  let* mac := loadn buff (off + 8) DPS_MAC_ADDR_LEN in
  Done (vnid, mac, DPS_EUID_TLV_LEN).

Definition dps_get_policy_id_tlv (buff : buf) (off : nat) (c : dps_policy_info_t)
  : out (dps_policy_info_t * nat) :=
  let* id := load32 buff (off + 4) in
  let* version := load32 buff (off + 8) in
  let* ttl := load32 buff (off + 12) in
  Done (mk_policy_info id version ttl (pi_dps_policy c), DPS_POLICY_ID_TLV_LEN).

Definition dps_get_ip4_tlv (buff : buf) (off : nat) (ip : ip_union)
  : out (ip_union * nat) :=
  let* v := load32 buff (off + 4) in
  Done (set_ip4 ip v, DPS_IP4_TLV_LEN).

Definition dps_get_ip6_tlv (buff : buf) (off : nat) : out (ip_union * nat) :=
  let* v := loadn buff (off + 4) DPS_IP6_ADDR_LEN in
  Done (v, DPS_IP6_TLV_LEN).

Definition with_family_ip (a : ip_addr_t) (family : Z) (ip : ip_union) : ip_addr_t :=
  mk_ip_addr family (ia_port a) (ia_xport_type a) (ia_port_http a) ip.

(** Any version but 4 is taken to be IPv6. *)
Definition dps_get_ip_tlv (buff : buf) (off : nat) (client_ip : ip_addr_t)
  : out (ip_addr_t * nat) :=
  let* ver := load8 buff off in
  if (ver =? 4)%Z then
    let* (ip, len) := dps_get_ip4_tlv buff off (ia_ip client_ip) in
    Done (with_family_ip client_ip AF_INET ip, len)
  else
    let* (ip, len) := dps_get_ip6_tlv buff off in
    Done (with_family_ip client_ip AF_INET6 ip, len).

Definition dps_get_svcloc_tlv (buff : buf) (off : nat) (svc_loc : ip_addr_t)
  : out (ip_addr_t * nat) :=
  let* ver := load8 buff off in
  let* xport_type := load16 buff (off + 4) in
  let* port := load16 buff (off + 6) in
  if (ver =? 4)%Z then
    let* ip := load32 buff (off + 8) in
    Done (mk_ip_addr AF_INET port xport_type (ia_port_http svc_loc)
            (set_ip4 (ia_ip svc_loc) ip), DPS_SVCLOC4_TLV_LEN)
  else
    let* ip6 := loadn buff (off + 8) DPS_IP6_ADDR_LEN in
    Done (mk_ip_addr AF_INET6 port xport_type (ia_port_http svc_loc) ip6,
          DPS_SVCLOC6_TLV_LEN).

(** ** Packed address lists

    The destination is an array of words with room for [cap]; [client_buff] is
    the index of the first word written. *)
Definition dps_get_ipv4_list_tlv (fuel : nat) (buff : buf) (off : nat) (cap : nat)
  (words : list Z) (client_buff : nat) : out (list Z * nat) :=
  let* hdr := dps_get_tlv_hdr buff off in
  let bufptr := off + DPS_TLV_HDR_LEN in
  let* (_, cur, (words, _)) :=
    while fuel (Z.of_nat bufptr + th_len hdr)
      (fun cur '(words, j) =>
         let* v := load32 buff cur in
         let* words := arr_write cap words j v in
         Done (Go, cur + DPS_IP4_ADDR_LEN, (words, S j)))
      bufptr (words, client_buff) in
  Done (words, cur - off).

(** [memcpy] of sixteen bytes into four words of host memory *)
Definition write_words16 (cap : nat) (words : list Z) (j : nat) (bs : list Z)
  : out (list Z) :=
  match bs with
  | [a0; a1; a2; a3; b0; b1; b2; b3; c0; c1; c2; c3; d0; d1; d2; d3] =>
      let* words := arr_write cap words j (of_le32 a0 a1 a2 a3) in
      let* words := arr_write cap words (j + 1) (of_le32 b0 b1 b2 b3) in
      let* words := arr_write cap words (j + 2) (of_le32 c0 c1 c2 c3) in
      arr_write cap words (j + 3) (of_le32 d0 d1 d2 d3)
  | _ => Fault
  end.

Definition dps_get_ipv6_list_tlv (fuel : nat) (buff : buf) (off : nat) (cap : nat)
  (words : list Z) (client_buff : nat) : out (list Z * nat) :=
  let* hdr := dps_get_tlv_hdr buff off in
  let bufptr := off + DPS_TLV_HDR_LEN in
  let* (_, cur, (words, _)) :=
    while fuel (Z.of_nat bufptr + th_len hdr)
      (fun cur '(words, j) =>
         let* bs := loadn buff cur DPS_IP6_ADDR_LEN in
         let* words := write_words16 cap words j bs in
         Done (Go, cur + DPS_IP6_ADDR_LEN, (words, j + 4)))
      bufptr (words, client_buff) in
  Done (words, cur - off).

(** The virtual address arrays of an endpoint update reply: [dst] is the index
    [*dst_buff] points at. *)
Definition dps_get_ipv4_list_to_ipaddr (fuel : nat) (buff : buf) (off : nat)
  (vips : list ip_addr_t) (dst : nat) (num_of_vip : Z) (max_vip : Z)
  : out (list ip_addr_t * nat * Z * nat) :=
  let* hdr := dps_get_tlv_hdr buff off in
  let bufptr := off + DPS_TLV_HDR_LEN in
  let end_ := (Z.of_nat bufptr + th_len hdr)%Z in
  let* (_, cur, (vips, dst, num)) :=
    while fuel end_
      (fun cur '(vips, dst, num) =>
         if (num <=? max_vip)%Z then
           let* v := load32 buff cur in
           let* a := arr_read vips dst in
           let* vips := arr_write MAX_VIP_ADDR vips dst
                          (with_family_ip a AF_INET (set_ip4 (ia_ip a) v)) in
           Done (Go, cur + DPS_IP4_ADDR_LEN, (vips, S dst, u32 (num + 1)))
         else Done (Exit, Z.to_nat end_, (vips, dst, num)))
      bufptr (vips, dst, num_of_vip) in
  Done (vips, dst, num, cur - off).

(** The [memcpy] is into the start of the structure, not into its [ip6]. *)
Definition overlay_ip_addr (a : ip_addr_t) (bs : list Z) : ip_addr_t :=
  match bs with
  | f0 :: f1 :: p0 :: p1 :: x0 :: x1 :: h0 :: h1 :: rest =>
      mk_ip_addr (f1 * 256 + f0) (p1 * 256 + p0) (x1 * 256 + x0) (h1 * 256 + h0)
        (rest ++ drop (length rest) (ia_ip a))
  | _ => a
  end.

Definition dps_get_ipv6_list_to_ipaddr (fuel : nat) (buff : buf) (off : nat)
  (vips : list ip_addr_t) (dst : nat) (num_of_vip : Z) (max_vip : Z)
  : out (list ip_addr_t * nat * Z * nat) :=
  let* hdr := dps_get_tlv_hdr buff off in
  let bufptr := off + DPS_TLV_HDR_LEN in
  let end_ := (Z.of_nat bufptr + th_len hdr)%Z in
  let* (_, cur, (vips, dst, num)) :=
    while fuel end_
      (fun cur '(vips, dst, num) =>
         if (num <=? max_vip)%Z then
           let* bs := loadn buff cur DPS_IP6_ADDR_LEN in
           let* a := arr_read vips dst in
           let a := overlay_ip_addr a bs in
           let* vips := arr_write MAX_VIP_ADDR vips dst
                          (with_family_ip a AF_INET6 (ia_ip a)) in
           Done (Go, cur + DPS_IP6_ADDR_LEN, (vips, S dst, u32 (num + 1)))
         else Done (Exit, Z.to_nat end_, (vips, dst, num)))
      bufptr (vips, dst, num_of_vip) in
  Done (vips, dst, num, cur - off).

(** ** Tunnel lists *)
Definition zero_tunnel : dps_tunnel_endpoint_t := mk_tunnel 0 0 0 0 0 zero_ip.

Definition dps_get_ipv4_tunnel_info (buff : buf) (off : nat) (ip : ip_union)
  : out (dps_tunnel_endpoint_t * nat) :=
  let off := off + SZ_OF_INT16 in
  let* port := load16 buff off in
  let off := off + SZ_OF_INT16 in
  let* tunnel_type := load16 buff off in
  let off := off + SZ_OF_INT16 in
  let* flags := load16 buff off in
  let off := off + SZ_OF_INT16 in
  let* vnid := load32 buff off in
  let off := off + DPS_VNID_LEN in
  let* ip4 := load32 buff off in
  Done (mk_tunnel AF_INET port vnid tunnel_type flags (set_ip4 ip ip4),
        DPS_IP4_TUNNEL_INFO_LEN).

Definition dps_get_ipv6_tunnel_info (buff : buf) (off : nat)
  : out (dps_tunnel_endpoint_t * nat) :=
  let off := off + SZ_OF_INT16 in
  let* port := load16 buff off in
  let off := off + SZ_OF_INT16 in
  let* tunnel_type := load16 buff off in
  let off := off + SZ_OF_INT16 in
  let* flags := load16 buff off in
  let off := off + SZ_OF_INT16 in
  let* vnid := load32 buff off in
  let off := off + DPS_VNID_LEN in
  let* ip6 := loadn buff off DPS_IP6_ADDR_LEN in
  Done (mk_tunnel AF_INET6 port vnid tunnel_type flags ip6, DPS_IP6_TUNNEL_INFO_LEN).

(** The union of an entry that has not been written is taken to be zero: an
    IPv4 entry leaves its other twelve bytes as they were. *)
Definition tunnel_ip_at (l : list dps_tunnel_endpoint_t) (i : nat) : ip_union :=
  match l !! i with Some t => te_ip t | None => zero_ip end.

Definition get_tunnel (buff : buf) (cap : nat) (cur : nat)
  (s : list dps_tunnel_endpoint_t * nat)
  : out (ctl * nat * (list dps_tunnel_endpoint_t * nat)) :=
  let '(l, i) := s in
  let* fam := load16 buff cur in
  if (fam =? 4)%Z then
    let* (t, n) := dps_get_ipv4_tunnel_info buff cur (tunnel_ip_at l i) in
    let* l := arr_write cap l i t in
    Done (Go, cur + n, (l, S i))
  else if (fam =? 6)%Z then
    let* (t, n) := dps_get_ipv6_tunnel_info buff cur in
    let* l := arr_write cap l i t in
    Done (Go, cur + n, (l, S i))
  else Done (Exit, cur, (l, i)).

(** [i] is a [uint16_t]: a TLV has at most 65535 bytes, so at most 4096 turns
    of the loop, and it does not wrap. *)
Definition dps_get_tunnel_list_tlv (fuel : nat) (buff : buf) (off : nat) (cap : nat)
  (client_buff : list dps_tunnel_endpoint_t)
  : out (dps_tunnel_list_t * nat) :=
  let* hdr := dps_get_tlv_hdr buff off in
  let bufptr := off + DPS_TLV_HDR_LEN in
  let* (c, cur, (l, i)) :=
    while fuel (Z.of_nat bufptr + th_len hdr) (get_tunnel buff cap)
      bufptr (client_buff, 0) in
  match c with
  | Go => Done (mk_tunnel_list (Z.of_nat i) l, cur - off)
  | Exit => Done (mk_tunnel_list (Z.of_nat i) l, Z.to_nat (th_len hdr) + 4)
  end.

(** ** Lists of addresses with flags: arrays of [MAX_VIP_ADDR] entries *)
Definition dps_get_ip4_info_list_tlv (fuel : nat) (buff : buf) (off : nat)
  (c : dps_ip4_info_list_t) : out (dps_ip4_info_list_t * nat) :=
  let* hdr := dps_get_tlv_hdr buff off in
  let buff_start := off + DPS_TLV_HDR_LEN in
  let* (_, cur, (l, i)) :=
    while fuel (Z.of_nat buff_start + th_len hdr)
      (fun cur '(l, i) =>
         let* ip := load32 buff cur in
         let* flags := load16 buff (cur + 4) in
         let* reserved := load16 buff (cur + 6) in
         let* l := arr_write MAX_VIP_ADDR l i (mk_ip4_info ip flags reserved) in
         Done (Go, cur + 8, (l, S i)))
      buff_start (i4l_ip_info c, 0) in
  Done (mk_ip4_info_list (Z.of_nat i) l, cur - off).

Definition dps_get_ip6_info_list_tlv (fuel : nat) (buff : buf) (off : nat)
  (c : dps_ip6_info_list_t) : out (dps_ip6_info_list_t * nat) :=
  let* hdr := dps_get_tlv_hdr buff off in
  let buff_start := off + DPS_TLV_HDR_LEN in
  let* (_, cur, (l, i)) :=
    while fuel (Z.of_nat buff_start + th_len hdr)
      (fun cur '(l, i) =>
         let* ip := loadn buff cur DPS_IP6_ADDR_LEN in
         let* flags := load16 buff (cur + 16) in
         let* reserved := load16 buff (cur + 18) in
         let* l := arr_write MAX_VIP_ADDR l i (mk_ip6_info ip flags reserved) in
         Done (Go, cur + 20, (l, S i)))
      buff_start (i6l_ip_info c, 0) in
  Done (mk_ip6_info_list (Z.of_nat i) l, cur - off).

(** ** Endpoint locations

    The [switch] over the sub-TLVs; [Exit] is the [goto error] on an unknown
    type. *)
Definition get_endpoint_loc_item (fuel : nat) (buff : buf) (cap : nat) (cur : nat)
  (c : dps_endpoint_loc_reply_t) : out (ctl * nat * dps_endpoint_loc_reply_t) :=
  let* hdr := dps_get_tlv_hdr buff cur in
  if (th_type hdr =? EUID_TLV)%Z then
    let* (vnid, mac, n) := dps_get_euid_tlv buff cur in
    Done (Go, cur + n, mk_endpoint_loc_reply vnid mac (elr_vm_ip_addr c)
                         (elr_version c) (elr_tunnel_info c))
  else if (th_type hdr =? IP_ADDR_TLV)%Z then
    let* (ip, n) := dps_get_ip_tlv buff cur (elr_vm_ip_addr c) in
    Done (Go, cur + n, mk_endpoint_loc_reply (elr_vnid c) (elr_mac c) ip
                         (elr_version c) (elr_tunnel_info c))
  else if (th_type hdr =? TUNNEL_LIST_TLV)%Z then
    let* (tl, n) := dps_get_tunnel_list_tlv fuel buff cur cap
                      (tl_tunnel_list (elr_tunnel_info c)) in
    Done (Go, cur + n, mk_endpoint_loc_reply (elr_vnid c) (elr_mac c)
                         (elr_vm_ip_addr c) (elr_version c) tl)
  else Done (Exit, cur, c).

(** The end of the TLV as the code computes it: [tlv_len - 4] in [uint32_t]. *)
Definition loc_end (off : nat) (tlv_len : Z) : Z :=
  (Z.of_nat (off + DPS_TLV_HDR_LEN + DPS_DATA_VER_LEN)
   + u32 (tlv_len - Z.of_nat DPS_DATA_VER_LEN))%Z.

Definition dps_get_endpoint_loc_reply_tlv (fuel : nat) (buff : buf) (off : nat)
  (cap : nat) (c : dps_endpoint_loc_reply_t)
  : out (dps_endpoint_loc_reply_t * nat) :=
  let* hdr := dps_get_tlv_hdr buff off in
  let* version := load32 buff (off + DPS_TLV_HDR_LEN) in
  let c := mk_endpoint_loc_reply (elr_vnid c) (elr_mac c) (elr_vm_ip_addr c)
             version (elr_tunnel_info c) in
  let* (_, cur, c) :=
    while fuel (loc_end off (th_len hdr)) (get_endpoint_loc_item fuel buff cap)
      (off + DPS_TLV_HDR_LEN + DPS_DATA_VER_LEN) c in
  Done (c, cur - off).

Definition get_endpoint_update_item (fuel : nat) (buff : buf) (cap : nat) (cur : nat)
  (c : dps_endpoint_update_t) : out (ctl * nat * dps_endpoint_update_t) :=
  let* hdr := dps_get_tlv_hdr buff cur in
  if (th_type hdr =? EUID_TLV)%Z then
    let* (vnid, mac, n) := dps_get_euid_tlv buff cur in
    Done (Go, cur + n, mk_endpoint_update vnid mac (eu_version c) (eu_vm_ip_addr c)
                         (eu_dps_client_addr c) (eu_tunnel_info c))
  else if (th_type hdr =? IP_ADDR_TLV)%Z then
    let* (ip, n) := dps_get_ip_tlv buff cur (eu_vm_ip_addr c) in
    Done (Go, cur + n, mk_endpoint_update (eu_vnid c) (eu_mac c) (eu_version c) ip
                         (eu_dps_client_addr c) (eu_tunnel_info c))
  else if (th_type hdr =? TUNNEL_LIST_TLV)%Z then
    let* (tl, n) := dps_get_tunnel_list_tlv fuel buff cur cap
                      (tl_tunnel_list (eu_tunnel_info c)) in
    Done (Go, cur + n, mk_endpoint_update (eu_vnid c) (eu_mac c) (eu_version c)
                         (eu_vm_ip_addr c) (eu_dps_client_addr c) tl)
  else Done (Exit, cur, c).

(** [pkt_len] and [sender_addr] are not used. *)
Definition dps_get_endpoint_update_tlv (fuel : nat) (buff : buf) (off : nat)
  (cap : nat) (c : dps_endpoint_update_t) : out (dps_endpoint_update_t * nat) :=
  let* hdr := dps_get_tlv_hdr buff off in
  let* version := load32 buff (off + DPS_TLV_HDR_LEN) in
  let c := mk_endpoint_update (eu_vnid c) (eu_mac c) version (eu_vm_ip_addr c)
             (eu_dps_client_addr c) (eu_tunnel_info c) in
  let* (_, cur, c) :=
    while fuel (loc_end off (th_len hdr)) (get_endpoint_update_item fuel buff cap)
      (off + DPS_TLV_HDR_LEN + DPS_DATA_VER_LEN) c in
  Done (c, cur - off).

(** The state of the loop is the structure and the [vip] pointer. *)
Definition get_endpoint_update_reply_item (fuel : nat) (buff : buf) (cap : nat)
  (cur : nat) (s : dps_endpoint_update_reply_t * nat)
  : out (ctl * nat * (dps_endpoint_update_reply_t * nat)) :=
  let '(c, vip) := s in
  let set_vips v n :=
    mk_endpoint_update_reply (eur_vnid c) (eur_mac c) (eur_version c) n v
      (eur_tunnel_info c) in
  let* hdr := dps_get_tlv_hdr buff cur in
  if (th_type hdr =? EUID_TLV)%Z then
    let* (vnid, mac, n) := dps_get_euid_tlv buff cur in
    Done (Go, cur + n, (mk_endpoint_update_reply vnid mac (eur_version c)
                          (eur_num_of_vip c) (eur_vm_ip_addr c) (eur_tunnel_info c), vip))
  else if (th_type hdr =? IPV4_ADDR_LIST_TLV)%Z then
    let* (vips, vip, num, n) :=
      dps_get_ipv4_list_to_ipaddr fuel buff cur (eur_vm_ip_addr c) vip
        (eur_num_of_vip c) (Z.of_nat MAX_VIP_ADDR) in
    Done (Go, cur + n, (set_vips vips num, vip))
  else if (th_type hdr =? IPV6_ADDR_LIST_TLV)%Z then
    let* (vips, vip, num, n) :=
      dps_get_ipv6_list_to_ipaddr fuel buff cur (eur_vm_ip_addr c) vip
        (eur_num_of_vip c) (Z.of_nat MAX_VIP_ADDR) in
    Done (Go, cur + n, (set_vips vips num, vip))
  else if (th_type hdr =? TUNNEL_LIST_TLV)%Z then
    let* (tl, n) := dps_get_tunnel_list_tlv fuel buff cur cap
                      (tl_tunnel_list (eur_tunnel_info c)) in
    Done (Go, cur + n, (mk_endpoint_update_reply (eur_vnid c) (eur_mac c)
                          (eur_version c) (eur_num_of_vip c) (eur_vm_ip_addr c) tl, vip))
  else Done (Exit, cur, (c, vip)).

Definition dps_get_endpoint_update_reply_tlv (fuel : nat) (buff : buf) (off : nat)
  (cap : nat) (c : dps_endpoint_update_reply_t)
  : out (dps_endpoint_update_reply_t * nat) :=
  let* hdr := dps_get_tlv_hdr buff off in
  let* version := load32 buff (off + DPS_TLV_HDR_LEN) in
  let c := mk_endpoint_update_reply (eur_vnid c) (eur_mac c) version (eur_num_of_vip c)
             (eur_vm_ip_addr c) (eur_tunnel_info c) in
  let* (_, cur, (c, _)) :=
    while fuel (loc_end off (th_len hdr))
      (get_endpoint_update_reply_item fuel buff cap)
      (off + DPS_TLV_HDR_LEN + DPS_DATA_VER_LEN) (c, 0) in
  Done (c, cur - off).

Definition dps_get_endpoint_info_tlv (buff : buf) (off : nat) (c : dps_endpoint_info_t)
  : out (dps_endpoint_info_t * nat) :=
  let* vnid := load32 buff (off + DPS_TLV_HDR_LEN) in
  let* mac := loadn buff (off + 8) DPS_MAC_ADDR_LEN in
  let k := DPS_TLV_HDR_LEN + DPS_VNID_LEN + (DPS_MAC_ADDR_LEN + 2) in
  let* (ip, n) := dps_get_ip_tlv buff (off + k) (ei_vm_ip_addr c) in
  Done (mk_endpoint_info vnid mac ip, k + n).

(** ** Multicast *)
Definition dps_get_mcast_addr_tlv (buff : buf) (off : nat) (c : dps_mcast_addr_t)
  : out (dps_mcast_addr_t * nat) :=
  let* hdr := dps_get_tlv_hdr buff off in
  let n := DPS_TLV_HDR_LEN in
  let* (mac, k) := dps_get_vmac_tlv buff (off + n) in
  let n := n + k in
  let* ver := load8 buff (off + n) in
  if (ver =? 4)%Z then
    let* (ip, k) := dps_get_ip4_tlv buff (off + n) (ma_ip c) in
    let type :=
      if (th_type hdr =? MCAST_ADDR_MAC_TLV)%Z then MCAST_ADDR_MAC
      else if (th_type hdr =? MCAST_ADDR_V4_TLV)%Z then MCAST_ADDR_V4
      else MCAST_ADDR_V4_ICB_RANGE in
    Done (mk_mcast_addr type mac ip, n + k)
  else
    let* (ip, k) := dps_get_ip6_tlv buff (off + n) in
    Done (mk_mcast_addr MCAST_ADDR_V6 mac ip, n + k).

(** An unknown type is logged and the loop goes round without advancing. *)
Definition get_mcast_grp_rec_item (fuel : nat) (buff : buf) (cap : nat) (cur : nat)
  (c : dps_mcast_group_record_t) : out (ctl * nat * dps_mcast_group_record_t) :=
  let* hdr := dps_get_tlv_hdr buff cur in
  if ((th_type hdr =? MCAST_ADDR_MAC_TLV) || (th_type hdr =? MCAST_ADDR_V4_TLV)
      || (th_type hdr =? MCAST_ADDR_V6_TLV)
      || (th_type hdr =? MCAST_ADDR_V4_ICB_RANGE_TLV))%Z then
    let* (m, n) := dps_get_mcast_addr_tlv buff cur (mg_mcast_addr c) in
    Done (Go, cur + n, mk_mcast_group_record m (mg_num_of_srcs c) (mg_family c)
                         (mg_src_addr c))
  else if (th_type hdr =? IPV4_ADDR_LIST_TLV)%Z then
    let* (w, n) := dps_get_ipv4_list_tlv fuel buff cur cap (mg_src_addr c) 0 in
    Done (Go, cur + n, mk_mcast_group_record (mg_mcast_addr c) (th_len hdr / 4)
                         AF_INET w)
  else if (th_type hdr =? IPV6_ADDR_LIST_TLV)%Z then
    let* (w, n) := dps_get_ipv6_list_tlv fuel buff cur cap (mg_src_addr c) 0 in
    Done (Go, cur + n, mk_mcast_group_record (mg_mcast_addr c) (th_len hdr / 16)
                         AF_INET6 w)
  else Done (Go, cur, c).

Definition dps_get_mcast_grp_rec_tlv (fuel : nat) (buff : buf) (off : nat) (cap : nat)
  (c : dps_mcast_group_record_t) : out (dps_mcast_group_record_t * nat) :=
  let* hdr := dps_get_tlv_hdr buff off in
  let* (_, cur, c) :=
    while fuel (Z.of_nat (off + DPS_TLV_HDR_LEN) + th_len hdr)
      (get_mcast_grp_rec_item fuel buff cap) (off + DPS_TLV_HDR_LEN) c in
  Done (c, cur - off).

(** Both kinds of list are stored from the start of [tunnel_list]; an unknown
    type does not advance. *)
Definition get_vnid_tunnel_item (fuel : nat) (buff : buf) (cap : nat) (cur : nat)
  (c : dps_pkd_tunnel_list_t) : out (ctl * nat * dps_pkd_tunnel_list_t) :=
  let* hdr := dps_get_tlv_hdr buff cur in
  if (th_type hdr =? IPV4_ADDR_LIST_TLV)%Z then
    let* (w, n) := dps_get_ipv4_list_tlv fuel buff cur cap (pk_tunnel_list c) 0 in
    Done (Go, cur + n, mk_pkd_tunnel_list (pk_vnid c) (th_len hdr / 4)
                         (pk_num_v6_tunnels c) w)
  else if (th_type hdr =? IPV6_ADDR_LIST_TLV)%Z then
    let* (w, n) := dps_get_ipv6_list_tlv fuel buff cur cap (pk_tunnel_list c) 0 in
    Done (Go, cur + n, mk_pkd_tunnel_list (pk_vnid c) (pk_num_v4_tunnels c)
                         (th_len hdr / 16) w)
  else Done (Go, cur, c).

Definition dps_get_vnid_tunnel_list_tlv (fuel : nat) (buff : buf) (off : nat)
  (cap : nat) (c : dps_pkd_tunnel_list_t) : out (dps_pkd_tunnel_list_t * nat) :=
  let* hdr := dps_get_tlv_hdr buff off in
  let* vnid := load32 buff (off + DPS_TLV_HDR_LEN) in
  let c := mk_pkd_tunnel_list vnid (pk_num_v4_tunnels c) (pk_num_v6_tunnels c)
             (pk_tunnel_list c) in
  let tlv_len := u32 (th_len hdr - Z.of_nat DPS_VNID_LEN) in
  let* (_, cur, c) :=
    while fuel (Z.of_nat (off + DPS_TLV_HDR_LEN) + tlv_len)
      (get_vnid_tunnel_item fuel buff cap)
      (off + DPS_TLV_HDR_LEN + DPS_VNID_LEN) c in
  Done (c, cur - off).

(** ** Endpoint reachability: an unknown TLV is skipped *)
Definition get_epri_item (fuel : nat) (buff : buf) (cap : nat) (cur : nat)
  (c : dps_epri_t) : out (ctl * nat * dps_epri_t) :=
  let* hdr := dps_get_tlv_hdr buff cur in
  if (th_type hdr =? EUID_TLV)%Z then
    let* (vnid, mac, n) := dps_get_euid_tlv buff cur in
    Done (Go, cur + n, mk_epri vnid mac (ep_vm_ip4_addr c) (ep_vm_ip6_addr c)
                         (ep_tunnel_info c))
  else if (th_type hdr =? IP4_INFO_LIST_TLV)%Z then
    let* (l, n) := dps_get_ip4_info_list_tlv fuel buff cur (ep_vm_ip4_addr c) in
    Done (Go, cur + n, mk_epri (ep_vnid c) (ep_mac c) l (ep_vm_ip6_addr c)
                         (ep_tunnel_info c))
  else if (th_type hdr =? IP6_INFO_LIST_TLV)%Z then
    let* (l, n) := dps_get_ip6_info_list_tlv fuel buff cur (ep_vm_ip6_addr c) in
    Done (Go, cur + n, mk_epri (ep_vnid c) (ep_mac c) (ep_vm_ip4_addr c) l
                         (ep_tunnel_info c))
  else if (th_type hdr =? TUNNEL_LIST_TLV)%Z then
    let* (tl, n) := dps_get_tunnel_list_tlv fuel buff cur cap
                      (tl_tunnel_list (ep_tunnel_info c)) in
    Done (Go, cur + n, mk_epri (ep_vnid c) (ep_mac c) (ep_vm_ip4_addr c)
                         (ep_vm_ip6_addr c) tl)
  else Done (Go, cur + (Z.to_nat (th_len hdr) + DPS_TLV_HDR_LEN), c).

Definition dps_get_epri_tlv (fuel : nat) (buff : buf) (off : nat) (cap : nat)
  (c : dps_epri_t) : out (dps_epri_t * nat) :=
  let* hdr := dps_get_tlv_hdr buff off in
  let* (_, cur, c) :=
    while fuel (Z.of_nat (off + DPS_TLV_HDR_LEN) + th_len hdr)
      (get_epri_item fuel buff cap) (off + DPS_TLV_HDR_LEN) c in
  Done (c, cur - off).

(** ** Policies *)

(** [for (i = 0; i < num_of_rules; i++, j++)] *)
Fixpoint get_rules (buff : buf) (cap : nat) (cur j n : nat)
  (rules : list src_dst_vnid_t) : out (nat * nat * list src_dst_vnid_t) :=
  match n with
  | 0 => Done (cur, j, rules)
  | S n' =>
      let* svnid := load32 buff cur in
      let* dvnid := load32 buff (cur + SZ_OF_INT32) in
      let* rules := arr_write cap rules j (mk_rule svnid dvnid) in
      get_rules buff cap (cur + SZ_OF_INT32 + SZ_OF_INT32) (S j) n' rules
  end.

(** [while (j < tot_num_of_rules)]: an action, a count and that many rules. *)
Fixpoint get_rule_blocks (fuel : nat) (buff : buf) (cap : nat) (tot : Z)
  (cur j : nat) (c : dps_policy_t) : out (nat * dps_policy_t) :=
  match fuel with
  | 0 => Timeout
  | S fuel' =>
      if (Z.of_nat j <? tot)%Z then
        let* action := load16 buff cur in
        let* num := load16 buff (cur + SZ_OF_INT16) in
        let* (cur', j', rules) :=
          get_rules buff cap (cur + SZ_OF_INT16 + SZ_OF_INT16) j (Z.to_nat num)
            (pl_src_dst_vnid c) in
        let c' :=
          if (action =? DPS_DVG_PERMIT)%Z
          then mk_policy (pl_version c) (pl_policy_type c) num
                 (pl_num_deny_rules c) rules
          else mk_policy (pl_version c) (pl_policy_type c) (pl_num_permit_rules c)
                 num rules in
        get_rule_blocks fuel' buff cap tot cur' j' c'
      else Done (cur, c)
  end.

Definition dps_get_policy_type_tlv (fuel : nat) (buff : buf) (off : nat) (cap : nat)
  (c : dps_policy_t) : out (dps_policy_t * nat) :=
  let* _ := dps_get_tlv_hdr buff off in
  let cur := off + DPS_TLV_HDR_LEN in
  let* plcy_type_hdr := dps_get_tlv_hdr buff cur in
  let cur := cur + DPS_TLV_HDR_LEN in
  let c := mk_policy (th_ver plcy_type_hdr) (th_type plcy_type_hdr)
             (pl_num_permit_rules c) (pl_num_deny_rules c) (pl_src_dst_vnid c) in
  if (pl_policy_type c =? DPS_POLICY_TYPE_CONNECTIVITY)%Z then
    let* (cur, c) := get_rule_blocks fuel buff cap (th_len plcy_type_hdr) cur 0 c in
    Done (c, cur - off)
  else Done (c, cur - off).

Definition dps_get_policy_tlv (fuel : nat) (buff : buf) (off : nat) (cap : nat)
  (c : dps_policy_info_t) : out (dps_policy_info_t * nat) :=
  let* hdr := dps_get_tlv_hdr buff off in
  let bufptr := off + DPS_TLV_HDR_LEN in
  let* (_, cur, c) :=
    while fuel (Z.of_nat bufptr + th_len hdr)
      (fun cur c =>
         let* (c, n) := dps_get_policy_id_tlv buff cur c in
         let* (p, k) := dps_get_policy_type_tlv fuel buff (cur + n) cap
                          (pi_dps_policy c) in
         Done (Go, cur + n + k,
               mk_policy_info (pi_policy_id c) (pi_version c) (pi_ttl c) p))
      bufptr c in
  Done (c, cur - off).

(** The deny loop stores both loads in [svnid], the second one a [uint16_t]
    put through [ntohl]; the value returned is [bufptr - buff]. *)

Definition ntohl16 (v : Z) : Z :=
  (* ntohl of a zero-extended 16-bit load of bytes b0 b1 on a little-endian host *)
  (v * 65536)%Z.

Fixpoint get_bulk_deny (buff : buf) (cap : nat) (cur j n : nat)
  (rules : list src_dst_vnid_t) : out (nat * nat * list src_dst_vnid_t) :=
  match n with
  | 0 => Done (cur, j, rules)
  | S n' =>
      let* svnid := load32 buff cur in
      let* w := load16 buff (cur + SZ_OF_INT32) in
      let dvnid := match rules !! j with Some r => sd_dvnid r | None => 0%Z end in
      let* rules := arr_write cap rules j (mk_rule svnid dvnid) in
      let* rules := arr_write cap rules j (mk_rule (ntohl16 w) dvnid) in
      get_bulk_deny buff cap (cur + SZ_OF_INT32 + SZ_OF_INT32) (S j) n' rules
  end.

Definition dps_get_bulk_policy_xfer (buff : buf) (off : nat) (cap : nat)
  (c : dps_bulk_vnid_policy_t) : out (dps_bulk_vnid_policy_t * Z) :=
  let* np := load16 buff off in
  let* nd := load16 buff (off + SZ_OF_INT16) in
  let* (cur, j, rules) :=
    get_rules buff cap (off + SZ_OF_INT16 + SZ_OF_INT16) 0 (Z.to_nat np)
      (bp_src_dst_vnid c) in
  let* (cur, j, rules) := get_bulk_deny buff cap cur j (Z.to_nat nd) rules in
  Done (mk_bulk_policy np nd rules, u32 (Z.of_nat off - Z.of_nat cur)).
