(* ===== verification/Wire.v ===== *)
(** * The DPS wire format, and that the [dps_set_*] functions produce it

    [wire_*] is the packet diagram of each TLV as a pattern.  For each
    construction function there is a theorem that, where the TLV fits in the
    buffer, the function stores exactly that pattern and returns its length. *)
From S2P Require Export TlvSet.

(** ** The format *)
Definition w8 (v : Z) : pat := lit [u8 v].
Definition w16 (v : Z) : pat := lit (be16 (u16 v)).
Definition w32 (v : Z) : pat := lit (be32 (u32 v)).
Definition wire_hdr (ver ty : Z) (len : nat) : pat :=
  w8 ver ++ w8 ty ++ w16 (Z.of_nat len).
Definition wire_tlv (ver ty : Z) (body : pat) : pat :=
  wire_hdr ver ty (length body) ++ body.

Definition wire_ip4 (ip : Z) : pat := wire_tlv 4 IP_ADDR_TLV (w32 ip).
Definition wire_ip6 (ip : ip_union) : pat := wire_tlv 6 IP_ADDR_TLV (lit ip).
Definition wire_vmac (mac : list Z) : pat := wire_tlv 1 VMAC_TLV (lit mac ++ pad 2).
Definition wire_euid (vnid : Z) (mac : list Z) : pat :=
  wire_tlv 1 EUID_TLV (w32 vnid ++ lit mac ++ pad 2).

(** An address of family 0 goes out as IPv4; an unknown family goes out as
    nothing. *)
Definition is_v4 (family : Z) : bool := ((family =? AF_INET) || (family =? 0))%Z.
Definition wire_ip (a : ip_addr_t) : pat :=
  if is_v4 (ia_family a) then wire_ip4 (ia_ip4 a)
  else if (ia_family a =? AF_INET6)%Z then wire_ip6 (ia_ip a) else [].

Definition wire_svcloc (a : ip_addr_t) : pat :=
  if is_v4 (ia_family a)
  then wire_tlv 4 SERVICE_LOC_TLV (pad 2 ++ w16 (ia_port a) ++ w32 (ia_ip4 a))
  else wire_tlv 6 SERVICE_LOC_TLV (pad 2 ++ w16 (ia_port a) ++ lit (ia_ip a)).

Definition wire_tunnel_ip4 (t : dps_tunnel_endpoint_t) : pat :=
  w16 4 ++ w16 (te_port t) ++ w16 (te_tunnel_type t) ++ w16 (te_flags t)
  ++ w32 (te_vnid t) ++ w32 (te_ip4 t).
Definition wire_tunnel_ip6 (t : dps_tunnel_endpoint_t) : pat :=
  w16 6 ++ w16 (te_port t) ++ w16 (te_tunnel_type t) ++ w16 (te_flags t)
  ++ w32 (te_vnid t) ++ lit (te_ip t).
Definition wire_tunnel (t : dps_tunnel_endpoint_t) : pat :=
  if (te_family t =? AF_INET)%Z then wire_tunnel_ip4 t
  else if (te_family t =? AF_INET6)%Z then wire_tunnel_ip6 t else [].

(** The elements a counted array holds. *)
Definition counted {A} (num : Z) (l : list A) : list A := take (Z.to_nat num) l.
Definition tunnels (tl : dps_tunnel_list_t) : list dps_tunnel_endpoint_t :=
  counted (tl_num_of_tunnels tl) (tl_tunnel_list tl).

(** An empty list of tunnels is not encoded at all. *)
Definition wire_tunnel_list (ts : list dps_tunnel_endpoint_t) : pat :=
  match ts with
  | [] => []
  | _ => wire_tlv 1 TUNNEL_LIST_TLV (concat (wire_tunnel <$> ts))
  end.

Definition wire_ipv4_list (ips : list Z) : pat :=
  wire_tlv 1 IPV4_ADDR_LIST_TLV (concat (w32 <$> ips)).
(** The addresses as one string of sixteen bytes each. *)
Definition wire_ipv6_list (bs : list Z) : pat :=
  wire_tlv 1 IPV6_ADDR_LIST_TLV (lit bs).

Definition wire_ip4_info (x : dps_ip4_info_t) : pat :=
  w32 (i4_ip x) ++ w16 (i4_flags x) ++ w16 (i4_reserved x).
Definition wire_ip6_info (x : dps_ip6_info_t) : pat :=
  lit (i6_ip x) ++ w16 (i6_flags x) ++ w16 (i6_reserved x).
Definition wire_ip4_info_list (l : list dps_ip4_info_t) : pat :=
  wire_tlv 1 IP4_INFO_LIST_TLV (concat (wire_ip4_info <$> l)).
Definition wire_ip6_info_list (l : list dps_ip6_info_t) : pat :=
  wire_tlv 1 IP6_INFO_LIST_TLV (concat (wire_ip6_info <$> l)).

(** Endpoints.  The location TLV serves location replies and updates. *)
Definition wire_endpoint_info (c : dps_endpoint_info_t) : pat :=
  wire_tlv 1 ENDPOINT_INFO_TLV
    (w32 (ei_vnid c) ++ lit (ei_mac c) ++ pad 2
     ++ if (ia_family (ei_vm_ip_addr c) =? AF_INET6)%Z
        then wire_ip6 (ia_ip (ei_vm_ip_addr c))
        else wire_ip4 (ia_ip4 (ei_vm_ip_addr c))).
Definition wire_loc (version vnid : Z) (mac : list Z) (ip : ip_addr_t)
  (tl : dps_tunnel_list_t) : pat :=
  wire_tlv 1 ENDPOINT_LOC_TLV
    (w32 version ++ wire_euid vnid mac ++ wire_ip ip
     ++ wire_tunnel_list (tunnels tl)).
Definition wire_endpoint_loc_reply (c : dps_endpoint_loc_reply_t) : pat :=
  wire_loc (elr_version c) (elr_vnid c) (elr_mac c) (elr_vm_ip_addr c)
    (elr_tunnel_info c).
Definition wire_endpoint_update (c : dps_endpoint_update_t) : pat :=
  wire_loc (eu_version c) (eu_vnid c) (eu_mac c) (eu_vm_ip_addr c)
    (eu_tunnel_info c).

(** The virtual addresses of an update reply go out as an IPv4 list and an
    IPv6 list, each left out when it is empty. *)
Definition vips4 (l : list ip_addr_t) : list Z :=
  ia_ip4 <$> filter (fun a => ia_family a = AF_INET) l.
Definition vips6 (l : list ip_addr_t) : list ip_union :=
  ia_ip <$> filter (fun a => ia_family a = AF_INET6) l.
Definition unless_empty {A} (l : list A) (p : pat) : pat :=
  if decide (length l = 0) then [] else p.
Definition wire_endpoint_update_reply (c : dps_endpoint_update_reply_t) : pat :=
  let vips := counted (eur_num_of_vip c) (eur_vm_ip_addr c) in
  wire_tlv 1 ENDPOINT_UPDATE_REPLY_TLV
    (w32 (eur_version c) ++ wire_euid (eur_vnid c) (eur_mac c)
     ++ unless_empty (vips4 vips) (wire_ipv4_list (vips4 vips))
     ++ unless_empty (vips6 vips) (wire_ipv6_list (concat (vips6 vips)))
     ++ wire_tunnel_list (tunnels (eur_tunnel_info c))).

(** Policies: the rules to permit, then the rules to deny. *)
Definition wire_policy_id (id version ttl : Z) : pat :=
  wire_tlv 1 POLICY_ID_TLV (w32 id ++ w32 version ++ w32 ttl).
Definition wire_rule (r : src_dst_vnid_t) : pat :=
  w32 (sd_svnid r) ++ w32 (sd_dvnid r).
Definition wire_rule_block (action : Z) (rules : list src_dst_vnid_t) : pat :=
  unless_empty rules
    (w16 action ++ w16 (Z.of_nat (length rules)) ++ concat (wire_rule <$> rules)).
Definition permits (c : dps_policy_t) : list src_dst_vnid_t :=
  counted (pl_num_permit_rules c) (pl_src_dst_vnid c).
Definition denies (c : dps_policy_t) : list src_dst_vnid_t :=
  counted (pl_num_deny_rules c)
    (drop (Z.to_nat (pl_num_permit_rules c)) (pl_src_dst_vnid c)).
Definition wire_policy_type (c : dps_policy_t) : pat :=
  wire_tlv 1 POLICY_TYPE_TLV
    (w8 (pl_version c) ++ w8 (pl_policy_type c)
     ++ if (pl_policy_type c =? DPS_POLICY_TYPE_CONNECTIVITY)%Z
        then w16 (Z.of_nat (length (permits c) + length (denies c)))
             ++ wire_rule_block 1 (permits c) ++ wire_rule_block 0 (denies c)
        else pad 2).
Definition wire_policy (c : dps_policy_info_t) : pat :=
  wire_tlv 1 POLICY_TLV
    (wire_policy_id (pi_policy_id c) (pi_version c) (pi_ttl c)
     ++ wire_policy_type (pi_dps_policy c)).
(** A reply that carries an error has no policy. *)
Definition wire_policy_reply (c : dps_policy_reply_t) (hdr : dps_client_hdr_t) : pat :=
  wire_endpoint_loc_reply (pr_dst_endpoint_loc_reply c)
  ++ if (ch_resp_status hdr =? DPS_NO_ERR)%Z
     then wire_policy (pr_dps_policy_info c) else [].
Definition wire_bulk (c : dps_bulk_vnid_policy_t) : pat :=
  w16 (bp_num_permit_rules c) ++ w16 (bp_num_deny_rules c)
  ++ concat (wire_rule <$> take (Z.to_nat (bp_num_permit_rules c)
                                 + Z.to_nat (bp_num_deny_rules c))
                             (bp_src_dst_vnid c)).

(** Multicast. *)
Definition wire_mcast_addr (c : dps_mcast_addr_t) : pat :=
  wire_tlv 1 (mcast_tlv_type (ma_mcast_addr_type c))
    (wire_vmac (ma_mcast_mac c)
     ++ if (ma_mcast_addr_type c =? MCAST_ADDR_V6)%Z then wire_ip6 (ma_ip c)
        else wire_ip4 (ma_mcast_ip4 c)).
Definition wire_srcs (family num : Z) (words : list Z) : pat :=
  if (num =? 0)%Z then []
  else if (family =? AF_INET)%Z then wire_ipv4_list (counted num words)
  else if (family =? AF_INET6)%Z
  then wire_ipv6_list (as_bytes (take (4 * Z.to_nat num) words)) else [].
Definition wire_mcast_grp_rec (c : dps_mcast_group_record_t) : pat :=
  wire_tlv 1 MCAST_GRP_REC_TLV
    (wire_mcast_addr (mg_mcast_addr c)
     ++ wire_srcs (mg_family c) (mg_num_of_srcs c) (mg_src_addr c)).
Definition wire_packed (n4 n6 : Z) (words : list Z) : pat :=
  wire_srcs AF_INET n4 words
  ++ wire_srcs AF_INET6 n6 (drop (Z.to_nat n4) words).
Definition wire_vnid_tunnel_list (c : dps_pkd_tunnel_list_t) : pat :=
  wire_tlv 1 VNID_TUNNEL_LIST_TLV
    (w32 (pk_vnid c)
     ++ wire_packed (pk_num_v4_tunnels c) (pk_num_v6_tunnels c) (pk_tunnel_list c)).
Definition wire_epri (c : dps_epri_t) : pat :=
  wire_tlv 1 EPRI_TLV
    (wire_euid (ep_vnid c) (ep_mac c)
     ++ wire_ip4_info_list (counted (i4l_num_of_ips (ep_vm_ip4_addr c))
                              (i4l_ip_info (ep_vm_ip4_addr c)))
     ++ wire_ip6_info_list (counted (i6l_num_of_ips (ep_vm_ip6_addr c))
                              (i6l_ip_info (ep_vm_ip6_addr c)))
     ++ wire_tunnel_list (tunnels (ep_tunnel_info c))).

(** ** Well-formed inputs: the arrays have the length C gives them *)
Definition wf_ip (u : ip_union) : Prop := length u = 16 /\ Forall in8 u.
Definition wf_mac (m : list Z) : Prop := length m = 6 /\ Forall in8 m.
Definition wf_counted {A} (num : Z) (l : list A) : Prop :=
  (0 <= num)%Z /\ Z.to_nat num <= length l.
Definition wf_addr (a : ip_addr_t) : Prop := wf_ip (ia_ip a) /\ in16 (ia_port a).
Definition wf_tunnel (t : dps_tunnel_endpoint_t) : Prop :=
  wf_ip (te_ip t) /\ in16 (te_port t) /\ in16 (te_tunnel_type t)
  /\ in16 (te_flags t) /\ in32 (te_vnid t).
Definition wf_tunnels (tl : dps_tunnel_list_t) : Prop :=
  wf_counted (tl_num_of_tunnels tl) (tl_tunnel_list tl)
  /\ Forall wf_tunnel (tunnels tl).

Lemma length_counted {A} num (l : list A) :
  wf_counted num l -> length (counted num l) = Z.to_nat num.
Proof. intros [? ?]. unfold counted. rewrite length_take. lia. Qed.

Lemma lookup_counted {A} num (l : list A) i x :
  counted num l !! i = Some x -> l !! i = Some x.
Proof. unfold counted. rewrite lookup_take_Some. tauto. Qed.

Lemma length_w8 v : length (w8 v) = 1.
Proof. done. Qed.
Lemma length_w16 v : length (w16 v) = 2.
Proof. done. Qed.
Lemma length_w32 v : length (w32 v) = 4.
Proof. done. Qed.
Lemma length_wire_hdr ver ty n : length (wire_hdr ver ty n) = 4.
Proof. done. Qed.
Lemma length_wire_tlv ver ty p : length (wire_tlv ver ty p) = 4 + length p.
Proof. unfold wire_tlv. by rewrite length_app, length_wire_hdr. Qed.
#[export] Hint Rewrite length_w8 length_w16 length_w32 length_wire_hdr
  length_wire_tlv : dove.

(** ** The stores *)
Lemma store8_lay b off v :
  off + 1 <= length b -> store8 b off v = Done (lay b off (w8 v)).
Proof. intros. unfold store8. by rewrite store_lay by len. Qed.
Lemma store16_lay b off v :
  off + 2 <= length b -> store16 b off v = Done (lay b off (w16 v)).
Proof. intros. unfold store16. by rewrite store_lay by len. Qed.
Lemma store32_lay b off v :
  off + 4 <= length b -> store32 b off v = Done (lay b off (w32 v)).
Proof. intros. unfold store32. by rewrite store_lay by len. Qed.

Lemma dps_set_tlv_hdr_lay b off ver ty n :
  off + 4 <= length b ->
  dps_set_tlv_hdr b off ver ty n = Done (lay b off (wire_hdr ver ty n)).
Proof.
  intros. unfold dps_set_tlv_hdr.
  rewrite store8_lay by len. cbn [obind]. rewrite store8_lay by len. cbn [obind].
  rewrite store16_lay by len. join_lays. by rewrite <- ?app_assoc.
Qed.

(** Evaluate the stores, headers and nested writers of a construction function;
    [H] rewrites cover the nested writers. *)
Ltac stores :=
  repeat (first
    [ rewrite dps_set_tlv_hdr_lay by len
    | rewrite store8_lay by len
    | rewrite store16_lay by len
    | rewrite store32_lay by len
    | rewrite memcpy_lay by (first [assumption | len])
    | progress cbn [obind] ]).

(** Close [Done (lay b off p, n) = Done (lay b off q, length q)]. *)
Ltac same_lay :=
  join_lays; unfold wire_tlv; rewrite <- ?app_assoc;
  apply (f_equal Done), (f_equal2 pair);
  [ first [ reflexivity | repeat f_equal; len ] | len ].

(** The padding the code skips at the end of a TLV of [n] bytes of padding. *)
Ltac end_pad n := join_lays; rewrite <- (lay_pad _ _ _ n); same_lay.

(** ** Addresses and identifiers *)
Lemma dps_set_ip4_tlv_writes ip :
  writes (fun b off => dps_set_ip4_tlv b off ip) (wire_ip4 ip).
Proof.
  intros b off H. unfold wire_ip4 in *. unfold dps_set_ip4_tlv. stores. same_lay.
Qed.

Lemma dps_set_ip6_tlv_writes ip :
  length ip = 16 -> writes (fun b off => dps_set_ip6_tlv b off ip) (wire_ip6 ip).
Proof.
  intros Hip b off H. unfold wire_ip6 in *. unfold dps_set_ip6_tlv. stores. same_lay.
Qed.

Lemma dps_set_vmac_tlv_writes mac :
  length mac = 6 -> writes (fun b off => dps_set_vmac_tlv b off mac) (wire_vmac mac).
Proof.
  intros Hm b off H. unfold wire_vmac in *. unfold dps_set_vmac_tlv. stores. end_pad 2.
Qed.

Lemma dps_set_euid_tlv_writes vnid mac :
  length mac = 6 ->
  writes (fun b off => dps_set_euid_tlv b off vnid mac) (wire_euid vnid mac).
Proof.
  intros Hm b off H. unfold wire_euid in *. unfold dps_set_euid_tlv. stores. end_pad 2.
Qed.

Lemma dps_set_ip_tlv_writes a :
  length (ia_ip a) = 16 -> writes (fun b off => dps_set_ip_tlv b off a) (wire_ip a).
Proof.
  intros Ha b off H. unfold wire_ip, is_v4 in *. unfold dps_set_ip_tlv.
  destruct (_ || _)%Z eqn:E.
  - rewrite dps_set_ip4_tlv_writes by done. cbn [obind].
    destruct (ia_family a =? AF_INET6)%Z eqn:E6; [|done].
    apply Z.eqb_eq in E6. by rewrite E6 in E.
  - cbn [obind]. destruct (ia_family a =? AF_INET6)%Z; [|by rewrite lay_nil].
    by apply dps_set_ip6_tlv_writes.
Qed.

Lemma dps_set_svcloc_tlv_writes a :
  length (ia_ip a) = 16 ->
  writes (fun b off => dps_set_svcloc_tlv b off a) (wire_svcloc a).
Proof.
  intros Ha b off H. unfold wire_svcloc in *. unfold dps_set_svcloc_tlv.
  fold (is_v4 (ia_family a)). destruct (is_v4 (ia_family a)); stores.
  - rewrite lay_before' by len. rewrite (lay_gap _ _ _ 2) by len. same_lay.
  - rewrite lay_before' by len. rewrite (lay_gap _ _ _ 2) by len. same_lay.
Qed.
