(* ===== verification/WireSet.v ===== *)
(** * The [dps_set_*] functions produce the wire format: lists and composites *)
From S2P Require Export Wire.

(** Evaluate a nested writer by its theorem. *)
Ltac sub_write lem := rewrite lem by (first [assumption | len]); cbn [obind].

Lemma length_wire_ip4 ip : length (wire_ip4 ip) = 8.
Proof. done. Qed.
Lemma length_wire_ip6 ip : length (wire_ip6 ip) = 4 + length ip.
Proof. unfold wire_ip6. len. Qed.
Lemma length_wire_vmac mac : length (wire_vmac mac) = 6 + length mac.
Proof. unfold wire_vmac. len. Qed.
Lemma length_wire_euid vnid mac : length (wire_euid vnid mac) = 10 + length mac.
Proof. unfold wire_euid. len. Qed.
#[export] Hint Rewrite length_wire_ip4 length_wire_ip6 length_wire_vmac
  length_wire_euid : dove.

(** ** Loops over an array *)

(** A loop that writes [w x] for each element [x] of a counted array. *)
Lemma for_write_counted {A} (body : nat -> writer) (w : A -> pat) num (l : list A) :
  wf_counted num l ->
  (forall i x, counted num l !! i = Some x -> writes (body i) (w x)) ->
  writes (for_write body 0 (Z.to_nat num)) (concat (w <$> counted num l)).
Proof.
  intros Hc Hw. rewrite <- (length_counted num l) by done.
  rewrite <- (length_fmap w (counted num l)).
  apply for_write_spec. intros k p Hk. simpl.
  apply list_lookup_fmap_Some in Hk as (x & -> & Hx). by apply Hw.
Qed.

Lemma for_write_n (body : nat -> writer) (ps : list pat) n :
  length ps = n -> (forall k p, ps !! k = Some p -> writes (body k) p) ->
  writes (for_write body 0 n) (concat ps).
Proof. intros <- H. by apply for_write_spec. Qed.

Lemma length_concat_fmap {A} (w : A -> pat) n (l : list A) :
  (forall x, In x l -> length (w x) = n) ->
  length (concat (w <$> l)) = length l * n.
Proof.
  induction l as [|x l IH]; intros H; [done|]. rewrite fmap_cons. cbn [concat length].
  rewrite length_app, (H x) by (by left). rewrite IH; [lia|].
  intros y Hy. apply H. by right.
Qed.

Lemma arr_read_counted {A} num (l : list A) i x :
  counted num l !! i = Some x -> arr_read l i = Done x.
Proof. intros H%lookup_counted. unfold arr_read. by rewrite H. Qed.

(** ** Tunnel lists *)
Lemma dps_set_ipv4_tunnel_info_writes t :
  writes (fun b off => dps_set_ipv4_tunnel_info b off t) (wire_tunnel_ip4 t).
Proof.
  intros b off H. unfold wire_tunnel_ip4 in *. unfold dps_set_ipv4_tunnel_info.
  stores. same_lay.
Qed.

Lemma dps_set_ipv6_tunnel_info_writes t :
  length (te_ip t) = 16 ->
  writes (fun b off => dps_set_ipv6_tunnel_info b off t) (wire_tunnel_ip6 t).
Proof.
  intros Ht b off H. unfold wire_tunnel_ip6 in *. unfold dps_set_ipv6_tunnel_info.
  stores. same_lay.
Qed.

Lemma set_tunnel_writes l i t :
  arr_read l i = Done t -> length (te_ip t) = 16 ->
  writes (set_tunnel l i) (wire_tunnel t).
Proof.
  intros Hi Ht b off H. unfold set_tunnel, wire_tunnel in *. rewrite Hi. cbn [obind].
  destruct (te_family t =? AF_INET)%Z; [by apply dps_set_ipv4_tunnel_info_writes|].
  destruct (te_family t =? AF_INET6)%Z; [by apply dps_set_ipv6_tunnel_info_writes|].
  by rewrite lay_nil.
Qed.

Lemma wf_tunnels_ip tl i t :
  wf_tunnels tl -> tunnels tl !! i = Some t -> length (te_ip t) = 16.
Proof.
  intros [_ Hf] Hi. by destruct (Forall_lookup_1 _ _ _ _ Hf Hi) as [[? _] _].
Qed.

Lemma dps_set_tunnel_list_tlv_writes tl :
  wf_tunnels tl ->
  writes (fun b off => dps_set_tunnel_list_tlv b off (tl_tunnel_list tl)
                         (tl_num_of_tunnels tl))
         (wire_tunnel_list (tunnels tl)).
Proof.
  intros Hwf b off H. pose proof Hwf as [Hc _]. unfold dps_set_tunnel_list_tlv.
  pose proof (length_counted _ _ Hc) as Hlen. fold (tunnels tl) in Hlen.
  destruct (tl_num_of_tunnels tl =? 0)%Z eqn:E0.
  - apply Z.eqb_eq in E0. rewrite E0 in Hlen. apply length_zero_iff_nil in Hlen.
    rewrite Hlen. simpl. by rewrite lay_nil.
  - apply Z.eqb_neq in E0. unfold wire_tunnel_list in *.
    destruct (tunnels tl) as [|t0 ts] eqn:Ets; [destruct Hc; simpl in Hlen; lia|].
    rewrite <- Ets in *.
    rewrite (for_write_counted _ wire_tunnel); [|done| |].
    + cbn [obind]. fold (tunnels tl). stores. same_lay.
    + intros i t Hi. apply set_tunnel_writes; [by eapply arr_read_counted|].
      by eapply wf_tunnels_ip.
    + fold (tunnels tl). len.
Qed.

(** ** Address lists *)
Lemma dps_set_ipv4_list_tlv_writes ips num :
  wf_counted num ips ->
  writes (fun b off => dps_set_ipv4_list_tlv b off ips num)
         (wire_ipv4_list (counted num ips)).
Proof.
  intros Hc b off H. unfold dps_set_ipv4_list_tlv, wire_ipv4_list in *.
  assert (length (concat (w32 <$> counted num ips)) = Z.to_nat num * 4) as Hl
    by (rewrite (length_concat_fmap _ 4), length_counted by done; done).
  stores. rewrite (for_write_counted _ w32); [| done | | len].
  - cbn [obind]. rewrite lay_app' by len. unfold wire_tlv. rewrite Hl.
    same_lay.
  - intros i x Hi b' off' H'. rewrite (arr_read_counted _ _ _ _ Hi). cbn [obind].
    stores. done.
Qed.

Lemma concat_chunks {A} n k (l : list A) :
  concat ((fun i => take n (drop (i * n) l)) <$> seq 0 k) = take (k * n) l.
Proof.
  induction k as [|k IH]; [by destruct l|].
  rewrite seq_S, fmap_app, concat_app, IH. simpl. rewrite app_nil_r.
  rewrite <- (take_drop (k * n) (take (n + k * n) l)).
  rewrite take_take, skipn_firstn_comm. repeat f_equal; lia.
Qed.

Lemma lit_concat ls : concat (lit <$> ls) = lit (concat ls).
Proof.
  induction ls as [|l ls IH]; [done|]. rewrite fmap_cons. cbn [concat].
  by rewrite IH, lit_app.
Qed.

Lemma dps_set_ipv6_list_tlv_writes bs num :
  (0 <= num)%Z -> Z.to_nat num * 16 <= length bs ->
  writes (fun b off => dps_set_ipv6_list_tlv b off bs num)
         (wire_ipv6_list (take (Z.to_nat num * 16) bs)).
Proof.
  intros H0 Hc b off H. unfold dps_set_ipv6_list_tlv, wire_ipv6_list in *.
  set (n := Z.to_nat num) in *.
  set (ps := lit <$> ((fun i => take 16 (drop (i * 16) bs)) <$> seq 0 n)).
  assert (concat ps = lit (take (n * 16) bs)) as Hps
    by (unfold ps; by rewrite lit_concat, concat_chunks).
  assert (length ps = n) as Hlps by (unfold ps; by rewrite !length_fmap, length_seq).
  assert (length (take (n * 16) bs) = n * 16) as Hl by (rewrite length_take; lia).
  stores. rewrite (for_write_n _ ps); [| done | | rewrite Hps; len].
  - cbn [obind]. rewrite Hps, lay_app' by len.
    unfold wire_tlv. rewrite length_lit, Hl. same_lay.
  - intros k p Hk b' off' H'. simpl.
    unfold ps in Hk. rewrite <- list_fmap_compose in Hk.
    apply list_lookup_fmap_Some in Hk as (j & -> & Hj). simpl in *.
    apply lookup_seq in Hj as [-> Hj]. simpl. unfold memcpy.
    autounfold with dove in *. rewrite length_lit, length_take, length_drop in H'.
    rewrite decide_True by (rewrite length_drop; lia).
    rewrite store_lay by (rewrite length_take, length_drop; lia).
    cbn [obind]. rewrite length_lit, length_take, length_drop.
    repeat f_equal; lia.
Qed.

Lemma dps_set_ip4_info_tlv_writes c :
  wf_counted (i4l_num_of_ips c) (i4l_ip_info c) ->
  writes (fun b off => dps_set_ip4_info_tlv b off c)
         (wire_ip4_info_list (counted (i4l_num_of_ips c) (i4l_ip_info c))).
Proof.
  intros Hc b off H. unfold dps_set_ip4_info_tlv, wire_ip4_info_list in *.
  assert (length (concat (wire_ip4_info <$> counted (i4l_num_of_ips c) (i4l_ip_info c)))
          = Z.to_nat (i4l_num_of_ips c) * 8) as Hl
    by (rewrite (length_concat_fmap _ 8), length_counted by done; done).
  stores. rewrite (for_write_counted _ wire_ip4_info); [| done | | len].
  - cbn [obind]. rewrite lay_app' by len. unfold wire_tlv. rewrite Hl. same_lay.
  - intros i x Hi b' off' H'. rewrite (arr_read_counted _ _ _ _ Hi). cbn [obind].
    unfold wire_ip4_info in *. stores. same_lay.
Qed.

Definition wf_ip6_info (x : dps_ip6_info_t) : Prop := wf_ip (i6_ip x).

Lemma dps_set_ip6_info_tlv_writes c :
  wf_counted (i6l_num_of_ips c) (i6l_ip_info c) ->
  Forall wf_ip6_info (counted (i6l_num_of_ips c) (i6l_ip_info c)) ->
  writes (fun b off => dps_set_ip6_info_tlv b off c)
         (wire_ip6_info_list (counted (i6l_num_of_ips c) (i6l_ip_info c))).
Proof.
  intros Hc Hf b off H. unfold dps_set_ip6_info_tlv, wire_ip6_info_list in *.
  assert (forall x, In x (counted (i6l_num_of_ips c) (i6l_ip_info c)) ->
                    length (wire_ip6_info x) = 20) as Hx.
  { intros x Hi. rewrite Forall_forall in Hf.
    destruct (Hf _ Hi) as [? _]. unfold wire_ip6_info. len. }
  assert (length (concat (wire_ip6_info <$> counted (i6l_num_of_ips c) (i6l_ip_info c)))
          = Z.to_nat (i6l_num_of_ips c) * 20) as Hl
    by (rewrite (length_concat_fmap _ 20), length_counted by done; done).
  stores. rewrite (for_write_counted _ wire_ip6_info); [| done | | len].
  - cbn [obind]. rewrite lay_app' by len. unfold wire_tlv. rewrite Hl. same_lay.
  - intros i x Hi b' off' H'. rewrite (arr_read_counted _ _ _ _ Hi). cbn [obind].
    destruct (Forall_lookup_1 _ _ _ _ Hf Hi) as [? _].
    unfold wire_ip6_info in *. stores. same_lay.
Qed.

(** ** Endpoints *)
Lemma dps_set_endpoint_info_tlv_writes c :
  length (ei_mac c) = 6 -> length (ia_ip (ei_vm_ip_addr c)) = 16 ->
  writes (fun b off => dps_set_endpoint_info_tlv b off c) (wire_endpoint_info c).
Proof.
  intros Hm Hi b off H. unfold dps_set_endpoint_info_tlv, wire_endpoint_info in *.
  destruct (_ =? AF_INET6)%Z.
  - stores. sub_write dps_set_ip6_tlv_writes. join_lays.
    rewrite (lay_gap _ _ _ 2) by len. same_lay.
  - stores. sub_write dps_set_ip4_tlv_writes. join_lays.
    rewrite (lay_gap _ _ _ 2) by len. same_lay.
Qed.

Lemma set_vm_ip_writes a :
  length (ia_ip a) = 16 -> writes (fun b off => set_vm_ip b off a) (wire_ip a).
Proof.
  intros Ha b off H. unfold set_vm_ip, wire_ip in *. fold (is_v4 (ia_family a)).
  destruct (is_v4 _); [by apply dps_set_ip4_tlv_writes|].
  destruct (_ =? AF_INET6)%Z; [by apply dps_set_ip6_tlv_writes|].
  by rewrite lay_nil.
Qed.

Definition wf_loc (mac : list Z) (ip : ip_addr_t) (tl : dps_tunnel_list_t) : Prop :=
  wf_mac mac /\ wf_addr ip /\ wf_tunnels tl.
Definition wf_endpoint_loc_reply (c : dps_endpoint_loc_reply_t) : Prop :=
  wf_loc (elr_mac c) (elr_vm_ip_addr c) (elr_tunnel_info c).
Definition wf_endpoint_update (c : dps_endpoint_update_t) : Prop :=
  wf_loc (eu_mac c) (eu_vm_ip_addr c) (eu_tunnel_info c).

Lemma dps_set_endpoint_loc_reply_tlv_writes c :
  wf_endpoint_loc_reply c ->
  writes (fun b off => dps_set_endpoint_loc_reply_tlv b off c)
         (wire_endpoint_loc_reply c).
Proof.
  intros ([Hm _] & [[Hi _] _] & Ht) b off H.
  unfold dps_set_endpoint_loc_reply_tlv, wire_endpoint_loc_reply, wire_loc in *.
  stores. sub_write dps_set_euid_tlv_writes. sub_write set_vm_ip_writes.
  sub_write dps_set_tunnel_list_tlv_writes. stores. same_lay.
Qed.

Lemma dps_set_endpoint_update_tlv_writes c len :
  wf_endpoint_update c ->
  writes (fun b off => dps_set_endpoint_update_tlv b off c len)
         (wire_endpoint_update c).
Proof.
  intros ([Hm _] & [[Hi _] _] & Ht) b off H.
  unfold dps_set_endpoint_update_tlv, wire_endpoint_update, wire_loc in *.
  stores. sub_write dps_set_euid_tlv_writes. sub_write set_vm_ip_writes.
  sub_write dps_set_tunnel_list_tlv_writes. stores. same_lay.
Qed.

(** ** Endpoint update replies *)
Lemma vips_cons a l :
  vips4 (a :: l) = (if decide (ia_family a = AF_INET) then ia_ip4 a :: vips4 l
                    else vips4 l) /\
  vips6 (a :: l) = (if decide (ia_family a = AF_INET6) then ia_ip a :: vips6 l
                    else vips6 l).
Proof.
  unfold vips4, vips6. rewrite !filter_cons. split; by case_decide.
Qed.

Lemma split_vips_spec vips i n v4 v6 :
  i + n <= length vips -> length v4 + n <= MAX_VIP_ADDR ->
  length v6 + n <= MAX_VIP_ADDR ->
  split_vips vips i n v4 v6 =
  Done (v4 ++ vips4 (take n (drop i vips)), v6 ++ vips6 (take n (drop i vips))).
Proof.
  revert i v4 v6. induction n as [|n IH]; intros i v4 v6 Hi H4 H6.
  - simpl. by rewrite !app_nil_r.
  - destruct (lookup_lt_is_Some_2 vips i) as [a Ha]; [lia|]. simpl.
    unfold arr_read. rewrite Ha. cbn [of_option obind].
    rewrite (drop_S _ _ _ Ha). cbn [take].
    destruct (vips_cons a (take n (drop (S i) vips))) as [-> ->].
    destruct (Z.eqb_spec (ia_family a) AF_INET) as [E|E].
    + rewrite arr_write_app by lia. cbn [obind].
      rewrite IH by (try rewrite length_app; simpl; lia).
      rewrite decide_True, decide_False by (rewrite ?E; done).
      by rewrite <- app_assoc.
    + rewrite decide_False by done.
      destruct (Z.eqb_spec (ia_family a) AF_INET6) as [E'|E'].
      * rewrite arr_write_app by lia. cbn [obind].
        rewrite IH by (try rewrite length_app; simpl; lia).
        rewrite decide_True by done. by rewrite <- app_assoc.
      * rewrite decide_False by done. rewrite IH by lia. done.
Qed.

Lemma counted_all {A} (l : list A) n :
  n = Z.of_nat (length l) -> wf_counted n l /\ counted n l = l.
Proof.
  intros ->. unfold wf_counted, counted. rewrite Nat2Z.id, take_ge by lia.
  split_and!; [lia | lia | done].
Qed.

Definition wf_endpoint_update_reply (c : dps_endpoint_update_reply_t) : Prop :=
  wf_mac (eur_mac c) /\ wf_counted (eur_num_of_vip c) (eur_vm_ip_addr c) /\
  (eur_num_of_vip c <= 16)%Z /\
  Forall wf_addr (counted (eur_num_of_vip c) (eur_vm_ip_addr c)) /\
  wf_tunnels (eur_tunnel_info c).

Lemma length_vips6 l :
  Forall wf_addr l -> length (concat (vips6 l)) = length (vips6 l) * 16.
Proof.
  induction 1 as [|a l [[Ha _] _] _ IH]; [done|].
  destruct (vips_cons a l) as [_ ->]. case_decide; [|done].
  simpl. rewrite length_app. lia.
Qed.

Lemma unless_empty_writes {A} (l : list A) (f : writer) p :
  writes f p ->
  writes (fun b off => if decide (length l = 0) then Done (b, 0) else f b off)
         (unless_empty l p).
Proof.
  intros Hf b off H. unfold unless_empty in *.
  case_decide; [by rewrite lay_nil | by apply Hf].
Qed.

Lemma ipv4_list_all_writes ips n :
  n = Z.of_nat (length ips) ->
  writes (fun b off => dps_set_ipv4_list_tlv b off ips n) (wire_ipv4_list ips).
Proof.
  intros Hn b off H. destruct (counted_all ips n Hn) as [Hc E].
  rewrite <- E at 2 3. rewrite <- E in H. by apply dps_set_ipv4_list_tlv_writes.
Qed.

Lemma ipv6_list_all_writes bs n :
  length bs = n * 16 ->
  writes (fun b off => dps_set_ipv6_list_tlv b off bs (Z.of_nat n)) (wire_ipv6_list bs).
Proof.
  intros Hn b off H. rewrite <- (take_ge bs (Z.to_nat (Z.of_nat n) * 16)) by lia.
  rewrite take_ge at 1 by lia.
  apply dps_set_ipv6_list_tlv_writes; [lia | lia |]. by rewrite take_ge by lia.
Qed.

Lemma vips4_writes l :
  writes (fun b off => if decide (length l = 0) then Done (b, 0)
                       else dps_set_ipv4_list_tlv b off l (Z.of_nat (length l)))
         (unless_empty l (wire_ipv4_list l)).
Proof. by apply (unless_empty_writes l _ _ (ipv4_list_all_writes l _ eq_refl)). Qed.

Lemma vips6_writes (l : list ip_union) :
  length (concat l) = length l * 16 ->
  writes (fun b off => if decide (length l = 0) then Done (b, 0)
                       else dps_set_ipv6_list_tlv b off (concat l) (Z.of_nat (length l)))
         (unless_empty l (wire_ipv6_list (concat l))).
Proof. intros H. by apply (unless_empty_writes l _ _ (ipv6_list_all_writes _ _ H)). Qed.

Lemma dps_set_endpoint_update_reply_tlv_writes c len :
  wf_endpoint_update_reply c ->
  writes (fun b off => dps_set_endpoint_update_reply_tlv b off c len)
         (wire_endpoint_update_reply c).
Proof.
  intros ([Hm _] & Hc & H16 & Hv & Ht) b off H.
  unfold dps_set_endpoint_update_reply_tlv, wire_endpoint_update_reply in *.
  stores. sub_write dps_set_euid_tlv_writes. destruct Hc as [Hc0 Hc].
  rewrite split_vips_spec by (unfold MAX_VIP_ADDR; simpl; lia). cbn [obind].
  rewrite drop_0. fold (counted (eur_num_of_vip c) (eur_vm_ip_addr c)). rewrite !app_nil_l.
  set (vips := counted _ _) in *.
  sub_write (vips4_writes (vips4 vips)).
  sub_write (vips6_writes (vips6 vips) (length_vips6 _ Hv)).
  sub_write dps_set_tunnel_list_tlv_writes. stores. same_lay.
Qed.

(** ** Policies *)
Lemma dps_set_policy_id_tlv_writes id version ttl :
  writes (fun b off => dps_set_policy_id_tlv b off id version ttl)
         (wire_policy_id id version ttl).
Proof.
  intros b off H. unfold wire_policy_id in *. unfold dps_set_policy_id_tlv.
  stores. same_lay.
Qed.

Lemma length_rules l : length (concat (wire_rule <$> l)) = length l * 8.
Proof. by apply length_concat_fmap. Qed.
#[export] Hint Rewrite length_rules : dove.

Lemma idx16_small n : (Z.of_nat n < 65536)%Z -> idx16 n = n.
Proof. intros H. unfold idx16, u16. rewrite Z.mod_small by lia. lia. Qed.

Lemma set_rule_block_writes action num rules j0 :
  wf_counted num (drop j0 rules) -> (Z.of_nat (j0 + Z.to_nat num) < 65536)%Z ->
  writes (set_rule_block action num rules j0)
         (wire_rule_block action (counted num (drop j0 rules))).
Proof.
  intros Hc Hj b off H. pose proof (length_counted _ _ Hc) as Hl.
  unfold set_rule_block, wire_rule_block, unless_empty in *.
  destruct Hc as [H0 Hc]. destruct (num =? 0)%Z eqn:E.
  - apply Z.eqb_eq in E. rewrite decide_True by lia. by rewrite lay_nil.
  - apply Z.eqb_neq in E. rewrite decide_False in * by lia. rewrite Hl in *.
    replace (Z.of_nat (Z.to_nat num)) with num in * by lia. stores.
    rewrite (for_write_counted _ wire_rule num (drop j0 rules)); [| done | |len].
    + cbn [obind]. same_lay.
    + intros i x Hi b' off' H'. unfold set_rule.
      pose proof (lookup_lt_Some _ _ _ Hi) as Hi'. rewrite Hl in Hi'.
      rewrite idx16_small by lia. apply lookup_counted in Hi.
      rewrite lookup_drop in Hi. unfold arr_read. rewrite Hi.
      cbn [of_option obind]. unfold wire_rule in *. stores. same_lay.
Qed.

(** The arrays hold the rules the counters announce, and the TLV fits the
    [uint16_t] its length is computed in. *)
Definition policy_type_len (c : dps_policy_t) : nat :=
  if (pl_policy_type c =? DPS_POLICY_TYPE_CONNECTIVITY)%Z
  then 8 + length (wire_rule_block 1 (permits c))
       + length (wire_rule_block 0 (denies c))
  else 8.
Definition wf_policy (c : dps_policy_t) : Prop :=
  wf_counted (pl_num_permit_rules c) (pl_src_dst_vnid c) /\
  wf_counted (pl_num_deny_rules c)
    (drop (Z.to_nat (pl_num_permit_rules c)) (pl_src_dst_vnid c)) /\
  (Z.of_nat (policy_type_len c) < 65536)%Z.

Lemma length_wire_rule_block action l :
  length (wire_rule_block action l) = if decide (length l = 0) then 0 else 4 + length l * 8.
Proof.
  unfold wire_rule_block, unless_empty. case_decide; [done|].
  rewrite !length_app, length_rules. done.
Qed.

Lemma length_wire_policy_type c : length (wire_policy_type c) = policy_type_len c.
Proof.
  unfold wire_policy_type, policy_type_len. destruct (_ =? _)%Z; len.
Qed.

Lemma dps_set_policy_type_tlv_writes c :
  wf_policy c ->
  writes (fun b off => dps_set_policy_type_tlv b off c) (wire_policy_type c).
Proof.
  intros (Hp & Hd & Hlt) b off H.
  pose proof (length_counted _ _ Hp) as Lp. fold (permits c) in Lp.
  pose proof (length_counted _ _ Hd) as Ld. fold (denies c) in Ld.
  pose proof (length_wire_rule_block 1 (permits c)) as Bp.
  pose proof (length_wire_rule_block 0 (denies c)) as Bd.
  unfold dps_set_policy_type_tlv, wire_policy_type, policy_type_len in *.
  assert (Hmod : forall n, 4 <= n -> (Z.of_nat n < 65536)%Z ->
            Z.to_nat (u16 (Z.of_nat n - Z.of_nat DPS_TLV_HDR_LEN)) = n - 4).
  { intros n ? ?. unfold u16, DPS_TLV_HDR_LEN. rewrite Z.mod_small; lia. }
  destruct (_ =? _)%Z.
  - assert (Z.of_nat (length (permits c) + length (denies c)) < 65536)%Z as Hsum
      by (repeat case_decide; lia).
    stores. rewrite set_rule_block_writes
      by (first [rewrite drop_0; done | simpl; lia | rewrite drop_0; fold (permits c); len]).
    cbn [obind]. rewrite drop_0. fold (permits c).
    rewrite set_rule_block_writes by (first [done | lia | fold (denies c); len]).
    cbn [obind]. fold (denies c). rewrite idx16_small by lia.
    rewrite Hmod by lia. stores.
    replace (pl_num_permit_rules c + pl_num_deny_rules c)%Z
      with (Z.of_nat (length (permits c) + length (denies c)))
      by (destruct Hp, Hd; lia).
    same_lay.
  - stores. rewrite Hmod by lia. stores. end_pad 2.
Qed.

Lemma dps_set_policy_tlv_writes c :
  wf_policy (pi_dps_policy c) ->
  writes (fun b off => dps_set_policy_tlv b off c) (wire_policy c).
Proof.
  intros Hp b off H. unfold dps_set_policy_tlv, wire_policy in *.
  sub_write dps_set_policy_id_tlv_writes. sub_write dps_set_policy_type_tlv_writes.
  stores. same_lay.
Qed.

Lemma dps_set_policy_reply_tlv_writes c hdr len :
  wf_endpoint_loc_reply (pr_dst_endpoint_loc_reply c) ->
  wf_policy (pi_dps_policy (pr_dps_policy_info c)) ->
  writes (fun b off => dps_set_policy_reply_tlv b off c hdr len)
         (wire_policy_reply c hdr).
Proof.
  intros Hl Hp b off H. unfold dps_set_policy_reply_tlv, wire_policy_reply in *.
  sub_write dps_set_endpoint_loc_reply_tlv_writes. destruct (_ =? _)%Z.
  - sub_write dps_set_policy_tlv_writes. same_lay.
  - by rewrite !app_nil_r.
Qed.

Definition wf_bulk (c : dps_bulk_vnid_policy_t) : Prop :=
  wf_counted (bp_num_permit_rules c) (bp_src_dst_vnid c) /\
  wf_counted (bp_num_deny_rules c)
    (drop (Z.to_nat (bp_num_permit_rules c)) (bp_src_dst_vnid c)).

Lemma set_bulk_rules_writes rules j0 num :
  wf_counted num (drop j0 rules) ->
  writes (for_write (set_bulk_rule rules j0) 0 (Z.to_nat num))
         (concat (wire_rule <$> take (Z.to_nat num) (drop j0 rules))).
Proof.
  intros Hc. apply (for_write_counted _ wire_rule num (drop j0 rules)); [done|]. intros i x Hi b off H.
  apply lookup_counted in Hi. rewrite lookup_drop in Hi. unfold set_bulk_rule, arr_read.
  rewrite Hi. cbn [of_option obind]. unfold wire_rule in *. stores. same_lay.
Qed.

Lemma dps_set_bulk_policy_xfer_writes c len :
  wf_bulk c ->
  writes (fun b off => dps_set_bulk_policy_xfer b off c len) (wire_bulk c).
Proof.
  intros (Hp & Hd) b off H. unfold dps_set_bulk_policy_xfer, wire_bulk in *.
  rewrite <- take_take_drop, fmap_app, concat_app in *.
  stores. rewrite set_bulk_rules_writes; [| done | rewrite drop_0; len].
  cbn [obind]. rewrite drop_0.
  rewrite set_bulk_rules_writes; [| done | len].
  cbn [obind]. same_lay.
Qed.

(** ** Multicast *)
Definition wf_mcast_addr (c : dps_mcast_addr_t) : Prop :=
  wf_mac (ma_mcast_mac c) /\ wf_ip (ma_ip c).
Definition wf_srcs (family num : Z) (words : list Z) : Prop :=
  Forall in32 words /\ (0 <= num)%Z /\
  (if (family =? AF_INET6)%Z then 4 else 1) * Z.to_nat num <= length words.

Lemma dps_set_mcast_addr_tlv_writes c :
  wf_mcast_addr c ->
  writes (fun b off => dps_set_mcast_addr_tlv b off c) (wire_mcast_addr c).
Proof.
  intros ([Hm _] & [Hi _]) b off H. unfold dps_set_mcast_addr_tlv, wire_mcast_addr in *.
  sub_write dps_set_vmac_tlv_writes. destruct (_ =? MCAST_ADDR_V6)%Z.
  - sub_write dps_set_ip6_tlv_writes. stores. same_lay.
  - sub_write dps_set_ip4_tlv_writes. stores. same_lay.
Qed.

Lemma length_as_bytes ws : length (as_bytes ws) = length ws * 4.
Proof. unfold as_bytes. induction ws; [done|]. rewrite fmap_cons. simpl in *. lia. Qed.

Lemma take_as_bytes n ws : take (n * 4) (as_bytes ws) = as_bytes (take n ws).
Proof.
  revert n. induction ws as [|w ws IH]; intros [|n]; try done.
  unfold as_bytes in *. simpl. f_equal. f_equal. f_equal. f_equal. apply IH.
Qed.

(** The list of sources or tunnels of one family, left out when empty. *)
Definition set_srcs (family num : Z) (words : list Z) : writer := fun b off =>
  if (num =? 0)%Z then Done (b, 0)
  else if (family =? AF_INET)%Z then dps_set_ipv4_list_tlv b off words num
  else if (family =? AF_INET6)%Z then dps_set_ipv6_list_tlv b off (as_bytes words) num
  else Done (b, 0).

Lemma set_srcs_writes family num words :
  wf_srcs family num words ->
  writes (set_srcs family num words) (wire_srcs family num words).
Proof.
  intros (_ & H0 & Hn) b off H. unfold set_srcs, wire_srcs in *.
  destruct (num =? 0)%Z; [by rewrite lay_nil|].
  destruct (Z.eqb_spec family AF_INET) as [->|].
  - apply dps_set_ipv4_list_tlv_writes; [|done]. split; simpl in *; lia.
  - destruct (family =? AF_INET6)%Z; [|by rewrite lay_nil].
    rewrite <- take_as_bytes.
    replace (4 * Z.to_nat num * 4) with (Z.to_nat num * 16) by lia.
    apply dps_set_ipv6_list_tlv_writes; [done | rewrite length_as_bytes; lia |].
    rewrite <- take_as_bytes in H.
    by replace (4 * Z.to_nat num * 4) with (Z.to_nat num * 16) in H by lia.
Qed.

Definition wf_mcast_grp_rec (c : dps_mcast_group_record_t) : Prop :=
  wf_mcast_addr (mg_mcast_addr c) /\
  wf_srcs (mg_family c) (mg_num_of_srcs c) (mg_src_addr c).

Lemma dps_set_mcast_grp_rec_tlv_writes c :
  wf_mcast_grp_rec c ->
  writes (fun b off => dps_set_mcast_grp_rec_tlv b off c) (wire_mcast_grp_rec c).
Proof.
  intros (Hm & Hs) b off H. unfold dps_set_mcast_grp_rec_tlv, wire_mcast_grp_rec in *.
  sub_write dps_set_mcast_addr_tlv_writes.
  pose proof (set_srcs_writes _ _ _ Hs) as S. unfold set_srcs in S.
  sub_write S. stores. same_lay.
Qed.

Definition wf_packed (n4 n6 : Z) (words : list Z) : Prop :=
  Forall in32 words /\ (0 <= n4)%Z /\ (0 <= n6)%Z /\
  Z.to_nat n4 + 4 * Z.to_nat n6 <= length words.

Lemma set_packed_lists_writes n4 n6 words :
  wf_packed n4 n6 words ->
  writes (fun b off => set_packed_lists b off words n4 n6) (wire_packed n4 n6 words).
Proof.
  intros (Hw & H4 & H6 & Hl) b off H. unfold set_packed_lists, wire_packed in *.
  assert (wf_srcs AF_INET n4 words) as W4 by (split_and!; simpl; [done | done | lia]).
  assert (wf_srcs AF_INET6 n6 (drop (Z.to_nat n4) words)) as W6.
  { split_and!; [by apply Forall_drop | done |]. rewrite length_drop.
    unfold AF_INET6. simpl. lia. }
  pose proof (set_srcs_writes _ _ _ W4) as S4.
  pose proof (set_srcs_writes _ _ _ W6) as S6. unfold set_srcs in S4, S6. simpl in S4, S6.
  sub_write S4.
  replace (if (n4 =? 0)%Z then words else drop (Z.to_nat n4) words)
    with (drop (Z.to_nat n4) words)
    by (destruct (Z.eqb_spec n4 0) as [->|]; done).
  sub_write S6. same_lay.
Qed.

Lemma dps_set_vnid_tunnel_list_tlv_writes c :
  wf_packed (pk_num_v4_tunnels c) (pk_num_v6_tunnels c) (pk_tunnel_list c) ->
  writes (fun b off => dps_set_vnid_tunnel_list_tlv b off c) (wire_vnid_tunnel_list c).
Proof.
  intros Hp b off H. unfold dps_set_vnid_tunnel_list_tlv, wire_vnid_tunnel_list in *.
  stores. sub_write set_packed_lists_writes. stores. same_lay.
Qed.

(** ** Endpoint reachability *)
Definition wf_epri (c : dps_epri_t) : Prop :=
  wf_mac (ep_mac c) /\
  wf_counted (i4l_num_of_ips (ep_vm_ip4_addr c)) (i4l_ip_info (ep_vm_ip4_addr c)) /\
  wf_counted (i6l_num_of_ips (ep_vm_ip6_addr c)) (i6l_ip_info (ep_vm_ip6_addr c)) /\
  Forall wf_ip6_info (counted (i6l_num_of_ips (ep_vm_ip6_addr c))
                        (i6l_ip_info (ep_vm_ip6_addr c))) /\
  wf_tunnels (ep_tunnel_info c).

Lemma dps_set_epri_tlv_writes c :
  wf_epri c -> writes (fun b off => dps_set_epri_tlv b off c) (wire_epri c).
Proof.
  intros ([Hm _] & H4 & H6 & H6' & Ht) b off H. unfold dps_set_epri_tlv, wire_epri in *.
  sub_write dps_set_euid_tlv_writes. sub_write dps_set_ip4_info_tlv_writes.
  sub_write dps_set_ip6_info_tlv_writes. sub_write dps_set_tunnel_list_tlv_writes.
  stores. same_lay.
Qed.
