(* ===== verification/WireGet.v ===== *)
(** * The [dps_get_*] functions read the wire format

    For each parser: on a buffer that holds a TLV of the wire format it
    consumes exactly the TLV and recovers what was encoded, up to what the
    format does not carry.  That is what the equivalences [≡] say: an address
    of family 0 comes back as IPv4, and an IPv4 address leaves the other twelve
    bytes of its union as they were. *)
From S2P Require Export TlvGet WireSet.

(** ** Loads of encoded integers *)
Lemma load8_w8 b off v : matches b off (w8 v) -> load8 b off = Done (u8 v).
Proof. apply load8_matches. Qed.
Lemma load16_w16 b off v : matches b off (w16 v) -> load16 b off = Done (u16 v).
Proof. intros H. apply load16_matches; [done | apply u16_in]. Qed.
Lemma load32_w32 b off v : matches b off (w32 v) -> load32 b off = Done (u32 v).
Proof. intros H. apply load32_matches; [done | apply u32_in]. Qed.

Lemma dps_get_tlv_hdr_wire b off ver ty n :
  matches b off (wire_hdr ver ty n) ->
  dps_get_tlv_hdr b off = Done (mk_tlv_hdr (u8 ver) (u8 ty) (u16 (Z.of_nat n))).
Proof.
  unfold wire_hdr. rewrite !matches_app. intros (H1 & H2 & H3).
  unfold dps_get_tlv_hdr. rewrite (load8_w8 _ _ ver) by done. cbn [obind].
  rewrite (load8_w8 _ _ ty) by done. cbn [obind].
  rewrite (load16_w16 _ _ (Z.of_nat n)); [done|].
  eapply matches_at; [exact H3 | len].
Qed.

(** Loads within bounds always succeed. *)
Lemma load8_some b off : off < length b -> exists v, load8 b off = Done v.
Proof.
  intros H. unfold load8, arr_read. destruct (lookup_lt_is_Some_2 b off H) as [v ->].
  by exists v.
Qed.
Lemma load16_some b off : off + 2 <= length b -> exists v, load16 b off = Done v.
Proof.
  intros H. unfold load16.
  destruct (load8_some b off) as [x ->]; [lia|].
  destruct (load8_some b (off + 1)) as [y ->]; [lia|]. by eexists.
Qed.

(** Split what a buffer matches into the pieces that are loaded. *)
Ltac split_matches :=
  repeat match goal with
  | H : matches _ _ (_ ++ _) |- _ => apply matches_app in H as [? ?]
  | H : matches _ _ (wire_tlv _ _ _) |- _ => unfold wire_tlv in H
  end.

(** Evaluate the loads whose bytes are known. *)
Ltac loads :=
  repeat match goal with
  | |- context [obind (Done _) _] => cbn [obind]
  | H : matches ?b _ (w8 ?v) |- context [load8 ?b ?o] =>
      rewrite (load8_w8 b o v) by (apply (matches_at _ _ _ _ H); len)
  | H : matches ?b _ (w16 ?v) |- context [load16 ?b ?o] =>
      rewrite (load16_w16 b o v) by (apply (matches_at _ _ _ _ H); len)
  | H : matches ?b _ (w32 ?v) |- context [load32 ?b ?o] =>
      rewrite (load32_w32 b o v) by (apply (matches_at _ _ _ _ H); len)
  | H : matches ?b _ (lit ?bs) |- context [loadn ?b ?o ?n] =>
      rewrite (loadn_matches b o bs n)
        by (first [apply (matches_at _ _ _ _ H); len | len])
  | H : matches ?b _ (wire_hdr ?v ?t ?n) |- context [dps_get_tlv_hdr ?b ?o] =>
      rewrite (dps_get_tlv_hdr_wire b o v t n) by (apply (matches_at _ _ _ _ H); len)
  end.

(** ** Addresses *)
Lemma get_ip4_in u : wf_ip u -> in32 (get_ip4 u).
Proof.
  intros [Hl Hf]. unfold get_ip4. do 4 (destruct u as [|? u]; [done|]).
  repeat match goal with H : Forall _ (_ :: _) |- _ => apply Forall_cons_1 in H as [? H] end.
  unfold of_le32. by apply of_be32_in.
Qed.

Lemma get_set_ip4 u v : get_ip4 (set_ip4 u v) = u32 v.
Proof.
  unfold set_ip4, get_ip4, le32, of_le32. simpl.
  pose proof (u32_in v) as H. by apply of_be32_be32.
Qed.

Lemma u32_u32 v : u32 (u32 v) = u32 v.
Proof. apply u32_small, u32_in. Qed.

(** Two addresses the IP address TLV does not tell apart. *)
#[export] Instance ip_addr_equiv : Equiv ip_addr_t := fun a a' =>
  is_v4 (ia_family a) = is_v4 (ia_family a') /\
  (if is_v4 (ia_family a) then ia_ip4 a = ia_ip4 a'
   else ia_family a = ia_family a' /\ ia_ip a = ia_ip a').
#[export] Instance ip_addr_equivalence : Equivalence (≡@{ip_addr_t}).
Proof.
  split.
  - intros a. unfold equiv, ip_addr_equiv. by destruct (is_v4 _).
  - intros a b. unfold equiv, ip_addr_equiv. intros [E H]. rewrite <- E.
    destruct (is_v4 _); intuition congruence.
  - intros a b c. unfold equiv, ip_addr_equiv. intros [E H] [E' H'].
    rewrite <- E in *. destruct (is_v4 _); intuition congruence.
Qed.
#[export] Instance wire_ip_proper : Proper ((≡) ==> (=)) wire_ip.
Proof.
  intros a a' [E H]. unfold wire_ip. rewrite <- E. destruct (is_v4 _); [by rewrite H|].
  destruct H as [-> ->]. done.
Qed.

(** The families that are transmitted. *)
Definition known_ip (a : ip_addr_t) : Prop :=
  is_v4 (ia_family a) = true \/ ia_family a = AF_INET6.
#[export] Instance known_ip_dec a : Decision (known_ip a).
Proof. unfold known_ip. apply _. Defined.

Lemma dps_get_vmac_tlv_wire b off mac :
  matches b off (wire_vmac mac) -> length mac = 6 ->
  dps_get_vmac_tlv b off = Done (mac, length (wire_vmac mac)).
Proof.
  intros H Hm. unfold wire_vmac in H. split_matches.
  unfold dps_get_vmac_tlv. loads. repeat f_equal. len.
Qed.

Lemma dps_get_euid_tlv_wire b off vnid mac :
  matches b off (wire_euid vnid mac) -> length mac = 6 -> in32 vnid ->
  dps_get_euid_tlv b off = Done (vnid, mac, length (wire_euid vnid mac)).
Proof.
  intros H Hm Hv. unfold wire_euid in H. split_matches.
  unfold dps_get_euid_tlv. loads. rewrite u32_small by done. repeat f_equal. len.
Qed.

Lemma dps_get_ip4_tlv_wire b off ip u :
  matches b off (wire_ip4 ip) ->
  dps_get_ip4_tlv b off u = Done (set_ip4 u (u32 ip), length (wire_ip4 ip)).
Proof.
  intros H. unfold wire_ip4 in H. split_matches. unfold dps_get_ip4_tlv. by loads.
Qed.

Lemma dps_get_ip6_tlv_wire b off ip :
  matches b off (wire_ip6 ip) -> length ip = 16 ->
  dps_get_ip6_tlv b off = Done (ip, length (wire_ip6 ip)).
Proof.
  intros H Hl. unfold wire_ip6 in H. split_matches. unfold dps_get_ip6_tlv.
  loads. repeat f_equal. len.
Qed.

(** The first byte of a TLV is its version. *)
Lemma load8_wire_tlv b off ver ty p :
  matches b off (wire_tlv ver ty p) -> load8 b off = Done (u8 ver).
Proof.
  unfold wire_tlv, wire_hdr. rewrite !matches_app. intros ((H & _) & _).
  by apply load8_w8.
Qed.

Lemma dps_get_ip_tlv_wire b off a a0 :
  matches b off (wire_ip a) -> wf_addr a -> known_ip a ->
  exists a', dps_get_ip_tlv b off a0 = Done (a', length (wire_ip a)) /\ a' ≡ a.
Proof.
  intros H ([Hl Hb] & _) Hk. unfold wire_ip in *. unfold dps_get_ip_tlv.
  destruct (is_v4 (ia_family a)) eqn:E4.
  - rewrite (load8_wire_tlv _ _ _ _ _ H). simpl obind.
    rewrite (dps_get_ip4_tlv_wire _ _ _ _ H). simpl obind.
    eexists. split; [done|]. split; [done|]. unfold ia_ip4. cbn [ia_ip with_family_ip].
    by rewrite get_set_ip4, u32_u32, u32_small by (by apply get_ip4_in).
  - destruct Hk as [Hk|Hk]; [congruence|]. rewrite Hk in *. simpl in H |- *.
    rewrite (load8_wire_tlv _ _ _ _ _ H). simpl obind.
    rewrite (dps_get_ip6_tlv_wire _ _ _ H Hl). simpl obind.
    eexists. split; [done|]. split; simpl; by rewrite Hk.
Qed.

(** The service location TLV also carries the port; the transport type that
    comes back is whatever the two bytes the encoder skips held. *)
Lemma dps_get_svcloc_tlv_wire b off a a0 :
  matches b off (wire_svcloc a) -> wf_addr a -> known_ip a ->
  exists a', dps_get_svcloc_tlv b off a0 = Done (a', length (wire_svcloc a))
             /\ a' ≡ a /\ ia_port a' = ia_port a.
Proof.
  intros H ([Hl Hb] & Hp) Hk.
  assert (exists xp, load16 b (off + 4) = Done xp) as [xp Hxp].
  { apply load16_some. destruct H as [H _]. unfold wire_svcloc in H.
    destruct (is_v4 _); len. }
  unfold wire_svcloc in *. unfold dps_get_svcloc_tlv.
  destruct (is_v4 (ia_family a)) eqn:E4.
  - rewrite (load8_wire_tlv _ _ _ _ _ H), Hxp. split_matches. loads.
    rewrite u16_small by done.
    eexists. split; [done|]. split; [|done]. split; [done|]. unfold ia_ip4. cbn [ia_ip with_family_ip].
    by rewrite get_set_ip4, u32_u32, u32_small by (by apply get_ip4_in).
  - destruct Hk as [Hk|Hk]; [congruence|].
    rewrite (load8_wire_tlv _ _ _ _ _ H), Hxp. split_matches. loads.
    rewrite u16_small by done.
    eexists. split; [repeat f_equal; len|]. split; [|done]. split; simpl; by rewrite Hk.
Qed.

(** ** Arrays filled in order *)

(** The array [l] after [xs] has been stored from index [j] on. *)
Definition puts {A} (l : list A) (j : nat) (xs : list A) : list A :=
  take j l ++ xs ++ drop (j + length xs) l.

Lemma puts_nil {A} (l : list A) j : puts l j [] = l.
Proof. unfold puts. simpl. rewrite Nat.add_0_r. apply take_drop. Qed.

Lemma arr_write_puts {A} cap (l xs : list A) j k x :
  j <= length l -> k = j + length xs -> k < cap ->
  arr_write cap (puts l j xs) k x = Done (puts l j (xs ++ [x])).
Proof.
  intros Hj -> Hc. unfold arr_write, puts.
  rewrite !length_app, length_take, length_drop. simpl.
  destruct (decide (j + length xs < length l)).
  - rewrite decide_True by lia. f_equal.
    rewrite insert_app_r_alt by (rewrite length_take; lia).
    rewrite length_take. replace (j + length xs - j `min` length l) with (length xs) by lia.
    rewrite insert_app_r_alt by lia. rewrite Nat.sub_diag.
    destruct (lookup_lt_is_Some_2 l (j + length xs)) as [y Hy]; [lia|].
    rewrite (drop_S _ _ _ Hy). simpl. rewrite <- app_assoc. simpl.
    by replace (j + (length xs + 1)) with (S (j + length xs)) by lia.
  - rewrite decide_False, decide_True by lia. f_equal.
    rewrite (drop_ge l (j + length xs)) by lia.
    rewrite (drop_ge l (j + (length xs + 1))) by lia.
    by rewrite !app_nil_r, <- app_assoc.
Qed.

Lemma counted_puts {A} (l xs : list A) :
  counted (Z.of_nat (length xs)) (puts l 0 xs) = xs.
Proof. unfold counted, puts. simpl. by rewrite Nat2Z.id, take_app_length. Qed.

Lemma lookup_puts_ge {A} (l xs : list A) i :
  length xs <= i -> puts l 0 xs !! i = l !! i.
Proof.
  intros H. unfold puts. simpl. rewrite lookup_app_r by lia. rewrite lookup_drop.
  f_equal. lia.
Qed.

(** ** Tunnel lists *)
#[export] Instance tunnel_equiv : Equiv dps_tunnel_endpoint_t := fun t t' =>
  te_family t = te_family t' /\ te_port t = te_port t' /\ te_vnid t = te_vnid t' /\
  te_tunnel_type t = te_tunnel_type t' /\ te_flags t = te_flags t' /\
  (if (te_family t =? AF_INET)%Z then te_ip4 t = te_ip4 t' else te_ip t = te_ip t').
#[export] Instance tunnel_equivalence : Equivalence (≡@{dps_tunnel_endpoint_t}).
Proof.
  split.
  - intros t. unfold equiv, tunnel_equiv. by destruct (_ =? _)%Z.
  - intros t u. unfold equiv, tunnel_equiv. intros (E & ? & ? & ? & ? & H).
    rewrite <- E. destruct (_ =? _)%Z; intuition congruence.
  - intros t u v. unfold equiv, tunnel_equiv.
    intros (E & ? & ? & ? & ? & H) (E' & ? & ? & ? & ? & H').
    rewrite <- E in *. destruct (_ =? _)%Z; intuition congruence.
Qed.
#[export] Instance wire_tunnel_proper : Proper ((≡) ==> (=)) wire_tunnel.
Proof.
  intros t t' (E & Hp & Hv & Ht & Hf & H). unfold wire_tunnel, wire_tunnel_ip4, wire_tunnel_ip6.
  rewrite <- E, <- Hp, <- Hv, <- Ht, <- Hf.
  destruct (_ =? AF_INET)%Z; [by rewrite H|]. by rewrite H.
Qed.

Definition known_tunnel (t : dps_tunnel_endpoint_t) : Prop :=
  te_family t = AF_INET \/ te_family t = AF_INET6.
#[export] Instance known_tunnel_dec t : Decision (known_tunnel t).
Proof. unfold known_tunnel. apply _. Defined.

Lemma get_tunnel_wire b off t cap l i :
  matches b off (wire_tunnel t) -> wf_tunnel t -> known_tunnel t ->
  exists t', t' ≡ t /\
    get_tunnel b cap off (l, i) =
    (let* l := arr_write cap l i t' in
     Done (Go, off + length (wire_tunnel t), (l, S i))).
Proof.
  intros H ([Hl Hb] & Hp & Ht & Hf & Hv) Hk. unfold wire_tunnel in *.
  unfold get_tunnel. destruct Hk as [Hk|Hk]; rewrite Hk in *; cbn [AF_INET6 AF_INET] in *.
  - simpl in H |- *. unfold wire_tunnel_ip4 in H. split_matches.
    unfold dps_get_ipv4_tunnel_info. loads. rewrite !u16_small, (u32_small (te_vnid t)) by done.
    eexists (mk_tunnel AF_INET _ _ _ _ _). split; [|reflexivity].
    split_and!; simpl; try done. unfold te_ip4. cbn [te_ip].
    by rewrite get_set_ip4, u32_u32, u32_small by (by apply get_ip4_in).
  - simpl in H |- *. unfold wire_tunnel_ip6 in H. split_matches.
    unfold dps_get_ipv6_tunnel_info. loads. rewrite !u16_small, (u32_small (te_vnid t)) by done.
    exists (mk_tunnel AF_INET6 (te_port t) (te_vnid t) (te_tunnel_type t) (te_flags t) (te_ip t)).
    split; [by split_and!|]. destruct (arr_write cap l i _); try done. simpl.
    repeat f_equal. unfold wire_tunnel_ip6. len.
Qed.

(** The length of the TLV fits its 16-bit field. *)
Definition fits (p : pat) : Prop := (Z.of_nat (length p) < 65536)%Z.

Lemma fits_tlv ver ty p : fits (wire_tlv ver ty p) -> u16 (Z.of_nat (length p)) = Z.of_nat (length p).
Proof. unfold fits. rewrite length_wire_tlv. intros. apply u16_small. split; lia. Qed.

(** The header of a TLV that fits. *)
Lemma dps_get_tlv_hdr_tlv b off ver ty p :
  matches b off (wire_tlv ver ty p) -> fits (wire_tlv ver ty p) ->
  dps_get_tlv_hdr b off = Done (mk_tlv_hdr (u8 ver) (u8 ty) (Z.of_nat (length p))).
Proof.
  intros H Hf. unfold wire_tlv in H. apply matches_app in H as [H _].
  rewrite (dps_get_tlv_hdr_wire _ _ _ _ _ H). by rewrite (fits_tlv _ _ _ Hf).
Qed.

Lemma matches_tlv_body b off ver ty p :
  matches b off (wire_tlv ver ty p) -> matches b (off + 4) p.
Proof. unfold wire_tlv. rewrite matches_app, length_wire_hdr. tauto. Qed.

(** A loop that appends one element per piece of the pattern to an array, from
    index [j0] on: [step] elements of the array for each piece. *)
Section append_loop.
Context {A X : Type} `{Equiv X, !Equivalence (≡@{X})}.
Context (body : nat -> list X * nat -> out (ctl * nat * (list X * nat))).
Context (b : buf) (w : X -> pat) (cap j0 : nat) (l0 : list X) (xs : list X).

Lemma append_loop fuel off end_ :
  j0 <= length l0 -> length xs < fuel -> j0 + length xs <= cap ->
  matches b off (concat (w <$> xs)) ->
  end_ = Z.of_nat (off + length (concat (w <$> xs))) ->
  (forall i x off l, xs !! i = Some x -> matches b off (w x) ->
    0 < length (w x) /\
    exists x', x' ≡ x /\
    body off (l, j0 + i) =
      (let* l := arr_write cap l (j0 + i) x' in
      Done (Go, off + length (w x), (l, j0 + S i)))) ->
  exists xs', xs' ≡ xs /\
  while fuel end_ body off (l0, j0) =
  Done (Go, off + length (concat (w <$> xs)),
    (puts l0 j0 xs', j0 + length xs)).
Proof.
  intros Hj Hf Hcap Hm Hend Hb.
  edestruct (while_rel body b
    (fun i s => s.2 = j0 + i /\
    exists xs', xs' ≡ take i xs /\ s.1 = puts l0 j0 xs')
    (w <$> xs) fuel off (l0, j0) end_) as ([l k] & E & Hk & xs' & Hxs' & Hl);
    [by rewrite length_fmap | done | done | | | simpl in *; subst l].
  - split; [simpl; lia|]. exists []. by rewrite puts_nil.
  - intros i p off' [l k] Hp (Hk & xs' & Hxs' & Hl) Hm'. simpl in *. subst l k.
    apply list_lookup_fmap_Some in Hp as (x & -> & Hx).
    destruct (Hb i x off' (puts l0 j0 xs') Hx Hm') as (Hpos & x' & Ex & ->).
    split; [done|]. pose proof (lookup_lt_Some _ _ _ Hx) as Hi.
    assert (length xs' = i) as Hlen.
    { apply length_proper in Hxs'. rewrite length_take in Hxs'. lia. }
    rewrite arr_write_puts by lia. cbn [obind].
    eexists. split; [done|]. split; [done|]. exists (xs' ++ [x']). split; [|done].
    rewrite (take_S_r _ _ _ Hx). by apply app_proper; [|repeat constructor].
  - rewrite length_fmap in *. rewrite take_ge in Hxs' by lia.
    exists xs'. split; [done|]. rewrite E. by rewrite Hk.
Qed.
End append_loop.

Lemma dps_get_tunnel_list_tlv_wire fuel b off cap l0 ts :
  matches b off (wire_tunnel_list ts) -> fits (wire_tunnel_list ts) ->
  ts <> [] -> Forall wf_tunnel ts -> Forall known_tunnel ts ->
  length ts < fuel -> length ts <= cap ->
  exists ts', ts' ≡ ts /\
    dps_get_tunnel_list_tlv fuel b off cap l0 =
    Done (mk_tunnel_list (Z.of_nat (length ts)) (puts l0 0 ts'),
          length (wire_tunnel_list ts)).
Proof.
  intros Hm Hfit Hne Hwf Hk Hf Hc. unfold wire_tunnel_list in *.
  destruct ts as [|t0 ts0] eqn:Ets; [done|]. rewrite <- Ets in *. clear Ets Hne.
  unfold dps_get_tunnel_list_tlv. rewrite (dps_get_tlv_hdr_tlv _ _ _ _ _ Hm Hfit).
  cbn [obind th_len].
  destruct (append_loop (get_tunnel b cap) b wire_tunnel cap 0 l0 ts fuel (off + 4)
              (Z.of_nat (off + DPS_TLV_HDR_LEN)
               + Z.of_nat (length (concat (wire_tunnel <$> ts)))))
    as (ts' & E & Ew); [lia | done | done | | | |].
  - by eapply matches_tlv_body.
  - unfold DPS_TLV_HDR_LEN. lia.
  - intros i t off' l Hi Hm'. split.
    + destruct (Forall_lookup_1 _ _ _ _ Hk Hi) as [E|E]; unfold wire_tunnel; rewrite E;
        simpl; lia.
    + apply get_tunnel_wire; [done | by eapply Forall_lookup_1 | by eapply Forall_lookup_1].
  - exists ts'. split; [done|]. unfold DPS_TLV_HDR_LEN in *. rewrite Ew. cbn [obind].
    repeat f_equal. len.
Qed.

(** The same for elements that come back unchanged. *)
Lemma append_loop_eq {X} (body : nat -> list X * nat -> out (ctl * nat * (list X * nat)))
  b (w : X -> pat) cap j0 (l0 xs : list X) fuel off end_ :
  j0 <= length l0 -> length xs < fuel -> j0 + length xs <= cap ->
  matches b off (concat (w <$> xs)) ->
  end_ = Z.of_nat (off + length (concat (w <$> xs))) ->
  (forall i x off l, xs !! i = Some x -> matches b off (w x) ->
     0 < length (w x) /\
     body off (l, j0 + i) =
     (let* l := arr_write cap l (j0 + i) x in
      Done (Go, off + length (w x), (l, j0 + S i)))) ->
  while fuel end_ body off (l0, j0) =
  Done (Go, off + length (concat (w <$> xs)), (puts l0 j0 xs, j0 + length xs)).
Proof.
  intros Hj Hf Hc Hm He Hb.
  destruct (@append_loop X (=) eq_equivalence body b w cap j0 l0 xs fuel off end_)
    as (xs' & Hxs & E); try done.
  - intros i x o l Hi Hx. destruct (Hb i x o l Hi Hx) as [Hp E]. split; [done|]. by exists x.
  - apply list_equiv_Forall2, list_eq_Forall2 in Hxs. by subst xs'.
Qed.

Lemma of_le32_le32 w : in32 w -> exists a b c d, le32 w = [a; b; c; d] /\ of_le32 a b c d = w.
Proof.
  intros H. do 4 eexists. split; [done|]. unfold of_le32. by apply of_be32_be32.
Qed.

(** ** Packed address lists *)
Lemma dps_get_ipv4_list_tlv_wire fuel b off cap l0 j0 ips :
  matches b off (wire_ipv4_list ips) -> fits (wire_ipv4_list ips) ->
  Forall in32 ips -> j0 <= length l0 -> length ips < fuel -> j0 + length ips <= cap ->
  dps_get_ipv4_list_tlv fuel b off cap l0 j0 =
  Done (puts l0 j0 ips, length (wire_ipv4_list ips)).
Proof.
  intros Hm Hfit Hr Hj Hf Hc. unfold dps_get_ipv4_list_tlv, wire_ipv4_list in *.
  rewrite (dps_get_tlv_hdr_tlv _ _ _ _ _ Hm Hfit). cbn [obind th_len].
  unfold DPS_TLV_HDR_LEN.
  rewrite (append_loop_eq _ b w32 cap j0 l0 ips); try done.
  - cbn [obind]. repeat f_equal. len.
  - by eapply matches_tlv_body.
  - lia.
  - intros i x o l Hi Hx. split; [simpl; lia|]. rewrite (load32_w32 _ _ x) by done.
    cbn [obind]. rewrite u32_small by (by eapply Forall_lookup_1 in Hr).
    destruct (arr_write cap l (j0 + i) x); try done. cbn [obind].
    repeat f_equal. lia.
Qed.

Lemma write_words16_puts cap (l0 : list Z) j0 xs w0 w1 w2 w3 k :
  in32 w0 -> in32 w1 -> in32 w2 -> in32 w3 ->
  j0 <= length l0 -> k = j0 + length xs -> k + 4 <= cap ->
  write_words16 cap (puts l0 j0 xs) k (as_bytes [w0; w1; w2; w3]) =
  Done (puts l0 j0 (xs ++ [w0; w1; w2; w3])).
Proof.
  intros H0 H1 H2 H3 Hj -> Hc.
  destruct (of_le32_le32 _ H0) as (a0 & a1 & a2 & a3 & Ea & Fa).
  destruct (of_le32_le32 _ H1) as (b0 & b1 & b2 & b3 & Eb & Fb).
  destruct (of_le32_le32 _ H2) as (c0 & c1 & c2 & c3 & Ec & Fc).
  destruct (of_le32_le32 _ H3) as (d0 & d1 & d2 & d3 & Ed & Fd).
  unfold as_bytes. rewrite !fmap_cons, Ea, Eb, Ec, Ed. simpl. rewrite Fa, Fb, Fc, Fd.
  do 4 (rewrite arr_write_puts by (rewrite ?length_app; simpl; lia); cbn [obind]).
  by rewrite <- !app_assoc.
Qed.

Lemma as_bytes_app l k : as_bytes (l ++ k) = as_bytes l ++ as_bytes k.
Proof. unfold as_bytes. by rewrite fmap_app, concat_app. Qed.

(** The sixteen-byte pieces of an IPv6 list. *)
Lemma as_bytes_pieces n ws :
  length ws = n * 4 ->
  concat ((fun i => lit (as_bytes (take 4 (drop (i * 4) ws)))) <$> seq 0 n)
  = lit (as_bytes ws).
Proof.
  intros Hl. rewrite (list_fmap_compose (fun i => take 4 (drop (i * 4) ws))
                        (fun l => lit (as_bytes l))).
  transitivity (lit (as_bytes (concat ((fun i => take 4 (drop (i * 4) ws)) <$> seq 0 n))));
    [| by rewrite concat_chunks, take_ge by lia].
  induction (_ <$> seq 0 n) as [|l ls IH]; [done|].
  rewrite fmap_cons. cbn [concat]. by rewrite IH, as_bytes_app, lit_app.
Qed.

Lemma four_words (ws : list Z) i :
  4 * S i <= length ws ->
  exists w0 w1 w2 w3, take 4 (drop (i * 4) ws) = [w0; w1; w2; w3] /\
    take (4 * S i) ws = take (4 * i) ws ++ [w0; w1; w2; w3].
Proof.
  intros H.
  assert (length (take 4 (drop (i * 4) ws)) = 4) as Hl
    by (rewrite length_take, length_drop; lia).
  destruct (take 4 (drop (i * 4) ws)) as [|w0 [|w1 [|w2 [|w3 [|? ?]]]]] eqn:E;
    try discriminate Hl.
  exists w0, w1, w2, w3. split; [done|].
  replace (4 * S i) with (i * 4 + 4) by lia. rewrite <- take_take_drop, E.
  by replace (i * 4) with (4 * i) by lia.
Qed.

Lemma dps_get_ipv6_list_tlv_wire fuel b off cap l0 j0 ws n :
  matches b off (wire_ipv6_list (as_bytes ws)) -> fits (wire_ipv6_list (as_bytes ws)) ->
  length ws = n * 4 -> Forall in32 ws -> j0 <= length l0 -> n < fuel ->
  j0 + length ws <= cap ->
  dps_get_ipv6_list_tlv fuel b off cap l0 j0 =
  Done (puts l0 j0 ws, length (wire_ipv6_list (as_bytes ws))).
Proof.
  intros Hm Hfit Hn Hr Hj Hf Hc. unfold dps_get_ipv6_list_tlv, wire_ipv6_list in *.
  rewrite (dps_get_tlv_hdr_tlv _ _ _ _ _ Hm Hfit). cbn [obind th_len].
  unfold DPS_TLV_HDR_LEN. pose proof (as_bytes_pieces n ws Hn) as Hps.
  set (ps := (fun i => lit (as_bytes (take 4 (drop (i * 4) ws)))) <$> seq 0 n) in Hps.
  assert (length ps = n) as Hlps by (unfold ps; by rewrite length_fmap, length_seq).
  apply matches_tlv_body in Hm. rewrite <- Hps in *.
  edestruct (while_rel (fun cur '(words, j) =>
         let* bs := loadn b cur DPS_IP6_ADDR_LEN in
         let* words := write_words16 cap words j bs in
         Done (Go, cur + DPS_IP6_ADDR_LEN, (words, j + 4))) b
      (fun i s => s = (puts l0 j0 (take (4 * i) ws), j0 + 4 * i))
      ps fuel (off + 4) (l0, j0)) as (s & E & ->);
    [by rewrite Hlps | exact Hm | reflexivity | | |].
  - rewrite Nat.mul_0_r, take_0, puts_nil, Nat.add_0_r. done.
  - intros i p o s Hp -> Ho. unfold ps in Hp.
    apply list_lookup_fmap_Some in Hp as (k & -> & Hk).
    apply lookup_seq in Hk as [-> Hk]. rewrite Nat.add_0_l in *.
    destruct (four_words ws i) as (w0 & w1 & w2 & w3 & E4 & Et); [lia|].
    rewrite E4 in *. split; [simpl; lia|]. cbn beta iota.
    pose proof (Forall_take _ 4 _ (Forall_drop _ (i * 4) _ Hr)) as Hr4. rewrite E4 in Hr4.
    repeat match goal with H : Forall _ (_ :: _) |- _ => apply Forall_cons_1 in H as [? H] end.
    rewrite (loadn_matches _ _ _ _ Ho) by done. cbn [obind].
    rewrite write_words16_puts by (try done; rewrite ?length_take; lia).
    cbn [obind]. eexists. split; [reflexivity|].
    rewrite <- Et. f_equal. lia.
  - rewrite Hlps, take_ge in E by lia.
    rewrite Nat2Z.inj_add in E. rewrite E. cbn [obind]. repeat f_equal. len.
Qed.

(** ** Composite TLVs *)
Lemma tlv_type b off ver ty p :
  matches b off (wire_tlv ver ty p) ->
  exists h, dps_get_tlv_hdr b off = Done h /\ th_type h = u8 ty.
Proof.
  unfold wire_tlv. rewrite matches_app. intros [H _].
  rewrite (dps_get_tlv_hdr_wire _ _ _ _ _ H). by eexists.
Qed.

Lemma tlv_type_ip b off a :
  matches b off (wire_ip a) -> known_ip a ->
  exists h, dps_get_tlv_hdr b off = Done h /\ th_type h = IP_ADDR_TLV.
Proof.
  intros H Hk. unfold wire_ip in H. destruct (is_v4 _) eqn:E.
  - by apply tlv_type in H.
  - destruct Hk as [Hk|Hk]; [congruence|]. rewrite Hk in H. by apply tlv_type in H.
Qed.

Lemma length_wire_ip_pos a : known_ip a -> 4 <= length (wire_ip a).
Proof.
  intros Hk. unfold wire_ip. destruct (is_v4 _) eqn:E; [rewrite length_wire_ip4; lia|].
  destruct Hk as [Hk|Hk]; [congruence|]. rewrite Hk. rewrite Z.eqb_refl, length_wire_ip6.
  lia.
Qed.

(** Tunnels as a location carries them: a list of at most [cap], of known
    families. *)
Definition tunnels_ok (cap fuel : nat) (tl : dps_tunnel_list_t) : Prop :=
  wf_tunnels tl /\ Forall known_tunnel (tunnels tl) /\
  length (tunnels tl) <= cap /\ length (tunnels tl) < fuel.

(** Two tunnel lists with the same tunnels up to [≡]. *)
#[export] Instance tunnel_list_equiv : Equiv dps_tunnel_list_t :=
  fun tl tl' => tunnels tl ≡ tunnels tl'.
#[export] Instance tunnel_list_equivalence : Equivalence (≡@{dps_tunnel_list_t}).
Proof.
  split; unfold equiv, tunnel_list_equiv.
  - intros tl. reflexivity.
  - intros x y H. by symmetry.
  - intros x y z H H'. by etransitivity.
Qed.

Lemma wire_concat_proper ts ts' :
  ts ≡ ts' -> concat (wire_tunnel <$> ts) = concat (wire_tunnel <$> ts').
Proof.
  induction 1 as [|t t' ts ts' Ht _ IH]; [done|].
  rewrite !fmap_cons. cbn [concat]. by rewrite IH, Ht.
Qed.
#[export] Instance wire_tunnel_list_proper :
  Proper ((≡@{list dps_tunnel_endpoint_t}) ==> (=)) wire_tunnel_list.
Proof.
  intros ts ts' H. unfold wire_tunnel_list. rewrite (wire_concat_proper _ _ H).
  by destruct H.
Qed.

(** The tunnel list item of the composite TLVs: absent when there is none. *)
Lemma get_tunnels_item fuel b off cap tl tl0 :
  matches b off (wire_tunnel_list (tunnels tl)) -> fits (wire_tunnel_list (tunnels tl)) ->
  tunnels_ok cap fuel tl -> tunnels tl <> [] ->
  exists tl', dps_get_tunnel_list_tlv fuel b off cap (tl_tunnel_list tl0) =
    Done (tl', length (wire_tunnel_list (tunnels tl))) /\ tl' ≡ tl.
Proof.
  intros Hm Hfit ((_ & Hwf) & Hk & Hc & Hf) Hne.
  destruct (dps_get_tunnel_list_tlv_wire fuel b off cap (tl_tunnel_list tl0) (tunnels tl))
    as (ts' & E & ->); try done.
  eexists. split; [done|]. unfold equiv, tunnel_list_equiv, tunnels at 1. simpl.
  apply length_proper in E as El. rewrite <- El, counted_puts. done.
Qed.

Lemma wire_tunnel_list_type b off ts :
  ts <> [] -> matches b off (wire_tunnel_list ts) ->
  exists h, dps_get_tlv_hdr b off = Done h /\ th_type h = TUNNEL_LIST_TLV.
Proof. destruct ts; [done|]. intros _ H. by apply tlv_type in H. Qed.

Lemma length_wire_tunnel_list_pos ts : ts <> [] -> 4 <= length (wire_tunnel_list ts).
Proof. destruct ts; [done|]. intros _. unfold wire_tunnel_list. len. Qed.

(** The location TLV body: where the pieces are, and where the loop ends. *)
Lemma loc_end_eq off p :
  (4 <= length p) -> fits (wire_tlv 1 ENDPOINT_LOC_TLV p) ->
  loc_end off (Z.of_nat (length p)) = Z.of_nat (off + 4 + length p).
Proof.
  intros Hl Hf. unfold fits in Hf. rewrite length_wire_tlv in Hf.
  unfold loc_end, DPS_TLV_HDR_LEN, DPS_DATA_VER_LEN.
  rewrite u32_small by (unfold in32; lia). lia.
Qed.

(** Take one step of a cursor loop: [E] evaluates the body, up to a result. *)
Ltac loop_step E :=
  erewrite while_step; [| lia | lia | exact E].

Lemma length_wire_loc version vnid mac ip tl :
  wf_mac mac ->
  length (wire_loc version vnid mac ip tl)
  = 24 + length (wire_ip ip) + length (wire_tunnel_list (tunnels tl)).
Proof. intros [Hl _]. unfold wire_loc. len. Qed.

Section endpoint_loc.
Context (version vnid : Z) (mac : list Z) (ip : ip_addr_t) (tl : dps_tunnel_list_t).
Context (b : buf) (off cap fuel : nat).
Hypothesis (Hver : in32 version) (Hvnid : in32 vnid) (Hmac : wf_mac mac).
Hypothesis (Hip : wf_addr ip) (Hk : known_ip ip) (Htl : tunnels_ok cap fuel tl).
Hypothesis (Hfuel : 3 < fuel).
Hypothesis (Hm : matches b off (wire_loc version vnid mac ip tl)).
Hypothesis (Hfit : fits (wire_loc version vnid mac ip tl)).

Lemma loc_pieces :
  load32 b (off + 4) = Done version /\
  matches b (off + 8) (wire_euid vnid mac) /\
  matches b (off + 24) (wire_ip ip) /\
  matches b (off + 24 + length (wire_ip ip)) (wire_tunnel_list (tunnels tl)) /\
  fits (wire_tunnel_list (tunnels tl)).
Proof.
  pose proof Hmac as [Hl _]. pose proof Hm as H. apply matches_tlv_body in H.
  rewrite !matches_app in H. destruct H as (H1 & H2 & H3 & H4).
  rewrite (load32_w32 _ _ _ H1), u32_small by done.
  split_and!; [done | | | |].
  - eapply matches_at; [exact H2 | len].
  - eapply matches_at; [exact H3 | len].
  - eapply matches_at; [exact H4 | len].
  - unfold fits, wire_loc in *. len.
Qed.

Lemma get_loc_hdr :
  dps_get_tlv_hdr b off =
  Done (mk_tlv_hdr 1 ENDPOINT_LOC_TLV
      (Z.of_nat (length (wire_loc version vnid mac ip tl) - 4))).
Proof.
  unfold wire_loc in *. rewrite (dps_get_tlv_hdr_tlv _ _ _ _ _ Hm Hfit).
  rewrite length_wire_tlv. by rewrite (Nat.add_comm 4), Nat.add_sub.
Qed.

Lemma loc_end_wire :
  loc_end off (Z.of_nat (length (wire_loc version vnid mac ip tl) - 4))
    = Z.of_nat (off + length (wire_loc version vnid mac ip tl)).
Proof.
  pose proof (length_wire_loc version vnid mac ip tl Hmac) as Hl. unfold fits in Hfit.
  unfold loc_end, DPS_TLV_HDR_LEN, DPS_DATA_VER_LEN.
  rewrite u32_small by (unfold in32; lia). lia.
Qed.

(** Location replies and updates are parsed by the same loop, over two
    structures; [loc_item] is its body, over the fields it reads and sets. *)
Context {A : Type} (set_id : Z -> list Z -> A -> A).
Context (ip_of : A -> ip_addr_t) (set_ip : ip_addr_t -> A -> A).
Context (tl_of : A -> dps_tunnel_list_t) (set_tl : dps_tunnel_list_t -> A -> A).
Hypothesis (tl_of_kept : forall v m i s, tl_of (set_ip i (set_id v m s)) = tl_of s).
Hypothesis (set_tl_of : forall s, set_tl (tl_of s) s = s).

Definition loc_item (cur : nat) (c : A) : out (ctl * nat * A) :=
  let* hdr := dps_get_tlv_hdr b cur in
  if (th_type hdr =? EUID_TLV)%Z then
    let* (vnid, mac, n) := dps_get_euid_tlv b cur in
    Done (Go, cur + n, set_id vnid mac c)
  else if (th_type hdr =? IP_ADDR_TLV)%Z then
    let* (ip, n) := dps_get_ip_tlv b cur (ip_of c) in
    Done (Go, cur + n, set_ip ip c)
  else if (th_type hdr =? TUNNEL_LIST_TLV)%Z then
    let* (tl, n) := dps_get_tunnel_list_tlv fuel b cur cap (tl_tunnel_list (tl_of c)) in
    Done (Go, cur + n, set_tl tl c)
  else Done (Exit, cur, c).

Lemma loc_item_euid c :
  loc_item (off + 8) c = Done (Go, off + 24, set_id vnid mac c).
Proof.
  destruct loc_pieces as (_ & He & _). destruct Hmac as [Hl _]. unfold loc_item.
  destruct (tlv_type _ _ _ _ _ He) as (h & -> & Th). cbn [obind]. rewrite Th.
  change (u8 EUID_TLV =? EUID_TLV)%Z with true. cbn iota.
  rewrite (dps_get_euid_tlv_wire _ _ _ _ He) by done. cbn [obind].
  by rewrite length_wire_euid, Hl, <- Nat.add_assoc.
Qed.

Lemma loc_item_ip c :
  exists ip', ip' ≡ ip /\
  loc_item (off + 24) c = Done (Go, off + 24 + length (wire_ip ip), set_ip ip' c).
Proof.
  destruct loc_pieces as (_ & _ & Hi & _). unfold loc_item.
  destruct (tlv_type_ip _ _ _ Hi Hk) as (h & -> & Th). cbn [obind]. rewrite Th.
  change (IP_ADDR_TLV =? EUID_TLV)%Z with false.
  change (IP_ADDR_TLV =? IP_ADDR_TLV)%Z with true. cbn iota.
  destruct (dps_get_ip_tlv_wire _ _ _ (ip_of c) Hi Hip Hk) as (ip' & -> & E).
  by exists ip'.
Qed.

Lemma loc_item_tunnels c :
  tunnels tl <> [] ->
  exists tl', tl' ≡ tl /\
  loc_item (off + 24 + length (wire_ip ip)) c =
  Done (Go, off + length (wire_loc version vnid mac ip tl), set_tl tl' c).
Proof.
  intros Hne. destruct loc_pieces as (_ & _ & _ & Hmt & Hft). unfold loc_item.
  destruct (wire_tunnel_list_type _ _ _ Hne Hmt) as (h & -> & Th). cbn [obind].
  rewrite Th. change (TUNNEL_LIST_TLV =? EUID_TLV)%Z with false.
  change (TUNNEL_LIST_TLV =? IP_ADDR_TLV)%Z with false.
  change (TUNNEL_LIST_TLV =? TUNNEL_LIST_TLV)%Z with true. cbn iota.
  destruct (get_tunnels_item fuel b _ cap tl (tl_of c) Hmt Hft Htl Hne) as (tl' & -> & E).
  exists tl'. split; [done|]. cbn [obind]. by rewrite (length_wire_loc version vnid mac ip tl Hmac), !Nat.add_assoc.
Qed.

Lemma loc_loop c0 :
  tunnels (tl_of c0) = [] ->
  exists ip' tl', ip' ≡ ip /\ tl' ≡ tl /\
  while fuel (loc_end off (Z.of_nat (length (wire_loc version vnid mac ip tl) - 4)))
    loc_item (off + 8) c0
    = Done (Go, off + length (wire_loc version vnid mac ip tl),
    set_tl tl' (set_ip ip' (set_id vnid mac c0))).
Proof.
  intros H0. pose proof (length_wire_loc version vnid mac ip tl Hmac) as Hl. pose proof (length_wire_ip_pos _ Hk) as Hi.
  rewrite loc_end_wire. loop_step (loc_item_euid c0).
  destruct (loc_item_ip (set_id vnid mac c0)) as (ip' & Eip & E2). loop_step E2.
  exists ip'. destruct (decide (tunnels tl = [])) as [E|E].
  - rewrite E in Hl. cbn [wire_tunnel_list length] in Hl. rewrite while_end by lia.
    exists (tl_of c0). split_and!; [done | |].
    + unfold equiv, tunnel_list_equiv. by rewrite H0, E.
    + rewrite <- (tl_of_kept vnid mac ip' c0), set_tl_of.
      by rewrite Hl, Nat.add_0_r, Nat.add_assoc.
  - pose proof (length_wire_tunnel_list_pos _ E).
    destruct (loc_item_tunnels (set_ip ip' (set_id vnid mac c0)) E) as (tl' & Et & E3).
    loop_step E3. rewrite while_end by lia. by exists tl'.
Qed.
End endpoint_loc.

(** *** Location replies and updates *)
#[export] Instance endpoint_loc_reply_equiv : Equiv dps_endpoint_loc_reply_t :=
  fun c c' => elr_vnid c = elr_vnid c' /\ elr_mac c = elr_mac c' /\
    elr_version c = elr_version c' /\ elr_vm_ip_addr c ≡ elr_vm_ip_addr c' /\
    elr_tunnel_info c ≡ elr_tunnel_info c'.
#[export] Instance endpoint_update_equiv : Equiv dps_endpoint_update_t :=
  fun c c' => eu_vnid c = eu_vnid c' /\ eu_mac c = eu_mac c' /\
    eu_version c = eu_version c' /\ eu_vm_ip_addr c ≡ eu_vm_ip_addr c' /\
    eu_tunnel_info c ≡ eu_tunnel_info c'.

(** What a location must satisfy to be transmitted whole. *)
Definition loc_ok (cap fuel : nat) (version vnid : Z) (mac : list Z) (ip : ip_addr_t)
  (tl : dps_tunnel_list_t) : Prop :=
  in32 version /\ in32 vnid /\ wf_mac mac /\ wf_addr ip /\ known_ip ip /\
  tunnels_ok cap fuel tl /\ 3 < fuel /\ fits (wire_loc version vnid mac ip tl).

Lemma dps_get_endpoint_loc_reply_tlv_wire fuel b off cap c c0 :
  loc_ok cap fuel (elr_version c) (elr_vnid c) (elr_mac c) (elr_vm_ip_addr c)
    (elr_tunnel_info c) ->
  matches b off (wire_endpoint_loc_reply c) -> tunnels (elr_tunnel_info c0) = [] ->
  exists c', dps_get_endpoint_loc_reply_tlv fuel b off cap c0 =
             Done (c', length (wire_endpoint_loc_reply c)) /\ c' ≡ c.
Proof.
  intros (Hver & Hv & Hmac & Hip & Hk & Ht & Hf & Hfit) Hm Hc0.
  unfold wire_endpoint_loc_reply in *. unfold dps_get_endpoint_loc_reply_tlv.
  rewrite (get_loc_hdr _ _ _ _ _ _ _ Hm Hfit). cbn [obind th_len].
  edestruct (loc_pieces (elr_version c)) as (Ev & _); try done.
  unfold DPS_TLV_HDR_LEN, DPS_DATA_VER_LEN. rewrite Ev. cbn [obind].
  rewrite <- Nat.add_assoc.
  destruct (loc_loop (elr_version c) (elr_vnid c) (elr_mac c) (elr_vm_ip_addr c)
    (elr_tunnel_info c) b off cap fuel Hver Hv Hmac Hip Hk Ht Hf Hm Hfit
    (fun v m c => mk_endpoint_loc_reply v m (elr_vm_ip_addr c) (elr_version c)
                    (elr_tunnel_info c)) elr_vm_ip_addr
    (fun i c => mk_endpoint_loc_reply (elr_vnid c) (elr_mac c) i (elr_version c)
                    (elr_tunnel_info c)) elr_tunnel_info
    (fun t c => mk_endpoint_loc_reply (elr_vnid c) (elr_mac c) (elr_vm_ip_addr c)
                    (elr_version c) t) ltac:(done) ltac:(by intros [])
    (mk_endpoint_loc_reply (elr_vnid c0) (elr_mac c0) (elr_vm_ip_addr c0)
             (elr_version c) (elr_tunnel_info c0)) Hc0) as (ip' & tl' & Ei & Et & E).
  change (get_endpoint_loc_item fuel b cap) with (loc_item b cap fuel
    (fun v m c => mk_endpoint_loc_reply v m (elr_vm_ip_addr c) (elr_version c)
                    (elr_tunnel_info c)) elr_vm_ip_addr
    (fun i c => mk_endpoint_loc_reply (elr_vnid c) (elr_mac c) i (elr_version c)
                    (elr_tunnel_info c)) elr_tunnel_info
    (fun t c => mk_endpoint_loc_reply (elr_vnid c) (elr_mac c) (elr_vm_ip_addr c)
                    (elr_version c) t)).
  change (4 + 4) with 8. rewrite E. cbn [obind].
  eexists. split; [do 2 f_equal; lia|]. by split_and!.
Qed.

Lemma dps_get_endpoint_update_tlv_wire fuel b off cap c c0 :
  loc_ok cap fuel (eu_version c) (eu_vnid c) (eu_mac c) (eu_vm_ip_addr c)
    (eu_tunnel_info c) ->
  matches b off (wire_endpoint_update c) -> tunnels (eu_tunnel_info c0) = [] ->
  exists c', dps_get_endpoint_update_tlv fuel b off cap c0 =
             Done (c', length (wire_endpoint_update c)) /\ c' ≡ c
             /\ eu_dps_client_addr c' = eu_dps_client_addr c0.
Proof.
  intros (Hver & Hv & Hmac & Hip & Hk & Ht & Hf & Hfit) Hm Hc0.
  unfold wire_endpoint_update in *. unfold dps_get_endpoint_update_tlv.
  rewrite (get_loc_hdr _ _ _ _ _ _ _ Hm Hfit). cbn [obind th_len].
  edestruct (loc_pieces (eu_version c)) as (Ev & _); try done.
  unfold DPS_TLV_HDR_LEN, DPS_DATA_VER_LEN. rewrite Ev. cbn [obind].
  rewrite <- Nat.add_assoc.
  set (set_id := fun v m c => mk_endpoint_update v m (eu_version c) (eu_vm_ip_addr c)
                    (eu_dps_client_addr c) (eu_tunnel_info c)).
  set (set_ip := fun i c => mk_endpoint_update (eu_vnid c) (eu_mac c) (eu_version c) i
                    (eu_dps_client_addr c) (eu_tunnel_info c)).
  set (set_tl := fun t c => mk_endpoint_update (eu_vnid c) (eu_mac c) (eu_version c)
                    (eu_vm_ip_addr c) (eu_dps_client_addr c) t).
  destruct (loc_loop (eu_version c) (eu_vnid c) (eu_mac c) (eu_vm_ip_addr c)
    (eu_tunnel_info c) b off cap fuel Hver Hv Hmac Hip Hk Ht Hf Hm Hfit
    set_id eu_vm_ip_addr set_ip eu_tunnel_info set_tl ltac:(done) ltac:(by intros [])
    (mk_endpoint_update (eu_vnid c0) (eu_mac c0) (eu_version c) (eu_vm_ip_addr c0)
       (eu_dps_client_addr c0) (eu_tunnel_info c0)) Hc0) as (ip' & tl' & Ei & Et & E).
  change (get_endpoint_update_item fuel b cap)
    with (loc_item b cap fuel set_id eu_vm_ip_addr set_ip eu_tunnel_info set_tl).
  change (4 + 4) with 8. rewrite E. cbn [obind].
  eexists. split; [do 2 f_equal; lia|]. by split_and!.
Qed.

(** *** Endpoint information *)
#[export] Instance endpoint_info_equiv : Equiv dps_endpoint_info_t := fun c c' =>
  ei_vnid c = ei_vnid c' /\ ei_mac c = ei_mac c' /\
  ei_vm_ip_addr c ≡ ei_vm_ip_addr c'.

Definition wf_endpoint_info (c : dps_endpoint_info_t) : Prop :=
  in32 (ei_vnid c) /\ wf_mac (ei_mac c) /\ wf_addr (ei_vm_ip_addr c) /\
  known_ip (ei_vm_ip_addr c).

Lemma wire_ip_known a :
  known_ip a -> (if (ia_family a =? AF_INET6)%Z then wire_ip6 (ia_ip a)
                 else wire_ip4 (ia_ip4 a)) = wire_ip a.
Proof.
  intros Hk. unfold wire_ip. destruct (is_v4 (ia_family a)) eqn:E.
  - destruct (Z.eqb_spec (ia_family a) AF_INET6) as [E6|]; [by rewrite E6 in E | done].
  - destruct Hk as [Hk|Hk]; [congruence|]. by rewrite Hk.
Qed.

Lemma dps_get_endpoint_info_tlv_wire b off c c0 :
  wf_endpoint_info c -> matches b off (wire_endpoint_info c) ->
  exists c', dps_get_endpoint_info_tlv b off c0 =
             Done (c', length (wire_endpoint_info c)) /\ c' ≡ c.
Proof.
  intros (Hv & [Hl _] & Ha & Hk) Hm. unfold wire_endpoint_info in *.
  rewrite wire_ip_known in * by done. rewrite length_wire_tlv.
  unfold dps_get_endpoint_info_tlv.
  apply matches_tlv_body in Hm. rewrite !matches_app in Hm.
  destruct Hm as (H1 & H2 & _ & H3). unfold DPS_TLV_HDR_LEN, DPS_VNID_LEN in *.
  rewrite (load32_w32 _ _ _ H1), u32_small by done. cbn [obind].
  apply (matches_at _ _ (off + 8)) in H2; [|len].
  apply (matches_at _ _ (off + 16)) in H3; [|len].
  rewrite (loadn_matches _ _ _ _ H2) by (by rewrite Hl).
  cbn [obind].
  destruct (dps_get_ip_tlv_wire _ _ _ (ei_vm_ip_addr c0) H3 Ha Hk) as (ip' & E & Hip).
  unfold DPS_MAC_ADDR_LEN. simpl (4 + 4 + (6 + 2)). rewrite E. cbn [obind].
  eexists. split; [do 2 f_equal; len|]. by split_and!.
Qed.
