(* ===== verification/Msg.v ===== *)
(** * Messages: the packet each message type becomes

    [wire_body] gives the TLVs of a message by the member of the union in use,
    [well_typed] which member each message type uses, and [body_ok] what the
    members must satisfy: arrays as long as their counters say, addresses of a
    family the protocol knows. *)
From S2P Require Export WireSet WireGet.

(** The DPS client's address is only encoded when its family is set. *)
Definition wire_client (a : ip_addr_t) : pat :=
  if ((ia_family a =? AF_INET) || (ia_family a =? AF_INET6))%Z
  then wire_svcloc a else [].

Definition wire_loc_req (c : dps_endpoint_loc_req_t) : pat :=
  wire_euid (elq_vnid c) (elq_mac c)
  ++ (if (ia_family (elq_vm_ip_addr c) =? AF_INET)%Z
      then wire_ip4 (ia_ip4 (elq_vm_ip_addr c))
      else if (ia_family (elq_vm_ip_addr c) =? AF_INET6)%Z
      then wire_ip6 (ia_ip (elq_vm_ip_addr c)) else [])
  ++ wire_client (elq_dps_client_addr c).
Definition wire_policy_req (c : dps_policy_req_t) : pat :=
  wire_endpoint_info (pq_dst_endpoint c) ++ wire_endpoint_info (pq_src_endpoint c)
  ++ wire_client (pq_dps_client_addr c).
Definition wire_vm_migration (c : dps_vm_migration_event_t) : pat :=
  wire_endpoint_info (vm_migrated_vm_info c)
  ++ wire_endpoint_loc_reply (vm_src_vm_loc c).
Definition wire_mcast_sender (c : dps_mcast_sender_t) : pat :=
  wire_ip (ms_tunnel_endpoint c) ++ wire_endpoint_info (ms_mcast_src_vm c)
  ++ wire_mcast_addr (ms_mcast_addr c) ++ wire_client (ms_dps_client_addr c).
Definition wire_mcast_receiver (c : dps_mcast_receiver_t) : pat :=
  wire_ip (mr_tunnel_endpoint c) ++ wire_mcast_grp_rec (mr_mcast_group_rec c)
  ++ wire_client (mr_dps_client_addr c).
Definition ds_lists (c : dps_mcast_receiver_ds_list_t) : list dps_pkd_tunnel_list_t :=
  counted (md_num_of_rec c) (md_mcast_recvr_list c).
Definition wire_ds_list (c : dps_mcast_receiver_ds_list_t) : pat :=
  wire_mcast_addr (md_mcast_addr c) ++ concat (wire_vnid_tunnel_list <$> ds_lists c).

Definition wire_body (c : dps_client_data_t) : pat :=
  match cd_body c with
  | Body_none => []
  | Body_endpoint_loc_req x | Body_address_resolve x => wire_loc_req x
  | Body_endpoint_loc_reply x => wire_endpoint_loc_reply x
  | Body_policy_req x => wire_policy_req x
  | Body_policy_reply x => wire_policy_reply x (cd_hdr c)
  | Body_endpoint_update x => wire_endpoint_update x ++ wire_client (eu_dps_client_addr x)
  | Body_endpoint_update_reply x => wire_endpoint_update_reply x
  | Body_internal_gw_list x => wire_packed (gw_num_v4_gw x) (gw_num_v6_gw x) (gw_gw_list x)
  | Body_bulk_vnid_policy x => wire_bulk x
  | Body_gen_msg_req x => wire_client (gm_dps_client_addr x)
  | Body_dove_switch_list x =>
      wire_packed (pk_num_v4_tunnels x) (pk_num_v6_tunnels x) (pk_tunnel_list x)
  | Body_vm_migration_event x => wire_vm_migration x
  | Body_mcast_sender x => wire_mcast_sender x
  | Body_mcast_receiver x => wire_mcast_receiver x
  | Body_mcast_receiver_ds_list x => wire_ds_list x
  | Body_tunnel_info x => wire_tunnel_list (tunnels x)
  | Body_tunnel_reg_dereg x =>
      wire_tunnel_list (tunnels (tr_tunnel_info x)) ++ wire_client (tr_dps_client_addr x)
  | Body_vm_invalidate_msg x => wire_epri x
  end.

(** Which member of the union a message type uses. *)
Definition well_typed (ty : Z) (b : dps_client_body) : bool :=
  let ty_in l := existsb (Z.eqb ty) l in
  match b with
  | Body_endpoint_loc_req _ => ty_in [DPS_ENDPOINT_LOC_REQ]
  | Body_address_resolve _ => ty_in [DPS_ADDR_RESOLVE]
  | Body_endpoint_loc_reply _ =>
      ty_in [DPS_ENDPOINT_LOC_REPLY; DPS_UNSOLICITED_ENDPOINT_LOC_REPLY]
  | Body_policy_req _ => ty_in [DPS_POLICY_REQ]
  | Body_policy_reply _ => ty_in [DPS_POLICY_REPLY]
  | Body_endpoint_update _ => ty_in [DPS_ENDPOINT_UPDATE]
  | Body_endpoint_update_reply _ => ty_in [DPS_ENDPOINT_UPDATE_REPLY]
  | Body_internal_gw_list _ =>
      ty_in [DPS_INTERNAL_GW_REPLY; DPS_UNSOLICITED_INTERNAL_GW_REPLY]
  | Body_gen_msg_req _ =>
      ty_in [DPS_BCAST_LIST_REQ; DPS_EXTERNAL_GW_LIST_REQ; DPS_VLAN_GW_LIST_REQ;
             DPS_INTERNAL_GW_REQ; DPS_VNID_POLICY_LIST_REQ;
             DPS_UNSOLICITED_VNID_DEL_REQ; DPS_MCAST_CTRL_GW_REQ; DPS_CTRL_PLANE_HB]
  | Body_dove_switch_list _ =>
      ty_in [DPS_BCAST_LIST_REPLY; DPS_UNSOLICITED_BCAST_LIST_REPLY]
  | Body_bulk_vnid_policy _ =>
      ty_in [DPS_UNSOLICITED_VNID_POLICY_LIST; DPS_VNID_POLICY_LIST_REPLY]
  | Body_vm_migration_event _ => ty_in [DPS_VM_MIGRATION_EVENT]
  | Body_mcast_sender _ =>
      ty_in [DPS_MCAST_SENDER_REGISTRATION; DPS_MCAST_SENDER_DEREGISTRATION]
  | Body_mcast_receiver _ => ty_in [DPS_MCAST_RECEIVER_JOIN; DPS_MCAST_RECEIVER_LEAVE]
  | Body_mcast_receiver_ds_list _ => ty_in [DPS_MCAST_RECEIVER_DS_LIST]
  | Body_tunnel_info _ =>
      ty_in [DPS_UNSOLICITED_EXTERNAL_GW_LIST; DPS_UNSOLICITED_VLAN_GW_LIST;
             DPS_EXTERNAL_GW_LIST_REPLY; DPS_VLAN_GW_LIST_REPLY;
             DPS_MCAST_CTRL_GW_REPLY]
  | Body_tunnel_reg_dereg _ => ty_in [DPS_TUNNEL_REGISTER; DPS_TUNNEL_DEREGISTER]
  | Body_vm_invalidate_msg _ => ty_in [DPS_UNSOLICITED_VM_LOC_INFO]
  | Body_none => ty_in [DPS_GENERAL_ACK; DPS_REG_DEREGISTER_ACK]
  end.

(** What a member must satisfy to be encoded.  A policy that is not a
    connectivity policy is only sent with an error status. *)
Definition info_ok (c : dps_endpoint_info_t) : Prop :=
  wf_mac (ei_mac c) /\ wf_addr (ei_vm_ip_addr c).
Definition reply_ok (c : dps_endpoint_loc_reply_t) : Prop :=
  wf_endpoint_loc_reply c /\ known_ip (elr_vm_ip_addr c).
Definition body_ok (c : dps_client_data_t) : Prop :=
  match cd_body c with
  | Body_none => True
  | Body_endpoint_loc_req x | Body_address_resolve x =>
      wf_mac (elq_mac x) /\ wf_addr (elq_vm_ip_addr x) /\ wf_addr (elq_dps_client_addr x)
  | Body_endpoint_loc_reply x => reply_ok x
  | Body_policy_req x =>
      info_ok (pq_dst_endpoint x) /\ info_ok (pq_src_endpoint x)
      /\ wf_addr (pq_dps_client_addr x)
  | Body_policy_reply x =>
      reply_ok (pr_dst_endpoint_loc_reply x)
      /\ wf_policy (pi_dps_policy (pr_dps_policy_info x))
      /\ (pl_policy_type (pi_dps_policy (pr_dps_policy_info x))
            = DPS_POLICY_TYPE_CONNECTIVITY
          \/ ch_resp_status (cd_hdr c) <> DPS_NO_ERR)
  | Body_endpoint_update x =>
      wf_endpoint_update x /\ known_ip (eu_vm_ip_addr x)
      /\ wf_addr (eu_dps_client_addr x)
  | Body_endpoint_update_reply x => wf_endpoint_update_reply x
  | Body_internal_gw_list x => wf_packed (gw_num_v4_gw x) (gw_num_v6_gw x) (gw_gw_list x)
  | Body_bulk_vnid_policy x => wf_bulk x
  | Body_gen_msg_req x => wf_addr (gm_dps_client_addr x)
  | Body_dove_switch_list x =>
      wf_packed (pk_num_v4_tunnels x) (pk_num_v6_tunnels x) (pk_tunnel_list x)
  | Body_vm_migration_event x =>
      info_ok (vm_migrated_vm_info x) /\ reply_ok (vm_src_vm_loc x)
  | Body_mcast_sender x =>
      wf_addr (ms_tunnel_endpoint x) /\ known_ip (ms_tunnel_endpoint x)
      /\ info_ok (ms_mcast_src_vm x) /\ wf_mcast_addr (ms_mcast_addr x)
      /\ wf_addr (ms_dps_client_addr x)
  | Body_mcast_receiver x =>
      wf_addr (mr_tunnel_endpoint x) /\ known_ip (mr_tunnel_endpoint x)
      /\ wf_mcast_grp_rec (mr_mcast_group_rec x) /\ wf_addr (mr_dps_client_addr x)
  | Body_mcast_receiver_ds_list x =>
      wf_mcast_addr (md_mcast_addr x)
      /\ wf_counted (md_num_of_rec x) (md_mcast_recvr_list x)
      /\ Forall (fun t => wf_packed (pk_num_v4_tunnels t) (pk_num_v6_tunnels t)
                            (pk_tunnel_list t)) (ds_lists x)
  | Body_tunnel_info x => wf_tunnels x /\ in16 (tl_num_of_tunnels x)
  | Body_tunnel_reg_dereg x =>
      wf_tunnels (tr_tunnel_info x) /\ in16 (tl_num_of_tunnels (tr_tunnel_info x))
      /\ wf_addr (tr_dps_client_addr x)
  | Body_vm_invalidate_msg x => wf_epri x
  end.

(** A reply that carries an error status is sent without a body. *)
Definition sent_body (c : dps_client_data_t) : pat :=
  match cd_body c with
  | Body_endpoint_loc_reply _ | Body_internal_gw_list _ | Body_dove_switch_list _
  | Body_tunnel_info _ | Body_tunnel_reg_dereg _ =>
      if (ch_resp_status (cd_hdr c) =? 0)%Z then wire_body c else []
  | _ => wire_body c
  end.

(** The status of a failed allocation, and what becomes of the status of the
    transmission. *)
Definition send_err (b : dps_client_body) : Z :=
  match b with Body_bulk_vnid_policy _ => DPS_ERROR_NO_RESOURCES | _ => DPS_ERROR end.
Definition send_status (b : dps_client_body) (status : Z) : Z :=
  match b with
  | Body_policy_reply _ | Body_vm_invalidate_msg _ => DPS_SUCCESS
  | _ => status
  end.
