(* ===== verification/CalcLen.v ===== *)
(** * [calc_pkt_len]: the length a message will have, computed ahead

    The header of most messages is written before their TLVs, with the length
    computed here.  The theorems of this file state that it is the length of
    what the construction functions then store. *)
From S2P Require Export Msg.
#[local] Open Scope Z_scope.

(** ** Lengths of TLVs *)

(** [len] is a [uint32_t]: sums are taken in [Z] and reduced at the end. *)
Fixpoint count_vips (vip : list ip_addr_t) (i n : nat) (j k : Z) : out (Z * Z) :=
  match n with
  | O => Done (j, k)
  | S n' =>
      let* a := arr_read vip i in
      if ia_family a =? AF_INET then count_vips vip (S i) n' (j + 1) k
      else if ia_family a =? AF_INET6 then count_vips vip (S i) n' j (k + 1)
      else count_vips vip (S i) n' j k
  end.

Definition dps_calc_vip_tlv_len (num_of_vip : Z) (vip : list ip_addr_t) : out Z :=
  let* (j, k) := count_vips vip 0 (Z.to_nat num_of_vip) 0 0 in
  let len := 0 in
  let len := if j =? 0 then len else len + (4 + j * 4) in
  let len := if k =? 0 then len else len + (4 + k * 16) in
  Done len.

Fixpoint add_tunnel_lens (tunnel : list dps_tunnel_endpoint_t) (i n : nat) (len : Z)
  : out Z :=
  match n with
  | O => Done len
  | S n' =>
      let* t := arr_read tunnel i in
      if te_family t =? AF_INET
      then add_tunnel_lens tunnel (S i) n' (len + Z.of_nat DPS_IP4_TUNNEL_INFO_LEN)
      else if te_family t =? AF_INET6
      then add_tunnel_lens tunnel (S i) n' (len + Z.of_nat DPS_IP6_TUNNEL_INFO_LEN)
      else add_tunnel_lens tunnel (S i) n' len
  end.

Definition dps_calc_tunnel_tlv_len (num_of_tunnels : Z)
  (tunnel : list dps_tunnel_endpoint_t) : out Z :=
  let len := if num_of_tunnels =? 0 then 0 else Z.of_nat DPS_TLV_HDR_LEN in
  add_tunnel_lens tunnel 0 (Z.to_nat num_of_tunnels) len.

Definition dps_calc_endpoint_loc_reply_tlv_len (c : dps_endpoint_loc_reply_t) : out Z :=
  let len := Z.of_nat (DPS_TLV_HDR_LEN + DPS_EUID_TLV_LEN) + 4 in
  let len :=
    if (ia_family (elr_vm_ip_addr c) =? AF_INET) || (ia_family (elr_vm_ip_addr c) =? 0)
    then len + Z.of_nat DPS_IP4_TLV_LEN else len + Z.of_nat DPS_IP6_TLV_LEN in
  let* t := dps_calc_tunnel_tlv_len (tl_num_of_tunnels (elr_tunnel_info c))
              (tl_tunnel_list (elr_tunnel_info c)) in
  Done (len + t).

Definition DPS_GET_IP_ADDR_TLV_LEN (family : Z) : Z :=
  if family =? AF_INET then Z.of_nat DPS_IP4_TLV_LEN
  else if family =? AF_INET6 then Z.of_nat DPS_IP6_TLV_LEN
  else Z.of_nat DPS_IP4_TLV_LEN.

Definition dps_calc_endpoint_info_tlv_len (c : dps_endpoint_info_t) : Z :=
  Z.of_nat (DPS_TLV_HDR_LEN + DPS_VNID_LEN + DPS_MAC_ADDR_LEN + 2)
  + DPS_GET_IP_ADDR_TLV_LEN (ia_family (ei_vm_ip_addr c)).

(** The [if (AF_INET) ... else if (AF_INET6) ...] on the DPS client's address. *)
Definition client_svcloc_len (a : ip_addr_t) : Z :=
  if ia_family a =? AF_INET then Z.of_nat DPS_SVCLOC4_TLV_LEN
  else if ia_family a =? AF_INET6 then Z.of_nat DPS_SVCLOC6_TLV_LEN else 0.

(** A pair of packed address lists. *)
Definition packed_len (n4 n6 : Z) : Z :=
  (if n4 =? 0 then 0 else 4 + n4 * 4) + (if n6 =? 0 then 0 else 4 + n6 * 16).

Definition mcast_addr_len (m : dps_mcast_addr_t) : Z :=
  Z.of_nat (DPS_TLV_HDR_LEN + DPS_VMAC_TLV_LEN)
  + (if ma_mcast_addr_type m =? MCAST_ADDR_V6 then Z.of_nat DPS_IP6_TLV_LEN
     else Z.of_nat DPS_IP4_TLV_LEN).

(** A list of tunnels of unknown families: the worst case is allocated. *)
Definition tunnel_list_bound (tl : dps_tunnel_list_t) : Z :=
  if tl_num_of_tunnels tl =? 0 then 0 else 4 + tl_num_of_tunnels tl * 28.

(** ** Lengths of messages *)
Definition calc_policy_len (p : dps_policy_info_t) : Z :=
  let pl := pi_dps_policy p in
  let len := Z.of_nat (DPS_TLV_HDR_LEN + DPS_POLICY_ID_TLV_LEN) in
  let len := len + Z.of_nat DPS_TLV_HDR_LEN in
  if pl_policy_type pl =? DPS_POLICY_TYPE_CONNECTIVITY then
    let len := len + 4 in
    let len := len + (pl_num_permit_rules pl + pl_num_deny_rules pl) * 8 in
    let len := if pl_num_permit_rules pl =? 0 then len else len + 4 in
    if pl_num_deny_rules pl =? 0 then len else len + 4
  else if pl_policy_type pl =? DPS_POLICY_TYPE_SOURCE_ROUTING then
    let len := len + 4 in
    if pl_version pl =? AF_INET then len + 4 * pl_address_count pl
    else len + 16 * pl_address_count pl
  else len.

(** The [switch] on the message type; each case adds to [DPS_PKT_HDR_LEN]. *)
Definition calc_body_len (pkt_type : Z) (req : dps_client_data_t) : out Z :=
  let ty_in l := existsb (Z.eqb pkt_type) l in
  let body := cd_body req in
  if ty_in [DPS_ENDPOINT_LOC_REQ; DPS_ADDR_RESOLVE] then
    let* msg := as_endpoint_loc_req body in
    let fam := ia_family (elq_vm_ip_addr msg) in
    Done (Z.of_nat DPS_EUID_TLV_LEN
          + (if fam =? AF_INET then Z.of_nat DPS_IP4_TLV_LEN
             else if fam =? AF_INET6 then Z.of_nat DPS_IP6_TLV_LEN else 0)
          + client_svcloc_len (elq_dps_client_addr msg))
  else if ty_in [DPS_ENDPOINT_LOC_REPLY; DPS_UNSOLICITED_ENDPOINT_LOC_REPLY] then
    let* msg := as_endpoint_loc_reply body in
    dps_calc_endpoint_loc_reply_tlv_len msg
  else if ty_in [DPS_POLICY_REQ] then
    let* msg := as_policy_req body in
    Done (dps_calc_endpoint_info_tlv_len (pq_dst_endpoint msg)
          + dps_calc_endpoint_info_tlv_len (pq_src_endpoint msg)
          + client_svcloc_len (pq_dps_client_addr msg))
  else if ty_in [DPS_POLICY_REPLY] then
    let* msg := as_policy_reply body in
    let* l := dps_calc_endpoint_loc_reply_tlv_len (pr_dst_endpoint_loc_reply msg) in
    Done (l + if ch_resp_status (cd_hdr req) =? DPS_NO_ERR
              then calc_policy_len (pr_dps_policy_info msg) else 0)
  else if ty_in [DPS_ENDPOINT_UPDATE] then
    let* msg := as_endpoint_update body in
    let fam := ia_family (eu_vm_ip_addr msg) in
    let* t := dps_calc_tunnel_tlv_len (tl_num_of_tunnels (eu_tunnel_info msg))
                (tl_tunnel_list (eu_tunnel_info msg)) in
    Done (Z.of_nat (DPS_TLV_HDR_LEN + DPS_EUID_TLV_LEN + DPS_DATA_VER_LEN)
          + (if (fam =? AF_INET) || (fam =? 0) then Z.of_nat DPS_IP4_TLV_LEN
             else Z.of_nat DPS_IP6_TLV_LEN)
          + t + client_svcloc_len (eu_dps_client_addr msg))
  else if ty_in [DPS_ENDPOINT_UPDATE_REPLY] then
    let* msg := as_endpoint_update_reply body in
    let* v := dps_calc_vip_tlv_len (eur_num_of_vip msg) (eur_vm_ip_addr msg) in
    let* t := dps_calc_tunnel_tlv_len (tl_num_of_tunnels (eur_tunnel_info msg))
                (tl_tunnel_list (eur_tunnel_info msg)) in
    Done (Z.of_nat (DPS_TLV_HDR_LEN + DPS_EUID_TLV_LEN + DPS_DATA_VER_LEN) + v + t)
  else if ty_in [DPS_INTERNAL_GW_REPLY; DPS_UNSOLICITED_INTERNAL_GW_REPLY] then
    let* msg := as_internal_gw_list body in
    Done (packed_len (gw_num_v4_gw msg) (gw_num_v6_gw msg))
  else if ty_in [DPS_BCAST_LIST_REQ; DPS_EXTERNAL_GW_LIST_REQ; DPS_VLAN_GW_LIST_REQ;
              DPS_INTERNAL_GW_REQ; DPS_VNID_POLICY_LIST_REQ;
              DPS_UNSOLICITED_VNID_DEL_REQ; DPS_MCAST_CTRL_GW_REQ;
              DPS_CTRL_PLANE_HB] then
    let* msg := as_gen_msg_req body in
    Done (client_svcloc_len (gm_dps_client_addr msg))
  else if ty_in [DPS_BCAST_LIST_REPLY; DPS_UNSOLICITED_BCAST_LIST_REPLY] then
    let* msg := as_dove_switch_list body in
    Done (packed_len (pk_num_v4_tunnels msg) (pk_num_v6_tunnels msg))
  else if ty_in [DPS_UNSOLICITED_VNID_POLICY_LIST; DPS_VNID_POLICY_LIST_REPLY] then
    let* msg := as_bulk_vnid_policy body in
    Done (4 + (bp_num_permit_rules msg + bp_num_deny_rules msg) * 8)
  else if ty_in [DPS_VM_MIGRATION_EVENT] then
    let* msg := as_vm_migration_event body in
    let* l := dps_calc_endpoint_loc_reply_tlv_len (vm_src_vm_loc msg) in
    Done (l + dps_calc_endpoint_info_tlv_len (vm_migrated_vm_info msg))
  else if ty_in [DPS_MCAST_SENDER_REGISTRATION; DPS_MCAST_SENDER_DEREGISTRATION] then
    let* msg := as_mcast_sender body in
    Done (DPS_GET_IP_ADDR_TLV_LEN (ia_family (ms_tunnel_endpoint msg))
          + dps_calc_endpoint_info_tlv_len (ms_mcast_src_vm msg)
          + mcast_addr_len (ms_mcast_addr msg)
          + client_svcloc_len (ms_dps_client_addr msg))
  else if ty_in [DPS_MCAST_RECEIVER_JOIN; DPS_MCAST_RECEIVER_LEAVE] then
    let* msg := as_mcast_receiver body in
    let g := mr_mcast_group_rec msg in
    Done (DPS_GET_IP_ADDR_TLV_LEN (ia_family (mr_tunnel_endpoint msg))
          + Z.of_nat DPS_TLV_HDR_LEN + mcast_addr_len (mg_mcast_addr g)
          + (if mg_num_of_srcs g =? 0 then 0
             else (if mg_family g =? AF_INET then 4 + mg_num_of_srcs g * 4 else 0)
                  + (if mg_family g =? AF_INET6 then 4 + mg_num_of_srcs g * 16 else 0))
          + client_svcloc_len (mr_dps_client_addr msg))
  else if ty_in [DPS_UNSOLICITED_EXTERNAL_GW_LIST; DPS_UNSOLICITED_VLAN_GW_LIST;
              DPS_EXTERNAL_GW_LIST_REPLY; DPS_VLAN_GW_LIST_REPLY;
              DPS_MCAST_CTRL_GW_REPLY] then
    let* msg := as_tunnel_info body in Done (tunnel_list_bound msg)
  else if ty_in [DPS_TUNNEL_REGISTER; DPS_TUNNEL_DEREGISTER] then
    let* msg := as_tunnel_reg_dereg body in
    Done (tunnel_list_bound (tr_tunnel_info msg) + Z.of_nat DPS_SVCLOC6_TLV_LEN)
  else Done 0.

Definition calc_pkt_len (pkt_type : Z) (req : dps_client_data_t) : out Z :=
  let* n := calc_body_len pkt_type req in
  Done (u32 (Z.of_nat DPS_PKT_HDR_LEN + n)).

(** ** The lengths are those of the encodings *)
Lemma count_vips_spec vip i n j k :
  (i + n <= length vip)%nat ->
  count_vips vip i n j k =
  Done (j + Z.of_nat (length (vips4 (take n (drop i vip)))),
        k + Z.of_nat (length (vips6 (take n (drop i vip))))).
Proof.
  revert i j k. induction n as [|n IH]; intros i j k Hi.
  - simpl. by rewrite !Z.add_0_r.
  - destruct (lookup_lt_is_Some_2 vip i) as [a Ha]; [lia|]. cbn [count_vips].
    unfold arr_read. rewrite Ha. cbn [of_option obind].
    rewrite (drop_S _ _ _ Ha). cbn [take].
    destruct (vips_cons a (take n (drop (S i) vip))) as [-> ->].
    destruct (Z.eqb_spec (ia_family a) AF_INET) as [E|E].
    + rewrite decide_True, decide_False by (rewrite ?E; done).
      rewrite IH by lia. simpl length. do 2 f_equal; lia.
    + rewrite (decide_False (P := ia_family a = AF_INET)) by done.
      destruct (Z.eqb_spec (ia_family a) AF_INET6) as [E'|E'].
      * rewrite decide_True by done. rewrite IH by lia. simpl length. do 2 f_equal; lia.
      * rewrite decide_False by done. by rewrite IH by lia.
Qed.

Lemma length_unless_empty {A} (l : list A) p :
  length (unless_empty l p) = if decide (length l = 0%nat) then 0%nat else length p.
Proof. unfold unless_empty. by case_decide. Qed.

Lemma length_ipv4_list l : length (wire_ipv4_list l) = (4 + length l * 4)%nat.
Proof. unfold wire_ipv4_list. rewrite length_wire_tlv, (length_concat_fmap _ 4); done. Qed.
Lemma length_ipv6_list bs : length (wire_ipv6_list bs) = (4 + length bs)%nat.
Proof. unfold wire_ipv6_list. len. Qed.

Lemma vip_tlv_len_spec num vip :
  wf_counted num vip -> Forall wf_addr (counted num vip) ->
  let vips := counted num vip in
  dps_calc_vip_tlv_len num vip =
  Done (Z.of_nat (length (unless_empty (vips4 vips) (wire_ipv4_list (vips4 vips)))
                  + length (unless_empty (vips6 vips)
                              (wire_ipv6_list (concat (vips6 vips)))))).
Proof.
  intros [H0 Hc] Hf vips. unfold dps_calc_vip_tlv_len.
  rewrite count_vips_spec by lia. rewrite drop_0. fold (counted num vip). fold vips.
  cbn [obind]. rewrite !length_unless_empty, length_ipv4_list, length_ipv6_list.
  rewrite length_vips6 by done. rewrite !Z.add_0_l.
  destruct (Z.eqb_spec (Z.of_nat (length (vips4 vips))) 0), (Z.eqb_spec (Z.of_nat (length (vips6 vips))) 0);
    repeat case_decide; try lia; f_equal; lia.
Qed.

Lemma add_tunnel_lens_spec l i n acc :
  (i + n <= length l)%nat -> Forall wf_tunnel (take n (drop i l)) ->
  add_tunnel_lens l i n acc =
  Done (acc + Z.of_nat (length (concat (wire_tunnel <$> take n (drop i l))))).
Proof.
  revert i acc. induction n as [|n IH]; intros i acc Hi Hf.
  - simpl. by rewrite Z.add_0_r.
  - destruct (lookup_lt_is_Some_2 l i) as [t Ht]; [lia|]. cbn [add_tunnel_lens].
    unfold arr_read. rewrite Ht. cbn [of_option obind].
    rewrite (drop_S _ _ _ Ht) in *. cbn [take] in *.
    apply Forall_cons_1 in Hf as [[[Hl _] _] Hf].
    rewrite fmap_cons. cbn [concat]. rewrite length_app. unfold wire_tunnel at 1.
    destruct (te_family t =? AF_INET); [|destruct (te_family t =? AF_INET6)];
      rewrite IH by (done || lia); f_equal; rewrite <- Z.add_assoc; f_equal;
      rewrite Nat2Z.inj_add; f_equal; try done.
    unfold wire_tunnel_ip6. len.
Qed.

Lemma tunnel_tlv_len_spec tl :
  wf_tunnels tl ->
  dps_calc_tunnel_tlv_len (tl_num_of_tunnels tl) (tl_tunnel_list tl) =
  Done (Z.of_nat (length (wire_tunnel_list (tunnels tl)))).
Proof.
  intros [[H0 Hc] Hf]. unfold dps_calc_tunnel_tlv_len, tunnels, counted in *.
  rewrite add_tunnel_lens_spec by (rewrite ?drop_0; done || lia). rewrite drop_0.
  pose proof (length_take (tl_tunnel_list tl) (Z.to_nat (tl_num_of_tunnels tl))) as Hl.
  unfold wire_tunnel_list. destruct (take _ _) as [|t ts] eqn:E.
  - simpl in *. destruct (Z.eqb_spec (tl_num_of_tunnels tl) 0); [done | lia].
  - rewrite <- E in *. rewrite length_wire_tlv.
    destruct (Z.eqb_spec (tl_num_of_tunnels tl) 0) as [E0|E0].
    + rewrite E0 in E. done.
    + f_equal. unfold DPS_TLV_HDR_LEN. lia.
Qed.

Lemma length_wire_ip a :
  known_ip a -> length (ia_ip a) = 16%nat ->
  Z.of_nat (length (wire_ip a)) =
  (if (ia_family a =? AF_INET) || (ia_family a =? 0) then Z.of_nat DPS_IP4_TLV_LEN
   else Z.of_nat DPS_IP6_TLV_LEN).
Proof.
  intros Hk Hl. unfold wire_ip, is_v4 in *.
  destruct (_ || _) eqn:E; [done|]. destruct Hk as [Hk|Hk]; [unfold is_v4 in Hk; congruence|].
  rewrite Hk, Z.eqb_refl. rewrite length_wire_ip6, Hl. done.
Qed.

Lemma loc_len_spec version vnid mac ip tl :
  wf_loc mac ip tl -> known_ip ip ->
  Z.of_nat (length (wire_loc version vnid mac ip tl)) =
  Z.of_nat (DPS_TLV_HDR_LEN + DPS_EUID_TLV_LEN) + 4
  + (if (ia_family ip =? AF_INET) || (ia_family ip =? 0)
     then Z.of_nat DPS_IP4_TLV_LEN else Z.of_nat DPS_IP6_TLV_LEN)
  + Z.of_nat (length (wire_tunnel_list (tunnels tl))).
Proof.
  intros (Hm & [[Hl _] _] & Ht) Hk. rewrite <- length_wire_ip, length_wire_loc by done.
  unfold DPS_EUID_TLV_LEN, DPS_TLV_HDR_LEN. lia.
Qed.

Lemma loc_reply_len_spec c :
  reply_ok c ->
  dps_calc_endpoint_loc_reply_tlv_len c =
  Done (Z.of_nat (length (wire_endpoint_loc_reply c))).
Proof.
  intros [Hwf Hk]. unfold wire_endpoint_loc_reply, dps_calc_endpoint_loc_reply_tlv_len.
  rewrite loc_len_spec by done. rewrite tunnel_tlv_len_spec by apply Hwf. cbn [obind].
  by destruct (_ || _).
Qed.

Lemma endpoint_info_len_spec c :
  info_ok c ->
  dps_calc_endpoint_info_tlv_len c = Z.of_nat (length (wire_endpoint_info c)).
Proof.
  intros [[Hm _] [[Hi _] _]]. unfold dps_calc_endpoint_info_tlv_len, wire_endpoint_info.
  unfold DPS_GET_IP_ADDR_TLV_LEN.
  destruct (Z.eqb_spec (ia_family (ei_vm_ip_addr c)) AF_INET) as [E|E].
  - rewrite E. change (AF_INET =? AF_INET6) with false. len.
  - destruct (_ =? AF_INET6); len.
Qed.

Lemma client_svcloc_len_spec a :
  length (ia_ip a) = 16%nat ->
  client_svcloc_len a = Z.of_nat (length (wire_client a)).
Proof.
  intros Hl. unfold client_svcloc_len, wire_client, wire_svcloc.
  destruct (Z.eqb_spec (ia_family a) AF_INET) as [E|E].
  - unfold is_v4. rewrite E. done.
  - destruct (Z.eqb_spec (ia_family a) AF_INET6) as [E6|E6]; [|done].
    unfold is_v4. rewrite E6. change (false || true) with true. cbn iota.
    change ((AF_INET6 =? AF_INET) || (AF_INET6 =? 0)) with false. cbn iota. len.
Qed.

Lemma ip_tlv_len_spec a :
  known_ip a -> length (ia_ip a) = 16%nat ->
  DPS_GET_IP_ADDR_TLV_LEN (ia_family a) = Z.of_nat (length (wire_ip a)).
Proof.
  intros Hk Hl. rewrite length_wire_ip by done. unfold DPS_GET_IP_ADDR_TLV_LEN.
  destruct Hk as [Hk|Hk].
  - unfold is_v4 in Hk. rewrite Hk. destruct (Z.eqb_spec (ia_family a) AF_INET) as [|E]; [done|].
    rewrite orb_false_l in Hk. apply Z.eqb_eq in Hk. by rewrite Hk.
  - by rewrite Hk.
Qed.

Lemma mcast_addr_len_spec m :
  wf_mcast_addr m -> mcast_addr_len m = Z.of_nat (length (wire_mcast_addr m)).
Proof.
  intros [[Hm _] [Hi _]]. unfold mcast_addr_len, wire_mcast_addr.
  destruct (_ =? MCAST_ADDR_V6); len.
Qed.

Lemma length_wire_srcs family num words :
  wf_srcs family num words ->
  Z.of_nat (length (wire_srcs family num words)) =
  (if num =? 0 then 0
   else (if family =? AF_INET then 4 + num * 4 else 0)
        + (if family =? AF_INET6 then 4 + num * 16 else 0)).
Proof.
  intros (_ & H0 & Hl). unfold wire_srcs. destruct (num =? 0); [done|].
  destruct (Z.eqb_spec family AF_INET) as [->|].
  - change (AF_INET =? AF_INET6) with false in *. cbn iota in *.
    rewrite length_ipv4_list, length_counted by (split; lia). lia.
  - destruct (family =? AF_INET6); [|done].
    rewrite length_ipv6_list, length_as_bytes, length_take. lia.
Qed.

Lemma packed_len_spec n4 n6 words :
  wf_packed n4 n6 words ->
  packed_len n4 n6 = Z.of_nat (length (wire_packed n4 n6 words)).
Proof.
  intros (Hw & H4 & H6 & Hl). unfold packed_len, wire_packed.
  rewrite length_app, Nat2Z.inj_add, !length_wire_srcs.
  - simpl. destruct (n4 =? 0), (n6 =? 0); lia.
  - split_and!; [by apply Forall_drop | done |]. rewrite length_drop.
    unfold AF_INET6. simpl. lia.
  - split_and!; [done | done |]. unfold AF_INET. simpl. lia.
Qed.

Lemma policy_len_spec p :
  wf_policy (pi_dps_policy p) ->
  pl_policy_type (pi_dps_policy p) = DPS_POLICY_TYPE_CONNECTIVITY ->
  calc_policy_len p = Z.of_nat (length (wire_policy p)).
Proof.
  intros (Hp & Hd & _) Hty. unfold calc_policy_len, wire_policy.
  rewrite length_wire_tlv, length_app, length_wire_policy_type.
  unfold policy_type_len. rewrite Hty. cbn [Z.eqb DPS_POLICY_TYPE_CONNECTIVITY].
  change (_ =? DPS_POLICY_TYPE_CONNECTIVITY) with true. cbn iota.
  rewrite !length_wire_rule_block.
  pose proof (length_counted _ _ Hp) as Lp. fold (permits (pi_dps_policy p)) in Lp.
  pose proof (length_counted _ _ Hd) as Ld. fold (denies (pi_dps_policy p)) in Ld.
  rewrite Lp, Ld. destruct Hp as [Hp _], Hd as [Hd _].
  destruct (Z.eqb_spec (pl_num_permit_rules (pi_dps_policy p)) 0),
    (Z.eqb_spec (pl_num_deny_rules (pi_dps_policy p)) 0);
    repeat case_decide; try lia; unfold wire_policy_id; len.
Qed.

Lemma bulk_len_spec c :
  wf_bulk c ->
  4 + (bp_num_permit_rules c + bp_num_deny_rules c) * 8 = Z.of_nat (length (wire_bulk c)).
Proof.
  intros ([Hp Hp'] & [Hd Hd']). unfold wire_bulk.
  rewrite !length_app, length_rules, length_take. rewrite length_drop in Hd'.
  rewrite !length_w16. lia.
Qed.

(** The messages whose length is computed exactly; for the tunnel lists the
    worst case is allocated, and the other messages do not ask. *)
Definition exact_len (b : dps_client_body) : bool :=
  match b with
  | Body_none | Body_tunnel_info _ | Body_tunnel_reg_dereg _
  | Body_mcast_receiver_ds_list _ | Body_vm_invalidate_msg _ => false
  | _ => true
  end.

(** [ty] is one of the listed message types. *)
Ltac type_cases H :=
  apply existsb_exists in H as (? & Hin & ->%Z.eqb_eq); simpl in Hin;
  repeat (destruct Hin as [<-|Hin]); [.. | done].

(** Follow a chain of tests on a known message type. *)
Ltac pick_case :=
  repeat match goal with
  | |- (if ?b then ?x else ?y) = ?r =>
      let v := eval vm_compute in b in
      lazymatch v with
      | true => change (x = r) | false => change (y = r)
      end
  end.

Lemma loc_req_len_spec x :
  wf_mac (elq_mac x) -> wf_addr (elq_vm_ip_addr x) -> wf_addr (elq_dps_client_addr x) ->
  Z.of_nat DPS_EUID_TLV_LEN
  + (if ia_family (elq_vm_ip_addr x) =? AF_INET then Z.of_nat DPS_IP4_TLV_LEN
     else if ia_family (elq_vm_ip_addr x) =? AF_INET6 then Z.of_nat DPS_IP6_TLV_LEN else 0)
  + client_svcloc_len (elq_dps_client_addr x)
  = Z.of_nat (length (wire_loc_req x)).
Proof.
  intros [Hm _] [[Hv _] _] [[Hc _] _]. unfold wire_loc_req.
  rewrite client_svcloc_len_spec by done. rewrite !length_app, length_wire_euid, Hm.
  destruct (_ =? AF_INET); [rewrite length_wire_ip4; unfold DPS_EUID_TLV_LEN; len|].
  destruct (_ =? AF_INET6); [rewrite length_wire_ip6, Hv; len | len].
Qed.

Lemma mcast_sender_len_spec x :
  wf_addr (ms_tunnel_endpoint x) -> known_ip (ms_tunnel_endpoint x) ->
  info_ok (ms_mcast_src_vm x) -> wf_mcast_addr (ms_mcast_addr x) ->
  wf_addr (ms_dps_client_addr x) ->
  DPS_GET_IP_ADDR_TLV_LEN (ia_family (ms_tunnel_endpoint x))
  + dps_calc_endpoint_info_tlv_len (ms_mcast_src_vm x)
  + mcast_addr_len (ms_mcast_addr x) + client_svcloc_len (ms_dps_client_addr x)
  = Z.of_nat (length (wire_mcast_sender x)).
Proof.
  intros [[H1 _] _] Hk H2 H3 [[H4 _] _]. unfold wire_mcast_sender.
  rewrite ip_tlv_len_spec, endpoint_info_len_spec, mcast_addr_len_spec,
    client_svcloc_len_spec by done. rewrite !length_app. lia.
Qed.

Lemma mcast_receiver_len_spec x :
  wf_addr (mr_tunnel_endpoint x) -> known_ip (mr_tunnel_endpoint x) ->
  wf_mcast_grp_rec (mr_mcast_group_rec x) -> wf_addr (mr_dps_client_addr x) ->
  let g := mr_mcast_group_rec x in
  DPS_GET_IP_ADDR_TLV_LEN (ia_family (mr_tunnel_endpoint x))
  + Z.of_nat DPS_TLV_HDR_LEN + mcast_addr_len (mg_mcast_addr g)
  + (if mg_num_of_srcs g =? 0 then 0
     else (if mg_family g =? AF_INET then 4 + mg_num_of_srcs g * 4 else 0)
          + (if mg_family g =? AF_INET6 then 4 + mg_num_of_srcs g * 16 else 0))
  + client_svcloc_len (mr_dps_client_addr x)
  = Z.of_nat (length (wire_mcast_receiver x)).
Proof.
  intros [[H1 _] _] Hk [H2 H3] [[H4 _] _] g. unfold wire_mcast_receiver, wire_mcast_grp_rec.
  rewrite <- (length_wire_srcs _ _ (mg_src_addr g)) by done.
  rewrite ip_tlv_len_spec, mcast_addr_len_spec, client_svcloc_len_spec by done.
  fold g. rewrite !length_app, length_wire_tlv, length_app.
  unfold DPS_TLV_HDR_LEN. lia.
Qed.

Lemma calc_body_len_exact ty c :
  well_typed ty (cd_body c) = true -> body_ok c -> exact_len (cd_body c) = true ->
  calc_body_len ty c = Done (Z.of_nat (length (wire_body c))).
Proof.
  destruct c as [ctx hdr body]. unfold body_ok, wire_body. cbn [cd_body cd_hdr].
  intros Hty Hok Hex. destruct body; try discriminate Hex; type_cases Hty;
    unfold calc_body_len; cbn [cd_body cd_hdr]; cbv zeta beta; pick_case;
    cbn [as_endpoint_loc_req as_endpoint_loc_reply as_policy_req as_policy_reply
         as_endpoint_update as_endpoint_update_reply as_internal_gw_list
         as_gen_msg_req as_dove_switch_list as_bulk_vnid_policy
         as_vm_migration_event as_mcast_sender as_mcast_receiver obind].
  all: try (f_equal; apply loc_req_len_spec; apply Hok).
  all: try (by apply loc_reply_len_spec).
  all: try (f_equal; by apply packed_len_spec).
  all: try (f_equal; by apply bulk_len_spec).
  all: try (f_equal; apply client_svcloc_len_spec; apply Hok).
  - destruct Hok as (H1 & H2 & [[H3 _] _]). f_equal. unfold wire_policy_req.
    rewrite !endpoint_info_len_spec, client_svcloc_len_spec by done. len.
  - destruct Hok as (H1 & H2 & H3). rewrite loc_reply_len_spec by done. cbn [obind].
    f_equal. unfold wire_policy_reply. destruct (Z.eqb_spec (ch_resp_status hdr) DPS_NO_ERR).
    + rewrite policy_len_spec by (done || tauto). len.
    + rewrite app_nil_r. lia.
  - destruct Hok as (H1 & H2 & [[H3 _] _]). rewrite tunnel_tlv_len_spec by apply H1.
    cbn [obind]. f_equal. unfold wire_endpoint_update.
    rewrite length_app, (Nat2Z.inj_add (length (wire_loc _ _ _ _ _))).
    rewrite loc_len_spec, client_svcloc_len_spec by done.
    destruct (_ || _); unfold DPS_EUID_TLV_LEN, DPS_TLV_HDR_LEN, DPS_DATA_VER_LEN; lia.
  - destruct Hok as ([Hm _] & H1 & H2 & H3 & H4).
    rewrite vip_tlv_len_spec, tunnel_tlv_len_spec by done. cbn [obind]. f_equal.
    unfold wire_endpoint_update_reply. len.
  - destruct Hok as (H1 & H2). rewrite loc_reply_len_spec by done. cbn [obind]. f_equal.
    rewrite endpoint_info_len_spec by done. unfold wire_vm_migration. len.
  - f_equal. apply mcast_sender_len_spec; apply Hok.
  - f_equal. apply mcast_sender_len_spec; apply Hok.
  - f_equal. apply mcast_receiver_len_spec; apply Hok.
  - f_equal. apply mcast_receiver_len_spec; apply Hok.
Qed.

Lemma calc_pkt_len_exact ty c :
  well_typed ty (cd_body c) = true -> body_ok c -> exact_len (cd_body c) = true ->
  in32 (Z.of_nat (DPS_PKT_HDR_LEN + length (wire_body c))) ->
  calc_pkt_len ty c = Done (Z.of_nat (DPS_PKT_HDR_LEN + length (wire_body c))).
Proof.
  intros Hty Hok Hex Hlt. unfold calc_pkt_len.
  rewrite calc_body_len_exact by done. cbn [obind].
  by rewrite <- Nat2Z.inj_add, u32_small.
Qed.

(** The tunnel lists get at least the room they need. *)
Lemma tunnel_list_bound_ok tl :
  wf_tunnels tl ->
  Z.of_nat (length (wire_tunnel_list (tunnels tl))) <= tunnel_list_bound tl.
Proof.
  intros [Hc Hf]. pose proof (length_counted _ _ Hc) as Hl. fold (tunnels tl) in Hl.
  assert (forall ts, Forall wf_tunnel ts ->
    (length (concat (wire_tunnel <$> ts)) <= length ts * 28)%nat) as Hb.
  { induction 1 as [|t ts [[Ht _] _] _ IH]; [done|]. rewrite fmap_cons. cbn [concat length].
    rewrite length_app. unfold wire_tunnel at 1.
    assert (length (wire_tunnel_ip4 t) = 16%nat) by done.
    assert (length (wire_tunnel_ip6 t) = 28%nat) by (unfold wire_tunnel_ip6; len).
    destruct (_ =? AF_INET); [lia|]. destruct (_ =? AF_INET6); cbn [length]; lia. }
  unfold tunnel_list_bound, wire_tunnel_list. specialize (Hb _ Hf). destruct Hc as [H0 _].
  destruct (tunnels tl) as [|t ts] eqn:E.
  - simpl in Hl. destruct (_ =? 0); simpl; lia.
  - rewrite <- E in *. rewrite length_wire_tlv.
    destruct (Z.eqb_spec (tl_num_of_tunnels tl) 0); [|lia].
    rewrite E in Hl. simpl in Hl. lia.
Qed.

Lemma calc_body_len_tunnel_info ty c x :
  cd_body c = Body_tunnel_info x -> well_typed ty (cd_body c) = true ->
  calc_body_len ty c = Done (tunnel_list_bound x).
Proof.
  intros E Hty. rewrite E in Hty. type_cases Hty; unfold calc_body_len; rewrite E;
    cbv zeta beta; pick_case; done.
Qed.

Lemma calc_body_len_tunnel_reg ty c x :
  cd_body c = Body_tunnel_reg_dereg x -> well_typed ty (cd_body c) = true ->
  calc_body_len ty c =
  Done (tunnel_list_bound (tr_tunnel_info x) + Z.of_nat DPS_SVCLOC6_TLV_LEN).
Proof.
  intros E Hty. rewrite E in Hty. type_cases Hty; unfold calc_body_len; rewrite E;
    cbv zeta beta; pick_case; done.
Qed.
