(* ===== verification/Env.v ===== *)
(** * What the packet handling needs from the rest of the system

    [dps_pkt_process.c] allocates its buffers with [malloc], hands packets to
    the socket layer ([dps_protocol_xmit]), takes query ids from and stops the
    retransmission timer, and delivers parsed messages to the data handler of
    the server or to the switch.  These are the operations of an environment
    [W]; the theorems of [Send] and [Process] hold for every one of them. *)
From S2P Require Export DpsTypes Mem.

Class Env (W : Type) := {
  (** compiled with [-DDPS_SERVER] *)
  dps_server : bool;
  (** [malloc(DPS_MAX_BUFF_SZ)]: [None] is [NULL]; the bytes are whatever the
      heap held *)
  malloc_buff : W -> option buf * W;
  free_buff : W -> W;
  (** [dps_protocol_xmit(buff, len, reply_addr, context)] *)
  dps_protocol_xmit : list Z -> ip_addr_t -> Z -> W -> Z * W;
  (** [raw_proto_query_id_generate] *)
  raw_proto_query_id_generate : W -> Z * W;
  (** [retransmit_timer_stop] (server) or [raw_proto_timer_stop] (client):
      whether it succeeded, and the context it stored *)
  timer_stop : Z -> W -> bool * Z * W;
  (** [dps_protocol_send_to_server] or [dps_protocol_send_to_client] *)
  deliver : dps_client_data_t -> W -> W;
  dps_cluster_is_local_node_active : W -> bool;
  dps_req_new_dps_node : Z -> W -> W
}.

(** What C guarantees of [malloc]. *)
Class EnvLaws (W : Type) `{Env W} := {
  malloc_length w m w' : malloc_buff w = (Some m, w') -> length m = DPS_MAX_BUFF_SZ
}.

(** [sizeof(dps_client_data_t)], and the number of elements of [size] bytes
    that fit in an allocation from [offset] on, with the LP64 layout of
    [dps_client_data_t]. *)
Definition sizeof_client_data : nat := 552.
Definition room (offset size : Z) : nat := Z.to_nat ((32768 - offset) / size)%Z.
Definition SZ_TUNNEL : Z := 28.
Definition room_endpoint_loc_reply : nat := room 92 SZ_TUNNEL.
Definition room_endpoint_update : nat := room 116 SZ_TUNNEL.
Definition room_endpoint_update_reply : nat := room 456 SZ_TUNNEL.
Definition room_policy_reply_loc : nat := room 120 SZ_TUNNEL.
Definition room_internal_gw : nat := room 52 4.
Definition room_bulk : nat := room 52 8.
Definition room_bcast : nat := room 56 4.
Definition room_vm_migration : nat := room 128 SZ_TUNNEL.
Definition room_mcast_receiver : nat := room 124 4.
Definition room_gw_list : nat := room 52 SZ_TUNNEL.
Definition room_tunnel_reg : nat := room 76 SZ_TUNNEL.
Definition room_epri : nat := room 520 SZ_TUNNEL.
(** [src_dst_vnid[1]] in [dps_policy_reply_t] is followed by another member:
    there is room for one rule. *)
Definition room_policy_reply_rules : nat := 1.

Section alloc.
Context {W : Type} `{Env W}.

(** [dps_alloc_buff] ignores its argument. *)
Definition dps_alloc_buff (w : W) : option buf * W :=
  match malloc_buff w with
  | (Some m, w) =>
      (Some (replicate sizeof_client_data 0%Z ++ drop sizeof_client_data m), w)
  | (None, w) => (None, w)
  end.

Definition dps_free_buff (w : W) : W := free_buff w.

(** The transmission of the first [n] bytes and the release of the buffer. *)
Definition xmit_free (b : buf) (n : nat) (c : dps_client_data_t) (w : W)
  : out (Z * dps_client_data_t * W) :=
  let '(status, w) := dps_protocol_xmit (take n b) (ch_reply_addr (cd_hdr c))
    (cd_context c) w in
  Done (status, c, dps_free_buff w).
End alloc.

Lemma dps_alloc_buff_length `{EnvLaws W} w b w' :
  dps_alloc_buff w = (Some b, w') -> length b = DPS_MAX_BUFF_SZ.
Proof.
  unfold dps_alloc_buff. destruct (malloc_buff w) as [[m|] w1] eqn:E; [|done].
  intros Hb. assert (b = replicate sizeof_client_data 0%Z ++ drop sizeof_client_data m)
    as -> by congruence. clear Hb. apply malloc_length in E.
  rewrite length_app, length_replicate, length_drop, E.
  enough (sizeof_client_data <= DPS_MAX_BUFF_SZ) by lia.
  apply Nat.leb_le. vm_compute. reflexivity.
Qed.

(** An environment that records what happens to it. *)
Inductive event :=
| Ev_alloc
| Ev_free
| Ev_xmit (pkt : list Z) (to : ip_addr_t) (context : Z)
| Ev_deliver (c : dps_client_data_t)
| Ev_timer_stop (query_id : Z)
| Ev_new_node (vnid : Z).

Record trace := mk_trace {
  tr_events : list event; tr_next_id : Z; tr_oom : bool; tr_active : bool }.

Definition log (e : event) (t : trace) : trace :=
  mk_trace (tr_events t ++ [e]) (tr_next_id t) (tr_oom t) (tr_active t).

(** Zeroed heap, successful transmissions, fresh query ids in order. *)
Definition trace_env (server : bool) : Env trace := {|
  dps_server := server;
  malloc_buff t := if tr_oom t then (None, t)
                   else (Some (replicate DPS_MAX_BUFF_SZ 0%Z), log Ev_alloc t);
  free_buff := log Ev_free;
  dps_protocol_xmit pkt to ctx t := (0%Z, log (Ev_xmit pkt to ctx) t);
  raw_proto_query_id_generate t :=
    (tr_next_id t, mk_trace (tr_events t) (tr_next_id t + 1)%Z (tr_oom t) (tr_active t));
  timer_stop q t := (true, q, log (Ev_timer_stop q) t);
  deliver c := log (Ev_deliver c);
  dps_cluster_is_local_node_active := tr_active;
  dps_req_new_dps_node v := log (Ev_new_node v)
|}.

#[export] Instance trace_laws server : EnvLaws trace (H := trace_env server).
Proof.
  split. intros w m w'. simpl. destruct (tr_oom w); [done|]. intros [= <- <-].
  apply length_replicate.
Qed.
