(* ===== verification/Send.v ===== *)
(** * The [dps_send_*] functions and the table they are called through

    A function takes the client's message and the environment and gives the
    status it returns, the message (whose query id and transaction type the
    client build fills in) and the environment afterwards. *)
From S2P Require Export Env CalcLen.

Section send.
Context {W : Type} `{Env W}.

Definition send_fn := dps_client_data_t -> W -> out (Z * dps_client_data_t * W).

Definition set_hdr (c : dps_client_data_t) (h : dps_client_hdr_t) : dps_client_data_t :=
  mk_client_data (cd_context c) h (cd_body c).

(** The [#if defined(DPS_SERVER)] block of [dps_set_pkt_hdr]. *)
Definition assign_query_id (c : dps_client_data_t) (w : W) : dps_client_data_t * W :=
  if dps_server then (c, w)
  else
    let h := cd_hdr c in
    let '(qid, w) := if (ch_query_id h =? 0)%Z then raw_proto_query_id_generate w
    else (ch_query_id h, w) in
    (set_hdr c (mk_client_hdr (ch_type h) (ch_sub_type h) (ch_client_id h)
          DPS_TRANSACTION_NORMAL (ch_vnid h) (ch_resp_status h) qid
          (ch_reply_addr h)), w).

(** [len] is a [uint16_t]; the division of [int]s truncates. *)
Definition dps_set_pkt_hdr (buff : buf) (off : nat) (pkt_type : Z)
    (client_data : dps_client_data_t) (len : Z) (w : W)
  : out (buf * dps_client_data_t * W) :=
  let* b := store8 buff off DPS_PROTOCOL_VER in
  let* b := store8 b (off + 1) pkt_type in
  let* b := store16 b (off + 2) (Z.quot (u16 len - Z.of_nat DPS_PKT_HDR_TLV_LEN) 4)%Z in
  let '(client_data, w) := assign_query_id client_data w in
  let client_hdr := cd_hdr client_data in
  let* b := store32 b (off + 8) (ch_vnid client_hdr) in
  let* b := store16 b (off + 12) (ch_sub_type client_hdr) in
  let* b := store16 b (off + 14) (ch_resp_status client_hdr) in
  let* b := store8 b (off + 16) (ch_client_id client_hdr) in
  let* b := store8 b (off + 17) (ch_transaction_type client_hdr) in
  let* b := store32 b (off + 4) (ch_query_id client_hdr) in
  Done (b, client_data, w).

(** [if (dps_client_addr.family is AF_INET or AF_INET6) dps_set_svcloc_tlv] *)
Definition set_client_addr (b : buf) (off : nat) (a : ip_addr_t) : out (buf * nat) :=
  if ((ia_family a =? AF_INET) || (ia_family a =? AF_INET6))%Z
  then dps_set_svcloc_tlv b off a else Done (b, 0).

(** [dps_alloc_buff] and the return of [err] on [NULL]. *)
Definition with_buff (err : Z) (c : dps_client_data_t) (w : W)
    (k : buf -> W -> out (Z * dps_client_data_t * W)) : out (Z * dps_client_data_t * W) :=
  match dps_alloc_buff w with
  | (Some b, w) => k b w
  | (None, w) => Done (err, c, w)
  end.

(** The length a reply gets: only the header when it carries an error. *)
Definition reply_len (c : dps_client_data_t) : out Z :=
  if (ch_resp_status (cd_hdr c) =? 0)%Z
  then calc_pkt_len (ch_type (cd_hdr c)) c else Done (Z.of_nat DPS_PKT_HDR_LEN).
Definition hdr_only (len : Z) : bool := (len =? Z.of_nat DPS_PKT_HDR_LEN)%Z.

(** The body of the location requests, [dps_send_endpoint_loc_req] and
    [dps_send_addr_resolve]. *)
Definition set_loc_req (b : buf) (off : nat) (x : dps_endpoint_loc_req_t)
  : out (buf * nat) :=
  let* (b, n) := dps_set_euid_tlv b off (elq_vnid x) (elq_mac x) in
  let* (b, k) :=
    if (ia_family (elq_vm_ip_addr x) =? AF_INET)%Z
  then dps_set_ip4_tlv b (off + n) (ia_ip4 (elq_vm_ip_addr x))
  else if (ia_family (elq_vm_ip_addr x) =? AF_INET6)%Z
  then dps_set_ip6_tlv b (off + n) (ia_ip (elq_vm_ip_addr x))
  else Done (b, 0) in
  let n := n + k in
  let* (b, k) := set_client_addr b (off + n) (elq_dps_client_addr x) in
  Done (b, n + k).

Definition dps_send_endpoint_loc_req : send_fn := fun c w =>
  let* x := as_endpoint_loc_req (cd_body c) in
  let* len := calc_pkt_len DPS_ENDPOINT_LOC_REQ c in
  with_buff DPS_ERROR c w (fun b w =>
    let* (b, c, w) := dps_set_pkt_hdr b 0 DPS_ENDPOINT_LOC_REQ c len w in
    let* (b, n) := set_loc_req b DPS_PKT_HDR_LEN x in
    xmit_free b (DPS_PKT_HDR_LEN + n) c w).

Definition dps_send_endpoint_loc_reply : send_fn := fun c w =>
  let* len := reply_len c in
  with_buff DPS_ERROR c w (fun b w =>
    let* (b, c, w) := dps_set_pkt_hdr b 0 (ch_type (cd_hdr c)) c len w in
    let* (b, n) :=
      if hdr_only len then Done (b, 0)
    else let* x := as_endpoint_loc_reply (cd_body c) in
    dps_set_endpoint_loc_reply_tlv b DPS_PKT_HDR_LEN x in
    xmit_free b (DPS_PKT_HDR_LEN + n) c w).

Definition set_update (b : buf) (off : nat) (x : dps_endpoint_update_t) (len : nat)
  : out (buf * nat) :=
  let* (b, n) := dps_set_endpoint_update_tlv b off x len in
  let* (b, k) := set_client_addr b (off + n) (eu_dps_client_addr x) in
  Done (b, n + k).

(** The header is written last, with the length that was encoded. *)
Definition dps_send_endpoint_update : send_fn := fun c w =>
  let* x := as_endpoint_update (cd_body c) in
  let* len := calc_pkt_len DPS_ENDPOINT_UPDATE c in
  if hdr_only len then Done (DPS_ERROR, c, w)
  else with_buff DPS_ERROR c w (fun b w =>
    let* (b, n) := set_update b DPS_PKT_HDR_LEN x (Z.to_nat len - DPS_PKT_HDR_LEN) in
    let n := DPS_PKT_HDR_LEN + n in
    let* (b, c, w) := dps_set_pkt_hdr b 0 DPS_ENDPOINT_UPDATE c (Z.of_nat n) w in
    xmit_free b n c w).

Definition dps_send_endpoint_update_reply : send_fn := fun c w =>
  let* x := as_endpoint_update_reply (cd_body c) in
  let* len := calc_pkt_len (ch_type (cd_hdr c)) c in
  with_buff DPS_ERROR c w (fun b w =>
    let* (b, c, w) := dps_set_pkt_hdr b 0 DPS_ENDPOINT_UPDATE_REPLY c len w in
    let* (b, n) :=
      if hdr_only len then Done (b, 0)
    else dps_set_endpoint_update_reply_tlv b DPS_PKT_HDR_LEN x
      (Z.to_nat len - DPS_PKT_HDR_LEN) in
    xmit_free b (DPS_PKT_HDR_LEN + n) c w).

Definition set_policy_req (b : buf) (off : nat) (x : dps_policy_req_t)
  : out (buf * nat) :=
  let* (b, n) := dps_set_endpoint_info_tlv b off (pq_dst_endpoint x) in
  let* (b, k) := dps_set_endpoint_info_tlv b (off + n) (pq_src_endpoint x) in
  let n := n + k in
  let* (b, k) := set_client_addr b (off + n) (pq_dps_client_addr x) in
  Done (b, n + k).

Definition dps_send_policy_req : send_fn := fun c w =>
  let* x := as_policy_req (cd_body c) in
  let* len := calc_pkt_len DPS_POLICY_REQ c in
  with_buff DPS_ERROR c w (fun b w =>
    let* (b, c, w) := dps_set_pkt_hdr b 0 DPS_POLICY_REQ c len w in
    let* (b, n) := set_policy_req b DPS_PKT_HDR_LEN x in
    xmit_free b (DPS_PKT_HDR_LEN + n) c w).

(** The status of the transmission is not looked at. *)
Definition dps_send_policy_reply : send_fn := fun c w =>
  let* x := as_policy_reply (cd_body c) in
  let* len := calc_pkt_len DPS_POLICY_REPLY c in
  with_buff DPS_ERROR c w (fun b w =>
    let* (b, c, w) := dps_set_pkt_hdr b 0 DPS_POLICY_REPLY c len w in
    let* (b, n) := dps_set_policy_reply_tlv b DPS_PKT_HDR_LEN x (cd_hdr c)
      (Z.to_nat len - DPS_PKT_HDR_LEN) in
    let* (_, c, w) := xmit_free b (DPS_PKT_HDR_LEN + n) c w in
    Done (DPS_SUCCESS, c, w)).

(** [dps_send_internal_gw_reply] and [dps_send_bcast_list_reply]: the packed
    lists of the two structures. *)
Definition send_packed (lists : dps_client_data_t -> out (Z * Z * list Z)) : send_fn :=
  fun c w =>
  let* len := reply_len c in
  with_buff DPS_ERROR c w (fun b w =>
    let* (b, c, w) := dps_set_pkt_hdr b 0 (ch_type (cd_hdr c)) c len w in
    let* (b, n) :=
      if hdr_only len then Done (b, 0)
    else let* (n4, n6, words) := lists c in
    set_packed_lists b DPS_PKT_HDR_LEN words n4 n6 in
    xmit_free b (DPS_PKT_HDR_LEN + n) c w).

Definition dps_send_internal_gw_reply : send_fn :=
  send_packed (fun c => let* x := as_internal_gw_list (cd_body c) in
    Done (gw_num_v4_gw x, gw_num_v6_gw x, gw_gw_list x)).

Definition dps_send_bcast_list_reply : send_fn :=
  send_packed (fun c => let* x := as_dove_switch_list (cd_body c) in
    Done (pk_num_v4_tunnels x, pk_num_v6_tunnels x,
      pk_tunnel_list x)).

Definition dps_send_gen_msg_req : send_fn := fun c w =>
  let* x := as_gen_msg_req (cd_body c) in
  let* len := calc_pkt_len (ch_type (cd_hdr c)) c in
  with_buff DPS_ERROR c w (fun b w =>
    let* (b, c, w) := dps_set_pkt_hdr b 0 (ch_type (cd_hdr c)) c len w in
    let* (b, n) := set_client_addr b DPS_PKT_HDR_LEN (gm_dps_client_addr x) in
    xmit_free b (DPS_PKT_HDR_LEN + n) c w).

Definition dps_send_bulk_policy_xfer : send_fn := fun c w =>
  let* x := as_bulk_vnid_policy (cd_body c) in
  let* len := calc_pkt_len (ch_type (cd_hdr c)) c in
  with_buff DPS_ERROR_NO_RESOURCES c w (fun b w =>
    let* (b, c, w) := dps_set_pkt_hdr b 0 (ch_type (cd_hdr c)) c len w in
    let* (b, n) := dps_set_bulk_policy_xfer b DPS_PKT_HDR_LEN x
      (Z.to_nat len - DPS_PKT_HDR_LEN) in
    xmit_free b (DPS_PKT_HDR_LEN + n) c w).

(** After a failed allocation the function goes on with the null pointer. *)
Definition dps_send_gw_list : send_fn := fun c w =>
  let* len := reply_len c in
  match dps_alloc_buff w with
  | (None, _) => Fault
  | (Some b, w) =>
      let* (b, n) :=
        if hdr_only len then Done (b, 0)
      else let* x := as_tunnel_info (cd_body c) in
      dps_set_tunnel_list_tlv b DPS_PKT_HDR_LEN (tl_tunnel_list x)
        (tl_num_of_tunnels x) in
      let n := DPS_PKT_HDR_LEN + n in
      let* (b, c, w) := dps_set_pkt_hdr b 0 (ch_type (cd_hdr c)) c (Z.of_nat n) w in
      xmit_free b n c w
  end.

Definition set_tunnel_reg (b : buf) (off : nat) (x : dps_tunnel_reg_dereg_t)
  : out (buf * nat) :=
  let* (b, n) := dps_set_tunnel_list_tlv b off (tl_tunnel_list (tr_tunnel_info x))
    (tl_num_of_tunnels (tr_tunnel_info x)) in
  let* (b, k) := set_client_addr b (off + n) (tr_dps_client_addr x) in
  Done (b, n + k).

Definition dps_send_tunnel_reg_dereg : send_fn := fun c w =>
  let* len := reply_len c in
  with_buff DPS_ERROR c w (fun b w =>
    let* (b, n) :=
      if hdr_only len then Done (b, 0)
    else let* x := as_tunnel_reg_dereg (cd_body c) in
    set_tunnel_reg b DPS_PKT_HDR_LEN x in
    let n := DPS_PKT_HDR_LEN + n in
    let* (b, c, w) := dps_set_pkt_hdr b 0 (ch_type (cd_hdr c)) c (Z.of_nat n) w in
    xmit_free b n c w).

Definition set_vm_migration (b : buf) (off : nat) (x : dps_vm_migration_event_t)
  : out (buf * nat) :=
  let* (b, n) := dps_set_endpoint_info_tlv b off (vm_migrated_vm_info x) in
  let* (b, k) := dps_set_endpoint_loc_reply_tlv b (off + n) (vm_src_vm_loc x) in
  Done (b, n + k).

Definition dps_send_vm_migration_event : send_fn := fun c w =>
  let* x := as_vm_migration_event (cd_body c) in
  let* len := calc_pkt_len DPS_VM_MIGRATION_EVENT c in
  with_buff DPS_ERROR c w (fun b w =>
    let* (b, c, w) := dps_set_pkt_hdr b 0 DPS_VM_MIGRATION_EVENT c len w in
    let* (b, n) := set_vm_migration b DPS_PKT_HDR_LEN x in
    xmit_free b (DPS_PKT_HDR_LEN + n) c w).

(** [while (buff - bufptr < len) { ... }]: the record is encoded again until
    the computed length is reached. *)
Fixpoint write_until (fuel : nat) (len : Z) (body : buf -> nat -> out (buf * nat))
    (b : buf) (n : nat) : out (buf * nat) :=
  match fuel with
  | 0 => Timeout
  | S fuel' =>
      if (Z.of_nat n <? len)%Z then
        let* (b, k) := body b n in write_until fuel' len body b (n + k)
      else Done (b, n)
  end.

Definition set_mcast_sender (x : dps_mcast_sender_t) (b : buf) (off : nat)
  : out (buf * nat) :=
  let* (b, k) := dps_set_ip_tlv b off (ms_tunnel_endpoint x) in
  let n := k in
  let* (b, k) := dps_set_endpoint_info_tlv b (off + n) (ms_mcast_src_vm x) in
  let n := n + k in
  let* (b, k) := dps_set_mcast_addr_tlv b (off + n) (ms_mcast_addr x) in
  let n := n + k in
  let* (b, k) := set_client_addr b (off + n) (ms_dps_client_addr x) in
  Done (b, n + k).

Definition dps_send_mcast_sender_reg_dereg : send_fn := fun c w =>
  let* x := as_mcast_sender (cd_body c) in
  let* len := calc_pkt_len (ch_type (cd_hdr c)) c in
  with_buff DPS_ERROR c w (fun b w =>
    let* (b, c, w) := dps_set_pkt_hdr b 0 (ch_type (cd_hdr c)) c len w in
    let* (b, n) := write_until (S (Z.to_nat len)) len (set_mcast_sender x)
      b DPS_PKT_HDR_LEN in
    xmit_free b n c w).

Definition set_mcast_receiver (x : dps_mcast_receiver_t) (b : buf) (off : nat)
  : out (buf * nat) :=
  let* (b, k) := dps_set_ip_tlv b off (mr_tunnel_endpoint x) in
  let n := k in
  let* (b, k) := dps_set_mcast_grp_rec_tlv b (off + n) (mr_mcast_group_rec x) in
  let n := n + k in
  let* (b, k) := set_client_addr b (off + n) (mr_dps_client_addr x) in
  Done (b, n + k).

Definition dps_send_mcast_receiver_join_leave : send_fn := fun c w =>
  let* x := as_mcast_receiver (cd_body c) in
  let* len := calc_pkt_len (ch_type (cd_hdr c)) c in
  with_buff DPS_ERROR c w (fun b w =>
    let* (b, c, w) := dps_set_pkt_hdr b 0 (ch_type (cd_hdr c)) c len w in
    let* (b, n) := write_until (S (Z.to_nat len)) len (set_mcast_receiver x)
      b DPS_PKT_HDR_LEN in
    xmit_free b n c w).

(** The room is only looked at before a record is written, and the status set
    for it is overwritten by that of the transmission. *)
Fixpoint set_ds_lists (recs : list dps_pkd_tunnel_list_t) (i n : nat) (b : buf)
    (off : nat) : out (buf * nat) :=
  match n with
  | 0 => Done (b, off)
  | S n' =>
      if (Z.of_nat off >? Z.of_nat DPS_SEND_BUFF_SZ)%Z then Done (b, off)
      else
        let* r := arr_read recs i in
        let* (b, k) := dps_set_vnid_tunnel_list_tlv b off r in
        set_ds_lists recs (S i) n' b (off + k)
  end.

Definition dps_send_mcast_receiver_ds_list : send_fn := fun c w =>
  let* x := as_mcast_receiver_ds_list (cd_body c) in
  with_buff DPS_ERROR c w (fun b w =>
    let* (b, k) := dps_set_mcast_addr_tlv b DPS_PKT_HDR_LEN (md_mcast_addr x) in
    let* (b, n) := set_ds_lists (md_mcast_recvr_list x) 0
      (Z.to_nat (md_num_of_rec x)) b (DPS_PKT_HDR_LEN + k) in
    let* (b, c, w) := dps_set_pkt_hdr b 0 (ch_type (cd_hdr c)) c (Z.of_nat n) w in
    xmit_free b n c w).

(** A header in a zeroed local buffer, sent without a context. *)
Definition dps_send_general_ack : send_fn := fun c w =>
  let* (b, c, w) := dps_set_pkt_hdr (replicate DPS_PKT_HDR_LEN 0%Z) 0
    (ch_type (cd_hdr c)) c (Z.of_nat DPS_PKT_HDR_LEN) w in
  let '(status, w) := dps_protocol_xmit b (ch_reply_addr (cd_hdr c)) 0 w in
  Done (status, c, w).

Definition dps_send_policy_invalidate : send_fn := fun c w => Done (DPS_SUCCESS, c, w).

Definition dps_send_addr_resolve : send_fn := fun c w =>
  let* x := as_endpoint_loc_req (cd_body c) in
  let* len := calc_pkt_len DPS_ADDR_RESOLVE c in
  with_buff DPS_ERROR c w (fun b w =>
    let* (b, c, w) := dps_set_pkt_hdr b 0 (ch_type (cd_hdr c)) c len w in
    let* (b, n) := set_loc_req b DPS_PKT_HDR_LEN x in
    xmit_free b (DPS_PKT_HDR_LEN + n) c w).

Definition dps_send_addr_reply : send_fn := fun c w => Done (DPS_SUCCESS, c, w).

(** The status of the transmission is not looked at. *)
Definition dps_send_vm_loc_info : send_fn := fun c w =>
  let* x := as_vm_invalidate_msg (cd_body c) in
  with_buff DPS_ERROR c w (fun b w =>
    let* (b, k) := dps_set_epri_tlv b DPS_PKT_HDR_LEN x in
    let n := DPS_PKT_HDR_LEN + k in
    let* (b, c, w) := dps_set_pkt_hdr b 0 (ch_type (cd_hdr c)) c (Z.of_nat n) w in
    let* (_, c, w) := xmit_free b n c w in
    Done (DPS_SUCCESS, c, w)).

Definition dps_noop_func : send_fn := fun c w => Done (DPS_SUCCESS, c, w).

(** ** The table of send functions, indexed by message type *)
Definition dps_send_func_tbl : list (option send_fn) :=
  [None;
    Some dps_send_endpoint_loc_req;
    Some dps_send_endpoint_loc_reply;
    Some dps_send_policy_req;
    Some dps_send_policy_reply;
    Some dps_send_policy_invalidate;
    Some dps_send_endpoint_update;
    Some dps_send_endpoint_update_reply;
    Some dps_send_addr_resolve;
    Some dps_send_addr_reply;
    Some dps_send_gen_msg_req;
    Some dps_send_internal_gw_reply;
    Some dps_send_bulk_policy_xfer;
    Some dps_send_gen_msg_req;
    Some dps_send_bcast_list_reply;
    Some dps_send_vm_migration_event;
    Some dps_send_mcast_sender_reg_dereg;
    Some dps_send_mcast_sender_reg_dereg;
    Some dps_send_mcast_receiver_join_leave;
    Some dps_send_mcast_receiver_join_leave;
    Some dps_send_mcast_receiver_ds_list;
    Some dps_send_bcast_list_reply;
    Some dps_send_internal_gw_reply;
    Some dps_send_general_ack;
    Some dps_send_gw_list;
    Some dps_send_gw_list;
    Some dps_send_tunnel_reg_dereg;
    Some dps_send_tunnel_reg_dereg;
    Some dps_send_general_ack;
    Some dps_send_gen_msg_req;
    Some dps_send_gw_list;
    Some dps_send_gen_msg_req;
    Some dps_send_gw_list;
    Some dps_send_endpoint_loc_reply;
    Some dps_send_gen_msg_req;
    Some dps_send_bulk_policy_xfer;
    Some dps_send_gen_msg_req;
    Some dps_send_gw_list;
    Some dps_send_gen_msg_req;
    Some dps_send_gen_msg_req;
    Some dps_noop_func;
    Some dps_send_vm_loc_info].

(** A call through the table: past its end, or of the null entry, is a
    [Fault]. *)
Definition call_send (ty : Z) : send_fn := fun c w =>
  match dps_send_func_tbl !! Z.to_nat ty with
  | Some (Some f) => f c w
  | _ => Fault
  end.
End send.

(** ** Specification of the send path

    The abstract behaviour every send function refines: take a buffer, lay the
    packet [hdr ++ body] into it, transmit it to the reply address and release
    the buffer. *)
Definition wire_pkt_hdr (ty : Z) (h : dps_client_hdr_t) (len : nat) : pat :=
  w8 DPS_PROTOCOL_VER ++ w8 ty
  ++ w16 (Z.quot (u16 (Z.of_nat len) - Z.of_nat DPS_PKT_HDR_TLV_LEN) 4)
  ++ w32 (ch_query_id h) ++ w32 (ch_vnid h)
  ++ w16 (ch_sub_type h) ++ w16 (ch_resp_status h)
  ++ w8 (ch_client_id h) ++ w8 (ch_transaction_type h) ++ pad 2.
Definition wire_pkt (ty : Z) (h : dps_client_hdr_t) (body : pat) : pat :=
  wire_pkt_hdr ty h (DPS_PKT_HDR_LEN + length body) ++ body.

Section spec.
Context {W : Type} `{EnvLaws W}.

Definition send_packet (err : Z) (status_of : Z -> Z) (ty : Z) (body : pat)
    (c : dps_client_data_t) (w : W) : out (Z * dps_client_data_t * W) :=
  match dps_alloc_buff w with
  | (None, w) => Done (err, c, w)
  | (Some b, w) =>
      let '(c, w) := assign_query_id c w in
      let pkt := take (DPS_PKT_HDR_LEN + length body)
        (lay b 0 (wire_pkt ty (cd_hdr c) body)) in
      let '(status, w) := dps_protocol_xmit pkt (ch_reply_addr (cd_hdr c))
        (cd_context c) w in
      Done (status_of status, c, dps_free_buff w)
  end.
End spec.
