(* ===== verification/SendSpec.v ===== *)
(** * Every send function refines [send_packet] *)
From S2P Require Export Send.

(** ** The bodies *)
Lemma set_client_addr_writes a :
  length (ia_ip a) = 16 ->
  writes (fun b off => set_client_addr b off a) (wire_client a).
Proof.
  intros Ha b off Hf. unfold set_client_addr, wire_client in *.
  destruct (_ || _)%Z; [by apply dps_set_svcloc_tlv_writes | by rewrite lay_nil].
Qed.

Lemma set_loc_req_writes x :
  wf_mac (elq_mac x) -> wf_addr (elq_vm_ip_addr x) -> wf_addr (elq_dps_client_addr x) ->
  writes (fun b off => set_loc_req b off x) (wire_loc_req x).
Proof.
  intros [Hm _] [[Hv _] _] [[Hc _] _] b off Hf. unfold set_loc_req, wire_loc_req in *.
  sub_write dps_set_euid_tlv_writes.
  destruct (_ =? AF_INET)%Z; [|destruct (_ =? AF_INET6)%Z].
  - sub_write dps_set_ip4_tlv_writes. sub_write set_client_addr_writes. same_lay.
  - sub_write dps_set_ip6_tlv_writes. sub_write set_client_addr_writes. same_lay.
  - cbn [obind]. sub_write set_client_addr_writes. same_lay.
Qed.

Lemma set_update_writes x n :
  wf_endpoint_update x -> wf_addr (eu_dps_client_addr x) ->
  writes (fun b off => set_update b off x n)
         (wire_endpoint_update x ++ wire_client (eu_dps_client_addr x)).
Proof.
  intros Hx [[Hc _] _] b off Hf. unfold set_update.
  sub_write dps_set_endpoint_update_tlv_writes.
  sub_write set_client_addr_writes. same_lay.
Qed.

Lemma info_writes x :
  info_ok x -> writes (fun b off => dps_set_endpoint_info_tlv b off x) (wire_endpoint_info x).
Proof. intros [[Hm _] [[Hi _] _]]. by apply dps_set_endpoint_info_tlv_writes. Qed.

Lemma set_policy_req_writes x :
  info_ok (pq_dst_endpoint x) -> info_ok (pq_src_endpoint x) ->
  wf_addr (pq_dps_client_addr x) ->
  writes (fun b off => set_policy_req b off x) (wire_policy_req x).
Proof.
  intros Hd Hs [[Hc _] _] b off Hf. unfold set_policy_req, wire_policy_req in *.
  sub_write info_writes. sub_write info_writes. sub_write set_client_addr_writes.
  same_lay.
Qed.

Lemma set_vm_migration_writes x :
  info_ok (vm_migrated_vm_info x) -> reply_ok (vm_src_vm_loc x) ->
  writes (fun b off => set_vm_migration b off x) (wire_vm_migration x).
Proof.
  intros Hi [Hl _] b off Hf. unfold set_vm_migration, wire_vm_migration in *.
  sub_write info_writes. sub_write dps_set_endpoint_loc_reply_tlv_writes. same_lay.
Qed.

Lemma set_tunnel_reg_writes x :
  wf_tunnels (tr_tunnel_info x) -> wf_addr (tr_dps_client_addr x) ->
  writes (fun b off => set_tunnel_reg b off x)
         (wire_tunnel_list (tunnels (tr_tunnel_info x)) ++ wire_client (tr_dps_client_addr x)).
Proof.
  intros Ht [[Hc _] _] b off Hf. unfold set_tunnel_reg.
  sub_write dps_set_tunnel_list_tlv_writes. sub_write set_client_addr_writes. same_lay.
Qed.

Lemma set_mcast_sender_writes x :
  wf_addr (ms_tunnel_endpoint x) -> info_ok (ms_mcast_src_vm x) ->
  wf_mcast_addr (ms_mcast_addr x) -> wf_addr (ms_dps_client_addr x) ->
  writes (set_mcast_sender x) (wire_mcast_sender x).
Proof.
  intros [[Ha _] _] Hi Hm [[Hc _] _] b off Hf. unfold set_mcast_sender, wire_mcast_sender in *.
  sub_write dps_set_ip_tlv_writes. sub_write info_writes.
  sub_write dps_set_mcast_addr_tlv_writes. sub_write set_client_addr_writes. same_lay.
Qed.

Lemma set_mcast_receiver_writes x :
  wf_addr (mr_tunnel_endpoint x) -> wf_mcast_grp_rec (mr_mcast_group_rec x) ->
  wf_addr (mr_dps_client_addr x) ->
  writes (set_mcast_receiver x) (wire_mcast_receiver x).
Proof.
  intros [[Ha _] _] Hm [[Hc _] _] b off Hf.
  unfold set_mcast_receiver, wire_mcast_receiver in *.
  sub_write dps_set_ip_tlv_writes. sub_write dps_set_mcast_grp_rec_tlv_writes.
  sub_write set_client_addr_writes. same_lay.
Qed.

(** A record shorter than the computed length would be written again: with the
    exact length the loop runs once. *)
Lemma write_until_once body p b n fuel :
  writes body p -> 0 < length p -> n + length p <= length b -> 2 <= fuel ->
  write_until fuel (Z.of_nat (n + length p)) body b n = Done (lay b n p, n + length p).
Proof.
  intros Hw Hp Hf Hfu. destruct fuel as [|[|fuel]]; [lia..|]. cbn [write_until].
  destruct (Z.ltb_spec (Z.of_nat n) (Z.of_nat (n + length p))); [|lia].
  rewrite Hw by done. cbn [obind].
  destruct (Z.ltb_spec (Z.of_nat (n + length p)) (Z.of_nat (n + length p))); [lia|done].
Qed.

Section refine.
Context {W : Type} `{EnvLaws W}.

Lemma length_wire_pkt_hdr ty h n : length (wire_pkt_hdr ty h n) = DPS_PKT_HDR_LEN.
Proof. done. Qed.

Lemma dps_set_pkt_hdr_lay b ty c n w :
  DPS_PKT_HDR_LEN <= length b ->
  dps_set_pkt_hdr b 0 ty c (Z.of_nat n) w =
    (let '(c, w) := assign_query_id c w in
    Done (lay b 0 (wire_pkt_hdr ty (cd_hdr c) n), c, w)).
Proof.
  intros Hf. unfold dps_set_pkt_hdr. stores.
  destruct (assign_query_id c w) as [c' w']. stores. join_lays.
  unfold wire_pkt_hdr. rewrite <- (lay_pad _ _ _ 2), <- !app_assoc. done.
Qed.

Lemma assign_query_id_keeps c (w : W) c' w' :
  assign_query_id c w = (c', w') ->
  cd_body c' = cd_body c /\ cd_context c' = cd_context c /\
  ch_type (cd_hdr c') = ch_type (cd_hdr c) /\
  ch_resp_status (cd_hdr c') = ch_resp_status (cd_hdr c) /\
  ch_reply_addr (cd_hdr c') = ch_reply_addr (cd_hdr c).
Proof.
  unfold assign_query_id. destruct dps_server; [by intros [= <- <-]|].
  destruct (if (ch_query_id (cd_hdr c) =? 0)%Z then _ else _) as [q w1].
  by intros [= <- <-].
Qed.

(** The header first, then the body; the body may look at the message as
    [dps_set_pkt_hdr] leaves it. *)
Lemma send_early err (status_of : Z -> Z) ty body (f : dps_client_data_t -> writer) c w len :
  (forall c' w' w'', assign_query_id c w' = (c', w'') -> writes (f c') body) ->
  DPS_PKT_HDR_LEN + length body <= DPS_MAX_BUFF_SZ ->
  len = Z.of_nat (DPS_PKT_HDR_LEN + length body) ->
  with_buff err c w (fun b w =>
    let* (b, c, w) := dps_set_pkt_hdr b 0 ty c len w in
    let* (b, n) := f c b DPS_PKT_HDR_LEN in
    let* (s, c, w) := xmit_free b (DPS_PKT_HDR_LEN + n) c w in
    Done (status_of s, c, w))
    = send_packet err status_of ty body c w.
Proof.
  intros Hw Hf ->. unfold with_buff, send_packet.
  destruct (dps_alloc_buff w) as [[b|] w1] eqn:E; [|done].
  apply dps_alloc_buff_length in E.
  rewrite dps_set_pkt_hdr_lay by (rewrite E; lia).
  destruct (assign_query_id c w1) as [c' w'] eqn:Eq. cbn [obind].
  rewrite (Hw _ _ _ Eq) by (rewrite length_lay; lia). cbn [obind].
  unfold xmit_free, wire_pkt.
  rewrite lay_app' by (rewrite length_wire_pkt_hdr; lia).
  destruct (dps_protocol_xmit _ _ _ _) as [s w2]. done.
Qed.

Lemma send_early_id err ty body (f : dps_client_data_t -> writer) c w len :
  (forall c' w' w'', assign_query_id c w' = (c', w'') -> writes (f c') body) ->
  DPS_PKT_HDR_LEN + length body <= DPS_MAX_BUFF_SZ ->
  len = Z.of_nat (DPS_PKT_HDR_LEN + length body) ->
  with_buff err c w (fun b w =>
    let* (b, c, w) := dps_set_pkt_hdr b 0 ty c len w in
    let* (b, n) := f c b DPS_PKT_HDR_LEN in
    xmit_free b (DPS_PKT_HDR_LEN + n) c w)
    = send_packet err (fun s => s) ty body c w.
Proof.
  intros Hw Hf Hl. rewrite <- (send_early _ _ _ _ f _ _ len) by done. unfold with_buff.
  destruct (dps_alloc_buff w) as [[b|] w1]; [|done].
  destruct (dps_set_pkt_hdr _ _ _ _ _ _) as [[[b2 c2] w2]| |]; try done. cbn [obind].
  destruct (f c2 b2 _) as [[b1 n]| |]; try done. cbn [obind].
  unfold xmit_free. by destruct (dps_protocol_xmit _ _ _ _).
Qed.

(** The body first, then the header. *)
Lemma send_late err status_of ty body (f : writer) c w :
  writes f body -> DPS_PKT_HDR_LEN + length body <= DPS_MAX_BUFF_SZ ->
  with_buff err c w (fun b w =>
    let* (b, n) := f b DPS_PKT_HDR_LEN in
    let n := DPS_PKT_HDR_LEN + n in
    let* (b, c, w) := dps_set_pkt_hdr b 0 ty c (Z.of_nat n) w in
    let* (s, c, w) := xmit_free b n c w in
    Done (status_of s, c, w))
    = send_packet err status_of ty body c w.
Proof.
  intros Hw Hf. unfold with_buff, send_packet.
  destruct (dps_alloc_buff w) as [[b|] w1] eqn:E; [|done].
  apply dps_alloc_buff_length in E.
  rewrite Hw by (rewrite E; lia). cbn [obind].
  rewrite dps_set_pkt_hdr_lay by (rewrite length_lay, E; lia).
  destruct (assign_query_id c w1) as [c' w']. cbn [obind]. unfold xmit_free, wire_pkt.
  rewrite lay_before' by (rewrite length_wire_pkt_hdr; lia).
  destruct (dps_protocol_xmit _ _ _ _) as [s w2]. done.
Qed.
Lemma send_late_id err ty body (f : writer) c w :
  writes f body -> DPS_PKT_HDR_LEN + length body <= DPS_MAX_BUFF_SZ ->
  with_buff err c w (fun b w =>
    let* (b, n) := f b DPS_PKT_HDR_LEN in
    let n := DPS_PKT_HDR_LEN + n in
    let* (b, c, w) := dps_set_pkt_hdr b 0 ty c (Z.of_nat n) w in
    xmit_free b n c w)
    = send_packet err (fun s => s) ty body c w.
Proof.
  intros Hw Hf. rewrite <- (send_late _ _ _ _ f) by done. unfold with_buff.
  destruct (dps_alloc_buff w) as [[b|] w1]; [|done].
  destruct (f b _) as [[b1 n]| |]; try done. cbn [obind].
  destruct (dps_set_pkt_hdr _ _ _ _ _ _) as [[[b2 c2] w2]| |]; try done. cbn [obind].
  unfold xmit_free. by destruct (dps_protocol_xmit _ _ _ _).
Qed.

Lemma max_buff_in32 n : n <= DPS_MAX_BUFF_SZ -> in32 (Z.of_nat n).
Proof.
  intros Hn. assert (Z.of_nat DPS_MAX_BUFF_SZ = 32768%Z) by (vm_compute; done).
  unfold in32. lia.
Qed.

(** The length in a reply's header, and whether it has a body. *)
Lemma reply_len_exact c :
  well_typed (ch_type (cd_hdr c)) (cd_body c) = true -> body_ok c ->
  exact_len (cd_body c) = true ->
  DPS_PKT_HDR_LEN + length (wire_body c) <= DPS_MAX_BUFF_SZ ->
  reply_len c = Done (Z.of_nat (DPS_PKT_HDR_LEN
        + length (if (ch_resp_status (cd_hdr c) =? 0)%Z then wire_body c else []))).
Proof.
  intros Hty Hok Hex Hf. unfold reply_len. destruct (_ =? 0)%Z; [|done].
  by apply calc_pkt_len_exact; try apply max_buff_in32.
Qed.

(** A body that is left out when the length is that of the header alone. *)
Lemma optional_writes (f : writer) (p : pat) n :
  writes f p -> n = Z.of_nat (DPS_PKT_HDR_LEN + length p) ->
  writes (fun b off => if hdr_only n then Done (b, 0) else f b off) p.
Proof.
  intros Hf -> b off Hb. unfold hdr_only.
  destruct (Z.eqb_spec (Z.of_nat (DPS_PKT_HDR_LEN + length p)) (Z.of_nat DPS_PKT_HDR_LEN)).
  - assert (length p = 0) as E by lia. apply length_zero_iff_nil in E. subst p.
    by rewrite lay_nil.
  - by apply Hf.
Qed.

(** A loop that repeats until the length is reached, run once. *)
Lemma write_once ty (body : writer) p c w :
  writes body p -> 0 < length p -> DPS_PKT_HDR_LEN + length p <= DPS_MAX_BUFF_SZ ->
  let len := Z.of_nat (DPS_PKT_HDR_LEN + length p) in
  with_buff DPS_ERROR c w (fun b w =>
    let* (b, c, w) := dps_set_pkt_hdr b 0 ty c len w in
    let* (b, n) := write_until (S (Z.to_nat len)) len body b DPS_PKT_HDR_LEN in
    xmit_free b n c w)
    = send_packet DPS_ERROR (fun s => s) ty p c w.
Proof.
  intros Hw Hp Hf len. rewrite <- (send_early_id _ _ _ (fun _ => body) _ _ len) by done.
  unfold with_buff. destruct (dps_alloc_buff w) as [[b|] w1] eqn:E; [|done].
  apply dps_alloc_buff_length in E. unfold len.
  rewrite dps_set_pkt_hdr_lay by (rewrite E; lia).
  destruct (assign_query_id c w1) as [c' w']. cbn [obind].
  rewrite Nat2Z.id, write_until_once by (rewrite ?length_lay; done || lia).
  by rewrite Hw by (rewrite length_lay; lia).
Qed.

(** *** Each function *)
Lemma send_loc_req_refines c x w :
  cd_body c = Body_endpoint_loc_req x -> body_ok c ->
  DPS_PKT_HDR_LEN + length (wire_body c) <= DPS_MAX_BUFF_SZ ->
  dps_send_endpoint_loc_req c w =
    send_packet DPS_ERROR (fun s => s) DPS_ENDPOINT_LOC_REQ (wire_body c) c w.
Proof.
  intros E Hok Hf. unfold dps_send_endpoint_loc_req.
  rewrite calc_pkt_len_exact by (first [done | by rewrite E | by apply max_buff_in32]).
  unfold body_ok, wire_body in *. rewrite E in *. cbn [as_endpoint_loc_req obind].
  apply (send_early_id _ _ _ (fun _ b off => set_loc_req b off x)); try done.
  intros _ _ _ _. apply set_loc_req_writes; apply Hok.
Qed.

Lemma send_addr_resolve_refines c x w :
  cd_body c = Body_address_resolve x -> body_ok c ->
  DPS_PKT_HDR_LEN + length (wire_body c) <= DPS_MAX_BUFF_SZ ->
  dps_send_addr_resolve c w =
    send_packet DPS_ERROR (fun s => s) (ch_type (cd_hdr c)) (wire_body c) c w.
Proof.
  intros E Hok Hf. unfold dps_send_addr_resolve.
  rewrite calc_pkt_len_exact by (first [done | by rewrite E | by apply max_buff_in32]).
  unfold body_ok, wire_body in *. rewrite E in *. cbn [as_endpoint_loc_req obind].
  apply (send_early_id _ _ _ (fun _ b off => set_loc_req b off x)); try done.
  intros _ _ _ _. apply set_loc_req_writes; apply Hok.
Qed.

Lemma send_policy_req_refines c x w :
  cd_body c = Body_policy_req x -> body_ok c ->
  DPS_PKT_HDR_LEN + length (wire_body c) <= DPS_MAX_BUFF_SZ ->
  dps_send_policy_req c w =
    send_packet DPS_ERROR (fun s => s) DPS_POLICY_REQ (wire_body c) c w.
Proof.
  intros E Hok Hf. unfold dps_send_policy_req.
  rewrite calc_pkt_len_exact by (first [done | by rewrite E | by apply max_buff_in32]).
  unfold body_ok, wire_body in *. rewrite E in *. cbn [as_policy_req obind].
  apply (send_early_id _ _ _ (fun _ b off => set_policy_req b off x)); try done.
  intros _ _ _ _. apply set_policy_req_writes; apply Hok.
Qed.

Lemma send_vm_migration_refines c x w :
  cd_body c = Body_vm_migration_event x -> body_ok c ->
  DPS_PKT_HDR_LEN + length (wire_body c) <= DPS_MAX_BUFF_SZ ->
  dps_send_vm_migration_event c w =
    send_packet DPS_ERROR (fun s => s) DPS_VM_MIGRATION_EVENT (wire_body c) c w.
Proof.
  intros E Hok Hf. unfold dps_send_vm_migration_event.
  rewrite calc_pkt_len_exact by (first [done | by rewrite E | by apply max_buff_in32]).
  unfold body_ok, wire_body in *. rewrite E in *. cbn [as_vm_migration_event obind].
  apply (send_early_id _ _ _ (fun _ b off => set_vm_migration b off x)); try done.
  intros _ _ _ _. apply set_vm_migration_writes; apply Hok.
Qed.

Lemma send_gen_msg_refines c x w :
  cd_body c = Body_gen_msg_req x -> well_typed (ch_type (cd_hdr c)) (cd_body c) = true ->
  body_ok c -> DPS_PKT_HDR_LEN + length (wire_body c) <= DPS_MAX_BUFF_SZ ->
  dps_send_gen_msg_req c w =
    send_packet DPS_ERROR (fun s => s) (ch_type (cd_hdr c)) (wire_body c) c w.
Proof.
  intros E Hty Hok Hf. unfold dps_send_gen_msg_req.
  rewrite calc_pkt_len_exact by (first [done | by rewrite E | by apply max_buff_in32]).
  unfold body_ok, wire_body in *. rewrite E in *. cbn [as_gen_msg_req obind].
  apply (send_early_id _ _ _ (fun _ b off => set_client_addr b off (gm_dps_client_addr x)));
    try done.
  intros _ _ _ _. apply set_client_addr_writes; apply Hok.
Qed.

Lemma send_bulk_refines c x w :
  cd_body c = Body_bulk_vnid_policy x ->
  well_typed (ch_type (cd_hdr c)) (cd_body c) = true ->
  body_ok c -> DPS_PKT_HDR_LEN + length (wire_body c) <= DPS_MAX_BUFF_SZ ->
  dps_send_bulk_policy_xfer c w =
    send_packet DPS_ERROR_NO_RESOURCES (fun s => s) (ch_type (cd_hdr c)) (wire_body c) c w.
Proof.
  intros E Hty Hok Hf. unfold dps_send_bulk_policy_xfer.
  rewrite calc_pkt_len_exact by (first [done | by rewrite E | by apply max_buff_in32]).
  unfold body_ok, wire_body in *. rewrite E in *. cbn [as_bulk_vnid_policy obind].
  eapply (send_early_id _ _ _ (fun _ b off => dps_set_bulk_policy_xfer b off x _));
    try done.
  intros _ _ _ _. by apply dps_set_bulk_policy_xfer_writes.
Qed.

Lemma send_endpoint_update_reply_refines c x w :
  cd_body c = Body_endpoint_update_reply x ->
  well_typed (ch_type (cd_hdr c)) (cd_body c) = true ->
  body_ok c -> DPS_PKT_HDR_LEN + length (wire_body c) <= DPS_MAX_BUFF_SZ ->
  dps_send_endpoint_update_reply c w =
    send_packet DPS_ERROR (fun s => s) DPS_ENDPOINT_UPDATE_REPLY (wire_body c) c w.
Proof.
  intros E Hty Hok Hf. unfold dps_send_endpoint_update_reply.
  rewrite calc_pkt_len_exact by (first [done | by rewrite E | by apply max_buff_in32]).
  unfold body_ok, wire_body in *. rewrite E in *. cbn [as_endpoint_update_reply obind].
  eapply (send_early_id _ _ _ (fun _ b off => if hdr_only _ then Done (b, 0)
    else dps_set_endpoint_update_reply_tlv b off x _)); try done.
  intros _ _ _ _. apply (optional_writes (fun b off => _)); [|done].
  by apply dps_set_endpoint_update_reply_tlv_writes.
Qed.

Lemma send_endpoint_update_refines c x w :
  cd_body c = Body_endpoint_update x -> body_ok c ->
  DPS_PKT_HDR_LEN + length (wire_body c) <= DPS_MAX_BUFF_SZ ->
  dps_send_endpoint_update c w =
    send_packet DPS_ERROR (fun s => s) DPS_ENDPOINT_UPDATE (wire_body c) c w.
Proof.
  intros E Hok Hf. unfold dps_send_endpoint_update.
  rewrite calc_pkt_len_exact by (first [done | by rewrite E | by apply max_buff_in32]).
  unfold body_ok, wire_body in *. rewrite E in *. cbn [as_endpoint_update obind].
  unfold hdr_only.
  match goal with |- context [(?a =? ?b)%Z] => destruct (Z.eqb_spec a b) as [E0|_] end.
  - unfold wire_endpoint_update in E0. rewrite length_app, length_wire_loc in E0
      by apply Hok. lia.
  - eapply (send_late_id _ _ _ (fun b off => set_update b off x _)); [|done].
    apply set_update_writes; apply Hok.
Qed.

Lemma send_loc_reply_refines c x w :
  cd_body c = Body_endpoint_loc_reply x ->
  well_typed (ch_type (cd_hdr c)) (cd_body c) = true -> body_ok c ->
  DPS_PKT_HDR_LEN + length (wire_body c) <= DPS_MAX_BUFF_SZ ->
  dps_send_endpoint_loc_reply c w =
    send_packet DPS_ERROR (fun s => s) (ch_type (cd_hdr c)) (sent_body c) c w.
Proof.
  intros E Hty Hok Hf. unfold dps_send_endpoint_loc_reply.
  rewrite reply_len_exact by (first [done | by rewrite E]). cbn [obind].
  assert (sent_body c = if (ch_resp_status (cd_hdr c) =? 0)%Z then wire_body c else []) as Es
    by (unfold sent_body; by rewrite E).
  rewrite <- Es. eapply (send_early_id _ _ _ (fun c b off =>
    if hdr_only _ then Done (b, 0)
    else let* x := as_endpoint_loc_reply (cd_body c) in
    dps_set_endpoint_loc_reply_tlv b off x)); [| |done].
  - intros c' w' w'' (-> & _)%assign_query_id_keeps. rewrite E. cbn [as_endpoint_loc_reply obind].
    rewrite Es. destruct (_ =? 0)%Z; [|intros b off _; by rewrite lay_nil].
    apply (optional_writes (fun b off => _)); [|done].
    unfold body_ok, wire_body in *. rewrite E in *.
    apply dps_set_endpoint_loc_reply_tlv_writes; apply Hok.
  - rewrite Es. destruct (_ =? 0)%Z; [done|]. simpl length. lia.
Qed.

Lemma send_policy_reply_refines c x w :
  cd_body c = Body_policy_reply x -> body_ok c ->
  DPS_PKT_HDR_LEN + length (wire_body c) <= DPS_MAX_BUFF_SZ ->
  dps_send_policy_reply c w =
    send_packet DPS_ERROR (fun _ => DPS_SUCCESS) DPS_POLICY_REPLY (wire_body c) c w.
Proof.
  intros E Hok Hf. unfold dps_send_policy_reply.
  rewrite calc_pkt_len_exact by (first [done | by rewrite E | by apply max_buff_in32]).
  unfold body_ok, wire_body in *. rewrite E in *. cbn [as_policy_reply obind].
  eapply (send_early _ _ _ _ (fun c b off =>
    dps_set_policy_reply_tlv b off x (cd_hdr c) _)); try done.
  intros c' w' w'' (_ & _ & _ & Er & _)%assign_query_id_keeps.
  replace (wire_policy_reply x (cd_hdr c)) with (wire_policy_reply x (cd_hdr c'))
    by (unfold wire_policy_reply; by rewrite Er).
  apply dps_set_policy_reply_tlv_writes; apply Hok.
Qed.

Lemma send_packed_refines lists c n4 n6 words w :
  (forall c', cd_body c' = cd_body c -> lists c' = Done (n4, n6, words)) ->
  wire_body c = wire_packed n4 n6 words -> wf_packed n4 n6 words ->
  sent_body c = (if (ch_resp_status (cd_hdr c) =? 0)%Z then wire_body c else []) ->
  exact_len (cd_body c) = true ->
  well_typed (ch_type (cd_hdr c)) (cd_body c) = true -> body_ok c ->
  DPS_PKT_HDR_LEN + length (wire_body c) <= DPS_MAX_BUFF_SZ ->
  send_packed lists c w =
    send_packet DPS_ERROR (fun s => s) (ch_type (cd_hdr c)) (sent_body c) c w.
Proof.
  intros Hl Hb Hwf Es Hex Hty Hok Hf. unfold send_packed.
  rewrite reply_len_exact by done. cbn [obind].
  rewrite <- Es. eapply (send_early_id _ _ _ (fun c b off =>
    if hdr_only _ then Done (b, 0)
    else let* (n4, n6, words) := lists c in
    set_packed_lists b off words n4 n6)); [| |done].
  - intros c' w' w'' (Ec & _)%assign_query_id_keeps. rewrite (Hl _ Ec). cbn [obind].
    rewrite Es. destruct (_ =? 0)%Z; [|intros b off _; by rewrite lay_nil].
    apply (optional_writes (fun b off => _)); [|done].
    rewrite Hb. by apply set_packed_lists_writes.
  - rewrite Es. destruct (_ =? 0)%Z; [done|]. simpl length. lia.
Qed.

Lemma send_mcast_sender_refines c x w :
  cd_body c = Body_mcast_sender x ->
  well_typed (ch_type (cd_hdr c)) (cd_body c) = true -> body_ok c ->
  DPS_PKT_HDR_LEN + length (wire_body c) <= DPS_MAX_BUFF_SZ ->
  dps_send_mcast_sender_reg_dereg c w =
    send_packet DPS_ERROR (fun s => s) (ch_type (cd_hdr c)) (wire_body c) c w.
Proof.
  intros E Hty Hok Hf. unfold dps_send_mcast_sender_reg_dereg.
  rewrite calc_pkt_len_exact by (first [done | by rewrite E | by apply max_buff_in32]).
  unfold body_ok, wire_body in *. rewrite E in *. cbn [as_mcast_sender obind].
  apply (write_once _ (set_mcast_sender x)); [| |done].
  - apply set_mcast_sender_writes; apply Hok.
  - unfold wire_mcast_sender, wire_mcast_addr. len.
Qed.

Lemma send_mcast_receiver_refines c x w :
  cd_body c = Body_mcast_receiver x ->
  well_typed (ch_type (cd_hdr c)) (cd_body c) = true -> body_ok c ->
  DPS_PKT_HDR_LEN + length (wire_body c) <= DPS_MAX_BUFF_SZ ->
  dps_send_mcast_receiver_join_leave c w =
    send_packet DPS_ERROR (fun s => s) (ch_type (cd_hdr c)) (wire_body c) c w.
Proof.
  intros E Hty Hok Hf. unfold dps_send_mcast_receiver_join_leave.
  rewrite calc_pkt_len_exact by (first [done | by rewrite E | by apply max_buff_in32]).
  unfold body_ok, wire_body in *. rewrite E in *. cbn [as_mcast_receiver obind].
  apply (write_once _ (set_mcast_receiver x)); [| |done].
  - apply set_mcast_receiver_writes; apply Hok.
  - unfold wire_mcast_receiver, wire_mcast_grp_rec. len.
Qed.

(** The tunnel lists: the allocation has the worst-case length, the header
    the real one. *)
Lemma in16_bound tl :
  in16 (tl_num_of_tunnels tl) -> in32 (20 + (tunnel_list_bound tl + 24)) /\
  (0 <= tunnel_list_bound tl)%Z /\
  ((tunnel_list_bound tl = 0)%Z <-> tl_num_of_tunnels tl = 0%Z).
Proof.
  unfold in16, in32, tunnel_list_bound. intros Hn.
  destruct (Z.eqb_spec (tl_num_of_tunnels tl) 0); lia.
Qed.

Lemma tunnels_zero tl : tl_num_of_tunnels tl = 0%Z -> wire_tunnel_list (tunnels tl) = [].
Proof. intros E. unfold tunnels, counted. by rewrite E. Qed.

Lemma send_gw_list_refines c x w :
  cd_body c = Body_tunnel_info x ->
  well_typed (ch_type (cd_hdr c)) (cd_body c) = true -> body_ok c ->
  (dps_alloc_buff w).1 <> None ->
  DPS_PKT_HDR_LEN + length (wire_body c) <= DPS_MAX_BUFF_SZ ->
  dps_send_gw_list c w =
    send_packet DPS_ERROR (fun s => s) (ch_type (cd_hdr c)) (sent_body c) c w.
Proof.
  intros E Hty Hok Hal Hf.
  assert (sent_body c = if (ch_resp_status (cd_hdr c) =? 0)%Z then wire_body c else []) as Es
    by (unfold sent_body; by rewrite E).
  assert (exists len, reply_len c = Done len /\
    writes (fun b off => if hdr_only len then Done (b, 0)
    else dps_set_tunnel_list_tlv b off (tl_tunnel_list x) (tl_num_of_tunnels x))
    (sent_body c)) as (len & El & Hw).
  { rewrite Es. unfold reply_len. destruct (_ =? 0)%Z;
      [|by eexists; split; [done|]; intros b off _; rewrite lay_nil].
    unfold calc_pkt_len. rewrite (calc_body_len_tunnel_info _ _ x) by done.
    cbn [obind]. unfold wire_body, body_ok in *. rewrite E in *.
    destruct Hok as [Hok Hn]. apply in16_bound in Hn as (Hb & Hb0 & Hz).
    eexists. split; [done|].
    rewrite u32_small by (unfold in32, DPS_PKT_HDR_LEN in *; lia).
    intros b off Hfit. unfold hdr_only, DPS_PKT_HDR_LEN.
    destruct (Z.eqb_spec (Z.of_nat 20 + tunnel_list_bound x) (Z.of_nat 20)).
    - rewrite tunnels_zero by (apply Hz; lia). by rewrite lay_nil.
    - by apply dps_set_tunnel_list_tlv_writes. }
  unfold dps_send_gw_list. rewrite El. cbn [obind].
  rewrite <- (send_late_id _ _ _ _ c w Hw).
  - unfold with_buff. destruct (dps_alloc_buff w) as [[b|] w1]; [|done].
    rewrite E. by destruct (hdr_only len).
  - rewrite Es. destruct (_ =? 0)%Z; [done | cbn [length]; lia].
Qed.

Lemma send_tunnel_reg_refines c x w :
  cd_body c = Body_tunnel_reg_dereg x ->
  well_typed (ch_type (cd_hdr c)) (cd_body c) = true -> body_ok c ->
  DPS_PKT_HDR_LEN + length (wire_body c) <= DPS_MAX_BUFF_SZ ->
  dps_send_tunnel_reg_dereg c w =
    send_packet DPS_ERROR (fun s => s) (ch_type (cd_hdr c)) (sent_body c) c w.
Proof.
  intros E Hty Hok Hf.
  assert (sent_body c = if (ch_resp_status (cd_hdr c) =? 0)%Z then wire_body c else []) as Es
    by (unfold sent_body; by rewrite E).
  assert (exists len, reply_len c = Done len /\
    writes (fun b off => if hdr_only len then Done (b, 0) else set_tunnel_reg b off x)
    (sent_body c)) as (len & El & Hw).
  { rewrite Es. unfold reply_len. destruct (_ =? 0)%Z;
      [|by eexists; split; [done|]; intros b off _; rewrite lay_nil].
    unfold calc_pkt_len. rewrite (calc_body_len_tunnel_reg _ _ x) by done.
    cbn [obind]. unfold wire_body, body_ok in *. rewrite E in *.
    destruct Hok as (Ht & Hn & Hc). apply in16_bound in Hn as (Hb & Hb0 & _).
    eexists. split; [done|].
    rewrite u32_small by (unfold in32, DPS_PKT_HDR_LEN, DPS_SVCLOC6_TLV_LEN,
      DPS_TLV_HDR_LEN in *; lia).
    intros b off Hfit. unfold hdr_only.
    match goal with |- context [(?a =? ?b)%Z] => destruct (Z.eqb_spec a b) as [E0|_] end.
    - unfold DPS_PKT_HDR_LEN, DPS_SVCLOC6_TLV_LEN, DPS_TLV_HDR_LEN in E0. lia.
    - by apply set_tunnel_reg_writes. }
  unfold dps_send_tunnel_reg_dereg. rewrite El. cbn [obind].
  rewrite <- (send_late_id _ _ _ _ c w Hw).
  - unfold with_buff. destruct (dps_alloc_buff w) as [[b|] w1]; [|done].
    rewrite E. by destruct (hdr_only len).
  - rewrite Es. destruct (_ =? 0)%Z; [done | cbn [length]; lia].
Qed.

Lemma set_ds_lists_lay recs i n b off :
  i + n <= length recs ->
  Forall (fun t => wf_packed (pk_num_v4_tunnels t) (pk_num_v6_tunnels t)
      (pk_tunnel_list t)) (take n (drop i recs)) ->
  off + length (concat (wire_vnid_tunnel_list <$> take n (drop i recs))) <= length b ->
  off + length (concat (wire_vnid_tunnel_list <$> take n (drop i recs)))
    <= DPS_SEND_BUFF_SZ ->
  set_ds_lists recs i n b off =
  Done (lay b off (concat (wire_vnid_tunnel_list <$> take n (drop i recs))),
    off + length (concat (wire_vnid_tunnel_list <$> take n (drop i recs)))).
Proof.
  revert i b off. induction n as [|n IH]; intros i b off Hi Hw Hf Hs.
  - simpl. by rewrite lay_nil, Nat.add_0_r.
  - destruct (lookup_lt_is_Some_2 recs i) as [r Hr]; [lia|]. cbn [set_ds_lists].
    unfold arr_read. rewrite Hr. cbn [of_option obind].
    rewrite (drop_S _ _ _ Hr) in *. cbn [take] in *.
    apply Forall_cons_1 in Hw as [Hwr Hw].
    rewrite fmap_cons in *. cbn [concat] in *. rewrite length_app in *.
    destruct (Z.of_nat off >? Z.of_nat DPS_SEND_BUFF_SZ)%Z eqn:E; [lia|].
    rewrite dps_set_vnid_tunnel_list_tlv_writes by (done || lia). cbn [obind].
    rewrite IH by (done || rewrite ?length_lay; lia).
    by rewrite lay_app, Nat.add_assoc.
Qed.

Lemma send_ds_list_refines c x w :
  cd_body c = Body_mcast_receiver_ds_list x -> body_ok c ->
  DPS_PKT_HDR_LEN + length (wire_body c) <= DPS_SEND_BUFF_SZ ->
  dps_send_mcast_receiver_ds_list c w =
    send_packet DPS_ERROR (fun s => s) (ch_type (cd_hdr c)) (wire_body c) c w.
Proof.
  intros E Hok Hf. unfold dps_send_mcast_receiver_ds_list.
  assert (DPS_SEND_BUFF_SZ <= DPS_MAX_BUFF_SZ) as Hsz
    by (apply Nat.leb_le; vm_compute; reflexivity).
  unfold body_ok, wire_body in *. rewrite E in *. cbn [as_mcast_receiver_ds_list obind].
  destruct Hok as (Hm & [Hn Hc] & Hr). unfold wire_ds_list, ds_lists, counted in *.
  rewrite length_app in Hf. unfold with_buff, send_packet.
  destruct (dps_alloc_buff w) as [[b|] w1] eqn:Ea; [|done].
  apply dps_alloc_buff_length in Ea.
  rewrite dps_set_mcast_addr_tlv_writes by (rewrite ?Ea; done || lia). cbn [obind].
  rewrite set_ds_lists_lay by (rewrite ?drop_0, ?length_lay, ?Ea; done || lia).
  cbn [obind]. rewrite drop_0.
  rewrite dps_set_pkt_hdr_lay by (rewrite !length_lay, Ea; lia).
  destruct (assign_query_id c w1) as [c' w'] eqn:Eq. cbn [obind].
  apply assign_query_id_keeps in Eq as (_ & _ & _ & _ & _).
  rewrite lay_app, lay_before' by done. unfold xmit_free, wire_pkt.
  rewrite <- !Nat.add_assoc, length_app. done.
Qed.

Lemma send_vm_loc_refines c x w :
  cd_body c = Body_vm_invalidate_msg x -> body_ok c ->
  DPS_PKT_HDR_LEN + length (wire_body c) <= DPS_MAX_BUFF_SZ ->
  dps_send_vm_loc_info c w =
    send_packet DPS_ERROR (fun _ => DPS_SUCCESS) (ch_type (cd_hdr c)) (wire_body c) c w.
Proof.
  intros E Hok Hf. unfold dps_send_vm_loc_info.
  unfold body_ok, wire_body in *. rewrite E in *. cbn [as_vm_invalidate_msg obind].
  apply (send_late _ _ _ _ (fun b off => dps_set_epri_tlv b off x)); [|done].
  by apply dps_set_epri_tlv_writes.
Qed.

(** ** The table *)

(** The room a message has: the dove switch lists of a multicast group are
    limited to [DPS_SEND_BUFF_SZ] bytes, whatever was allocated. *)
Definition send_room (b : dps_client_body) : nat :=
  match b with
  | Body_mcast_receiver_ds_list _ => DPS_SEND_BUFF_SZ
  | _ => DPS_MAX_BUFF_SZ
  end.

Definition is_tunnel_info (b : dps_client_body) : bool :=
  match b with Body_tunnel_info _ => true | _ => false end.

Lemma call_send_at t f c (w : W) :
  dps_send_func_tbl !! Z.to_nat t = Some (Some f) -> call_send t c w = f c w.
Proof. unfold call_send. by intros ->. Qed.

(** [through f]: the call goes to [f], for each type the message may have. *)
Ltac through f Hty :=
  rewrite (call_send_at _ f) by (type_cases Hty; reflexivity).

Lemma call_send_refines c w :
  let ty := ch_type (cd_hdr c) in
  well_typed ty (cd_body c) = true -> body_ok c -> cd_body c <> Body_none ->
  DPS_PKT_HDR_LEN + length (wire_body c) <= send_room (cd_body c) ->
  (is_tunnel_info (cd_body c) = true -> (dps_alloc_buff w).1 <> None) ->
  call_send ty c w =
    send_packet (send_err (cd_body c)) (send_status (cd_body c)) ty (sent_body c) c w.
Proof.
  intros ty Hty Hok Hne Hf Hal. subst ty. destruct (cd_body c) eqn:E; try done;
    cbn [send_err send_status send_room is_tunnel_info] in *;
    pose proof Hty as Hty'; rewrite <- E in Hty'.
  - through dps_send_endpoint_loc_req Hty.
    rewrite (send_loc_req_refines c x) by done. unfold sent_body. rewrite E.
    f_equal. type_cases Hty; done.
  - through dps_send_endpoint_loc_reply Hty. by apply (send_loc_reply_refines c x).
  - through dps_send_policy_req Hty.
    rewrite (send_policy_req_refines c x) by done. unfold sent_body. rewrite E.
    f_equal. type_cases Hty; done.
  - through dps_send_policy_reply Hty.
    rewrite (send_policy_reply_refines c x) by done. unfold sent_body. rewrite E.
    f_equal. type_cases Hty; done.
  - through dps_send_endpoint_update Hty.
    rewrite (send_endpoint_update_refines c x) by done. unfold sent_body. rewrite E.
    f_equal. type_cases Hty; done.
  - through dps_send_endpoint_update_reply Hty.
    rewrite (send_endpoint_update_reply_refines c x) by done. unfold sent_body.
    rewrite E. f_equal. type_cases Hty; done.
  - through dps_send_internal_gw_reply Hty. unfold dps_send_internal_gw_reply.
    apply (send_packed_refines _ _ (gw_num_v4_gw x) (gw_num_v6_gw x) (gw_gw_list x));
      [ intros c' Ec; by rewrite Ec, E | unfold wire_body; by rewrite E
      | unfold body_ok in Hok; by rewrite E in Hok
      | unfold sent_body; by rewrite E | by rewrite E | done | done | done ].
  - through dps_send_bulk_policy_xfer Hty.
    rewrite (send_bulk_refines c x) by done. unfold sent_body. by rewrite E.
  - through dps_send_gen_msg_req Hty.
    rewrite (send_gen_msg_refines c x) by done. unfold sent_body. by rewrite E.
  - through dps_send_bcast_list_reply Hty. unfold dps_send_bcast_list_reply.
    apply (send_packed_refines _ _ (pk_num_v4_tunnels x) (pk_num_v6_tunnels x) (pk_tunnel_list x));
      [ intros c' Ec; by rewrite Ec, E | unfold wire_body; by rewrite E
      | unfold body_ok in Hok; by rewrite E in Hok
      | unfold sent_body; by rewrite E | by rewrite E | done | done | done ].
  - through dps_send_vm_migration_event Hty.
    rewrite (send_vm_migration_refines c x) by done. unfold sent_body. rewrite E.
    f_equal. type_cases Hty; done.
  - through dps_send_mcast_sender_reg_dereg Hty.
    rewrite (send_mcast_sender_refines c x) by done. unfold sent_body. by rewrite E.
  - through dps_send_mcast_receiver_join_leave Hty.
    rewrite (send_mcast_receiver_refines c x) by done. unfold sent_body. by rewrite E.
  - through dps_send_mcast_receiver_ds_list Hty.
    rewrite (send_ds_list_refines c x) by done. unfold sent_body. by rewrite E.
  - through dps_send_gw_list Hty.
    by rewrite (send_gw_list_refines c x) by (done || by apply Hal).
  - through dps_send_tunnel_reg_dereg Hty. by rewrite (send_tunnel_reg_refines c x).
  - through dps_send_addr_resolve Hty.
    rewrite (send_addr_resolve_refines c x) by done. unfold sent_body. by rewrite E.
  - through dps_send_vm_loc_info Hty.
    rewrite (send_vm_loc_refines c x) by done. unfold sent_body. by rewrite E.
Qed.

(** An acknowledgement is a bare header, from a buffer of its own. *)
Lemma send_general_ack_spec c (w : W) :
  well_typed (ch_type (cd_hdr c)) Body_none = true ->
  call_send (ch_type (cd_hdr c)) c w =
    (let '(c, w) := assign_query_id c w in
    let '(status, w) :=
      dps_protocol_xmit (lay (replicate DPS_PKT_HDR_LEN 0%Z) 0
        (wire_pkt (ch_type (cd_hdr c)) (cd_hdr c) []))
      (ch_reply_addr (cd_hdr c)) 0 w in
    Done (status, c, w)).
Proof.
  intros Hty. through dps_send_general_ack Hty. unfold dps_send_general_ack.
  rewrite dps_set_pkt_hdr_lay by done.
  destruct (assign_query_id c w) as [c' w'] eqn:Eq. cbn [obind].
  apply assign_query_id_keeps in Eq as (_ & _ & <- & _ & _).
  unfold wire_pkt. by rewrite app_nil_r.
Qed.
End refine.
