(* ===== verification/Client.v ===== *)
(** * The send entry point, its statistics, acknowledgements and the timer

    [dps_pkt_stats_tbl] is module state of [dps_pkt_process.c]; the receive
    side reaches the send side through [dps_client_create_general_ack]. *)
From S2P Require Export SendSpec.

Record dps_pkt_stats_t := mk_stats {
  ps_recv : Z; ps_recv_error : Z; ps_sent : Z; ps_transmit_error : Z }.
Definition zero_stats : dps_pkt_stats_t := mk_stats 0 0 0 0.

(** An [unsigned long] counter. *)
Definition incr (n : Z) : Z := ((n + 1) mod 18446744073709551616)%Z.
Definition incr_recv (s : dps_pkt_stats_t) : dps_pkt_stats_t :=
  mk_stats (incr (ps_recv s)) (ps_recv_error s) (ps_sent s) (ps_transmit_error s).
Definition incr_recv_error (s : dps_pkt_stats_t) : dps_pkt_stats_t :=
  mk_stats (ps_recv s) (incr (ps_recv_error s)) (ps_sent s) (ps_transmit_error s).
Definition incr_sent (s : dps_pkt_stats_t) : dps_pkt_stats_t :=
  mk_stats (ps_recv s) (ps_recv_error s) (incr (ps_sent s)) (ps_transmit_error s).
Definition incr_transmit_error (s : dps_pkt_stats_t) : dps_pkt_stats_t :=
  mk_stats (ps_recv s) (ps_recv_error s) (ps_sent s) (incr (ps_transmit_error s)).

(** [dps_pkt_stats_tbl]: one entry per message type, entry 0 for the rest. *)
Definition stats_tbl := list dps_pkt_stats_t.
Definition dps_pkt_stats_tbl : stats_tbl := replicate (Z.to_nat DPS_MAX_MSG_TYPE) zero_stats.
Definition count (f : dps_pkt_stats_t -> dps_pkt_stats_t) (ty : Z) (t : stats_tbl)
  : stats_tbl := alter f (Z.to_nat ty) t.

(** A message type the tables have an entry for. *)
Definition known_type (ty : Z) : bool :=
  negb ((ty <? DPS_ENDPOINT_LOC_REQ) || (ty >=? DPS_MAX_MSG_TYPE))%Z.

Section client.
Context {W : Type} `{Env W}.

(** The state of the module and of its environment. *)
Definition pstate : Type := stats_tbl * W.

(** An inactive cluster node reports success without sending. *)
Definition dps_protocol_client_send (msg : dps_client_data_t) (st : pstate)
  : out (Z * dps_client_data_t * pstate) :=
  let '(t, w) := st in
  if dps_server && negb (dps_cluster_is_local_node_active w)
  then Done (DPS_SUCCESS, msg, (t, w))
  else
    let ty := ch_type (cd_hdr msg) in
    if known_type ty then
      let* (ret, msg, w) := call_send ty msg w in
      let ty := ch_type (cd_hdr msg) in
      let t := if (ret =? DPS_SUCCESS)%Z then count incr_sent ty t
      else count incr_transmit_error ty t in
      Done (ret, msg, (t, w))
    else Done (DPS_ERROR, msg, (count incr_transmit_error 0 t, w)).

(** The types whose acknowledgement is [DPS_REG_DEREGISTER_ACK]. *)
Definition is_registration (ty : Z) : bool :=
  existsb (Z.eqb ty) [DPS_TUNNEL_REGISTER; DPS_TUNNEL_DEREGISTER;
    DPS_MCAST_SENDER_REGISTRATION; DPS_MCAST_SENDER_DEREGISTRATION;
    DPS_MCAST_RECEIVER_JOIN; DPS_MCAST_RECEIVER_LEAVE].

Definition ack_hdr (h : dps_client_hdr_t) : dps_client_hdr_t :=
  mk_client_hdr
    (if is_registration (ch_type h) then DPS_REG_DEREGISTER_ACK else DPS_GENERAL_ACK)
    (ch_type h) (ch_client_id h) (ch_transaction_type h) (ch_vnid h) DPS_NO_ERR
    (ch_query_id h) (ch_reply_addr h).

(** The local message has only its header set; the send function for
    acknowledgements looks at nothing else. *)
Definition dps_client_create_general_ack (c : dps_client_data_t) (st : pstate)
  : out (Z * pstate) :=
  if (ch_query_id (cd_hdr c) =? 0)%Z then Done (DPS_SUCCESS, st)
  else
    let* (_, _, st) :=
      dps_protocol_client_send (mk_client_data 0 (ack_hdr (cd_hdr c)) Body_none) st in
    Done (DPS_SUCCESS, st).

(** The context of the request the response answers; [NULL] without one. *)
Definition dps_stop_retransmit_timer (c : dps_client_data_t) (w : W)
  : Z * dps_client_data_t * W :=
  let with_context ctx := mk_client_data ctx (cd_hdr c) (cd_body c) in
  if (ch_query_id (cd_hdr c) =? 0)%Z then (DPS_SUCCESS, with_context 0%Z, w)
  else
    let '(ok, ctx, w) := timer_stop (ch_query_id (cd_hdr c)) w in
    (if ok then DPS_SUCCESS else DPS_ERROR, with_context ctx, w).

(** [dps_send_to_protocol_client] *)
Definition dps_send_to_protocol_client (c : dps_client_data_t) (w : W) : Z * W :=
  (DPS_SUCCESS, deliver c w).
End client.

(** ** Statistics on request *)
Definition covered_type (pkt_type : Z) : bool :=
  negb ((pkt_type <? DPS_ENDPOINT_LOC_REQ) || (pkt_type >? DPS_ADDR_REPLY))%Z.

(** The entries [dps_packet_stats_show] prints, in order: those of all types
    stop at [DPS_ADDR_REPLY]. *)
Definition shown_types (pkt_type : Z) : list nat :=
  if covered_type pkt_type then [Z.to_nat pkt_type]
  else seq (Z.to_nat DPS_ENDPOINT_LOC_REQ) (Z.to_nat DPS_ADDR_REPLY).
Definition dps_packet_stats_show (pkt_type : Z) (t : stats_tbl) : list dps_pkt_stats_t :=
  omap (fun i => t !! i) (shown_types pkt_type).
Definition dps_packet_stats_clear (pkt_type : Z) (t : stats_tbl) : stats_tbl :=
  foldl (fun t i => <[i := zero_stats]> t) t (shown_types pkt_type).
