(* ===== verification/Process.v ===== *)
(** * The [dps_process_*] functions

    A received packet is parsed into a message, which is delivered and, for
    unsolicited messages, acknowledged.  [fuel] bounds the passes of each
    parsing loop. *)
From S2P Require Export Client.

Section process.
Context {W : Type} `{Env W}.
Context (fuel : nat).

Definition process_fn := buf -> ip_addr_t -> pstate (W := W) -> out (Z * pstate (W := W)).

Definition with_reply_addr (h : dps_client_hdr_t) (a : ip_addr_t) : dps_client_hdr_t :=
  mk_client_hdr (ch_type h) (ch_sub_type h) (ch_client_id h) (ch_transaction_type h)
    (ch_vnid h) (ch_resp_status h) (ch_query_id h) a.
Definition with_type (h : dps_client_hdr_t) (ty : Z) : dps_client_hdr_t :=
  mk_client_hdr ty (ch_sub_type h) (ch_client_id h) (ch_transaction_type h)
    (ch_vnid h) (ch_resp_status h) (ch_query_id h) (ch_reply_addr h).

(** [dps_alloc_buff] for the message, zeroed; [DPS_ERROR] on [NULL]. *)
Definition with_msg (st : pstate) (k : pstate -> out (Z * pstate))
  : out (Z * pstate (W := W)) :=
  let '(t, w) := st in
  match dps_alloc_buff w with
  | (Some _, w) => k (t, w)
  | (None, w) => Done (DPS_ERROR, (t, w))
  end.

(** The message has been parsed: deliver it, then whatever [k] does. *)
Definition deliver_msg (c : dps_client_data_t) (st : pstate)
    (k : pstate -> out (pstate (W := W))) : out (pstate (W := W)) :=
  let '(t, w) := st in
  let '(_, w) := dps_send_to_protocol_client c w in
  k (t, w).
Definition no_ack (st : pstate (W := W)) : out (pstate (W := W)) := Done st.
Definition ack_if (b : bool) (c : dps_client_data_t) (st : pstate (W := W))
  : out (pstate (W := W)) :=
  if b then let* (_, st) := dps_client_create_general_ack c st in Done st else Done st.

(** [dps_free_buff] and the return. *)
Definition free_return (ret : Z) (st : pstate (W := W)) : out (Z * pstate (W := W)) :=
  let '(t, w) := st in Done (ret, (t, dps_free_buff w)).

(** The [while] loop over the packet after its header. *)
Definition tlv_loop {A} (pkt_len : Z) (body : nat -> A -> out (ctl * nat * A)) (s : A)
  : out (ctl * nat * A) :=
  while fuel (Z.of_nat DPS_PKT_HDR_LEN + pkt_len) body DPS_PKT_HDR_LEN s.

Definition stop_timer_if (b : bool) (c : dps_client_data_t) (st : pstate)
  : Z * dps_client_data_t * pstate (W := W) :=
  let '(t, w) := st in
  if b then let '(s, c, w) := dps_stop_retransmit_timer c w in (s, c, (t, w))
  else (DPS_SUCCESS, c, (t, w)).

Definition is_svcloc (ty : Z) : bool :=
  ((ty =? SERVICE_LOC_TLV) || (ty =? REPLY_SERVICE_LOC_TLV))%Z.
Definition is_mcast_addr (ty : Z) : bool :=
  ((ty =? MCAST_ADDR_MAC_TLV) || (ty =? MCAST_ADDR_V4_TLV)
      || (ty =? MCAST_ADDR_V6_TLV))%Z.

(** *** Location requests and address resolution *)
Definition loc_req_item (buff : buf) (cur : nat) (x : dps_endpoint_loc_req_t)
  : out (ctl * nat * dps_endpoint_loc_req_t) :=
  let* hdr := dps_get_tlv_hdr buff cur in
  if (th_type hdr =? VMAC_TLV)%Z then
    let* (mac, n) := dps_get_vmac_tlv buff cur in
    Done (Go, cur + n, mk_endpoint_loc_req (elq_vnid x) mac (elq_vm_ip_addr x)
        (elq_dps_client_addr x))
  else if (th_type hdr =? IP_ADDR_TLV)%Z then
    let* (ip, n) := dps_get_ip_tlv buff cur (elq_vm_ip_addr x) in
    Done (Go, cur + n, mk_endpoint_loc_req (elq_vnid x) (elq_mac x) ip
        (elq_dps_client_addr x))
  else if (th_type hdr =? EUID_TLV)%Z then
    let* (vnid, mac, n) := dps_get_euid_tlv buff cur in
    Done (Go, cur + n, mk_endpoint_loc_req vnid mac (elq_vm_ip_addr x)
        (elq_dps_client_addr x))
  else if is_svcloc (th_type hdr) then
    let* (a, n) := dps_get_svcloc_tlv buff cur (elq_dps_client_addr x) in
    Done (Go, cur + n, mk_endpoint_loc_req (elq_vnid x) (elq_mac x)
        (elq_vm_ip_addr x) a)
  else Done (Exit, cur, x).

Definition dps_process_endpoint_loc_req : process_fn := fun recv sender st =>
  with_msg st (fun st =>
    let* (h, pkt_len) := dps_get_pkt_hdr recv 0 zero_client_hdr in
    let h := with_reply_addr h sender in
    let x := mk_endpoint_loc_req 0 zero_mac zero_ip_addr sender in
    let* (c, _, x) := tlv_loop pkt_len (loc_req_item recv) x in
    match c with
    | Go =>
        let* st := deliver_msg (mk_client_data 0 h (Body_endpoint_loc_req x)) st no_ack in
        free_return DPS_SUCCESS st
    | Exit => free_return DPS_SUCCESS st
    end).

Definition dps_process_addr_resolve : process_fn := fun recv sender st =>
  with_msg st (fun st =>
    let x := mk_endpoint_loc_req 0 zero_mac zero_ip_addr sender in
    let* (h, pkt_len) := dps_get_pkt_hdr recv 0 zero_client_hdr in
    let* (c, _, x) := tlv_loop pkt_len (loc_req_item recv) x in
    match c with
    | Go =>
        let msg := mk_client_data 0 (with_reply_addr h sender) (Body_address_resolve x) in
        let* st := deliver_msg msg st (ack_if true msg) in
        free_return DPS_SUCCESS st
    | Exit => free_return DPS_SUCCESS st
    end).

(** *** Location replies

    The TLV's own type is not looked at.  The type of an unsolicited reply is
    overwritten before the delivery and the acknowledgement. *)
Definition dps_process_endpoint_loc_reply : process_fn := fun recv sender st =>
  let* (hdr, pkt_len) := dps_get_pkt_hdr recv 0 zero_client_hdr in
  with_msg st (fun st =>
    let h := with_reply_addr hdr sender in
    let '(ret, msg, st) :=
      stop_timer_if (ch_type h =? DPS_ENDPOINT_LOC_REPLY)%Z
      (mk_client_data 0 h Body_none) st in
    let* (_, _, x) := tlv_loop pkt_len
      (fun cur x =>
      let* (x, n) := dps_get_endpoint_loc_reply_tlv fuel recv cur
        room_endpoint_loc_reply x in
      Done (Go, cur + n, x)) zero_endpoint_loc_reply in
    let unsolicited := (ch_type hdr =? DPS_UNSOLICITED_ENDPOINT_LOC_REPLY)%Z in
    let h := if unsolicited then with_type h DPS_ENDPOINT_LOC_REPLY else h in
    let msg := mk_client_data (cd_context msg) h (Body_endpoint_loc_reply x) in
    let* st := deliver_msg msg st (ack_if unsolicited msg) in
    free_return ret st).

(** *** Updates *)
Definition update_item (buff : buf) (cur : nat) (x : dps_endpoint_update_t)
  : out (ctl * nat * dps_endpoint_update_t) :=
  let* hdr := dps_get_tlv_hdr buff cur in
  if (th_type hdr =? ENDPOINT_LOC_TLV)%Z then
    let* (x, n) := dps_get_endpoint_update_tlv fuel buff cur room_endpoint_update x in
    Done (Go, cur + n, x)
  else if is_svcloc (th_type hdr) then
    let* (a, n) := dps_get_svcloc_tlv buff cur (eu_dps_client_addr x) in
    Done (Go, cur + n, mk_endpoint_update (eu_vnid x) (eu_mac x) (eu_version x)
        (eu_vm_ip_addr x) a (eu_tunnel_info x))
  else Done (Exit, cur, x).

Definition dps_process_endpoint_update : process_fn := fun recv sender st =>
  let* (hdr, pkt_len) := dps_get_pkt_hdr recv 0 zero_client_hdr in
  with_msg st (fun st =>
    let h := with_reply_addr hdr sender in
    let x := mk_endpoint_update 0 zero_mac 0 zero_ip_addr sender zero_tunnel_list in
    let* (c, _, x) := tlv_loop pkt_len (update_item recv) x in
    match c with
    | Go =>
        let* st := deliver_msg (mk_client_data 0 h (Body_endpoint_update x)) st no_ack in
        free_return DPS_SUCCESS st
    | Exit => free_return DPS_SUCCESS st
    end).

Definition update_reply_item (buff : buf) (cur : nat) (x : dps_endpoint_update_reply_t)
  : out (ctl * nat * dps_endpoint_update_reply_t) :=
  let* hdr := dps_get_tlv_hdr buff cur in
  if (th_type hdr =? ENDPOINT_UPDATE_REPLY_TLV)%Z then
    let* (x, n) := dps_get_endpoint_update_reply_tlv fuel buff cur
      room_endpoint_update_reply x in
    Done (Go, cur + n, x)
  else Done (Exit, cur, x).

Definition dps_process_endpoint_update_reply : process_fn := fun recv sender st =>
  let* (hdr, pkt_len) := dps_get_pkt_hdr recv 0 zero_client_hdr in
  with_msg st (fun st =>
    let h := with_reply_addr hdr sender in
    let '(ret, msg, st) := stop_timer_if true (mk_client_data 0 h Body_none) st in
    let* (c, _, x) := tlv_loop pkt_len (update_reply_item recv)
      zero_endpoint_update_reply in
    match c with
    | Go =>
        let msg := mk_client_data (cd_context msg) h (Body_endpoint_update_reply x) in
        let* st := deliver_msg msg st no_ack in
        free_return ret st
    | Exit => free_return ret st
    end).

(** *** Policies

    [i] counts the endpoints stored: the pointer starts at [dst_endpoint] and
    moves on to [src_endpoint]; a third endpoint would be written over the
    member that follows.  A TLV of another type is left where it is. *)
Definition policy_req_item (buff : buf) (cur : nat) (s : dps_policy_req_t * nat)
  : out (ctl * nat * (dps_policy_req_t * nat)) :=
  let '(x, i) := s in
  let* hdr := dps_get_tlv_hdr buff cur in
  if (th_type hdr =? ENDPOINT_INFO_TLV)%Z then
    match i with
    | 0 =>
        let* (e, n) := dps_get_endpoint_info_tlv buff cur (pq_dst_endpoint x) in
        Done (Go, cur + n, (mk_policy_req e (pq_src_endpoint x) (pq_dps_client_addr x), 1))
    | 1 =>
        let* (e, n) := dps_get_endpoint_info_tlv buff cur (pq_src_endpoint x) in
        Done (Go, cur + n, (mk_policy_req (pq_dst_endpoint x) e (pq_dps_client_addr x), 2))
    | _ => Fault
    end
  else if is_svcloc (th_type hdr) then
    let* (a, n) := dps_get_svcloc_tlv buff cur (pq_dps_client_addr x) in
    Done (Go, cur + n, (mk_policy_req (pq_dst_endpoint x) (pq_src_endpoint x) a, i))
  else Done (Go, cur, (x, i)).

Definition dps_process_policy_req : process_fn := fun recv sender st =>
  with_msg st (fun st =>
    let* (h, pkt_len) := dps_get_pkt_hdr recv 0 zero_client_hdr in
    let h := with_reply_addr h sender in
    let x := mk_policy_req zero_endpoint_info zero_endpoint_info sender in
    let* (_, _, (x, _)) := tlv_loop pkt_len (policy_req_item recv) (x, 0) in
    let* st := deliver_msg (mk_client_data 0 h (Body_policy_req x)) st no_ack in
    free_return DPS_SUCCESS st).

Definition policy_reply_item (buff : buf) (cur : nat) (x : dps_policy_reply_t)
  : out (ctl * nat * dps_policy_reply_t) :=
  let* hdr := dps_get_tlv_hdr buff cur in
  if (th_type hdr =? ENDPOINT_LOC_TLV)%Z then
    let* (r, n) := dps_get_endpoint_loc_reply_tlv fuel buff cur room_policy_reply_loc
      (pr_dst_endpoint_loc_reply x) in
    Done (Go, cur + n, mk_policy_reply (pr_dps_policy_info x) r)
  else if (th_type hdr =? POLICY_TLV)%Z then
    let* (p, n) := dps_get_policy_tlv fuel buff cur room_policy_reply_rules
      (pr_dps_policy_info x) in
    Done (Go, cur + n, mk_policy_reply p (pr_dst_endpoint_loc_reply x))
  else Done (Exit, cur, x).

Definition dps_process_policy_reply : process_fn := fun recv sender st =>
  let* (hdr, pkt_len) := dps_get_pkt_hdr recv 0 zero_client_hdr in
  with_msg st (fun st =>
    let h := with_reply_addr hdr sender in
    let '(_, msg, st) := stop_timer_if true (mk_client_data 0 h Body_none) st in
    let* (c, _, x) := tlv_loop pkt_len (policy_reply_item recv)
      (mk_policy_reply zero_policy_info zero_endpoint_loc_reply) in
    match c with
    | Go =>
        let msg := mk_client_data (cd_context msg) h (Body_policy_reply x) in
        let* st := deliver_msg msg st no_ack in
        free_return DPS_SUCCESS st
    | Exit => free_return DPS_SUCCESS st
    end).

(** *** Packed address lists: [dps_process_internal_gw_reply] and
    [dps_process_bcast_list_reply]

    The state is the two counters, the words and the index of the next one;
    the IPv6 list does not move it on. *)
Definition packed_item (cap : nat) (buff : buf) (cur : nat)
    (s : Z * Z * list Z * nat) : out (ctl * nat * (Z * Z * list Z * nat)) :=
  let '(n4, n6, words, j) := s in
  let* hdr := dps_get_tlv_hdr buff cur in
  if (th_type hdr =? IPV4_ADDR_LIST_TLV)%Z then
    let* (words, n) := dps_get_ipv4_list_tlv fuel buff cur cap words j in
    let n4 := (th_len hdr / 4)%Z in
    Done (Go, cur + n, (n4, n6, words, j + Z.to_nat n4))
  else if (th_type hdr =? IPV6_ADDR_LIST_TLV)%Z then
    let* (words, n) := dps_get_ipv6_list_tlv fuel buff cur cap words j in
    Done (Go, cur + n, (n4, (th_len hdr / 16)%Z, words, j))
  else Done (Exit, cur, (n4, n6, words, j)).

Definition process_packed (cap : nat) (solicited unsolicited : Z)
    (body : Z -> Z -> list Z -> dps_client_body) : process_fn := fun recv sender st =>
  let* (hdr, pkt_len) := dps_get_pkt_hdr recv 0 zero_client_hdr in
  with_msg st (fun st =>
    let h := with_reply_addr hdr sender in
    let '(_, msg, st) :=
      stop_timer_if (ch_type h =? solicited)%Z (mk_client_data 0 h Body_none) st in
    let* (c, _, (n4, n6, words, _)) :=
      tlv_loop pkt_len (packed_item cap recv) (0%Z, 0%Z, [], 0) in
    match c with
    | Go =>
        let msg := mk_client_data (cd_context msg) h (body n4 n6 words) in
        let* st := deliver_msg msg st (ack_if (ch_type h =? unsolicited)%Z msg) in
        free_return DPS_SUCCESS st
    | Exit => free_return DPS_SUCCESS st
    end).

Definition dps_process_internal_gw_reply : process_fn :=
  process_packed room_internal_gw DPS_INTERNAL_GW_REPLY DPS_UNSOLICITED_INTERNAL_GW_REPLY
    (fun n4 n6 words => Body_internal_gw_list (mk_internal_gw n4 n6 words)).

(** The [vnid] member of the list is not set. *)
Definition dps_process_bcast_list_reply : process_fn :=
  process_packed room_bcast DPS_BCAST_LIST_REPLY DPS_UNSOLICITED_BCAST_LIST_REPLY
    (fun n4 n6 words => Body_dove_switch_list (mk_pkd_tunnel_list 0 n4 n6 words)).

(** *** General requests: a heart beat is only acknowledged *)
Definition gen_msg_item (buff : buf) (cur : nat) (x : dps_gen_msg_req_t)
  : out (ctl * nat * dps_gen_msg_req_t) :=
  let* hdr := dps_get_tlv_hdr buff cur in
  if is_svcloc (th_type hdr) then
    let* (a, n) := dps_get_svcloc_tlv buff cur (gm_dps_client_addr x) in
    Done (Go, cur + n, mk_gen_msg_req a)
  else Done (Exit, cur, x).

Definition dps_process_gen_msg_req : process_fn := fun recv sender st =>
  with_msg st (fun st =>
    let* (h, pkt_len) := dps_get_pkt_hdr recv 0 zero_client_hdr in
    let h := with_reply_addr h sender in
    let* (c, _, x) := tlv_loop pkt_len (gen_msg_item recv) (mk_gen_msg_req sender) in
    match c with
    | Go =>
        let msg := mk_client_data 0 h (Body_gen_msg_req x) in
        if (ch_type h =? DPS_CTRL_PLANE_HB)%Z then
          let* st := ack_if true msg st in free_return DPS_SUCCESS st
        else
          let* st := deliver_msg msg st no_ack in free_return DPS_SUCCESS st
    | Exit => free_return DPS_SUCCESS st
    end).

(** *** Bulk policies *)
Definition dps_process_bulk_policy_xfer : process_fn := fun recv sender st =>
  let* (hdr, pkt_len) := dps_get_pkt_hdr recv 0 zero_client_hdr in
  with_msg st (fun st =>
    let h := with_reply_addr hdr sender in
    let '(_, msg, st) :=
      stop_timer_if (ch_type h =? DPS_VNID_POLICY_LIST_REPLY)%Z
      (mk_client_data 0 h Body_none) st in
    let* (x, _) := dps_get_bulk_policy_xfer recv DPS_PKT_HDR_LEN room_bulk
      (mk_bulk_policy 0 0 []) in
    let msg := mk_client_data (cd_context msg) h (Body_bulk_vnid_policy x) in
    let* st := deliver_msg msg st
      (ack_if (ch_type h =? DPS_UNSOLICITED_VNID_POLICY_LIST)%Z msg) in
    free_return DPS_SUCCESS st).

(** *** Gateway lists and tunnel registration *)
Definition gw_list_item (buff : buf) (cur : nat) (x : dps_tunnel_list_t)
  : out (ctl * nat * dps_tunnel_list_t) :=
  let* hdr := dps_get_tlv_hdr buff cur in
  if (th_type hdr =? TUNNEL_LIST_TLV)%Z then
    let* (x, n) := dps_get_tunnel_list_tlv fuel buff cur room_gw_list (tl_tunnel_list x) in
    Done (Go, cur + n, x)
  else Done (Exit, cur, x).

Definition dps_process_gw_list : process_fn := fun recv sender st =>
  let* (hdr, pkt_len) := dps_get_pkt_hdr recv 0 zero_client_hdr in
  with_msg st (fun st =>
    let h := with_reply_addr hdr sender in
    let ty_in l := existsb (Z.eqb (ch_type h)) l in
    let '(_, msg, st) :=
      stop_timer_if (ty_in [DPS_EXTERNAL_GW_LIST_REPLY; DPS_VLAN_GW_LIST_REPLY;
        DPS_MCAST_CTRL_GW_REPLY])
      (mk_client_data 0 h Body_none) st in
    let* (c, _, x) := tlv_loop pkt_len (gw_list_item recv) zero_tunnel_list in
    match c with
    | Go =>
        let msg := mk_client_data (cd_context msg) h (Body_tunnel_info x) in
        let* st := deliver_msg msg st
          (ack_if (ty_in [DPS_UNSOLICITED_EXTERNAL_GW_LIST;
              DPS_UNSOLICITED_VLAN_GW_LIST]) msg) in
        free_return DPS_SUCCESS st
    | Exit => free_return DPS_SUCCESS st
    end).

Definition tunnel_reg_item (buff : buf) (cur : nat) (x : dps_tunnel_reg_dereg_t)
  : out (ctl * nat * dps_tunnel_reg_dereg_t) :=
  let* hdr := dps_get_tlv_hdr buff cur in
  if (th_type hdr =? TUNNEL_LIST_TLV)%Z then
    let* (tl, n) := dps_get_tunnel_list_tlv fuel buff cur room_tunnel_reg
      (tl_tunnel_list (tr_tunnel_info x)) in
    Done (Go, cur + n, mk_tunnel_reg (tr_dps_client_addr x) tl)
  else if is_svcloc (th_type hdr) then
    let* (a, n) := dps_get_svcloc_tlv buff cur (tr_dps_client_addr x) in
    Done (Go, cur + n, mk_tunnel_reg a (tr_tunnel_info x))
  else Done (Exit, cur, x).

Definition dps_process_tunnel_reg_dereg : process_fn := fun recv sender st =>
  let* (hdr, pkt_len) := dps_get_pkt_hdr recv 0 zero_client_hdr in
  with_msg st (fun st =>
    let h := with_reply_addr hdr sender in
    let* (c, _, x) := tlv_loop pkt_len (tunnel_reg_item recv)
      (mk_tunnel_reg sender zero_tunnel_list) in
    match c with
    | Go =>
        let* st := deliver_msg (mk_client_data 0 h (Body_tunnel_reg_dereg x)) st no_ack in
        free_return DPS_SUCCESS st
    | Exit => free_return DPS_SUCCESS st
    end).

(** *** Migration *)
Definition vm_migration_item (buff : buf) (cur : nat) (x : dps_vm_migration_event_t)
  : out (ctl * nat * dps_vm_migration_event_t) :=
  let* hdr := dps_get_tlv_hdr buff cur in
  if (th_type hdr =? ENDPOINT_LOC_TLV)%Z then
    let* (r, n) := dps_get_endpoint_loc_reply_tlv fuel buff cur room_vm_migration
      (vm_src_vm_loc x) in
    Done (Go, cur + n, mk_vm_migration (vm_migrated_vm_info x) r)
  else if (th_type hdr =? ENDPOINT_INFO_TLV)%Z then
    let* (e, n) := dps_get_endpoint_info_tlv buff cur (vm_migrated_vm_info x) in
    Done (Go, cur + n, mk_vm_migration e (vm_src_vm_loc x))
  else Done (Exit, cur, x).

Definition dps_process_vm_migration_event : process_fn := fun recv sender st =>
  with_msg st (fun st =>
    let* (h, pkt_len) := dps_get_pkt_hdr recv 0 zero_client_hdr in
    let* (c, _, x) := tlv_loop pkt_len (vm_migration_item recv)
      (mk_vm_migration zero_endpoint_info zero_endpoint_loc_reply) in
    match c with
    | Go =>
        let msg := mk_client_data 0 (with_reply_addr h sender) (Body_vm_migration_event x) in
        let* st := deliver_msg msg st no_ack in
        free_return DPS_SUCCESS st
    | Exit => free_return DPS_SUCCESS st
    end).

(** *** Multicast *)
Definition mcast_sender_item (buff : buf) (cur : nat) (x : dps_mcast_sender_t)
  : out (ctl * nat * dps_mcast_sender_t) :=
  let* hdr := dps_get_tlv_hdr buff cur in
  if (th_type hdr =? IP_ADDR_TLV)%Z then
    let* (a, n) := dps_get_ip_tlv buff cur (ms_tunnel_endpoint x) in
    Done (Go, cur + n, mk_mcast_sender a (ms_mcast_src_vm x) (ms_mcast_addr x)
        (ms_dps_client_addr x))
  else if (th_type hdr =? ENDPOINT_INFO_TLV)%Z then
    let* (e, n) := dps_get_endpoint_info_tlv buff cur (ms_mcast_src_vm x) in
    Done (Go, cur + n, mk_mcast_sender (ms_tunnel_endpoint x) e (ms_mcast_addr x)
        (ms_dps_client_addr x))
  else if is_mcast_addr (th_type hdr) then
    let* (m, n) := dps_get_mcast_addr_tlv buff cur (ms_mcast_addr x) in
    Done (Go, cur + n, mk_mcast_sender (ms_tunnel_endpoint x) (ms_mcast_src_vm x) m
        (ms_dps_client_addr x))
  else if is_svcloc (th_type hdr) then
    let* (a, n) := dps_get_svcloc_tlv buff cur (ms_dps_client_addr x) in
    Done (Go, cur + n, mk_mcast_sender (ms_tunnel_endpoint x) (ms_mcast_src_vm x)
        (ms_mcast_addr x) a)
  else Done (Exit, cur, x).

Definition dps_process_mcast_sender_reg_dereg : process_fn := fun recv sender st =>
  with_msg st (fun st =>
    let* (h, pkt_len) := dps_get_pkt_hdr recv 0 zero_client_hdr in
    let h := with_reply_addr h sender in
    let x := mk_mcast_sender zero_ip_addr zero_endpoint_info zero_mcast_addr sender in
    let* (c, _, x) := tlv_loop pkt_len (mcast_sender_item recv) x in
    match c with
    | Go =>
        let* st := deliver_msg (mk_client_data 0 h (Body_mcast_sender x)) st no_ack in
        free_return DPS_SUCCESS st
    | Exit => free_return DPS_SUCCESS st
    end).

Definition mcast_receiver_item (buff : buf) (cur : nat) (x : dps_mcast_receiver_t)
  : out (ctl * nat * dps_mcast_receiver_t) :=
  let* hdr := dps_get_tlv_hdr buff cur in
  if (th_type hdr =? IP_ADDR_TLV)%Z then
    let* (a, n) := dps_get_ip_tlv buff cur (mr_tunnel_endpoint x) in
    Done (Go, cur + n, mk_mcast_receiver a (mr_dps_client_addr x) (mr_mcast_group_rec x))
  else if (th_type hdr =? MCAST_GRP_REC_TLV)%Z then
    let* (g, n) := dps_get_mcast_grp_rec_tlv fuel buff cur room_mcast_receiver
      (mr_mcast_group_rec x) in
    Done (Go, cur + n, mk_mcast_receiver (mr_tunnel_endpoint x) (mr_dps_client_addr x) g)
  else if is_svcloc (th_type hdr) then
    let* (a, n) := dps_get_svcloc_tlv buff cur (mr_dps_client_addr x) in
    Done (Go, cur + n, mk_mcast_receiver (mr_tunnel_endpoint x) a (mr_mcast_group_rec x))
  else Done (Exit, cur, x).

Definition dps_process_mcast_receiver_join_leave : process_fn := fun recv sender st =>
  let* (hdr, pkt_len) := dps_get_pkt_hdr recv 0 zero_client_hdr in
  with_msg st (fun st =>
    let h := with_reply_addr hdr sender in
    let x := mk_mcast_receiver zero_ip_addr sender
      (mk_mcast_group_record zero_mcast_addr 0 0 []) in
    let* (c, _, x) := tlv_loop pkt_len (mcast_receiver_item recv) x in
    match c with
    | Go =>
        let* st := deliver_msg (mk_client_data 0 h (Body_mcast_receiver x)) st no_ack in
        free_return DPS_SUCCESS st
    | Exit => free_return DPS_SUCCESS st
    end).

(** The list of [dps_mcast_receiver_ds_list_t] is packed: each record starts
    where the words of the one before end.  Only the first
    [sizeof(dps_client_data_t)] bytes of the message are zeroed, so the
    counters of a record further on are whatever the heap held
    ([heap_counts], by offset) until they are set.  [stack_addr] is the reply
    address of the uninitialised local header. *)
Context (heap_counts : Z -> Z * Z) (stack_addr : ip_addr_t).

Definition fresh_record (off : Z) : dps_pkd_tunnel_list_t :=
  if (off + 8 <=? Z.of_nat sizeof_client_data)%Z then mk_pkd_tunnel_list 0 0 0 []
  else mk_pkd_tunnel_list 0 (heap_counts off).1 (heap_counts off).2 [].

Definition ds_list_item (buff : buf) (cur : nat)
    (s : dps_mcast_receiver_ds_list_t * Z)
  : out (ctl * nat * (dps_mcast_receiver_ds_list_t * Z)) :=
  let '(x, off) := s in
  let* hdr := dps_get_tlv_hdr buff cur in
  if is_mcast_addr (th_type hdr) then
    let* (m, n) := dps_get_mcast_addr_tlv buff cur (md_mcast_addr x) in
    Done (Go, cur + n, (mk_mcast_ds_list m (md_num_of_rec x) (md_mcast_recvr_list x), off))
  else if (th_type hdr =? VNID_TUNNEL_LIST_TLV)%Z then
    let* (r, n) := dps_get_vnid_tunnel_list_tlv fuel buff cur (room (off + 8) 4)
      (fresh_record off) in
    Done (Go, cur + n,
      (mk_mcast_ds_list (md_mcast_addr x) (md_num_of_rec x + 1)%Z
          (md_mcast_recvr_list x ++ [r]),
        (off + 8 + 4 * (pk_num_v4_tunnels r + Z.shiftl (pk_num_v6_tunnels r) 2))%Z))
  else Done (Exit, cur, (x, off)).

Definition dps_process_mcast_receiver_ds_list : process_fn := fun recv sender st =>
  let* (hdr, pkt_len) := dps_get_pkt_hdr recv 0 zero_client_hdr in
  with_msg st (fun st =>
    let h := with_reply_addr hdr stack_addr in
    let* (c, _, (x, _)) :=
      tlv_loop pkt_len (ds_list_item recv) (mk_mcast_ds_list zero_mcast_addr 0 [], 76%Z) in
    match c with
    | Go =>
        let msg := mk_client_data 0 h (Body_mcast_receiver_ds_list x) in
        let* st := deliver_msg msg st (ack_if true msg) in
        free_return DPS_SUCCESS st
    | Exit => free_return DPS_SUCCESS st
    end).

(** *** Acknowledgements and the rest *)
Definition dps_process_general_ack : process_fn := fun recv sender st =>
  with_msg st (fun st =>
    let* (h, _) := dps_get_pkt_hdr recv 0 zero_client_hdr in
    let '(ret, msg, st) := stop_timer_if true (mk_client_data 0 h Body_none) st in
    let msg := mk_client_data (cd_context msg) (with_reply_addr h sender) Body_none in
    let* st := deliver_msg msg st no_ack in
    free_return ret st).

Definition dps_process_policy_invalidate : process_fn :=
  fun recv sender st => Done (DPS_SUCCESS, st).
Definition dps_process_addr_reply : process_fn :=
  fun recv sender st => Done (DPS_SUCCESS, st).
Definition dps_noop_process : process_fn :=
  fun recv sender st => Done (DPS_SUCCESS, st).

(** A TLV of another type is skipped. *)
Definition vm_loc_item (buff : buf) (cur : nat) (x : dps_epri_t)
  : out (ctl * nat * dps_epri_t) :=
  let* hdr := dps_get_tlv_hdr buff cur in
  if (th_type hdr =? EPRI_TLV)%Z then
    let* (x, n) := dps_get_epri_tlv fuel buff cur room_epri x in
    Done (Go, cur + n, x)
  else Done (Go, cur + (Z.to_nat (th_len hdr) + DPS_TLV_HDR_LEN), x).

Definition dps_process_vm_loc_info : process_fn := fun recv sender st =>
  let* (hdr, pkt_len) := dps_get_pkt_hdr recv 0 zero_client_hdr in
  with_msg st (fun st =>
    let h := with_reply_addr hdr sender in
    let* (_, _, x) := tlv_loop pkt_len (vm_loc_item recv) zero_epri in
    let msg := mk_client_data 0 h (Body_vm_invalidate_msg x) in
    let* st := deliver_msg msg st (ack_if true msg) in
    free_return DPS_SUCCESS st).

(** ** The table of receive functions, indexed by message type *)
Definition dps_recv_func_tbl : list (option process_fn) :=
  [None;
    Some dps_process_endpoint_loc_req;
    Some dps_process_endpoint_loc_reply;
    Some dps_process_policy_req;
    Some dps_process_policy_reply;
    Some dps_process_policy_invalidate;
    Some dps_process_endpoint_update;
    Some dps_process_endpoint_update_reply;
    Some dps_process_addr_resolve;
    Some dps_process_addr_reply;
    Some dps_process_gen_msg_req;
    Some dps_process_internal_gw_reply;
    Some dps_process_bulk_policy_xfer;
    Some dps_process_gen_msg_req;
    Some dps_process_bcast_list_reply;
    Some dps_process_vm_migration_event;
    Some dps_process_mcast_sender_reg_dereg;
    Some dps_process_mcast_sender_reg_dereg;
    Some dps_process_mcast_receiver_join_leave;
    Some dps_process_mcast_receiver_join_leave;
    Some dps_process_mcast_receiver_ds_list;
    Some dps_process_bcast_list_reply;
    Some dps_process_internal_gw_reply;
    Some dps_process_general_ack;
    Some dps_process_gw_list;
    Some dps_process_gw_list;
    Some dps_process_tunnel_reg_dereg;
    Some dps_process_tunnel_reg_dereg;
    Some dps_process_general_ack;
    Some dps_process_gen_msg_req;
    Some dps_process_gw_list;
    Some dps_process_gen_msg_req;
    Some dps_process_gw_list;
    Some dps_process_endpoint_loc_reply;
    Some dps_process_gen_msg_req;
    Some dps_process_bulk_policy_xfer;
    Some dps_process_gen_msg_req;
    Some dps_process_gw_list;
    Some dps_process_gen_msg_req;
    Some dps_process_gen_msg_req;
    Some dps_noop_process;
    Some dps_process_vm_loc_info].

Definition call_recv (ty : Z) : process_fn := fun recv sender st =>
  match dps_recv_func_tbl !! Z.to_nat ty with
  | Some (Some f) => f recv sender st
  | _ => Fault
  end.

(** The received length is not compared with the one in the header. *)
Definition dps_process_rcvd_pkt : process_fn := fun recv sender st =>
  let* ty := load8 recv 1 in
  if known_type ty then
    let* (ret, st) := call_recv ty recv sender st in
    let '(t, w) := st in
    Done (ret, (count (if (ret =? DPS_SUCCESS)%Z then incr_recv else incr_recv_error)
          ty t, w))
  else
    let '(t, w) := st in Done (DPS_ERROR, (count incr_recv_error 0 t, w)).
End process.
