(* ===== verification/Retransmit.v ===== *)
(** * When the retries of a request are exhausted: [dps_retransmit_callback]

    The requester is answered in the name of the server: a reply of the type
    the request would have had, with the status [DPS_NO_RESPONSE]. *)
From S2P Require Export Process.

(** ** Construction of the replies

    The callback's message is zeroed before its header is filled in:
    [Body_none] is the zeroed union, and storing zeros in a member leaves it
    so.  A union in any other state is outside the model. *)
Definition construct_fn := dps_client_data_t -> out dps_client_data_t.

Definition retype (d : dps_client_data_t) (ty : Z) (body : dps_client_body)
  : dps_client_data_t :=
  mk_client_data (cd_context d) (with_type (cd_hdr d) ty) body.

(** A function that sets the type and zeroes members. *)
Definition reply_with_type (ty : Z) : construct_fn := fun d =>
  match cd_body d with Body_none => Done (retype d ty Body_none) | _ => Fault end.

Definition dps_construct_reply_endpoint_loc_req : construct_fn :=
  reply_with_type DPS_ENDPOINT_LOC_REPLY.
Definition dps_construct_reply_policy_req : construct_fn := fun d =>
  match cd_body d with
  | Body_none =>
      let loc := mk_endpoint_loc_reply (ch_vnid (cd_hdr d)) zero_mac zero_ip_addr 0
                   zero_tunnel_list in
      let policy := mk_policy_info 0 0 0
                      (mk_policy 0 DPS_POLICY_TYPE_CONNECTIVITY 0 0 []) in
      Done (retype d DPS_POLICY_REPLY (Body_policy_reply (mk_policy_reply policy loc)))
  | _ => Fault
  end.
Definition dps_construct_reply_endpoint_update : construct_fn :=
  reply_with_type DPS_ENDPOINT_UPDATE_REPLY.
Definition dps_construct_reply_internal_gw_req : construct_fn :=
  reply_with_type DPS_INTERNAL_GW_REPLY.
Definition dps_construct_reply_bcast_list_req : construct_fn :=
  reply_with_type DPS_BCAST_LIST_REPLY.
Definition dps_construct_reply_external_gw_req : construct_fn :=
  reply_with_type DPS_EXTERNAL_GW_LIST_REPLY.
Definition dps_construct_reply_vlan_gw_req : construct_fn :=
  reply_with_type DPS_VLAN_GW_LIST_REPLY.
Definition dps_construct_reply_policy_list_req : construct_fn :=
  reply_with_type DPS_VNID_POLICY_LIST_REPLY.
Definition dps_construct_reply_mcast_ctrl_gw_req : construct_fn :=
  reply_with_type DPS_MCAST_CTRL_GW_REPLY.
Definition dps_construct_reply_generic_ack : construct_fn := fun d =>
  Done (retype d (if is_registration (ch_type (cd_hdr d)) then DPS_REG_DEREGISTER_ACK
                  else DPS_GENERAL_ACK) (cd_body d)).
Definition dps_construct_noop_func : construct_fn := fun d => Done d.

Definition dps_construct_msg_reply_table : list (option construct_fn) :=
  let ack := Some dps_construct_reply_generic_ack in
  [None;
   Some dps_construct_reply_endpoint_loc_req; None;
   Some dps_construct_reply_policy_req; None; None;
   Some dps_construct_reply_endpoint_update; None;
   ack; None;
   Some dps_construct_reply_internal_gw_req; None;
   ack;
   Some dps_construct_reply_bcast_list_req; None; None;
   ack; ack; ack; ack; ack; ack; ack; None; ack; ack; ack; ack; ack;
   Some dps_construct_reply_external_gw_req; None;
   Some dps_construct_reply_vlan_gw_req; None;
   ack;
   Some dps_construct_reply_policy_list_req; None;
   Some dps_construct_reply_mcast_ctrl_gw_req; None;
   ack; ack;
   Some dps_construct_noop_func;
   ack].

(** The entry of a message type; past the end of the table is a [Fault]. *)
Definition construct_reply (ty : Z) : construct_fn := fun d =>
  match dps_construct_msg_reply_table !! Z.to_nat ty with
  | Some (Some f) => f d
  | Some None => Done d
  | None => Fault
  end.

(** ** The callback *)
Inductive raw_proto_retransmit_status_t :=
| RAW_PROTO_MAX_NUM_RETRANSMIT_EXCEEDED
| RAW_PROTO_MAX_NUM_OUTSTANDING_PKTS_EXCEEDED.

Section callback.
Context {W : Type} `{Env W}.

Definition dps_retransmit_callback (status : raw_proto_retransmit_status_t)
    (pRawPkt : buf) (context : Z) (st : pstate) : out (pstate (W := W)) :=
  match status with
  | RAW_PROTO_MAX_NUM_RETRANSMIT_EXCEEDED =>
      let '(t, w) := st in
      let* (h, _) := dps_get_pkt_hdr pRawPkt 0 zero_client_hdr in
      let w := if dps_server then w else dps_req_new_dps_node (ch_vnid h) w in
      if known_type (ch_type h) then
        let* d := construct_reply (ch_type h) (mk_client_data 0 h Body_none) in
        let* pkt_type := load8 pRawPkt 1 in
        let r := cd_hdr d in
        let r := mk_client_hdr (ch_type r) pkt_type (ch_client_id r)
          (ch_transaction_type r) (ch_vnid r) DPS_NO_RESPONSE
          (ch_query_id r) (ch_reply_addr r) in
        let '(_, w) := dps_send_to_protocol_client
          (mk_client_data context r (cd_body d)) w in
        Done (t, w)
      else Done (count incr_transmit_error 0 t, w)
  | RAW_PROTO_MAX_NUM_OUTSTANDING_PKTS_EXCEEDED => Done st
  end.
End callback.

(** The type of the reply a request of each type would have had. *)
Definition reply_type (ty : Z) : Z :=
  if (ty =? DPS_ENDPOINT_LOC_REQ)%Z then DPS_ENDPOINT_LOC_REPLY
  else if (ty =? DPS_POLICY_REQ)%Z then DPS_POLICY_REPLY
  else if (ty =? DPS_ENDPOINT_UPDATE)%Z then DPS_ENDPOINT_UPDATE_REPLY
  else if (ty =? DPS_INTERNAL_GW_REQ)%Z then DPS_INTERNAL_GW_REPLY
  else if (ty =? DPS_BCAST_LIST_REQ)%Z then DPS_BCAST_LIST_REPLY
  else if (ty =? DPS_EXTERNAL_GW_LIST_REQ)%Z then DPS_EXTERNAL_GW_LIST_REPLY
  else if (ty =? DPS_VLAN_GW_LIST_REQ)%Z then DPS_VLAN_GW_LIST_REPLY
  else if (ty =? DPS_VNID_POLICY_LIST_REQ)%Z then DPS_VNID_POLICY_LIST_REPLY
  else if (ty =? DPS_MCAST_CTRL_GW_REQ)%Z then DPS_MCAST_CTRL_GW_REPLY
  else if is_registration ty then DPS_REG_DEREGISTER_ACK
  else if existsb (Z.eqb ty)
            [DPS_ADDR_RESOLVE; DPS_UNSOLICITED_VNID_POLICY_LIST; DPS_MCAST_RECEIVER_DS_LIST;
             DPS_UNSOLICITED_BCAST_LIST_REPLY; DPS_UNSOLICITED_INTERNAL_GW_REPLY;
             DPS_UNSOLICITED_EXTERNAL_GW_LIST; DPS_UNSOLICITED_VLAN_GW_LIST;
             DPS_REG_DEREGISTER_ACK; DPS_UNSOLICITED_ENDPOINT_LOC_REPLY;
             DPS_UNSOLICITED_VNID_DEL_REQ; DPS_CTRL_PLANE_HB;
             DPS_UNSOLICITED_VM_LOC_INFO]
  then DPS_GENERAL_ACK
  else ty.

(** ** What the callback does *)

(** Case analysis over the message types the tables know. *)
Lemma known_type_cases (P : Z -> Prop) ty :
  Forall P (Z.of_nat <$> seq 1 41) -> known_type ty = true -> P ty.
Proof.
  intros HP Hk. unfold known_type, DPS_ENDPOINT_LOC_REQ, DPS_MAX_MSG_TYPE in Hk.
  rewrite List.Forall_forall in HP. apply HP.
  apply list_elem_of_In, list_elem_of_fmap. exists (Z.to_nat ty).
  split; [lia|]. apply elem_of_seq. lia.
Qed.

(** The body of the constructed reply: all zero but for a policy reply. *)
Definition reply_body (h : dps_client_hdr_t) : dps_client_body :=
  if (ch_type h =? DPS_POLICY_REQ)%Z then
    Body_policy_reply (mk_policy_reply
      (mk_policy_info 0 0 0 (mk_policy 0 DPS_POLICY_TYPE_CONNECTIVITY 0 0 []))
      (mk_endpoint_loc_reply (ch_vnid h) zero_mac zero_ip_addr 0 zero_tunnel_list))
  else Body_none.

Lemma construct_reply_spec h :
  known_type (ch_type h) = true ->
  construct_reply (ch_type h) (mk_client_data 0 h Body_none) =
  Done (mk_client_data 0 (with_type h (reply_type (ch_type h))) (reply_body h)).
Proof.
  destruct h as [ty st ci tt v rs q ra]. unfold reply_body, with_type.
  cbn [ch_type ch_vnid ch_sub_type ch_client_id ch_transaction_type ch_resp_status
       ch_query_id ch_reply_addr].
  intros Hk. pattern ty. apply known_type_cases; [|exact Hk].
  repeat (apply Forall_cons_2; [reflexivity|]). apply Forall_nil_2.
Qed.
