(* ===== verification/Header.v ===== *)
(** * The packet header: what is written into it is what is read out of it

    The length field counts words, so the header only gives the length of a
    packet whose body is a whole number of them: every message is one. *)
From S2P Require Export Retransmit.

(** ** Alignment *)
Definition aligned (p : pat) : Prop := Nat.divide 4 (length p).

Create HintDb align.

Lemma aligned_len p n : length p = 4 * n -> aligned p.
Proof. unfold aligned. intros ->. exists n. lia. Qed.
Lemma aligned_nil : aligned [].
Proof. by apply (aligned_len _ 0). Qed.
Lemma aligned_app p q : aligned p -> aligned q -> aligned (p ++ q).
Proof. unfold aligned. rewrite length_app. apply Nat.divide_add_r. Qed.
Lemma aligned_tlv ver ty p : aligned p -> aligned (wire_tlv ver ty p).
Proof.
  unfold aligned. rewrite length_wire_tlv. intros. apply Nat.divide_add_r; [|done].
  by exists 1.
Qed.
Lemma aligned_concat {A} (w : A -> pat) l :
  Forall (fun x => aligned (w x)) l -> aligned (concat (w <$> l)).
Proof.
  induction 1 as [|x l Hx _ IH]; [apply aligned_nil|].
  rewrite fmap_cons. by apply aligned_app.
Qed.
Lemma aligned_all {A} (w : A -> pat) l :
  (forall x, aligned (w x)) -> aligned (concat (w <$> l)).
Proof. intros H. apply aligned_concat, Forall_true, H. Qed.
Lemma aligned_unless_empty {A} (l : list A) p : aligned p -> aligned (unless_empty l p).
Proof. unfold unless_empty. case_decide; [intros; apply aligned_nil | done]. Qed.
Lemma aligned_mac mac : wf_mac mac -> aligned (lit mac ++ pad 2).
Proof. intros [Hl _]. apply (aligned_len _ 2). len. Qed.
Lemma aligned_ip6 u : wf_ip u -> aligned (wire_ip6 u).
Proof. intros [Hl _]. apply (aligned_len _ 5). len. Qed.
Lemma aligned_ip4 ip : aligned (wire_ip4 ip).
Proof. by apply (aligned_len _ 2). Qed.
Lemma aligned_euid vnid mac : wf_mac mac -> aligned (wire_euid vnid mac).
Proof. intros [Hl _]. apply (aligned_len _ 4). len. Qed.
Lemma aligned_vmac mac : wf_mac mac -> aligned (wire_vmac mac).
Proof. intros [Hl _]. apply (aligned_len _ 3). len. Qed.
Lemma aligned_words v : aligned (w32 v).
Proof. by apply (aligned_len _ 1). Qed.

Lemma aligned_ip a : wf_addr a -> aligned (wire_ip a).
Proof.
  intros [Hi _]. unfold wire_ip. destruct (is_v4 _); [apply aligned_ip4|].
  destruct (_ =? _)%Z; [by apply aligned_ip6 | apply aligned_nil].
Qed.
Lemma aligned_client a : wf_addr a -> aligned (wire_client a).
Proof.
  intros [[Hl _] _]. unfold wire_client, wire_svcloc.
  destruct (_ || _)%Z; [|apply aligned_nil].
  destruct (is_v4 _); [by apply (aligned_len _ 3) | apply (aligned_len _ 6); len].
Qed.
Lemma aligned_tunnel t : wf_tunnel t -> aligned (wire_tunnel t).
Proof.
  intros [[Hl _] _]. unfold wire_tunnel.
  destruct (_ =? _)%Z; [by apply (aligned_len _ 4)|].
  destruct (_ =? _)%Z; [|apply aligned_nil].
  apply (aligned_len _ 7). unfold wire_tunnel_ip6. len.
Qed.
Lemma aligned_tunnels tl : wf_tunnels tl -> aligned (wire_tunnel_list (tunnels tl)).
Proof.
  intros [_ H]. unfold wire_tunnel_list. destruct (tunnels tl) as [|t ts]; [apply aligned_nil|].
  apply aligned_tlv, aligned_concat. eapply List.Forall_impl; [apply aligned_tunnel | exact H].
Qed.
#[export] Hint Resolve aligned_nil aligned_app aligned_tlv aligned_unless_empty
  aligned_mac aligned_ip4 aligned_ip6 aligned_euid aligned_vmac aligned_words
  aligned_ip aligned_client aligned_tunnels : align.

Lemma aligned_endpoint_info c : info_ok c -> aligned (wire_endpoint_info c).
Proof.
  intros [Hm [Hi _]]. unfold wire_endpoint_info. apply aligned_tlv, aligned_app; [auto with align|].
  rewrite app_assoc. apply aligned_app; [auto with align|].
  destruct (_ =? _)%Z; auto with align.
Qed.
Lemma aligned_loc version vnid mac ip tl :
  wf_loc mac ip tl -> aligned (wire_loc version vnid mac ip tl).
Proof. intros (? & ? & ?). unfold wire_loc. auto 8 with align. Qed.
Lemma aligned_mcast_addr c : wf_mcast_addr c -> aligned (wire_mcast_addr c).
Proof.
  intros [? ?]. unfold wire_mcast_addr. apply aligned_tlv, aligned_app; [auto with align|].
  destruct (_ =? _)%Z; auto with align.
Qed.
Lemma aligned_as_bytes ws : aligned (lit (as_bytes ws)).
Proof.
  unfold aligned, lit, as_bytes. rewrite length_fmap. exists (length ws).
  induction ws as [|w ws IH]; [done|]. rewrite fmap_cons. cbn [concat length].
  rewrite length_app, length_le32, IH. lia.
Qed.
Lemma aligned_srcs family num words : aligned (wire_srcs family num words).
Proof.
  unfold wire_srcs, wire_ipv4_list, wire_ipv6_list.
  repeat case_match; auto with align; apply aligned_tlv;
    [apply aligned_all; auto with align | apply aligned_as_bytes].
Qed.
Lemma aligned_rules l : aligned (concat (wire_rule <$> l)).
Proof. apply aligned_all. intros r. by apply (aligned_len _ 2). Qed.
Lemma aligned_rule_block action l : aligned (wire_rule_block action l).
Proof.
  unfold wire_rule_block. apply aligned_unless_empty. rewrite app_assoc.
  apply aligned_app; [by apply (aligned_len _ 1) | apply aligned_rules].
Qed.
#[export] Hint Resolve aligned_endpoint_info aligned_loc aligned_mcast_addr
  aligned_srcs aligned_rules aligned_rule_block : align.

Lemma aligned_policy c : aligned (wire_policy c).
Proof.
  unfold wire_policy, wire_policy_id, wire_policy_type.
  apply aligned_tlv, aligned_app; [auto with align|]. apply aligned_tlv.
  destruct (_ =? _)%Z; [|by apply (aligned_len _ 1)].
  rewrite !app_assoc, <- (app_assoc _ _ (wire_rule_block _ _)).
  apply aligned_app; [by apply (aligned_len _ 1) | auto with align].
Qed.
Lemma aligned_bulk c : aligned (wire_bulk c).
Proof.
  unfold wire_bulk. rewrite app_assoc.
  apply aligned_app; [by apply (aligned_len _ 1) | auto with align].
Qed.
Lemma aligned_update_reply c :
  wf_endpoint_update_reply c -> aligned (wire_endpoint_update_reply c).
Proof.
  intros (Hm & _ & _ & Hv & Ht). unfold wire_endpoint_update_reply.
  apply aligned_tlv, aligned_app; [auto with align|]. apply aligned_app; [auto with align|].
  apply aligned_app; [|apply aligned_app; [|auto with align]];
    apply aligned_unless_empty, aligned_tlv.
  - apply aligned_all. auto with align.
  - unfold aligned. rewrite length_lit, length_vips6 by done.
    exists (length (vips6 (counted (eur_num_of_vip c) (eur_vm_ip_addr c))) * 4). lia.
Qed.
Lemma aligned_epri c : wf_epri c -> aligned (wire_epri c).
Proof.
  intros (Hm & _ & _ & H6 & Ht). unfold wire_epri, wire_ip4_info_list, wire_ip6_info_list.
  apply aligned_tlv, aligned_app; [auto with align|].
  apply aligned_app; [|apply aligned_app; [|auto with align]]; apply aligned_tlv.
  - apply aligned_all. intros x. by apply (aligned_len _ 2).
  - apply aligned_concat. eapply List.Forall_impl; [|exact H6]. intros x [Hl _].
    apply (aligned_len _ 5). unfold wire_ip6_info. len.
Qed.
Lemma aligned_vnid_tunnel_list t : aligned (wire_vnid_tunnel_list t).
Proof. unfold wire_vnid_tunnel_list, wire_packed. auto with align. Qed.
#[export] Hint Resolve aligned_policy aligned_bulk aligned_update_reply aligned_epri
  aligned_vnid_tunnel_list : align.

Lemma aligned_loc_req x :
  wf_mac (elq_mac x) -> wf_addr (elq_vm_ip_addr x) -> wf_addr (elq_dps_client_addr x) ->
  aligned (wire_loc_req x).
Proof.
  intros Hm [Hi Hp] Hc. unfold wire_loc_req.
  apply aligned_app; [auto with align|]. apply aligned_app; [|auto with align].
  destruct (_ =? _)%Z; [|destruct (_ =? _)%Z]; auto with align.
Qed.

Lemma wire_body_aligned c : body_ok c -> aligned (wire_body c).
Proof.
  unfold body_ok, wire_body, wire_policy_req, wire_vm_migration, wire_mcast_sender,
    wire_mcast_receiver, wire_mcast_grp_rec, wire_ds_list, wire_policy_reply,
    wire_endpoint_loc_reply, wire_endpoint_update, wire_packed, reply_ok,
    wf_endpoint_loc_reply, wf_endpoint_update, wf_mcast_grp_rec.
  destruct (cd_body c); intros Hok; destruct_and?; auto 7 using aligned_loc_req with align.
  - apply aligned_app; [auto with align|]. destruct (_ =? _)%Z; auto with align.
  - apply aligned_app; [auto with align|]. apply aligned_all. auto with align.
Qed.

Lemma sent_body_aligned c : body_ok c -> aligned (sent_body c).
Proof.
  intros Hok%wire_body_aligned. unfold sent_body.
  destruct (cd_body c); try done; destruct (_ =? 0)%Z; auto with align.
Qed.

(** ** Reading the header *)

(** The fields are as wide on the wire as in the structure, but for
    [sub_type], which is a [uint8_t] in the structure. *)
Definition hdr_ok (h : dps_client_hdr_t) : Prop :=
  in8 (ch_type h) /\ in8 (ch_sub_type h) /\ in8 (ch_client_id h) /\
  in8 (ch_transaction_type h) /\ in32 (ch_vnid h) /\ in16 (ch_resp_status h) /\
  in32 (ch_query_id h).
#[export] Instance hdr_ok_dec h : Decision (hdr_ok h).
Proof. unfold hdr_ok. apply _. Defined.

Lemma with_reply_addr_id h : with_reply_addr h (ch_reply_addr h) = h.
Proof. by destruct h. Qed.

(** The length field of a packet of whole words. *)
Lemma length_field_word n :
  Nat.divide 4 n -> DPS_PKT_HDR_LEN <= n -> (Z.of_nat n < 65536)%Z ->
  (u16 (Z.quot (u16 (Z.of_nat n) - Z.of_nat DPS_PKT_HDR_TLV_LEN) 4) * 4
   = Z.of_nat n - 4)%Z.
Proof.
  intros [k ->] Hlo Hhi. unfold DPS_PKT_HDR_LEN, DPS_PKT_HDR_TLV_LEN in *.
  rewrite (u16_small (Z.of_nat _)) by (split; lia).
  replace (Z.of_nat (k * 4) - Z.of_nat 4)%Z with ((Z.of_nat k - 1) * 4)%Z by lia.
  rewrite Z.quot_mul by done. rewrite u16_small by (split; lia). lia.
Qed.

Lemma dps_get_pkt_hdr_wire b ty h n h0 :
  matches b 0 (wire_pkt_hdr ty h n) -> hdr_ok h -> ty = ch_type h ->
  Nat.divide 4 n -> DPS_PKT_HDR_LEN <= n -> (Z.of_nat n < 65536)%Z ->
  dps_get_pkt_hdr b 0 h0 =
  Done (with_reply_addr h (ch_reply_addr h0), Z.of_nat (n - DPS_PKT_HDR_LEN)).
Proof.
  intros Hm (Ht & Hs & Hci & Htt & Hv & Hr & Hq) -> Hdiv Hlo Hhi.
  pose proof (length_field_word n Hdiv Hlo Hhi) as Hlen.
  unfold wire_pkt_hdr in Hm. split_matches. unfold dps_get_pkt_hdr. loads.
  rewrite Hlen. unfold with_reply_addr, DPS_PKT_HDR_LEN, DPS_PKT_HDR_TLV_LEN in *.
  rewrite (u16_small (ch_sub_type h)) by (unfold in8, in16 in *; lia).
  rewrite !u8_small, !u32_small, u16_small by done || (unfold in32; lia).
  do 2 f_equal. lia.
Qed.

(** A packet of body [body]: the header reads back, the rest is the body. *)
Definition pkt_at (b : buf) (h : dps_client_hdr_t) (body : pat) : Prop :=
  matches b 0 (wire_pkt (ch_type h) h body) /\ hdr_ok h /\ aligned body /\
  (Z.of_nat (DPS_PKT_HDR_LEN + length body) < 65536)%Z.

Lemma pkt_at_hdr b h body h0 :
  pkt_at b h body ->
  dps_get_pkt_hdr b 0 h0 =
  Done (with_reply_addr h (ch_reply_addr h0), Z.of_nat (length body)).
Proof.
  intros (Hm & Hh & Ha & Hl). unfold wire_pkt in Hm. apply matches_app in Hm as [Hm _].
  rewrite (dps_get_pkt_hdr_wire _ _ _ _ _ Hm); try done.
  - by replace (DPS_PKT_HDR_LEN + length body - DPS_PKT_HDR_LEN) with (length body) by lia.
  - apply Nat.divide_add_r; [by exists 5 | done].
  - lia.
Qed.

Lemma pkt_at_body b h body : pkt_at b h body -> matches b DPS_PKT_HDR_LEN body.
Proof. intros (Hm & _). unfold wire_pkt in Hm. by apply matches_app in Hm as [_ Hm]. Qed.

(** What is handed to the socket layer is such a packet. *)
Lemma matches_take b off p n :
  matches b off p -> off + length p <= n -> matches (take n b) off p.
Proof.
  intros [Hl H] Hn. split; [rewrite length_take; lia|]. intros i v Hi.
  pose proof (lookup_lt_Some _ _ _ Hi). rewrite lookup_take_lt by lia. by apply H.
Qed.

Lemma sent_matches b ty h body :
  DPS_PKT_HDR_LEN + length body <= length b ->
  matches (take (DPS_PKT_HDR_LEN + length body) (lay b 0 (wire_pkt ty h body))) 0
    (wire_pkt ty h body).
Proof.
  intros Hl. assert (length (wire_pkt ty h body) = DPS_PKT_HDR_LEN + length body) as E
    by (unfold wire_pkt; rewrite length_app; done).
  apply matches_take; [apply matches_lay|]; lia.
Qed.
