(* ===== verification/Decode.v ===== *)
(** * Received packets: what the [dps_process_*] functions make of a message

    A packet that matches the wire format of a message is parsed into that
    message again, up to what the format does not carry ([≡]): the address the
    receiver puts in for a DPS client address the sender left out, the
    transport of an address, the bytes of a union beyond an IPv4 address. *)
From S2P Require Export Header.

(** ** Cursor loops *)

(** An address that is only encoded when its family is set. *)
Definition given (a dflt : ip_addr_t) : ip_addr_t :=
  if ((ia_family a =? AF_INET) || (ia_family a =? AF_INET6))%Z then a else dflt.

Lemma given_cases a :
  (wire_client a = [] /\ forall d, given a d = d) \/
  (wire_client a = wire_svcloc a /\ known_ip a /\ forall d, given a d = a).
Proof.
  unfold wire_client, given, known_ip, is_v4.
  destruct (Z.eqb_spec (ia_family a) AF_INET); [by right; split_and!; auto|].
  destruct (Z.eqb_spec (ia_family a) AF_INET6); [right | by left].
  by split_and!; auto.
Qed.

Lemma wire_svcloc_type b off a :
  matches b off (wire_svcloc a) ->
  exists h, dps_get_tlv_hdr b off = Done h /\ th_type h = SERVICE_LOC_TLV.
Proof. unfold wire_svcloc. intros H. by destruct (is_v4 _); apply tlv_type in H. Qed.

Lemma length_wire_svcloc_pos a : 4 <= length (wire_svcloc a).
Proof. unfold wire_svcloc. destruct (is_v4 _); rewrite length_wire_tlv; lia. Qed.

(** An item that may be absent, in the middle of a packet. *)
Lemma opt_item {A} (f : nat -> A -> out (ctl * nat * A)) (get : A -> ip_addr_t)
  (set : ip_addr_t -> A -> A) off (p : pat) a fuel end_ s :
  set (get s) s = s ->
  (p = [] /\ given a (get s) = get s \/
   0 < length p /\ given a (get s) = a /\
   exists a', a' ≡ a /\ f off s = Done (Go, off + length p, set a' s)) ->
  0 < fuel -> (Z.of_nat (off + length p) <= end_)%Z ->
  exists a' fuel', a' ≡ given a (get s) /\ fuel - 1 <= fuel' /\
    while fuel end_ f off s = while fuel' end_ f (off + length p) (set a' s).
Proof.
  intros Hid [[-> ->]|(Hp & -> & a' & Ea & E)] Hf He.
  - exists (get s), fuel. rewrite Hid. simpl. rewrite Nat.add_0_r. by split_and!; [|lia|].
  - exists a', (fuel - 1). loop_step E. done.
Qed.

(** A loop whose last item is the DPS client address. *)
Lemma client_tail {A} (f : nat -> A -> out (ctl * nat * A)) (get : A -> ip_addr_t)
  (set : ip_addr_t -> A -> A) b a fuel off end_ s :
  (forall s, set (get s) s = s) ->
  (forall cur s h, dps_get_tlv_hdr b cur = Done h -> th_type h = SERVICE_LOC_TLV ->
     f cur s = let* (a', n) := dps_get_svcloc_tlv b cur (get s) in
               Done (Go, cur + n, set a' s)) ->
  wf_addr a -> matches b off (wire_client a) -> 1 < fuel ->
  end_ = Z.of_nat (off + length (wire_client a)) ->
  exists a', a' ≡ given a (get s) /\
    while fuel end_ f off s = Done (Go, off + length (wire_client a), set a' s).
Proof.
  intros Hid Hf Ha Hm Hfu ->.
  destruct (opt_item f get set off (wire_client a) a fuel
              (Z.of_nat (off + length (wire_client a))) s)
    as (a' & fuel' & Ea & Hf' & ->); [done | | lia | done |].
  - destruct (given_cases a) as [[E G]|(E & Hk & G)]; rewrite E in *; [by left|right].
    pose proof (length_wire_svcloc_pos a).
    destruct (wire_svcloc_type _ _ _ Hm) as (h & Eh & Th).
    destruct (dps_get_svcloc_tlv_wire _ _ _ (get s) Hm Ha Hk) as (a' & Ea & Eq & _).
    split_and!; [lia | done |]. exists a'. split; [done|].
    by rewrite (Hf off s h Eh Th), Ea.
  - exists a'. by rewrite while_end by lia.
Qed.

(** Follow the tests of an item function on a TLV of a known type. *)
Ltac item_of H :=
  destruct H as (?h & ?Eh & ?Th); rewrite Eh; cbn [obind]; rewrite Th;
  repeat match goal with
  | |- context [(?x =? ?y)%Z] =>
      let v := eval vm_compute in (x =? y)%Z in
      change (x =? y)%Z with v; cbn [orb is_svcloc is_mcast_addr]; cbn iota
  end.

(** The hypothesis of [client_tail] for an item function. *)
Ltac client_item f :=
  let cur := fresh "cur" in let s := fresh "s" in let h := fresh "h" in
  let Eh := fresh "Eh" in let Th := fresh "Th" in
  intros cur s h Eh Th; unfold f; try destruct s; rewrite Eh; cbn [obind]; rewrite Th;
  unfold is_svcloc, is_mcast_addr;
  repeat match goal with
  | |- context [(SERVICE_LOC_TLV =? ?y)%Z] =>
      let v := eval vm_compute in (SERVICE_LOC_TLV =? y)%Z in
      change (SERVICE_LOC_TLV =? y)%Z with v; cbn [orb]; cbn iota
  end; reflexivity.

(** ** Location requests *)
Definition loc_req_from (sender : ip_addr_t) (x x' : dps_endpoint_loc_req_t) : Prop :=
  elq_vnid x' = elq_vnid x /\ elq_mac x' = elq_mac x /\
  elq_vm_ip_addr x' ≡ given (elq_vm_ip_addr x) zero_ip_addr /\
  elq_dps_client_addr x' ≡ given (elq_dps_client_addr x) sender.

Definition loc_req_ok (x : dps_endpoint_loc_req_t) : Prop :=
  in32 (elq_vnid x) /\ wf_mac (elq_mac x) /\ wf_addr (elq_vm_ip_addr x) /\
  wf_addr (elq_dps_client_addr x).

(** The virtual address goes out when its family is set. *)
Lemma loc_req_ip_cases a :
  let p := if (ia_family a =? AF_INET)%Z then wire_ip4 (ia_ip4 a)
           else if (ia_family a =? AF_INET6)%Z then wire_ip6 (ia_ip a) else [] in
  (p = [] /\ forall d, given a d = d) \/
  (p = wire_ip a /\ known_ip a /\ forall d, given a d = a).
Proof.
  unfold given, known_ip, wire_ip, is_v4. cbn zeta.
  destruct (Z.eqb_spec (ia_family a) AF_INET) as [->|]; [by right; split_and!; auto|].
  destruct (Z.eqb_spec (ia_family a) AF_INET6) as [->|]; [right | by left].
  by split_and!; auto.
Qed.

Lemma loc_req_loop b fuel x a0 end_ :
  loc_req_ok x -> matches b DPS_PKT_HDR_LEN (wire_loc_req x) -> 3 < fuel ->
  end_ = Z.of_nat (DPS_PKT_HDR_LEN + length (wire_loc_req x)) ->
  exists x' cur, loc_req_from a0 x x' /\
    while fuel end_ (loc_req_item b) DPS_PKT_HDR_LEN
      (mk_endpoint_loc_req 0 zero_mac zero_ip_addr a0) = Done (Go, cur, x').
Proof.
  intros (Hv & [Hm Hmb] & Hi & Hc) H Hf ->. unfold wire_loc_req in *.
  rewrite !matches_app in H. destruct H as (H1 & H2 & H3). rewrite !length_app.
  pose proof (loc_req_ip_cases (elq_vm_ip_addr x)) as Hp. cbn zeta in Hp.
  set (p := if (ia_family (elq_vm_ip_addr x) =? AF_INET)%Z then _ else _) in *.
  pose proof (length_wire_euid (elq_vnid x) (elq_mac x)) as Le. rewrite Hm in Le.
  assert (forall s, loc_req_item b DPS_PKT_HDR_LEN s =
    Done (Go, DPS_PKT_HDR_LEN + length (wire_euid (elq_vnid x) (elq_mac x)),
          mk_endpoint_loc_req (elq_vnid x) (elq_mac x) (elq_vm_ip_addr s)
            (elq_dps_client_addr s))) as S1.
  { intros s. unfold loc_req_item. item_of (tlv_type _ _ _ _ _ H1).
    by rewrite (dps_get_euid_tlv_wire _ _ _ _ H1). }
  loop_step (S1 (mk_endpoint_loc_req 0 zero_mac zero_ip_addr a0)).
  destruct (opt_item (loc_req_item b) elq_vm_ip_addr
    (fun a s => mk_endpoint_loc_req (elq_vnid s) (elq_mac s) a (elq_dps_client_addr s))
    (DPS_PKT_HDR_LEN + length (wire_euid (elq_vnid x) (elq_mac x))) p (elq_vm_ip_addr x)
    (fuel - 1) (Z.of_nat (DPS_PKT_HDR_LEN + (length (wire_euid (elq_vnid x) (elq_mac x))
       + (length p + length (wire_client (elq_dps_client_addr x))))))
    (mk_endpoint_loc_req (elq_vnid x) (elq_mac x) zero_ip_addr a0))
    as (ip' & fuel' & Ei & Hf' & E'); [done | | lia | lia |].
  - destruct Hp as [[E G]|(E & Hk & G)]; rewrite E in *; [by left|right].
    pose proof (length_wire_ip_pos _ Hk).
    destruct (dps_get_ip_tlv_wire _ _ _ zero_ip_addr H2 Hi Hk) as (ip' & Ei & Eqi).
    split_and!; [lia | done |]. exists ip'. split; [done|].
    unfold loc_req_item. item_of (tlv_type_ip _ _ _ H2 Hk). cbn [elq_vm_ip_addr].
    by rewrite Ei.
  - destruct (client_tail (loc_req_item b) elq_dps_client_addr
      (fun a s => mk_endpoint_loc_req (elq_vnid s) (elq_mac s) (elq_vm_ip_addr s) a)
      b (elq_dps_client_addr x) fuel' _ _
      (mk_endpoint_loc_req (elq_vnid x) (elq_mac x) ip' a0)
      ltac:(by intros []) ltac:(client_item loc_req_item) Hc H3 ltac:(lia) eq_refl)
      as (a' & Ea & Ew).
    do 2 eexists. split; [|cbn [elq_vm_ip_addr elq_dps_client_addr]; etransitivity;
      [exact E'|]; etransitivity; [|exact Ew]; f_equal; lia].
    by split_and!.
Qed.

(** ** Endpoint updates *)
Definition update_from (sender : ip_addr_t) (x x' : dps_endpoint_update_t) : Prop :=
  x' ≡ x /\ eu_dps_client_addr x' ≡ given (eu_dps_client_addr x) sender.

Definition update_ok (fuel : nat) (x : dps_endpoint_update_t) : Prop :=
  loc_ok room_endpoint_update fuel (eu_version x) (eu_vnid x) (eu_mac x)
    (eu_vm_ip_addr x) (eu_tunnel_info x) /\ wf_addr (eu_dps_client_addr x).

Lemma update_loop b fuel x a0 end_ :
  update_ok fuel x ->
  matches b DPS_PKT_HDR_LEN (wire_endpoint_update x ++ wire_client (eu_dps_client_addr x)) ->
  end_ = Z.of_nat (DPS_PKT_HDR_LEN + length (wire_endpoint_update x
                                             ++ wire_client (eu_dps_client_addr x))) ->
  exists x' cur, update_from a0 x x' /\
    while fuel end_ (update_item fuel b) DPS_PKT_HDR_LEN
      (mk_endpoint_update 0 zero_mac 0 zero_ip_addr a0 zero_tunnel_list)
    = Done (Go, cur, x').
Proof.
  intros [Hl Hc] H ->. pose proof Hl as (_ & _ & Hmac & _ & _ & _ & Hf & _).
  apply matches_app in H as [H1 H2]. rewrite length_app.
  destruct (dps_get_endpoint_update_tlv_wire fuel b DPS_PKT_HDR_LEN room_endpoint_update x
    (mk_endpoint_update 0 zero_mac 0 zero_ip_addr a0 zero_tunnel_list) Hl H1 eq_refl)
    as (x1 & E1 & Eq & Ec).
  assert (update_item fuel b DPS_PKT_HDR_LEN
            (mk_endpoint_update 0 zero_mac 0 zero_ip_addr a0 zero_tunnel_list) =
          Done (Go, DPS_PKT_HDR_LEN + length (wire_endpoint_update x), x1)) as S1.
  { unfold update_item. item_of (tlv_type _ _ _ _ _ H1). by rewrite E1. }
  assert (0 < length (wire_endpoint_update x)) as Hp
    by (unfold wire_endpoint_update; rewrite length_wire_loc by done; lia).
  loop_step S1.
  destruct (client_tail (update_item fuel b) eu_dps_client_addr
    (fun a s => mk_endpoint_update (eu_vnid s) (eu_mac s) (eu_version s)
                  (eu_vm_ip_addr s) a (eu_tunnel_info s))
    b (eu_dps_client_addr x) (fuel - 1) _ _ x1
    ltac:(by intros []) ltac:(client_item update_item) Hc H2 ltac:(lia) eq_refl)
    as (a' & Ea & Ew).
  do 2 eexists. split; [|etransitivity; [|exact Ew]; f_equal; lia].
  split; [by destruct x1|]. by rewrite Ec in Ea.
Qed.

(** ** General requests *)
Lemma gen_msg_loop b fuel x a0 end_ :
  wf_addr (gm_dps_client_addr x) -> 1 < fuel ->
  matches b DPS_PKT_HDR_LEN (wire_client (gm_dps_client_addr x)) ->
  end_ = Z.of_nat (DPS_PKT_HDR_LEN + length (wire_client (gm_dps_client_addr x))) ->
  exists x' cur, gm_dps_client_addr x' ≡ given (gm_dps_client_addr x) a0 /\
    while fuel end_ (gen_msg_item b) DPS_PKT_HDR_LEN (mk_gen_msg_req a0)
    = Done (Go, cur, x').
Proof.
  intros Hc Hf H ->.
  destruct (client_tail (gen_msg_item b) gm_dps_client_addr (fun a s => mk_gen_msg_req a)
    b (gm_dps_client_addr x) fuel _ _ (mk_gen_msg_req a0)
    ltac:(by intros []) ltac:(client_item gen_msg_item) Hc H Hf eq_refl)
    as (a' & Ea & Ew).
  do 2 eexists. split; [|exact Ew]. done.
Qed.

(** ** Tunnel lists: gateways, and the registration of tunnels *)
Lemma gw_list_loop b fuel x end_ :
  tunnels_ok room_gw_list fuel x -> fits (wire_tunnel_list (tunnels x)) -> 1 < fuel ->
  matches b DPS_PKT_HDR_LEN (wire_tunnel_list (tunnels x)) ->
  end_ = Z.of_nat (DPS_PKT_HDR_LEN + length (wire_tunnel_list (tunnels x))) ->
  exists x' cur, x' ≡ x /\
    while fuel end_ (gw_list_item fuel b) DPS_PKT_HDR_LEN zero_tunnel_list
    = Done (Go, cur, x').
Proof.
  intros Ht Hfit Hf H ->. destruct (decide (tunnels x = [])) as [E|E].
  - rewrite E. cbn [wire_tunnel_list length]. rewrite while_end by lia. do 2 eexists. split; [|done].
    unfold equiv, tunnel_list_equiv. by rewrite E.
  - destruct (get_tunnels_item fuel b _ room_gw_list x zero_tunnel_list H Hfit Ht E)
      as (x' & Ex & Eq).
    assert (gw_list_item fuel b DPS_PKT_HDR_LEN zero_tunnel_list =
      Done (Go, DPS_PKT_HDR_LEN + length (wire_tunnel_list (tunnels x)), x')) as S1.
    { unfold gw_list_item. item_of (wire_tunnel_list_type _ _ _ E H). by rewrite Ex. }
    pose proof (length_wire_tunnel_list_pos _ E). loop_step S1.
    rewrite while_end by lia. by exists x', (DPS_PKT_HDR_LEN + length (wire_tunnel_list (tunnels x))).
Qed.

Definition tunnel_reg_from (sender : ip_addr_t) (x x' : dps_tunnel_reg_dereg_t) : Prop :=
  tr_tunnel_info x' ≡ tr_tunnel_info x /\
  tr_dps_client_addr x' ≡ given (tr_dps_client_addr x) sender.

Lemma tunnel_reg_loop b fuel x a0 end_ :
  tunnels_ok room_tunnel_reg fuel (tr_tunnel_info x) ->
  fits (wire_tunnel_list (tunnels (tr_tunnel_info x))) ->
  wf_addr (tr_dps_client_addr x) -> 2 < fuel ->
  matches b DPS_PKT_HDR_LEN (wire_tunnel_list (tunnels (tr_tunnel_info x))
                             ++ wire_client (tr_dps_client_addr x)) ->
  end_ = Z.of_nat (DPS_PKT_HDR_LEN + length (wire_tunnel_list (tunnels (tr_tunnel_info x))
                                             ++ wire_client (tr_dps_client_addr x))) ->
  exists x' cur, tunnel_reg_from a0 x x' /\
    while fuel end_ (tunnel_reg_item fuel b) DPS_PKT_HDR_LEN
      (mk_tunnel_reg a0 zero_tunnel_list) = Done (Go, cur, x').
Proof.
  intros Ht Hfit Hc Hf H ->. apply matches_app in H as [H1 H2]. rewrite length_app.
  set (n := length (wire_tunnel_list (tunnels (tr_tunnel_info x)))) in *.
  assert (exists tl' fuel', tl' ≡ tr_tunnel_info x /\ fuel - 1 <= fuel' /\
    while fuel (Z.of_nat (DPS_PKT_HDR_LEN + (n + length (wire_client (tr_dps_client_addr x)))))
      (tunnel_reg_item fuel b) DPS_PKT_HDR_LEN (mk_tunnel_reg a0 zero_tunnel_list)
    = while fuel' (Z.of_nat (DPS_PKT_HDR_LEN + n + length (wire_client (tr_dps_client_addr x))))
      (tunnel_reg_item fuel b) (DPS_PKT_HDR_LEN + n) (mk_tunnel_reg a0 tl'))
    as (tl' & fuel' & Et & Hf' & ->).
  { destruct (decide (tunnels (tr_tunnel_info x) = [])) as [E|E].
    - exists zero_tunnel_list, fuel. subst n. rewrite E. split_and!; [|lia|].
      + unfold equiv, tunnel_list_equiv. by rewrite E.
      + cbn [wire_tunnel_list length]. by rewrite !Nat.add_0_r, Nat.add_0_l.
    - destruct (get_tunnels_item fuel b _ room_tunnel_reg _ zero_tunnel_list H1 Hfit Ht E)
        as (tl' & Ex & Eq).
      assert (tunnel_reg_item fuel b DPS_PKT_HDR_LEN (mk_tunnel_reg a0 zero_tunnel_list) =
        Done (Go, DPS_PKT_HDR_LEN + n, mk_tunnel_reg a0 tl')) as S1.
      { unfold tunnel_reg_item. item_of (wire_tunnel_list_type _ _ _ E H1).
        cbn [tr_tunnel_info]. by rewrite Ex. }
      pose proof (length_wire_tunnel_list_pos _ E). exists tl', (fuel - 1).
      rewrite Nat.add_assoc. loop_step S1. done. }
  destruct (client_tail (tunnel_reg_item fuel b) tr_dps_client_addr
    (fun a s => mk_tunnel_reg a (tr_tunnel_info s))
    b (tr_dps_client_addr x) fuel' _ _ (mk_tunnel_reg a0 tl')
    ltac:(by intros []) ltac:(client_item tunnel_reg_item) Hc H2 ltac:(lia) eq_refl)
    as (a' & Ea & Ew).
  do 2 eexists. split; [|exact Ew]. done.
Qed.

(** ** Policy requests *)
#[export] Instance policy_req_equiv : Equiv dps_policy_req_t := fun c c' =>
  pq_dst_endpoint c ≡ pq_dst_endpoint c' /\ pq_src_endpoint c ≡ pq_src_endpoint c'.
Definition policy_req_from (sender : ip_addr_t) (x x' : dps_policy_req_t) : Prop :=
  x' ≡ x /\ pq_dps_client_addr x' ≡ given (pq_dps_client_addr x) sender.

Lemma length_wire_endpoint_info_pos c : 4 <= length (wire_endpoint_info c).
Proof. unfold wire_endpoint_info. rewrite length_wire_tlv. lia. Qed.

Lemma policy_req_loop b fuel x a0 end_ :
  wf_endpoint_info (pq_dst_endpoint x) -> wf_endpoint_info (pq_src_endpoint x) ->
  wf_addr (pq_dps_client_addr x) -> 3 < fuel ->
  matches b DPS_PKT_HDR_LEN (wire_policy_req x) ->
  end_ = Z.of_nat (DPS_PKT_HDR_LEN + length (wire_policy_req x)) ->
  exists x' i cur, policy_req_from a0 x x' /\
    while fuel end_ (policy_req_item b) DPS_PKT_HDR_LEN
      (mk_policy_req zero_endpoint_info zero_endpoint_info a0, 0)
    = Done (Go, cur, (x', i)).
Proof.
  intros Hd Hs Hc Hf H ->. unfold wire_policy_req in *. rewrite !matches_app in H.
  destruct H as (H1 & H2 & H3). rewrite !length_app.
  pose proof (length_wire_endpoint_info_pos (pq_dst_endpoint x)).
  pose proof (length_wire_endpoint_info_pos (pq_src_endpoint x)).
  destruct (dps_get_endpoint_info_tlv_wire b _ _ zero_endpoint_info Hd H1) as (d & Ed & Eqd).
  destruct (dps_get_endpoint_info_tlv_wire b _ _ zero_endpoint_info Hs H2) as (s & Es & Eqs).
  assert (policy_req_item b DPS_PKT_HDR_LEN
            (mk_policy_req zero_endpoint_info zero_endpoint_info a0, 0) =
          Done (Go, DPS_PKT_HDR_LEN + length (wire_endpoint_info (pq_dst_endpoint x)),
                (mk_policy_req d zero_endpoint_info a0, 1))) as S1.
  { unfold policy_req_item. item_of (tlv_type _ _ _ _ _ H1). cbn [pq_dst_endpoint].
    by rewrite Ed. }
  assert (policy_req_item b (DPS_PKT_HDR_LEN + length (wire_endpoint_info (pq_dst_endpoint x)))
            (mk_policy_req d zero_endpoint_info a0, 1) =
          Done (Go, DPS_PKT_HDR_LEN + length (wire_endpoint_info (pq_dst_endpoint x))
                    + length (wire_endpoint_info (pq_src_endpoint x)),
                (mk_policy_req d s a0, 2))) as S2.
  { unfold policy_req_item. item_of (tlv_type _ _ _ _ _ H2). cbn [pq_src_endpoint].
    by rewrite Es. }
  loop_step S1. loop_step S2.
  destruct (client_tail (policy_req_item b) (fun s => pq_dps_client_addr s.1)
    (fun a s => (mk_policy_req (pq_dst_endpoint s.1) (pq_src_endpoint s.1) a, s.2))
    b (pq_dps_client_addr x) (fuel - 1 - 1) _ _ (mk_policy_req d s a0, 2)
    ltac:(by intros [[] ?]) ltac:(client_item policy_req_item) Hc H3 ltac:(lia) eq_refl)
    as (a' & Ea & Ew).
  do 3 eexists. split; [|etransitivity; [|exact Ew]; f_equal; lia].
  by split_and!.
Qed.

(** ** Location replies and migrations *)
Lemma loc_reply_loop b fuel x end_ :
  loc_ok room_endpoint_loc_reply fuel (elr_version x) (elr_vnid x) (elr_mac x)
    (elr_vm_ip_addr x) (elr_tunnel_info x) ->
  matches b DPS_PKT_HDR_LEN (wire_endpoint_loc_reply x) ->
  end_ = Z.of_nat (DPS_PKT_HDR_LEN + length (wire_endpoint_loc_reply x)) ->
  exists x' cur, x' ≡ x /\
    while fuel end_
      (fun cur x => let* (x, n) := dps_get_endpoint_loc_reply_tlv fuel b cur
                                     room_endpoint_loc_reply x in
                    Done (Go, cur + n, x))
      DPS_PKT_HDR_LEN zero_endpoint_loc_reply = Done (Go, cur, x').
Proof.
  intros Hl H ->. pose proof Hl as (_ & _ & Hmac & _ & _ & _ & Hf & _).
  destruct (dps_get_endpoint_loc_reply_tlv_wire fuel b DPS_PKT_HDR_LEN room_endpoint_loc_reply x
    zero_endpoint_loc_reply Hl H eq_refl) as (x1 & E1 & Eq).
  exists x1, (DPS_PKT_HDR_LEN + length (wire_endpoint_loc_reply x)). split; [done|].
  assert (0 < length (wire_endpoint_loc_reply x)) as Hp
    by (unfold wire_endpoint_loc_reply; rewrite length_wire_loc by done; lia).
  erewrite while_step; [|lia|lia|rewrite E1; reflexivity].
  by rewrite while_end by lia.
Qed.

#[export] Instance vm_migration_equiv : Equiv dps_vm_migration_event_t := fun c c' =>
  vm_migrated_vm_info c ≡ vm_migrated_vm_info c' /\ vm_src_vm_loc c ≡ vm_src_vm_loc c'.

Lemma vm_migration_loop b fuel x end_ :
  wf_endpoint_info (vm_migrated_vm_info x) ->
  (let r := vm_src_vm_loc x in
   loc_ok room_vm_migration fuel (elr_version r) (elr_vnid r) (elr_mac r)
     (elr_vm_ip_addr r) (elr_tunnel_info r)) ->
  matches b DPS_PKT_HDR_LEN (wire_vm_migration x) ->
  end_ = Z.of_nat (DPS_PKT_HDR_LEN + length (wire_vm_migration x)) ->
  exists x' cur, x' ≡ x /\
    while fuel end_ (vm_migration_item fuel b) DPS_PKT_HDR_LEN
      (mk_vm_migration zero_endpoint_info zero_endpoint_loc_reply) = Done (Go, cur, x').
Proof.
  intros Hi Hl H ->. pose proof Hl as (_ & _ & Hmac & _ & _ & _ & Hf & _).
  unfold wire_vm_migration in *. apply matches_app in H as [H1 H2]. rewrite length_app.
  pose proof (length_wire_endpoint_info_pos (vm_migrated_vm_info x)).
  assert (0 < length (wire_endpoint_loc_reply (vm_src_vm_loc x))) as Hp
    by (unfold wire_endpoint_loc_reply; rewrite length_wire_loc by done; lia).
  destruct (dps_get_endpoint_info_tlv_wire b _ _ zero_endpoint_info Hi H1) as (e & Ee & Eqe).
  destruct (dps_get_endpoint_loc_reply_tlv_wire fuel b _ room_vm_migration (vm_src_vm_loc x)
    zero_endpoint_loc_reply Hl H2 eq_refl) as (r & Er & Eqr).
  assert (vm_migration_item fuel b DPS_PKT_HDR_LEN
            (mk_vm_migration zero_endpoint_info zero_endpoint_loc_reply) =
          Done (Go, DPS_PKT_HDR_LEN + length (wire_endpoint_info (vm_migrated_vm_info x)),
                mk_vm_migration e zero_endpoint_loc_reply)) as S1.
  { unfold vm_migration_item. item_of (tlv_type _ _ _ _ _ H1). cbn [vm_migrated_vm_info].
    by rewrite Ee. }
  assert (vm_migration_item fuel b
            (DPS_PKT_HDR_LEN + length (wire_endpoint_info (vm_migrated_vm_info x)))
            (mk_vm_migration e zero_endpoint_loc_reply) =
          Done (Go, DPS_PKT_HDR_LEN + length (wire_endpoint_info (vm_migrated_vm_info x))
                    + length (wire_endpoint_loc_reply (vm_src_vm_loc x)),
                mk_vm_migration e r)) as S2.
  { unfold vm_migration_item. item_of (tlv_type _ _ _ _ _ H2). cbn [vm_src_vm_loc].
    by rewrite Er. }
  loop_step S1. loop_step S2. rewrite while_end by lia.
  eexists (mk_vm_migration e r), _. by split; [split|].
Qed.

(** ** Packed address lists *)
Lemma wire_srcs_v4 n4 words :
  (0 < n4)%Z -> wire_srcs AF_INET n4 words = wire_ipv4_list (counted n4 words).
Proof. intros. unfold wire_srcs. by rewrite (proj2 (Z.eqb_neq n4 0)) by lia. Qed.
Lemma wire_srcs_v6 n6 words :
  (0 < n6)%Z ->
  wire_srcs AF_INET6 n6 words = wire_ipv6_list (as_bytes (take (4 * Z.to_nat n6) words)).
Proof. intros. unfold wire_srcs. by rewrite (proj2 (Z.eqb_neq n6 0)) by lia. Qed.

Definition packed_ok (cap fuel : nat) (n4 n6 : Z) (words : list Z) : Prop :=
  wf_packed n4 n6 words /\ Z.to_nat n4 + 4 * Z.to_nat n6 <= cap /\
  Z.to_nat n4 < fuel /\ Z.to_nat n6 < fuel /\ 2 < fuel /\
  fits (wire_packed n4 n6 words).

Lemma packed_v4_item fuel cap b off n4 words :
  (0 < n4)%Z -> Forall in32 words -> Z.to_nat n4 <= length words -> Z.to_nat n4 < fuel ->
  Z.to_nat n4 <= cap -> fits (wire_srcs AF_INET n4 words) ->
  matches b off (wire_srcs AF_INET n4 words) ->
  packed_item fuel cap b off (0%Z, 0%Z, [], 0) =
  Done (Go, off + length (wire_srcs AF_INET n4 words),
        (n4, 0%Z, take (Z.to_nat n4) words, Z.to_nat n4)).
Proof.
  intros Hn Hr Hl Hf Hc Hfit Hm. rewrite wire_srcs_v4 in * by done. unfold packed_item.
  rewrite (dps_get_tlv_hdr_tlv _ _ _ _ _ Hm Hfit). cbn [obind th_type th_len].
  change (u8 IPV4_ADDR_LIST_TLV =? IPV4_ADDR_LIST_TLV)%Z with true. cbn iota.
  assert (length (counted n4 words) = Z.to_nat n4) as Ec
    by (unfold counted; rewrite length_take; lia).
  rewrite (dps_get_ipv4_list_tlv_wire _ _ _ _ _ _ _ Hm Hfit) by
    (first [by apply Forall_take | simpl; lia]). cbn [obind].
  assert (length (concat (w32 <$> counted n4 words)) = Z.to_nat n4 * 4) as ->
    by (rewrite (length_concat_fmap _ 4) by (by intros); by rewrite Ec).
  replace (Z.of_nat (Z.to_nat n4 * 4) / 4)%Z with n4
    by (rewrite Nat2Z.inj_mul, Z2Nat.id, Z.div_mul; lia).
  unfold puts. simpl. by rewrite drop_nil, app_nil_r.
Qed.

Lemma packed_v6_item fuel cap b off n4 n6 l j words :
  (0 < n6)%Z -> Forall in32 words -> 4 * Z.to_nat n6 <= length words ->
  Z.to_nat n6 < fuel -> length l + 4 * Z.to_nat n6 <= cap -> j = length l ->
  fits (wire_srcs AF_INET6 n6 words) -> matches b off (wire_srcs AF_INET6 n6 words) ->
  packed_item fuel cap b off (n4, 0%Z, l, j) =
  Done (Go, off + length (wire_srcs AF_INET6 n6 words),
        (n4, n6, l ++ take (4 * Z.to_nat n6) words, j)).
Proof.
  intros Hn Hr Hl Hf Hc -> Hfit Hm. rewrite wire_srcs_v6 in * by done. unfold packed_item.
  rewrite (dps_get_tlv_hdr_tlv _ _ _ _ _ Hm Hfit). cbn [obind th_type th_len].
  change (u8 IPV6_ADDR_LIST_TLV =? IPV4_ADDR_LIST_TLV)%Z with false.
  change (u8 IPV6_ADDR_LIST_TLV =? IPV6_ADDR_LIST_TLV)%Z with true. cbn iota.
  assert (length (take (4 * Z.to_nat n6) words) = Z.to_nat n6 * 4) as Ec
    by (rewrite length_take; lia).
  rewrite (dps_get_ipv6_list_tlv_wire _ _ _ _ _ _ _ (Z.to_nat n6) Hm Hfit) by
    (first [by apply Forall_take | lia]). cbn [obind].
  rewrite length_lit, length_as_bytes, Ec.
  replace (Z.of_nat (Z.to_nat n6 * 4 * 4) / 16)%Z with n6
    by (replace (Z.of_nat (Z.to_nat n6 * 4 * 4)) with (n6 * 16)%Z by lia;
        by rewrite Z.div_mul).
  unfold puts. rewrite (take_ge l), (drop_ge l) by lia. by rewrite app_nil_r.
Qed.

Lemma packed_loop b fuel cap n4 n6 words end_ :
  packed_ok cap fuel n4 n6 words ->
  matches b DPS_PKT_HDR_LEN (wire_packed n4 n6 words) ->
  end_ = Z.of_nat (DPS_PKT_HDR_LEN + length (wire_packed n4 n6 words)) ->
  exists cur, while fuel end_ (packed_item fuel cap b) DPS_PKT_HDR_LEN (0%Z, 0%Z, [], 0)
    = Done (Go, cur, (n4, n6, take (Z.to_nat n4 + 4 * Z.to_nat n6) words, Z.to_nat n4)).
Proof.
  intros ((Hr & H4 & H6 & Hl) & Hc & Hf4 & Hf6 & Hf & Hfit) H ->.
  unfold wire_packed, fits in *. apply matches_app in H as [M4 M6]. rewrite length_app in *.
  set (p4 := wire_srcs AF_INET n4 words) in *.
  set (p6 := wire_srcs AF_INET6 n6 (drop (Z.to_nat n4) words)) in *.
  assert (exists fuel', fuel - 1 <= fuel' /\
    while fuel (Z.of_nat (DPS_PKT_HDR_LEN + (length p4 + length p6)))
      (packed_item fuel cap b) DPS_PKT_HDR_LEN (0%Z, 0%Z, [], 0)
    = while fuel' (Z.of_nat (DPS_PKT_HDR_LEN + (length p4 + length p6)))
      (packed_item fuel cap b) (DPS_PKT_HDR_LEN + length p4)
      (n4, 0%Z, take (Z.to_nat n4) words, Z.to_nat n4)) as (fuel' & Hf' & ->).
  { destruct (decide (n4 = 0%Z)) as [->|Hn].
    - exists fuel. split; [lia|]. subst p4. cbn [wire_srcs length]. change (Z.to_nat 0) with 0.
      by rewrite take_0, Nat.add_0_r.
    - pose proof (packed_v4_item fuel cap b DPS_PKT_HDR_LEN n4 words
        ltac:(lia) Hr ltac:(lia) Hf4 ltac:(lia) ltac:(unfold fits; fold p4; lia) M4) as S4.
      fold p4 in S4. exists (fuel - 1). split; [lia|].
      assert (4 <= length p4) by (subst p4; rewrite wire_srcs_v4 by lia;
                                  unfold wire_ipv4_list; rewrite length_wire_tlv; lia).
      loop_step S4. done. }
  rewrite <- (take_take_drop words (Z.to_nat n4)).
  destruct (decide (n6 = 0%Z)) as [->|Hn].
  - exists (DPS_PKT_HDR_LEN + length p4). assert (length p6 = 0) by done.
    rewrite while_end by lia.
    change (4 * Z.to_nat 0) with 0. by rewrite take_0, app_nil_r.
  - pose proof (packed_v6_item fuel cap b _ n4 n6 (take (Z.to_nat n4) words) (Z.to_nat n4)
      (drop (Z.to_nat n4) words) ltac:(lia) (Forall_drop _ _ _ Hr)
      ltac:(rewrite length_drop; lia) Hf6 ltac:(rewrite length_take; lia)
      ltac:(rewrite length_take; lia) ltac:(unfold fits; fold p6; lia) M6) as S6.
    fold p6 in S6.
    assert (4 <= length p6) by (subst p6; rewrite wire_srcs_v6 by lia;
                                unfold wire_ipv6_list; rewrite length_wire_tlv; lia).
    loop_step S6. rewrite while_end by lia. by eexists.
Qed.

(** ** Multicast *)

(** Two addresses of a group the wire does not tell apart. *)
#[export] Instance mcast_addr_equiv : Equiv dps_mcast_addr_t := fun c c' =>
  ma_mcast_addr_type c = ma_mcast_addr_type c' /\ ma_mcast_mac c = ma_mcast_mac c' /\
  (if (ma_mcast_addr_type c =? MCAST_ADDR_V6)%Z then ma_ip c = ma_ip c'
   else ma_mcast_ip4 c = ma_mcast_ip4 c').
Definition mcast_addr_ok (c : dps_mcast_addr_t) : Prop :=
  wf_mcast_addr c /\
  ma_mcast_addr_type c ∈ [MCAST_ADDR_MAC; MCAST_ADDR_V4; MCAST_ADDR_V6; MCAST_ADDR_V4_ICB_RANGE].
#[export] Instance mcast_addr_ok_dec c : Decision (mcast_addr_ok c).
Proof. unfold mcast_addr_ok, wf_mcast_addr. apply _. Defined.

Lemma length_wire_mcast_addr_pos c : 4 <= length (wire_mcast_addr c).
Proof. unfold wire_mcast_addr. rewrite length_wire_tlv. lia. Qed.

Lemma dps_get_mcast_addr_tlv_wire b off c c0 :
  mcast_addr_ok c -> matches b off (wire_mcast_addr c) ->
  exists c', dps_get_mcast_addr_tlv b off c0 = Done (c', length (wire_mcast_addr c)) /\ c' ≡ c.
Proof.
  intros [[[Hm _] Hi] Hty] H. unfold wire_mcast_addr in *. rewrite length_wire_tlv.
  destruct (tlv_type _ _ _ _ _ H) as (h & Eh & Th). apply matches_tlv_body in H.
  apply matches_app in H as [H1 H2]. unfold dps_get_mcast_addr_tlv, DPS_TLV_HDR_LEN.
  rewrite Eh. cbn [obind]. rewrite (dps_get_vmac_tlv_wire _ _ _ H1 Hm). cbn [obind].
  apply (matches_at _ _ (off + (4 + length (wire_vmac (ma_mcast_mac c))))) in H2; [|lia].
  rewrite length_app. unfold equiv, mcast_addr_equiv.
  destruct (ma_mcast_addr_type c =? MCAST_ADDR_V6)%Z eqn:E6.
  - rewrite (load8_wire_tlv _ _ _ _ _ H2). cbn [obind]. change (u8 6 =? 4)%Z with false. cbn iota.
    rewrite (dps_get_ip6_tlv_wire _ _ _ H2 (proj1 Hi)). cbn [obind].
    eexists. split; [do 2 f_equal; lia|]. by apply Z.eqb_eq in E6.
  - rewrite (load8_wire_tlv _ _ _ _ _ H2). cbn [obind]. change (u8 4 =? 4)%Z with true. cbn iota.
    rewrite (dps_get_ip4_tlv_wire _ _ _ _ H2). cbn [obind].
    rewrite Th.
    assert ((if (u8 (mcast_tlv_type (ma_mcast_addr_type c)) =? MCAST_ADDR_MAC_TLV)%Z then MCAST_ADDR_MAC
             else if (u8 (mcast_tlv_type (ma_mcast_addr_type c)) =? MCAST_ADDR_V4_TLV)%Z
             then MCAST_ADDR_V4 else MCAST_ADDR_V4_ICB_RANGE) = ma_mcast_addr_type c) as ->.
    { revert Hty E6. rewrite !elem_of_cons. intros [->|[->|[->|[->|[]%elem_of_nil]]]]; done. }
    eexists. split; [do 2 f_equal; lia|]. cbn [ma_mcast_addr_type ma_mcast_mac]. rewrite E6.
    split; [done|]. split; [done|]. unfold ma_mcast_ip4. cbn [ma_ip]. rewrite get_set_ip4, u32_u32.
    by apply u32_small, get_ip4_in.
Qed.

(** *** Senders *)
Definition mcast_sender_from (sender : ip_addr_t) (x x' : dps_mcast_sender_t) : Prop :=
  ms_tunnel_endpoint x' ≡ ms_tunnel_endpoint x /\ ms_mcast_src_vm x' ≡ ms_mcast_src_vm x /\
  ms_mcast_addr x' ≡ ms_mcast_addr x /\
  ms_dps_client_addr x' ≡ given (ms_dps_client_addr x) sender.
(** The receiver of a registration does not know the type of an ICB range. *)
Definition mcast_sender_ok (x : dps_mcast_sender_t) : Prop :=
  wf_addr (ms_tunnel_endpoint x) /\ known_ip (ms_tunnel_endpoint x) /\
  wf_endpoint_info (ms_mcast_src_vm x) /\ mcast_addr_ok (ms_mcast_addr x) /\
  ma_mcast_addr_type (ms_mcast_addr x) <> MCAST_ADDR_V4_ICB_RANGE /\
  wf_addr (ms_dps_client_addr x).

#[export] Instance mcast_sender_ok_dec x : Decision (mcast_sender_ok x).
Proof. unfold mcast_sender_ok, known_ip, wf_endpoint_info. apply _. Defined.

Lemma mcast_tlv_of ty :
  ty ∈ [MCAST_ADDR_MAC; MCAST_ADDR_V4; MCAST_ADDR_V6; MCAST_ADDR_V4_ICB_RANGE] ->
  ty <> MCAST_ADDR_V4_ICB_RANGE ->
  (u8 (mcast_tlv_type ty) =? IP_ADDR_TLV)%Z = false /\
  (u8 (mcast_tlv_type ty) =? ENDPOINT_INFO_TLV)%Z = false /\
  is_mcast_addr (u8 (mcast_tlv_type ty)) = true.
Proof. rewrite !elem_of_cons. by intros [->|[->|[->|[->|[]%elem_of_nil]]]] ?. Qed.

Lemma mcast_sender_loop b fuel x a0 end_ :
  mcast_sender_ok x -> 4 < fuel -> matches b DPS_PKT_HDR_LEN (wire_mcast_sender x) ->
  end_ = Z.of_nat (DPS_PKT_HDR_LEN + length (wire_mcast_sender x)) ->
  exists x' cur, mcast_sender_from a0 x x' /\
    while fuel end_ (mcast_sender_item b) DPS_PKT_HDR_LEN
      (mk_mcast_sender zero_ip_addr zero_endpoint_info zero_mcast_addr a0) = Done (Go, cur, x').
Proof.
  intros (Ht & Hk & He & Hm & Hicb & Hc) Hf H ->. unfold wire_mcast_sender in *.
  rewrite !matches_app in H. destruct H as (H1 & H2 & H3 & H4). rewrite !length_app.
  pose proof (length_wire_ip_pos _ Hk). pose proof (length_wire_endpoint_info_pos (ms_mcast_src_vm x)).
  pose proof (length_wire_mcast_addr_pos (ms_mcast_addr x)).
  destruct (dps_get_ip_tlv_wire _ _ _ zero_ip_addr H1 Ht Hk) as (t & Et & Eqt).
  destruct (dps_get_endpoint_info_tlv_wire b _ _ zero_endpoint_info He H2) as (e & Ee & Eqe).
  destruct (dps_get_mcast_addr_tlv_wire b _ _ zero_mcast_addr Hm H3) as (m & Em & Eqm).
  set (n1 := length (wire_ip _)) in *. set (n2 := length (wire_endpoint_info _)) in *.
  set (n3 := length (wire_mcast_addr _)) in *.
  assert (mcast_sender_item b DPS_PKT_HDR_LEN
      (mk_mcast_sender zero_ip_addr zero_endpoint_info zero_mcast_addr a0) =
    Done (Go, DPS_PKT_HDR_LEN + n1, mk_mcast_sender t zero_endpoint_info zero_mcast_addr a0)) as S1.
  { unfold mcast_sender_item. item_of (tlv_type_ip _ _ _ H1 Hk). cbn [ms_tunnel_endpoint]. by rewrite Et. }
  assert (mcast_sender_item b (DPS_PKT_HDR_LEN + n1)
      (mk_mcast_sender t zero_endpoint_info zero_mcast_addr a0) =
    Done (Go, DPS_PKT_HDR_LEN + n1 + n2, mk_mcast_sender t e zero_mcast_addr a0)) as S2.
  { unfold mcast_sender_item. item_of (tlv_type _ _ _ _ _ H2). cbn [ms_mcast_src_vm]. by rewrite Ee. }
  assert (mcast_sender_item b (DPS_PKT_HDR_LEN + n1 + n2) (mk_mcast_sender t e zero_mcast_addr a0) =
    Done (Go, DPS_PKT_HDR_LEN + n1 + n2 + n3, mk_mcast_sender t e m a0)) as S3.
  { unfold mcast_sender_item. destruct (tlv_type _ _ _ _ _ H3) as (h & -> & Th). cbn [obind].
    rewrite Th. destruct (mcast_tlv_of (ma_mcast_addr_type (ms_mcast_addr x)) ltac:(apply Hm) Hicb)
      as (-> & -> & ->). cbn [ms_mcast_addr]. by rewrite Em. }
  loop_step S1. loop_step S2. loop_step S3.
  destruct (client_tail (mcast_sender_item b) ms_dps_client_addr
    (fun a s => mk_mcast_sender (ms_tunnel_endpoint s) (ms_mcast_src_vm s) (ms_mcast_addr s) a)
    b (ms_dps_client_addr x) (fuel - 1 - 1 - 1) _ _ (mk_mcast_sender t e m a0)
    ltac:(by intros []) ltac:(client_item mcast_sender_item) Hc H4 ltac:(lia) eq_refl)
    as (a' & Ea & Ew).
  do 2 eexists. split; [|etransitivity; [|exact Ew]; f_equal; lia].
  by split_and!.
Qed.

(** *** Group records and receivers *)

(** The sources of a group: addresses of one word, or of four. *)
Definition srcs (g : dps_mcast_group_record_t) : list Z :=
  take ((if (mg_family g =? AF_INET6)%Z then 4 else 1) * Z.to_nat (mg_num_of_srcs g)) (mg_src_addr g).
#[export] Instance group_equiv : Equiv dps_mcast_group_record_t := fun g g' =>
  mg_mcast_addr g ≡ mg_mcast_addr g' /\ mg_num_of_srcs g = mg_num_of_srcs g' /\
  (mg_num_of_srcs g = 0%Z \/ mg_family g = mg_family g' /\ srcs g = srcs g').
Definition group_ok (cap fuel : nat) (g : dps_mcast_group_record_t) : Prop :=
  mcast_addr_ok (mg_mcast_addr g) /\
  wf_srcs (mg_family g) (mg_num_of_srcs g) (mg_src_addr g) /\
  (mg_num_of_srcs g = 0%Z \/ mg_family g = AF_INET \/ mg_family g = AF_INET6) /\
  length (srcs g) <= cap /\ Z.to_nat (mg_num_of_srcs g) < fuel /\ 2 < fuel /\
  fits (wire_mcast_grp_rec g).

#[export] Instance group_ok_dec cap fuel g : Decision (group_ok cap fuel g).
Proof. unfold group_ok, wf_srcs, fits. apply _. Defined.

Lemma group_srcs_item fuel b off cap m n0 f0 g :
  wf_srcs (mg_family g) (mg_num_of_srcs g) (mg_src_addr g) -> (0 < mg_num_of_srcs g)%Z ->
  mg_family g = AF_INET \/ mg_family g = AF_INET6 -> length (srcs g) <= cap ->
  Z.to_nat (mg_num_of_srcs g) < fuel ->
  fits (wire_srcs (mg_family g) (mg_num_of_srcs g) (mg_src_addr g)) ->
  matches b off (wire_srcs (mg_family g) (mg_num_of_srcs g) (mg_src_addr g)) ->
  get_mcast_grp_rec_item fuel b cap off (mk_mcast_group_record m n0 f0 []) =
  Done (Go, off + length (wire_srcs (mg_family g) (mg_num_of_srcs g) (mg_src_addr g)),
        mk_mcast_group_record m (mg_num_of_srcs g) (mg_family g) (srcs g)).
Proof.
  unfold srcs. destruct g as [? n fam ws]. cbn [mg_num_of_srcs mg_family mg_src_addr].
  intros (Hr & _ & Hl) Hn Hfam Hcap Hf Hfit Hm. unfold get_mcast_grp_rec_item.
  destruct Hfam as [-> | ->].
  - rewrite wire_srcs_v4 in * by done. cbn [Z.eqb] in Hl, Hcap.
    change (AF_INET =? AF_INET6)%Z with false in *. cbn iota in *. rewrite Nat.mul_1_l in *.
    rewrite (dps_get_tlv_hdr_tlv _ _ _ _ _ Hm Hfit). cbn [obind th_type th_len].
    repeat match goal with |- context [(u8 IPV4_ADDR_LIST_TLV =? ?y)%Z] =>
      let v := eval vm_compute in (u8 IPV4_ADDR_LIST_TLV =? y)%Z in
      change (u8 IPV4_ADDR_LIST_TLV =? y)%Z with v end. cbn [orb mg_src_addr].
    assert (length (counted n ws) = Z.to_nat n) as Ec by (unfold counted; rewrite length_take; lia).
    rewrite (dps_get_ipv4_list_tlv_wire _ _ _ _ _ _ _ Hm Hfit) by
      (first [by apply Forall_take | rewrite ?length_take in Hcap; simpl; lia]). cbn [obind].
    assert (length (concat (w32 <$> counted n ws)) = Z.to_nat n * 4) as ->
      by (rewrite (length_concat_fmap _ 4) by (by intros); by rewrite Ec).
    replace (Z.of_nat (Z.to_nat n * 4) / 4)%Z with n
      by (rewrite Nat2Z.inj_mul, Z2Nat.id, Z.div_mul; lia).
    unfold puts, counted. simpl. by rewrite drop_nil, app_nil_r.
  - rewrite wire_srcs_v6 in * by done.
    change (AF_INET6 =? AF_INET6)%Z with true in *. cbn iota in *.
    rewrite (dps_get_tlv_hdr_tlv _ _ _ _ _ Hm Hfit). cbn [obind th_type th_len].
    repeat match goal with |- context [(u8 IPV6_ADDR_LIST_TLV =? ?y)%Z] =>
      let v := eval vm_compute in (u8 IPV6_ADDR_LIST_TLV =? y)%Z in
      change (u8 IPV6_ADDR_LIST_TLV =? y)%Z with v end. cbn [orb mg_src_addr].
    assert (length (take (4 * Z.to_nat n) ws) = Z.to_nat n * 4) as Ec by (rewrite length_take; lia).
    rewrite (dps_get_ipv6_list_tlv_wire _ _ _ _ _ _ _ (Z.to_nat n) Hm Hfit) by
      (first [by apply Forall_take | lia | simpl length; lia]). cbn [obind].
    rewrite length_lit, length_as_bytes, Ec.
    replace (Z.of_nat (Z.to_nat n * 4 * 4) / 16)%Z with n
      by (replace (Z.of_nat (Z.to_nat n * 4 * 4)) with (n * 16)%Z by lia; by rewrite Z.div_mul).
    unfold puts. cbn [take app drop]. by rewrite drop_nil, app_nil_r.
Qed.

Lemma dps_get_mcast_grp_rec_tlv_wire fuel b off cap g :
  group_ok cap fuel g -> matches b off (wire_mcast_grp_rec g) ->
  exists g', dps_get_mcast_grp_rec_tlv fuel b off cap (mk_mcast_group_record zero_mcast_addr 0 0 []) =
    Done (g', length (wire_mcast_grp_rec g)) /\ g' ≡ g.
Proof.
  intros (Hm & Hs & Hfam & Hcap & Hn & Hf & Hfit) H. unfold wire_mcast_grp_rec in *.
  unfold dps_get_mcast_grp_rec_tlv. rewrite (dps_get_tlv_hdr_tlv _ _ _ _ _ H Hfit). cbn [obind th_len].
  apply matches_tlv_body, matches_app in H as [H1 H2]. unfold DPS_TLV_HDR_LEN.
  unfold fits in Hfit. rewrite length_wire_tlv, length_app in *.
  pose proof (length_wire_mcast_addr_pos (mg_mcast_addr g)).
  destruct (dps_get_mcast_addr_tlv_wire b _ _ zero_mcast_addr Hm H1) as (m & Em & Eqm).
  set (n1 := length (wire_mcast_addr _)) in *. set (p := wire_srcs _ _ _) in *.
  assert (get_mcast_grp_rec_item fuel b cap (off + 4) (mk_mcast_group_record zero_mcast_addr 0 0 []) =
    Done (Go, off + 4 + n1, mk_mcast_group_record m 0 0 [])) as S1.
  { unfold get_mcast_grp_rec_item. destruct (tlv_type _ _ _ _ _ H1) as (h & -> & Th). cbn [obind].
    rewrite Th. assert (forall ty, ty ∈ [MCAST_ADDR_MAC; MCAST_ADDR_V4; MCAST_ADDR_V6; MCAST_ADDR_V4_ICB_RANGE] ->
      ((u8 (mcast_tlv_type ty) =? MCAST_ADDR_MAC_TLV) || (u8 (mcast_tlv_type ty) =? MCAST_ADDR_V4_TLV)
       || (u8 (mcast_tlv_type ty) =? MCAST_ADDR_V6_TLV)
       || (u8 (mcast_tlv_type ty) =? MCAST_ADDR_V4_ICB_RANGE_TLV))%Z = true) as ->
      by (intros ty; rewrite !elem_of_cons; by intros [->|[->|[->|[->|[]%elem_of_nil]]]]); [|apply Hm].
    cbn [mg_mcast_addr]. by rewrite Em. }
  rewrite !Nat2Z.inj_add. loop_step S1.
  destruct (decide (mg_num_of_srcs g = 0%Z)) as [E0|E0].
  - assert (p = []) as Ep by (subst p; unfold wire_srcs; by rewrite E0). rewrite Ep. cbn [length].
    rewrite while_end by lia. cbn [obind]. eexists. split; [do 2 f_equal; lia|].
    split; [done|]. split; [done|]. by left.
  - assert (0 < mg_num_of_srcs g)%Z as Hpos by (destruct Hs as (_ & ? & _); lia).
    destruct Hfam as [?|Hfam]; [done|].
    pose proof (group_srcs_item fuel b (off + 4 + n1) cap m 0 0 g Hs Hpos Hfam Hcap Hn
      ltac:(unfold fits; fold p; lia) H2) as S2. fold p in S2.
    assert (4 <= length p).
    { subst p. destruct Hfam as [-> | ->]; [rewrite wire_srcs_v4 by done; unfold wire_ipv4_list
        |rewrite wire_srcs_v6 by done; unfold wire_ipv6_list]; rewrite length_wire_tlv; lia. }
    loop_step S2. rewrite while_end by lia. cbn [obind]. eexists. split; [do 2 f_equal; lia|].
    split; [done|]. split; [done|]. right. split; [done|]. unfold srcs. cbn [mg_family mg_num_of_srcs mg_src_addr].
    rewrite take_take. f_equal. lia.
Qed.

Definition mcast_receiver_from (sender : ip_addr_t) (x x' : dps_mcast_receiver_t) : Prop :=
  mr_tunnel_endpoint x' ≡ mr_tunnel_endpoint x /\ mr_mcast_group_rec x' ≡ mr_mcast_group_rec x /\
  mr_dps_client_addr x' ≡ given (mr_dps_client_addr x) sender.
Definition mcast_receiver_ok (fuel : nat) (x : dps_mcast_receiver_t) : Prop :=
  wf_addr (mr_tunnel_endpoint x) /\ known_ip (mr_tunnel_endpoint x) /\
  group_ok room_mcast_receiver fuel (mr_mcast_group_rec x) /\ wf_addr (mr_dps_client_addr x).

#[export] Instance mcast_receiver_ok_dec fuel x : Decision (mcast_receiver_ok fuel x).
Proof. unfold mcast_receiver_ok, known_ip. apply _. Defined.
Lemma mcast_receiver_loop b fuel x a0 end_ :
  mcast_receiver_ok fuel x -> 3 < fuel -> matches b DPS_PKT_HDR_LEN (wire_mcast_receiver x) ->
  end_ = Z.of_nat (DPS_PKT_HDR_LEN + length (wire_mcast_receiver x)) ->
  exists x' cur, mcast_receiver_from a0 x x' /\
    while fuel end_ (mcast_receiver_item fuel b) DPS_PKT_HDR_LEN
      (mk_mcast_receiver zero_ip_addr a0 (mk_mcast_group_record zero_mcast_addr 0 0 []))
    = Done (Go, cur, x').
Proof.
  intros (Ht & Hk & Hg & Hc) Hf H ->. unfold wire_mcast_receiver in *.
  rewrite !matches_app in H. destruct H as (H1 & H2 & H3). rewrite !length_app.
  pose proof (length_wire_ip_pos _ Hk).
  assert (4 <= length (wire_mcast_grp_rec (mr_mcast_group_rec x)))
    by (unfold wire_mcast_grp_rec; rewrite length_wire_tlv; lia).
  destruct (dps_get_ip_tlv_wire _ _ _ zero_ip_addr H1 Ht Hk) as (t & Et & Eqt).
  destruct (dps_get_mcast_grp_rec_tlv_wire fuel b _ _ _ Hg H2) as (g & Eg & Eqg).
  pose proof (tlv_type _ _ _ _ _ H2 : exists h, _) as Hgt.
  set (n1 := length (wire_ip _)) in *. set (n2 := length (wire_mcast_grp_rec _)) in *.
  assert (mcast_receiver_item fuel b DPS_PKT_HDR_LEN
      (mk_mcast_receiver zero_ip_addr a0 (mk_mcast_group_record zero_mcast_addr 0 0 [])) =
    Done (Go, DPS_PKT_HDR_LEN + n1,
      mk_mcast_receiver t a0 (mk_mcast_group_record zero_mcast_addr 0 0 []))) as S1.
  { unfold mcast_receiver_item. item_of (tlv_type_ip _ _ _ H1 Hk). cbn [mr_tunnel_endpoint]. by rewrite Et. }
  assert (mcast_receiver_item fuel b (DPS_PKT_HDR_LEN + n1)
      (mk_mcast_receiver t a0 (mk_mcast_group_record zero_mcast_addr 0 0 [])) =
    Done (Go, DPS_PKT_HDR_LEN + n1 + n2, mk_mcast_receiver t a0 g)) as S2.
  { unfold mcast_receiver_item. item_of Hgt. cbn [mr_mcast_group_rec]. by rewrite Eg. }
  loop_step S1. loop_step S2.
  destruct (client_tail (mcast_receiver_item fuel b) mr_dps_client_addr
    (fun a s => mk_mcast_receiver (mr_tunnel_endpoint s) a (mr_mcast_group_rec s))
    b (mr_dps_client_addr x) (fuel - 1 - 1) _ _ (mk_mcast_receiver t a0 g)
    ltac:(by intros []) ltac:(client_item mcast_receiver_item) Hc H3 ltac:(lia) eq_refl)
    as (a' & Ea & Ew).
  do 2 eexists. split; [|etransitivity; [|exact Ew]; f_equal; lia].
  by split_and!.
Qed.
