(* ===== verification/Receive.v ===== *)
(** * What a handler does with a message it has parsed

    [receive_msg] is the abstract behaviour of the receive side: take a zeroed
    message, stop the retransmission of the request a reply answers and recover
    its context, deliver the message, acknowledge it where the protocol asks for
    it, release the message. *)
From S2P Require Export Decode.

Section receive.
Context {W : Type} `{Env W}.

Definition receive_msg (stop report ack : bool) (h : dps_client_hdr_t)
    (body : dps_client_body) (st : pstate) : out (Z * pstate (W := W)) :=
  with_msg st (fun '(t, w) =>
    let '(ok, ctx, w) :=
      if stop && negb (ch_query_id h =? 0)%Z then timer_stop (ch_query_id h) w
    else (true, 0%Z, w) in
    let c := mk_client_data ctx h body in
    let* (t, w) := ack_if ack c (t, deliver c w) in
    Done (if report && negb ok then DPS_ERROR else DPS_SUCCESS,
      (t, dps_free_buff w))).

(** A request: delivered, without a timer and without an acknowledgement. *)
Definition receive_request := receive_msg false false false.

(** The reply address a message gets is the sender's. *)
Definition from (h : dps_client_hdr_t) (sender : ip_addr_t) : dps_client_hdr_t :=
  with_reply_addr h sender.

Context (fuel : nat) (recv : buf) (sender : ip_addr_t) (h : dps_client_hdr_t).

Lemma from_hdr : with_reply_addr (with_reply_addr h (ch_reply_addr zero_client_hdr)) sender
    = from h sender.
Proof. done. Qed.

(** Parse the header, the body by [lem], and run the rest. *)
Lemma with_msg_ext st (k k' : pstate -> out (Z * pstate)) :
  (forall t w, k (t, w) = k' (t, w)) -> with_msg (W := W) st k = with_msg st k'.
Proof.
  intros E. destruct st as [t w]. unfold with_msg.
  destruct (dps_alloc_buff w) as [[b|] w1]; [apply E | done].
Qed.

Lemma tlv_loop_eq {A} (p : pat) (body : nat -> A -> out (ctl * nat * A)) s r :
  while fuel (Z.of_nat (DPS_PKT_HDR_LEN + length p)) body DPS_PKT_HDR_LEN s = r ->
  tlv_loop fuel (Z.of_nat (length p)) body s = r.
Proof. intros <-. unfold tlv_loop. by rewrite Nat2Z.inj_add. Qed.

Lemma process_loc_req x st :
  pkt_at recv h (wire_loc_req x) -> loc_req_ok x -> 3 < fuel ->
  exists x', loc_req_from sender x x' /\
  dps_process_endpoint_loc_req fuel recv sender st =
    receive_request (from h sender) (Body_endpoint_loc_req x') st.
Proof.
  intros Hp Hok Hf.
  destruct (loc_req_loop recv fuel x sender _ Hok (pkt_at_body _ _ _ Hp) Hf eq_refl)
    as (x' & cur & Hx & E). exists x'. split; [done|].
  apply with_msg_ext. intros t w. rewrite (pkt_at_hdr _ _ _ _ Hp). cbn [obind].
  by rewrite (tlv_loop_eq _ _ _ _ E).
Qed.

Lemma process_addr_resolve x st :
  pkt_at recv h (wire_loc_req x) -> loc_req_ok x -> 3 < fuel ->
  exists x', loc_req_from sender x x' /\
  dps_process_addr_resolve fuel recv sender st =
    receive_msg false false true (from h sender) (Body_address_resolve x') st.
Proof.
  intros Hp Hok Hf.
  destruct (loc_req_loop recv fuel x sender _ Hok (pkt_at_body _ _ _ Hp) Hf eq_refl)
    as (x' & cur & Hx & E). exists x'. split; [done|].
  apply with_msg_ext. intros t w. rewrite (pkt_at_hdr _ _ _ _ Hp). cbn [obind].
  rewrite (tlv_loop_eq _ _ _ _ E). cbn [obind]. unfold deliver_msg, receive_msg, from.
  cbn. destruct (dps_client_create_general_ack _ _) as [[z [t' w']]| |]; done.
Qed.

Lemma process_update x st :
  pkt_at recv h (wire_endpoint_update x ++ wire_client (eu_dps_client_addr x)) ->
  update_ok fuel x ->
  exists x', update_from sender x x' /\
  dps_process_endpoint_update fuel recv sender st =
    receive_request (from h sender) (Body_endpoint_update x') st.
Proof.
  intros Hp Hok.
  destruct (update_loop recv fuel x sender _ Hok (pkt_at_body _ _ _ Hp) eq_refl)
    as (x' & cur & Hx & E). exists x'. split; [done|].
  unfold dps_process_endpoint_update. rewrite (pkt_at_hdr _ _ _ _ Hp). cbn [obind].
  apply with_msg_ext. intros t w. by rewrite (tlv_loop_eq _ _ _ _ E).
Qed.

Lemma process_policy_req x st :
  pkt_at recv h (wire_policy_req x) ->
  wf_endpoint_info (pq_dst_endpoint x) -> wf_endpoint_info (pq_src_endpoint x) ->
  wf_addr (pq_dps_client_addr x) -> 3 < fuel ->
  exists x', policy_req_from sender x x' /\
  dps_process_policy_req fuel recv sender st =
    receive_request (from h sender) (Body_policy_req x') st.
Proof.
  intros Hp Hd Hs Hc Hf.
  destruct (policy_req_loop recv fuel x sender _ Hd Hs Hc Hf (pkt_at_body _ _ _ Hp) eq_refl)
    as (x' & i & cur & Hx & E). exists x'. split; [done|].
  apply with_msg_ext. intros t w. rewrite (pkt_at_hdr _ _ _ _ Hp). cbn [obind].
  by rewrite (tlv_loop_eq _ _ _ _ E).
Qed.

Lemma process_gen_msg x st :
  pkt_at recv h (wire_client (gm_dps_client_addr x)) ->
  wf_addr (gm_dps_client_addr x) -> 1 < fuel -> ch_type h <> DPS_CTRL_PLANE_HB ->
  exists x', gm_dps_client_addr x' ≡ given (gm_dps_client_addr x) sender /\
  dps_process_gen_msg_req fuel recv sender st =
    receive_request (from h sender) (Body_gen_msg_req x') st.
Proof.
  intros Hp Hc Hf Hty.
  destruct (gen_msg_loop recv fuel x sender _ Hc Hf (pkt_at_body _ _ _ Hp) eq_refl)
    as (x' & cur & Hx & E). exists x'. split; [done|].
  apply with_msg_ext. intros t w. rewrite (pkt_at_hdr _ _ _ _ Hp). cbn [obind].
  rewrite (tlv_loop_eq _ _ _ _ E). cbn [obind with_reply_addr ch_type].
  rewrite (proj2 (Z.eqb_neq _ _) Hty). done.
Qed.

(** A heart beat is acknowledged and not delivered. *)
Lemma process_heart_beat x t w :
  pkt_at recv h (wire_client (gm_dps_client_addr x)) ->
  wf_addr (gm_dps_client_addr x) -> 1 < fuel -> ch_type h = DPS_CTRL_PLANE_HB ->
  exists x', gm_dps_client_addr x' ≡ given (gm_dps_client_addr x) sender /\
  dps_process_gen_msg_req fuel recv sender (t, w) =
    with_msg (t, w) (fun st =>
    let* (t, w) := ack_if true (mk_client_data 0 (from h sender) (Body_gen_msg_req x')) st in
    Done (DPS_SUCCESS, (t, dps_free_buff w))).
Proof.
  intros Hp Hc Hf Hty.
  destruct (gen_msg_loop recv fuel x sender _ Hc Hf (pkt_at_body _ _ _ Hp) eq_refl)
    as (x' & cur & Hx & E). exists x'. split; [done|].
  apply with_msg_ext. intros t' w'. rewrite (pkt_at_hdr _ _ _ _ Hp). cbn [obind].
  rewrite (tlv_loop_eq _ _ _ _ E). cbn [obind with_reply_addr ch_type].
  rewrite Hty. cbn. destruct (dps_client_create_general_ack _ _) as [[z [t1 w1]]| |]; done.
Qed.

Lemma process_vm_migration x st :
  pkt_at recv h (wire_vm_migration x) -> wf_endpoint_info (vm_migrated_vm_info x) ->
  (let r := vm_src_vm_loc x in
    loc_ok room_vm_migration fuel (elr_version r) (elr_vnid r) (elr_mac r)
      (elr_vm_ip_addr r) (elr_tunnel_info r)) ->
  exists x', x' ≡ x /\
  dps_process_vm_migration_event fuel recv sender st =
    receive_request (from h sender) (Body_vm_migration_event x') st.
Proof.
  intros Hp Hi Hl.
  destruct (vm_migration_loop recv fuel x _ Hi Hl (pkt_at_body _ _ _ Hp) eq_refl)
    as (x' & cur & Hx & E). exists x'. split; [done|].
  apply with_msg_ext. intros t w. rewrite (pkt_at_hdr _ _ _ _ Hp). cbn [obind].
  by rewrite (tlv_loop_eq _ _ _ _ E).
Qed.

Lemma process_tunnel_reg x st :
  pkt_at recv h (wire_tunnel_list (tunnels (tr_tunnel_info x))
      ++ wire_client (tr_dps_client_addr x)) ->
  tunnels_ok room_tunnel_reg fuel (tr_tunnel_info x) ->
  fits (wire_tunnel_list (tunnels (tr_tunnel_info x))) ->
  wf_addr (tr_dps_client_addr x) -> 2 < fuel ->
  exists x', tunnel_reg_from sender x x' /\
  dps_process_tunnel_reg_dereg fuel recv sender st =
    receive_request (from h sender) (Body_tunnel_reg_dereg x') st.
Proof.
  intros Hp Ht Hfit Hc Hf.
  destruct (tunnel_reg_loop recv fuel x sender _ Ht Hfit Hc Hf (pkt_at_body _ _ _ Hp) eq_refl)
    as (x' & cur & Hx & E). exists x'. split; [done|].
  unfold dps_process_tunnel_reg_dereg. rewrite (pkt_at_hdr _ _ _ _ Hp). cbn [obind].
  apply with_msg_ext. intros t w. by rewrite (tlv_loop_eq _ _ _ _ E).
Qed.

Lemma process_mcast_sender x st :
  pkt_at recv h (wire_mcast_sender x) -> mcast_sender_ok x -> 4 < fuel ->
  exists x', mcast_sender_from sender x x' /\
  dps_process_mcast_sender_reg_dereg fuel recv sender st =
    receive_request (from h sender) (Body_mcast_sender x') st.
Proof.
  intros Hp Hok Hf.
  destruct (mcast_sender_loop recv fuel x sender _ Hok Hf (pkt_at_body _ _ _ Hp) eq_refl)
    as (x' & cur & Hx & E). exists x'. split; [done|].
  apply with_msg_ext. intros t w. rewrite (pkt_at_hdr _ _ _ _ Hp). cbn [obind].
  by rewrite (tlv_loop_eq _ _ _ _ E).
Qed.

Lemma process_mcast_receiver x st :
  pkt_at recv h (wire_mcast_receiver x) -> mcast_receiver_ok fuel x -> 3 < fuel ->
  exists x', mcast_receiver_from sender x x' /\
  dps_process_mcast_receiver_join_leave fuel recv sender st =
    receive_request (from h sender) (Body_mcast_receiver x') st.
Proof.
  intros Hp Hok Hf.
  destruct (mcast_receiver_loop recv fuel x sender _ Hok Hf (pkt_at_body _ _ _ Hp) eq_refl)
    as (x' & cur & Hx & E). exists x'. split; [done|].
  unfold dps_process_mcast_receiver_join_leave. rewrite (pkt_at_hdr _ _ _ _ Hp). cbn [obind].
  apply with_msg_ext. intros t w. by rewrite (tlv_loop_eq _ _ _ _ E).
Qed.

(** *** Replies: the request they answer is looked up by its query id *)
Lemma stop_timer_if_spec b t w :
  stop_timer_if b (mk_client_data 0 (from h sender) Body_none) (t, w) =
    (let '(ok, ctx, w) :=
    if b && negb (ch_query_id h =? 0)%Z then timer_stop (ch_query_id h) w
    else (true, 0%Z, w) in
    (if ok then DPS_SUCCESS else DPS_ERROR,
      mk_client_data ctx (from h sender) Body_none, (t, w))).
Proof.
  unfold stop_timer_if, dps_stop_retransmit_timer. destruct b; [|done].
  cbn [cd_hdr from with_reply_addr ch_query_id andb].
  destruct (ch_query_id h =? 0)%Z; [done|]. cbn [negb].
  by destruct (timer_stop (ch_query_id h) w) as [[[] ctx] w'].
Qed.

(** The tail of every reply handler: deliver, acknowledge, release. *)
Lemma deliver_return ret ack c t w :
  (let* st := deliver_msg c (t, w) (ack_if ack c) in free_return ret st) =
    (let* (t, w) := ack_if ack c (t, deliver c w) in
    Done (ret, (t, dps_free_buff (W := W) w))).
Proof. unfold deliver_msg. cbn. by destruct (ack_if _ _ _) as [[]| |]. Qed.

Lemma process_loc_reply x st :
  pkt_at recv h (wire_endpoint_loc_reply x) -> ch_type h = DPS_ENDPOINT_LOC_REPLY ->
  loc_ok room_endpoint_loc_reply fuel (elr_version x) (elr_vnid x) (elr_mac x)
    (elr_vm_ip_addr x) (elr_tunnel_info x) ->
  exists x', x' ≡ x /\
  dps_process_endpoint_loc_reply fuel recv sender st =
    receive_msg true true false (from h sender) (Body_endpoint_loc_reply x') st.
Proof.
  intros Hp Hty Hl.
  destruct (loc_reply_loop recv fuel x _ Hl (pkt_at_body _ _ _ Hp) eq_refl)
    as (x' & cur & Hx & E). exists x'. split; [done|].
  unfold dps_process_endpoint_loc_reply. rewrite (pkt_at_hdr _ _ _ _ Hp). cbn [obind].
  apply with_msg_ext. intros t w. rewrite from_hdr. cbn [ch_type from with_reply_addr].
  rewrite Hty, Z.eqb_refl, stop_timer_if_spec. cbn [ch_query_id from with_reply_addr].
  destruct (if true && _ then _ else _) as [[ok ctx] w'].
  rewrite (tlv_loop_eq _ _ _ _ E). cbn [obind cd_context].
  change (DPS_ENDPOINT_LOC_REPLY =? DPS_UNSOLICITED_ENDPOINT_LOC_REPLY)%Z with false.
  cbn iota. rewrite deliver_return. by destruct ok.
Qed.

(** An unsolicited reply changes type before it is delivered and
    acknowledged. *)
Lemma process_unsolicited_loc_reply x st :
  pkt_at recv h (wire_endpoint_loc_reply x) ->
  ch_type h = DPS_UNSOLICITED_ENDPOINT_LOC_REPLY ->
  loc_ok room_endpoint_loc_reply fuel (elr_version x) (elr_vnid x) (elr_mac x)
    (elr_vm_ip_addr x) (elr_tunnel_info x) ->
  exists x', x' ≡ x /\
  dps_process_endpoint_loc_reply fuel recv sender st =
    receive_msg false false true (with_type (from h sender) DPS_ENDPOINT_LOC_REPLY)
    (Body_endpoint_loc_reply x') st.
Proof.
  intros Hp Hty Hl.
  destruct (loc_reply_loop recv fuel x _ Hl (pkt_at_body _ _ _ Hp) eq_refl)
    as (x' & cur & Hx & E). exists x'. split; [done|].
  unfold dps_process_endpoint_loc_reply. rewrite (pkt_at_hdr _ _ _ _ Hp). cbn [obind].
  apply with_msg_ext. intros t w. rewrite from_hdr. cbn [ch_type from with_reply_addr].
  rewrite Hty, Z.eqb_refl, stop_timer_if_spec.
  change (DPS_UNSOLICITED_ENDPOINT_LOC_REPLY =? DPS_ENDPOINT_LOC_REPLY)%Z with false.
  cbn [andb]. rewrite (tlv_loop_eq _ _ _ _ E). cbn [obind cd_context].
  by rewrite deliver_return.
Qed.

Lemma process_packed_spec cap sol unsol body n4 n6 words st :
  pkt_at recv h (wire_packed n4 n6 words) -> packed_ok cap fuel n4 n6 words ->
  process_packed fuel cap sol unsol body recv sender st =
    receive_msg (ch_type h =? sol)%Z false (ch_type h =? unsol)%Z (from h sender)
    (body n4 n6 (take (Z.to_nat n4 + 4 * Z.to_nat n6) words)) st.
Proof.
  intros Hp Hok.
  destruct (packed_loop recv fuel cap n4 n6 words _ Hok (pkt_at_body _ _ _ Hp) eq_refl)
    as (cur & E).
  unfold process_packed. rewrite (pkt_at_hdr _ _ _ _ Hp). cbn [obind].
  apply with_msg_ext. intros t w. rewrite from_hdr. cbn [ch_type from with_reply_addr].
  rewrite stop_timer_if_spec. cbn [ch_query_id from with_reply_addr].
  destruct (if _ && _ then _ else _) as [[ok ctx] w'].
  rewrite (tlv_loop_eq _ _ _ _ E). cbn [obind cd_context]. by rewrite deliver_return.
Qed.

Definition gw_solicited (ty : Z) : bool :=
  existsb (Z.eqb ty) [DPS_EXTERNAL_GW_LIST_REPLY; DPS_VLAN_GW_LIST_REPLY;
    DPS_MCAST_CTRL_GW_REPLY].
Definition gw_unsolicited (ty : Z) : bool :=
  existsb (Z.eqb ty) [DPS_UNSOLICITED_EXTERNAL_GW_LIST; DPS_UNSOLICITED_VLAN_GW_LIST].

Lemma process_gw_list x st :
  pkt_at recv h (wire_tunnel_list (tunnels x)) ->
  tunnels_ok room_gw_list fuel x -> fits (wire_tunnel_list (tunnels x)) -> 1 < fuel ->
  exists x', x' ≡ x /\
  dps_process_gw_list fuel recv sender st =
    receive_msg (gw_solicited (ch_type h)) false (gw_unsolicited (ch_type h))
    (from h sender) (Body_tunnel_info x') st.
Proof.
  intros Hp Ht Hfit Hf.
  destruct (gw_list_loop recv fuel x _ Ht Hfit Hf (pkt_at_body _ _ _ Hp) eq_refl)
    as (x' & cur & Hx & E). exists x'. split; [done|].
  unfold dps_process_gw_list. rewrite (pkt_at_hdr _ _ _ _ Hp). cbn [obind].
  apply with_msg_ext. intros t w. rewrite from_hdr. cbn [ch_type from with_reply_addr].
  fold (gw_solicited (ch_type h)) (gw_unsolicited (ch_type h)).
  rewrite stop_timer_if_spec. cbn [ch_query_id from with_reply_addr].
  destruct (if _ && _ then _ else _) as [[ok ctx] w'].
  rewrite (tlv_loop_eq _ _ _ _ E). cbn [obind cd_context]. by rewrite deliver_return.
Qed.

Lemma process_general_ack st :
  pkt_at recv h [] ->
  dps_process_general_ack recv sender st =
    receive_msg true true false (from h sender) Body_none st.
Proof.
  intros Hp. apply with_msg_ext. intros t w. rewrite (pkt_at_hdr _ _ _ _ Hp). cbn [obind].
  unfold stop_timer_if, dps_stop_retransmit_timer, receive_msg, from.
  cbn [cd_hdr with_reply_addr ch_query_id andb].
  destruct (ch_query_id h =? 0)%Z; [done|]. cbn [negb].
  by destruct (timer_stop (ch_query_id h) w) as [[[] ctx] w'].
Qed.
End receive.
