(* ===== verification/Terminate.v ===== *)
(** * Termination of the parsing loops

    Every pass of a loop that leaves on an unknown TLV reads the buffer at the
    cursor and moves the cursor forward, so more passes than the packet has
    bytes are never made: with that fuel no parsing function times out. *)
From S2P Require Export Receive.

(** ** Computations that do not time out *)
Lemma obind_nt {A B} (m : out A) (k : A -> out B) :
  m <> Timeout -> (forall a, m = Done a -> k a <> Timeout) -> obind m k <> Timeout.
Proof. destruct m; simpl; auto. Qed.

Lemma load8_nt b off : load8 b off <> Timeout.
Proof. apply of_option_not_timeout. Qed.
Lemma arr_read_nt {A} (l : list A) i : arr_read l i <> Timeout.
Proof. apply of_option_not_timeout. Qed.
Lemma arr_write_nt {A} cap (l : list A) i x : arr_write cap l i x <> Timeout.
Proof. unfold arr_write. repeat case_decide; discriminate. Qed.
Lemma loadn_nt b off n : loadn b off n <> Timeout.
Proof. unfold loadn. case_decide; discriminate. Qed.

Create HintDb nt.
#[export] Hint Resolve load8_nt arr_read_nt arr_write_nt loadn_nt : nt.

(** Work through a computation: the steps are in the database. *)
Ltac nt :=
  repeat first
    [ progress intros
    | discriminate
    | solve [eauto with nt]
    | apply obind_nt
    | match goal with
      | |- (if ?c then _ else _) <> Timeout => destruct c
      | |- match ?p with _ => _ end <> Timeout => destruct p
      end ].

Lemma load16_nt b off : load16 b off <> Timeout.
Proof. unfold load16. nt. Qed.
Lemma load32_nt b off : load32 b off <> Timeout.
Proof. unfold load32. nt. Qed.
#[export] Hint Resolve load16_nt load32_nt : nt.

Lemma write_words16_nt cap words j bs : write_words16 cap words j bs <> Timeout.
Proof. unfold write_words16. do 17 (destruct bs as [|? bs]; try discriminate). nt. Qed.
Lemma dps_get_tlv_hdr_nt b off : dps_get_tlv_hdr b off <> Timeout.
Proof. unfold dps_get_tlv_hdr. nt. Qed.
Lemma dps_get_pkt_hdr_nt b off h : dps_get_pkt_hdr b off h <> Timeout.
Proof. unfold dps_get_pkt_hdr. nt. Qed.
#[export] Hint Resolve write_words16_nt dps_get_tlv_hdr_nt dps_get_pkt_hdr_nt : nt.

Lemma dps_get_vmac_tlv_nt b off : dps_get_vmac_tlv b off <> Timeout.
Proof. unfold dps_get_vmac_tlv. nt. Qed.
Lemma dps_get_euid_tlv_nt b off : dps_get_euid_tlv b off <> Timeout.
Proof. unfold dps_get_euid_tlv. nt. Qed.
Lemma dps_get_policy_id_tlv_nt b off c : dps_get_policy_id_tlv b off c <> Timeout.
Proof. unfold dps_get_policy_id_tlv. nt. Qed.
Lemma dps_get_ip_tlv_nt b off a : dps_get_ip_tlv b off a <> Timeout.
Proof. unfold dps_get_ip_tlv, dps_get_ip4_tlv, dps_get_ip6_tlv. nt. Qed.
Lemma dps_get_svcloc_tlv_nt b off a : dps_get_svcloc_tlv b off a <> Timeout.
Proof. unfold dps_get_svcloc_tlv. nt. Qed.
Lemma dps_get_mcast_addr_tlv_nt b off c : dps_get_mcast_addr_tlv b off c <> Timeout.
Proof.
  unfold dps_get_mcast_addr_tlv, dps_get_vmac_tlv, dps_get_ip4_tlv, dps_get_ip6_tlv. nt.
Qed.
#[export] Hint Resolve dps_get_vmac_tlv_nt dps_get_euid_tlv_nt dps_get_policy_id_tlv_nt
  dps_get_ip_tlv_nt dps_get_svcloc_tlv_nt dps_get_mcast_addr_tlv_nt : nt.
Lemma dps_get_endpoint_info_tlv_nt b off c : dps_get_endpoint_info_tlv b off c <> Timeout.
Proof. unfold dps_get_endpoint_info_tlv. nt. Qed.
Lemma get_tunnel_nt b cap cur s : get_tunnel b cap cur s <> Timeout.
Proof.
  unfold get_tunnel, dps_get_ipv4_tunnel_info, dps_get_ipv6_tunnel_info. destruct s. nt.
Qed.
#[export] Hint Resolve dps_get_endpoint_info_tlv_nt get_tunnel_nt : nt.

(** ** Loads that succeed are inside the buffer *)
Lemma load8_lt b off v : load8 b off = Done v -> off < length b.
Proof.
  unfold load8, arr_read. destruct (b !! off) eqn:E; [|discriminate].
  intros _. by eapply lookup_lt_Some.
Qed.
Lemma load16_lt b off v : load16 b off = Done v -> off < length b.
Proof. unfold load16. intros H. inv_done. by eapply load8_lt. Qed.
Lemma load32_lt b off v : load32 b off = Done v -> off < length b.
Proof. unfold load32. intros H. inv_done. by eapply load8_lt. Qed.
Lemma loadn_lt b off n v : loadn b off n = Done v -> 0 < n -> off < length b.
Proof. unfold loadn. case_decide; [lia | discriminate]. Qed.
Lemma dps_get_tlv_hdr_lt b off h : dps_get_tlv_hdr b off = Done h -> off < length b.
Proof. unfold dps_get_tlv_hdr. intros H. inv_done. by eapply load8_lt. Qed.

(** ** Loops *)

(** The cursor does not move backwards. *)
Lemma while_mono {A} (body : nat -> A -> out (ctl * nat * A)) fuel end_ off s c off' s' :
  (forall off s c off' s', (Z.of_nat off < end_)%Z -> body off s = Done (c, off', s') ->
     off <= off') ->
  while fuel end_ body off s = Done (c, off', s') -> off <= off'.
Proof.
  intros Hb. revert off s. induction fuel as [|fuel IH]; intros off s; simpl; [done|].
  destruct (Z.ltb_spec (Z.of_nat off) end_); [|intros [= <- <- <-]; lia].
  intros Hw. inv_done. pose proof (Hb _ _ _ _ _ ltac:(eassumption) E).
  destruct c0; [apply IH in Hw; lia | by injection Hw as <- <- <-].
Qed.

(** A body that reads at the cursor and moves it forward. *)
Definition steps {A} (n : nat) (body : nat -> A -> out (ctl * nat * A)) : Prop :=
  (forall off s, body off s <> Timeout) /\
  (forall off s off' s', body off s = Done (Go, off', s') -> off < n /\ off < off').

Lemma while_steps {A} (body : nat -> A -> out (ctl * nat * A)) n fuel end_ off s :
  steps n body -> n < fuel -> while fuel end_ body off s <> Timeout.
Proof. intros [Hn Ha] Hf. apply (while_terminates body n); [done | done | lia]. Qed.

(** The two halves of [steps] for a body that is a sequence of reads. *)
Ltac case_ifs H :=
  repeat match type of H with
  | (if ?c then _ else _) = _ => destruct c
  end.
Ltac lens := unfold DPS_TLV_HDR_LEN, DPS_IP4_ADDR_LEN, DPS_IP6_ADDR_LEN, DPS_VMAC_TLV_LEN,
  DPS_EUID_TLV_LEN, DPS_IP4_TLV_LEN, DPS_IP6_TLV_LEN, DPS_SVCLOC4_TLV_LEN,
  DPS_SVCLOC6_TLV_LEN, DPS_POLICY_ID_TLV_LEN, DPS_IP4_TUNNEL_INFO_LEN,
  DPS_IP6_TUNNEL_INFO_LEN, DPS_VNID_LEN, DPS_DATA_VER_LEN, DPS_MAC_ADDR_LEN in *.
(** Where the reads of a computation that succeeded were. *)
Ltac read_bounds :=
  repeat match goal with
  | H : dps_get_tlv_hdr _ _ = Done _ |- _ => apply dps_get_tlv_hdr_lt in H
  | H : load32 _ _ = Done _ |- _ => apply load32_lt in H
  | H : load16 _ _ = Done _ |- _ => apply load16_lt in H
  | H : load8 _ _ = Done _ |- _ => apply load8_lt in H
  | H : loadn _ _ ?n = Done _ |- _ => apply loadn_lt in H; [|lens; lia]
  end.

Section parse.
Context (fuel : nat) (b : buf).

Lemma ipv4_list_steps cap :
  steps (length b) (fun cur '(words, j) =>
    let* v := load32 b cur in
    let* words := arr_write cap words j v in
    Done (Go, cur + DPS_IP4_ADDR_LEN, (words, S j))).
Proof.
  split; intros off [words j]; [nt|]. intros off' s' H. inv_done. read_bounds. lens. lia.
Qed.
Lemma ipv6_list_steps cap :
  steps (length b) (fun cur '(words, j) =>
    let* bs := loadn b cur DPS_IP6_ADDR_LEN in
    let* words := write_words16 cap words j bs in
    Done (Go, cur + DPS_IP6_ADDR_LEN, (words, j + 4))).
Proof.
  split; intros off [words j]; [nt|]. intros off' s' H. inv_done. read_bounds. lens. lia.
Qed.
Lemma get_tunnel_steps cap : steps (length b) (get_tunnel b cap).
Proof.
  split; [apply get_tunnel_nt|]. intros off [l i] off' s' H. unfold get_tunnel in H.
  inv_done. case_ifs H; inv_done; read_bounds;
    unfold dps_get_ipv4_tunnel_info, dps_get_ipv6_tunnel_info in *; inv_done; lens;
    solve [lia | discriminate].
Qed.

Hypothesis (Hf : length b < fuel).

Lemma dps_get_ipv4_list_tlv_nt off cap l j :
  dps_get_ipv4_list_tlv fuel b off cap l j <> Timeout.
Proof.
  unfold dps_get_ipv4_list_tlv. apply obind_nt; [nt|]. intros hdr _.
  apply obind_nt; [|nt]. by eapply while_steps; [apply ipv4_list_steps|].
Qed.
Lemma dps_get_ipv6_list_tlv_nt off cap l j :
  dps_get_ipv6_list_tlv fuel b off cap l j <> Timeout.
Proof.
  unfold dps_get_ipv6_list_tlv. apply obind_nt; [nt|]. intros hdr _.
  apply obind_nt; [|nt]. by eapply while_steps; [apply ipv6_list_steps|].
Qed.
Lemma dps_get_tunnel_list_tlv_nt off cap l :
  dps_get_tunnel_list_tlv fuel b off cap l <> Timeout.
Proof.
  unfold dps_get_tunnel_list_tlv. apply obind_nt; [nt|]. intros hdr _.
  apply obind_nt; [|nt]. by eapply while_steps; [apply get_tunnel_steps|].
Qed.
End parse.

(** *** How far a parsing function moves the cursor *)
Lemma dps_get_ipv4_list_tlv_pos fuel b off cap l j l' n :
  dps_get_ipv4_list_tlv fuel b off cap l j = Done (l', n) -> 0 < n.
Proof.
  unfold dps_get_ipv4_list_tlv. intros H. inv_done. apply while_mono in E0; [lens; lia|].
  intros o s c' o' s' _ Hb. inv_done. lens. lia.
Qed.
Lemma dps_get_ipv6_list_tlv_pos fuel b off cap l j l' n :
  dps_get_ipv6_list_tlv fuel b off cap l j = Done (l', n) -> 0 < n.
Proof.
  unfold dps_get_ipv6_list_tlv. intros H. inv_done. apply while_mono in E0; [lens; lia|].
  intros o s c' o' s' _ Hb. inv_done. lens. lia.
Qed.
Lemma get_tunnel_mono b cap o s c o' s' : get_tunnel b cap o s = Done (c, o', s') -> o <= o'.
Proof.
  destruct s as [l i]. unfold get_tunnel. intros H. inv_done.
  case_ifs H; inv_done; unfold dps_get_ipv4_tunnel_info, dps_get_ipv6_tunnel_info in *;
    inv_done; lens; lia.
Qed.
Lemma dps_get_tunnel_list_tlv_pos fuel b off cap l tl n :
  dps_get_tunnel_list_tlv fuel b off cap l = Done (tl, n) -> 0 < n.
Proof.
  unfold dps_get_tunnel_list_tlv. intros H. inv_done. apply while_mono in E0.
  - destruct c; injection H as <- <-; lens; lia.
  - intros o s c' o' s' _. apply get_tunnel_mono.
Qed.

Lemma dps_get_vmac_tlv_pos b off m n : dps_get_vmac_tlv b off = Done (m, n) -> 0 < n.
Proof. unfold dps_get_vmac_tlv. intros H. inv_done. lens. lia. Qed.
Lemma dps_get_euid_tlv_pos b off v m n : dps_get_euid_tlv b off = Done (v, m, n) -> 0 < n.
Proof. unfold dps_get_euid_tlv. intros H. inv_done. lens. lia. Qed.
Lemma dps_get_ip_tlv_pos b off a a' n : dps_get_ip_tlv b off a = Done (a', n) -> 0 < n.
Proof.
  unfold dps_get_ip_tlv, dps_get_ip4_tlv, dps_get_ip6_tlv. intros H. inv_done.
  case_ifs H; inv_done; lens; lia.
Qed.
Lemma dps_get_svcloc_tlv_pos b off a a' n : dps_get_svcloc_tlv b off a = Done (a', n) -> 0 < n.
Proof.
  unfold dps_get_svcloc_tlv. intros H. inv_done. case_ifs H; inv_done; lens; lia.
Qed.
Lemma dps_get_endpoint_info_tlv_pos b off c c' n :
  dps_get_endpoint_info_tlv b off c = Done (c', n) -> 0 < n.
Proof. unfold dps_get_endpoint_info_tlv. intros H. inv_done. lens. lia. Qed.
Lemma dps_get_mcast_addr_tlv_pos b off c c' n :
  dps_get_mcast_addr_tlv b off c = Done (c', n) -> 0 < n.
Proof.
  unfold dps_get_mcast_addr_tlv. intros H. inv_done. case_ifs H; inv_done; lens; lia.
Qed.

(** Turn the successful reads of a loop body into facts about the cursor. *)
Ltac moves :=
  repeat match goal with
  | H : dps_get_vmac_tlv _ _ = Done _ |- _ => apply dps_get_vmac_tlv_pos in H
  | H : dps_get_euid_tlv _ _ = Done _ |- _ => apply dps_get_euid_tlv_pos in H
  | H : dps_get_ip_tlv _ _ _ = Done _ |- _ => apply dps_get_ip_tlv_pos in H
  | H : dps_get_svcloc_tlv _ _ _ = Done _ |- _ => apply dps_get_svcloc_tlv_pos in H
  | H : dps_get_endpoint_info_tlv _ _ _ = Done _ |- _ =>
      apply dps_get_endpoint_info_tlv_pos in H
  | H : dps_get_mcast_addr_tlv _ _ _ = Done _ |- _ => apply dps_get_mcast_addr_tlv_pos in H
  | H : dps_get_ipv4_list_tlv _ _ _ _ _ _ = Done _ |- _ =>
      apply dps_get_ipv4_list_tlv_pos in H
  | H : dps_get_ipv6_list_tlv _ _ _ _ _ _ = Done _ |- _ =>
      apply dps_get_ipv6_list_tlv_pos in H
  | H : dps_get_tunnel_list_tlv _ _ _ _ _ = Done _ |- _ =>
      apply dps_get_tunnel_list_tlv_pos in H
  end.
(** A body that is a chain of tests on the type of the TLV at the cursor. *)
Ltac item_steps f :=
  split;
  [ intros off s; unfold f; nt
  | intros off s off' s' H; unfold f in H; inv_done; case_ifs H; inv_done;
    try discriminate; read_bounds; moves; lens; lia ].
Ltac item_mono f :=
  let H := fresh "H" in
  intros ? ? ? ? ? ? H; unfold f in H; inv_done; case_ifs H; inv_done;
  try discriminate; read_bounds; moves; lens; lia.

#[export] Hint Resolve dps_get_ipv4_list_tlv_nt dps_get_ipv6_list_tlv_nt
  dps_get_tunnel_list_tlv_nt : nt.

Section locations.
Context (fuel : nat) (b : buf).
Hypothesis (Hf : length b < fuel).

Lemma get_endpoint_loc_item_steps cap : steps (length b) (get_endpoint_loc_item fuel b cap).
Proof. item_steps get_endpoint_loc_item. Qed.
Lemma get_endpoint_update_item_steps cap :
  steps (length b) (get_endpoint_update_item fuel b cap).
Proof. item_steps get_endpoint_update_item. Qed.

Lemma dps_get_endpoint_loc_reply_tlv_nt off cap c :
  dps_get_endpoint_loc_reply_tlv fuel b off cap c <> Timeout.
Proof.
  unfold dps_get_endpoint_loc_reply_tlv. do 2 (apply obind_nt; [nt|]; intros ? _).
  apply obind_nt; [|nt]. by eapply while_steps; [apply get_endpoint_loc_item_steps|].
Qed.
Lemma dps_get_endpoint_update_tlv_nt off cap c :
  dps_get_endpoint_update_tlv fuel b off cap c <> Timeout.
Proof.
  unfold dps_get_endpoint_update_tlv. do 2 (apply obind_nt; [nt|]; intros ? _).
  apply obind_nt; [|nt]. by eapply while_steps; [apply get_endpoint_update_item_steps|].
Qed.
Lemma dps_get_endpoint_loc_reply_tlv_pos off cap c c' n :
  dps_get_endpoint_loc_reply_tlv fuel b off cap c = Done (c', n) ->
  0 < n /\ off < length b.
Proof. clear Hf.
  unfold dps_get_endpoint_loc_reply_tlv. intros H. inv_done.
  apply while_mono in E1; [read_bounds; lens; lia|]. item_mono get_endpoint_loc_item.
Qed.
Lemma dps_get_endpoint_update_tlv_pos off cap c c' n :
  dps_get_endpoint_update_tlv fuel b off cap c = Done (c', n) -> 0 < n.
Proof. clear Hf.
  unfold dps_get_endpoint_update_tlv. intros H. inv_done.
  apply while_mono in E1; [lens; lia|]. item_mono get_endpoint_update_item.
Qed.

(** The lists of virtual addresses of an update reply. *)
Lemma dps_get_ipv4_list_to_ipaddr_nt off v d num mx :
  dps_get_ipv4_list_to_ipaddr fuel b off v d num mx <> Timeout.
Proof.
  unfold dps_get_ipv4_list_to_ipaddr. apply obind_nt; [nt|]. intros hdr _.
  apply obind_nt; [|nt]. eapply while_steps; [|exact Hf]. split.
  - intros o [[v' d'] n']. nt.
  - intros o [[v' d'] n'] o' s' H. case_ifs H; inv_done; [|discriminate].
    read_bounds. lens. lia.
Qed.
Lemma dps_get_ipv6_list_to_ipaddr_nt off v d num mx :
  dps_get_ipv6_list_to_ipaddr fuel b off v d num mx <> Timeout.
Proof.
  unfold dps_get_ipv6_list_to_ipaddr. apply obind_nt; [nt|]. intros hdr _.
  apply obind_nt; [|nt]. eapply while_steps; [|exact Hf]. split.
  - intros o [[v' d'] n']. nt.
  - intros o [[v' d'] n'] o' s' H. case_ifs H; inv_done; [|discriminate].
    read_bounds. lens. lia.
Qed.
Lemma dps_get_ipv4_list_to_ipaddr_pos off v d num mx v' d' num' n :
  dps_get_ipv4_list_to_ipaddr fuel b off v d num mx = Done (v', d', num', n) -> 0 < n.
Proof. clear Hf.
  unfold dps_get_ipv4_list_to_ipaddr. intros H. inv_done.
  apply while_mono in E0; [lens; lia|]. intros o [[? ?] ?] ct o' s' Hlt H.
  case_ifs H; inv_done; lens; lia.
Qed.
Lemma dps_get_ipv6_list_to_ipaddr_pos off v d num mx v' d' num' n :
  dps_get_ipv6_list_to_ipaddr fuel b off v d num mx = Done (v', d', num', n) -> 0 < n.
Proof. clear Hf.
  unfold dps_get_ipv6_list_to_ipaddr. intros H. inv_done.
  apply while_mono in E0; [lens; lia|]. intros o [[? ?] ?] ct o' s' Hlt H.
  case_ifs H; inv_done; lens; lia.
Qed.
End locations.
#[export] Hint Resolve dps_get_endpoint_loc_reply_tlv_nt dps_get_endpoint_update_tlv_nt
  dps_get_ipv4_list_to_ipaddr_nt dps_get_ipv6_list_to_ipaddr_nt : nt.

Section update_replies.
Context (fuel : nat) (b : buf).
Hypothesis (Hf : length b < fuel).

Lemma get_endpoint_update_reply_item_mono cap off s c off' s' :
  get_endpoint_update_reply_item fuel b cap off s = Done (c, off', s') ->
  off <= off' /\ (c = Go -> off < off').
Proof. clear Hf.
  destruct s as [x vip]. unfold get_endpoint_update_reply_item. intros H. inv_done.
  case_ifs H; inv_done; moves; try apply dps_get_ipv4_list_to_ipaddr_pos in E0;
    try apply dps_get_ipv6_list_to_ipaddr_pos in E0;
    (split; [lia | first [discriminate | intros _; lia]]).
Qed.
Lemma get_endpoint_update_reply_item_steps cap :
  steps (length b) (get_endpoint_update_reply_item fuel b cap).
Proof.
  split.
  - intros off [x vip]. unfold get_endpoint_update_reply_item. nt.
  - intros off s off' s' H.
    destruct (get_endpoint_update_reply_item_mono _ _ _ _ _ _ H) as [_ Hp].
    split; [|by apply Hp]. destruct s as [x vip].
    unfold get_endpoint_update_reply_item in H. inv_done. by read_bounds.
Qed.
Lemma dps_get_endpoint_update_reply_tlv_nt off cap c :
  dps_get_endpoint_update_reply_tlv fuel b off cap c <> Timeout.
Proof.
  unfold dps_get_endpoint_update_reply_tlv. do 2 (apply obind_nt; [nt|]; intros ? _).
  apply obind_nt; [|nt].
  by eapply while_steps; [apply get_endpoint_update_reply_item_steps|].
Qed.
Lemma dps_get_endpoint_update_reply_tlv_pos off cap c c' n :
  dps_get_endpoint_update_reply_tlv fuel b off cap c = Done (c', n) -> 0 < n.
Proof. clear Hf.
  unfold dps_get_endpoint_update_reply_tlv. intros H. inv_done.
  apply while_mono in E1; [lens; lia|]. intros o s ct o' s' _ H.
  by apply get_endpoint_update_reply_item_mono in H as [? _].
Qed.

(** *** Endpoint reachability *)
Lemma dps_get_ip4_info_list_tlv_nt off c :
  dps_get_ip4_info_list_tlv fuel b off c <> Timeout.
Proof.
  unfold dps_get_ip4_info_list_tlv. apply obind_nt; [nt|]. intros hdr _.
  apply obind_nt; [|nt]. eapply while_steps; [|exact Hf].
  split; intros o [l i]; [nt|]. intros o' s' H. inv_done. read_bounds. lia.
Qed.
Lemma dps_get_ip6_info_list_tlv_nt off c :
  dps_get_ip6_info_list_tlv fuel b off c <> Timeout.
Proof.
  unfold dps_get_ip6_info_list_tlv. apply obind_nt; [nt|]. intros hdr _.
  apply obind_nt; [|nt]. eapply while_steps; [|exact Hf].
  split; intros o [l i]; [nt|]. intros o' s' H. inv_done. read_bounds. lia.
Qed.
Lemma dps_get_ip4_info_list_tlv_pos off c c' n :
  dps_get_ip4_info_list_tlv fuel b off c = Done (c', n) -> 0 < n.
Proof. clear Hf.
  unfold dps_get_ip4_info_list_tlv. intros H. inv_done.
  apply while_mono in E0; [lens; lia|]. intros o [? ?] ct o' s' _ H. inv_done. lia.
Qed.
Lemma dps_get_ip6_info_list_tlv_pos off c c' n :
  dps_get_ip6_info_list_tlv fuel b off c = Done (c', n) -> 0 < n.
Proof. clear Hf.
  unfold dps_get_ip6_info_list_tlv. intros H. inv_done.
  apply while_mono in E0; [lens; lia|]. intros o [? ?] ct o' s' _ H. inv_done. lia.
Qed.
End update_replies.
#[export] Hint Resolve dps_get_endpoint_update_reply_tlv_nt
  dps_get_ip4_info_list_tlv_nt dps_get_ip6_info_list_tlv_nt : nt.

Ltac more_moves :=
  repeat match goal with
  | H : dps_get_ip4_info_list_tlv _ _ _ _ = Done _ |- _ =>
      apply dps_get_ip4_info_list_tlv_pos in H
  | H : dps_get_ip6_info_list_tlv _ _ _ _ = Done _ |- _ =>
      apply dps_get_ip6_info_list_tlv_pos in H
  | H : dps_get_endpoint_update_tlv _ _ _ _ _ = Done _ |- _ =>
      apply dps_get_endpoint_update_tlv_pos in H
  | H : dps_get_endpoint_update_reply_tlv _ _ _ _ _ = Done _ |- _ =>
      apply dps_get_endpoint_update_reply_tlv_pos in H
  | H : dps_get_endpoint_loc_reply_tlv _ _ _ _ _ = Done _ |- _ =>
      apply dps_get_endpoint_loc_reply_tlv_pos in H as [? ?]
  end.

Section reachability.
Context (fuel : nat) (b : buf).
Hypothesis (Hf : length b < fuel).

Lemma get_epri_item_mono cap off s c off' s' :
  get_epri_item fuel b cap off s = Done (c, off', s') -> off < off'.
Proof. clear Hf.
  unfold get_epri_item. intros H. inv_done. case_ifs H; inv_done; moves; more_moves;
    lens; lia.
Qed.
Lemma dps_get_epri_tlv_nt off cap c : dps_get_epri_tlv fuel b off cap c <> Timeout.
Proof.
  unfold dps_get_epri_tlv. apply obind_nt; [nt|]. intros hdr _.
  apply obind_nt; [|nt]. eapply while_steps; [|exact Hf]. split.
  - intros o s. unfold get_epri_item. nt.
  - intros o s o' s' H. split; [|by apply get_epri_item_mono in H].
    unfold get_epri_item in H. inv_done. by read_bounds.
Qed.
Lemma dps_get_epri_tlv_pos off cap c c' n :
  dps_get_epri_tlv fuel b off cap c = Done (c', n) -> 0 < n.
Proof. clear Hf.
  unfold dps_get_epri_tlv. intros H. inv_done. apply while_mono in E0; [lens; lia|].
  intros o s ct o' s' _ H. apply get_epri_item_mono in H. lia.
Qed.

(** *** Policies *)
Lemma get_rules_nt cap n : forall cur j l, get_rules b cap cur j n l <> Timeout.
Proof. induction n as [|n IH]; intros cur j l; simpl; nt. Qed.
Lemma get_rules_mono cap n : forall cur j l cur' j' l',
  get_rules b cap cur j n l = Done (cur', j', l') -> cur <= cur'.
Proof. clear Hf.
  induction n as [|n IH]; intros cur j l cur' j' l'; simpl; [by intros [= <- <- <-]|].
  intros H. inv_done. apply IH in H. lia.
Qed.
Lemma get_rule_blocks_nt cap tot f : forall cur j c,
  length b - cur < f -> get_rule_blocks f b cap tot cur j c <> Timeout.
Proof.
  induction f as [|f IH]; intros cur j c Hl; [lia|]. simpl.
  destruct (_ <? _)%Z; [|discriminate]. apply obind_nt; [nt|]. intros action E.
  read_bounds. apply obind_nt; [nt|]. intros num _.
  apply obind_nt; [apply get_rules_nt|]. intros [[cur' j'] l'] Er.
  apply get_rules_mono in Er. apply IH. unfold SZ_OF_INT16 in *. lia.
Qed.
Lemma dps_get_policy_type_tlv_nt off cap c :
  dps_get_policy_type_tlv fuel b off cap c <> Timeout.
Proof.
  unfold dps_get_policy_type_tlv. do 2 (apply obind_nt; [nt|]; intros ? _).
  destruct (_ =? _)%Z; [|discriminate].
  apply obind_nt; [apply get_rule_blocks_nt; lia|]. nt.
Qed.
Lemma dps_get_policy_tlv_nt off cap c : dps_get_policy_tlv fuel b off cap c <> Timeout.
Proof.
  unfold dps_get_policy_tlv. apply obind_nt; [nt|]. intros hdr _.
  apply obind_nt; [|nt]. eapply while_steps; [|exact Hf]. split.
  - intros o s. apply obind_nt; [nt|]. intros [p n] _.
    apply obind_nt; [apply dps_get_policy_type_tlv_nt | nt].
  - intros o s o' s' H. inv_done. unfold dps_get_policy_id_tlv in *. inv_done.
    read_bounds. lens. lia.
Qed.
Lemma dps_get_policy_tlv_pos off cap c c' n :
  dps_get_policy_tlv fuel b off cap c = Done (c', n) -> 0 < n.
Proof. clear Hf.
  unfold dps_get_policy_tlv. intros H. inv_done. apply while_mono in E0; [lens; lia|].
  intros o s ct o' s' _ H. inv_done. lia.
Qed.

(** *** Bulk policies: the loops are bounded by the counters *)
Lemma get_bulk_deny_nt cap n : forall cur j l, get_bulk_deny b cap cur j n l <> Timeout.
Proof. induction n as [|n IH]; intros cur j l; simpl; nt. Qed.
Lemma dps_get_bulk_policy_xfer_nt off cap c :
  dps_get_bulk_policy_xfer b off cap c <> Timeout.
Proof.
  unfold dps_get_bulk_policy_xfer. do 2 (apply obind_nt; [nt|]; intros ? _).
  apply obind_nt; [apply get_rules_nt|]. intros [[cur j] l] _.
  apply obind_nt; [apply get_bulk_deny_nt|]. nt.
Qed.
End reachability.
#[export] Hint Resolve dps_get_epri_tlv_nt dps_get_policy_tlv_nt
  dps_get_bulk_policy_xfer_nt : nt.
