(* ===== verification/RecvSpec.v ===== *)
(** * The receive entry point: acknowledgements, termination, accounting *)
From S2P Require Export Terminate.

(** ** Acknowledgements *)
Lemma ack_type_known h :
  let ty := ch_type (ack_hdr h) in
  well_typed ty Body_none = true /\ known_type ty = true /\
  (ty = DPS_GENERAL_ACK \/ ty = DPS_REG_DEREGISTER_ACK).
Proof. unfold ack_hdr. cbn [ch_type]. destruct (is_registration _); split_and!; auto. Qed.

Section ack.
Context {W : Type} `{EnvLaws W}.

(** The packet an acknowledgement is. *)
Definition ack_packet (h : dps_client_hdr_t) : list Z :=
  lay (replicate DPS_PKT_HDR_LEN 0%Z) 0 (wire_pkt (ch_type h) h []).

(** Sent when the message has a query id and the node is active; counted
    under the type of the acknowledgement. *)
Definition send_ack (h : dps_client_hdr_t) (st : pstate) : pstate (W := W) :=
  let '(t, w) := st in
  if (ch_query_id h =? 0)%Z || (dps_server && negb (dps_cluster_is_local_node_active w))
  then (t, w)
  else
    let '(c, w) := assign_query_id (mk_client_data 0 (ack_hdr h) Body_none) w in
    let '(status, w) := dps_protocol_xmit (ack_packet (cd_hdr c))
      (ch_reply_addr (cd_hdr c)) 0 w in
    (count (if (status =? DPS_SUCCESS)%Z then incr_sent else incr_transmit_error)
        (ch_type (ack_hdr h)) t, w).

Lemma create_ack_spec c st :
  dps_client_create_general_ack c st = Done (DPS_SUCCESS, send_ack (cd_hdr c) st).
Proof.
  destruct st as [t w]. unfold dps_client_create_general_ack, send_ack.
  destruct (ch_query_id (cd_hdr c) =? 0)%Z; [done|]. cbn [orb].
  unfold dps_protocol_client_send. destruct (dps_server && _); [done|].
  cbn [cd_hdr]. destruct (ack_type_known (cd_hdr c)) as (Hw & -> & _).
  pose proof (send_general_ack_spec (mk_client_data 0 (ack_hdr (cd_hdr c)) Body_none) w Hw)
    as E. cbn [cd_hdr] in E. rewrite E. clear E.
  destruct (assign_query_id _ w) as [c' w'] eqn:Eq.
  apply assign_query_id_keeps in Eq as (_ & _ & Et & _ & _). cbn [cd_hdr] in Et.
  unfold ack_packet. rewrite Et.
  destruct (dps_protocol_xmit _ _ _ w') as [status w'']. cbn [obind].
  rewrite Et. by destruct (status =? DPS_SUCCESS)%Z.
Qed.

Lemma ack_if_spec b c st :
  ack_if b c st = Done (if b then send_ack (cd_hdr c) st else st).
Proof. unfold ack_if. destruct b; [by rewrite create_ack_spec | done]. Qed.

Lemma ack_if_nt b c st : ack_if b c st <> Timeout (A := pstate (W := W)).
Proof. by rewrite ack_if_spec. Qed.
End ack.
#[export] Hint Resolve ack_if_nt : nt.

(** ** Termination of the handlers *)
Section items.
Context (fuel : nat) (b : buf).
Hypothesis (Hf : length b < fuel).

Ltac item_steps' f :=
  split;
  [ intros off s; unfold f; repeat destruct s as [s ?]; nt
    | intros off s off' s' H; unfold f in H; inv_done; case_ifs H; inv_done;
    try discriminate; read_bounds; moves; more_moves; lens; lia ].

Lemma loc_req_item_steps : steps (length b) (loc_req_item b).
Proof. item_steps loc_req_item. Qed.
Lemma loc_reply_steps cap :
  steps (length b) (fun cur x =>
    let* (x, n) := dps_get_endpoint_loc_reply_tlv fuel b cur cap x in
    Done (Go, cur + n, x)).
Proof.
  split; [intros; nt|]. intros off s off' s' H. inv_done. more_moves. lia.
Qed.
Lemma gen_msg_item_steps : steps (length b) (gen_msg_item b).
Proof. item_steps gen_msg_item. Qed.
Lemma mcast_sender_item_steps : steps (length b) (mcast_sender_item b).
Proof. item_steps mcast_sender_item. Qed.
Lemma update_item_steps : steps (length b) (update_item fuel b).
Proof. item_steps' update_item. Qed.
Lemma update_reply_item_steps : steps (length b) (update_reply_item fuel b).
Proof. item_steps' update_reply_item. Qed.
Lemma policy_reply_item_steps : steps (length b) (policy_reply_item fuel b).
Proof.
  split; [intros off s; unfold policy_reply_item; nt|].
  intros off s off' s' H. unfold policy_reply_item in H. inv_done.
  case_ifs H; inv_done; try discriminate; read_bounds; moves; more_moves;
    try apply dps_get_policy_tlv_pos in E0; lens; lia.
Qed.
Lemma packed_item_steps cap : steps (length b) (packed_item fuel cap b).
Proof. item_steps' packed_item. Qed.
Lemma gw_list_item_steps : steps (length b) (gw_list_item fuel b).
Proof. item_steps' gw_list_item. Qed.
Lemma tunnel_reg_item_steps : steps (length b) (tunnel_reg_item fuel b).
Proof. item_steps' tunnel_reg_item. Qed.
Lemma vm_migration_item_steps : steps (length b) (vm_migration_item fuel b).
Proof. item_steps' vm_migration_item. Qed.
Lemma vm_loc_item_steps : steps (length b) (vm_loc_item fuel b).
Proof.
  split; [intros off s; unfold vm_loc_item; nt|].
  intros off s off' s' H. unfold vm_loc_item in H. inv_done.
  case_ifs H; inv_done; try discriminate; read_bounds;
    try apply dps_get_epri_tlv_pos in E0; lens; lia.
Qed.

Lemma tlv_loop_nt {A} pkt_len (body : nat -> A -> out (ctl * nat * A)) s :
  steps (length b) body -> tlv_loop fuel pkt_len body s <> Timeout.
Proof. intros Hs. unfold tlv_loop. by eapply while_steps. Qed.
End items.
#[export] Hint Resolve tlv_loop_nt loc_req_item_steps loc_reply_steps gen_msg_item_steps
  mcast_sender_item_steps update_item_steps update_reply_item_steps
  policy_reply_item_steps packed_item_steps gw_list_item_steps tunnel_reg_item_steps
  vm_migration_item_steps vm_loc_item_steps : nt.

(** The message types whose handlers have a loop that may not advance. *)
Definition may_loop (ty : Z) : bool :=
  existsb (Z.eqb ty) [DPS_POLICY_REQ; DPS_MCAST_RECEIVER_JOIN; DPS_MCAST_RECEIVER_LEAVE;
                      DPS_MCAST_RECEIVER_DS_LIST].

Section handlers.
Context {W : Type} `{EnvLaws W}.
Context (fuel : nat) (heap_counts : Z -> Z * Z) (stack_addr : ip_addr_t).
Context (recv : buf) (sender : ip_addr_t).

Lemma with_msg_nt st (k : pstate -> out (Z * pstate)) :
  (forall st, k st <> Timeout) -> with_msg (W := W) st k <> Timeout.
Proof.
  intros Hk. destruct st as [t w]. unfold with_msg.
  destruct (dps_alloc_buff w) as [[b|] w']; [apply Hk | discriminate].
Qed.
Lemma deliver_msg_nt c st (k : pstate -> out pstate) :
  (forall st, k st <> Timeout) -> deliver_msg (W := W) c st k <> Timeout.
Proof. intros Hk. destruct st as [t w]. apply Hk. Qed.
Lemma free_return_nt ret st : free_return (W := W) ret st <> Timeout.
Proof. by destruct st. Qed.
Lemma no_ack_nt st : no_ack (W := W) st <> Timeout.
Proof. done. Qed.

Ltac handler_nt :=
  repeat first
    [ progress intros
    | apply free_return_nt | apply no_ack_nt | apply ack_if_nt
    | apply with_msg_nt | apply deliver_msg_nt
    | discriminate | solve [eauto with nt] | apply obind_nt
    | match goal with
    | |- (if ?c then _ else _) <> Timeout => destruct c
    | |- match ?p with _ => _ end <> Timeout => destruct p
    end ].

Lemma call_recv_nt ty st :
  length recv < fuel -> known_type ty = true -> may_loop ty = false ->
  call_recv fuel heap_counts stack_addr ty recv sender st <> Timeout (A := Z * pstate).
Proof.
  intros Hf Hk. revert ty Hk.
  assert (forall g, In g
    [dps_process_endpoint_loc_req fuel; dps_process_endpoint_loc_reply fuel;
    dps_process_policy_reply fuel; dps_process_policy_invalidate;
    dps_process_endpoint_update fuel; dps_process_endpoint_update_reply fuel;
    dps_process_addr_resolve fuel; dps_process_addr_reply;
    dps_process_gen_msg_req fuel; dps_process_internal_gw_reply fuel;
    dps_process_bulk_policy_xfer; dps_process_bcast_list_reply fuel;
    dps_process_vm_migration_event fuel; dps_process_mcast_sender_reg_dereg fuel;
    dps_process_general_ack; dps_process_gw_list fuel;
    dps_process_tunnel_reg_dereg fuel; dps_noop_process;
    dps_process_vm_loc_info fuel] -> g recv sender st <> Timeout) as Hall.
  { intros g Hg. simpl in Hg. repeat (destruct Hg as [<-|Hg]); [..|done];
      unfold dps_process_endpoint_loc_req, dps_process_endpoint_loc_reply,
      dps_process_policy_reply, dps_process_policy_invalidate,
      dps_process_endpoint_update, dps_process_endpoint_update_reply,
      dps_process_addr_resolve, dps_process_addr_reply, dps_process_gen_msg_req,
      dps_process_internal_gw_reply, dps_process_bulk_policy_xfer,
      dps_process_bcast_list_reply, process_packed, dps_process_vm_migration_event,
      dps_process_mcast_sender_reg_dereg, dps_process_general_ack,
      dps_process_gw_list, dps_process_tunnel_reg_dereg, dps_noop_process,
      dps_process_vm_loc_info; handler_nt. }
  intros ty Hk. pattern ty. apply known_type_cases; [|exact Hk].
  repeat (apply Forall_cons_2; [intros Hl; first [discriminate Hl | apply Hall; simpl; tauto]|]).
  apply Forall_nil_2.
Qed.
End handlers.

(** ** Accounting

    The receive counters are moved by the entry point alone; the handlers only
    reach the send counters, through the acknowledgements. *)
Definition recvd (t : stats_tbl) : list (Z * Z) :=
  (fun s => (ps_recv s, ps_recv_error s)) <$> t.

Lemma recvd_count f g ty t :
  (forall s, (ps_recv (f s), ps_recv_error (f s)) = g (ps_recv s, ps_recv_error s)) ->
  recvd (count f ty t) = alter g (Z.to_nat ty) (recvd t).
Proof.
  unfold stats_tbl in *. intros E. unfold recvd, count. apply list_eq. intros i. rewrite list_lookup_fmap.
  destruct (decide (i = Z.to_nat ty)) as [->|Hi].
  - rewrite (list_lookup_alter_eq f), (list_lookup_alter_eq g), list_lookup_fmap.
    destruct (t !! Z.to_nat ty); [|done].
    simpl. by rewrite E.
  - by rewrite (list_lookup_alter_ne f), (list_lookup_alter_ne g), list_lookup_fmap
      by congruence.
Qed.

Lemma alter_same {A} (l : list A) i : alter (fun x => x) i l = l.
Proof.
  apply list_eq. intros j. destruct (decide (j = i)) as [->|Hi].
  - rewrite list_lookup_alter_eq. by destruct (l !! i).
  - by rewrite list_lookup_alter_ne by congruence.
Qed.

Section accounting.
Context {W : Type} `{EnvLaws W}.

Definition keeps (m : out (Z * pstate (W := W))) (t : stats_tbl) : Prop :=
  forall r t' w', m = Done (r, (t', w')) -> recvd t' = recvd t.

Lemma keeps_bind {A} (m : out A) k t :
  (forall a, keeps (k a) t) -> keeps (obind m k) t.
Proof. intros Hk r t' w' H1. apply obind_Done_inv in H1 as (a & _ & H1). by apply Hk in H1. Qed.
Lemma keeps_return r t w : keeps (free_return r (t, w)) t.
Proof. by intros r' t' w' [= _ <- _]. Qed.
Lemma keeps_done r t w : keeps (Done (r, (t, w))) t.
Proof. by intros r' t' w' [= _ <- _]. Qed.
Lemma keeps_with_msg t w k : (forall w, keeps (k (t, w)) t) -> keeps (with_msg (t, w) k) t.
Proof.
  intros Hk r t' w'. unfold with_msg. destruct (dps_alloc_buff w) as [[b|] w1].
  - apply Hk.
  - by intros [= _ <- _].
Qed.

Lemma send_ack_recvd h t w : recvd (send_ack h (t, w)).1 = recvd t.
Proof.
  unfold send_ack. destruct (_ || _); [done|].
  destruct (assign_query_id _ w) as [c w1].
  destruct (dps_protocol_xmit _ _ _ w1) as [s w2]. cbn [fst].
  rewrite (recvd_count _ (fun p => p)); [apply alter_same|].
  intros st. by destruct (s =? DPS_SUCCESS)%Z.
Qed.
Lemma keeps_ack b c r t w :
  keeps (let* st := ack_if b c (t, w) in free_return r st) t.
Proof.
  rewrite ack_if_spec. cbn [obind]. pose proof (send_ack_recvd (cd_hdr c) t w) as E.
  destruct b; [|apply keeps_return]. destruct (send_ack (cd_hdr c) (t, w)) as [t1 w1].
  cbn [fst] in E. by intros r' t' w' [= _ <- _].
Qed.
Lemma keeps_deliver b c c' r t w :
  keeps (let* st := deliver_msg c (t, w) (ack_if b c') in free_return r st) t.
Proof. apply keeps_ack. Qed.
Lemma keeps_deliver_no_ack c r t w :
  keeps (let* st := deliver_msg c (t, w) no_ack in free_return r st) t.
Proof. apply keeps_return. Qed.
Lemma stop_timer_if_keeps b c t (w : W) r c' st :
  stop_timer_if b c (t, w) = (r, c', st) -> exists w', st = (t, w').
Proof.
  unfold stop_timer_if. destruct b; [|intros [= _ _ <-]; by eexists].
  destruct (dps_stop_retransmit_timer c w) as [[r1 c1] w1]. intros [= _ _ <-]. by eexists.
Qed.

Context (fuel : nat) (heap_counts : Z -> Z * Z) (stack_addr : ip_addr_t).
Context (recv : buf) (sender : ip_addr_t).

Ltac handler_keeps :=
  repeat first
    [ progress intros
    | apply keeps_deliver | apply keeps_deliver_no_ack | apply keeps_ack
    | apply keeps_return | apply keeps_done
    | apply keeps_with_msg | apply keeps_bind
    | match goal with
    | |- context [stop_timer_if ?b ?c (?t, ?w)] =>
        let E := fresh "E" in
        destruct (stop_timer_if b c (t, w)) as [[? ?] ?] eqn:E;
        apply stop_timer_if_keeps in E as [? ->]
    | |- keeps (if ?c then _ else _) _ => destruct c
    | |- keeps (match ?p with _ => _ end) _ => destruct p
    end ].

Lemma call_recv_keeps ty t w :
  known_type ty = true ->
  keeps (call_recv fuel heap_counts stack_addr ty recv sender (t, w)) t.
Proof.
  intros Hk. pattern ty. apply known_type_cases; [|exact Hk].
  repeat (apply Forall_cons_2;
    [unfold call_recv; cbn [lookup list_lookup dps_recv_func_tbl];
    match goal with |- context [Z.to_nat ?z] =>
    let v := eval vm_compute in (Z.to_nat z) in change (Z.to_nat z) with v end;
    cbn [lookup list_lookup dps_recv_func_tbl]|]).
  all: try apply Forall_nil_2.
  all: unfold dps_process_endpoint_loc_req, dps_process_endpoint_loc_reply,
    dps_process_policy_reply, dps_process_policy_invalidate, dps_process_policy_req,
    dps_process_endpoint_update, dps_process_endpoint_update_reply,
    dps_process_addr_resolve, dps_process_addr_reply, dps_process_gen_msg_req,
    dps_process_internal_gw_reply, dps_process_bulk_policy_xfer,
    dps_process_bcast_list_reply, process_packed, dps_process_vm_migration_event,
    dps_process_mcast_sender_reg_dereg, dps_process_mcast_receiver_join_leave,
    dps_process_mcast_receiver_ds_list, dps_process_general_ack,
    dps_process_gw_list, dps_process_tunnel_reg_dereg, dps_noop_process,
    dps_process_vm_loc_info; handler_keeps.
Qed.

(** The entry a packet is accounted under, and how. *)
Definition stats_entry (ty : Z) : nat := if known_type ty then Z.to_nat ty else 0.
Definition bump (ok : bool) (p : Z * Z) : Z * Z :=
  if ok then (incr p.1, p.2) else (p.1, incr p.2).

Lemma rcvd_pkt_accounts ty t w ret t' w' :
  load8 recv 1 = Done ty ->
  dps_process_rcvd_pkt fuel heap_counts stack_addr recv sender (t, w) = Done (ret, (t', w')) ->
  recvd t' = alter (bump (ret =? DPS_SUCCESS)%Z) (stats_entry ty) (recvd t) /\
  (known_type ty = false -> ret = DPS_ERROR /\ w' = w).
Proof.
  intros Hty. unfold dps_process_rcvd_pkt. rewrite Hty. cbn [obind]. unfold stats_entry.
  destruct (known_type ty) eqn:Hk.
  - intros Hr. apply obind_Done_inv in Hr as ([r [t1 w1]] & Hr & E).
    apply call_recv_keeps in Hr; [|done]. injection E as <- <- <-.
    split; [|done]. rewrite <- Hr. destruct (r =? DPS_SUCCESS)%Z; by apply recvd_count.
  - intros [= <- <- <-]. split; [|done]. by rewrite (recvd_count _ (bump false)).
Qed.
End accounting.

(** ** Well-formedness is decidable; messages to evaluate the theorems on *)
(** ** Decidability *)
#[export] Instance wf_ip_dec u : Decision (wf_ip u).
Proof. unfold wf_ip. apply _. Defined.
#[export] Instance wf_mac_dec m : Decision (wf_mac m).
Proof. unfold wf_mac. apply _. Defined.
#[export] Instance wf_counted_dec {A} n (l : list A) : Decision (wf_counted n l).
Proof. unfold wf_counted. apply _. Defined.
#[export] Instance wf_addr_dec a : Decision (wf_addr a).
Proof. unfold wf_addr. apply _. Defined.
#[export] Instance wf_tunnel_dec t : Decision (wf_tunnel t).
Proof. unfold wf_tunnel. apply _. Defined.
#[export] Instance wf_tunnels_dec tl : Decision (wf_tunnels tl).
Proof. unfold wf_tunnels. apply _. Defined.
#[export] Instance fits_dec p : Decision (fits p).
Proof. unfold fits. apply _. Defined.
#[export] Instance aligned_dec p : Decision (aligned p).
Proof. unfold aligned. apply _. Defined.
#[export] Instance tunnels_ok_dec cap fuel tl : Decision (tunnels_ok cap fuel tl).
Proof. unfold tunnels_ok. apply _. Defined.
#[export] Instance loc_ok_dec cap fuel ve vn m i tl : Decision (loc_ok cap fuel ve vn m i tl).
Proof. unfold loc_ok. apply _. Defined.
#[export] Instance wf_endpoint_info_dec c : Decision (wf_endpoint_info c).
Proof. unfold wf_endpoint_info. apply _. Defined.
#[export] Instance info_ok_dec c : Decision (info_ok c).
Proof. unfold info_ok. apply _. Defined.
#[export] Instance wf_loc_dec m i tl : Decision (wf_loc m i tl).
Proof. unfold wf_loc. apply _. Defined.
#[export] Instance reply_ok_dec c : Decision (reply_ok c).
Proof. unfold reply_ok, wf_endpoint_loc_reply. apply _. Defined.
#[export] Instance wf_packed_dec n4 n6 w : Decision (wf_packed n4 n6 w).
Proof. unfold wf_packed. apply _. Defined.
#[export] Instance wf_mcast_addr_dec c : Decision (wf_mcast_addr c).
Proof. unfold wf_mcast_addr. apply _. Defined.
#[export] Instance wf_srcs_dec f n w : Decision (wf_srcs f n w).
Proof. unfold wf_srcs. apply _. Defined.
#[export] Instance wf_mcast_grp_rec_dec c : Decision (wf_mcast_grp_rec c).
Proof. unfold wf_mcast_grp_rec. apply _. Defined.
#[export] Instance wf_policy_dec c : Decision (wf_policy c).
Proof. unfold wf_policy. apply _. Defined.
#[export] Instance wf_bulk_dec c : Decision (wf_bulk c).
Proof. unfold wf_bulk. apply _. Defined.
#[export] Instance wf_epri_dec c : Decision (wf_epri c).
Proof. unfold wf_epri, wf_ip6_info. apply _. Defined.
#[export] Instance wf_endpoint_update_reply_dec c : Decision (wf_endpoint_update_reply c).
Proof. unfold wf_endpoint_update_reply. apply _. Defined.
#[export] Instance body_ok_dec c : Decision (body_ok c).
Proof. unfold body_ok, wf_endpoint_update. destruct (cd_body c); apply _. Defined.
#[export] Instance loc_req_ok_dec x : Decision (loc_req_ok x).
Proof. unfold loc_req_ok. apply _. Defined.
#[export] Instance update_ok_dec fuel x : Decision (update_ok fuel x).
Proof. unfold update_ok. apply _. Defined.
#[export] Instance packed_ok_dec cap fuel n4 n6 w : Decision (packed_ok cap fuel n4 n6 w).
Proof. unfold packed_ok. apply _. Defined.

(** Evaluate a decidable side condition. *)
Ltac decided := apply (bool_decide_unpack _); vm_compute; exact I.

(** ** A packet on the wire, its padding zero *)
Definition packet (h : dps_client_hdr_t) (body : pat) : buf :=
  lay (replicate (DPS_PKT_HDR_LEN + length body) 0%Z) 0 (wire_pkt (ch_type h) h body).

Lemma packet_at h body :
  hdr_ok h -> aligned body -> (Z.of_nat (DPS_PKT_HDR_LEN + length body) < 65536)%Z ->
  pkt_at (packet h body) h body.
Proof.
  intros Hh Ha Hl. split_and!; [|done..]. apply matches_lay.
  unfold wire_pkt. rewrite length_replicate, !length_app, length_wire_pkt_hdr. lia.
Qed.

(** ** Messages *)
Definition v4 (a b c d : Z) : ip_union := [a; b; c; d] ++ replicate 12 0%Z.
Definition v6 (n : Z) : ip_union := [32; 1; 13; 184]%Z ++ replicate 11 0%Z ++ [n].
Definition sample_mac : list Z := [2; 0; 94; 0; 83; 1]%Z.
Definition sample_vm : ip_addr_t := mk_ip_addr AF_INET 0 0 0 (v4 192 168 1 10).
Definition sample_vm6 : ip_addr_t := mk_ip_addr AF_INET6 0 0 0 (v6 7).
Definition sample_switch : ip_addr_t := mk_ip_addr AF_INET 1899 0 0 (v4 10 0 0 5).
Definition sample_server : ip_addr_t := mk_ip_addr AF_INET 902 0 0 (v4 10 0 0 1).
Definition sample_tunnels : dps_tunnel_list_t :=
  mk_tunnel_list 2 [mk_tunnel AF_INET 4789 7 1 0 (v4 10 0 0 5);
                    mk_tunnel AF_INET6 4789 7 1 0 (v6 5)].
Definition sample_info (n : Z) : dps_endpoint_info_t :=
  mk_endpoint_info n sample_mac sample_vm.

Definition sample_loc_req := mk_endpoint_loc_req 7 sample_mac sample_vm sample_switch.
Definition sample_loc_reply := mk_endpoint_loc_reply 7 sample_mac sample_vm6 3 sample_tunnels.
Definition sample_update :=
  mk_endpoint_update 7 sample_mac 4 sample_vm sample_switch sample_tunnels.
Definition sample_policy_req :=
  mk_policy_req (sample_info 7) (sample_info 8) sample_switch.

Definition sample_hdr (ty qid : Z) : dps_client_hdr_t :=
  mk_client_hdr ty 0 2 DPS_TRANSACTION_NORMAL 7 DPS_NO_ERR qid sample_server.
Definition sample_msg (ty qid : Z) (b : dps_client_body) : dps_client_data_t :=
  mk_client_data 77 (sample_hdr ty qid) b.

Definition start : trace := mk_trace [] 100 false true.
