(* ===== verification/Protocol.v ===== *)
(** * The protocol: what the send and the receive side guarantee

    The theorems about whole messages: a message that is sent goes out as the
    wire packet, and a wire packet that is received is delivered as the message
    it carries, acknowledged and accounted. *)
From S2P Require Export RecvSpec.

(** ** Sending *)
Section sending.
Context {W : Type} `{EnvLaws W}.

(** What is counted once a message has been handed on. *)
Definition count_sent (m : out (Z * dps_client_data_t * W)) (t : stats_tbl)
  : out (Z * dps_client_data_t * pstate (W := W)) :=
  let* (ret, c, w) := m in
  Done (ret, c, (count (if (ret =? DPS_SUCCESS)%Z then incr_sent else incr_transmit_error)
        (ch_type (cd_hdr c)) t, w)).

(** The types nothing is sent for: an invalidation of a policy, the reply to a
    question for an address, and the question for a DCS node. *)
Definition unsent (ty : Z) : bool :=
  existsb (Z.eqb ty) [DPS_POLICY_INVALIDATE; DPS_ADDR_REPLY; DPS_GET_DCS_NODE].

(** What the caller of a send owes for the other types: the body of the type,
    well formed, with the room it needs in a buffer.  The lists of tunnels of
    gateways are written without a look at the result of the allocation. *)
Definition send_ready (c : dps_client_data_t) (w : W) : Prop :=
  well_typed (ch_type (cd_hdr c)) (cd_body c) = true /\ body_ok c /\
  DPS_PKT_HDR_LEN + length (wire_body c) <= send_room (cd_body c) /\
  (is_tunnel_info (cd_body c) = true -> (dps_alloc_buff w).1 <> None).

(** An acknowledgement: the header alone, neither in a buffer of the pool nor
    with a context. *)
Definition send_bare (c : dps_client_data_t) (w : W) : Z * dps_client_data_t * W :=
  let '(c, w) := assign_query_id c w in
  let '(status, w) :=
    dps_protocol_xmit (lay (replicate DPS_PKT_HDR_LEN 0%Z) 0
      (wire_pkt (ch_type (cd_hdr c)) (cd_hdr c) []))
    (ch_reply_addr (cd_hdr c)) 0 w in
  (status, c, w).

(** What a send does, by its state, its type and its body. *)
Definition client_send_spec (c : dps_client_data_t) (st : pstate)
  : out (Z * dps_client_data_t * pstate (W := W)) :=
  let '(t, w) := st in
  let ty := ch_type (cd_hdr c) in
  if dps_server && negb (dps_cluster_is_local_node_active w)
  then Done (DPS_SUCCESS, c, (t, w))
  else if negb (known_type ty)
  then Done (DPS_ERROR, c, (count incr_transmit_error 0 t, w))
  else count_sent
    (if unsent ty then Done (DPS_SUCCESS, c, w)
    else match cd_body c with
      | Body_none => Done (send_bare c w)
      | b => send_packet (send_err b) (send_status b) ty (sent_body c) c w
      end) t.

Lemma call_send_unsent c (w : W) :
  unsent (ch_type (cd_hdr c)) = true ->
  call_send (ch_type (cd_hdr c)) c w = Done (DPS_SUCCESS, c, w).
Proof.
  unfold unsent. cbn [existsb]. rewrite !orb_true_iff, !Z.eqb_eq.
  by intros [-> | [-> | [-> | ?]]].
Qed.

Lemma call_send_typed c (w : W) :
  send_ready c w ->
  call_send (ch_type (cd_hdr c)) c w =
    match cd_body c with
    | Body_none => Done (send_bare c w)
    | b => send_packet (send_err b) (send_status b) (ch_type (cd_hdr c)) (sent_body c) c w
    end.
Proof.
  intros (Hty & Hok & Hf & Hal).
  assert (cd_body c <> Body_none -> call_send (ch_type (cd_hdr c)) c w =
    send_packet (send_err (cd_body c)) (send_status (cd_body c)) (ch_type (cd_hdr c))
      (sent_body c) c w) as Hs by (intros ?; by apply call_send_refines).
  destruct (cd_body c) eqn:E; try by apply Hs.
  rewrite send_general_ack_spec by done. unfold send_bare.
  destruct (assign_query_id c w) as [c' w']. by destruct (dps_protocol_xmit _ _ _ _).
Qed.

End sending.

(** The packet a send on the recording environment transmits. *)
Definition sent_pkts (t : trace) : list (list Z) :=
  omap (fun e => match e with Ev_xmit p _ _ => Some p | _ => None end) (tr_events t).


(** ** Lengths *)
Definition is_tunnel_list (b : dps_client_body) : bool :=
  match b with Body_tunnel_info _ | Body_tunnel_reg_dereg _ => true | _ => false end.

Lemma length_wire_client a : wf_addr a -> length (wire_client a) <= 24.
Proof.
  intros [[Hl _] _]. unfold wire_client, wire_svcloc.
  destruct (_ || _)%Z; [|simpl; lia]. destruct (is_v4 _); len.
Qed.

Lemma tunnel_list_bound_u32 x n :
  in16 (tl_num_of_tunnels x) -> (0 <= n <= 24)%Z ->
  u32 (Z.of_nat DPS_PKT_HDR_LEN + (tunnel_list_bound x + n))
  = (Z.of_nat DPS_PKT_HDR_LEN + (tunnel_list_bound x + n))%Z.
Proof.
  intros Hn Hb. apply u32_small. unfold in16, in32, tunnel_list_bound, DPS_PKT_HDR_LEN in *.
  destruct (_ =? 0)%Z; lia.
Qed.

(** C16.  The length computed before a message is encoded is the length of the
    encoding; for lists of tunnels of any family it is an upper bound. *)
Theorem pkt_len_covers ty c :
  well_typed ty (cd_body c) = true -> body_ok c ->
  exact_len (cd_body c) || is_tunnel_list (cd_body c) = true ->
  in32 (Z.of_nat (DPS_PKT_HDR_LEN + length (wire_body c))) ->
  exists len, calc_pkt_len ty c = Done len /\
    (Z.of_nat (DPS_PKT_HDR_LEN + length (wire_body c)) <= len)%Z /\
    (exact_len (cd_body c) = true ->
     len = Z.of_nat (DPS_PKT_HDR_LEN + length (wire_body c))).
Proof.
  intros Hty Hok Hask Hr. destruct (exact_len (cd_body c)) eqn:Hex.
  - rewrite calc_pkt_len_exact by done. eexists. by split_and!.
  - cbn [orb] in Hask. unfold calc_pkt_len, body_ok, wire_body in *.
    destruct (cd_body c) eqn:E; try discriminate Hask; rewrite <- E in Hty;
      [ rewrite (calc_body_len_tunnel_info _ _ _ E Hty)
      | rewrite (calc_body_len_tunnel_reg _ _ _ E Hty) ]; cbn [obind];
      eexists; (split_and!; [done| |done]).
    + destruct Hok as [Ht Hn]. pose proof (tunnel_list_bound_ok _ Ht).
      rewrite <- (Z.add_0_r (tunnel_list_bound _)), tunnel_list_bound_u32 by (done || lia). lia.
    + destruct Hok as (Ht & Hn & Hc). pose proof (tunnel_list_bound_ok _ Ht).
      pose proof (length_wire_client _ Hc). rewrite length_app.
      rewrite tunnel_list_bound_u32 by (done || (unfold DPS_SVCLOC6_TLV_LEN; len)).
      unfold DPS_SVCLOC6_TLV_LEN, DPS_TLV_HDR_LEN. lia.
Qed.

Lemma pkt_len_covers_witness :
  exists len, calc_pkt_len DPS_ENDPOINT_UPDATE
                (sample_msg DPS_ENDPOINT_UPDATE 5 (Body_endpoint_update sample_update))
              = Done len /\ len = 112%Z.
Proof.
  destruct (pkt_len_covers DPS_ENDPOINT_UPDATE
    (sample_msg DPS_ENDPOINT_UPDATE 5 (Body_endpoint_update sample_update))
    eq_refl ltac:(decided) eq_refl ltac:(decided)) as (len & E & _ & H).
  exists len. split; [exact E|]. rewrite (H eq_refl). vm_compute. reflexivity.
Defined.

(** ** The header *)

Section header.
Context {W : Type} `{EnvLaws W}.

(** The header that is sent: a client marks every message as normal and gives
    one without a query id the id [q]; a server sends what it is given. *)
Definition sent_hdr (q : Z) (h : dps_client_hdr_t) : dps_client_hdr_t :=
  if dps_server then h
  else mk_client_hdr (ch_type h) (ch_sub_type h) (ch_client_id h) DPS_TRANSACTION_NORMAL
    (ch_vnid h) (ch_resp_status h) (if (ch_query_id h =? 0)%Z then q else ch_query_id h)
    (ch_reply_addr h).

Lemma assign_query_id_hdr c (w : W) c' w' :
  assign_query_id c w = (c', w') ->
  cd_hdr c' = sent_hdr (raw_proto_query_id_generate w).1 (cd_hdr c).
Proof.
  unfold assign_query_id, sent_hdr. destruct dps_server; [by intros [= <- _]|].
  destruct (ch_query_id (cd_hdr c) =? 0)%Z; [|by intros [= <- _]].
  destruct (raw_proto_query_id_generate w). by intros [= <- _].
Qed.

(** Laying what is already there changes nothing. *)
Lemma lay_matches b off p : matches b off p -> lay b off p = b.
Proof.
  intros [Hl Hm]. apply list_eq. intros i. rewrite lookup_lay.
  destruct (b !! i) as [x|] eqn:E; [|done]. cbn. f_equal. case_decide; [|done].
  destruct (p !! (i - off)) as [[v|]|] eqn:Ep; try done.
  apply Hm in Ep. replace (off + (i - off)) with i in Ep by lia. cbn. congruence.
Qed.

(** C15.  When the header of an encodable message is written in front of its
    body, the receiver of the packet reads back the header that was sent, and
    the number of bytes of the body, and finds the body where it was. *)
Theorem header_round_trip b c (w : W) h0 :
  let body := sent_body c in
  let n := DPS_PKT_HDR_LEN + length body in
  let h := sent_hdr (raw_proto_query_id_generate w).1 (cd_hdr c) in
  body_ok c -> hdr_ok h -> matches b DPS_PKT_HDR_LEN body -> (Z.of_nat n < 65536)%Z ->
  exists b' c' w',
    dps_set_pkt_hdr b 0 (ch_type (cd_hdr c)) c (Z.of_nat n) w = Done (b', c', w') /\
    cd_hdr c' = h /\
    dps_get_pkt_hdr (take n b') 0 h0 =
      Done (with_reply_addr h (ch_reply_addr h0), Z.of_nat (length body)) /\
    length (take n b') = n /\ matches (take n b') DPS_PKT_HDR_LEN body.
Proof.
  intros body n h Hok Hh [Hb Hm] Hl.
  rewrite dps_set_pkt_hdr_lay by lia.
  destruct (assign_query_id c w) as [c' w'] eqn:Eq.
  apply assign_query_id_keeps in Eq as Ek. destruct Ek as (_ & _ & Et & _ & _).
  apply assign_query_id_hdr in Eq. fold h in Eq. rewrite Eq in *.
  do 3 eexists. split; [done|]. split; [done|].
  assert (lay b 0 (wire_pkt_hdr (ch_type (cd_hdr c)) h n)
          = lay b 0 (wire_pkt (ch_type h) h body)) as ->.
  { rewrite <- Et. unfold wire_pkt. fold n. rewrite <- (lay_app b 0).
    symmetry. apply lay_matches. split; [by rewrite length_lay|].
    intros i v Hi. rewrite lookup_lay, length_wire_pkt_hdr, Nat.add_0_l, (Hm i v Hi). cbn.
    by rewrite decide_True by lia. }
  assert (pkt_at (take n (lay b 0 (wire_pkt (ch_type h) h body))) h body) as Hp
    by (split_and!; [by apply sent_matches | done | by apply sent_body_aligned | done]).
  split_and!; [by apply pkt_at_hdr | | by eapply pkt_at_body].
  rewrite length_take, length_lay. lia.
Qed.
End header.

Lemma header_round_trip_witness :
  let c := sample_msg DPS_ENDPOINT_LOC_REPLY 0 (Body_endpoint_loc_reply sample_loc_reply) in
  exists b' c' w' n, dps_set_pkt_hdr (H := trace_env false)
      (lay (replicate 200 165%Z) 20 (sent_body c)) 0 DPS_ENDPOINT_LOC_REPLY c 112 start
      = Done (b', c', w') /\
    dps_get_pkt_hdr (take 112 b') 0 zero_client_hdr =
      Done (with_reply_addr (sample_hdr DPS_ENDPOINT_LOC_REPLY 100) zero_ip_addr, n).
Proof.
  intros c.
  destruct (header_round_trip (W := trace) (H := trace_env false)
    (lay (replicate 200 165%Z) 20 (sent_body c)) c start zero_client_hdr
    ltac:(decided) ltac:(decided) ltac:(apply matches_lay; decided) ltac:(decided))
    as (b' & c' & w' & E & _ & Eg & _).
  exists b', c', w'. eexists. split; [exact E | exact Eg].
Defined.

(** ** Query ids *)

(**  A server build sends the header as it is; a client build gives a message
    without a query id a fresh one, keeps the id of a message that has one, and
    changes nothing else but the transaction type. *)
Theorem query_id_assigned {W} `{Env W} c (w : W) :
  let '(c', w') := assign_query_id c w in
  let q := ch_query_id (cd_hdr c) in
  (dps_server = true -> c' = c /\ w' = w) /\
  (dps_server = false ->
     (q <> 0%Z -> ch_query_id (cd_hdr c') = q /\ w' = w) /\
     (q = 0%Z -> (ch_query_id (cd_hdr c'), w') = raw_proto_query_id_generate w) /\
     cd_hdr c' = mk_client_hdr (ch_type (cd_hdr c)) (ch_sub_type (cd_hdr c))
                   (ch_client_id (cd_hdr c)) DPS_TRANSACTION_NORMAL (ch_vnid (cd_hdr c))
                   (ch_resp_status (cd_hdr c)) (ch_query_id (cd_hdr c'))
                   (ch_reply_addr (cd_hdr c)) /\
     cd_body c' = cd_body c /\ cd_context c' = cd_context c).
Proof.
  unfold assign_query_id. destruct dps_server; [done|].
  destruct (Z.eqb_spec (ch_query_id (cd_hdr c)) 0) as [E|E].
  - destruct (raw_proto_query_id_generate w) as [q w1] eqn:Eg. cbn. rewrite E.
    split; [done|]. intros _. by split_and!.
  - cbn. split; [done|]. intros _. by split_and!.
Qed.

(** ** Receiving *)
Section receiving.
Context {W : Type} `{EnvLaws W}.
Context (fuel : nat) (heap_counts : Z -> Z * Z) (stack_addr : ip_addr_t).

(** The result of a handler, counted under the type of the packet. *)
Definition account (ty : Z) (m : out (Z * pstate (W := W))) : out (Z * pstate (W := W)) :=
  let* (ret, (t, w)) := m in
  Done (ret, (count (if (ret =? DPS_SUCCESS)%Z then incr_recv else incr_recv_error) ty t, w)).

Lemma pkt_at_type b h body : pkt_at b h body -> load8 b 1 = Done (ch_type h).
Proof.
  intros Hp. pose proof (pkt_at_hdr _ _ _ zero_client_hdr Hp) as E.
  unfold dps_get_pkt_hdr in E. change (0 + 1) with 1 in E.
  destruct (load8 b 1) as [ty| |] eqn:El; try discriminate E. cbn [obind] in E.
  apply obind_Done_inv in E as (len & _ & E). apply obind_Done_inv in E as (q & _ & E).
  apply obind_Done_inv in E as (v & _ & E). apply obind_Done_inv in E as (s & _ & E).
  apply obind_Done_inv in E as (r & _ & E). apply obind_Done_inv in E as (ci & _ & E).
  apply obind_Done_inv in E as (tt' & _ & E).
  apply (f_equal (fun o => match o with Done (h, _) => ch_type h | _ => 0%Z end)) in E.
  cbn in E. by rewrite E.
Qed.

Lemma rcvd_dispatch recv sender h body st :
  pkt_at recv h body -> known_type (ch_type h) = true ->
  dps_process_rcvd_pkt fuel heap_counts stack_addr recv sender st =
    account (ch_type h) (call_recv fuel heap_counts stack_addr (ch_type h) recv sender st).
Proof.
  intros Hp Hk. unfold dps_process_rcvd_pkt, account.
  rewrite (pkt_at_type _ _ _ Hp). cbn [obind]. by rewrite Hk.
Qed.

Lemma call_recv_at t f recv sender st :
  dps_recv_func_tbl (W := W) fuel heap_counts stack_addr !! Z.to_nat t = Some (Some f) ->
  call_recv fuel heap_counts stack_addr t recv sender st = f recv sender st.
Proof. unfold call_recv. by intros ->. Qed.

(** [received f lem]: the packet goes to handler [f], which is [lem]. *)
Ltac received Hp Hty f lem :=
  rewrite (rcvd_dispatch _ _ _ _ _ Hp) by (rewrite Hty; reflexivity);
  rewrite (call_recv_at _ f) by (rewrite Hty; reflexivity);
  destruct lem as (x' & Hx & ->); exists x'; split; [exact Hx | rewrite ?Hty; reflexivity].

Context (recv : buf) (sender : ip_addr_t) (h : dps_client_hdr_t).

Lemma rcvd_addr_resolve x st :
  pkt_at recv h (wire_loc_req x) -> ch_type h = DPS_ADDR_RESOLVE ->
  loc_req_ok x -> 3 < fuel ->
  exists x', loc_req_from sender x x' /\
  dps_process_rcvd_pkt fuel heap_counts stack_addr recv sender st =
    account DPS_ADDR_RESOLVE
    (receive_msg false false true (from h sender) (Body_address_resolve x') st).
Proof.
  intros Hp Hty Hok Hf.
  received Hp Hty (dps_process_addr_resolve (W := W) fuel)
    (process_addr_resolve fuel recv sender h x st Hp Hok Hf).
Qed.

Lemma rcvd_loc_req x st :
  pkt_at recv h (wire_loc_req x) -> ch_type h = DPS_ENDPOINT_LOC_REQ ->
  loc_req_ok x -> 3 < fuel ->
  exists x', loc_req_from sender x x' /\
  dps_process_rcvd_pkt fuel heap_counts stack_addr recv sender st =
    account DPS_ENDPOINT_LOC_REQ
    (receive_request (from h sender) (Body_endpoint_loc_req x') st).
Proof.
  intros Hp Hty Hok Hf.
  received Hp Hty (dps_process_endpoint_loc_req (W := W) fuel)
    (process_loc_req fuel recv sender h x st Hp Hok Hf).
Qed.

(**  A location reply stops the retransmission of the request with its
    query id, and is delivered, with the context of that request, as the
    location that was encoded. *)
Theorem rcvd_loc_reply x st :
  pkt_at recv h (wire_endpoint_loc_reply x) -> ch_type h = DPS_ENDPOINT_LOC_REPLY ->
  loc_ok room_endpoint_loc_reply fuel (elr_version x) (elr_vnid x) (elr_mac x)
    (elr_vm_ip_addr x) (elr_tunnel_info x) ->
  exists x', x' ≡ x /\
  dps_process_rcvd_pkt fuel heap_counts stack_addr recv sender st =
    account DPS_ENDPOINT_LOC_REPLY
    (receive_msg true true false (from h sender) (Body_endpoint_loc_reply x') st).
Proof.
  intros Hp Hty Hl.
  received Hp Hty (dps_process_endpoint_loc_reply (W := W) fuel)
    (process_loc_reply fuel recv sender h x st Hp Hty Hl).
Qed.

(**  An unsolicited location reply is delivered as a solicited one, its
    type overwritten, and acknowledged under the overwritten type. *)
Theorem rcvd_unsolicited_loc_reply x st :
  pkt_at recv h (wire_endpoint_loc_reply x) ->
  ch_type h = DPS_UNSOLICITED_ENDPOINT_LOC_REPLY ->
  loc_ok room_endpoint_loc_reply fuel (elr_version x) (elr_vnid x) (elr_mac x)
    (elr_vm_ip_addr x) (elr_tunnel_info x) ->
  exists x', x' ≡ x /\
  dps_process_rcvd_pkt fuel heap_counts stack_addr recv sender st =
    account DPS_UNSOLICITED_ENDPOINT_LOC_REPLY
    (receive_msg false false true (with_type (from h sender) DPS_ENDPOINT_LOC_REPLY)
      (Body_endpoint_loc_reply x') st) /\
  ch_sub_type (ack_hdr (with_type (from h sender) DPS_ENDPOINT_LOC_REPLY))
    = DPS_ENDPOINT_LOC_REPLY.
Proof.
  intros Hp Hty Hl.
  rewrite (rcvd_dispatch _ _ _ _ _ Hp) by (rewrite Hty; reflexivity).
  rewrite (call_recv_at _ (dps_process_endpoint_loc_reply (W := W) fuel))
    by (rewrite Hty; reflexivity).
  destruct (process_unsolicited_loc_reply fuel recv sender h x st Hp Hty Hl)
    as (x' & Hx & ->).
  exists x'. rewrite Hty. by split_and!.
Qed.

(**  An endpoint update is delivered as the update that was encoded, with
    the sender as its client address if the packet has none. *)
Theorem rcvd_endpoint_update x st :
  pkt_at recv h (wire_endpoint_update x ++ wire_client (eu_dps_client_addr x)) ->
  ch_type h = DPS_ENDPOINT_UPDATE -> update_ok fuel x ->
  exists x', update_from sender x x' /\
  dps_process_rcvd_pkt fuel heap_counts stack_addr recv sender st =
    account DPS_ENDPOINT_UPDATE
    (receive_request (from h sender) (Body_endpoint_update x') st).
Proof.
  intros Hp Hty Hok.
  received Hp Hty (dps_process_endpoint_update (W := W) fuel)
    (process_update fuel recv sender h x st Hp Hok).
Qed.

(**  A policy request is delivered with its two endpoints in place. *)
Theorem rcvd_policy_req x st :
  pkt_at recv h (wire_policy_req x) -> ch_type h = DPS_POLICY_REQ ->
  wf_endpoint_info (pq_dst_endpoint x) -> wf_endpoint_info (pq_src_endpoint x) ->
  wf_addr (pq_dps_client_addr x) -> 3 < fuel ->
  exists x', policy_req_from sender x x' /\
  dps_process_rcvd_pkt fuel heap_counts stack_addr recv sender st =
    account DPS_POLICY_REQ (receive_request (from h sender) (Body_policy_req x') st).
Proof.
  intros Hp Hty Hd Hs Hc Hf.
  received Hp Hty (dps_process_policy_req (W := W) fuel)
    (process_policy_req fuel recv sender h x st Hp Hd Hs Hc Hf).
Qed.

(**  The requests without a body of their own, a list of gateways, of
    switches or of policies among them, are delivered with the client address of
    the packet, or the sender if it has none. *)
Theorem rcvd_gen_msg_req x st :
  pkt_at recv h (wire_client (gm_dps_client_addr x)) ->
  well_typed (ch_type h) (Body_gen_msg_req x) = true -> ch_type h <> DPS_CTRL_PLANE_HB ->
  wf_addr (gm_dps_client_addr x) -> 1 < fuel ->
  exists x', gm_dps_client_addr x' ≡ given (gm_dps_client_addr x) sender /\
  dps_process_rcvd_pkt fuel heap_counts stack_addr recv sender st =
    account (ch_type h) (receive_request (from h sender) (Body_gen_msg_req x') st).
Proof.
  intros Hp Hty Hhb Hc Hf.
  destruct (process_gen_msg fuel recv sender h x st Hp Hc Hf Hhb) as (x' & Hx & E).
  exists x'. split; [done|]. rewrite (rcvd_dispatch _ _ _ _ _ Hp).
  - rewrite (call_recv_at _ (dps_process_gen_msg_req (W := W) fuel)); [by rewrite E|].
    revert Hty. generalize (ch_type h). intros ty Hty. type_cases Hty; reflexivity.
  - revert Hty. generalize (ch_type h). intros ty Hty. type_cases Hty; reflexivity.
Qed.

(**  A heart beat is acknowledged and not delivered. *)
Theorem rcvd_heart_beat x t w :
  pkt_at recv h (wire_client (gm_dps_client_addr x)) -> ch_type h = DPS_CTRL_PLANE_HB ->
  wf_addr (gm_dps_client_addr x) -> 1 < fuel ->
  dps_process_rcvd_pkt fuel heap_counts stack_addr recv sender (t, w) =
    account DPS_CTRL_PLANE_HB
    (with_msg (t, w) (fun st =>
      let '(t, w) := send_ack (from h sender) st in
      Done (DPS_SUCCESS, (t, dps_free_buff w)))).
Proof.
  intros Hp Hty Hc Hf.
  destruct (process_heart_beat fuel recv sender h x t w Hp Hc Hf Hty) as (x' & Hx & E).
  rewrite (rcvd_dispatch _ _ _ _ _ Hp) by (rewrite Hty; reflexivity).
  rewrite (call_recv_at _ (dps_process_gen_msg_req (W := W) fuel))
    by (rewrite Hty; reflexivity).
  rewrite E, Hty. f_equal. apply with_msg_ext. intros t' w'.
  rewrite ack_if_spec. cbn [obind cd_hdr]. by destruct (send_ack _ _).
Qed.

(**  A list of internal gateways comes back as it was packed, the IPv4
    addresses before the IPv6 addresses; a solicited list stops the timer of its
    request, an unsolicited one is acknowledged. *)
Theorem rcvd_internal_gw n4 n6 words st :
  pkt_at recv h (wire_packed n4 n6 words) ->
  ch_type h = DPS_INTERNAL_GW_REPLY \/ ch_type h = DPS_UNSOLICITED_INTERNAL_GW_REPLY ->
  packed_ok room_internal_gw fuel n4 n6 words ->
  dps_process_rcvd_pkt fuel heap_counts stack_addr recv sender st =
    account (ch_type h)
    (receive_msg (ch_type h =? DPS_INTERNAL_GW_REPLY)%Z false
      (ch_type h =? DPS_UNSOLICITED_INTERNAL_GW_REPLY)%Z (from h sender)
      (Body_internal_gw_list
        (mk_internal_gw n4 n6 (take (Z.to_nat n4 + 4 * Z.to_nat n6) words))) st).
Proof.
  intros Hp Hty Hok. rewrite (rcvd_dispatch _ _ _ _ _ Hp) by (by destruct Hty as [-> | ->]).
  rewrite (call_recv_at _ (dps_process_internal_gw_reply (W := W) fuel))
    by (by destruct Hty as [-> | ->]).
  unfold dps_process_internal_gw_reply.
  by rewrite (process_packed_spec _ _ _ _ _ _ _ _ _ _ _ _ Hp Hok).
Qed.

(**  The same for the list of the switches of a network. *)
Theorem rcvd_bcast_list n4 n6 words st :
  pkt_at recv h (wire_packed n4 n6 words) ->
  ch_type h = DPS_BCAST_LIST_REPLY \/ ch_type h = DPS_UNSOLICITED_BCAST_LIST_REPLY ->
  packed_ok room_bcast fuel n4 n6 words ->
  dps_process_rcvd_pkt fuel heap_counts stack_addr recv sender st =
    account (ch_type h)
    (receive_msg (ch_type h =? DPS_BCAST_LIST_REPLY)%Z false
      (ch_type h =? DPS_UNSOLICITED_BCAST_LIST_REPLY)%Z (from h sender)
      (Body_dove_switch_list
        (mk_pkd_tunnel_list 0 n4 n6 (take (Z.to_nat n4 + 4 * Z.to_nat n6) words))) st).
Proof.
  intros Hp Hty Hok. rewrite (rcvd_dispatch _ _ _ _ _ Hp) by (by destruct Hty as [-> | ->]).
  rewrite (call_recv_at _ (dps_process_bcast_list_reply (W := W) fuel))
    by (by destruct Hty as [-> | ->]).
  unfold dps_process_bcast_list_reply.
  by rewrite (process_packed_spec _ _ _ _ _ _ _ _ _ _ _ _ Hp Hok).
Qed.

(**  A list of gateways comes back tunnel by tunnel: the solicited lists
    stop a timer, the unsolicited ones are acknowledged. *)
Theorem rcvd_gw_list x st :
  pkt_at recv h (wire_tunnel_list (tunnels x)) ->
  gw_solicited (ch_type h) || gw_unsolicited (ch_type h) = true ->
  tunnels_ok room_gw_list fuel x -> fits (wire_tunnel_list (tunnels x)) -> 1 < fuel ->
  exists x', x' ≡ x /\
  dps_process_rcvd_pkt fuel heap_counts stack_addr recv sender st =
    account (ch_type h)
    (receive_msg (gw_solicited (ch_type h)) false (gw_unsolicited (ch_type h))
      (from h sender) (Body_tunnel_info x') st).
Proof.
  intros Hp Hty Ht Hfit Hf.
  destruct (process_gw_list fuel recv sender h x st Hp Ht Hfit Hf) as (x' & Hx & E).
  exists x'. split; [done|]. rewrite (rcvd_dispatch _ _ _ _ _ Hp).
  - rewrite (call_recv_at _ (dps_process_gw_list (W := W) fuel)); [by rewrite E|].
    revert Hty. generalize (ch_type h). intros ty [Hty|Hty]%orb_prop; type_cases Hty; reflexivity.
  - revert Hty. generalize (ch_type h). intros ty [Hty|Hty]%orb_prop; type_cases Hty; reflexivity.
Qed.

(**  The registration and the release of tunnels are delivered with the
    tunnels that were encoded. *)
Theorem rcvd_tunnel_reg x st :
  pkt_at recv h (wire_tunnel_list (tunnels (tr_tunnel_info x))
      ++ wire_client (tr_dps_client_addr x)) ->
  ch_type h = DPS_TUNNEL_REGISTER \/ ch_type h = DPS_TUNNEL_DEREGISTER ->
  tunnels_ok room_tunnel_reg fuel (tr_tunnel_info x) ->
  fits (wire_tunnel_list (tunnels (tr_tunnel_info x))) ->
  wf_addr (tr_dps_client_addr x) -> 2 < fuel ->
  exists x', tunnel_reg_from sender x x' /\
  dps_process_rcvd_pkt fuel heap_counts stack_addr recv sender st =
    account (ch_type h) (receive_request (from h sender) (Body_tunnel_reg_dereg x') st).
Proof.
  intros Hp Hty Ht Hfit Hc Hf.
  destruct (process_tunnel_reg fuel recv sender h x st Hp Ht Hfit Hc Hf) as (x' & Hx & E).
  exists x'. split; [done|]. rewrite (rcvd_dispatch _ _ _ _ _ Hp) by (by destruct Hty as [-> | ->]).
  rewrite (call_recv_at _ (dps_process_tunnel_reg_dereg (W := W) fuel))
    by (by destruct Hty as [-> | ->]).
  by rewrite E.
Qed.

(**  A sender of multicast is registered and deregistered with its machine
    and its group, a receiver with the sources it wants of a group. *)
Theorem rcvd_mcast_sender x st :
  pkt_at recv h (wire_mcast_sender x) ->
  ch_type h = DPS_MCAST_SENDER_REGISTRATION \/ ch_type h = DPS_MCAST_SENDER_DEREGISTRATION ->
  mcast_sender_ok x -> 4 < fuel ->
  exists x', mcast_sender_from sender x x' /\
  dps_process_rcvd_pkt fuel heap_counts stack_addr recv sender st =
    account (ch_type h) (receive_request (from h sender) (Body_mcast_sender x') st).
Proof.
  intros Hp Hty Hok Hf.
  destruct (process_mcast_sender fuel recv sender h x st Hp Hok Hf) as (x' & Hx & E).
  exists x'. split; [done|]. rewrite (rcvd_dispatch _ _ _ _ _ Hp) by (by destruct Hty as [-> | ->]).
  rewrite (call_recv_at _ (dps_process_mcast_sender_reg_dereg (W := W) fuel))
    by (by destruct Hty as [-> | ->]).
  by rewrite E.
Qed.

Theorem rcvd_mcast_receiver x st :
  pkt_at recv h (wire_mcast_receiver x) ->
  ch_type h = DPS_MCAST_RECEIVER_JOIN \/ ch_type h = DPS_MCAST_RECEIVER_LEAVE ->
  mcast_receiver_ok fuel x -> 3 < fuel ->
  exists x', mcast_receiver_from sender x x' /\
  dps_process_rcvd_pkt fuel heap_counts stack_addr recv sender st =
    account (ch_type h) (receive_request (from h sender) (Body_mcast_receiver x') st).
Proof.
  intros Hp Hty Hok Hf.
  destruct (process_mcast_receiver fuel recv sender h x st Hp Hok Hf) as (x' & Hx & E).
  exists x'. split; [done|]. rewrite (rcvd_dispatch _ _ _ _ _ Hp) by (by destruct Hty as [-> | ->]).
  rewrite (call_recv_at _ (dps_process_mcast_receiver_join_leave (W := W) fuel))
    by (by destruct Hty as [-> | ->]).
  by rewrite E.
Qed.

(**  A migration is delivered with the machine that moved and where it was. *)
Theorem rcvd_vm_migration x st :
  pkt_at recv h (wire_vm_migration x) -> ch_type h = DPS_VM_MIGRATION_EVENT ->
  wf_endpoint_info (vm_migrated_vm_info x) ->
  (let r := vm_src_vm_loc x in
    loc_ok room_vm_migration fuel (elr_version r) (elr_vnid r) (elr_mac r)
      (elr_vm_ip_addr r) (elr_tunnel_info r)) ->
  exists x', x' ≡ x /\
  dps_process_rcvd_pkt fuel heap_counts stack_addr recv sender st =
    account DPS_VM_MIGRATION_EVENT
    (receive_request (from h sender) (Body_vm_migration_event x') st).
Proof.
  intros Hp Hty Hi Hl.
  received Hp Hty (dps_process_vm_migration_event (W := W) fuel)
    (process_vm_migration fuel recv sender h x st Hp Hi Hl).
Qed.

(**  An acknowledgement stops the timer of the request with its query id
    and is delivered with the context of that request; a request that is not
    outstanding makes it an error. *)
Theorem rcvd_ack st :
  pkt_at recv h [] -> well_typed (ch_type h) Body_none = true ->
  dps_process_rcvd_pkt fuel heap_counts stack_addr recv sender st =
    account (ch_type h) (receive_msg true true false (from h sender) Body_none st).
Proof.
  intros Hp Hty. rewrite (rcvd_dispatch _ _ _ _ _ Hp).
  - rewrite (call_recv_at _ (dps_process_general_ack (W := W)));
      [by rewrite (process_general_ack recv sender h st Hp)|].
    revert Hty. generalize (ch_type h). intros ty Hty. type_cases Hty; reflexivity.
  - revert Hty. generalize (ch_type h). intros ty Hty. type_cases Hty; reflexivity.
Qed.

(** C35.  Whatever the bytes, with more fuel than bytes the parsing comes to an
    end: only the four handlers with a loop that may stand still are left out. *)
Theorem rcvd_terminates ty st :
  load8 recv 1 = Done ty -> may_loop ty = false -> length recv < fuel ->
  dps_process_rcvd_pkt fuel heap_counts stack_addr recv sender st <> Timeout.
Proof.
  intros Hty Hl Hf. unfold dps_process_rcvd_pkt. rewrite Hty. cbn [obind].
  destruct (known_type ty) eqn:Hk; [|by destruct st].
  apply obind_nt; [by apply call_recv_nt|]. by intros [? []] _.
Qed.

(**  Every packet is accounted once: its type's counter of packets or of
    errors goes up by one as the status says, all the other receive counters
    stay; a packet of an unknown type is an error of entry 0 and changes
    nothing else. *)
Theorem rcvd_accounted ty t w ret t' w' :
  load8 recv 1 = Done ty ->
  dps_process_rcvd_pkt fuel heap_counts stack_addr recv sender (t, w) = Done (ret, (t', w')) ->
  recvd t' = alter (bump (ret =? DPS_SUCCESS)%Z) (stats_entry ty) (recvd t) /\
  (known_type ty = false -> ret = DPS_ERROR /\ w' = w).
Proof. apply rcvd_pkt_accounts. Qed.

(** A packet without a type byte is an access outside the buffer. *)
Lemma rcvd_short st :
  length recv < 2 ->
  dps_process_rcvd_pkt fuel heap_counts stack_addr recv sender st = Fault.
Proof.
  intros Hl. unfold dps_process_rcvd_pkt, load8, arr_read.
  by rewrite lookup_ge_None_2 by lia.
Qed.

(**  A policy request that holds a TLV of another type than an endpoint or
    a service location is parsed for ever: the loop does not advance. *)
Theorem policy_req_stuck ph len hd t w :
  dps_get_pkt_hdr recv 0 zero_client_hdr = Done (ph, len) -> (0 < len)%Z ->
  dps_get_tlv_hdr recv DPS_PKT_HDR_LEN = Done hd ->
  th_type hd <> ENDPOINT_INFO_TLV -> is_svcloc (th_type hd) = false ->
  (dps_alloc_buff w).1 <> None ->
  dps_process_policy_req fuel recv sender (t, w) = Timeout.
Proof.
  intros Hph Hlen Hhd Hne Hns Hal. unfold dps_process_policy_req, with_msg.
  destruct (dps_alloc_buff w) as [[b|] w1]; [|done]. rewrite Hph. cbn [obind].
  unfold tlv_loop. rewrite while_stuck; [done | lia |].
  unfold policy_req_item. rewrite Hhd. cbn [obind].
  by rewrite (proj2 (Z.eqb_neq _ _) Hne), Hns.
Qed.
End receiving.

(** *** Evaluated on packets *)
Definition rcv (fuel : nat) (recv : buf) (t : trace) : out (Z * pstate (W := trace)) :=
  dps_process_rcvd_pkt (H := trace_env true) fuel (fun _ => (0, 0)%Z) zero_ip_addr recv
    sample_switch (dps_pkt_stats_tbl, t).
Definition rcv_h (ty : Z) : dps_client_hdr_t := sample_hdr ty 41.

Ltac on_packet := first [apply packet_at; decided | reflexivity | decided].

Lemma rcvd_loc_reply_witness :
  let h := rcv_h DPS_ENDPOINT_LOC_REPLY in
  exists x', x' ≡ sample_loc_reply /\
    rcv 9 (packet h (wire_endpoint_loc_reply sample_loc_reply)) start =
    Done (DPS_SUCCESS,
      (count incr_recv DPS_ENDPOINT_LOC_REPLY dps_pkt_stats_tbl,
       mk_trace [Ev_alloc; Ev_timer_stop 41;
                 Ev_deliver (mk_client_data 41 (from h sample_switch)
                               (Body_endpoint_loc_reply x')); Ev_free] 100 false true)).
Proof.
  intros h.
  destruct (rcvd_loc_reply (H := trace_env true) 9 (fun _ => (0, 0)%Z) zero_ip_addr
    (packet h (wire_endpoint_loc_reply sample_loc_reply)) sample_switch h sample_loc_reply
    (dps_pkt_stats_tbl, start)) as (x' & Hx & E); [on_packet..|].
  exists x'. split; [exact Hx|]. etransitivity; [exact E|]. reflexivity.
Defined.

Lemma rcvd_unsolicited_loc_reply_witness :
  let h := rcv_h DPS_UNSOLICITED_ENDPOINT_LOC_REPLY in
  exists x', x' ≡ sample_loc_reply /\
    rcv 9 (packet h (wire_endpoint_loc_reply sample_loc_reply)) start =
    account DPS_UNSOLICITED_ENDPOINT_LOC_REPLY
      (receive_msg (H := trace_env true) false false true
         (with_type (from h sample_switch) DPS_ENDPOINT_LOC_REPLY)
         (Body_endpoint_loc_reply x') (dps_pkt_stats_tbl, start)).
Proof.
  intros h.
  destruct (rcvd_unsolicited_loc_reply (H := trace_env true) 9 (fun _ => (0, 0)%Z)
    zero_ip_addr (packet h (wire_endpoint_loc_reply sample_loc_reply)) sample_switch h
    sample_loc_reply (dps_pkt_stats_tbl, start)) as (x' & Hx & E & _); [on_packet..|].
  exists x'. split; [exact Hx | exact E].
Defined.

(** A request that is delivered as [b]. *)
Definition rcvd_as (h : dps_client_hdr_t) (b : dps_client_body) (recv : buf) : Prop :=
  rcv 9 recv start =
  Done (DPS_SUCCESS,
    (count incr_recv (ch_type h) dps_pkt_stats_tbl,
     mk_trace [Ev_alloc; Ev_deliver (mk_client_data 0 (from h sample_switch) b); Ev_free]
       100 false true)).

Ltac witness_of E x' :=
  exists x'; split; [assumption | etransitivity; [exact E | reflexivity]].

Lemma rcvd_endpoint_update_witness :
  let h := rcv_h DPS_ENDPOINT_UPDATE in
  exists x', update_from sample_switch sample_update x' /\
    rcvd_as h (Body_endpoint_update x')
      (packet h (wire_endpoint_update sample_update
                 ++ wire_client (eu_dps_client_addr sample_update))).
Proof.
  intros h.
  destruct (rcvd_endpoint_update (H := trace_env true) 9 (fun _ => (0, 0)%Z) zero_ip_addr
    (packet h (wire_endpoint_update sample_update
               ++ wire_client (eu_dps_client_addr sample_update))) sample_switch h
    sample_update (dps_pkt_stats_tbl, start)) as (x' & Hx & E); [on_packet..|].
  witness_of E x'.
Defined.

Lemma rcvd_policy_req_witness :
  let h := rcv_h DPS_POLICY_REQ in
  exists x', policy_req_from sample_switch sample_policy_req x' /\
    rcvd_as h (Body_policy_req x') (packet h (wire_policy_req sample_policy_req)).
Proof.
  intros h.
  destruct (rcvd_policy_req (H := trace_env true) 9 (fun _ => (0, 0)%Z) zero_ip_addr
    (packet h (wire_policy_req sample_policy_req)) sample_switch h
    sample_policy_req (dps_pkt_stats_tbl, start)) as (x' & Hx & E); [on_packet..|].
  witness_of E x'.
Defined.

Lemma rcvd_gen_msg_req_witness :
  let h := rcv_h DPS_BCAST_LIST_REQ in
  exists x', gm_dps_client_addr x' ≡ sample_server /\
    rcvd_as h (Body_gen_msg_req x') (packet h (wire_client sample_server)).
Proof.
  intros h.
  destruct (rcvd_gen_msg_req (H := trace_env true) 9 (fun _ => (0, 0)%Z) zero_ip_addr
    (packet h (wire_client sample_server)) sample_switch h
    (mk_gen_msg_req sample_server) (dps_pkt_stats_tbl, start)) as (x' & Hx & E);
    [on_packet | reflexivity | discriminate | on_packet | on_packet |].
  witness_of E x'.
Defined.

Lemma rcvd_heart_beat_witness :
  exists p, rcv 9 (packet (rcv_h DPS_CTRL_PLANE_HB) (wire_client sample_server)) start =
    Done (DPS_SUCCESS,
      (count incr_recv DPS_CTRL_PLANE_HB (count incr_sent DPS_GENERAL_ACK dps_pkt_stats_tbl),
       mk_trace [Ev_alloc; Ev_xmit p sample_switch 0; Ev_free] 100 false true)).
Proof.
  eexists.
  etransitivity; [exact (rcvd_heart_beat (H := trace_env true) 9 (fun _ => (0, 0)%Z)
    zero_ip_addr (packet (rcv_h DPS_CTRL_PLANE_HB) (wire_client sample_server)) sample_switch
    (rcv_h DPS_CTRL_PLANE_HB) (mk_gen_msg_req sample_server) dps_pkt_stats_tbl start
    ltac:(on_packet) ltac:(on_packet) ltac:(on_packet) ltac:(on_packet)) | reflexivity].
Defined.

Definition sample_words : list Z := [167772165; 167772166; 538777600; 0; 0; 83886080]%Z.

Lemma rcvd_internal_gw_witness :
  let h := rcv_h DPS_INTERNAL_GW_REPLY in
  rcv 9 (packet h (wire_packed 2 1 sample_words)) start =
  Done (DPS_SUCCESS,
    (count incr_recv DPS_INTERNAL_GW_REPLY dps_pkt_stats_tbl,
     mk_trace [Ev_alloc; Ev_timer_stop 41;
               Ev_deliver (mk_client_data 41 (from h sample_switch)
                             (Body_internal_gw_list (mk_internal_gw 2 1 sample_words)));
               Ev_free] 100 false true)).
Proof.
  intros h.
  etransitivity; [exact (rcvd_internal_gw (H := trace_env true) 9 (fun _ => (0, 0)%Z)
    zero_ip_addr (packet h (wire_packed 2 1 sample_words)) sample_switch h 2 1 sample_words
    (dps_pkt_stats_tbl, start) ltac:(on_packet) (or_introl eq_refl) ltac:(on_packet))
  | reflexivity].
Defined.

Lemma rcvd_bcast_list_witness :
  let h := rcv_h DPS_UNSOLICITED_BCAST_LIST_REPLY in
  exists p, rcv 9 (packet h (wire_packed 2 1 sample_words)) start =
  Done (DPS_SUCCESS,
    (count incr_recv DPS_UNSOLICITED_BCAST_LIST_REPLY
       (count incr_sent DPS_GENERAL_ACK dps_pkt_stats_tbl),
     mk_trace [Ev_alloc;
               Ev_deliver (mk_client_data 0 (from h sample_switch)
                             (Body_dove_switch_list (mk_pkd_tunnel_list 0 2 1 sample_words)));
               Ev_xmit p sample_switch 0; Ev_free] 100 false true)).
Proof.
  intros h. eexists.
  etransitivity; [exact (rcvd_bcast_list (H := trace_env true) 9 (fun _ => (0, 0)%Z)
    zero_ip_addr (packet h (wire_packed 2 1 sample_words)) sample_switch h 2 1 sample_words
    (dps_pkt_stats_tbl, start) ltac:(on_packet) (or_intror eq_refl) ltac:(on_packet))
  | reflexivity].
Defined.

Lemma rcvd_gw_list_witness :
  let h := rcv_h DPS_VLAN_GW_LIST_REPLY in
  exists x', x' ≡ sample_tunnels /\
    rcv 9 (packet h (wire_tunnel_list (tunnels sample_tunnels))) start =
    Done (DPS_SUCCESS,
      (count incr_recv DPS_VLAN_GW_LIST_REPLY dps_pkt_stats_tbl,
       mk_trace [Ev_alloc; Ev_timer_stop 41;
                 Ev_deliver (mk_client_data 41 (from h sample_switch) (Body_tunnel_info x'));
                 Ev_free] 100 false true)).
Proof.
  intros h.
  destruct (rcvd_gw_list (H := trace_env true) 9 (fun _ => (0, 0)%Z) zero_ip_addr
    (packet h (wire_tunnel_list (tunnels sample_tunnels))) sample_switch h sample_tunnels
    (dps_pkt_stats_tbl, start)) as (x' & Hx & E); [on_packet..|].
  witness_of E x'.
Defined.

Lemma rcvd_tunnel_reg_witness :
  let h := rcv_h DPS_TUNNEL_REGISTER in
  exists x', tunnel_reg_from sample_switch (mk_tunnel_reg zero_ip_addr sample_tunnels) x' /\
    rcvd_as h (Body_tunnel_reg_dereg x')
      (packet h (wire_tunnel_list (tunnels sample_tunnels) ++ wire_client zero_ip_addr)).
Proof.
  intros h.
  destruct (rcvd_tunnel_reg (H := trace_env true) 9 (fun _ => (0, 0)%Z) zero_ip_addr
    (packet h (wire_tunnel_list (tunnels sample_tunnels) ++ wire_client zero_ip_addr))
    sample_switch h (mk_tunnel_reg zero_ip_addr sample_tunnels)
    (dps_pkt_stats_tbl, start)) as (x' & Hx & E);
    [on_packet | by left | on_packet | on_packet | on_packet | on_packet |].
  witness_of E x'.
Defined.

Lemma rcvd_vm_migration_witness :
  let h := rcv_h DPS_VM_MIGRATION_EVENT in
  let x := mk_vm_migration (sample_info 7) sample_loc_reply in
  exists x', x' ≡ x /\
    rcvd_as h (Body_vm_migration_event x') (packet h (wire_vm_migration x)).
Proof.
  intros h x.
  destruct (rcvd_vm_migration (H := trace_env true) 9 (fun _ => (0, 0)%Z) zero_ip_addr
    (packet h (wire_vm_migration x)) sample_switch h x
    (dps_pkt_stats_tbl, start)) as (x' & Hx & E); [on_packet..|].
  witness_of E x'.
Defined.

Lemma rcvd_ack_witness :
  let h := rcv_h DPS_GENERAL_ACK in
  rcv 9 (packet h []) start =
  Done (DPS_SUCCESS,
    (count incr_recv DPS_GENERAL_ACK dps_pkt_stats_tbl,
     mk_trace [Ev_alloc; Ev_timer_stop 41;
               Ev_deliver (mk_client_data 41 (from h sample_switch) Body_none); Ev_free]
       100 false true)).
Proof.
  intros h.
  etransitivity; [exact (rcvd_ack (H := trace_env true) 9 (fun _ => (0, 0)%Z) zero_ip_addr
    (packet h []) sample_switch h (dps_pkt_stats_tbl, start) ltac:(on_packet) eq_refl)
  | reflexivity].
Defined.

Lemma rcvd_terminates_witness :
  rcv 12 [1; 6; 255; 255; 0; 0; 0; 1; 0; 0]%Z start <> Timeout.
Proof.
  apply (rcvd_terminates (H := trace_env true) 12 (fun _ => (0, 0)%Z) zero_ip_addr
    [1; 6; 255; 255; 0; 0; 0; 1; 0; 0]%Z sample_switch DPS_ENDPOINT_UPDATE); [reflexivity..|].
  decided.
Defined.

Lemma rcvd_accounted_witness :
  exists t, rcv 5 [1; 77]%Z start = Done (DPS_ERROR, (t, start)) /\
    recvd t = alter (bump false) 0 (recvd dps_pkt_stats_tbl).
Proof.
  assert (rcv 5 [1; 77]%Z start =
          Done (DPS_ERROR, (count incr_recv_error 0 dps_pkt_stats_tbl, start))) as E
    by reflexivity.
  eexists. split; [exact E|].
  exact (proj1 (rcvd_accounted (H := trace_env true) 5 (fun _ => (0, 0)%Z) zero_ip_addr
    [1; 77]%Z sample_switch 77 dps_pkt_stats_tbl start DPS_ERROR _ start eq_refl E)).
Defined.

(** A policy request with one TLV, of type 99. *)
Lemma policy_req_stuck_witness :
  dps_process_policy_req (H := trace_env true) 1000
    ([1; 3; 0; 5]%Z ++ replicate 16 0%Z ++ [1; 99; 0; 0]%Z) sample_switch
    (dps_pkt_stats_tbl, start) = Timeout.
Proof.
  eapply (policy_req_stuck (H := trace_env true) 1000); [reflexivity..| | |].
  - discriminate.
  - reflexivity.
  - discriminate.
Defined.
