(* ===== verification/Delivery.v ===== *)
(** * Every request and every list, in one statement each

    [request] lists the requests, with the bytes of each on the wire and what
    the delivered message may be;
    [listing] the lists it answers or waits for. *)
From S2P Require Export Protocol.

(** The type of the packet, its body on the wire, the messages it stands for. *)
Inductive request (fuel : nat) (sender : ip_addr_t)
    : Z -> pat -> (dps_client_body -> Prop) -> Prop :=
| Rq_location x :
    loc_req_ok x -> 3 < fuel ->
    request fuel sender DPS_ENDPOINT_LOC_REQ (wire_loc_req x)
      (fun b => exists x', b = Body_endpoint_loc_req x' /\ loc_req_from sender x x')
| Rq_resolve x :
    loc_req_ok x -> 3 < fuel ->
    request fuel sender DPS_ADDR_RESOLVE (wire_loc_req x)
      (fun b => exists x', b = Body_address_resolve x' /\ loc_req_from sender x x')
| Rq_update x :
    update_ok fuel x ->
    request fuel sender DPS_ENDPOINT_UPDATE
      (wire_endpoint_update x ++ wire_client (eu_dps_client_addr x))
      (fun b => exists x', b = Body_endpoint_update x' /\ update_from sender x x')
| Rq_policy x :
    wf_endpoint_info (pq_dst_endpoint x) -> wf_endpoint_info (pq_src_endpoint x) ->
    wf_addr (pq_dps_client_addr x) -> 3 < fuel ->
    request fuel sender DPS_POLICY_REQ (wire_policy_req x)
      (fun b => exists x', b = Body_policy_req x' /\ policy_req_from sender x x')
| Rq_tunnels ty x :
    ty = DPS_TUNNEL_REGISTER \/ ty = DPS_TUNNEL_DEREGISTER ->
    tunnels_ok room_tunnel_reg fuel (tr_tunnel_info x) ->
    fits (wire_tunnel_list (tunnels (tr_tunnel_info x))) ->
    wf_addr (tr_dps_client_addr x) -> 2 < fuel ->
    request fuel sender ty
      (wire_tunnel_list (tunnels (tr_tunnel_info x)) ++ wire_client (tr_dps_client_addr x))
      (fun b => exists x', b = Body_tunnel_reg_dereg x' /\ tunnel_reg_from sender x x')
| Rq_sender ty x :
    ty = DPS_MCAST_SENDER_REGISTRATION \/ ty = DPS_MCAST_SENDER_DEREGISTRATION ->
    mcast_sender_ok x -> 4 < fuel ->
    request fuel sender ty (wire_mcast_sender x)
      (fun b => exists x', b = Body_mcast_sender x' /\ mcast_sender_from sender x x')
| Rq_receiver ty x :
    ty = DPS_MCAST_RECEIVER_JOIN \/ ty = DPS_MCAST_RECEIVER_LEAVE ->
    mcast_receiver_ok fuel x -> 3 < fuel ->
    request fuel sender ty (wire_mcast_receiver x)
      (fun b => exists x', b = Body_mcast_receiver x' /\ mcast_receiver_from sender x x')
| Rq_migration x :
    wf_endpoint_info (vm_migrated_vm_info x) ->
    loc_ok room_vm_migration fuel (elr_version (vm_src_vm_loc x)) (elr_vnid (vm_src_vm_loc x))
      (elr_mac (vm_src_vm_loc x)) (elr_vm_ip_addr (vm_src_vm_loc x))
      (elr_tunnel_info (vm_src_vm_loc x)) ->
    request fuel sender DPS_VM_MIGRATION_EVENT (wire_vm_migration x)
      (fun b => exists x', b = Body_vm_migration_event x' /\ x' ≡ x)
| Rq_general ty x :
    well_typed ty (Body_gen_msg_req x) = true -> ty <> DPS_CTRL_PLANE_HB ->
    wf_addr (gm_dps_client_addr x) -> 1 < fuel ->
    request fuel sender ty (wire_client (gm_dps_client_addr x))
      (fun b => exists x', b = Body_gen_msg_req x' /\
         gm_dps_client_addr x' ≡ given (gm_dps_client_addr x) sender).

(** The type of the reply to a request, of the unsolicited list, the body, the
    messages. *)
Inductive listing (fuel : nat) : Z -> Z -> pat -> (dps_client_body -> Prop) -> Prop :=
| Li_internal n4 n6 words :
    packed_ok room_internal_gw fuel n4 n6 words ->
    listing fuel DPS_INTERNAL_GW_REPLY DPS_UNSOLICITED_INTERNAL_GW_REPLY
      (wire_packed n4 n6 words)
      (fun b => b = Body_internal_gw_list (mk_internal_gw n4 n6
         (take (Z.to_nat n4 + 4 * Z.to_nat n6) words)))
| Li_switches n4 n6 words :
    packed_ok room_bcast fuel n4 n6 words ->
    listing fuel DPS_BCAST_LIST_REPLY DPS_UNSOLICITED_BCAST_LIST_REPLY
      (wire_packed n4 n6 words)
      (fun b => b = Body_dove_switch_list (mk_pkd_tunnel_list 0 n4 n6
         (take (Z.to_nat n4 + 4 * Z.to_nat n6) words)))
| Li_gateways sol unsol x :
    (sol, unsol) ∈ [(DPS_EXTERNAL_GW_LIST_REPLY, DPS_UNSOLICITED_EXTERNAL_GW_LIST);
                    (DPS_VLAN_GW_LIST_REPLY, DPS_UNSOLICITED_VLAN_GW_LIST)] ->
    tunnels_ok room_gw_list fuel x -> fits (wire_tunnel_list (tunnels x)) -> 1 < fuel ->
    listing fuel sol unsol (wire_tunnel_list (tunnels x))
      (fun b => exists x', b = Body_tunnel_info x' /\ x' ≡ x).

Section delivery.
Context {W : Type} `{EnvLaws W}.
Context (fuel : nat) (heap_counts : Z -> Z * Z) (stack_addr : ip_addr_t).
Context (recv : buf) (sender : ip_addr_t) (h : dps_client_hdr_t).


(** Every list of gateways or switches is delivered element by element as it
    was encoded.  The reply to a request stops the timer of the request and
    brings its context, the list that was not asked for is acknowledged. *)
Theorem list_delivered (sol unsol : Z) (body : pat) (P : dps_client_body -> Prop)
    (st : pstate (W := W)) :
  listing fuel sol unsol body P -> pkt_at recv h body ->
  ch_type h = sol \/ ch_type h = unsol ->
  exists b, P b /\
    dps_process_rcvd_pkt fuel heap_counts stack_addr recv sender st =
      account (ch_type h) (receive_msg (ch_type h =? sol)%Z false (ch_type h =? unsol)%Z
        (from h sender) b st).
Proof.
  intros Hl Hp Hty. destruct Hl as [n4 n6 words Hok|n4 n6 words Hok|sol unsol x Hin Ht Hfit Hf].
  - rewrite (rcvd_internal_gw fuel heap_counts stack_addr recv sender h n4 n6 words st Hp Hty Hok).
    eauto.
  - rewrite (rcvd_bcast_list fuel heap_counts stack_addr recv sender h n4 n6 words st Hp Hty Hok).
    eauto.
  - assert (gw_solicited (ch_type h) = (ch_type h =? sol)%Z /\
      gw_unsolicited (ch_type h) = (ch_type h =? unsol)%Z /\
      gw_solicited (ch_type h) || gw_unsolicited (ch_type h) = true) as (E1 & E2 & E).
    { rewrite !elem_of_cons in Hin.
      destruct Hin as [[= -> ->]|[[= -> ->]|Hin%elem_of_nil]]; [| |done];
        destruct Hty as [-> | ->]; done. }
    destruct (rcvd_gw_list fuel heap_counts stack_addr recv sender h x st Hp E Ht Hfit Hf)
      as (x' & Hx & ->). rewrite E1, E2. eauto 10.
Qed.
End delivery.


(** A receiver joins a group with two sources: it arrives as it was sent. *)
Definition sample_join : dps_mcast_receiver_t :=
  mk_mcast_receiver sample_switch zero_ip_addr
    (mk_mcast_group_record (mk_mcast_addr MCAST_ADDR_V4 [1; 0; 94; 1; 2; 3]%Z (v4 239 1 2 3))
       2 AF_INET [167772165; 167772166]%Z).
Example join_delivered :
  let h := rcv_h DPS_MCAST_RECEIVER_JOIN in
  exists x', mcast_receiver_from sample_switch sample_join x' /\
    rcvd_as h (Body_mcast_receiver x') (packet h (wire_mcast_receiver sample_join)).
Proof.
  intros h.
  destruct (rcvd_mcast_receiver (H := trace_env true) 9 (fun _ => (0, 0)%Z) zero_ip_addr
    (packet h (wire_mcast_receiver sample_join)) sample_switch h sample_join
    (dps_pkt_stats_tbl, start)) as (x' & Hx & E); [on_packet | by left | on_packet..|].
  exists x'. split; [exact Hx | etransitivity; [exact E | reflexivity]].
Qed.

Example list_delivered_witness :
  let h := rcv_h DPS_INTERNAL_GW_REPLY in
  exists b, b = Body_internal_gw_list (mk_internal_gw 2 1 (take 6 sample_words)) /\
    rcv 9 (packet h (wire_packed 2 1 sample_words)) start =
    Done (DPS_SUCCESS,
      (count incr_recv DPS_INTERNAL_GW_REPLY dps_pkt_stats_tbl,
       mk_trace [Ev_alloc; Ev_timer_stop 41; Ev_deliver (mk_client_data 41 (from h sample_switch) b);
                 Ev_free] 100 false true)).
Proof.
  intros h.
  destruct (list_delivered (H := trace_env true) 9 (fun _ => (0, 0)%Z) zero_ip_addr
    (packet h (wire_packed 2 1 sample_words)) sample_switch h DPS_INTERNAL_GW_REPLY
    DPS_UNSOLICITED_INTERNAL_GW_REPLY (wire_packed 2 1 sample_words) _ (dps_pkt_stats_tbl, start)
    ltac:(apply Li_internal; on_packet) ltac:(on_packet) (or_introl eq_refl)) as (b & Hb & E).
  exists b. split; [exact Hb|]. subst b. etransitivity; [exact E | reflexivity].
Defined.
