(* ===== verification/Exchange.v ===== *)
(** * Exchanges: both ends of the protocol together *)
From S2P Require Export Protocol.

Lemma loc_req_fits c x :
  cd_body c = Body_endpoint_loc_req x -> loc_req_ok x ->
  body_ok c /\ DPS_PKT_HDR_LEN + length (wire_body c) <= send_room (cd_body c).
Proof.
  intros Eb (Hv & Hm & Hi & Ha). split; [unfold body_ok; rewrite Eb; by split_and!|].
  unfold wire_body. rewrite Eb. destruct Hm as [Hm _], Hi as [[Hi _] _].
  pose proof (length_wire_client _ Ha). unfold wire_loc_req. rewrite !length_app.
  rewrite length_wire_euid, Hm.
  assert (100 <= DPS_MAX_BUFF_SZ) by (apply Nat.leb_le; vm_compute; reflexivity).
  cbn [send_room]. unfold DPS_PKT_HDR_LEN.
  destruct (_ =? AF_INET)%Z; [|destruct (_ =? AF_INET6)%Z];
    rewrite ?length_wire_ip4, ?length_wire_ip6, ?Hi; simpl; lia.
Qed.

(** ** What a send leaves on the wire is what the other end parses *)
Section exchange.
Context {W : Type} `{EnvLaws W}.

(** The packet a send transmits, and the rest of the send around it. *)
Lemma client_send_packet c t (w : W) b w1 c1 w2 :
  let ty := ch_type (cd_hdr c) in
  well_typed ty (cd_body c) = true -> known_type ty = true -> body_ok c ->
  cd_body c <> Body_none ->
  DPS_PKT_HDR_LEN + length (wire_body c) <= send_room (cd_body c) ->
  dps_server (W := W) && negb (dps_cluster_is_local_node_active w) = false ->
  dps_alloc_buff w = (Some b, w1) -> assign_query_id c w1 = (c1, w2) ->
  hdr_ok (cd_hdr c1) ->
  exists pkt, pkt_at pkt (cd_hdr c1) (sent_body c) /\ length pkt <= send_room (cd_body c) /\
  dps_protocol_client_send c (t, w) =
    (let '(s, w3) := dps_protocol_xmit pkt (ch_reply_addr (cd_hdr c1)) (cd_context c1) w2 in
    let s := send_status (cd_body c) s in
    Done (s, c1,
      (count (if (s =? DPS_SUCCESS)%Z then incr_sent else incr_transmit_error) ty t,
        dps_free_buff w3))).
Proof.
  intros ty Hty Hk Hok Hne Hf Hact Hal Hid Hh.
  pose proof (assign_query_id_keeps _ _ _ _ Hid) as (_ & _ & Et & _ & _).
  pose proof (dps_alloc_buff_length _ _ _ Hal) as Hb.
  assert (length (sent_body c) <= length (wire_body c)) as Hs.
  { unfold sent_body. destruct (cd_body c); try done;
      destruct (ch_resp_status (cd_hdr c) =? 0)%Z; simpl; lia. }
  assert (send_room (cd_body c) <= DPS_MAX_BUFF_SZ) as Hr.
  { destruct (cd_body c); cbn [send_room]; first [apply Nat.le_refl |
      apply Nat.leb_le; vm_compute; reflexivity]. }
  assert (Z.of_nat DPS_MAX_BUFF_SZ < 65536)%Z as Hmax by (vm_compute; reflexivity).
  eexists (take (DPS_PKT_HDR_LEN + length (sent_body c))
    (lay b 0 (wire_pkt ty (cd_hdr c1) (sent_body c)))). split; [|split].
  - subst ty. rewrite <- Et. split_and!; [apply sent_matches; lia | done | | lia].
    by apply sent_body_aligned.
  - rewrite length_take. lia.
  - unfold dps_protocol_client_send. rewrite Hact. subst ty. rewrite Hk.
    rewrite (call_send_refines c w Hty Hok Hne Hf) by (intros _; by rewrite Hal).
    unfold send_packet. rewrite Hal, Hid.
    destruct (dps_protocol_xmit _ _ _ w2) as [s w3]. cbn [obind]. rewrite Et.
    by destruct (send_status (cd_body c) s =? DPS_SUCCESS)%Z.
Qed.

Context {W' : Type} {E' : Env W'}.
Context (fuel : nat) (heap_counts : Z -> Z * Z) (stack_addr sender : ip_addr_t).

(**  A location request sent by one node and received by another is
    delivered there as the request that was made, under the query id it was
    given, whatever the two nodes and their heaps are. *)
Theorem loc_req_exchange c x t (w : W) b w1 c1 w2 :
  cd_body c = Body_endpoint_loc_req x -> ch_type (cd_hdr c) = DPS_ENDPOINT_LOC_REQ ->
  loc_req_ok x -> 3 < fuel ->
  dps_server (W := W) && negb (dps_cluster_is_local_node_active w) = false ->
  dps_alloc_buff w = (Some b, w1) -> assign_query_id c w1 = (c1, w2) ->
  hdr_ok (cd_hdr c1) ->
  exists pkt,
  dps_protocol_client_send c (t, w) =
    (let '(s, w3) := dps_protocol_xmit pkt (ch_reply_addr (cd_hdr c1)) (cd_context c1) w2 in
    Done (s, c1,
      (count (if (s =? DPS_SUCCESS)%Z then incr_sent else incr_transmit_error)
          DPS_ENDPOINT_LOC_REQ t, dps_free_buff w3))) /\
  forall st : pstate (W := W'), exists x', loc_req_from sender x x' /\
  dps_process_rcvd_pkt fuel heap_counts stack_addr pkt sender st =
    account DPS_ENDPOINT_LOC_REQ
    (receive_request (from (cd_hdr c1) sender) (Body_endpoint_loc_req x') st).
Proof.
  intros Eb Et Hx Hf Hact Hal Hid Hh.
  pose proof (assign_query_id_keeps _ _ _ _ Hid) as (_ & _ & Et1 & _ & _).
  destruct (loc_req_fits c x Eb Hx) as [Hok Hfit].
  destruct (client_send_packet c t w b w1 c1 w2) as (pkt & Hp & _ & E);
    [by rewrite Et, Eb | by rewrite Et | exact Hok | by rewrite Eb | exact Hfit | exact Hact
    | exact Hal | exact Hid | exact Hh |].
  exists pkt. split; [rewrite E, Eb, Et; done|]. intros st.
  apply rcvd_loc_req; [|by rewrite Et1|done|done].
  unfold sent_body, wire_body in Hp. by rewrite Eb in Hp.
Qed.
End exchange.

Lemma loc_req_exchange_witness :
  let c := sample_msg DPS_ENDPOINT_LOC_REQ 0 (Body_endpoint_loc_req sample_loc_req) in
  exists pkt c1,
    dps_protocol_client_send (H := trace_env false) c (dps_pkt_stats_tbl, start) =
    Done (DPS_SUCCESS, c1,
      (count incr_sent DPS_ENDPOINT_LOC_REQ dps_pkt_stats_tbl,
       mk_trace [Ev_alloc; Ev_xmit pkt sample_server 77; Ev_free] 101 false true)) /\
    ch_query_id (cd_hdr c1) = 100%Z /\
    exists x', loc_req_from sample_switch sample_loc_req x' /\
      rcvd_as (cd_hdr c1) (Body_endpoint_loc_req x') pkt.
Proof.
  intros c. destruct (assign_query_id (H := trace_env false) c
    (mk_trace [Ev_alloc] 100 false true)) as [c1 w2] eqn:Ea.
  pose proof Ea as Ea'. apply (f_equal fst) in Ea'. cbn in Ea'. subst c1.
  destruct (loc_req_exchange (H := trace_env false) (H0 := trace_laws false)
    (E' := trace_env true) 9 (fun _ => (0, 0)%Z) zero_ip_addr sample_switch c sample_loc_req
    dps_pkt_stats_tbl start _ _ _ _ eq_refl eq_refl ltac:(decided) ltac:(decided) eq_refl
    eq_refl Ea ltac:(decided)) as (pkt & E & R).
  destruct (R (dps_pkt_stats_tbl, start)) as (x' & Hx & Er).
  apply (f_equal snd) in Ea. cbn in Ea. subst w2.
  exists pkt. eexists. split; [etransitivity; [exact E | reflexivity]|]. split; [reflexivity|].
  exists x'. split; [exact Hx|]. etransitivity; [exact Er | reflexivity].
Defined.

(** ** Requests that are given up *)

Lemma callback_spec {W} `{Env W} pkt h body context t (w : W) :
  pkt_at pkt h body -> known_type (ch_type h) = true ->
  dps_retransmit_callback RAW_PROTO_MAX_NUM_RETRANSMIT_EXCEEDED pkt context (t, w) =
  Done (t, deliver
    (mk_client_data context
       (mk_client_hdr (reply_type (ch_type h)) (ch_type h) (ch_client_id h)
          (ch_transaction_type h) (ch_vnid h) DPS_NO_RESPONSE (ch_query_id h) zero_ip_addr)
       (reply_body h))
    (if dps_server then w else dps_req_new_dps_node (ch_vnid h) w)).
Proof.
  intros Hp Hk. unfold dps_retransmit_callback.
  rewrite (pkt_at_hdr _ _ _ _ Hp). cbn [obind ch_type with_reply_addr]. rewrite Hk.
  pose proof (construct_reply_spec (with_reply_addr h (ch_reply_addr zero_client_hdr)) Hk) as E.
  cbn [ch_type with_reply_addr] in E. rewrite E. cbn [obind].
  rewrite (pkt_at_type _ _ _ Hp). reflexivity.
Qed.

(**  When the retries of a request run out, its requester gets one message:
    the reply the request would have had, with the query id of the request, its
    type as sub type, no addresses, the status [DPS_NO_RESPONSE] and the context
    the requester gave; a client also asks for another server for the network. *)
Theorem retransmit_gives_up {W} `{Env W} pkt h body context t (w : W) :
  pkt_at pkt h body -> known_type (ch_type h) = true ->
  dps_retransmit_callback RAW_PROTO_MAX_NUM_RETRANSMIT_EXCEEDED pkt context (t, w) =
  Done (t, deliver
    (mk_client_data context
       (mk_client_hdr (reply_type (ch_type h)) (ch_type h) (ch_client_id h)
          (ch_transaction_type h) (ch_vnid h) DPS_NO_RESPONSE (ch_query_id h) zero_ip_addr)
       (reply_body h))
    (if dps_server then w else dps_req_new_dps_node (ch_vnid h) w)).
Proof. apply callback_spec. Qed.

Lemma retransmit_gives_up_witness :
  let h := rcv_h DPS_POLICY_REQ in
  dps_retransmit_callback (H := trace_env false) RAW_PROTO_MAX_NUM_RETRANSMIT_EXCEEDED
    (packet h (wire_policy_req sample_policy_req)) 77 (dps_pkt_stats_tbl, start) =
  Done (dps_pkt_stats_tbl,
    mk_trace [Ev_new_node 7;
              Ev_deliver (mk_client_data 77
                (mk_client_hdr DPS_POLICY_REPLY DPS_POLICY_REQ 2 DPS_TRANSACTION_NORMAL 7
                   DPS_NO_RESPONSE 41 zero_ip_addr) (reply_body h))] 100 false true).
Proof.
  intros h. etransitivity;
    [exact (retransmit_gives_up (H := trace_env false)
       (packet h (wire_policy_req sample_policy_req)) h (wire_policy_req sample_policy_req)
       77 dps_pkt_stats_tbl start ltac:(on_packet) eq_refl) | reflexivity].
Defined.

(** ** Acknowledgements *)

(**  A message with a query id is acknowledged by one packet of twenty
    bytes to the address it came from, which reads back as the header of an
    acknowledgement: the query id and the network of the message, its type as
    sub type, no error.  A message without a query id, and any message on an
    inactive node, is not acknowledged. *)
Theorem ack_round_trip {W} `{EnvLaws W} c t (w : W) h0 :
  let h := ack_hdr (cd_hdr c) in
  dps_server (W := W) = true -> hdr_ok (cd_hdr c) ->
  dps_client_create_general_ack c (t, w) =
    Done (DPS_SUCCESS,
      if (ch_query_id (cd_hdr c) =? 0)%Z || negb (dps_cluster_is_local_node_active w)
      then (t, w)
      else
        let '(s, w') := dps_protocol_xmit (ack_packet h) (ch_reply_addr (cd_hdr c)) 0 w in
        (count (if (s =? DPS_SUCCESS)%Z then incr_sent else incr_transmit_error)
           (ch_type h) t, w')) /\
  dps_get_pkt_hdr (ack_packet h) 0 h0 = Done (with_reply_addr h (ch_reply_addr h0), 0%Z) /\
  ch_sub_type h = ch_type (cd_hdr c) /\ ch_query_id h = ch_query_id (cd_hdr c).
Proof.
  intros h Hs Hh. split_and!; [| |done|done].
  - rewrite create_ack_spec. unfold send_ack, assign_query_id. rewrite Hs. cbn [andb].
    destruct (_ || _); [done|]. cbn [cd_hdr].
    by destruct (dps_protocol_xmit _ _ _ w).
  - assert (pkt_at (ack_packet h) h []) as Hp.
    { split_and!; [apply matches_lay; reflexivity | | apply aligned_nil | reflexivity].
      destruct Hh as (Ht & _ & Hc & Htt & Hv & _ & Hq). subst h. unfold ack_hdr.
      split_and!; cbn [ch_type ch_sub_type ch_client_id ch_transaction_type ch_vnid
        ch_resp_status ch_query_id]; try done.
      destruct (is_registration (ch_type (cd_hdr c))); decided. }
    by rewrite (pkt_at_hdr _ _ _ _ Hp).
Qed.

Lemma ack_round_trip_witness :
  let c := sample_msg DPS_TUNNEL_REGISTER 41 Body_none in
  dps_client_create_general_ack (H := trace_env true) c (dps_pkt_stats_tbl, start) =
    Done (DPS_SUCCESS,
      (count incr_sent DPS_REG_DEREGISTER_ACK dps_pkt_stats_tbl,
       mk_trace [Ev_xmit (ack_packet (ack_hdr (cd_hdr c))) sample_server 0] 100 false true)).
Proof.
  intros c. etransitivity;
    [exact (proj1 (ack_round_trip (H := trace_env true) (H0 := trace_laws true) c
       dps_pkt_stats_tbl start zero_client_hdr eq_refl ltac:(decided))) | reflexivity].
Defined.

(** ** Statistics *)
Lemma lookup_clear l t i :
  foldl (fun (t : list dps_pkt_stats_t) i => <[i := zero_stats]> t) t l !! i =
  if decide (i ∈ l /\ i < length t) then Some zero_stats else t !! i.
Proof.
  revert t. induction l as [|j l IH]; intros t; cbn [foldl].
  - rewrite decide_False; [done|]. by intros [?%elem_of_nil _].
  - rewrite IH, length_insert.
    assert (i ∈ j :: l <-> i = j \/ i ∈ l) as Hel by apply elem_of_cons.
    destruct (decide (i = j)) as [->|Hij]; [destruct (decide (j < length t))|].
    + rewrite list_lookup_insert_eq by done. repeat case_decide; tauto.
    + rewrite list_insert_ge by lia. repeat case_decide; tauto.
    + rewrite list_lookup_insert_ne by congruence. repeat case_decide; tauto.
Qed.

(**  Clearing the statistics of one of the first nine types zeroes its entry
    alone; clearing those of all types zeroes the entries of the first nine
    types and leaves the others, of the types added since, as they are. *)
Theorem stats_clear_covers pkt_type t i :
  length t = Z.to_nat DPS_MAX_MSG_TYPE ->
  dps_packet_stats_clear pkt_type t !! i =
  (if decide (1 <= i <= 9 /\ (covered_type pkt_type = true -> Z.of_nat i = pkt_type))
   then Some zero_stats else t !! i).
Proof.
  intros Ht. unfold dps_packet_stats_clear. change stats_tbl with (list dps_pkt_stats_t) in *.
  rewrite lookup_clear, Ht. unfold shown_types, covered_type.
  change (Z.to_nat DPS_MAX_MSG_TYPE) with 42. unfold DPS_ENDPOINT_LOC_REQ, DPS_ADDR_REPLY.
  destruct (negb _) eqn:E.
  - apply decide_ext. rewrite list_elem_of_singleton. lia.
  - apply decide_ext. rewrite elem_of_seq. lia.
Qed.

Lemma stats_clear_covers_witness :
  let t := count incr_sent DPS_CTRL_PLANE_HB (count incr_recv DPS_POLICY_REQ dps_pkt_stats_tbl) in
  dps_packet_stats_clear 0 t !! 3 = Some zero_stats /\
  dps_packet_stats_clear 0 t !! 39 = t !! 39.
Proof.
  intros t. split.
  - exact (stats_clear_covers 0 t 3 eq_refl).
  - exact (stats_clear_covers 0 t 39 eq_refl).
Defined.
