(* ===== verification/RoundTrip.v ===== *)
(** * Round trips of single TLVs, and where parsing goes wrong *)
From S2P Require Export Exchange.

(** A store leaves the bytes outside its pattern alone. *)
Lemma lay_outside b off p i :
  i < off \/ off + length p <= i -> lay b off p !! i = b !! i.
Proof.
  intros Hi. rewrite lookup_lay. destruct (b !! i); [|done]. simpl.
  case_decide; [|done]. by rewrite lookup_ge_None_2 by lia.
Qed.

(**  A location that is encoded into a buffer at any place and parsed back
    is the same location, the two functions agree on its length, and the rest
    of the buffer is untouched. *)
Theorem loc_reply_tlv_round_trip fuel b off cap c c0 :
  loc_ok cap fuel (elr_version c) (elr_vnid c) (elr_mac c) (elr_vm_ip_addr c)
    (elr_tunnel_info c) ->
  tunnels (elr_tunnel_info c0) = [] ->
  off + length (wire_endpoint_loc_reply c) <= length b ->
  exists b' n c',
    dps_set_endpoint_loc_reply_tlv b off c = Done (b', n) /\
    dps_get_endpoint_loc_reply_tlv fuel b' off cap c0 = Done (c', n) /\ c' ≡ c /\
    forall i, i < off \/ off + n <= i -> b' !! i = b !! i.
Proof.
  intros Hok H0 Hl. pose proof Hok as (_ & _ & Hm & Hi & _ & (Ht & _) & _).
  destruct (dps_get_endpoint_loc_reply_tlv_wire fuel
    (lay b off (wire_endpoint_loc_reply c)) off cap c c0 Hok ltac:(by apply matches_lay) H0)
    as (c' & E & Eq).
  eexists _, _, c'. split_and!; [|exact E|exact Eq|].
  - apply dps_set_endpoint_loc_reply_tlv_writes; [by split_and! | done].
  - apply lay_outside.
Qed.

Lemma loc_reply_tlv_round_trip_witness :
  exists b' n c',
    dps_set_endpoint_loc_reply_tlv (replicate 200 255%Z) 60 sample_loc_reply = Done (b', n) /\
    dps_get_endpoint_loc_reply_tlv 5 b' 60 7 zero_endpoint_loc_reply = Done (c', n) /\
    c' ≡ sample_loc_reply.
Proof.
  destruct (loc_reply_tlv_round_trip 5 (replicate 200 255%Z) 60 7 sample_loc_reply
    zero_endpoint_loc_reply ltac:(decided) eq_refl ltac:(decided))
    as (b' & n & c' & E1 & E2 & E3 & _).
  exists b', n, c'. split_and!; assumption.
Defined.

(**  The same for the information about an endpoint. *)
Theorem endpoint_info_tlv_round_trip b off c c0 :
  wf_endpoint_info c -> off + length (wire_endpoint_info c) <= length b ->
  exists b' n c',
    dps_set_endpoint_info_tlv b off c = Done (b', n) /\
    dps_get_endpoint_info_tlv b' off c0 = Done (c', n) /\ c' ≡ c /\
    forall i, i < off \/ off + n <= i -> b' !! i = b !! i.
Proof.
  intros Hok Hl. pose proof Hok as (_ & [Hm _] & [[Hi _] _] & _).
  destruct (dps_get_endpoint_info_tlv_wire (lay b off (wire_endpoint_info c)) off c c0 Hok
    ltac:(by apply matches_lay)) as (c' & E & Eq).
  eexists _, _, c'. split_and!; [|exact E|exact Eq|].
  - by apply dps_set_endpoint_info_tlv_writes.
  - apply lay_outside.
Qed.

Lemma endpoint_info_tlv_round_trip_witness :
  exists b' n c',
    dps_set_endpoint_info_tlv (replicate 40 255%Z) 3 (sample_info 9) = Done (b', n) /\
    dps_get_endpoint_info_tlv b' 3 zero_endpoint_info = Done (c', n) /\ c' ≡ sample_info 9.
Proof.
  destruct (endpoint_info_tlv_round_trip (replicate 40 255%Z) 3 (sample_info 9)
    zero_endpoint_info ltac:(decided) ltac:(decided)) as (b' & n & c' & E1 & E2 & E3 & _).
  exists b', n, c'. split_and!; assumption.
Defined.

(** ** Integers in network order *)
Lemma lor_bytes a b n : (0 <= n)%Z -> (0 <= b < 2 ^ n)%Z -> Z.lor (Z.shiftl a n) b = (a * 2 ^ n + b)%Z.
Proof.
  intros Hn Hb. rewrite Z.shiftl_mul_pow2 by done. symmetry. rewrite Z.add_nocarry_lxor.
  - apply Z.bits_inj'. intros k Hk. rewrite Z.lor_spec, Z.lxor_spec.
    destruct (Z.ltb_spec k n).
    + rewrite Z.mul_pow2_bits_low by done. by destruct (Z.testbit b k).
    + destruct (decide (b = 0%Z)) as [->|]; [by rewrite Z.bits_0, orb_false_r, xorb_false_r|].
      rewrite (Z.bits_above_log2 b k); [by rewrite orb_false_r, xorb_false_r|lia|].
      apply Z.log2_lt_pow2; [lia|]. eapply Z.lt_le_trans; [apply Hb|].
      by apply Z.pow_le_mono_r.
  - apply Z.bits_inj'. intros k Hk. rewrite Z.land_spec, Z.bits_0.
    destruct (Z.ltb_spec k n); [by rewrite Z.mul_pow2_bits_low|].
    destruct (decide (b = 0%Z)) as [->|]; [by rewrite Z.bits_0, andb_false_r|].
    rewrite (Z.bits_above_log2 b k); [by rewrite andb_false_r | lia |].
    apply Z.log2_lt_pow2; [lia|]. eapply Z.lt_le_trans; [apply Hb|].
    by apply Z.pow_le_mono_r.
Qed.

Lemma store_cons b off x bs b' :
  store b off (x :: bs) = Done b' ->
  obind (store b off [x]) (fun b => store b (off + 1) bs) = Done b'.
Proof.
  unfold store at 1. cbn [length]. case_decide as H; [|discriminate]. intros [= <-].
  unfold store. rewrite decide_True by (cbn [length]; lia). cbn [obind].
  rewrite decide_True by (rewrite length_inserts; lia). f_equal. cbn [list_inserts].
  apply list_eq. intros i. destruct (decide (i = off)) as [->|Hi].
  - rewrite list_lookup_inserts_lt by lia. by rewrite !list_lookup_insert_eq
      by (rewrite ?length_inserts; lia).
  - rewrite list_lookup_insert_ne by lia. replace (off + 1) with (S off) by lia.
    destruct (decide (i < off)); [by rewrite !list_lookup_inserts_lt,
      ?list_lookup_insert_ne by (rewrite ?length_insert; lia)|].
    destruct (decide (i < S off + length bs)).
    + by rewrite !list_lookup_inserts by (rewrite ?length_insert; lia).
    + by rewrite !list_lookup_inserts_ge, list_lookup_insert_ne by lia.
Qed.

Lemma shifted_byte v n : (0 <= n)%Z -> u8 (Z.land (Z.shiftr v n) 255) = ((v / 2 ^ n) mod 256)%Z.
Proof.
  intros Hn. change 255%Z with (Z.ones 8). rewrite Z.land_ones, Z.shiftr_div_pow2 by done.
  unfold u8. by rewrite Z.mod_mod.
Qed.

(** The shifts of [dps_get_int32] put the bytes where [ntohl] puts them. *)
Lemma get_int32_matches b off v :
  matches b off (lit (be32 v)) -> in32 v -> dps_get_int32 b off = Done v.
Proof.
  intros H Hv. unfold dps_get_int32, load8, arr_read.
  pose proof (fun i w => matches_lit_lookup b off (be32 v) i w H) as L.
  rewrite <- (Nat.add_0_r off) at 1.
  rewrite (L 0 _ eq_refl), (L 1 _ eq_refl), (L 2 _ eq_refl), (L 3 _ eq_refl).
  cbn [of_option obind]. f_equal. unfold in32 in Hv.
  pose proof (Z.mod_pos_bound (v / 16777216) 256 eq_refl).
  pose proof (Z.mod_pos_bound (v / 65536) 256 eq_refl).
  pose proof (Z.mod_pos_bound (v / 256) 256 eq_refl).
  pose proof (Z.mod_pos_bound v 256 eq_refl).
  rewrite <- Z.lor_assoc, <- Z.lor_assoc.
  rewrite (lor_bytes _ (v mod 256) 8), (lor_bytes _ _ 16), (lor_bytes _ _ 24) by lia.
  rewrite <- (of_be32_be32 v) at 5 by done. unfold of_be32. lia.
Qed.

(**  The accessors that shift bytes, [dps_set_int32] and [dps_get_int32],
    store and load an integer in network order: they agree with
    [htonl]/[ntohl] through a pointer, and what was set is what is got. *)
Theorem int32_accessors b off v :
  off + 4 <= length b -> in32 v ->
  exists b', dps_set_int32 b off v = Done b' /\ store32 b off v = Done b' /\
    dps_get_int32 b' off = Done v /\ load32 b' off = Done v.
Proof.
  intros Hb Hv. eexists. assert (store32 b off v = Done (lay b off (lit (be32 v)))) as E.
  { unfold store32. rewrite u32_small by done. by apply store_lay. }
  assert (matches (lay b off (lit (be32 v))) off (lit (be32 v))) as Hm by by apply matches_lay.
  split_and!; [ | exact E | by apply get_int32_matches | by apply load32_matches].
  unfold store32 in E. rewrite u32_small in E by done. unfold dps_set_int32, store8.
  unfold be32 in E. rewrite !shifted_byte by lia.
  change (2 ^ 24)%Z with 16777216%Z. change (2 ^ 16)%Z with 65536%Z.
  change (2 ^ 8)%Z with 256%Z.
  replace (u8 (Z.land v 255)) with (v mod 256)%Z
    by (rewrite <- (Z.shiftr_0_r v) at 2; rewrite shifted_byte by lia; by rewrite Z.div_1_r).
  do 3 (apply store_cons in E; rewrite <- ?Nat.add_assoc in E; cbn [Nat.add] in E;
        apply obind_Done_inv in E as (? & -> & E); cbn [obind]).
  exact E.
Qed.

Lemma int32_accessors_witness :
  exists b', dps_set_int32 (replicate 8 0%Z) 3 4026531841 = Done b' /\
    store32 (replicate 8 0%Z) 3 4026531841 = Done b' /\
    dps_get_int32 b' 3 = Done 4026531841%Z /\ load32 b' 3 = Done 4026531841%Z.
Proof. apply int32_accessors; decided. Defined.

(** ** Bulk policies *)
Definition wf_rule (r : src_dst_vnid_t) : Prop := in32 (sd_svnid r) /\ in32 (sd_dvnid r).
#[export] Instance wf_rule_dec r : Decision (wf_rule r).
Proof. unfold wf_rule. apply _. Defined.

Lemma get_rules_wire b cap : forall rs cur l,
  matches b cur (concat (wire_rule <$> rs)) -> Forall wf_rule rs ->
  length l + length rs <= cap ->
  get_rules b cap cur (length l) (length rs) l =
  Done (cur + 8 * length rs, length l + length rs, l ++ rs).
Proof.
  induction rs as [|r rs IH]; intros cur l Hm Hwf Hc.
  - simpl. by rewrite app_nil_r, !Nat.add_0_r.
  - apply Forall_cons_1 in Hwf as [[Hs Hd] Hwf]. rewrite fmap_cons in Hm.
    cbn [concat] in Hm. apply matches_app in Hm as [Hr Hm]. unfold wire_rule in Hr.
    split_matches. cbn [get_rules length] in *. unfold SZ_OF_INT32. loads.
    rewrite !u32_small by done. rewrite arr_write_app by lia. cbn [obind].
    destruct r as [sv dv]. cbn [sd_svnid sd_dvnid] in *.
    replace (S (length l)) with (length (l ++ [mk_rule sv dv])) by (rewrite length_app; simpl; lia).
    rewrite (IH (cur + 4 + 4) (l ++ [mk_rule sv dv]));
      [| eapply matches_at; [exact Hm | simpl; lia] | done | rewrite length_app; simpl; lia].
    rewrite <- app_assoc, length_app. cbn [app length fmap list_fmap].
    f_equal. f_equal. f_equal; lia.
Qed.

(** What a rule to deny is read as. *)
Definition misread (r : src_dst_vnid_t) : src_dst_vnid_t :=
  mk_rule (sd_dvnid r / 65536 * 65536) 0.

Lemma arr_write_last {A} cap (l : list A) x y :
  length l < cap -> arr_write cap (l ++ [x]) (length l) y = Done (l ++ [y]).
Proof.
  intros Hl. unfold arr_write. rewrite decide_True by (rewrite length_app; simpl; lia).
  f_equal. rewrite insert_app_r_alt by lia. by rewrite Nat.sub_diag.
Qed.

Lemma load16_of_32 b off v :
  matches b off (w32 v) -> in32 v -> load16 b off = Done (v / 65536)%Z.
Proof.
  intros Hm Hv. unfold w32 in Hm. rewrite u32_small in Hm by done.
  unfold load16, load8, arr_read.
  pose proof (fun i w => matches_lit_lookup b off (be32 v) i w Hm) as L.
  rewrite <- (Nat.add_0_r off) at 1. rewrite (L 0 _ eq_refl), (L 1 _ eq_refl). simpl.
  unfold of_be16, in32 in *. f_equal. Z.div_mod_to_equations. lia.
Qed.

Lemma get_bulk_deny_wire b cap : forall rs cur l,
  matches b cur (concat (wire_rule <$> rs)) -> Forall wf_rule rs ->
  length l + length rs <= cap ->
  get_bulk_deny b cap cur (length l) (length rs) l =
  Done (cur + 8 * length rs, length l + length rs, l ++ (misread <$> rs)).
Proof.
  induction rs as [|r rs IH]; intros cur l Hm Hwf Hc.
  - simpl. by rewrite app_nil_r, !Nat.add_0_r.
  - apply Forall_cons_1 in Hwf as [[Hs Hd] Hwf]. rewrite fmap_cons in Hm.
    cbn [concat] in Hm. apply matches_app in Hm as [Hr Hm]. unfold wire_rule in Hr.
    apply matches_app in Hr as [H1 H2]. cbn [get_bulk_deny length] in *.
    unfold SZ_OF_INT32. rewrite (load32_w32 _ _ _ H1), u32_small by done. cbn [obind].
    rewrite (load16_of_32 _ (cur + 4) _ H2) by done. cbn [obind].
    rewrite (lookup_ge_None_2 l) by lia.
    rewrite arr_write_app by lia. cbn [obind]. rewrite arr_write_last by lia. cbn [obind].
    change (mk_rule (ntohl16 (sd_dvnid r / 65536)) 0) with (misread r).
    replace (S (length l)) with (length (l ++ [misread r])) by (rewrite length_app; simpl; lia).
    rewrite (IH (cur + 4 + 4) (l ++ [misread r]));
      [| eapply matches_at; [exact Hm | simpl; lia] | done | rewrite length_app; simpl; lia].
    rewrite <- app_assoc, length_app. cbn [app length fmap list_fmap].
    f_equal. f_equal. f_equal; lia.
Qed.

(**  A bulk policy transfer brings the counters and the rules to permit
    across unchanged; each rule to deny arrives with its destination network
    zero and, as its source, the upper half of the destination. *)
Theorem bulk_policy_received b off cap c :
  matches b off (wire_bulk c) -> wf_bulk c -> Forall wf_rule (bp_src_dst_vnid c) ->
  in16 (bp_num_permit_rules c) -> in16 (bp_num_deny_rules c) ->
  Z.to_nat (bp_num_permit_rules c) + Z.to_nat (bp_num_deny_rules c) <= cap ->
  exists n, dps_get_bulk_policy_xfer b off cap (mk_bulk_policy 0 0 []) =
    Done (mk_bulk_policy (bp_num_permit_rules c) (bp_num_deny_rules c)
            (take (Z.to_nat (bp_num_permit_rules c)) (bp_src_dst_vnid c)
             ++ (misread <$> counted (bp_num_deny_rules c)
                   (drop (Z.to_nat (bp_num_permit_rules c)) (bp_src_dst_vnid c)))), n).
Proof.
  intros Hm ([_ Hp] & [_ Hd]) Hwf Hp16 Hd16 Hc. rewrite length_drop in Hd.
  set (np := Z.to_nat (bp_num_permit_rules c)) in *.
  set (nd := Z.to_nat (bp_num_deny_rules c)) in *.
  set (rules := bp_src_dst_vnid c) in *. unfold wire_bulk in Hm. fold np nd rules in Hm.
  replace (take (np + nd) rules) with (take np rules ++ take nd (drop np rules)) in Hm
    by (by rewrite take_take_drop).
  rewrite fmap_app, concat_app in Hm. rewrite !matches_app in Hm.
  destruct Hm as (H1 & H2 & H3 & H4). unfold dps_get_bulk_policy_xfer.
  rewrite (load16_w16 _ _ _ H1), u16_small by done. cbn [obind].
  unfold SZ_OF_INT16. change (length (w16 (bp_num_permit_rules c))) with 2 in H2.
  rewrite (load16_w16 _ _ _ H2), u16_small by done.
  cbn [obind bp_src_dst_vnid]. fold np nd.
  assert (length (take np rules) = np) as Ep by (rewrite length_take; lia).
  assert (length (take nd (drop np rules)) = nd) as Ed
    by (rewrite length_take, length_drop; lia).
  assert (get_rules b cap (off + 2 + 2) 0 np [] =
    Done (off + 4 + 8 * np, np, take np rules)) as ->.
  { pose proof (get_rules_wire b cap (take np rules) (off + 2 + 2) []) as E.
    rewrite Ep in E. simpl in E. rewrite E;
      [ do 3 f_equal; lia | eapply matches_at; [exact H3 | rewrite !length_w16; lia]
      | by apply Forall_take | lia ]. }
  cbn [obind].
  assert (get_bulk_deny b cap (off + 4 + 8 * np) np nd (take np rules) =
    Done (off + 4 + 8 * np + 8 * nd, np + nd,
          take np rules ++ (misread <$> take nd (drop np rules)))) as ->.
  { pose proof (get_bulk_deny_wire b cap (take nd (drop np rules)) (off + 4 + 8 * np)
                  (take np rules)) as E.
    rewrite Ep, Ed in E. apply E; [|by apply Forall_take, Forall_drop|lia].
    eapply matches_at; [exact H4|]. rewrite (length_concat_fmap _ 8), Ep by (by intros).
    rewrite !length_w16. lia. }
  cbn [obind]. by eexists.
Qed.

Lemma bulk_policy_received_witness :
  exists n, dps_get_bulk_policy_xfer
    (lay (replicate 24 0%Z) 0 (wire_bulk (mk_bulk_policy 1 1 [mk_rule 5 6; mk_rule 7 65544])))
    0 4 (mk_bulk_policy 0 0 []) =
    Done (mk_bulk_policy 1 1 [mk_rule 5 6; mk_rule 65536 0], n).
Proof.
  destruct (bulk_policy_received
    (lay (replicate 24 0%Z) 0 (wire_bulk (mk_bulk_policy 1 1 [mk_rule 5 6; mk_rule 7 65544])))
    0 4 (mk_bulk_policy 1 1 [mk_rule 5 6; mk_rule 7 65544])) as [n E];
    [apply matches_lay; reflexivity || decided | decided..|].
  exists n. etransitivity; [exact E | reflexivity].
Defined.

(** ** The virtual addresses of an update reply *)

(** [vips[i]], [vips[i + 1]], ... set to the addresses [ips]. *)
Fixpoint put_vips (vips : list ip_addr_t) (i : nat) (ips : list Z) : list ip_addr_t :=
  match ips with
  | [] => vips
  | v :: ips =>
      put_vips (alter (fun a => with_family_ip a AF_INET (set_ip4 (ia_ip a) v)) i vips)
        (S i) ips
  end.

Lemma arr_update {A} cap (l : list A) i f :
  length l = cap -> i < cap ->
  obind (arr_read l i) (fun a => arr_write cap l i (f a)) = Done (alter f i l).
Proof.
  intros Hl Hi. destruct (lookup_lt_is_Some_2 l i ltac:(lia)) as [a Ea].
  unfold arr_read, arr_write. rewrite Ea. cbn [of_option obind].
  rewrite decide_True by lia. f_equal. apply list_eq. intros j.
  destruct (decide (j = i)) as [->|Hj].
  - rewrite list_lookup_insert_eq, list_lookup_alter_eq by lia. by rewrite Ea.
  - by rewrite list_lookup_insert_ne, list_lookup_alter_ne by congruence.
Qed.

(**  The IPv4 addresses of an update reply are stored in order in the array
    of sixteen; the test [*num_of_vip <= max_vip] lets a seventeenth address
    through, which is written past the end of the array. *)
Theorem ipv4_vips_stored fuel b off vips ips :
  length vips = MAX_VIP_ADDR -> matches b off (wire_ipv4_list ips) ->
  fits (wire_ipv4_list ips) -> Forall in32 ips -> length ips < fuel ->
  dps_get_ipv4_list_to_ipaddr fuel b off vips 0 0 (Z.of_nat MAX_VIP_ADDR) =
  if decide (length ips <= MAX_VIP_ADDR)
  then Done (put_vips vips 0 ips, length ips, Z.of_nat (length ips),
             length (wire_ipv4_list ips))
  else Fault.
Proof.
  intros Hv Hm Hfit Hr Hf. unfold dps_get_ipv4_list_to_ipaddr, wire_ipv4_list in *.
  rewrite (dps_get_tlv_hdr_tlv _ _ _ _ _ Hm Hfit). cbn [obind th_len].
  apply matches_tlv_body in Hm. unfold DPS_TLV_HDR_LEN.
  set (n := length (concat (w32 <$> ips))). set (end_ := (Z.of_nat (off + 4) + Z.of_nat n)%Z).
  assert (forall ips fuel cur vips i,
    length vips = MAX_VIP_ADDR -> i <= MAX_VIP_ADDR -> length ips < fuel ->
    Forall in32 ips -> matches b cur (concat (w32 <$> ips)) ->
    end_ = Z.of_nat (cur + 4 * length ips) ->
    while fuel end_ (fun cur '(vips, dst, num) =>
         if (num <=? Z.of_nat MAX_VIP_ADDR)%Z then
           let* v := load32 b cur in
           let* a := arr_read vips dst in
           let* vips := arr_write MAX_VIP_ADDR vips dst
                          (with_family_ip a AF_INET (set_ip4 (ia_ip a) v)) in
           Done (Go, cur + DPS_IP4_ADDR_LEN, (vips, S dst, u32 (num + 1)))
         else Done (Exit, Z.to_nat end_, (vips, dst, num))) cur (vips, i, Z.of_nat i) =
    if decide (i + length ips <= MAX_VIP_ADDR)
    then Done (Go, cur + 4 * length ips,
               (put_vips vips i ips, i + length ips, Z.of_nat (i + length ips)))
    else Fault) as Hloop.
  { clearbody end_ n. clear. induction ips as [|v ips IH]; intros fuel cur vips i Hv Hi Hf Hr Hm Hend.
    - cbn [length] in *. rewrite while_end by lia. rewrite decide_True by lia.
      by rewrite !Nat.add_0_r.
    - apply Forall_cons_1 in Hr as [Hrv Hr]. rewrite fmap_cons in Hm. cbn [concat length] in *.
      apply matches_app in Hm as [H1 H2]. rewrite length_w32 in H2.
      destruct fuel as [|fuel]; [lia|]. cbn [while].
      destruct (Z.ltb_spec (Z.of_nat cur) end_); [|lia].
      destruct (Z.leb_spec (Z.of_nat i) (Z.of_nat MAX_VIP_ADDR)); [|lia].
      rewrite (load32_w32 _ _ _ H1), u32_small by done. cbn [obind].
      destruct (decide (i < MAX_VIP_ADDR)) as [Hlt|Hge].
      + pose proof (arr_update MAX_VIP_ADDR vips i
          (fun a => with_family_ip a AF_INET (set_ip4 (ia_ip a) v)) Hv Hlt) as E.
        destruct (arr_read vips i) as [a| |]; try discriminate E. cbn [obind] in E |- *.
        rewrite E. cbn [obind]. replace (u32 (Z.of_nat i + 1)) with (Z.of_nat (S i))
          by (rewrite u32_small; unfold in32, MAX_VIP_ADDR in *; lia).
        rewrite (IH fuel (cur + 4) _ (S i)); [| |lia|lia|done|done|lia].
        * rewrite <- !Nat.add_succ_comm. cbn [put_vips]. case_decide; [|done].
          do 3 f_equal. lia.
        * by rewrite length_alter.
      + unfold arr_read. rewrite lookup_ge_None_2 by lia. cbn [of_option obind].
        by rewrite decide_False by lia. }
  assert (n = length ips * 4) as Hn by (apply length_concat_fmap; by intros).
  change 0%Z with (Z.of_nat 0). rewrite (Hloop ips fuel (off + 4) vips 0); [|done|lia|done|done|done|lia].
  cbn [Nat.add]. case_decide; [|done]. cbn [obind]. repeat f_equal.
  rewrite length_wire_tlv. fold n. lia.
Qed.

Lemma ipv4_vips_stored_witness :
  dps_get_ipv4_list_to_ipaddr 20 (lay (replicate 72 0%Z) 0 (wire_ipv4_list (replicate 17 9%Z)))
    0 (replicate MAX_VIP_ADDR zero_ip_addr) 0 0 (Z.of_nat MAX_VIP_ADDR) = Fault.
Proof.
  etransitivity; [apply (ipv4_vips_stored 20 _ 0 _ (replicate 17 9%Z))|];
    [reflexivity | apply matches_lay; decided | decided | decided | decided | reflexivity].
Defined.

(** ** Loops that stand still *)

(**  A multicast group record whose payload
    starts with a TLV of a type its loop does not know is parsed for ever. *)
Theorem unknown_sub_tlv_stuck fuel b off cap hd sub :
  dps_get_tlv_hdr b off = Done hd -> dps_get_tlv_hdr b (off + DPS_TLV_HDR_LEN) = Done sub ->
  (0 < th_len hd)%Z -> (MCAST_GRP_REC_TLV < th_type sub)%Z ->
  (forall c, dps_get_mcast_grp_rec_tlv fuel b off cap c = Timeout).
Proof.
  intros Hh Hs Hl Hty c. unfold dps_get_mcast_grp_rec_tlv. rewrite Hh. cbn [obind].
  rewrite while_stuck; [done | lia |]. unfold get_mcast_grp_rec_item. rewrite Hs. cbn [obind].
  unfold MCAST_GRP_REC_TLV in Hty.
  repeat match goal with
  | |- context [(th_type sub =? ?k)%Z] =>
      rewrite (proj2 (Z.eqb_neq (th_type sub) k))
        by (unfold MCAST_ADDR_MAC_TLV, MCAST_ADDR_V4_TLV, MCAST_ADDR_V6_TLV,
            MCAST_ADDR_V4_ICB_RANGE_TLV, IPV4_ADDR_LIST_TLV, IPV6_ADDR_LIST_TLV; lia)
  end. done.
Qed.

Lemma unknown_sub_tlv_stuck_witness :
  dps_get_mcast_grp_rec_tlv 500 [1; 18; 0; 4; 1; 99; 0; 0]%Z 0 7
    (mk_mcast_group_record zero_mcast_addr 0 0 []) = Timeout.
Proof.
  apply (unknown_sub_tlv_stuck 500 _ 0 7 (mk_tlv_hdr 1 18 4) (mk_tlv_hdr 1 99 0));
    [reflexivity..].
Defined.
