(* ===== verification/RawTimer.v ===== *)
(** * The retransmission timer: [raw_proto_timer.c]

    Every request that waits for a reply has a node in a hash table of linked
    lists; a thread sweeps the table once a second.  Nodes live in a heap and
    are reached through pointers: a node that has been freed is not in the heap
    any more, and reading or writing it is a [Fault]. *)
From stdpp Require Import gmap.
From S2P Require Export Prelude.

(** ** Constants and data *)
Definition RAW_PKT_DEF_RETRANSMIT_INTERVAL : Z := 4.
Definition MAX_NUM_DEF_RETRANSMIT : Z := 3.
Definition RETRY_TIMER_OFFSET : Z := 1.
Definition MAX_HASH_BUCKET : Z := 1000.
Definition RAW_PROTO_TIMER_RETURN_OK : Z := 0.
Definition RAW_PROTO_TIMER_RETURN_ERR : Z := -1.
Definition RAW_PROTO_TIMER_RETURN_INVALID_ARG : Z := -2.
Definition RPT_OWNER_FIRST : Z := 1.
Definition RPT_OWNER_DPSA : Z := 2.
Definition RPT_OWNER_LAST : Z := 4.
Definition RPT_OWNER_MAXNUM : Z := RPT_OWNER_LAST.
Definition IS_VALID_RPT_OWNER (owner : Z) : bool :=
  ((owner >=? RPT_OWNER_FIRST) && (owner <=? RPT_OWNER_LAST))%Z.

(** A [uint32_t] handed over as an [int]. *)
Definition i32 (z : Z) : Z := ((z + 2147483648) mod 4294967296 - 2147483648)%Z.

(** The node owns the copy of the packet; [context] is an opaque pointer, 0 for
    [NULL]; [addr] is the bytes of a [struct sockaddr]. *)
Record raw_proto_pkt_timer_t := mk_pkt_timer {
  pt_pktId : Z; pt_lastSentTime : Z; pt_rawPkt : list Z; pt_rawPktLen : Z;
  pt_retransmitInterval : Z; pt_maxNumRetransmit : Z; pt_transmitCount : Z;
  pt_context : Z; pt_owner : Z; pt_sockFd : Z; pt_addr : list Z;
  pt_next : option nat }.

Record raw_packet_t := mk_raw_packet {
  rp_data : list Z; rp_pktId : Z; rp_len : Z; rp_retransmitInterval : Z;
  rp_maxNumRetransmit : Z; rp_context : Z; rp_owner : Z; rp_sockFd : Z;
  rp_addr : list Z }.

(** What the timer does to the rest of the system. *)
Inductive rt_event :=
| Rt_sendto (sockFd : Z) (pkt : list Z) (len : Z) (addr : list Z)
| Rt_callback (cb : Z) (pkt : list Z) (context owner : Z).

(** The module's state: the heap of nodes, [gHashTab], [rpt_callbacks], the two
    statics [init_done] and [queryId]; the number of nodes ever allocated and
    of calls of [time]; what has been sent and called back. *)
Record rtimer := mk_rtimer {
  rt_heap : gmap nat raw_proto_pkt_timer_t; gHashTab : list (option nat);
  rpt_callbacks : list (option Z); init_done : bool; queryId : Z;
  rt_mallocs : nat; rt_reads : nat; rt_out : list rt_event }.

Definition with_next (n : raw_proto_pkt_timer_t) (nx : option nat)
  : raw_proto_pkt_timer_t :=
  mk_pkt_timer (pt_pktId n) (pt_lastSentTime n) (pt_rawPkt n) (pt_rawPktLen n)
    (pt_retransmitInterval n) (pt_maxNumRetransmit n) (pt_transmitCount n)
    (pt_context n) (pt_owner n) (pt_sockFd n) (pt_addr n) nx.
(** [transmitCount++] and [lastSentTime = now] *)
Definition sent_again (n : raw_proto_pkt_timer_t) (now : Z) : raw_proto_pkt_timer_t :=
  mk_pkt_timer (pt_pktId n) now (pt_rawPkt n) (pt_rawPktLen n)
    (pt_retransmitInterval n) (pt_maxNumRetransmit n) (pt_transmitCount n + 1)
    (pt_context n) (pt_owner n) (pt_sockFd n) (pt_addr n) (pt_next n).

Definition with_heap (h : gmap nat raw_proto_pkt_timer_t) (s : rtimer) : rtimer :=
  mk_rtimer h (gHashTab s) (rpt_callbacks s) (init_done s) (queryId s)
    (rt_mallocs s) (rt_reads s) (rt_out s).
Definition with_tab (t : list (option nat)) (s : rtimer) : rtimer :=
  mk_rtimer (rt_heap s) t (rpt_callbacks s) (init_done s) (queryId s)
    (rt_mallocs s) (rt_reads s) (rt_out s).
Definition with_callbacks (c : list (option Z)) (s : rtimer) : rtimer :=
  mk_rtimer (rt_heap s) (gHashTab s) c (init_done s) (queryId s)
    (rt_mallocs s) (rt_reads s) (rt_out s).
Definition with_init_done (b : bool) (s : rtimer) : rtimer :=
  mk_rtimer (rt_heap s) (gHashTab s) (rpt_callbacks s) b (queryId s)
    (rt_mallocs s) (rt_reads s) (rt_out s).
Definition with_queryId (q : Z) (s : rtimer) : rtimer :=
  mk_rtimer (rt_heap s) (gHashTab s) (rpt_callbacks s) (init_done s) q
    (rt_mallocs s) (rt_reads s) (rt_out s).
Definition emit (e : rt_event) (s : rtimer) : rtimer :=
  mk_rtimer (rt_heap s) (gHashTab s) (rpt_callbacks s) (init_done s) (queryId s)
    (rt_mallocs s) (rt_reads s) (rt_out s ++ [e]).

(** ** Pointers *)
Definition deref (s : rtimer) (l : nat) : out raw_proto_pkt_timer_t :=
  of_option (rt_heap s !! l).
(** [p->next = nx] *)
Definition set_next (p : option nat) (nx : option nat) (s : rtimer) : out rtimer :=
  let* l := of_option p in
  let* n := deref s l in
  Done (with_heap (<[l := with_next n nx]> (rt_heap s)) s).
Definition free_node (l : nat) (s : rtimer) : out rtimer :=
  let* _ := deref s l in Done (with_heap (delete l (rt_heap s)) s).
(** [gHashTab[i].bucketPtr] *)
Definition bucketPtr (s : rtimer) (i : Z) : out (option nat) :=
  if (i <? 0)%Z then Fault else of_option (gHashTab s !! Z.to_nat i).
Definition set_bucketPtr (i : Z) (p : option nat) (s : rtimer) : out rtimer :=
  let* _ := bucketPtr s i in
  Done (with_tab (<[Z.to_nat i := p]> (gHashTab s)) s).

(** C's [%] truncates towards zero. *)
Definition hash (key : Z) : Z := Z.rem key MAX_HASH_BUCKET.

(** ** The interval of the exponential back-off

    The value before rounding is a multiple of one half, kept here doubled;
    the assignment to a [float] rounds it to 24 significant bits, to even. *)
Definition to_float (x2 : Z) : Z :=
  if (x2 <? 2 ^ 24)%Z then x2
  else
    let k := (Z.log2 x2 - 23)%Z in
    let q := (x2 / 2 ^ k)%Z in
    let r := (x2 mod 2 ^ k)%Z in
    (2 ^ k * (if r * 2 <? 2 ^ k then q
              else if 2 ^ k <? r * 2 then q + 1 else q + q mod 2))%Z.
Definition uceil (x2 : Z) : Z :=
  let y := (x2 / 2)%Z in
  if (x2 =? to_float (2 * y))%Z then y else (y + 1)%Z.
Definition calculate_retry_interval (n : Z) : out Z :=
  if ((n <? 0) || (31 <=? n))%Z then Fault
  else Done (u32 (uceil (to_float (2 * RETRY_TIMER_OFFSET + (Z.shiftl 1 n - 1))))).

(** ** Operations *)
Section timer.
(** The clock: what the [n]-th call of [time(NULL)] returns; the allocator:
    whether the [n]-th [malloc] of a node succeeds. *)
Context (clock : nat -> Z) (malloc_ok : nat -> bool).

Definition time (s : rtimer) : Z * rtimer :=
  (clock (rt_reads s),
    mk_rtimer (rt_heap s) (gHashTab s) (rpt_callbacks s) (init_done s) (queryId s)
      (rt_mallocs s) (S (rt_reads s)) (rt_out s)).

(** A fresh address, not used before. *)
Definition malloc_node (s : rtimer) : option nat * rtimer :=
  (if malloc_ok (rt_mallocs s) then Some (rt_mallocs s) else None,
    mk_rtimer (rt_heap s) (gHashTab s) (rpt_callbacks s) (init_done s) (queryId s)
      (S (rt_mallocs s)) (rt_reads s) (rt_out s)).

(** The [while] loop to the last node of a bucket. *)
Fixpoint last_node (fuel : nat) (s : rtimer) (cur : nat) : out nat :=
  match fuel with
  | 0 => Timeout
  | S fuel =>
      let* n := deref s cur in
      match pt_next n with
      | Some c => last_node fuel s c
      | None => Done cur
      end
  end.

Definition new_node (p : raw_packet_t) (now : Z) : raw_proto_pkt_timer_t :=
  mk_pkt_timer (rp_pktId p) now (rp_data p) (rp_len p) (rp_retransmitInterval p)
    (rp_maxNumRetransmit p) 1 (rp_context p) (rp_owner p) (rp_sockFd p) (rp_addr p) None.

Definition insert_raw_pkt (fuel : nat) (rawPkt : option raw_packet_t) (s : rtimer)
  : out (Z * rtimer) :=
  match rawPkt with
  | None => Done (-1, s)%Z
  | Some p =>
      let bucketIndex := hash (rp_pktId p) in
      match malloc_node s with
      | (None, s) => Done (-3, s)%Z
      | (Some l, s) =>
          let '(now, s) := time s in
          let s := with_heap (<[l := new_node p now]> (rt_heap s)) s in
          let* head := bucketPtr s bucketIndex in
          match head with
          | None => let* s := set_bucketPtr bucketIndex (Some l) s in Done (0%Z, s)
          | Some h =>
              let* last := last_node fuel s h in
              let* s := set_next (Some last) (Some l) s in
              Done (0%Z, s)
          end
      end
  end.

(** The loop of [delete_raw_pkt] over the nodes after the first. *)
Fixpoint delete_in (fuel : nat) (id : Z) (prev : nat) (cur : option nat)
    (context owner : Z) (s : rtimer) : out (Z * Z * Z * rtimer) :=
  match cur with
  | None => Done (0%Z, context, owner, s)
  | Some c =>
      match fuel with
      | 0 => Timeout
      | S fuel =>
          let* n := deref s c in
          if (pt_pktId n =? id)%Z then
            let* s := set_next (Some prev) (pt_next n) s in
            let* s := free_node c s in
            Done (0%Z, pt_context n, pt_owner n, s)
          else delete_in fuel id c (pt_next n) context owner s
      end
  end.

(** The status, then what [*context] and [*owner] are set to; they are left
    alone where the packet is not found in a bucket that is not empty. *)
Definition delete_raw_pkt (fuel : nat) (rawPktId : Z) (context owner : Z) (s : rtimer)
  : out (Z * Z * Z * rtimer) :=
  if (rawPktId =? 0)%Z then Done ((-1)%Z, context, owner, s)
  else
    let hashval := hash rawPktId in
    let* head := bucketPtr s hashval in
    match head with
    | None => Done ((-1)%Z, 0%Z, RPT_OWNER_FIRST, s)
    | Some h =>
        let* n := deref s h in
        if (pt_pktId n =? rawPktId)%Z then
          let* s := set_bucketPtr hashval (pt_next n) s in
          let* s := free_node h s in
          Done (0%Z, pt_context n, pt_owner n, s)
        else delete_in fuel rawPktId h (pt_next n) context owner s
    end.

(** The notification of the owner of a packet that nobody answered. *)
Definition notify (n : raw_proto_pkt_timer_t) (s : rtimer) : rtimer :=
  if IS_VALID_RPT_OWNER (pt_owner n) then
    match rpt_callbacks s !! Z.to_nat (pt_owner n) with
    | Some (Some cb) => emit (Rt_callback cb (pt_rawPkt n) (pt_context n) (pt_owner n)) s
    | _ => s
    end
  else s.

(** What happens while the mutex is released around the callback: the body of
    the callback and whatever the other threads do. *)
Context (unlocked : raw_proto_pkt_timer_t -> rtimer -> out rtimer).

(** The [while] loop over bucket [i]. *)
Fixpoint retransmit_bucket (fuel : nat) (i : Z) (bucketHead prev cur : option nat)
    (s : rtimer) : out rtimer :=
  match cur with
  | None => Done s
  | Some c =>
      match fuel with
      | 0 => Timeout
      | S fuel =>
          let '(now, s) := time s in
          let* n := deref s c in
          let* interval := calculate_retry_interval (pt_transmitCount n) in
          if (interval <=? now - pt_lastSentTime n)%Z then
            if (pt_transmitCount n <=? pt_maxNumRetransmit n)%Z then
              let '(now, s) := time s in
              let s := with_heap (<[c := sent_again n now]> (rt_heap s)) s in
              let s := emit (Rt_sendto (pt_sockFd n) (pt_rawPkt n) (pt_rawPktLen n)
                  (pt_addr n)) s in
              retransmit_bucket fuel i bucketHead (Some c) (pt_next n) s
            else
              let* s := set_next prev (pt_next n) s in
              let* delNode := deref s c in
              let cur := pt_next delNode in
              let* (bucketHead, prev, s) :=
                if decide (Some c = bucketHead) then
                let* s := set_bucketPtr i cur s in Done (cur, cur, s)
              else Done (bucketHead, prev, s) in
              let* s := unlocked delNode (notify delNode s) in
              let* s := free_node c s in
              retransmit_bucket fuel i bucketHead prev cur s
          else retransmit_bucket fuel i bucketHead (Some c) (pt_next n) s
      end
  end.

(** The [for] loop over the buckets from [i] on. *)
Fixpoint retransmit_from (fuel n : nat) (i : Z) (s : rtimer) : out rtimer :=
  match n with
  | 0 => Done s
  | S n =>
      let* head := bucketPtr s i in
      let* s := retransmit_bucket fuel i head head head s in
      retransmit_from fuel n (i + 1) s
  end.

Definition raw_pkt_retransmit (fuel : nat) (s : rtimer) : out rtimer :=
  retransmit_from fuel (Z.to_nat MAX_HASH_BUCKET) 0 s.

(** [rpt_callbacks[owner] = callback] *)
Definition set_callback (owner : Z) (cb : option Z) (s : rtimer) : out rtimer :=
  if ((0 <=? owner) && (owner <=? RPT_OWNER_MAXNUM))%Z
  then Done (with_callbacks (<[Z.to_nat owner := cb]> (rpt_callbacks s)) s) else Fault.

(** [pthread n] is whether the [n]-th call of the pthread library succeeds. *)
Definition raw_proto_timer_init (pthread : nat -> bool) (callback : option Z) (owner : Z)
    (s : rtimer) : out (Z * rtimer) :=
  if init_done s then
    if negb (pthread 0) then Done (RAW_PROTO_TIMER_RETURN_ERR, s)
    else
      let* s := set_callback owner callback s in
      if negb (pthread 1) then Done (RAW_PROTO_TIMER_RETURN_ERR, s)
      else Done (RAW_PROTO_TIMER_RETURN_OK, s)
  else
    let s := with_tab (replicate (Z.to_nat MAX_HASH_BUCKET) None) s in
    match callback with
    | None => Done (RAW_PROTO_TIMER_RETURN_INVALID_ARG, s)
    | Some _ =>
        if negb (IS_VALID_RPT_OWNER owner)
        then Done (RAW_PROTO_TIMER_RETURN_INVALID_ARG, s)
        else if negb (pthread 0 && pthread 1 && pthread 2 && pthread 3 && pthread 4)
        then Done (RAW_PROTO_TIMER_RETURN_ERR, s)
        else
          let* s := set_callback owner callback s in
          if negb (pthread 5 && pthread 6) then Done (RAW_PROTO_TIMER_RETURN_ERR, s)
          else Done (RAW_PROTO_TIMER_RETURN_OK, with_init_done true s)
    end.

(** [rawPkt] and [addr] are [None] when the pointer is [NULL]; [data_ok] is
    whether the copy of the packet can be allocated. *)
Definition raw_proto_timer_start (fuel : nat) (data_ok : bool) (rawPkt : option (list Z))
    (rawPktLen rawPktId retransmitInterval maxNumRetransmit sockFd : Z)
    (addr : option (list Z)) (context owner : Z) (s : rtimer) : out (Z * rtimer) :=
  match rawPkt, addr with
  | Some rawPkt, Some addr =>
      if negb (IS_VALID_RPT_OWNER owner) then Done (-1, s)%Z
      else if negb data_ok then Done (-4, s)%Z
      else if decide (length rawPkt < Z.to_nat rawPktLen \/ length addr < 16) then Fault
      else
        insert_raw_pkt fuel
          (Some (mk_raw_packet (take (Z.to_nat rawPktLen) rawPkt) rawPktId rawPktLen
              retransmitInterval maxNumRetransmit context owner sockFd
              (take 16 addr))) s
  | _, _ => Done (-1, s)%Z
  end.

(** The status and what [*context] and [*owner] are set to; neither is [NULL]. *)
Definition raw_proto_timer_stop (fuel : nat) (rawPktId : Z) (context owner : Z) (s : rtimer)
  : out (Z * Z * Z * rtimer) :=
  if (rawPktId =? 0)%Z
  then Done (RAW_PROTO_TIMER_RETURN_INVALID_ARG, context, owner, s)
  else
    let* (rc, tmpContext, tmpOwner, s) := delete_raw_pkt fuel rawPktId 0 RPT_OWNER_FIRST s in
    if (rc <? 0)%Z then Done (RAW_PROTO_TIMER_RETURN_OK, 0%Z, tmpOwner, s)
    else Done (RAW_PROTO_TIMER_RETURN_OK, tmpContext, tmpOwner, s).

Definition raw_proto_query_id_generate (s : rtimer) : Z * rtimer :=
  let queryId := if (queryId s =? 4294967295)%Z then 1%Z else (queryId s + 1)%Z in
  (queryId, with_queryId queryId s).
End timer.

(** The module's state when the program starts. *)
Definition rtimer0 : rtimer :=
  mk_rtimer ∅ (replicate (Z.to_nat MAX_HASH_BUCKET) None) (replicate 5 None) false 0 0 0 [].
