(* ===== verification/TimerSpec.v ===== *)
(** * What the operations of the timer do to the table

    The abstract state is a list of nodes per bucket; starting a timer appends,
    stopping one removes the first node with its id, a sweep of the
    retransmission thread maps every node.  The pointer code is a refinement of
    that, touches nothing else, and leaves no node behind in the heap. *)
From stdpp Require Import gmap.
From S2P Require Export RawTimer.

(** ** Linked lists of timer nodes, and what the table represents

    [lseg] is a segment of a list in the heap; [Rep s L T] says that the state
    [s] holds, in bucket [i], the nodes of [T i] at the addresses [L i], that
    no node is in two places, and that the heap holds nothing else. *)
Abbreviation node := raw_proto_pkt_timer_t.
Abbreviation heap := (gmap nat raw_proto_pkt_timer_t).

(** ** Segments *)

(** From pointer [p] to pointer [q] through the addresses [ls]; the nodes [ns]
    are given without their links. *)
Fixpoint lseg (h : heap) (p : option nat) (ls : list nat) (ns : list node)
  (q : option nat) : Prop :=
  match ls, ns with
  | [], [] => p = q
  | l :: ls, n :: ns =>
      p = Some l /\ pt_next n = None /\
      exists nx, h !! l = Some (with_next n nx) /\ lseg h nx ls ns q
  | _, _ => False
  end.

Lemma with_next_twice n a b : with_next (with_next n a) b = with_next n b.
Proof. done. Qed.
Lemma with_next_None n : pt_next n = None -> with_next n None = n.
Proof. destruct n. simpl. by intros ->. Qed.

Lemma lseg_length h : forall ls p ns q, lseg h p ls ns q -> length ls = length ns.
Proof.
  induction ls as [|l ls IH]; intros p [|n ns] q; simpl; try done.
  intros (_ & _ & nx & _ & H). f_equal. eauto.
Qed.

Lemma lseg_app h : forall l1 p n1 l2 n2 q,
  length l1 = length n1 ->
  lseg h p (l1 ++ l2) (n1 ++ n2) q <-> exists m, lseg h p l1 n1 m /\ lseg h m l2 n2 q.
Proof.
  induction l1 as [|l l1 IH]; intros p [|n n1] l2 n2 q Hl; try done; simpl in *.
  - split; [eauto | by intros (m & -> & H)].
  - injection Hl as Hl. split.
    + intros (-> & Hn & nx & H & Hs). apply IH in Hs as (m & H1 & H2); [|done].
      exists m. eauto 10.
    + intros (m & (-> & Hn & nx & H & H1) & H2). split_and!; [done..|].
      exists nx. split; [done|]. apply IH; eauto.
Qed.

Lemma lseg_ext h h' : forall ls p ns q,
  (forall l, l ∈ ls -> h' !! l = h !! l) -> lseg h p ls ns q -> lseg h' p ls ns q.
Proof.
  induction ls as [|l ls IH]; intros p [|n ns] q He; simpl; try done.
  intros (-> & Hn & nx & H & Hs). split_and!; [done..|]. exists nx.
  rewrite He by set_solver. split; [done|]. apply IH; [set_solver|done].
Qed.

Lemma lseg_insert h p ls ns q l n :
  l ∉ ls -> lseg h p ls ns q -> lseg (<[l := n]> h) p ls ns q.
Proof.
  intros Hl. apply lseg_ext. intros k Hk. apply lookup_insert_ne. by intros ->.
Qed.
Lemma lseg_delete h p ls ns q l :
  l ∉ ls -> lseg h p ls ns q -> lseg (delete l h) p ls ns q.
Proof.
  intros Hl. apply lseg_ext. intros k Hk. apply lookup_delete_ne. by intros ->.
Qed.

Lemma lseg_lookup h : forall ls p ns q l,
  lseg h p ls ns q -> l ∈ ls -> is_Some (h !! l).
Proof.
  induction ls as [|k ls IH]; intros p [|n ns] q l; simpl; try done.
  - intros _ H. by apply not_elem_of_nil in H.
  - intros (_ & _ & nx & H & Hs) [->|Hl]%elem_of_cons; eauto.
Qed.

(** The last link redirected. *)
Lemma lseg_relink h p ls ns l n q q' :
  NoDup (ls ++ [l]) -> lseg h p (ls ++ [l]) (ns ++ [n]) q ->
  length ls = length ns ->
  lseg (<[l := with_next n q']> h) p (ls ++ [l]) (ns ++ [n]) q'.
Proof.
  intros Hd Hs Hl. apply lseg_app in Hs as (m & H1 & H2); [|done].
  apply list.NoDup_app in Hd as (_ & Hd & _). apply lseg_app; [done|].
  simpl in H2. destruct H2 as (-> & Hn & nx & H & ->). exists (Some l). split.
  - apply lseg_insert; [|done]. intros Hin. apply (Hd l Hin). set_solver.
  - simpl. split_and!; [done..|]. exists q'. by rewrite lookup_insert_eq.
Qed.

(** ** The table *)
Definition upd {A} (T : nat -> A) (i : nat) (x : A) : nat -> A :=
  fun j => if decide (j = i) then x else T j.

Lemma upd_eq {A} (T : nat -> A) i x : upd T i x i = x.
Proof. unfold upd. by rewrite decide_True. Qed.
Lemma upd_ne {A} (T : nat -> A) i j x : j <> i -> upd T i x j = T j.
Proof. intros. unfold upd. by rewrite decide_False. Qed.

Record Rep (s : rtimer) (L : nat -> list nat) (T : nat -> list node) : Prop := {
  rep_tab : length (gHashTab s) = Z.to_nat MAX_HASH_BUCKET;
  rep_bucket i p : gHashTab s !! i = Some p -> lseg (rt_heap s) p (L i) (T i) None;
  rep_over i : Z.to_nat MAX_HASH_BUCKET <= i -> L i = [];
  rep_nodup i : NoDup (L i);
  rep_disj i j l : l ∈ L i -> l ∈ L j -> i = j;
  rep_heap l : is_Some (rt_heap s !! l) -> exists i, l ∈ L i;
  rep_fresh i l : l ∈ L i -> l < rt_mallocs s;
  rep_hash i n : n ∈ T i -> hash (pt_pktId n) = Z.of_nat i
}.

Lemma rep_lookup s L T i :
  Rep s L T -> i < Z.to_nat MAX_HASH_BUCKET ->
  exists p, gHashTab s !! i = Some p /\ lseg (rt_heap s) p (L i) (T i) None.
Proof.
  intros HR Hi. rewrite <- (rep_tab _ _ _ HR) in Hi.
  destruct (lookup_lt_is_Some_2 _ _ Hi) as [p Hp].
  exists p. split; [done|]. by apply (rep_bucket _ _ _ HR).
Qed.

Lemma rep_alive s L T i l : Rep s L T -> l ∈ L i -> is_Some (rt_heap s !! l).
Proof.
  intros HR Hl. destruct (decide (i < Z.to_nat MAX_HASH_BUCKET)) as [Hi|Hi].
  - destruct (rep_lookup _ _ _ i HR Hi) as (p & _ & Hs). eauto using lseg_lookup.
  - rewrite (rep_over _ _ _ HR) in Hl by lia. by apply not_elem_of_nil in Hl.
Qed.

Lemma rep_unused s L T l : Rep s L T -> rt_mallocs s <= l -> rt_heap s !! l = None.
Proof.
  intros HR Hl. destruct (rt_heap s !! l) eqn:E; [|done].
  destruct (rep_heap _ _ _ HR l) as [i Hi]; [by rewrite E|].
  apply (rep_fresh _ _ _ HR) in Hi. lia.
Qed.

(** One bucket rewritten, the others untouched. *)
Lemma Rep_update s L T s' i p' ls' ns' :
  Rep s L T -> i < Z.to_nat MAX_HASH_BUCKET ->
  gHashTab s' = <[i := p']> (gHashTab s) ->
  (forall l, l ∉ L i -> l ∉ ls' -> rt_heap s' !! l = rt_heap s !! l) ->
  (forall l, l ∈ L i -> l ∉ ls' -> rt_heap s' !! l = None) ->
  lseg (rt_heap s') p' ls' ns' None -> NoDup ls' ->
  (forall l, l ∈ ls' -> l ∈ L i \/ rt_mallocs s <= l < rt_mallocs s') ->
  rt_mallocs s <= rt_mallocs s' ->
  (forall n, n ∈ ns' -> hash (pt_pktId n) = Z.of_nat i) ->
  Rep s' (upd L i ls') (upd T i ns').
Proof.
  intros HR Hi Htab Hout Hdel Hseg Hnd Hnew Hm Hh.
  assert (forall j l, j <> i -> l ∈ L j -> (l ∉ L i) /\ (l ∉ ls')) as Hsep.
  { intros j l Hj Hl. assert (l ∉ L i) as Hn
      by (intros Hli; by apply Hj, (rep_disj _ _ _ HR j i l)).
    split; [done|]. intros Hl'. destruct (Hnew l Hl') as [?|?]; [done|].
    pose proof (rep_fresh _ _ _ HR j l Hl). lia. }
  split.
  - rewrite Htab, length_insert. apply (rep_tab _ _ _ HR).
  - intros j p Hp. destruct (decide (j = i)) as [->|Hj].
    + rewrite !upd_eq. rewrite Htab, list_lookup_insert_eq in Hp
        by (rewrite (rep_tab _ _ _ HR); lia). by injection Hp as <-.
    + rewrite !upd_ne by done. rewrite Htab, list_lookup_insert_ne in Hp by done.
      eapply lseg_ext; [|by apply (rep_bucket _ _ _ HR)]. intros l Hl.
      destruct (Hsep j l Hj Hl). by apply Hout.
  - intros j Hj. rewrite upd_ne by lia. by apply (rep_over _ _ _ HR).
  - intros j. destruct (decide (j = i)) as [->|]; [by rewrite upd_eq|].
    rewrite upd_ne by done. apply (rep_nodup _ _ _ HR).
  - intros j k l. destruct (decide (j = i)) as [->|Hj], (decide (k = i)) as [->|Hk];
      rewrite ?upd_eq, ?upd_ne by done; [done| | |by apply (rep_disj _ _ _ HR)].
    + intros H1 H2. by destruct (Hsep k l Hk H2).
    + intros H1 H2. by destruct (Hsep j l Hj H1).
  - intros l Hl. destruct (decide (l ∈ ls')) as [|Hn]; [exists i; by rewrite upd_eq|].
    destruct (decide (l ∈ L i)) as [Hd|Hd];
      [rewrite (Hdel l Hd Hn) in Hl; by destruct Hl|].
    rewrite Hout in Hl by done. destruct (rep_heap _ _ _ HR l Hl) as [j Hj].
    exists j. rewrite upd_ne; [done|]. by intros ->.
  - intros j l. destruct (decide (j = i)) as [->|].
    + rewrite upd_eq. intros Hl. destruct (Hnew l Hl) as [Ho|]; [|lia].
      pose proof (rep_fresh _ _ _ HR i l Ho). lia.
    + rewrite upd_ne by done. intros Hl. pose proof (rep_fresh _ _ _ HR j l Hl). lia.
  - intros j n. destruct (decide (j = i)) as [->|].
    + rewrite upd_eq. apply Hh.
    + rewrite upd_ne by done. apply (rep_hash _ _ _ HR).
Qed.

(** The heap, the table and the allocation counter are all that matters. *)
Lemma Rep_same s s' L T :
  Rep s L T -> rt_heap s' = rt_heap s -> gHashTab s' = gHashTab s ->
  rt_mallocs s <= rt_mallocs s' -> Rep s' L T.
Proof.
  intros HR Eh Et Em. destruct HR. split; rewrite ?Eh, ?Et; eauto.
  intros i l Hl. specialize (rep_fresh0 i l Hl). lia.
Qed.

Lemma Rep_ext s L T L' T' :
  Rep s L T -> (forall i, L' i = L i) -> (forall i, T' i = T i) -> Rep s L' T'.
Proof.
  intros HR EL ET. destruct HR. split; setoid_rewrite EL || idtac; setoid_rewrite ET || idtac;
    try done; intros *; rewrite ?EL, ?ET; eauto.
Qed.

Lemma upd_same {A} (T : nat -> A) i j : upd T i (T i) j = T j.
Proof. unfold upd. by case_decide; subst. Qed.

Definition repr (s : rtimer) (T : nat -> list node) : Prop := exists L, Rep s L T.

(** What no operation on nodes changes. *)
Definition frame (s s' : rtimer) : Prop :=
  rpt_callbacks s' = rpt_callbacks s /\ init_done s' = init_done s /\ queryId s' = queryId s.

(** The bucket of a packet id, where the table has one. *)
Definition bucket_of (id : Z) : nat := Z.to_nat (hash id).

Lemma hash_range id : (0 <= id)%Z -> (0 <= hash id)%Z /\ bucket_of id < Z.to_nat MAX_HASH_BUCKET.
Proof.
  intros H. unfold bucket_of, hash.
  pose proof (Z.rem_bound_pos id MAX_HASH_BUCKET H eq_refl). lia.
Qed.

Lemma bucketPtr_lookup s i p :
  gHashTab s !! i = Some p -> bucketPtr s (Z.of_nat i) = Done p.
Proof.
  intros H. unfold bucketPtr. destruct (Z.ltb_spec (Z.of_nat i) 0); [lia|].
  by rewrite Nat2Z.id, H.
Qed.

Lemma set_bucketPtr_lookup s i p q :
  gHashTab s !! i = Some p ->
  set_bucketPtr (Z.of_nat i) q s = Done (with_tab (<[i := q]> (gHashTab s)) s).
Proof.
  intros H. unfold set_bucketPtr. rewrite (bucketPtr_lookup _ _ _ H). simpl.
  by rewrite Nat2Z.id.
Qed.

(** ** Starting a timer *)
Lemma last_node_lseg s : forall ls p ns l n fuel,
  lseg (rt_heap s) (Some p) (ls ++ [l]) (ns ++ [n]) None -> length ls = length ns ->
  length ls < fuel -> last_node fuel s p = Done l.
Proof.
  induction ls as [|a ls IH]; intros p [|m ns] l n [|fuel] Hs Hl Hf; try lia; try done;
    simpl in Hs, Hf, Hl; unfold last_node; fold last_node; unfold deref.
  - by destruct Hs as ([= ->] & _ & nx & -> & ->).
  - destruct Hs as ([= ->] & _ & nx & -> & Hs). simpl.
    destruct nx as [c|]; [apply (IH _ _ _ _ _ Hs); lia|].
    destruct ls, ns; simpl in Hs; by destruct Hs.
Qed.

Section spec.
Context (clock : nat -> Z) (malloc_ok : nat -> bool).

Lemma insert_spec fuel p s T :
  let i := bucket_of (rp_pktId p) in
  repr s T -> (0 <= rp_pktId p)%Z -> length (T i) < fuel ->
  malloc_ok (rt_mallocs s) = true ->
  exists s', insert_raw_pkt clock malloc_ok fuel (Some p) s = Done (0%Z, s') /\
  repr s' (upd T i (T i ++ [new_node p (clock (rt_reads s))])) /\
  frame s s' /\ rt_out s' = rt_out s.
Proof.
  intros i [L HR] Hid Hf Hok. destruct (hash_range _ Hid) as [Hh Hi]. fold i in Hi.
  unfold insert_raw_pkt, malloc_node. rewrite Hok. simpl.
  destruct (rep_lookup _ _ _ i HR Hi) as (p0 & Hp & Hs).
  pose proof (rep_unused _ _ _ (rt_mallocs s) HR ltac:(lia)) as Hnew.
  set (new := new_node p (clock (rt_reads s))).
  replace (hash (rp_pktId p)) with (Z.of_nat i) by (unfold i, bucket_of; lia).
  rewrite (bucketPtr_lookup _ i p0) by done. cbn [obind].
  assert (rt_mallocs s ∉ L i) as Hfresh
    by (intros Hl; pose proof (rep_fresh _ _ _ HR _ _ Hl); lia).
  assert (forall n, n ∈ T i ++ [new] -> hash (pt_pktId n) = Z.of_nat i) as Hhash.
  { intros n [Hn|Hn%list_elem_of_singleton]%elem_of_app; [by apply (rep_hash _ _ _ HR)|].
    subst n. simpl. unfold i, bucket_of. lia. }
  assert (NoDup (L i ++ [rt_mallocs s])) as Hnd.
  { apply list.NoDup_app. split_and!; [by apply (rep_nodup _ _ _ HR) | | apply NoDup_singleton].
    intros l Hl ->%list_elem_of_singleton. done. }
  assert (forall ls' p' h,
    lseg h p' ls' (T i ++ [new]) None -> ls' = L i ++ [rt_mallocs s] ->
    (forall l, l ∉ ls' -> h !! l = rt_heap s !! l) ->
    repr (mk_rtimer h (<[i := p']> (gHashTab s)) (rpt_callbacks s) (init_done s)
    (queryId s) (S (rt_mallocs s)) (S (rt_reads s)) (rt_out s))
    (upd T i (T i ++ [new]))) as Hrep.
  { intros ls' p' h Hseg -> Hout. eexists. eapply (Rep_update _ _ _ _ i p'); eauto; simpl.
    - intros l Hl Hl'. destruct Hl'. apply elem_of_app. by left.
    - intros l [Ho | ->%list_elem_of_singleton]%elem_of_app; [by left|]. right. lia.
    - lia. }
  pose proof (lseg_length _ _ _ _ _ Hs) as Hlen.
  destruct (T i) as [|n0 ns _] eqn:ET using rev_ind.
  - apply nil_length_inv in Hlen. rewrite Hlen in *. simpl in Hs. subst p0.
    erewrite set_bucketPtr_lookup by (simpl; exact Hp). cbn [obind].
    eexists. split_and!; [done | | done..]. apply (Hrep [rt_mallocs s]); [| done |].
    + simpl. split_and!; [done..|]. eexists. rewrite lookup_insert_eq. split; done.
    + intros l Hl. simpl. apply lookup_insert_ne. set_solver.
  - destruct (L i) as [|l0 ls _] eqn:EL using rev_ind; rewrite !length_app in Hlen;
      [simpl in Hlen; lia|]. simpl in Hlen.
    destruct p0 as [p0|]; [|by destruct ls, ns; simpl in Hs; destruct Hs].
    rewrite length_app in Hf. simpl in Hf.
    assert (l0 <> rt_mallocs s) as Hne by set_solver.
    pose proof (lseg_insert _ _ _ _ _ (rt_mallocs s) new Hfresh Hs) as Hs1.
    erewrite last_node_lseg; [|simpl; exact Hs1|lia|lia]. cbn [obind].
    assert (exists nx, rt_heap s !! l0 = Some (with_next n0 nx)) as [nx E].
    { apply lseg_app in Hs as (m & _ & Hm); [|lia]. simpl in Hm.
      destruct Hm as (_ & _ & nx & E & _). by exists nx. }
    unfold set_next, deref. simpl. rewrite lookup_insert_ne, E by done. simpl.
    eexists. split_and!; [done | | done..].
    rewrite <- (list_insert_id (gHashTab s) i (Some p0)) by done.
    apply (Hrep ((ls ++ [l0]) ++ [rt_mallocs s])); [| done |].
    + apply lseg_app; [rewrite !length_app; simpl; lia|]. exists (Some (rt_mallocs s)). split.
      * rewrite with_next_twice. apply (lseg_relink _ _ _ _ _ _ None); [|exact Hs1|lia].
        by apply list.NoDup_app in Hnd as [Hnd _].
      * simpl. split_and!; [done..|]. exists None.
        rewrite lookup_insert_ne, lookup_insert_eq by done. done.
    + intros l Hl. rewrite !lookup_insert_ne by set_solver. done.
Qed.

End spec.

(** ** Stopping a timer *)

(** The first node with the id, and the others. *)
Fixpoint take_out (id : Z) (ns : list node) : option node * list node :=
  match ns with
  | [] => (None, [])
  | n :: ns =>
      if (pt_pktId n =? id)%Z then (Some n, ns)
      else let '(r, ns) := take_out id ns in (r, n :: ns)
  end.

Lemma take_out_None id : forall ns, (take_out id ns).1 = None -> (take_out id ns).2 = ns.
Proof.
  induction ns as [|n ns IH]; [done|]. simpl. destruct (pt_pktId n =? id)%Z; [done|].
  destruct (take_out id ns) as [r ns']. simpl in *. intros H. by rewrite IH.
Qed.

Lemma take_out_sub id n : forall ns, n ∈ (take_out id ns).2 -> n ∈ ns.
Proof.
  induction ns as [|m ns IH]; [done|]. simpl. destruct (pt_pktId m =? id)%Z; [by right|].
  destruct (take_out id ns) as [r ns']. simpl in *.
  intros [->|H]%elem_of_cons; [by left | right; auto].
Qed.

Lemma deref_lseg s p ls l n ns q :
  lseg (rt_heap s) p (l :: ls) (n :: ns) q ->
  exists nx, p = Some l /\ pt_next n = None /\ deref s l = Done (with_next n nx) /\
    lseg (rt_heap s) nx ls ns q.
Proof.
  intros (-> & Hn & nx & E & Hs). exists nx. unfold deref. by rewrite E.
Qed.

(** The list [ls] with the nodes [ns] at [p] was changed into [ls'], [ns'] at
    [p'], and the node that is gone was freed. *)
Definition relisted (h h' : heap) (p' : option nat) (ls ls' : list nat) (ns' : list node)
  : Prop :=
  lseg h' p' ls' ns' None /\ NoDup ls' /\ (forall l, l ∈ ls' -> l ∈ ls) /\
  (forall l, l ∉ ls -> h' !! l = h !! l) /\
  (forall l, l ∈ ls -> l ∉ ls' -> h' !! l = None).

(** [prev->next = cur->next; free(cur)] *)
Lemma relisted_unlink h p pre prev npre nprev l n nx ls ns :
  lseg h p (pre ++ [prev]) (npre ++ [nprev]) (Some l) -> length pre = length npre ->
  lseg h nx ls ns None -> NoDup (((pre ++ [prev]) ++ [l]) ++ ls) ->
  h !! l = Some n ->
  relisted h (delete l (<[prev := with_next nprev nx]> h)) p
    (((pre ++ [prev]) ++ [l]) ++ ls) ((pre ++ [prev]) ++ ls) ((npre ++ [nprev]) ++ ns).
Proof.
  intros Hpre Hl Hs Hnd El. rewrite <- app_assoc in Hnd.
  apply list.NoDup_app in Hnd as (Hnd1 & Hsep & Hnd2). simpl in Hsep, Hnd2.
  apply list.NoDup_cons in Hnd2 as [Hl2 Hnd2]. split_and!.
  - apply lseg_app; [rewrite !length_app; simpl; lia|]. exists nx. split.
    + apply lseg_delete; [intros Hin; apply (Hsep l Hin); by left|].
      by eapply lseg_relink.
    + apply lseg_delete; [done|]. apply lseg_insert; [|done].
      intros Hin. apply (Hsep prev); set_solver.
  - apply list.NoDup_app. split_and!; [done | set_solver | done].
  - set_solver.
  - intros k Hk. rewrite lookup_delete_ne, lookup_insert_ne by set_solver. done.
  - intros k Hk Hk'. assert (k = l) as -> by set_solver. apply lookup_delete_eq.
Qed.

Lemma delete_in_spec id c o : forall ls2 fuel s cur ns2 pre prev npre nprev p,
  lseg (rt_heap s) p (pre ++ [prev]) (npre ++ [nprev]) cur -> length pre = length npre ->
  lseg (rt_heap s) cur ls2 ns2 None -> NoDup ((pre ++ [prev]) ++ ls2) ->
  length ls2 < fuel ->
  match take_out id ns2 with
  | (None, _) => delete_in fuel id prev cur c o s = Done (0%Z, c, o, s)
  | (Some n, rest) => exists h' ls',
      delete_in fuel id prev cur c o s =
        Done (0%Z, pt_context n, pt_owner n, with_heap h' s) /\
      relisted (rt_heap s) h' p ((pre ++ [prev]) ++ ls2) ls' ((npre ++ [nprev]) ++ rest)
  end.
Proof.
  induction ls2 as [|l ls2 IH]; intros fuel s cur ns2 pre prev npre nprev p Hpre Hl Hs Hnd Hf;
    destruct ns2 as [|n ns2]; try done.
  - simpl in Hs. subst cur. by destruct fuel.
  - apply deref_lseg in Hs as (nx & -> & Hn & E & Hs). destruct fuel as [|fuel]; [lia|].
    cbn [delete_in take_out]. rewrite E. cbn [obind]. change (pt_pktId (with_next n nx))
      with (pt_pktId n). change (pt_next (with_next n nx)) with nx.
    rewrite cons_middle, app_assoc in Hnd |- *.
    destruct (pt_pktId n =? id)%Z.
    + assert (deref s prev = Done (with_next nprev (Some l))) as Ep.
      { apply lseg_app in Hpre as (q & _ & Hq); [|done]. simpl in Hq.
        destruct Hq as (_ & _ & q' & E' & ->). unfold deref. by rewrite E'. }
      unfold set_next, free_node. cbn [of_option obind]. rewrite Ep. cbn [obind].
      rewrite with_next_twice. unfold deref. simpl.
      assert (l <> prev) as Hne.
      { intros ->. apply list.NoDup_app in Hnd as (Hnd & _).
        apply list.NoDup_app in Hnd as (_ & Hnd & _). apply (Hnd prev); set_solver. }
      rewrite lookup_insert_ne by done. unfold deref in E.
      destruct (rt_heap s !! l) eqn:El; [|done]. cbn [of_option obind]. eexists _, _.
      split; [done|]. by eapply relisted_unlink.
    + assert (lseg (rt_heap s) p ((pre ++ [prev]) ++ [l]) ((npre ++ [nprev]) ++ [n]) nx)
        as Hpre'.
      { apply lseg_app; [rewrite !length_app; simpl; lia|]. exists (Some l). split; [done|].
        simpl. split_and!; [done..|]. exists nx. split; [|done]. unfold deref in E.
        by destruct (rt_heap s !! l) as [m|]; [injection E as ->|]. }
      specialize (IH fuel s nx ns2 (pre ++ [prev]) l (npre ++ [nprev]) n p Hpre'
        ltac:(rewrite !length_app; simpl; lia) Hs Hnd ltac:(simpl in Hf; lia)).
      destruct (take_out id ns2) as [[m|] rest]; [|done].
      destruct IH as (h' & ls' & E' & HR). exists h', ls'. split; [done|].
      by rewrite (cons_middle n), app_assoc.
Qed.

Lemma Rep_relisted s L T h' i p p' ls' ns' :
  Rep s L T -> i < Z.to_nat MAX_HASH_BUCKET -> gHashTab s !! i = Some p ->
  relisted (rt_heap s) h' p' (L i) ls' ns' ->
  (forall n, n ∈ ns' -> exists m, m ∈ T i /\ pt_pktId n = pt_pktId m) ->
  repr (with_heap h' (with_tab (<[i := p']> (gHashTab s)) s)) (upd T i ns').
Proof.
  intros HR Hi Hp (Hs & Hnd & Hsub & Hout & Hdel) Hns. exists (upd L i ls').
  eapply Rep_update; try done; simpl.
  - intros l H _. by apply Hout.
  - intros l Hl. left. by apply Hsub.
  - intros n Hn. destruct (Hns n Hn) as (m & Hm & ->). by apply (rep_hash _ _ _ HR).
Qed.

(** What stopping the timer of [id] finds, in a table that has a bucket for it. *)
Lemma delete_spec fuel id c o s T :
  let i := bucket_of id in
  repr s T -> (0 < id)%Z -> length (T i) <= fuel ->
  exists rc c' o' s', delete_raw_pkt fuel id c o s = Done (rc, c', o', s') /\
    frame s s' /\ rt_out s' = rt_out s /\ repr s' (upd T i (take_out id (T i)).2) /\
    match (take_out id (T i)).1 with
    | Some n => rc = 0%Z /\ c' = pt_context n /\ o' = pt_owner n
    | None => s' = s /\ (if T i is [] then rc = (-1)%Z /\ c' = 0%Z /\ o' = RPT_OWNER_FIRST
                         else rc = 0%Z /\ c' = c /\ o' = o)
    end.
Proof.
  intros i [L HR] Hid Hf. destruct (hash_range id ltac:(lia)) as [Hh Hi]. fold i in Hi.
  destruct (rep_lookup _ _ _ i HR Hi) as (p & Hp & Hs).
  unfold delete_raw_pkt. destruct (Z.eqb_spec id 0) as [|_]; [lia|].
  replace (hash id) with (Z.of_nat i) by (unfold i, bucket_of; lia).
  rewrite (bucketPtr_lookup _ i p) by done. cbn [obind].
  assert (repr s (upd T i (T i))) as Hsame.
  { exists L. eapply Rep_ext; [exact HR | done | intros; apply upd_same]. }
  pose proof (rep_nodup _ _ _ HR i) as Hnd. pose proof (lseg_length _ _ _ _ _ Hs) as Hlen.
  destruct (T i) as [|n ns] eqn:ET.
  - assert (L i = []) as EL by (by apply nil_length_inv). rewrite EL in Hs. simpl in Hs.
    subst p. eexists _, _, _, _. by split_and!.
  - destruct (L i) as [|l ls] eqn:EL; [done|].
    apply deref_lseg in Hs as (nx & -> & Hn & E & Hs). rewrite E. cbn [obind].
    change (pt_pktId (with_next n nx)) with (pt_pktId n).
    cbn [take_out] in *. destruct (pt_pktId n =? id)%Z.
    + erewrite set_bucketPtr_lookup by exact Hp. cbn [obind]. unfold free_node.
      change (deref (with_tab _ s) l) with (deref s l). rewrite E. cbn [obind].
      eexists _, _, _, _. split_and!; [done | done | done | | done..].
      apply list.NoDup_cons in Hnd as [Hl Hnd].
      apply (Rep_relisted s L T (delete l (rt_heap s)) i (Some l) nx ls); [done.. | |].
      * rewrite EL. split_and!; [by apply lseg_delete | done | by right | |].
        -- intros k Hk. rewrite lookup_delete_ne by set_solver. done.
        -- intros k Hk Hk'. assert (k = l) as -> by set_solver. apply lookup_delete_eq.
      * rewrite ET. intros m Hm. exists m. split; [by right | done].
    + assert (lseg (rt_heap s) (Some l) ([] ++ [l]) ([] ++ [n]) nx) as Hpre.
      { simpl. split_and!; [done..|]. exists nx. split; [|done]. unfold deref in E.
        by destruct (rt_heap s !! l) as [m|]; [injection E as ->|]. }
      change (pt_next (with_next n nx)) with nx.
      pose proof (delete_in_spec id c o ls fuel s nx ns [] l [] n (Some l) Hpre eq_refl
        Hs Hnd ltac:(simpl in Hf, Hlen; lia)) as D.
      destruct (take_out id ns) as [[m|] rest] eqn:Et.
      * destruct D as (h' & ls' & D & HR'). eexists _, _, _, _.
        split_and!; [exact D | done | done | | done..].
        simpl in HR'. rewrite <- EL in HR'.
        pose proof (Rep_relisted s L T h' i (Some l) (Some l) ls' _ HR Hi Hp HR') as Hr.
        rewrite list_insert_id in Hr by done. apply Hr.
        rewrite ET. intros k Hk. exists k. split; [|done].
        apply elem_of_cons in Hk as [->|Hk]; [by left|]. right.
        apply (take_out_sub id). by rewrite Et.
      * eexists _, _, _, _. split_and!; [exact D | done | done | | done..].
        pose proof (take_out_None id ns) as Hrest. rewrite Et in Hrest. simpl in Hrest.
        by rewrite Hrest.
Qed.
