(* ===== verification/TimerSweep.v ===== *)
(** * One sweep of the retransmission thread

    The abstract sweep visits the nodes of a bucket in order: a node whose
    interval has passed is sent again, or, when it has been sent often enough,
    is dropped and its owner called back.  The pointer loop with its three
    cursors does the same, as long as nobody else touches the table while the
    mutex is released around a callback. *)
From stdpp Require Import gmap.
From S2P Require Export TimerSpec.

(** ** The interval *)
Definition interval (n : Z) : Z :=
  u32 (uceil (to_float (2 * RETRY_TIMER_OFFSET + (Z.shiftl 1 n - 1)))).

Lemma calculate_retry_interval_ok n :
  (0 <= n < 31)%Z -> calculate_retry_interval n = Done (interval n).
Proof.
  intros H. unfold calculate_retry_interval.
  destruct (Z.ltb_spec n 0); [lia|]. destruct (Z.leb_spec 31 n); [lia|]. done.
Qed.

(** The floating point rounds nothing for the counts in use. *)
Lemma interval_pow2 n : (1 <= n <= 23)%Z -> interval n = (2 ^ (n - 1) + 1)%Z.
Proof.
  intros H. unfold interval, RETRY_TIMER_OFFSET. rewrite Z.shiftl_1_l.
  assert (2 ^ n = 2 * 2 ^ (n - 1))%Z as E
    by (rewrite <- Z.pow_succ_r by lia; f_equal; lia).
  pose proof (Z.pow_le_mono_r 2 (n - 1) 22 eq_refl ltac:(lia)) as Hle.
  pose proof (Z.pow_pos_nonneg 2 (n - 1) eq_refl ltac:(lia)) as Hpos.
  change (2 ^ 22)%Z with 4194304%Z in Hle.
  replace (2 * 1 + (2 ^ n - 1))%Z with (2 * 2 ^ (n - 1) + 1)%Z by lia.
  set (q := (2 ^ (n - 1))%Z) in *. unfold to_float, uceil at 1.
  change (2 ^ 24)%Z with 16777216%Z. destruct (Z.ltb_spec (2 * q + 1) 16777216); [|lia].
  assert (((2 * q + 1) / 2) = q)%Z as Eq by (Z.div_mod_to_equations; lia).
  unfold to_float. rewrite Eq. change (2 ^ 24)%Z with 16777216%Z.
  destruct (Z.ltb_spec (2 * q) 16777216); [|lia].
  destruct (Z.eqb_spec (2 * q + 1) (2 * q)); [lia|].
  apply u32_small. unfold in32. lia.
Qed.

(** ** The abstract sweep *)
Section sweep.
Context (clock : nat -> Z).

Definition notified (cbs : list (option Z)) (n : node) : list rt_event :=
  if IS_VALID_RPT_OWNER (pt_owner n) then
    match cbs !! Z.to_nat (pt_owner n) with
    | Some (Some cb) => [Rt_callback cb (pt_rawPkt n) (pt_context n) (pt_owner n)]
    | _ => []
    end
  else [].

Definition due (now : Z) (n : node) : bool :=
  (interval (pt_transmitCount n) <=? now - pt_lastSentTime n)%Z.
Definition may_resend (n : node) : bool := (pt_transmitCount n <=? pt_maxNumRetransmit n)%Z.

(** The nodes left, the number of times the clock has been read, the events. *)
Fixpoint sweep_list (cbs : list (option Z)) (k : nat) (ns : list node)
  : list node * nat * list rt_event :=
  match ns with
  | [] => ([], k, [])
  | n :: ns =>
      if due (clock k) n then
        if may_resend n then
          let '(r, k', e) := sweep_list cbs (S (S k)) ns in
          (sent_again n (clock (S k)) :: r, k',
            Rt_sendto (pt_sockFd n) (pt_rawPkt n) (pt_rawPktLen n) (pt_addr n) :: e)
        else
          let '(r, k', e) := sweep_list cbs (S k) ns in (r, k', notified cbs n ++ e)
      else let '(r, k', e) := sweep_list cbs (S k) ns in (n :: r, k', e)
  end.

(** [n] buckets from [i] on. *)
Fixpoint sweep_from (cbs : list (option Z)) (n i k : nat) (T : nat -> list node)
  : (nat -> list node) * nat * list rt_event :=
  match n with
  | 0 => (T, k, [])
  | S n =>
      let '(ns, k, e) := sweep_list cbs k (T i) in
      let '(T, k, e') := sweep_from cbs n (S i) k (upd T i ns) in (T, k, e ++ e')
  end.

(** The shift in the interval is defined. *)
Definition counts_ok (n : node) : Prop := (0 <= pt_transmitCount n < 31)%Z.

Lemma relisted_step h h1 h' p' ls ls1 ls' ns' :
  relisted h1 h' p' ls1 ls' ns' -> (forall k, k ∈ ls1 -> k ∈ ls) ->
  (forall k, k ∉ ls -> h1 !! k = h !! k) ->
  (forall k, k ∈ ls -> k ∉ ls1 -> h1 !! k = None) ->
  relisted h h' p' ls ls' ns'.
Proof.
  intros (Hs & Hnd & Hsub & Hout & Hdel) H1 H2 H3. split_and!; [done | done | auto | |].
  - intros k Hk. rewrite Hout by auto. by apply H2.
  - intros k Hk Hk'. destruct (decide (k ∈ ls1)); [by apply Hdel|]. rewrite Hout by done.
    by apply H3.
Qed.

Definition swept (s : rtimer) (h : heap) (tab : list (option nat)) (k : nat)
    (e : list rt_event) : rtimer :=
  mk_rtimer h tab (rpt_callbacks s) (init_done s) (queryId s) (rt_mallocs s) k (rt_out s ++ e).

Lemma notify_swept n nx s : notify (with_next n nx) s = 
    swept s (rt_heap s) (gHashTab s) (rt_reads s) (notified (rpt_callbacks s) n).
Proof.
  unfold notify, notified, swept. simpl. destruct s; simpl.
  destruct (IS_VALID_RPT_OWNER _); [|by rewrite app_nil_r].
  by destruct (_ !! _) as [[cb|]|]; rewrite ?app_nil_r.
Qed.

Context (unlocked : node -> rtimer -> out rtimer).
Context (quiet : forall n s, unlocked n s = Done s).

(** The loop at the node [cur]: the nodes of [pre] are behind it. *)
Record at_node (i : nat) (s : rtimer) (p prev cur : option nat) (pre : list nat)
    (npre : list node) (ls : list nat) (ns : list node) : Prop := {
    an_pre : lseg (rt_heap s) p pre npre cur;
  an_len : length pre = length npre;
  an_rest : lseg (rt_heap s) cur ls ns None;
  an_nodup : NoDup (pre ++ ls);
  an_head : gHashTab s !! i = Some p;
  an_prev : (pre = [] /\ prev = cur) \/ exists pre0 q, pre = pre0 ++ [q] /\ prev = Some q
    }.

Lemma at_node_same i s s' p prev cur pre npre ls ns :
  at_node i s p prev cur pre npre ls ns -> rt_heap s' = rt_heap s ->
  gHashTab s' = gHashTab s -> at_node i s' p prev cur pre npre ls ns.
Proof. intros [] Eh Et. by split; rewrite ?Eh, ?Et. Qed.

(** A node that stays, rewritten or not. *)
Lemma at_node_keep i s s' p prev l nx pre npre ls n n' ns :
  at_node i s p prev (Some l) pre npre (l :: ls) (n :: ns) ->
  rt_heap s !! l = Some (with_next n nx) -> pt_next n' = None ->
  rt_heap s' = <[l := with_next n' nx]> (rt_heap s) -> gHashTab s' = gHashTab s ->
  at_node i s' p (Some l) nx (pre ++ [l]) (npre ++ [n']) ls ns.
Proof.
  intros [Hpre Hlen Hrest Hnd Hhead _] El Hn' Eh Et.
  simpl in Hrest. destruct Hrest as (_ & _ & nx' & El' & Hs).
  assert (nx' = nx) as -> by (rewrite El in El'; injection El'; destruct nx, nx'; congruence).
  pose proof Hnd as (_ & Hsep & Hnd2)%list.NoDup_app. apply list.NoDup_cons in Hnd2 as [Hl _].
  split.
  - rewrite Eh. apply lseg_app; [done|]. exists (Some l). split.
    + apply lseg_insert; [|done]. intros Hin. apply (Hsep l Hin). by left.
    + simpl. split_and!; [done..|]. exists nx. by rewrite lookup_insert_eq.
  - rewrite !length_app. simpl. lia.
  - rewrite Eh. by apply lseg_insert.
  - by rewrite <- app_assoc.
  - by rewrite Et.
  - right. by exists pre, l.
Qed.

(** A node that is unlinked and freed. *)
Lemma at_node_drop i s p prev l nx pre npre ls n ns :
  at_node i s p prev (Some l) pre npre (l :: ls) (n :: ns) ->
  rt_heap s !! l = Some (with_next n nx) ->
  exists h1, set_next prev nx s = Done (with_heap h1 s) /\ h1 !! l = Some (with_next n nx) /\
  let p1 := if decide (Some l = p) then nx else p in
  let prev1 := if decide (Some l = p) then nx else prev in
  lseg (delete l h1) p1 pre npre nx /\ lseg (delete l h1) nx ls ns None /\
  NoDup (pre ++ ls) /\
  ((pre = [] /\ prev1 = nx) \/ exists pre0 q, pre = pre0 ++ [q] /\ prev1 = Some q) /\
  (forall k, k ∉ pre ++ l :: ls -> delete l h1 !! k = rt_heap s !! k).
Proof.
  intros [Hpre Hlen Hrest Hnd Hhead Hprev] El.
  simpl in Hrest. destruct Hrest as (_ & Hn & nx' & El' & Hs).
  assert (nx' = nx) as -> by (rewrite El in El'; injection El'; destruct nx, nx'; congruence).
  pose proof Hnd as (Hnd1 & Hsep & Hnd2)%list.NoDup_app. apply list.NoDup_cons in Hnd2 as [Hl Hnd2].
  assert (NoDup (pre ++ ls)) as Hnd'.
  { apply list.NoDup_app. split_and!; [done | | done]. intros k Hk Hk'.
    apply (Hsep k Hk). by right. }
  destruct Hprev as [[-> ->]|(pre0 & q & -> & ->)].
  - destruct npre; [|done]. simpl in Hpre. subst p. rewrite decide_True by done.
    exists (<[l := with_next n nx]> (rt_heap s)). unfold set_next, deref. cbn [of_option obind].
    rewrite El. cbn [of_option obind]. split_and!; try done.
    + by rewrite lookup_insert_eq.
    + apply lseg_delete; [done|]. by apply lseg_insert.
    + by left.
    + intros k Hk. rewrite lookup_delete_ne, lookup_insert_ne by set_solver. done.
  - assert (l ∉ pre0 ++ [q]) as Hlp by (intros H; apply (Hsep l H); by left).
    destruct npre as [|nq npre _] using rev_ind; [rewrite length_app in Hlen; simpl in Hlen; lia|].
    rewrite !length_app in Hlen. simpl in Hlen. assert (length pre0 = length npre) as Hlen' by lia.
    assert (q <> l) as Hql by set_solver.
    assert (Some l <> p) as Hlp'.
    { intros <-. destruct pre0 as [|p0 pre0], npre as [|? npre]; try done; simpl in Hpre;
        destruct Hpre as ([= ->] & _); set_solver. }
    rewrite !(decide_False (P := Some l = p)) by done.
    exists (<[q := with_next nq nx]> (rt_heap s)).
    assert (rt_heap s !! q = Some (with_next nq (Some l))) as Eq.
    { apply lseg_app in Hpre as (m & _ & Hq); [|done]. simpl in Hq.
      by destruct Hq as (_ & _ & q' & -> & ->). }
    unfold set_next, deref. cbn [of_option obind].
    rewrite Eq. cbn [of_option obind]. split_and!; try done.
    + by rewrite lookup_insert_ne.
    + apply lseg_delete; [done|].
      by eapply lseg_relink.
    + apply lseg_delete; [done|]. apply lseg_insert; [|done]. intros H. apply (Hsep q); set_solver.
    + right. by exists pre0, q.
    + intros k Hk. rewrite lookup_delete_ne, lookup_insert_ne by set_solver. done.
Qed.

Lemma retransmit_bucket_spec i : forall ls fuel s cur ns pre npre p prev ns' k e,
  sweep_list (rpt_callbacks s) (rt_reads s) ns = (ns', k, e) ->
  at_node i s p prev cur pre npre ls ns -> length ls <= fuel -> Forall counts_ok ns ->
  exists h' p' ls',
  retransmit_bucket clock unlocked fuel (Z.of_nat i) p prev cur s =
  Done (swept s h' (<[i := p']> (gHashTab s)) k e) /\
  relisted (rt_heap s) h' p' (pre ++ ls) ls' (npre ++ ns').
Proof.
  induction ls as [|l ls IH]; intros fuel s cur ns pre npre p prev ns' k e Esw Hat Hf Hok.
  - destruct Hat as [Hpre _ Hrest Hnd Hhead _].
    destruct ns as [|n ns]; [|done]. simpl in Hrest. subst cur. injection Esw as <- <- <-.
    exists (rt_heap s), p, pre. split.
    + destruct fuel; simpl; unfold swept; rewrite list_insert_id, app_nil_r by done;
        by destruct s.
    + rewrite !app_nil_r in *. by split_and!.
  - destruct ns as [|n ns]; [by destruct (an_rest _ _ _ _ _ _ _ _ _ Hat)|].
    pose proof (an_rest _ _ _ _ _ _ _ _ _ Hat) as (-> & Hn & nx & El & Hs).
    apply Forall_cons_1 in Hok as [Hn31 Hok]. destruct fuel as [|fuel]; [simpl in Hf; lia|].
    cbn [retransmit_bucket]. unfold time. cbn [deref rt_heap]. unfold deref. cbn [rt_heap].
    rewrite El. cbn [of_option obind]. cbn [pt_transmitCount pt_lastSentTime pt_maxNumRetransmit pt_sockFd pt_rawPkt pt_rawPktLen pt_addr pt_next with_next].
    rewrite calculate_retry_interval_ok by done. cbn [obind].
    cbn [sweep_list] in Esw. unfold due, may_resend in Esw.
    destruct (interval (pt_transmitCount n) <=? clock (rt_reads s) - pt_lastSentTime n)%Z;
      [destruct (pt_transmitCount n <=? pt_maxNumRetransmit n)%Z|].
    + destruct (sweep_list _ (S (S (rt_reads s))) ns) as [[r k'] e'] eqn:Er.
      injection Esw as <- <- <-. change (sent_again (with_next n nx) (clock (S (rt_reads s))))
        with (with_next (sent_again n (clock (S (rt_reads s)))) nx).
      match goal with |- context [retransmit_bucket _ _ _ _ _ _ _ ?s1] => set (s' := s1) end.
      eapply (at_node_keep i s s' _ _ _ _ _ _ _ _ (sent_again n (clock (S (rt_reads s))))) in Hat;
        [| exact El | done | reflexivity | reflexivity].
      destruct (IH fuel s' _ ns _ _ _ _ r k' e' Er Hat) as (h' & p' & ls' & E & HR);
        [simpl in Hf; lia | done|].
      exists h', p', ls'. split.
      * etransitivity; [exact E|]. unfold swept. simpl. by rewrite <- app_assoc.
      * rewrite <- !app_assoc in HR. eapply relisted_step; [exact HR | done | | done].
        intros k0 Hk. simpl. rewrite lookup_insert_ne by set_solver. done.
    + destruct (sweep_list _ (S (rt_reads s)) ns) as [[r k'] e'] eqn:Er.
      injection Esw as <- <- <-.
      match goal with |- context [set_next prev nx ?s0] => set (s1 := s0) end.
      destruct (at_node_drop i s1 p prev l nx pre npre ls n ns) as
        (h1 & E1 & El1 & Hpre & Hrest & Hnd & Hprev & Hout);
        [by eapply at_node_same | done |].
      rewrite E1. cbn [obind with_heap rt_heap]. rewrite El1. cbn [of_option obind].
      change (pt_next (with_next n nx)) with nx. change (rt_heap s1) with (rt_heap s) in Hout.
      pose proof (an_head _ _ _ _ _ _ _ _ _ Hat) as Hhead.
      set (p1 := if decide (Some l = p) then nx else p) in *.
      set (prev1 := if decide (Some l = p) then nx else prev) in *.
      set (s2 := with_tab (<[i := p1]> (gHashTab s)) (with_heap h1 s1)).
      assert ((if decide (Some l = p) then
        let* s0 := set_bucketPtr (Z.of_nat i) nx (with_heap h1 s1) in Done (nx, nx, s0)
        else Done (p, prev, with_heap h1 s1)) = Done (p1, prev1, s2)) as ->.
      { unfold p1, prev1, s2. destruct (decide (Some l = p)) as [Hp|Hp].
        - by erewrite set_bucketPtr_lookup by exact Hhead.
        - by rewrite list_insert_id. }
      cbn [obind]. rewrite quiet, notify_swept. cbn [obind]. unfold free_node.
      match goal with |- context [deref ?s0 l] => set (s3 := s0) end.
      replace (deref s3 l) with (Done (with_next n nx)) by (unfold deref; simpl; by rewrite El1).
      cbn [obind].
      destruct (IH fuel (with_heap (delete l (rt_heap s3)) s3) nx ns pre npre p1 prev1 r k' e' Er)
        as (h' & p' & ls' & E & HR); [| simpl in Hf; lia | done |].
      { split; try done; [by apply (an_len _ _ _ _ _ _ _ _ _ Hat)|]. simpl.
        apply list_lookup_insert_eq. by eapply lookup_lt_Some. }
      exists h', p', ls'. split.
      * etransitivity; [exact E|]. unfold swept. simpl.
        by rewrite list_insert_insert_eq, <- app_assoc.
      * eapply relisted_step; [exact HR | set_solver | exact Hout |]. intros k Hk Hk'.
        assert (k = l) as -> by set_solver. apply lookup_delete_eq.
    + destruct (sweep_list _ (S (rt_reads s)) ns) as [[r k'] e'] eqn:Er.
      injection Esw as <- <- <-.
      match goal with |- context [retransmit_bucket _ _ _ _ _ _ _ ?s1] => set (s' := s1) end.
      eapply (at_node_keep i s s' _ _ _ _ _ _ _ _ n) in Hat;
        [| exact El | done | by rewrite insert_id | reflexivity].
      destruct (IH fuel s' _ ns _ _ _ _ r k' e' Er Hat) as (h' & p' & ls' & E & HR);
        [simpl in Hf; lia | done|].
      exists h', p', ls'. split; [exact E|]. by rewrite <- !app_assoc in HR.
Qed.

Lemma sweep_list_ids cbs : forall ns k ns' k' e m,
  sweep_list cbs k ns = (ns', k', e) -> m ∈ ns' ->
  exists n, n ∈ ns /\ pt_pktId m = pt_pktId n.
Proof.
  induction ns as [|n ns IH]; intros k ns' k' e m; simpl.
  - intros [= <- <- <-] H. by apply not_elem_of_nil in H.
  - destruct (due _ n), (may_resend n);
      destruct (sweep_list _ _ ns) as [[r k1] e1] eqn:E; intros [= <- <- <-];
      rewrite ?elem_of_cons; intros H;
      [destruct H as [->|H]; [exists n; split; [by left|done]|] | |
      destruct H as [->|H]; [exists n; split; [by left|done]|]..];
      destruct (IH _ _ _ _ _ E H) as (n0 & Hn0 & Hid); exists n0; (split; [by right|done]).
Qed.

Lemma retransmit_from_spec fuel : forall n i s T T' k e,
  sweep_from (rpt_callbacks s) n i (rt_reads s) T = (T', k, e) ->
  i + n <= Z.to_nat MAX_HASH_BUCKET -> repr s T ->
  (forall j, i <= j -> Forall counts_ok (T j) /\ length (T j) <= fuel) ->
  exists s', retransmit_from clock unlocked fuel n (Z.of_nat i) s = Done s' /\
  repr s' T' /\ frame s s' /\ rt_reads s' = k /\ rt_out s' = rt_out s ++ e /\
  rt_mallocs s' = rt_mallocs s.
Proof.
  induction n as [|n IH]; intros i s T T' k e Esw Hi HT Hok.
  - injection Esw as <- <- <-. exists s. simpl. by rewrite app_nil_r.
  - cbn [sweep_from] in Esw.
    destruct (sweep_list (rpt_callbacks s) (rt_reads s) (T i)) as [[ns k1] e1] eqn:E1.
    destruct (sweep_from (rpt_callbacks s) n (S i) k1 (upd T i ns)) as [[T1 k2] e2] eqn:E2.
    injection Esw as <- <- <-. destruct HT as [L HR].
    destruct (rep_lookup _ _ _ i HR ltac:(lia)) as (p & Hp & Hs).
    destruct (Hok i ltac:(lia)) as [Hc Hf].
    destruct (retransmit_bucket_spec i (L i) fuel s p (T i) [] [] p p ns k1 e1 E1)
      as (h' & p' & ls' & Eb & Hr); [| |done|].
    { split; try done; [apply (rep_nodup _ _ _ HR) | by left]. }
    { by rewrite (lseg_length _ _ _ _ _ Hs). }
    pose proof (Rep_relisted s L T h' i p p' ls' ns HR ltac:(lia) Hp Hr
      (fun m Hm => sweep_list_ids _ _ _ _ _ _ m E1 Hm)) as [L1 HR1].
    cbn [retransmit_from]. rewrite (bucketPtr_lookup _ _ _ Hp). cbn [obind]. rewrite Eb.
    cbn [obind]. replace (Z.of_nat i + 1)%Z with (Z.of_nat (S i)) by lia.
    destruct (IH (S i) (swept s h' (<[i := p']> (gHashTab s)) k1 e1) (upd T i ns) T1 k2 e2)
      as (s' & E' & HT' & Hfr & Hk & Ho & Hm); [done | lia | | |].
    { exists L1. by eapply Rep_same. }
    { intros j Hj. rewrite upd_ne by lia. apply Hok. lia. }
    exists s'. split_and!; [done | done | done | done | | done]. rewrite Ho. simpl.
    by rewrite app_assoc.
Qed.

(** The sweep of the whole table. *)
Definition sweep_tab (cbs : list (option Z)) : nat -> (nat -> list node) ->
  (nat -> list node) * nat * list rt_event :=
  sweep_from cbs (Z.to_nat MAX_HASH_BUCKET) 0.

Lemma retransmit_spec fuel s T T' k e :
  sweep_tab (rpt_callbacks s) (rt_reads s) T = (T', k, e) -> repr s T ->
  (forall j, Forall counts_ok (T j) /\ length (T j) <= fuel) ->
  exists s', raw_pkt_retransmit clock unlocked fuel s = Done s' /\
  repr s' T' /\ frame s s' /\ rt_reads s' = k /\ rt_out s' = rt_out s ++ e /\
  rt_mallocs s' = rt_mallocs s.
Proof.
  intros E HT Hok. unfold raw_pkt_retransmit.
  apply (retransmit_from_spec fuel _ 0 s T T' k e E); [lia | done | done].
Qed.
End sweep.
