(* ===== verification/Timer.v ===== *)
(** * Properties of the retransmission timer *)
From stdpp Require Import gmap.
From S2P Require Export TimerSweep.

Lemma repr_ext s T T' : repr s T -> (forall i, T' i = T i) -> repr s T'.
Proof. intros [L HR] E. exists L. by eapply Rep_ext. Qed.

(** The empty table, and the witnesses' initial state: the timer of one owner. *)
Definition no_timers : nat -> list node := fun _ => [].
Definition rtimer1 : rtimer :=
  with_init_done true (with_callbacks [None; None; Some 7%Z; None; None] rtimer0).

Lemma repr_empty s :
  rt_heap s = ∅ -> gHashTab s = replicate (Z.to_nat MAX_HASH_BUCKET) None ->
  repr s no_timers.
Proof.
  intros Eh Et. exists (fun _ => []). split; rewrite ?Eh, ?Et.
  - by rewrite length_replicate.
  - intros i p [-> _]%lookup_replicate. done.
  - done.
  - intros. apply NoDup_nil_2.
  - intros i j l H. by apply not_elem_of_nil in H.
  - intros l [x H]. by rewrite lookup_empty in H.
  - intros i l H. by apply not_elem_of_nil in H.
  - intros i n H. by apply not_elem_of_nil in H.
Qed.

Section timer.
Context (clock : nat -> Z) (malloc_ok : nat -> bool).

(** The node [raw_proto_timer_start] makes of its arguments. *)
Definition started (rawPkt : list Z) (len id rti maxn fd : Z) (addr : list Z)
    (context owner : Z) (now : Z) : node :=
  mk_pkt_timer id now (take (Z.to_nat len) rawPkt) len rti maxn 1 context owner fd
    (take 16 addr) None.

Lemma start_spec fuel rawPkt len id rti maxn fd addr context owner s T :
  let i := bucket_of id in
  repr s T -> (0 <= id)%Z -> IS_VALID_RPT_OWNER owner = true ->
  Z.to_nat len <= length rawPkt -> 16 <= length addr -> length (T i) < fuel ->
  malloc_ok (rt_mallocs s) = true ->
  exists s', raw_proto_timer_start clock malloc_ok fuel true (Some rawPkt) len id rti maxn
    fd (Some addr) context owner s = Done (0%Z, s') /\
  repr s' (upd T i (T i ++ [started rawPkt len id rti maxn fd addr context owner
          (clock (rt_reads s))])) /\
  frame s s' /\ rt_out s' = rt_out s.
Proof.
  intros i HT Hid Hown Hlen Haddr Hf Hok. unfold raw_proto_timer_start. rewrite Hown.
  cbn [negb]. rewrite decide_False by lia.
  by apply (insert_spec clock malloc_ok fuel (mk_raw_packet _ id _ _ _ _ _ _ _) s T HT).
Qed.

Lemma stop_spec fuel id c o s T :
  let i := bucket_of id in
  repr s T -> (0 < id)%Z -> length (T i) <= fuel ->
  exists s', raw_proto_timer_stop fuel id c o s =
  Done (RAW_PROTO_TIMER_RETURN_OK,
    match (take_out id (T i)).1 with Some n => pt_context n | None => 0%Z end,
    match (take_out id (T i)).1 with Some n => pt_owner n | None => RPT_OWNER_FIRST end,
    s') /\
  repr s' (upd T i (take_out id (T i)).2) /\ frame s s' /\ rt_out s' = rt_out s.
Proof.
  intros i HT Hid Hf. unfold raw_proto_timer_stop. destruct (Z.eqb_spec id 0) as [|_]; [lia|].
  destruct (delete_spec fuel id 0 RPT_OWNER_FIRST s T HT Hid Hf)
    as (rc & c' & o' & s' & E & Hfr & Ho & HT' & H).
  rewrite E. cbn [obind]. exists s'.
  destruct (take_out id (T (bucket_of id))).1 as [n|] eqn:Et; unfold i; rewrite Et.
  - destruct H as (-> & -> & ->). done.
  - destruct H as [-> H]. by destruct (T (bucket_of id)); destruct H as (-> & -> & ->).
Qed.

(**  Starting the timer of a packet appends one node to the bucket of its id:
    a copy of the packet and of the sixteen bytes of a [struct sockaddr], sent
    once, now. *)
Theorem timer_start_refines fuel rawPkt len id rti maxn fd addr context owner s T :
  let i := bucket_of id in
  repr s T -> (0 <= id)%Z -> IS_VALID_RPT_OWNER owner = true ->
  Z.to_nat len <= length rawPkt -> 16 <= length addr -> length (T i) < fuel ->
  malloc_ok (rt_mallocs s) = true ->
  exists s', raw_proto_timer_start clock malloc_ok fuel true (Some rawPkt) len id rti maxn
    fd (Some addr) context owner s = Done (0%Z, s') /\
  repr s' (upd T i (T i ++ [started rawPkt len id rti maxn fd addr context owner
          (clock (rt_reads s))])) /\
  frame s s' /\ rt_out s' = rt_out s.
Proof. apply start_spec. Qed.

(**  Stopping a timer takes the first node with the id out of its bucket and
    returns its context and owner; without such a node it returns [NULL] and the
    first owner, all the same with the status of success. *)
Theorem timer_stop_refines fuel id c o s T :
  let i := bucket_of id in
  repr s T -> (0 < id)%Z -> length (T i) <= fuel ->
  exists s', raw_proto_timer_stop fuel id c o s =
  Done (RAW_PROTO_TIMER_RETURN_OK,
    match (take_out id (T i)).1 with Some n => pt_context n | None => 0%Z end,
    match (take_out id (T i)).1 with Some n => pt_owner n | None => RPT_OWNER_FIRST end,
    s') /\
  repr s' (upd T i (take_out id (T i)).2) /\ frame s s' /\ rt_out s' = rt_out s.
Proof. apply stop_spec. Qed.

(**  A sweep visits every node of the table once, in order: a node whose
    interval has not passed stays as it is; one that has retries left is sent
    again and its count goes up; one that has none is taken out and its owner is
    called back with its packet and context.  Nothing else changes. *)
Theorem timer_sweep_refines unlocked fuel s T :
  (forall n s, unlocked n s = Done s) -> repr s T ->
  (forall j, Forall counts_ok (T j) /\ length (T j) <= fuel) ->
  let '(T', k, e) := sweep_tab clock (rpt_callbacks s) (rt_reads s) T in
  exists s', raw_pkt_retransmit clock unlocked fuel s = Done s' /\
  repr s' T' /\ frame s s' /\ rt_reads s' = k /\ rt_out s' = rt_out s ++ e.
Proof.
  intros Hq HT Hok. destruct (sweep_tab _ _ _ _) as [[T' k] e] eqn:E.
  destruct (retransmit_spec clock unlocked Hq fuel s T T' k e E HT Hok)
    as (s' & E' & HT' & Hfr & Hk & Ho & _). by exists s'.
Qed.

Lemma take_out_snoc id n : forall ns,
  (forall m, m ∈ ns -> pt_pktId m <> id) -> pt_pktId n = id ->
  take_out id (ns ++ [n]) = (Some n, ns).
Proof.
  induction ns as [|m ns IH]; intros Hns Hn; simpl.
  - by rewrite Hn, Z.eqb_refl.
  - destruct (Z.eqb_spec (pt_pktId m) id) as [E|_]; [by destruct (Hns m); [left|]|].
    rewrite IH; [done | intros; apply Hns; by right | done].
Qed.

(**  Stopping the timer that was just started gives the context and the owner
    it was started with, and leaves the table as it was before. *)
Theorem start_stop_round_trip fuel rawPkt len id rti maxn fd addr context owner s T c o :
  repr s T -> (0 < id)%Z -> (forall n, n ∈ T (bucket_of id) -> pt_pktId n <> id) ->
  IS_VALID_RPT_OWNER owner = true ->
  Z.to_nat len <= length rawPkt -> 16 <= length addr -> length (T (bucket_of id)) < fuel ->
  malloc_ok (rt_mallocs s) = true ->
  exists s1 s2,
  raw_proto_timer_start clock malloc_ok fuel true (Some rawPkt) len id rti maxn fd
    (Some addr) context owner s = Done (0%Z, s1) /\
  raw_proto_timer_stop fuel id c o s1 =
  Done (RAW_PROTO_TIMER_RETURN_OK, context, owner, s2) /\
  repr s2 T.
Proof.
  intros HT Hid Hno Hown Hlen Haddr Hf Hok.
  destruct (start_spec fuel rawPkt len id rti maxn fd addr context owner s T HT
    ltac:(lia) Hown Hlen Haddr Hf Hok) as (s1 & E1 & HT1 & _).
  destruct (stop_spec fuel id c o s1 _ HT1 Hid) as (s2 & E2 & HT2 & _).
  { rewrite upd_eq, length_app. simpl. lia. }
  exists s1, s2. rewrite !upd_eq, take_out_snoc in E2 by done.
  rewrite upd_eq, take_out_snoc in HT2 by done. split_and!; [done | done |].
  eapply repr_ext; [exact HT2|]. intros j. unfold upd. by case_decide; subst.
Qed.
End timer.

(** ** Errors *)

Lemma start_errors clock malloc_ok fuel data_ok rawPkt len id rti maxn fd addr
    context owner s :
  let start rawPkt data_ok addr :=
    raw_proto_timer_start clock malloc_ok fuel data_ok rawPkt len id rti maxn fd addr
      context owner s in
  start None data_ok addr = Done (-1, s)%Z /\ start rawPkt data_ok None = Done (-1, s)%Z /\
  forall pkt a,
    (IS_VALID_RPT_OWNER owner = false -> start (Some pkt) data_ok (Some a) = Done (-1, s)%Z) /\
    (IS_VALID_RPT_OWNER owner = true -> start (Some pkt) false (Some a) = Done (-4, s)%Z) /\
    (IS_VALID_RPT_OWNER owner = true -> Z.to_nat len <= length pkt -> 16 <= length a ->
     malloc_ok (rt_mallocs s) = false ->
     exists s', start (Some pkt) true (Some a) = Done (-3, s')%Z /\
       frame s s' /\ forall T, repr s T -> repr s' T).
Proof.
  split_and!; [done | by destruct rawPkt |]. intros pkt a.
  unfold raw_proto_timer_start. split_and!.
  - by intros ->.
  - by intros ->.
  - intros -> Hlen Ha Hm. simpl. rewrite decide_False by lia. unfold malloc_node. rewrite Hm.
    simpl. eexists. split_and!; [done..|]. intros T [L HR]. exists L.
    eapply Rep_same; [exact HR | done | done | simpl; lia].
Qed.

(**  A packet, an address or an owner that is not there is refused with -1,
    a copy that cannot be allocated with -4, a node that cannot with -3; the
    table is as before. *)
Theorem timer_start_errors clock malloc_ok fuel data_ok rawPkt len id rti maxn fd addr
    context owner s :
  let start rawPkt data_ok addr :=
    raw_proto_timer_start clock malloc_ok fuel data_ok rawPkt len id rti maxn fd addr
      context owner s in
  start None data_ok addr = Done (-1, s)%Z /\ start rawPkt data_ok None = Done (-1, s)%Z /\
  forall pkt a,
    (IS_VALID_RPT_OWNER owner = false -> start (Some pkt) data_ok (Some a) = Done (-1, s)%Z) /\
    (IS_VALID_RPT_OWNER owner = true -> start (Some pkt) false (Some a) = Done (-4, s)%Z) /\
    (IS_VALID_RPT_OWNER owner = true -> Z.to_nat len <= length pkt -> 16 <= length a ->
     malloc_ok (rt_mallocs s) = false ->
     exists s', start (Some pkt) true (Some a) = Done (-3, s')%Z /\
       frame s s' /\ forall T, repr s T -> repr s' T).
Proof. apply start_errors. Qed.

Lemma timer_start_errors_witness :
  raw_proto_timer_start (fun _ => 0%Z) (fun _ => false) 3 false (Some [1%Z]) 1 5 4 3 9
    (Some (replicate 16 0%Z)) 1 RPT_OWNER_DPSA rtimer1 = Done (-4, rtimer1)%Z.
Proof.
  apply (timer_start_errors (fun _ => 0%Z) (fun _ => false) 3 false None 1 5 4 3 9 None 1
    RPT_OWNER_DPSA rtimer1). reflexivity.
Defined.

(** A query id whose [int] is negative has a negative bucket index. *)
Lemma hash_negative q :
  (2147483648 <= q < 4294967296)%Z -> ((4294967296 - q) mod 1000 <> 0)%Z ->
  (hash (i32 q) < 0)%Z.
Proof.
  intros Hq Hr. unfold hash, MAX_HASH_BUCKET.
  assert (i32 q = - (4294967296 - q))%Z as ->.
  { unfold i32. rewrite <- (Z.mod_unique (q + 2147483648) 4294967296 1
      (q + 2147483648 - 4294967296)); lia. }
  rewrite Z.rem_opp_l, Z.rem_mod_nonneg by lia.
  pose proof (Z.mod_pos_bound (4294967296 - q) 1000 eq_refl). lia.
Qed.

(**  From the 2147483648th on, the query ids are negative as [int]s; unless
    their distance to 2^32 is a multiple of 1000, starting or stopping their
    timer accesses the hash table out of its bounds. *)
Theorem negative_id_faults clock malloc_ok fuel pkt len q rti maxn fd addr context owner c o s :
  (2147483648 <= q < 4294967296)%Z -> ((4294967296 - q) mod 1000 <> 0)%Z ->
  IS_VALID_RPT_OWNER owner = true -> malloc_ok (rt_mallocs s) = true ->
  raw_proto_timer_start clock malloc_ok fuel true (Some pkt) len (i32 q) rti maxn fd
    (Some addr) context owner s = Fault /\
  raw_proto_timer_stop fuel (i32 q) c o s = Fault.
Proof.
  intros Hq Hr Hown Hok. pose proof (hash_negative q Hq Hr) as Hneg.
  assert (forall s, bucketPtr s (hash (i32 q)) = Fault) as Hb.
  { intros s'. unfold bucketPtr. by rewrite (proj2 (Z.ltb_lt _ _) Hneg). }
  split.
  - unfold raw_proto_timer_start. rewrite Hown. simpl. case_decide; [done|].
    unfold malloc_node. rewrite Hok. cbn [time]. unfold time. simpl. by rewrite Hb.
  - unfold raw_proto_timer_stop, delete_raw_pkt. destruct (Z.eqb_spec (i32 q) 0) as [E|_].
    + rewrite E in Hneg. by vm_compute in Hneg.
    + by rewrite Hb.
Qed.

Lemma negative_id_faults_witness :
  raw_proto_timer_start (fun _ => 0%Z) (fun _ => true) 3 true (Some [1%Z]) 1
    (i32 2147483649) 4 3 9 (Some (replicate 16 0%Z)) 1 RPT_OWNER_DPSA rtimer1 = Fault /\
  raw_proto_timer_stop 3 (i32 2147483649) 0 0 rtimer1 = Fault.
Proof. apply negative_id_faults; [lia | vm_compute; discriminate | reflexivity..]. Defined.

(** ** Query ids *)
Fixpoint nth_query_id (n : nat) (s : rtimer) : Z :=
  match n with
  | 0 => (raw_proto_query_id_generate s).1
  | S n => nth_query_id n (raw_proto_query_id_generate s).2
  end.

Lemma nth_query_id_spec n : forall s,
  in32 (queryId s) -> nth_query_id n s = ((queryId s + Z.of_nat n) mod 4294967295 + 1)%Z.
Proof.
  assert (forall s, in32 (queryId s) ->
    (raw_proto_query_id_generate s).1 = (queryId s mod 4294967295 + 1)%Z /\
    queryId (raw_proto_query_id_generate s).2 = (queryId s mod 4294967295 + 1)%Z) as Hgen.
  { intros s Hs. unfold in32 in Hs. unfold raw_proto_query_id_generate. simpl.
    destruct (Z.eqb_spec (queryId s) 4294967295) as [E|E]; [by rewrite E|].
    by rewrite Z.mod_small by lia. }
  induction n as [|n IH]; intros s Hs; destruct (Hgen s Hs) as [E1 E2]; cbn [nth_query_id].
  - by rewrite Z.add_0_r.
  - rewrite IH, E2; [|rewrite E2; pose proof (Z.mod_pos_bound (queryId s) 4294967295 eq_refl);
      unfold in32; lia].
    f_equal. rewrite <- Z.add_assoc, Zplus_mod_idemp_l. f_equal. lia.
Qed.

(**  The ids that are generated are never zero and fit 32 bits, and two
    requests fewer than 2^32 - 1 apart do not share one. *)
Theorem query_ids_distinct s m n :
  in32 (queryId s) ->
  (0 < nth_query_id m s)%Z /\ in32 (nth_query_id m s) /\
  (m < n -> (Z.of_nat n - Z.of_nat m < 4294967295)%Z -> nth_query_id m s <> nth_query_id n s).
Proof.
  intros Hs. rewrite !nth_query_id_spec by done.
  pose proof (Z.mod_pos_bound (queryId s + Z.of_nat m) 4294967295 eq_refl).
  split_and!; [lia | unfold in32; lia |]. intros Hmn Hd E.
  assert ((queryId s + Z.of_nat m) mod 4294967295 =
          (queryId s + Z.of_nat n) mod 4294967295)%Z as E' by lia. clear E.
  Z.div_mod_to_equations. lia.
Qed.

Lemma query_ids_distinct_witness :
  (0 < nth_query_id 5 rtimer1)%Z /\ in32 (nth_query_id 5 rtimer1) /\
  (5 < 9 -> (Z.of_nat 9 - Z.of_nat 5 < 4294967295)%Z ->
   nth_query_id 5 rtimer1 <> nth_query_id 9 rtimer1).
Proof. apply query_ids_distinct. vm_compute. split; [discriminate | reflexivity]. Defined.

(** ** The schedule *)

(**  The n-th copy of a packet waits 2^(n-1) + 1 seconds for an answer; the
    shift and the [float] are exact for the counts in use.  The comment in the
    code says [3 + (2^n - 1)/2]; the offset in the header is 1. *)
Theorem backoff_interval n :
  (1 <= n <= 23)%Z -> calculate_retry_interval n = Done (2 ^ (n - 1) + 1)%Z.
Proof. intros H. rewrite calculate_retry_interval_ok, interval_pow2 by lia. done. Qed.

Lemma backoff_interval_witness : calculate_retry_interval 4 = Done 9%Z.
Proof. apply backoff_interval. lia. Defined.

(** Sweeps of the thread, all the reads of the clock within one at one time. *)
Fixpoint sweeps (unlocked : node -> rtimer -> out rtimer) (fuel : nat) (times : list Z)
  (s : rtimer) : out rtimer :=
  match times with
  | [] => Done s
  | t :: times =>
      let* s := raw_pkt_retransmit (fun _ => t) unlocked fuel s in
      sweeps unlocked fuel times s
  end.

(** The [k] seconds after [t]. *)
Fixpoint seconds (t : Z) (k : nat) : list Z :=
  match k with 0 => [] | S k => (t + 1)%Z :: seconds (t + 1) k end.

Lemma seconds_app t a b : seconds t (a + b) = seconds t a ++ seconds (t + Z.of_nat a) b.
Proof.
  revert t. induction a as [|a IH]; intros t; cbn [seconds Nat.add app];
    [f_equal; lia|].
  by replace (t + Z.of_nat (S a))%Z with (t + 1 + Z.of_nat a)%Z by lia; rewrite IH.
Qed.

Lemma sweeps_app u fuel l1 l2 s :
  sweeps u fuel (l1 ++ l2) s = let* s := sweeps u fuel l1 s in sweeps u fuel l2 s.
Proof.
  revert s. induction l1 as [|t l1 IH]; intros s; simpl; [done|].
  destruct (raw_pkt_retransmit _ _ _ s); simpl; [apply IH | done | done].
Qed.

Lemma sweep_from_single clock cbs i ns e : forall n i0 k T,
  (forall k, exists k', sweep_list clock cbs k (T i) = (ns, k', e)) ->
  (forall j, i0 <= j -> j <> i -> T j = []) -> i0 <= i < i0 + n ->
  exists T' k', sweep_from clock cbs n i0 k T = (T', k', e) /\ forall j, T' j = upd T i ns j.
Proof.
  assert (forall n i0 k T, (forall j, i0 <= j -> T j = []) ->
    exists T', sweep_from clock cbs n i0 k T = (T', k, []) /\ forall j, T' j = T j) as Hempty.
  { induction n as [|n IH]; intros i0 k T HT; [by exists T|]. simpl. rewrite HT by lia. simpl.
    assert (forall j, upd T i0 [] j = T j) as Hu by (intros j; unfold upd; case_decide;
      [subst; by rewrite HT by lia | done]).
    destruct (IH (S i0) k (upd T i0 [])) as (T' & -> & HT'); [intros; rewrite Hu; apply HT; lia|].
    exists T'. split; [done|]. intros j. by rewrite HT'. }
  induction n as [|n IH]; intros i0 k T Hi HT Hr; [lia|]. simpl.
  destruct (decide (i0 = i)) as [->|Hne].
  - destruct (Hi k) as [k' ->]. destruct (Hempty n (S i) k' (upd T i ns)) as (T' & -> & HT').
    { intros j Hj. rewrite upd_ne by lia. apply HT; lia. }
    exists T', k'. by rewrite app_nil_r.
  - rewrite (HT i0) by lia. simpl.
    assert (forall j, upd T i0 [] j = T j) as Hu by (intros j; unfold upd; case_decide;
      [subst; by rewrite HT by lia | done]).
    destruct (IH (S i0) k (upd T i0 [])) as (T' & k' & E & HT').
    + intros k0. rewrite Hu. apply Hi.
    + intros. rewrite Hu. apply HT; lia.
    + lia.
    + rewrite E. exists T', k'. split; [done|]. intros j. rewrite HT'. unfold upd.
      case_decide; [done|]. case_decide; [subst; by rewrite HT by lia | done].
Qed.

Definition alone (i : nat) (n : node) : nat -> list node := upd no_timers i [n].

(** One sweep over a table with one node. *)
Lemma sweep_alone u fuel t s i n :
  (forall n s, u n s = Done s) -> 0 < fuel -> repr s (alone i n) -> counts_ok n ->
  exists s', raw_pkt_retransmit (fun _ => t) u fuel s = Done s' /\ frame s s' /\
    if due t n then
      if may_resend n then
        repr s' (alone i (sent_again n t)) /\
        rt_out s' = rt_out s ++
          [Rt_sendto (pt_sockFd n) (pt_rawPkt n) (pt_rawPktLen n) (pt_addr n)]
      else repr s' no_timers /\ rt_out s' = rt_out s ++ notified (rpt_callbacks s) n
    else repr s' (alone i n) /\ rt_out s' = rt_out s.
Proof.
  intros Hq Hf HT Hok.
  assert (i < Z.to_nat MAX_HASH_BUCKET) as Hi.
  { destruct HT as [L HR]. destruct (decide (i < Z.to_nat MAX_HASH_BUCKET)); [done|].
    pose proof (rep_hash _ _ _ HR i n) as Hh. unfold alone in Hh. rewrite upd_eq in Hh.
    specialize (Hh ltac:(by left)). unfold hash, MAX_HASH_BUCKET in *.
    pose proof (Z.rem_bound_abs (pt_pktId n) 1000 ltac:(lia)). lia. }
  set (r := if due t n then if may_resend n then
              ([sent_again n t], [Rt_sendto (pt_sockFd n) (pt_rawPkt n) (pt_rawPktLen n) (pt_addr n)])
            else ([], notified (rpt_callbacks s) n) else ([n], [])).
  destruct (sweep_from_single (fun _ => t) (rpt_callbacks s) i r.1 r.2
    (Z.to_nat MAX_HASH_BUCKET) 0 (rt_reads s) (alone i n)) as (T' & k' & E & HT').
  - intros k. unfold alone. rewrite upd_eq. unfold r. simpl.
    destruct (due t n), (may_resend n); simpl; rewrite ?app_nil_r; eauto.
  - intros j _ Hj. unfold alone. by rewrite upd_ne.
  - lia.
  - destruct (retransmit_spec _ u Hq fuel s _ _ _ _ E HT) as (s' & E' & HR & Hfr & _ & Ho & _).
    { intros j. unfold alone, upd. case_decide; simpl; (split; [|lia]).
      - by apply Forall_singleton.
      - by apply List.Forall_nil. }
    exists s'. split_and!; [done | done |]. rewrite Ho.
    pose proof (repr_ext s' T' (upd (alone i n) i r.1) HR ltac:(by intros; rewrite HT')) as HR'.
    assert (forall ns, repr s' (upd (alone i n) i ns) -> repr s' (upd no_timers i ns)) as Huu.
    { intros ns H. eapply repr_ext; [exact H|]. intros j. unfold alone, upd. by case_decide. }
    apply Huu in HR'. clear Huu HR E HT'. unfold r in *.
    destruct (due t n); [destruct (may_resend n)|]; cbn [fst snd] in *.
    + split; [exact HR' | reflexivity].
    + split; [|reflexivity]. eapply repr_ext; [exact HR'|].
      intros j. unfold upd, no_timers. by case_decide.
    + split; [exact HR' | apply app_nil_r].
Qed.

(** The node after [c] transmissions, the last at [u]. *)
Definition aged (n : node) (c u : Z) : node :=
  mk_pkt_timer (pt_pktId n) u (pt_rawPkt n) (pt_rawPktLen n) (pt_retransmitInterval n)
    (pt_maxNumRetransmit n) c (pt_context n) (pt_owner n) (pt_sockFd n) (pt_addr n) None.

(** Nothing happens before the interval has passed. *)
Lemma sweeps_wait u fuel n c t i : forall k t' s,
  (forall n s, u n s = Done s) -> 0 < fuel -> (1 <= c <= 23)%Z ->
  repr s (alone i (aged n c t)) -> (t <= t')%Z -> (t' + Z.of_nat k - t <= 2 ^ (c - 1))%Z ->
  exists s', sweeps u fuel (seconds t' k) s = Done s' /\ frame s s' /\
    repr s' (alone i (aged n c t)) /\ rt_out s' = rt_out s.
Proof.
  induction k as [|k IH]; intros t' s Hq Hf Hc HT Ht Hk; simpl; [by exists s|].
  destruct (sweep_alone u fuel (t' + 1) s i (aged n c t) Hq Hf HT) as (s1 & E & Hfr & H).
  { unfold counts_ok. simpl. lia. }
  unfold due in H. simpl in H. rewrite interval_pow2 in H by lia.
  destruct (Z.leb_spec (2 ^ (c - 1) + 1) (t' + 1 - t)); [lia|]. destruct H as [HT1 Ho1].
  destruct (IH (t' + 1)%Z s1 Hq Hf Hc HT1 ltac:(lia) ltac:(lia)) as (s' & E' & Hfr' & HT' & Ho').
  exists s'. rewrite E. cbn [obind]. split_and!; [done | | done | congruence].
  unfold frame in *. intuition congruence.
Qed.

(** The time from the [c]-th transmission to the callback. *)
Fixpoint patience (c : Z) (left_ : nat) : nat :=
  S (Z.to_nat (2 ^ (c - 1))) + match left_ with 0 => 0 | S k => patience (c + 1) k end.

Lemma patience_eq c k : (1 <= c)%Z ->
  Z.of_nat (patience c k) = (2 ^ (c + Z.of_nat k) - 2 ^ (c - 1) + Z.of_nat k + 1)%Z.
Proof.
  revert c. induction k as [|k IH]; intros c Hc; cbn [patience];
    pose proof (Z.pow_pos_nonneg 2 (c - 1) eq_refl ltac:(lia)).
  - replace (c + Z.of_nat 0)%Z with c by lia. replace (2 ^ c)%Z with (2 * 2 ^ (c - 1))%Z
      by (rewrite <- Z.pow_succ_r by lia; f_equal; lia). lia.
  - rewrite Nat2Z.inj_add, IH by lia. replace (c + 1 - 1)%Z with c by lia.
    replace (c + 1 + Z.of_nat k)%Z with (c + Z.of_nat (S k))%Z by lia.
    assert (2 ^ c = 2 * 2 ^ (c - 1))%Z by (rewrite <- Z.pow_succ_r by lia; f_equal; lia). lia.
Qed.

Lemma sweeps_patience u fuel n i : forall k c t s,
  (forall n s, u n s = Done s) -> 0 < fuel -> (1 <= c)%Z -> (c + Z.of_nat k <= 23)%Z ->
  (pt_maxNumRetransmit n + 1 = c + Z.of_nat k)%Z ->
  repr s (alone i (aged n c t)) ->
  exists s', sweeps u fuel (seconds t (patience c k)) s = Done s' /\ frame s s' /\
    repr s' no_timers /\
    rt_out s' = rt_out s ++
      replicate k (Rt_sendto (pt_sockFd n) (pt_rawPkt n) (pt_rawPktLen n) (pt_addr n)) ++
      notified (rpt_callbacks s) n.
Proof.
  induction k as [|k IH]; intros c t s Hq Hf Hc Hk Hmax HT; cbn [patience];
    pose proof (Z.pow_pos_nonneg 2 (c - 1) eq_refl ltac:(lia)) as Hpos;
    destruct (sweeps_wait u fuel n c t i (Z.to_nat (2 ^ (c - 1))) t s Hq Hf ltac:(lia) HT
      ltac:(lia) ltac:(lia)) as (s1 & E1 & Hfr1 & HT1 & Ho1);
    destruct (sweep_alone u fuel (t + 2 ^ (c - 1) + 1) s1 i (aged n c t) Hq Hf HT1)
      as (s2 & E2 & Hfr2 & H); try (unfold counts_ok; simpl; lia);
    unfold due, may_resend in H; simpl in H; rewrite interval_pow2 in H by lia;
    destruct (Z.leb_spec (2 ^ (c - 1) + 1) (t + 2 ^ (c - 1) + 1 - t)); try lia;
    destruct (Z.leb_spec c (pt_maxNumRetransmit n)); try lia; destruct H as [HT2 Ho2];
    rewrite <- Nat.add_1_r, <- ?Nat.add_assoc, seconds_app, sweeps_app, E1; cbn [obind];
    rewrite Z2Nat.id by lia.
  - simpl. rewrite E2. exists s2. cbn [obind]. split_and!; [done | | done |].
    + unfold frame in *. intuition congruence.
    + rewrite Ho2, Ho1. destruct Hfr1 as (-> & _). done.
  - simpl. rewrite E2. cbn [obind].
    destruct (IH (c + 1)%Z (t + 2 ^ (c - 1) + 1)%Z s2 Hq Hf ltac:(lia) ltac:(lia) ltac:(lia) HT2)
      as (s3 & E3 & Hfr3 & HT3 & Ho3).
    exists s3. split_and!; [done | | done |].
    + unfold frame in *. intuition congruence.
    + rewrite Ho3, Ho2, Ho1. destruct Hfr1 as (Ec1 & _), Hfr2 as (Ec2 & _).
      rewrite Ec2, Ec1. rewrite <- !app_assoc. done.
Qed.

(** C27.  A request that nobody answers, alone in the table and swept over every
    second, is sent [maxNumRetransmit] times more; 2^(max+1) + max seconds after
    it was first sent it is taken out, and its owner called back, once. *)
Theorem unanswered_gives_up u fuel n i t s :
  let max := Z.to_nat (pt_maxNumRetransmit n) in
  (forall n s, u n s = Done s) -> 0 < fuel -> (0 <= pt_maxNumRetransmit n <= 22)%Z ->
  pt_transmitCount n = 1%Z -> pt_lastSentTime n = t -> repr s (alone i n) ->
  exists s', sweeps u fuel (seconds t (Z.to_nat (2 ^ (pt_maxNumRetransmit n + 1)) + max)) s
             = Done s' /\
    repr s' no_timers /\
    rt_out s' = rt_out s ++
      replicate max (Rt_sendto (pt_sockFd n) (pt_rawPkt n) (pt_rawPktLen n) (pt_addr n)) ++
      notified (rpt_callbacks s) n.
Proof.
  intros max Hq Hf Hm Hc Ht HT.
  assert (pt_next n = None) as Hn.
  { destruct HT as [L HR]. destruct (decide (i < Z.to_nat MAX_HASH_BUCKET)) as [Hi|Hi].
    - destruct (rep_lookup _ _ _ i HR Hi) as (p & _ & Hs). unfold alone in Hs.
      rewrite upd_eq in Hs. destruct (L i); [done|]. by destruct Hs as (_ & Hs & _).
    - pose proof (rep_hash _ _ _ HR i n) as Hh. unfold alone in Hh. rewrite upd_eq in Hh.
      specialize (Hh ltac:(by left)). unfold hash, MAX_HASH_BUCKET in *.
      pose proof (Z.rem_bound_abs (pt_pktId n) 1000 ltac:(lia)). lia. }
  assert (n = aged n 1 t) as En by (destruct n; simpl in *; unfold aged; simpl; congruence).
  rewrite En in HT.
  destruct (sweeps_patience u fuel n i max 1 t s Hq Hf ltac:(lia) ltac:(lia) ltac:(lia) HT)
    as (s' & E & _ & HT' & Ho).
  exists s'. split_and!; [|done|done]. rewrite <- E. f_equal. f_equal.
  pose proof (patience_eq 1 max ltac:(lia)) as Hp. change (2 ^ (1 - 1))%Z with 1%Z in Hp.
  replace (1 + Z.of_nat max)%Z with (pt_maxNumRetransmit n + 1)%Z in Hp by lia.
  pose proof (Z.pow_pos_nonneg 2 (pt_maxNumRetransmit n + 1) eq_refl ltac:(lia)). lia.
Qed.

(** ** The window around the callback *)

Lemma retransmit_skip clock u fuel s : forall k n i,
  (forall j, i <= j < i + k -> gHashTab s !! j = Some None) ->
  retransmit_from clock u fuel (k + n) (Z.of_nat i) s =
  retransmit_from clock u fuel n (Z.of_nat (i + k)) s.
Proof.
  induction k as [|k IH]; intros n i H; [by rewrite Nat.add_0_r|].
  cbn [Nat.add retransmit_from]. rewrite (bucketPtr_lookup s i None) by (apply H; lia).
  cbn [obind]. replace (retransmit_bucket clock u fuel (Z.of_nat i) None None None s)
    with (Done s) by by destruct fuel.
  cbn [obind]. replace (Z.of_nat i + 1)%Z with (Z.of_nat (S i)) by lia.
  rewrite IH by (intros; apply H; lia). do 2 f_equal. lia.
Qed.

(** Some other thread stops the timer of [id] while the mutex is released. *)
Definition stopping (fuel : nat) (id : Z) (_ : node) (s : rtimer) : out rtimer :=
  let* (_, _, _, s) := raw_proto_timer_stop fuel id 0 0 s in Done s.

(**  The sweep keeps its pointer to the next node while it has released the
    mutex for a callback: if the reply to the next packet of the bucket arrives
    just then, its node is freed and the sweep reads freed memory. *)
Theorem stop_during_callback_faults clock fuel s T i n1 n2 rest :
  repr s T -> i < Z.to_nat MAX_HASH_BUCKET -> (forall j, j < i -> T j = []) ->
  T i = n1 :: n2 :: rest -> due (clock (rt_reads s)) n1 = true -> may_resend n1 = false ->
  counts_ok n1 -> (0 < pt_pktId n2)%Z -> 1 < fuel ->
  raw_pkt_retransmit clock (stopping fuel (pt_pktId n2)) fuel s = Fault.
Proof.
  intros [L HR] Hi Hbefore HT Hdue Hres Hc Hid Hf.
  destruct (rep_lookup _ _ _ i HR Hi) as (p & Hp & Hs). rewrite HT in Hs.
  unfold raw_pkt_retransmit.
  replace (Z.to_nat MAX_HASH_BUCKET) with (i + S (Z.to_nat MAX_HASH_BUCKET - i - 1)) by lia.
  change 0%Z with (Z.of_nat 0). rewrite retransmit_skip; cbn [Nat.add].
  2:{ intros j Hj. destruct (rep_lookup _ _ _ j HR ltac:(lia)) as (q & Hq & Hsq).
      rewrite Hbefore in Hsq by lia. destruct (L j); [|done]. simpl in Hsq. by subst q. }
  cbn [retransmit_from]. rewrite (bucketPtr_lookup s i p) by done. cbn [obind].
  pose proof (rep_nodup _ _ _ HR i) as Hnd.
  destruct (L i) as [|l1 [|l2 ls]]; [done | by destruct Hs as (_ & _ & nx & _ & Hs)|].
  destruct Hs as (-> & Hn1 & nx1 & E1 & -> & Hn2 & nx2 & E2 & _).
  assert (l1 <> l2) as Hne by (apply list.NoDup_cons in Hnd as [Hnd _]; set_solver).
  destruct fuel as [|[|fuel]]; [lia|lia|].
  cbn [retransmit_bucket]. unfold time, deref. cbn [rt_heap rt_reads]. rewrite E1.
  cbn [of_option obind].
  change (pt_transmitCount (with_next n1 (Some l2))) with (pt_transmitCount n1).
  change (pt_lastSentTime (with_next n1 (Some l2))) with (pt_lastSentTime n1).
  change (pt_maxNumRetransmit (with_next n1 (Some l2))) with (pt_maxNumRetransmit n1).
  rewrite calculate_retry_interval_ok by done. cbn [obind].
  unfold due in Hdue. rewrite Hdue. unfold may_resend in Hres. rewrite Hres.
  unfold set_next, deref. cbn [of_option obind rt_heap]. rewrite E1. cbn [of_option obind].
  rewrite with_next_twice. cbn [with_heap rt_heap]. rewrite lookup_insert_eq.
  cbn [of_option obind]. rewrite decide_True by done.
  change (pt_next (with_next n1 (pt_next (with_next n1 (Some l2))))) with (Some l2).
  erewrite (set_bucketPtr_lookup _ i) by (simpl; exact Hp). cbn [obind].
  rewrite notify_swept. unfold stopping at 1, raw_proto_timer_stop, delete_raw_pkt.
  destruct (Z.eqb_spec (pt_pktId n2) 0) as [|_]; [lia|].
  rewrite (rep_hash _ _ _ HR i n2) by (rewrite HT; right; by left).
  rewrite (bucketPtr_lookup _ i (Some l2)).
  2:{ simpl. apply list_lookup_insert_eq. by eapply lookup_lt_Some. }
  cbn [obind]. unfold deref. simpl. rewrite lookup_insert_ne, E2 by done. simpl.
  rewrite Z.eqb_refl. unfold free_node, deref.
  rewrite (set_bucketPtr_lookup _ i (Some l2)).
  2:{ simpl. apply list_lookup_insert_eq. by eapply lookup_lt_Some. }
  simpl. rewrite lookup_insert_ne, E2 by done. simpl.
  rewrite lookup_delete_ne, lookup_insert_eq by done. simpl.
  unfold deref. simpl. by rewrite lookup_delete_ne, lookup_delete_eq by done.
Qed.

(** ** Safety of every run *)

(** What the protocol code does with the timer, and the thread's sweeps. *)
Inductive timer_op :=
| Op_start (rawPkt : list Z) (len id fd : Z) (addr : list Z) (context owner : Z)
| Op_stop (id : Z)
| Op_sweep
| Op_query_id.

Definition admissible (op : timer_op) : Prop :=
  match op with
  | Op_start rawPkt len id _ addr _ _ =>
      (0 < id)%Z /\ Z.to_nat len <= length rawPkt /\ 16 <= length addr
  | Op_stop id => (0 < id)%Z
  | _ => True
  end.

Section run.
Context (clock : nat -> Z) (malloc_ok : nat -> bool).

(** A bucket holds no more nodes than were ever allocated: that much fuel is
    enough for its loops. *)
Definition run_op (op : timer_op) (s : rtimer) : out rtimer :=
  let fuel := S (rt_mallocs s) in
  match op with
  | Op_start rawPkt len id fd addr context owner =>
      let* (_, s) := raw_proto_timer_start clock malloc_ok fuel true (Some rawPkt) len id
        RAW_PKT_DEF_RETRANSMIT_INTERVAL MAX_NUM_DEF_RETRANSMIT fd (Some addr) context owner s in
      Done s
  | Op_stop id => let* (_, _, _, s) := raw_proto_timer_stop fuel id 0 0 s in Done s
  | Op_sweep => raw_pkt_retransmit clock (fun _ s => Done s) fuel s
  | Op_query_id => Done (raw_proto_query_id_generate s).2
  end.

Inductive reachable : rtimer -> Prop :=
  | reach_init cb owner s :
  raw_proto_timer_init (fun _ => true) (Some cb) owner rtimer0 =
  Done (RAW_PROTO_TIMER_RETURN_OK, s) -> reachable s
  | reach_op op s s' :
  reachable s -> admissible op -> run_op op s = Done s' -> reachable s'.

(** The counts of the nodes in use. *)
Definition count_ok (n : node) : Prop :=
  (1 <= pt_transmitCount n <= MAX_NUM_DEF_RETRANSMIT + 1)%Z /\
  pt_maxNumRetransmit n = MAX_NUM_DEF_RETRANSMIT.

Definition timer_inv (s : rtimer) : Prop :=
  exists T, repr s T /\ forall i, Forall count_ok (T i).

Lemma repr_over s T i : repr s T -> Z.to_nat MAX_HASH_BUCKET <= i -> T i = [].
Proof.
  intros [L HR] Hi. destruct (T i) as [|n ns] eqn:E; [done|].
  pose proof (rep_hash _ _ _ HR i n ltac:(rewrite E; by left)) as Hh.
  unfold hash, MAX_HASH_BUCKET in *.
  pose proof (Z.rem_bound_abs (pt_pktId n) 1000 ltac:(lia)). lia.
Qed.

Lemma repr_length s T i : repr s T -> length (T i) <= rt_mallocs s.
Proof.
  intros HT. destruct (decide (i < Z.to_nat MAX_HASH_BUCKET)) as [Hi|Hi].
  - destruct HT as [L HR]. destruct (rep_lookup _ _ _ i HR Hi) as (p & _ & Hs).
    rewrite <- (lseg_length _ _ _ _ _ Hs).
    apply nodup_length; [apply (rep_nodup _ _ _ HR) | apply (rep_fresh _ _ _ HR)].
  - rewrite (repr_over s T i HT) by lia. simpl. lia.
Qed.

Lemma sweep_list_count cbs : forall ns k ns' k' e,
  sweep_list clock cbs k ns = (ns', k', e) -> Forall count_ok ns -> Forall count_ok ns'.
Proof.
  induction ns as [|n ns IH]; intros k ns' k' e; simpl; [by intros [= <- <- <-]|].
  unfold may_resend. destruct (due _ n), (Z.leb_spec (pt_transmitCount n) (pt_maxNumRetransmit n));
    destruct (sweep_list _ _ _ ns) as [[r k1] e1] eqn:E; intros [= <- <- <-] [Hn Hns]%Forall_cons_1;
    repeat apply Forall_cons_2; eauto.
  destruct Hn as [Hn Hm]. split; simpl; [|done]. rewrite Hm in *. lia.
Qed.

Lemma sweep_from_count cbs : forall n i k T T' k' e,
  sweep_from clock cbs n i k T = (T', k', e) -> (forall j, Forall count_ok (T j)) ->
  forall j, Forall count_ok (T' j).
Proof.
  induction n as [|n IH]; intros i k T T' k' e; simpl; [by intros [= <- <- <-]|].
  destruct (sweep_list _ _ _ (T i)) as [[ns k1] e1] eqn:E1.
  destruct (sweep_from _ _ n _ _ _) as [[T1 k2] e2] eqn:E2. intros [= <- <- <-] HT.
  apply (IH _ _ _ _ _ _ E2). intros j. unfold upd. case_decide; [|done].
  eapply sweep_list_count; [exact E1 | done].
Qed.

Lemma count_counts n : count_ok n -> counts_ok n.
Proof. unfold count_ok, counts_ok, MAX_NUM_DEF_RETRANSMIT. lia. Qed.

Lemma take_out_count id : forall ns, Forall count_ok ns -> Forall count_ok (take_out id ns).2.
Proof.
  intros ns H. apply List.Forall_forall. intros n Hn. rewrite List.Forall_forall in H.
  apply H. apply list_elem_of_In. apply (take_out_sub id). by apply list_elem_of_In.
Qed.

Lemma upd_count T i ns :
  (forall j, Forall count_ok (T j)) -> Forall count_ok ns ->
  forall j, Forall count_ok (upd T i ns j).
Proof. intros HT Hns j. unfold upd. by case_decide. Qed.

(** Every operation succeeds, and keeps the invariant. *)
Lemma run_op_ok op s :
  timer_inv s -> admissible op -> exists s', run_op op s = Done s' /\ timer_inv s'.
Proof.
  intros (T & HT & Hc) Hop. destruct op as [pkt len id fd addr context owner|id| |]; simpl in Hop.
  - destruct Hop as (Hid & Hlen & Haddr). unfold run_op.
    destruct (start_errors clock malloc_ok (S (rt_mallocs s)) true None len id
      RAW_PKT_DEF_RETRANSMIT_INTERVAL MAX_NUM_DEF_RETRANSMIT fd None context owner s)
      as (_ & _ & Herr).
    destruct (Herr pkt addr) as (H1 & _ & H3). clear Herr.
    destruct (IS_VALID_RPT_OWNER owner) eqn:Hown; [|rewrite H1 by done; exists s; by firstorder].
    destruct (malloc_ok (rt_mallocs s)) eqn:Hm.
    + destruct (start_spec clock malloc_ok (S (rt_mallocs s)) pkt len id
        RAW_PKT_DEF_RETRANSMIT_INTERVAL MAX_NUM_DEF_RETRANSMIT fd addr context owner s T)
        as (s' & E & HT' & _); try done; [lia | |].
      { pose proof (repr_length s T (bucket_of id) HT). lia. }
      rewrite E. exists s'. split; [done|]. eexists. split; [exact HT'|].
      apply upd_count; [done|]. apply Forall_app. split; [done|]. apply Forall_singleton.
      unfold count_ok, MAX_NUM_DEF_RETRANSMIT. simpl. lia.
    + destruct (H3 eq_refl Hlen Haddr eq_refl) as (s' & E & _ & HT'). rewrite E.
      exists s'. split; [done|]. exists T. eauto.
  - destruct (stop_spec (S (rt_mallocs s)) id 0 0 s T HT Hop) as (s' & E & HT' & _).
    { pose proof (repr_length s T (bucket_of id) HT). lia. }
    unfold run_op. rewrite E. exists s'. split; [done|]. eexists. split; [exact HT'|].
    apply upd_count; [done|]. by apply take_out_count.
  - destruct (sweep_tab clock (rpt_callbacks s) (rt_reads s) T) as [[T' k] e] eqn:E.
    destruct (retransmit_spec clock (fun _ s => Done s) (fun _ _ => eq_refl)
      (S (rt_mallocs s)) s T T' k e E HT) as (s' & E' & HT' & _).
    { intros j. split; [|pose proof (repr_length s T j HT); lia].
      eapply List.Forall_impl; [exact count_counts | apply Hc]. }
    exists s'. split; [done|]. exists T'. split; [done|]. by eapply sweep_from_count.
  - simpl. eexists. split; [done|]. exists T. split; [|done]. destruct HT as [L HR].
    exists L. by eapply Rep_same.
Qed.

Lemma reachable_inv s : reachable s -> timer_inv s.
Proof.
  induction 1 as [cb owner s E | op s s' _ IH Hop E].
  - unfold raw_proto_timer_init in E. simpl in E. destruct (IS_VALID_RPT_OWNER owner); [|done].
    simpl in E. unfold set_callback in E. destruct (_ && _)%bool; [|done].
    injection E as <-. exists no_timers. split; [by apply repr_empty | by constructor].
  - destruct (run_op_ok op s IH Hop) as (s1 & E1 & Hinv). congruence.
Qed.
End run.

(** C26.  Whatever is started, stopped and swept after the initialisation, with
    positive ids and nobody interfering with a callback, no operation touches
    memory that is not a live node or leaves the table, none loops, and the
    lists stay well formed: every node is in the bucket of its id, at one place,
    sent between one and four times, and nothing else is allocated. *)
Theorem timer_runs_safely clock malloc_ok s op :
  reachable clock malloc_ok s -> admissible op ->
  timer_inv s /\ exists s', run_op clock malloc_ok op s = Done s' /\ timer_inv s'.
Proof.
  intros Hs Hop. apply reachable_inv in Hs. split; [done|]. by apply run_op_ok.
Qed.


(** ** Witnesses *)
Definition sample_addr : list Z := [2; 0; 0; 80; 10; 0; 0; 1; 0; 0; 0; 0; 0; 0; 0; 0]%Z.
Definition sample_node (id t : Z) : node :=
  started [1; 2; 3]%Z 3 id 4 3 9 sample_addr 77 RPT_OWNER_DPSA t.

Lemma repr_rtimer1 : repr rtimer1 no_timers.
Proof. by apply repr_empty. Qed.

Lemma timer_start_refines_witness :
  exists s', raw_proto_timer_start (fun _ => 100%Z) (fun _ => true) 1 true
      (Some [1; 2; 3]%Z) 3 1005 4 3 9 (Some sample_addr) 77 RPT_OWNER_DPSA rtimer1
      = Done (0%Z, s') /\
    repr s' (upd no_timers 5 [sample_node 1005 100]).
Proof.
  destruct (timer_start_refines (fun _ => 100%Z) (fun _ => true) 1 [1; 2; 3]%Z 3 1005 4 3 9
    sample_addr 77 RPT_OWNER_DPSA rtimer1 no_timers repr_rtimer1) as (s' & E & HT & _);
    [lia | reflexivity | simpl; lia | simpl; lia | simpl; lia | reflexivity |].
  exists s'. split; [exact E | exact HT].
Defined.

(** A table with one outstanding request. *)
Lemma one_timer : exists s, repr s (alone 5 (sample_node 1005 100)) /\
  rpt_callbacks s = rpt_callbacks rtimer1 /\ rt_out s = [].
Proof.
  destruct (start_spec (fun _ => 100%Z) (fun _ => true) 1 [1; 2; 3]%Z 3 1005 4 3 9
    sample_addr 77 RPT_OWNER_DPSA rtimer1 no_timers repr_rtimer1) as (s' & E & HT & (Hc & _) & Ho);
    [lia | done | simpl; lia | simpl; lia | simpl; lia | done |].
  exists s'. done.
Qed.

Lemma timer_stop_refines_witness :
  exists s s', repr s (alone 5 (sample_node 1005 100)) /\
    raw_proto_timer_stop 1 1005 0 0 s =
      Done (RAW_PROTO_TIMER_RETURN_OK, 77%Z, RPT_OWNER_DPSA, s') /\ repr s' no_timers.
Proof.
  destruct one_timer as (s & HT & _).
  destruct (timer_stop_refines 1 1005 0 0 s _ HT) as (s' & E & HT' & _);
    [lia | simpl; lia |].
  exists s, s'. split_and!; [exact HT | exact E |].
  eapply repr_ext; [exact HT'|]. intros j. change (bucket_of 1005) with 5.
  unfold alone, upd, no_timers. by destruct (decide (j = 5)).
Defined.

Lemma sample_sweep cbs k : exists T' k',
  sweep_tab (fun _ => 102%Z) cbs k (alone 5 (sample_node 1005 100)) =
  (T', k', [Rt_sendto 9 [1; 2; 3]%Z 3 sample_addr]).
Proof.
  destruct (sweep_from_single (fun _ => 102%Z) cbs 5
    [sent_again (sample_node 1005 100) 102] [Rt_sendto 9 [1; 2; 3]%Z 3 sample_addr]
    (Z.to_nat MAX_HASH_BUCKET) 0 k (alone 5 (sample_node 1005 100))) as (T1 & k1 & E1 & _).
  - intros k0. by exists (S (S k0)).
  - intros j _ Hj. unfold alone. by rewrite upd_ne.
  - vm_compute. lia.
  - exists T1, k1. exact E1.
Qed.

Lemma timer_sweep_refines_witness :
  exists s s', repr s (alone 5 (sample_node 1005 100)) /\
    raw_pkt_retransmit (fun _ => 102%Z) (fun _ s => Done s) 1 s = Done s' /\
    rt_out s' = [Rt_sendto 9 [1; 2; 3]%Z 3 sample_addr].
Proof.
  destruct one_timer as (s & HT & _ & Ho).
  destruct (sample_sweep (rpt_callbacks s) (rt_reads s)) as (T' & k & E).
  pose proof (timer_sweep_refines (fun _ => 102%Z) (fun _ s => Done s) 1 s _
    (fun _ _ => eq_refl) HT) as H.
  rewrite E in H. destruct H as (s' & E' & _ & _ & _ & Ho').
  { intros j. unfold alone, upd. case_decide; (split; [|simpl; lia]);
      [apply Forall_singleton; vm_compute; split; [discriminate | reflexivity] | apply List.Forall_nil]. }
  exists s, s'. split_and!; [exact HT | exact E' |]. by rewrite Ho', Ho.
Defined.

Lemma start_stop_round_trip_witness :
  exists s1 s2,
    raw_proto_timer_start (fun _ => 100%Z) (fun _ => true) 1 true (Some [1; 2; 3]%Z) 3 7 4 3 9
      (Some sample_addr) 77 RPT_OWNER_DPSA rtimer1 = Done (0%Z, s1) /\
    raw_proto_timer_stop 1 7 0 0 s1 = Done (RAW_PROTO_TIMER_RETURN_OK, 77%Z, RPT_OWNER_DPSA, s2) /\
    repr s2 no_timers.
Proof.
  apply (start_stop_round_trip (fun _ => 100%Z) (fun _ => true));
    [exact repr_rtimer1 | lia | intros n H; by apply not_elem_of_nil in H | reflexivity
    | simpl; lia | simpl; lia | simpl; lia | reflexivity].
Defined.

(** The default of three retries: the callback comes nineteen seconds after. *)
Lemma unanswered_gives_up_witness :
  exists s s', repr s (alone 5 (sample_node 1005 100)) /\
    sweeps (fun _ s => Done s) 1 (seconds 100 19) s = Done s' /\ repr s' no_timers /\
    rt_out s' = replicate 3 (Rt_sendto 9 [1; 2; 3]%Z 3 sample_addr) ++
                [Rt_callback 7 [1; 2; 3]%Z 77 RPT_OWNER_DPSA].
Proof.
  destruct one_timer as (s & HT & Hc & Ho).
  destruct (unanswered_gives_up (fun _ s => Done s) 1 (sample_node 1005 100) 5 100 s)
    as (s' & E & HT' & Ho'); [reflexivity | lia | simpl; lia | reflexivity | reflexivity
    | exact HT |].
  exists s, s'. split_and!; [exact HT | exact E | exact HT' |].
  rewrite Ho', Ho, Hc. reflexivity.
Defined.

(** A packet that may not be sent again, and the next one of its bucket. *)
Lemma stop_during_callback_faults_witness :
  exists s, repr s (upd no_timers 5 [started [1]%Z 1 1005 4 0 9 sample_addr 77 RPT_OWNER_DPSA 100;
                                     sample_node 2005 100]) /\
    raw_pkt_retransmit (fun _ => 102%Z) (stopping 2 2005) 2 s = Fault.
Proof.
  destruct (start_spec (fun _ => 100%Z) (fun _ => true) 2 [1]%Z 1 1005 4 0 9
    sample_addr 77 RPT_OWNER_DPSA rtimer1 _ repr_rtimer1) as (s1 & _ & HT1 & _);
    [lia | done | simpl; lia | simpl; lia | simpl; lia | done |].
  destruct (start_spec (fun _ => 100%Z) (fun _ => true) 2 [1; 2; 3]%Z 3 2005 4 3 9
    sample_addr 77 RPT_OWNER_DPSA s1 _ HT1) as (s & _ & HT & _);
    [lia | done | simpl; lia | simpl; lia | simpl; lia | done |].
  assert (repr s (upd no_timers 5
    [started [1]%Z 1 1005 4 0 9 sample_addr 77 RPT_OWNER_DPSA 100; sample_node 2005 100])) as HT2.
  { eapply repr_ext; [exact HT|]. intros j. change (bucket_of 2005) with 5.
    change (bucket_of 1005) with 5. unfold upd. by case_decide. }
  exists s. split; [exact HT2|].
  apply (stop_during_callback_faults (fun _ => 102%Z) 2 s _ 5
    (started [1]%Z 1 1005 4 0 9 sample_addr 77 RPT_OWNER_DPSA 100) (sample_node 2005 100) [] HT2).
  - vm_compute. lia.
  - intros j Hj. by rewrite upd_ne by lia.
  - apply upd_eq.
  - vm_compute. reflexivity.
  - vm_compute. reflexivity.
  - vm_compute. split; [discriminate | reflexivity].
  - vm_compute. reflexivity.
  - lia.
Defined.

Lemma timer_runs_safely_witness :
  exists s s', run_op (fun _ => 0%Z) (fun _ => true) (Op_start [1; 2; 3]%Z 3 5 9 sample_addr 77 2) s
    = Done s' /\ timer_inv s'.
Proof.
  destruct (timer_runs_safely (fun _ => 0%Z) (fun _ => true) rtimer1
    (Op_start [1; 2; 3]%Z 3 5 9 sample_addr 77 2)) as (_ & s' & E & H).
  - apply (reach_init _ _ 7 2). reflexivity.
  - simpl. lia.
  - exists rtimer1, s'. split; [exact E | exact H].
Defined.
