(* ===== verification/HList.v ===== *)
(** * Intrusive lists: [dps_list.h]

    A node has the address of its successor and the address of the pointer that
    points to it, which is either a list head or the [next] of its predecessor.
    Nodes are members of larger structures; here they have addresses of their
    own, and the heads are an array. *)
From stdpp Require Import gmap.
From S2P Require Export Prelude.

Inductive hptr := Null | Ptr (l : nat) | LIST_POISON1.
#[export] Instance hptr_eq_dec : EqDecision hptr.
Proof. solve_decision. Defined.

(** What [pprevious] points to. *)
Inductive hlink := Lnull | Lhead (h : nat) | Lnext (l : nat) | LIST_POISON2.

Record dps_hlist_node := mk_hlist_node { hn_next : hptr; hn_pprevious : hlink }.

(** The array of heads and the nodes that are allocated. *)
Record hlists := mk_hlists { hl_heads : list hptr; hl_nodes : gmap nat dps_hlist_node }.

(** ** Pointers *)
Definition hl_deref (s : hlists) (l : nat) : out dps_hlist_node := of_option (hl_nodes s !! l).
Definition hl_set (l : nat) (n : dps_hlist_node) (s : hlists) : out hlists :=
  let* _ := hl_deref s l in
  Done (mk_hlists (hl_heads s) (<[l := n]> (hl_nodes s))).
Definition hl_first (s : hlists) (h : nat) : out hptr := of_option (hl_heads s !! h).
Definition hl_set_first (h : nat) (p : hptr) (s : hlists) : out hlists :=
  let* _ := hl_first s h in Done (mk_hlists (<[h := p]> (hl_heads s)) (hl_nodes s)).

(** [node->next = p], [node->pprevious = q] and [*pprevious = p] *)
Definition hl_set_next (l : nat) (p : hptr) (s : hlists) : out hlists :=
  let* n := hl_deref s l in hl_set l (mk_hlist_node p (hn_pprevious n)) s.
Definition hl_set_pprevious (l : nat) (q : hlink) (s : hlists) : out hlists :=
  let* n := hl_deref s l in hl_set l (mk_hlist_node (hn_next n) q) s.
Definition hl_store (q : hlink) (p : hptr) (s : hlists) : out hlists :=
  match q with
  | Lhead h => hl_set_first h p s
  | Lnext l => hl_set_next l p s
  | _ => Fault
  end.

(** ** Operations *)
Definition dps_hlist_head_init (h : nat) (s : hlists) : out hlists := hl_set_first h Null s.

Definition dps_hlist_node_init (l : nat) (s : hlists) : out hlists :=
  let* s := hl_set_next l Null s in hl_set_pprevious l Lnull s.

Definition dps_hlist_head_add (h l : nat) (s : hlists) : out hlists :=
  let* first := hl_first s h in
  let* s := hl_set_next l first s in
  let* s :=
    match first with
    | Null => Done s
    | Ptr f => hl_set_pprevious f (Lnext l) s
    | LIST_POISON1 => Fault
    end in
  let* s := hl_set_first h (Ptr l) s in
  hl_set_pprevious l (Lhead h) s.

Definition dps_hlist_node_remove (l : nat) (s : hlists) : out hlists :=
  let* node := hl_deref s l in
  let next := hn_next node in
  let pprev := hn_pprevious node in
  let* s := hl_store pprev next s in
  let* s :=
    match next with
    | Null => Done s
    | Ptr n => hl_set_pprevious n pprev s
    | LIST_POISON1 => Fault
    end in
  let* s := hl_set_next l LIST_POISON1 s in
  hl_set_pprevious l LIST_POISON2 s.

(** ** Lists

    The nodes [ls] in order from [p], the first one pointed to by [q]. *)
Fixpoint hseg (ns : gmap nat dps_hlist_node) (p : hptr) (q : hlink) (ls : list nat) : Prop :=
  match ls with
  | [] => p = Null
  | l :: ls => p = Ptr l /\ exists nx, ns !! l = Some (mk_hlist_node nx q) /\
      hseg ns nx (Lnext l) ls
  end.

Lemma hseg_ext ns ns' : forall ls p q,
  (forall l, l ∈ ls -> ns' !! l = ns !! l) -> hseg ns p q ls -> hseg ns' p q ls.
Proof.
  induction ls as [|l ls IH]; intros p q He; simpl; [done|].
  intros (-> & nx & E & Hs). split; [done|]. exists nx. rewrite He by (by left).
  split; [done|]. apply IH; [|done]. intros k Hk. apply He. by right.
Qed.

Lemma hseg_insert ns p q ls l n : l ∉ ls -> hseg ns p q ls -> hseg (<[l := n]> ns) p q ls.
Proof.
  intros Hl. apply hseg_ext. intros k Hk. apply lookup_insert_ne. by intros ->.
Qed.

(** The first node's back link redirected. *)
Lemma hseg_relink ns p q q' ls :
  NoDup ls -> hseg ns p q ls ->
  match p with
  | Null => hseg ns p q' ls
  | Ptr l => exists nx, ns !! l = Some (mk_hlist_node nx q) /\
      hseg (<[l := mk_hlist_node nx q']> ns) p q' ls
  | LIST_POISON1 => False
  end.
Proof.
  intros Hnd. destruct ls as [|l ls]; simpl; [by intros ->|].
  intros (-> & nx & E & Hs). exists nx. split; [done|]. split; [done|]. exists nx.
  rewrite lookup_insert_eq. split; [done|]. apply list.NoDup_cons in Hnd as [Hl _].
  by apply hseg_insert.
Qed.

(** Every head has its list, no node is in two places. *)
Record hrep (s : hlists) (L : nat -> list nat) : Prop := {
  hr_lists h p : hl_heads s !! h = Some p -> hseg (hl_nodes s) p (Lhead h) (L h);
  hr_nodup h : NoDup (L h);
  hr_disj h k l : l ∈ L h -> l ∈ L k -> h = k
}.

Definition hupd (L : nat -> list nat) (h : nat) (ls : list nat) : nat -> list nat :=
  fun k => if decide (k = h) then ls else L k.

(** One list rewritten, with nodes of its own. *)
Lemma hrep_update s L s' h p' ls' :
  hrep s L -> hl_heads s' = <[h := p']> (hl_heads s) -> h < length (hl_heads s) ->
  (forall l, l ∉ L h -> l ∉ ls' -> hl_nodes s' !! l = hl_nodes s !! l) ->
  hseg (hl_nodes s') p' (Lhead h) ls' -> NoDup ls' ->
  (forall k l, k <> h -> l ∈ ls' -> l ∉ L k) -> hrep s' (hupd L h ls').
Proof.
  intros HR Eh Hh Hout Hs Hnd Hsep. split.
  - intros k p. rewrite Eh. unfold hupd. case_decide as Hk.
    + subst k. rewrite list_lookup_insert_eq by done. by intros [= <-].
    + rewrite list_lookup_insert_ne by done. intros Hp.
      eapply hseg_ext; [|by apply (hr_lists _ _ HR)]. intros l Hl. apply Hout.
      * intros Hlh. by apply Hk, (hr_disj _ _ HR k h l).
      * intros Hl'. by apply (Hsep k l).
  - intros k. unfold hupd. case_decide; [done|]. apply (hr_nodup _ _ HR).
  - intros j k l. unfold hupd. repeat case_decide; subst; try done; intros H1 H2.
    + by destruct (Hsep k l).
    + by destruct (Hsep j l).
    + by apply (hr_disj _ _ HR j k l).
Qed.

(** ** Insertion and removal *)

(** The nodes [ls] from [p], first pointed to by [q], up to the pointer [m] in [r]. *)
Fixpoint hpre (ns : gmap nat dps_hlist_node) (p : hptr) (q : hlink) (ls : list nat)
  (m : hptr) (r : hlink) : Prop :=
  match ls with
  | [] => p = m /\ q = r
  | l :: ls => p = Ptr l /\ exists nx, ns !! l = Some (mk_hlist_node nx q) /\
      hpre ns nx (Lnext l) ls m r
  end.

Lemma hseg_app ns : forall a b p q,
  hseg ns p q (a ++ b) <-> exists m r, hpre ns p q a m r /\ hseg ns m r b.
Proof.
  induction a as [|l a IH]; intros b p q; simpl.
  - split; [eauto|]. by intros (m & r & [-> ->] & H).
  - split.
    + intros (-> & nx & E & H). apply IH in H as (m & r & H1 & H2). eauto 10.
    + intros (m & r & (-> & nx & E & H1) & H2). split; [done|]. exists nx.
      split; [done|]. apply IH. eauto.
Qed.

Lemma hpre_snoc ns z m r : forall a p q,
  hpre ns p q (a ++ [z]) m r <->
  exists r', hpre ns p q a (Ptr z) r' /\ ns !! z = Some (mk_hlist_node m r') /\ r = Lnext z.
Proof.
  induction a as [|l a IH]; intros p q; simpl.
  - split.
    + intros (-> & nx & E & -> & <-). eauto.
    + intros (r' & [-> ->] & E & ->). eauto.
  - split.
    + intros (-> & nx & E & H). apply IH in H as (r' & H1 & H2 & H3). eauto 10.
    + intros (r' & (-> & nx & E & H) & H2 & H3). split; [done|]. exists nx.
      split; [done|]. apply IH. eauto.
Qed.

Lemma hpre_ext ns ns' m r : forall ls p q,
  (forall l, l ∈ ls -> ns' !! l = ns !! l) -> hpre ns p q ls m r -> hpre ns' p q ls m r.
Proof.
  induction ls as [|l ls IH]; intros p q He; simpl; [done|].
  intros (-> & nx & E & Hs). split; [done|]. exists nx. rewrite He by (by left).
  split; [done|]. apply IH; [|done]. intros k Hk. apply He. by right.
Qed.

(** Which nodes are allocated does not change. *)
Definition same_dom (s s' : hlists) : Prop :=
  forall l, is_Some (hl_nodes s' !! l) <-> is_Some (hl_nodes s !! l).

Lemma same_dom_insert s hs l n :
  is_Some (hl_nodes s !! l) -> same_dom s (mk_hlists hs (<[l := n]> (hl_nodes s))).
Proof.
  intros Hl k. simpl. destruct (decide (k = l)) as [->|].
  - rewrite lookup_insert_eq. split; eauto.
  - by rewrite lookup_insert_ne.
Qed.

Lemma hl_store_pre s h p a l r nx :
  hpre (hl_nodes s) p (Lhead h) a (Ptr l) r -> NoDup a -> hl_heads s !! h = Some p ->
  exists s1 p1, hl_store r nx s = Done s1 /\ hl_heads s1 = <[h := p1]> (hl_heads s) /\
    hpre (hl_nodes s1) p1 (Lhead h) a nx r /\ same_dom s s1 /\
    forall k, k ∉ a -> hl_nodes s1 !! k = hl_nodes s !! k.
Proof.
  intros Hp Hnd Hh. destruct a as [|z a _] using rev_ind.
  - destruct Hp as [-> <-]. unfold hl_store, hl_set_first, hl_first. rewrite Hh. simpl.
    eexists _, nx. by split_and!.
  - apply hpre_snoc in Hp as (r' & Hp & Ez & ->).
    apply list.NoDup_app in Hnd as (Hnd & Hz & _).
    unfold hl_store, hl_set_next, hl_set, hl_deref. rewrite Ez. cbn [of_option obind hn_pprevious].
    eexists _, p. split_and!; [done | by rewrite list_insert_id | | |].
    + apply hpre_snoc. exists r'. simpl. rewrite lookup_insert_eq. split_and!; [|done|done].
      eapply hpre_ext; [|exact Hp]. intros k Hk. apply lookup_insert_ne.
      intros ->. apply (Hz _ Hk). by left.
    + apply same_dom_insert. by rewrite Ez.
    + intros k Hk. simpl. apply lookup_insert_ne. intros ->. apply Hk, elem_of_app. right. by left.
Qed.

(** [if (next) next->pprevious = r] *)
Definition relink (nx : hptr) (r : hlink) (s : hlists) : out hlists :=
  match nx with
  | Null => Done s
  | Ptr n => hl_set_pprevious n r s
  | LIST_POISON1 => Fault
  end.

Lemma relink_seg s nx q r b :
  hseg (hl_nodes s) nx q b -> NoDup b ->
  exists s2, relink nx r s = Done s2 /\ hl_heads s2 = hl_heads s /\
    hseg (hl_nodes s2) nx r b /\ same_dom s s2 /\
    forall k, k ∉ b -> hl_nodes s2 !! k = hl_nodes s !! k.
Proof.
  intros Hs Hnd. destruct b as [|n b].
  - simpl in Hs. subst nx. by exists s.
  - destruct Hs as (-> & nx' & E & Hs). unfold relink, hl_set_pprevious, hl_set, hl_deref.
    rewrite E. cbn [of_option obind hn_next]. eexists. split_and!; [done | done | | |].
    + simpl. split; [done|]. exists nx'. rewrite lookup_insert_eq. split; [done|].
      apply list.NoDup_cons in Hnd as [Hn _]. by apply hseg_insert.
    + apply same_dom_insert. by rewrite E.
    + intros k Hk. simpl. apply lookup_insert_ne. intros ->. apply Hk. by left.
Qed.

Lemma hl_set_both l p q s n :
  hl_nodes s !! l = Some n ->
  (let* s := hl_set_next l p s in hl_set_pprevious l q s) =
  Done (mk_hlists (hl_heads s) (<[l := mk_hlist_node p q]> (hl_nodes s))).
Proof.
  intros E. unfold hl_set_next, hl_set_pprevious, hl_set, hl_deref. rewrite E. simpl.
  rewrite lookup_insert_eq. simpl. by rewrite insert_insert_eq.
Qed.

Lemma same_dom_trans s1 s2 s3 : same_dom s1 s2 -> same_dom s2 s3 -> same_dom s1 s3.
Proof. intros H1 H2 l. by rewrite (H2 l), (H1 l). Qed.

(** What changes outside the list is only the node itself, which is poisoned. *)
Lemma hlist_remove_frame s L h a l b :
  hrep s L -> L h = a ++ l :: b -> h < length (hl_heads s) ->
  exists s', dps_hlist_node_remove l s = Done s' /\ hrep s' (hupd L h (a ++ b)) /\
    length (hl_heads s') = length (hl_heads s) /\ same_dom s s' /\
    hl_nodes s' !! l = Some (mk_hlist_node LIST_POISON1 LIST_POISON2) /\
    forall k, k ∉ L h -> hl_nodes s' !! k = hl_nodes s !! k.
Proof.
  intros HR EL Hh. destruct (lookup_lt_is_Some_2 _ _ Hh) as [p Hp].
  pose proof (hr_lists _ _ HR _ _ Hp) as Hs. pose proof (hr_nodup _ _ HR h) as Hnd.
  rewrite EL in Hs, Hnd. apply hseg_app in Hs as (m & r & Hpre & Hs).
  simpl in Hs. destruct Hs as (-> & nx & El & Hs).
  pose proof Hnd as (Hnda & Hsep & Hndb)%list.NoDup_app. apply list.NoDup_cons in Hndb as [Hlb Hndb].
  assert (l ∉ a) as Hla by (intros H; apply (Hsep l H); by left).
  assert (NoDup (a ++ b)) as Hndab.
  { apply list.NoDup_app. split_and!; [done | | done]. intros k H1 H2. apply (Hsep k H1). by right. }
  destruct (hl_store_pre s h p a l r nx Hpre Hnda Hp) as (s1 & p1 & E1 & Hh1 & Hpre1 & Hd1 & Ho1).
  assert (hseg (hl_nodes s1) nx (Lnext l) b) as Hs1.
  { eapply hseg_ext; [|exact Hs]. intros k Hk. apply Ho1. intros Hka. apply (Hsep k Hka). by right. }
  destruct (relink_seg s1 nx (Lnext l) r b Hs1 Hndb) as (s2 & E2 & Hh2 & Hs2 & Hd2 & Ho2).
  assert (hl_nodes s2 !! l = Some (mk_hlist_node nx r)) as El2 by (by rewrite Ho2, Ho1).
  unfold dps_hlist_node_remove, hl_deref. rewrite El. cbn [of_option obind hn_next hn_pprevious].
  rewrite E1. cbn [obind]. fold (relink nx r s1). rewrite E2. cbn [obind].
  eexists. split; [apply (hl_set_both _ _ _ _ _ El2)|]. split_and!.
  - apply (hrep_update s L _ h p1); simpl; [done | by rewrite Hh2 | done | | | done |].
    + intros k Hk Hk'. rewrite EL in Hk. rewrite lookup_insert_ne by set_solver.
      rewrite Ho2, Ho1 by set_solver. done.
    + apply hseg_insert; [set_solver|]. apply hseg_app. exists nx, r. split; [|done].
      eapply hpre_ext; [|exact Hpre1]. intros k Hk. apply Ho2. intros H. apply (Hsep k Hk). by right.
    + intros k j Hk Hj Hj'. apply Hk. apply (hr_disj _ _ HR k h j Hj'). rewrite EL. set_solver.
  - simpl. by rewrite Hh2, Hh1, length_insert.
  - eapply same_dom_trans; [|apply same_dom_insert; by rewrite El2].
    by eapply same_dom_trans.
  - simpl. by rewrite lookup_insert_eq.
  - intros k Hk. rewrite EL in Hk. simpl. rewrite lookup_insert_ne by set_solver.
    rewrite Ho2, Ho1 by set_solver. done.
Qed.

Lemma hlist_remove_spec s L h a l b :
  hrep s L -> L h = a ++ l :: b -> h < length (hl_heads s) ->
  exists s', dps_hlist_node_remove l s = Done s' /\ hrep s' (hupd L h (a ++ b)) /\
    length (hl_heads s') = length (hl_heads s) /\ same_dom s s'.
Proof.
  intros HR EL Hh.
  destruct (hlist_remove_frame s L h a l b HR EL Hh) as (s' & E & H1 & H2 & H3 & _). eauto.
Qed.

Lemma hlist_add_frame s L h l :
  hrep s L -> h < length (hl_heads s) -> is_Some (hl_nodes s !! l) -> (forall k, l ∉ L k) ->
  exists s', dps_hlist_head_add h l s = Done s' /\ hrep s' (hupd L h (l :: L h)) /\
    length (hl_heads s') = length (hl_heads s) /\ same_dom s s' /\
    forall k, k <> l -> k ∉ L h -> hl_nodes s' !! k = hl_nodes s !! k.
Proof.
  intros HR Hh [n El] Hl. destruct (lookup_lt_is_Some_2 _ _ Hh) as [p Hp].
  pose proof (hr_lists _ _ HR _ _ Hp) as Hs. pose proof (hr_nodup _ _ HR h) as Hnd.
  unfold dps_hlist_head_add, hl_first. rewrite Hp. cbn [of_option obind].
  set (s1 := mk_hlists (hl_heads s) (<[l := mk_hlist_node p (hn_pprevious n)]> (hl_nodes s))).
  replace (hl_set_next l p s) with (Done s1)
    by (unfold hl_set_next, hl_set, hl_deref; by rewrite El).
  cbn [obind]. fold (relink p (Lnext l) s1).
  destruct (relink_seg s1 p (Lhead h) (Lnext l) (L h)) as (s2 & E2 & Hh2 & Hs2 & Hd2 & Ho2);
    [by apply hseg_insert | done |].
  rewrite E2. cbn [obind]. unfold hl_set_first, hl_first. rewrite Hh2. simpl. rewrite Hp.
  cbn [of_option obind]. unfold hl_set_pprevious, hl_set, hl_deref. cbn [hl_nodes hl_heads].
  rewrite (Ho2 l) by done. simpl. rewrite lookup_insert_eq. simpl.
  eexists. split; [done|]. split_and!.
  - apply (hrep_update s L _ h (Ptr l)); simpl; [done | done | done | | | |].
    + intros k Hk Hk'. apply not_elem_of_cons in Hk' as [Hkl _].
      rewrite lookup_insert_ne, Ho2 by done. simpl. by rewrite lookup_insert_ne.
    + split; [done|]. exists p. rewrite lookup_insert_eq. split; [done|]. by apply hseg_insert.
    + by apply list.NoDup_cons.
    + intros k j Hk [->|Hj]%elem_of_cons; [by apply Hl|]. intros Hj'.
      apply Hk. by apply (hr_disj _ _ HR k h j).
  - simpl. by rewrite length_insert.
  - eapply same_dom_trans; [apply (same_dom_insert s (hl_heads s) l
      (mk_hlist_node p (hn_pprevious n))); by rewrite El|].
    eapply same_dom_trans; [exact Hd2|]. apply same_dom_insert. rewrite (Ho2 l) by done.
    simpl. rewrite lookup_insert_eq. eauto.
  - intros k Hk Hk'. simpl. rewrite lookup_insert_ne, Ho2 by done. simpl. by rewrite lookup_insert_ne.
Qed.

Lemma hlist_add_spec s L h l :
  hrep s L -> h < length (hl_heads s) -> is_Some (hl_nodes s !! l) -> (forall k, l ∉ L k) ->
  exists s', dps_hlist_head_add h l s = Done s' /\ hrep s' (hupd L h (l :: L h)) /\
    length (hl_heads s') = length (hl_heads s) /\ same_dom s s'.
Proof.
  intros HR Hh Hi Hl.
  destruct (hlist_add_frame s L h l HR Hh Hi Hl) as (s' & E & H1 & H2 & H3 & _). eauto.
Qed.

(** Nodes that are in no list come and go. *)
Lemma hrep_outside s L ns' :
  hrep s L -> (forall h l, l ∈ L h -> ns' !! l = hl_nodes s !! l) ->
  hrep (mk_hlists (hl_heads s) ns') L.
Proof.
  intros HR Ho. split; simpl; [|apply (hr_nodup _ _ HR) | apply (hr_disj _ _ HR)].
  intros h p Hp. eapply hseg_ext; [|by apply (hr_lists _ _ HR)]. intros l. apply Ho.
Qed.

(** The successor of a node of a list. *)
Definition first_of (ls : list nat) : hptr :=
  match ls with [] => Null | l :: _ => Ptr l end.

Lemma hseg_first ns p q ls : hseg ns p q ls -> p = first_of ls.
Proof. destruct ls as [|l ls]; simpl; [done | by intros [-> _]]. Qed.

Lemma hrep_next s L h a l b :
  hrep s L -> L h = a ++ l :: b -> h < length (hl_heads s) ->
  exists n, hl_nodes s !! l = Some n /\ hn_next n = first_of b.
Proof.
  intros HR EL Hh. destruct (lookup_lt_is_Some_2 _ _ Hh) as [p Hp].
  pose proof (hr_lists _ _ HR _ _ Hp) as Hs. rewrite EL in Hs.
  apply hseg_app in Hs as (m & r & _ & _ & nx & El & Hs). apply hseg_first in Hs.
  eexists. split; [exact El | exact Hs].
Qed.

Lemma hrep_first s L h :
  hrep s L -> h < length (hl_heads s) -> hl_first s h = Done (first_of (L h)).
Proof.
  intros HR Hh. destruct (lookup_lt_is_Some_2 _ _ Hh) as [p Hp]. unfold hl_first. rewrite Hp.
  pose proof (hr_lists _ _ HR _ _ Hp) as Hs. apply hseg_first in Hs. by rewrite Hs.
Qed.

(** Where the nodes are after an insertion and after a removal. *)
Lemma elem_hupd_cons L h l k j :
  j ∈ hupd L h (l :: L h) k <-> (j = l /\ k = h) \/ j ∈ L k.
Proof.
  unfold hupd. case_decide as Hk.
  - subst k. rewrite elem_of_cons. naive_solver.
  - naive_solver.
Qed.

Lemma elem_hupd_remove s L h a l b k j :
  hrep s L -> L h = a ++ l :: b ->
  j ∈ hupd L h (a ++ b) k <-> j ∈ L k /\ j <> l.
Proof.
  intros HR EL. pose proof (hr_nodup _ _ HR h) as Hnd. rewrite EL in Hnd.
  apply list.NoDup_app in Hnd as (_ & Hs & Hnd). apply list.NoDup_cons in Hnd as [Hn _].
  assert (l ∉ a) as Ha by (intros H; apply (Hs l H); by left).
  unfold hupd. case_decide as Hk.
  - subst k. rewrite EL, !elem_of_app, elem_of_cons. naive_solver.
  - split; [|tauto]. intros Hj. split; [done|]. intros ->. apply Hk.
    apply (hr_disj _ _ HR k h l Hj). rewrite EL, elem_of_app, elem_of_cons. tauto.
Qed.

(** A node in a list is not poisoned and is pointed to. *)
Definition is_link (q : hlink) : Prop :=
  match q with Lhead _ | Lnext _ => True | _ => False end.

Lemma hseg_linked ns : forall ls p q l,
  hseg ns p q ls -> is_link q -> l ∈ ls ->
  exists n, ns !! l = Some n /\ hn_next n <> LIST_POISON1 /\ is_link (hn_pprevious n).
Proof.
  induction ls as [|k ls IH]; intros p q l Hs Hq Hl; [by apply elem_of_nil in Hl|].
  destruct Hs as (-> & nx & E & Hs). apply elem_of_cons in Hl as [->|Hl].
  - eexists. split; [exact E|]. split; [|done]. simpl. apply hseg_first in Hs. subst nx.
    by destruct ls.
  - by apply (IH nx (Lnext k)).
Qed.

Lemma hrep_linked s L h l :
  hrep s L -> h < length (hl_heads s) -> l ∈ L h ->
  exists n, hl_nodes s !! l = Some n /\ hn_next n <> LIST_POISON1 /\ is_link (hn_pprevious n).
Proof.
  intros HR Hh Hl. destruct (lookup_lt_is_Some_2 _ _ Hh) as [p Hp].
  by apply (hseg_linked _ (L h) p (Lhead h)); [apply (hr_lists _ _ HR)| |].
Qed.
