(* ===== verification/VnidMap.v ===== *)
(** * Which server serves a network: the table of [dps_client_ctrl.c]

    A client learns the server of a network from the packets it receives.  The
    table is sixty four intrusive lists; the entries and the addresses they
    point to are allocated separately.  An entry's [hlist_entry] is its first
    member: the entry and its list node have one address. *)
From stdpp Require Import gmap.
From S2P Require Export HList DpsTypes.

Definition VNID_NODE_MAPPING_HASH_BITS : Z := 6.

(** [svr_node] is the address of an [ip_addr_t]. *)
Record dps_vnid_node_mapping_entry_t := mk_entry { vn_id : Z; svr_node : nat }.

(** [vt_lock] is the value of the semaphore, zero before [sem_init]. *)
Record dps_vnid_node_mapping_table_t := mk_vnid_table {
  vt_lists : hlists; vt_entries : gmap nat dps_vnid_node_mapping_entry_t;
  vt_addrs : gmap nat ip_addr_t; vt_hash_bits : Z; vt_hash_size : Z; vt_lock : Z;
  vt_mallocs : nat }.

Abbreviation vtable := dps_vnid_node_mapping_table_t.

Definition vt_with_lists (x : hlists) (s : vtable) : vtable :=
  mk_vnid_table x (vt_entries s) (vt_addrs s) (vt_hash_bits s) (vt_hash_size s) (vt_lock s)
    (vt_mallocs s).
Definition vt_with_entries (x : gmap nat dps_vnid_node_mapping_entry_t) (s : vtable) : vtable :=
  mk_vnid_table (vt_lists s) x (vt_addrs s) (vt_hash_bits s) (vt_hash_size s) (vt_lock s)
    (vt_mallocs s).
Definition vt_with_addrs (x : gmap nat ip_addr_t) (s : vtable) : vtable :=
  mk_vnid_table (vt_lists s) (vt_entries s) x (vt_hash_bits s) (vt_hash_size s) (vt_lock s)
    (vt_mallocs s).
Definition vt_with_lock (x : Z) (s : vtable) : vtable :=
  mk_vnid_table (vt_lists s) (vt_entries s) (vt_addrs s) (vt_hash_bits s) (vt_hash_size s) x
    (vt_mallocs s).

(** The static table before initialisation. *)
Definition dps_vnid_node_mapping_table : vtable :=
  mk_vnid_table (mk_hlists (replicate 64 Null) ∅) ∅ ∅ 0 0 0 0.

(** ** The semaphore: waiting for one that nobody will post is for ever *)
Definition sem_wait (s : vtable) : out vtable :=
  if (0 <? vt_lock s)%Z then Done (vt_with_lock (vt_lock s - 1) s) else Timeout.
Definition sem_post (s : vtable) : vtable := vt_with_lock (vt_lock s + 1) s.

(** ** Memory *)
Definition entry_at (s : vtable) (l : nat) : out dps_vnid_node_mapping_entry_t :=
  of_option (vt_entries s !! l).
Definition addr_at (s : vtable) (l : nat) : out ip_addr_t := of_option (vt_addrs s !! l).
Definition set_addr (l : nat) (a : ip_addr_t) (s : vtable) : out vtable :=
  let* _ := addr_at s l in Done (vt_with_addrs (<[l := a]> (vt_addrs s)) s).
Definition free_entry (l : nat) (s : vtable) : out vtable :=
  let* _ := entry_at s l in
  Done (vt_with_entries (delete l (vt_entries s))
          (vt_with_lists (mk_hlists (hl_heads (vt_lists s))
                            (delete l (hl_nodes (vt_lists s)))) s)).
Definition free_addr (l : nat) (s : vtable) : out vtable :=
  let* _ := addr_at s l in Done (vt_with_addrs (delete l (vt_addrs s)) s).

(** Operations on the lists of the table. *)
Definition on_lists (f : hlists -> out hlists) (s : vtable) : out vtable :=
  let* x := f (vt_lists s) in Done (vt_with_lists x s).

(** ** Hashing *)
Fixpoint hash_bytes (hash : Z) (data : list Z) : Z :=
  match data with
  | [] => hash
  | b :: data => hash_bytes (u32 (u32 (u32 (Z.shiftl hash 5) + hash) + b)) data
  end.
Definition dps_vnid_node_mapping_hash (data : list Z) (size : nat) : Z :=
  hash_bytes 5381 (take size data).

(** The index of the list head of a network. *)
Definition get_hlist_head (s : vtable) (vn_id : Z) : nat :=
  Z.to_nat (Z.land (dps_vnid_node_mapping_hash (le32 vn_id) 4) (u32 (vt_hash_size s - 1))).

Section table.
(** Whether the [n]-th allocation succeeds. *)
Context (malloc_ok : nat -> bool).

Definition vt_malloc (s : vtable) : option nat * vtable :=
  (if malloc_ok (vt_mallocs s) then Some (vt_mallocs s) else None,
    mk_vnid_table (vt_lists s) (vt_entries s) (vt_addrs s) (vt_hash_bits s) (vt_hash_size s)
      (vt_lock s) (S (vt_mallocs s))).

(** ** Set-up *)
Fixpoint init_heads (n i : nat) (s : vtable) : out vtable :=
  match n with
  | 0 => Done s
  | S n => let* s := on_lists (dps_hlist_head_init i) s in init_heads n (S i) s
  end.

(** [sem_ok] is whether [sem_init] succeeds. *)
Definition dps_vnid_node_mapping_table_init (sem_ok : bool) (s : vtable) : out (Z * vtable) :=
  let size := u16 (Z.shiftl 1 VNID_NODE_MAPPING_HASH_BITS) in
  let s := mk_vnid_table (vt_lists s) (vt_entries s) (vt_addrs s)
    VNID_NODE_MAPPING_HASH_BITS size (vt_lock s) (vt_mallocs s) in
  let* s := init_heads (Z.to_nat size) 0 s in
  if sem_ok then Done (DPS_SUCCESS, vt_with_lock 1 s) else Done (DPS_ERROR_NO_RESOURCES, s).

(** The [while (hhead->first)] loop. *)
Fixpoint clean_head (fuel : nat) (h : nat) (s : vtable) : out vtable :=
  let* first := hl_first (vt_lists s) h in
  match first with
  | Null => Done s
  | LIST_POISON1 => Fault
  | Ptr l =>
      match fuel with
      | 0 => Timeout
      | S fuel =>
          let* s := on_lists (dps_hlist_node_remove l) s in
          let* e := entry_at s l in
          let* s := free_addr (svr_node e) s in
          let* s := free_entry l s in
          clean_head fuel h s
      end
  end.
Fixpoint clean_heads (fuel n i : nat) (s : vtable) : out vtable :=
  match n with
  | 0 => Done s
  | S n =>
      let* s := clean_head fuel i s in
      let* s := on_lists (dps_hlist_head_init i) s in
      clean_heads fuel n (S i) s
  end.
(** [sem_destroy] leaves a semaphore that cannot be waited for. *)
Definition dps_vnid_node_mapping_table_clean (fuel : nat) (s : vtable) : out vtable :=
  let* s := sem_wait s in
  let* s := clean_heads fuel (Z.to_nat (vt_hash_size s)) 0 s in
  Done (vt_with_lock 0 (sem_post s)).

(** ** Lookup *)
Fixpoint search_from (fuel : nat) (s : vtable) (id : Z) (pos : hptr) : out (option nat) :=
  match pos with
  | Null => Done None
  | LIST_POISON1 => Fault
  | Ptr l =>
      match fuel with
      | 0 => Timeout
      | S fuel =>
          let* e := entry_at s l in
          if (vn_id e =? id)%Z then Done (Some l)
          else let* n := hl_deref (vt_lists s) l in search_from fuel s id (hn_next n)
      end
  end.
Definition vnid_node_search_in_bkt (fuel : nat) (s : vtable) (id : Z) (h : nat)
  : out (option nat) :=
  let* first := hl_first (vt_lists s) h in search_from fuel s id first.

(** [*addr] is the second component, left alone on an error. *)
Definition dps_vnid_node_mapping_entry_search (fuel : nat) (id : Z) (addr : ip_addr_t)
    (s : vtable) : out (Z * ip_addr_t * vtable) :=
  let hhead := get_hlist_head s id in
  let* s := sem_wait s in
  let* entry := vnid_node_search_in_bkt fuel s id hhead in
  match entry with
  | Some l =>
      let* e := entry_at s l in
      let* a := addr_at s (svr_node e) in
      Done (DPS_SUCCESS, a, sem_post s)
  | None => Done (DPS_ERROR, addr, sem_post s)
  end.

(** The [for] loop over the heads from [i] on. *)
Fixpoint first_entry (n i : nat) (s : vtable) : out (option ip_addr_t) :=
  match n with
  | 0 => Done None
  | S n =>
      let* first := hl_first (vt_lists s) i in
      match first with
      | Null => first_entry n (S i) s
      | LIST_POISON1 => Fault
      | Ptr l =>
          let* e := entry_at s l in
          let* a := addr_at s (svr_node e) in
          Done (Some a)
      end
  end.
Definition dps_vnid_node_mapping_table_get_available_entry (addr : ip_addr_t) (s : vtable)
  : out (Z * ip_addr_t * vtable) :=
  let* s := sem_wait s in
  let* found := first_entry (Z.to_nat (vt_hash_size s)) 0 s in
  match found with
  | Some a => Done (DPS_SUCCESS, a, sem_post s)
  | None => Done (DPS_ERROR, addr, sem_post s)
  end.

Definition dps_vnid_node_mapping_entry_find (fuel : nat) (id : Z) (addr : ip_addr_t)
    (s : vtable) : out (Z * ip_addr_t * vtable) :=
  let* (status, addr, s) := dps_vnid_node_mapping_entry_search fuel id addr s in
  if (status =? DPS_SUCCESS)%Z then Done (DPS_SUCCESS, addr, s)
  else dps_vnid_node_mapping_table_get_available_entry addr s.

(** ** Changes *)
Definition dps_vnid_node_mapping_entry_add (fuel : nat) (id : Z) (node : ip_addr_t)
    (s : vtable) : out (Z * vtable) :=
  let hhead := get_hlist_head s id in
  let* s := sem_wait s in
  let* entry := vnid_node_search_in_bkt fuel s id hhead in
  match entry with
  | Some l =>
      let* e := entry_at s l in
      let* s := set_addr (svr_node e) node s in
      Done (DPS_SUCCESS, sem_post s)
  | None =>
      match vt_malloc s with
      | (None, s) => Done (DPS_ERROR_NO_RESOURCES, sem_post s)
      | (Some l, s) =>
          match vt_malloc s with
          | (None, s) => Done (DPS_ERROR_NO_RESOURCES, sem_post s)
          | (Some a, s) =>
              let s := vt_with_addrs (<[a := node]> (vt_addrs s)) s in
              let s := vt_with_entries (<[l := mk_entry id a]> (vt_entries s)) s in
              let x := vt_lists s in
              let s := vt_with_lists (mk_hlists (hl_heads x)
                  (<[l := mk_hlist_node LIST_POISON1 LIST_POISON2]> (hl_nodes x))) s in
              let* s := on_lists (dps_hlist_head_add hhead l) s in
              Done (DPS_SUCCESS, sem_post s)
          end
      end
  end.

Definition dps_vnid_entries_eq (node1 node2 : ip_addr_t) : Z :=
  if ((ia_family node1 =? ia_family node2) && (ia_port node1 =? ia_port node2)
      && (ia_xport_type node1 =? ia_xport_type node2))%Z then
    if (ia_family node1 =? AF_INET)%Z then
      if (ia_ip4 node1 =? ia_ip4 node2)%Z then DPS_SUCCESS else DPS_ERROR
    else if decide (ia_ip node1 = ia_ip node2) then DPS_SUCCESS else DPS_ERROR
  else DPS_ERROR.

(** [dps_hlist_node_remove; free(entry->svr_node); free(entry)] *)
Definition remove_entry (l : nat) (s : vtable) : out vtable :=
  let* s := on_lists (dps_hlist_node_remove l) s in
  let* e := entry_at s l in
  let* s := free_addr (svr_node e) s in
  free_entry l s.

Definition dps_vnid_node_mapping_entry_del (fuel : nat) (id : Z) (node : ip_addr_t)
    (s : vtable) : out (Z * vtable) :=
  let hhead := get_hlist_head s id in
  let* s := sem_wait s in
  let* entry := vnid_node_search_in_bkt fuel s id hhead in
  match entry with
  | Some l =>
      let* e := entry_at s l in
      let* a := addr_at s (svr_node e) in
      if (dps_vnid_entries_eq a node =? DPS_SUCCESS)%Z then
        let* s := remove_entry l s in Done (DPS_SUCCESS, sem_post s)
      else Done (DPS_ERROR, sem_post s)
  | None => Done (DPS_ERROR, sem_post s)
  end.

Fixpoint del_dup_from (fuel n : nat) (i : Z) (node : ip_addr_t) (s : vtable) : out vtable :=
  match n with
  | 0 => Done s
  | S n =>
      let* (_, s) := dps_vnid_node_mapping_entry_del fuel i node s in
      del_dup_from fuel n (i + 1) node s
  end.
Definition dps_vnid_node_mapping_del_dup_node (fuel : nat) (node : ip_addr_t) (s : vtable)
  : out vtable := del_dup_from fuel (Z.to_nat (vt_hash_size s)) 0 node s.

Definition dps_vnid_node_mapping_entry_del2 (fuel : nat) (id : Z) (s : vtable)
  : out (Z * vtable) :=
  let hhead := get_hlist_head s id in
  let* s := sem_wait s in
  let* entry := vnid_node_search_in_bkt fuel s id hhead in
  match entry with
  | Some l => let* s := remove_entry l s in Done (DPS_SUCCESS, sem_post s)
  | None => Done (DPS_ERROR, sem_post s)
  end.

(** ** Display: the entries that are printed *)
Fixpoint show_from (fuel : nat) (s : vtable) (id : Z) (pos : hptr)
  : out (bool * list (Z * ip_addr_t)) :=
  match pos with
  | Null => Done (false, [])
  | LIST_POISON1 => Fault
  | Ptr l =>
      match fuel with
      | 0 => Timeout
      | S fuel =>
          let* e := entry_at s l in
          let* n := hl_deref (vt_lists s) l in
          if ((id =? 4294967295) || (id =? vn_id e))%Z then
            let* a := addr_at s (svr_node e) in
            if (id =? vn_id e)%Z then Done (true, [(vn_id e, a)])
            else let* (b, r) := show_from fuel s id (hn_next n) in
            Done (b, (vn_id e, a) :: r)
          else show_from fuel s id (hn_next n)
      end
  end.
Fixpoint show_heads (fuel n i : nat) (s : vtable) (id : Z) : out (list (Z * ip_addr_t)) :=
  match n with
  | 0 => Done []
  | S n =>
      let* first := hl_first (vt_lists s) i in
      let* (found, r) := show_from fuel s id first in
      if found then Done r
      else let* r' := show_heads fuel n (S i) s id in Done (r ++ r')
  end.
Definition dps_vnid_node_mapping_entry_show (fuel : nat) (id : Z) (s : vtable)
  : out (list (Z * ip_addr_t) * vtable) :=
  let* s := sem_wait s in
  let* r := show_heads fuel (Z.to_nat (vt_hash_size s)) 0 s id in
  Done (r, sem_post s).
End table.
