(* ===== verification/VnidOps.v ===== *)
(** * The operations of the table of networks implement a finite map

    Each operation of [VnidMap] against the map it represents; then any
    sequence of operations of a client against the same sequence on a map.
    The fuel bounds the length of a list; a list is never longer than the
    number of allocations made so far. *)
From stdpp Require Import gmap.
From S2P Require Export VnidMap.

(** ** The table of networks is a finite map

    [vrep s m L]: the table [s], its lists [L], holds the map [m] from networks
    to servers; every allocated node, entry and address belongs to one entry of
    the map, and the lock is free. *)
Definition TABLE_SIZE : nat := 64.

Definition bucket (id : Z) : nat :=
  Z.to_nat (Z.land (dps_vnid_node_mapping_hash (le32 id) 4) 63).

#[global] Arguments bucket : simpl never.
#[global] Arguments dps_vnid_node_mapping_hash : simpl never.

Lemma bucket_lt id : bucket id < TABLE_SIZE.
Proof.
  unfold bucket, TABLE_SIZE. change 63%Z with (Z.ones 6). rewrite Z.land_ones by lia.
  pose proof (Z.mod_pos_bound (dps_vnid_node_mapping_hash (le32 id) 4) (2 ^ 6) eq_refl). lia.
Qed.

Record vrep (s : vtable) (m : gmap Z ip_addr_t) (L : nat -> list nat) : Prop := {
  vr_lists : hrep (vt_lists s) L;
  vr_heads : length (hl_heads (vt_lists s)) = TABLE_SIZE;
  vr_size : vt_hash_size s = Z.of_nat TABLE_SIZE;
  vr_lock : vt_lock s = 1%Z;
  vr_over h : TABLE_SIZE <= h -> L h = [];
  vr_entry h l : l ∈ L h -> exists e a, vt_entries s !! l = Some e /\
    vt_addrs s !! svr_node e = Some a /\ m !! vn_id e = Some a /\ bucket (vn_id e) = h;
  vr_map v a : m !! v = Some a -> exists l e, l ∈ L (bucket v) /\
    vt_entries s !! l = Some e /\ vn_id e = v;
  vr_key l l' e e' : vt_entries s !! l = Some e -> vt_entries s !! l' = Some e' ->
    vn_id e = vn_id e' \/ svr_node e = svr_node e' -> l = l';
  vr_nodes l : is_Some (hl_nodes (vt_lists s) !! l) -> exists h, l ∈ L h;
  vr_entries l : is_Some (vt_entries s !! l) -> exists h, l ∈ L h;
  vr_addrs x : is_Some (vt_addrs s !! x) -> exists l e, vt_entries s !! l = Some e /\ svr_node e = x;
  vr_fresh h l : l ∈ L h -> l < vt_mallocs s;
  vr_fresh' l e : vt_entries s !! l = Some e -> svr_node e < vt_mallocs s
}.

(** What the table represents. *)
Definition maps (s : vtable) (m : gmap Z ip_addr_t) : Prop := exists L, vrep s m L.

Lemma head_bucket s m L id : vrep s m L -> get_hlist_head s id = bucket id.
Proof. intros HR. unfold get_hlist_head. by rewrite (vr_size _ _ _ HR). Qed.

(** The map is that of the table. *)
Lemma vrep_lookup s m L v a :
  vrep s m L -> m !! v = Some a <-> exists l e, vt_entries s !! l = Some e /\ vn_id e = v /\
    vt_addrs s !! svr_node e = Some a.
Proof.
  intros HR. split.
  - intros Em. destruct (vr_map _ _ _ HR v a Em) as (l & e & Hl & Ee & He).
    destruct (vr_entry _ _ _ HR _ l Hl) as (e' & a' & Ee' & Ea & Em' & _).
    exists l, e. split_and!; congruence.
  - intros (l & e & Ee & <- & Ea). destruct (vr_entries _ _ _ HR l ltac:(by rewrite Ee)) as [h Hl].
    destruct (vr_entry _ _ _ HR h l Hl) as (e' & a' & Ee' & Ea' & Em & _). congruence.
Qed.

Lemma maps_fun s m m' : maps s m -> maps s m' -> m = m'.
Proof.
  intros [L HR] [L' HR']. apply map_eq. intros v.
  apply option_eq. intros a. by rewrite (vrep_lookup s m L), (vrep_lookup s m' L').
Qed.

(** ** Lookup *)
Definition has_id (s : vtable) (id : Z) (l : nat) : bool :=
  match vt_entries s !! l with Some e => (vn_id e =? id)%Z | None => false end.

Lemma search_from_spec s id : forall ls fuel p q,
  hseg (hl_nodes (vt_lists s)) p q ls -> (forall l, l ∈ ls -> is_Some (vt_entries s !! l)) ->
  length ls <= fuel ->
  search_from fuel s id p = Done (List.find (has_id s id) ls).
Proof.
  induction ls as [|l ls IH]; intros fuel p q Hs He Hf.
  - simpl in Hs. subst p. by destruct fuel.
  - destruct Hs as (-> & nx & El & Hs). destruct fuel as [|fuel]; [simpl in Hf; lia|].
    destruct (He l ltac:(by left)) as [e Ee]. simpl. unfold has_id at 1, entry_at, hl_deref.
    rewrite Ee, El. simpl. destruct (vn_id e =? id)%Z; [done|].
    apply (IH fuel nx (Lnext l)); [done | | simpl in Hf; lia]. intros k Hk. apply He. by right.
Qed.

Lemma find_key s m L id :
  vrep s m L ->
  match m !! id with
  | Some a => exists l e, List.find (has_id s id) (L (bucket id)) = Some l /\
      l ∈ L (bucket id) /\ vt_entries s !! l = Some e /\ vn_id e = id /\
      vt_addrs s !! svr_node e = Some a
  | None => List.find (has_id s id) (L (bucket id)) = None
  end.
Proof.
  intros HR. destruct (m !! id) as [a|] eqn:Em.
  - destruct (vr_map _ _ _ HR id a Em) as (l & e & Hl & Ee & He).
    destruct (List.find (has_id s id) (L (bucket id))) as [l'|] eqn:Ef.
    + apply List.find_some in Ef as [Hl' Hid]. apply list_elem_of_In in Hl'.
      destruct (vr_entry _ _ _ HR _ _ Hl') as (e' & a' & Ee' & Ea & Em' & _).
      unfold has_id in Hid. rewrite Ee' in Hid. apply Z.eqb_eq in Hid.
      assert (l' = l) as -> by (apply (vr_key _ _ _ HR _ _ e' e); auto; left; congruence).
      exists l, e'. split_and!; try done. congruence.
    + apply list_elem_of_In in Hl. apply (List.find_none _ _ Ef) in Hl. unfold has_id in Hl.
      rewrite Ee in Hl. apply Z.eqb_neq in Hl. done.
  - destruct (List.find (has_id s id) (L (bucket id))) as [l'|] eqn:Ef; [|done].
    apply List.find_some in Ef as [Hl' Hid]. apply list_elem_of_In in Hl'.
    destruct (vr_entry _ _ _ HR _ _ Hl') as (e' & a' & Ee' & Ea & Em' & _).
    unfold has_id in Hid. rewrite Ee' in Hid. apply Z.eqb_eq in Hid. congruence.
Qed.

Lemma list_short s m L h : vrep s m L -> length (L h) <= vt_mallocs s.
Proof.
  intros HR. apply nodup_length; [apply (hr_nodup _ _ (vr_lists _ _ _ HR))|].
  apply (vr_fresh _ _ _ HR).
Qed.

(** The table while its lock is held. *)
Definition locked (s : vtable) : vtable := vt_with_lock 0 s.

Lemma sem_wait_free s m L : vrep s m L -> sem_wait s = Done (locked s).
Proof. intros HR. unfold sem_wait. by rewrite (vr_lock _ _ _ HR). Qed.

Lemma sem_post_locked s m L : vrep s m L -> sem_post (locked s) = s.
Proof.
  intros HR. pose proof (vr_lock _ _ _ HR) as E. clear HR. unfold sem_post, locked, vt_with_lock.
  destruct s. cbn in *. by subst.
Qed.

(** The search of [id] in its list, in a table that is locked. *)
Lemma search_bkt_spec fuel s m L id :
  vrep s m L -> vt_mallocs s <= fuel ->
  vnid_node_search_in_bkt fuel (locked s) id (bucket id) =
  Done (List.find (has_id s id) (L (bucket id))).
Proof.
  intros HR Hf. unfold vnid_node_search_in_bkt, hl_first.
  pose proof (bucket_lt id) as Hb. rewrite <- (vr_heads _ _ _ HR) in Hb.
  destruct (lookup_lt_is_Some_2 _ _ Hb) as [p Hp].
  change (vt_lists (locked s)) with (vt_lists s). rewrite Hp. cbn [of_option obind].
  rewrite (search_from_spec (locked s) id (L (bucket id)) fuel p (Lhead (bucket id))).
  - done.
  - by apply (hr_lists _ _ (vr_lists _ _ _ HR)).
  - intros l Hl. destruct (vr_entry _ _ _ HR _ _ Hl) as (e & a & Ee & _).
    change (vt_entries (locked s)) with (vt_entries s). by rewrite Ee.
  - pose proof (list_short s m L (bucket id) HR). lia.
Qed.

Lemma search_spec fuel s m id addr :
  maps s m -> vt_mallocs s <= fuel ->
  dps_vnid_node_mapping_entry_search fuel id addr s =
  Done (match m !! id with Some a => (DPS_SUCCESS, a, s) | None => (DPS_ERROR, addr, s) end).
Proof.
  intros [L HR] Hf. unfold dps_vnid_node_mapping_entry_search.
  rewrite (head_bucket _ _ _ _ HR), (sem_wait_free _ _ _ HR). cbn [obind].
  rewrite (search_bkt_spec fuel _ _ _ id HR Hf). cbn [obind].
  pose proof (find_key s m L id HR) as Hk. rewrite (sem_post_locked _ _ _ HR).
  destruct (m !! id) as [a|].
  - destruct Hk as (l & e & -> & _ & Ee & _ & Ea). unfold entry_at, addr_at.
    change (vt_entries (locked s)) with (vt_entries s).
    change (vt_addrs (locked s)) with (vt_addrs s). rewrite Ee. cbn [of_option obind].
    by rewrite Ea.
  - by rewrite Hk.
Qed.

(** ** Changes *)

(** The address of an entry overwritten. *)
Lemma vrep_replace s m L id a0 a l e :
  vrep s m L -> m !! id = Some a0 -> vt_entries s !! l = Some e -> vn_id e = id ->
  vrep (vt_with_addrs (<[svr_node e := a]> (vt_addrs s)) s) (<[id := a]> m) L.
Proof.
  intros HR Em Ee <-. split; simpl; try by apply HR.
  - intros h k Hk. destruct (vr_entry _ _ _ HR h k Hk) as (e' & a' & Ee' & Ea' & Em' & Hb).
    exists e'. destruct (decide (k = l)) as [->|Hkl].
    + assert (e' = e) as -> by congruence. exists a. by rewrite !lookup_insert_eq.
    + exists a'. rewrite !lookup_insert_ne; [done | |].
      * intros E. apply Hkl. apply (vr_key _ _ _ HR _ _ e' e); auto.
      * intros E. apply Hkl. apply (vr_key _ _ _ HR _ _ e' e); auto.
  - intros v a'. destruct (decide (v = vn_id e)) as [->|Hv].
    + intros _. by apply (vr_map _ _ _ HR _ a0).
    + rewrite lookup_insert_ne by done. apply (vr_map _ _ _ HR).
  - intros x Hx. apply (vr_addrs _ _ _ HR). destruct (decide (x = svr_node e)) as [->|Hx'].
    + destruct (vr_entries _ _ _ HR l ltac:(by rewrite Ee)) as [h Hl].
      destruct (vr_entry _ _ _ HR h l Hl) as (e' & a' & Ee' & Ea' & _).
      assert (e' = e) as -> by congruence. by rewrite Ea'.
    + by rewrite lookup_insert_ne in Hx.
Qed.

(** An entry taken out of its list and freed, in a table that is locked. *)
Lemma remove_entry_spec s m L id a l1 l l2 e :
  vrep s m L -> m !! id = Some a -> L (bucket id) = l1 ++ l :: l2 ->
  vt_entries s !! l = Some e -> vn_id e = id ->
  exists s', remove_entry l (locked s) = Done (locked s') /\
    vrep s' (delete id m) (hupd L (bucket id) (l1 ++ l2)) /\ vt_mallocs s' = vt_mallocs s.
Proof.
  intros HR Em EL Ee Hid. set (h := bucket id) in *.
  assert (l ∈ L h) as Hl by (rewrite EL; apply elem_of_app; right; by left).
  assert (h < length (hl_heads (vt_lists s))) as Hh
    by (rewrite (vr_heads _ _ _ HR); apply bucket_lt).
  destruct (hlist_remove_spec (vt_lists s) L h l1 l l2 (vr_lists _ _ _ HR) EL Hh)
    as (x & Ex & Hx & Hxl & Hxd).
  destruct (vr_entry _ _ _ HR h l Hl) as (e' & a' & Ee' & Ea & Em' & Hb).
  assert (e' = e) as -> by congruence. clear Ee'.
  assert (a' = a) as -> by congruence. clear Em'.
  pose proof (hr_nodup _ _ (vr_lists _ _ _ HR) h) as Hnd. rewrite EL in Hnd.
  assert (l ∉ l1 ++ l2) as Hl'.
  { apply list.NoDup_app in Hnd as (_ & Hs & Hnd). apply list.NoDup_cons in Hnd as [Hn _].
    intros [H|H]%elem_of_app; [apply (Hs l H); by left | done]. }
  assert (forall k j, j ∈ hupd L h (l1 ++ l2) k -> j ∈ L k /\ j <> l) as Hsub.
  { intros k j. unfold hupd. case_decide as Hk; intros Hj.
    - subst k. rewrite EL. split; [set_solver|]. by intros ->.
    - split; [done|]. intros ->. apply Hk. by apply (hr_disj _ _ (vr_lists _ _ _ HR) k h l). }
  assert (forall k j, j ∈ L k -> j <> l -> j ∈ hupd L h (l1 ++ l2) k) as Hsup.
  { intros k j Hj Hjl. unfold hupd. case_decide as Hk; [|done]. subst k. rewrite EL in Hj.
    set_solver. }
  set (s' := mk_vnid_table (mk_hlists (hl_heads x) (delete l (hl_nodes x)))
    (delete l (vt_entries s)) (delete (svr_node e) (vt_addrs s)) (vt_hash_bits s)
    (vt_hash_size s) (vt_lock s) (vt_mallocs s)).
  exists s'. split_and!; [| | done].
  - unfold remove_entry, on_lists. change (vt_lists (locked s)) with (vt_lists s). rewrite Ex.
    cbn [obind]. unfold entry_at, free_addr, free_entry, addr_at, entry_at.
    cbn. rewrite Ee. cbn. rewrite Ea. cbn. by rewrite Ee.
  - split; try by apply HR.
    + simpl. apply hrep_outside; [exact Hx|]. intros k j Hj. apply lookup_delete_ne.
      intros ->. by destruct (Hsub _ _ Hj).
    + simpl. rewrite Hxl. apply HR.
    + intros k Hk. unfold hupd. rewrite decide_False; [by apply (vr_over _ _ _ HR)|].
      rewrite (vr_heads _ _ _ HR) in Hh. lia.
    + intros k j Hj. destruct (Hsub k j Hj) as [Hj' Hjl].
      destruct (vr_entry _ _ _ HR k j Hj') as (e' & a' & Ee' & Ea' & Em' & Hb'). simpl.
      exists e', a'. rewrite !lookup_delete_ne; [done | | |done].
      * intros E. apply Hjl. apply (vr_key _ _ _ HR _ _ e' e); auto. left. congruence.
      * intros E. apply Hjl. apply (vr_key _ _ _ HR _ _ e' e); auto.
    + intros v b Hv. apply lookup_delete_Some in Hv as [Hvid Hv].
      destruct (vr_map _ _ _ HR v b Hv) as (j & e' & Hj & Ee' & He'). simpl. exists j, e'.
      assert (j <> l) by (intros ->; apply Hvid; congruence).
      rewrite lookup_delete_ne by done. split_and!; auto.
    + simpl. intros j k e1 e2 [_ E1]%lookup_delete_Some [_ E2]%lookup_delete_Some.
      by apply (vr_key _ _ _ HR).
    + simpl. intros j [n Hj]. apply lookup_delete_Some in Hj as [Hjl Hj].
      destruct (vr_nodes _ _ _ HR j) as [k Hk]; [apply Hxd; by rewrite Hj|].
      exists k. apply Hsup; auto.
    + simpl. intros j [n Hj]. apply lookup_delete_Some in Hj as [Hjl Hj].
      destruct (vr_entries _ _ _ HR j) as [k Hk]; [by rewrite Hj|].
      exists k. apply Hsup; auto.
    + simpl. intros y [n Hy]. apply lookup_delete_Some in Hy as [Hye Hy].
      destruct (vr_addrs _ _ _ HR y) as (j & e' & Ej & Ey); [by rewrite Hy|].
      exists j, e'. rewrite lookup_delete_ne; [done|]. intros <-. apply Hye. congruence.
    + intros k j Hj. by apply (vr_fresh _ _ _ HR k), Hsub.
    + simpl. intros j e' [_ E]%lookup_delete_Some. by apply (vr_fresh' _ _ _ HR j).
Qed.

(** A new entry at the head of its list, in a table that is locked; [l] and
    [S l] are the two addresses that were allocated. *)
Lemma insert_entry_spec s m L id a :
  vrep s m L -> m !! id = None ->
  let l := vt_mallocs s in
  let x := vt_lists s in
  exists y, dps_hlist_head_add (bucket id) l
      (mk_hlists (hl_heads x) (<[l := mk_hlist_node LIST_POISON1 LIST_POISON2]> (hl_nodes x)))
    = Done y /\
    maps (mk_vnid_table y (<[l := mk_entry id (S l)]> (vt_entries s)) (<[S l := a]> (vt_addrs s))
            (vt_hash_bits s) (vt_hash_size s) (vt_lock s) (S (S l))) (<[id := a]> m).
Proof.
  intros HR Em l x. set (h := bucket id).
  assert (forall k, l ∉ L k) as Hl by (intros k Hk; pose proof (vr_fresh _ _ _ HR k l Hk); lia).
  assert (vt_entries s !! l = None) as Ee.
  { destruct (vt_entries s !! l) eqn:E; [|done].
    destruct (vr_entries _ _ _ HR l ltac:(by rewrite E)) as [k Hk]. by destruct (Hl k). }
  assert (forall j e, vt_entries s !! j = Some e -> svr_node e <> S l /\ vn_id e <> id /\ j <> l)
    as Hother.
  { intros j e Ej. pose proof (vr_fresh' _ _ _ HR j e Ej). split_and!.
    - lia.
    - intros Hid. destruct (vr_entries _ _ _ HR j ltac:(by rewrite Ej)) as [k Hk].
      destruct (vr_entry _ _ _ HR k j Hk) as (e' & a' & Ee' & _ & Em' & _).
      assert (e' = e) as -> by congruence. congruence.
    - intros ->. congruence. }
  set (x1 := mk_hlists (hl_heads x) (<[l := mk_hlist_node LIST_POISON1 LIST_POISON2]> (hl_nodes x))).
  destruct (hlist_add_spec x1 L h l) as (y & Ey & Hy & Hyl & Hyd).
  { apply hrep_outside; [apply (vr_lists _ _ _ HR)|]. intros k j Hj. apply lookup_insert_ne.
    intros <-. by destruct (Hl k). }
  { simpl. unfold x. rewrite (vr_heads _ _ _ HR). apply bucket_lt. }
  { simpl. rewrite lookup_insert_eq. eauto. }
  { done. }
  exists y. split; [exact Ey|]. exists (hupd L h (l :: L h)).
  assert (forall k j, j ∈ hupd L h (l :: L h) k -> (j = l /\ k = h) \/ (j ∈ L k /\ j <> l)) as Hsub.
  { intros k j. unfold hupd. case_decide as Hk.
    - intros [->|Hj]%elem_of_cons; [by left|]. right. rewrite Hk. split; [done|].
      intros ->. by destruct (Hl h).
    - intros Hj. right. split; [done|]. intros ->. by destruct (Hl k). }
  assert (forall k j, j ∈ L k -> j ∈ hupd L h (l :: L h) k) as Hsup.
  { intros k j Hj. unfold hupd. case_decide as Hk; [|done]. rewrite <- Hk. by right. }
  split; simpl; try by apply HR.
  - done.
  - rewrite Hyl. simpl. apply HR.
  - intros k Hk. unfold hupd. pose proof (bucket_lt id). rewrite decide_False
      by (fold h in H; unfold TABLE_SIZE in *; lia). by apply (vr_over _ _ _ HR).
  - intros k j Hj. destruct (Hsub k j Hj) as [[-> ->]|[Hj' Hjl]].
    + exists (mk_entry id (S l)), a. by rewrite !lookup_insert_eq.
    + destruct (vr_entry _ _ _ HR k j Hj') as (e & a' & Ej & Ea & Em' & Hb).
      destruct (Hother j e Ej) as (H1 & H2 & _).
      exists e, a'. by rewrite !lookup_insert_ne.
  - intros v b. destruct (decide (v = id)) as [->|Hv].
    + intros _. exists l, (mk_entry id (S l)). rewrite lookup_insert_eq.
      split_and!; [|done|done]. fold h. unfold hupd. rewrite decide_True by done. by left.
    + rewrite lookup_insert_ne by done. intros Hm.
      destruct (vr_map _ _ _ HR v b Hm) as (j & e & Hj & Ej & He).
      exists j, e. destruct (Hother j e Ej) as (_ & _ & Hjl).
      rewrite lookup_insert_ne by done. auto.
  - intros j k e1 e2. destruct (decide (j = l)) as [->|Hj], (decide (k = l)) as [->|Hk];
      rewrite ?lookup_insert_eq, ?lookup_insert_ne by done; [done| | |by apply (vr_key _ _ _ HR)].
    + intros [= <-] E2 HE. destruct (Hother k e2 E2) as (H1 & H2 & _). simpl in HE.
      destruct HE; congruence.
    + intros E1 [= <-] HE. destruct (Hother j e1 E1) as (H1 & H2 & _). simpl in HE.
      destruct HE; congruence.
  - intros j Hj. apply Hyd in Hj. simpl in Hj. destruct (decide (j = l)) as [->|Hjl].
    + exists h. unfold hupd. rewrite decide_True by done. by left.
    + rewrite lookup_insert_ne in Hj by done. destruct (vr_nodes _ _ _ HR j Hj) as [k Hk].
      exists k. by apply Hsup.
  - intros j Hj. destruct (decide (j = l)) as [->|Hjl].
    + exists h. unfold hupd. rewrite decide_True by done. by left.
    + rewrite lookup_insert_ne in Hj by done. destruct (vr_entries _ _ _ HR j Hj) as [k Hk].
      exists k. by apply Hsup.
  - intros y0 Hy0. destruct (decide (y0 = S l)) as [->|Hne].
    + exists l, (mk_entry id (S l)). by rewrite lookup_insert_eq.
    + rewrite lookup_insert_ne in Hy0 by done.
      destruct (vr_addrs _ _ _ HR y0 Hy0) as (j & e & Ej & Es). exists j, e.
      destruct (Hother j e Ej) as (_ & _ & Hjl). by rewrite lookup_insert_ne.
  - intros k j Hj. destruct (Hsub k j Hj) as [[-> _]|[Hj' _]]; [lia|].
    pose proof (vr_fresh _ _ _ HR k j Hj'). lia.
  - intros j e. destruct (decide (j = l)) as [->|Hjl].
    + rewrite lookup_insert_eq. intros [= <-]. simpl. lia.
    + rewrite lookup_insert_ne by done. intros Ej. pose proof (vr_fresh' _ _ _ HR j e Ej). lia.
Qed.

(** Allocation may be advanced without changing anything. *)
Lemma maps_malloc s m n :
  maps s m -> vt_mallocs s <= n ->
  maps (mk_vnid_table (vt_lists s) (vt_entries s) (vt_addrs s) (vt_hash_bits s) (vt_hash_size s)
          (vt_lock s) n) m.
Proof.
  intros [L HR] Hn. exists L. destruct HR. split; try done; simpl.
  - intros h l Hl. specialize (vr_fresh0 h l Hl). lia.
  - intros l e He. specialize (vr_fresh'0 l e He). lia.
Qed.

Section ops.
Context (malloc_ok : nat -> bool).

(** Whether adding [id] finds the memory it needs. *)
Definition room_for (s : vtable) (m : gmap Z ip_addr_t) (id : Z) : bool :=
  match m !! id with
  | Some _ => true
  | None => malloc_ok (vt_mallocs s) && malloc_ok (S (vt_mallocs s))
  end.

Lemma add_spec fuel s m id a :
  maps s m -> vt_mallocs s <= fuel ->
  exists s', dps_vnid_node_mapping_entry_add malloc_ok fuel id a s =
  Done (if room_for s m id then DPS_SUCCESS else DPS_ERROR_NO_RESOURCES, s') /\
  maps s' (if room_for s m id then <[id := a]> m else m) /\
  vt_mallocs s <= vt_mallocs s' <= vt_mallocs s + 2.
Proof.
  intros [L HR] Hf. unfold dps_vnid_node_mapping_entry_add, room_for.
  rewrite (head_bucket _ _ _ _ HR), (sem_wait_free _ _ _ HR). cbn [obind].
  rewrite (search_bkt_spec fuel _ _ _ id HR Hf). cbn [obind].
  pose proof (find_key s m L id HR) as Hk. destruct (m !! id) as [a0|] eqn:Em.
  - destruct Hk as (l & e & -> & _ & Ee & Hid & Ea).
    unfold set_addr, entry_at, addr_at. cbn. rewrite Ee. cbn. rewrite Ea. cbn.
    eexists. split; [done|]. split; [|simpl; lia]. exists L.
    pose proof (vrep_replace s m L id a0 a l e HR Em Ee Hid) as HR'.
    rewrite <- (sem_post_locked _ _ _ HR') in HR'. exact HR'.
  - rewrite Hk. unfold vt_malloc. cbn -[on_lists].
    pose proof (maps_malloc s m (S (vt_mallocs s)) (ex_intro _ L HR) ltac:(lia)) as H1.
    pose proof (maps_malloc s m (S (S (vt_mallocs s))) (ex_intro _ L HR) ltac:(lia)) as H2.
    pose proof (vr_lock _ _ _ HR) as Hlock. rewrite Hlock in H1, H2.
    destruct (malloc_ok (vt_mallocs s)); cbn -[on_lists].
    2: { eexists. split; [done|]. split; [exact H1 | simpl; lia]. }
  destruct (malloc_ok (S (vt_mallocs s))); cbn -[on_lists].
  2: { eexists. split; [done|]. split; [exact H2 | simpl; lia]. }
  destruct (insert_entry_spec s m L id a HR Em) as (y & Ey & Hy).
  unfold on_lists. cbn [vt_lists vt_with_lists vt_with_entries vt_with_addrs]. rewrite Ey.
  cbn [obind]. eexists. split; [done|]. rewrite Hlock in Hy. split; [exact Hy | simpl; lia].
Qed.

End ops.

(** [get_available_entry] answers with some entry, if there is one. *)
Lemma first_entry_spec s m L n i :
  vrep s m L -> i + n = TABLE_SIZE -> (forall k, k < i -> L k = []) ->
  match first_entry n i (locked s) with
  | Done (Some a) => exists v, m !! v = Some a
  | Done None => m = ∅
  | _ => False
  end.
Proof.
  intros HR. revert i. induction n as [|n IH]; intros i Hi He; simpl.
  - apply map_empty. intros v. destruct (m !! v) as [a|] eqn:Em; [|done].
    destruct (vr_map _ _ _ HR v a Em) as (l & e & Hl & _).
    rewrite He in Hl by (pose proof (bucket_lt v); lia). by apply elem_of_nil in Hl.
  - assert (i < length (hl_heads (vt_lists s))) as Hl by (rewrite (vr_heads _ _ _ HR); lia).
    destruct (lookup_lt_is_Some_2 _ _ Hl) as [p Hp].
    unfold hl_first. change (vt_lists (locked s)) with (vt_lists s). rewrite Hp. cbn.
    pose proof (hr_lists _ _ (vr_lists _ _ _ HR) i p Hp) as Hs.
    destruct (L i) as [|l ls] eqn:EL.
    + simpl in Hs. subst p. apply IH; [lia|]. intros k Hk.
      destruct (decide (k = i)) as [->|]; [done | apply He; lia].
    + destruct Hs as [-> _]. destruct (vr_entry _ _ _ HR i l) as (e & a & Ee & Ea & Em & _);
        [rewrite EL; by left|].
      unfold entry_at, addr_at. cbn. rewrite Ee. cbn. rewrite Ea. simpl. eauto.
Qed.

Lemma available_spec s m addr :
  maps s m ->
  exists st a, dps_vnid_node_mapping_table_get_available_entry addr s = Done (st, a, s) /\
  ((st = DPS_SUCCESS /\ exists v, m !! v = Some a) \/ (st = DPS_ERROR /\ a = addr /\ m = ∅)).
Proof.
  intros [L HR]. unfold dps_vnid_node_mapping_table_get_available_entry.
  rewrite (sem_wait_free _ _ _ HR). cbn [obind].
  pose proof (vr_size _ _ _ HR) as Hsz. change (vt_hash_size (locked s)) with (vt_hash_size s).
  rewrite Hsz. pose proof (first_entry_spec s m L (Z.to_nat (Z.of_nat TABLE_SIZE)) 0 HR
    eq_refl ltac:(lia)) as Hf.
  destruct (first_entry _ 0 (locked s)) as [[a|] | |]; try done; cbn [obind];
    rewrite (sem_post_locked _ _ _ HR); eauto 10.
Qed.

(** The server for [id] if one is known, any server otherwise. *)
Definition finds (m : gmap Z ip_addr_t) (id : Z) (addr : ip_addr_t) (st : Z) (a : ip_addr_t) : Prop :=
  (st = DPS_SUCCESS /\ m !! id = Some a) \/
  (st = DPS_SUCCESS /\ m !! id = None /\ exists v, m !! v = Some a) \/
  (st = DPS_ERROR /\ a = addr /\ m = ∅).

Lemma find_spec fuel s m id addr :
  maps s m -> vt_mallocs s <= fuel ->
  exists st a, dps_vnid_node_mapping_entry_find fuel id addr s = Done (st, a, s) /\
  finds m id addr st a.
Proof.
  intros HR Hf. unfold dps_vnid_node_mapping_entry_find.
  rewrite (search_spec fuel s m id addr HR Hf). unfold finds.
  destruct (m !! id) as [a|] eqn:Em; cbn [obind].
  - exists DPS_SUCCESS, a. split; [done|]. by left.
  - destruct (available_spec s m addr HR) as (st & a & -> & H).
    exists st, a. split; [done|]. naive_solver.
Qed.

Lemma remove_all fuel s m id :
  maps s m -> vt_mallocs s <= fuel ->
  exists s', dps_vnid_node_mapping_entry_del2 fuel id s =
  Done (if decide (is_Some (m !! id)) then DPS_SUCCESS else DPS_ERROR, s') /\
  maps s' (delete id m) /\ vt_mallocs s' = vt_mallocs s.
Proof.
  intros [L HR] Hf. unfold dps_vnid_node_mapping_entry_del2.
  rewrite (head_bucket _ _ _ _ HR), (sem_wait_free _ _ _ HR). cbn [obind].
  rewrite (search_bkt_spec fuel _ _ _ id HR Hf). cbn [obind].
  pose proof (find_key s m L id HR) as Hk. destruct (m !! id) as [a|] eqn:Em.
  - destruct Hk as (l & e & -> & Hl & Ee & Hid & Ea).
    destruct (list_elem_of_split _ _ Hl) as (l1 & l2 & EL).
    destruct (remove_entry_spec s m L id a l1 l l2 e HR Em EL Ee Hid) as (s' & E & HR' & Hn).
    rewrite E. cbn [obind]. rewrite decide_True by eauto.
    rewrite (sem_post_locked _ _ _ HR'). exists s'. split_and!; [done | by eexists | done].
  - rewrite Hk. rewrite decide_False by (by intros [? ?]).
    rewrite (sem_post_locked _ _ _ HR). exists s. split_and!; [done | | done].
    exists L. rewrite delete_id by done. done.
Qed.

(** Only an entry whose server is the given one. *)
Definition served_by (m : gmap Z ip_addr_t) (id : Z) (node : ip_addr_t) : bool :=
  match m !! id with
  | Some a => (dps_vnid_entries_eq a node =? DPS_SUCCESS)%Z
  | None => false
  end.
Definition forget (node : ip_addr_t) (id : Z) (m : gmap Z ip_addr_t) : gmap Z ip_addr_t :=
  if served_by m id node then delete id m else m.

Lemma del_spec fuel s m id node :
  maps s m -> vt_mallocs s <= fuel ->
  exists s', dps_vnid_node_mapping_entry_del fuel id node s =
  Done (if served_by m id node then DPS_SUCCESS else DPS_ERROR, s') /\
  maps s' (forget node id m) /\ vt_mallocs s' = vt_mallocs s.
Proof.
  intros [L HR] Hf. unfold dps_vnid_node_mapping_entry_del, forget, served_by.
  rewrite (head_bucket _ _ _ _ HR), (sem_wait_free _ _ _ HR). cbn [obind].
  rewrite (search_bkt_spec fuel _ _ _ id HR Hf). cbn [obind].
  pose proof (find_key s m L id HR) as Hk. destruct (m !! id) as [a|] eqn:Em.
  - destruct Hk as (l & e & -> & Hl & Ee & Hid & Ea).
    unfold entry_at, addr_at. change (vt_entries (locked s)) with (vt_entries s).
    change (vt_addrs (locked s)) with (vt_addrs s). rewrite Ee. cbn [of_option obind].
    rewrite Ea. cbn [of_option obind]. destruct (dps_vnid_entries_eq a node =? DPS_SUCCESS)%Z.
    + destruct (list_elem_of_split _ _ Hl) as (l1 & l2 & EL).
      destruct (remove_entry_spec s m L id a l1 l l2 e HR Em EL Ee Hid) as (s' & E & HR' & Hn).
      rewrite E. cbn [obind].
      rewrite (sem_post_locked _ _ _ HR'). exists s'. split_and!; [done | by eexists | done].
    + rewrite (sem_post_locked _ _ _ HR). exists s. split_and!; [done | by exists L | done].
  - rewrite Hk, (sem_post_locked _ _ _ HR). exists s. split_and!; [done | by exists L | done].
Qed.

(** [dps_vnid_node_mapping_del_dup_node]: networks 0 to 63 only. *)
Definition forget_first (node : ip_addr_t) (m : gmap Z ip_addr_t) : gmap Z ip_addr_t :=
  foldl (fun m i => forget node (Z.of_nat i) m) m (seq 0 TABLE_SIZE).

Lemma del_dup_from_spec fuel n i node s m :
  maps s m -> vt_mallocs s <= fuel ->
  exists s', del_dup_from fuel n (Z.of_nat i) node s = Done s' /\
  maps s' (foldl (fun m i => forget node (Z.of_nat i) m) m (seq i n)) /\
  vt_mallocs s' = vt_mallocs s.
Proof.
  revert i s m. induction n as [|n IH]; intros i s m HR Hf; simpl; [by exists s|].
  destruct (del_spec fuel s m (Z.of_nat i) node HR Hf) as (s1 & -> & H1 & Hn). cbn [obind].
  replace (Z.of_nat i + 1)%Z with (Z.of_nat (S i)) by lia.
  destruct (IH (S i) s1 _ H1 ltac:(lia)) as (s2 & -> & H2 & Hn2).
  exists s2. split_and!; [done | done | lia].
Qed.

Lemma del_dup_spec fuel node s m :
  maps s m -> vt_mallocs s <= fuel ->
  exists s', dps_vnid_node_mapping_del_dup_node fuel node s = Done s' /\
  maps s' (forget_first node m) /\ vt_mallocs s' = vt_mallocs s.
Proof.
  intros HR Hf. unfold dps_vnid_node_mapping_del_dup_node. destruct HR as [L HR].
  rewrite (vr_size _ _ _ HR), Nat2Z.id.
  exact (del_dup_from_spec fuel TABLE_SIZE 0 node s m (ex_intro _ L HR) Hf).
Qed.

(** ** The table of networks from its creation to its destruction

    Set-up, the listing of its entries, any sequence of operations in between
    and the clean-up, which returns every allocation. *)
(** ** Set-up *)
Lemma init_heads_spec : forall n i s,
  i + n = length (hl_heads (vt_lists s)) ->
  exists hs, init_heads n i s = Done (vt_with_lists (mk_hlists hs (hl_nodes (vt_lists s))) s) /\
    length hs = length (hl_heads (vt_lists s)) /\
    forall k, hs !! k = if decide (i <= k < i + n) then Some Null else hl_heads (vt_lists s) !! k.
Proof.
  induction n as [|n IH]; intros i s Hi; simpl.
  - exists (hl_heads (vt_lists s)). split_and!; [by destruct s as [[]] | done |].
    intros k. rewrite decide_False by lia. done.
  - destruct (lookup_lt_is_Some_2 (hl_heads (vt_lists s)) i ltac:(lia)) as [p Hp].
    unfold on_lists, dps_hlist_head_init, hl_set_first, hl_first. rewrite Hp.
    cbn [of_option obind].
    destruct (IH (S i) (vt_with_lists (mk_hlists (<[i := Null]> (hl_heads (vt_lists s)))
      (hl_nodes (vt_lists s))) s)) as (hs & -> & Hlen & Hlk).
    { simpl. rewrite length_insert. lia. }
    exists hs. split_and!; [done | by rewrite Hlen; simpl; rewrite length_insert |].
    intros k. rewrite Hlk. simpl. destruct (decide (k = i)) as [->|Hk].
    + rewrite decide_False by lia. rewrite decide_True by lia. apply list_lookup_insert_eq. lia.
    + rewrite list_lookup_insert_ne by done.
      destruct (decide (S i <= k < S (i + n))), (decide (i <= k < i + S n)); try done; lia.
Qed.

(** Sixty four heads and no memory. *)
Record vacant (s : vtable) : Prop := {
  va_heads : length (hl_heads (vt_lists s)) = TABLE_SIZE;
  va_nodes : hl_nodes (vt_lists s) = ∅;
  va_entries : vt_entries s = ∅;
  va_addrs : vt_addrs s = ∅
}.

Lemma table_vacant : vacant dps_vnid_node_mapping_table.
Proof. by split. Qed.

Lemma init_spec s :
  vacant s ->
  exists s', dps_vnid_node_mapping_table_init true s = Done (DPS_SUCCESS, s') /\ maps s' ∅ /\
    vt_mallocs s' = vt_mallocs s.
Proof.
  intros [Hh Hn He Ha]. unfold dps_vnid_node_mapping_table_init.
  set (s1 := mk_vnid_table _ _ _ _ _ _ _).
  destruct (init_heads_spec TABLE_SIZE 0 s1) as (hs & E & Hlen & Hlk); [done|].
  change (Z.to_nat (u16 (Z.shiftl 1 VNID_NODE_MAPPING_HASH_BITS))) with TABLE_SIZE.
  rewrite E. cbn [obind]. eexists. split; [done|]. split; [|done]. exists (fun _ => []).
  split; simpl; rewrite ?Hn, ?He, ?Ha; try done.
  - split; [|constructor | by intros h k l Hl%elem_of_nil].
    intros h p. simpl. rewrite Hlk. case_decide as Hd; [by intros [= <-]|].
    rewrite lookup_ge_None_2; [done|]. simpl. unfold TABLE_SIZE in *. lia.
  - by rewrite Hlen.
  - by intros h l Hl%elem_of_nil.
  - by intros l [x Hx].
  - by intros l [x Hx].
  - by intros l [x Hx].
  - by intros h l Hl%elem_of_nil.
Qed.

(** ** Clean-up *)
Lemma clean_head_spec fuel h : forall ls s m L,
  vrep s m L -> h < TABLE_SIZE -> L h = ls -> length ls <= fuel ->
  exists s' m' L', clean_head fuel h (locked s) = Done (locked s') /\ vrep s' m' L' /\
    L' h = [] /\ (forall k, k <> h -> L' k = L k) /\ vt_mallocs s' = vt_mallocs s.
Proof.
  revert fuel. intros fuel ls. revert fuel.
  induction ls as [|l ls IH]; intros fuel s m L HR Hh EL Hf.
  - destruct (lookup_lt_is_Some_2 (hl_heads (vt_lists s)) h) as [p Hp];
      [by rewrite (vr_heads _ _ _ HR)|].
    pose proof (hr_lists _ _ (vr_lists _ _ _ HR) h p Hp) as Hs. rewrite EL in Hs. simpl in Hs.
    subst p. exists s, m, L. split_and!; try done.
    destruct fuel; simpl; unfold hl_first; change (vt_lists (locked s)) with (vt_lists s);
      by rewrite Hp.
  - destruct fuel as [|fuel]; [simpl in Hf; lia|].
    destruct (lookup_lt_is_Some_2 (hl_heads (vt_lists s)) h) as [p Hp];
      [by rewrite (vr_heads _ _ _ HR)|].
    pose proof (hr_lists _ _ (vr_lists _ _ _ HR) h p Hp) as Hs. rewrite EL in Hs.
    destruct Hs as [-> _].
    destruct (vr_entry _ _ _ HR h l) as (e & a & Ee & Ea & Em & Hb); [rewrite EL; by left|].
    destruct (remove_entry_spec s m L (vn_id e) a [] l ls e HR Em ltac:(by rewrite Hb) Ee eq_refl)
      as (s1 & E1 & HR1 & Hn1).
    destruct (IH fuel s1 _ _ HR1 Hh) as (s2 & m2 & L2 & E2 & HR2 & Hh2 & Hk2 & Hn2).
    { unfold hupd. by rewrite Hb, decide_True. }
    { simpl in Hf. lia. }
    exists s2, m2, L2. split_and!; [|done|done| |by rewrite Hn2].
    + cbn [clean_head]. unfold hl_first at 1. change (vt_lists (locked s)) with (vt_lists s).
      rewrite Hp. cbn [of_option obind]. rewrite <- E2. revert E1. unfold remove_entry.
      destruct (on_lists _ (locked s)) as [x| |]; cbn [obind]; try done.
      destruct (entry_at x l) as [e'| |]; cbn [obind]; try done.
      destruct (free_addr _ x) as [x'| |]; cbn [obind]; try done.
      by intros ->.
    + intros k Hk. rewrite Hk2 by done. unfold hupd. by rewrite Hb, decide_False.
Qed.

Lemma clean_heads_spec fuel : forall n i s m L,
  vrep s m L -> i + n = TABLE_SIZE -> vt_mallocs s <= fuel -> (forall k, k < i -> L k = []) ->
  exists s' m' L', clean_heads fuel n i (locked s) = Done (locked s') /\ vrep s' m' L' /\
    (forall k, L' k = []) /\ vt_mallocs s' = vt_mallocs s.
Proof.
  induction n as [|n IH]; intros i s m L HR Hi Hf He.
  - exists s, m, L. split_and!; try done. intros k.
    destruct (decide (k < TABLE_SIZE)); [apply He; lia | apply (vr_over _ _ _ HR); lia].
  - destruct (clean_head_spec fuel i (L i) s m L HR ltac:(lia) eq_refl)
      as (s1 & m1 & L1 & E1 & HR1 & Hh1 & Hk1 & Hn1).
    { pose proof (list_short s m L i HR). lia. }
    destruct (IH (S i) s1 m1 L1 HR1 ltac:(lia) ltac:(lia)) as (s2 & m2 & L2 & E2 & HR2 & Hk2 & Hn2).
    { intros k Hk. destruct (decide (k = i)) as [->|]; [done|]. rewrite Hk1 by done. apply He. lia. }
    exists s2, m2, L2. split_and!; [|done|done|by rewrite Hn2].
    cbn [clean_heads]. rewrite E1. cbn [obind]. rewrite <- E2.
    destruct (lookup_lt_is_Some_2 (hl_heads (vt_lists s1)) i) as [p Hp];
      [rewrite (vr_heads _ _ _ HR1); lia|].
    pose proof (hr_lists _ _ (vr_lists _ _ _ HR1) i p Hp) as Hs. rewrite Hh1 in Hs. simpl in Hs.
    subst p. unfold on_lists, dps_hlist_head_init, hl_set_first, hl_first.
    change (vt_lists (locked s1)) with (vt_lists s1). rewrite Hp. cbn [of_option obind].
    rewrite list_insert_id by done. by destruct s1 as [[]].
Qed.

Lemma clean_spec fuel s m :
  maps s m -> vt_mallocs s <= fuel ->
  exists s', dps_vnid_node_mapping_table_clean fuel s = Done s' /\ vacant s' /\ vt_lock s' = 0%Z.
Proof.
  intros [L HR] Hf. unfold dps_vnid_node_mapping_table_clean.
  rewrite (sem_wait_free _ _ _ HR). cbn [obind].
  change (vt_hash_size (locked s)) with (vt_hash_size s).
  rewrite (vr_size _ _ _ HR), Nat2Z.id.
  destruct (clean_heads_spec fuel TABLE_SIZE 0 s m L HR eq_refl Hf ltac:(lia))
    as (s1 & m1 & L1 & -> & HR1 & Hk & _).
  cbn [obind]. rewrite (sem_post_locked _ _ _ HR1).
  assert (forall h l, l ∉ L1 h) as Hno by (intros h l; rewrite Hk; apply not_elem_of_nil).
  assert (vt_entries s1 = ∅) as Hent.
  { apply map_empty. intros l. destruct (vt_entries s1 !! l) eqn:E; [|done].
    destruct (vr_entries _ _ _ HR1 l ltac:(by rewrite E)) as [h Hl]. by destruct (Hno h l). }
  eexists. split; [done|]. split; [|done]. split; simpl.
  - apply HR1.
  - apply map_empty. intros l. destruct (hl_nodes (vt_lists s1) !! l) eqn:E; [|done].
    destruct (vr_nodes _ _ _ HR1 l ltac:(by rewrite E)) as [h Hl]. by destruct (Hno h l).
  - done.
  - apply map_empty. intros x. destruct (vt_addrs s1 !! x) eqn:E; [|done].
    destruct (vr_addrs _ _ _ HR1 x ltac:(by rewrite E)) as (l & e & Ee & _).
    by rewrite Hent in Ee.
Qed.
