(* ===== verification/VnidRefine.v ===== *)
(** * What the client knows of its servers, over any sequence of operations

    [vstep]: one operation of a client on a finite map from networks to
    servers, with what the caller is told.  The table does what the map does,
    from its creation until it is destroyed; the destruction frees all. *)
From stdpp Require Import gmap.
From S2P Require Export VnidOps.

(** ** Listing the table of networks

    What [dps_vnid_node_mapping_entry_show] prints: the entry of a network, or
    with the identifier [0xFFFFFFFF] every entry once. *)
Definition ALL_VNIDS : Z := 4294967295.

(** The entry at an address, as it is printed. *)
Definition row (s : vtable) (l : nat) : option (Z * ip_addr_t) :=
  e ← vt_entries s !! l; a ← vt_addrs s !! svr_node e; Some (vn_id e, a).

Lemma row_entry s m L h l :
  vrep s m L -> l ∈ L h ->
  exists e a, vt_entries s !! l = Some e /\ vt_addrs s !! svr_node e = Some a /\
    row s l = Some (vn_id e, a) /\ m !! vn_id e = Some a /\ bucket (vn_id e) = h.
Proof.
  intros HR Hl. destruct (vr_entry _ _ _ HR h l Hl) as (e & a & Ee & Ea & Em & Hb).
  exists e, a. split_and!; try done. unfold row. rewrite Ee. simpl. by rewrite Ea.
Qed.

(** ** One list *)
Lemma show_from_all s m L h fuel : forall ls p q,
  vrep s m L -> m !! ALL_VNIDS = None -> (forall l, l ∈ ls -> l ∈ L h) ->
  hseg (hl_nodes (vt_lists s)) p q ls -> length ls <= fuel ->
  show_from fuel s ALL_VNIDS p = Done (false, omap (row s) ls).
Proof.
  induction fuel as [|fuel IH]; intros ls p q HR Hall Hin Hs Hf;
    (destruct ls as [|l ls]; [simpl in Hs; by subst p | simpl in Hf; try lia]).
  destruct Hs as (-> & nx & El & Hs).
  destruct (row_entry s m L h l HR) as (e & a & Ee & Ea & Er & Em & _); [apply Hin; by left|].
  assert ((ALL_VNIDS =? vn_id e)%Z = false) as Eid by (apply Z.eqb_neq; intros E; congruence).
  cbn [show_from omap list_omap]. unfold entry_at, addr_at, hl_deref. rewrite Ee, El, Er.
  cbn [of_option obind]. rewrite Ea, Eid. cbn [of_option obind orb hn_next].
  change ((ALL_VNIDS =? 4294967295)%Z) with true. cbn [obind].
  rewrite (IH ls nx (Lnext l)); try done; [|lia]. intros k Hk. apply Hin. by right.
Qed.

Lemma show_from_one s m L h id fuel : forall ls p q,
  vrep s m L -> id <> ALL_VNIDS -> (forall l, l ∈ ls -> l ∈ L h) ->
  hseg (hl_nodes (vt_lists s)) p q ls -> length ls <= fuel ->
  show_from fuel s id p =
  Done match List.find (has_id s id) ls with
       | Some l => (true, option_list (row s l))
       | None => (false, [])
       end.
Proof.
  induction fuel as [|fuel IH]; intros ls p q HR Hall Hin Hs Hf;
    (destruct ls as [|l ls]; [simpl in Hs; by subst p | simpl in Hf; try lia]).
  destruct Hs as (-> & nx & El & Hs).
  destruct (row_entry s m L h l HR) as (e & a & Ee & Ea & Er & Em & _); [apply Hin; by left|].
  cbn [show_from List.find]. unfold has_id at 1. unfold entry_at, addr_at, hl_deref.
  rewrite Ee, El. cbn [of_option obind].
  replace (id =? 4294967295)%Z with false by (symmetry; by apply Z.eqb_neq).
  rewrite (Z.eqb_sym id). destruct (vn_id e =? id)%Z; cbn [orb].
  - rewrite Ea. cbn. by rewrite Er.
  - cbn. apply (IH ls nx (Lnext l)); try done; [|lia]. intros k Hk. apply Hin. by right.
Qed.

(** ** The table *)
Lemma first_seg s m L i n :
  vrep s m L -> i + S n = TABLE_SIZE ->
  exists p, hl_first (vt_lists s) i = Done p /\ hseg (hl_nodes (vt_lists s)) p (Lhead i) (L i).
Proof.
  intros HR Hi. destruct (lookup_lt_is_Some_2 (hl_heads (vt_lists s)) i) as [p Hp].
  { rewrite (vr_heads _ _ _ HR). lia. }
  exists p. unfold hl_first. rewrite Hp. split; [done|].
  by apply (hr_lists _ _ (vr_lists _ _ _ HR)).
Qed.

Definition rows (s : vtable) (L : nat -> list nat) (hs : list nat) : list (Z * ip_addr_t) :=
  mjoin ((fun h => omap (row s) (L h)) <$> hs).

Lemma show_heads_all fuel s m L : forall n i,
  vrep s m L -> m !! ALL_VNIDS = None -> i + n = TABLE_SIZE -> vt_mallocs s <= fuel ->
  show_heads fuel n i s ALL_VNIDS = Done (rows s L (seq i n)).
Proof.
  induction n as [|n IH]; intros i HR Hall Hi Hf; [done|].
  destruct (first_seg s m L i n HR Hi) as (p & Hp & Hs). pose proof (list_short s m L i HR).
  cbn [show_heads]. rewrite Hp. cbn [obind].
  rewrite (show_from_all s m L i fuel (L i) p (Lhead i)); auto; [|lia].
  cbn [obind]. rewrite IH by (auto; lia). done.
Qed.

Lemma show_heads_one fuel s m L id : forall n i,
  vrep s m L -> id <> ALL_VNIDS -> i + n = TABLE_SIZE -> vt_mallocs s <= fuel ->
  (i <= bucket id) ->
  show_heads fuel n i s id = Done (option_list ((fun a => (id, a)) <$> m !! id)).
Proof.
  induction n as [|n IH]; intros i HR Hall Hi Hf Hb; [pose proof (bucket_lt id); lia|].
  destruct (first_seg s m L i n HR Hi) as (p & Hp & Hs). pose proof (list_short s m L i HR).
  cbn [show_heads]. rewrite Hp. cbn [obind].
  rewrite (show_from_one s m L i id fuel (L i) p (Lhead i)); auto; [|lia]. cbn [obind].
  destruct (decide (i = bucket id)) as [->|Hne].
  - pose proof (find_key s m L id HR) as Hk. destruct (m !! id) as [a|] eqn:Em.
    + destruct Hk as (l & e & -> & Hl & Ee & <- & Ea). unfold row. rewrite Ee. simpl.
      by rewrite Ea.
    + rewrite Hk. clear IH. assert (forall n i, bucket id < i -> i + n = TABLE_SIZE ->
        show_heads fuel n i s id = Done []) as Hrest.
      { clear -HR Hall Hf Em. induction n as [|n IH]; intros i Hb Hi; [done|].
        destruct (first_seg s m L i n HR Hi) as (p & Hp & Hs). pose proof (list_short s m L i HR).
        cbn [show_heads]. rewrite Hp. cbn [obind].
        rewrite (show_from_one s m L i id fuel (L i) p (Lhead i)); auto; [|lia]. cbn [obind].
        destruct (List.find (has_id s id) (L i)) as [l|] eqn:Ef; [|by rewrite IH by lia].
        apply List.find_some in Ef as [Hl Hid]. apply list_elem_of_In in Hl.
        destruct (row_entry s m L i l HR Hl) as (e & a & Ee & _ & _ & Em' & _).
        unfold has_id in Hid. rewrite Ee in Hid. apply Z.eqb_eq in Hid. congruence. }
      by rewrite Hrest by lia.
  - destruct (List.find (has_id s id) (L i)) as [l|] eqn:Ef; [|by rewrite IH by (auto; lia)].
    apply List.find_some in Ef as [Hl Hid]. apply list_elem_of_In in Hl.
    destruct (row_entry s m L i l HR Hl) as (e & a & Ee & _ & _ & _ & Hbk).
    unfold has_id in Hid. rewrite Ee in Hid. apply Z.eqb_eq in Hid. congruence.
Qed.

(** Every entry of the map is in one row. *)
Lemma rows_elem s m L v a i n :
  vrep s m L -> (v, a) ∈ rows s L (seq i n) <-> m !! v = Some a /\ i <= bucket v < i + n.
Proof.
  intros HR. unfold rows. rewrite list_elem_of_join. split.
  - intros (r & Hr & Hh). apply list_elem_of_fmap in Hh as (h & -> & Hh).
    apply elem_of_seq in Hh. apply list_elem_of_omap in Hr as (l & Hl & El).
    destruct (row_entry s m L h l HR Hl) as (e & a' & _ & _ & Er & Em & Hb).
    rewrite Er in El. injection El as <- <-. rewrite Hb. done.
  - intros [Em Hb]. destruct (vr_map _ _ _ HR v a Em) as (l & e & Hl & Ee & He).
    destruct (row_entry s m L _ l HR Hl) as (e' & a' & Ee' & _ & Er & Em' & _).
    exists (omap (row s) (L (bucket v))). split.
    + apply list_elem_of_omap. exists l. split; [done|]. rewrite Er. congruence.
    + apply list_elem_of_fmap. exists (bucket v). split; [done|]. by apply elem_of_seq.
Qed.

Lemma rows_nodup s m L : vrep s m L -> forall n i, NoDup (rows s L (seq i n)).
Proof.
  intros HR. induction n as [|n IH]; intros i; [constructor|].
  unfold rows. cbn [seq fmap list_fmap mjoin list_join]. apply list.NoDup_app. split_and!.
  - assert (forall ls, NoDup ls -> (forall l, l ∈ ls -> l ∈ L i) -> NoDup (omap (row s) ls)) as Hrow.
    { induction ls as [|l ls IHl]; intros Hnd Hin; [constructor|].
      apply list.NoDup_cons in Hnd as [Hl Hnd].
      destruct (row_entry s m L i l HR) as (e & a & Ee & _ & Er & _); [apply Hin; by left|].
      simpl. rewrite Er. apply list.NoDup_cons. split.
      - intros (k & Hk & Ek)%list_elem_of_omap.
        destruct (row_entry s m L i k HR) as (e' & a' & Ee' & _ & Er' & _); [apply Hin; by right|].
        rewrite Er' in Ek. injection Ek as E _. apply Hl.
        rewrite (vr_key _ _ _ HR l k e e' Ee Ee') by (left; congruence). done.
      - apply IHl; [done|]. intros k Hk. apply Hin. by right. }
    apply Hrow; [apply (hr_nodup _ _ (vr_lists _ _ _ HR)) | done].
  - intros [v a] Hv Hr. apply (rows_elem s m L v a (S i) n HR) in Hr as [_ Hb].
    apply list_elem_of_omap in Hv as (l & Hl & El).
    destruct (row_entry s m L i l HR Hl) as (e & a' & _ & _ & Er & _ & Hbe).
    rewrite Er in El. injection El as <- <-. lia.
  - apply IH.
Qed.

(** What is listed of a map. *)
Definition shows (m : gmap Z ip_addr_t) (id : Z) (r : list (Z * ip_addr_t)) : Prop :=
  if decide (id = ALL_VNIDS) then m !! ALL_VNIDS = None -> r ≡ₚ map_to_list m
  else r = option_list ((fun a => (id, a)) <$> m !! id).

Lemma show_spec fuel s m id :
  maps s m -> vt_mallocs s <= fuel -> m !! ALL_VNIDS = None ->
  exists r, dps_vnid_node_mapping_entry_show fuel id s = Done (r, s) /\ shows m id r.
Proof.
  intros [L HR] Hf Hall. unfold dps_vnid_node_mapping_entry_show.
  rewrite (sem_wait_free _ _ _ HR). cbn [obind].
  change (vt_hash_size (locked s)) with (vt_hash_size s). rewrite (vr_size _ _ _ HR), Nat2Z.id.
  assert (forall n i, show_heads fuel n i (locked s) id = show_heads fuel n i s id) as ->.
  { assert (forall f p, show_from f (locked s) id p = show_from f s id p) as Hs.
    { induction f as [|f IH]; intros p; [by destruct p|]. destruct p; [done| |done]. simpl.
      change (entry_at (locked s) l) with (entry_at s l).
      destruct (entry_at s l); [|done|done]. cbn.
      destruct (hl_deref (vt_lists s) l) as [n| |]; [|done|done]. cbn. by rewrite IH. }
    induction n as [|n IH]; intros i; [done|]. simpl.
    change (vt_lists (locked s)) with (vt_lists s).
    destruct (hl_first (vt_lists s) i); [|done|done]. cbn. rewrite Hs.
    destruct (show_from fuel s id a) as [[[] r]| |]; [done| |done|done]. cbn. by rewrite IH. }
  unfold shows. case_decide as Hid.
  - subst id. rewrite (show_heads_all fuel s m L TABLE_SIZE 0 HR Hall eq_refl Hf). cbn [obind].
    rewrite (sem_post_locked _ _ _ HR). eexists. split; [done|]. intros _.
    apply NoDup_Permutation; [by apply (rows_nodup s m L) | apply NoDup_map_to_list |].
    intros [v a]. rewrite (rows_elem s m L) by done. rewrite elem_of_map_to_list.
    pose proof (bucket_lt v). unfold TABLE_SIZE in *. intuition lia.
  - rewrite (show_heads_one fuel s m L id TABLE_SIZE 0) by (auto; lia). cbn [obind].
    rewrite (sem_post_locked _ _ _ HR). by eexists.
Qed.

Inductive vop :=
| Op_add (id : Z) (node : ip_addr_t)
| Op_search (id : Z) (addr : ip_addr_t)
| Op_find (id : Z) (addr : ip_addr_t)
| Op_available (addr : ip_addr_t)
| Op_del (id : Z) (node : ip_addr_t)
| Op_del2 (id : Z)
| Op_del_dup (node : ip_addr_t)
| Op_show (id : Z).

Inductive vresult :=
| R_status (st : Z)
| R_addr (st : Z) (a : ip_addr_t)
| R_rows (r : list (Z * ip_addr_t))
| R_unit.

(** A network has an identifier of twenty four bits. *)
Definition is_vnid (id : Z) : Prop := (0 <= id < 16777216)%Z.

Definition op_ok (op : vop) : Prop :=
  match op with Op_add id _ => is_vnid id | _ => True end.

(** One operation on the map.  [low] is whether memory may run out. *)
Inductive vstep (low : bool) (m : gmap Z ip_addr_t) : vop -> vresult -> gmap Z ip_addr_t -> Prop :=
| V_add id a : vstep low m (Op_add id a) (R_status DPS_SUCCESS) (<[id := a]> m)
| V_add_low id a : low = true -> m !! id = None ->
    vstep low m (Op_add id a) (R_status DPS_ERROR_NO_RESOURCES) m
| V_search id a addr : m !! id = Some a -> vstep low m (Op_search id addr) (R_addr DPS_SUCCESS a) m
| V_search_none id addr : m !! id = None ->
    vstep low m (Op_search id addr) (R_addr DPS_ERROR addr) m
| V_find id a addr : m !! id = Some a -> vstep low m (Op_find id addr) (R_addr DPS_SUCCESS a) m
| V_find_any id v a addr : m !! id = None -> m !! v = Some a ->
    vstep low m (Op_find id addr) (R_addr DPS_SUCCESS a) m
| V_find_none id addr : m = ∅ -> vstep low m (Op_find id addr) (R_addr DPS_ERROR addr) m
| V_available v a addr : m !! v = Some a ->
    vstep low m (Op_available addr) (R_addr DPS_SUCCESS a) m
| V_available_none addr : m = ∅ -> vstep low m (Op_available addr) (R_addr DPS_ERROR addr) m
| V_del id node : served_by m id node = true ->
    vstep low m (Op_del id node) (R_status DPS_SUCCESS) (delete id m)
| V_del_other id node : served_by m id node = false ->
    vstep low m (Op_del id node) (R_status DPS_ERROR) m
| V_del2 id a : m !! id = Some a -> vstep low m (Op_del2 id) (R_status DPS_SUCCESS) (delete id m)
| V_del2_none id : m !! id = None -> vstep low m (Op_del2 id) (R_status DPS_ERROR) m
| V_del_dup node : vstep low m (Op_del_dup node) R_unit (forget_first node m)
| V_show id r : shows m id r -> vstep low m (Op_show id) (R_rows r) m.

Inductive vsteps (low : bool) : gmap Z ip_addr_t -> list vop -> list vresult ->
    gmap Z ip_addr_t -> Prop :=
| Vs_nil m : vsteps low m [] [] m
| Vs_cons m op r m1 ops rs m2 :
    vstep low m op r m1 -> vsteps low m1 ops rs m2 -> vsteps low m (op :: ops) (r :: rs) m2.

Section run.
Context (malloc_ok : nat -> bool).

(** The same operation on the table. *)
Definition run_vop (fuel : nat) (op : vop) (s : vtable) : out (vresult * vtable) :=
  match op with
  | Op_add id a =>
      let* (st, s) := dps_vnid_node_mapping_entry_add malloc_ok fuel id a s in
      Done (R_status st, s)
  | Op_search id addr =>
      let* (st, a, s) := dps_vnid_node_mapping_entry_search fuel id addr s in
      Done (R_addr st a, s)
  | Op_find id addr =>
      let* (st, a, s) := dps_vnid_node_mapping_entry_find fuel id addr s in
      Done (R_addr st a, s)
  | Op_available addr =>
      let* (st, a, s) := dps_vnid_node_mapping_table_get_available_entry addr s in
      Done (R_addr st a, s)
  | Op_del id node =>
      let* (st, s) := dps_vnid_node_mapping_entry_del fuel id node s in Done (R_status st, s)
  | Op_del2 id => let* (st, s) := dps_vnid_node_mapping_entry_del2 fuel id s in Done (R_status st, s)
  | Op_del_dup node =>
      let* s := dps_vnid_node_mapping_del_dup_node fuel node s in Done (R_unit, s)
  | Op_show id => let* (r, s) := dps_vnid_node_mapping_entry_show fuel id s in Done (R_rows r, s)
  end.

Fixpoint run_vops (fuel : nat) (ops : list vop) (s : vtable) : out (list vresult * vtable) :=
  match ops with
  | [] => Done ([], s)
  | op :: ops =>
      let* (r, s) := run_vop fuel op s in
      let* (rs, s) := run_vops fuel ops s in
      Done (r :: rs, s)
  end.

(** Memory may run out when some allocation fails. *)
Context (low : bool) (Hlow : low = false -> forall n, malloc_ok n = true).

(** No map of a client has the identifier that stands for all. *)
Definition vnids (m : gmap Z ip_addr_t) : Prop := forall id, is_Some (m !! id) -> is_vnid id.

Lemma vnids_all m : vnids m -> m !! ALL_VNIDS = None.
Proof.
  intros Hm. destruct (m !! ALL_VNIDS) eqn:E; [|done].
  destruct (Hm ALL_VNIDS ltac:(by rewrite E)) as [_ H]. by unfold ALL_VNIDS in H.
Qed.

Lemma vnids_delete id m : vnids m -> vnids (delete id m).
Proof.
  intros Hm k Hk. apply Hm. destruct (decide (k = id)) as [->|].
  - rewrite lookup_delete_eq in Hk. by destruct Hk.
  - by rewrite lookup_delete_ne in Hk.
Qed.

Lemma vnids_forget node m : forall ks, vnids m ->
  vnids (foldl (fun m i => forget node (Z.of_nat i) m) m ks).
Proof.
  intros ks. revert m. induction ks as [|k ks IH]; intros m Hm; simpl; [done|].
  apply IH. unfold forget. destruct (served_by m _ node); [by apply vnids_delete | done].
Qed.

(** One operation. *)
Lemma run_vop_spec fuel op s m :
  maps s m -> vnids m -> op_ok op -> vt_mallocs s <= fuel ->
  exists r s' m', run_vop fuel op s = Done (r, s') /\ vstep low m op r m' /\ maps s' m' /\
  vnids m' /\ vt_mallocs s' <= vt_mallocs s + 2.
Proof.
  intros HR Hv Hop Hf. destruct op as [id a|id addr|id addr|addr|id node|id|node|id]; simpl.
  - destruct (add_spec malloc_ok fuel s m id a HR Hf) as (s' & -> & HR' & Hn). cbn [obind].
    destruct (room_for malloc_ok s m id) eqn:Er; do 3 eexists; (split; [done|]).
    + split; [constructor|]. split; [done|]. split; [|lia]. intros k Hk.
      destruct (decide (k = id)) as [->|]; [done|]. apply Hv. by rewrite lookup_insert_ne in Hk.
    + split; [|split; [done | split; [done | lia]]]. unfold room_for in Er.
      destruct (m !! id) eqn:Em; [done|]. constructor; [|done].
      destruct low; [done|]. by rewrite !Hlow in Er.
  - rewrite (search_spec fuel s m id addr HR Hf). destruct (m !! id) as [a|] eqn:Em; cbn [obind];
      do 3 eexists; (split; [done|]); (split; [by constructor | split; [done | split; [done | lia]]]).
  - destruct (find_spec fuel s m id addr HR Hf) as (st & a & -> & H). cbn [obind].
    do 3 eexists. split; [done|]. split; [|split; [done | split; [done | lia]]].
    destruct H as [[-> Em]|[(-> & Em & v & Ev)|(-> & -> & Em)]].
    + by constructor.
    + by eapply V_find_any.
    + by constructor.
  - destruct (available_spec s m addr HR) as (st & a & -> & H). cbn [obind].
    do 3 eexists. split; [done|]. split; [|split; [done | split; [done | lia]]].
    destruct H as [[-> [v Ev]]|(-> & -> & Em)]; [by econstructor | by constructor].
  - destruct (del_spec fuel s m id node HR Hf) as (s' & -> & HR' & Hn). cbn [obind].
    revert HR'. unfold forget. destruct (served_by m id node) eqn:Es; intros HR';
      do 3 eexists; (split; [done|]); (split; [by constructor | split; [done | split; [|lia]]]).
    + by apply vnids_delete.
    + done.
  - destruct (remove_all fuel s m id HR Hf) as (s' & -> & HR' & Hn). cbn [obind].
    destruct (m !! id) as [a|] eqn:Em; [rewrite decide_True by eauto | rewrite decide_False by
      (by intros [? ?])]; do 3 eexists; (split; [done|]).
    + split; [by econstructor | split; [done | split; [by apply vnids_delete | lia]]].
    + rewrite delete_id in HR' by done. split; [by constructor | split; [done | split; [done | lia]]].
  - destruct (del_dup_spec fuel node s m HR Hf) as (s' & -> & HR' & Hn). cbn [obind].
    do 3 eexists. split; [done|]. split; [constructor | split; [done | split; [|lia]]].
    by apply vnids_forget.
  - destruct (show_spec fuel s m id HR Hf (vnids_all m Hv)) as (r & -> & H). cbn [obind].
    do 3 eexists. split; [done|]. split; [by constructor | split; [done | split; [done | lia]]].
Qed.

Lemma run_vops_spec : forall ops fuel s m,
  maps s m -> vnids m -> Forall op_ok ops -> vt_mallocs s + 2 * length ops <= fuel ->
  exists rs s' m', run_vops fuel ops s = Done (rs, s') /\ vsteps low m ops rs m' /\ maps s' m' /\
  vt_mallocs s' <= fuel.
Proof.
  induction ops as [|op ops IH]; intros fuel s m HR Hv Hop Hf; simpl in Hf.
  - exists [], s, m. split_and!; [done | constructor | done | lia].
  - apply Forall_cons_1 in Hop as [Hop Hops].
    destruct (run_vop_spec fuel op s m HR Hv Hop ltac:(lia)) as (r & s1 & m1 & E & Hst & HR1 & Hv1 & Hn).
    destruct (IH fuel s1 m1 HR1 Hv1 Hops ltac:(lia)) as (rs & s2 & m2 & E2 & Hst2 & HR2 & Hn2).
    exists (r :: rs), s2, m2. split_and!; try done; [|by econstructor].
    cbn [run_vops]. rewrite E. cbn [obind]. by rewrite E2.
Qed.
End run.

(** A life of the table: set up, used, destroyed. *)
Definition table_life (malloc_ok : nat -> bool) (fuel : nat) (ops : list vop) (s : vtable)
  : out (list vresult * vtable) :=
  let* (_, s) := dps_vnid_node_mapping_table_init true s in
  let* (rs, s) := run_vops malloc_ok fuel ops s in
  let* s := dps_vnid_node_mapping_table_clean fuel s in
  Done (rs, s).

Lemma init_maps :
  exists s, dps_vnid_node_mapping_table_init true dps_vnid_node_mapping_table
    = Done (DPS_SUCCESS, s) /\ maps s ∅ /\ vt_mallocs s = 0.
Proof. apply (init_spec dps_vnid_node_mapping_table table_vacant). Qed.

Lemma vnids_empty : vnids ∅.
Proof. by intros id [x Hx]. Qed.

(** C18. From its set-up on, the table of networks answers any sequence of
    operations as a finite map does: an addition replaces the server of a
    network, a search finds it, a find falls back to any server, a removal with
    a server removes only if that is the one; an addition fails only for want
    of memory and then changes nothing.  No operation waits for ever on the
    lock, follows a dangling pointer or fails to return. *)
Theorem vnid_map_refines (malloc_ok : nat -> bool) (ops : list vop) (fuel : nat) :
  Forall op_ok ops -> 2 * length ops <= fuel ->
  exists s rs s' m',
    dps_vnid_node_mapping_table_init true dps_vnid_node_mapping_table = Done (DPS_SUCCESS, s) /\
    run_vops malloc_ok fuel ops s = Done (rs, s') /\
    vsteps true ∅ ops rs m' /\ maps s' m' /\
    ((forall n, malloc_ok n = true) -> vsteps false ∅ ops rs m').
Proof.
  intros Hops Hf. destruct init_maps as (s & -> & HR & Hn). exists s.
  destruct (run_vops_spec malloc_ok true ltac:(done) ops fuel s ∅ HR vnids_empty Hops ltac:(lia))
    as (rs & s' & m' & E & Hst & HR' & _).
  exists rs, s', m'. split_and!; try done. intros Hok.
  destruct (run_vops_spec malloc_ok false (fun _ => Hok) ops fuel s ∅ HR vnids_empty Hops
    ltac:(lia)) as (rs2 & s2 & m2 & E2 & Hst2 & HR2 & _).
  rewrite E in E2. injection E2 as <- <-. by rewrite (maps_fun s' m' m2).
Qed.

Definition svr (n : Z) : ip_addr_t := mk_ip_addr AF_INET 902 2 0 (le32 n ++ replicate 12 0%Z).

(** Networks 5 and 70 share no list with each other; 5 is moved to another
    server, 70 is forgotten, 71 was never known. *)
Definition sample_ops : list vop :=
  [Op_add 5 (svr 1); Op_add 70 (svr 2); Op_add 5 (svr 3); Op_search 5 (svr 0);
   Op_del 70 (svr 1); Op_del 70 (svr 2); Op_find 71 (svr 0); Op_del2 5; Op_find 5 (svr 0)].

Example vnid_map_refines_witness :
  (Forall op_ok sample_ops /\ 2 * length sample_ops <= 18) /\
  exists s rs s' m',
    dps_vnid_node_mapping_table_init true dps_vnid_node_mapping_table = Done (DPS_SUCCESS, s) /\
    run_vops (fun _ => true) 18 sample_ops s = Done (rs, s') /\
    vsteps true ∅ sample_ops rs m' /\ maps s' m' /\
    ((forall n, (fun _ : nat => true) n = true) -> vsteps false ∅ sample_ops rs m').
Proof.
  assert (Forall op_ok sample_ops) as H by (repeat constructor; vm_compute; congruence).
  split; [split; [exact H | vm_compute; lia]|].
  apply (vnid_map_refines (fun _ => true) sample_ops 18); [exact H | vm_compute; lia].
Defined.

Example sample_results :
  (let* (_, s) := dps_vnid_node_mapping_table_init true dps_vnid_node_mapping_table in
   let* (rs, _) := run_vops (fun _ => true) 18 sample_ops s in Done rs) =
  Done [R_status 0; R_status 0; R_status 0; R_addr 0 (svr 3); R_status DPS_ERROR; R_status 0;
        R_addr 0 (svr 3); R_status 0; R_addr DPS_ERROR (svr 0)].
Proof. vm_compute. reflexivity. Qed.

(** Destroying the table returns every allocation made in its life: no
    entry, no address and no node is left, whatever was done in between, and
    the table can be set up again. *)
Theorem vnid_table_freed (malloc_ok : nat -> bool) (ops : list vop) (fuel : nat) :
  Forall op_ok ops -> 2 * length ops <= fuel ->
  exists rs s, table_life malloc_ok fuel ops dps_vnid_node_mapping_table = Done (rs, s) /\
    vt_entries s = ∅ /\ vt_addrs s = ∅ /\ hl_nodes (vt_lists s) = ∅ /\
    exists s', dps_vnid_node_mapping_table_init true s = Done (DPS_SUCCESS, s') /\ maps s' ∅.
Proof.
  intros Hops Hf. unfold table_life. destruct init_maps as (s & -> & HR & Hn). cbn [obind].
  destruct (run_vops_spec malloc_ok true ltac:(done) ops fuel s ∅ HR vnids_empty Hops ltac:(lia))
    as (rs & s1 & m1 & -> & _ & HR1 & Hn1). cbn [obind].
  destruct (clean_spec fuel s1 m1 HR1 Hn1) as (s2 & -> & Hv & _). cbn [obind].
  exists rs, s2. pose proof Hv as [_ Hnodes Hent Hadd]. split_and!; try done.
  destruct (init_spec s2 Hv) as (s3 & E & HR3 & _). by exists s3.
Qed.

Example vnid_table_freed_witness :
  (Forall op_ok sample_ops /\ 2 * length sample_ops <= 18) /\
  exists rs s, table_life (fun n => Nat.even n) 18 sample_ops dps_vnid_node_mapping_table
      = Done (rs, s) /\
    vt_entries s = ∅ /\ vt_addrs s = ∅ /\ hl_nodes (vt_lists s) = ∅ /\
    exists s', dps_vnid_node_mapping_table_init true s = Done (DPS_SUCCESS, s') /\ maps s' ∅.
Proof.
  assert (Forall op_ok sample_ops) as H by (repeat constructor; vm_compute; congruence).
  split; [split; [exact H | vm_compute; lia]|].
  apply (vnid_table_freed (fun n => Nat.even n) sample_ops 18); [exact H | vm_compute; lia].
Defined.

(** ** Forgetting a server *)
Lemma forget_lookup node id m v :
  forget node id m !! v = if decide (v = id /\ served_by m id node = true) then None else m !! v.
Proof.
  unfold forget. destruct (decide (v = id)) as [->|Hv].
  - destruct (served_by m id node); [|by rewrite decide_False by naive_solver].
    rewrite decide_True by done. apply lookup_delete_eq.
  - rewrite decide_False by naive_solver. destruct (served_by m id node); [|done].
    by rewrite lookup_delete_ne.
Qed.

Lemma forget_range_lookup node v : forall n i m,
  foldl (fun m i => forget node (Z.of_nat i) m) m (seq i n) !! v =
  if decide ((Z.of_nat i <= v < Z.of_nat (i + n))%Z /\ served_by m v node = true)
  then None else m !! v.
Proof.
  induction n as [|n IH]; intros i m; simpl; [by rewrite decide_False by lia|].
  rewrite IH. destruct (decide (v = Z.of_nat i)) as [->|Hv].
  - rewrite decide_False by lia. rewrite forget_lookup.
    destruct (served_by m (Z.of_nat i) node) eqn:Es;
      [rewrite !decide_True by (auto; lia); done | rewrite !decide_False by naive_solver; done].
  - assert (forget node (Z.of_nat i) m !! v = m !! v) as Ev
      by (rewrite forget_lookup, decide_False by naive_solver; done).
    unfold served_by. rewrite Ev. repeat case_decide; try done; naive_solver lia.
Qed.

(** Purging a server that is gone forgets it for the networks 0 to 63 and
    for no other: a network with a larger identifier keeps the dead server. *)
Theorem del_dup_incomplete (fuel : nat) (node : ip_addr_t) (s : vtable) (m : gmap Z ip_addr_t) :
  maps s m -> vt_mallocs s <= fuel ->
  exists s' m', dps_vnid_node_mapping_del_dup_node fuel node s = Done s' /\ maps s' m' /\
    (forall v, (0 <= v < 64)%Z ->
       m' !! v = if served_by m v node then None else m !! v) /\
    (forall v, (64 <= v)%Z -> m' !! v = m !! v).
Proof.
  intros HR Hf. destruct (del_dup_spec fuel node s m HR Hf) as (s' & E & HR' & _).
  exists s', (forget_first node m). split_and!; try done.
  - intros v Hv. unfold forget_first. rewrite forget_range_lookup.
    destruct (served_by m v node); [by rewrite decide_True by (unfold TABLE_SIZE; split; [lia|done])|].
    by rewrite decide_False by naive_solver.
  - intros v Hv. unfold forget_first. rewrite forget_range_lookup.
    by rewrite decide_False by (unfold TABLE_SIZE; intros [? _]; lia).
Qed.

(** Server 1 serves networks 5 and 70. *)
Definition two_networks : out vtable :=
  let* (_, s) := dps_vnid_node_mapping_table_init true dps_vnid_node_mapping_table in
  let* (_, s) := run_vops (fun _ => true) 4 [Op_add 5 (svr 1); Op_add 70 (svr 1)] s in Done s.

Lemma two_networks_maps :
  exists s, two_networks = Done s /\ maps s (<[70%Z := svr 1]> (<[5%Z := svr 1]> ∅)) /\
    vt_mallocs s <= 4.
Proof.
  unfold two_networks. destruct init_maps as (s & -> & HR & Hn). cbn [obind].
  destruct (run_vops_spec (fun _ => true) false (fun _ _ => eq_refl)
    [Op_add 5 (svr 1); Op_add 70 (svr 1)] 4 s ∅ HR vnids_empty) as (rs & s' & m' & -> & Hst & HR' & Hn').
  { repeat constructor; vm_compute; congruence. }
  { rewrite Hn. done. }
  cbn [obind]. exists s'. split; [done|]. split; [|done].
  inversion Hst as [|? ? ? ? ? ? ? H1 H2]; subst. inversion H1; subst; [|done].
  inversion H2 as [|? ? ? ? ? ? ? H3 H4]; subst. inversion H3; subst; [|done].
  by inversion H4; subst.
Qed.

Example del_dup_incomplete_witness :
  exists s, two_networks = Done s /\ exists s' m',
    dps_vnid_node_mapping_del_dup_node 4 (svr 1) s = Done s' /\ maps s' m' /\
    m' !! 5%Z = None /\ m' !! 70%Z = Some (svr 1).
Proof.
  destruct two_networks_maps as (s & Es & HR & Hn). exists s. split; [exact Es|].
  destruct (del_dup_incomplete 4 (svr 1) s _ HR Hn) as (s' & m' & E & HR' & Hlow & Hhigh).
  exists s', m'. split; [exact E|]. split; [exact HR'|]. split.
  - rewrite (Hlow 5%Z) by lia. vm_compute. reflexivity.
  - rewrite (Hhigh 70%Z) by lia. vm_compute. reflexivity.
Defined.
