(* ===== verification/FdProcess.v ===== *)
(** * The file descriptor loop: [fd_process.c]

    A fixed array of descriptors is polled; each has a callback.  The first
    descriptor is the reading end of a pipe whose only use is to wake the loop
    when the array changes. *)
From S2P Require Export Prelude.

(** ** Constants *)
Definition DOVE_STATUS_OK : Z := 0.
Definition DOVE_STATUS_NO_RESOURCES : Z := 4.
Definition DOVE_STATUS_INVALID_PARAMETER : Z := 7.
Definition DOVE_STATUS_INVALID_FD : Z := 1.
Definition DOVE_STATUS_EXISTS : Z := 10.
Definition DOVE_STATUS_INTERRUPT : Z := 13.
(** [POLLIN | POLLPRI | POLLERR | POLLNVAL | POLLHUP] *)
Definition poll_event : Z := 59.
Definition CORE_API_P1_POLL_FD_MAX : nat := 5.
Definition POLL_DUMMY_FD_INDEX : nat := 0.

(** ** State *)
Record pollfd := mk_pollfd { pf_fd : Z; pf_events : Z; pf_revents : Z }.

(** A routine of another module is known by a number. *)
Inductive poll_callback := Cb_null | Cb_dummy | Cb (routine : Z).
Record fd_process_poll_callback_t := mk_poll_cb {
  poll_callback_routine : poll_callback; cb_context : Z }.

(** [fp_pipe] is the number of bytes in the pipe, which does not fill up. *)
Record fd_process := mk_fd_process {
  pfd : list pollfd; poll_callback_array : list fd_process_poll_callback_t;
  fd_count_total : Z; fd_poll_dummy : Z * Z; fp_pipe : nat }.

(** The static data of the module when the program starts. *)
Definition fd_process0 : fd_process :=
  mk_fd_process (replicate CORE_API_P1_POLL_FD_MAX (mk_pollfd 0 0 0))
    (replicate CORE_API_P1_POLL_FD_MAX (mk_poll_cb Cb_null 0)) 0 (-1, -1)%Z 0.

(** ** Arrays *)
Definition at_ {A} (l : list A) (i : Z) : out A :=
  if (i <? 0)%Z then Fault else of_option (l !! Z.to_nat i).
Definition set_pfd (i : Z) (p : pollfd) (s : fd_process) : out fd_process :=
  let* _ := at_ (pfd s) i in
  Done (mk_fd_process (<[Z.to_nat i := p]> (pfd s)) (poll_callback_array s) (fd_count_total s)
          (fd_poll_dummy s) (fp_pipe s)).
Definition set_cb (i : Z) (c : fd_process_poll_callback_t) (s : fd_process) : out fd_process :=
  let* _ := at_ (poll_callback_array s) i in
  Done (mk_fd_process (pfd s) (<[Z.to_nat i := c]> (poll_callback_array s)) (fd_count_total s)
          (fd_poll_dummy s) (fp_pipe s)).
Definition set_count (n : Z) (s : fd_process) : fd_process :=
  mk_fd_process (pfd s) (poll_callback_array s) n (fd_poll_dummy s) (fp_pipe s).

(** ** The pipe *)
Definition wake_up (s : fd_process) : fd_process :=
  if (0 <=? (fd_poll_dummy s).2)%Z
  then mk_fd_process (pfd s) (poll_callback_array s) (fd_count_total s) (fd_poll_dummy s)
         (S (fp_pipe s))
  else s.
Definition poll_dummy_info_process (fd : Z) (s : fd_process) : Z * fd_process :=
  if (0 <=? fd)%Z
  then (0%Z, mk_fd_process (pfd s) (poll_callback_array s) (fd_count_total s) (fd_poll_dummy s)
               (pred (fp_pipe s)))
  else (0%Z, s).

(** ** Set-up

    [pipe] is what [pipe(2)] answers, [fcntl n] whether the [n]-th call of
    [fcntl] succeeds. *)
Definition poll_array_init (pipe : option (Z * Z)) (fcntl : nat -> bool) (s : fd_process)
  : Z * fd_process :=
  let p := replicate CORE_API_P1_POLL_FD_MAX (mk_pollfd (-1) poll_event 0) in
  let c := replicate CORE_API_P1_POLL_FD_MAX (mk_poll_cb Cb_null 0) in
  match pipe with
  | None => (DOVE_STATUS_INVALID_FD, mk_fd_process p c (fd_count_total s) (fd_poll_dummy s) (fp_pipe s))
  | Some (r, w) =>
      if fcntl 0 && fcntl 1 then
        (DOVE_STATUS_OK,
         mk_fd_process (<[POLL_DUMMY_FD_INDEX := mk_pollfd r poll_event 0]> p)
           (<[POLL_DUMMY_FD_INDEX := mk_poll_cb Cb_dummy 0]> c) 1 (r, w) 0)
      else (DOVE_STATUS_INVALID_FD, mk_fd_process p c (fd_count_total s) (r, w) 0)
  end.
Definition fd_process_init (pipe : option (Z * Z)) (fcntl : nat -> bool) (s : fd_process)
  : Z * fd_process := poll_array_init pipe fcntl s.

(** ** Adding a descriptor *)
Fixpoint add_from (n : nat) (i : Z) (fd : Z) (cb : fd_process_poll_callback_t) (s : fd_process)
  : out (Z * fd_process) :=
  match n with
  | 0 => Done (DOVE_STATUS_NO_RESOURCES, s)
  | S n =>
      let* p := at_ (pfd s) i in
      if (0 <=? pf_fd p)%Z then add_from n (i + 1) fd cb s
      else if (pf_fd p =? fd)%Z then Done (DOVE_STATUS_EXISTS, s)
      else
        let* s := set_pfd i (mk_pollfd fd poll_event (pf_revents p)) s in
        let* s := set_cb i cb s in
        Done (DOVE_STATUS_OK, set_count (fd_count_total s + 1) s)
  end.
Definition fd_process_add_fd (fd : Z) (callback : poll_callback) (context : Z) (s : fd_process)
  : out (Z * fd_process) :=
  if (fd <? 0)%Z then Done (DOVE_STATUS_INVALID_PARAMETER, s)
  else
    match callback with
    | Cb_null => Done (DOVE_STATUS_INVALID_PARAMETER, s)
    | _ =>
        let* (status, s) :=
          add_from CORE_API_P1_POLL_FD_MAX 0 fd (mk_poll_cb callback context) s in
        if (status =? DOVE_STATUS_OK)%Z then Done (status, wake_up s) else Done (status, s)
    end.

(** ** Removing a descriptor: the last one takes its place *)
Fixpoint del_from (n : nat) (i : Z) (fd : Z) (status : Z) (s : fd_process)
  : out (Z * fd_process) :=
  match n with
  | 0 => Done (status, s)
  | S n =>
      let* p := at_ (pfd s) i in
      if (fd =? pf_fd p)%Z then
        let* q := at_ (pfd s) (fd_count_total s - 1) in
        let* s := set_pfd i (mk_pollfd (pf_fd q) (pf_events q) (pf_revents p)) s in
        let* c := at_ (poll_callback_array s) (fd_count_total s - 1) in
        let* s := set_cb i c s in
        let s := set_count (fd_count_total s - 1) s in
        let* q := at_ (pfd s) (fd_count_total s) in
        let* s := set_pfd (fd_count_total s) (mk_pollfd (-1) (pf_events q) (pf_revents q)) s in
        let* s := set_cb (fd_count_total s) (mk_poll_cb Cb_null 0) s in
        del_from n (i + 1) fd DOVE_STATUS_OK s
      else del_from n (i + 1) fd status s
  end.
Definition fd_process_del_fd (fd : Z) (s : fd_process) : out (Z * fd_process) :=
  let* (status, s) := del_from CORE_API_P1_POLL_FD_MAX 0 fd DOVE_STATUS_NO_RESOURCES s in
  Done (status, wake_up s).

(** ** A round of the loop

    [W] is the state of the rest of the program, [call] the routines of the
    other modules: the routine, its descriptor and context; they may add and
    remove descriptors. *)
Section poll.
Context {W : Type}.
Context (call : Z -> Z -> Z -> fd_process * W -> out (Z * (fd_process * W))).

Definition invoke (c : fd_process_poll_callback_t) (fd : Z) (st : fd_process * W)
  : out (Z * (fd_process * W)) :=
  match poll_callback_routine c with
  | Cb_null => Done (0%Z, st)
  | Cb_dummy => let '(r, s) := poll_dummy_info_process fd st.1 in Done (r, (s, st.2))
  | Cb r => call r fd (cb_context c) st
  end.

Definition on_fds {A} (f : fd_process -> out (A * fd_process)) (st : fd_process * W)
  : out (A * (fd_process * W)) :=
  let* (a, s) := f st.1 in Done (a, (s, st.2)).

(** [currfd->events = e], [currfd->revents = r] *)
Definition set_events (i e : Z) (s : fd_process) : out fd_process :=
  let* p := at_ (pfd s) i in set_pfd i (mk_pollfd (pf_fd p) e (pf_revents p)) s.
Definition set_revents (i r : Z) (s : fd_process) : out fd_process :=
  let* p := at_ (pfd s) i in set_pfd i (mk_pollfd (pf_fd p) (pf_events p) r) s.

(** The first [while] loop: the descriptors that are ready.  [processed_index]
    and [count] are always the same number. *)
Fixpoint process_ready (fuel : nat) (poll_result numfds count i cont : Z) (st : fd_process * W)
  : out (Z * (fd_process * W)) :=
  if ((count <? poll_result) && (count <? numfds) && (i <? fd_count_total st.1))%Z then
    match fuel with
    | 0 => Timeout
    | S fuel =>
        let* s := set_events i poll_event st.1 in
        let* p := at_ (pfd s) i in
        if (pf_revents p =? 0)%Z
        then process_ready fuel poll_result numfds count (i + 1) cont (s, st.2)
        else
          let* c := at_ (poll_callback_array s) i in
          let* (r, st) := invoke c (pf_fd p) (s, st.2) in
          let* s := set_revents i 0 st.1 in
          process_ready fuel poll_result numfds (count + 1) (i + 1) (Z.lor cont r) (s, st.2)
    end
  else Done (cont, st).

(** The second one: every descriptor, again and again while one asks for it. *)
Fixpoint process_all (fuel : nat) (i cont : Z) (st : fd_process * W)
  : out (Z * (fd_process * W)) :=
  if (i <? fd_count_total st.1)%Z then
    match fuel with
    | 0 => Timeout
    | S fuel =>
        let* p := at_ (pfd st.1) i in
        if (pf_fd p <? 0)%Z then process_all fuel (i + 1) cont st
        else
          let* c := at_ (poll_callback_array st.1) i in
          let* (r, st) := invoke c (pf_fd p) st in
          process_all fuel (i + 1) (Z.lor cont r) st
    end
  else Done (cont, st).
Fixpoint continue_loop (fuel : nat) (cont : Z) (st : fd_process * W) : out (fd_process * W) :=
  if (cont =? 0)%Z then Done st
  else
    match fuel with
    | 0 => Timeout
    | S fuel => let* (cont, st) := process_all fuel 0 0 st in continue_loop fuel cont st
    end.

Definition poll_process_result (fuel : nat) (numfds poll_result : Z) (st : fd_process * W)
  : out (Z * (fd_process * W)) :=
  if (poll_result <? 0)%Z then Done (DOVE_STATUS_INTERRUPT, st)
  else if (poll_result =? 0)%Z then Done (DOVE_STATUS_OK, st)
  else
    let* (cont, st) := process_ready fuel poll_result numfds 0 0 0 st in
    let* st := continue_loop fuel cont st in
    Done (DOVE_STATUS_OK, st).

(** What [poll(2)] does to the descriptors: the events of each, in order. *)
Definition poll_sets (evs : list Z) (s : fd_process) : fd_process :=
  mk_fd_process
    (zip_with (fun p e => mk_pollfd (pf_fd p) (pf_events p) e) (take (length evs) (pfd s)) evs
      ++ drop (length evs) (pfd s))
    (poll_callback_array s) (fd_count_total s) (fd_poll_dummy s) (fp_pipe s).

(** The first rounds of [fd_process_start]: what [poll] answers in each of
    them, and whether the loop has been left. *)
Fixpoint fd_process_start (fuel : nat) (polls : list (Z * list Z)) (st : fd_process * W)
  : out (bool * (fd_process * W)) :=
  match polls with
  | [] => Done (false, st)
  | (poll_result, evs) :: polls =>
      if (fd_count_total st.1 =? 0)%Z then Done (true, st)
      else
        let numfds := fd_count_total st.1 in
        let* (_, st) := poll_process_result fuel numfds poll_result (poll_sets evs st.1, st.2) in
        fd_process_start fuel polls st
  end.
End poll.
