(* ===== verification/FdLoop.v ===== *)
(** * Properties of the file descriptor loop

    [fds s l]: the first slots hold the registrations [l], the others are
    free. *)
From stdpp Require Import list.
From S2P Require Export FdProcess.

Abbreviation reg := (Z * fd_process_poll_callback_t)%type.

Record fds (s : fd_process) (l : list reg) : Prop := {
  fd_len : length (pfd s) = CORE_API_P1_POLL_FD_MAX;
  fd_cbs : length (poll_callback_array s) = CORE_API_P1_POLL_FD_MAX;
  fd_count : fd_count_total s = Z.of_nat (length l);
  fd_cap : length l <= CORE_API_P1_POLL_FD_MAX;
  fd_used i r : l !! i = Some r -> exists ev rev, pfd s !! i = Some (mk_pollfd r.1 ev rev) /\
    poll_callback_array s !! i = Some r.2 /\ (0 <= r.1)%Z;
  fd_free i : length l <= i < CORE_API_P1_POLL_FD_MAX ->
    exists ev rev, pfd s !! i = Some (mk_pollfd (-1) ev rev)
}.

Lemma at_nat {A} (l : list A) i x : l !! i = Some x -> at_ l (Z.of_nat i) = Done x.
Proof.
  intros E. unfold at_. rewrite Nat2Z.id, E. by destruct (Z.ltb_spec (Z.of_nat i) 0); [lia|].
Qed.

Lemma set_pfd_nat i p q s :
  pfd s !! i = Some q ->
  set_pfd (Z.of_nat i) p s = Done (mk_fd_process (<[i := p]> (pfd s)) (poll_callback_array s)
    (fd_count_total s) (fd_poll_dummy s) (fp_pipe s)).
Proof. intros E. unfold set_pfd. by rewrite (at_nat _ _ _ E), Nat2Z.id. Qed.

Lemma set_cb_nat i c d s :
  poll_callback_array s !! i = Some d ->
  set_cb (Z.of_nat i) c s = Done (mk_fd_process (pfd s) (<[i := c]> (poll_callback_array s))
    (fd_count_total s) (fd_poll_dummy s) (fp_pipe s)).
Proof. intros E. unfold set_cb. by rewrite (at_nat _ _ _ E), Nat2Z.id. Qed.

Lemma slot_cb s l i : fds s l -> i < CORE_API_P1_POLL_FD_MAX ->
  exists c, poll_callback_array s !! i = Some c.
Proof. intros H Hi. apply lookup_lt_is_Some_2. rewrite (fd_cbs _ _ H). lia. Qed.

Lemma fds_wake s l : fds s l -> fds (wake_up s) l.
Proof. intros H. unfold wake_up. destruct (0 <=? _)%Z; [|done]. by destruct H; split. Qed.

(** ** Set-up *)
Lemma init_fds r w s :
  (0 <= r)%Z -> exists s', fd_process_init (Some (r, w)) (fun _ => true) s = (DOVE_STATUS_OK, s') /\
    fds s' [(r, mk_poll_cb Cb_dummy 0)].
Proof.
  intros Hr. eexists. split; [done|]. split; simpl; try done; try (unfold CORE_API_P1_POLL_FD_MAX; lia).
  - intros i x Hi. destruct i as [|i]; [|done]. injection Hi as <-. simpl. eauto 10.
  - unfold CORE_API_P1_POLL_FD_MAX. intros i [H1 H2].
    destruct i as [|[|[|[|[|i]]]]]; simpl; [lia | by eauto.. | lia].
Qed.

(** ** Adding *)
Lemma add_from_spec fd cb l : forall n i s,
  fds s l -> i + n = CORE_API_P1_POLL_FD_MAX -> i <= length l -> (0 <= fd)%Z ->
  exists s', add_from n (Z.of_nat i) fd cb s =
    Done (if decide (length l < CORE_API_P1_POLL_FD_MAX) then DOVE_STATUS_OK
          else DOVE_STATUS_NO_RESOURCES, s') /\
    fds s' (if decide (length l < CORE_API_P1_POLL_FD_MAX) then l ++ [(fd, cb)] else l).
Proof.
  induction n as [|n IH]; intros i s H Hi Hl Hfd.
  - exists s. pose proof (fd_cap _ _ H). rewrite !decide_False by lia. done.
  - cbn [add_from]. destruct (decide (i < length l)) as [Hlt|Hge].
    + destruct (lookup_lt_is_Some_2 l i Hlt) as [r Er].
      destruct (fd_used _ _ H i r Er) as (ev & rev & Ep & _ & Hr).
      rewrite (at_nat _ _ _ Ep). cbn [obind pf_fd]. rewrite (proj2 (Z.leb_le _ _) Hr).
      replace (Z.of_nat i + 1)%Z with (Z.of_nat (S i)) by lia. apply IH; auto; lia.
    + assert (i = length l) as -> by lia.
      destruct (fd_free _ _ H (length l)) as (ev & rev & Ep); [lia|].
      destruct (slot_cb _ _ (length l) H ltac:(lia)) as [c Ec].
      rewrite (at_nat _ _ _ Ep). cbn [obind pf_fd Z.leb Z.compare].
      rewrite (proj2 (Z.eqb_neq (-1) fd)) by lia. rewrite (set_pfd_nat _ _ _ _ Ep). cbn [obind].
      rewrite (set_cb_nat _ _ c) by done. cbn [obind]. rewrite !decide_True by lia.
      eexists. split; [done|]. destruct H. split; simpl.
      * by rewrite length_insert.
      * by rewrite length_insert.
      * rewrite length_app. simpl. lia.
      * rewrite length_app. simpl. lia.
      * intros j r Hj. destruct (decide (j = length l)) as [->|Hne].
        -- rewrite list_lookup_middle in Hj by done. injection Hj as <-.
           rewrite (list_lookup_insert_eq (pfd s)), (list_lookup_insert_eq (poll_callback_array s))
             by lia. simpl. eauto 10.
        -- rewrite lookup_app_l in Hj.
           2: { apply lookup_lt_Some in Hj. rewrite length_app in Hj. simpl in Hj. lia. }
           rewrite !list_lookup_insert_ne by done. by apply fd_used0.
      * intros j Hj. rewrite length_app in Hj. simpl in Hj.
        rewrite list_lookup_insert_ne by lia. apply fd_free0. lia.
Qed.

(** What the caller is told, and the registrations after it. *)
Definition reg_add (fd : Z) (callback : poll_callback) (context : Z) (l : list reg)
  : Z * list reg :=
  if (fd <? 0)%Z then (DOVE_STATUS_INVALID_PARAMETER, l)
  else
    match callback with
    | Cb_null => (DOVE_STATUS_INVALID_PARAMETER, l)
    | _ => if decide (length l < CORE_API_P1_POLL_FD_MAX)
           then (DOVE_STATUS_OK, l ++ [(fd, mk_poll_cb callback context)])
           else (DOVE_STATUS_NO_RESOURCES, l)
    end.

Lemma add_fd_spec fd callback context s l :
  fds s l ->
  exists s', fd_process_add_fd fd callback context s =
    Done ((reg_add fd callback context l).1, s') /\ fds s' (reg_add fd callback context l).2.
Proof.
  intros H. unfold fd_process_add_fd, reg_add. destruct (Z.ltb_spec fd 0); [by exists s|].
  destruct callback as [| |r]; [by exists s| |];
    match goal with |- context [mk_poll_cb ?cb context] =>
      destruct (add_from_spec fd (mk_poll_cb cb context) l CORE_API_P1_POLL_FD_MAX 0 s H eq_refl
        ltac:(lia) ltac:(lia)) as (s' & E & H') end;
    change (Z.of_nat 0) with 0%Z in E; rewrite E; cbn [obind];
    destruct (decide _); (eexists; split; [done|]); cbn [snd]; first [by apply fds_wake | done].
Qed.

(** ** Removing *)

(** Element [i] replaced by the last one. *)
Definition remove_at (i : nat) (l : list reg) : list reg :=
  match l !! (length l - 1) with
  | Some x => take (length l - 1) (<[i := x]> l)
  | None => l
  end.

Lemma remove_at_app a r b :
  remove_at (length a) (a ++ r :: b) =
  match b with [] => a | _ => a ++ List.last b r :: removelast b end.
Proof.
  unfold remove_at. rewrite length_app. simpl.
  replace (length a + S (length b) - 1) with (length a + length b) by lia.
  rewrite lookup_app_r by lia. replace (length a + length b - length a) with (length b) by lia.
  destruct b as [|z b _] using rev_ind.
  - simpl. rewrite insert_app_r_alt, Nat.sub_diag by lia. simpl.
    rewrite take_app_le, take_ge by lia. done.
  - rewrite length_app. simpl. replace (length b + 1) with (S (length b)) by lia. simpl.
    rewrite lookup_app_r, Nat.sub_diag by lia. simpl.
    rewrite insert_app_r_alt, Nat.sub_diag by lia. simpl.
    replace (length a + S (length b)) with (length (a ++ z :: b)) by (rewrite length_app; simpl; lia).
    replace (a ++ z :: b ++ [z]) with ((a ++ z :: b) ++ [z]) by (by rewrite <- app_assoc).
    rewrite take_app_length, List.last_last, removelast_last. by destruct b.
Qed.

Lemma length_remove_at i l : length (remove_at i l) = length l - 1.
Proof.
  unfold remove_at. destruct (l !! (length l - 1)) eqn:E.
  - rewrite length_take, length_insert. lia.
  - apply lookup_ge_None_1 in E. destruct l; simpl in *; lia.
Qed.

(** One removal in the loop. *)
Lemma del_step fd i r l s n status :
  fds s l -> l !! i = Some r -> r.1 = fd ->
  exists s', del_from (S n) (Z.of_nat i) fd status s =
    del_from n (Z.of_nat (S i)) fd DOVE_STATUS_OK s' /\ fds s' (remove_at i l).
Proof.
  intros H Ei <-. pose proof (lookup_lt_Some _ _ _ Ei) as Hi. pose proof (fd_cap _ _ H) as Hc.
  destruct (fd_used _ _ H i r Ei) as (ev & rev & Ep & Ec & Hr).
  destruct (lookup_lt_is_Some_2 l (length l - 1) ltac:(lia)) as [x Ex].
  destruct (fd_used _ _ H _ x Ex) as (ev2 & rev2 & Ep2 & Ec2 & Hx).
  cbn [del_from]. rewrite (at_nat _ _ _ Ep). cbn [obind pf_fd]. rewrite Z.eqb_refl.
  rewrite (fd_count _ _ H). replace (Z.of_nat (length l) - 1)%Z with (Z.of_nat (length l - 1)) by lia.
  rewrite (at_nat _ _ _ Ep2). cbn [obind]. rewrite (set_pfd_nat _ _ _ _ Ep). cbn [obind].
  cbn [poll_callback_array fd_count_total]. rewrite (fd_count _ _ H).
  replace (Z.of_nat (length l) - 1)%Z with (Z.of_nat (length l - 1)) by lia.
  rewrite (at_nat _ _ _ Ec2). cbn [obind]. rewrite (set_cb_nat _ _ r.2) by done. cbn [obind].
  cbn [set_count fd_count_total pfd poll_callback_array fd_poll_dummy fp_pipe].
  rewrite ?(fd_count _ _ H).
  replace (Z.of_nat (length l) - 1)%Z with (Z.of_nat (length l - 1)) by lia.
  cbn [pf_fd pf_events pf_revents].
  destruct (lookup_lt_is_Some_2 (<[i := mk_pollfd x.1 ev2 rev]> (pfd s)) (length l - 1))
    as [q Eq]; [rewrite length_insert, (fd_len _ _ H); lia|].
  rewrite (at_nat _ _ _ Eq). cbn [obind]. rewrite (set_pfd_nat _ _ q) by exact Eq. cbn [obind].
  destruct (lookup_lt_is_Some_2 (<[i := x.2]> (poll_callback_array s)) (length l - 1))
    as [c Ec']; [rewrite length_insert, (fd_cbs _ _ H); lia|].
  cbn [set_count fd_count_total pfd poll_callback_array fd_poll_dummy fp_pipe].
  rewrite ?(fd_count _ _ H).
  replace (Z.of_nat (length l) - 1)%Z with (Z.of_nat (length l - 1)) by lia.
  rewrite (set_cb_nat _ _ c) by exact Ec'. cbn [obind].
  replace (Z.of_nat i + 1)%Z with (Z.of_nat (S i)) by lia. eexists. split; [done|].
  destruct H. split; simpl; rewrite ?length_remove_at, ?length_insert; try done; try lia.
  - intros j y Hy. pose proof (lookup_lt_Some _ _ _ Hy) as Hj. rewrite length_remove_at in Hj.
    unfold remove_at in Hy. rewrite Ex, lookup_take_lt in Hy by lia.
    rewrite !(list_lookup_insert_ne _ (length l - 1)) by lia.
    destruct (decide (j = i)) as [->|Hne].
    + rewrite list_lookup_insert_eq in Hy by done. injection Hy as <-.
      rewrite !list_lookup_insert_eq by lia. eauto.
    + rewrite list_lookup_insert_ne in Hy by done. rewrite !list_lookup_insert_ne by done.
      by apply fd_used0.
  - intros j Hj. destruct (decide (j = length l - 1)) as [->|Hne].
    + rewrite list_lookup_insert_eq by (rewrite length_insert; lia). eauto.
    + rewrite !list_lookup_insert_ne by lia. apply fd_free0. lia.
Qed.

(** The loop of [fd_process_del_fd] on the registrations. *)
Fixpoint reg_del_from (n i : nat) (fd status : Z) (l : list reg) : Z * list reg :=
  match n with
  | 0 => (status, l)
  | S n =>
      match l !! i with
      | Some r =>
          if decide (r.1 = fd) then reg_del_from n (S i) fd DOVE_STATUS_OK (remove_at i l)
          else reg_del_from n (S i) fd status l
      | None => reg_del_from n (S i) fd status l
      end
  end.
Definition reg_del (fd : Z) (l : list reg) : Z * list reg :=
  reg_del_from CORE_API_P1_POLL_FD_MAX 0 fd DOVE_STATUS_NO_RESOURCES l.

Lemma del_from_spec fd : (0 <= fd)%Z -> forall n i status l s,
  fds s l -> i + n = CORE_API_P1_POLL_FD_MAX ->
  exists s', del_from n (Z.of_nat i) fd status s = Done ((reg_del_from n i fd status l).1, s') /\
    fds s' (reg_del_from n i fd status l).2.
Proof.
  intros Hfd. induction n as [|n IH]; intros i status l s H Hi; [by exists s|].
  cbn [reg_del_from]. destruct (l !! i) as [r|] eqn:Ei.
  - destruct (decide (r.1 = fd)) as [Hr|Hr].
    + destruct (del_step fd i r l s n status H Ei Hr) as (s1 & -> & H1). apply IH; [done | lia].
    + destruct (fd_used _ _ H i r Ei) as (ev & rev & Ep & _ & _). cbn [del_from].
      rewrite (at_nat _ _ _ Ep). cbn [obind pf_fd]. rewrite (proj2 (Z.eqb_neq fd r.1)) by done.
      replace (Z.of_nat i + 1)%Z with (Z.of_nat (S i)) by lia. apply IH; [done | lia].
  - apply lookup_ge_None_1 in Ei. destruct (fd_free _ _ H i ltac:(lia)) as (ev & rev & Ep).
    cbn [del_from]. rewrite (at_nat _ _ _ Ep). cbn [obind pf_fd].
    rewrite (proj2 (Z.eqb_neq fd (-1))) by lia.
    replace (Z.of_nat i + 1)%Z with (Z.of_nat (S i)) by lia. apply IH; [done | lia].
Qed.

Lemma del_fd_spec fd s l :
  fds s l -> (0 <= fd)%Z ->
  exists s', fd_process_del_fd fd s = Done ((reg_del fd l).1, s') /\ fds s' (reg_del fd l).2.
Proof.
  intros H Hfd. unfold fd_process_del_fd.
  destruct (del_from_spec fd Hfd CORE_API_P1_POLL_FD_MAX 0 DOVE_STATUS_NO_RESOURCES l s H eq_refl)
    as (s' & E & H'). change (Z.of_nat 0) with 0%Z in E. rewrite E. cbn [obind].
  eexists. split; [done|]. by apply fds_wake.
Qed.

(** A descriptor that is not registered. *)
Lemma reg_del_absent fd status l : forall n i,
  fd ∉ l.*1 -> reg_del_from n i fd status l = (status, l).
Proof.
  induction n as [|n IH]; intros i H; [done|]. simpl. destruct (l !! i) as [r|] eqn:Ei; [|by apply IH].
  rewrite decide_False; [by apply IH|]. intros <-. apply H. apply list_elem_of_fmap. exists r.
  split; [done|]. by eapply list_elem_of_lookup_2.
Qed.

Lemma remove_at_perm a r b : remove_at (length a) (a ++ r :: b) ≡ₚ a ++ b.
Proof.
  rewrite remove_at_app. destruct b as [|z b _] using rev_ind; [by rewrite app_nil_r|].
  rewrite List.last_last, removelast_last. destruct (b ++ [z]) eqn:E; [by destruct b|].
  rewrite <- E. apply Permutation_app_head. rewrite Permutation_app_comm. done.
Qed.

(** The one registration of a descriptor is removed, no other. *)
Lemma reg_del_present fd c a b : forall n i status,
  fd ∉ a.*1 -> fd ∉ b.*1 -> i <= length a < i + n ->
  reg_del_from n i fd status (a ++ (fd, c) :: b) =
  (DOVE_STATUS_OK, remove_at (length a) (a ++ (fd, c) :: b)).
Proof.
  induction n as [|n IH]; intros i status Ha Hb Hi; [lia|]. simpl.
  destruct (decide (i = length a)) as [->|Hne].
  - rewrite lookup_app_r, Nat.sub_diag by lia. simpl. rewrite decide_True by done.
    apply reg_del_absent. intros H. rewrite remove_at_perm, fmap_app in H.
    apply elem_of_app in H as [H|H]; done.
  - destruct (lookup_lt_is_Some_2 a i ltac:(lia)) as [r Er].
    rewrite lookup_app_l, Er by lia. rewrite decide_False.
    + apply IH; auto; lia.
    + intros <-. apply Ha, list_elem_of_fmap. exists r. split; [done|].
      by eapply list_elem_of_lookup_2.
Qed.

(** ** Any sequence of registrations *)
Inductive fop :=
| F_add (fd : Z) (callback : poll_callback) (context : Z)
| F_del (fd : Z).

Definition fop_ok (o : fop) : Prop := match o with F_del fd => (0 <= fd)%Z | _ => True end.

Definition run_fop (o : fop) (s : fd_process) : out (Z * fd_process) :=
  match o with
  | F_add fd cb ctx => fd_process_add_fd fd cb ctx s
  | F_del fd => fd_process_del_fd fd s
  end.
Definition reg_fop (o : fop) (l : list reg) : Z * list reg :=
  match o with
  | F_add fd cb ctx => reg_add fd cb ctx l
  | F_del fd => reg_del fd l
  end.

Fixpoint run_fops (os : list fop) (s : fd_process) : out (list Z * fd_process) :=
  match os with
  | [] => Done ([], s)
  | o :: os =>
      let* (st, s) := run_fop o s in
      let* (sts, s) := run_fops os s in
      Done (st :: sts, s)
  end.
Fixpoint reg_fops (os : list fop) (l : list reg) : list Z * list reg :=
  match os with
  | [] => ([], l)
  | o :: os =>
      let '(st, l) := reg_fop o l in
      let '(sts, l) := reg_fops os l in
      (st :: sts, l)
  end.

Lemma run_fops_spec : forall os s l,
  fds s l -> Forall fop_ok os ->
  exists s', run_fops os s = Done ((reg_fops os l).1, s') /\ fds s' (reg_fops os l).2.
Proof.
  induction os as [|o os IH]; intros s l H Ho; [by exists s|].
  inversion Ho as [|? ? Hok Hos]; subst. cbn [run_fops reg_fops].
  assert (exists s1, run_fop o s = Done ((reg_fop o l).1, s1) /\ fds s1 (reg_fop o l).2)
    as (s1 & -> & H1) by (destruct o; [by apply add_fd_spec | by apply del_fd_spec]).
  cbn [obind]. destruct (reg_fop o l) as [st l1]. cbn [fst snd] in *.
  destruct (IH s1 l1 H1 Hos) as (s2 & -> & H2). cbn [obind].
  destruct (reg_fops os l1) as [sts l2]. by exists s2.
Qed.

(** The loop after its set-up: the reading end of the pipe is registered. *)
Definition dummy_reg (r : Z) : reg := (r, mk_poll_cb Cb_dummy 0).

(** C30. After its set-up the array of descriptors answers any sequence of
    additions, and removals of descriptors that are not negative, as the list of
    registrations does: an addition appends one while there are fewer than
    five, a removal lets the last one take the place of the one that goes, and
    what is not there is answered with [DOVE_STATUS_NO_RESOURCES].  No access is
    outside the array, the used slots are always a prefix of it and their
    number is [fd_count_total]. *)
Theorem fd_table_refines (r w : Z) (os : list fop) :
  (0 <= r)%Z -> Forall fop_ok os ->
  exists s s', fd_process_init (Some (r, w)) (fun _ => true) fd_process0 = (DOVE_STATUS_OK, s) /\
    run_fops os s = Done ((reg_fops os [dummy_reg r]).1, s') /\
    fds s' (reg_fops os [dummy_reg r]).2.
Proof.
  intros Hr Ho. destruct (init_fds r w fd_process0 Hr) as (s & E & H).
  destruct (run_fops_spec os s _ H Ho) as (s' & E' & H'). eauto.
Qed.

Definition sample_fops : list fop :=
  [F_add 7 (Cb 1) 0; F_add 8 (Cb 2) 5; F_add (-1) (Cb 1) 0; F_add 9 Cb_null 0; F_del 7; F_del 7;
   F_add 10 (Cb 3) 0; F_add 11 (Cb 3) 0; F_add 12 (Cb 3) 0; F_add 13 (Cb 3) 0].

Example fd_table_refines_witness :
  ((0 <= 3)%Z /\ Forall fop_ok sample_fops) /\
  exists s s', fd_process_init (Some (3, 4)%Z) (fun _ => true) fd_process0 = (DOVE_STATUS_OK, s) /\
    run_fops sample_fops s = Done ((reg_fops sample_fops [dummy_reg 3]).1, s') /\
    fds s' (reg_fops sample_fops [dummy_reg 3]).2.
Proof.
  assert (Forall fop_ok sample_fops) as H
    by (unfold sample_fops; repeat (apply Forall_cons_2; [simpl; lia || exact I|]); apply List.Forall_nil).
  split; [split; [lia | exact H]|]. apply (fd_table_refines 3 4 sample_fops); [lia | exact H].
Defined.

Example sample_fops_result :
  reg_fops sample_fops [dummy_reg 3] =
  ([0; 0; 7; 7; 0; 4; 0; 0; 0; 4]%Z,
   [dummy_reg 3; (8%Z, mk_poll_cb (Cb 2) 5); (10%Z, mk_poll_cb (Cb 3) 0);
    (11%Z, mk_poll_cb (Cb 3) 0); (12%Z, mk_poll_cb (Cb 3) 0)]).
Proof. reflexivity. Qed.

(** Removing a descriptor that is registered once removes it and nothing
    else, and the registrations before it stay where they are; one that is not
    registered is answered with [DOVE_STATUS_NO_RESOURCES] and nothing changes. *)
Theorem fd_del_registered (fd : Z) (s : fd_process) (l : list reg) :
  fds s l -> (0 <= fd)%Z -> NoDup l.*1 ->
  (forall c a b, l = a ++ (fd, c) :: b ->
     exists s' b', fd_process_del_fd fd s = Done (DOVE_STATUS_OK, s') /\
       fds s' (a ++ b') /\ b' ≡ₚ b) /\
  (fd ∉ l.*1 -> exists s', fd_process_del_fd fd s = Done (DOVE_STATUS_NO_RESOURCES, s') /\ fds s' l).
Proof.
  intros H Hfd Hnd. destruct (del_fd_spec fd s l H Hfd) as (s' & E & H'). split.
  - intros c a b ->. rewrite fmap_app in Hnd. apply list.NoDup_app in Hnd as (_ & Hd & Hnd).
    apply list.NoDup_cons in Hnd as [Hb _].
    unfold reg_del in E, H'. pose proof (fd_cap _ _ H) as Hc. rewrite length_app in Hc. simpl in Hc.
    rewrite reg_del_present in E, H';
      [| intros Ha; apply (Hd fd Ha); by left | done | lia
       | intros Ha; apply (Hd fd Ha); by left | done | lia].
    rewrite remove_at_app in H'. destruct b as [|z b _] using rev_ind.
    + exists s', []. by rewrite app_nil_r.
    + exists s', (z :: b). rewrite List.last_last, removelast_last in H'. split_and!; [done | |].
      * by destruct (b ++ [z]) eqn:Eb; [destruct b|].
      * rewrite Permutation_app_comm. done.
  - intros Hn. unfold reg_del in E, H'. rewrite reg_del_absent in E, H' by done. eauto.
Qed.

Example fd_del_registered_witness :
  exists s, (let* (_, s) := run_fops [F_add 7 (Cb 1) 0; F_add 8 (Cb 2) 5]
               (fd_process_init (Some (3, 4)%Z) (fun _ => true) fd_process0).2 in Done s) = Done s /\
  exists s' b', fd_process_del_fd 7 s = Done (DOVE_STATUS_OK, s') /\
    fds s' ([dummy_reg 3] ++ b') /\ b' ≡ₚ [(8%Z, mk_poll_cb (Cb 2) 5)].
Proof.
  destruct (init_fds 3 4 fd_process0 ltac:(lia)) as (s0 & E0 & H0). rewrite E0.
  destruct (run_fops_spec [F_add 7 (Cb 1) 0; F_add 8 (Cb 2) 5] s0 _ H0
    ltac:(repeat constructor)) as (s & E & H).
  cbn [snd]. rewrite E. exists s. split; [reflexivity|].
  refine (proj1 (fd_del_registered 7 s _ H _ _) (mk_poll_cb (Cb 1) 0) [dummy_reg 3] _ eq_refl);
    [lia|].
  apply (bool_decide_unpack _). vm_compute. exact I.
Defined.

(** The check for a descriptor that is registered already is never
    reached: the second registration succeeds like the first and the callback
    is in the array twice. *)
Theorem fd_duplicate_accepted (fd r w context : Z) (routine : Z) :
  (0 <= fd)%Z -> (0 <= r)%Z ->
  exists s s', fd_process_init (Some (r, w)) (fun _ => true) fd_process0 = (DOVE_STATUS_OK, s) /\
    run_fops [F_add fd (Cb routine) context; F_add fd (Cb routine) context] s =
      Done ([DOVE_STATUS_OK; DOVE_STATUS_OK], s') /\
    fds s' [dummy_reg r; (fd, mk_poll_cb (Cb routine) context);
            (fd, mk_poll_cb (Cb routine) context)].
Proof.
  intros Hfd Hr. destruct (init_fds r w fd_process0 Hr) as (s & E & H). exists s.
  destruct (run_fops_spec [F_add fd (Cb routine) context; F_add fd (Cb routine) context] s _ H)
    as (s' & E' & H'); [by repeat constructor|].
  exists s'. cbn [reg_fops reg_fop] in E', H'. unfold reg_add in E', H'.
  rewrite (proj2 (Z.ltb_ge fd 0) Hfd) in E', H'.
  change (length [dummy_reg r]) with 1 in E', H'. simpl in E', H'. done.
Qed.

Example fd_duplicate_accepted_witness :
  ((0 <= 7)%Z /\ (0 <= 3)%Z) /\
  exists s s', fd_process_init (Some (3, 4)%Z) (fun _ => true) fd_process0 = (DOVE_STATUS_OK, s) /\
    run_fops [F_add 7 (Cb 1) 5; F_add 7 (Cb 1) 5] s = Done ([DOVE_STATUS_OK; DOVE_STATUS_OK], s') /\
    fds s' [dummy_reg 3; (7%Z, mk_poll_cb (Cb 1) 5); (7%Z, mk_poll_cb (Cb 1) 5)].
Proof. split; [lia|]. apply (fd_duplicate_accepted 7 3 4 5 1); lia. Defined.

(** ** What a round of the file descriptor loop calls

    A program whose routines do not change the registrations and do not ask to
    go on; [act] is what each of them does to the rest of the program. *)
Section dispatch.
Context {W : Type}.
Context (act : Z -> Z -> Z -> W -> W).

Definition acts (r fd ctx : Z) (st : fd_process * W) : out (Z * (fd_process * W)) :=
  Done (0%Z, (st.1, act r fd ctx st.2)).

(** What the callback of a registration does. *)
Definition reg_act (x : reg) (w : W) : W :=
  match poll_callback_routine x.2 with
  | Cb r => act r x.1 (cb_context x.2) w
  | _ => w
  end.

(** The registrations with an event. *)
Definition ready (l : list reg) (evs : list Z) : list reg :=
  omap (fun '(x, e) => if decide (e = 0%Z) then None else Some x) (zip l evs).

(** The events that are pending from slot [i] on. *)
Definition pending (s : fd_process) (l : list reg) (evs : list Z) (i : nat) : Prop :=
  forall j r e, i <= j -> l !! j = Some r -> evs !! j = Some e ->
    exists ev, pfd s !! j = Some (mk_pollfd r.1 ev e).

Lemma invoke_acts s l x w :
  fds s l -> (0 <= x.1)%Z ->
  exists s', invoke acts x.2 x.1 (s, w) = Done (0%Z, (s', reg_act x w)) /\ fds s' l /\
    pfd s' = pfd s.
Proof.
  intros H Hx. unfold invoke, reg_act. destruct (poll_callback_routine x.2).
  - by exists s.
  - unfold poll_dummy_info_process. cbn [fst snd]. rewrite (proj2 (Z.leb_le 0 x.1) Hx).
    eexists. split_and!; [done | by destruct H; split | done].
  - by exists s.
Qed.

(** A slot written without its descriptor being changed. *)
Lemma fds_touch s l i p ev rev :
  fds s l -> pfd s !! i = Some p ->
  fds (mk_fd_process (<[i := mk_pollfd (pf_fd p) ev rev]> (pfd s)) (poll_callback_array s)
         (fd_count_total s) (fd_poll_dummy s) (fp_pipe s)) l.
Proof.
  intros H Hp. pose proof (lookup_lt_Some _ _ _ Hp). destruct H as [Hl Hb Hn Hc fd_used0 fd_free0].
  split; simpl; rewrite ?length_insert; try done.
  - intros j r Hj. destruct (fd_used0 j r Hj) as (ev' & rev' & Ep & Ec & Hr).
    destruct (decide (j = i)) as [->|Hne].
    + rewrite Hp in Ep. injection Ep as ->. rewrite list_lookup_insert_eq by done. simpl. eauto.
    + rewrite list_lookup_insert_ne by done. eauto.
  - intros j Hj. destruct (fd_free0 j Hj) as (ev' & rev' & Ep).
    destruct (decide (j = i)) as [->|Hne].
    + rewrite Hp in Ep. injection Ep as ->. rewrite list_lookup_insert_eq by done. simpl. eauto.
    + rewrite list_lookup_insert_ne by done. eauto.
Qed.

Lemma process_ready_spec k l evs : length evs = length l ->
  forall fuel i count s w,
  fds s l -> pending s l evs i -> i <= length l -> length l - i <= fuel ->
  (0 <= count <= Z.of_nat i)%Z ->
  exists s', process_ready acts fuel k (Z.of_nat (length l)) count (Z.of_nat i) 0 (s, w) =
    Done (0%Z, (s', foldl (fun w x => reg_act x w) w
                      (take (Z.to_nat (k - count)) (ready (drop i l) (drop i evs))))) /\
    fds s' l.
Proof.
  intros Hlen. induction fuel as [|fuel IH]; intros i count s w H Hpend Hi Hf Hc;
    cbn [process_ready fst snd]; rewrite (fd_count _ _ H).
  - assert (i = length l) as -> by lia. rewrite Z.ltb_irrefl, andb_false_r.
    rewrite (drop_ge l) by lia. unfold ready. simpl. rewrite take_nil. by exists s.
  - destruct (Z.ltb_spec count k) as [Hk|Hk]; cbn [andb].
    2: { exists s. replace (Z.to_nat (k - count)) with 0 by lia. done. }
    destruct (Z.ltb_spec (Z.of_nat i) (Z.of_nat (length l))) as [Hil|Hil].
    2: { rewrite andb_false_r. rewrite (drop_ge l) by lia.
         unfold ready. simpl. rewrite take_nil. by exists s. }
    rewrite (proj2 (Z.ltb_lt count _)) by lia. cbn [andb].
    destruct (lookup_lt_is_Some_2 l i ltac:(lia)) as [x Ex].
    destruct (lookup_lt_is_Some_2 evs i ltac:(lia)) as [e Ee].
    destruct (Hpend i x e (le_n i) Ex Ee) as (ev & Ep).
    destruct (fd_used _ _ H i x Ex) as (_ & _ & _ & Ec & Hx).
    rewrite (drop_S l x i Ex), (drop_S evs e i Ee). unfold ready. cbn [zip zip_with omap list_omap].
    unfold set_events. rewrite (at_nat _ _ _ Ep). cbn [obind pf_fd pf_revents].
    rewrite (set_pfd_nat _ _ _ _ Ep). cbn [obind pfd].
    pose proof (fds_touch s l i _ poll_event e H Ep) as H1. cbn [pf_fd] in H1.
    pose proof (lookup_lt_Some _ _ _ Ep) as Hip.
    rewrite (at_nat _ i (mk_pollfd x.1 poll_event e)) by (simpl; by rewrite list_lookup_insert_eq).
    cbn [obind pf_revents pf_fd]. replace (Z.of_nat i + 1)%Z with (Z.of_nat (S i)) by lia.
    destruct (decide (e = 0%Z)) as [->|He].
    + cbn [Z.eqb]. apply IH; [done | | lia | lia | lia].
      intros j r e' Hj Er Ee'. simpl. rewrite list_lookup_insert_ne by lia.
      apply Hpend; [lia | done | done].
    + rewrite (proj2 (Z.eqb_neq e 0) He). cbn [poll_callback_array]. rewrite (at_nat _ _ _ Ec).
      cbn [obind]. destruct (invoke_acts _ _ x w H1 Hx) as (s2 & E2 & H2 & P2).
      rewrite E2. cbn [obind fst snd]. unfold set_revents.
      assert (pfd s2 !! i = Some (mk_pollfd x.1 poll_event e)) as Ep2
        by (rewrite P2; simpl; by rewrite list_lookup_insert_eq).
      rewrite (at_nat _ _ _ Ep2). cbn [obind pf_fd pf_events]. rewrite (set_pfd_nat _ _ _ _ Ep2).
      cbn [obind]. change (Z.lor 0 0) with 0%Z.
      pose proof (fds_touch s2 l i _ poll_event 0 H2 Ep2) as H3. cbn [pf_fd] in H3.
      edestruct (IH (S i) (count + 1)%Z) as (s4 & E4 & H4); [exact H3 | | lia | lia | lia |].
      { intros j r e' Hj Er Ee'. simpl. rewrite list_lookup_insert_ne, P2 by lia. simpl.
        rewrite list_lookup_insert_ne by lia. apply Hpend; [lia | done | done]. }
      exists s4. split; [|exact H4].
      replace (Z.to_nat (k - count)) with (S (Z.to_nat (k - (count + 1)))) by lia.
      cbn [take foldl]. exact E4.
Qed.

Lemma poll_sets_fds s l evs :
  fds s l -> length evs = length l -> fds (poll_sets evs s) l /\ pending (poll_sets evs s) l evs 0.
Proof.
  intros H Hlen. pose proof (fd_cap _ _ H) as Hc. pose proof (fd_len _ _ H) as Hl.
  assert (forall j e p, pfd s !! j = Some p -> evs !! j = Some e ->
    pfd (poll_sets evs s) !! j = Some (mk_pollfd (pf_fd p) (pf_events p) e)) as Hlo.
  { intros j e p Ep Ee. pose proof (lookup_lt_Some _ _ _ Ee) as Hj. unfold poll_sets. simpl.
    rewrite lookup_app_l by (rewrite length_zip_with, length_take; lia).
    rewrite lookup_zip_with, lookup_take_lt, Ep, Ee by done. done. }
  assert (forall j, length evs <= j -> pfd (poll_sets evs s) !! j = pfd s !! j) as Hhi.
  { intros j Hj. unfold poll_sets. simpl.
    assert (length (zip_with (fun p e => mk_pollfd (pf_fd p) (pf_events p) e)
      (take (length evs) (pfd s)) evs) = length evs) as Hz
      by (rewrite length_zip_with, length_take; lia).
    rewrite lookup_app_r, Hz, lookup_drop by lia. f_equal. lia. }
  split.
  - destruct H as [Hl' Hb Hn Hc' fd_used0 fd_free0]. split; simpl; try done.
    + rewrite length_app, length_zip_with, length_take, length_drop. lia.
    + intros j r Er. pose proof (lookup_lt_Some _ _ _ Er) as Hj.
      destruct (fd_used0 j r Er) as (ev & rev & Ep & Ec & Hr).
      destruct (lookup_lt_is_Some_2 evs j ltac:(lia)) as [e Ee].
      exists ev, e. split; [|done]. exact (Hlo j e _ Ep Ee).
    + intros j Hj. destruct (fd_free0 j Hj) as (ev & rev & Ep). exists ev, rev.
      rewrite <- Ep. apply Hhi. lia.
  - intros j r e _ Er Ee. destruct (fd_used _ _ H j r Er) as (ev & rev & Ep & _). exists ev.
    exact (Hlo j e _ Ep Ee).
Qed.

(** A round calls the routine of each registration with an event, in the
    order of the array and with its own descriptor and context, as many as
    [poll] reported and no other; the registrations are the same after it.  A
    timeout and an interrupted call do nothing. *)
Theorem poll_dispatches (fuel : nat) (poll_result : Z) (evs : list Z) (s : fd_process)
    (l : list reg) (w : W) :
  fds s l -> length evs = length l -> length l <= fuel ->
  exists s', poll_process_result acts fuel (Z.of_nat (length l)) poll_result (poll_sets evs s, w) =
    Done (if (poll_result <? 0)%Z then DOVE_STATUS_INTERRUPT else DOVE_STATUS_OK,
          (s', foldl (fun w x => reg_act x w) w (take (Z.to_nat poll_result) (ready l evs)))) /\
    fds s' l.
Proof.
  intros H Hlen Hf. destruct (poll_sets_fds s l evs H Hlen) as [H1 Hp]. unfold poll_process_result.
  destruct (Z.ltb_spec poll_result 0) as [Hn|Hn].
  { exists (poll_sets evs s). replace (Z.to_nat poll_result) with 0 by lia. done. }
  destruct (Z.eqb_spec poll_result 0) as [->|Hz]; [by exists (poll_sets evs s)|].
  destruct (process_ready_spec poll_result l evs Hlen fuel 0 0 _ w H1 Hp) as (s' & E & H'); [lia..|].
  change (Z.of_nat 0) with 0%Z in E. rewrite E. cbn [obind]. exists s'. split; [|done].
  rewrite Z.sub_0_r. change (drop 0 l) with l. change (drop 0 evs) with evs. by destruct fuel.
Qed.
End dispatch.

(** Two descriptors are ready: the calls are logged. *)
Definition log_call (r fd ctx : Z) (w : list (Z * Z * Z)) : list (Z * Z * Z) := w ++ [(r, fd, ctx)].
Definition two_regs : list reg :=
  [dummy_reg 3; (7%Z, mk_poll_cb (Cb 1) 5); (8%Z, mk_poll_cb (Cb 2) 6); (9%Z, mk_poll_cb (Cb 2) 7)].

Lemma two_regs_fds :
  exists s, run_fops [F_add 7 (Cb 1) 5; F_add 8 (Cb 2) 6; F_add 9 (Cb 2) 7]
    (fd_process_init (Some (3, 4)%Z) (fun _ => true) fd_process0).2
    = Done ([0; 0; 0]%Z, s) /\ fds s two_regs.
Proof.
  destruct (init_fds 3 4 fd_process0 ltac:(lia)) as (s0 & E0 & H0). rewrite E0.
  destruct (run_fops_spec [F_add 7 (Cb 1) 5; F_add 8 (Cb 2) 6; F_add 9 (Cb 2) 7] s0 _ H0
    ltac:(repeat constructor)) as (s & E & H).
  exists s. split; [exact E | exact H].
Qed.

Example poll_dispatches_witness :
  exists s, fds s two_regs /\ exists s',
    poll_process_result (acts log_call) 5 4 2 (poll_sets [0; 1; 0; 1]%Z s, []) =
    Done (DOVE_STATUS_OK, (s', [(1, 7, 5); (2, 9, 7)]%Z)) /\ fds s' two_regs.
Proof.
  destruct two_regs_fds as (s & _ & H). exists s. split; [exact H|].
  exact (poll_dispatches log_call 5 2 [0; 1; 0; 1]%Z s two_regs [] H eq_refl
    ltac:(apply Nat.leb_le; reflexivity)).
Defined.

(** Removing the descriptor -1, the value [socket] fails with, removes the
    registration of the pipe, and then reads before the start of the array. *)
Theorem fd_del_negative_faults (r w : Z) :
  (0 <= r)%Z ->
  exists s, fd_process_init (Some (r, w)) (fun _ => true) fd_process0 = (DOVE_STATUS_OK, s) /\
    fd_process_del_fd (-1) s = Fault.
Proof.
  intros Hr. eexists. split; [reflexivity|]. unfold fd_process_del_fd. simpl. by destruct r.
Qed.

Example fd_del_negative_faults_witness :
  (0 <= 3)%Z /\
  exists s, fd_process_init (Some (3, 4)%Z) (fun _ => true) fd_process0 = (DOVE_STATUS_OK, s) /\
    fd_process_del_fd (-1) s = Fault.
Proof. split; [lia|]. apply (fd_del_negative_faults 3 4). lia. Defined.
