(* ===== verification/ClientCtrl.v ===== *)
(** * The network side of a client: [dps_client_ctrl.c]

    The client sends a packet to the server it knows for the network of the
    packet, starts the retransmission timer of a packet that expects an answer,
    and learns servers from the packets it receives.  Here the environment of
    [Env] is the client's own: its table of networks, its timer and its place
    in the file descriptor loop. *)
From stdpp Require Import gmap.
From S2P Require Export VnidMap RawTimer FdProcess Retransmit.

(** ** Socket addresses

    A [struct sockaddr_storage] is its 128 bytes; a [struct sockaddr] is the
    first sixteen. *)
Definition SOCKADDR_STORAGE : nat := 128.
Definition byte_at (b : list Z) (i : nat) : Z := List.nth i b 0%Z.
Definition put (off : nat) (bs b : list Z) : list Z :=
  take off b ++ bs ++ drop (off + length bs) b.
Definition ss_family (b : list Z) : Z := (byte_at b 0 + 256 * byte_at b 1)%Z.
(** [htons(port)] and [htonl(ip4)] in memory *)
Definition sin_addr (v : Z) : list Z := be32 (u32 v).
Definition sin_port (v : Z) : list Z := be16 (u16 v).

Definition dps_copy_laddr_saddr (src : ip_addr_t) (dst : list Z) : Z * list Z :=
  if (ia_family src =? AF_INET)%Z then
    (DPS_SUCCESS,
     put 2 (sin_port (ia_port src)) (put 4 (sin_addr (ia_ip4 src)) (put 0 (le16 AF_INET) dst)))
  else if (ia_family src =? AF_INET6)%Z then
    (DPS_SUCCESS,
     put 2 (sin_port (ia_port src)) (put 8 (take 16 (ia_ip src)) (put 0 (le16 AF_INET6) dst)))
  else (DPS_ERROR, dst).

Definition dps_copy_saddr_laddr (src : list Z) (dst : ip_addr_t) : ip_addr_t :=
  let port := of_be16 (byte_at src 2) (byte_at src 3) in
  if (ss_family src =? AF_INET)%Z then
    let ip4 := of_be32 (byte_at src 4) (byte_at src 5) (byte_at src 6) (byte_at src 7) in
    mk_ip_addr AF_INET port SOCK_DGRAM 0 (set_ip4 (ia_ip dst) ip4)
  else mk_ip_addr AF_INET6 port SOCK_DGRAM 0 (take 16 (drop 8 src)).

Definition dps_get_sockaddr_len (svr_addr : list Z) : nat :=
  if (ss_family svr_addr =? AF_INET)%Z then 16 else 28.

(** ** State *)

(** [dps_svr_addr_list[0]]: the two addresses are separate members. *)
Record dps_svr_addr_info_t := mk_svr_info {
  sv_family : Z; sv_ip4_family : Z; sv_ip4_port : Z; sv_ip4_addr : Z;
  sv_ip6_family : Z; sv_ip6_addr : list Z; sv_sock_fd : Z; sv_xport_type : Z;
  sv_inuse : Z; sv_buff : buf }.

Inductive cl_event :=
| Cl_sendto (sockFd : Z) (pkt : list Z) (len : Z) (addr : list Z)
| Cl_client (data : dps_client_data_t)
| Cl_close (sockFd : Z).

(** [cl_mallocs], [cl_times], [cl_sends] and [cl_recvs] count the calls of the
    allocator of packet buffers, [time], [sendto] and [recvfrom]. *)
Record client := mk_client {
  cl_table : vtable; cl_timer : rtimer; cl_fds : fd_process; cl_svr : dps_svr_addr_info_t;
  last_sent_time : Z; cl_mallocs : nat; cl_times : nat; cl_sends : nat; cl_recvs : nat;
  cl_out : list cl_event }.

Definition cl_with_table (x : vtable) (c : client) : client :=
  mk_client x (cl_timer c) (cl_fds c) (cl_svr c) (last_sent_time c) (cl_mallocs c) (cl_times c)
    (cl_sends c) (cl_recvs c) (cl_out c).
Definition cl_with_timer (x : rtimer) (c : client) : client :=
  mk_client (cl_table c) x (cl_fds c) (cl_svr c) (last_sent_time c) (cl_mallocs c) (cl_times c)
    (cl_sends c) (cl_recvs c) (cl_out c).
Definition cl_with_fds (x : fd_process) (c : client) : client :=
  mk_client (cl_table c) (cl_timer c) x (cl_svr c) (last_sent_time c) (cl_mallocs c) (cl_times c)
    (cl_sends c) (cl_recvs c) (cl_out c).
Definition cl_with_svr (x : dps_svr_addr_info_t) (c : client) : client :=
  mk_client (cl_table c) (cl_timer c) (cl_fds c) x (last_sent_time c) (cl_mallocs c) (cl_times c)
    (cl_sends c) (cl_recvs c) (cl_out c).
Definition cl_with_last_sent (x : Z) (c : client) : client :=
  mk_client (cl_table c) (cl_timer c) (cl_fds c) (cl_svr c) x (cl_mallocs c) (cl_times c)
    (cl_sends c) (cl_recvs c) (cl_out c).
Definition cl_emit (e : cl_event) (c : client) : client :=
  mk_client (cl_table c) (cl_timer c) (cl_fds c) (cl_svr c) (last_sent_time c) (cl_mallocs c)
    (cl_times c) (cl_sends c) (cl_recvs c) (cl_out c ++ [e]).
Definition sv_with_inuse (x : Z) (s : dps_svr_addr_info_t) : dps_svr_addr_info_t :=
  mk_svr_info (sv_family s) (sv_ip4_family s) (sv_ip4_port s) (sv_ip4_addr s) (sv_ip6_family s)
    (sv_ip6_addr s) (sv_sock_fd s) (sv_xport_type s) x (sv_buff s).
Definition sv_with_sock_fd (x : Z) (s : dps_svr_addr_info_t) : dps_svr_addr_info_t :=
  mk_svr_info (sv_family s) (sv_ip4_family s) (sv_ip4_port s) (sv_ip4_addr s) (sv_ip6_family s)
    (sv_ip6_addr s) x (sv_xport_type s) (sv_inuse s) (sv_buff s).
Definition sv_with_buff (x : buf) (s : dps_svr_addr_info_t) : dps_svr_addr_info_t :=
  mk_svr_info (sv_family s) (sv_ip4_family s) (sv_ip4_port s) (sv_ip4_addr s) (sv_ip6_family s)
    (sv_ip6_addr s) (sv_sock_fd s) (sv_xport_type s) (sv_inuse s) x.

(** The operating system: what the [n]-th call of each function answers.
    [os_clock] and [os_node] are the timer's [time] and [malloc], [os_data]
    whether its copy of the packet can be allocated, [os_entry] the table's
    [malloc]; [os_stack] is an uninitialised [struct sockaddr_storage], and
    [os_stack_tail] the bytes of a local header that are not zeroed. *)
Record os := mk_os {
  os_clock : nat -> Z; os_node : nat -> bool; os_data : nat -> bool; os_entry : nat -> bool;
  os_time : nat -> Z; os_heap : nat -> option buf; os_sendto : nat -> Z;
  os_recv : nat -> option (list Z * list Z); os_socket : Z -> Z -> Z; os_fcntl : bool;
  os_stack : list Z; os_stack_tail : list Z }.

Definition DpsReqNewNodeInterval : Z := 132.

(** The numbers of this module's callbacks. *)
Definition DATA_RCVD_ROUTINE : Z := 1.
Definition RETRANSMIT_ROUTINE : Z := 2.

Section client.
Context (o : os) (fuel : nat).

Definition time_now (c : client) : Z * client :=
  (os_time o (cl_times c),
   mk_client (cl_table c) (cl_timer c) (cl_fds c) (cl_svr c) (last_sent_time c) (cl_mallocs c)
     (S (cl_times c)) (cl_sends c) (cl_recvs c) (cl_out c)).

Definition on_table {A} (f : vtable -> out (A * vtable)) (c : client) : out (A * client) :=
  let* (a, s) := f (cl_table c) in Done (a, cl_with_table s c).

(** ** The servers of the networks *)
Definition dps_update_svr_addr_list (node : ip_addr_t) (s : dps_svr_addr_info_t)
    : dps_svr_addr_info_t :=
  if (ia_family node =? AF_INET)%Z
  then mk_svr_info AF_INET AF_INET (ia_port node) (ia_ip4 node) (sv_ip6_family s) (sv_ip6_addr s)
         (sv_sock_fd s) (u8 (ia_xport_type node)) (sv_inuse s) (sv_buff s)
  else mk_svr_info AF_INET6 (sv_ip4_family s) (ia_port node) (sv_ip4_addr s) AF_INET6
         (take 16 (ia_ip node)) (sv_sock_fd s) (u8 (ia_xport_type node)) (sv_inuse s) (sv_buff s).

Definition same_server (a b : ip_addr_t) : bool :=
  ((ia_family a =? ia_family b) && (ia_ip4 a =? ia_ip4 b) && (ia_port a =? ia_port b))%Z.

(** A second server: the table changes, the socket stays. *)
Definition replace_server (node : ip_addr_t) (c : client) : out (Z * client) :=
  let* (st, old, s) := dps_vnid_node_mapping_entry_search fuel 0 zero_ip_addr (cl_table c) in
  let c := cl_with_table s c in
  if (st =? DPS_SUCCESS)%Z then
    if same_server node old then Done (DPS_SUCCESS, c)
    else
      let* s := dps_vnid_node_mapping_del_dup_node fuel old (cl_table c) in
      let c := cl_with_svr (dps_update_svr_addr_list node (cl_svr c)) (cl_with_table s c) in
      let* (_, c) := on_table (dps_vnid_node_mapping_entry_add (os_entry o) fuel 0 node) c in
      Done (DPS_SUCCESS, c)
  else
    let* (_, c) := on_table (dps_vnid_node_mapping_entry_add (os_entry o) fuel 0 node) c in
    Done (DPS_SUCCESS, c).

(** [domain] is not looked at. *)
Definition dps_server_add (domain : Z) (node : ip_addr_t) (c : client) : out (Z * client) :=
  if negb (sv_inuse (cl_svr c) =? 0)%Z then replace_server node c
  else
    let c := cl_with_svr (sv_with_inuse 1 (dps_update_svr_addr_list node (cl_svr c))) c in
    if (sv_xport_type (cl_svr c) =? SOCK_DGRAM)%Z then
      let fd := os_socket o (sv_ip4_family (cl_svr c)) SOCK_DGRAM in
      let c := cl_with_svr (sv_with_sock_fd fd (cl_svr c)) c in
      if (fd <? 0)%Z
      then Done (DPS_ERROR_NO_RESOURCES, cl_with_svr (sv_with_inuse 0 (cl_svr c)) c)
      else if negb (os_fcntl o) then Done (DPS_SUCCESS, c)
      else
        let* (comm_status, f) := fd_process_add_fd fd (Cb DATA_RCVD_ROUTINE) 0 (cl_fds c) in
        let c := cl_with_fds f c in
        if (comm_status =? 0)%Z then
          let* (_, c) := on_table (dps_vnid_node_mapping_entry_add (os_entry o) fuel 0 node) c in
          Done (DPS_SUCCESS, c)
        else
          let c := cl_with_svr (sv_with_inuse 0 (cl_svr c)) c in
          Done (DPS_ERROR, cl_emit (Cl_close fd) c)
    else Done (DPS_SUCCESS, c).

Definition dps_server_del (node : ip_addr_t) (c : client) : out client :=
  let s := cl_svr c in
  let s := mk_svr_info (sv_family s) (sv_ip4_family s) 0 0 (sv_ip6_family s) (sv_ip6_addr s)
    (sv_sock_fd s) (sv_xport_type s) (sv_inuse s) (sv_buff s) in
  let c := cl_with_svr s c in
  let* t := dps_vnid_node_mapping_del_dup_node fuel node (cl_table c) in
  Done (cl_with_table t c).

(** The status and the address, in [svr_addr]. *)
Definition dps_find_server (vnid : Z) (svr_addr : list Z) (c : client)
    : out (Z * list Z * client) :=
  let* (status, addr, s) := dps_vnid_node_mapping_entry_find fuel vnid zero_ip_addr (cl_table c) in
  let c := cl_with_table s c in
  if (status =? DPS_SUCCESS)%Z then
    let '(status, svr_addr) := dps_copy_laddr_saddr addr svr_addr in Done (status, svr_addr, c)
  else Done (status, svr_addr, c).

(** The request for another server: [memset] starts at the context and clears
    the size of a header, so the last eight bytes of the header keep what the
    stack held. *)
Definition new_node_request : dps_client_data_t :=
  mk_client_data 0
    (mk_client_hdr DPS_GET_DCS_NODE 0 0 0 0 0 0
       (mk_ip_addr 0 0 0 0 (replicate 8 0%Z ++ os_stack_tail o))) Body_none.

Definition dps_req_new_dps_node (vnid : Z) (c : client) : out client :=
  let* (_, c) := on_table (dps_vnid_node_mapping_entry_del2 fuel vnid) c in
  let '(now, c) := time_now c in
  if (DpsReqNewNodeInterval <=? now - last_sent_time c)%Z then
    let '(now, c) := time_now c in
    Done (cl_emit (Cl_client new_node_request) (cl_with_last_sent (u32 now) c))
  else Done c.

(** ** Transmission *)
Definition start_timer (buff : buf) (buff_len query_id : Z) (dst_addr : list Z) (context : Z)
    (c : client) : out (Z * client) :=
  let* (rc, t) :=
    raw_proto_timer_start (os_clock o) (os_node o) fuel (os_data o (cl_sends c)) (Some buff)
      buff_len (i32 query_id) RAW_PKT_DEF_RETRANSMIT_INTERVAL MAX_NUM_DEF_RETRANSMIT
      (sv_sock_fd (cl_svr c)) (Some dst_addr) context RPT_OWNER_DPSA (cl_timer c) in
  Done (rc, cl_with_timer t c).

(** [sendto]: the number of bytes sent. *)
Definition sendto (fd : Z) (buff : buf) (buff_len : Z) (addr : list Z) (c : client)
    : Z * client :=
  let sent := os_sendto o (cl_sends c) in
  let c := mk_client (cl_table c) (cl_timer c) (cl_fds c) (cl_svr c) (last_sent_time c)
    (cl_mallocs c) (cl_times c) (S (cl_sends c)) (cl_recvs c) (cl_out c) in
  (sent, cl_emit (Cl_sendto fd (take (Z.to_nat buff_len) buff) buff_len addr) c).

Definition dps_protocol_xmit (buff : buf) (buff_len : Z) (addr : ip_addr_t) (context : Z)
    (c : client) : out (Z * client) :=
  if (sv_inuse (cl_svr c) =? 0)%Z then Done (DPS_XMIT_ERROR, c)
  else
    let* (hdr, _) := dps_get_pkt_hdr buff 0 zero_client_hdr in
    let* (status, dst_addr, c) :=
      if ((ia_family addr =? AF_INET) || (ia_family addr =? AF_INET6))%Z
      then let '(status, dst_addr) := dps_copy_laddr_saddr addr (os_stack o) in
           Done (status, dst_addr, c)
      else dps_find_server (ch_vnid hdr) (os_stack o) c in
    if negb (status =? DPS_SUCCESS)%Z then Done (DPS_XMIT_ERROR, c)
    else
      let* (status, c) :=
        if (context =? 0)%Z then Done (status, c)
        else
          let* (rc, c) := start_timer buff buff_len (ch_query_id hdr) dst_addr context c in
          Done (if (rc =? 0)%Z then status else DPS_ERROR_NO_RESOURCES, c) in
      let '(bytes_sent, c) :=
        sendto (sv_sock_fd (cl_svr c)) buff buff_len
          (take (dps_get_sockaddr_len dst_addr) dst_addr) c in
      Done (if (bytes_sent <=? 0)%Z then DPS_XMIT_ERROR else status, c).

(** ** The client as the environment of the protocol

    A step that faults or does not return leaves no client behind. *)
Definition in_client {A} (dflt : A) (f : client -> out (A * client)) (w : out client)
    : A * out client :=
  match w with
  | Done c =>
      match f c with
      | Done (a, c) => (a, Done c)
      | Timeout => (dflt, Timeout)
      | Fault => (dflt, Fault)
      end
  | Timeout => (dflt, Timeout)
  | Fault => (dflt, Fault)
  end.

Definition malloc_packet (c : client) : out (option buf * client) :=
  Done (os_heap o (cl_mallocs c),
        mk_client (cl_table c) (cl_timer c) (cl_fds c) (cl_svr c) (last_sent_time c)
          (S (cl_mallocs c)) (cl_times c) (cl_sends c) (cl_recvs c) (cl_out c)).
Definition generate_query_id (c : client) : out (Z * client) :=
  let '(q, t) := RawTimer.raw_proto_query_id_generate (cl_timer c) in Done (q, cl_with_timer t c).
(** [context] and [owner] are [NULL] and the first owner before the call. *)
Definition stop_timer (query_id : Z) (c : client) : out (bool * Z * client) :=
  let* (rc, context, _, t) :=
    raw_proto_timer_stop fuel (i32 query_id) 0 RPT_OWNER_FIRST (cl_timer c) in
  Done ((rc =? RAW_PROTO_TIMER_RETURN_OK)%Z, context, cl_with_timer t c).

#[export] Instance client_env : Env (out client) := {|
  dps_server := false;
  malloc_buff := in_client None malloc_packet;
  free_buff w := w;
  Env.dps_protocol_xmit pkt to ctx :=
    in_client DPS_XMIT_ERROR (dps_protocol_xmit pkt (Z.of_nat (length pkt)) to ctx);
  Env.raw_proto_query_id_generate := in_client 0%Z generate_query_id;
  timer_stop q := in_client (false, 0%Z) (stop_timer q);
  deliver d w := (in_client tt (fun c => Done (tt, cl_emit (Cl_client d) c)) w).2;
  dps_cluster_is_local_node_active _ := true;
  Env.dps_req_new_dps_node v w :=
    (in_client tt (fun c => let* c := dps_req_new_dps_node v c in Done (tt, c)) w).2
|}.

(** ** Reception

    [client_addr], [addr_len] and [sender_addr] keep their values from one
    pass of the loop to the next. *)
Context (heap_counts : Z -> Z * Z) (stack_addr : ip_addr_t).

Definition recvfrom (addr_len : nat) (client_addr : list Z) (c : client)
    : Z * nat * list Z * client :=
  let c' := mk_client (cl_table c) (cl_timer c) (cl_fds c) (cl_svr c) (last_sent_time c)
    (cl_mallocs c) (cl_times c) (cl_sends c) (S (cl_recvs c)) (cl_out c) in
  match os_recv o (cl_recvs c) with
  | Some (data, from) =>
      let data := take DPS_MAX_BUFF_SZ data in
      (Z.of_nat (length data), length from, put 0 (take addr_len from) client_addr,
       cl_with_svr (sv_with_buff (put 0 data (sv_buff (cl_svr c))) (cl_svr c')) c')
  | None => ((-1)%Z, addr_len, client_addr, c')
  end.

Fixpoint rcvd_loop (n addr_len : nat) (client_addr : list Z) (sender_addr : ip_addr_t)
    (t : stats_tbl) (c : client) : out (stats_tbl * client) :=
  match n with
  | 0 => Done (t, c)
  | S n =>
      let '(bytes_read, addr_len, client_addr, c) := recvfrom addr_len client_addr c in
      if (bytes_read <=? 0)%Z then Done (t, c)
      else
        let sender_addr := dps_copy_saddr_laddr client_addr sender_addr in
        let* (hdr, _) := dps_get_pkt_hdr (sv_buff (cl_svr c)) 0 zero_client_hdr in
        let* (_, c) :=
          on_table (dps_vnid_node_mapping_entry_add (os_entry o) fuel (ch_vnid hdr) sender_addr) c in
        let* (_, (t, w)) :=
          dps_process_rcvd_pkt fuel heap_counts stack_addr (sv_buff (cl_svr c)) sender_addr
            (t, Done c) in
        let* c := w in
        rcvd_loop n addr_len client_addr sender_addr t c
  end.

(** At most ten thousand packets at a time; [context] is an index of
    [dps_svr_addr_list], which has one element. *)
Definition MAX_REPLIES : Z := 10000.
Definition dps_process_data_rcvd (socket context : Z) (st : stats_tbl * client)
    : out (Z * (stats_tbl * client)) :=
  if negb (context =? 0)%Z then Fault
  else
    let* st := rcvd_loop (Z.to_nat MAX_REPLIES) SOCKADDR_STORAGE (os_stack o)
      (mk_ip_addr AF_INET 0 0 0 zero_ip) st.1 st.2 in
    Done (DPS_SUCCESS, st).

(** ** Start-up *)
Definition dps_client_init (sem_ok : bool) (pthread : nat -> bool) (c : client)
    : out (Z * client) :=
  let* (_, c) := on_table (dps_vnid_node_mapping_table_init sem_ok) c in
  let* (rc, t) := raw_proto_timer_init pthread (Some RETRANSMIT_ROUTINE) RPT_OWNER_DPSA
    (cl_timer c) in
  let c := cl_with_timer t c in
  Done (if (rc =? RAW_PROTO_TIMER_RETURN_OK)%Z then DPS_SUCCESS else DPS_ERROR_NO_RESOURCES, c).
End client.

(** The static data of the program. *)
Definition svr_info0 : dps_svr_addr_info_t :=
  mk_svr_info 0 0 0 0 0 (replicate 16 0%Z) 0 0 0 (replicate DPS_MAX_BUFF_SZ 0%Z).
Definition client0 : client :=
  mk_client dps_vnid_node_mapping_table rtimer0 fd_process0 svr_info0 0 0 0 0 0 [].
