(* ===== verification/ClientXmit.v ===== *)
(** * Sending: which server, and what is left waiting for the answer *)
From stdpp Require Import gmap.
From S2P Require Export ClientCtrl VnidRefine Timer.

(** ** Sending and learning: what the operations of a client do

    Addresses on the wire and the table of networks under its lock. *)
#[global] Arguments DPS_MAX_BUFF_SZ : simpl never.

(** ** Bytes of socket addresses *)
Lemma length_put off bs b : off + length bs <= length b -> length (put off bs b) = length b.
Proof. intros H. unfold put. rewrite !length_app, length_take, length_drop. lia. Qed.

Lemma byte_at_put off bs b i :
  off + length bs <= length b ->
  byte_at (put off bs b) i =
  if decide (off <= i < off + length bs) then byte_at bs (i - off) else byte_at b i.
Proof.
  intros H. unfold put, byte_at. destruct (decide (i < off)) as [Hi|Hi].
  - rewrite decide_False by lia. rewrite List.app_nth1 by (rewrite length_take; lia).
    rewrite <- (firstn_skipn off b) at 2. by rewrite List.app_nth1 by (rewrite length_take; lia).
  - rewrite List.app_nth2 by (rewrite length_take; lia). rewrite length_take.
    replace (off `min` length b) with off by lia. case_decide.
    + by rewrite List.app_nth1 by lia.
    + rewrite List.app_nth2 by lia.
      rewrite <- (firstn_skipn (off + length bs) b) at 2.
      rewrite (List.app_nth2 (firstn _ b)) by (rewrite length_take; lia).
      rewrite length_take. f_equal. lia.
Qed.

Lemma slice_put off bs b :
  off + length bs <= length b -> take (length bs) (drop off (put off bs b)) = bs.
Proof.
  intros H. unfold put. rewrite drop_app_length' by (rewrite length_take; lia).
  by rewrite take_app_length.
Qed.

Lemma drop_put n off bs b :
  off + length bs <= n -> off + length bs <= length b -> drop n (put off bs b) = drop n b.
Proof.
  intros H Hb. unfold put. rewrite app_assoc, drop_app_ge by (rewrite length_app, length_take; lia).
  rewrite drop_drop, length_app, length_take. f_equal. lia.
Qed.

Lemma length_sin_port v : length (sin_port v) = 2.
Proof. done. Qed.
Lemma length_sin_addr v : length (sin_addr v) = 4.
Proof. done. Qed.
Lemma length_le16 v : length (le16 v) = 2.
Proof. done. Qed.

(** An address that a socket address can hold. *)
Definition sock_ok (a : ip_addr_t) : Prop :=
  (ia_family a = AF_INET \/ ia_family a = AF_INET6) /\ in16 (ia_port a) /\
  length (ia_ip a) = 16 /\ Forall in8 (ia_ip a).

Lemma get_ip4_in32 u : Forall in8 u -> in32 (get_ip4 u).
Proof.
  intros H. unfold get_ip4. destruct u as [|b0 [|b1 [|b2 [|b3 u]]]]; try (split; lia).
  inversion H as [|? ? H0 H']; subst. inversion H' as [|? ? H1 H'']; subst.
  inversion H'' as [|? ? H2 H''']; subst. inversion H''' as [|? ? H3 _]; subst.
  unfold of_le32. by apply of_be32_in.
Qed.

Lemma copy_inet a dst :
  ia_family a = AF_INET ->
  dps_copy_laddr_saddr a dst =
  (DPS_SUCCESS, put 2 (sin_port (ia_port a)) (put 4 (sin_addr (ia_ip4 a)) (put 0 (le16 AF_INET) dst))).
Proof. intros E. unfold dps_copy_laddr_saddr. by rewrite E. Qed.

Lemma copy_inet6 a dst :
  ia_family a = AF_INET6 ->
  dps_copy_laddr_saddr a dst =
  (DPS_SUCCESS,
   put 2 (sin_port (ia_port a)) (put 8 (take 16 (ia_ip a)) (put 0 (le16 AF_INET6) dst))).
Proof. intros E. unfold dps_copy_laddr_saddr. by rewrite E. Qed.

(** Lengths of addresses being written. *)
Ltac sa_length Hl Hs :=
  repeat (rewrite length_put);
  rewrite ?length_sin_port, ?length_sin_addr, ?length_take, ?length_le16, ?Hl, ?Hs;
  unfold SOCKADDR_STORAGE; done || lia.

Section bytes.
Context (stack : list Z) (Hstack : length stack = SOCKADDR_STORAGE).

(** The socket address of a server. *)
Definition sa (a : ip_addr_t) : list Z := (dps_copy_laddr_saddr a stack).2.

Lemma copy_laddr a : sock_ok a -> dps_copy_laddr_saddr a stack = (DPS_SUCCESS, sa a).
Proof.
  intros ([Hf|Hf] & _); unfold sa; [by rewrite (copy_inet a stack Hf) | by rewrite (copy_inet6 a stack Hf)].
Qed.

Lemma length_sa a : sock_ok a -> length (sa a) = SOCKADDR_STORAGE.
Proof.
  intros ([Hf|Hf] & _ & Hl & _); unfold sa; [rewrite (copy_inet a stack Hf) | rewrite (copy_inet6 a stack Hf)];
    cbn [snd]; sa_length Hl Hstack.
Qed.

(** Bytes of the stack past the address do not matter. *)
Lemma sa_family a : sock_ok a -> ss_family (sa a) = ia_family a.
Proof.
  intros ([Hf|Hf] & _ & Hl & _); unfold sa, ss_family;
    [rewrite (copy_inet a stack Hf), Hf | rewrite (copy_inet6 a stack Hf), Hf]; cbn [snd];
    repeat (rewrite byte_at_put; [|sa_length Hl Hstack]);
    rewrite ?length_take, ?Hl; reflexivity.
Qed.
End bytes.

(** ** From an address to the wire's and back *)

(** What [sendto] is given, and [recvfrom] gives at the other end. *)
Definition sockaddr (stack : list Z) (a : ip_addr_t) : list Z :=
  take (dps_get_sockaddr_len (sa stack a)) (sa stack a).

Definition sockaddr_len (a : ip_addr_t) : nat := if decide (ia_family a = AF_INET) then 16 else 28.

Lemma sockaddr_len_eq stack a :
  length stack = SOCKADDR_STORAGE -> sock_ok a ->
  dps_get_sockaddr_len (sa stack a) = sockaddr_len a.
Proof.
  intros Hs Ha. unfold dps_get_sockaddr_len, sockaddr_len. rewrite sa_family by done.
  destruct (Z.eqb_spec (ia_family a) AF_INET); [by rewrite decide_True | by rewrite decide_False].
Qed.

Lemma length_sockaddr stack a :
  length stack = SOCKADDR_STORAGE -> sock_ok a -> length (sockaddr stack a) = sockaddr_len a.
Proof.
  intros Hs Ha. unfold sockaddr. rewrite length_take, sockaddr_len_eq, length_sa by done.
  unfold sockaddr_len, SOCKADDR_STORAGE. case_decide; lia.
Qed.

Lemma byte_at_take n b i : i < n -> byte_at (take n b) i = byte_at b i.
Proof.
  intros H. unfold byte_at. revert b i H. induction n as [|n IH]; intros [|x b] [|i] H; try lia; try done.
  simpl. apply IH. lia.
Qed.

(** The bytes [recvfrom] leaves in its buffer. *)
Definition received_from (stack buf' : list Z) (a : ip_addr_t) : list Z :=
  put 0 (sockaddr stack a) buf'.

Lemma byte_at_received stack buf' a i :
  length stack = SOCKADDR_STORAGE -> length buf' = SOCKADDR_STORAGE -> sock_ok a ->
  i < sockaddr_len a -> byte_at (received_from stack buf' a) i = byte_at (sa stack a) i.
Proof.
  intros Hs Hb Ha Hi. unfold received_from. pose proof (length_sockaddr stack a Hs Ha) as Hl.
  rewrite byte_at_put; rewrite Hl.
  - rewrite decide_True by lia. rewrite Nat.sub_0_r. unfold sockaddr.
    rewrite sockaddr_len_eq by done. by rewrite byte_at_take.
  - rewrite Hb. unfold sockaddr_len, SOCKADDR_STORAGE. case_decide; lia.
Qed.

(** The address that is learnt from the sender's. *)
Definition learnt (d a : ip_addr_t) : ip_addr_t :=
  mk_ip_addr (ia_family a) (ia_port a) SOCK_DGRAM 0
    (if decide (ia_family a = AF_INET) then set_ip4 (ia_ip d) (ia_ip4 a) else ia_ip a).

Lemma byte_at_sa stack a i :
  length stack = SOCKADDR_STORAGE -> sock_ok a -> 2 <= i < 4 ->
  byte_at (sa stack a) i = byte_at (sin_port (ia_port a)) (i - 2).
Proof.
  intros Hstack ([Hf|Hf] & _ & Hl & _) Hi; unfold sa;
    [rewrite (copy_inet a stack Hf) | rewrite (copy_inet6 a stack Hf)]; cbn [snd];
    (rewrite byte_at_put; [|sa_length Hl Hstack]); by rewrite decide_True by (rewrite length_sin_port; lia).
Qed.

Lemma learnt_from stack buf' d a :
  length stack = SOCKADDR_STORAGE -> length buf' = SOCKADDR_STORAGE -> sock_ok a ->
  dps_copy_saddr_laddr (received_from stack buf' a) d = learnt d a.
Proof.
  intros Hs Hb Ha. pose proof Ha as (Hf & Hp & Hl & Hby).
  assert (16 <= sockaddr_len a) as Hlen by (unfold sockaddr_len; case_decide; lia).
  assert (of_be16 (byte_at (received_from stack buf' a) 2) (byte_at (received_from stack buf' a) 3)
    = ia_port a) as Hport.
  { rewrite !byte_at_received by (done || lia). rewrite !byte_at_sa by (done || lia).
    unfold sin_port. rewrite u16_small by done. by apply of_be16_be16. }
  assert (ss_family (received_from stack buf' a) = ia_family a) as Hfam.
  { unfold ss_family. rewrite !byte_at_received by (done || lia). by apply sa_family. }
  unfold dps_copy_saddr_laddr, learnt. rewrite Hport, Hfam. destruct Hf as [Hf|Hf]; rewrite Hf.
  - rewrite Z.eqb_refl, decide_True by done. f_equal. f_equal.
    rewrite !byte_at_received by (done || lia). unfold sa. rewrite (copy_inet a stack Hf). cbn [snd].
    repeat (rewrite byte_at_put; [|sa_length Hl Hs]). rewrite !length_sin_port, !length_sin_addr.
    cbn [decide]. unfold sin_addr. rewrite u32_small by (by apply get_ip4_in32).
    apply of_be32_be32. by apply get_ip4_in32.
  - change (AF_INET6 =? AF_INET)%Z with false. rewrite decide_False by done. f_equal.
    unfold received_from, put. rewrite take_0. cbn [app].
    assert (length (sockaddr stack a) = 28) as H28
      by (rewrite length_sockaddr by done; unfold sockaddr_len; by rewrite Hf, decide_False).
    rewrite drop_app_le, take_app_le by (rewrite ?length_drop; lia).
    unfold sockaddr. rewrite sockaddr_len_eq by done. unfold sockaddr_len.
    rewrite Hf, decide_False by done. rewrite skipn_firstn_comm, take_take.
    change (16 `min` (28 - 8)) with 16. unfold sa. rewrite (copy_inet6 a stack Hf). cbn [snd].
    rewrite drop_put by sa_length Hl Hs.
    replace 16 with (length (take 16 (ia_ip a))) at 1 by (rewrite length_take; lia).
    rewrite slice_put by sa_length Hl Hs. rewrite take_ge by lia. done.
Qed.

(** The address of a server written to a socket address and read back from
    the bytes the receiver gets, whatever else was in the two buffers, is the
    address: family, port and the IP address of either version. *)
Theorem sockaddr_round_trip (stack buf' : list Z) (d a : ip_addr_t) :
  length stack = SOCKADDR_STORAGE -> length buf' = SOCKADDR_STORAGE -> sock_ok a ->
  let b := dps_copy_saddr_laddr (received_from stack buf' a) d in
  ia_family b = ia_family a /\ ia_port b = ia_port a /\
  (ia_family a = AF_INET -> ia_ip4 b = ia_ip4 a) /\ (ia_family a = AF_INET6 -> ia_ip b = ia_ip a).
Proof.
  intros Hs Hb Ha b. unfold b. rewrite learnt_from by done. split_and!; [done | done | |].
  - intros Hf. unfold learnt. rewrite decide_True by done. unfold ia_ip4 at 1. cbn [ia_ip].
    unfold set_ip4, get_ip4. pose proof Ha as (_ & _ & _ & Hby).
    rewrite u32_small by (by apply get_ip4_in32). unfold le32. cbn [app].
    apply of_be32_be32. by apply get_ip4_in32.
  - intros Hf. unfold learnt. by rewrite decide_False by (rewrite Hf; done).
Qed.

(** The client [c] knows the servers [m] and has the timers [T]. *)
Definition crepr (c : client) (m : gmap Z ip_addr_t) (T : nat -> list node) : Prop :=
  maps (cl_table c) m /\ repr (cl_timer c) T.

Definition explicit (a : ip_addr_t) : bool :=
  ((ia_family a =? AF_INET) || (ia_family a =? AF_INET6))%Z.

Lemma explicit_ok a : sock_ok a -> explicit a = true.
Proof. intros ([H|H] & _); unfold explicit; by rewrite H. Qed.

(** The address a packet of the network [vnid] goes to when the caller gives
    [addr]. *)
Definition destination (m : gmap Z ip_addr_t) (vnid : Z) (addr a : ip_addr_t) : Prop :=
  if explicit addr then a = addr else finds m vnid zero_ip_addr DPS_SUCCESS a.

Lemma cl_with_table_id c : cl_with_table (cl_table c) c = c.
Proof. by destruct c. Qed.

Lemma i32_small q : (0 <= q < 2147483648)%Z -> i32 q = q.
Proof. intros H. unfold i32. rewrite Z.mod_small by lia. lia. Qed.

Section xmit.
Context (o : os) (fuel : nat).
Context (Hstack : length (os_stack o) = SOCKADDR_STORAGE).

(** All the servers a client knows are addresses. *)
Definition servers_ok (m : gmap Z ip_addr_t) : Prop := forall v a, m !! v = Some a -> sock_ok a.

Lemma find_server_spec vnid c m :
  maps (cl_table c) m -> servers_ok m -> vt_mallocs (cl_table c) <= fuel ->
  (exists a, finds m vnid zero_ip_addr DPS_SUCCESS a /\ sock_ok a /\
     dps_find_server fuel vnid (os_stack o) c = Done (DPS_SUCCESS, sa (os_stack o) a, c)) \/
  (m = ∅ /\ dps_find_server fuel vnid (os_stack o) c = Done (DPS_ERROR, os_stack o, c)).
Proof.
  intros HR Hok Hf. unfold dps_find_server.
  destruct (find_spec fuel (cl_table c) m vnid zero_ip_addr HR Hf) as (st & a & -> & H).
  cbn [obind]. rewrite cl_with_table_id. destruct H as [[-> Em]|[(-> & Em & v & Ev)|(-> & _ & Em)]].
  - left. exists a. rewrite Z.eqb_refl, copy_laddr by eauto. split_and!; [by left | eauto | done].
  - left. exists a. rewrite Z.eqb_refl, copy_laddr by eauto. split_and!; [right; left; eauto | eauto | done].
  - right. done.
Qed.

Lemma resolve_spec vnid addr c m :
  maps (cl_table c) m -> servers_ok m -> (explicit addr = true -> sock_ok addr) ->
  vt_mallocs (cl_table c) <= fuel ->
  let r := if ((ia_family addr =? AF_INET) || (ia_family addr =? AF_INET6))%Z
    then let '(status, dst_addr) := dps_copy_laddr_saddr addr (os_stack o) in
         Done (status, dst_addr, c)
    else dps_find_server fuel vnid (os_stack o) c in
  (exists a, destination m vnid addr a /\ sock_ok a /\ r = Done (DPS_SUCCESS, sa (os_stack o) a, c)) \/
  (explicit addr = false /\ m = ∅ /\ r = Done (DPS_ERROR, os_stack o, c)).
Proof.
  intros HR Hok Ha Hf r. unfold r, destination. fold (explicit addr).
  destruct (explicit addr).
  - left. exists addr. specialize (Ha eq_refl). rewrite copy_laddr by done. done.
  - destruct (find_server_spec vnid c m HR Hok Hf) as [(a & H1 & H2 & H3)|[H1 H2]]; eauto.
Qed.

(** The timer of a request, by the id in its header. *)
Definition waiting (pkt : buf) (h : dps_client_hdr_t) (dst : ip_addr_t) (context : Z)
    (c : client) : node :=
  started pkt (Z.of_nat (length pkt)) (ch_query_id h) RAW_PKT_DEF_RETRANSMIT_INTERVAL
    MAX_NUM_DEF_RETRANSMIT (sv_sock_fd (cl_svr c)) (sa (os_stack o) dst) context RPT_OWNER_DPSA
    (os_clock o (rt_reads (cl_timer c))).

Definition datagram (pkt : buf) (dst : ip_addr_t) (c : client) : cl_event :=
  Cl_sendto (sv_sock_fd (cl_svr c)) pkt (Z.of_nat (length pkt)) (sockaddr (os_stack o) dst).

Lemma xmit_spec pkt h n addr context c m T :
  crepr c m T -> servers_ok m -> (explicit addr = true -> sock_ok addr) ->
  (explicit addr = true \/ m <> ∅) ->
  (sv_inuse (cl_svr c) <> 0)%Z -> dps_get_pkt_hdr pkt 0 zero_client_hdr = Done (h, n) ->
  vt_mallocs (cl_table c) <= fuel -> (0 < os_sendto o (cl_sends c))%Z ->
  let i := bucket_of (ch_query_id h) in
  (context = 0%Z \/
   (0 <= ch_query_id h < 2147483648)%Z /\ os_data o (cl_sends c) = true /\
   os_node o (rt_mallocs (cl_timer c)) = true /\ length (T i) < fuel) ->
  exists dst c', destination m (ch_vnid h) addr dst /\
    dps_protocol_xmit o fuel pkt (Z.of_nat (length pkt)) addr context c = Done (DPS_SUCCESS, c') /\
    cl_out c' = cl_out c ++ [datagram pkt dst c] /\ cl_table c' = cl_table c /\
    (if decide (context = 0%Z) then cl_timer c' = cl_timer c
     else repr (cl_timer c') (upd T i (T i ++ [waiting pkt h dst context c]))) /\
    cl_svr c' = cl_svr c /\ cl_recvs c' = cl_recvs c /\ cl_mallocs c' = cl_mallocs c.
Proof.
  intros [HR HT] Hok Ha Hm Hin Hh Hf Hs i Hctx. unfold dps_protocol_xmit.
  rewrite (proj2 (Z.eqb_neq _ _) Hin), Hh. cbn [obind].
  destruct (resolve_spec (ch_vnid h) addr c m HR Hok Ha Hf) as [(dst & Hd & Hdok & E)|(H1 & H2 & _)].
  2: { destruct Hm as [Hm|Hm]; congruence. }
  rewrite E. cbn [obind]. rewrite Z.eqb_refl. cbn [negb]. exists dst.
  assert (forall c1, (let '(bytes_sent, c2) := sendto o (sv_sock_fd (cl_svr c1)) pkt
    (Z.of_nat (length pkt)) (take (dps_get_sockaddr_len (sa (os_stack o) dst)) (sa (os_stack o) dst)) c1 in
    Done (if (bytes_sent <=? 0)%Z then DPS_XMIT_ERROR else DPS_SUCCESS, c2)) =
    Done (if (os_sendto o (cl_sends c1) <=? 0)%Z then DPS_XMIT_ERROR else DPS_SUCCESS,
      cl_emit (datagram pkt dst c1) (mk_client (cl_table c1) (cl_timer c1) (cl_fds c1) (cl_svr c1)
        (last_sent_time c1) (cl_mallocs c1) (cl_times c1) (S (cl_sends c1)) (cl_recvs c1) (cl_out c1))))
    as Hsend.
  { intros c1. unfold sendto, datagram. cbn. rewrite Nat2Z.id, (firstn_all pkt). done. }
  destruct (Z.eqb_spec context 0) as [->|Hc].
  - cbn [obind]. rewrite Hsend.
    rewrite (proj2 (Z.leb_gt _ _) Hs). eexists. rewrite decide_True by done. by split_and!.
  - destruct Hctx as [?|(Hq & Hdata & Hnode & Hlen)]; [done|].
    unfold start_timer. rewrite Hdata, i32_small by done.
    destruct (start_spec (os_clock o) (os_node o) fuel pkt (Z.of_nat (length pkt)) (ch_query_id h)
      RAW_PKT_DEF_RETRANSMIT_INTERVAL MAX_NUM_DEF_RETRANSMIT (sv_sock_fd (cl_svr c))
      (sa (os_stack o) dst) context RPT_OWNER_DPSA (cl_timer c) T HT) as (t' & Et & HT' & _ & _);
      [lia | done | by rewrite Nat2Z.id | rewrite length_sa by done; unfold SOCKADDR_STORAGE; lia
      | done | done |].
    rewrite Et. cbn [obind]. change (0 =? 0)%Z with true. cbn iota. rewrite Hsend.
    cbn [cl_sends cl_with_timer]. rewrite (proj2 (Z.leb_gt _ _) Hs).
    eexists. rewrite decide_False by done.
    split_and!; [done | done | done | done | exact HT' | done..].
Qed.

(** C28. A packet goes to the address the caller gives, or else to the server
    known for the network in its header, or else to any known server.  If it
    expects an answer its timer is started: it waits, with its context, under
    the query id in its header. *)
Theorem client_xmit (pkt : buf) (h : dps_client_hdr_t) (n : Z) (addr : ip_addr_t) (context : Z)
    (c : client) (m : gmap Z ip_addr_t) (T : nat -> list node) :
  crepr c m T -> servers_ok m -> (explicit addr = true -> sock_ok addr) ->
  (explicit addr = true \/ m <> ∅) ->
  (sv_inuse (cl_svr c) <> 0)%Z -> dps_get_pkt_hdr pkt 0 zero_client_hdr = Done (h, n) ->
  vt_mallocs (cl_table c) <= fuel -> (0 < os_sendto o (cl_sends c))%Z ->
  let i := bucket_of (ch_query_id h) in
  (context = 0%Z \/
   (0 <= ch_query_id h < 2147483648)%Z /\ os_data o (cl_sends c) = true /\
   os_node o (rt_mallocs (cl_timer c)) = true /\ length (T i) < fuel) ->
  exists dst c', destination m (ch_vnid h) addr dst /\
    dps_protocol_xmit o fuel pkt (Z.of_nat (length pkt)) addr context c = Done (DPS_SUCCESS, c') /\
    cl_out c' = cl_out c ++ [datagram pkt dst c] /\
    crepr c' m (if decide (context = 0%Z) then T
                else upd T i (T i ++ [waiting pkt h dst context c])).
Proof.
  intros HR Hok Ha Hm Hin Hh Hf Hs i Hctx.
  destruct (xmit_spec pkt h n addr context c m T HR Hok Ha Hm Hin Hh Hf Hs Hctx)
    as (dst & c' & Hd & E & Ho & Et & Hti & _).
  exists dst, c'. split_and!; [done | done | done |]. destruct HR as [HR HT]. split; [by rewrite Et|].
  destruct (decide (context = 0%Z)); [by rewrite Hti | done].
Qed.

(** Without a socket, or without an address and any known server, nothing is
    sent, no timer is started and the caller is told. *)
Theorem client_xmit_refused (pkt : buf) (h : dps_client_hdr_t) (n : Z) (addr : ip_addr_t)
    (context : Z) (c : client) :
  dps_get_pkt_hdr pkt 0 zero_client_hdr = Done (h, n) ->
  (sv_inuse (cl_svr c) = 0%Z \/
   (explicit addr = false /\ maps (cl_table c) ∅ /\ vt_mallocs (cl_table c) <= fuel)) ->
  dps_protocol_xmit o fuel pkt (Z.of_nat (length pkt)) addr context c = Done (DPS_XMIT_ERROR, c).
Proof.
  intros Hh [Hin|(Ha & HR & Hf)]; unfold dps_protocol_xmit; [by rewrite Hin|].
  destruct (sv_inuse (cl_svr c) =? 0)%Z; [done|]. rewrite Hh. cbn [obind].
  destruct (resolve_spec (ch_vnid h) addr c ∅ HR ltac:(done) ltac:(by rewrite Ha) Hf)
    as [(dst & Hd & _)|(_ & _ & E)].
  - unfold destination in Hd. rewrite Ha in Hd. destruct Hd as [[_ Hd]|[(_ & _ & v & Hv)|(Hd & _)]]; done.
  - by rewrite E.
Qed.

(** The timer keeps the sixteen bytes of a [struct sockaddr].  The address
    a packet is retransmitted to is the whole address it was sent to exactly if
    that is an IPv4 address; of an IPv6 address the last eight bytes of the IP
    address are lost. *)
Theorem rexmit_address (pkt : buf) (h : dps_client_hdr_t) (dst : ip_addr_t) (context : Z)
    (c : client) :
  sock_ok dst ->
  pt_addr (waiting pkt h dst context c) = take 16 (sockaddr (os_stack o) dst) /\
  (pt_addr (waiting pkt h dst context c) = sockaddr (os_stack o) dst <-> ia_family dst = AF_INET) /\
  (ia_family dst = AF_INET6 ->
     drop 8 (pt_addr (waiting pkt h dst context c)) = take 8 (ia_ip dst)).
Proof.
  intros Hd. pose proof (length_sockaddr (os_stack o) dst Hstack Hd) as Hl.
  unfold waiting, started. cbn [pt_addr].
  assert (take 16 (sa (os_stack o) dst) = take 16 (sockaddr (os_stack o) dst)) as E16.
  { unfold sockaddr. rewrite take_take, sockaddr_len_eq by done. f_equal. unfold sockaddr_len.
    case_decide; done. }
  split_and!; [done | |].
  - rewrite E16. split.
    + intros E. apply (f_equal length) in E. rewrite length_take, Hl in E. unfold sockaddr_len in E.
      destruct (decide (ia_family dst = AF_INET)); [done|]. lia.
    + intros Hf. apply take_ge. rewrite Hl. unfold sockaddr_len. rewrite decide_True by done. lia.
  - intros Hf. destruct Hd as (_ & _ & Hlip & _). unfold sa. rewrite (copy_inet6 _ _ Hf). cbn [snd].
    rewrite skipn_firstn_comm. rewrite drop_put by sa_length Hlip Hstack. cbn [Nat.sub].
    rewrite (take_ge (ia_ip dst) 16) by lia.
    replace (take 8 (drop 8 (put 8 (ia_ip dst) (put 0 (le16 AF_INET6) (os_stack o)))))
      with (take 8 (take 16 (drop 8 (put 8 (ia_ip dst) (put 0 (le16 AF_INET6) (os_stack o))))))
      by (rewrite take_take; done).
    rewrite <- Hlip. rewrite slice_put by sa_length Hlip Hstack. done.
Qed.
End xmit.
