(* ===== verification/ClientRecv.v ===== *)
(** * Receiving: the answer finds its request, the sender is learnt *)
From stdpp Require Import gmap.
From S2P Require Export ClientXmit Protocol Receive.

#[global] Arguments MAX_REPLIES : simpl never.

(** ** A packet in a larger buffer *)
Lemma matches_put b0 b off p :
  matches b off p -> length b <= length b0 -> matches (put 0 b b0) off p.
Proof.
  intros [Hl Hv] Hlen. unfold put. rewrite take_0. cbn [app Nat.add]. split.
  - rewrite length_app. lia.
  - intros i v Hi. rewrite lookup_app_l; [by apply Hv|]. by eapply lookup_lt_Some, Hv.
Qed.

Lemma pkt_at_put b0 b h body :
  pkt_at b h body -> length b <= length b0 -> pkt_at (put 0 b b0) h body.
Proof. intros (Hm & Hrest) Hl. split; [by apply matches_put | done]. Qed.

Section recv.
Context (o : os) (fuel : nat) (heap_counts : Z -> Z * Z) (stack_addr : ip_addr_t).
Context (Hstack : length (os_stack o) = SOCKADDR_STORAGE).

(** The context of the request with the id [q], and the timers without it. *)
Definition context_of (T : nat -> list node) (q : Z) : Z :=
  match (take_out q (T (bucket_of q))).1 with Some n => pt_context n | None => 0%Z end.
Definition answered (T : nat -> list node) (q : Z) : nat -> list node :=
  upd T (bucket_of q) (take_out q (T (bucket_of q))).2.

(** One packet received, a message delivered. *)
Record delivered (c c' : client) (d : dps_client_data_t) : Prop := {
  de_out : cl_out c' = cl_out c ++ [Cl_client d];
  de_table : cl_table c' = cl_table c;
  de_svr : cl_svr c' = cl_svr c;
  de_recvs : cl_recvs c' = cl_recvs c
}.

Lemma receive_reply h body t c T :
  repr (cl_timer c) T -> (0 < ch_query_id h < 2147483648)%Z ->
  length (T (bucket_of (ch_query_id h))) <= fuel -> is_Some (os_heap o (cl_mallocs c)) ->
  exists c', receive_msg (H := client_env o fuel) true true false h body (t, Done c)
    = Done (DPS_SUCCESS, (t, Done c')) /\
  delivered c c' (mk_client_data (context_of T (ch_query_id h)) h body) /\
  repr (cl_timer c') (answered T (ch_query_id h)).
Proof.
  intros HT Hq Hf [b Hb].
  set (c1 := mk_client (cl_table c) (cl_timer c) (cl_fds c) (cl_svr c) (last_sent_time c)
    (S (cl_mallocs c)) (cl_times c) (cl_sends c) (cl_recvs c) (cl_out c)).
  assert (malloc_buff (Env := client_env o fuel) (Done c) = (Some b, Done c1)) as Em by (cbn; rewrite Hb; done).
  destruct (stop_spec fuel (ch_query_id h) 0 RPT_OWNER_FIRST (cl_timer c) T HT ltac:(lia) Hf)
    as (t' & Et & HT' & _ & _).
  assert (timer_stop (Env := client_env o fuel) (ch_query_id h) (Done c1) =
    (true, context_of T (ch_query_id h), Done (cl_with_timer t' c1))) as Es.
  { cbn. unfold stop_timer. rewrite i32_small by lia. cbn [cl_timer c1].
    unfold context_of. by rewrite Et. }
  unfold receive_msg, with_msg, dps_alloc_buff. rewrite Em.
  rewrite (proj2 (Z.eqb_neq (ch_query_id h) 0)) by lia. cbn [andb negb].
  rewrite Es. eexists. split; [reflexivity|]. split; [by split | exact HT'].
Qed.

(** A location reply, whatever its sender. *)
Lemma reply_handled recv sender h x t c T :
  repr (cl_timer c) T -> pkt_at recv h (wire_endpoint_loc_reply x) ->
  ch_type h = DPS_ENDPOINT_LOC_REPLY ->
  loc_ok room_endpoint_loc_reply fuel (elr_version x) (elr_vnid x) (elr_mac x)
    (elr_vm_ip_addr x) (elr_tunnel_info x) ->
  (0 < ch_query_id h < 2147483648)%Z ->
  length (T (bucket_of (ch_query_id h))) <= fuel -> is_Some (os_heap o (cl_mallocs c)) ->
  exists x' c', x' ≡ x /\
  dps_process_rcvd_pkt (H := client_env o fuel) fuel heap_counts stack_addr recv sender (t, Done c) =
    Done (DPS_SUCCESS, (count incr_recv DPS_ENDPOINT_LOC_REPLY t, Done c')) /\
  delivered c c' (mk_client_data (context_of T (ch_query_id h)) (from h sender)
    (Body_endpoint_loc_reply x')) /\
  repr (cl_timer c') (answered T (ch_query_id h)).
Proof.
  intros HT Hp Hty Hl Hq Hf Hb.
  destruct (process_loc_reply (H := client_env o fuel) fuel recv sender h x (t, Done c) Hp Hty Hl)
    as (x' & Hx & E).
  destruct (receive_reply (from h sender) (Body_endpoint_loc_reply x') t c T HT Hq Hf Hb)
    as (c' & E' & Hd & HT'). rewrite E' in E.
  exists x', c'. split_and!; [done | | done | done].
  rewrite (rcvd_dispatch (H := client_env o fuel) fuel heap_counts stack_addr recv sender h _ _ Hp)
    by (rewrite Hty; reflexivity).
  rewrite (call_recv_at (H := client_env o fuel) fuel heap_counts stack_addr _
    (dps_process_endpoint_loc_reply (H := client_env o fuel) fuel)) by (rewrite Hty; reflexivity).
  rewrite E, Hty. done.
Qed.

(** A request that expects an answer, and the answer: the location reply
    with the query id of the request is delivered with the context of the
    request, and its timer is gone, the others as they were before. *)
Theorem request_answered (pkt : buf) (h : dps_client_hdr_t) (n : Z) (addr : ip_addr_t)
    (context : Z) (c : client) (m : gmap Z ip_addr_t) (T : nat -> list node) :
  crepr c m T -> servers_ok m -> (explicit addr = true -> sock_ok addr) ->
  (explicit addr = true \/ m <> ∅) ->
  (sv_inuse (cl_svr c) <> 0)%Z -> dps_get_pkt_hdr pkt 0 zero_client_hdr = Done (h, n) ->
  vt_mallocs (cl_table c) <= fuel -> (0 < os_sendto o (cl_sends c))%Z ->
  let q := ch_query_id h in
  let i := bucket_of q in
  context <> 0%Z -> (0 < q < 2147483648)%Z -> os_data o (cl_sends c) = true ->
  os_node o (rt_mallocs (cl_timer c)) = true -> length (T i) < fuel ->
  (forall k, k ∈ T i -> pt_pktId k <> q) -> is_Some (os_heap o (cl_mallocs c)) ->
  exists dst c1, destination m (ch_vnid h) addr dst /\
    ClientCtrl.dps_protocol_xmit o fuel pkt (Z.of_nat (length pkt)) addr context c = Done (DPS_SUCCESS, c1) /\
    cl_out c1 = cl_out c ++ [datagram o pkt dst c] /\
    forall recv sender h' x t,
      pkt_at recv h' (wire_endpoint_loc_reply x) -> ch_type h' = DPS_ENDPOINT_LOC_REPLY ->
      ch_query_id h' = q ->
      loc_ok room_endpoint_loc_reply fuel (elr_version x) (elr_vnid x) (elr_mac x)
        (elr_vm_ip_addr x) (elr_tunnel_info x) ->
      exists x' c2, x' ≡ x /\
        dps_process_rcvd_pkt (H := client_env o fuel) fuel heap_counts stack_addr recv sender (t, Done c1) =
          Done (DPS_SUCCESS, (count incr_recv DPS_ENDPOINT_LOC_REPLY t, Done c2)) /\
        cl_out c2 = cl_out c1 ++ [Cl_client (mk_client_data context (from h' sender)
          (Body_endpoint_loc_reply x'))] /\
        crepr c2 m T.
Proof.
  intros HR Hok Ha Hm Hin Hh Hf Hs q i Hc Hq Hdata Hnode Hlen Hfresh Hb.
  destruct (xmit_spec o fuel Hstack pkt h n addr context c m T HR Hok Ha Hm Hin Hh Hf Hs)
    as (dst & c1 & Hd & E & Ho & Et & Hti & Esv & Ercv & Em).
  { right. split_and!; try done; unfold q in Hq; lia. }
  rewrite decide_False in Hti by done. exists dst, c1. split_and!; [done..|].
  intros recv sender h' x t Hp Hty Hqh Hl. pose proof (length_sa (os_stack o) Hstack) as _.
  set (T1 := upd T i (T i ++ [waiting o pkt h dst context c])).
  assert (T1 i = T i ++ [waiting o pkt h dst context c]) as ET1
    by (unfold T1, upd; by rewrite decide_True).
  assert (take_out q (T1 i) = (Some (waiting o pkt h dst context c), T i)) as Etake
    by (rewrite ET1; by apply take_out_snoc).
  destruct (reply_handled recv sender h' x t c1 T1 Hti Hp Hty Hl) as (x' & c2 & Hx & E2 & Hde & HT2).
  { by rewrite Hqh. }
  { rewrite Hqh. fold i. rewrite ET1, length_app. simpl. lia. }
  { by rewrite Em. }
  exists x', c2. split_and!; [done | done | |].
  - rewrite (de_out _ _ _ Hde), Hqh. unfold context_of. fold i. by rewrite Etake.
  - destruct HR as [HR _]. split; [by rewrite (de_table _ _ _ Hde), Et|].
    eapply repr_ext; [exact HT2|]. intros j. unfold answered. rewrite Hqh. fold i. rewrite Etake.
    cbn [snd]. unfold T1, upd. repeat case_decide; congruence.
Qed.

(** ** A datagram *)

Lemma rcvd_loop_S n al ca d t c :
  rcvd_loop o fuel heap_counts stack_addr (S n) al ca d t c =
  (let '(bytes_read, al, ca, c) := recvfrom o al ca c in
   if (bytes_read <=? 0)%Z then Done (t, c)
   else
     let sender := dps_copy_saddr_laddr ca d in
     let* (hdr, _) := dps_get_pkt_hdr (sv_buff (cl_svr c)) 0 zero_client_hdr in
     let* (_, c) :=
       on_table (dps_vnid_node_mapping_entry_add (os_entry o) fuel (ch_vnid hdr) sender) c in
     let* (_, (t, w)) :=
       dps_process_rcvd_pkt (H := client_env o fuel) fuel heap_counts stack_addr (sv_buff (cl_svr c))
         sender (t, Done c) in
     let* c := w in
     rcvd_loop o fuel heap_counts stack_addr n al ca sender t c).
Proof. done. Qed.

(** The first datagram: its sender is learnt, then the packet is processed. *)
Lemma first_datagram socket data a stack' h body t c m :
  maps (cl_table c) m -> os_recv o (cl_recvs c) = Some (data, sockaddr stack' a) ->
  length stack' = SOCKADDR_STORAGE -> sock_ok a ->
  length (sv_buff (cl_svr c)) = DPS_MAX_BUFF_SZ -> length data <= DPS_MAX_BUFF_SZ ->
  pkt_at data h body -> vt_mallocs (cl_table c) <= fuel ->
  let sender := learnt (mk_ip_addr AF_INET 0 0 0 zero_ip) a in
  let recv := put 0 data (sv_buff (cl_svr c)) in
  exists c1 k al ca,
    dps_process_data_rcvd o fuel heap_counts stack_addr socket 0 (t, c) =
      (let* (_, (t1, w)) := dps_process_rcvd_pkt (H := client_env o fuel) fuel heap_counts stack_addr
                              recv sender (t, Done c1) in
       let* c2 := w in
       let* st := rcvd_loop o fuel heap_counts stack_addr (S k) al ca sender t1 c2 in
       Done (DPS_SUCCESS, st)) /\
    maps (cl_table c1) (if room_for (os_entry o) (cl_table c) m (ch_vnid h)
                        then <[ch_vnid h := sender]> m else m) /\
    cl_timer c1 = cl_timer c /\ cl_out c1 = cl_out c /\ cl_recvs c1 = S (cl_recvs c) /\
    cl_mallocs c1 = cl_mallocs c /\ pkt_at recv h body.
Proof.
  intros HR Hr Hs' Ha Hbuf Hlen Hp Hf sender recv.
  unfold dps_process_data_rcvd. cbn [Z.eqb negb fst snd].
  assert (exists k, Z.to_nat MAX_REPLIES = S (S k)) as [k ->]
    by (exists (Z.to_nat 9998); unfold MAX_REPLIES; lia).
  rewrite rcvd_loop_S. unfold recvfrom. rewrite Hr.
  assert (0 < length data) as Hpos.
  { destruct Hp as ((Hlp & _) & _). unfold wire_pkt in Hlp. rewrite length_app, length_wire_pkt_hdr in Hlp.
    unfold DPS_PKT_HDR_LEN in Hlp. lia. }
  rewrite (take_ge data) by lia. cbn zeta iota.
  rewrite (proj2 (Z.leb_gt (Z.of_nat (length data)) 0)) by lia.
  assert (length (sockaddr stack' a) = sockaddr_len a) as Hlsa by (by apply length_sockaddr).
  rewrite (take_ge (sockaddr stack' a)) by
    (rewrite Hlsa; unfold sockaddr_len, SOCKADDR_STORAGE; case_decide; lia).
  rewrite (learnt_from stack' (os_stack o) _ a) by done. fold sender.
  cbn [cl_svr cl_with_svr sv_buff sv_with_buff]. fold recv.
  pose proof (pkt_at_put (sv_buff (cl_svr c)) data h _ Hp ltac:(lia)) as Hp'. fold recv in Hp'.
  rewrite (pkt_at_hdr _ _ _ _ Hp'). cbn [obind ch_vnid with_reply_addr].
  set (c0 := cl_with_svr _ _).
  destruct (add_spec (os_entry o) fuel (cl_table c0) m (ch_vnid h) sender HR Hf)
    as (s1 & Es1 & HR1 & _).
  unfold on_table. rewrite Es1. cbn [obind].
  exists (cl_with_table s1 c0), k, (length (sockaddr stack' a)),
    (put 0 (sockaddr stack' a) (os_stack o)).
  split; [|split; [exact HR1 | done]].
  change (sv_buff (cl_svr (cl_with_table s1 c0))) with recv.
  destruct (dps_process_rcvd_pkt _ _ _ _ _ _) as [[ret [t1 w]]| |]; [|done|done]. cbn [obind].
  by destruct w.
Qed.

(** One datagram with a location reply, then nothing more: the sender is
    from now on the server of the network in the packet, the answer is
    delivered with the context of its request, whose timer is stopped, and the
    packet is counted. *)
Lemma reply_datagram (socket : Z) (data : buf) (a : ip_addr_t) (stack' : list Z)
    (h : dps_client_hdr_t) (x : dps_endpoint_loc_reply_t) (t : stats_tbl) (c : client)
    (m : gmap Z ip_addr_t) (T : nat -> list node) :
  crepr c m T -> os_recv o (cl_recvs c) = Some (data, sockaddr stack' a) ->
  os_recv o (S (cl_recvs c)) = None -> length stack' = SOCKADDR_STORAGE -> sock_ok a ->
  length (sv_buff (cl_svr c)) = DPS_MAX_BUFF_SZ -> length data <= DPS_MAX_BUFF_SZ ->
  pkt_at data h (wire_endpoint_loc_reply x) -> ch_type h = DPS_ENDPOINT_LOC_REPLY ->
  loc_ok room_endpoint_loc_reply fuel (elr_version x) (elr_vnid x) (elr_mac x)
    (elr_vm_ip_addr x) (elr_tunnel_info x) ->
  (0 < ch_query_id h < 2147483648)%Z -> vt_mallocs (cl_table c) <= fuel ->
  length (T (bucket_of (ch_query_id h))) <= fuel -> is_Some (os_heap o (cl_mallocs c)) ->
  let sender := learnt (mk_ip_addr AF_INET 0 0 0 zero_ip) a in
  exists x' c', x' ≡ x /\
    dps_process_data_rcvd o fuel heap_counts stack_addr socket 0 (t, c) =
      Done (DPS_SUCCESS, (count incr_recv DPS_ENDPOINT_LOC_REPLY t, c')) /\
    cl_out c' = cl_out c ++ [Cl_client (mk_client_data (context_of T (ch_query_id h))
      (from h sender) (Body_endpoint_loc_reply x'))] /\
    crepr c' (if room_for (os_entry o) (cl_table c) m (ch_vnid h)
              then <[ch_vnid h := sender]> m else m) (answered T (ch_query_id h)).
Proof.
  intros [HR HT] Hr Hr2 Hs' Ha Hbuf Hlen Hp Hty Hl Hq Hf HfT Hb sender.
  destruct (first_datagram socket data a stack' h _ t c m HR Hr Hs' Ha Hbuf Hlen Hp Hf)
    as (c1 & k & al & ca & -> & HR1 & Et & Eo & Er & Em & Hp').
  rewrite <- Et in HT. rewrite <- Em in Hb.
  destruct (reply_handled _ sender h x t c1 T HT Hp' Hty Hl Hq HfT Hb)
    as (x' & c2 & Hx & E2 & Hde & HT2).
  fold sender. rewrite E2. cbn [obind rcvd_loop]. unfold recvfrom.
  rewrite (de_recvs _ _ _ Hde), Er, Hr2. cbn zeta iota. change (-1 <=? 0)%Z with true. cbn iota.
  cbn [obind]. exists x'. eexists. split; [done|]. split; [done|].
  split; [rewrite <- Eo; exact (de_out _ _ _ Hde)|].
  split; [|exact HT2]. cbn [cl_table]. rewrite (de_table _ _ _ Hde). exact HR1.
Qed.

(** C39. Any sender can make a client read outside its table of timers: one
    acknowledgement with a query id of 2^31 or more, unless it is a multiple of
    1000 away from 2^32. *)
Theorem ack_datagram_faults (socket : Z) (data : buf) (a : ip_addr_t) (stack' : list Z)
    (h : dps_client_hdr_t) (t : stats_tbl) (c : client) (m : gmap Z ip_addr_t) :
  maps (cl_table c) m -> os_recv o (cl_recvs c) = Some (data, sockaddr stack' a) ->
  length stack' = SOCKADDR_STORAGE -> sock_ok a ->
  length (sv_buff (cl_svr c)) = DPS_MAX_BUFF_SZ -> length data <= DPS_MAX_BUFF_SZ ->
  pkt_at data h [] -> ch_type h = DPS_GENERAL_ACK ->
  (2147483648 <= ch_query_id h < 4294967296)%Z ->
  ((4294967296 - ch_query_id h) mod 1000 <> 0)%Z ->
  vt_mallocs (cl_table c) <= fuel -> is_Some (os_heap o (cl_mallocs c)) ->
  dps_process_data_rcvd o fuel heap_counts stack_addr socket 0 (t, c) = Fault.
Proof.
  intros HR Hr Hs' Ha Hbuf Hlen Hp Hty Hq Hmod Hf [b Hb].
  destruct (first_datagram socket data a stack' h _ t c m HR Hr Hs' Ha Hbuf Hlen Hp Hf)
    as (c1 & k & al & ca & -> & _ & Et & _ & _ & Em & Hp').
  rewrite (rcvd_dispatch (H := client_env o fuel) fuel heap_counts stack_addr _ _ h _ _ Hp')
    by (rewrite Hty; reflexivity).
  rewrite (call_recv_at (H := client_env o fuel) fuel heap_counts stack_addr _
    (dps_process_general_ack (H := client_env o fuel))) by (rewrite Hty; reflexivity).
  rewrite (process_general_ack (H := client_env o fuel) _ _ h _ Hp').
  set (c2 := mk_client (cl_table c1) (cl_timer c1) (cl_fds c1) (cl_svr c1) (last_sent_time c1)
    (S (cl_mallocs c1)) (cl_times c1) (cl_sends c1) (cl_recvs c1) (cl_out c1)).
  assert (malloc_buff (Env := client_env o fuel) (Done c1) = (Some b, Done c2)) as Ema
    by (rewrite <- Em in Hb; cbn; rewrite Hb; done).
  pose proof (hash_negative (ch_query_id h) Hq Hmod) as Hneg.
  assert (timer_stop (Env := client_env o fuel) (ch_query_id h) (Done c2) = (false, 0%Z, Fault)) as Es.
  { cbn. unfold stop_timer, raw_proto_timer_stop, delete_raw_pkt.
    destruct (Z.eqb_spec (i32 (ch_query_id h)) 0) as [E|_]; [rewrite E in Hneg; by vm_compute in Hneg|].
    unfold bucketPtr. by rewrite (proj2 (Z.ltb_lt _ _) Hneg). }
  unfold receive_msg, with_msg, dps_alloc_buff. rewrite Ema. cbn [from with_reply_addr ch_query_id].
  rewrite (proj2 (Z.eqb_neq (ch_query_id h) 0)) by lia. cbn [andb negb].
  rewrite Es. reflexivity.
Qed.
End recv.
