(* ===== verification/ClientServers.v ===== *)
(** * Servers: given by the controller, lost, and asked for again *)
From stdpp Require Import gmap.
From S2P Require Export ClientRecv Exchange FdLoop.

Section servers.
Context (o : os) (fuel : nat).

Lemma add_server_table node c m :
  maps (cl_table c) m -> vt_mallocs (cl_table c) <= fuel ->
  room_for (os_entry o) (cl_table c) m 0 = true ->
  exists st s', on_table (dps_vnid_node_mapping_entry_add (os_entry o) fuel 0 node) c =
    Done (st, cl_with_table s' c) /\ maps s' (<[0%Z := node]> m).
Proof.
  intros HR Hf Hroom. destruct (add_spec (os_entry o) fuel (cl_table c) m 0 node HR Hf)
    as (s' & E & HR' & _). rewrite Hroom in E, HR'. unfold on_table. rewrite E. cbn [obind]. eauto.
Qed.

(** The address family the socket is opened with. *)
Definition socket_family (node : ip_addr_t) (c : client) : Z :=
  if (ia_family node =? AF_INET)%Z then AF_INET else sv_ip4_family (cl_svr c).

(** The first server: its datagram socket is opened and put in the loop with
    this module's routine, and it becomes the server of network 0.  Where there
    is no socket, or no place in the loop, the caller is told, the server slot
    is free again and no network has changed. *)
Theorem server_add_first (domain : Z) (node : ip_addr_t) (c : client) (m : gmap Z ip_addr_t)
    (l : list reg) :
  let fd := os_socket o (socket_family node c) SOCK_DGRAM in
  maps (cl_table c) m -> fds (cl_fds c) l -> vt_mallocs (cl_table c) <= fuel ->
  room_for (os_entry o) (cl_table c) m 0 = true ->
  sv_inuse (cl_svr c) = 0%Z -> u8 (ia_xport_type node) = SOCK_DGRAM -> os_fcntl o = true ->
  exists c', dps_server_add o fuel domain node c =
      Done (if (fd <? 0)%Z then DPS_ERROR_NO_RESOURCES
            else if decide (length l < CORE_API_P1_POLL_FD_MAX) then DPS_SUCCESS else DPS_ERROR, c') /\
    if decide ((0 <= fd)%Z /\ length l < CORE_API_P1_POLL_FD_MAX) then
      sv_inuse (cl_svr c') = 1%Z /\ sv_sock_fd (cl_svr c') = fd /\
      maps (cl_table c') (<[0%Z := node]> m) /\
      fds (cl_fds c') (l ++ [(fd, mk_poll_cb (Cb DATA_RCVD_ROUTINE) 0)]) /\ cl_out c' = cl_out c
    else
      sv_inuse (cl_svr c') = 0%Z /\ cl_table c' = cl_table c /\ fds (cl_fds c') l /\
      cl_out c' = cl_out c ++ (if (fd <? 0)%Z then [] else [Cl_close fd]).
Proof.
  intros fd HR Hl Hf Hroom Hin Hx Hfc. unfold dps_server_add. rewrite Hin. cbn [Z.eqb negb].
  set (c1 := cl_with_svr _ c).
  assert (sv_xport_type (cl_svr c1) = SOCK_DGRAM) as ->
    by (unfold c1, dps_update_svr_addr_list; cbn; destruct (ia_family node =? AF_INET)%Z; exact Hx).
  assert (sv_ip4_family (cl_svr c1) = socket_family node c) as ->
    by (unfold c1, dps_update_svr_addr_list, socket_family; cbn; by destruct (ia_family node =? AF_INET)%Z).
  rewrite Z.eqb_refl. fold fd. destruct (Z.ltb_spec fd 0) as [Hfd|Hfd].
  - eexists. split; [done|]. rewrite decide_False by lia. rewrite app_nil_r. done.
  - rewrite Hfc. cbn [negb].
    destruct (add_fd_spec fd (Cb DATA_RCVD_ROUTINE) 0 (cl_fds c) l Hl) as (f' & Ef & Hf').
    revert Ef Hf'. unfold reg_add. rewrite (proj2 (Z.ltb_ge fd 0)) by done.
    cbn [cl_fds cl_with_svr]. change (cl_fds c1) with (cl_fds c).
    destruct (decide (length l < CORE_API_P1_POLL_FD_MAX)) as [Hlt|Hge]; cbn [fst snd]; intros -> Hf'.
    + cbn [obind]. change (DOVE_STATUS_OK =? 0)%Z with true. cbn iota.
      set (c2 := cl_with_fds f' _).
      destruct (add_server_table node c2 m HR Hf Hroom) as (st & s' & -> & HR'). cbn [obind].
      eexists. split; [done|]. rewrite decide_True by done. split_and!; [|done|exact HR'|exact Hf'|done].
      cbn. by destruct (ia_family node =? AF_INET)%Z.
    + cbn [obind]. change (DOVE_STATUS_NO_RESOURCES =? 0)%Z with false. cbn iota.
      eexists. split; [done|]. rewrite decide_False by (intros [_ ?]; done). done.
Qed.

(** The server given by the controller changes: the old one is forgotten by
    the networks 0 to 63 that it serves, and the new one serves network 0; if
    it is the old one, nothing happens. *)
Theorem server_add_next (domain : Z) (node old : ip_addr_t) (c : client) (m : gmap Z ip_addr_t) :
  maps (cl_table c) m -> vt_mallocs (cl_table c) <= fuel ->
  (forall n, os_entry o n = true) ->
  (sv_inuse (cl_svr c) <> 0)%Z -> m !! 0%Z = Some old ->
  exists c', dps_server_add o fuel domain node c = Done (DPS_SUCCESS, c') /\
    maps (cl_table c') (if same_server node old then m else <[0%Z := node]> (forget_first old m)) /\
    cl_svr c' = (if same_server node old then cl_svr c
                 else dps_update_svr_addr_list node (cl_svr c)) /\
    cl_fds c' = cl_fds c.
Proof.
  intros HR Hf Hmem Hin Hold. unfold dps_server_add. rewrite (proj2 (Z.eqb_neq _ _) Hin). cbn [negb].
  unfold replace_server. rewrite (search_spec fuel (cl_table c) m 0 zero_ip_addr HR Hf), Hold.
  cbn [obind]. rewrite cl_with_table_id, Z.eqb_refl. destruct (same_server node old) eqn:Es.
  - exists c. done.
  - destruct (del_dup_spec fuel old (cl_table c) m HR Hf) as (s1 & -> & HR1 & Hn1). cbn [obind].
    set (c1 := cl_with_svr _ _).
    destruct (add_server_table node c1 (forget_first old m) HR1) as (st & s2 & -> & HR2).
    { simpl. lia. }
    { unfold room_for. destruct (forget_first old m !! 0%Z); [done|]. by rewrite !Hmem. }
    cbn [obind]. eexists. split; [done|]. split; [exact HR2 | done].
Qed.

(** A socket that cannot be made non-blocking is reported as a success: the
    slot is taken, but nothing listens to the socket and no network, not even
    network 0, has a server. *)
Theorem server_add_unreported (domain : Z) (node : ip_addr_t) (c : client) :
  let fd := os_socket o (socket_family node c) SOCK_DGRAM in
  sv_inuse (cl_svr c) = 0%Z -> u8 (ia_xport_type node) = SOCK_DGRAM -> (0 <= fd)%Z ->
  os_fcntl o = false ->
  exists c', dps_server_add o fuel domain node c = Done (DPS_SUCCESS, c') /\
    sv_inuse (cl_svr c') = 1%Z /\ cl_table c' = cl_table c /\ cl_fds c' = cl_fds c.
Proof.
  intros fd Hin Hx Hfd Hfc. unfold dps_server_add. rewrite Hin. cbn [Z.eqb negb].
  set (c1 := cl_with_svr _ c).
  assert (sv_xport_type (cl_svr c1) = SOCK_DGRAM) as ->
    by (unfold c1, dps_update_svr_addr_list; cbn; destruct (ia_family node =? AF_INET)%Z; exact Hx).
  assert (sv_ip4_family (cl_svr c1) = socket_family node c) as ->
    by (unfold c1, dps_update_svr_addr_list, socket_family; cbn; by destruct (ia_family node =? AF_INET)%Z).
  rewrite Z.eqb_refl. fold fd. rewrite (proj2 (Z.ltb_ge fd 0)) by done. rewrite Hfc. cbn [negb].
  eexists. split; [done|]. split_and!; [|done..]. cbn. by destruct (ia_family node =? AF_INET)%Z.
Qed.

(** The first server at an IPv6 address: the socket is opened for the family
    of the IPv4 member, which is unset.  If the system has no sockets of family
    0, the server cannot be added. *)
Theorem server_add_ipv6_fails (domain : Z) (node : ip_addr_t) (c : client) :
  sv_inuse (cl_svr c) = 0%Z -> sv_ip4_family (cl_svr c) = 0%Z ->
  ia_family node = AF_INET6 -> u8 (ia_xport_type node) = SOCK_DGRAM ->
  (os_socket o 0 SOCK_DGRAM < 0)%Z ->
  exists c', dps_server_add o fuel domain node c = Done (DPS_ERROR_NO_RESOURCES, c') /\
    sv_inuse (cl_svr c') = 0%Z /\ cl_table c' = cl_table c.
Proof.
  intros Hin H4 Hf6 Hx Hs. unfold dps_server_add. rewrite Hin. cbn [Z.eqb negb].
  unfold dps_update_svr_addr_list. rewrite Hf6. change (AF_INET6 =? AF_INET)%Z with false. cbn iota.
  cbn [cl_svr cl_with_svr sv_with_inuse sv_xport_type sv_ip4_family]. rewrite Hx, H4, Z.eqb_refl.
  rewrite (proj2 (Z.ltb_lt _ _) Hs). eexists. by split_and!.
Qed.

(** ** No answer *)

(** A new server is asked for unless one was asked for a short while ago. *)
Definition asked (c : client) : list cl_event :=
  if (DpsReqNewNodeInterval <=? os_time o (cl_times c) - last_sent_time c)%Z
  then [Cl_client (new_node_request o)] else [].

Lemma req_new_spec vnid c m :
  maps (cl_table c) m -> vt_mallocs (cl_table c) <= fuel ->
  exists c', ClientCtrl.dps_req_new_dps_node o fuel vnid c = Done c' /\ maps (cl_table c') (delete vnid m) /\
    cl_out c' = cl_out c ++ asked c /\ cl_timer c' = cl_timer c /\
    last_sent_time c' = (match asked c with [] => last_sent_time c
                         | _ => u32 (os_time o (S (cl_times c))) end).
Proof.
  intros HR Hf. unfold ClientCtrl.dps_req_new_dps_node, on_table, asked.
  destruct (remove_all fuel (cl_table c) m vnid HR Hf) as (s' & -> & HR' & _). cbn [obind].
  unfold time_now. cbn [cl_times cl_with_table last_sent_time].
  destruct (DpsReqNewNodeInterval <=? _)%Z; eexists; (split; [done|]); split_and!; try exact HR';
    try done. by rewrite app_nil_r.
Qed.

(** C29. A server that does not answer the last retry of a request is forgotten
    for the network of the request; the requester gets the reply with the
    status [DPS_NO_RESPONSE] and its context.  A new server is asked for when
    132 seconds or more have gone by since the time that was noted at the last
    such question, and then the time is noted; otherwise none is asked for and
    the time that was noted stays. *)
Theorem no_answer (pkt : buf) (h : dps_client_hdr_t) (body : pat) (context : Z) (t : stats_tbl)
    (c : client) (m : gmap Z ip_addr_t) (T : nat -> list node) :
  crepr c m T -> vt_mallocs (cl_table c) <= fuel ->
  pkt_at pkt h body -> known_type (ch_type h) = true ->
  exists c', dps_retransmit_callback (H := client_env o fuel)
      RAW_PROTO_MAX_NUM_RETRANSMIT_EXCEEDED pkt context (t, Done c) = Done (t, Done c') /\
    crepr c' (delete (ch_vnid h) m) T /\
    last_sent_time c' =
      (if (132 <=? os_time o (cl_times c) - last_sent_time c)%Z
       then u32 (os_time o (S (cl_times c))) else last_sent_time c) /\
    cl_out c' = cl_out c ++
      (if (132 <=? os_time o (cl_times c) - last_sent_time c)%Z
       then [Cl_client (new_node_request o)] else []) ++
      [Cl_client (mk_client_data context
         (mk_client_hdr (reply_type (ch_type h)) (ch_type h) (ch_client_id h)
            (ch_transaction_type h) (ch_vnid h) DPS_NO_RESPONSE (ch_query_id h) zero_ip_addr)
         (reply_body h))].
Proof.
  intros [HR HT] Hf Hp Hk.
  rewrite (callback_spec (H := client_env o fuel) pkt h body context t (Done c) Hp Hk).
  cbn [dps_server client_env Env.dps_req_new_dps_node deliver in_client].
  destruct (req_new_spec (ch_vnid h) c m HR Hf) as (c1 & -> & HR1 & Ho & Et & El). cbn [obind in_client snd].
  eexists. split; [reflexivity|]. split; [split; [exact HR1|]|split].
  - cbn [cl_timer cl_emit]. by rewrite Et.
  - cbn [last_sent_time cl_emit]. rewrite El. unfold asked.
    change DpsReqNewNodeInterval with 132%Z. by destruct (132 <=? _)%Z.
  - cbn [cl_out cl_emit]. by rewrite Ho, <- app_assoc.
Qed.
End servers.
