(* ===== verification/ClientStart.v ===== *)
(** * The start of a client, and the theorems on clients evaluated

    [dps_client_init] on the static data of the program; then a client that
    knows two servers, in front of an operating system whose calls succeed. *)
From stdpp Require Import gmap.
From S2P Require Export ClientServers FdLoop RecvSpec.

(** The initialisation leaves a client that knows no server and waits for
    no answer, its table and its timer ready; without threads or mutexes the
    caller is told. *)
Theorem client_init_ready (pthread : nat -> bool) :
  exists c, dps_client_init true pthread client0 =
      Done (if pthread 0 && pthread 1 && pthread 2 && pthread 3 && pthread 4 && pthread 5 && pthread 6
            then DPS_SUCCESS else DPS_ERROR_NO_RESOURCES, c) /\
    crepr c ∅ no_timers /\ cl_out c = [] /\ vt_mallocs (cl_table c) = 0 /\
    sv_inuse (cl_svr c) = 0%Z.
Proof.
  unfold dps_client_init, on_table. change (cl_table client0) with dps_vnid_node_mapping_table.
  destruct init_maps as (s & -> & HR & Hn). cbn [obind].
  change (cl_timer (cl_with_table s client0)) with rtimer0.
  assert (exists rc t, raw_proto_timer_init pthread (Some RETRANSMIT_ROUTINE) RPT_OWNER_DPSA rtimer0
      = Done (rc, t) /\ rt_heap t = ∅ /\ gHashTab t = replicate (Z.to_nat MAX_HASH_BUCKET) None /\
    (rc =? RAW_PROTO_TIMER_RETURN_OK)%Z = pthread 0 && pthread 1 && pthread 2 && pthread 3 && pthread 4
      && pthread 5 && pthread 6) as (rc & t & Et & Hh & Hg & Hrc).
  { unfold raw_proto_timer_init. change (init_done rtimer0) with false. cbn iota.
    change (IS_VALID_RPT_OWNER RPT_OWNER_DPSA) with true. cbn [negb].
    destruct (pthread 0 && pthread 1 && pthread 2 && pthread 3 && pthread 4); cbn [negb andb];
      [|do 2 eexists; done].
    change (set_callback RPT_OWNER_DPSA (Some RETRANSMIT_ROUTINE)
      (with_tab (replicate (Z.to_nat MAX_HASH_BUCKET) None) rtimer0)) with
      (Done (with_callbacks (<[Z.to_nat RPT_OWNER_DPSA := Some RETRANSMIT_ROUTINE]>
        (rpt_callbacks rtimer0)) (with_tab (replicate (Z.to_nat MAX_HASH_BUCKET) None) rtimer0))).
    cbn [obind]. destruct (pthread 5); cbn [andb negb]; [|do 2 eexists; done].
    destruct (pthread 6); do 2 eexists; done. }
  rewrite Et. cbn [obind]. rewrite Hrc. eexists. split; [done|].
  split; [split; [exact HR | by apply repr_empty] | done].
Qed.

(** ** A client that knows two servers *)
Definition sample_stack : list Z := replicate 128 170%Z.
Definition peer : ip_addr_t := mk_ip_addr AF_INET 902 0 0 (v4 10 0 0 1).
Definition peer6 : ip_addr_t := mk_ip_addr AF_INET6 902 0 0 (v6 9).

(** One datagram arrives. *)
Definition sample_os (fcntl : bool) (datagram : buf) : os :=
  mk_os (fun _ => 100%Z) (fun _ => true) (fun _ => true) (fun _ => true) (fun _ => 200%Z)
    (fun _ => Some (replicate DPS_MAX_BUFF_SZ 0%Z)) (fun _ => 64%Z)
    (fun n => if decide (n = 0) then Some (datagram, sockaddr sample_stack peer) else None)
    (fun family _ => if (family =? AF_INET)%Z then 9%Z else (-1)%Z) fcntl sample_stack
    (replicate 8 170%Z).
Definition sample_svr (inuse : Z) : dps_svr_addr_info_t :=
  mk_svr_info 0 0 0 0 0 [] 9 2 inuse (replicate DPS_MAX_BUFF_SZ 0%Z).
Definition sample_client (inuse : Z) (f : fd_process) (s : vtable) : client :=
  mk_client s rtimer1 f (sample_svr inuse) 0 0 0 0 0 [].

Definition server1 : ip_addr_t := mk_ip_addr AF_INET 902 2 0 (v4 10 0 0 2).
Definition server2 : ip_addr_t := mk_ip_addr AF_INET 902 2 0 (v4 10 0 0 3).
Definition two_servers : gmap Z ip_addr_t := <[7%Z := server2]> (<[0%Z := server1]> ∅).

Lemma two_servers_table : exists s, maps s two_servers /\ vt_mallocs s <= 4.
Proof.
  destruct init_maps as (s0 & _ & HR0 & Hn0).
  destruct (add_spec (fun _ => true) 9 s0 ∅ 0 server1 HR0 ltac:(lia)) as (s1 & _ & HR1 & Hn1).
  destruct (add_spec (fun _ => true) 9 s1 _ 7 server2 HR1 ltac:(lia)) as (s2 & _ & HR2 & Hn2).
  exists s2. split; [exact HR2 | lia].
Qed.

Lemma repr_rtimer1' : repr rtimer1 no_timers.
Proof. by apply repr_empty. Qed.

Lemma sample_crepr inuse f s : maps s two_servers -> crepr (sample_client inuse f s) two_servers no_timers.
Proof. intros H. split; [exact H | exact repr_rtimer1']. Qed.

Lemma table_fuel inuse f s : vt_mallocs s <= 4 -> vt_mallocs (cl_table (sample_client inuse f s)) <= 9.
Proof. cbn. lia. Qed.

Lemma sample_maps inuse f s m : maps s m -> maps (cl_table (sample_client inuse f s)) m.
Proof. done. Qed.
Lemma sample_fds inuse f s l : fds f l -> fds (cl_fds (sample_client inuse f s)) l.
Proof. done. Qed.
Lemma sample_buff inuse f s :
  length (sv_buff (cl_svr (sample_client inuse f s))) = DPS_MAX_BUFF_SZ.
Proof. apply length_replicate. Qed.
Lemma first_recv b d inuse f s :
  os_recv (sample_os b d) (cl_recvs (sample_client inuse f s)) = Some (d, sockaddr sample_stack peer).
Proof. reflexivity. Qed.
Lemma second_recv b d inuse f s :
  os_recv (sample_os b d) (S (cl_recvs (sample_client inuse f s))) = None.
Proof. reflexivity. Qed.
Lemma sample_heap b d inuse f s :
  is_Some (os_heap (sample_os b d) (cl_mallocs (sample_client inuse f s))).
Proof. by eexists. Qed.

Lemma two_servers_0 : two_servers !! 0%Z = Some server1.
Proof. by vm_compute. Qed.
Lemma servers_differ : same_server server2 server1 = false.
Proof. by vm_compute. Qed.
Lemma room_two_servers b d inuse f s :
  room_for (os_entry (sample_os b d)) (cl_table (sample_client inuse f s)) two_servers 0 = true.
Proof. unfold room_for. by rewrite two_servers_0. Qed.

Lemma two_servers_ok : servers_ok two_servers.
Proof.
  intros v a. unfold two_servers. destruct (decide (v = 7%Z)) as [->|].
  - rewrite lookup_insert_eq. intros [= <-]. split; [by left|]. split; [by vm_compute|].
    split; [done|]. repeat constructor; vm_compute; congruence.
  - rewrite lookup_insert_ne by done. destruct (decide (v = 0%Z)) as [->|].
    + rewrite lookup_insert_eq. intros [= <-]. split; [by left|]. split; [by vm_compute|].
      split; [done|]. repeat constructor; vm_compute; congruence.
    + by rewrite lookup_insert_ne.
Qed.

Lemma peer_ok : sock_ok peer.
Proof.
  split; [by left|]. split; [by vm_compute|]. split; [done|].
  repeat constructor; vm_compute; congruence.
Qed.
Lemma peer6_ok : sock_ok peer6.
Proof.
  split; [by right|]. split; [by vm_compute|]. split; [done|].
  repeat constructor; vm_compute; congruence.
Qed.

Lemma stack_length : length sample_stack = SOCKADDR_STORAGE.
Proof. reflexivity. Qed.

(** ** Evaluated *)
Example sockaddr_round_trip_witness :
  (length sample_stack = SOCKADDR_STORAGE /\ sock_ok peer6) /\
  let b := dps_copy_saddr_laddr (received_from sample_stack sample_stack peer6) zero_ip_addr in
  ia_family b = ia_family peer6 /\ ia_port b = ia_port peer6 /\
  (ia_family peer6 = AF_INET -> ia_ip4 b = ia_ip4 peer6) /\
  (ia_family peer6 = AF_INET6 -> ia_ip b = ia_ip peer6).
Proof.
  split; [exact (conj stack_length peer6_ok)|].
  exact (sockaddr_round_trip sample_stack sample_stack zero_ip_addr peer6 stack_length stack_length
    peer6_ok).
Defined.

(** The request of a location in network 7, which server 2 serves. *)
Definition loc_req_hdr : dps_client_hdr_t := sample_hdr DPS_ENDPOINT_LOC_REQ 41.
Definition loc_req_pkt : buf := packet loc_req_hdr (wire_loc_req sample_loc_req).
Definition unresolved : ip_addr_t := zero_ip_addr.

Lemma loc_req_parsed :
  dps_get_pkt_hdr loc_req_pkt 0 zero_client_hdr =
  Done (with_reply_addr loc_req_hdr zero_ip_addr, Z.of_nat (length (wire_loc_req sample_loc_req))).
Proof. apply (pkt_at_hdr _ _ _ zero_client_hdr). on_packet. Qed.

Lemma two_servers_not_empty : two_servers <> ∅.
Proof. intros E. apply (f_equal (fun m => m !! 0%Z)) in E. by vm_compute in E. Qed.

Definition loc_req_rcvd : dps_client_hdr_t := with_reply_addr loc_req_hdr zero_ip_addr.

Lemma query_id_ok : (0 < ch_query_id loc_req_rcvd < 2147483648)%Z.
Proof. split; reflexivity. Qed.
Lemma no_timers_short q : length (no_timers (bucket_of q)) < 9.
Proof. apply (Nat.lt_0_succ 8). Qed.
Lemma unresolved_ok : explicit unresolved = true -> sock_ok unresolved.
Proof. intros H. discriminate H. Qed.

Example client_xmit_witness :
  exists s, maps s two_servers /\
  let c := sample_client 1 fd_process0 s in
  exists dst c', destination two_servers 7 unresolved dst /\
    ClientCtrl.dps_protocol_xmit (sample_os true []) 9 loc_req_pkt (Z.of_nat (length loc_req_pkt))
      unresolved 77 c = Done (DPS_SUCCESS, c') /\
    cl_out c' = cl_out c ++ [datagram (sample_os true []) loc_req_pkt dst c] /\
    crepr c' two_servers (upd no_timers 41 [waiting (sample_os true []) loc_req_pkt loc_req_rcvd
      dst 77 c]).
Proof.
  destruct two_servers_table as (s & HR & Hn). exists s. split; [exact HR|]. intros c.
  apply (client_xmit (sample_os true []) 9 stack_length loc_req_pkt loc_req_rcvd
    (Z.of_nat (length (wire_loc_req sample_loc_req))) unresolved 77 c two_servers no_timers).
  - exact (sample_crepr 1 fd_process0 s HR).
  - exact two_servers_ok.
  - exact unresolved_ok.
  - right. exact two_servers_not_empty.
  - discriminate.
  - exact loc_req_parsed.
  - apply (table_fuel 1 fd_process0 s). lia.
  - reflexivity.
  - right. split; [pose proof query_id_ok; lia|]. split; [reflexivity|]. split; [reflexivity|].
    apply no_timers_short.
Defined.

Example client_xmit_refused_witness :
  exists s, maps s ∅ /\
  ClientCtrl.dps_protocol_xmit (sample_os true []) 9 loc_req_pkt (Z.of_nat (length loc_req_pkt))
    unresolved 77 (sample_client 1 fd_process0 s) =
  Done (DPS_XMIT_ERROR, sample_client 1 fd_process0 s).
Proof.
  destruct init_maps as (s & _ & HR & Hn0). exists s. split; [exact HR|].
  assert (vt_mallocs s <= 4) as Hn by (rewrite Hn0; lia).
  exact (client_xmit_refused (sample_os true []) 9 loc_req_pkt _ _ unresolved 77
    (sample_client 1 fd_process0 s) loc_req_parsed
    (or_intror (conj eq_refl (conj HR (table_fuel _ _ _ Hn))))).
Defined.

Example rexmit_address_witness :
  exists s, maps s two_servers /\
  drop 8 (pt_addr (waiting (sample_os true []) loc_req_pkt loc_req_hdr peer6 77
                     (sample_client 1 fd_process0 s))) = take 8 (ia_ip peer6).
Proof.
  destruct two_servers_table as (s & HR & _). exists s. split; [exact HR|].
  exact (proj2 (proj2 (rexmit_address (sample_os true []) stack_length loc_req_pkt loc_req_hdr peer6 77
    (sample_client 1 fd_process0 s) peer6_ok)) eq_refl).
Defined.

(** The answer, with the same query id. *)
Definition loc_reply_hdr : dps_client_hdr_t := sample_hdr DPS_ENDPOINT_LOC_REPLY 41.
Definition loc_reply_pkt : buf := packet loc_reply_hdr (wire_endpoint_loc_reply sample_loc_reply).

Lemma loc_reply_fits : length loc_reply_pkt <= DPS_MAX_BUFF_SZ.
Proof. apply Nat.leb_le. vm_compute. reflexivity. Qed.
Lemma loc_reply_at : pkt_at loc_reply_pkt loc_reply_hdr (wire_endpoint_loc_reply sample_loc_reply).
Proof. on_packet. Qed.
Lemma loc_reply_id : (0 < ch_query_id loc_reply_hdr < 2147483648)%Z.
Proof. split; reflexivity. Qed.
Lemma loc_reply_ok :
  loc_ok room_endpoint_loc_reply 9 (elr_version sample_loc_reply) (elr_vnid sample_loc_reply)
    (elr_mac sample_loc_reply) (elr_vm_ip_addr sample_loc_reply) (elr_tunnel_info sample_loc_reply).
Proof. decided. Qed.

Example request_answered_witness :
  exists s, maps s two_servers /\
  let o := sample_os true [] in
  let c := sample_client 1 fd_process0 s in
  exists dst c1, destination two_servers 7 unresolved dst /\
    ClientCtrl.dps_protocol_xmit o 9 loc_req_pkt (Z.of_nat (length loc_req_pkt)) unresolved 77 c
      = Done (DPS_SUCCESS, c1) /\
    cl_out c1 = cl_out c ++ [datagram o loc_req_pkt dst c] /\
    exists x' c2, x' ≡ sample_loc_reply /\
      dps_process_rcvd_pkt (H := client_env o 9) 9 (fun _ => (0, 0)%Z) zero_ip_addr loc_reply_pkt peer
        (dps_pkt_stats_tbl, Done c1) =
        Done (DPS_SUCCESS, (count incr_recv DPS_ENDPOINT_LOC_REPLY dps_pkt_stats_tbl, Done c2)) /\
      cl_out c2 = cl_out c1 ++ [Cl_client (mk_client_data 77 (from loc_reply_hdr peer)
        (Body_endpoint_loc_reply x'))] /\
      crepr c2 two_servers no_timers.
Proof.
  destruct two_servers_table as (s & HR & Hn). exists s. split; [exact HR|]. intros o c.
  destruct (request_answered o 9 (fun _ => (0, 0)%Z) zero_ip_addr stack_length loc_req_pkt loc_req_rcvd
    (Z.of_nat (length (wire_loc_req sample_loc_req))) unresolved 77 c two_servers no_timers
    (sample_crepr 1 fd_process0 s HR) two_servers_ok unresolved_ok
    (or_intror two_servers_not_empty) ltac:(discriminate) loc_req_parsed (table_fuel _ _ _ Hn) eq_refl
    ltac:(discriminate) query_id_ok eq_refl eq_refl (no_timers_short _)
    ltac:(intros k H; by apply not_elem_of_nil in H) ltac:(eexists; reflexivity))
    as (dst & c1 & H1 & H2 & H3 & H4).
  exists dst, c1. split; [exact H1|]. split; [exact H2|]. split; [exact H3|].
  exact (H4 loc_reply_pkt peer loc_reply_hdr sample_loc_reply dps_pkt_stats_tbl loc_reply_at eq_refl
    eq_refl loc_reply_ok).
Defined.

Example reply_datagram_witness :
  exists s, maps s two_servers /\
  let o := sample_os true loc_reply_pkt in
  let c := sample_client 1 fd_process0 s in
  exists x' c', x' ≡ sample_loc_reply /\
    dps_process_data_rcvd o 9 (fun _ => (0, 0)%Z) zero_ip_addr 9 0 (dps_pkt_stats_tbl, c) =
      Done (DPS_SUCCESS, (count incr_recv DPS_ENDPOINT_LOC_REPLY dps_pkt_stats_tbl, c')) /\
    crepr c' (<[7%Z := learnt (mk_ip_addr AF_INET 0 0 0 zero_ip) peer]> two_servers)
      (answered no_timers 41).
Proof.
  destruct two_servers_table as (s & HR & Hn). exists s. split; [exact HR|]. intros o c.
  destruct (reply_datagram o 9 (fun _ => (0, 0)%Z) zero_ip_addr stack_length 9 loc_reply_pkt peer
    sample_stack loc_reply_hdr sample_loc_reply dps_pkt_stats_tbl c two_servers no_timers
    (sample_crepr 1 fd_process0 s HR) (first_recv _ _ _ _ _) (second_recv _ _ _ _ _) stack_length
    peer_ok (sample_buff _ _ _) loc_reply_fits loc_reply_at eq_refl loc_reply_ok loc_reply_id
    (table_fuel _ _ _ Hn) (Nat.lt_le_incl _ _ (no_timers_short _)) (sample_heap _ _ _ _ _))
    as (x' & c' & H1 & H2 & _ & H4).
  exists x', c'. split; [exact H1|]. split; [exact H2 | exact H4].
Defined.

(** An acknowledgement with the query id 2^31 + 1. *)
Definition bad_ack_hdr : dps_client_hdr_t := sample_hdr DPS_GENERAL_ACK 2147483649.
Definition bad_ack_pkt : buf := packet bad_ack_hdr [].

Lemma bad_ack_fits : length bad_ack_pkt <= DPS_MAX_BUFF_SZ.
Proof. apply Nat.leb_le. vm_compute. reflexivity. Qed.
Lemma bad_ack_at : pkt_at bad_ack_pkt bad_ack_hdr [].
Proof. on_packet. Qed.
Lemma bad_ack_id : (2147483648 <= ch_query_id bad_ack_hdr < 4294967296)%Z.
Proof. split; [vm_compute; discriminate | reflexivity]. Qed.
Lemma bad_ack_rem : ((4294967296 - ch_query_id bad_ack_hdr) mod 1000 <> 0)%Z.
Proof. vm_compute. discriminate. Qed.

Example ack_datagram_faults_witness :
  exists s, maps s two_servers /\
  dps_process_data_rcvd (sample_os true bad_ack_pkt) 9 (fun _ => (0, 0)%Z) zero_ip_addr 9 0
    (dps_pkt_stats_tbl, sample_client 1 fd_process0 s) = Fault.
Proof.
  destruct two_servers_table as (s & HR & Hn). exists s. split; [exact HR|].
  exact (ack_datagram_faults (sample_os true bad_ack_pkt) 9 (fun _ => (0, 0)%Z) zero_ip_addr
    stack_length 9 bad_ack_pkt peer sample_stack bad_ack_hdr dps_pkt_stats_tbl
    (sample_client 1 fd_process0 s) two_servers HR (first_recv _ _ _ _ _) stack_length peer_ok
    (sample_buff _ _ _) bad_ack_fits bad_ack_at eq_refl bad_ack_id bad_ack_rem
    (table_fuel _ _ _ Hn) (sample_heap _ _ _ _ _)).
Defined.

Example server_add_first_witness :
  exists s f, maps s two_servers /\ fds f [dummy_reg 3] /\
  exists c', dps_server_add (sample_os true []) 9 0 server1 (sample_client 0 f s) = Done (DPS_SUCCESS, c') /\
    sv_inuse (cl_svr c') = 1%Z /\ sv_sock_fd (cl_svr c') = 9%Z /\
    maps (cl_table c') (<[0%Z := server1]> two_servers) /\
    fds (cl_fds c') [dummy_reg 3; (9%Z, mk_poll_cb (Cb DATA_RCVD_ROUTINE) 0)] /\ cl_out c' = [].
Proof.
  destruct two_servers_table as (s & HR & Hn). destruct (init_fds 3 4 fd_process0 ltac:(lia)) as (f & _ & Hf).
  exists s, f. split; [exact HR|]. split; [exact Hf|].
  destruct (server_add_first (sample_os true []) 9 0 server1 (sample_client 0 f s) two_servers
    [dummy_reg 3]) as (c' & H1 & H2).
  - exact (sample_maps 0 f s _ HR).
  - exact (sample_fds 0 f s _ Hf).
  - exact (table_fuel 0 f s Hn).
  - apply (room_two_servers true [] 0 f s).
  - reflexivity.
  - reflexivity.
  - reflexivity.
  - exists c'. split; [exact H1|]. rewrite decide_True in H2; [exact H2|]. split; [|simpl]; vm_compute.
    + discriminate.
    + lia.
Defined.

Example server_add_next_witness :
  exists s, maps s two_servers /\
  exists c', dps_server_add (sample_os true []) 9 0 server2 (sample_client 1 fd_process0 s)
      = Done (DPS_SUCCESS, c') /\
    maps (cl_table c') (<[0%Z := server2]> (forget_first server1 two_servers)) /\
    cl_svr c' = dps_update_svr_addr_list server2 (sample_svr 1) /\ cl_fds c' = fd_process0.
Proof.
  destruct two_servers_table as (s & HR & Hn). exists s. split; [exact HR|].
  destruct (server_add_next (sample_os true []) 9 0 server2 server1 (sample_client 1 fd_process0 s)
    two_servers) as (c' & H1 & H2 & H3 & H4).
  - exact (sample_maps 1 fd_process0 s _ HR).
  - exact (table_fuel 1 fd_process0 s Hn).
  - reflexivity.
  - discriminate.
  - exact two_servers_0.
  - exists c'. split; [exact H1|]. rewrite servers_differ in H2, H3. split; [exact H2|].
    split; [exact H3 | exact H4].
Defined.

Example server_add_unreported_witness :
  exists s, maps s ∅ /\
  exists c', dps_server_add (sample_os false []) 9 0 server1 (sample_client 0 fd_process0 s)
      = Done (DPS_SUCCESS, c') /\
    sv_inuse (cl_svr c') = 1%Z /\ cl_table c' = s /\ cl_fds c' = fd_process0.
Proof.
  destruct init_maps as (s & _ & HR & _). exists s. split; [exact HR|].
  exact (server_add_unreported (sample_os false []) 9 0 server1 (sample_client 0 fd_process0 s)
    eq_refl eq_refl ltac:(discriminate) eq_refl).
Defined.

Definition server6 : ip_addr_t := mk_ip_addr AF_INET6 902 2 0 (v6 2).

Example server_add_ipv6_fails_witness :
  exists s, maps s ∅ /\
  exists c', dps_server_add (sample_os true []) 9 0 server6 (sample_client 0 fd_process0 s)
      = Done (DPS_ERROR_NO_RESOURCES, c') /\
    sv_inuse (cl_svr c') = 0%Z /\ cl_table c' = s.
Proof.
  destruct init_maps as (s & _ & HR & _). exists s. split; [exact HR|].
  exact (server_add_ipv6_fails (sample_os true []) 9 0 server6 (sample_client 0 fd_process0 s)
    eq_refl eq_refl eq_refl eq_refl eq_refl).
Defined.

Example no_answer_witness :
  exists s, maps s two_servers /\
  let o := sample_os true [] in
  exists c', dps_retransmit_callback (H := client_env o 9) RAW_PROTO_MAX_NUM_RETRANSMIT_EXCEEDED
      loc_req_pkt 77 (dps_pkt_stats_tbl, Done (sample_client 1 fd_process0 s))
      = Done (dps_pkt_stats_tbl, Done c') /\
    crepr c' (delete 7%Z two_servers) no_timers /\ last_sent_time c' = u32 (os_time o 1) /\
    cl_out c' = [Cl_client (new_node_request o);
      Cl_client (mk_client_data 77 (mk_client_hdr DPS_ENDPOINT_LOC_REPLY DPS_ENDPOINT_LOC_REQ 2
        DPS_TRANSACTION_NORMAL 7 DPS_NO_RESPONSE 41 zero_ip_addr) Body_none)].
Proof.
  destruct two_servers_table as (s & HR & Hn). exists s. split; [exact HR|]. intros o.
  exact (no_answer o 9 loc_req_pkt loc_req_hdr (wire_loc_req sample_loc_req) 77 dps_pkt_stats_tbl
    (sample_client 1 fd_process0 s) two_servers no_timers (sample_crepr 1 fd_process0 s HR)
    (table_fuel _ _ _ Hn) ltac:(on_packet) eq_refl).
Defined.
