(* ===== verification/OswReg.v ===== *)
(** * Named objects: the lists of [osw/task.c], [osw/semaphore.c] and [osw/queue.c]

    Each of the three modules keeps its objects in one intrusive list behind a
    lock, allocates an object when it is created and finds it by its name.  An
    identifier ([long]) is the address of the object, 0 for none; the list node
    is the first member, so object and node have one address.  The lists are
    those of [osw_list.h], which is [dps_list.h] with other names. *)
From stdpp Require Import gmap strings.
From S2P Require Export HList.

(** [struct { pthread_mutex_t lock; hlist_head list; }] and the allocated objects. *)
Record base (A : Type) := mk_base {
  b_list : hlists; b_items : gmap nat A; b_mallocs : nat }.
Arguments mk_base {A}.
Arguments b_list {A}.
Arguments b_items {A}.
Arguments b_mallocs {A}.

(** [memset] and [hlist_head_init] *)
Definition base_init {A} : base A := mk_base (mk_hlists [Null] ∅) ∅ 0.

(** [strncpy] into a zeroed array with one byte to spare *)
Definition strncpy (name : string) (n : nat) : string := String.substring 0 n name.

Lemma strncpy_short name n : String.length name <= n -> strncpy name n = name.
Proof.
  unfold strncpy. revert n. induction name as [|c name IH]; intros n Hn; [by destruct n|].
  destruct n as [|n]; cbn in *; [lia|]. f_equal. apply IH. lia.
Qed.

Lemma strncpy_length name n : String.length (strncpy name n) <= n.
Proof.
  unfold strncpy. revert n. induction name as [|c name IH]; intros [|n]; cbn; try lia.
  specialize (IH n). lia.
Qed.

Section objects.
Context {A : Type}.

Definition item_at (s : base A) (l : nat) : out A := of_option (b_items s !! l).
Definition set_item (l : nat) (x : A) (s : base A) : out (base A) :=
  let* _ := item_at s l in Done (mk_base (b_list s) (<[l := x]> (b_items s)) (b_mallocs s)).

(** [malloc], [memset] and [hlist_node_init]; [ok] is whether [malloc] succeeds *)
Definition alloc_item (ok : bool) (x : A) (s : base A) : option nat * base A :=
  let l := b_mallocs s in
  if ok then
    (Some l, mk_base (mk_hlists (hl_heads (b_list s))
                        (<[l := mk_hlist_node Null Lnull]> (hl_nodes (b_list s))))
               (<[l := x]> (b_items s)) (S l))
  else (None, mk_base (b_list s) (b_items s) (S l)).
Definition free_item (l : nat) (s : base A) : out (base A) :=
  let* _ := item_at s l in
  Done (mk_base (mk_hlists (hl_heads (b_list s)) (delete l (hl_nodes (b_list s))))
          (delete l (b_items s)) (b_mallocs s)).

Definition on_list (f : hlists -> out hlists) (s : base A) : out (base A) :=
  let* x := f (b_list s) in Done (mk_base x (b_items s) (b_mallocs s)).
Definition link_item (l : nat) : base A -> out (base A) := on_list (dps_hlist_head_add 0 l).
Definition unlink_item (l : nat) : base A -> out (base A) := on_list (dps_hlist_node_remove l).

(** ** Search by name *)
Context (name_of : A -> string).

Fixpoint named_from (fuel : nat) (s : base A) (name : string) (pos : hptr) : out (option nat) :=
  match pos with
  | Null => Done None
  | LIST_POISON1 => Fault
  | Ptr l =>
      match fuel with
      | 0 => Timeout
      | S fuel =>
          let* x := item_at s l in
          if decide (name_of x = name) then Done (Some l)
          else let* n := hl_deref (b_list s) l in named_from fuel s name (hn_next n)
      end
  end.
Definition search_named (fuel : nat) (name : string) (s : base A) : out (option nat) :=
  let* first := hl_first (b_list s) 0 in named_from fuel s name first.
End objects.

Lemma hrep_ext (s : hlists) L L' : (forall h, L h = L' h) -> hrep s L -> hrep s L'.
Proof.
  intros He [H1 H2 H3]. split.
  - intros h p. rewrite <- He. apply H1.
  - intros h. rewrite <- He. apply H2.
  - intros h k l. rewrite <- !He. apply H3.
Qed.

(** ** The list represents its objects *)
Section spec.
Context {A : Type} (name_of : A -> string).
Implicit Types (s : base A) (ls : list nat).

(** [ls] are the objects that are linked, the newest first. *)
Record brep s ls : Prop := {
  br_list : hrep (b_list s) (fun h => if decide (h = 0) then ls else []);
  br_head : length (hl_heads (b_list s)) = 1;
  br_items l : is_Some (b_items s !! l) <-> is_Some (hl_nodes (b_list s) !! l);
  br_linked l : l ∈ ls -> is_Some (b_items s !! l);
  br_fresh l : is_Some (b_items s !! l) -> l < b_mallocs s
}.

Lemma brep_init : brep base_init [].
Proof.
  split; simpl; try done.
  - split; simpl; intros *; repeat case_decide; try done; try (intros; by constructor).
    + subst. by intros [= <-].
    + by destruct h.
    + by intros ?%elem_of_nil.
    + by intros ?%elem_of_nil.
    + by intros ?%elem_of_nil.
    + by intros ?%elem_of_nil.
  - intros l. rewrite !lookup_empty. done.
  - intros l Hl. by apply elem_of_nil in Hl.
  - intros l. rewrite lookup_empty. by intros [? ?].
Qed.

Lemma brep_nodup s ls : brep s ls -> NoDup ls.
Proof. intros HR. apply (hr_nodup _ _ (br_list _ _ HR) 0). Qed.

Lemma brep_short s ls : brep s ls -> length ls <= b_mallocs s.
Proof.
  intros HR. apply nodup_length; [by apply (brep_nodup s)|].
  intros l Hl. by apply (br_fresh _ _ HR), (br_linked _ _ HR).
Qed.

Lemma find_ext (f g : nat -> bool) ls : (forall l, f l = g l) -> List.find f ls = List.find g ls.
Proof. intros H. induction ls as [|l ls IH]; [done|]. simpl. by rewrite H, IH. Qed.

(** The first linked object with a name. *)
Definition has_name s (name : string) (l : nat) : bool :=
  match b_items s !! l with Some x => bool_decide (name_of x = name) | None => false end.

Lemma named_from_spec s name : forall ls fuel p q,
  hseg (hl_nodes (b_list s)) p q ls -> (forall l, l ∈ ls -> is_Some (b_items s !! l)) ->
  length ls <= fuel -> named_from name_of fuel s name p = Done (List.find (has_name s name) ls).
Proof.
  induction ls as [|l ls IH]; intros fuel p q Hs Hi Hf.
  - simpl in Hs. subst p. by destruct fuel.
  - destruct Hs as (-> & nx & El & Hs). destruct fuel as [|fuel]; [simpl in Hf; lia|].
    destruct (Hi l ltac:(by left)) as [x Ex]. simpl. unfold has_name at 1, item_at, hl_deref.
    rewrite Ex, El. simpl. case_bool_decide; case_decide; try done.
    apply (IH fuel nx (Lnext l)); [done | | simpl in Hf; lia]. intros k Hk. apply Hi. by right.
Qed.

Lemma search_named_spec fuel name s ls :
  brep s ls -> b_mallocs s <= fuel ->
  search_named name_of fuel name s = Done (List.find (has_name s name) ls).
Proof.
  intros HR Hf. unfold search_named, hl_first.
  destruct (lookup_lt_is_Some_2 (hl_heads (b_list s)) 0) as [p Hp];
    [rewrite (br_head _ _ HR); lia|].
  rewrite Hp. cbn [of_option obind].
  apply (named_from_spec s name ls fuel p (Lhead 0)).
  - apply (hr_lists _ _ (br_list _ _ HR) 0 p Hp).
  - apply (br_linked _ _ HR).
  - pose proof (brep_short s ls HR). lia.
Qed.

(** Objects change, come and go without the list. *)
Lemma set_item_spec s ls l x y :
  brep s ls -> b_items s !! l = Some x ->
  set_item l y s = Done (mk_base (b_list s) (<[l := y]> (b_items s)) (b_mallocs s)) /\
  brep (mk_base (b_list s) (<[l := y]> (b_items s)) (b_mallocs s)) ls.
Proof.
  intros HR Ex. unfold set_item, item_at. rewrite Ex. split; [done|].
  assert (forall k, is_Some (<[l := y]> (b_items s) !! k) <-> is_Some (b_items s !! k)) as He.
  { intros k. destruct (decide (k = l)) as [->|Hk].
    - rewrite lookup_insert_eq, Ex. split; eauto.
    - by rewrite lookup_insert_ne. }
  split; simpl; try apply HR.
  - intros k. rewrite He. apply (br_items _ _ HR).
  - intros k Hk. apply He, (br_linked _ _ HR _ Hk).
  - intros k Hk. by apply (br_fresh _ _ HR), He.
Qed.

Lemma alloc_item_spec s ls x :
  brep s ls ->
  exists s', alloc_item true x s = (Some (b_mallocs s), s') /\ brep s' ls /\
    b_items s' = <[b_mallocs s := x]> (b_items s) /\ b_mallocs s' = S (b_mallocs s) /\
    b_mallocs s ∉ ls.
Proof.
  intros HR. eexists. split; [reflexivity|]. cbn.
  assert (b_mallocs s ∉ ls) as Hn.
  { intros H. pose proof (br_fresh _ _ HR _ (br_linked _ _ HR _ H)). lia. }
  split_and!; try done. split; cbn [b_list b_items b_mallocs hl_nodes hl_heads].
  - apply hrep_outside; [apply (br_list _ _ HR)|].
    intros h l. case_decide; [|by intros ?%elem_of_nil]. intros Hl. apply lookup_insert_ne.
    by intros <-.
  - apply (br_head _ _ HR).
  - intros l. destruct (decide (l = b_mallocs s)) as [->|Hl].
    + rewrite !lookup_insert_eq. split; eauto.
    + rewrite !lookup_insert_ne by done. apply (br_items _ _ HR).
  - intros l Hl. rewrite lookup_insert_ne by (by intros <-). by apply (br_linked _ _ HR).
  - intros l Hl. destruct (decide (l = b_mallocs s)) as [->|Hne]; [lia|].
    rewrite lookup_insert_ne in Hl by done. pose proof (br_fresh _ _ HR l Hl). lia.
Qed.

Lemma free_item_spec s ls l :
  brep s ls -> is_Some (b_items s !! l) -> l ∉ ls ->
  exists s', free_item l s = Done s' /\ brep s' ls /\ b_items s' = delete l (b_items s) /\
    b_mallocs s' = b_mallocs s.
Proof.
  intros HR [x Ex] Hl. unfold free_item, item_at. rewrite Ex. eexists. split; [reflexivity|].
  split_and!; try done. split; cbn [b_list b_items b_mallocs hl_nodes hl_heads].
  - apply hrep_outside; [apply (br_list _ _ HR)|].
    intros h k. case_decide; [|by intros ?%elem_of_nil]. intros Hk. apply lookup_delete_ne.
    by intros <-.
  - apply (br_head _ _ HR).
  - intros k. destruct (decide (k = l)) as [->|Hk].
    + rewrite !lookup_delete_eq. done.
    + rewrite !lookup_delete_ne by done. apply (br_items _ _ HR).
  - intros k Hk. rewrite lookup_delete_ne by (by intros <-). by apply (br_linked _ _ HR).
  - intros k [y Hk]. apply lookup_delete_Some in Hk as [_ Hk]. apply (br_fresh _ _ HR).
    by rewrite Hk.
Qed.

Lemma link_item_spec s ls l :
  brep s ls -> is_Some (b_items s !! l) -> l ∉ ls ->
  exists s', link_item l s = Done s' /\ brep s' (l :: ls) /\ b_items s' = b_items s /\
    b_mallocs s' = b_mallocs s.
Proof.
  intros HR Hi Hl. unfold link_item, on_list.
  destruct (hlist_add_spec (b_list s) _ 0 l (br_list _ _ HR)) as (x & Ex & Hx & Hxl & Hxd).
  { rewrite (br_head _ _ HR). lia. }
  { by apply (br_items _ _ HR). }
  { intros k. case_decide; [done | apply not_elem_of_nil]. }
  rewrite Ex. cbn [obind]. eexists. split; [done|]. split_and!; try done.
  split; cbn [b_list b_items b_mallocs].
  - eapply hrep_ext; [|exact Hx]. intros h. unfold hupd. by repeat case_decide.
  - rewrite Hxl. apply (br_head _ _ HR).
  - intros k. rewrite (br_items _ _ HR). symmetry. apply Hxd.
  - intros k [->|Hk]%elem_of_cons; [done | by apply (br_linked _ _ HR)].
  - apply (br_fresh _ _ HR).
Qed.

Lemma unlink_item_spec s a l b :
  brep s (a ++ l :: b) ->
  exists s', unlink_item l s = Done s' /\ brep s' (a ++ b) /\ b_items s' = b_items s /\
    b_mallocs s' = b_mallocs s /\ l ∉ a ++ b.
Proof.
  intros HR. unfold unlink_item, on_list.
  destruct (hlist_remove_spec (b_list s) _ 0 a l b (br_list _ _ HR)) as (x & Ex & Hx & Hxl & Hxd).
  { done. }
  { rewrite (br_head _ _ HR). lia. }
  rewrite Ex. cbn [obind]. eexists. split; [done|]. split_and!; try done.
  - split; cbn [b_list b_items b_mallocs].
    + eapply hrep_ext; [|exact Hx]. intros h. unfold hupd. by repeat case_decide.
    + rewrite Hxl. apply (br_head _ _ HR).
    + intros k. rewrite (br_items _ _ HR). symmetry. apply Hxd.
    + intros k Hk. apply (br_linked _ _ HR). set_solver.
    + apply (br_fresh _ _ HR).
  - pose proof (brep_nodup _ _ HR) as Hnd. apply list.NoDup_app in Hnd as (_ & Hs & Hnd).
    apply list.NoDup_cons in Hnd as [Hn _]. intros [H|H]%elem_of_app; [|done].
    apply (Hs l H). by left.
Qed.

(** ** The objects by name

    [m] gives the object of each name; no two linked objects have one name. *)
Definition names_of s ls (m : gmap string nat) : Prop :=
  forall name l, m !! name = Some l <->
    l ∈ ls /\ exists x, b_items s !! l = Some x /\ name_of x = name.
Definition named s (m : gmap string nat) : Prop := exists ls, brep s ls /\ names_of s ls m.

Lemma named_init : named base_init ∅.
Proof.
  exists []. split; [apply brep_init|]. intros name l. rewrite lookup_empty. split; [done|].
  intros [H _]. by apply elem_of_nil in H.
Qed.

Lemma names_find s ls m name :
  names_of s ls m -> List.find (has_name s name) ls = m !! name.
Proof.
  intros Hm. destruct (List.find (has_name s name) ls) as [l|] eqn:E; symmetry.
  - apply List.find_some in E as [Hl Hn]. apply list_elem_of_In in Hl. apply Hm.
    split; [done|]. unfold has_name in Hn. destruct (b_items s !! l) as [x|]; [|done].
    exists x. by apply bool_decide_eq_true in Hn.
  - destruct (m !! name) as [l|] eqn:El; [|done]. apply Hm in El as (Hl & x & Ex & Hn).
    apply list_elem_of_In in Hl. apply (List.find_none _ _ E) in Hl. unfold has_name in Hl.
    rewrite Ex, bool_decide_eq_true_2 in Hl by done. done.
Qed.

Lemma named_search fuel name s m :
  named s m -> b_mallocs s <= fuel -> search_named name_of fuel name s = Done (m !! name).
Proof.
  intros (ls & HR & Hm) Hf. rewrite (search_named_spec fuel name s ls HR Hf).
  by rewrite (names_find s ls m).
Qed.

(** An allocation that fails. *)
Lemma named_no_memory s m x : named s m -> exists s', alloc_item false x s = (None, s') /\ named s' m.
Proof.
  intros (ls & HR & Hm). eexists. split; [reflexivity|]. exists ls. split; [|done].
  destruct HR as [H1 H2 H3 H4 H5]. split; try done. cbn. intros l Hl. specialize (H5 l Hl). lia.
Qed.

(** A new object, linked under its name. *)
Lemma named_create s m x :
  named s m -> m !! name_of x = None ->
  let l := b_mallocs s in
  exists s1 s2, alloc_item true x s = (Some l, s1) /\ link_item l s1 = Done s2 /\
    named s2 (<[name_of x := l]> m) /\ b_items s2 !! l = Some x /\
    (forall k, k <> l -> b_items s2 !! k = b_items s !! k) /\ b_items s !! l = None /\
    exists ls, brep s2 (l :: ls) /\ names_of s ls m.
Proof.
  intros (ls & HR & Hm) Hn l. destruct (alloc_item_spec s ls x HR) as (s1 & E1 & HR1 & I1 & M1 & Hl).
  destruct (link_item_spec s1 ls l HR1) as (s2 & E2 & HR2 & I2 & M2);
    [rewrite I1, lookup_insert_eq; eauto | done |].
  assert (b_items s !! l = None) as El.
  { destruct (b_items s !! l) eqn:E; [|done]. pose proof (br_fresh _ _ HR l ltac:(by rewrite E)).
    unfold l in *. lia. }
  exists s1, s2. split_and!; try done.
  - exists (l :: ls). split; [done|]. intros name k. rewrite I2, I1.
    destruct (decide (name = name_of x)) as [->|Hne].
    + rewrite lookup_insert_eq. split.
      * intros [= <-]. split; [by left|]. exists x. by rewrite lookup_insert_eq.
      * intros [[->|Hk]%elem_of_cons (y & Ey & Hy)]; [done|].
        rewrite lookup_insert_ne in Ey by (intros <-; done).
        assert (m !! name_of x = Some k) by (apply Hm; eauto). congruence.
    + rewrite lookup_insert_ne by done. rewrite (Hm name k). split.
      * intros (Hk & y & Ey & Hy). split; [by right|]. exists y.
        rewrite lookup_insert_ne; [done|]. intros <-. done.
      * intros [[->|Hk]%elem_of_cons (y & Ey & Hy)].
        -- fold l in Ey. rewrite lookup_insert_eq in Ey. injection Ey as <-. done.
        -- split; [done|]. exists y. rewrite lookup_insert_ne in Ey; [done|]. by intros <-.
  - by rewrite I2, I1, lookup_insert_eq.
  - intros k Hk. by rewrite I2, I1, lookup_insert_ne.
  - by exists ls.
Qed.

(** A linked object leaves the list. *)
Lemma named_unlink s m name l :
  named s m -> m !! name = Some l ->
  exists s', unlink_item l s = Done s' /\ named s' (delete name m) /\ b_items s' = b_items s /\
    exists ls, brep s' ls /\ names_of s' ls (delete name m) /\ l ∉ ls.
Proof.
  intros (ls & HR & Hm) Hn. pose proof (proj1 (Hm name l) Hn) as (Hl & x & Ex & Hx).
  destruct (list_elem_of_split _ _ Hl) as (a & b & ->).
  destruct (unlink_item_spec s a l b HR) as (s' & E & HR' & I & M & Hnot).
  assert (names_of s' (a ++ b) (delete name m)) as Hm'.
  { intros nm k. rewrite I, lookup_delete_Some, (Hm nm k). rewrite !elem_of_app, elem_of_cons in *. split.
    - intros (Hne & Hk & y & Ey & Hy). split; [|by exists y].
      destruct Hk as [Hk|[->|Hk]]; [by left | congruence | by right].
    - intros (Hk & y & Ey & Hy). split_and!; [|tauto | by exists y]. intros ->.
      assert (k = l) as -> by (assert (m !! nm = Some k) by (apply Hm; split; [|by exists y];
        rewrite elem_of_app, elem_of_cons; tauto); congruence).
      tauto. }
  exists s'. split_and!; try done; exists (a ++ b); by split_and!.
Qed.

(** An object changes, but not its name. *)
Lemma named_set s m l x y :
  named s m -> b_items s !! l = Some x -> name_of y = name_of x ->
  exists s', set_item l y s = Done s' /\ named s' m /\ b_items s' = <[l := y]> (b_items s).
Proof.
  intros (ls & HR & Hm) Ex Hy. destruct (set_item_spec s ls l x y HR Ex) as [-> HR'].
  eexists. split; [done|]. split; [|done]. exists ls. split; [done|]. intros name k. rewrite (Hm name k).
  cbn. destruct (decide (k = l)) as [->|Hk].
  - rewrite lookup_insert_eq, Ex. naive_solver.
  - by rewrite lookup_insert_ne.
Qed.

(** An object that is not linked is freed. *)
Lemma named_free s m ls l :
  brep s ls -> names_of s ls m -> is_Some (b_items s !! l) -> l ∉ ls ->
  exists s', free_item l s = Done s' /\ named s' m /\ b_items s' = delete l (b_items s).
Proof.
  intros HR Hm Hi Hl. destruct (free_item_spec s ls l HR Hi Hl) as (s' & E & HR' & I & M).
  exists s'. split_and!; try done. exists ls. split; [done|]. intros name k. rewrite (Hm name k), I. split.
  - intros (Hk & x & Ex & Hx). split; [done|]. exists x.
    rewrite lookup_delete_ne; [done|]. by intros <-.
  - intros (Hk & x & [_ Ex]%lookup_delete_Some & Hx). eauto.
Qed.
End spec.
