(* ===== verification/OswTask.v ===== *)
(** * Tasks and their events: [osw/task.c] *)
From stdpp Require Import gmap strings.
From S2P Require Export OswReg.

Definition OSW_OK : Z := 0.
Definition OSW_ERROR : Z := -1.
Definition OSW_NO_WAIT : Z := 0.
Definition TASK_NAME_LEN : nat := 16.

(** [ti_fn] and [ti_arg] are the entry point and its argument; [ti_id] is the
    thread. *)
Record task_info := mk_task {
  ti_id : Z; ti_stack_size : Z; ti_fn : Z; ti_arg : Z; ti_events : Z; ti_name : string }.

Abbreviation task_base := (base task_info).

Definition task_base_init : task_base := base_init.

Definition search_task (fuel : nat) (name : string) (s : task_base) : out (option nat) :=
  search_named ti_name fuel name s.

(** [thread] is the identifier [pthread_create] gives, [None] its failure;
    [tid] is [*tid], written before the thread is created. *)
Definition create_task (fuel : nat) (malloc_ok : bool) (thread : option Z) (name : string)
    (ssize fn arg : Z) (tid : option nat) (s : task_base) : out (Z * option nat * task_base) :=
  let* found := search_task fuel name s in
  match found with
  | Some _ => Done (OSW_ERROR, tid, s)
  | None =>
      match alloc_item malloc_ok
              (mk_task 0 ssize fn arg 0 (strncpy name TASK_NAME_LEN)) s with
      | (None, s) => Done (OSW_ERROR, tid, s)
      | (Some l, s) =>
          let* s := link_item l s in
          match thread with
          | None =>
              let* s := unlink_item l s in
              let* s := free_item l s in
              Done (OSW_ERROR, Some l, s)
          | Some id =>
              let* s := set_item l
                (mk_task id ssize fn arg 0 (strncpy name TASK_NAME_LEN)) s in
              Done (OSW_OK, Some l, s)
          end
      end
  end.

(** [self] is the calling thread; the result is whether it ends. *)
Definition del_task (self : Z) (l : nat) (s : task_base) : out (bool * task_base) :=
  let* s := unlink_item l s in
  let* ti := item_at s l in
  let* s := free_item l s in
  Done ((self =? ti_id ti)%Z, s).

(** What a thread does: [run] is the entry point of the task. *)
Definition wrapper (run : Z -> Z -> task_base -> out task_base) (l : nat) (s : task_base)
    : out task_base :=
  let* ti := item_at s l in
  let* s := run (ti_fn ti) (ti_arg ti) s in
  let* (_, s) := del_task (ti_id ti) l s in
  Done s.

Definition set_events (e : Z) (ti : task_info) : task_info :=
  mk_task (ti_id ti) (ti_stack_size ti) (ti_fn ti) (ti_arg ti) e (ti_name ti).

Definition send_event (l : nat) (event : Z) (s : task_base) : out (Z * task_base) :=
  let* ti := item_at s l in
  let* s := set_item l (set_events (Z.lor (ti_events ti) event) ti) s in
  Done (OSW_OK, s).

(** [waits] is what the other threads do while the caller waits on the
    condition variable, each time it does; [None] is a caller that waits still. *)
Fixpoint recv_event (waits : list (task_base -> out task_base)) (l : nat)
    (interest_events flag : Z) (s : task_base) : out (option (Z * Z) * task_base) :=
  let* ti := item_at s l in
  let recv_events := Z.land (ti_events ti) interest_events in
  let* s := set_item l (set_events (Z.ldiff (ti_events ti) recv_events) ti) s in
  if negb (recv_events =? 0)%Z then Done (Some (OSW_OK, recv_events), s)
  else if (flag =? OSW_NO_WAIT)%Z then Done (Some (OSW_ERROR, recv_events), s)
  else
    match waits with
    | [] => Done (None, s)
    | w :: waits => let* s := w s in recv_event waits l interest_events flag s
    end.
