(* ===== verification/OswTasks.v ===== *)
(** * Tasks are found by name, and their events are delivered once

    Against the list of tasks stands a map from names to tasks. *)
From stdpp Require Import gmap strings.
From S2P Require Export OswTask.

Record taskmap := mk_taskmap {
  tk_names : gmap string nat; tk_info : gmap nat task_info; tk_next : nat }.

Inductive kop :=
| K_create (malloc_ok : bool) (thread : option Z) (name : string) (ssize fn arg : Z)
| K_del (self : Z) (task : nat)
| K_search (name : string)
| K_send (task : nat) (event : Z)
| K_recv (task : nat) (interest : Z).

Inductive kres :=
| KR_created (status : Z) (id : option nat)
| KR_deleted (ends : bool)
| KR_found (id : option nat)
| KR_status (status : Z)
| KR_recvd (r : option (Z * Z)).

Definition run_kop (fuel : nat) (op : kop) (s : task_base) : out (kres * task_base) :=
  match op with
  | K_create ok thread name ssize fn arg =>
      let* (st, id, s) := create_task fuel ok thread name ssize fn arg None s in
      Done (KR_created st id, s)
  | K_del self l => let* (b, s) := del_task self l s in Done (KR_deleted b, s)
  | K_search name => let* r := search_task fuel name s in Done (KR_found r, s)
  | K_send l e => let* (r, s) := send_event l e s in Done (KR_status r, s)
  | K_recv l i => let* (r, s) := recv_event [] l i OSW_NO_WAIT s in Done (KR_recvd r, s)
  end.

(** Names are no longer than the field that holds them; tasks are used while
    they exist. *)
Definition kallowed (op : kop) (a : taskmap) : Prop :=
  match op with
  | K_create _ _ name _ _ _ => String.length name <= TASK_NAME_LEN
  | K_search _ => True
  | K_del _ l | K_send l _ | K_recv l _ => is_Some (tk_info a !! l)
  end.

Definition kstep (op : kop) (a : taskmap) : kres * taskmap :=
  match op with
  | K_create ok thread name ssize fn arg =>
      let l := tk_next a in
      match tk_names a !! name, ok, thread with
      | Some _, _, _ => (KR_created OSW_ERROR None, a)
      | None, false, _ =>
          (KR_created OSW_ERROR None, mk_taskmap (tk_names a) (tk_info a) (S l))
      | None, true, None =>
          (KR_created OSW_ERROR (Some l), mk_taskmap (tk_names a) (tk_info a) (S l))
      | None, true, Some id =>
          (KR_created OSW_OK (Some l),
            mk_taskmap (<[name := l]> (tk_names a))
              (<[l := mk_task id ssize fn arg 0 name]> (tk_info a)) (S l))
      end
  | K_del self l =>
      match tk_info a !! l with
      | Some ti =>
          (KR_deleted (self =? ti_id ti)%Z,
            mk_taskmap (delete (ti_name ti) (tk_names a)) (delete l (tk_info a)) (tk_next a))
      | None => (KR_deleted false, a)
      end
  | K_search name => (KR_found (tk_names a !! name), a)
  | K_send l e =>
      match tk_info a !! l with
      | Some ti =>
          (KR_status OSW_OK,
            mk_taskmap (tk_names a) (<[l := set_events (Z.lor (ti_events ti) e) ti]> (tk_info a))
              (tk_next a))
      | None => (KR_status OSW_ERROR, a)
      end
  | K_recv l i =>
      match tk_info a !! l with
      | Some ti =>
          let got := Z.land (ti_events ti) i in
          (KR_recvd (Some (if (got =? 0)%Z then OSW_ERROR else OSW_OK, got)),
            mk_taskmap (tk_names a) (<[l := set_events (Z.ldiff (ti_events ti) got) ti]> (tk_info a))
              (tk_next a))
      | None => (KR_recvd None, a)
      end
  end.

(** ** The list holds the map *)
Record krep (s : task_base) (a : taskmap) : Prop := {
  kr_named : named ti_name s (tk_names a);
  kr_info : b_items s = tk_info a;
  kr_next : b_mallocs s = tk_next a;
  kr_name l ti : tk_info a !! l = Some ti -> tk_names a !! ti_name ti = Some l
}.

Definition taskmap0 : taskmap := mk_taskmap ∅ ∅ 0.
Lemma krep_init : krep task_base_init taskmap0.
Proof. split; [apply named_init | done | done |]. intros l ti. cbn. by rewrite lookup_empty. Qed.

Lemma krep_set s a l ti ti' :
  krep s a -> tk_info a !! l = Some ti -> ti_name ti' = ti_name ti ->
  exists s', set_item l ti' s = Done s' /\
    krep s' (mk_taskmap (tk_names a) (<[l := ti']> (tk_info a)) (tk_next a)).
Proof.
  intros HR El Hn. pose proof El as Ei. rewrite <- (kr_info _ _ HR) in Ei.
  destruct (named_set _ s _ l ti ti' (kr_named _ _ HR) Ei Hn) as (s' & E & HN & HI).
  exists s'. split; [done|]. split; cbn.
  - done.
  - by rewrite HI, (kr_info _ _ HR).
  - unfold set_item, item_at in E. rewrite Ei in E. injection E as <-. apply (kr_next _ _ HR).
  - intros k t. destruct (decide (k = l)) as [->|Hk].
    + rewrite lookup_insert_eq. intros [= <-]. rewrite Hn. by apply (kr_name _ _ HR).
    + rewrite lookup_insert_ne by done. apply (kr_name _ _ HR).
Qed.

Lemma krep_item s a l ti : krep s a -> tk_info a !! l = Some ti -> item_at s l = Done ti.
Proof. intros HR El. unfold item_at. by rewrite (kr_info _ _ HR), El. Qed.

Lemma on_list_mallocs (f : hlists -> out hlists) (s s' : task_base) :
  on_list f s = Done s' -> b_mallocs s' = b_mallocs s.
Proof. unfold on_list. destruct (f (b_list s)); cbn; try done. by intros [= <-]. Qed.
Lemma free_mallocs l (s s' : task_base) : free_item l s = Done s' -> b_mallocs s' = b_mallocs s.
Proof. unfold free_item. destruct (item_at s l); cbn; try done. by intros [= <-]. Qed.

(** A linked task is freed. *)
Lemma krep_remove s a l ti :
  krep s a -> tk_info a !! l = Some ti ->
  exists s1 s2, unlink_item l s = Done s1 /\ item_at s1 l = Done ti /\ free_item l s1 = Done s2 /\
    krep s2 (mk_taskmap (delete (ti_name ti) (tk_names a)) (delete l (tk_info a)) (tk_next a)).
Proof.
  intros HR El. pose proof (kr_name _ _ HR l ti El) as Hn.
  destruct (named_unlink _ s _ _ l (kr_named _ _ HR) Hn) as (s1 & E1 & _ & I1 & ls & HB & HN & Hl).
  assert (b_items s1 !! l = Some ti) as Ei by (by rewrite I1, (kr_info _ _ HR)).
  destruct (named_free _ s1 _ ls l HB HN) as (s2 & E2 & HN2 & I2); [by rewrite Ei | done |].
  exists s1, s2. split_and!; try done; [unfold item_at; by rewrite Ei|]. split; cbn.
  - done.
  - by rewrite I2, I1, (kr_info _ _ HR).
  - rewrite (free_mallocs l s1), (on_list_mallocs _ _ _ E1) by done. apply (kr_next _ _ HR).
  - intros k t [Hk Ek]%lookup_delete_Some. pose proof (kr_name _ _ HR k t Ek) as Hkn.
    rewrite lookup_delete_ne; [done|]. intros Ht. rewrite Ht in Hn. congruence.
Qed.

(** A new task is linked. *)
Lemma krep_new s a x :
  krep s a -> tk_names a !! ti_name x = None ->
  exists s1 s2, alloc_item true x s = (Some (tk_next a), s1) /\ link_item (tk_next a) s1 = Done s2 /\
    krep s2 (mk_taskmap (<[ti_name x := tk_next a]> (tk_names a)) (<[tk_next a := x]> (tk_info a))
      (S (tk_next a))) /\ tk_info a !! tk_next a = None.
Proof.
  intros HR Hn. destruct (named_create _ s _ x (kr_named _ _ HR) Hn) as
    (s1 & s2 & E1 & E2 & HN & I1 & I2 & I3 & _).
  rewrite (kr_next _ _ HR) in *. exists s1, s2. split_and!; try done.
  - split; cbn.
    + done.
    + apply map_eq. intros k. destruct (decide (k = tk_next a)) as [->|Hk].
      * by rewrite lookup_insert_eq.
      * rewrite lookup_insert_ne by done. by rewrite I2, (kr_info _ _ HR).
    + rewrite (on_list_mallocs _ _ _ E2). unfold alloc_item in E1. cbn in E1. rewrite (kr_next _ _ HR) in E1. by injection E1 as <-.
    + intros k t. destruct (decide (k = tk_next a)) as [->|Hk].
      * rewrite lookup_insert_eq. intros [= <-]. by rewrite lookup_insert_eq.
      * rewrite lookup_insert_ne by done. intros Ek. pose proof (kr_name _ _ HR k t Ek) as Hk'.
        rewrite lookup_insert_ne; [done|]. intros Ht. rewrite Ht in Hn. congruence.
  - by rewrite <- (kr_info _ _ HR).
Qed.

Lemma kop_refines fuel o s a :
  tk_next a <= fuel -> krep s a -> kallowed o a ->
  exists s', run_kop fuel o s = Done ((kstep o a).1, s') /\ krep s' (kstep o a).2.
Proof.
  intros Hf HR Ha.
  assert (forall name, search_task fuel name s = Done (tk_names a !! name)) as Hs.
  { intros name. unfold search_task.
    by rewrite (named_search _ _ _ _ _ (kr_named _ _ HR)) by (by rewrite (kr_next _ _ HR)). }
  destruct o as [ok thread name ssize fn arg|self l|name|l e|l i]; cbn [run_kop kstep kallowed] in *.
  - unfold create_task. rewrite Hs. cbn [obind].
    destruct (tk_names a !! name) as [l|] eqn:En; [by exists s|].
    rewrite (strncpy_short name TASK_NAME_LEN Ha). destruct ok.
    2: { destruct (named_no_memory _ s _ (mk_task 0 ssize fn arg 0 name) (kr_named _ _ HR)) as
        (s' & E & HN). cbn [alloc_item] in *. injection E as <-. eexists. split; [reflexivity|].
      split; cbn; [done | apply HR | by rewrite (kr_next _ _ HR) | apply HR]. }
    destruct (krep_new s a (mk_task 0 ssize fn arg 0 name) HR En) as (s1 & s2 & -> & E2 & HR2 & Hfr).
    rewrite E2. cbn [obind]. destruct thread as [id|].
    + destruct (krep_set s2 _ (tk_next a) (mk_task 0 ssize fn arg 0 name)
        (mk_task id ssize fn arg 0 name) HR2) as (s3 & E3 & HR3);
        [by cbn; rewrite lookup_insert_eq | done |].
      rewrite E3. cbn [obind]. exists s3. split; [done|]. cbn in HR3. by rewrite insert_insert_eq in HR3.
    + destruct (krep_remove s2 _ (tk_next a) (mk_task 0 ssize fn arg 0 name) HR2) as
        (s3 & s4 & E3 & _ & E4 & HR4); [by cbn; rewrite lookup_insert_eq|].
      rewrite E3. cbn [obind]. rewrite E4. exists s4. split; [done|]. cbn in HR4.
      by rewrite !delete_insert_id in HR4.
  - destruct Ha as [ti El]. rewrite El.
    destruct (krep_remove s a l ti HR El) as (s1 & s2 & E1 & E2 & E3 & HR2).
    unfold del_task. rewrite E1. cbn [obind]. rewrite E2. cbn [obind]. rewrite E3. by exists s2.
  - rewrite Hs. by exists s.
  - destruct Ha as [ti El]. rewrite El. unfold send_event. rewrite (krep_item s a l ti HR El).
    cbn [obind]. destruct (krep_set s a l ti (set_events (Z.lor (ti_events ti) e) ti) HR El eq_refl)
      as (s' & -> & HR'). by exists s'.
  - destruct Ha as [ti El]. rewrite El. unfold recv_event. rewrite (krep_item s a l ti HR El).
    cbn [obind]. set (got := Z.land (ti_events ti) i).
    destruct (krep_set s a l ti (set_events (Z.ldiff (ti_events ti) got) ti) HR El eq_refl)
      as (s' & -> & HR'). cbn [obind]. exists s'. destruct (got =? 0)%Z; cbn; done.
Qed.

Lemma kstep_next o a : tk_next (kstep o a).2 <= S (tk_next a).
Proof. destruct o; cbn; repeat (case_match; cbn); lia. Qed.

(** ** Events *)

(** The operations on one task's events. *)
Inductive eop := E_send (event : Z) | E_recv (interest : Z).
Definition kop_of (l : nat) (o : eop) : kop :=
  match o with E_send e => K_send l e | E_recv i => K_recv l i end.

(** Whether bit [b] waits to be received after [o], if [p] says it does before. *)
Definition pending1 (b : Z) (p : bool) (o : eop) : bool :=
  match o with
  | E_send e => p || Z.testbit e b
  | E_recv i => p && negb (Z.testbit i b)
  end.
(** The bits [b] that the receptions of [ops] give. *)
Fixpoint received (b : Z) (p : bool) (ops : list eop) : list bool :=
  match ops with
  | [] => []
  | E_send e :: ops => received b (pending1 b p (E_send e)) ops
  | E_recv i :: ops => (p && Z.testbit i b) :: received b (pending1 b p (E_recv i)) ops
  end.
Definition bit_of (b : Z) (r : kres) : option bool :=
  match r with KR_recvd (Some (_, got)) => Some (Z.testbit got b) | _ => None end.

Lemma events_step l b : (0 <= b)%Z -> forall ops a ti,
  tk_info a !! l = Some ti ->
  omap (bit_of b) (step_all kstep (map (kop_of l) ops) a).1 =
    received b (Z.testbit (ti_events ti) b) ops.
Proof.
  intros Hb. induction ops as [|o ops IH]; intros a ti El; [done|]. destruct o as [e|i].
  - cbn [map kop_of step_all received pending1]. unfold kstep at 1. rewrite El.
    specialize (IH (mk_taskmap (tk_names a) (<[l := set_events (Z.lor (ti_events ti) e) ti]>
      (tk_info a)) (tk_next a)) _ (lookup_insert_eq _ _ _)).
    destruct (step_all kstep (map (kop_of l) ops) _) as [rs a']. cbn in *. rewrite IH.
    by rewrite Z.lor_spec.
  - cbn [map kop_of step_all received pending1]. unfold kstep at 1. rewrite El.
    set (got := Z.land (ti_events ti) i).
    specialize (IH (mk_taskmap (tk_names a) (<[l := set_events (Z.ldiff (ti_events ti) got) ti]>
      (tk_info a)) (tk_next a)) _ (lookup_insert_eq _ _ _)).
    destruct (step_all kstep (map (kop_of l) ops) _) as [rs a']. cbn in *. rewrite IH.
    rewrite Z.ldiff_spec. unfold got. rewrite Z.land_spec. do 2 f_equal.
    by destruct (Z.testbit (ti_events ti) b), (Z.testbit i b).
Qed.

Lemma events_ok l : forall ops a,
  is_Some (tk_info a !! l) ->
  ok_all kstep (fun o a' => kallowed o a' /\ tk_next (kstep o a').2 = tk_next a')
    (map (kop_of l) ops) a.
Proof.
  induction ops as [|o ops IH]; intros a [ti E]; cbn; [done|].
  split; [destruct o; cbn; rewrite E; eauto|]. apply IH.
  destruct o; cbn; rewrite E; cbn; rewrite lookup_insert_eq; eauto.
Qed.

(** Tasks are a map from names to tasks: a creation succeeds exactly for a
    new name (and memory, and a thread), a search finds exactly what was created
    and not deleted, a thread that cannot be made leaves nothing behind, a
    deletion frees the task and ends the calling thread if it is its own, and
    no sequence of these corrupts the list. *)
Theorem task_registry_refines (ops : list kop) (fuel : nat) :
  length ops <= fuel -> ok_all kstep kallowed ops taskmap0 ->
  exists s, run_all (run_kop fuel) ops task_base_init = Done ((step_all kstep ops taskmap0).1, s) /\
    krep s (step_all kstep ops taskmap0).2.
Proof.
  intros Hf Ha.
  destruct (run_all_refines (run_kop fuel) kstep kallowed
    (fun n s a => krep s a /\ tk_next a + n <= fuel)) with (ops := ops) (s := task_base_init)
    (a := taskmap0) as (s & E & HR & _); [| by split; [apply krep_init|] | done | by exists s].
  intros n o s a [HR Hn] Ho. destruct (kop_refines fuel o s a ltac:(lia) HR Ho) as (s1 & E & HR1).
  exists s1. split_and!; try done. pose proof (kstep_next o a). lia.
Qed.

(** An event is received once: whatever the order of sends and receptions,
    a reception of a task gives exactly those bits it is interested in that
    were sent since the last reception that was interested in them; bits that
    are sent twice before are given once, others are kept. *)
Theorem event_once (ops : list eop) (fuel l : nat) (ti : task_info) (s : task_base) (a : taskmap) :
  krep s a -> tk_info a !! l = Some ti -> ti_events ti = 0%Z -> tk_next a <= fuel ->
  exists rs s', run_all (run_kop fuel) (map (kop_of l) ops) s = Done (rs, s') /\
    forall b, (0 <= b)%Z -> omap (bit_of b) rs = received b false ops.
Proof.
  intros HR El E0 Hf.
  destruct (run_all_refines (run_kop fuel) kstep
    (fun o a' => kallowed o a' /\ tk_next (kstep o a').2 = tk_next a')
    (fun _ s a' => krep s a' /\ tk_next a' <= fuel)) with (ops := map (kop_of l) ops) (s := s)
    (a := a) as (s' & E & _).
  - intros _ o s1 a' [HR1 Hn] [Ho Hs].
    destruct (kop_refines fuel o s1 a' Hn HR1 Ho) as (s2 & E & HR2).
    exists s2. by rewrite Hs.
  - done.
  - apply events_ok. by rewrite El.
  - eexists _, s'. split; [exact E|]. intros b Hb. rewrite (events_step l b Hb ops a ti El), E0.
    by rewrite Z.bits_0.
Qed.

(** A creation with a name that is not found. *)
Lemma create_brep fuel id name ssize fn arg s ls :
  brep s ls -> b_mallocs s <= fuel -> List.find (has_name ti_name s name) ls = None ->
  let l := b_mallocs s in
  let x := mk_task id ssize fn arg 0 (strncpy name TASK_NAME_LEN) in
  exists s', create_task fuel true (Some id) name ssize fn arg None s =
      Done (OSW_OK, Some l, s') /\
    brep s' (l :: ls) /\ b_items s' = <[l := x]> (b_items s) /\ b_mallocs s' = S l.
Proof.
  intros HR Hf Hn l x. unfold create_task, search_task.
  rewrite (search_named_spec _ _ _ _ _ HR Hf), Hn. cbn [obind].
  destruct (alloc_item_spec s ls (mk_task 0 ssize fn arg 0 (strncpy name TASK_NAME_LEN)) HR) as
    (s1 & -> & HR1 & I1 & M1 & Hl).
  destruct (link_item_spec s1 ls l HR1) as (s2 & E2 & HR2 & I2 & M2);
    [rewrite I1; unfold l; rewrite lookup_insert_eq; eauto | done |].
  fold l. rewrite E2. cbn [obind].
  destruct (set_item_spec s2 (l :: ls) l (mk_task 0 ssize fn arg 0 (strncpy name TASK_NAME_LEN)) x HR2)
    as [E3 HR3]; [rewrite I2, I1; unfold l; by rewrite lookup_insert_eq|].
  fold x. rewrite E3. cbn [obind]. eexists. split; [done|]. split_and!; [done | | cbn; lia].
  cbn. rewrite I2, I1. unfold l. by rewrite insert_insert_eq.
Qed.

(** A name longer than the field is cut when the task is created but not
    when it is looked for: the second creation with it succeeds too, the name
    finds neither task and the cut name finds the second. *)
Theorem long_names_duplicate (fuel : nat) (name : string) (id1 id2 ssize fn arg : Z) :
  2 <= fuel -> TASK_NAME_LEN < String.length name ->
  exists l1 l2 s1 s2, l1 <> l2 /\
    create_task fuel true (Some id1) name ssize fn arg None task_base_init =
      Done (OSW_OK, Some l1, s1) /\
    create_task fuel true (Some id2) name ssize fn arg None s1 = Done (OSW_OK, Some l2, s2) /\
    search_task fuel name s2 = Done None /\
    search_task fuel (strncpy name TASK_NAME_LEN) s2 = Done (Some l2).
Proof.
  intros Hf Hn. assert (strncpy name TASK_NAME_LEN <> name) as Hne.
  { intros E. pose proof (strncpy_length name TASK_NAME_LEN) as H. rewrite E in H. lia. }
  destruct (create_brep fuel id1 name ssize fn arg task_base_init [] brep_init) as
    (s1 & E1 & HR1 & I1 & M1); [cbn; lia | done |].
  destruct (create_brep fuel id2 name ssize fn arg s1 [0] HR1) as (s2 & E2 & HR2 & I2 & M2).
  { rewrite M1. cbn. lia. }
  { cbn. unfold has_name. rewrite I1, lookup_insert_eq. by rewrite bool_decide_eq_false_2. }
  rewrite M1 in *. cbn in *. exists 0, 1, s1, s2. split_and!; [done | done | done | |];
    unfold search_task; rewrite (search_named_spec _ _ _ _ _ HR2) by lia; cbn; unfold has_name;
    rewrite I2, lookup_insert_eq.
  - rewrite lookup_insert_ne, I1, lookup_insert_eq by done.
    cbn. by rewrite !bool_decide_eq_false_2 by done.
  - by rewrite bool_decide_eq_true_2.
Qed.

(** ** At concrete inputs *)
Definition sample_kops : list kop :=
  [K_search "dps"; K_create true (Some 71) "dps" 0 1 2; K_create true (Some 72) "dps" 0 1 2;
   K_create false (Some 72) "rest" 0 1 2; K_create true None "rest" 0 1 2;
   K_create true (Some 72) "rest" 0 3 4; K_search "rest"; K_send 3 5; K_recv 3 4; K_recv 3 4;
   K_recv 3 1; K_del 72 3; K_search "rest"; K_search "dps"; K_del 72 0]%Z.

Example sample_kops_results :
  (step_all kstep sample_kops taskmap0).1 =
  [KR_found None; KR_created 0 (Some 0%nat); KR_created (-1) None; KR_created (-1) None;
   KR_created (-1) (Some 2%nat); KR_created 0 (Some 3%nat); KR_found (Some 3%nat); KR_status 0;
   KR_recvd (Some (0, 4)); KR_recvd (Some (-1, 0)); KR_recvd (Some (0, 1)); KR_deleted true;
   KR_found None; KR_found (Some 0%nat); KR_deleted false]%Z.
Proof. vm_compute. reflexivity. Qed.

#[export] Instance kallowed_dec o a : Decision (kallowed o a).
Proof. destruct o; cbn; apply _. Defined.

Lemma task_registry_refines_witness :
  exists s, run_all (run_kop 15) sample_kops task_base_init =
      Done ((step_all kstep sample_kops taskmap0).1, s) /\
    krep s (step_all kstep sample_kops taskmap0).2.
Proof.
  apply (task_registry_refines sample_kops 15).
  - cbn. lia.
  - apply (bool_decide_unpack _). vm_compute. exact I.
Defined.

Definition sample_eops : list eop := [E_send 5; E_recv 4; E_send 4; E_send 4; E_recv 6; E_recv 5]%Z.
Definition one_task : task_info := mk_task 7 0 1 2 0 "dps".

Lemma event_once_witness :
  exists s rs s', run_all (run_kop 2) (map (kop_of 0) sample_eops) s = Done (rs, s') /\
    forall b, (0 <= b)%Z -> omap (bit_of b) rs = received b false sample_eops.
Proof.
  destruct (kop_refines 1 (K_create true (Some 7%Z) "dps" 0 1 2) task_base_init taskmap0) as
    (s & _ & HR); [cbn; lia | apply krep_init | cbn; unfold TASK_NAME_LEN; lia |].
  exists s. apply (event_once sample_eops 2 0 one_task s _ HR); [reflexivity | done | vm_compute; lia].
Defined.

Lemma long_names_duplicate_witness :
  exists l1 l2 s1 s2, l1 <> l2 /\
    create_task 2 true (Some 1%Z) "dove_heartbeat_task" 0 1 2 None task_base_init =
      Done (OSW_OK, Some l1, s1) /\
    create_task 2 true (Some 2%Z) "dove_heartbeat_task" 0 1 2 None s1 =
      Done (OSW_OK, Some l2, s2) /\
    search_task 2 "dove_heartbeat_task" s2 = Done None /\
    search_task 2 (strncpy "dove_heartbeat_task" TASK_NAME_LEN) s2 = Done (Some l2).
Proof. apply long_names_duplicate; [lia | unfold TASK_NAME_LEN; cbn; lia]. Defined.
