(* ===== verification/OswSems.v ===== *)
(** * A semaphore counts *)
From stdpp Require Import gmap strings.
From S2P Require Export OswTasks.

(** ** Semaphores: [osw/semaphore.c] *)
Definition SEM_NAME_LEN : nat := 16.

(** [si_value] is the value of the [sem_t], [None] before [sem_init] and after
    [sem_destroy]. *)
Record sem_info := mk_sem { si_value : option Z; si_name : string }.

Abbreviation sem_base := (base sem_info).

Definition sem_base_init : sem_base := base_init.

Definition search_sem (fuel : nat) (name : string) (s : sem_base) : out (option nat) :=
  search_named si_name fuel name s.

(** [init_ok] is whether [sem_init] succeeds; an object it fails for is taken
    off the list but not freed. *)
Definition create_sem (fuel : nat) (malloc_ok init_ok : bool) (name : string) (init_val : Z)
    (sid : option nat) (s : sem_base) : out (Z * option nat * sem_base) :=
  let* found := search_sem fuel name s in
  match found with
  | Some _ => Done (OSW_ERROR, sid, s)
  | None =>
      match alloc_item malloc_ok (mk_sem None (strncpy name SEM_NAME_LEN)) s with
      | (None, s) => Done (OSW_ERROR, sid, s)
      | (Some l, s) =>
          let* s := link_item l s in
          if init_ok then
            let* s := set_item l (mk_sem (Some init_val) (strncpy name SEM_NAME_LEN)) s in
            Done (OSW_OK, Some l, s)
          else
            let* s := unlink_item l s in
            Done (OSW_ERROR, Some l, s)
      end
  end.

(** The object is not freed. *)
Definition del_sem (l : nat) (s : sem_base) : out sem_base :=
  let* s := unlink_item l s in
  let* si := item_at s l in
  set_item l (mk_sem None (si_name si)) s.

(** [sem_wait]: [waits] is what the other threads do while the caller waits;
    [None] is a caller that waits still. *)
Fixpoint sem_take (waits : list (sem_base -> out sem_base)) (l : nat) (s : sem_base)
    : out (option Z * sem_base) :=
  let* si := item_at s l in
  match si_value si with
  | None => Fault
  | Some v =>
      if (0 <? v)%Z then
        let* s := set_item l (mk_sem (Some (v - 1)%Z) (si_name si)) s in Done (Some OSW_OK, s)
      else
        match waits with
        | [] => Done (None, s)
        | w :: waits => let* s := w s in sem_take waits l s
        end
  end.

(** [sem_post] fails if the value is [SEM_VALUE_MAX]. *)
Definition SEM_VALUE_MAX : Z := 2147483647.
Definition sem_give (l : nat) (s : sem_base) : out (Z * sem_base) :=
  let* si := item_at s l in
  match si_value si with
  | None => Fault
  | Some v =>
      if (v <? SEM_VALUE_MAX)%Z then
        let* s := set_item l (mk_sem (Some (v + 1)%Z) (si_name si)) s in Done (OSW_OK, s)
      else Done (OSW_ERROR, s)
  end.

(** What threads do with one semaphore.  A thread that waits is woken up as
    often as [others] is long, and finds that another gave the semaphore
    ([true]) or that none did. *)
Inductive sop := S_give | S_take (others : list bool).
Inductive sres := SR_given (status : Z) | SR_taken (status : option Z).

Section one.
Context (l : nat) (name : string).

Definition run_other (gives : bool) (s : sem_base) : out sem_base :=
  if gives then let* (_, s) := sem_give l s in Done s else Done s.
Definition run_sop (o : sop) (s : sem_base) : out (sres * sem_base) :=
  match o with
  | S_give => let* (r, s) := sem_give l s in Done (SR_given r, s)
  | S_take others => let* (r, s) := sem_take (map run_other others) l s in Done (SR_taken r, s)
  end.

Definition sstep (o : sop) (v : Z) : sres * Z :=
  match o with
  | S_give => if (v <? SEM_VALUE_MAX)%Z then (SR_given OSW_OK, v + 1)%Z else (SR_given OSW_ERROR, v)
  | S_take others =>
      if (0 <? v)%Z then (SR_taken (Some OSW_OK), v - 1)%Z
      else if existsb id others then (SR_taken (Some OSW_OK), v)
      else (SR_taken None, v)
  end.

Definition holds (s : sem_base) (v : Z) : Prop :=
  (0 <= v <= SEM_VALUE_MAX)%Z /\ b_items s !! l = Some (mk_sem (Some v) name).

Lemma set_value s v v' :
  b_items s !! l = Some (mk_sem (Some v) name) -> (0 <= v' <= SEM_VALUE_MAX)%Z ->
  exists s', set_item l (mk_sem (Some v') name) s = Done s' /\ holds s' v'.
Proof.
  intros E Hv. unfold set_item, item_at. rewrite E. eexists. split; [done|].
  split; [done|]. cbn. by rewrite lookup_insert_eq.
Qed.

Lemma give_spec s v :
  holds s v -> exists s', sem_give l s = Done (if (v <? SEM_VALUE_MAX)%Z then OSW_OK else OSW_ERROR, s')
    /\ holds s' (if (v <? SEM_VALUE_MAX)%Z then v + 1 else v)%Z.
Proof.
  intros [Hv E]. unfold sem_give, item_at. rewrite E. cbn [of_option obind si_value si_name].
  destruct (Z.ltb_spec v SEM_VALUE_MAX).
  - destruct (set_value s v (v + 1) E) as (s' & -> & H'); [lia|]. by exists s'.
  - by exists s.
Qed.

Lemma sem_take_spec others : forall s v,
  holds s v -> exists s',
    sem_take (map run_other others) l s =
      Done (if (0 <? v)%Z || existsb id others then Some OSW_OK else None, s') /\
    holds s' (if (0 <? v)%Z then v - 1 else v)%Z.
Proof.
  induction others as [|g others IH]; intros s v [Hv E]; cbn [map sem_take existsb]; unfold item_at;
    rewrite E; cbn [of_option obind si_value si_name].
  - destruct (Z.ltb_spec 0 v); [|by exists s].
    destruct (set_value s v (v - 1) E) as (s' & -> & H'); [lia|]. by exists s'.
  - destruct (Z.ltb_spec 0 v).
    + destruct (set_value s v (v - 1) E) as (s' & -> & H'); [lia|]. by exists s'.
    + assert (v = 0)%Z as -> by lia. destruct g; cbn [run_other id orb].
      * destruct (give_spec s 0 (conj Hv E)) as (s1 & -> & HH1). cbn [obind].
        destruct (IH s1 1%Z HH1) as (s2 & -> & HH2). by exists s2.
      * cbn [obind]. destruct (IH s 0%Z (conj Hv E)) as (s2 & -> & HH2). by exists s2.
Qed.

Lemma sop_refines o s v :
  holds s v -> exists s', run_sop o s = Done ((sstep o v).1, s') /\ holds s' (sstep o v).2.
Proof.
  intros HH. destruct o as [|others]; cbn [run_sop sstep].
  - destruct (give_spec s v HH) as (s' & -> & HH'). exists s'. by destruct (v <? SEM_VALUE_MAX)%Z.
  - destruct (sem_take_spec others s v HH) as (s' & -> & HH'). exists s'.
    by destruct (0 <? v)%Z, (existsb id others).
Qed.
End one.

(** A semaphore counts: it is created with its value (for a new name), and
    after any sequence of operations has that value plus the times it was given
    less the times it was taken; a thread that takes it waits exactly while it
    is not positive, and a thread that waits goes on when another gives it. *)
Theorem semaphore_counts (fuel : nat) (name : string) (init : Z) (ops : list sop)
    (s : sem_base) (m : gmap string nat) :
  named si_name s m -> b_mallocs s <= fuel -> m !! name = None ->
  String.length name <= SEM_NAME_LEN -> (0 <= init <= SEM_VALUE_MAX)%Z ->
  exists l s1 s2, create_sem fuel true true name init None s = Done (OSW_OK, Some l, s1) /\
    run_all (run_sop l) ops s1 = Done ((step_all sstep ops init).1, s2) /\
    holds l name s2 (step_all sstep ops init).2 /\
    named si_name s1 (<[name := l]> m).
Proof.
  intros HN Hf Hn Hlen Hi. unfold create_sem, search_sem.
  rewrite (named_search _ _ _ _ _ HN Hf), Hn. cbn [obind].
  rewrite (strncpy_short name SEM_NAME_LEN Hlen).
  destruct (named_create _ s m (mk_sem None name) HN Hn) as
    (s1 & s2 & -> & E2 & HN2 & I2 & _ & _ & ls & HB & _).
  rewrite E2. cbn [obind].
  destruct (named_set _ s2 _ _ _ (mk_sem (Some init) name) HN2 I2 eq_refl) as (s3 & E3 & HN3 & I3).
  rewrite E3. cbn [obind].
  assert (holds (b_mallocs s) name s3 init) as H3
    by (split; [done|]; by rewrite I3, lookup_insert_eq).
  destruct (run_all_refines (run_sop (b_mallocs s)) sstep (fun _ _ => True)
    (fun _ => holds (b_mallocs s) name)) with (ops := ops) (s := s3) (a := init)
    as (s4 & E4 & H4).
  - intros _ o s' v HH _. by apply sop_refines.
  - done.
  - clear. revert init. induction ops as [|o ops IH]; intros v; cbn; [done|]. split; [done | apply IH].
  - exists (b_mallocs s), s3, s4. by split_and!.
Qed.

(** ** At concrete inputs *)
Definition sample_sops : list sop :=
  [S_take []; S_take []; S_take [false; true]; S_give; S_give; S_take [false]; S_take [false];
   S_take [false; false]].
Example sample_sops_results :
  step_all sstep sample_sops 1%Z =
  ([SR_taken (Some 0); SR_taken None; SR_taken (Some 0); SR_given 0; SR_given 0;
    SR_taken (Some 0); SR_taken (Some 0); SR_taken None], 0)%Z.
Proof. vm_compute. reflexivity. Qed.

Lemma semaphore_counts_witness :
  exists l s1 s2,
    create_sem 0 true true "db" 1 None sem_base_init = Done (OSW_OK, Some l, s1) /\
    run_all (run_sop l) sample_sops s1 = Done ((step_all sstep sample_sops 1%Z).1, s2) /\
    holds l "db" s2 (step_all sstep sample_sops 1%Z).2 /\ named si_name s1 (<["db" := l]> ∅).
Proof.
  apply (semaphore_counts 0 "db" 1 sample_sops sem_base_init ∅); try done.
  - apply named_init.
  - unfold SEM_NAME_LEN. cbn. lia.
Defined.
