(* ===== verification/OswTimer.v ===== *)
(** * The timer wheel: [osw/timer.c]

    Five vectors of lists, each with intervals sixteen times as long as the
    one before it.  A timer is put in the vector its delay fits; when time
    reaches the interval of a list, its timers move to the vector before.
    Ticks are [unsigned long].  The lock is recursive: the routines a timer
    calls may start and stop timers. *)
From stdpp Require Import gmap strings.
From S2P Require Export OswTask.

Definition u64 (z : Z) : Z := (z mod 18446744073709551616)%Z.

(** ** Constants *)
Definition TV1_BITS : Z := 6.
Definition TV2_BITS : Z := 4.
Definition TV3_BITS : Z := 4.
Definition TV4_BITS : Z := 4.
Definition TV5_BITS : Z := 4.
Definition TV1_SIZE : Z := Z.shiftl 1 TV1_BITS.
Definition TV2_SIZE : Z := Z.shiftl 1 TV2_BITS.
Definition TV3_SIZE : Z := Z.shiftl 1 TV3_BITS.
Definition TV4_SIZE : Z := Z.shiftl 1 TV4_BITS.
Definition TV5_SIZE : Z := Z.shiftl 1 TV5_BITS.
Definition TV1_OFFSET : Z := Z.shiftl 1 TV1_BITS.
Definition TV2_OFFSET : Z := Z.shiftl 1 (TV1_BITS + TV2_BITS).
Definition TV3_OFFSET : Z := Z.shiftl 1 (TV1_BITS + TV2_BITS + TV3_BITS).
Definition TV4_OFFSET : Z := Z.shiftl 1 (TV1_BITS + TV2_BITS + TV3_BITS + TV4_BITS).
Definition TV1_INTERVAL : Z := 1.
Definition TV2_INTERVAL : Z := Z.shiftl 1 TV1_BITS.
Definition TV3_INTERVAL : Z := Z.shiftl 1 (TV1_BITS + TV2_BITS).
Definition TV4_INTERVAL : Z := Z.shiftl 1 (TV1_BITS + TV2_BITS + TV3_BITS).
Definition TV5_INTERVAL : Z := Z.shiftl 1 (TV1_BITS + TV2_BITS + TV3_BITS + TV4_BITS).
Definition MSEC_PER_TICK : Z := 100.

(** ** State *)

(** A routine is known by a number; [tm_tid] is the task for the event. *)
Record timer_list := mk_timer {
  tm_expires : Z; tm_tid : option nat; tm_event : Z; tm_callback : option Z; tm_data : Z }.

(** The calls of routines. *)
Inductive tm_call := Tm_call (routine data : Z).

(** The heads of the five vectors are one array: [tv1] from 0, [tv2] from 64,
    [tv3] from 80, [tv4] from 96, [tv5] from 112.  A timer's node is its first
    member. *)
Record tvec_base := mk_tvec {
  tv_lists : hlists; tv_timers : gmap nat timer_list; tv_ticks : Z; tv_mallocs : nat;
  tv_tasks : task_base; tv_calls : list tm_call }.

Definition tv1 : Z := 0.
Definition tv2 : Z := tv1 + TV1_SIZE.
Definition tv3 : Z := tv2 + TV2_SIZE.
Definition tv4 : Z := tv3 + TV3_SIZE.
Definition tv5 : Z := tv4 + TV4_SIZE.
Definition tv_size : Z := tv5 + TV5_SIZE.

Definition tv_with_lists (x : hlists) (s : tvec_base) : tvec_base :=
  mk_tvec x (tv_timers s) (tv_ticks s) (tv_mallocs s) (tv_tasks s) (tv_calls s).
Definition tv_with_timers (x : gmap nat timer_list) (s : tvec_base) : tvec_base :=
  mk_tvec (tv_lists s) x (tv_ticks s) (tv_mallocs s) (tv_tasks s) (tv_calls s).
Definition tv_with_ticks (x : Z) (s : tvec_base) : tvec_base :=
  mk_tvec (tv_lists s) (tv_timers s) x (tv_mallocs s) (tv_tasks s) (tv_calls s).
Definition tv_with_tasks (x : task_base) (s : tvec_base) : tvec_base :=
  mk_tvec (tv_lists s) (tv_timers s) (tv_ticks s) (tv_mallocs s) x (tv_calls s).
Definition tv_call (c : tm_call) (s : tvec_base) : tvec_base :=
  mk_tvec (tv_lists s) (tv_timers s) (tv_ticks s) (tv_mallocs s) (tv_tasks s) (tv_calls s ++ [c]).

Definition timer_at (s : tvec_base) (l : nat) : out timer_list := of_option (tv_timers s !! l).
Definition on_wheel (f : hlists -> out hlists) (s : tvec_base) : out tvec_base :=
  let* x := f (tv_lists s) in Done (tv_with_lists x s).

(** The wheel when [timer_base_init] has allocated and zeroed it. *)
Definition timer_wheel (tasks : task_base) : tvec_base :=
  mk_tvec (mk_hlists (replicate (Z.to_nat tv_size) Null) ∅) ∅ 0 0 tasks [].

(** ** Creation and deletion *)

(** [task_name] is [None] for [NULL]; [timer_id] is [*timer_id]. *)
Definition create_timer (fuel : nat) (malloc_ok : bool) (task_name : option string) (event : Z)
    (callback : option Z) (data : Z) (timer_id : option nat) (s : tvec_base)
    : out (Z * option nat * tvec_base) :=
  let allocate tid :=
    let l := tv_mallocs s in
    if malloc_ok then
      let x := tv_lists s in
      Done (OSW_OK, Some l,
        mk_tvec (mk_hlists (hl_heads x) (<[l := mk_hlist_node Null Lnull]> (hl_nodes x)))
          (<[l := mk_timer 0 tid event callback data]> (tv_timers s)) (tv_ticks s) (S l)
          (tv_tasks s) (tv_calls s))
    else Done (OSW_ERROR, timer_id,
      mk_tvec (tv_lists s) (tv_timers s) (tv_ticks s) (S l) (tv_tasks s) (tv_calls s)) in
  match callback, task_name with
  | None, None => Done (OSW_ERROR, timer_id, s)
  | None, Some name =>
      let* tid := search_task fuel name (tv_tasks s) in
      match tid with
      | None => Done (OSW_ERROR, timer_id, s)
      | Some _ => allocate tid
      end
  | Some _, _ => allocate None
  end.

Definition del_timer (timer_id : option nat) (s : tvec_base) : out (Z * tvec_base) :=
  match timer_id with
  | None => Done (OSW_ERROR, s)
  | Some l =>
      let* _ := timer_at s l in
      let x := tv_lists s in
      Done (OSW_OK,
        tv_with_timers (delete l (tv_timers s))
          (tv_with_lists (mk_hlists (hl_heads x) (delete l (hl_nodes x))) s))
  end.

(** ** Starting and stopping *)
Definition add_timer (l : nat) (s : tvec_base) : out tvec_base :=
  let* timer := timer_at s l in
  let expires := tm_expires timer in
  let offset := u64 (tm_expires timer - tv_ticks s) in
  let vec :=
    if (offset <? TV1_OFFSET)%Z then (tv1 + expires / TV1_INTERVAL mod TV1_SIZE)%Z
    else if (offset <? TV2_OFFSET)%Z then (tv2 + expires / TV2_INTERVAL mod TV2_SIZE)%Z
    else if (offset <? TV3_OFFSET)%Z then (tv3 + expires / TV3_INTERVAL mod TV3_SIZE)%Z
    else if (offset <? TV4_OFFSET)%Z then (tv4 + expires / TV4_INTERVAL mod TV4_SIZE)%Z
    else (tv5 + expires / TV5_INTERVAL mod TV5_SIZE)%Z in
  on_wheel (dps_hlist_head_add (Z.to_nat vec) l) s.

Definition start_timer_internal (l : nat) (expires : Z) (s : tvec_base) : out tvec_base :=
  let* t := timer_at s l in
  let t := mk_timer (u64 (expires + tv_ticks s)) (tm_tid t) (tm_event t) (tm_callback t)
    (tm_data t) in
  add_timer l (tv_with_timers (<[l := t]> (tv_timers s)) s).

(** [sec * 1000 + msec] in [unsigned int] *)
Definition ticks_of (sec msec : Z) : Z := (u32 (u32 (sec * 1000) + msec) / MSEC_PER_TICK)%Z.
Definition start_timer (l : nat) (sec msec : Z) (s : tvec_base) : out tvec_base :=
  start_timer_internal l (ticks_of sec msec) s.

Definition stop_timer (timer_id : option nat) (s : tvec_base) : out tvec_base :=
  match timer_id with
  | None => Done s
  | Some l =>
      let* n := hl_deref (tv_lists s) l in
      match hn_pprevious n, hn_next n with
      | Lnull, _ | LIST_POISON2, _ | _, LIST_POISON1 => Done s
      | _, _ => on_wheel (dps_hlist_node_remove l) s
      end
  end.

(** ** A tick

    [call] are the routines of the timers. *)
Section tick.
Context (call : Z -> Z -> tvec_base -> out tvec_base).

Definition expire (t : timer_list) (s : tvec_base) : out tvec_base :=
  match tm_callback t with
  | Some routine => call routine (tm_data t) (tv_call (Tm_call routine (tm_data t)) s)
  | None =>
      match tm_tid t with
      | None => Fault
      | Some tid =>
          let* (_, x) := send_event tid (tm_event t) (tv_tasks s) in Done (tv_with_tasks x s)
      end
  end.

(** The [while (hnode)] loop. *)
Fixpoint tvec_from (fuel : nat) (hnode : hptr) (s : tvec_base) : out tvec_base :=
  match hnode with
  | Null => Done s
  | LIST_POISON1 => Fault
  | Ptr l =>
      match fuel with
      | 0 => Timeout
      | S fuel =>
          let* n := hl_deref (tv_lists s) l in
          let hnode := hn_next n in
          let* s := on_wheel (dps_hlist_node_remove l) s in
          let* timer := timer_at s l in
          let expires := u64 (tm_expires timer - tv_ticks s) in
          let* s := if (expires =? 0)%Z then expire timer s else add_timer l s in
          tvec_from fuel hnode s
      end
  end.
Definition process_tvec (fuel : nat) (vec : Z) (s : tvec_base) : out tvec_base :=
  let* hnode := hl_first (tv_lists s) (Z.to_nat vec) in tvec_from fuel hnode s.

(** What [process_tick] does with the lock held. *)
Definition process_vectors (fuel : nat) (s : tvec_base) : out tvec_base :=
  let index := (tv_ticks s mod TV1_SIZE)%Z in
  let* s := process_tvec fuel (tv1 + index) s in
  if negb (index =? 0)%Z then Done s else
  let index := (tv_ticks s / TV2_INTERVAL mod TV2_SIZE)%Z in
  let* s := process_tvec fuel (tv2 + index) s in
  if negb (index =? 0)%Z then Done s else
  let index := (tv_ticks s / TV3_INTERVAL mod TV3_SIZE)%Z in
  let* s := process_tvec fuel (tv3 + index) s in
  if negb (index =? 0)%Z then Done s else
  let index := (tv_ticks s / TV4_INTERVAL mod TV4_SIZE)%Z in
  let* s := process_tvec fuel (tv4 + index) s in
  if negb (index =? 0)%Z then Done s else
  let index := (tv_ticks s / TV5_INTERVAL mod TV5_SIZE)%Z in
  process_tvec fuel (tv5 + index) s.
Definition advance (s : tvec_base) : tvec_base := tv_with_ticks (u64 (tv_ticks s + 1)) s.
Definition process_tick (fuel : nat) (s : tvec_base) : out tvec_base :=
  let* s := process_vectors fuel s in Done (advance s).
Fixpoint process_ticks (fuel n : nat) (s : tvec_base) : out tvec_base :=
  match n with
  | 0 => Done s
  | S n => let* s := process_tick fuel s in process_ticks fuel n s
  end.
End tick.

(** ** The clock: how many ticks a cycle of [timer_main] processes *)
Record tm_clock := mk_clock { ck_total_elapsed_usec : Z; ck_total_ticks : Z }.

(** [struct timeval]s are seconds and microseconds. *)
Definition COMPUTE_ELAPSED_TIME (tv1 tv2 : Z * Z) : Z :=
  ((tv1.1 - tv2.1) * 1000000 + (tv1.2 - tv2.2))%Z.

Definition timer_cycle (cur last : Z * Z) (c : tm_clock) : Z * tm_clock :=
  let last := if ((last.1 =? 0) && (last.2 =? 0))%Z then cur else last in
  let elapsed_usec := u64 (COMPUTE_ELAPSED_TIME cur last) in
  let ticks := (elapsed_usec / (1000 * MSEC_PER_TICK))%Z in
  let total_elapsed_usec := u64 (ck_total_elapsed_usec c + elapsed_usec) in
  let real_total_ticks := (total_elapsed_usec / (1000 * MSEC_PER_TICK))%Z in
  let total_ticks := u64 (ck_total_ticks c + ticks) in
  if (real_total_ticks =? total_ticks)%Z then (ticks, mk_clock total_elapsed_usec total_ticks)
  else (u64 (ticks + u64 (real_total_ticks - total_ticks)), mk_clock 0 0).
