(* ===== verification/OswTurn.v ===== *)
(** * A turn of the wheel: what [process_vectors] fires and moves

    The routines of the timers either do nothing to the wheel or start their
    own timer again, at least one tick later. *)
From stdpp Require Import gmap.
From S2P Require Export OswTimer.

(** ** Where the timers of the wheel are

    Level [i] of the wheel has [lv_size i] lists, each for [lv_int i] ticks.  A
    timer that expires at tick [E] may be in the list of any level for [E], as
    long as that list has not had its turn: the turn of the list for [E] comes
    at the tick [E / lv_int i * lv_int i]. *)
Definition lv_base (i : nat) : Z :=
  match i with 0 => 0%Z | 1 => 64%Z | 2 => 80%Z | 3 => 96%Z | _ => 112%Z end.
Definition lv_int (i : nat) : Z :=
  match i with 0 => 1%Z | 1 => 64%Z | 2 => 1024%Z | 3 => 16384%Z | _ => 262144%Z end.
Definition lv_size (i : nat) : Z := match i with 0 => 64%Z | _ => 16%Z end.
Definition LEVELS : nat := 5.
Definition HEADS : nat := 128.
Definition MAX_TICK : Z := 18446744073709551616.

Definition slot (i : nat) (E : Z) : nat := Z.to_nat (lv_base i + E / lv_int i mod lv_size i).

(** The list [h] has its turn for [E] at tick [T] or later. *)
Definition placed (T : Z) (h : nat) (E : Z) : Prop :=
  exists i, i < LEVELS /\ h = slot i E /\ (T <= E / lv_int i * lv_int i)%Z.

(** The five levels one by one. *)
Ltac levels i :=
  destruct i as [|[|[|[|[|i]]]]]; [| | | | | unfold LEVELS in *; lia].

Lemma slot_lt i E : i < LEVELS -> slot i E < HEADS.
Proof.
  intros Hi. unfold slot, HEADS. levels i; cbn [lv_base lv_int lv_size];
    Z.div_mod_to_equations; lia.
Qed.

Lemma slot_level i j E E' :
  i < LEVELS -> j < LEVELS -> slot i E = slot j E' ->
  i = j /\ (E / lv_int i mod lv_size i = E' / lv_int i mod lv_size i)%Z.
Proof.
  intros Hi Hj. unfold slot. levels i; levels j; cbn [lv_base lv_int lv_size]; intros H;
    (split; [|revert H]); Z.div_mod_to_equations; lia.
Qed.

Lemma placed_weaken T T' h E : (T' <= T)%Z -> placed T h E -> placed T' h E.
Proof. intros H (i & Hi & -> & HE). exists i. split_and!; [done | done | lia]. Qed.

Lemma placed_expiry T h E : placed T h E -> (T <= E)%Z.
Proof.
  intros (i & Hi & _ & H). levels i; cbn [lv_int] in H; Z.div_mod_to_equations; lia.
Qed.

(** A list whose turn for [E] is at [T] itself is a list of [T]. *)
Lemma placed_turn T h E :
  placed T h E ->
  placed (T + 1) h E \/ exists i, i < LEVELS /\ h = slot i T /\ (T mod lv_int i = 0)%Z.
Proof.
  intros (i & Hi & -> & HE). destruct (decide (T + 1 <= E / lv_int i * lv_int i)%Z) as [H|H].
  - left. exists i. auto.
  - right. exists i. split; [done|]. assert (T = E / lv_int i * lv_int i)%Z as -> by lia.
    assert (lv_int i <> 0)%Z by (levels i; discriminate). split.
    + unfold slot. by rewrite Z.div_mul.
    + by apply Z.mod_mul.
Qed.

(** The list [add_timer] chooses. *)
Definition add_vec (E offset : Z) : Z :=
  if (offset <? TV1_OFFSET)%Z then (tv1 + E / TV1_INTERVAL mod TV1_SIZE)%Z
  else if (offset <? TV2_OFFSET)%Z then (tv2 + E / TV2_INTERVAL mod TV2_SIZE)%Z
  else if (offset <? TV3_OFFSET)%Z then (tv3 + E / TV3_INTERVAL mod TV3_SIZE)%Z
  else if (offset <? TV4_OFFSET)%Z then (tv4 + E / TV4_INTERVAL mod TV4_SIZE)%Z
  else (tv5 + E / TV5_INTERVAL mod TV5_SIZE)%Z.

(** The delay is too long for the levels before. *)
Definition fits_level (i : nat) (d : Z) : Prop :=
  i < LEVELS /\ match i with 0 => (d < 64)%Z | _ => (lv_int i <= d)%Z end.

Lemma add_vec_slot E d : exists i, Z.to_nat (add_vec E d) = slot i E /\ fits_level i d.
Proof.
  unfold add_vec, fits_level, slot.
  change TV1_OFFSET with 64%Z. change TV2_OFFSET with 1024%Z. change TV3_OFFSET with 16384%Z.
  change TV4_OFFSET with 262144%Z.
  repeat case_match; rewrite ?Z.ltb_lt, ?Z.ltb_ge in *.
  - exists 0. by split_and!; [|unfold LEVELS; lia|].
  - exists 1. split_and!; [done | unfold LEVELS; lia | done].
  - exists 2. split_and!; [done | unfold LEVELS; lia | done].
  - exists 3. split_and!; [done | unfold LEVELS; lia | done].
  - exists 4. split_and!; [done | unfold LEVELS; lia | done].
Qed.

Lemma placed_fits T E i :
  (T <= E)%Z -> fits_level i (E - T) ->
  placed T (slot i E) E /\ (T < E -> placed (T + 1) (slot i E) E)%Z.
Proof.
  intros HT [Hi Hf]. split; [|intros Hlt]; exists i; split_and!; try done;
    levels i; cbn [lv_int] in *; Z.div_mod_to_equations; lia.
Qed.

(** ** The representation

    [Q h E] is what is known of a timer for tick [E] in list [h]; [due] gives
    the tick of each timer that is started. *)
Record wrep (Q : nat -> Z -> Prop) (s : tvec_base) (due : gmap nat Z) (L : nat -> list nat)
    : Prop := {
  wr_lists : hrep (tv_lists s) L;
  wr_heads : length (hl_heads (tv_lists s)) = HEADS;
  wr_over h : HEADS <= h -> L h = [];
  wr_in h l : l ∈ L h -> exists t, tv_timers s !! l = Some t /\
    due !! l = Some (tm_expires t) /\ Q h (tm_expires t);
  wr_due l : is_Some (due !! l) -> exists h, l ∈ L h;
  wr_range l E : due !! l = Some E -> (tv_ticks s <= E < MAX_TICK)%Z;
  wr_ticks : (0 <= tv_ticks s)%Z;
  wr_nodes l : is_Some (tv_timers s !! l) <-> is_Some (hl_nodes (tv_lists s) !! l);
  wr_idle l n : due !! l = None -> hl_nodes (tv_lists s) !! l = Some n ->
    n = mk_hlist_node Null Lnull \/ n = mk_hlist_node LIST_POISON1 LIST_POISON2;
  wr_fresh l : is_Some (tv_timers s !! l) -> l < tv_mallocs s;
  wr_tasks l t : tv_timers s !! l = Some t -> tm_callback t = None ->
    exists tid, tm_tid t = Some tid /\ is_Some (b_items (tv_tasks s) !! tid)
}.

Lemma wrep_impl (Q Q' : nat -> Z -> Prop) s due L :
  wrep Q s due L ->
  (forall h l E, l ∈ L h -> due !! l = Some E -> Q h E -> Q' h E) -> wrep Q' s due L.
Proof.
  intros HR HQ. destruct HR. split; try done. intros h l Hl.
  destruct (wr_in0 h l Hl) as (t & Et & Ed & Hq). exists t. eauto.
Qed.

Lemma wrep_short Q s due L h : wrep Q s due L -> length (L h) <= tv_mallocs s.
Proof.
  intros HR. apply nodup_length; [apply (hr_nodup _ _ (wr_lists _ _ _ _ HR))|].
  intros l Hl. destruct (wr_in _ _ _ _ HR h l Hl) as (t & Et & _).
  apply (wr_fresh _ _ _ _ HR). by rewrite Et.
Qed.

(** A timer leaves its list. *)
Lemma wrep_remove Q s due L h a l b :
  wrep Q s due L -> L h = a ++ l :: b ->
  exists x, dps_hlist_node_remove l (tv_lists s) = Done x /\
    wrep Q (tv_with_lists x s) (delete l due) (hupd L h (a ++ b)).
Proof.
  intros HR EL. pose proof (wr_lists _ _ _ _ HR) as HL.
  assert (l ∈ L h) as Hl by (rewrite EL; set_solver).
  assert (h < HEADS) as Hh.
  { destruct (decide (h < HEADS)); [done|]. rewrite (wr_over _ _ _ _ HR) in Hl by lia.
    by apply elem_of_nil in Hl. }
  rewrite <- (wr_heads _ _ _ _ HR) in Hh.
  destruct (hlist_remove_frame _ L h a l b HL EL Hh) as (x & Ex & Hx & Hxl & Hxd & Hxn & Hxf).
  exists x. split; [done|].
  assert (forall k j, j ∈ hupd L h (a ++ b) k <-> j ∈ L k /\ j <> l) as Hin
    by (intros k j; by apply (elem_hupd_remove (tv_lists s))).
  split; cbn [tv_with_lists tv_lists tv_timers tv_ticks tv_mallocs tv_tasks]; try apply HR.
  - done.
  - rewrite Hxl. apply HR.
  - intros k Hk. unfold hupd. rewrite decide_False; [by apply (wr_over _ _ _ _ HR)|].
    rewrite (wr_heads _ _ _ _ HR) in Hh. lia.
  - intros k j [Hj Hjl]%Hin. destruct (wr_in _ _ _ _ HR k j Hj) as (t & Et & Ed & Hq).
    exists t. by rewrite lookup_delete_ne.
  - intros j [E Hj]. apply lookup_delete_Some in Hj as [Hjl Hj].
    destruct (wr_due _ _ _ _ HR j) as [k Hk]; [by rewrite Hj|]. exists k. by apply Hin.
  - intros j E [_ Hj]%lookup_delete_Some. by apply (wr_range _ _ _ _ HR j).
  - intros j. rewrite (wr_nodes _ _ _ _ HR). symmetry. apply Hxd.
  - intros j n. destruct (decide (j = l)) as [->|Hjl].
    + rewrite Hxn. intros _ [= <-]. by right.
    + rewrite lookup_delete_ne by done. intros Ej. rewrite Hxf; [by apply (wr_idle _ _ _ _ HR)|].
      intros Hj. destruct (wr_in _ _ _ _ HR h j Hj) as (t & _ & Ed & _). congruence.
Qed.

(** An idle timer is put in the list for its tick. *)
Lemma wrep_add Q s due L l t :
  wrep Q s due L -> due !! l = None -> tv_timers s !! l = Some t ->
  (tv_ticks s <= tm_expires t < MAX_TICK)%Z ->
  (forall i, fits_level i (tm_expires t - tv_ticks s) -> Q (slot i (tm_expires t)) (tm_expires t)) ->
  exists x i, add_timer l s = Done (tv_with_lists x s) /\
    fits_level i (tm_expires t - tv_ticks s) /\
    wrep Q (tv_with_lists x s) (<[l := tm_expires t]> due)
      (hupd L (slot i (tm_expires t)) (l :: L (slot i (tm_expires t)))).
Proof.
  intros HR Hd Et HE HQ. pose proof (wr_ticks _ _ _ _ HR) as HT0.
  set (E := tm_expires t) in *.
  assert (u64 (E - tv_ticks s) = E - tv_ticks s)%Z as Eu
    by (unfold u64, MAX_TICK in *; apply Z.mod_small; lia).
  destruct (add_vec_slot E (E - tv_ticks s)) as (i & Ev & Hf).
  set (h := slot i E) in *.
  assert (forall k, l ∉ L k) as Hl.
  { intros k Hk. destruct (wr_in _ _ _ _ HR k l Hk) as (t' & _ & Ed & _). congruence. }
  assert (h < length (hl_heads (tv_lists s))) as Hh.
  { rewrite (wr_heads _ _ _ _ HR). apply slot_lt, Hf. }
  destruct (hlist_add_frame (tv_lists s) L h l (wr_lists _ _ _ _ HR) Hh) as
    (x & Ex & Hx & Hxl & Hxd & Hxf); [by apply (wr_nodes _ _ _ _ HR); rewrite Et | done |].
  exists x, i. split_and!; [| done |].
  { unfold add_timer, timer_at. rewrite Et. cbn [of_option obind]. fold E. rewrite Eu.
    fold (add_vec E (E - tv_ticks s)). unfold on_wheel. rewrite Ev, Ex. done. }
  pose proof (elem_hupd_cons L h l) as Hin.
  split; cbn [tv_with_lists tv_lists tv_timers tv_ticks tv_mallocs tv_tasks]; try apply HR.
  - done.
  - rewrite Hxl. apply HR.
  - intros k Hk. unfold hupd. rewrite decide_False; [by apply (wr_over _ _ _ _ HR)|].
    rewrite (wr_heads _ _ _ _ HR) in Hh. lia.
  - intros k j [[-> ->]|Hj]%Hin.
    + exists t. rewrite lookup_insert_eq. split_and!; [done | done |]. by apply HQ.
    + rewrite lookup_insert_ne; [by apply (wr_in _ _ _ _ HR)|]. intros <-. by apply (Hl k).
  - intros j Hj. destruct (decide (j = l)) as [->|Hjl].
    + exists h. apply Hin. by left.
    + rewrite lookup_insert_ne in Hj by done. destruct (wr_due _ _ _ _ HR j Hj) as [k Hk].
      exists k. apply Hin. by right.
  - intros j E'. destruct (decide (j = l)) as [->|Hjl].
    + rewrite lookup_insert_eq. by intros [= <-].
    + rewrite lookup_insert_ne by done. apply (wr_range _ _ _ _ HR).
  - intros j. rewrite (wr_nodes _ _ _ _ HR). symmetry. apply Hxd.
  - intros j n. destruct (decide (j = l)) as [->|Hjl]; [by rewrite lookup_insert_eq|].
    rewrite lookup_insert_ne by done. intros Ej. rewrite Hxf; [by apply (wr_idle _ _ _ _ HR)|done|].
    intros Hj. destruct (wr_in _ _ _ _ HR h j Hj) as (t' & _ & Ed & _). congruence.
Qed.

(** What a timer was created with. *)
Definition tm_kind (t : timer_list) : timer_list :=
  mk_timer 0 (tm_tid t) (tm_event t) (tm_callback t) (tm_data t).
Definition kinds (s : tvec_base) : gmap nat timer_list := tm_kind <$> tv_timers s.

Lemma kinds_at s l t : tv_timers s !! l = Some t -> kinds s !! l = Some (tm_kind t).
Proof. intros E. unfold kinds. by rewrite lookup_fmap, E. Qed.

(** What firing a timer does to the outside: the call of its routine, or the
    event to its task. *)
Definition call_of (t : timer_list) : option tm_call :=
  match tm_callback t with Some r => Some (Tm_call r (tm_data t)) | None => None end.
Definition post (tid : nat) (event : Z) (tb : task_base) : task_base :=
  match b_items tb !! tid with
  | Some ti =>
      mk_base (b_list tb) (<[tid := set_events (Z.lor (ti_events ti) event) ti]> (b_items tb))
        (b_mallocs tb)
  | None => tb
  end.
Definition notified (tb : task_base) (t : timer_list) : task_base :=
  match tm_callback t, tm_tid t with
  | None, Some tid => post tid (tm_event t) tb
  | _, _ => tb
  end.

(** The same for the timer at [l]. *)
Definition call_at (ks : gmap nat timer_list) (l : nat) : option tm_call :=
  match ks !! l with Some t => call_of t | None => None end.
Definition notified_at (ks : gmap nat timer_list) (tb : task_base) (l : nat) : task_base :=
  match ks !! l with Some t => notified tb t | None => tb end.

Section turn.
(** The routine [r] with [data] starts the timer again after [d] ticks. *)
Context (period : Z -> Z -> option (nat * Z)) (call : Z -> Z -> tvec_base -> out tvec_base).
Context (call_ok : forall r data s, call r data s =
  match period r data with Some (l, d) => start_timer_internal l d s | None => Done s end).

(** When it fires at [T]: the tick it is next due, if any. *)
Definition renew (t : timer_list) (T : Z) : option Z :=
  match tm_callback t with
  | Some r => match period r (tm_data t) with Some (_, d) => Some (T + d)%Z | None => None end
  | None => None
  end.
Definition renew_at (ks : gmap nat timer_list) (T : Z) (l : nat) : option Z :=
  match ks !! l with Some t => renew t T | None => None end.

Definition MAX_DELAY : Z := 9223372036854775808.

(** A routine that starts a timer starts its own, not at once. *)
Definition kind_ok (l : nat) (t : timer_list) : Prop :=
  forall r l' d, tm_callback t = Some r -> period r (tm_data t) = Some (l', d) ->
  l' = l /\ (1 <= d < MAX_DELAY)%Z.
Definition kinds_ok (ks : gmap nat timer_list) : Prop := map_Forall kind_ok ks.

Record turn (T : Z) (fired : list nat) (s : tvec_base) (due : gmap nat Z) (s' : tvec_base)
    (due' : gmap nat Z) : Prop := {
  tu_kinds : kinds s' = kinds s;
  tu_ticks : tv_ticks s' = tv_ticks s;
  tu_mallocs : tv_mallocs s' = tv_mallocs s;
  tu_nodup : NoDup fired;
  tu_fired l : l ∈ fired -> due !! l = Some T;
  tu_due l : due' !! l = if decide (l ∈ fired) then renew_at (kinds s) T l else due !! l;
  tu_calls : tv_calls s' = tv_calls s ++ omap (call_at (kinds s)) fired;
  tu_tasks : tv_tasks s' = foldl (notified_at (kinds s)) (tv_tasks s) fired
}.

Lemma turn_refl T s due : turn T [] s due s due.
Proof.
  split; try done; cbn.
  - constructor.
  - intros l H. by apply elem_of_nil in H.
  - by rewrite app_nil_r.
Qed.

Lemma renew_later ks T l : kinds_ok ks -> renew_at ks T l <> Some T.
Proof.
  intros Hk. unfold renew_at, renew. destruct (ks !! l) as [t|] eqn:E; [|done].
  destruct (tm_callback t) as [r|] eqn:Er; [|done].
  destruct (period r (tm_data t)) as [[l' d]|] eqn:Ep; [|done].
  destruct (Hk l t E r l' d Er Ep) as [_ Hd]. intros [= H]. lia.
Qed.

Lemma turn_trans T f1 f2 s1 d1 s2 d2 s3 d3 :
  kinds_ok (kinds s1) -> turn T f1 s1 d1 s2 d2 -> turn T f2 s2 d2 s3 d3 ->
  turn T (f1 ++ f2) s1 d1 s3 d3.
Proof.
  intros Hk [K1 T1 M1 N1 F1 D1 C1 G1] [K2 T2 M2 N2 F2 D2 C2 G2].
  assert (forall l, l ∈ f1 -> l ∉ f2) as Hdisj.
  { intros l H1 H2. specialize (F2 l H2). rewrite D1, decide_True in F2 by done.
    by apply renew_later in F2. }
  split.
  - congruence.
  - congruence.
  - congruence.
  - apply list.NoDup_app. auto.
  - intros l [H|H]%elem_of_app; [by apply F1|]. specialize (F2 l H). rewrite D1 in F2.
    case_decide; [|done]. by apply renew_later in F2.
  - intros l. rewrite D2, D1, K1. repeat case_decide; set_solver.
  - by rewrite C2, C1, K1, <- app_assoc, omap_app.
  - by rewrite G2, G1, K1, foldl_app.
Qed.

(** ** Starting a timer *)
Lemma wrep_set_timer Q s due L l t t' :
  wrep Q s due L -> due !! l = None -> tv_timers s !! l = Some t -> tm_kind t' = tm_kind t ->
  wrep Q (tv_with_timers (<[l := t']> (tv_timers s)) s) due L.
Proof.
  intros HR Hd Et Hk. split; cbn [tv_with_timers tv_lists tv_timers tv_ticks tv_mallocs tv_tasks];
    try apply HR.
  - intros h j Hj. destruct (wr_in _ _ _ _ HR h j Hj) as (t1 & E1 & Ed & Hq).
    exists t1. rewrite lookup_insert_ne; [done|]. intros <-. congruence.
  - intros j. rewrite <- (wr_nodes _ _ _ _ HR). destruct (decide (j = l)) as [->|Hj].
    + rewrite lookup_insert_eq, Et. split; eauto.
    + by rewrite lookup_insert_ne.
  - intros j. destruct (decide (j = l)) as [->|Hj].
    + intros _. apply (wr_fresh _ _ _ _ HR). by rewrite Et.
    + rewrite lookup_insert_ne by done. apply (wr_fresh _ _ _ _ HR).
  - intros j t1. destruct (decide (j = l)) as [->|Hj].
    + rewrite lookup_insert_eq. intros [= <-]. injection Hk as -> _ -> _.
      by apply (wr_tasks _ _ _ _ HR l).
    + rewrite lookup_insert_ne by done. by apply (wr_tasks _ _ _ _ HR).
Qed.

Lemma kinds_set s l t t' :
  tv_timers s !! l = Some t -> tm_kind t' = tm_kind t ->
  kinds (tv_with_timers (<[l := t']> (tv_timers s)) s) = kinds s.
Proof.
  intros Et Hk. unfold kinds. cbn [tv_with_timers tv_timers]. rewrite fmap_insert, Hk.
  apply insert_id. by rewrite lookup_fmap, Et.
Qed.

Lemma start_timer_spec Q s due L l t d :
  wrep Q s due L -> due !! l = None -> tv_timers s !! l = Some t -> (0 <= d)%Z ->
  (tv_ticks s + d < MAX_TICK)%Z ->
  (forall i, fits_level i d -> Q (slot i (tv_ticks s + d)) (tv_ticks s + d)%Z) ->
  exists s' i, start_timer_internal l d s = Done s' /\
    wrep Q s' (<[l := (tv_ticks s + d)%Z]> due)
      (hupd L (slot i (tv_ticks s + d)) (l :: L (slot i (tv_ticks s + d)))) /\
    fits_level i d /\
    kinds s' = kinds s /\ tv_ticks s' = tv_ticks s /\ tv_mallocs s' = tv_mallocs s /\
    tv_calls s' = tv_calls s /\ tv_tasks s' = tv_tasks s.
Proof.
  intros HR Hd Et Hd0 HE HQ. pose proof (wr_ticks _ _ _ _ HR) as HT.
  unfold start_timer_internal, timer_at. rewrite Et. cbn [of_option obind].
  assert (u64 (d + tv_ticks s) = tv_ticks s + d)%Z as ->
    by (unfold u64, MAX_TICK in *; rewrite Z.mod_small; lia).
  set (t' := mk_timer _ _ _ _ _).
  pose proof (wrep_set_timer Q s due L l t t' HR Hd Et eq_refl) as HR1.
  set (s1 := tv_with_timers _ _) in *.
  destruct (wrep_add Q s1 due L l t' HR1 Hd) as (x & i & Ex & Hi & HR2).
  { cbn. by rewrite lookup_insert_eq. }
  { cbn. lia. }
  { cbn [s1 tv_with_timers tv_ticks t' tm_expires]. intros i.
    replace (tv_ticks s + d - tv_ticks s)%Z with d by lia. apply HQ. }
  cbn [s1 tv_with_timers tv_ticks t' tm_expires] in Hi.
  replace (tv_ticks s + d - tv_ticks s)%Z with d in Hi by lia.
  exists (tv_with_lists x s1), i. split_and!; try done.
  by apply (kinds_set s l t t').
Qed.

(** ** One timer of a list *)

(** The timer [l] may have been put at the head of a list, for a later turn. *)
Definition grown (T : Z) (l : nat) (due : gmap nat Z) (L L' : nat -> list nat) : Prop :=
  forall h, L' h = L h \/
    (L' h = l :: L h /\ forall E, due !! l = Some E -> placed (T + 1) h E).

Lemma grown_hupd T l due L i E :
  (T < E)%Z -> fits_level i (E - T) ->
  grown T l (<[l := E]> due) L (hupd L (slot i E) (l :: L (slot i E))).
Proof.
  intros HE Hi k. unfold hupd. case_decide as Hk; [right | by left]. subst k.
  split; [done|]. intros E'. rewrite lookup_insert_eq. intros [= <-].
  apply placed_fits; [lia | done | done].
Qed.

(** A timer whose tick has come, out of its list. *)
Lemma expire_spec Q s due L l t :
  wrep Q s due L -> due !! l = None -> tv_timers s !! l = Some t -> kinds_ok (kinds s) ->
  (tv_ticks s < MAX_DELAY)%Z ->
  (forall d i, (1 <= d)%Z -> fits_level i d -> Q (slot i (tv_ticks s + d)) (tv_ticks s + d)%Z) ->
  exists s' due' L', expire call t s = Done s' /\ wrep Q s' due' L' /\ grown (tv_ticks s) l due' L L' /\
    (forall k, due' !! k = if decide (k = l) then renew t (tv_ticks s) else due !! k) /\
    kinds s' = kinds s /\ tv_ticks s' = tv_ticks s /\ tv_mallocs s' = tv_mallocs s /\
    tv_calls s' = tv_calls s ++ omap (call_at (kinds s)) [l] /\
    tv_tasks s' = notified_at (kinds s) (tv_tasks s) l.
Proof.
  intros HR Hd Et Hk HT HQ. pose proof (kinds_at s l t Et) as Ek.
  assert (forall k, due !! k = if decide (k = l) then None else due !! k) as Hd'
    by (intros k; case_decide; by subst).
  unfold expire, renew. cbn [omap list_omap]. unfold call_at, notified_at. rewrite Ek.
  unfold call_of, notified. cbn.
  destruct (tm_callback t) as [r|] eqn:Er.
  - rewrite call_ok. set (s1 := tv_call _ s).
    assert (wrep Q s1 due L) as HR1 by (destruct HR; by split).
    destruct (period r (tm_data t)) as [[l' d]|] eqn:Ep.
    + destruct (Hk l (tm_kind t) Ek r l' d Er Ep) as [-> Hdl].
      destruct (start_timer_spec Q s1 due L l t d HR1 Hd Et) as
        (s' & i & E' & HR' & Hi & K' & T' & M' & C' & G'); [lia | | |].
      { change (tv_ticks s1) with (tv_ticks s). unfold MAX_TICK, MAX_DELAY in *. lia. }
      { intros i. apply HQ. lia. }
      eexists _, _, _. split; [exact E'|]. split; [exact HR'|]. split_and!; try done.
      * apply (grown_hupd (tv_ticks s)); cbn; [lia|].
        by replace (tv_ticks s + d - tv_ticks s)%Z with d by lia.
      * intros k. case_decide; [subst; apply lookup_insert_eq | by apply lookup_insert_ne].
    + exists s1, due, L. split_and!; try done. intros h. by left.
  - destruct (wr_tasks _ _ _ _ HR l t Et Er) as (tid & Etid & [ti Eti]).
    rewrite Etid. unfold send_event, post, item_at, set_item, item_at. rewrite Eti. cbn.
    eexists _, due, L. split; [done|]. split_and!; try done.
    + split; cbn [tv_with_tasks tv_lists tv_timers tv_ticks tv_mallocs tv_tasks]; try apply HR.
      intros j t1 Ej Hc. destruct (wr_tasks _ _ _ _ HR j t1 Ej Hc) as (tid1 & H1 & H2).
      exists tid1. split; [done|]. cbn. destruct (decide (tid1 = tid)) as [->|Hne].
      * rewrite lookup_insert_eq. eauto.
      * by rewrite lookup_insert_ne.
    + intros h. by left.
    + cbn. by rewrite app_nil_r.
Qed.

(** While level [k] is processed: the lists of the levels below that had their
    turn hold only timers for later turns. *)
Definition passed (T : Z) (k : nat) (h : nat) (E : Z) : Prop :=
  placed T h E /\ forall j, j < k -> h = slot j T -> placed (T + 1) h E.

Lemma passed_later T k h E : placed (T + 1) h E -> passed T k h E.
Proof. intros H. split; [|done]. by apply (placed_weaken (T + 1)); [lia|]. Qed.

Lemma passed_fits T k d i :
  (1 <= d)%Z -> fits_level i d -> passed T k (slot i (T + d)) (T + d).
Proof.
  intros Hd Hf. apply passed_later, placed_fits; [lia | | lia].
  by replace (T + d - T)%Z with d by lia.
Qed.

(** The timers that were put in the list during its turn. *)
Definition fresh (T : Z) (h : nat) (due : gmap nat Z) (ls : list nat) : Prop :=
  forall l E, l ∈ ls -> due !! l = Some E -> placed (T + 1) h E.

Lemma step_spec s due L T k a l b :
  let h := slot k T in
  wrep (passed T k) s due L -> tv_ticks s = T -> (T < MAX_DELAY)%Z -> kinds_ok (kinds s) ->
  k < LEVELS -> L h = a ++ l :: b -> fresh T h due a ->
  exists x t s' due' L' a' fired,
    dps_hlist_node_remove l (tv_lists s) = Done x /\ tv_timers s !! l = Some t /\
    (if (u64 (tm_expires t - T) =? 0)%Z then expire call t (tv_with_lists x s)
     else add_timer l (tv_with_lists x s)) = Done s' /\
    wrep (passed T k) s' due' L' /\ L' h = a' ++ b /\ fresh T h due' a' /\
    turn T fired s due s' due'.
Proof.
  intros h HR HT HTm Hk Hkl EL Hf.
  assert (l ∈ L h) as Hl by (rewrite EL; set_solver).
  destruct (wr_in _ _ _ _ HR h l Hl) as (t & Et & Ed & Hpl).
  destruct (wrep_remove _ s due L h a l b HR EL) as (x & Ex & HR1).
  pose proof (wr_range _ _ _ _ HR l _ Ed) as Hrange. rewrite HT in Hrange.
  pose proof (wr_ticks _ _ _ _ HR) as HT0. rewrite HT in HT0.
  set (s1 := tv_with_lists x s) in *.
  assert (tv_timers s1 !! l = Some t) as Et1 by done.
  assert (delete l due !! l = None) as Ed1 by apply lookup_delete_eq.
  assert (hupd L h (a ++ b) h = a ++ b) as Eh by (unfold hupd; by rewrite decide_True).
  assert (u64 (tm_expires t - T) = tm_expires t - T)%Z as Eu
    by (unfold u64, MAX_TICK in *; apply Z.mod_small; lia).
  assert (forall j E (due' : gmap nat Z), j ∈ a -> (forall i, i <> l -> due' !! i = due !! i) ->
    due' !! j = Some E -> placed (T + 1) h E) as Hfa.
  { intros j E due' Hj Hd' E'. apply (Hf j E Hj). rewrite <- Hd'; [done|]. intros ->.
    pose proof (hr_nodup _ _ (wr_lists _ _ _ _ HR) h) as Hnd. rewrite EL in Hnd.
    apply list.NoDup_app in Hnd as (_ & Hs & _). apply (Hs l Hj). by left. }
  exists x, t. rewrite Eu. destruct (Z.eqb_spec (tm_expires t - T) 0) as [HE|HE].
  - assert (tm_expires t = T) as HET by lia. clear HE.
    destruct (expire_spec (passed T k) s1 (delete l due) _ l t HR1 Ed1 Et1 Hk) as
      (s' & due' & L' & E' & HR' & HG & D' & K' & T' & M' & C' & G').
    { cbn. by rewrite HT. }
    { cbn. rewrite HT. intros d i. apply passed_fits. }
    cbn in T'. rewrite HT in T'.
    assert (forall i, i <> l -> due' !! i = due !! i) as Hother.
    { intros i Hi. rewrite D', decide_False, lookup_delete_ne by done. done. }
    assert (exists a', L' h = a' ++ b /\ fresh T h due' a') as (a' & La & Fa).
    { destruct (HG h) as [H|[H Hp]]; rewrite Eh in H; cbn in *; rewrite ?HT in *.
      - exists a. split; [done|]. intros j E Hj. by apply (Hfa j E due').
      - exists (l :: a). split; [done|]. intros j E [->|Hj]%elem_of_cons; [by apply Hp|].
        by apply (Hfa j E due'). }
    exists s', due', L', a', [l]. split_and!; try done.
    split; try done.
    + by rewrite T'.
    + apply NoDup_singleton.
    + intros i ->%list_elem_of_singleton. congruence.
    + intros i. rewrite D'. destruct (decide (i = l)) as [->|Hi].
      * rewrite decide_True by (by left). unfold renew_at. rewrite (kinds_at s l t Et).
        cbn. by rewrite HT.
      * rewrite decide_False by (by intros ->%list_elem_of_singleton).
        by apply lookup_delete_ne.
  - destruct (wrep_add (passed T k) s1 (delete l due) _ l t HR1 Ed1 Et1) as
      (y & i & Ey & Hi & HR').
    { cbn. rewrite HT. lia. }
    { cbn. rewrite HT. intros i Hi. apply passed_later, placed_fits; [lia | done | lia]. }
    cbn in Hi. rewrite HT in Hi. rewrite insert_delete_eq, insert_id in HR' by done.
    assert (exists a', hupd (hupd L h (a ++ b)) (slot i (tm_expires t))
      (l :: hupd L h (a ++ b) (slot i (tm_expires t))) h = a' ++ b /\ fresh T h due a')
      as (a' & La & Fa).
    { destruct (grown_hupd T l ∅ (hupd L h (a ++ b)) i (tm_expires t) ltac:(lia) Hi h)
        as [H|[H Hp]]; rewrite H, Eh.
      - by exists a.
      - exists (l :: a). split; [done|]. intros j E [->|Hj]%elem_of_cons; [|by apply Hf].
        rewrite Ed. intros [= <-]. apply Hp, lookup_insert_eq. }
    exists (tv_with_lists y s1), due, (hupd (hupd L h (a ++ b)) (slot i (tm_expires t))
      (l :: hupd L h (a ++ b) (slot i (tm_expires t)))), a', [].
    split_and!; try done.
    destruct (turn_refl T s due). by split.
Qed.

(** ** A list, the levels, the wheel *)
Lemma tvec_from_spec T k : forall todo fuel s due L a,
  wrep (passed T k) s due L -> tv_ticks s = T -> (T < MAX_DELAY)%Z -> kinds_ok (kinds s) ->
  k < LEVELS -> L (slot k T) = a ++ todo -> fresh T (slot k T) due a -> length todo <= fuel ->
  exists s' due' L' fired, tvec_from call fuel (first_of todo) s = Done s' /\
    wrep (passed T (S k)) s' due' L' /\ turn T fired s due s' due'.
Proof.
  induction todo as [|l b IH]; intros fuel s due L a HR HT HTm Hk Hkl EL Hf Hfuel.
  - exists s, due, L, []. split_and!; [by destruct fuel | | apply turn_refl].
    rewrite app_nil_r in EL. eapply wrep_impl; [exact HR|].
    intros h j E Hj Ej [Hp Hq]. split; [done|]. intros i Hi ->.
    destruct (decide (i = k)) as [->|Hik]; [|by apply (Hq i); [lia|]].
    apply (Hf j E); [by rewrite <- EL | done].
  - destruct fuel as [|fuel]; [simpl in Hfuel; lia|].
    destruct (step_spec s due L T k a l b HR HT HTm Hk Hkl EL Hf) as
      (x & t & s1 & due1 & L1 & a1 & f1 & Ex & Et & E1 & HR1 & EL1 & Hf1 & Hturn1).
    pose proof (wr_heads _ _ _ _ HR) as Hh. pose proof (slot_lt k T Hkl) as Hs.
    destruct (hrep_next _ L (slot k T) a l b (wr_lists _ _ _ _ HR) EL) as (n & En & Enx);
      [by rewrite Hh|].
    destruct (IH fuel s1 due1 L1 a1) as (s2 & due2 & L2 & f2 & E2 & HR2 & Hturn2); try done.
    { by rewrite (tu_ticks _ _ _ _ _ _ Hturn1). }
    { by rewrite (tu_kinds _ _ _ _ _ _ Hturn1). }
    { simpl in Hfuel. lia. }
    exists s2, due2, L2, (f1 ++ f2). split_and!; [| done | by eapply turn_trans].
    cbn [first_of tvec_from]. unfold hl_deref. rewrite En. cbn [of_option obind].
    unfold on_wheel. rewrite Ex. cbn [obind]. unfold timer_at.
    cbn [tv_with_lists tv_timers tv_ticks]. rewrite Et. cbn [of_option obind].
    rewrite HT, E1. cbn [obind]. by rewrite Enx.
Qed.

Lemma process_tvec_spec fuel s due L T k :
  wrep (passed T k) s due L -> tv_ticks s = T -> (T < MAX_DELAY)%Z -> kinds_ok (kinds s) ->
  k < LEVELS -> tv_mallocs s <= fuel ->
  exists s' due' L' fired,
    process_tvec call fuel (lv_base k + T / lv_int k mod lv_size k) s = Done s' /\
    wrep (passed T (S k)) s' due' L' /\ turn T fired s due s' due'.
Proof.
  intros HR HT HTm Hk Hkl Hf. unfold process_tvec. fold (slot k T).
  rewrite (hrep_first _ L); [|apply HR | rewrite (wr_heads _ _ _ _ HR); by apply slot_lt].
  cbn [obind]. apply (tvec_from_spec T k (L (slot k T)) fuel s due L []); try done.
  - intros l E Hl. by apply elem_of_nil in Hl.
  - pose proof (wrep_short _ s due L (slot k T) HR). lia.
Qed.

(** The levels from [k] on, as [process_vectors] goes through them. *)
Fixpoint levels_from (n fuel k : nat) (s : tvec_base) : out tvec_base :=
  match n with
  | 0 => Done s
  | S n =>
      let index := (tv_ticks s / lv_int k mod lv_size k)%Z in
      let* s := process_tvec call fuel (lv_base k + index) s in
      if negb (index =? 0)%Z then Done s else levels_from n fuel (S k) s
  end.

Lemma levels_from_S n fuel k s :
  levels_from (S n) fuel k s =
  let* s' := process_tvec call fuel (lv_base k + tv_ticks s / lv_int k mod lv_size k) s in
  if negb (tv_ticks s / lv_int k mod lv_size k =? 0)%Z then Done s' else levels_from n fuel (S k) s'.
Proof. done. Qed.

Lemma process_vectors_levels fuel s :
  process_vectors call fuel s = levels_from LEVELS fuel 0 s.
Proof.
  unfold process_vectors, LEVELS. cbn [levels_from].
  replace (tv_ticks s / lv_int 0)%Z with (tv_ticks s) by (symmetry; apply Z.div_1_r).
  change (tv1 + tv_ticks s mod TV1_SIZE)%Z with (lv_base 0 + tv_ticks s mod lv_size 0)%Z.
  change TV1_SIZE with (lv_size 0).
  destruct (process_tvec call fuel (lv_base 0 + _) s) as [s1| |]; cbn [obind]; try done.
  case_match; [done|].
  change (tv_ticks s1 / TV2_INTERVAL mod TV2_SIZE)%Z with (tv_ticks s1 / lv_int 1 mod lv_size 1)%Z.
  change tv2 with (lv_base 1).
  destruct (process_tvec call fuel (lv_base 1 + _) s1) as [s2| |]; cbn [obind]; try done.
  case_match; [done|].
  change (tv_ticks s2 / TV3_INTERVAL mod TV3_SIZE)%Z with (tv_ticks s2 / lv_int 2 mod lv_size 2)%Z.
  change tv3 with (lv_base 2).
  destruct (process_tvec call fuel (lv_base 2 + _) s2) as [s3| |]; cbn [obind]; try done.
  case_match; [done|].
  change (tv_ticks s3 / TV4_INTERVAL mod TV4_SIZE)%Z with (tv_ticks s3 / lv_int 3 mod lv_size 3)%Z.
  change tv4 with (lv_base 3).
  destruct (process_tvec call fuel (lv_base 3 + _) s3) as [s4| |]; cbn [obind]; try done.
  case_match; [done|].
  change (tv_ticks s4 / TV5_INTERVAL mod TV5_SIZE)%Z with (tv_ticks s4 / lv_int 4 mod lv_size 4)%Z.
  change tv5 with (lv_base 4).
  destruct (process_tvec call fuel (lv_base 4 + _) s4) as [s5| |]; cbn [obind]; try done.
  by case_match.
Qed.

Lemma next_turn T k :
  S k < LEVELS -> (T mod lv_int k = 0)%Z ->
  (T / lv_int k mod lv_size k = 0)%Z <-> (T mod lv_int (S k) = 0)%Z.
Proof.
  intros Hk HT. destruct k as [|[|[|[|k]]]]; [| | | | unfold LEVELS in *; lia];
    cbn [lv_int lv_size] in *; Z.div_mod_to_equations; lia.
Qed.

Lemma turn_below T i k :
  k < LEVELS -> i < LEVELS -> k <= i -> (T mod lv_int i = 0)%Z -> (T mod lv_int k = 0)%Z.
Proof.
  intros Hk Hi Hki HT. levels i; levels k; try lia; cbn [lv_int] in *;
    Z.div_mod_to_equations; lia.
Qed.

(** The levels that have no turn hold timers for later turns anyway. *)
Lemma passed_all s due L T k :
  wrep (passed T (S k)) s due L -> k < LEVELS ->
  (S k < LEVELS -> (T mod lv_int (S k) <> 0)%Z) -> wrep (placed (T + 1)) s due L.
Proof.
  intros HR Hk Hn. eapply wrep_impl; [exact HR|]. intros h l E _ _ [Hp Hq].
  destruct (placed_turn T h E Hp) as [H|(i & Hi & -> & HT)]; [done|].
  destruct (decide (i <= k)) as [Hik|Hik]; [by apply (Hq i); [lia|]|].
  exfalso. apply Hn; [lia|]. by apply (turn_below T i); [lia | | lia|].
Qed.

Lemma levels_from_spec fuel T : forall n k s due L,
  S n + k = LEVELS -> wrep (passed T k) s due L -> tv_ticks s = T -> (T < MAX_DELAY)%Z ->
  kinds_ok (kinds s) -> (T mod lv_int k = 0)%Z -> tv_mallocs s <= fuel ->
  exists s' due' L' fired, levels_from (S n) fuel k s = Done s' /\
    wrep (placed (T + 1)) s' due' L' /\ turn T fired s due s' due'.
Proof.
  induction n as [|n IH]; intros k s due L Hn HR HT HTm Hk HTk Hf;
    (assert (k < LEVELS) as Hkl by lia);
    destruct (process_tvec_spec fuel s due L T k HR HT HTm Hk Hkl Hf) as
      (s1 & due1 & L1 & f1 & E1 & HR1 & Hturn1);
    rewrite levels_from_S, HT, E1; cbn [obind].
  - exists s1, due1, L1, f1. split_and!; [by case_match | | done].
    apply (passed_all _ _ _ _ k); [done | done | lia].
  - destruct (Z.eqb_spec (T / lv_int k mod lv_size k) 0) as [H0|H0]; cbn [negb].
    + destruct (IH (S k) s1 due1 L1) as (s2 & due2 & L2 & f2 & E2 & HR2 & Hturn2); try done.
      { lia. }
      { by rewrite (tu_ticks _ _ _ _ _ _ Hturn1). }
      { by rewrite (tu_kinds _ _ _ _ _ _ Hturn1). }
      { apply next_turn; [lia | done | done]. }
      { by rewrite (tu_mallocs _ _ _ _ _ _ Hturn1). }
      exists s2, due2, L2, (f1 ++ f2). split_and!; [exact E2 | done | by eapply turn_trans].
    + exists s1, due1, L1, f1. split_and!; [done | | done].
      apply (passed_all _ _ _ _ k); [done | done |]. intros Hs H. apply H0. by apply next_turn.
Qed.

(** Everything that is due is fired, and nothing else. *)
Lemma process_vectors_spec fuel s due L :
  let T := tv_ticks s in
  wrep (placed T) s due L -> (T < MAX_DELAY)%Z -> kinds_ok (kinds s) -> tv_mallocs s <= fuel ->
  exists s' due' L' fired, process_vectors call fuel s = Done s' /\
    wrep (placed (T + 1)) s' due' L' /\ turn T fired s due s' due' /\
    forall l, l ∈ fired <-> due !! l = Some T.
Proof.
  intros T HR HTm Hk Hf. rewrite process_vectors_levels.
  destruct (levels_from_spec fuel T 4 0 s due L) as (s' & due' & L' & fired & E & HR' & Ht);
    try done.
  { eapply wrep_impl; [exact HR|]. intros h l E _ _ Hp. split; [done|]. intros j. lia. }
  { apply Z.mod_1_r. }
  exists s', due', L', fired. split_and!; try done. intros l. split; [apply Ht|].
  intros Hl. destruct (decide (l ∈ fired)) as [|Hn]; [done|].
  pose proof (tu_due _ _ _ _ _ _ Ht l) as Hd. rewrite decide_False, Hl in Hd by done.
  destruct (wr_due _ _ _ _ HR' l) as [h Hh]; [by rewrite Hd|].
  destruct (wr_in _ _ _ _ HR' h l Hh) as (t & _ & Ed & Hp).
  apply placed_expiry in Hp. rewrite Hd in Ed. injection Ed as Ed. lia.
Qed.
End turn.
