(* ===== verification/OswTimers.v ===== *)
(** * The timer wheel implements the schedule *)
From stdpp Require Import gmap strings.
From S2P Require Export OswTurn.

(** ** The timer wheel is a schedule

    Against the wheel stands a map from the timers that are started to the
    ticks they are due; a tick fires exactly those that are due at it.  How far
    away a tick is, and through which vectors its timer moves, makes no
    difference. *)
(** ** Tasks by name *)

(** [find] gives the task of each name. *)
Definition tasks_as (find : string -> option nat) (tb : task_base) : Prop :=
  exists ls, brep tb ls /\ forall name, List.find (has_name ti_name tb name) ls = find name.

Lemma tasks_search find fuel name tb :
  tasks_as find tb -> b_mallocs tb <= fuel -> search_task fuel name tb = Done (find name).
Proof.
  intros (ls & HR & Hf) Hfuel. rewrite <- Hf. by apply search_named_spec.
Qed.

Lemma tasks_found find name tid tb :
  tasks_as find tb -> find name = Some tid -> is_Some (b_items tb !! tid).
Proof.
  intros (ls & HR & Hf). rewrite <- Hf. intros [H _]%List.find_some.
  apply (br_linked _ _ HR). by apply list_elem_of_In.
Qed.

Lemma post_name tid event tb name l :
  has_name ti_name (post tid event tb) name l = has_name ti_name tb name l.
Proof.
  unfold post, has_name. destruct (b_items tb !! tid) as [ti|] eqn:E; [|done]. cbn.
  destruct (decide (l = tid)) as [->|Hl]; [by rewrite lookup_insert_eq, E|].
  by rewrite lookup_insert_ne.
Qed.

Lemma post_tasks find tid event tb :
  tasks_as find tb ->
  tasks_as find (post tid event tb) /\ b_mallocs (post tid event tb) = b_mallocs tb.
Proof.
  intros (ls & HR & Hf). split; [|unfold post; by destruct (b_items tb !! tid)].
  exists ls. split.
  - unfold post. destruct (b_items tb !! tid) as [ti|] eqn:E; [|done].
    by eapply set_item_spec.
  - intros name. rewrite <- Hf. apply find_ext. intros l. apply post_name.
Qed.

Lemma notified_tasks find tb t :
  tasks_as find tb -> tasks_as find (notified tb t) /\ b_mallocs (notified tb t) = b_mallocs tb.
Proof.
  intros H. unfold notified. destruct (tm_callback t); [done|]. destruct (tm_tid t); [|done].
  by apply post_tasks.
Qed.

(** ** The schedule *)
Record sched := mk_sched {
  sc_now : Z; sc_due : gmap nat Z; sc_made : gmap nat timer_list; sc_next : nat }.

Inductive wop :=
| W_create (malloc_ok : bool) (task_name : option string) (event : Z) (callback : option Z)
    (data : Z)
| W_del (timer : nat)
| W_start (timer : nat) (sec msec : Z)
| W_stop (timer : nat)
| W_tick.

Inductive wres := R_created (status : Z) (id : option nat) | R_status (status : Z) | R_none.

Section schedule.
Context (find : string -> option nat) (period : Z -> Z -> option (nat * Z)).

(** The timer [create_timer] makes, if its arguments are good. *)
Definition new_kind (task_name : option string) (event : Z) (callback : option Z) (data : Z)
    : option timer_list :=
  match callback, task_name with
  | Some r, _ => Some (mk_timer 0 None event (Some r) data)
  | None, Some name =>
      match find name with
      | Some tid => Some (mk_timer 0 (Some tid) event None data)
      | None => None
      end
  | None, None => None
  end.

Definition kind_okb (l : nat) (t : timer_list) : bool :=
  match tm_callback t with
  | Some r =>
      match period r (tm_data t) with
      | Some (l', d) => bool_decide (l' = l) && (1 <=? d)%Z && (d <? MAX_DELAY)%Z
      | None => true
      end
  | None => true
  end.

Lemma kind_okb_ok l t : kind_okb l t = true -> kind_ok period l t.
Proof.
  unfold kind_okb, kind_ok. intros H r l' d Er Ep. rewrite Er, Ep in H.
  apply andb_prop in H as [[H1 H2]%andb_prop H3]. apply bool_decide_eq_true in H1.
  rewrite Z.leb_le in H2. rewrite Z.ltb_lt in H3. done.
Qed.

(** What is due now, and when everything is due after it has been fired. *)
Definition due_now (a : sched) : gmap nat timer_list :=
  merge (fun d k => match d with
                    | Some E => if decide (E = sc_now a) then k else None
                    | None => None
                    end) (sc_due a) (sc_made a).
Definition next_due (a : sched) : gmap nat Z :=
  merge (fun d k => match d with
                    | Some E =>
                        if decide (E = sc_now a)
                        then match k with Some t => renew period t (sc_now a) | None => None end
                        else Some E
                    | None => None
                    end) (sc_due a) (sc_made a).

(** A timer is started only while it is not, and freed only then; a routine
    starts its own timer only, a tick later or more. *)
Definition allowed (op : wop) (a : sched) : Prop :=
  match op with
  | W_create _ name event callback data =>
      match new_kind name event callback data with
      | Some k => kind_okb (sc_next a) k = true
      | None => True
      end
  | W_del l => is_Some (sc_made a !! l) /\ sc_due a !! l = None
  | W_start l _ _ =>
      is_Some (sc_made a !! l) /\ sc_due a !! l = None /\ (sc_now a < MAX_DELAY)%Z
  | W_stop l => is_Some (sc_made a !! l)
  | W_tick => (sc_now a < MAX_DELAY)%Z
  end.

(** The result, the timers that fire and the schedule afterwards. *)
Definition step (op : wop) (a : sched) : wres * list (nat * timer_list) * sched :=
  match op with
  | W_create malloc_ok name event callback data =>
      match new_kind name event callback data with
      | Some k =>
          if malloc_ok then
            (R_created OSW_OK (Some (sc_next a)), [],
              mk_sched (sc_now a) (sc_due a) (<[sc_next a := k]> (sc_made a)) (S (sc_next a)))
          else
            (R_created OSW_ERROR None, [],
              mk_sched (sc_now a) (sc_due a) (sc_made a) (S (sc_next a)))
      | None => (R_created OSW_ERROR None, [], a)
      end
  | W_del l =>
      (R_status OSW_OK, [], mk_sched (sc_now a) (sc_due a) (delete l (sc_made a)) (sc_next a))
  | W_start l sec msec =>
      (R_none, [], mk_sched (sc_now a) (<[l := (sc_now a + ticks_of sec msec)%Z]> (sc_due a))
                     (sc_made a) (sc_next a))
  | W_stop l => (R_none, [], mk_sched (sc_now a) (delete l (sc_due a)) (sc_made a) (sc_next a))
  | W_tick =>
      (R_none, map_to_list (due_now a),
        mk_sched (sc_now a + 1) (next_due a) (sc_made a) (sc_next a))
  end.

Fixpoint steps (ops : list wop) (a : sched)
    : list wres * list (list (nat * timer_list)) * sched :=
  match ops with
  | [] => ([], [], a)
  | op :: ops =>
      let '(r, f, a) := step op a in
      let '(rs, fs, a) := steps ops a in (r :: rs, f :: fs, a)
  end.
Fixpoint all_allowed (ops : list wop) (a : sched) : Prop :=
  match ops with
  | [] => True
  | op :: ops => allowed op a /\ all_allowed ops (step op a).2
  end.
End schedule.

(** ** The wheel *)
Section wheel.
Context (call : Z -> Z -> tvec_base -> out tvec_base).

Definition run_wop (fuel : nat) (op : wop) (s : tvec_base) : out (wres * tvec_base) :=
  match op with
  | W_create malloc_ok name event callback data =>
      let* (st, id, s) := create_timer fuel malloc_ok name event callback data None s in
      Done (R_created st id, s)
  | W_del l => let* (st, s) := del_timer (Some l) s in Done (R_status st, s)
  | W_start l sec msec => let* s := start_timer l sec msec s in Done (R_none, s)
  | W_stop l => let* s := stop_timer (Some l) s in Done (R_none, s)
  | W_tick => let* s := process_tick call fuel s in Done (R_none, s)
  end.
Fixpoint run_wops (fuel : nat) (ops : list wop) (s : tvec_base) : out (list wres * tvec_base) :=
  match ops with
  | [] => Done ([], s)
  | op :: ops =>
      let* (r, s) := run_wop fuel op s in
      let* (rs, s) := run_wops fuel ops s in Done (r :: rs, s)
  end.
End wheel.

Section refine.
Context (find : string -> option nat) (period : Z -> Z -> option (nat * Z)).
Context (call : Z -> Z -> tvec_base -> out tvec_base).
Context (call_ok : forall r data s, call r data s =
  match period r data with Some (l, d) => start_timer_internal l d s | None => Done s end).

(** The wheel [s] holds the schedule [a]; [n] tasks have been allocated. *)
Record wheel (n : nat) (s : tvec_base) (a : sched) : Prop := {
  wh_rep : exists L, wrep (placed (sc_now a)) s (sc_due a) L;
  wh_now : tv_ticks s = sc_now a;
  wh_made : kinds s = sc_made a;
  wh_ok : kinds_ok period (sc_made a);
  wh_next : tv_mallocs s = sc_next a;
  wh_tasks : tasks_as find (tv_tasks s);
  wh_tasks_n : b_mallocs (tv_tasks s) = n
}.

Lemma wheel_init tasks :
  tasks_as find tasks -> wheel (b_mallocs tasks) (timer_wheel tasks) (mk_sched 0 ∅ ∅ 0).
Proof.
  intros Ht. split; try done.
  - exists (fun _ => []). split; try done.
    + split; cbn.
      * intros h p [-> _]%lookup_replicate_1. done.
      * intros h. constructor.
      * intros h k l H. by apply elem_of_nil in H.
    + intros h l H. by apply elem_of_nil in H.
    + cbn. intros l [? H]. by rewrite lookup_empty in H.
    + cbn. intros l. by rewrite !lookup_empty.
    + cbn. intros l [? H]. by rewrite lookup_empty in H.
Qed.

Lemma made_timer n s a l k :
  wheel n s a -> sc_made a !! l = Some k ->
  exists t, tv_timers s !! l = Some t /\ tm_kind t = k.
Proof.
  intros HW Hl. rewrite <- (wh_made _ _ _ HW) in Hl. unfold kinds in Hl.
  rewrite lookup_fmap in Hl. destruct (tv_timers s !! l) as [t|]; [|done].
  exists t. by injection Hl.
Qed.

Lemma timer_made n s a l t :
  wheel n s a -> tv_timers s !! l = Some t -> sc_made a !! l = Some (tm_kind t).
Proof. intros HW Et. rewrite <- (wh_made _ _ _ HW). by apply kinds_at. Qed.

(** ** Creation and deletion *)

(** A new timer, idle; the tasks and the schedule are as before. *)
Lemma wrep_alloc Q s due L t :
  wrep Q s due L ->
  (tm_callback t = None ->
    exists tid, tm_tid t = Some tid /\ is_Some (b_items (tv_tasks s) !! tid)) ->
  let l := tv_mallocs s in
  let x := tv_lists s in
  wrep Q (mk_tvec (mk_hlists (hl_heads x) (<[l := mk_hlist_node Null Lnull]> (hl_nodes x)))
            (<[l := t]> (tv_timers s)) (tv_ticks s) (S l) (tv_tasks s) (tv_calls s)) due L /\
  tv_timers s !! l = None /\ due !! l = None.
Proof.
  intros HR Ht l x.
  assert (tv_timers s !! l = None) as El.
  { destruct (tv_timers s !! l) eqn:E; [|done].
    pose proof (wr_fresh _ _ _ _ HR l ltac:(by rewrite E)). lia. }
  assert (due !! l = None) as Ed.
  { destruct (due !! l) eqn:E; [|done].
    destruct (wr_due _ _ _ _ HR l) as [h Hh]; [by rewrite E|].
    destruct (wr_in _ _ _ _ HR h l Hh) as (t' & E' & _). congruence. }
  assert (forall h, l ∉ L h) as Hl.
  { intros h Hh. destruct (wr_in _ _ _ _ HR h l Hh) as (t' & E' & _). congruence. }
  split; [|done]. split; cbn [tv_lists tv_timers tv_ticks tv_mallocs tv_tasks hl_heads hl_nodes];
    try apply HR.
  - apply hrep_outside; [apply HR|]. intros h j Hj. apply lookup_insert_ne.
    intros <-. by apply (Hl h).
  - intros h j Hj. destruct (wr_in _ _ _ _ HR h j Hj) as (t' & E' & H'). exists t'.
    rewrite lookup_insert_ne; [done|]. intros <-. by apply (Hl h).
  - intros j. destruct (decide (j = l)) as [->|Hj].
    + rewrite !lookup_insert_eq. split; eauto.
    + rewrite !lookup_insert_ne by done. apply (wr_nodes _ _ _ _ HR).
  - intros j n. destruct (decide (j = l)) as [->|Hj].
    + rewrite lookup_insert_eq. intros _ [= <-]. by left.
    + rewrite lookup_insert_ne by done. apply (wr_idle _ _ _ _ HR).
  - intros j. destruct (decide (j = l)) as [->|Hj]; [lia|].
    rewrite lookup_insert_ne by done. intros H. pose proof (wr_fresh _ _ _ _ HR j H). lia.
  - intros j t'. destruct (decide (j = l)) as [->|Hj].
    + rewrite lookup_insert_eq. by intros [= <-].
    + rewrite lookup_insert_ne by done. apply (wr_tasks _ _ _ _ HR).
Qed.

Lemma wrep_malloc Q s due L n :
  wrep Q s due L -> tv_mallocs s <= n ->
  wrep Q (mk_tvec (tv_lists s) (tv_timers s) (tv_ticks s) n (tv_tasks s) (tv_calls s)) due L.
Proof.
  intros HR Hn. split; cbn; try apply HR. intros l Hl. pose proof (wr_fresh _ _ _ _ HR l Hl). lia.
Qed.

Lemma wrep_free Q s due L l :
  wrep Q s due L -> due !! l = None ->
  let x := tv_lists s in
  wrep Q (tv_with_timers (delete l (tv_timers s))
            (tv_with_lists (mk_hlists (hl_heads x) (delete l (hl_nodes x))) s)) due L.
Proof.
  intros HR Ed x.
  assert (forall h, l ∉ L h) as Hl.
  { intros h Hh. destruct (wr_in _ _ _ _ HR h l Hh) as (t' & _ & E' & _). congruence. }
  split; cbn [tv_with_timers tv_with_lists tv_lists tv_timers tv_ticks tv_mallocs tv_tasks hl_heads
    hl_nodes]; try apply HR.
  - apply hrep_outside; [apply HR|]. intros h j Hj. apply lookup_delete_ne.
    intros <-. by apply (Hl h).
  - intros h j Hj. destruct (wr_in _ _ _ _ HR h j Hj) as (t' & E' & H'). exists t'.
    rewrite lookup_delete_ne; [done|]. intros <-. by apply (Hl h).
  - intros j. destruct (decide (j = l)) as [->|Hj].
    + by rewrite !lookup_delete_eq.
    + rewrite !lookup_delete_ne by done. apply (wr_nodes _ _ _ _ HR).
  - intros j n Hd [_ Hn]%lookup_delete_Some. by apply (wr_idle _ _ _ _ HR j).
  - intros j [t Hj]. apply lookup_delete_Some in Hj as [_ Hj]. apply (wr_fresh _ _ _ _ HR).
    by rewrite Hj.
  - intros j t [_ Hj]%lookup_delete_Some. by apply (wr_tasks _ _ _ _ HR j).
Qed.

(** What every operation but a tick leaves alone. *)
Definition quiet (s s' : tvec_base) : Prop :=
  tv_calls s' = tv_calls s /\ tv_tasks s' = tv_tasks s.

Lemma create_step n fuel s a ok name event callback data :
  wheel n s a -> n <= fuel ->
  allowed find period (W_create ok name event callback data) a ->
  let op := W_create ok name event callback data in
  exists s', run_wop call fuel op s = Done ((step find period op a).1.1, s') /\
    wheel n s' (step find period op a).2 /\ (step find period op a).1.2 = [] /\ quiet s s'.
Proof.
  intros HW Hn Ha op. destruct (wh_rep _ _ _ HW) as [L HR].
  pose proof (wh_next _ _ _ HW) as Enx. pose proof (wh_tasks _ _ _ HW) as HT.
  assert (forall k, new_kind find name event callback data = Some k ->
    kind_okb period (sc_next a) k = true -> tm_kind k = k ->
    (tm_callback k = None ->
      exists tid, tm_tid k = Some tid /\ is_Some (b_items (tv_tasks s) !! tid)) ->
    let l := tv_mallocs s in
    let x := tv_lists s in
    wheel n (mk_tvec (mk_hlists (hl_heads x) (<[l := mk_hlist_node Null Lnull]> (hl_nodes x)))
       (<[l := k]> (tv_timers s)) (tv_ticks s) (S l) (tv_tasks s) (tv_calls s))
      (mk_sched (sc_now a) (sc_due a) (<[sc_next a := k]> (sc_made a)) (S (sc_next a))))
    as Hnew.
  { intros k _ Hok Hkk Htid l x. destruct (wrep_alloc _ s _ L k HR Htid) as (HR' & _ & _).
    split; cbn; try apply HW.
    - by exists L.
    - unfold kinds. cbn. rewrite fmap_insert, Hkk. fold (kinds s). rewrite (wh_made _ _ _ HW).
      unfold l. by rewrite Enx.
    - intros j t. destruct (decide (j = sc_next a)) as [->|Hj].
      + rewrite lookup_insert_eq. intros [= <-]. by apply kind_okb_ok.
      + rewrite lookup_insert_ne by done. apply (wh_ok _ _ _ HW).
    - unfold l. by rewrite Enx. }
  assert (wheel n (mk_tvec (tv_lists s) (tv_timers s) (tv_ticks s) (S (tv_mallocs s)) (tv_tasks s)
      (tv_calls s)) (mk_sched (sc_now a) (sc_due a) (sc_made a) (S (sc_next a)))) as Hfail.
  { split; cbn; try apply HW; [|by rewrite Enx]. exists L. apply wrep_malloc; [done | lia]. }
  unfold allowed in Ha. unfold op, run_wop, step, create_timer, new_kind in *. clear op.
  destruct callback as [r|]; [|destruct name as [nm|]].
  - destruct ok; cbn -[kind_okb].
    + rewrite Enx in *. eexists. split; [done|]. split; [by apply Hnew|done].
    + rewrite Enx in *. eexists. split; [done|]. split; [done|done].
  - rewrite (tasks_search find fuel nm _ HT) by (rewrite (wh_tasks_n _ _ _ HW); lia).
    cbn [obind]. destruct (find nm) as [tid|] eqn:Ef.
    + destruct ok; cbn -[kind_okb]; rewrite Enx in *.
      * eexists. split; [done|]. split; [apply Hnew; try done | done].
        intros _. exists tid. split; [done|]. by apply (tasks_found find nm).
      * eexists. split; [done|]. split; [done|done].
    + exists s. split; [done|]. split; [|done]. by destruct a.
  - exists s. split; [done|]. split; [|done]. by destruct a.
Qed.

Lemma del_timer_step n fuel s a l :
  wheel n s a -> allowed find period (W_del l) a ->
  exists s', run_wop call fuel (W_del l) s = Done (R_status OSW_OK, s') /\
    wheel n s' (step find period (W_del l) a).2 /\ quiet s s'.
Proof.
  intros HW [[k Hk] Hd]. destruct (wh_rep _ _ _ HW) as [L HR].
  destruct (made_timer n s a l k HW Hk) as (t & Et & _).
  unfold run_wop, del_timer, timer_at. rewrite Et. cbn -[delete].
  eexists. split; [done|]. split; [|done]. split; cbn -[delete]; try apply HW.
  - exists L. by apply wrep_free.
  - unfold kinds. cbn -[delete]. rewrite fmap_delete. fold (kinds s). by rewrite (wh_made _ _ _ HW).
  - intros j t' [_ Ht']%lookup_delete_Some. by apply (wh_ok _ _ _ HW).
Qed.

Lemma ticks_of_bound sec msec : (0 <= ticks_of sec msec < MAX_DELAY)%Z.
Proof.
  unfold ticks_of, MAX_DELAY, MSEC_PER_TICK. pose proof (u32_in (u32 (sec * 1000) + msec)) as H.
  unfold in32 in H. Z.div_mod_to_equations. lia.
Qed.

Lemma start_step n fuel s a l sec msec :
  wheel n s a -> allowed find period (W_start l sec msec) a ->
  exists s', run_wop call fuel (W_start l sec msec) s = Done (R_none, s') /\
    wheel n s' (step find period (W_start l sec msec) a).2 /\ quiet s s'.
Proof.
  intros HW ([k Hk] & Hd & Hnow). destruct (wh_rep _ _ _ HW) as [L HR].
  destruct (made_timer n s a l k HW Hk) as (t & Et & _).
  pose proof (wh_now _ _ _ HW) as HT. pose proof (ticks_of_bound sec msec) as Hb.
  destruct (start_timer_spec (placed (sc_now a)) s (sc_due a) L l t (ticks_of sec msec) HR Hd Et) as
    (s' & i & E & HR' & _ & K & T & M & C & G).
  { lia. }
  { rewrite HT. unfold MAX_TICK, MAX_DELAY in *. lia. }
  { intros i Hi. rewrite HT. apply placed_fits; [lia|].
    by replace (sc_now a + ticks_of sec msec - sc_now a)%Z with (ticks_of sec msec) by lia. }
  rewrite HT in HR'. unfold run_wop, start_timer. rewrite E. cbn [obind].
  exists s'. split; [done|]. split; [|done]. split; cbn; try (by apply HW).
  - by eexists.
  - by rewrite T.
  - by rewrite K, (wh_made _ _ _ HW).
  - by rewrite M, (wh_next _ _ _ HW).
  - rewrite G. apply HW.
  - rewrite G. apply HW.
Qed.

Lemma stop_step n fuel s a l :
  wheel n s a -> allowed find period (W_stop l) a ->
  exists s', run_wop call fuel (W_stop l) s = Done (R_none, s') /\
    wheel n s' (step find period (W_stop l) a).2 /\ quiet s s'.
Proof.
  intros HW [k Hk]. destruct (wh_rep _ _ _ HW) as [L HR].
  destruct (made_timer n s a l k HW Hk) as (t & Et & _).
  assert (is_Some (hl_nodes (tv_lists s) !! l)) as [nd Hn]
    by (apply (wr_nodes _ _ _ _ HR); by rewrite Et).
  unfold run_wop, stop_timer, hl_deref. rewrite Hn. cbn [of_option obind].
  destruct (sc_due a !! l) as [E|] eqn:Ed.
  - destruct (wr_due _ _ _ _ HR l ltac:(by rewrite Ed)) as [h Hl].
    assert (h < HEADS) as Hh.
    { destruct (decide (h < HEADS)); [done|]. rewrite (wr_over _ _ _ _ HR) in Hl by lia.
      by apply elem_of_nil in Hl. }
    destruct (hrep_linked _ L h l (wr_lists _ _ _ _ HR)) as (n' & Hn' & Hnx & Hpp);
      [by rewrite (wr_heads _ _ _ _ HR) | done |].
    assert (n' = nd) as -> by congruence. clear Hn'.
    destruct (list_elem_of_split _ _ Hl) as (l1 & l2 & EL).
    destruct (wrep_remove _ s (sc_due a) L h l1 l l2 HR EL) as (x & Ex & HR').
    exists (tv_with_lists x s). split.
    + destruct (hn_pprevious nd), (hn_next nd); try done; unfold on_wheel; by rewrite Ex.
    + split; [|done]. split; cbn -[delete]; try apply HW. by eexists.
  - exists s. split.
    + destruct (wr_idle _ _ _ _ HR l nd Ed Hn) as [-> | ->]; done.
    + split; [|done]. split; cbn -[delete]; try apply HW. exists L. by rewrite delete_id.
Qed.

(** ** A tick *)

(** The timers [ls] with what they were created with. *)
Definition with_kinds (ks : gmap nat timer_list) (ls : list nat) : list (nat * timer_list) :=
  omap (fun l => match ks !! l with Some k => Some (l, k) | None => None end) ls.

Lemma calls_with_kinds ks ls : omap (call_at ks) ls = omap call_of (with_kinds ks ls).*2.
Proof.
  induction ls as [|l ls IH]; [done|]. unfold with_kinds, call_at in *. cbn.
  destruct (ks !! l); cbn; [|done]. case_match; by rewrite <- IH.
Qed.

Lemma notify_with_kinds ks : forall ls tb,
  foldl (notified_at ks) tb ls = foldl notified tb (with_kinds ks ls).*2.
Proof.
  induction ls as [|l ls IH]; intros tb; [done|]. unfold with_kinds, notified_at in *. cbn.
  rewrite IH. by destruct (ks !! l).
Qed.

Lemma with_kinds_perm ks ls (m : gmap nat timer_list) :
  NoDup ls -> (forall l k, m !! l = Some k <-> l ∈ ls /\ ks !! l = Some k) ->
  with_kinds ks ls ≡ₚ map_to_list m.
Proof.
  intros Hnd Hm. apply NoDup_Permutation.
  - clear Hm. induction Hnd as [|l ls Hl Hnd IH]; [constructor|]. unfold with_kinds in *. cbn.
    destruct (ks !! l) as [k|]; [|done]. constructor; [|done].
    rewrite list_elem_of_omap. intros (j & Hj & E). destruct (ks !! j); [|done].
    injection E as -> ->. done.
  - apply NoDup_map_to_list.
  - intros [l k]. rewrite elem_of_map_to_list, Hm. unfold with_kinds. rewrite list_elem_of_omap.
    split.
    + intros (j & Hj & E). destruct (ks !! j) as [k'|] eqn:Ek; [|done]. injection E as -> ->. done.
    + intros [Hl Hk]. exists l. by rewrite Hk.
Qed.

Lemma notify_all_tasks : forall ts tb,
  tasks_as find tb ->
  tasks_as find (foldl notified tb ts) /\ b_mallocs (foldl notified tb ts) = b_mallocs tb.
Proof.
  induction ts as [|t ts IH]; intros tb Ht; [done|]. cbn.
  destruct (notified_tasks find tb t Ht) as [H1 H2]. destruct (IH _ H1) as [H3 H4].
  split; [done | congruence].
Qed.

Lemma tick_step n fuel s a :
  wheel n s a -> sc_next a <= fuel -> allowed find period W_tick a ->
  exists s' f, run_wop call fuel W_tick s = Done (R_none, s') /\
    wheel n s' (step find period W_tick a).2 /\ f ≡ₚ map_to_list (due_now a) /\
    tv_calls s' = tv_calls s ++ omap call_of f.*2 /\ tv_tasks s' = foldl notified (tv_tasks s) f.*2.
Proof.
  intros HW Hf Hnow. destruct (wh_rep _ _ _ HW) as [L HR]. pose proof (wh_now _ _ _ HW) as HT.
  cbn in Hnow. rewrite <- HT in HR, Hnow.
  destruct (process_vectors_spec period call call_ok fuel s (sc_due a) L HR Hnow) as
    (s' & due' & L' & fired & E & HR' & Hturn & Hfired).
  { rewrite (wh_made _ _ _ HW). apply HW. }
  { by rewrite (wh_next _ _ _ HW). }
  destruct Hturn as [K T M N _ D C G]. rewrite HT in *.
  exists (advance s'), (with_kinds (sc_made a) fired).
  assert (forall l, is_Some (sc_due a !! l) -> is_Some (sc_made a !! l)) as Hdm.
  { intros l Hl. destruct (wr_due _ _ _ _ HR l Hl) as [h Hh].
    destruct (wr_in _ _ _ _ HR h l Hh) as (t & Et & _). by rewrite (timer_made n s a l t HW Et). }
  assert (due' = next_due period a) as Hdue.
  { apply map_eq. intros l. rewrite D. unfold next_due. rewrite lookup_merge.
    rewrite (wh_made _ _ _ HW). unfold renew_at, diag_None.
    destruct (sc_due a !! l) as [E'|] eqn:Ed.
    - destruct (decide (E' = sc_now a)) as [->|HE].
      + rewrite decide_True by (by apply Hfired). by destruct (sc_made a !! l).
      + rewrite decide_False by (rewrite Hfired, Ed; congruence). by destruct (sc_made a !! l).
    - rewrite decide_False by (rewrite Hfired, Ed; congruence). by destruct (sc_made a !! l). }
  split; [|split; [|split; [|split]]].
  - unfold run_wop, process_tick. by rewrite E.
  - cbn in Hnow. assert (u64 (sc_now a + 1) = sc_now a + 1)%Z as Eu.
    { unfold u64, MAX_DELAY in *. pose proof (wr_ticks _ _ _ _ HR). apply Z.mod_small. lia. }
    split; cbn -[u64]; try apply HW.
    + exists L'. rewrite <- Hdue. split; cbn -[u64]; try apply HR'.
      * rewrite T, Eu. intros l E' Hl. pose proof (wr_range _ _ _ _ HR' l E' Hl).
        destruct (wr_due _ _ _ _ HR' l) as [h Hh]; [by rewrite Hl|].
        destruct (wr_in _ _ _ _ HR' h l Hh) as (t & _ & Ed & Hp). rewrite Hl in Ed.
        injection Ed as ->. apply placed_expiry in Hp. lia.
      * rewrite T, Eu. pose proof (wr_ticks _ _ _ _ HR). lia.
    + by rewrite T, Eu.
    + unfold advance, kinds in *. cbn. rewrite K. apply HW.
    + rewrite M. apply HW.
    + rewrite G, notify_with_kinds. apply notify_all_tasks, HW.
    + rewrite G, notify_with_kinds. rewrite <- (wh_tasks_n _ _ _ HW).
      apply notify_all_tasks, HW.
  - apply with_kinds_perm; [done|]. intros l k. unfold due_now. rewrite lookup_merge.
    unfold diag_None. rewrite Hfired.
    destruct (sc_due a !! l) as [E'|] eqn:Ed, (sc_made a !! l) as [k'|] eqn:Ek; try case_decide;
      naive_solver.
  - cbn. rewrite C, (wh_made _ _ _ HW). by rewrite calls_with_kinds.
  - cbn. rewrite G, (wh_made _ _ _ HW). by rewrite notify_with_kinds.
Qed.
End refine.
