(* ===== verification/OswOnTime.v ===== *)
(** * Timers fire on time *)
From stdpp Require Import gmap strings.
From S2P Require Export OswTasks OswTimers.

#[export] Instance tm_call_eq_dec : EqDecision tm_call.
Proof. solve_decision. Defined.

(** The schedule before anything is created. *)
Definition sched0 : sched := mk_sched 0 ∅ ∅ 0.

Section runs.
Context (find : string -> option nat) (period : Z -> Z -> option (nat * Z)).
Context (call : Z -> Z -> tvec_base -> out tvec_base).
Context (call_ok : forall r data s, call r data s =
  match period r data with Some (l, d) => start_timer_internal l d s | None => Done s end).

Lemma step_refines n fuel op s a :
  wheel find period n s a -> n <= fuel -> sc_next a <= fuel -> allowed find period op a ->
  exists s' f, run_wop call fuel op s = Done ((step find period op a).1.1, s') /\
    wheel find period n s' (step find period op a).2 /\ f ≡ₚ (step find period op a).1.2 /\
    tv_calls s' = tv_calls s ++ omap call_of f.*2 /\ tv_tasks s' = foldl notified (tv_tasks s) f.*2.
Proof.
  intros HW Hn Hf Ha.
  assert (forall s', quiet s s' ->
    tv_calls s' = tv_calls s ++ omap call_of (@nil (nat * timer_list)).*2 /\
    tv_tasks s' = foldl notified (tv_tasks s) (@nil (nat * timer_list)).*2) as Hq.
  { intros s' [H1 H2]. split; [by rewrite H1, app_nil_r | done]. }
  destruct op as [ok name event callback data|l|l sec msec|l|].
  - destruct (create_step find period call n fuel s a ok name event callback data HW Hn Ha)
      as (s' & E & HW' & -> & HQ). exists s', []. split_and!; try done; by apply Hq.
  - destruct (del_timer_step find period call n fuel s a l HW Ha) as (s' & E & HW' & HQ).
    exists s', []. split_and!; try done; by apply Hq.
  - destruct (start_step find period call n fuel s a l sec msec HW Ha) as (s' & E & HW' & HQ).
    exists s', []. split_and!; try done; by apply Hq.
  - destruct (stop_step find period call n fuel s a l HW Ha) as (s' & E & HW' & HQ).
    exists s', []. split_and!; try done; by apply Hq.
  - by apply (tick_step find period call call_ok).
Qed.

(** The allocations of a sequence of operations. *)
Definition is_create (op : wop) : bool :=
  match op with W_create _ _ _ _ _ => true | _ => false end.
Definition creates (ops : list wop) : nat := length (List.filter is_create ops).

Lemma step_next op ops a :
  sc_next (step find period op a).2 + creates ops <= sc_next a + creates (op :: ops).
Proof.
  destruct op; unfold creates; cbn; repeat (case_match; cbn); lia.
Qed.

Lemma steps_refine n fuel : forall ops s a,
  wheel find period n s a -> n <= fuel -> sc_next a + creates ops <= fuel ->
  all_allowed find period ops a ->
  let '(rs, fs, a') := steps find period ops a in
  exists s' gs, run_wops call fuel ops s = Done (rs, s') /\ wheel find period n s' a' /\
    Forall2 (≡ₚ) gs fs /\ tv_calls s' = tv_calls s ++ omap call_of (concat gs).*2 /\
    tv_tasks s' = foldl notified (tv_tasks s) (concat gs).*2.
Proof.
  induction ops as [|op ops IH]; intros s a HW Hn Hf Ha; cbn [steps run_wops].
  - exists s, []. cbn. rewrite app_nil_r. by split_and!.
  - destruct Ha as [Ha Has]. pose proof (step_next op ops a) as Hnext.
    destruct (step_refines n fuel op s a HW Hn ltac:(lia) Ha) as (s1 & f & E & HW1 & Hp & C & G).
    destruct (step find period op a) as [[r f0] a1]. cbn [fst snd] in *.
    specialize (IH s1 a1 HW1 Hn ltac:(lia) Has).
    destruct (steps find period ops a1) as [[rs fs] a'].
    destruct IH as (s' & gs & E' & HW' & Hps & C' & G').
    exists s', (f :: gs). rewrite E. cbn [obind]. rewrite E'. cbn [obind concat].
    rewrite fmap_app, omap_app, foldl_app. split_and!; try done.
    + by constructor.
    + by rewrite C', C, <- app_assoc.
    + by rewrite G', G.
Qed.
End runs.

(** ** One timer among others *)
Section one.
Context (find : string -> option nat) (period : Z -> Z -> option (nat * Z)).
Context (l : nat) (t : timer_list) (c : tm_call).
Context (call_c : call_of t = Some c) (once : forall T, renew period t T = None).

(** [l] is the only timer that makes the call [c]. *)
Definition only_one (made : gmap nat timer_list) : Prop :=
  made !! l = Some t /\ forall l' t', made !! l' = Some t' -> call_of t' = Some c -> l' = l.

Lemma calls_filter (m : gmap nat timer_list) (f : list (nat * timer_list)) :
  f ≡ₚ map_to_list m -> (forall l' t', m !! l' = Some t' -> call_of t' = Some c -> l' = l) ->
  (forall t', m !! l = Some t' -> t' = t) ->
  filter (fun x => x = c) (omap call_of f.*2) = if decide (is_Some (m !! l)) then [c] else [].
Proof.
  intros Hf Hc Ht. assert (NoDup f.*1) as Hnd by (rewrite Hf; apply NoDup_fst_map_to_list).
  assert (forall l' t', (l', t') ∈ f <-> m !! l' = Some t') as Hin
    by (intros l' t'; rewrite Hf; apply elem_of_map_to_list).
  assert (forall g, (forall p, p ∈ g -> p ∈ f) -> NoDup g.*1 ->
    filter (fun x => x = c) (omap call_of g.*2) = if decide (l ∈ g.*1) then [c] else []) as Hg.
  { induction g as [|[l' t'] g IH]; intros Hg Hnd'; [done|]. cbn.
    apply list.NoDup_cons in Hnd' as [Hl' Hnd']. cbn in Hl'.
    specialize (IH (fun p Hp => Hg p (list_elem_of_further _ _ _ Hp)) Hnd').
    pose proof (proj1 (Hin l' t') (Hg _ (list_elem_of_here _ _))) as Em.
    destruct (decide (l' = l)) as [->|Hne].
    - rewrite (Ht t' Em), call_c, filter_cons_True by done.
      rewrite IH, decide_False by done. rewrite decide_True by (by left). done.
    - assert (call_of t' <> Some c) as Hc' by (intros H; by apply Hne, (Hc l' t')).
      rewrite (decide_ext (l ∈ l' :: g.*1) (l ∈ g.*1)) by (rewrite elem_of_cons; naive_solver).
      rewrite <- IH. destruct (call_of t') as [x|] eqn:Ex; [|done].
      rewrite filter_cons_False by congruence. done. }
  rewrite Hg by done. apply decide_ext. rewrite list_elem_of_fmap. split.
  - intros ([l' t'] & -> & Hp). exists t'. by apply Hin.
  - intros [t' Hm]. exists (l, t'). split; [done|]. by apply Hin.
Qed.

(** Ticks alone. *)
Lemma ticks_count : forall k a,
  only_one (sc_made a) -> (forall E, sc_due a !! l = Some E -> sc_now a <= E)%Z ->
  forall gs, Forall2 (≡ₚ) gs (steps find period (replicate k W_tick) a).1.2 ->
  filter (fun x => x = c) (omap call_of (concat gs).*2) =
  match sc_due a !! l with
  | Some E => if decide (E < sc_now a + Z.of_nat k)%Z then [c] else []
  | None => []
  end.
Proof.
  induction k as [|k IH]; intros a Ho Hd gs Hgs.
  - apply Forall2_nil_inv_r in Hgs as ->. cbn. destruct (sc_due a !! l) as [E|] eqn:Ed; [|done].
    rewrite decide_False; [done|]. specialize (Hd E eq_refl). lia.
  - cbn [replicate steps step fst snd] in Hgs.
    set (a1 := mk_sched _ _ _ _) in Hgs.
    specialize (IH a1). destruct (steps find period (replicate k W_tick) a1) as [[rs fs] a'] eqn:Es.
    cbn [fst snd] in Hgs, IH. apply Forall2_cons_inv_r in Hgs as (f & gs' & Hf & Hgs & ->).
    cbn [concat]. rewrite fmap_app, omap_app, list.filter_app.
    destruct Ho as [Hl Ho].
    assert (due_now a !! l = match sc_due a !! l with
      | Some E => if decide (E = sc_now a) then Some t else None | None => None end) as Edue.
    { unfold due_now. rewrite lookup_merge, Hl. unfold diag_None.
      destruct (sc_due a !! l); [by case_decide | done]. }
    assert (next_due period a !! l = match sc_due a !! l with
      | Some E => if decide (E = sc_now a) then None else Some E | None => None end) as Enext.
    { unfold next_due. rewrite lookup_merge, Hl. unfold diag_None. rewrite once.
      destruct (sc_due a !! l); [by case_decide | done]. }
    rewrite (calls_filter (due_now a) f Hf).
    2: { intros l' t' Hm. apply (Ho l' t'). unfold due_now in Hm. rewrite lookup_merge in Hm.
      unfold diag_None in Hm. destruct (sc_due a !! l'), (sc_made a !! l'); try done;
      by case_decide. }
    2: { intros t'. rewrite Edue. destruct (sc_due a !! l); [|done]. case_decide; congruence. }
    rewrite (IH (conj Hl Ho)); [| | exact Hgs].
    2: { intros E. cbn. rewrite Enext. destruct (sc_due a !! l) as [E'|] eqn:Ed; [|done].
      specialize (Hd E' eq_refl). case_decide; [done|]. intros [= <-]. lia. }
    cbn [a1 sc_due sc_now]. rewrite Enext, Edue.
    destruct (sc_due a !! l) as [E|] eqn:Ed; [|by rewrite decide_False by (by intros [? ?])].
    specialize (Hd E eq_refl). destruct (decide (E = sc_now a)) as [->|HE].
    + rewrite decide_True by eauto. rewrite decide_True by lia. done.
    + rewrite decide_False by (by intros [? ?]). cbn. apply decide_ext. lia.
Qed.
End one.

(** ** The theorems *)

#[export] Instance allowed_dec find period op a : Decision (allowed find period op a).
Proof. destruct op; cbn; try case_match; apply _. Defined.
#[export] Instance all_allowed_dec find period ops a : Decision (all_allowed find period ops a).
Proof.
  revert a. induction ops as [|op ops IH]; intros a; cbn; [apply _|].
  apply and_dec; [apply _ | apply IH].
Defined.

(** C25. The timer wheel is a schedule: any sequence of creations, deletions,
    starts, stops and ticks in which a timer is started or deleted only while it
    is not started, a routine starts no timer but its own again, a tick later or
    more, and the clock stays below 2^63 ticks ([allowed]), has the results of
    the schedule, and each tick calls the routines, and posts the events, of
    exactly the timers that are due at it, once each.  No timer is early, late or
    lost in the moves between the vectors, however long its delay, and no list
    is corrupted.  ([del_started_faults] and [zero_delay_lost] are what happens
    otherwise.) *)
Theorem timer_wheel_refines (find : string -> option nat)
    (period : Z -> Z -> option (nat * Z)) (call : Z -> Z -> tvec_base -> out tvec_base)
    (tasks : task_base) (ops : list wop) (fuel : nat) :
  (forall r data s, call r data s =
     match period r data with Some (l, d) => start_timer_internal l d s | None => Done s end) ->
  tasks_as find tasks -> all_allowed find period ops sched0 ->
  b_mallocs tasks <= fuel -> length ops <= fuel ->
  let '(rs, fs, a) := steps find period ops sched0 in
  exists s gs, run_wops call fuel ops (timer_wheel tasks) = Done (rs, s) /\
    wheel find period (b_mallocs tasks) s a /\ Forall2 (≡ₚ) gs fs /\
    tv_calls s = omap call_of (concat gs).*2 /\
    tv_tasks s = foldl notified tasks (concat gs).*2.
Proof.
  intros Hc Ht Ha Hn Hf.
  assert (creates ops <= length ops) as Hcr by apply List.filter_length_le.
  pose proof (steps_refine find period call Hc (b_mallocs tasks) fuel ops (timer_wheel tasks)
    sched0 (wheel_init find period tasks Ht) Hn) as H.
  apply H; [|done]. change (sc_next sched0) with 0. lia.
Qed.

Lemma ticks_run call fuel : forall k s rs s',
  run_wops call fuel (replicate k W_tick) s = Done (rs, s') ->
  process_ticks call fuel k s = Done s'.
Proof.
  induction k as [|k IH]; intros s rs s'; cbn.
  - by intros [= _ <-].
  - destruct (process_tick call fuel s) as [s1| |]; cbn; try done.
    destruct (run_wops call fuel (replicate k W_tick) s1) as [[rs1 s2]| |] eqn:E; cbn; try done.
    intros [= _ <-]. by apply (IH s1 rs1).
Qed.

Lemma ticks_allowed find period : forall k a,
  (sc_now a + Z.of_nat k <= MAX_DELAY)%Z -> all_allowed find period (replicate k W_tick) a.
Proof.
  induction k as [|k IH]; intros a Hk; cbn; [done|]. split; [lia|]. apply IH. cbn. lia.
Qed.

Lemma ticks_create k : creates (replicate k W_tick) = 0.
Proof. unfold creates. by induction k. Qed.

(** A timer that is started with a delay of [d] ticks and fires once is
    called by the tick [d] after the next one and by no other. *)
Theorem timer_fires_once (find : string -> option nat) (period : Z -> Z -> option (nat * Z))
    (call : Z -> Z -> tvec_base -> out tvec_base) (n fuel l k : nat) (t : timer_list)
    (c : tm_call) (sec msec : Z) (s : tvec_base) (a : sched) :
  (forall r data s, call r data s =
     match period r data with Some (l, d) => start_timer_internal l d s | None => Done s end) ->
  wheel find period n s a -> n <= fuel -> sc_next a <= fuel ->
  only_one l t c (sc_made a) -> call_of t = Some c -> (forall T, renew period t T = None) ->
  sc_due a !! l = None -> (sc_now a + Z.of_nat k < MAX_DELAY)%Z ->
  exists s1 s2 new, start_timer l sec msec s = Done s1 /\ process_ticks call fuel k s1 = Done s2 /\
    tv_calls s2 = tv_calls s ++ new /\
    filter (fun x => x = c) new =
      if decide (ticks_of sec msec < Z.of_nat k)%Z then [c] else [].
Proof.
  intros Hc HW Hn Hf Ho Hcall Honce Hd Hk.
  destruct (start_step find period call n fuel s a l sec msec HW) as (s1 & E1 & HW1 & C1 & G1).
  { cbn. split_and!; [destruct Ho; eauto | done | lia]. }
  cbn in HW1. set (a1 := mk_sched _ _ _ _) in HW1.
  pose proof (steps_refine find period call Hc n fuel (replicate k W_tick) s1 a1 HW1 Hn) as H.
  rewrite ticks_create in H. specialize (H ltac:(cbn; lia)).
  specialize (H (ticks_allowed find period k a1 ltac:(cbn; lia))).
  pose proof (ticks_count find period l t c Hcall Honce k a1 Ho) as Hcnt.
  destruct (steps find period (replicate k W_tick) a1) as [[rs fs] a'].
  destruct H as (s2 & gs & E2 & _ & Hp & C2 & _). apply ticks_run in E2.
  exists s1, s2, (omap call_of (concat gs).*2). split_and!.
  - cbn in E1. by destruct (start_timer l sec msec s) as [x| |]; [injection E1 as -> | |].
  - done.
  - by rewrite C2, C1.
  - rewrite Hcnt; [| |exact Hp].
    + cbn. rewrite lookup_insert_eq. apply decide_ext. lia.
    + cbn. intros E. rewrite lookup_insert_eq. intros [= <-].
      pose proof (ticks_of_bound sec msec). lia.
Qed.

(** ** At concrete inputs *)
Lemma named_tasks_as tb m : named ti_name tb m -> tasks_as (fun name => m !! name) tb.
Proof. intros (ls & HR & Hm). exists ls. split; [done|]. intros name. by apply names_find. Qed.

(** Routine 2 starts its timer again after 70 ticks; the others return. *)
Definition sample_period (r data : Z) : option (nat * Z) :=
  if (r =? 2)%Z then Some (Z.to_nat data, 70%Z) else None.
Definition sample_call (r data : Z) (s : tvec_base) : out tvec_base :=
  match sample_period r data with Some (l, d) => start_timer_internal l d s | None => Done s end.
Definition sample_wops : list wop :=
  [W_create true None 0 (Some 1) 9; W_create true None 0 (Some 2) 1;
   W_create true (Some "dps") 4 None 0; W_create true (Some "rest") 4 None 0;
   W_create true None 4 None 0; W_create false None 0 (Some 1) 9;
   W_start 0 7 250; W_start 1 0 100; W_start 2 0 0]%Z ++ replicate 70 W_tick ++
  [W_start 2 100 0; W_stop 2] ++ replicate 4 W_tick ++ [W_stop 0; W_del 0]%Z.
Definition dps_task : task_info := mk_task 7 0 1 2 0 "dps".

Lemma sample_tasks : exists tb,
  named ti_name tb {["dps" := 0%nat]} /\ b_mallocs tb = 1%nat /\ b_items tb = {[0%nat := dps_task]}.
Proof.
  destruct (kop_refines 1 (K_create true (Some 7%Z) "dps" 0 1 2) task_base_init taskmap0) as
    (tb & _ & HR); [cbn; lia | apply krep_init | cbn; unfold TASK_NAME_LEN; lia |].
  exists tb. split_and!; [apply (kr_named _ _ HR) | apply (kr_next _ _ HR) | apply (kr_info _ _ HR)].
Qed.

Definition sample_steps := steps (fun name => ({["dps" := 0%nat]} : gmap string nat) !! name)
  sample_period sample_wops sched0.

(** Timer 1 is due at the ticks 1 and 71, timer 2 at once, timer 0 at 72. *)
Example sample_fired :
  List.filter (fun p => negb (bool_decide (p.2 = []))) (zip (seq 0 90) (map (map fst) sample_steps.1.2)) =
  [(9, [2]); (10, [1]); (82, [1]); (83, [0])]%nat.
Proof. vm_compute. reflexivity. Qed.

Lemma timer_wheel_refines_witness :
  exists tasks s gs, run_wops sample_call 100 sample_wops (timer_wheel tasks) =
      Done (sample_steps.1.1, s) /\
    wheel (fun name => ({["dps" := 0%nat]} : gmap string nat) !! name) sample_period
      (b_mallocs tasks) s sample_steps.2 /\
    Forall2 (≡ₚ) gs sample_steps.1.2 /\ tv_calls s = omap call_of (concat gs).*2 /\
    tv_tasks s = foldl notified tasks (concat gs).*2.
Proof.
  destruct sample_tasks as (tb & Hn & Hm & _). exists tb.
  pose proof (timer_wheel_refines (fun name => ({["dps" := 0%nat]} : gmap string nat) !! name)
    sample_period sample_call tb sample_wops 100) as H.
  fold sample_steps in H. destruct sample_steps as [[rs fs] a]. apply H.
  - reflexivity.
  - by apply named_tasks_as.
  - apply (bool_decide_unpack _). vm_compute. exact I.
  - rewrite Hm. lia.
  - cbn. lia.
Defined.

Lemma timer_fires_once_witness :
  exists s s1 s2 new, start_timer 0 30 50 s = Done s1 /\
    process_ticks (fun _ _ s => Done s) 1 301 s1 = Done s2 /\ tv_calls s2 = tv_calls s ++ new /\
    filter (fun x => x = Tm_call 1 9) new = [Tm_call 1 9].
Proof.
  assert (tasks_as (fun _ => None) task_base_init) as Ht.
  { exists []. split; [apply brep_init | done]. }
  set (t := mk_timer 0 None 0 (Some 1%Z) 9).
  destruct (create_step (fun _ => None) (fun _ _ => None) (fun _ _ s => Done s) 0 1
    (timer_wheel task_base_init) sched0 true None 0 (Some 1%Z) 9) as (s & _ & HW & _); try done.
  { apply (wheel_init _ _ task_base_init Ht). }
  { lia. }
  exists s.
  apply (timer_fires_once (fun _ => None) (fun _ _ => None) (fun _ _ s => Done s) 0 1 0 301 t
    (Tm_call 1 9) 30 50 s _ (fun _ _ _ => eq_refl) HW); try done; try (cbn; lia).
  split; [done|]. intros l' t' Hl _. cbn in Hl.
  by apply lookup_insert_Some in Hl as [[<- _]|[_ ?]].
Defined.

(** ** What [allowed] excludes *)
Definition idle_wheel : tvec_base := timer_wheel task_base_init.

(** A routine that starts its own timer without delay: the timer is put in the
    list that has just been processed and is not due for [2^64] ticks. *)
Example zero_delay_lost :
  match run_wops (fun _ _ => start_timer_internal 0 0) 1
          ([W_create true None 0 (Some 1) 0; W_start 0 0 0]%Z ++ replicate 200 W_tick) idle_wheel with
  | Done (_, s) => Some (length (tv_calls s), tm_expires <$> tv_timers s !! 0)
  | _ => None
  end = Some (1, Some 0%Z).
Proof. vm_compute. reflexivity. Qed.

(** A routine that stops the next timer of its list: the loop goes on at a
    timer that has been unlinked, and follows its poisoned pointer. *)
Example stop_next_faults :
  run_wops (fun _ data s => if (data =? 1)%Z then stop_timer (Some 0) s else Done s) 9
    [W_create true None 0 (Some 1) 0; W_create true None 0 (Some 1) 1; W_start 0 0 0; W_start 1 0 0;
     W_tick]%Z idle_wheel = Fault.
Proof. vm_compute. reflexivity. Qed.

(** A timer that is deleted while it is started: its list goes through freed
    memory. *)
Example del_started_faults :
  run_wops (fun _ _ s => Done s) 9
    [W_create true None 0 (Some 1) 0; W_start 0 0 0; W_del 0; W_tick]%Z idle_wheel = Fault.
Proof. vm_compute. reflexivity. Qed.
