(* ===== verification/OswClock.v ===== *)
(** * The ticks follow the clock: [timer_main] of [osw/timer.c] *)
From stdpp Require Import gmap strings.
From S2P Require Export OswTimers.

(** [timer_main] with the [readings] of [gettimeofday], one a cycle. *)
Section main.
Context (call : Z -> Z -> tvec_base -> out tvec_base) (fuel : nat).

Fixpoint main_cycles (readings : list (Z * Z)) (last : Z * Z) (c : tm_clock) (s : tvec_base)
    : out tvec_base :=
  match readings with
  | [] => Done s
  | cur :: readings =>
      let '(ticks, c) := timer_cycle cur last c in
      let* s := process_ticks call fuel (Z.to_nat ticks) s in
      main_cycles readings cur c s
  end.
Definition timer_main (readings : list (Z * Z)) (s : tvec_base) : out tvec_base :=
  main_cycles readings (0, 0)%Z (mk_clock 0 0) s.
End main.

Definition USEC_PER_TICK : Z := 100000.
Definition usec_of (t : Z * Z) : Z := (t.1 * 1000000 + t.2)%Z.

(** The ticks of the cycles, and the cycles that correct the count. *)
Definition corrects (cur last : Z * Z) (c : tm_clock) : bool :=
  let e := (usec_of cur - usec_of last)%Z in
  negb ((ck_total_elapsed_usec c + e) / USEC_PER_TICK =?
        ck_total_ticks c + e / USEC_PER_TICK)%Z.
Fixpoint cycles (readings : list (Z * Z)) (last : Z * Z) (c : tm_clock) : list Z * nat :=
  match readings with
  | [] => ([], 0)
  | cur :: readings =>
      let '(ticks, c') := timer_cycle cur last c in
      let '(ts, k) := cycles readings cur c' in
      (ticks :: ts, if corrects cur last c then S k else k)
  end.
Definition sum (ts : list Z) : Z := foldr Z.add 0%Z ts.

(** A clock that never goes back, from [lo] to [hi]. *)
Fixpoint ascends (lo : Z) (readings : list (Z * Z)) (hi : Z) : Prop :=
  match readings with
  | [] => lo = hi
  | r :: readings => (lo <= usec_of r)%Z /\ ascends (usec_of r) readings hi
  end.
Definition MAX_USEC : Z := 9223372036854775808.

Lemma ascends_le readings : forall lo hi, ascends lo readings hi -> (lo <= hi)%Z.
Proof.
  induction readings as [|r rs IH]; cbn; intros lo hi; [lia|]. intros [H1 H2%IH]. lia.
Qed.

(** The ticks since the last correction are those of the time since then. *)
Definition in_step (c : tm_clock) : Prop :=
  (0 <= ck_total_elapsed_usec c)%Z /\
  ck_total_ticks c = (ck_total_elapsed_usec c / USEC_PER_TICK)%Z.

Lemma cycle_spec cur last c :
  in_step c -> last <> (0, 0)%Z -> (usec_of last <= usec_of cur)%Z ->
  (ck_total_elapsed_usec c + (usec_of cur - usec_of last) < MAX_USEC)%Z ->
  let te := (ck_total_elapsed_usec c + (usec_of cur - usec_of last))%Z in
  timer_cycle cur last c =
    ((te / USEC_PER_TICK - ck_total_elapsed_usec c / USEC_PER_TICK)%Z,
     if corrects cur last c then mk_clock 0 0 else mk_clock te (te / USEC_PER_TICK)).
Proof.
  intros [H0 Ht] Hl Hc Hm te.
  assert (COMPUTE_ELAPSED_TIME cur last = usec_of cur - usec_of last)%Z as Ee
    by (unfold COMPUTE_ELAPSED_TIME, usec_of; lia).
  assert (((last.1 =? 0) && (last.2 =? 0))%Z = false) as Ez.
  { destruct last as [a b]. cbn. destruct (Z.eqb_spec a 0), (Z.eqb_spec b 0); subst; done. }
  unfold timer_cycle. rewrite Ez, Ee. unfold corrects. fold te.
  set (e := (usec_of cur - usec_of last)%Z) in *.
  change (1000 * MSEC_PER_TICK)%Z with USEC_PER_TICK.
  assert (forall z, (0 <= z < MAX_USEC)%Z -> u64 z = z) as Hu
    by (intros z Hz; unfold u64, MAX_USEC in *; apply Z.mod_small; lia).
  rewrite (Hu e), (Hu (_ + e)%Z) by lia. fold te. rewrite Ht.
  assert (0 <= te / USEC_PER_TICK - ck_total_elapsed_usec c / USEC_PER_TICK - e / USEC_PER_TICK <= 1)%Z
    as Hd by (unfold te, USEC_PER_TICK; Z.div_mod_to_equations; lia).
  assert (0 <= ck_total_elapsed_usec c / USEC_PER_TICK /\ 0 <= e / USEC_PER_TICK /\
    te / USEC_PER_TICK < MAX_USEC)%Z as (H1 & H2 & H3)
    by (unfold USEC_PER_TICK, MAX_USEC in *; Z.div_mod_to_equations; lia).
  rewrite (Hu (_ + _)%Z) by lia.
  destruct (Z.eqb_spec (te / USEC_PER_TICK)
    (ck_total_elapsed_usec c / USEC_PER_TICK + e / USEC_PER_TICK)) as [E|E]; cbn [negb].
  - f_equal; [lia|]. f_equal. lia.
  - f_equal. rewrite (Hu (_ - _)%Z), Hu by lia. lia.
Qed.

Lemma cycle_in_step cur last c te :
  (0 <= te)%Z ->
  in_step (if corrects cur last c then mk_clock 0 0 else mk_clock te (te / USEC_PER_TICK)).
Proof. intros H. by case_match; split; cbn. Qed.

Lemma cycles_bounds readings : forall last c hi,
  in_step c -> last <> (0, 0)%Z -> (0 < usec_of last)%Z -> ascends (usec_of last) readings hi ->
  (ck_total_elapsed_usec c + hi - usec_of last < MAX_USEC)%Z ->
  let '(ts, k) := cycles readings last c in
  (Forall (fun t => 0 <= t) ts /\
   USEC_PER_TICK * sum ts <= ck_total_elapsed_usec c mod USEC_PER_TICK + (hi - usec_of last)
     < USEC_PER_TICK * (sum ts + 1 + Z.of_nat k))%Z.
Proof.
  induction readings as [|cur rs IH]; intros last c hi Hc Hl Hpos Ha Hm; cbn [cycles].
  - cbn in Ha. cbn [sum foldr]. split; [done|]. unfold USEC_PER_TICK. Z.div_mod_to_equations. lia.
  - destruct Ha as [Hle Ha]. pose proof (ascends_le _ _ _ Ha) as Hhi.
    pose proof Hc as [H0 Ht]. rewrite (cycle_spec cur last c Hc Hl Hle ltac:(lia)).
    set (te := (ck_total_elapsed_usec c + (usec_of cur - usec_of last))%Z).
    specialize (IH cur _ hi (cycle_in_step cur last c te ltac:(unfold te; lia))).
    destruct (cycles rs cur _) as [ts k]. cbn [sum foldr].
    destruct IH as (Hp & H1 & H2).
    + intros ->. unfold usec_of in Hle, Hpos. cbn in Hle. lia.
    + lia.
    + done.
    + unfold te. case_match; cbn; lia.
    + assert (ck_total_elapsed_usec c / USEC_PER_TICK <= te / USEC_PER_TICK)%Z as Hd
        by (unfold te; apply Z.div_le_mono; unfold USEC_PER_TICK; lia).
      split; [constructor; [lia | done]|]. destruct (corrects cur last c); cbn in H1, H2;
        unfold sum, USEC_PER_TICK, te in *; revert H1 H2 Hd; Z.div_mod_to_equations; lia.
Qed.

Lemma process_ticks_app call fuel n : forall m s,
  process_ticks call fuel (n + m) s =
  (let* s := process_ticks call fuel n s in process_ticks call fuel m s).
Proof.
  induction n as [|n IH]; intros m s; cbn; [done|].
  destruct (process_tick call fuel s); cbn; [apply IH | done | done].
Qed.

Lemma main_cycles_ticks call fuel readings : forall last c s,
  Forall (fun t => 0 <= t)%Z (cycles readings last c).1 ->
  main_cycles call fuel readings last c s =
  process_ticks call fuel (Z.to_nat (sum (cycles readings last c).1)) s.
Proof.
  induction readings as [|cur rs IH]; intros last c s; cbn; [done|].
  destruct (timer_cycle cur last c) as [ticks c'] eqn:Et. specialize (IH cur c').
  destruct (cycles rs cur c') as [ts k] eqn:Ec. cbn in *. intros [H1 H2]%List.Forall_cons_iff.
  assert (0 <= sum ts)%Z by (clear - H2; unfold sum; induction H2; cbn; lia).
  rewrite Z2Nat.inj_add by done. rewrite process_ticks_app.
  destruct (process_ticks call fuel (Z.to_nat ticks) s) as [s1| |]; cbn; [by apply IH | done | done].
Qed.

(** C32. While the clock is never set back, and for less than 2^63 microseconds,
    the timer thread processes as many ticks as tenths of a second go by: never
    more, and fewer by at most one for every correction of its count.  (A
    correction drops the part of a tick that had been counted.) *)
Theorem timer_follows_clock (call : Z -> Z -> tvec_base -> out tvec_base) (fuel : nat)
    (start : Z * Z) (readings : list (Z * Z)) (hi : Z) (s : tvec_base) :
  (0 < usec_of start)%Z -> ascends (usec_of start) readings hi ->
  (hi - usec_of start < MAX_USEC)%Z ->
  let '(ts, k) := cycles readings start (mk_clock 0 0) in
  timer_main call fuel (start :: readings) s = process_ticks call fuel (Z.to_nat (sum ts)) s /\
  (USEC_PER_TICK * sum ts <= hi - usec_of start < USEC_PER_TICK * (sum ts + 1 + Z.of_nat k))%Z.
Proof.
  intros Hs Ha Hm.
  assert (start <> (0, 0)%Z) as Hn by (intros ->; unfold usec_of in Hs; cbn in Hs; lia).
  pose proof (cycles_bounds readings start (mk_clock 0 0) hi) as H.
  pose proof (main_cycles_ticks call fuel readings start (mk_clock 0 0) s) as Hmain.
  assert (timer_cycle start (0, 0)%Z (mk_clock 0 0) = (0%Z, mk_clock 0 0)) as E0.
  { unfold timer_cycle, COMPUTE_ELAPSED_TIME. cbn. by rewrite !Z.sub_diag. }
  assert (timer_main call fuel (start :: readings) s
          = main_cycles call fuel readings start (mk_clock 0 0) s) as ->
    by (unfold timer_main; cbn [main_cycles]; by rewrite E0).
  destruct (cycles readings start (mk_clock 0 0)) as [ts k]. cbn [fst] in Hmain.
  destruct H as [Hp Hb]; try done. split; [by apply Hmain | exact Hb].
Qed.

(** ** At concrete inputs *)

(** Cycles of 199 milliseconds: 1.99 seconds, in which every other cycle
    corrects the count, are 15 ticks. *)
Definition slow_cycles : list (Z * Z) :=
  map (fun i => (100, Z.of_nat i * 199000))%Z (seq 1 10).
Example slow_cycles_drift :
  let '(ts, k) := cycles slow_cycles (100, 0)%Z (mk_clock 0 0) in (sum ts, k) = (15%Z, 5).
Proof. vm_compute. reflexivity. Qed.

(** The clock is set back by a second. *)
Example clock_set_back : ((timer_cycle (99, 0) (100, 0) (mk_clock 0 0)).1 = 184467440737085)%Z.
Proof. vm_compute. reflexivity. Qed.

Lemma timer_follows_clock_witness :
  let '(ts, k) := cycles slow_cycles (100, 0)%Z (mk_clock 0 0) in
  timer_main (fun _ _ s => Done s) 1 ((100, 0)%Z :: slow_cycles) (timer_wheel task_base_init) =
    process_ticks (fun _ _ s => Done s) 1 (Z.to_nat (sum ts)) (timer_wheel task_base_init) /\
  (USEC_PER_TICK * sum ts <= 101990000 - 100000000 < USEC_PER_TICK * (sum ts + 1 + Z.of_nat k))%Z.
Proof.
  apply (timer_follows_clock (fun _ _ s => Done s) 1 (100, 0)%Z slow_cycles 101990000).
  - done.
  - vm_compute. by repeat split.
  - done.
Defined.
