(* ===== verification/OswQueue.v ===== *)
(** * Message queues: [osw/queue.c], compiled with [NON_POSIX_MQUEUE]

    A queue is a ring of [msg_num] slots of [msg_len] bytes.  Its lock is held
    in every operation; a receiver that waits for a message releases it. *)
From stdpp Require Import gmap strings.
From S2P Require Export OswTask.

Definition OSW_WAIT : Z := -1.
Definition QUEUE_NAME_LEN : nat := 16.
Definition ETIMEDOUT : Z := 110.
Definition EINVAL : Z := 22.

(** [qi_buffer] is [None] for [NULL]. *)
Record queue_info := mk_queue {
  qi_msg_len : Z; qi_msg_num : Z; qi_buffer : option (list Z); write_index : Z; read_index : Z;
  avail_num : Z; qi_name : string }.

Abbreviation queue_base := (base queue_info).

Definition queue_base_init : queue_base := base_init.

Definition search_queue (fuel : nat) (name : string) (s : queue_base) : out (option nat) :=
  search_named qi_name fuel name s.

(** [heap n] is what [malloc(n)] gives: [n] bytes, or [None].  A queue whose
    buffer cannot be allocated is not freed. *)
Definition create_queue (fuel : nat) (malloc_ok : bool) (heap : Z -> option (list Z))
    (name : string) (msg_len msg_num : Z) (qid : option nat) (s : queue_base)
    : out (Z * option nat * queue_base) :=
  let* found := search_queue fuel name s in
  match found with
  | Some _ => Done (OSW_ERROR, qid, s)
  | None =>
      let buffer := heap (u32 (msg_len * msg_num)) in
      match alloc_item malloc_ok
              (mk_queue msg_len msg_num buffer 0 0 0 (strncpy name QUEUE_NAME_LEN)) s with
      | (None, s) => Done (OSW_ERROR, qid, s)
      | (Some l, s) =>
          match buffer with
          | None => Done (OSW_ERROR, Some l, s)
          | Some _ => let* s := link_item l s in Done (OSW_OK, Some l, s)
          end
      end
  end.

Definition del_queue (l : nat) (s : queue_base) : out queue_base :=
  let* s := unlink_item l s in
  free_item l s.

(** ** One queue *)

(** [memcpy(p + off, src, n)] and [memcpy(dst, p + off, n)] *)
Definition copy_in (b : list Z) (off : Z) (src : list Z) (n : Z) : out (list Z) :=
  if decide (0 <= off /\ 0 <= n <= Z.of_nat (length src) /\ off + n <= Z.of_nat (length b))%Z
  then Done (take (Z.to_nat off) b ++ take (Z.to_nat n) src ++ drop (Z.to_nat (off + n)) b)
  else Fault.
Definition copy_out (b : list Z) (off : Z) (dst : list Z) (n : Z) : out (list Z) :=
  if decide (0 <= off /\ 0 <= n <= Z.of_nat (length dst) /\ off + n <= Z.of_nat (length b))%Z
  then Done (take (Z.to_nat n) (drop (Z.to_nat off) b) ++ drop (Z.to_nat n) dst)
  else Fault.

Definition the_buffer (q : queue_info) : out (list Z) := of_option (qi_buffer q).
(** [(i + 1) % qi->msg_num] *)
Definition next_index (q : queue_info) (i : Z) : out Z :=
  if (qi_msg_num q =? 0)%Z then Fault else Done (u32 (i + 1) mod qi_msg_num q)%Z.

Definition queue_send (msg_buf : list Z) (msg_len : Z) (q : queue_info) : out (Z * queue_info) :=
  if (qi_msg_len q <? msg_len)%Z then Done (OSW_ERROR, q)
  else if (qi_msg_num q <=? avail_num q)%Z then Done (OSW_ERROR, q)
  else
    let* b := the_buffer q in
    let* b := copy_in b (u32 (write_index q * qi_msg_len q)) msg_buf msg_len in
    let* w := next_index q (write_index q) in
    Done (OSW_OK, mk_queue (qi_msg_len q) (qi_msg_num q) (Some b) w (read_index q)
                    (u32 (avail_num q + 1)) (qi_name q)).

(** The end of [queue_receive]: a message is taken out. *)
Definition take_message (msg_buf : list Z) (msg_len : Z) (q : queue_info)
    : out (option (Z * list Z) * queue_info) :=
  let* b := the_buffer q in
  let* msg_buf := copy_out b (u32 (read_index q * qi_msg_len q)) msg_buf msg_len in
  let* r := next_index q (read_index q) in
  Done (Some (OSW_OK, msg_buf),
        mk_queue (qi_msg_len q) (qi_msg_num q) (qi_buffer q) (write_index q) r
          (u32 (avail_num q - 1)) (qi_name q)).

(** [while (qi->avail_num == 0) pthread_cond_wait]: [waits] is what the other
    threads do to the queue each time the lock is released. *)
Fixpoint wait_for (waits : list (queue_info -> out queue_info)) (q : queue_info)
    : out (bool * queue_info) :=
  if negb (avail_num q =? 0)%Z then Done (true, q)
  else
    match waits with
    | [] => Done (false, q)
    | w :: waits => let* q := w q in wait_for waits q
    end.

(** The end of the wait, as a [struct timespec]; [-fwrapv] makes [int]
    arithmetic wrap. *)
Definition deadline (tp : Z * Z) (timeout : Z) : Z * Z :=
  let usec := u32 (tp.2 + timeout * 1000) in
  let '(sec, usec) :=
    if (1000000 <? usec)%Z then (usec / 1000000, usec mod 1000000)%Z else (0%Z, usec) in
  (tp.1 + sec, u32 (usec * 1000))%Z.

(** [pthread_cond_timedwait] refuses more than 999999999 nanoseconds;
    otherwise [rc] is what it returns, and [w] what the other threads do. *)
Definition timedwait (ts : Z * Z) (rc : Z) (w : queue_info -> out queue_info) (q : queue_info)
    : out (Z * queue_info) :=
  if (999999999 <? ts.2)%Z then Done (EINVAL, q) else let* q := w q in Done (rc, q).

(** The result is [None] while the caller waits; [tp] is the time of day. *)
Definition queue_receive (waits : list (queue_info -> out queue_info)) (tp : Z * Z) (rc : Z)
    (msg_buf : list Z) (msg_len timeout : Z) (q : queue_info)
    : out (option (Z * list Z) * queue_info) :=
  let msg_len := if (qi_msg_len q <? msg_len)%Z then qi_msg_len q else msg_len in
  if (timeout =? OSW_NO_WAIT)%Z then
    if (avail_num q =? 0)%Z then Done (Some (OSW_ERROR, msg_buf), q)
    else take_message msg_buf msg_len q
  else if (timeout =? OSW_WAIT)%Z then
    let* (ready, q) := wait_for waits q in
    if ready : bool then take_message msg_buf msg_len q else Done (None, q)
  else if (avail_num q =? 0)%Z then
    let w := match waits with w :: _ => w | [] => fun q => Done q end in
    let* (rc, q) := timedwait (deadline tp timeout) rc w q in
    if (rc =? ETIMEDOUT)%Z then Done (Some (OSW_ERROR, msg_buf), q)
    else take_message msg_buf msg_len q
  else take_message msg_buf msg_len q.

(** The same for the queue with identifier [l]. *)
Definition on_queue {R} (f : queue_info -> out (R * queue_info)) (l : nat) (s : queue_base)
    : out (R * queue_base) :=
  let* q := item_at s l in
  let* (r, q) := f q in
  let* s := set_item l q s in
  Done (r, s).
