(* ===== verification/OswFifo.v ===== *)
(** * The theorems about queues *)
From stdpp Require Import gmap strings.
From S2P Require Export OswQueue.

(** ** A queue delivers messages in order

    The ring holds the messages [ms], the oldest first; each is at the start
    of its slot. *)
(** [off + n] bytes of a buffer, [n] of them replaced. *)
Lemma copy_in_spec b off src n :
  (0 <= off)%Z -> (0 <= n <= Z.of_nat (length src))%Z -> (off + n <= Z.of_nat (length b))%Z ->
  exists b', copy_in b off src n = Done b' /\ length b' = length b /\
    take (Z.to_nat n) (drop (Z.to_nat off) b') = take (Z.to_nat n) src /\
    forall i k, (i + k <= Z.to_nat off \/ Z.to_nat (off + n) <= i) ->
      take k (drop i b') = take k (drop i b).
Proof.
  intros Ho Hn Hb. unfold copy_in. rewrite decide_True by lia. eexists. split; [done|].
  replace (Z.to_nat (off + n)) with (Z.to_nat off + Z.to_nat n) by lia.
  assert (length (take (Z.to_nat off) b) = Z.to_nat off) as L1 by (rewrite length_take; lia).
  assert (length (take (Z.to_nat n) src) = Z.to_nat n) as L2 by (rewrite length_take; lia).
  split_and!.
  - rewrite !length_app, L1, L2, length_drop. lia.
  - rewrite drop_app_ge, L1, Nat.sub_diag, drop_0 by lia. rewrite take_app_le by lia.
    by rewrite take_take, Nat.min_id.
  - intros i k [Hi|Hi].
    + rewrite drop_app_le by lia. rewrite take_app_le by (rewrite length_drop; lia).
      rewrite skipn_firstn_comm, take_take. f_equal. lia.
    + rewrite drop_app_ge by lia. rewrite drop_app_ge by lia. rewrite L1, L2, drop_drop.
      do 2 f_equal. lia.
Qed.

Lemma copy_out_spec b off dst n :
  (0 <= off)%Z -> (0 <= n <= Z.of_nat (length dst))%Z -> (off + n <= Z.of_nat (length b))%Z ->
  copy_out b off dst n =
  Done (take (Z.to_nat n) (drop (Z.to_nat off) b) ++ drop (Z.to_nat n) dst).
Proof. intros. unfold copy_out. by rewrite decide_True by lia. Qed.

Section ring.
(** The sizes of the queue; the product is what is allocated. *)
Context (len num : Z) (name : string).
Context (len_pos : (0 <= len)%Z) (num_pos : (0 < num)%Z) (fits : (len * num < 4294967296)%Z)
  (num_fits : (num < 4294967296)%Z).

(** The slot of the [k]-th message of a ring that is read at [r]. *)
Definition slot_of (r : Z) (k : nat) : Z := ((r + Z.of_nat k) mod num)%Z.
(** The first [n] bytes of a slot. *)
Definition slot_bytes (b : list Z) (i : Z) (n : nat) : list Z := take n (drop (Z.to_nat (i * len)) b).

Record qrep (q : queue_info) (ms : list (list Z)) : Prop := {
  qr_len : qi_msg_len q = len;
  qr_num : qi_msg_num q = num;
  qr_name : qi_name q = name;
  qr_avail : avail_num q = Z.of_nat (length ms);
  qr_full : (Z.of_nat (length ms) <= num)%Z;
  qr_read : (0 <= read_index q < num)%Z;
  qr_write : write_index q = slot_of (read_index q) (length ms);
  qr_slots : exists b, qi_buffer q = Some b /\ Z.of_nat (length b) = (len * num)%Z /\
    forall k m, ms !! k = Some m -> (Z.of_nat (length m) <= len)%Z /\
      slot_bytes b (slot_of (read_index q) k) (length m) = m
}.

Lemma slot_range r k : (0 <= slot_of r k < num)%Z.
Proof. unfold slot_of. apply Z.mod_pos_bound. lia. Qed.

Lemma slot_offset i : (0 <= i < num)%Z -> (u32 (i * len) = i * len /\ i * len + len <= len * num)%Z.
Proof.
  intros Hi. assert (len * (i + 1) <= len * num)%Z by (apply Z.mul_le_mono_nonneg_l; lia).
  assert (0 <= i * len)%Z by (apply Z.mul_nonneg_nonneg; lia). 
  split; [|lia]. apply u32_small. unfold in32. lia.
Qed.

Lemma slot_next r k : slot_of (slot_of r 1) k = slot_of r (S k).
Proof. unfold slot_of. rewrite Z.add_mod_idemp_l by lia. f_equal. lia. Qed.

Lemma slot_distinct r j k :
  (Z.of_nat j < num)%Z -> (Z.of_nat k < num)%Z -> slot_of r j = slot_of r k -> j = k.
Proof.
  unfold slot_of. intros Hj Hk E.
  pose proof (Z.div_mod (r + Z.of_nat j) num ltac:(lia)) as Ej.
  pose proof (Z.div_mod (r + Z.of_nat k) num ltac:(lia)) as Ek. rewrite E in Ej.
  set (a := ((r + Z.of_nat j) / num)%Z) in *. set (b := ((r + Z.of_nat k) / num)%Z) in *.
  destruct (Z.lt_trichotomy a b) as [H|[H|H]]; nia.
Qed.

Lemma next_index_spec q r k :
  qi_msg_num q = num -> next_index q (slot_of r k) = Done (slot_of r (S k)).
Proof.
  intros Hq. unfold next_index. rewrite Hq. destruct (Z.eqb_spec num 0); [lia|].
  pose proof (slot_range r k). rewrite u32_small by (unfold in32; lia).
  unfold slot_of. rewrite Z.add_mod_idemp_l by lia. do 2 f_equal. lia.
Qed.

(** ** Sending *)
Lemma send_spec q ms m :
  qrep q ms -> exists q',
    queue_send m (Z.of_nat (length m)) q =
      Done (if decide (Z.of_nat (length m) <= len /\ Z.of_nat (length ms) < num)%Z
            then OSW_OK else OSW_ERROR, q') /\
    qrep q' (if decide (Z.of_nat (length m) <= len /\ Z.of_nat (length ms) < num)%Z
             then ms ++ [m] else ms).
Proof.
  intros HQ. pose proof HQ as [Hl Hn Hnm Ha Hf Hr Hw (b & Eb & Lb & Hs)]. unfold queue_send.
  rewrite Hl, Hn, Ha. destruct (Z.ltb_spec len (Z.of_nat (length m))).
  { exists q. by rewrite !decide_False by lia. }
  destruct (Z.leb_spec num (Z.of_nat (length ms))).
  { exists q. by rewrite !decide_False by lia. }
  rewrite !decide_True by lia. unfold the_buffer. rewrite Eb. cbn [of_option obind].
  pose proof (slot_range (read_index q) (length ms)) as Hsr.
  destruct (slot_offset _ Hsr) as [Eo Ho]. rewrite Hw, Eo.
  destruct (copy_in_spec b (slot_of (read_index q) (length ms) * len) m (Z.of_nat (length m)))
    as (b' & -> & Lb' & Hnew & Hold); [nia | lia | nia |].
  cbn [obind]. rewrite next_index_spec by done. cbn [obind].
  eexists. split; [done|]. split; cbn [qi_msg_len qi_msg_num qi_buffer write_index read_index
    avail_num qi_name]; try done.
  - rewrite length_app, u32_small by (unfold in32; cbn; lia). cbn. lia.
  - rewrite length_app. cbn. lia.
  - rewrite length_app, Nat.add_1_r. done.
  - exists b'. split; [done|]. split; [lia|]. intros k m'.
    destruct (decide (k = length ms)) as [->|Hk].
    + rewrite lookup_app_r, Nat.sub_diag by lia. intros [= <-]. split; [done|].
      unfold slot_bytes. rewrite Nat2Z.id in Hnew. rewrite Hnew. apply firstn_all.
    + intros Em. assert (k < length ms) as Hkl.
      { apply lookup_lt_Some in Em. rewrite length_app in Em. cbn in Em. lia. }
      rewrite lookup_app_l in Em by done. destruct (Hs k m' Em) as [Hm' E]. split; [done|].
      rewrite <- E at 2. unfold slot_bytes. apply Hold.
      pose proof (slot_range (read_index q) k) as Hkr.
      assert (slot_of (read_index q) k <> slot_of (read_index q) (length ms)) as Hne
        by (intros H'; apply slot_distinct in H'; lia).
      destruct (decide (slot_of (read_index q) k < slot_of (read_index q) (length ms))%Z).
      * left. nia.
      * right. assert ((slot_of (read_index q) (length ms) + 1) * len
          <= slot_of (read_index q) k * len)%Z by nia. lia.
Qed.

(** ** Receiving *)
Lemma take_spec q m ms buf n :
  qrep q (m :: ms) -> (0 <= n <= len)%Z -> (n <= Z.of_nat (length buf))%Z ->
  exists buf' q', take_message buf n q = Done (Some (OSW_OK, buf'), q') /\ qrep q' ms /\
    length buf' = length buf /\ drop (Z.to_nat n) buf' = drop (Z.to_nat n) buf /\
    take (Z.to_nat n `min` length m) buf' = take (Z.to_nat n `min` length m) m.
Proof.
  intros HQ Hn Hb. pose proof HQ as [Hl Hnm Hnam Ha Hf Hr Hw (b & Eb & Lb & Hs)].
  unfold take_message, the_buffer. rewrite Eb. cbn [of_option obind].
  destruct (slot_offset _ Hr) as [Eo Ho]. rewrite Hl, Eo.
  rewrite copy_out_spec by nia. cbn [obind].
  assert (read_index q = slot_of (read_index q) 0) as Hr0
    by (unfold slot_of; rewrite Z.add_0_r; symmetry; by apply Z.mod_small).
  pose proof (next_index_spec q (read_index q) 0 Hnm) as Hnx. rewrite <- Hr0 in Hnx.
  rewrite Hnx. cbn [obind].
  destruct (Hs 0 m eq_refl) as [Hm Hm0]. rewrite <- Hr0 in Hm0.
  assert (Z.to_nat n <= length (drop (Z.to_nat (read_index q * len)) b)) as Hlen
    by (rewrite length_drop; nia).
  eexists _, _. split; [done|]. split_and!.
  - split; cbn [qi_msg_len qi_msg_num qi_buffer write_index read_index avail_num qi_name];
      try done.
    + rewrite Ha. cbn [length]. rewrite u32_small by (unfold in32; cbn [length] in *; lia). lia.
    + cbn [length] in Hf. lia.
    + apply slot_range.
    + rewrite Hw, slot_next. done.
    + exists b. split_and!; [done | done |]. intros k m' Em.
      rewrite slot_next. by apply (Hs (S k)).
  - rewrite length_app, length_take_le by done. rewrite length_drop. lia.
  - rewrite drop_app_ge by (rewrite length_take; lia). rewrite length_take.
    replace (Z.to_nat n - _) with 0 by lia. apply drop_0.
  - rewrite take_app_le by (rewrite length_take; lia). rewrite take_take.
    rewrite <- Hm0 at 3. unfold slot_bytes. rewrite take_take. f_equal. lia.
Qed.
End ring.

(** A send, a receive that does not wait, and one that waits: it is tried again
    when the queue has changed. *)
Inductive qop :=
| Q_send (m : list Z)
| Q_recv (msg_buf : list Z) (msg_len : Z)
| Q_wait (msg_buf : list Z) (msg_len : Z).
Inductive qres := Sent (status : Z) | Got (r : option (Z * list Z)).

Definition run_qop (op : qop) (q : queue_info) : out (qres * queue_info) :=
  match op with
  | Q_send m => let* (st, q) := queue_send m (Z.of_nat (length m)) q in Done (Sent st, q)
  | Q_recv buf n =>
      let* (r, q) := queue_receive [] (0, 0)%Z 0 buf n OSW_NO_WAIT q in Done (Got r, q)
  | Q_wait buf n =>
      let* (r, q) := queue_receive [] (0, 0)%Z 0 buf n OSW_WAIT q in Done (Got r, q)
  end.
Fixpoint run_qops (ops : list qop) (q : queue_info) : out (list qres * queue_info) :=
  match ops with
  | [] => Done ([], q)
  | op :: ops =>
      let* (r, q) := run_qop op q in
      let* (rs, q) := run_qops ops q in Done (r :: rs, q)
  end.

Definition qop_ok (op : qop) : Prop :=
  match op with
  | Q_send _ => True
  | Q_recv buf n | Q_wait buf n => (0 <= n <= Z.of_nat (length buf))%Z
  end.
#[export] Instance qop_ok_dec op : Decision (qop_ok op).
Proof. destruct op; cbn; apply _. Defined.

(** The receiver's buffer: the beginning is the message, as much of it as was
    asked for and fits; behind the slot nothing has changed. *)
Definition filled (len : Z) (m buf : list Z) (n : Z) (buf' : list Z) : Prop :=
  let n := Z.to_nat (Z.min n len) in
  length buf' = length buf /\ drop n buf' = drop n buf /\
  take (n `min` length m) buf' = take (n `min` length m) m.

(** ** A bounded queue of messages *)
Inductive qstep (len num : Z) : list (list Z) -> qop -> qres -> list (list Z) -> Prop :=
| Qs_send ms m :
    (Z.of_nat (length m) <= len)%Z -> (Z.of_nat (length ms) < num)%Z ->
    qstep len num ms (Q_send m) (Sent OSW_OK) (ms ++ [m])
| Qs_refused ms m :
    (len < Z.of_nat (length m))%Z \/ Z.of_nat (length ms) = num ->
    qstep len num ms (Q_send m) (Sent OSW_ERROR) ms
| Qs_recv m ms buf n buf' :
    filled len m buf n buf' ->
    qstep len num (m :: ms) (Q_recv buf n) (Got (Some (OSW_OK, buf'))) ms
| Qs_none buf n : qstep len num [] (Q_recv buf n) (Got (Some (OSW_ERROR, buf))) []
| Qs_waited m ms buf n buf' :
    filled len m buf n buf' ->
    qstep len num (m :: ms) (Q_wait buf n) (Got (Some (OSW_OK, buf'))) ms
| Qs_waits buf n : qstep len num [] (Q_wait buf n) (Got None) [].
Inductive qsteps (len num : Z) : list (list Z) -> list qop -> list qres -> list (list Z) -> Prop :=
| Qss_nil ms : qsteps len num ms [] [] ms
| Qss_cons ms op r ms1 ops rs ms2 :
    qstep len num ms op r ms1 -> qsteps len num ms1 ops rs ms2 ->
    qsteps len num ms (op :: ops) (r :: rs) ms2.

Section ring.
Context (len num : Z) (name : string).
Context (len_pos : (0 <= len)%Z) (num_pos : (0 < num)%Z) (fits : (len * num < 4294967296)%Z)
  (num_fits : (num < 4294967296)%Z).

Lemma receive_taken q m ms buf n :
  qrep len num name q (m :: ms) -> (0 <= n <= Z.of_nat (length buf))%Z ->
  exists buf' q', take_message buf (if (qi_msg_len q <? n)%Z then qi_msg_len q else n) q =
      Done (Some (OSW_OK, buf'), q') /\ qrep len num name q' ms /\ filled len m buf n buf'.
Proof.
  intros HQ Hn. rewrite (qr_len _ _ _ _ _ HQ).
  replace (if (len <? n)%Z then len else n) with (Z.min n len)
    by (destruct (Z.ltb_spec len n); lia).
  destruct (take_spec len num name len_pos num_pos fits num_fits q m ms buf (Z.min n len) HQ)
    as (buf' & q' & E & HQ' & H1 & H2 & H3); [lia | lia |].
  exists buf', q'. unfold filled. auto.
Qed.

Lemma qop_refines op q ms :
  qrep len num name q ms -> qop_ok op ->
  exists r q' ms', run_qop op q = Done (r, q') /\ qstep len num ms op r ms' /\
    qrep len num name q' ms'.
Proof.
  intros HQ Hok. pose proof (qr_avail _ _ _ _ _ HQ) as Ha. destruct op as [m|buf n|buf n]; cbn.
  - destruct (send_spec len num name len_pos num_pos fits num_fits q ms m HQ) as (q' & -> & HQ').
    cbn. pose proof (qr_full _ _ _ _ _ HQ) as Hfull. eexists _, q', _. split; [done|].
    split; [|exact HQ']. case_decide as Hd.
    + destruct Hd. by constructor.
    + apply Qs_refused. lia.
  - unfold queue_receive. cbn [Z.eqb OSW_NO_WAIT OSW_WAIT]. rewrite Ha.
    destruct ms as [|m ms]; cbn [length Z.of_nat Z.eqb].
    + eexists _, q, []. split; [done|]. split; [constructor | done].
    + destruct (receive_taken q m ms buf n HQ Hok) as (buf' & q' & -> & HQ' & Hf).
      eexists _, q', ms. split; [done|]. split; [by constructor | done].
  - unfold queue_receive, wait_for. cbn [Z.eqb OSW_NO_WAIT OSW_WAIT]. rewrite Ha.
    destruct ms as [|m ms]; cbn [length Z.of_nat Z.eqb negb obind].
    + eexists _, q, []. split; [done|]. split; [constructor | done].
    + change (Z.of_nat (S (length ms)) =? 0)%Z with false. cbn [negb obind].
      destruct (receive_taken q m ms buf n HQ Hok) as (buf' & q' & -> & HQ' & Hf).
      eexists _, q', ms. split; [done|]. split; [by constructor | done].
Qed.

Lemma qops_refine : forall ops q ms,
  qrep len num name q ms -> Forall qop_ok ops ->
  exists rs q' ms', run_qops ops q = Done (rs, q') /\ qsteps len num ms ops rs ms' /\
    qrep len num name q' ms'.
Proof.
  induction ops as [|op ops IH]; intros q ms HQ Hok.
  - exists [], q, ms. split_and!; try done. constructor.
  - apply List.Forall_cons_iff in Hok as [Hop Hok].
    destruct (qop_refines op q ms HQ Hop) as (r & q1 & ms1 & E & Hs & HQ1).
    destruct (IH q1 ms1 HQ1 Hok) as (rs & q' & ms' & E' & Hs' & HQ').
    exists (r :: rs), q', ms'. cbn. rewrite E. cbn. rewrite E'. split_and!; try done.
    by econstructor.
Qed.

(** The queue as [create_queue] leaves it. *)
Lemma new_queue b :
  Z.of_nat (length b) = (len * num)%Z ->
  qrep len num name (mk_queue len num (Some b) 0 0 0 name) [].
Proof.
  intros Hb. split; cbn; try lia; try done.
  by exists b.
Qed.

(** C31. A queue whose buffer of [msg_len * msg_num] bytes, fewer than 2^32, was
    allocated is a bounded first-in first-out queue under sends and receives
    without a time limit: a message is accepted while there are fewer than
    [msg_num] and refused otherwise, or if it is too long; every receiver gets
    the oldest message, once; one that finds none is told, or waits.  No access
    is outside the buffer. *)
Theorem queue_fifo (heap : Z -> option (list Z)) (ops : list qop) (b : list Z) :
  heap (u32 (len * num)) = Some b -> Z.of_nat (length b) = (len * num)%Z ->
  String.length name <= QUEUE_NAME_LEN -> Forall qop_ok ops ->
  exists l s q rs q' ms,
    create_queue 0 true heap name len num None queue_base_init = Done (OSW_OK, Some l, s) /\
    item_at s l = Done q /\ run_qops ops q = Done (rs, q') /\
    qsteps len num [] ops rs ms /\ avail_num q' = Z.of_nat (length ms).
Proof.
  intros Hh Hb Hn Hok.
  destruct (qops_refine ops _ [] (new_queue b Hb) Hok) as (rs & q' & ms & E & Hs & HQ).
  eexists _, _, _, rs, q', ms. split; [|split; [|split; [exact E | split; [exact Hs|]]]].
  - unfold create_queue, search_queue, search_named. cbn. rewrite Hh. cbn. done.
  - cbn. rewrite strncpy_short by done. done.
  - apply HQ.
Qed.
End ring.

(** C40. A wait on an empty queue whose time-out, added to the microseconds of
    the second it starts in, makes exactly one second returns a message that
    was never sent: [pthread_cond_timedwait] refuses the time, the receiver
    reads the empty queue, and its count wraps round to 2^32 - 1, so that every
    later message is refused. *)
Theorem timed_wait_breaks (len num : Z) (name : string) (q : queue_info) (tp : Z * Z)
    (rc timeout n : Z) (buf : list Z) :
  (0 <= len)%Z -> (0 < num < 4294967295)%Z -> (len * num < 4294967296)%Z ->
  qrep len num name q [] -> (0 <= n <= Z.of_nat (length buf))%Z ->
  (0 < timeout)%Z -> (tp.2 + timeout * 1000 = 1000000)%Z ->
  exists buf' q', queue_receive [] tp rc buf n timeout q = Done (Some (OSW_OK, buf'), q') /\
    avail_num q' = 4294967295%Z /\
    forall m k, queue_send m k q' = Done (OSW_ERROR, q').
Proof.
  intros Hlen Hnum Hfit HQ Hn Ht Htp. pose proof HQ as [Hl Hm Hnm Ha Hf Hr Hw (b & Eb & Lb & Hs)].
  set (k := if (qi_msg_len q <? n)%Z then qi_msg_len q else n).
  assert (queue_receive [] tp rc buf n timeout q = take_message buf k q) as ->.
  { unfold queue_receive. fold k. rewrite Ha. unfold OSW_NO_WAIT, OSW_WAIT.
    destruct (Z.eqb_spec timeout 0); [lia|]. destruct (Z.eqb_spec timeout (-1)); [lia|].
    unfold deadline. rewrite Htp. reflexivity. }
  assert (0 <= k <= len /\ k <= n)%Z as Hk.
  { unfold k. rewrite Hl. destruct (Z.ltb_spec len n); lia. }
  unfold take_message, the_buffer. rewrite Eb. cbn [of_option obind].
  destruct (slot_offset len num Hlen Hfit _ Hr) as [Eo Ho].
  rewrite Hl, Eo. rewrite copy_out_spec by nia. cbn [obind]. unfold next_index. rewrite Hm.
  destruct (Z.eqb_spec num 0); [lia|]. cbn [obind]. rewrite Ha.
  change (u32 (Z.of_nat (length (@nil (list Z))) - 1)) with 4294967295%Z.
  eexists _, _. split; [done|]. split; [done|]. intros m j. unfold queue_send.
  cbn [qi_msg_len qi_msg_num avail_num]. destruct (len <? j)%Z; [done|].
  destruct (Z.leb_spec num 4294967295); [done | lia].
Qed.

(** The size of the buffer is an [unsigned int]: a queue whose
    [msg_len * msg_num] does not fit gets a smaller buffer, and a message that
    is longer than that is written outside it. *)
Theorem queue_size_wraps (heap : Z -> option (list Z)) (b m : list Z) (len num : Z) (name : string) :
  (0 < num < 4294967296)%Z -> heap (u32 (len * num)) = Some b ->
  Z.of_nat (length b) = u32 (len * num) ->
  (u32 (len * num) < Z.of_nat (length m) <= len)%Z ->
  exists l s q, create_queue 0 true heap name len num None queue_base_init =
      Done (OSW_OK, Some l, s) /\ item_at s l = Done q /\
    queue_send m (Z.of_nat (length m)) q = Fault.
Proof.
  intros Hnum Hh Hb Hm. unfold create_queue, search_queue, search_named. cbn. rewrite Hh. cbn.
  eexists _, _, _. split; [done|]. split; [done|]. unfold queue_send. cbn.
  destruct (Z.ltb_spec len (Z.of_nat (length m))); [lia|].
  destruct (Z.leb_spec num 0); [lia|]. unfold copy_in. rewrite decide_False; [done|].
  change (u32 0) with 0%Z. lia.
Qed.

(** ** At concrete inputs *)
Definition sample_heap (n : Z) : option (list Z) := Some (replicate (Z.to_nat n) 0%Z).
Definition sample_queue : queue_info :=
  mk_queue 2 3 (Some (replicate 6 0%Z)) 0 0 0 "ctrl".
Definition sample_qops : list qop :=
  [Q_send [1; 2]; Q_send [3]; Q_send [4; 5]; Q_send [6; 7]; Q_send [8; 9; 10];
   Q_recv [0; 0; 0] 3; Q_wait [0; 0] 2; Q_send [6; 7]; Q_recv [0] 1; Q_recv [0; 0] 2;
   Q_recv [0; 0] 2; Q_wait [0; 0] 2]%Z.

Example sample_qresults : exists q,
  run_qops sample_qops sample_queue =
  Done ([Sent 0; Sent 0; Sent 0; Sent (-1); Sent (-1); Got (Some (0, [1; 2; 0]));
         Got (Some (0, [3; 0])); Sent 0; Got (Some (0, [4])); Got (Some (0, [6; 7]));
         Got (Some (-1, [0; 0])); Got None]%Z, q).
Proof. eexists. vm_compute. reflexivity. Qed.

Lemma sample_qrep : qrep 2 3 "ctrl" sample_queue [].
Proof. by apply new_queue. Qed.

Lemma queue_fifo_witness :
  exists l s q rs q' ms,
    create_queue 0 true sample_heap "ctrl" 2 3 None queue_base_init = Done (OSW_OK, Some l, s) /\
    item_at s l = Done q /\ run_qops sample_qops q = Done (rs, q') /\
    qsteps 2 3 [] sample_qops rs ms /\ avail_num q' = Z.of_nat (length ms).
Proof.
  apply (queue_fifo 2 3 "ctrl") with (b := replicate 6 0%Z); try done.
  - unfold QUEUE_NAME_LEN. cbn. lia.
  - apply (bool_decide_unpack _). vm_compute. exact I.
Defined.

Lemma timed_wait_breaks_witness :
  exists buf' q',
    queue_receive [] (1000, 400000)%Z 0 [0; 0]%Z 2 600 sample_queue = Done (Some (OSW_OK, buf'), q') /\
    avail_num q' = 4294967295%Z /\ forall m k, queue_send m k q' = Done (OSW_ERROR, q').
Proof.
  apply (timed_wait_breaks 2 3 "ctrl"); try done. exact sample_qrep.
Defined.

Lemma queue_size_wraps_witness :
  exists l s q, create_queue 0 true sample_heap "big" 65536 65536 None queue_base_init =
      Done (OSW_OK, Some l, s) /\ item_at s l = Done q /\
    queue_send [1]%Z 1 q = Fault.
Proof. by apply (queue_size_wraps sample_heap [] [1]%Z). Defined.
