(* ===== verification/RtQueue.v ===== *)
(** * Retransmission on the server: [data_handler/src/retransmit_interface.c]

    The server keeps the requests it waits for in the dictionary of a Python
    class, [data_handler/python/retransmit_handler.py]; what it needs to send
    one again is a C structure the dictionary's entry points at.  The lock of
    the class is held while the dictionary is used, and released while the
    requesters of expired messages are called back.  The counts of references
    of the Python objects are not modelled. *)
From stdpp Require Import gmap.
From S2P Require Export DpsTypes.

(** [rc_address] is the 16 or 28 bytes of the socket address. *)
Record dps_retransmit_context_t := mk_rt_context {
  rc_family : Z; rc_sock_fd : Z; rc_address : list Z; rc_query_id : Z; rc_context : Z;
  rc_callback_function : Z; rc_owner_type : Z; rc_data : list Z }.

(** An entry of [Query_ID_Hash]: the address of the structure, the
    transmissions that remain and the size. *)
Record msg_tuple := mk_msg_tuple { mt_msg : nat; mt_count : Z; mt_size : Z }.

Inductive rq_event :=
| Rq_sendto (sock_fd : Z) (data : list Z) (address : list Z).

(** [rq_contexts] are the structures that are allocated. *)
Record rt_queue := mk_rt_queue {
  Query_ID_Hash : gmap Z msg_tuple; msg_size_total : Z; retransmit_total : Z;
  rq_contexts : gmap nat dps_retransmit_context_t; rq_mallocs : nat }.

Definition max_retransmit : Z := 3.
Definition max_queue_len : Z := 8192.

Definition rt_queue0 : rt_queue := mk_rt_queue ∅ 0 0 ∅ 0.

(** ** The dictionary *)
Definition Queue (query_id : Z) (msg : nat) (msg_size : Z) (s : rt_queue) : Z * rt_queue :=
  if decide (max_queue_len < Z.of_nat (size (Query_ID_Hash s)))%Z then ((-1)%Z, s)
  else
    match Query_ID_Hash s !! query_id with
    | Some _ => ((-1)%Z, s)
    | None =>
        (0%Z, mk_rt_queue (<[query_id := mk_msg_tuple msg max_retransmit msg_size]> (Query_ID_Hash s))
                (msg_size_total s + msg_size) (retransmit_total s) (rq_contexts s) (rq_mallocs s))
    end.

Definition DeQueue (query_id : Z) (s : rt_queue) : Z * option nat * rt_queue :=
  match Query_ID_Hash s !! query_id with
  | Some t =>
      (0%Z, Some (mt_msg t),
        mk_rt_queue (delete query_id (Query_ID_Hash s)) (msg_size_total s - mt_size t)
          (retransmit_total s) (rq_contexts s) (rq_mallocs s))
  | None => ((-1)%Z, None, s)
  end.

(** ** The structures *)
Definition context_at (s : rt_queue) (l : nat) : out dps_retransmit_context_t :=
  of_option (rq_contexts s !! l).
Definition free_context (l : nat) (s : rt_queue) : out rt_queue :=
  let* _ := context_at s l in
  Done (mk_rt_queue (Query_ID_Hash s) (msg_size_total s) (retransmit_total s)
          (delete l (rq_contexts s)) (rq_mallocs s)).

(** What is sent again; an address of another family is not. *)
Definition retransmit_data (l : nat) (s : rt_queue) : out (list rq_event) :=
  let* c := context_at s l in
  Done (if ((rc_family c =? AF_INET) || (rc_family c =? AF_INET6))%Z
        then [Rq_sendto (rc_sock_fd c) (rc_data c) (rc_address c)] else []).

(** [malloc_ok] is whether the structure, [python_ok] whether the Python
    objects can be allocated.  [memcpy] takes 16 bytes of an IPv4 address and
    28 of any other. *)
Definition retransmit_timer_start (malloc_ok python_ok : bool) (data : list Z) (query_id sockFd : Z)
    (sa_family : Z) (addr : list Z) (context callback owner : Z) (s : rt_queue)
    : out (Z * rt_queue) :=
  if (sockFd <? 0)%Z then Done ((-1)%Z, s)
  else if negb malloc_ok then
    Done ((-1)%Z, mk_rt_queue (Query_ID_Hash s) (msg_size_total s) (retransmit_total s)
                    (rq_contexts s) (S (rq_mallocs s)))
  else
    let len := if (sa_family =? AF_INET)%Z then 16 else 28 in
    if decide (length addr < len) then Fault
    else
      let l := rq_mallocs s in
      let c := mk_rt_context sa_family sockFd (take len addr) query_id context callback owner data in
      let s := mk_rt_queue (Query_ID_Hash s) (msg_size_total s) (retransmit_total s)
                 (<[l := c]> (rq_contexts s)) (S l) in
      let '(status, s) :=
        if python_ok then Queue query_id l (Z.of_nat (length data)) s else ((-1)%Z, s) in
      if (status =? 0)%Z then Done (status, s)
      else let* s := free_context l s in Done (status, s).

(** The context of the request, [pcontext] if there is none. *)
Definition retransmit_timer_stop (query_id pcontext : Z) (s : rt_queue) : out (Z * Z * rt_queue) :=
  let '(status, msg, s) := DeQueue query_id s in
  if negb (status =? 0)%Z then Done (status, pcontext, s)
  else
    match msg with
    | None => Done ((-1)%Z, pcontext, s)
    | Some l =>
        let* c := context_at s l in
        let* s := free_context l s in
        Done (status, rc_context c, s)
    end.

(** ** The routine of the timer, every five seconds

    [order] is the order of the keys of a dictionary. *)
Section routine.
Context (order : list Z -> list Z).

Fixpoint retransmit_keys (keys : list Z) (s : rt_queue) : out (list rq_event * list nat * rt_queue) :=
  match keys with
  | [] => Done ([], [], s)
  | key :: keys =>
      match Query_ID_Hash s !! key with
      | None => retransmit_keys keys s
      | Some t =>
          if (mt_count t =? 0)%Z then
            let* (ev, expired, s) :=
              retransmit_keys keys
                (mk_rt_queue (delete key (Query_ID_Hash s)) (msg_size_total s - mt_size t)
                   (retransmit_total s) (rq_contexts s) (rq_mallocs s)) in
            Done (ev, mt_msg t :: expired, s)
          else
            let* sent := retransmit_data (mt_msg t) s in
            let* (ev, expired, s) :=
              retransmit_keys keys
                (mk_rt_queue
                   (<[key := mk_msg_tuple (mt_msg t) (mt_count t - 1) (mt_size t)]> (Query_ID_Hash s))
                   (msg_size_total s) (retransmit_total s + 1) (rq_contexts s) (rq_mallocs s)) in
            Done (sent ++ ev, expired, s)
      end
  end.

(** The first part: what is sent, and the messages that expire. *)
Definition Timer_Routine (s : rt_queue) : out (list rq_event * list nat * rt_queue) :=
  retransmit_keys (order (elements (dom (Query_ID_Hash s)))) s.
End routine.
