(* ===== verification/RtSpec.v ===== *)
(** * The retransmission queue of the server is a map from query ids to requests *)
From stdpp Require Import gmap.
From S2P Require Export RtQueue.

(** The requests that wait, with the transmissions that remain. *)
Abbreviation requests := (gmap Z (dps_retransmit_context_t * Z)).

(** The queue [s] holds the requests [p]; the structures [X] have expired, are
    in the dictionary no longer and not yet freed.  Nothing else is allocated,
    and every structure is as [P] says. *)
Record rtrep (P : dps_retransmit_context_t -> Prop) (s : rt_queue) (p : requests) (X : list nat)
    : Prop := {
  rr_entry q t : Query_ID_Hash s !! q = Some t -> exists c,
    rq_contexts s !! mt_msg t = Some c /\ p !! q = Some (c, mt_count t);
  rr_none q : Query_ID_Hash s !! q = None -> p !! q = None;
  rr_inj q q' t t' : Query_ID_Hash s !! q = Some t -> Query_ID_Hash s !! q' = Some t' ->
    mt_msg t = mt_msg t' -> q = q';
  rr_expired l : l ∈ X -> is_Some (rq_contexts s !! l) /\
    forall q t, Query_ID_Hash s !! q = Some t -> mt_msg t <> l;
  rr_nodup : NoDup X;
  rr_owned l c : rq_contexts s !! l = Some c ->
    P c /\ l < rq_mallocs s /\ (l ∈ X \/ exists q t, Query_ID_Hash s !! q = Some t /\ mt_msg t = l)
}.

Definition resend (c : dps_retransmit_context_t) : list rq_event :=
  if ((rc_family c =? AF_INET) || (rc_family c =? AF_INET6))%Z
  then [Rq_sendto (rc_sock_fd c) (rc_data c) (rc_address c)] else [].

(** Five seconds later. *)
Definition age (x : dps_retransmit_context_t * Z) : option (dps_retransmit_context_t * Z) :=
  if (x.2 =? 0)%Z then None else Some (x.1, x.2 - 1)%Z.
Definition resent (p : requests) (q : Z) : list rq_event :=
  match p !! q with Some (c, n) => if (n =? 0)%Z then [] else resend c | None => [] end.
Definition expiring (p : requests) (q : Z) : option dps_retransmit_context_t :=
  match p !! q with Some (c, n) => if (n =? 0)%Z then Some c else None | None => None end.

Section spec.
Context (P : dps_retransmit_context_t -> Prop).

Lemma rtrep_init : rtrep P rt_queue0 ∅ [].
Proof.
  split; cbn; try done.
  - intros l H. by apply elem_of_nil in H.
  - constructor.
Qed.

Lemma rtrep_dom s p X : rtrep P s p X -> dom (Query_ID_Hash s) = dom p.
Proof.
  intros HR. apply set_eq. intros q. rewrite !elem_of_dom. split.
  - intros [t Et]. destruct (rr_entry _ _ _ _ HR q t Et) as (c & _ & E). by rewrite E.
  - intros Hp. destruct (Query_ID_Hash s !! q) eqn:E; [done|].
    rewrite (rr_none _ _ _ _ HR q E) in Hp. by destruct Hp.
Qed.

#[export] Instance rtrep_perm s p : Proper ((≡ₚ) ==> iff) (rtrep P s p).
Proof.
  assert (forall X Y, X ≡ₚ Y -> rtrep P s p X -> rtrep P s p Y) as H.
  { intros X Y HXY HR. split; try apply HR.
    - intros l Hl. apply (rr_expired _ _ _ _ HR). by rewrite HXY.
    - rewrite <- HXY. apply HR.
    - intros l c Ec. destruct (rr_owned _ _ _ _ HR l c Ec) as (H1 & H2 & H3).
      split_and!; try done. by rewrite <- HXY. }
  intros X Y HXY. split; by apply H.
Qed.

(** An expired structure is freed. *)
Lemma free_spec s p l X :
  rtrep P s p (l :: X) -> exists c s', rq_contexts s !! l = Some c /\ P c /\
    free_context l s = Done s' /\ rtrep P s' p X /\
    Query_ID_Hash s' = Query_ID_Hash s /\ rq_contexts s' = delete l (rq_contexts s).
Proof.
  intros HR. destruct (rr_expired _ _ _ _ HR l ltac:(by left)) as [[c Ec] Hl].
  pose proof (rr_nodup _ _ _ _ HR) as Hnd. apply list.NoDup_cons in Hnd as [HlX Hnd].
  destruct (rr_owned _ _ _ _ HR l c Ec) as (HP & _).
  exists c. unfold free_context, context_at. rewrite Ec. eexists. split; [done|]. split; [done|].
  split; [done|]. split; [|done]. split; cbn; try apply HR; try done.
  - intros q t Et. destruct (rr_entry _ _ _ _ HR q t Et) as (c' & Ec' & E). exists c'.
    split; [|done]. rewrite lookup_delete_ne; [done|]. intros Hm. by apply (Hl q t).
  - intros k Hk. destruct (rr_expired _ _ _ _ HR k ltac:(by right)) as [H1 H2]. split; [|done].
    rewrite lookup_delete_ne; [done|]. by intros ->.
  - intros k c' [Hk Ec']%lookup_delete_Some. destruct (rr_owned _ _ _ _ HR k c' Ec') as (H1 & H2 & H3).
    split_and!; try done. destruct H3 as [H3|H3]; [|by right].
    apply elem_of_cons in H3 as [->|H3]; [done | by left].
Qed.

(** An entry leaves the dictionary. *)
Lemma unlist_spec s p X q t n :
  rtrep P s p X -> Query_ID_Hash s !! q = Some t ->
  rtrep P (mk_rt_queue (delete q (Query_ID_Hash s)) n (retransmit_total s) (rq_contexts s)
             (rq_mallocs s)) (delete q p) (mt_msg t :: X).
Proof.
  intros HR Et. destruct (rr_entry _ _ _ _ HR q t Et) as (c & Ec & Ep). split; cbn.
  - intros q' t' [Hq Et']%lookup_delete_Some. destruct (rr_entry _ _ _ _ HR q' t' Et') as (c' & H).
    exists c'. by rewrite lookup_delete_ne.
  - intros q'. rewrite lookup_delete_None. intros [->|H]; [by rewrite lookup_delete_eq|].
    rewrite lookup_delete_None. right. by apply (rr_none _ _ _ _ HR).
  - intros q1 q2 t1 t2 [_ H1]%lookup_delete_Some [_ H2]%lookup_delete_Some.
    by apply (rr_inj _ _ _ _ HR).
  - intros l [->|Hl]%elem_of_cons.
    + split; [by rewrite Ec|]. intros q' t' [Hq Et']%lookup_delete_Some Hm.
      apply Hq. symmetry. by apply (rr_inj _ _ _ _ HR q' q t' t).
    + destruct (rr_expired _ _ _ _ HR l Hl) as [H1 H2]. split; [done|].
      intros q' t' [_ Et']%lookup_delete_Some. by apply (H2 q').
  - apply list.NoDup_cons. split; [|by apply (rr_nodup _ _ _ _ HR)]. intros Hm.
    destruct (rr_expired _ _ _ _ HR _ Hm) as [_ H]. by apply (H q t).
  - intros l c' Ec'. destruct (rr_owned _ _ _ _ HR l c' Ec') as (H1 & H2 & [H3|(q' & t' & H3 & H4)]).
    + split_and!; try done. left. by right.
    + split_and!; try done. destruct (decide (q' = q)) as [->|Hq].
      * left. assert (t' = t) as -> by congruence. subst. by left.
      * right. exists q', t'. by rewrite lookup_delete_ne.
Qed.

(** An entry counts down. *)
Lemma count_down_spec s p X q t n c k :
  rtrep P s p X -> Query_ID_Hash s !! q = Some t -> rq_contexts s !! mt_msg t = Some c ->
  rtrep P (mk_rt_queue (<[q := mk_msg_tuple (mt_msg t) n (mt_size t)]> (Query_ID_Hash s))
             (msg_size_total s) k (rq_contexts s) (rq_mallocs s)) (<[q := (c, n)]> p) X.
Proof.
  intros HR Et Ec. split; cbn.
  - intros q' t'. destruct (decide (q' = q)) as [->|Hq].
    + rewrite !lookup_insert_eq. intros [= <-]. by exists c.
    + rewrite !lookup_insert_ne by done. apply (rr_entry _ _ _ _ HR).
  - intros q'. rewrite !lookup_insert_None. intros [H Hq]. split; [by apply (rr_none _ _ _ _ HR) | done].
  - intros q1 q2 t1 t2 H1 H2 Hm.
    assert (forall q' t', <[q := mk_msg_tuple (mt_msg t) n (mt_size t)]> (Query_ID_Hash s) !! q' = Some t' ->
      exists t0, Query_ID_Hash s !! q' = Some t0 /\ mt_msg t0 = mt_msg t') as Hold.
    { intros q' t'. destruct (decide (q' = q)) as [->|Hq].
      - rewrite lookup_insert_eq. intros [= <-]. by exists t.
      - rewrite lookup_insert_ne by done. by exists t'. }
    destruct (Hold _ _ H1) as (t1' & E1 & M1), (Hold _ _ H2) as (t2' & E2 & M2).
    apply (rr_inj _ _ _ _ HR q1 q2 t1' t2' E1 E2). congruence.
  - intros l Hl. destruct (rr_expired _ _ _ _ HR l Hl) as [H1 H2]. split; [done|].
    intros q' t'. destruct (decide (q' = q)) as [->|Hq].
    + rewrite lookup_insert_eq. intros [= <-]. exact (H2 q t Et).
    + rewrite lookup_insert_ne by done. by apply (H2 q').
  - apply (rr_nodup _ _ _ _ HR).
  - intros l c' Ec'. destruct (rr_owned _ _ _ _ HR l c' Ec') as (H1 & H2 & H3). split_and!; try done.
    destruct H3 as [H3|(q' & t' & H3 & H4)]; [by left|]. right. exists q'.
    destruct (decide (q' = q)) as [->|Hq].
    + rewrite lookup_insert_eq. eexists. split; [done|]. cbn. congruence.
    + exists t'. by rewrite lookup_insert_ne.
Qed.

(** ** The operations *)

(** What a start puts in the queue. *)
Definition new_context (data : list Z) (query_id sockFd sa_family : Z) (addr : list Z)
    (context callback owner : Z) : dps_retransmit_context_t :=
  mk_rt_context sa_family sockFd (take (if (sa_family =? AF_INET)%Z then 16 else 28) addr) query_id
    context callback owner data.

(** Whether a start is accepted. *)
Definition accepts (ok : bool) (sockFd query_id : Z) (p : requests) : bool :=
  ok && bool_decide (0 <= sockFd /\ Z.of_nat (size p) <= max_queue_len)%Z
  && bool_decide (p !! query_id = None).

Lemma rtrep_size s p X : rtrep P s p X -> size (Query_ID_Hash s) = size p.
Proof. intros HR. rewrite <- !size_dom. by rewrite (rtrep_dom s p X). Qed.

Lemma rtrep_lookup s p X q : rtrep P s p X ->
  Query_ID_Hash s !! q = None <-> p !! q = None.
Proof. intros HR. rewrite <- !not_elem_of_dom. by rewrite (rtrep_dom s p X). Qed.

(** A structure that is not in the dictionary is like one that has expired. *)
Lemma alloc_spec s p X c :
  rtrep P s p X -> P c ->
  let l := rq_mallocs s in
  rtrep P (mk_rt_queue (Query_ID_Hash s) (msg_size_total s) (retransmit_total s)
             (<[l := c]> (rq_contexts s)) (S l)) p (l :: X) /\ rq_contexts s !! l = None.
Proof.
  intros HR Hc l.
  assert (rq_contexts s !! l = None) as El.
  { destruct (rq_contexts s !! l) as [c'|] eqn:E; [|done].
    destruct (rr_owned _ _ _ _ HR l c' E) as (_ & H & _). unfold l in H. lia. }
  assert (forall k, is_Some (rq_contexts s !! k) -> k <> l) as Hne
    by (intros k [? Hk] ->; congruence).
  split; [|done]. split; cbn; try apply HR.
  - intros q t Et. destruct (rr_entry _ _ _ _ HR q t Et) as (c' & Ec & Ep). exists c'.
    split; [|done]. rewrite lookup_insert_ne; [done|]. intros H. congruence.
  - intros k [->|Hk]%elem_of_cons.
    + rewrite lookup_insert_eq. split; [done|]. intros q t Et Hm.
      destruct (rr_entry _ _ _ _ HR q t Et) as (c' & Ec & _). congruence.
    + destruct (rr_expired _ _ _ _ HR k Hk) as [H1 H2]. split; [|done].
      rewrite lookup_insert_ne; [done|]. by apply not_eq_sym, Hne.
  - apply list.NoDup_cons. split; [|apply HR]. intros Hl.
    destruct (rr_expired _ _ _ _ HR l Hl) as [[? H] _]. congruence.
  - intros k c'. destruct (decide (k = l)) as [->|Hk].
    + rewrite lookup_insert_eq. intros [= <-]. split_and!; [done | lia | left; by left].
    + rewrite lookup_insert_ne by done. intros Ec. destruct (rr_owned _ _ _ _ HR k c' Ec) as (H1 & H2 & H3).
      split_and!; [done | unfold l; lia |]. destruct H3; [left; by right | by right].
Qed.

(** An allocated structure enters the dictionary. *)
Lemma enter_spec s p X l c q n m k :
  rtrep P s p (l :: X) -> rq_contexts s !! l = Some c -> p !! q = None ->
  rtrep P (mk_rt_queue (<[q := mk_msg_tuple l n m]> (Query_ID_Hash s)) k (retransmit_total s)
             (rq_contexts s) (rq_mallocs s)) (<[q := (c, n)]> p) X.
Proof.
  intros HR Ec Hq. pose proof (proj2 (rtrep_lookup s p _ q HR) Hq) as Eq.
  destruct (rr_expired _ _ _ _ HR l ltac:(by left)) as [_ Hl].
  pose proof (rr_nodup _ _ _ _ HR) as Hnd. apply list.NoDup_cons in Hnd as [HlX Hnd]. split; cbn.
  - intros q' t'. destruct (decide (q' = q)) as [->|Hne].
    + rewrite !lookup_insert_eq. intros [= <-]. by exists c.
    + rewrite !lookup_insert_ne by done. apply (rr_entry _ _ _ _ HR).
  - intros q'. rewrite !lookup_insert_None. intros [H Hne]. split; [by apply (rr_none _ _ _ _ HR) | done].
  - intros q1 q2 t1 t2. destruct (decide (q1 = q)) as [->|H1], (decide (q2 = q)) as [->|H2];
      rewrite ?lookup_insert_eq, ?lookup_insert_ne by done; [done | | | apply (rr_inj _ _ _ _ HR)].
    + intros [= <-] E2 Hm. by destruct (Hl q2 t2 E2).
    + intros E1 [= <-] Hm. by destruct (Hl q1 t1 E1).
  - intros k' Hk. destruct (rr_expired _ _ _ _ HR k' ltac:(by right)) as [H1 H2]. split; [done|].
    intros q' t'. destruct (decide (q' = q)) as [->|Hne].
    + rewrite lookup_insert_eq. intros [= <-]. cbn. by intros ->.
    + rewrite lookup_insert_ne by done. apply H2.
  - done.
  - intros k' c' Ec'. destruct (rr_owned _ _ _ _ HR k' c' Ec') as (H1 & H2 & H3). split_and!; try done.
    destruct H3 as [[->|H3]%elem_of_cons|(q' & t' & E' & M')]; [| by left |].
    + right. exists q. eexists. by rewrite lookup_insert_eq.
    + right. exists q', t'. rewrite lookup_insert_ne; [done|]. intros <-. congruence.
Qed.

Lemma timer_start_spec malloc_ok python_ok data q fd family addr context callback owner s p X :
  rtrep P s p X -> (if (family =? AF_INET)%Z then 16 else 28) <= length addr ->
  let c := new_context data q fd family addr context callback owner in
  P c -> exists s',
  retransmit_timer_start malloc_ok python_ok data q fd family addr context callback owner s =
    Done (if accepts (malloc_ok && python_ok) fd q p then 0%Z else (-1)%Z, s') /\
  rtrep P s' (if accepts (malloc_ok && python_ok) fd q p then <[q := (c, max_retransmit)]> p else p) X.
Proof.
  intros HR Hlen c HP. unfold retransmit_timer_start, accepts.
  destruct (Z.ltb_spec fd 0) as [Hfd|Hfd].
  { rewrite (bool_decide_eq_false_2 (_ /\ _)) by lia. rewrite andb_false_r. by exists s. }
  destruct malloc_ok; cbn [negb andb].
  2: { eexists. split; [done|]. split; cbn; try apply HR. intros l c' E.
    destruct (rr_owned _ _ _ _ HR l c' E) as (H1 & H2 & H3). split_and!; [done | lia | done]. }
  rewrite decide_False by lia. fold (new_context data q fd family addr context callback owner). fold c.
  destruct (alloc_spec s p X c HR HP) as [HR1 _].
  set (s1 := mk_rt_queue _ _ _ _ _) in *.
  destruct (free_spec s1 p _ X HR1) as (c1 & s2 & _ & _ & E2 & HR2 & _).
  assert (rq_contexts s1 !! rq_mallocs s = Some c) as Ec by (cbn; by rewrite lookup_insert_eq).
  destruct python_ok; cbn [andb]; [|rewrite E2; by exists s2].
  unfold Queue. cbn [Query_ID_Hash s1]. rewrite (rtrep_size s p X HR).
  destruct (decide (max_queue_len < Z.of_nat (size p))%Z) as [Hz|Hz].
  { rewrite (bool_decide_eq_false_2 (_ /\ _)) by lia. cbn -[free_context]. rewrite E2. by exists s2. }
  rewrite (bool_decide_eq_true_2 (_ /\ _)) by lia. cbn [andb].
  destruct (Query_ID_Hash s !! q) as [t|] eqn:Eq.
  - destruct (rr_entry _ _ _ _ HR q t Eq) as (c' & _ & Ep). rewrite Ep.
    rewrite bool_decide_eq_false_2 by done. cbn -[free_context]. rewrite E2. by exists s2.
  - pose proof (rr_none _ _ _ _ HR q Eq) as Ep. rewrite Ep. rewrite bool_decide_eq_true_2 by done.
    cbn [Z.eqb]. eexists. split; [done|]. by apply (enter_spec s1 p X _ c q).
Qed.

Lemma timer_stop_spec q pcontext s p X :
  rtrep P s p X -> exists s',
  retransmit_timer_stop q pcontext s =
    Done (match p !! q with Some (c, _) => (0%Z, rc_context c, s') | None => ((-1)%Z, pcontext, s') end) /\
  rtrep P s' (delete q p) X.
Proof.
  intros HR. unfold retransmit_timer_stop, DeQueue. destruct (Query_ID_Hash s !! q) as [t|] eqn:Eq.
  - destruct (rr_entry _ _ _ _ HR q t Eq) as (c & Ec & Ep). cbn -[free_context context_at].
    pose proof (unlist_spec s p X q t (msg_size_total s - mt_size t) HR Eq) as HR1.
    destruct (free_spec _ _ _ _ HR1) as (c1 & s2 & Ec1 & _ & E2 & HR2 & _).
    unfold context_at. cbn [rq_contexts]. rewrite Ec. cbn [of_option obind].
    rewrite E2. cbn [obind]. rewrite Ep. by exists s2.
  - pose proof (rr_none _ _ _ _ HR q Eq) as Ep. rewrite Ep. exists s. split; [done|].
    by rewrite delete_id.
Qed.

(** ** The routine of the timer *)
Lemma keys_spec keys : forall s p X,
  NoDup keys -> rtrep P s p X -> exists s' xs p',
  retransmit_keys keys s = Done (flat_map (resent p) keys, xs, s') /\
  rtrep P s' p' (xs ++ X) /\
  (forall q, p' !! q = if decide (q ∈ keys) then x ← p !! q; age x else p !! q) /\
  Forall2 (fun l c => rq_contexts s !! l = Some c) xs (omap (expiring p) keys) /\
  rq_contexts s' = rq_contexts s.
Proof.
  induction keys as [|q keys IH]; intros s p X Hnd HR; cbn [retransmit_keys flat_map omap list_omap].
  { exists s, [], p. by split_and!. }
  apply list.NoDup_cons in Hnd as [Hq Hnd].
  assert (forall (p2 : requests) k, k ∈ keys -> (forall q', q' <> q -> p2 !! q' = p !! q') ->
    resent p2 k = resent p k /\ expiring p2 k = expiring p k) as Hsame.
  { intros p2 k Hk H. unfold resent, expiring. by rewrite H by (by intros ->). }
  assert (forall (p2 : requests), (forall q', q' <> q -> p2 !! q' = p !! q') ->
    flat_map (resent p2) keys = flat_map (resent p) keys /\
    omap (expiring p2) keys = omap (expiring p) keys) as Hrest.
  { intros p2 H. clear - Hsame H. induction keys as [|k ks IH]; [done|].
    destruct IH as [I1 I2]; [intros p3 k' Hk; by apply Hsame; right|].
    destruct (Hsame p2 k ltac:(by left) H) as [S1 S2]. cbn. by rewrite S1, S2, I1, I2. }
  destruct (Query_ID_Hash s !! q) as [t|] eqn:Et.
  - destruct (rr_entry _ _ _ _ HR q t Et) as (c & Ec & Ep).
    unfold resent at 1, expiring at 1. rewrite Ep.
    destruct (Z.eqb_spec (mt_count t) 0) as [H0|H0].
    + pose proof (unlist_spec s p X q t (msg_size_total s - mt_size t) HR Et) as HR1.
      destruct (IH _ _ _ Hnd HR1) as (s' & xs & p' & E & HR' & Hp' & Hxs & Hc).
      destruct (Hrest (delete q p)) as [Hr1 Hr2]; [intros q' Hq'; by rewrite lookup_delete_ne|].
      rewrite Hr1 in E. rewrite Hr2 in Hxs. rewrite E. cbn [obind app].
      exists s', (mt_msg t :: xs), p'. split_and!; [done | | | by constructor | done].
      * cbn [app]. by rewrite Permutation_middle.
      * intros q'. rewrite Hp'. destruct (decide (q' = q)) as [->|Hne].
        -- rewrite decide_False by done. rewrite decide_True by (by left).
           rewrite lookup_delete_eq, Ep. unfold age. cbn. by rewrite H0.
        -- rewrite lookup_delete_ne by done. apply decide_ext. set_solver.
    + unfold retransmit_data, context_at. rewrite Ec. cbn [of_option obind]. fold (resend c).
      pose proof (count_down_spec s p X q t (mt_count t - 1) c (retransmit_total s + 1) HR Et Ec) as HR1.
      destruct (IH _ _ _ Hnd HR1) as (s' & xs & p' & E & HR' & Hp' & Hxs & Hc).
      destruct (Hrest (<[q := (c, (mt_count t - 1)%Z)]> p)) as [Hr1 Hr2];
        [intros q' Hq'; by rewrite lookup_insert_ne|].
      rewrite Hr1 in E. rewrite Hr2 in Hxs. rewrite E. cbn [obind].
      exists s', xs, p'. split_and!; [done | done | | done | done].
      intros q'. rewrite Hp'. destruct (decide (q' = q)) as [->|Hne].
      * rewrite decide_False by done. rewrite decide_True by (by left).
        rewrite lookup_insert_eq, Ep. unfold age. cbn.
        by rewrite (proj2 (Z.eqb_neq _ _) H0).
      * rewrite lookup_insert_ne by done. apply decide_ext. set_solver.
  - pose proof (rr_none _ _ _ _ HR q Et) as Ep.
    destruct (IH s p X Hnd HR) as (s' & xs & p' & E & HR' & Hp' & Hxs & Hc).
    exists s', xs, p'. unfold resent at 1, expiring at 1. rewrite Ep. cbn [app].
    split_and!; try done. intros q'. rewrite Hp'. destruct (decide (q' = q)) as [->|Hne].
    + rewrite decide_False by done. rewrite decide_True by (by left). by rewrite Ep.
    + apply decide_ext. set_solver.
Qed.

(** All requests are older by one period. *)
Definition older (p : requests) : requests := omap age p.

Lemma routine_spec order s p X :
  (forall ks, order ks ≡ₚ ks) -> rtrep P s p X -> exists s' xs,
  let keys := order (elements (dom p)) in
  Timer_Routine order s = Done (flat_map (resent p) keys, xs, s') /\
  rtrep P s' (older p) (xs ++ X) /\
  Forall2 (fun l c => rq_contexts s' !! l = Some c) xs (omap (expiring p) keys).
Proof.
  intros Ho HR. set (keys := order (elements (dom p))).
  assert (NoDup keys) as Hnd by (unfold keys; rewrite Ho; apply NoDup_elements).
  destruct (keys_spec keys s p X Hnd HR) as (s' & xs & p' & E & HR' & Hp' & Hxs & Hc).
  exists s', xs. unfold Timer_Routine. rewrite (rtrep_dom s p X HR).
  split_and!; [done | | by rewrite Hc].
  replace (older p) with p'; [done|]. apply map_eq. intros q. unfold older. rewrite Hp', lookup_omap.
  case_decide as Hq; [done|]. unfold keys in Hq. rewrite Ho, elem_of_elements in Hq.
  apply not_elem_of_dom in Hq. by rewrite Hq.
Qed.

(** Nothing is allocated but what waits. *)
Lemma rtrep_contexts s p : rtrep P s p [] -> size (rq_contexts s) = size p.
Proof.
  intros HR. set (f q := from_option mt_msg 0 (Query_ID_Hash s !! q)).
  set (keys := elements (dom (Query_ID_Hash s))).
  assert (forall q, q ∈ keys <-> is_Some (Query_ID_Hash s !! q)) as Hin
    by (intros q; unfold keys; by rewrite elem_of_elements, elem_of_dom).
  assert (NoDup (f <$> keys)) as Hnd.
  { apply NoDup_fmap_2_strong; [|apply NoDup_elements]. intros q q' [t Et]%Hin [t' Et']%Hin.
    unfold f. rewrite Et, Et'. cbn. by apply (rr_inj _ _ _ _ HR). }
  rewrite <- (rtrep_size s p [] HR), <- !size_dom.
  transitivity (length (f <$> keys)); [|by rewrite length_fmap].
  rewrite <- (size_list_to_set (C := gset nat)) by done. f_equal. apply set_eq. intros l.
  rewrite elem_of_dom, elem_of_list_to_set, list_elem_of_fmap. split.
  - intros [c Ec]. destruct (rr_owned _ _ _ _ HR l c Ec) as (_ & _ & [H|(q & t & Et & Em)]).
    { by apply elem_of_nil in H. }
    exists q. unfold f. rewrite Et. split; [done|]. by apply Hin.
  - intros (q & -> & [t Et]%Hin). unfold f. rewrite Et. cbn.
    destruct (rr_entry _ _ _ _ HR q t Et) as (c & Ec & _). by exists c.
Qed.
End spec.
