(* ===== verification/SvrCtrl.v ===== *)
(** * The network side of the server: [dps_svr_ctrl.c]

    One socket: requests arrive at it and answers leave from it.  What the
    server asks of others waits in the retransmission queue.  Messages are
    delivered to the data handler. *)
From stdpp Require Import gmap.
From S2P Require Export RtQueue ClientCtrl.

(** ** State *)
Inductive sv_event :=
| Sv_sendto (sockFd : Z) (pkt : list Z) (addr : list Z)
| Sv_server (data : dps_client_data_t).

(** [sr_buffer] is the static [buffer]; [sr_mallocs], [sr_starts],
    [sr_sends] and [sr_recvs] count the calls of the allocator of packet
    buffers, [retransmit_timer_start], [sendto] and [recvfrom]. *)
Record server := mk_server {
  server_sock : Z; sr_queue : rt_queue; sr_timer : rtimer; sr_fds : fd_process; sr_buffer : buf;
  sr_active : bool; sr_mallocs : nat; sr_starts : nat; sr_sends : nat; sr_recvs : nat;
  sr_out : list sv_event }.

Definition sr_with_sock (x : Z) (s : server) : server :=
  mk_server x (sr_queue s) (sr_timer s) (sr_fds s) (sr_buffer s) (sr_active s) (sr_mallocs s)
    (sr_starts s) (sr_sends s) (sr_recvs s) (sr_out s).
Definition sr_with_queue (x : rt_queue) (s : server) : server :=
  mk_server (server_sock s) x (sr_timer s) (sr_fds s) (sr_buffer s) (sr_active s) (sr_mallocs s)
    (sr_starts s) (sr_sends s) (sr_recvs s) (sr_out s).
Definition sr_with_timer (x : rtimer) (s : server) : server :=
  mk_server (server_sock s) (sr_queue s) x (sr_fds s) (sr_buffer s) (sr_active s) (sr_mallocs s)
    (sr_starts s) (sr_sends s) (sr_recvs s) (sr_out s).
Definition sr_with_fds (x : fd_process) (s : server) : server :=
  mk_server (server_sock s) (sr_queue s) (sr_timer s) x (sr_buffer s) (sr_active s) (sr_mallocs s)
    (sr_starts s) (sr_sends s) (sr_recvs s) (sr_out s).
Definition sr_with_buffer (x : buf) (s : server) : server :=
  mk_server (server_sock s) (sr_queue s) (sr_timer s) (sr_fds s) x (sr_active s) (sr_mallocs s)
    (sr_starts s) (sr_sends s) (sr_recvs s) (sr_out s).
Definition sr_emit (es : list sv_event) (s : server) : server :=
  mk_server (server_sock s) (sr_queue s) (sr_timer s) (sr_fds s) (sr_buffer s) (sr_active s)
    (sr_mallocs s) (sr_starts s) (sr_sends s) (sr_recvs s) (sr_out s ++ es).

(** The operating system: what the [n]-th call of each function answers.
    [so_context] and [so_python] are the allocations of a
    [retransmit_timer_start]; [so_stack] is an uninitialised
    [struct sockaddr_in]. *)
Record sv_os := mk_sv_os {
  so_heap : nat -> option buf; so_context : nat -> bool; so_python : nat -> bool;
  so_sendto : nat -> Z; so_recv : nat -> option (list Z * list Z); so_socket : Z; so_bind : bool;
  so_fcntl : bool; so_pthread : nat -> bool; so_stack : list Z }.

Definition DOVE_STATUS_NOT_SUPPORTED : Z := 12.
Definition DOVE_STATUS_BIND_FAILED : Z := 14.
Definition RPT_OWNER_DPS : Z := 4.
Definition SOCKADDR_IN : nat := 16.
Definition MAX_REQUESTS : Z := 50000.

Section server.
Context (o : sv_os).

(** ** Transmission *)

(** [dst_addr]: the padding is not set. *)
Definition server_addr (addr : ip_addr_t) : list Z :=
  put 2 (sin_port (ia_port addr)) (put 4 (sin_addr (ia_ip4 addr)) (put 0 (le16 AF_INET) (so_stack o))).

Definition sendto_client (buff : buf) (addr : list Z) (s : server) : Z * server :=
  let sent := so_sendto o (sr_sends s) in
  let s := mk_server (server_sock s) (sr_queue s) (sr_timer s) (sr_fds s) (sr_buffer s)
    (sr_active s) (sr_mallocs s) (sr_starts s) (S (sr_sends s)) (sr_recvs s) (sr_out s) in
  (sent, sr_emit [Sv_sendto (server_sock s) buff addr] s).

Definition start_retransmit (buff : buf) (query_id : Z) (addr : list Z) (context : Z) (s : server)
    : out (Z * server) :=
  let n := sr_starts s in
  let* (rc, q) :=
    retransmit_timer_start (so_context o n) (so_python o n) buff query_id (server_sock s) AF_INET addr
      context RETRANSMIT_ROUTINE RPT_OWNER_DPS (sr_queue s) in
  Done (rc, mk_server (server_sock s) q (sr_timer s) (sr_fds s) (sr_buffer s) (sr_active s)
              (sr_mallocs s) (S n) (sr_sends s) (sr_recvs s) (sr_out s)).

Definition dps_protocol_xmit (buff : buf) (addr : ip_addr_t) (context : Z) (s : server)
    : out (Z * server) :=
  let dst_addr := server_addr addr in
  let send s :=
    let '(ret_val, s) := sendto_client buff dst_addr s in
    Done (if (ret_val <=? 0)%Z then DPS_ERROR else DPS_SUCCESS, s) in
  if (context =? 0)%Z then send s
  else
    let* (hdr, _) := dps_get_pkt_hdr buff 0 zero_client_hdr in
    let* (rc, s) := start_retransmit buff (ch_query_id hdr) dst_addr context s in
    if (rc =? 0)%Z then send s else Done (DPS_ERROR_NO_RESOURCES, s).

(** ** The server as the environment of the protocol

    A step that faults or does not return leaves no server behind.  A server
    generates no query ids and asks for no servers. *)
Definition in_server {A} (dflt : A) (f : server -> out (A * server)) (w : out server)
    : A * out server :=
  match w with
  | Done s =>
      match f s with
      | Done (a, s) => (a, Done s)
      | Timeout => (dflt, Timeout)
      | Fault => (dflt, Fault)
      end
  | Timeout => (dflt, Timeout)
  | Fault => (dflt, Fault)
  end.

Definition malloc_packet (s : server) : out (option buf * server) :=
  Done (so_heap o (sr_mallocs s),
        mk_server (server_sock s) (sr_queue s) (sr_timer s) (sr_fds s) (sr_buffer s) (sr_active s)
          (S (sr_mallocs s)) (sr_starts s) (sr_sends s) (sr_recvs s) (sr_out s)).
(** [context] is [NULL] before the call. *)
Definition stop_retransmit (query_id : Z) (s : server) : out (bool * Z * server) :=
  let* (status, context, q) := retransmit_timer_stop query_id 0 (sr_queue s) in
  Done ((status =? 0)%Z, context, sr_with_queue q s).
Definition to_data_handler (data : dps_client_data_t) (s : server) : out (unit * server) :=
  Done (tt, sr_emit [Sv_server data] s).

#[export] Instance server_env : Env (out server) := {|
  dps_server := true;
  malloc_buff := in_server None malloc_packet;
  free_buff w := w;
  Env.dps_protocol_xmit pkt to ctx := in_server DPS_ERROR (dps_protocol_xmit pkt to ctx);
  Env.raw_proto_query_id_generate w := (0%Z, w);
  timer_stop q := in_server (false, 0%Z) (stop_retransmit q);
  deliver d w := (in_server tt (to_data_handler d) w).2;
  dps_cluster_is_local_node_active w := match w with Done s => sr_active s | _ => false end;
  Env.dps_req_new_dps_node _ w := w
|}.

(** ** Reception

    [addr_len] and [sender_addr] keep their values from one pass of the loop
    to the next; [client_addr] is zeroed. *)
Context (fuel : nat) (heap_counts : Z -> Z * Z) (stack_addr : ip_addr_t).

Definition recvfrom_client (addr_len : nat) (s : server) : Z * nat * list Z * server :=
  let client_addr := replicate SOCKADDR_IN 0%Z in
  let s' := mk_server (server_sock s) (sr_queue s) (sr_timer s) (sr_fds s) (sr_buffer s)
    (sr_active s) (sr_mallocs s) (sr_starts s) (sr_sends s) (S (sr_recvs s)) (sr_out s) in
  match so_recv o (sr_recvs s) with
  | Some (data, from) =>
      let data := take DPS_MAX_BUFF_SZ data in
      (Z.of_nat (length data), length from, put 0 (take addr_len from) client_addr,
       sr_with_buffer (put 0 data (sr_buffer s)) s')
  | None => ((-1)%Z, addr_len, client_addr, s')
  end.

(** [ntohl(client_addr.sin_addr.s_addr)] and [ntohs(client_addr.sin_port)];
    the family of [sender_addr] is [AF_INET] from the start. *)
Definition note_sender (client_addr : list Z) (sender_addr : ip_addr_t) : ip_addr_t :=
  let port := of_be16 (byte_at client_addr 2) (byte_at client_addr 3) in
  let ip4 := of_be32 (byte_at client_addr 4) (byte_at client_addr 5) (byte_at client_addr 6)
    (byte_at client_addr 7) in
  mk_ip_addr (ia_family sender_addr) port (ia_xport_type sender_addr) (ia_port_http sender_addr)
    (if (ia_family sender_addr =? AF_INET)%Z then set_ip4 (ia_ip sender_addr) ip4
     else ia_ip sender_addr).

Fixpoint requests_loop (n addr_len : nat) (sender_addr : ip_addr_t) (t : stats_tbl) (s : server)
    : out (stats_tbl * server) :=
  match n with
  | 0 => Done (t, s)
  | S n =>
      let '(bytes_read, addr_len, client_addr, s) := recvfrom_client addr_len s in
      if (bytes_read <=? 0)%Z then Done (t, s)
      else
        let sender_addr := note_sender client_addr sender_addr in
        let* (_, (t, w)) :=
          dps_process_rcvd_pkt fuel heap_counts stack_addr (sr_buffer s) sender_addr (t, Done s) in
        let* s := w in
        requests_loop n addr_len sender_addr t s
  end.
Definition sender0 : ip_addr_t := mk_ip_addr AF_INET 0 0 0 zero_ip.
(** The descriptor and the context are not looked at but for [recvfrom]. *)
Definition dps_process_data_rcvd (st : stats_tbl * server) : out (Z * (stats_tbl * server)) :=
  let* st := requests_loop (Z.to_nat MAX_REQUESTS) SOCKADDR_IN sender0 st.1 st.2 in
  Done (DOVE_STATUS_OK, st).

(** ** The timer of the retransmission queue *)

(** [dps_retransmit_callback] is the only routine. *)
Definition retransmit_timeout (l : nat) (st : stats_tbl * server) : out (stats_tbl * server) :=
  let* c := context_at (sr_queue st.2) l in
  if negb (rc_callback_function c =? RETRANSMIT_ROUTINE)%Z then Fault
  else
    let* (t, w) :=
      dps_retransmit_callback RAW_PROTO_MAX_NUM_RETRANSMIT_EXCEEDED (rc_data c) (rc_context c)
        (st.1, Done st.2) in
    let* s := w in
    let* q := free_context l (sr_queue s) in
    Done (t, sr_with_queue q s).
Fixpoint timeouts (ls : list nat) (st : stats_tbl * server) : out (stats_tbl * server) :=
  match ls with
  | [] => Done st
  | l :: ls => let* st := retransmit_timeout l st in timeouts ls st
  end.

Definition rt_sent (e : rq_event) : sv_event :=
  match e with Rq_sendto fd data addr => Sv_sendto fd data addr end.
Definition server_timer (order : list Z -> list Z) (st : stats_tbl * server)
    : out (stats_tbl * server) :=
  let* (sent, expired, q) := Timer_Routine order (sr_queue st.2) in
  timeouts expired (st.1, sr_emit (map rt_sent sent) (sr_with_queue q st.2)).

(** ** Start-up

    The sizes of the receive buffer that are asked for and set do not matter
    here.  A socket that is not used in the end stays open. *)
Definition dps_svr_proto_init (s : server) : out (Z * server) :=
  let* (rc, t) :=
    raw_proto_timer_init (so_pthread o) (Some RETRANSMIT_ROUTINE) RPT_OWNER_DPS (sr_timer s) in
  let s := sr_with_timer t s in
  if negb (rc =? RAW_PROTO_TIMER_RETURN_OK)%Z then Done (DOVE_STATUS_NO_RESOURCES, s)
  else
    let s := sr_with_sock (so_socket o) s in
    if (so_socket o =? -1)%Z then Done (DOVE_STATUS_INVALID_FD, s)
    else if negb (so_bind o) then Done (DOVE_STATUS_BIND_FAILED, s)
    else if negb (so_fcntl o) then Done (DOVE_STATUS_NOT_SUPPORTED, s)
    else
      let s := sr_with_buffer (replicate DPS_MAX_BUFF_SZ 0%Z) s in
      let* (core_status, f) :=
        fd_process_add_fd (server_sock s) (Cb DATA_RCVD_ROUTINE) 0 (sr_fds s) in
      Done (if (core_status =? 0)%Z then DOVE_STATUS_OK else DOVE_STATUS_NO_RESOURCES,
            sr_with_fds f s).
End server.
