(* ===== verification/DhPy.v ===== *)
(** * The data handler of the server: what it is between

    The database of the server is kept by Python classes.  The C side
    ([data_handler/src/client_protocol_interface.c]) turns messages into calls
    of their methods and what they answer into messages; the methods call C
    functions that send messages of their own.  Here is the border: the values
    that cross it, the interpreter as a record of functions, the state of the
    C side and the pieces its functions share. *)
From Stdlib Require Import Ascii.
From stdpp Require Import gmap strings.
From S2P Require Export SvrCtrl.
#[local] Open Scope Z_scope.

(** ** The interpreter *)

(** What a format of [PyArg_ParseTuple] or [PyArg_Parse] stores: a number
    ([I], [H], [i]), a string with its size ([z#]; [None] is [NULL]) or an
    object ([O]). *)
Inductive py_arg (O : Type) :=
| A_int (z : Z)
| A_str (s : option (list Z))
| A_obj (o : O).
Arguments A_int {O} z.
Arguments A_str {O} s.
Arguments A_obj {O} o.

(** What [Py_BuildValue] builds. *)
Inductive py_val :=
| V_int (z : Z)
| V_str (s : list Z)
| V_tuple (l : list py_val)
| V_list (l : list py_val)
| V_ptr (p : Z).

(** The arguments of a C function with an ellipsis: numbers, and the addresses
    of bytes. *)
Inductive c_arg :=
| C_int (z : Z)
| C_ptr (b : list Z).
(** [Py_BuildValue] of a tuple: [I] takes a number, [z#] the address of a
    string and its size; arguments that are left over are not looked at.  To
    take one kind of argument for the other is an access the C language does
    not define. *)
Fixpoint Py_BuildValue (format : string) (args : list c_arg) : out (list py_val) :=
  match format with
  | EmptyString => Done []
  | String "("%char format | String ")"%char format => Py_BuildValue format args
  | String "I"%char format =>
      match args with
      | C_int z :: args => let* l := Py_BuildValue format args in Done (V_int z :: l)
      | _ => Fault
      end
  | String "z"%char (String "#"%char format) =>
      match args with
      | C_ptr b :: C_int n :: args =>
          let* l := Py_BuildValue format args in Done (V_str (take (Z.to_nat n) b) :: l)
      | _ => Fault
      end
  | _ => Fault
  end.

(** The methods ([python_dps_client_protocol_t], [python_dps_replication_t],
    [python_dps_mass_transfer_t] and one of the cluster database). *)
Inductive py_fun :=
| Endpoint_Update | Endpoint_Location_vIP | Endpoint_Location_vMac
| Policy_Resolution_vIP | Policy_Resolution_vMac | Implicit_Gateway_List | Gateway_List
| Is_VNID_Handled_Locally | Broadcast_List | pIP_Get_DPS_Client | vIP_Get_DVG
| Handle_Unsolicited_Message_Reply | Handle_Resolution_Reply
| Tunnel_Register | Tunnel_Unregister
| Multicast_Sender_Register | Multicast_Sender_Unregister
| Multicast_Receiver_Register | Multicast_Receiver_Unregister
| Multicast_Global_Scope_Get | Policy_Updates_Send_To | Stop | Start
| ReplicationQueryIDGenerate | ReplicationReplyProcess | Transfer_Ack
| Domain_Get_Random_Remote_Node.

(** The C functions a method may call. *)
Inductive c_fun :=
| C_send_all_connectivity_policies | C_send_gateways | C_send_multicast_tunnels
| C_send_broadcast_table | C_send_address_resolution | C_send_heartbeat | C_send_vnid_deletion
| C_send_endpoint_reply | C_send_all_vm_migration_update
| C_mass_transfer_endpoint | C_mass_transfer_tunnel
| C_mass_transfer_multicast_sender | C_mass_transfer_multicast_receiver
| C_send_message_and_free.

(** The interpreter and the rest of the process, as functions of the number
    of the call.  [py_parse] gives the arguments stored before the first that
    does not fit: all of them when the call succeeds.  [py_list] is [None] for
    what is not a list.  [py_answer] gives the C functions the method called,
    each with the tuple of its arguments, and its result, [None] when it
    raised.  [py_builds] is whether an object can be built, [py_mallocs]
    whether memory is there, [py_sends] the status of
    [dps_protocol_client_send].  What memory that was not written holds is
    [py_stale_...]; [py_behind] are the bytes behind a string. *)
Record py_env := mk_py_env {
  object : Type;
  py_parse : string -> object -> list (py_arg object);
  py_list : object -> option (list object);
  py_dict : object -> option (list (object * object));
  py_int_exact : object -> bool;
  py_void_ptr : object -> Z;
  py_answer : nat -> py_fun -> list py_val -> list (c_fun * object) * option object;
  py_builds : nat -> bool;
  py_mallocs : nat -> bool;
  py_sends : nat -> Z;
  py_stale_word : nat -> nat -> Z;
  py_stale_addr : nat -> nat -> ip_addr_t;
  py_stale_tunnel : nat -> nat -> dps_tunnel_endpoint_t;
  py_behind : nat -> list Z;
  dcs_local_ip : ip_addr_t;
  Hash_Perf_Test_CLI : bool }.

(** ** State *)

(** [endpoint_resolution_context_t] starts as [unsolicited_msg_context_t]
    ([CONTEXT_BASE]) and goes on with an address. *)
Record unsolicited_msg_context_t := mk_context {
  cx_vnid_id : Z; cx_original_msg_type : Z; cx_dps_client_location : ip_addr_t;
  cx_vIP : option ip_addr_t }.
(** What [malloc] gave: a context, or a reply that Python is to send. *)
Inductive block :=
| Blk_context (c : unsolicited_msg_context_t)
| Blk_message (m : dps_client_data_t).
Inductive dh_event :=
| Py_called (f : py_fun) (args : list py_val)
| Dh_sent (m : dps_client_data_t).

(** [dh_unsolicited] is [outstanding_unsolicited_msg_count].  Addresses are
    not used twice. *)
Record dh := mk_dh {
  started : bool; dh_unsolicited : Z; dh_blocks : gmap Z block; dh_next : Z; dh_now : nat;
  dh_out : list dh_event }.
Definition dh_with_started (b : bool) (s : dh) : dh :=
  mk_dh b (dh_unsolicited s) (dh_blocks s) (dh_next s) (dh_now s) (dh_out s).
Definition dh_count (k : Z) (s : dh) : dh :=
  mk_dh (started s) (dh_unsolicited s + k) (dh_blocks s) (dh_next s) (dh_now s) (dh_out s).
Definition dh_with_blocks (b : gmap Z block) (s : dh) : dh :=
  mk_dh (started s) (dh_unsolicited s) b (dh_next s) (dh_now s) (dh_out s).
Definition dh_tick (s : dh) : dh :=
  mk_dh (started s) (dh_unsolicited s) (dh_blocks s) (dh_next s) (S (dh_now s)) (dh_out s).
Definition dh_emit (e : dh_event) (s : dh) : dh :=
  mk_dh (started s) (dh_unsolicited s) (dh_blocks s) (dh_next s) (dh_now s) (dh_out s ++ [e]).

Definition DOVE_STATUS_NO_MEMORY : Z := 3.

(** ** Bytes *)
Definition le16_at (b : list Z) (i : nat) : Z := List.nth i b 0 + 256 * List.nth (S i) b 0.
(** [memcpy] of a string into the sixteen bytes of an address; of [NULL] the
    size is 0. *)
Definition str_bytes (s : option (list Z)) : list Z := default [] s.
Definition memcpy_ip (b : list Z) (u : ip_union) : out ip_union :=
  if decide (length b <= 16)%nat then Done (b ++ drop (length b) u) else Fault.
(** [memcpy(mac, b, 6)] and [memcpy(mac, b, size)] *)
Definition mac6 (b : list Z) : out (list Z) :=
  if decide (6 <= length b)%nat then Done (take 6 b) else Fault.
Definition memcpy_mac (b mac : list Z) : out (list Z) :=
  if decide (length b <= 6)%nat then Done (b ++ drop (length b) mac) else Fault.

(** The 28 bytes of a [dps_tunnel_endpoint_t]. *)
Definition te_bytes (t : dps_tunnel_endpoint_t) : list Z :=
  le16 (te_family t) ++ le16 (te_port t) ++ le32 (te_vnid t) ++ le16 (te_tunnel_type t)
  ++ le16 (te_flags t) ++ te_ip t.
Definition te_of_bytes (b : list Z) : dps_tunnel_endpoint_t :=
  mk_tunnel (le16_at b 0) (le16_at b 2) (get_ip4 (drop 4 b)) (le16_at b 8) (le16_at b 10)
    (drop 12 b).

(** ** Addresses: a packed string, by its size

    In a message the four bytes of an IPv4 address are turned round; in a
    context they stay as they are. *)
Definition with_port (port : Z) (a : ip_addr_t) : ip_addr_t :=
  mk_ip_addr (ia_family a) port (ia_xport_type a) (ia_port_http a) (ia_ip a).
Definition with_ip (family : Z) (u : ip_union) (a : ip_addr_t) : ip_addr_t :=
  mk_ip_addr family (ia_port a) (ia_xport_type a) (ia_port_http a) u.
Definition is_packed4 (b : list Z) : bool := (length b =? 4)%nat.
Definition from_packed (b : list Z) (a : ip_addr_t) : out ip_addr_t :=
  if is_packed4 b then Done (with_ip AF_INET (set_ip4 (ia_ip a) (ntohl (get_ip4 b))) a)
  else let* u := memcpy_ip b (ia_ip a) in Done (with_ip AF_INET6 u a).
Definition keep_packed (b : list Z) (a : ip_addr_t) : out ip_addr_t :=
  let* u := memcpy_ip b (ia_ip a) in
  Done (with_ip (if is_packed4 b then AF_INET else AF_INET6) u a).
(** [if (family == AF_INET) ip4 = htonl(ip4);] *)
Definition swap_ip4 (family : Z) (u : ip_union) : ip_union :=
  if family =? AF_INET then set_ip4 u (ntohl (get_ip4 u)) else u.
Definition to_net (a : ip_addr_t) : ip_addr_t :=
  with_ip (ia_family a) (swap_ip4 (ia_family a) (ia_ip a)) a.

(** ** Memory *)
Section memory.
Context (E : py_env).

(** [0] is [NULL]. *)
Definition dh_malloc (b : block) (s : dh) : Z * dh :=
  let s' := dh_tick s in
  if py_mallocs E (dh_now s) then
    (dh_next s, mk_dh (started s) (dh_unsolicited s) (<[dh_next s := b]> (dh_blocks s))
                  (dh_next s + 1) (dh_now s') (dh_out s))
  else (0, s').
Definition dh_free (p : Z) (s : dh) : out dh :=
  if p =? 0 then Done s
  else match dh_blocks s !! p with
       | Some _ => Done (dh_with_blocks (delete p (dh_blocks s)) s)
       | None => Fault
       end.
Definition message_at (p : Z) (s : dh) : out dps_client_data_t :=
  match dh_blocks s !! p with Some (Blk_message m) => Done m | _ => Fault end.
Definition told_context (p : Z) (s : dh) : out unsolicited_msg_context_t :=
  match dh_blocks s !! p with Some (Blk_context c) => Done c | _ => Fault end.

(** ** Sending *)
Definition client_send (m : dps_client_data_t) (s : dh) : Z * dh :=
  (py_sends E (dh_now s), dh_emit (Dh_sent m) (dh_tick s)).
Definition dps_msg_send_inline (m : dps_client_data_t) (s : dh) : dh :=
  if ch_resp_status (cd_hdr m) =? DPS_ERROR_RETRY then s else (client_send m s).2.

(** The context of a message that will be acknowledged. *)
Definition unsolicited_context (vnid type port : Z) (ip : list Z) (vIP : option (list Z)) (s : dh)
    : out (Z * dh) :=
  let n := dh_now s in
  if py_mallocs E n then
    let* loc := keep_packed ip (with_port port (py_stale_addr E n 0)) in
    let* v := match vIP with
              | None => Done None
              | Some b => let* a := keep_packed b (py_stale_addr E n 1) in Done (Some a)
              end in
    let '(p, s) := dh_malloc (Blk_context (mk_context vnid type loc v)) s in
    Done (p, dh_count 1 s)
  else Done (0, dh_tick s).
(** [if (return_status != DPS_SUCCESS) { free(client_data->context);
    outstanding_unsolicited_msg_count--; }] *)
Definition send_unsolicited (m : dps_client_data_t) (s : dh) : out (Z * dh) :=
  let '(return_status, s) := client_send m s in
  if return_status =? DPS_SUCCESS then Done (return_status, s)
  else let* s := dh_free (cd_context m) s in Done (return_status, dh_count (-1) s).

(** ** Lists of Python into arrays

    [f] is given the number of elements that were stored; [None] goes on with
    the next object ([continue]).  With [room] elements the loop ends. *)
Fixpoint gather {B} (room : nat) (f : nat -> object E -> out (option B)) (l : list (object E))
    (acc : list B) : out (list B) :=
  match l with
  | [] => Done acc
  | o :: l =>
      if decide (room <= length acc)%nat then Done acc
      else
        let* r := f (length acc) o in
        gather room f l (match r with Some b => acc ++ [b] | None => acc end)
  end.

Definition parse_I (o : object E) : option Z :=
  match py_parse E "I" o with [A_int z] => Some z | _ => None end.
Definition parse_z (o : object E) : option (list Z) :=
  match py_parse E "z#" o with [A_str s] => Some (str_bytes s) | _ => None end.

(** Tunnels of one network: [port] and [flags] are not set. *)
Definition vnid_tunnel4 (vnid : Z) (n j : nat) (o : object E) : out (option dps_tunnel_endpoint_t) :=
  Done (ipv4 ← parse_I o;
        let t := py_stale_tunnel E n j in
        Some (mk_tunnel AF_INET (te_port t) vnid TUNNEL_TYPE_VXLAN (te_flags t)
                (set_ip4 (te_ip t) (ntohl ipv4)))).
Definition vnid_tunnel6 (vnid : Z) (n j : nat) (o : object E) : out (option dps_tunnel_endpoint_t) :=
  match parse_z o with
  | None => Done None
  | Some ipv6 =>
      let t := py_stale_tunnel E n j in
      let* u := memcpy_ip ipv6 (te_ip t) in
      Done (Some (mk_tunnel AF_INET6 (te_port t) vnid TUNNEL_TYPE_VXLAN (te_flags t) u))
  end.
Definition vnid_tunnels (room : nat) (vnid : Z) (n : nat) (l4 l6 : list (object E))
    : out dps_tunnel_list_t :=
  let* l := gather room (vnid_tunnel4 vnid n) l4 [] in
  let* l := gather room (vnid_tunnel6 vnid n) l6 l in
  Done (mk_tunnel_list (u16 (Z.of_nat (length l))) l).

(** Gateways, each with its network.  The sixteen bytes of an IPv6 address are
    copied to the start of the element and not to its address. *)
Definition gateway4 (n j : nat) (o : object E) : out (option dps_tunnel_endpoint_t) :=
  Done (match py_parse E "II" o with
        | [A_int vnid; A_int ipv4] =>
            let t := py_stale_tunnel E n j in
            Some (mk_tunnel AF_INET 0 vnid TUNNEL_TYPE_VXLAN (te_flags t)
                    (set_ip4 (te_ip t) (ntohl ipv4)))
        | _ => None
        end).
Definition gateway6 (n j : nat) (o : object E) : out (option dps_tunnel_endpoint_t) :=
  match py_parse E "Iz#" o with
  | [A_int vnid; A_str s] =>
      let ipv6 := str_bytes s in
      let t := py_stale_tunnel E n j in
      let t := mk_tunnel AF_INET6 0 (te_vnid t) TUNNEL_TYPE_VXLAN (te_flags t) (te_ip t) in
      if decide (length ipv6 <= 28)%nat then
        let t := te_of_bytes (ipv6 ++ drop (length ipv6) (te_bytes t)) in
        Done (Some (mk_tunnel (te_family t) (te_port t) vnid (te_tunnel_type t) (te_flags t)
                      (te_ip t)))
      else Fault
  | _ => Done None
  end.
Definition gateways (n : nat) (l4 l6 : list (object E)) : out dps_tunnel_list_t :=
  let* l := gather room_gw_list (gateway4 n) l4 [] in
  let* l := gather room_gw_list (gateway6 n) l6 l in
  Done (mk_tunnel_list (u16 (Z.of_nat (length l))) l).

(** ** Packed lists

    An array of words as a function: the IPv4 addresses from its start, then
    each IPv6 address four words at [j], which starts from 0 again and advances
    by five, or by one past what is no string.  What does not fit ends the
    loop, or with [checked = false] is written behind the buffer. *)
Definition ip6_words (b : list Z) (a : nat -> Z) (j : nat) : out (nat -> Z) :=
  if decide (length b <= 16)%nat then
    let old := le32 (a j) ++ le32 (a (j + 1)%nat) ++ le32 (a (j + 2)%nat) ++ le32 (a (j + 3)%nat) in
    let b := b ++ drop (length b) old in
    Done (fun i =>
      if decide (j <= i < j + 4)%nat then get_ip4 (drop (4 * (i - j)) b) else a i)
  else Fault.
Definition word4 (n j : nat) (o : object E) : out (option Z) := Done (ntohl <$> parse_I o).
Definition word4_unchecked (room : nat) (n j : nat) (o : object E) : out (option Z) :=
  match parse_I o with
  | Some ipv4 => if decide (room <= j)%nat then Fault else Done (Some (ntohl ipv4))
  | None => Done None
  end.
Fixpoint packed_ip6 (checked : bool) (room j n6 : nat) (l : list (object E)) (a : nat -> Z)
    : out (nat * (nat -> Z)) :=
  match l with
  | [] => Done (n6, a)
  | o :: l =>
      if checked && bool_decide (room < j + 4)%nat then Done (n6, a)
      else
        match parse_z o with
        | None => packed_ip6 checked room (j + 1) n6 l a
        | Some ipv6 =>
            if decide (room < j + 4)%nat then Fault
            else
              let* a := ip6_words ipv6 a j in
              packed_ip6 checked room (j + 5) (S n6) l a
        end
  end.
(** The counters, and the words they say there are. *)
Definition packed (checked : bool) (room n : nat) (l4 l6 : list (object E))
    : out (Z * Z * list Z) :=
  let* w4 :=
    if checked then gather room (word4 n) l4 []
    else gather (length l4) (word4_unchecked room n) l4 [] in
  let* (n6, a) :=
    packed_ip6 checked room 0 0 l6 (fun i => default (py_stale_word E n i) (w4 !! i)) in
  let n4 := u16 (Z.of_nat (length w4)) in
  let n6 := u16 (Z.of_nat n6) in
  Done (n4, n6, a <$> seq 0 (Z.to_nat (n4 + 4 * n6))).

(** ** Headers

    A buffer that is reused: what is not set is what it held. *)
Definition stale_hdr (n : nat) : dps_client_hdr_t :=
  mk_client_hdr 0 (py_stale_word E n 0 mod 256) 0 0 0 0 0 (py_stale_addr E n 2).
Definition node_hdr (n : nat) (type sub_type client_id transaction vnid query_id port : Z)
    (ip : list Z) : out dps_client_hdr_t :=
  let* a := from_packed ip (with_port port (py_stale_addr E n 2)) in
  Done (mk_client_hdr type sub_type client_id transaction vnid DPS_NO_ERR query_id a).
Definition policy_server_hdr (n : nat) (type vnid query_id port : Z) (ip : list Z)
    : out dps_client_hdr_t :=
  node_hdr n type (ch_sub_type (stale_hdr n)) DPS_POLICY_SERVER_ID DPS_TRANSACTION_NORMAL vnid
    query_id port ip.
End memory.
