(* ===== verification/DhSend.v ===== *)
(** * The data handler of the server: what Python sends

    The functions of [data_handler/src/client_protocol_interface.c] that the
    Python classes call, each with the tuple of its arguments.  They lay a
    message in one buffer that is used over and over. *)
From stdpp Require Import gmap strings.
From S2P Require Export DhPy.
#[local] Open Scope Z_scope.

Definition GATEWAY_TYPE_EXTERNAL : Z := 1.
Definition GATEWAY_TYPE_VLAN : Z := 2.

Section calls.
Context (E : py_env).
Implicit Types (args : object E) (s : dh).

(** What [f] does with a tuple that cannot be taken apart: nothing. *)
Definition refused (s : dh) : out (Z * dh) := Done (DPS_ERROR, s).

(** [if(!PyList_Check(a) || !PyList_Check(b)) ... if (dps_client_ip == NULL)] *)
Definition both_lists {A} (a b : option (list A)) (ip : option (list Z))
    : option (list A * list A * list Z) :=
  match a, b, ip with Some a, Some b, Some ip => Some (a, b, ip) | _, _, _ => None end.

(** ** Policies of a network *)
Definition policy_rule (_ : nat) (o : object E) : out (option src_dst_vnid_t) :=
  Done (match py_parse E "II" o with
        | [A_int src_vnid; A_int dst_vnid] => Some (mk_rule src_vnid dst_vnid)
        | _ => None
        end).
Definition send_all_connectivity_policies args s : out (Z * dh) :=
  match py_parse E "z#HIIIiO" args with
  | [A_str ip; A_int port; A_int solicited; A_int vnid; A_int query_id; A_int _; A_obj l] =>
      match py_list E l, ip with
      | Some l, Some ip =>
          let n := dh_now s in
          let type := if solicited =? 0 then DPS_UNSOLICITED_VNID_POLICY_LIST
                      else DPS_VNID_POLICY_LIST_REPLY in
          let* rules := gather E room_bulk policy_rule l [] in
          let* (p, s) :=
            if solicited =? 0 then unsolicited_context E vnid type port ip None s
            else Done (0, s) in
          let* hdr := policy_server_hdr E n type vnid query_id port ip in
          send_unsolicited E (mk_client_data p hdr (Body_bulk_vnid_policy
            (mk_bulk_policy (Z.of_nat (length rules)) 0 rules))) s
      | _, _ => refused s
      end
  | _ => refused s
  end.

(** ** Lists of gateways *)
Definition send_gateways args s : out (Z * dh) :=
  match py_parse E "z#HIIIOO" args with
  | [A_str ip; A_int port; A_int vnid; A_int query_id; A_int gateway_type; A_obj l4; A_obj l6] =>
      match both_lists (py_list E l4) (py_list E l6) ip with
      | Some (l4, l6, ip) =>
          let n := dh_now s in
          let type := if gateway_type =? GATEWAY_TYPE_EXTERNAL then DPS_UNSOLICITED_EXTERNAL_GW_LIST
                      else if gateway_type =? GATEWAY_TYPE_VLAN then DPS_UNSOLICITED_VLAN_GW_LIST
                      else DPS_MAX_MSG_TYPE in
          if DPS_MAX_MSG_TYPE <=? type then refused s
          else
            let* gw := gateways E n l4 l6 in
            let* (p, s) := unsolicited_context E vnid type port ip None s in
            let* hdr := policy_server_hdr E n type vnid query_id port ip in
            send_unsolicited E (mk_client_data p hdr (Body_tunnel_info gw)) s
      | None => refused s
      end
  | _ => refused s
  end.

(** ** The receivers of a multicast group

    The words of one receiver; [size] is the length of the message so far.  A
    network without a tunnel is overwritten by the next. *)
Fixpoint receiver_ip6 (room n : nat) (l : list (object E)) (w : list Z) (n6 : nat)
    : out (list Z * nat) :=
  match l with
  | [] => Done (w, n6)
  | o :: l =>
      if decide (room < length w + 4)%nat then Done (w, n6)
      else
        match parse_z E o with
        | None => receiver_ip6 room n l w n6
        | Some ipv6 =>
            let j := length w in
            let* a := ip6_words ipv6 (py_stale_word E n) j in
            receiver_ip6 room n l (w ++ [a j; a (j + 1)%nat; a (j + 2)%nat; a (j + 3)%nat]) (S n6)
        end
  end.
Definition ds_receiver (size : nat) (n : nat) (kv : object E * object E)
    : out (option dps_pkd_tunnel_list_t) :=
  match py_parse E "I" kv.1 with
  | [A_int rvnid] =>
      if decide (Z.to_nat 32768 < size + 8)%nat then Fault
      else
        match py_parse E "OO" kv.2 with
        | [A_obj l4; A_obj l6] =>
            let room := ((Z.to_nat 32768 - size - 8) / 4)%nat in
            let* w4 := gather E room (word4 E n) (default [] (py_list E l4)) [] in
            let* (w, n6) := receiver_ip6 room n (default [] (py_list E l6)) w4 0 in
            Done (match w with
                  | [] => None
                  | _ => Some (mk_pkd_tunnel_list rvnid (u16 (Z.of_nat (length w4))) (u16 (Z.of_nat n6)) w)
                  end)
        | _ => Done None
        end
  | _ => Done None
  end.
Fixpoint ds_receivers (size n : nat) (l : list (object E * object E)) (acc : list dps_pkd_tunnel_list_t)
    : out (list dps_pkd_tunnel_list_t) :=
  match l with
  | [] => Done acc
  | kv :: l =>
      let* r := ds_receiver size n kv in
      match r with
      | None => ds_receivers size n l acc
      | Some x =>
          let size := (size + 8 + 4 * Z.to_nat (pk_num_v4_tunnels x + 4 * pk_num_v6_tunnels x))%nat in
          ds_receivers size n l (acc ++ [x])
      end
  end.
Definition mcast_addr_type (global_scope inet_type : Z) : Z :=
  if negb (global_scope =? 0) then MCAST_ADDR_V4_ICB_RANGE
  else if inet_type =? AF_INET then MCAST_ADDR_V4
  else if inet_type =? AF_INET6 then MCAST_ADDR_V6 else MCAST_ADDR_MAC.
Definition send_multicast_tunnels args s : out (Z * dh) :=
  match py_parse E "z#HIIz#IIz#O" args with
  | [A_str ip; A_int port; A_int vnid; A_int query_id; A_str mac; A_int global_scope;
     A_int inet_type; A_str mcast_ip; A_obj receivers] =>
      if negb (length (str_bytes mac) =? 6)%nat then refused s
      else
        match py_dict E receivers, ip with
        | Some receivers, Some ip =>
            let n := dh_now s in
            let* u := memcpy_ip (str_bytes mcast_ip) (ia_ip (py_stale_addr E n 3)) in
            let addr := mk_mcast_addr (mcast_addr_type global_scope inet_type) (str_bytes mac)
                          (swap_ip4 inet_type u) in
            let* l := ds_receivers 76 n receivers [] in
            if Hash_Perf_Test_CLI E then refused s
            else
              let* hdr := policy_server_hdr E n DPS_MCAST_RECEIVER_DS_LIST vnid query_id port ip in
              let '(return_status, s) :=
                client_send E (mk_client_data 0 hdr (Body_mcast_receiver_ds_list
                  (mk_mcast_ds_list addr (Z.of_nat (length l)) l))) s in
              Done (return_status, if return_status =? DPS_SUCCESS then s else dh_count (-1) s)
        | _, _ => refused s
        end
  | _ => refused s
  end.

(** ** The switches of a network *)
Definition send_broadcast_table args s : out (Z * dh) :=
  match py_parse E "z#HIIOO" args with
  | [A_str ip; A_int port; A_int vnid; A_int query_id; A_obj l4; A_obj l6] =>
      match both_lists (py_list E l4) (py_list E l6) ip with
      | Some (l4, l6, ip) =>
          let n := dh_now s in
          let* (n4, n6, w) := packed E true room_bcast n l4 l6 in
          let* (p, s) := unsolicited_context E vnid DPS_UNSOLICITED_BCAST_LIST_REPLY port ip None s in
          let* hdr := policy_server_hdr E n DPS_UNSOLICITED_BCAST_LIST_REPLY vnid query_id port ip in
          send_unsolicited E (mk_client_data p hdr (Body_dove_switch_list
            (mk_pkd_tunnel_list (py_stale_word E n 1) n4 n6 w))) s
      | None => refused s
      end
  | _ => refused s
  end.

(** ** Questions and notices *)
Definition send_address_resolution args s : out (Z * dh) :=
  match py_parse E "z#HIIz#z#" args with
  | [A_str (Some ip); A_int port; A_int vnid; A_int query_id; A_str (Some vIP); A_str vMac] =>
      let n := dh_now s in
      if Hash_Perf_Test_CLI E then refused s
      else
        let* (p, s) := unsolicited_context E vnid DPS_ADDR_RESOLVE port ip (Some vIP) s in
        let* hdr := policy_server_hdr E n DPS_ADDR_RESOLVE vnid query_id port ip in
        let* mac := memcpy_mac (str_bytes vMac) zero_mac in
        let* addr := from_packed vIP zero_ip_addr in
        send_unsolicited E (mk_client_data p hdr (Body_address_resolve
          (mk_endpoint_loc_req vnid mac addr zero_ip_addr))) s
  | _ => refused s
  end.

(** The body of these messages is not set. *)
Definition stale_gen_msg_req (n : nat) : dps_client_body :=
  Body_gen_msg_req (mk_gen_msg_req (py_stale_addr E n 3)).
Definition send_heartbeat args s : out (Z * dh) :=
  match py_parse E "z#HII" args with
  | [A_str (Some ip); A_int port; A_int vnid; A_int query_id] =>
      let n := dh_now s in
      let* (p, s) := unsolicited_context E vnid DPS_CTRL_PLANE_HB port ip None s in
      let* hdr := policy_server_hdr E n DPS_CTRL_PLANE_HB vnid query_id port ip in
      send_unsolicited E (mk_client_data p hdr (stale_gen_msg_req n)) s
  | _ => refused s
  end.
Definition send_vnid_deletion args s : out (Z * dh) :=
  match py_parse E "z#HII" args with
  | [A_str (Some ip); A_int port; A_int vnid; A_int query_id] =>
      let n := dh_now s in
      if Hash_Perf_Test_CLI E then refused s
      else
        let* hdr := policy_server_hdr E n DPS_UNSOLICITED_VNID_DEL_REQ vnid query_id port ip in
        Done (client_send E (mk_client_data 0 hdr (stale_gen_msg_req n)) s)
  | _ => refused s
  end.

(** ** Where an endpoint is *)

(** [(vMac == NULL) || (vMac_size != 6)] *)
Definition is_mac (vMac : option (list Z)) : bool := (length (str_bytes vMac) =? 6)%nat.
(** [endpoint_version] is not used. *)
Definition send_endpoint_reply args s : out (Z * dh) :=
  match py_parse E "z#HIIIIOOz#z#" args with
  | [A_str ip; A_int port; A_int vnid; A_int query_id; A_int endpoint_vnid; A_int _; A_obj l4;
     A_obj l6; A_str vMac; A_str vIP] =>
      match both_lists (py_list E l4) (py_list E l6) ip, vIP with
      | Some (l4, l6, ip), Some vIP =>
          if negb (is_mac vMac) then refused s
          else
            let n := dh_now s in
            let* (p, s) :=
              unsolicited_context E vnid DPS_UNSOLICITED_ENDPOINT_LOC_REPLY port ip (Some vIP) s in
            let* hdr := policy_server_hdr E n DPS_UNSOLICITED_ENDPOINT_LOC_REPLY vnid query_id port ip in
            let* addr := from_packed vIP (py_stale_addr E n 3) in
            let* tunnels := vnid_tunnels E room_endpoint_loc_reply endpoint_vnid n l4 l6 in
            send_unsolicited E (mk_client_data p hdr (Body_endpoint_loc_reply
              (mk_endpoint_loc_reply endpoint_vnid (str_bytes vMac) addr (py_stale_word E n 1) tunnels))) s
      | _, _ => refused s
      end
  | _ => refused s
  end.

(** At most [MAX_VIP_ADDR] objects are looked at. *)
Definition epri_ip4 (_ : nat) (o : object E) : out (option dps_ip4_info_t) :=
  Done ((fun ipv4 => mk_ip4_info (ntohl ipv4) 0 0) <$> parse_I E o).
Definition epri_ip6 (n j : nat) (o : object E) : out (option dps_ip6_info_t) :=
  match parse_z E o with
  | None => Done None
  | Some ipv6 =>
      let* u := memcpy_ip ipv6 (ia_ip (py_stale_addr E n (4 + j))) in
      Done (Some (mk_ip6_info u 0 0))
  end.
Definition send_all_vm_migration_update args s : out (Z * dh) :=
  match py_parse E "z#HIIIIOOz#OO" args with
  | [A_str ip; A_int port; A_int vnid; A_int query_id; A_int endpoint_vnid; A_int _; A_obj l4;
     A_obj l6; A_str vMac; A_obj v4; A_obj v6] =>
      match both_lists (py_list E l4) (py_list E l6) ip with
      | Some (l4, l6, ip) =>
          if negb (is_mac vMac) then refused s
          else
            let n := dh_now s in
            let* (p, s) := unsolicited_context E vnid DPS_UNSOLICITED_VM_LOC_INFO port ip None s in
            let* hdr := policy_server_hdr E n DPS_UNSOLICITED_VM_LOC_INFO vnid query_id port ip in
            let* v4 := gather E MAX_VIP_ADDR epri_ip4 (take MAX_VIP_ADDR (default [] (py_list E v4))) [] in
            let* v6 := gather E MAX_VIP_ADDR (epri_ip6 n)
                         (take MAX_VIP_ADDR (default [] (py_list E v6))) [] in
            let* tunnels := vnid_tunnels E room_epri endpoint_vnid n l4 l6 in
            send_unsolicited E (mk_client_data p hdr (Body_vm_invalidate_msg
              (mk_epri endpoint_vnid (str_bytes vMac) (mk_ip4_info_list (Z.of_nat (length v4)) v4)
                 (mk_ip6_info_list (Z.of_nat (length v6)) v6) tunnels))) s
      | None => refused s
      end
  | _ => refused s
  end.

(** ** A copy of the database for another node

    None of these has a context, and none counts. *)
Definition mass_transfer_endpoint args s : out (Z * dh) :=
  match py_parse E "z#Hz#HIIIIIIOOz#z#" args with
  | [A_str ip; A_int port; A_str host_ip; A_int host_port; A_int vnid; A_int query_id;
     A_int endpoint_vnid; A_int client_type; A_int version; A_int update_type; A_obj l4; A_obj l6;
     A_str vMac; A_str vIP] =>
      match both_lists (py_list E l4) (py_list E l6) ip, vIP with
      | Some (l4, l6, ip), Some vIP =>
          if negb (is_mac vMac) then refused s
          else
            let n := dh_now s in
            let* hdr := node_hdr E n DPS_ENDPOINT_UPDATE (u8 update_type) (u8 client_type)
                          DPS_TRANSACTION_MASS_COPY vnid query_id port ip in
            let* host := from_packed (str_bytes host_ip) (with_port host_port (py_stale_addr E n 3)) in
            let* addr := from_packed vIP (py_stale_addr E n 4) in
            let* tunnels := vnid_tunnels E room_endpoint_update endpoint_vnid n l4 l6 in
            Done (client_send E (mk_client_data 0 hdr (Body_endpoint_update
              (mk_endpoint_update endpoint_vnid (str_bytes vMac) version addr host tunnels))) s)
      | _, _ => refused s
      end
  | _ => refused s
  end.

(** A number is an IPv4 address, anything else should be a string. *)
Definition either_tunnel (vnid : Z) (n j : nat) (o : object E) : out (option dps_tunnel_endpoint_t) :=
  if py_int_exact E o then vnid_tunnel4 E vnid n j o else vnid_tunnel6 E vnid n j o.
Definition mass_transfer_tunnel args s : out (Z * dh) :=
  match py_parse E "z#Hz#HIIIIIO" args with
  | [A_str ip; A_int port; A_str host_ip; A_int host_port; A_int vnid; A_int query_id;
     A_int tunnel_vnid; A_int client_type; A_int reg_type; A_obj l] =>
      match py_list E l, ip with
      | Some l, Some ip =>
          let n := dh_now s in
          let type := if reg_type =? 0 then DPS_TUNNEL_DEREGISTER else DPS_TUNNEL_REGISTER in
          let* hdr := node_hdr E n type type (u8 client_type) DPS_TRANSACTION_MASS_COPY vnid query_id
                        port ip in
          let* host := from_packed (str_bytes host_ip) (with_port host_port (py_stale_addr E n 3)) in
          let* l := gather E room_tunnel_reg (either_tunnel tunnel_vnid n) l [] in
          Done (client_send E (mk_client_data 0 hdr (Body_tunnel_reg_dereg
            (mk_tunnel_reg host (mk_tunnel_list (u16 (Z.of_nat (length l))) l)))) s)
      | _, _ => refused s
      end
  | _ => refused s
  end.

(** [mcast_addr]: an address of neither family is not set, and its family is
    left as the kind of the address. *)
Definition mass_mcast_addr (n : nat) (inet : Z) (mac ip : list Z) : out dps_mcast_addr_t :=
  let* mac := memcpy_mac mac (replicate 6 (py_stale_word E n 5 mod 256)) in
  let u := ia_ip (py_stale_addr E n 3) in
  if inet =? AF_INET then
    if decide (4 <= length ip)%nat then
      Done (mk_mcast_addr MCAST_ADDR_V4 mac (set_ip4 u (ntohl (get_ip4 ip))))
    else Fault
  else if inet =? AF_INET6 then
    let* u := memcpy_ip ip u in Done (mk_mcast_addr MCAST_ADDR_V6 mac u)
  else Done (mk_mcast_addr inet mac u).
Definition no_client (n : nat) : ip_addr_t :=
  with_ip 0 (ia_ip (py_stale_addr E n 4)) (py_stale_addr E n 4).
Definition mass_transfer_multicast_sender args s : out (Z * dh) :=
  match py_parse E "z#HIIIIz#Hz#z#" args with
  | [A_str (Some ip); A_int port; A_int vnid; A_int query_id; A_int fregister; A_int client_type;
     A_str mac; A_int inet; A_str mcast_ip; A_str tunnel_ip] =>
      let n := dh_now s in
      let type := if fregister =? 0 then DPS_MCAST_SENDER_DEREGISTRATION
                  else DPS_MCAST_SENDER_REGISTRATION in
      let* hdr := node_hdr E n type (ch_sub_type (stale_hdr E n)) (u8 client_type)
                    DPS_TRANSACTION_MASS_COPY vnid query_id port ip in
      let* addr := mass_mcast_addr n inet (str_bytes mac) (str_bytes mcast_ip) in
      let* tunnel := from_packed (str_bytes tunnel_ip) (py_stale_addr E n 5) in
      Done (client_send E (mk_client_data 0 hdr (Body_mcast_sender
        (mk_mcast_sender tunnel (mk_endpoint_info vnid zero_mac zero_ip_addr) addr (no_client n)))) s)
  | _ => refused s
  end.
Definition mass_transfer_multicast_receiver args s : out (Z * dh) :=
  match py_parse E "z#HIIIIIz#Hz#z#" args with
  | [A_str (Some ip); A_int port; A_int vnid; A_int query_id; A_int fregister; A_int client_type;
     A_int global_scope; A_str mac; A_int inet; A_str mcast_ip; A_str tunnel_ip] =>
      let n := dh_now s in
      let type := if fregister =? 0 then DPS_MCAST_RECEIVER_LEAVE else DPS_MCAST_RECEIVER_JOIN in
      let* hdr := node_hdr E n type (ch_sub_type (stale_hdr E n)) (u8 client_type)
                    DPS_TRANSACTION_MASS_COPY vnid query_id port ip in
      let* addr := mass_mcast_addr n inet (str_bytes mac) (str_bytes mcast_ip) in
      let addr := if global_scope =? 0 then addr
                  else mk_mcast_addr MCAST_ADDR_V4_ICB_RANGE (ma_mcast_mac addr) (ma_ip addr) in
      let* tunnel := from_packed (str_bytes tunnel_ip) (py_stale_addr E n 5) in
      Done (client_send E (mk_client_data 0 hdr (Body_mcast_receiver
        (mk_mcast_receiver tunnel (no_client n) (mk_mcast_group_record addr 0 AF_INET [])))) s)
  | _ => refused s
  end.

(** ** The reply Python was given *)
Definition with_status (status : Z) (m : dps_client_data_t) : dps_client_data_t :=
  let h := cd_hdr m in
  mk_client_data (cd_context m)
    (mk_client_hdr (ch_type h) (ch_sub_type h) (ch_client_id h) (ch_transaction_type h) (ch_vnid h)
       status (ch_query_id h) (ch_reply_addr h)) (cd_body m).
Definition send_message_and_free args s : out (Z * dh) :=
  match py_parse E "OI" args with
  | [A_obj message; A_int resp_err] =>
      let p := py_void_ptr E message in
      if p =? 0 then Done (0, s)
      else
        let* m := message_at p s in
        let s := dps_msg_send_inline E (with_status resp_err m) s in
        let* s := dh_free p s in
        Done (0, s)
  | _ => Done (0, s)
  end.

(** ** Any of them *)
Definition c_call (f : c_fun) (args : object E) : dh -> out (Z * dh) :=
  match f with
  | C_send_all_connectivity_policies => send_all_connectivity_policies args
  | C_send_gateways => send_gateways args
  | C_send_multicast_tunnels => send_multicast_tunnels args
  | C_send_broadcast_table => send_broadcast_table args
  | C_send_address_resolution => send_address_resolution args
  | C_send_heartbeat => send_heartbeat args
  | C_send_vnid_deletion => send_vnid_deletion args
  | C_send_endpoint_reply => send_endpoint_reply args
  | C_send_all_vm_migration_update => send_all_vm_migration_update args
  | C_mass_transfer_endpoint => mass_transfer_endpoint args
  | C_mass_transfer_tunnel => mass_transfer_tunnel args
  | C_mass_transfer_multicast_sender => mass_transfer_multicast_sender args
  | C_mass_transfer_multicast_receiver => mass_transfer_multicast_receiver args
  | C_send_message_and_free => send_message_and_free args
  end.
Fixpoint c_calls (l : list (c_fun * object E)) (s : dh) : out dh :=
  match l with
  | [] => Done s
  | (f, args) :: l => let* (_, s) := c_call f args s in c_calls l s
  end.

(** ** Calling a method *)
Inductive py_result :=
| Not_built
| Raised
| Returned (o : object E).
(** [PyEval_CallObject] *)
Definition py_eval (f : py_fun) (args : list py_val) (s : dh) : out (py_result * dh) :=
  let '(calls, r) := py_answer E (dh_now s) f args in
  let* s := c_calls calls (dh_emit (Py_called f args) (dh_tick s)) in
  Done (match r with Some o => Returned o | None => Raised end, s).
(** [Py_BuildValue] before it. *)
Definition py_call (f : py_fun) (args : list py_val) (s : dh) : out (py_result * dh) :=
  if py_builds E (dh_now s) then py_eval f args (dh_tick s) else Done (Not_built, dh_tick s).
End calls.
Arguments Not_built {E}.
Arguments Raised {E}.
Arguments Returned {E} o.
