(* ===== verification/DhMsg.v ===== *)
(** * The data handler of the server: what it makes of a message

    [dps_protocol_send_to_server] and the function of
    [data_handler/src/client_protocol_interface.c] for each type of message:
    the question that is asked of Python and the reply that is made of its
    answer. *)
From stdpp Require Import gmap strings.
From S2P Require Export DhSend.
#[local] Open Scope Z_scope.

Definition SHARED_ADDR_SPACE_VNID : Z := 0.
Definition DPS_CONNECTIVITY_ALLOW : Z := 1.

Section handlers.
Context (E : py_env).
Implicit Types (msg : dps_client_data_t) (s : dh).

(** ** Replies *)
Definition reply_hdr (type sub_type vnid resp_status : Z) (h : dps_client_hdr_t) (to : ip_addr_t)
    : dps_client_hdr_t :=
  mk_client_hdr type sub_type (ch_client_id h) (ch_transaction_type h) vnid resp_status
    (ch_query_id h) to.
(** A request that is no copy of another node is answered to the client it
    names. *)
Definition reply_to (client : ip_addr_t) (h : dps_client_hdr_t) : ip_addr_t :=
  if ch_transaction_type h =? DPS_TRANSACTION_NORMAL then client else ch_reply_addr h.

(** 24 of the 28 bytes of the first tunnel are copied; the block has room for
    three. *)
Definition first_tunnel (n : nat) (l : dps_tunnel_list_t) : dps_tunnel_endpoint_t :=
  default (py_stale_tunnel E n 0) (head (tl_tunnel_list l)).
Definition reply_tunnels (n : nat) (l : dps_tunnel_list_t) : dps_tunnel_list_t :=
  let copied := te_of_bytes (take 24 (te_bytes (first_tunnel n l))
                             ++ drop 24 (te_bytes (py_stale_tunnel E n 1))) in
  mk_tunnel_list (tl_num_of_tunnels l) [copied; py_stale_tunnel E n 2; py_stale_tunnel E n 3].
Definition dps_form_endpoint_update_reply (n : nat) (h : dps_client_hdr_t) (x : dps_endpoint_update_t)
    (ret_code : Z) : dps_client_data_t :=
  let to := if (ch_transaction_type h =? DPS_TRANSACTION_NORMAL) && negb (ch_vnid h =? 0)
            then eu_dps_client_addr x else ch_reply_addr h in
  mk_client_data 0 (reply_hdr DPS_ENDPOINT_UPDATE_REPLY (ch_sub_type h) (eu_vnid x) ret_code h to)
    (Body_endpoint_update_reply
       (mk_endpoint_update_reply (eu_vnid x) (take 6 (eu_mac x)) (eu_version x) 0
          (py_stale_addr E n <$> seq 8 MAX_VIP_ADDR) (reply_tunnels n (eu_tunnel_info x)))).
Definition dps_form_tunnel_register_reply (h : dps_client_hdr_t) (x : dps_tunnel_reg_dereg_t)
    (ret_code : Z) : dps_client_data_t :=
  mk_client_data 0
    (reply_hdr DPS_REG_DEREGISTER_ACK
       (if ch_type h =? DPS_TUNNEL_REGISTER then DPS_TUNNEL_REG else DPS_TUNNEL_DEREG)
       (ch_vnid h) ret_code h (reply_to (tr_dps_client_addr x) h)) Body_none.
(** [sub_type] is not set. *)
Definition form_multicast_reply (n : nat) (h : dps_client_hdr_t) (client : ip_addr_t) (ret_code : Z)
    : dps_client_data_t :=
  mk_client_data 0
    (reply_hdr DPS_REG_DEREGISTER_ACK (ch_sub_type (stale_hdr E n)) (ch_vnid h) ret_code h
       (reply_to client h)) Body_none.
Definition dps_form_multicast_sender_register_reply (n : nat) (h : dps_client_hdr_t)
    (x : dps_mcast_sender_t) (ret_code : Z) : dps_client_data_t :=
  form_multicast_reply n h (ms_dps_client_addr x) ret_code.
Definition dps_form_multicast_receiver_register_reply (n : nat) (h : dps_client_hdr_t)
    (x : dps_mcast_receiver_t) (ret_code : Z) : dps_client_data_t :=
  form_multicast_reply n h (mr_dps_client_addr x) ret_code.

(** ** The answer of a replica *)
Definition dps_msg_update_reply (domain_id : Z) msg s : out (Z * dh) :=
  let f := if ch_transaction_type (cd_hdr msg) =? DPS_TRANSACTION_MASS_COPY then Transfer_Ack
           else ReplicationReplyProcess in
  let* (_, s) := py_call E f [V_int (ch_query_id (cd_hdr msg)); V_int (ch_resp_status (cd_hdr msg))] s in
  Done (DPS_SUCCESS, s).

(** ** Replication

    A copy of the update, each with a number of its own, to every node that
    keeps the domain; the number of this node's is the second result.  The
    reply at [reply] is Python's from then on.  An address is taken for this
    node's when it begins like it, and sixteen bytes are read of it. *)
Definition is_local_ip (b : list Z) : bool :=
  bool_decide (take (length b) (ia_ip (dcs_local_ip E)) = b).
Definition replica_addr (n : nat) (family port : Z) (ip : list Z) (a : ip_addr_t) : ip_addr_t :=
  with_ip family (swap_ip4 family (take 16 (ip ++ py_behind E n))) (with_port port a).
Definition readdressed (to : ip_addr_t) (qid : Z) (m : dps_client_data_t) : dps_client_data_t :=
  let h := cd_hdr m in
  mk_client_data (cd_context m)
    (mk_client_hdr (ch_type h) (ch_sub_type h) (ch_client_id h) (ch_transaction_type h) (ch_vnid h)
       (ch_resp_status h) qid to) (cd_body m).
Definition replica_copy (m : dps_client_data_t) : dps_client_data_t :=
  let h := cd_hdr m in
  mk_client_data 0
    (mk_client_hdr (ch_type h) (ch_sub_type h) (ch_client_id h) DPS_TRANSACTION_REPLICATION (ch_vnid h)
       DPS_NO_ERR (ch_query_id h) (ch_reply_addr h)) (cd_body m).
Fixpoint replicate_to (domain_id : Z) (reply : Z) (l : list (object E)) (qids : list (object E))
    (m : dps_client_data_t) (local_qid : Z) (s : dh) : out (Z * dh) :=
  match l with
  | [] => Done (local_qid, s)
  | o :: l =>
      match py_parse E "Hz#H" o with
      | [A_int family; A_str ip; A_int port] =>
          match head qids ≫= parse_I E with
          | None => replicate_to domain_id reply l (tail qids) m local_qid s
          | Some qid =>
              let ip := str_bytes ip in
              if is_local_ip ip then replicate_to domain_id reply l (tail qids) m qid s
              else
                let to := replica_addr (dh_now s) family port ip (ch_reply_addr (cd_hdr m)) in
                let m := readdressed to qid m in
                let '(_, s) := client_send E m s in
                let* (_, s) := if reply =? 0 then dps_msg_update_reply domain_id m s
                               else Done (0, s) in
                replicate_to domain_id reply l (tail qids) m local_qid s
          end
      | _ => replicate_to domain_id reply l (tail qids) m local_qid s
      end
  end.
Definition items_of (o : object E) : list (object E) := default [] (py_list E o).
Definition dps_update_replicate (domain_id : Z) (update_msg : dps_client_data_t) (reply msg_size : Z)
    (s : dh) : out (Z * Z * dh) :=
  let* (big, s) :=
    if Z.of_nat sizeof_client_data <? msg_size
    then Done (negb (py_mallocs E (dh_now s)), dh_tick s) else Done (false, s) in
  if (big : bool) || negb (py_builds E (dh_now s)) then Done (DPS_NO_MEMORY, 0, dh_tick s)
  else
    let* (r, s) := py_call E ReplicationQueryIDGenerate
                     [V_int domain_id; V_int (ch_transaction_type (cd_hdr update_msg)); V_ptr reply]
                     (dh_tick s) in
    match r with
    | Returned o =>
        match py_parse E "IOO" o with
        | A_int status :: rest =>
            if status =? DPS_NO_ERR then
              match rest with
              | [A_obj addrs; A_obj qids] =>
                  let* (qid, s) := replicate_to domain_id reply (items_of addrs) (items_of qids)
                                     (replica_copy update_msg) 0 s in
                  Done (DPS_NO_ERR, qid, s)
              | _ => Fault
              end
            else Done (status, 0, s)
        | _ => Fault
        end
    | _ => Done (DPS_NO_MEMORY, 0, s)
    end.

(** The update is done: [ReplicationReplyProcess]. *)
Definition replication_reply (query_id ret_code : Z) (s : dh) : out dh :=
  let* (_, s) := py_call E ReplicationReplyProcess [V_int query_id; V_int ret_code] s in Done s.

(** ** Updates of an endpoint *)
Definition is_ip (family : Z) : bool := (family =? AF_INET) || (family =? AF_INET6).
(** What Python answers into the addresses of the reply, which is Python's:
    the counter only counts what could be read, and the array is filled by the
    number of the object. *)
Fixpoint reply_vips (i : nat) (l : list (object E)) (r : dps_endpoint_update_reply_t)
    : out dps_endpoint_update_reply_t :=
  match l with
  | [] => Done r
  | o :: l =>
      if decide (i = MAX_VIP_ADDR) then Done r
      else
        let old := default zero_ip_addr (eur_vm_ip_addr r !! i) in
        let store a := mk_endpoint_update_reply (eur_vnid r) (eur_mac r) (eur_version r)
                         (eur_num_of_vip r + 1) (<[i := a]> (eur_vm_ip_addr r)) (eur_tunnel_info r) in
        if py_int_exact E o then
          match parse_I E o with
          | None => reply_vips (S i) l r
          | Some ip4 => reply_vips (S i) l (store (with_ip AF_INET (set_ip4 (ia_ip old) (ntohl ip4)) old))
          end
        else
          match parse_z E o with
          | None => reply_vips (S i) l r
          | Some ip6 =>
              let* u := memcpy_ip ip6 (ia_ip old) in
              reply_vips (S i) l (store (with_ip AF_INET6 u old))
          end
  end.
Definition write_vips (p : Z) (l : list (object E)) (s : dh) : out dh :=
  match l with
  | [] => Done s
  | _ =>
      let* m := message_at p s in
      let* r := as_endpoint_update_reply (cd_body m) in
      let* r := reply_vips 0 l r in
      Done (dh_with_blocks
              (<[p := Blk_message (mk_client_data (cd_context m) (cd_hdr m)
                                     (Body_endpoint_update_reply r))]> (dh_blocks s)) s)
  end.
Definition endpoint_update_args (domain_id : Z) (h : dps_client_hdr_t) (x : dps_endpoint_update_t)
    (pIP : dps_tunnel_endpoint_t) : list py_val :=
  let client := to_net (eu_dps_client_addr x) in
  let vIP := to_net (eu_vm_ip_addr x) in
  [V_int domain_id; V_int (ch_vnid h); V_int (eu_vnid x); V_int (ch_client_id h);
   V_int (ch_transaction_type h); V_int (ia_family client); V_str (ia_ip client);
   V_int (ia_port client); V_int (te_family pIP); V_str (swap_ip4 (te_family pIP) (te_ip pIP));
   V_str (take 6 (eu_mac x)); V_int (ia_family vIP); V_str (ia_ip vIP); V_int (ch_sub_type h);
   V_int (eu_version x)].
(** The update of the address space all networks share, after that of the
    network: its answer comes back to this node. *)
Definition shared_update (n : nat) (query_id : Z) (h : dps_client_hdr_t) (x : dps_endpoint_update_t)
    : dps_client_data_t :=
  mk_client_data 0
    (mk_client_hdr (ch_type h) (ch_sub_type h) (ch_client_id h) (ch_transaction_type h)
       SHARED_ADDR_SPACE_VNID (ch_resp_status h) query_id (to_net (dcs_local_ip E)))
    (Body_endpoint_update (mk_endpoint_update (eu_vnid x) (eu_mac x) 0 (eu_vm_ip_addr x)
       (eu_dps_client_addr x) (eu_tunnel_info x))).
Fixpoint dps_msg_endpoint_update (fuel : nat) (domain_id : Z) msg s : out (Z * dh) :=
  match fuel with
  | O => Timeout
  | S fuel =>
      let h := cd_hdr msg in
      let n := dh_now s in
      let* x := as_endpoint_update (cd_body msg) in
      let '(p, s) := dh_malloc E (Blk_message (dps_form_endpoint_update_reply n h x DPS_NO_ERR)) s in
      let tunnels := eu_tunnel_info x in
      let pIP := first_tunnel n tunnels in
      if p =? 0 then Done (DPS_ERROR, s)
      else if negb (is_ip (ia_family (eu_dps_client_addr x)))
              || negb (tl_num_of_tunnels tunnels =? 0) && negb (is_ip (te_family pIP))
              || negb (is_ip (ia_family (eu_vm_ip_addr x)))
      then let* s := dh_free p s in Done (DPS_ERROR, s)
      else
        let* (ret_code, query_id, s) :=
          dps_update_replicate domain_id msg p (116 + SZ_TUNNEL * tl_num_of_tunnels tunnels) s in
        if negb (ret_code =? DPS_NO_ERR) then let* s := dh_free p s in Done (DPS_ERROR, s)
        else if query_id =? 0 then Done (DPS_SUCCESS, s)
        else
          let* (r, s) := py_call E Endpoint_Update (endpoint_update_args domain_id h x pIP) s in
          match r with
          | Returned o =>
              match py_parse E "IIIO" o with
              | [A_int ret_code; A_int shared_address; A_int _; A_obj vIPs] =>
                  let* s := write_vips p (items_of vIPs) s in
                  let* s :=
                    if (ret_code =? DPS_NO_ERR) && (ch_transaction_type h =? DPS_TRANSACTION_NORMAL)
                       && negb (shared_address =? 0)
                    then let* (_, s) := dps_msg_endpoint_update fuel 0 (shared_update n query_id h x) s in
                         Done s
                    else replication_reply query_id ret_code s in
                  Done (if ret_code =? DPS_NO_ERR then DPS_SUCCESS else DPS_ERROR, s)
              | _ => Fault
              end
          | _ => Done (DPS_ERROR, s)
          end
  end.

(** ** Where an endpoint is *)

(** The reply is on the stack, with room for [room] tunnels; a longer list of
    tunnels gets a block of its own, and without memory only one goes in. *)
Definition list_size (o : object E) : Z :=
  match py_list E o with Some l => Z.of_nat (length l) | None => -1 end.
Definition reply_tunnel4 (room : nat) (vnid : Z) (n j : nat) (o : object E)
    : out (option dps_tunnel_endpoint_t) :=
  match parse_I E o with
  | Some _ => if decide (room <= j)%nat then Fault else vnid_tunnel4 E vnid n j o
  | None => Done None
  end.
Definition reply_tunnel6 (room : nat) (vnid : Z) (n j : nat) (o : object E)
    : out (option dps_tunnel_endpoint_t) :=
  match parse_z E o with
  | Some _ => if decide (room <= j)%nat then Fault else vnid_tunnel6 E vnid n j o
  | None => Done None
  end.
(** The first result is whether the list is in a block of its own. *)
Definition location_tunnels (room : nat) (vnid : Z) (n : nat) (o4 o6 : object E) (s : dh)
    : out (bool * dps_tunnel_list_t * dh) :=
  let n4 := list_size o4 in
  let n6 := list_size o6 in
  let big := Z.of_nat room <? n4 + n6 in
  let ok := py_mallocs E (dh_now s) in
  let '(n4, n6) := if big && negb ok then if 0 <? n4 then (1, 0) else (0, 1) else (n4, n6) in
  let room := if big && ok then Z.to_nat (n4 + n6) else room in
  let* l := gather E (Z.to_nat n4) (reply_tunnel4 room vnid n) (take (Z.to_nat n4) (items_of o4)) [] in
  let* l := gather E (Z.to_nat n6 + length l) (reply_tunnel6 room vnid n)
              (take (Z.to_nat n6) (items_of o6)) l in
  Done (big && ok, mk_tunnel_list (u16 (Z.of_nat (length l))) l, if big then dh_tick s else s).

(** [exact]: sixteen bytes are copied, otherwise as many as there are. *)
Definition reply_mac (mac : option (list Z)) : out (list Z) :=
  match mac with None => Done zero_mac | Some b => mac6 b end.
Definition reply_vip (exact : bool) (n : nat) (ip : option (list Z)) : out ip_addr_t :=
  let a := py_stale_addr E n 0 in
  match ip with
  | None => Done a
  | Some b =>
      if is_packed4 b then from_packed b a
      else if exact then
        if decide (16 <= length b)%nat then Done (with_ip AF_INET6 (take 16 b) a) else Fault
      else from_packed b a
  end.
Definition stale_loc_reply (n : nat) : dps_endpoint_loc_reply_t :=
  mk_endpoint_loc_reply (py_stale_word E n 1) (le32 (py_stale_word E n 2) ++ le16 (py_stale_word E n 3))
    (py_stale_addr E n 0) (py_stale_word E n 4) (mk_tunnel_list (py_stale_word E n 5 mod 65536) []).
Definition error_loc_reply (vnid : Z) (mac : list Z) (ip : ip_addr_t) : dps_endpoint_loc_reply_t :=
  mk_endpoint_loc_reply vnid mac ip 0 zero_tunnel_list.

(** The reply to a client, and its status until there is an answer. *)
Definition server_reply_hdr (type sub_type resp_status : Z) (h : dps_client_hdr_t) (to : ip_addr_t)
    : dps_client_hdr_t :=
  mk_client_hdr type sub_type DPS_POLICY_SERVER_ID DPS_TRANSACTION_NORMAL (ch_vnid h) resp_status
    (ch_query_id h) to.

(** [vIPv4 == 0]: the first four bytes of the address, whatever its family. *)
Definition by_mac (a : ip_addr_t) : bool := ntohl (ia_ip4 a) =? 0.
(** [vIP_type] is [AF_INET] or not; the arguments of the second call name the
    domain twice, and so are one more than the format says. *)
Definition dps_msg_endpoint_request (domain : Z) msg s : out (Z * dh) :=
  let h := cd_hdr msg in
  let n := dh_now s in
  let* q := as_endpoint_loc_req (cd_body msg) in
  let vIP := elq_vm_ip_addr q in
  let client := to_net (elq_dps_client_addr q) in
  let reply sub_type status body :=
    mk_client_data 0 (server_reply_hdr DPS_ENDPOINT_LOC_REPLY sub_type status h (elq_dps_client_addr q))
      (Body_endpoint_loc_reply body) in
  let* (r, s) :=
    if by_mac vIP then
      py_call E Endpoint_Location_vMac
        [V_int domain; V_int (elq_vnid q); V_str (take 6 (elq_mac q))] s
    else if ia_family vIP =? AF_INET then
      py_call E Endpoint_Location_vIP
        [V_int domain; V_int (ch_client_id h); V_int (ia_family client); V_str (ia_ip client);
         V_int (elq_vnid q); V_int (ia_family vIP); V_int (ntohl (ia_ip4 vIP))] s
    else
      let* args := Py_BuildValue "(IIIz#IIz#)"
        [C_int domain; C_int domain; C_int (ch_client_id h); C_int (ia_family client);
         C_ptr (ia_ip client); C_int 16; C_int (elq_vnid q); C_int (ia_family vIP);
         C_ptr (ia_ip vIP); C_int 16] in
      py_call E Endpoint_Location_vIP args s in
  match r with
  | Returned o =>
      match py_parse E "IIIOOz#z#I" o with
      | [A_int ret_code; A_int dvg; A_int version; A_obj l4; A_obj l6; A_str vMac; A_str ip;
         A_int fGateway] =>
          let sub_type := if fGateway =? 0 then DPS_ENDPOINT_LOC_REPLY_VM
                          else DPS_ENDPOINT_LOC_REPLY_GW in
          if ret_code =? DPS_NO_ERR then
            let* mac := reply_mac vMac in
            let* addr := reply_vip true n ip in
            let* (_, tunnels, s) := location_tunnels 16 dvg n l4 l6 s in
            Done (DPS_SUCCESS, dps_msg_send_inline E (reply sub_type ret_code
                    (mk_endpoint_loc_reply dvg mac addr version tunnels)) s)
          else
            Done (DPS_ERROR, dps_msg_send_inline E (reply sub_type ret_code
                    (error_loc_reply (elq_vnid q) (take 6 (elq_mac q)) vIP)) s)
      | _ => Fault
      end
  | _ => Done (DPS_ERROR, dps_msg_send_inline E (reply (ch_sub_type (stale_hdr E n)) DPS_NO_MEMORY
                            (stale_loc_reply n)) s)
  end.

(** ** Policies *)

(** [dps_object_policy_action_t]: [NULL] forbids. *)
Definition action_allows (action : option (list Z)) : out bool :=
  match action with
  | None => Done false
  | Some b =>
      if decide (4 <= length b)%nat then Done (le16_at b 2 =? DPS_CONNECTIVITY_ALLOW) else Fault
  end.
Definition stale_policy (n : nat) : dps_policy_t :=
  mk_policy (py_stale_word E n 6 mod 256) (py_stale_word E n 7 mod 256) (py_stale_word E n 8 mod 65536)
    (py_stale_word E n 9 mod 65536) [mk_rule (py_stale_word E n 10) (py_stale_word E n 11)].
Definition reply_policy (n : nat) (svnid dvg version ttl type : Z) (action : option (list Z))
    : out dps_policy_info_t :=
  let old := stale_policy n in
  let* p :=
    if type =? DPS_POLICY_TYPE_CONNECTIVITY then
      let* allowed := action_allows action in
      Done (mk_policy (pl_version old) (u8 type) (if (allowed : bool) then 1 else 0)
              (if (allowed : bool) then 0 else 1) [mk_rule svnid dvg])
    else Done (mk_policy (pl_version old) (u8 type) (pl_num_permit_rules old) (pl_num_deny_rules old)
                 (pl_src_dst_vnid old)) in
  Done (mk_policy_info (py_stale_word E n 12) version ttl p).
(** The reply on the stack is sent, and not the block a long list was put
    in. *)
Definition dps_msg_policy_request (domain : Z) msg s : out (Z * dh) :=
  let h := cd_hdr msg in
  let n := dh_now s in
  let* q := as_policy_req (cd_body msg) in
  let svnid := ei_vnid (pq_src_endpoint q) in
  let vIP := ei_vm_ip_addr (pq_dst_endpoint q) in
  let client := to_net (pq_dps_client_addr q) in
  let reply status body :=
    mk_client_data 0 (server_reply_hdr DPS_POLICY_REPLY (ch_sub_type (stale_hdr E n)) status h
                        (pq_dps_client_addr q)) (Body_policy_reply body) in
  let stale := mk_policy_info (py_stale_word E n 12) (py_stale_word E n 13) (py_stale_word E n 14)
                 (stale_policy n) in
  let* (r, s) :=
    if by_mac vIP then
      py_call E Policy_Resolution_vMac
        [V_int domain; V_int svnid; V_str (take 6 (ei_mac (pq_dst_endpoint q)))] s
    else
      py_call E Policy_Resolution_vIP
        [V_int domain; V_int (ch_client_id h); V_int (ia_family client); V_str (ia_ip client);
         V_int svnid; V_int (ia_family vIP);
         if ia_family vIP =? AF_INET then V_int (ntohl (ia_ip4 vIP)) else V_str (ia_ip vIP)] s in
  match r with
  | Returned o =>
      match py_parse E "IIIOOz#z#IIIz#" o with
      | [A_int ret_code; A_int dvg; A_int version; A_obj l4; A_obj l6; A_str vMac; A_str ip;
         A_int policy_version; A_int ttl; A_int type; A_str action] =>
          if ret_code =? DPS_NO_ERR then
            let* mac := reply_mac vMac in
            let* addr := reply_vip false n ip in
            let* (elsewhere, tunnels, s) := location_tunnels 15 dvg n l4 l6 s in
            let* policy := reply_policy n svnid dvg policy_version ttl type action in
            let body :=
              if (elsewhere : bool) then
                mk_policy_reply stale
                  (mk_endpoint_loc_reply dvg mac addr version (elr_tunnel_info (stale_loc_reply n)))
              else mk_policy_reply policy (mk_endpoint_loc_reply dvg mac addr version tunnels) in
            Done (DPS_SUCCESS, dps_msg_send_inline E (reply ret_code body) s)
          else
            Done (DPS_ERROR, dps_msg_send_inline E (reply ret_code
                    (mk_policy_reply zero_policy_info (error_loc_reply 0 zero_mac vIP))) s)
      | _ => Fault
      end
  | _ => Done (DPS_ERROR, dps_msg_send_inline E (reply DPS_NO_MEMORY
                            (mk_policy_reply stale (stale_loc_reply n))) s)
  end.

(** ** Lists of a network

    The reply keeps the sub type, the network and the number of the request.
    With an error its body is not written, nor sent; it is an empty list
    here. *)
Definition list_reply (type status : Z) (h : dps_client_hdr_t) (to : ip_addr_t) (b : dps_client_body)
    : dps_client_data_t :=
  mk_client_data 0 (mk_client_hdr type (ch_sub_type h) DPS_POLICY_SERVER_ID DPS_TRANSACTION_NORMAL
                      (ch_vnid h) status (ch_query_id h) to) b.
(** [f(...)] answers with a status and two lists. *)
Definition ask_lists (f : py_fun) (args : list py_val) (s : dh)
    : out (Z * list (object E) * list (object E) * dh) :=
  let* (r, s) := py_call E f args s in
  match r with
  | Returned o =>
      match py_parse E "IOO" o with
      | A_int status :: rest =>
          if status =? DPS_NO_ERR then
            match rest with
            | [A_obj l4; A_obj l6] => Done (status, items_of l4, items_of l6, s)
            | _ => Fault
            end
          else Done (status, [], [], s)
      | _ => Fault
      end
  | _ => Done (DPS_NO_MEMORY, [], [], s)
  end.
Definition dps_msg_implicit_gateway_request (domain : Z) msg s : out (Z * dh) :=
  let h := cd_hdr msg in
  let n := dh_now s in
  let* q := as_gen_msg_req (cd_body msg) in
  let* (status, l4, l6, s) := ask_lists Implicit_Gateway_List [V_int domain; V_int (ch_vnid h)] s in
  let* (n4, n6, w) := packed E false room_internal_gw n l4 l6 in
  Done (DPS_SUCCESS, dps_msg_send_inline E (list_reply DPS_INTERNAL_GW_REPLY status h
          (gm_dps_client_addr q) (Body_internal_gw_list (mk_internal_gw n4 n6 w))) s).
Definition dps_msg_gateway_request (domain : Z) msg s : out (Z * dh) :=
  let h := cd_hdr msg in
  let n := dh_now s in
  let* q := as_gen_msg_req (cd_body msg) in
  let external := ch_type h =? DPS_EXTERNAL_GW_LIST_REQ in
  let* (status, l4, l6, s) :=
    ask_lists Gateway_List [V_int domain; V_int (ch_vnid h);
      V_int (if external then GATEWAY_TYPE_EXTERNAL else GATEWAY_TYPE_VLAN)] s in
  let* gw := gateways E n l4 l6 in
  Done (DPS_SUCCESS, dps_msg_send_inline E (list_reply
          (if external then DPS_EXTERNAL_GW_LIST_REPLY else DPS_VLAN_GW_LIST_REPLY) status h
          (gm_dps_client_addr q) (Body_tunnel_info gw)) s).
Definition dps_msg_broadcast_list_request (domain : Z) msg s : out (Z * dh) :=
  let h := cd_hdr msg in
  let n := dh_now s in
  let* q := as_gen_msg_req (cd_body msg) in
  let* (status, l4, l6, s) := ask_lists Broadcast_List [V_int domain; V_int (ch_vnid h)] s in
  let* (n4, n6, w) := packed E true room_bcast n l4 l6 in
  Done (DPS_SUCCESS, dps_msg_send_inline E (list_reply DPS_BCAST_LIST_REPLY status h
          (gm_dps_client_addr q)
          (Body_dove_switch_list (mk_pkd_tunnel_list (py_stale_word E n 1) n4 n6 w))) s).
Definition dps_msg_vnid_policy_request (domain : Z) msg s : out (Z * dh) :=
  let h := cd_hdr msg in
  let* q := as_gen_msg_req (cd_body msg) in
  let client := to_net (gm_dps_client_addr q) in
  let* (_, s) := py_call E Policy_Updates_Send_To
    [V_int (ch_vnid h); V_int (ch_query_id h); V_int (ia_family client); V_str (ia_ip client)] s in
  Done (DPS_SUCCESS, s).
(** The counter of the list stays 0. *)
Definition dps_msg_multicast_global_scope_request (domain : Z) msg s : out (Z * dh) :=
  let h := cd_hdr msg in
  let n := dh_now s in
  let* q := as_gen_msg_req (cd_body msg) in
  let reply status l :=
    mk_client_data 0
      (mk_client_hdr DPS_MCAST_CTRL_GW_REPLY (ch_sub_type h) (ch_client_id h) (ch_transaction_type h)
         (ch_vnid h) status (ch_query_id h) (gm_dps_client_addr q))
      (Body_tunnel_info (mk_tunnel_list 0 l)) in
  let* (r, s) := py_call E Multicast_Global_Scope_Get [V_int domain] s in
  let* m :=
    match r with
    | Returned o =>
        match py_parse E "IIz#" o with
        | [A_int status; A_int vnid; A_str ip] =>
            if status =? DPS_NO_ERR then
              let b := str_bytes ip in
              let t := py_stale_tunnel E n 0 in
              let* u := if is_packed4 b then Done (set_ip4 (te_ip t) (ntohl (get_ip4 b)))
                        else memcpy_ip b (te_ip t) in
              Done (reply status [mk_tunnel (if is_packed4 b then AF_INET else AF_INET6) (te_port t) vnid
                                    (te_tunnel_type t) TUNNEL_IS_DESIGNATED_MCAST_GW u])
            else Done (reply status [])
        | A_int status :: _ => Done (reply status [])
        | _ => Done (reply DPS_NO_MEMORY [])
        end
    | _ => Done (reply DPS_NO_MEMORY [])
    end in
  Done (DPS_SUCCESS, dps_msg_send_inline E m s).

(** ** A machine that has moved

    The client that hosts the source is sent the policy it would be sent if it
    had asked. *)
Definition migration_request (n : nat) (q : dps_vm_migration_event_t) (to : ip_addr_t) (dvg : Z)
    : dps_client_data_t :=
  mk_client_data 0
    (mk_client_hdr DPS_POLICY_REQ (ch_sub_type (stale_hdr E n)) DPS_SWITCH_AGENT_ID
       DPS_TRANSACTION_NORMAL dvg (py_stale_word E n 1) 0 to)
    (Body_policy_req (mk_policy_req
       (mk_endpoint_info (py_stale_word E n 2) (take 6 (ei_mac (vm_migrated_vm_info q)))
          (ei_vm_ip_addr (vm_migrated_vm_info q)))
       (mk_endpoint_info dvg (take 6 (elr_mac (vm_src_vm_loc q))) (elr_vm_ip_addr (vm_src_vm_loc q))) to)).
Definition migration_client (n : nat) (ip : list Z) (port : Z) : out ip_addr_t :=
  let a := with_port (u16 port) (py_stale_addr E n 2) in
  if is_packed4 ip || (length ip =? 16)%nat then from_packed ip a else Done a.
Definition dps_msg_vm_migration_event (domain : Z) msg s : out (Z * dh) :=
  let n := dh_now s in
  let* q := as_vm_migration_event (cd_body msg) in
  let t := first_tunnel n (elr_tunnel_info (vm_src_vm_loc q)) in
  let src := to_net (elr_vm_ip_addr (vm_src_vm_loc q)) in
  if negb (py_builds E n) then Done (DPS_SUCCESS, dh_tick s)
  else if negb (py_builds E (S n)) then Done (DPS_SUCCESS, dh_tick (dh_tick s))
  else
    let* (r1, s) := py_eval E pIP_Get_DPS_Client
      [V_int domain; V_int (te_family t); V_str (swap_ip4 (te_family t) (te_ip t))]
      (dh_tick (dh_tick s)) in
    let* (r2, s) := py_eval E vIP_Get_DVG [V_int domain; V_int (ia_family src); V_str (ia_ip src)] s in
    match r1, r2 with
    | Returned o1, Returned o2 =>
        let* from :=
          match py_parse E "Iz#I" o1 with
          | A_int status :: rest =>
              if status =? DPS_NO_ERR then
                match rest with
                | [A_str ip; A_int port] =>
                    let* a := migration_client n (str_bytes ip) port in Done (Some a)
                | _ => Fault
                end
              else Done None
          | _ => Done None
          end in
        let* dvg :=
          match py_parse E "II" o2 with
          | A_int status :: rest =>
              if status =? DPS_NO_ERR then
                match rest with [A_int dvg] => Done (Some dvg) | _ => Fault end
              else Done None
          | _ => Done None
          end in
        match from, dvg with
        | Some to, Some dvg =>
            let* (_, s) := dps_msg_policy_request domain (migration_request n q to dvg) s in
            Done (DPS_SUCCESS, s)
        | _, _ => Done (DPS_SUCCESS, s)
        end
    | _, _ => Done (DPS_SUCCESS, s)
    end.

(** ** Acknowledgements *)
Definition ack_call (status : Z) (c : unsolicited_msg_context_t) : out (option (py_fun * list py_val)) :=
  let ty := cx_original_msg_type c in
  let a := cx_dps_client_location c in
  let args := [V_int ty; V_int status; V_int (cx_vnid_id c); V_int (ia_family a); V_str (ia_ip a)] in
  if existsb (Z.eqb ty) [DPS_UNSOLICITED_VNID_POLICY_LIST; DPS_UNSOLICITED_BCAST_LIST_REPLY;
       DPS_UNSOLICITED_EXTERNAL_GW_LIST; DPS_UNSOLICITED_VLAN_GW_LIST; DPS_CTRL_PLANE_HB]
  then Done (Some (Handle_Unsolicited_Message_Reply, args))
  else if existsb (Z.eqb ty) [DPS_ADDR_RESOLVE; DPS_UNSOLICITED_ENDPOINT_LOC_REPLY] then
    let* v := of_option (cx_vIP c) in
    Done (Some (Handle_Resolution_Reply, args ++ [V_int (ia_family v); V_str (ia_ip v)]))
  else Done None.
Definition dps_msg_general_ack (domain : Z) msg s : out (Z * dh) :=
  let p := cd_context msg in
  if p =? 0 then Done (DPS_SUCCESS, s)
  else
    let* c := told_context p s in
    let* call := ack_call (ch_resp_status (cd_hdr msg)) c in
    let* s := match call with
              | Some (f, args) => let* (_, s) := py_call E f args s in Done s
              | None => Done s
              end in
    let* s := dh_free p s in
    Done (DPS_SUCCESS, dh_count (-1) s).

(** ** Registrations

    An error is not reported to the client: the reply is freed.  That of a
    multicast receiver is. *)
Definition tunnel_item (t : dps_tunnel_endpoint_t) : py_val :=
  if te_family t =? AF_INET then V_tuple [V_int AF_INET; V_int (ntohl (te_ip4 t))]
  else V_tuple [V_int AF_INET6; V_str (te_ip t)].
(** A list of [k] objects is built, one by one. *)
Fixpoint builds_all (k : nat) (s : dh) : bool * dh :=
  match k with
  | O => (true, s)
  | S k => if py_builds E (dh_now s) then builds_all k (dh_tick s) else (false, dh_tick s)
  end.
(** [strret], a number, is the result of the registration, which Python is
    told. *)
Definition register (f : py_fun) (args : list py_val) (query_id : Z) (s : dh) : out (Z * dh) :=
  let* (r, s) := py_call E f args s in
  match r with
  | Returned o =>
      let* s := replication_reply query_id (default DPS_NO_ERR (parse_I E o)) s in
      Done (DPS_SUCCESS, s)
  | _ => Done (DPS_ERROR_NO_RESOURCES, s)
  end.
Definition tunnel_reg_args (domain : Z) (h : dps_client_hdr_t) (x : dps_tunnel_reg_dereg_t)
    (pips : list py_val) : py_fun * list py_val :=
  let client := to_net (tr_dps_client_addr x) in
  if ch_type h =? DPS_TUNNEL_REGISTER then
    (Tunnel_Register,
     [V_int domain; V_int (ch_vnid h); V_int (ch_client_id h); V_int (ch_transaction_type h);
      V_int (ia_family client); V_str (ia_ip client); V_int (ia_port client); V_list pips])
  else
    (Tunnel_Unregister,
     [V_int domain; V_int (ch_vnid h); V_int (ch_client_id h); V_list pips]).
Definition dps_msg_tunnel_register (domain : Z) msg s : out (Z * dh) :=
  let h := cd_hdr msg in
  let* x := as_tunnel_reg_dereg (cd_body msg) in
  let num := tl_num_of_tunnels (tr_tunnel_info x) in
  let '(p, s) := dh_malloc E (Blk_message (dps_form_tunnel_register_reply h x DPS_NO_ERR)) s in
  if p =? 0 then Done (DPS_SUCCESS, s)
  else if num <=? 0 then let* s := dh_free p s in Done (DPS_SUCCESS, s)
  else
    let* (ret_code, query_id, s) := dps_update_replicate domain msg p (76 + SZ_TUNNEL * num) s in
    if negb (ret_code =? DPS_NO_ERR) then let* s := dh_free p s in Done (DPS_SUCCESS, s)
    else if query_id =? 0 then Done (DPS_SUCCESS, s)
    else
      let l := tl_tunnel_list (tr_tunnel_info x) in
      if decide (length l < Z.to_nat num)%nat then Fault
      else
        let '(built, s) := builds_all (S (Z.to_nat num)) s in
        if (built : bool) then
          let '(f, args) := tunnel_reg_args domain h x (tunnel_item <$> take (Z.to_nat num) l) in
          register f args query_id s
        else Done (DPS_ERROR_NO_RESOURCES, s).

(** [multicast_address] and [tunnel_address], as Python is given them. *)
Definition mcast_addr_args (n : nat) (m : dps_mcast_addr_t) (tunnel : ip_addr_t) : list py_val :=
  let t := to_net tunnel in
  let stale := ia_ip (py_stale_addr E n 6) in
  let '(family, u) :=
    if ma_mcast_addr_type m =? MCAST_ADDR_V4 then (AF_INET, set_ip4 stale (ntohl (ma_mcast_ip4 m)))
    else if ma_mcast_addr_type m =? MCAST_ADDR_V6 then (AF_INET6, ma_ip m)
    else (0, stale) in
  [V_str (take 6 (ma_mcast_mac m)); V_int family; V_str u; V_int (ia_family t); V_str (ia_ip t)].
Definition client_args (domain : Z) (h : dps_client_hdr_t) : list py_val :=
  [V_int domain; V_int (ch_vnid h); V_int (ch_client_id h); V_int (ch_transaction_type h)].
Definition dps_msg_multicast_sender_register (domain : Z) msg s : out (Z * dh) :=
  let h := cd_hdr msg in
  let n := dh_now s in
  let* x := as_mcast_sender (cd_body msg) in
  let '(p, s) := dh_malloc E (Blk_message (dps_form_multicast_sender_register_reply n h x DPS_NO_ERR)) s in
  if p =? 0 then Done (DPS_SUCCESS, s)
  else
    let* (ret_code, query_id, s) :=
      dps_update_replicate domain msg p (Z.of_nat sizeof_client_data) s in
    if negb (ret_code =? DPS_NO_ERR) then let* s := dh_free p s in Done (DPS_SUCCESS, s)
    else if query_id =? 0 then Done (DPS_SUCCESS, s)
    else
      register (if ch_type h =? DPS_MCAST_SENDER_REGISTRATION then Multicast_Sender_Register
                else Multicast_Sender_Unregister)
        (client_args domain h ++ mcast_addr_args n (ms_mcast_addr x) (ms_tunnel_endpoint x)) query_id s.
Definition dps_msg_multicast_receiver_register (domain : Z) msg s : out (Z * dh) :=
  let h := cd_hdr msg in
  let n := dh_now s in
  let* x := as_mcast_receiver (cd_body msg) in
  let '(p, s) := dh_malloc E (Blk_message (dps_form_multicast_receiver_register_reply n h x DPS_NO_ERR)) s in
  let addr := mg_mcast_addr (mr_mcast_group_rec x) in
  if p =? 0 then Done (DPS_SUCCESS, s)
  else
    let* (ret_code, query_id, s) :=
      dps_update_replicate domain msg p (Z.of_nat sizeof_client_data) s in
    if negb (ret_code =? DPS_NO_ERR) then
      let* m := message_at p s in
      let* s := dh_free p (dps_msg_send_inline E (with_status ret_code m) s) in
      Done (DPS_SUCCESS, s)
    else if query_id =? 0 then Done (DPS_SUCCESS, s)
    else
      register (if ch_type h =? DPS_MCAST_RECEIVER_JOIN then Multicast_Receiver_Register
                else Multicast_Receiver_Unregister)
        (client_args domain h
         ++ [V_int (if ma_mcast_addr_type addr =? MCAST_ADDR_V4_ICB_RANGE then 1 else 0)]
         ++ mcast_addr_args n addr (mr_tunnel_endpoint x)) query_id s.

(** ** Which function a message is for

    [dps_msg_functions_init]; a type of message without a function is [None]. *)
Definition dps_msg_function_array (fuel : nat) (type : Z) : option (Z -> dps_client_data_t -> dh -> out (Z * dh)) :=
  let one l := existsb (Z.eqb type) l in
  if one [DPS_ENDPOINT_LOC_REQ] then Some dps_msg_endpoint_request
  else if one [DPS_POLICY_REQ] then Some dps_msg_policy_request
  else if one [DPS_ENDPOINT_UPDATE] then Some (dps_msg_endpoint_update fuel)
  else if one [DPS_ENDPOINT_UPDATE_REPLY; DPS_REG_DEREGISTER_ACK] then Some dps_msg_update_reply
  else if one [DPS_INTERNAL_GW_REQ] then Some dps_msg_implicit_gateway_request
  else if one [DPS_BCAST_LIST_REQ] then Some dps_msg_broadcast_list_request
  else if one [DPS_VM_MIGRATION_EVENT] then Some dps_msg_vm_migration_event
  else if one [DPS_MCAST_SENDER_REGISTRATION; DPS_MCAST_SENDER_DEREGISTRATION]
  then Some dps_msg_multicast_sender_register
  else if one [DPS_MCAST_RECEIVER_JOIN; DPS_MCAST_RECEIVER_LEAVE]
  then Some dps_msg_multicast_receiver_register
  else if one [DPS_GENERAL_ACK] then Some dps_msg_general_ack
  else if one [DPS_TUNNEL_REGISTER; DPS_TUNNEL_DEREGISTER] then Some dps_msg_tunnel_register
  else if one [DPS_EXTERNAL_GW_LIST_REQ; DPS_VLAN_GW_LIST_REQ] then Some dps_msg_gateway_request
  else if one [DPS_VNID_POLICY_LIST_REQ] then Some dps_msg_vnid_policy_request
  else if one [DPS_MCAST_CTRL_GW_REQ] then Some dps_msg_multicast_global_scope_request
  else None.
Definition dps_msg_forward_remote (type : Z) : bool :=
  existsb (Z.eqb type)
    [DPS_ENDPOINT_LOC_REQ; DPS_POLICY_REQ; DPS_POLICY_INVALIDATE; DPS_ENDPOINT_UPDATE;
     DPS_INTERNAL_GW_REQ; DPS_BCAST_LIST_REQ; DPS_VM_MIGRATION_EVENT; DPS_MCAST_SENDER_REGISTRATION;
     DPS_MCAST_SENDER_DEREGISTRATION; DPS_MCAST_RECEIVER_JOIN; DPS_MCAST_RECEIVER_LEAVE;
     DPS_TUNNEL_REGISTER; DPS_TUNNEL_DEREGISTER; DPS_EXTERNAL_GW_LIST_REQ; DPS_VLAN_GW_LIST_REQ;
     DPS_VNID_POLICY_LIST_REQ; DPS_MCAST_CTRL_GW_REQ].

(** ** A domain of another node *)

(** The node is [NULL] when there is none; [node] is the reply address of the
    message. *)
Definition dps_get_domain_random_remote_node (domain_id : Z) (node : ip_addr_t) (s : dh)
    : out (Z * ip_addr_t * dh) :=
  let* (r, s) := py_call E Domain_Get_Random_Remote_Node [V_int domain_id] s in
  match r with
  | Returned o =>
      match py_parse E "IHz#H" o with
      | A_int status :: rest =>
          if status =? DOVE_STATUS_OK then
            match rest with
            | [A_int family; A_str ip; A_int port] =>
                let* u := memcpy_ip (str_bytes ip) (ia_ip node) in
                Done (status, with_ip family u (with_port port node), s)
            | _ => Fault
            end
          else Done (status, node, s)
      | _ => Done (DOVE_STATUS_NO_MEMORY, node, s)
      end
  | _ => Done (DOVE_STATUS_NO_MEMORY, node, s)
  end.
Definition dps_msg_forward_if_necessary msg (domain_id : Z) s : out (Z * dh) :=
  let h := cd_hdr msg in
  let* (status, node, s) := dps_get_domain_random_remote_node domain_id (ch_reply_addr h) s in
  if status =? DOVE_STATUS_OK then
    let m := readdressed (to_net node) (ch_query_id h) (mk_client_data 0 h (cd_body msg)) in
    Done (DOVE_STATUS_OK, dps_msg_send_inline E m s)
  else Done (status, s).

(** ** [dps_protocol_send_to_server]

    A method that raises leaves the status as it is; one that answers with
    something else leaves it unset. *)
Definition dps_protocol_send_to_server (fuel : nat) msg s : out (Z * dh) :=
  let h := cd_hdr msg in
  let ty := ch_type h in
  if negb (started s) then Done (DPS_ERROR, s)
  else
    let* (r, s) := py_call E Is_VNID_Handled_Locally [V_int (ch_vnid h); V_int (ch_transaction_type h)] s in
    match r with
    | Returned o =>
        let* (dps_status, local, domain_id) :=
          match py_parse E "III" o with
          | [A_int a; A_int b; A_int c] => Done (a, b, c)
          | [A_int a; A_int b] => Done (a, b, 0)
          | [A_int a] => Done (a, 0, 0)
          | _ => Fault
          end in
        if negb (dps_status =? DOVE_STATUS_OK) then Done (DPS_ERROR, s)
        else if negb (local =? 0) then
          if DPS_MAX_MSG_TYPE <=? ty then Done (DPS_ERROR, s)
          else match dps_msg_function_array fuel ty with
               | Some f => f domain_id msg s
               | None => Done (DPS_ERROR, s)
               end
        else if ch_transaction_type h =? DPS_TRANSACTION_NORMAL then
          if DPS_MAX_MSG_TYPE <=? ty then Fault
          else if dps_msg_forward_remote ty then
            let* (st, s) := dps_msg_forward_if_necessary msg domain_id s in
            Done (if st =? DOVE_STATUS_OK then DPS_SUCCESS else DPS_ERROR, s)
          else Done (DPS_ERROR, s)
        else Done (DPS_ERROR, s)
    | _ => Done (DPS_ERROR, s)
    end.

(** ** Start and stop *)
Definition start_stop (f : py_fun) (b : bool) (s : dh) : out (Z * dh) :=
  let* (r, s) := py_call E f [] s in
  Done (match r with
        | Not_built => (DOVE_STATUS_NO_RESOURCES, s)
        | _ => (DOVE_STATUS_OK, dh_with_started b s)
        end).
Definition dcs_protocol_handler_stop : dh -> out (Z * dh) := start_stop Stop false.
Definition dcs_protocol_handler_start : dh -> out (Z * dh) := start_stop Start true.
End handlers.

(** ** What happens to a data handler *)
Inductive dh_input (E : py_env) :=
| In_start
| In_stop
| In_message (msg : dps_client_data_t)
| In_python (f : c_fun) (args : object E).
Arguments In_start {E}.
Arguments In_stop {E}.
Arguments In_message {E} msg.
Arguments In_python {E} f args.
Definition dh_serve (E : py_env) (fuel : nat) (i : dh_input E) (s : dh) : out dh :=
  let* (_, s) :=
    match i with
    | In_start => dcs_protocol_handler_start E s
    | In_stop => dcs_protocol_handler_stop E s
    | In_message msg => dps_protocol_send_to_server E fuel msg s
    | In_python f args => c_call E f args s
    end in
  Done s.
Fixpoint dh_serves (E : py_env) (fuel : nat) (l : list (dh_input E)) (s : dh) : out dh :=
  match l with
  | [] => Done s
  | i :: l => let* s := dh_serve E fuel i s in dh_serves E fuel l s
  end.
