(* ===== verification/DhSound.v ===== *)
(** * The data handler: what it may do, step by step, and that it ends *)
From stdpp Require Import gmap strings relations.
From S2P Require Export DhMsg.
#[local] Open Scope Z_scope.

(** Whatever a message or a call of Python makes the data handler do is a
    sequence of small moves; what every move keeps holds of every run. *)

(** ** Moves *)
Definition typed (m : dps_client_data_t) : Prop :=
  well_typed (ch_type (cd_hdr m)) (cd_body m) = true.
Definition is_message (b : block) : Prop := match b with Blk_message _ => True | _ => False end.
Definition dh_alloc (b : block) (s : dh) : dh :=
  mk_dh (started s) (dh_unsolicited s) (<[dh_next s := b]> (dh_blocks s)) (dh_next s + 1)
    (dh_now s) (dh_out s).
(** A block that was taken and given back. *)
Definition dh_spent (s : dh) : dh :=
  mk_dh (started s) (dh_unsolicited s) (delete (dh_next s) (dh_blocks s)) (dh_next s + 1)
    (dh_now s) (dh_out s).

Section moves.
Context (E : py_env).

(** [acks]: the contexts that may be acknowledged by them. *)
Inductive dh_move (acks : Z -> Prop) : dh -> dh -> Prop :=
| Mv_tick s : dh_move acks s (dh_tick s)
| Mv_called f args s : dh_move acks s (dh_emit (Py_called f args) s)
| Mv_sent m s : typed m -> dh_move acks s (dh_emit (Dh_sent m) s)
| Mv_lost n s : py_sends E n <> DPS_SUCCESS -> dh_move acks s (dh_count (-1) s)
| Mv_told m c s :
    typed m -> cd_context m = dh_next s -> cx_original_msg_type c = ch_type (cd_hdr m) ->
    dh_move acks s (dh_emit (Dh_sent m) (dh_count 1 (dh_alloc (Blk_context c) s)))
| Mv_untold m s : typed m -> dh_move acks s (dh_emit (Dh_sent m) (dh_spent s))
| Mv_given m s : typed m -> dh_move acks s (dh_alloc (Blk_message m) s)
| Mv_written p m m' s :
    dh_blocks s !! p = Some (Blk_message m) -> typed m' ->
    dh_move acks s (dh_with_blocks (<[p := Blk_message m']> (dh_blocks s)) s)
| Mv_released p b s :
    dh_blocks s !! p = Some b -> is_message b ->
    dh_move acks s (dh_with_blocks (delete p (dh_blocks s)) s)
| Mv_acked p c s :
    acks p -> dh_blocks s !! p = Some (Blk_context c) ->
    dh_move acks s (dh_count (-1) (dh_with_blocks (delete p (dh_blocks s)) s))
| Mv_started b s : dh_move acks s (dh_with_started b s).
Abbreviation moves acks := (rtc (dh_move acks)).

(** ** What every move keeps *)
Definition fresh (s : dh) : Prop :=
  0 < dh_next s /\ forall p b, dh_blocks s !! p = Some b -> 0 < p < dh_next s.
Definition messages_typed (s : dh) : Prop :=
  (forall m, In (Dh_sent m) (dh_out s) -> typed m) /\
  (forall p m, dh_blocks s !! p = Some (Blk_message m) -> typed m).

Lemma move_fresh acks s s' : dh_move acks s s' -> fresh s -> fresh s'.
Proof.
  intros [| | | | | | |? ? ? ? Hp|? ? ? Hp|? ? ? ? Hp|] [Hn Hf]; try done.
  all: split; cbn; [lia|]; intros q x Hq.
  all: try (apply lookup_insert_Some in Hq as [[<- _]|[_ Hq]]; [try lia; eapply Hf; eassumption|]).
  all: try apply lookup_delete_Some in Hq as [_ Hq]; apply Hf in Hq; lia.
Qed.
Lemma moves_fresh acks s s' : moves acks s s' -> fresh s -> fresh s'.
Proof. induction 1; eauto using move_fresh. Qed.

Lemma move_typed acks s s' : dh_move acks s s' -> messages_typed s -> messages_typed s'.
Proof.
  intros Hm [Ho Hb]. destruct Hm; split; cbn; try done; intros.
  all: try (match goal with H : In _ (_ ++ _) |- _ => apply in_app_or in H as [H|H] end; [by eauto|]).
  all: try (match goal with H : In _ [_] |- _ => destruct H as [H|[]] end; by simplify_eq).
  all: try (match goal with H : <[_ := _]> _ !! _ = Some _ |- _ =>
              apply lookup_insert_Some in H as [[_ H]|[_ H]]; [by simplify_eq|] end).
  all: try match goal with H : delete _ _ !! _ = Some _ |- _ => apply lookup_delete_Some in H as [_ H] end.
  all: by eauto.
Qed.

(** A context stays until it is acknowledged, and what is a message stays one
    until it is gone. *)
Lemma move_keeps_context acks s s' p c :
  dh_move acks s s' -> ~ acks p -> fresh s -> dh_blocks s !! p = Some (Blk_context c) ->
  dh_blocks s' !! p = Some (Blk_context c).
Proof.
  intros Hm Hna [_ Hf] Hp. pose proof (Hf _ _ Hp) as Hlt.
  destruct Hm as [| | | | | | |q ? ? ? Hq|q ? ? Hq Hi|q ? ? Ha Hq|]; cbn; try done.
  all: first [rewrite lookup_insert_ne | rewrite lookup_delete_ne]; try done; try lia.
  all: intros ->; try done; rewrite Hp in Hq; simplify_eq; done.
Qed.
Lemma moves_keep_context acks s s' p c :
  moves acks s s' -> ~ acks p -> fresh s -> dh_blocks s !! p = Some (Blk_context c) ->
  dh_blocks s' !! p = Some (Blk_context c).
Proof. induction 1; eauto using move_keeps_context, move_fresh. Qed.

Definition no_context (p : Z) (s : dh) : Prop :=
  forall b, dh_blocks s !! p = Some b -> is_message b.
Lemma move_no_context acks s s' p :
  dh_move acks s s' -> p < dh_next s -> no_context p s -> p < dh_next s' /\ no_context p s'.
Proof.
  intros Hm Hlt Hn. destruct Hm; split; cbn; try lia; try done.
  all: intros x Hb; cbn in Hb.
  all: try (apply lookup_insert_Some in Hb as [[<- Hb]|[_ Hb]]; [try lia; by simplify_eq|]).
  all: try apply lookup_delete_Some in Hb as [_ Hb].
  all: by apply Hn.
Qed.
Lemma moves_no_context acks s s' p :
  moves acks s s' -> p < dh_next s -> no_context p s -> no_context p s'.
Proof.
  induction 1 as [|s0 s1 s2 Hm _ IH]; [done|]. intros Hlt Hn.
  destruct (move_no_context _ _ _ _ Hm Hlt Hn) as [Hl' Hn']. by apply IH.
Qed.
End moves.

(** ** Every function is a sequence of moves *)
Definition sound (s : dh) : Prop := fresh s /\ messages_typed s.
Lemma moves_sound E acks s s' : rtc (dh_move E acks) s s' -> sound s -> sound s'.
Proof.
  induction 1 as [|s0 s1 s2 Hm _ IH]; [done|]. intros [Hf Ht]. apply IH.
  split; [by eapply move_fresh|by eapply move_typed].
Qed.
Definition runs {A} (E : py_env) (acks : Z -> Prop) (f : dh -> out (A * dh)) : Prop :=
  forall s r s', sound s -> f s = Done (r, s') -> rtc (dh_move E acks) s s'.

Lemma tick_moves E acks s : rtc (dh_move E acks) s (dh_tick s).
Proof. apply rtc_once. constructor. Qed.
Lemma one_move E acks s s' s'' :
  dh_move E acks s s' -> rtc (dh_move E acks) s' s'' -> rtc (dh_move E acks) s s''.
Proof. apply rtc_l. Qed.
Lemma client_send_moves E acks m s : typed m -> rtc (dh_move E acks) s (client_send E m s).2.
Proof.
  intros Hm. cbn. eapply one_move; [apply Mv_tick|]. apply rtc_once. by apply Mv_sent.
Qed.
Lemma inline_moves E acks m s : typed m -> rtc (dh_move E acks) s (dps_msg_send_inline E m s).
Proof.
  intros Hm. unfold dps_msg_send_inline. destruct (_ =? _); [done|]. by apply client_send_moves.
Qed.
Lemma lost_moves E acks m s r s' :
  client_send E m s = (r, s') -> typed m ->
  rtc (dh_move E acks) s (if r =? DPS_SUCCESS then s' else dh_count (-1) s').
Proof.
  intros [= <- <-] Hm. pose proof (client_send_moves E acks m s Hm) as H. cbn in *.
  destruct (_ =? _) eqn:Hr; [done|]. etrans; [exact H|]. apply rtc_once.
  apply Mv_lost with (dh_now s). by apply Z.eqb_neq.
Qed.

(** A message with a context of its own: taken, sent, and given back when the
    message cannot be sent. *)
Lemma unsolicited_moves E acks vnid ty port ip vIP m s p s1 r s2 :
  send_unsolicited E m s1 = Done (r, s2) ->
  sound s -> unsolicited_context E vnid ty port ip vIP s = Done (p, s1) ->
  typed m -> ch_type (cd_hdr m) = ty -> cd_context m = p -> rtc (dh_move E acks) s s2.
Proof.
  intros Hs [[Hpos Hf] _] Hc Hm Hty Hp. unfold unsolicited_context in Hc.
  unfold send_unsolicited in Hs. destruct (py_mallocs E (dh_now s)) eqn:Hal.
  - inv_done. unfold dh_malloc in Hc. rewrite Hal in Hc. inv_done. cbn in Hs.
    eapply one_move; [apply Mv_tick|]. eapply one_move; [apply Mv_tick|]. apply rtc_once.
    destruct (_ =? _) eqn:Hr; inv_done.
    + refine (Mv_told E acks m _ (dh_tick (dh_tick s)) Hm Hp _). done.
    + unfold dh_free in *. rewrite Hp in *. destruct (dh_next s =? 0) eqn:Hz; [lia|]. cbn in *.
      rewrite lookup_insert_eq in *. inv_done.
      match goal with |- dh_move _ _ _ ?x =>
        assert (x = dh_emit (Dh_sent m) (dh_spent (dh_tick (dh_tick s)))) as ->; [|by apply Mv_untold] end.
      unfold dh_emit, dh_spent, dh_count, dh_with_blocks, dh_tick. cbn.
      rewrite delete_insert_eq. f_equal. lia.
  - inv_done. unfold dh_free in Hs. rewrite Hp in Hs. cbn in Hs. etrans; [apply tick_moves|].
    pose proof (lost_moves E acks m (dh_tick s) _ _ eq_refl Hm) as Hl. cbn in Hl.
    destruct (_ =? _); inv_done; exact Hl.
Qed.
Lemma node_hdr_type E n ty sub c t v q p ip h : node_hdr E n ty sub c t v q p ip = Done h -> ch_type h = ty.
Proof. unfold node_hdr. intros H. by inv_done. Qed.
Lemma server_hdr_type E n ty v q p ip h : policy_server_hdr E n ty v q p ip = Done h -> ch_type h = ty.
Proof. apply node_hdr_type. Qed.
Lemma uncontexted_moves E acks m s r s' :
  send_unsolicited E m s = Done (r, s') -> typed m -> cd_context m = 0 -> rtc (dh_move E acks) s s'.
Proof.
  intros H Hm Hc. unfold send_unsolicited, dh_free in H. rewrite Hc in H. cbn in H.
  pose proof (lost_moves E acks m s _ _ eq_refl Hm) as Hl. cbn in Hl. destruct (_ =? _); inv_done; exact Hl.
Qed.

(** Take a call apart, along the branches of its function. *)
Ltac branches H :=
  repeat (inv_done; match type of H with
    | context [match ?x with _ => _ end] =>
        lazymatch x with context [match _ with _ => _ end] => fail | _ => destruct x eqn:? end
    end); inv_done.
Ltac refuse H := by unfold refused in H; inv_done.

Section calls.
Context (E : py_env) (acks : Z -> Prop).

Ltac header_types :=
  repeat match goal with
  | H : policy_server_hdr _ _ _ _ _ _ _ = Done _ |- _ => apply server_hdr_type in H
  | H : node_hdr _ _ _ _ _ _ _ _ _ _ = Done _ |- _ => apply node_hdr_type in H
  end.
Ltac well :=
  unfold typed; cbn [cd_hdr cd_body];
  first [reflexivity | match goal with H : ch_type _ = _ |- _ => rewrite H; reflexivity end].
(** The end of a call: a message with a context, or one without. *)
Ltac leaf :=
  repeat match goal with
    H : context [if ?b then _ else _] |- _ => destruct b in *; cbv beta iota in *; inv_done
  end;
  header_types;
  first
    [ reflexivity
    | match goal with H : (?a <=? ?a) = false |- _ => by rewrite Z.leb_refl in H end
    | match goal with H : refused _ = Done _ |- _ => by refuse H end
    | eapply unsolicited_moves; [eassumption | eassumption | eassumption | well | cbn; assumption | reflexivity]
    | eapply uncontexted_moves; [eassumption | well | reflexivity]
    | eapply lost_moves; [eassumption | well]
    | apply client_send_moves; well ].
Ltac runs_by f :=
  let s := fresh "s" in let H := fresh "H" in
  intros s ? ? ? H; unfold f in H; branches H; try leaf.

Lemma send_all_connectivity_policies_runs args : runs E acks (send_all_connectivity_policies E args).
Proof. runs_by send_all_connectivity_policies. Qed.
Lemma send_gateways_runs args : runs E acks (send_gateways E args).
Proof. runs_by send_gateways. Qed.
Lemma send_multicast_tunnels_runs args : runs E acks (send_multicast_tunnels E args).
Proof. runs_by send_multicast_tunnels. Qed.
Lemma send_broadcast_table_runs args : runs E acks (send_broadcast_table E args).
Proof. runs_by send_broadcast_table. Qed.
Lemma send_address_resolution_runs args : runs E acks (send_address_resolution E args).
Proof. runs_by send_address_resolution. Qed.
Lemma send_heartbeat_runs args : runs E acks (send_heartbeat E args).
Proof. runs_by send_heartbeat. Qed.
Lemma send_vnid_deletion_runs args : runs E acks (send_vnid_deletion E args).
Proof. runs_by send_vnid_deletion. Qed.
Lemma send_endpoint_reply_runs args : runs E acks (send_endpoint_reply E args).
Proof. runs_by send_endpoint_reply. Qed.
Lemma send_all_vm_migration_update_runs args : runs E acks (send_all_vm_migration_update E args).
Proof. runs_by send_all_vm_migration_update. Qed.
Lemma mass_transfer_endpoint_runs args : runs E acks (mass_transfer_endpoint E args).
Proof. runs_by mass_transfer_endpoint. Qed.
Lemma mass_transfer_tunnel_runs args : runs E acks (mass_transfer_tunnel E args).
Proof. runs_by mass_transfer_tunnel. Qed.
Lemma mass_transfer_multicast_sender_runs args : runs E acks (mass_transfer_multicast_sender E args).
Proof. runs_by mass_transfer_multicast_sender. Qed.
Lemma mass_transfer_multicast_receiver_runs args :
  runs E acks (mass_transfer_multicast_receiver E args).
Proof. runs_by mass_transfer_multicast_receiver. Qed.

Lemma message_at_typed p m s : sound s -> message_at p s = Done m -> typed m.
Proof.
  intros [_ [_ Hb]] H. unfold message_at in H. destruct (dh_blocks s !! p) as [[]|] eqn:Hp; inv_done.
  by eapply Hb.
Qed.
Lemma free_moves p s s' b :
  dh_free p s = Done s' -> dh_blocks s !! p = Some b -> is_message b -> rtc (dh_move E acks) s s'.
Proof.
  unfold dh_free. intros H Hp Hb. destruct (p =? 0); inv_done; [done|]. rewrite Hp in H. inv_done.
  apply rtc_once. by eapply Mv_released.
Qed.
Lemma inline_blocks m s : dh_blocks (dps_msg_send_inline E m s) = dh_blocks s.
Proof. unfold dps_msg_send_inline. by destruct (_ =? _). Qed.
Lemma send_and_free_moves p m st s s' :
  sound s -> message_at p s = Done m ->
  dh_free p (dps_msg_send_inline E (with_status st m) s) = Done s' -> rtc (dh_move E acks) s s'.
Proof.
  intros Hs Hm H. pose proof (message_at_typed _ _ _ Hs Hm) as Ht.
  etrans; [by apply (inline_moves E acks (with_status st m))|].
  unfold message_at in Hm. destruct (dh_blocks s !! p) as [[|m']|] eqn:Hp; inv_done.
  eapply free_moves; [exact H| |]; [rewrite inline_blocks; exact Hp|done].
Qed.
Lemma send_message_and_free_runs args : runs E acks (send_message_and_free E args).
Proof.
  intros s r s' Hs H. unfold send_message_and_free in H. branches H; try done.
  by eapply send_and_free_moves.
Qed.

Lemma c_call_runs f args : runs E acks (c_call E f args).
Proof.
  destruct f; cbn [c_call]; eauto using send_all_connectivity_policies_runs, send_gateways_runs,
    send_multicast_tunnels_runs, send_broadcast_table_runs, send_address_resolution_runs,
    send_heartbeat_runs, send_vnid_deletion_runs, send_endpoint_reply_runs,
    send_all_vm_migration_update_runs, mass_transfer_endpoint_runs, mass_transfer_tunnel_runs,
    mass_transfer_multicast_sender_runs, mass_transfer_multicast_receiver_runs,
    send_message_and_free_runs.
Qed.
Lemma c_calls_moves l s s' : sound s -> c_calls E l s = Done s' -> rtc (dh_move E acks) s s'.
Proof.
  revert s. induction l as [|[f args] l IH]; intros s Hs H; cbn in H; inv_done; [done|].
  match goal with H : c_call _ _ _ _ = Done _ |- _ => apply c_call_runs in H; [|done] end.
  etrans; [eassumption|]. apply IH; [|done]. by eapply moves_sound.
Qed.
Lemma py_eval_runs f args : runs E acks (py_eval E f args).
Proof.
  intros s r s' Hs H. unfold py_eval in H. destruct (py_answer _ _ _ _) as [calls o]. inv_done.
  assert (rtc (dh_move E acks) s (dh_emit (Py_called f args) (dh_tick s))) as Hm.
  { eapply one_move; [apply Mv_tick|]. apply rtc_once, Mv_called. }
  etrans; [exact Hm|]. apply c_calls_moves with calls; [|done]. by eapply moves_sound.
Qed.
Lemma py_call_runs f args : runs E acks (py_call E f args).
Proof.
  intros s r s' Hs H. unfold py_call in H. etrans; [apply tick_moves|].
  destruct (py_builds _ _); [|by inv_done]. eapply py_eval_runs; [|exact H].
  exact (moves_sound E acks _ _ (tick_moves E acks s) Hs).
Qed.
End calls.

(** ** The handlers *)
Section handlers.
Context (E : py_env).

(** Go on from the state a call of Python left behind. *)
Ltac go acks Hr :=
  match type of Hr with rtc _ ?s ?s' =>
    etrans; [exact Hr|];
    assert (sound s') by (by eapply (moves_sound E acks _ _ Hr));
    clear Hr
  end.
Ltac ticked acks :=
  match goal with
  | Hs : sound ?s, H : context [dh_tick ?s] |- rtc _ ?s _ =>
      let Hr := fresh "Hr" in pose proof (tick_moves E acks s) as Hr; go acks Hr
  end.
Ltac py_steps :=
  repeat match goal with
  | Hs : sound ?s, H : py_call E _ _ ?s = Done _ |- rtc (dh_move E ?acks) ?s _ =>
      apply (py_call_runs E acks _ _ _ _ _ Hs) in H; go acks H
  | Hs : sound ?s, H : py_eval E _ _ ?s = Done _ |- rtc (dh_move E ?acks) ?s _ =>
      apply (py_eval_runs E acks _ _ _ _ _ Hs) in H; go acks H
  | H : (if ?b then _ else _) = Done (_, _) |- _ => destruct b; inv_done
  | |- rtc (dh_move E ?acks) ?s _ => ticked acks
  end; first [reflexivity | apply tick_moves | idtac].

Lemma replication_reply_moves acks q r s s' :
  sound s -> replication_reply E q r s = Done s' -> rtc (dh_move E acks) s s'.
Proof. intros Hs H. unfold replication_reply in H. inv_done. by py_steps. Qed.
Lemma dps_msg_update_reply_runs acks d m : runs E acks (dps_msg_update_reply E d m).
Proof. intros s r s' Hs H. unfold dps_msg_update_reply in H. inv_done. by py_steps. Qed.

Lemma typed_to a q m : typed m -> typed (readdressed a q m).
Proof. done. Qed.
Lemma replicate_to_moves acks d p l qids m q s r s' :
  sound s -> typed m -> replicate_to E d p l qids m q s = Done (r, s') -> rtc (dh_move E acks) s s'.
Proof.
  revert qids m q s. induction l as [|o l IH]; intros qids m q s Hs Hm H; cbn [replicate_to] in H.
  - by inv_done.
  - branches H; try (by eapply IH).
    assert (forall m, typed m -> sound (client_send E m s).2 /\
              rtc (dh_move E acks) s (client_send E m s).2) as Hsend.
    { intros m' Hm'. pose proof (client_send_moves E acks m' s Hm') as Hr.
      split; [by apply (moves_sound E acks _ _ Hr)|exact Hr]. }
    match goal with H : client_send E ?m' s = _ |- _ =>
      destruct (Hsend m' Hm) as [Hs' Hr]; rewrite H in Hs', Hr end.
    etrans; [exact Hr|].
    match goal with H : (if ?b then _ else _) = Done _ |- _ => destruct b; inv_done end;
      [|eapply IH; [exact Hs'| |eassumption]; exact Hm].
    match goal with H : dps_msg_update_reply _ _ _ _ = Done _ |- _ =>
      pose proof (dps_msg_update_reply_runs acks _ _ _ _ _ Hs' H) as Hu end.
    etrans; [exact Hu|]. eapply IH; [by apply (moves_sound E acks _ _ Hu)| |eassumption]. exact Hm.
Qed.
Lemma dps_update_replicate_moves acks d m p size s r q s' :
  sound s -> typed m -> dps_update_replicate E d m p size s = Done (r, q, s') ->
  rtc (dh_move E acks) s s'.
Proof.
  intros Hs Hm H. unfold dps_update_replicate in H.
  apply obind_Done_inv in H as ([big s1] & Hbig & H).
  assert (rtc (dh_move E acks) s s1) as Hr.
  { destruct (_ <? _); inv_done; [apply tick_moves|reflexivity]. }
  go acks Hr. clear Hbig. 
  branches H; py_steps.
  eapply replicate_to_moves; [eassumption| |eassumption]. exact Hm.
Qed.

(** A reply that is handed over, and given back when it is not wanted. *)
Lemma malloc_moves acks m s p s1 :
  dh_malloc E (Blk_message m) s = (p, s1) -> sound s -> typed m ->
  rtc (dh_move E acks) s s1 /\ (p = 0 \/ p < dh_next s1 /\ no_context p s1).
Proof.
  intros H [[Hn Hf] _] Hm. unfold dh_malloc in H. destruct (py_mallocs _ _); inv_done.
  - split; [eapply one_move; [apply Mv_tick|]; apply rtc_once, (Mv_given E acks m (dh_tick s) Hm)|].
    right. cbn. split; [lia|]. intros b Hb. cbn in Hb. apply lookup_insert_Some in Hb as [[_ <-]|[Hne Hb]]; done.
  - split; [apply tick_moves|by left].
Qed.
Lemma give_up_moves acks p s s1 s2 :
  rtc (dh_move E acks) s s1 -> (p = 0 \/ p < dh_next s /\ no_context p s) ->
  dh_free p s1 = Done s2 -> rtc (dh_move E acks) s1 s2.
Proof.
  intros Hr Hp H. destruct Hp as [->|[Hlt Hn]]; [unfold dh_free in H; cbn in H; inv_done; reflexivity|].
  destruct (dh_blocks s1 !! p) as [b|] eqn:Hb.
  - eapply free_moves; [exact H|exact Hb|]. by eapply (moves_no_context E acks).
  - unfold dh_free in H. rewrite Hb in H. destruct (p =? 0); inv_done. reflexivity.
Qed.

(** *** Updates and registrations *)
Lemma inline_goes acks m s s' :
  typed m -> rtc (dh_move E acks) (dps_msg_send_inline E m s) s' -> rtc (dh_move E acks) s s'.
Proof. intros Hm Hr. etrans; [by apply (inline_moves E acks m)|exact Hr]. Qed.
Lemma write_vips_moves acks p l s s' :
  sound s -> write_vips E p l s = Done s' -> rtc (dh_move E acks) s s'.
Proof.
  intros Hs H. unfold write_vips in H. destruct l; inv_done; [done|].
  match goal with H : message_at p s = Done ?m |- _ =>
    pose proof (message_at_typed _ _ _ Hs H) as Hm; unfold message_at in H;
    destruct (dh_blocks s !! p) as [[|m0]|] eqn:Hp; inv_done end.
  apply rtc_once. eapply Mv_written; [exact Hp|].
  unfold typed in *. cbn. by destruct (cd_body r).
Qed.
Lemma shared_typed n q h x m :
  typed m -> cd_hdr m = h -> as_endpoint_update (cd_body m) = Done x -> typed (shared_update E n q h x).
Proof. unfold typed. intros Hm <- Hx. destruct (cd_body m); try discriminate Hx. exact Hm. Qed.

Lemma dps_msg_endpoint_update_runs acks fuel : forall d m, typed m ->
  runs E acks (dps_msg_endpoint_update E fuel d m).
Proof.
  induction fuel as [|fuel IH]; intros d m Hm s r s' Hs H; cbn [dps_msg_endpoint_update] in H; [done|].
  apply obind_Done_inv in H as (x & Hx & H).
  destruct (dh_malloc _ _ _) as [p s1] eqn:Hal.
  destruct (malloc_moves acks _ _ _ _ Hal Hs eq_refl) as [Hr Hp].
  go acks Hr. clear Hal.
  destruct (p =? 0); [by inv_done|].
  destruct (_ || _).
  { inv_done. eapply give_up_moves; [reflexivity|exact Hp|eassumption]. }
  apply obind_Done_inv in H as ([[ret q] s2] & Hr & H).
  apply (dps_update_replicate_moves acks) in Hr; [|done|done]. pose proof Hr as Hr2. go acks Hr.
  destruct (negb _).
  { inv_done. eapply give_up_moves; eassumption. }
  destruct (q =? 0); [by inv_done|].
  branches H; py_steps.
  match goal with H : write_vips _ _ _ _ = Done _ |- _ =>
    eapply (write_vips_moves acks) in H; [|eassumption]; go acks H end.
  destruct (_ && _) in *; inv_done; [|by eapply replication_reply_moves].
  eapply IH; [by eapply (shared_typed _ _ _ _ m)|eassumption|eassumption].
Qed.

(** A registration, from the reply on. *)
Lemma register_moves acks f args q s r s' :
  sound s -> register E f args q s = Done (r, s') -> rtc (dh_move E acks) s s'.
Proof.
  intros Hs H. unfold register in H. branches H; py_steps. by eapply replication_reply_moves.
Qed.
Lemma builds_all_moves acks k s b s' : builds_all E k s = (b, s') -> rtc (dh_move E acks) s s'.
Proof.
  revert s. induction k as [|k IH]; intros s H; cbn in H; [by inv_done|].
  destruct (py_builds _ _); [|inv_done; apply tick_moves].
  etrans; [apply tick_moves|by apply IH].
Qed.
Ltac given acks Hs H :=
  match type of H with context [dh_malloc E ?b ?s] =>
    let p := fresh "p" in let s1 := fresh "s" in let Hal := fresh "Hal" in
    destruct (dh_malloc E b s) as [p s1] eqn:Hal;
    let Hr := fresh "Hr" in let Hp := fresh "Hp" in
    destruct (malloc_moves acks _ _ _ _ Hal Hs eq_refl) as [Hr Hp]; go acks Hr; clear Hal;
    destruct (p =? 0); [inv_done; reflexivity|]
  end.
Ltac replicated acks H :=
  let ret := fresh "ret" in let q := fresh "q" in let s2 := fresh "s" in let Hr := fresh "Hr" in
  apply obind_Done_inv in H as ([[ret q] s2] & Hr & H);
  apply (dps_update_replicate_moves acks) in Hr; [|done|done];
  let Hr2 := fresh "Hr" in pose proof Hr as Hr2; go acks Hr;
  destruct (negb (ret =? DPS_NO_ERR));
  [|destruct (q =? 0); [inv_done; reflexivity|]].

Lemma dps_msg_tunnel_register_runs acks d m : typed m -> runs E acks (dps_msg_tunnel_register E d m).
Proof.
  intros Hm s r s' Hs H. unfold dps_msg_tunnel_register in H.
  apply obind_Done_inv in H as (x & Hx & H). given acks Hs H.
  destruct (_ <=? _). { inv_done. eapply give_up_moves; [reflexivity|eassumption|eassumption]. }
  replicated acks H. { inv_done. by eapply give_up_moves. }
  destruct (decide _); [done|]. destruct (builds_all _ _ _) as [b s3] eqn:Hb.
  apply (builds_all_moves acks) in Hb. destruct b; [|by inv_done]. go acks Hb.
  destruct (tunnel_reg_args _ _ _ _). by eapply register_moves.
Qed.
Lemma dps_msg_multicast_sender_register_runs acks d m :
  typed m -> runs E acks (dps_msg_multicast_sender_register E d m).
Proof.
  intros Hm s r s' Hs H. unfold dps_msg_multicast_sender_register in H.
  apply obind_Done_inv in H as (x & Hx & H). given acks Hs H.
  replicated acks H. { inv_done. by eapply give_up_moves. }
  by eapply register_moves.
Qed.
Lemma dps_msg_multicast_receiver_register_runs acks d m :
  typed m -> runs E acks (dps_msg_multicast_receiver_register E d m).
Proof.
  intros Hm s r s' Hs H. unfold dps_msg_multicast_receiver_register in H.
  apply obind_Done_inv in H as (x & Hx & H). given acks Hs H.
  replicated acks H. { inv_done. by eapply send_and_free_moves. }
  by eapply register_moves.
Qed.

(** *** Questions *)
Lemma location_tunnels_moves room vnid n o4 o6 s b l s' :
  location_tunnels E room vnid n o4 o6 s = Done (b, l, s') -> s' = s \/ s' = dh_tick s.
Proof.
  unfold location_tunnels. destruct (_ && _); cbn; [destruct (0 <? _)|]; cbn;
    intros H; branches H; destruct (_ <? _); auto.
Qed.
Lemma list_reply_sends acks ty st h to b s s' :
  well_typed ty b = true -> s' = dps_msg_send_inline E (list_reply ty st h to b) s ->
  rtc (dh_move E acks) s s'.
Proof. intros Hb ->. by apply inline_moves. Qed.
Ltac inline_sent := apply inline_moves; reflexivity.
Ltac located :=
  match goal with H : location_tunnels E _ _ _ _ _ ?s = Done (_, _, ?s') |- rtc _ ?s _ =>
    apply location_tunnels_moves in H as [-> | ->]; [|etrans; [apply tick_moves|]] end.
Lemma dps_msg_endpoint_request_runs acks d m : runs E acks (dps_msg_endpoint_request E d m).
Proof.
  intros s r s' Hs H. unfold dps_msg_endpoint_request in H.
  branches H; py_steps; try located; inline_sent.
Qed.
Lemma dps_msg_policy_request_runs acks d m : runs E acks (dps_msg_policy_request E d m).
Proof.
  intros s r s' Hs H. unfold dps_msg_policy_request in H.
  branches H; py_steps; try located; inline_sent.
Qed.
Lemma ask_lists_moves acks f args s st l4 l6 s' :
  sound s -> ask_lists E f args s = Done (st, l4, l6, s') -> rtc (dh_move E acks) s s'.
Proof. intros Hs H. unfold ask_lists in H. branches H; py_steps. Qed.
Ltac asked_lists acks H :=
  let Hr := fresh "Hr" in
  apply obind_Done_inv in H as ([[[? ?] ?] ?] & Hr & H);
  apply (ask_lists_moves acks) in Hr; [|assumption]; go acks Hr.
Lemma dps_msg_implicit_gateway_request_runs acks d m :
  runs E acks (dps_msg_implicit_gateway_request E d m).
Proof.
  intros s r s' Hs H. unfold dps_msg_implicit_gateway_request in H.
  apply obind_Done_inv in H as (x & Hx & H). asked_lists acks H. inv_done. inline_sent.
Qed.
Lemma dps_msg_gateway_request_runs acks d m : runs E acks (dps_msg_gateway_request E d m).
Proof.
  intros s r s' Hs H. unfold dps_msg_gateway_request in H.
  apply obind_Done_inv in H as (x & Hx & H). asked_lists acks H. inv_done.
  apply inline_moves. unfold typed. cbn. by destruct (ch_type _ =? _).
Qed.
Lemma dps_msg_broadcast_list_request_runs acks d m :
  runs E acks (dps_msg_broadcast_list_request E d m).
Proof.
  intros s r s' Hs H. unfold dps_msg_broadcast_list_request in H.
  apply obind_Done_inv in H as (x & Hx & H). asked_lists acks H. inv_done. inline_sent.
Qed.
Lemma dps_msg_vnid_policy_request_runs acks d m : runs E acks (dps_msg_vnid_policy_request E d m).
Proof. intros s r s' Hs H. unfold dps_msg_vnid_policy_request in H. inv_done. py_steps. Qed.
Lemma dps_msg_multicast_global_scope_request_runs acks d m :
  runs E acks (dps_msg_multicast_global_scope_request E d m).
Proof.
  intros s r s' Hs H. unfold dps_msg_multicast_global_scope_request in H.
  branches H; py_steps. apply inline_moves.
  match goal with H : _ = Done ?m |- typed ?m => branches H; reflexivity end.
Qed.
Lemma dps_msg_vm_migration_event_runs acks d m : runs E acks (dps_msg_vm_migration_event E d m).
Proof.
  intros s r s' Hs H. unfold dps_msg_vm_migration_event in H.
  branches H; py_steps; try (by eapply dps_msg_policy_request_runs).
  etrans; apply tick_moves.
Qed.

(** *** Acknowledgements *)
Lemma dps_msg_general_ack_runs acks d m :
  acks (cd_context m) -> runs E acks (dps_msg_general_ack E d m).
Proof.
  intros Hack s r s' Hs H. unfold dps_msg_general_ack in H.
  destruct (_ =? 0) eqn:Hz; [by inv_done|].
  apply obind_Done_inv in H as (c & Hc & H). apply obind_Done_inv in H as (call & _ & H).
  apply obind_Done_inv in H as (s1 & H1 & H).
  assert (rtc (dh_move E (fun _ => False)) s s1) as Hr.
  { destruct call as [[f args]|]; inv_done; [|reflexivity]. by eapply py_call_runs. }
  unfold told_context in Hc. destruct (dh_blocks s !! _) as [[c'|]|] eqn:Hp; inv_done.
  pose proof (moves_keep_context E _ _ _ _ _ Hr id (proj1 Hs) Hp) as Hp1.
  unfold dh_free in *. rewrite Hz, Hp1 in *. inv_done.
  etrans; [|apply rtc_once; by eapply Mv_acked].
  destruct call as [[f args]|]; inv_done; [|reflexivity]. by eapply py_call_runs.
Qed.

(** *** Any message *)
Lemma random_remote_node_moves acks d node s st a s' :
  sound s -> dps_get_domain_random_remote_node E d node s = Done (st, a, s') -> rtc (dh_move E acks) s s'.
Proof.
  intros Hs H. unfold dps_get_domain_random_remote_node in H. branches H; py_steps.
Qed.
Lemma forward_runs acks d m : typed m -> runs E acks (dps_msg_forward_if_necessary E m d).
Proof.
  intros Hm s r s' Hs H. unfold dps_msg_forward_if_necessary in H.
  apply obind_Done_inv in H as ([[st a] s1] & Hr & H).
  apply (random_remote_node_moves acks) in Hr; [|done]. etrans; [exact Hr|].
  destruct (_ =? _); inv_done; [|done]. apply inline_moves; exact Hm.
Qed.
Lemma handler_runs acks fuel ty f d m : dps_msg_function_array E fuel ty = Some f ->
  (ty = DPS_GENERAL_ACK -> acks (cd_context m)) -> typed m -> runs E acks (f d m).
Proof.
  unfold dps_msg_function_array. intros Hf Hack Hm.
  repeat match type of Hf with (if ?b then _ else _) = _ => destruct b eqn:? end; simplify_eq;
    eauto using dps_msg_endpoint_request_runs, dps_msg_policy_request_runs,
      dps_msg_endpoint_update_runs, dps_msg_update_reply_runs, dps_msg_implicit_gateway_request_runs,
      dps_msg_broadcast_list_request_runs, dps_msg_vm_migration_event_runs,
      dps_msg_multicast_sender_register_runs, dps_msg_multicast_receiver_register_runs,
      dps_msg_tunnel_register_runs, dps_msg_gateway_request_runs,
      dps_msg_vnid_policy_request_runs, dps_msg_multicast_global_scope_request_runs.
  match goal with H : existsb _ [DPS_GENERAL_ACK] = true |- _ =>
    cbn in H; rewrite orb_false_r in H; apply Z.eqb_eq in H; apply dps_msg_general_ack_runs, (Hack H) end.
Qed.
Lemma dps_protocol_send_to_server_runs acks fuel m :
  typed m -> (ch_type (cd_hdr m) = DPS_GENERAL_ACK -> acks (cd_context m)) ->
  runs E acks (dps_protocol_send_to_server E fuel m).
Proof.
  intros Hm Hack s r s' Hs H. unfold dps_protocol_send_to_server in H.
  destruct (negb _); [by inv_done|].
  apply obind_Done_inv in H as ([p s1] & Hp & H).
  apply (py_call_runs E acks _ _ _ _ _ Hs) in Hp. go acks Hp.
  destruct p; try (by inv_done). apply obind_Done_inv in H as ([[st local] dom] & _ & H).
  destruct (negb (_ =? _)); [by inv_done|]. destruct (negb (_ =? _)).
  - destruct (_ <=? _); [by inv_done|]. destruct (dps_msg_function_array _ _ _) eqn:Hf; [|by inv_done].
    by eapply handler_runs.
  - destruct (_ =? _); [|by inv_done]. destruct (_ <=? _); [done|].
    destruct (dps_msg_forward_remote _); inv_done; [by eapply forward_runs|reflexivity].
Qed.
Lemma start_stop_runs acks f b : runs E acks (start_stop E f b).
Proof.
  intros s r s' Hs H. unfold start_stop in H. branches H; py_steps; apply rtc_once, Mv_started.
Qed.

Definition input_typed (i : dh_input E) : Prop :=
  match i with In_message m => typed m | _ => True end.
(** An acknowledgement that carries the context [p]. *)
Definition acks_context (i : dh_input E) (p : Z) : Prop :=
  match i with
  | In_message m => ch_type (cd_hdr m) = DPS_GENERAL_ACK /\ cd_context m = p
  | _ => False
  end.
Lemma dh_serve_moves acks fuel i s s' :
  input_typed i -> (forall p, acks_context i p -> acks p) -> sound s -> dh_serve E fuel i s = Done s' ->
  rtc (dh_move E acks) s s'.
Proof.
  intros Hi Ha Hs H. unfold dh_serve in H. inv_done. destruct i; cbn in *.
  - by eapply start_stop_runs.
  - by eapply start_stop_runs.
  - eapply dps_protocol_send_to_server_runs; eauto.
  - by eapply c_call_runs.
Qed.
Lemma dh_serves_moves acks fuel l s s' :
  Forall input_typed l -> Forall (fun i => forall p, acks_context i p -> acks p) l -> sound s ->
  dh_serves E fuel l s = Done s' -> rtc (dh_move E acks) s s'.
Proof.
  revert s. induction l as [|i l IH]; intros s Hl Ha Hs H; cbn in H; inv_done; [done|].
  apply Forall_cons_1 in Hl as [Hi Hl]. apply Forall_cons_1 in Ha as [Hai Ha].
  match goal with H : dh_serve _ _ _ _ = Done _ |- _ =>
    apply (dh_serve_moves acks) in H; [go acks H|done|done|done] end.
  by eapply IH.
Qed.
End handlers.

(** ** Every function ends *)

(** Only the update of an endpoint calls itself, for the address space all
    networks share; nothing else has fuel. *)
Definition ends {A} (x : out A) : Prop := x <> Timeout.
Lemma obind_ends {A B} (m : out A) (k : A -> out B) : ends m -> (forall a, ends (k a)) -> ends (obind m k).
Proof. unfold ends. destruct m; cbn; done || auto. Qed.
Lemma done_ends {A} (a : A) : ends (Done a).
Proof. done. Qed.
Lemma fault_ends {A} : ends (@Fault A).
Proof. done. Qed.
Create HintDb dh_ends.
#[export] Hint Resolve done_ends fault_ends : dh_ends.
(** Along the branches of a function, into the functions it calls; those that
    are recursive have a lemma among the hints. *)
Ltac head_of x := lazymatch x with ?f _ => head_of f | ?f => f end.
Ltac ends :=
  repeat first
    [ solve [eauto 3 with dh_ends nocore]
    | progress cbv beta zeta
    | apply obind_ends; [|intro]
    | match goal with
      | |- ends (match ?x with _ => _ end) => destruct x
      | |- ends ?x => let f := head_of x in progress unfold f
      | |- forall _, _ => intro
      end ].

(** *** Lists of Python, and what Python calls *)
Lemma gather_ends E {B} room (f : nat -> object E -> out (option B)) l acc :
  (forall j o, ends (f j o)) -> ends (gather E room f l acc).
Proof.
  intros Hf. revert acc. induction l as [|o l IH]; intros acc; cbn [gather]; [done|].
  destruct (decide _); [done|]. apply obind_ends; [apply Hf|]. intros r. apply IH.
Qed.
#[export] Hint Extern 1 (ends (gather _ _ _ _ _)) => (apply gather_ends; intros; ends) : dh_ends.
Lemma packed_ip6_ends E checked room j n6 l a : ends (packed_ip6 E checked room j n6 l a).
Proof.
  revert j n6 a. induction l as [|o l IH]; intros j n6 a; cbn [packed_ip6]; [done|].
  ends.
Qed.
Lemma receiver_ip6_ends E room n l w n6 : ends (receiver_ip6 E room n l w n6).
Proof.
  revert w n6. induction l as [|o l IH]; intros w n6; cbn [receiver_ip6]; [done|]. ends.
Qed.
#[export] Hint Resolve packed_ip6_ends receiver_ip6_ends : dh_ends.
Lemma ds_receivers_ends E size n l acc : ends (ds_receivers E size n l acc).
Proof.
  revert size acc. induction l as [|kv l IH]; intros size acc; cbn [ds_receivers]; [done|]. ends.
Qed.
#[export] Hint Resolve ds_receivers_ends : dh_ends.
Lemma c_call_ends E f args s : ends (c_call E f args s).
Proof. destruct f; cbn [c_call]; ends. Qed.
#[export] Hint Resolve c_call_ends : dh_ends.
Lemma c_calls_ends E l s : ends (c_calls E l s).
Proof. revert s. induction l as [|[f args] l IH]; intros s; cbn [c_calls]; ends. Qed.
#[export] Hint Resolve c_calls_ends : dh_ends.
Lemma py_call_ends E f args s : ends (py_call E f args s).
Proof. ends. Qed.
#[export] Hint Resolve py_call_ends : dh_ends.

(** *** Messages *)
Lemma replicate_to_ends E d p l q m k s : ends (replicate_to E d p l q m k s).
Proof.
  revert q m k s. induction l as [|o l IH]; intros q m k s; cbn [replicate_to]; ends.
Qed.
Lemma reply_vips_ends E i l r : ends (reply_vips E i l r).
Proof. revert i r. induction l as [|o l IH]; intros i r; cbn [reply_vips]; ends. Qed.
#[export] Hint Resolve replicate_to_ends reply_vips_ends : dh_ends.
Lemma dps_update_replicate_ends E d m p z s : ends (dps_update_replicate E d m p z s).
Proof. ends. Qed.
#[export] Hint Resolve dps_update_replicate_ends : dh_ends.

(** The address space all networks share has no shared one of its own. *)
Definition one_shared (E : py_env) : Prop :=
  forall n args calls o, py_answer E n Endpoint_Update (V_int 0 :: args) = (calls, Some o) ->
  forall r shared v l, py_parse E "IIIO" o = [A_int r; A_int shared; A_int v; A_obj l] -> shared = 0.
Lemma py_call_returned E f args s o s' :
  py_call E f args s = Done (Returned o, s') ->
  exists n calls, py_answer E n f args = (calls, Some o).
Proof.
  unfold py_call, py_eval. destruct (py_builds _ _); [|done].
  destruct (py_answer _ _ _ _) as [calls [r|]] eqn:Ha; intros H; inv_done; simplify_eq; eauto.
Qed.
Lemma obind_ends_at {A B} (m : out A) (k : A -> out B) :
  ends m -> (forall a, m = Done a -> ends (k a)) -> ends (obind m k).
Proof. unfold ends. destruct m; cbn; done || auto. Qed.
Lemma dps_msg_endpoint_update_ends E fuel d m s :
  one_shared E -> (fuel <> 0)%nat -> d = 0 \/ (1 < fuel)%nat ->
  ends (dps_msg_endpoint_update E fuel d m s).
Proof.
  intros Hone. revert d m s. induction fuel as [|fuel IH]; intros d m s Hf Hd; [done|].
  cbn [dps_msg_endpoint_update]. apply obind_ends; [ends|]. intros x.
  destruct (dh_malloc _ _ _) as [p s1]. destruct (p =? 0); [done|]. destruct (_ || _); [ends|].
  apply obind_ends; [apply dps_update_replicate_ends|]. intros [[ret q] s2].
  destruct (negb _); [ends|]. destruct (q =? 0); [done|].
  apply obind_ends_at; [apply py_call_ends|]. intros [r s3] Hr. destruct r as [| |o]; try done.
  destruct (py_parse E "IIIO" o) as [|[ret'| |] [|[sh| |] [|[v| |] [|[| |vips] [|]]]]] eqn:Hp; try done.
  apply obind_ends; [ends|]. intros s4. apply obind_ends; [|ends].
  destruct (_ && negb (sh =? 0)) eqn:Hs; [|ends].
  apply obind_ends; [|ends]. apply andb_prop in Hs as [_ Hs]. apply negb_true_iff, Z.eqb_neq in Hs.
  destruct Hd as [->|Hd]; [|apply IH; lia].
  apply py_call_returned in Hr as (n & calls & Ha). exfalso. apply Hs. by eapply Hone.
Qed.
Lemma handler_ends E fuel ty f d m s :
  one_shared E -> (1 < fuel)%nat -> dps_msg_function_array E fuel ty = Some f -> ends (f d m s).
Proof.
  intros Hone Hf. unfold dps_msg_function_array. intros H.
  repeat match type of H with (if ?b then _ else _) = _ => destruct b end; simplify_eq.
  all: first [apply dps_msg_endpoint_update_ends; [done|lia|by right] | ends].
Qed.
Lemma dh_serve_ends E fuel i s : one_shared E -> (1 < fuel)%nat -> ends (dh_serve E fuel i s).
Proof.
  intros Hone Hf. unfold dh_serve. apply obind_ends; [|by intros []]. destruct i; [ends|ends| |ends].
  unfold dps_protocol_send_to_server. destruct (negb _); [done|]. apply obind_ends; [ends|].
  intros [r s1]. destruct r as [| |o]; try done. apply obind_ends; [ends|]. intros [[st local] dom].
  destruct (negb _); [done|]. destruct (negb _); [|ends]. destruct (_ <=? _); [done|].
  destruct (dps_msg_function_array _ _ _) eqn:Ha; [|done]. by eapply handler_ends.
Qed.
Lemma dh_serves_ends E fuel l s : one_shared E -> (1 < fuel)%nat -> ends (dh_serves E fuel l s).
Proof.
  intros Hone Hf. revert s. induction l as [|i l IH]; intros s; cbn [dh_serves]; [done|].
  apply obind_ends; [by apply dh_serve_ends|done].
Qed.
