(* ===== verification/SvrWait.v ===== *)
(** * Every request of the server ends once

    The server against a map from query ids to requests: whatever is sent,
    answered and retransmitted, a request is either answered or given up. *)
From stdpp Require Import gmap.
From S2P Require Export RtSpec SvrCtrl Exchange ClientXmit.

(** ** What the server waits for: [dps_svr_ctrl.c] over its retransmission queue *)
(** ** Requests in the queue *)

(** The header at the start of a packet. *)
Definition hdr_of (pkt : buf) : dps_client_hdr_t :=
  match dps_get_pkt_hdr pkt 0 zero_client_hdr with Done (h, _) => h | _ => zero_client_hdr end.

(** A structure that [dps_protocol_xmit] made for a packet of the protocol. *)
Definition request (c : dps_retransmit_context_t) : Prop :=
  rc_callback_function c = RETRANSMIT_ROUTINE /\ rc_family c = AF_INET /\
  ch_query_id (hdr_of (rc_data c)) = rc_query_id c /\
  exists h body, pkt_at (rc_data c) h body /\ known_type (ch_type h) = true.

Definition srepr (s : server) (p : requests) : Prop := rtrep request (sr_queue s) p [].

(** What the requester is told when there is no answer. *)
Definition no_answer_to (c : dps_retransmit_context_t) : sv_event :=
  let h := hdr_of (rc_data c) in
  Sv_server (mk_client_data (rc_context c)
    (mk_client_hdr (reply_type (ch_type h)) (ch_type h) (ch_client_id h) (ch_transaction_type h)
       (ch_vnid h) DPS_NO_RESPONSE (ch_query_id h) zero_ip_addr) (reply_body h)).

Lemma hdr_of_pkt pkt h body :
  pkt_at pkt h body -> hdr_of pkt = with_reply_addr h (ch_reply_addr zero_client_hdr).
Proof. intros Hp. unfold hdr_of. by rewrite (pkt_at_hdr _ _ _ _ Hp). Qed.

Lemma sr_emit_nil s : sr_emit [] s = s.
Proof. destruct s. unfold sr_emit. cbn. by rewrite app_nil_r. Qed.
Lemma emit_queue es es' q q' s :
  sr_emit es' (sr_with_queue q' (sr_emit es (sr_with_queue q s))) =
  sr_emit (es ++ es') (sr_with_queue q' s).
Proof. unfold sr_emit. cbn. by rewrite app_assoc. Qed.

Section server.
Context (o : sv_os).
#[local] Existing Instance server_env.

(** ** A request that expires *)
Lemma timeout_spec l t s p X c :
  rtrep request (sr_queue s) p (l :: X) -> rq_contexts (sr_queue s) !! l = Some c ->
  exists q, retransmit_timeout o l (t, s) = Done (t, sr_emit [no_answer_to c] (sr_with_queue q s)) /\
    rtrep request q p X /\ rq_contexts q = delete l (rq_contexts (sr_queue s)).
Proof.
  intros HR Ec. destruct (free_spec request (sr_queue s) p l X HR) as
    (c' & q & Ec' & HP & Ef & HRq & _ & Eq).
  rewrite Ec in Ec'. injection Ec' as <-. destruct HP as (Hcb & _ & _ & h & body & Hp & Hk).
  exists q. split; [|done]. unfold retransmit_timeout, context_at. cbn [snd fst]. rewrite Ec.
  cbn [of_option obind]. rewrite Hcb, Z.eqb_refl. cbn [negb].
  rewrite (callback_spec (H := server_env o) _ h body _ t (Done s) Hp Hk).
  cbn [dps_server server_env deliver in_server to_data_handler snd obind].
  change (sr_queue (sr_emit _ s)) with (sr_queue s). rewrite Ef. cbn [obind].
  unfold no_answer_to. rewrite (hdr_of_pkt _ _ _ Hp). done.
Qed.

Lemma found_delete (m : gmap nat dps_retransmit_context_t) l ls cs :
  l ∉ ls -> Forall2 (fun k c => m !! k = Some c) ls cs ->
  Forall2 (fun k c => delete l m !! k = Some c) ls cs.
Proof.
  intros Hl H. induction H as [|k c ls cs Hk H IH]; constructor.
  - rewrite lookup_delete_ne; [done|]. intros ->. apply Hl. by left.
  - apply IH. intros Hin. apply Hl. by right.
Qed.

Lemma timeouts_spec : forall xs cs t s p,
  rtrep request (sr_queue s) p xs ->
  Forall2 (fun l c => rq_contexts (sr_queue s) !! l = Some c) xs cs ->
  exists q, timeouts o xs (t, s) = Done (t, sr_emit (map no_answer_to cs) (sr_with_queue q s)) /\
    rtrep request q p [].
Proof.
  induction xs as [|l xs IH]; intros cs t s p HR Hcs.
  - apply Forall2_nil_inv_l in Hcs as ->. exists (sr_queue s). cbn. rewrite sr_emit_nil.
    split; [by destruct s | done].
  - apply Forall2_cons_inv_l in Hcs as (c & cs' & Ec & Hcs & ->).
    destruct (timeout_spec l t s p xs c HR Ec) as (q & E & HRq & Eq). cbn [timeouts].
    rewrite E. cbn [obind].
    destruct (IH cs' t (sr_emit [no_answer_to c] (sr_with_queue q s)) p HRq) as (q' & E' & HR').
    + cbn [sr_queue sr_emit sr_with_queue]. rewrite Eq.
      pose proof (rr_nodup _ _ _ _ HR) as Hnd. apply list.NoDup_cons in Hnd as [Hl _].
      by apply found_delete.
    + exists q'. split; [|done]. rewrite E'. by rewrite emit_queue.
Qed.

(** ** The timer *)

(** What a period sends, and whom it tells. *)
Definition period_out (order : list Z -> list Z) (p : requests) : list sv_event :=
  let keys := order (elements (dom p)) in
  map rt_sent (flat_map (resent p) keys) ++ map no_answer_to (omap (expiring p) keys).

Lemma server_timer_spec order t s p :
  (forall ks, order ks ≡ₚ ks) -> srepr s p ->
  exists q, server_timer o order (t, s) =
      Done (t, sr_emit (period_out order p) (sr_with_queue q s)) /\ rtrep request q (older p) [].
Proof.
  intros Ho HR. destruct (routine_spec request order (sr_queue s) p [] Ho HR) as (q & xs & E & HRq & Hx).
  unfold server_timer. cbn [snd fst]. rewrite E. cbn [obind]. rewrite app_nil_r in HRq.
  destruct (timeouts_spec xs _ t (sr_emit (map rt_sent (flat_map (resent p) (order (elements (dom p)))))
    (sr_with_queue q s)) (older p) HRq Hx) as (q' & E' & HR').
  exists q'. split; [|done]. rewrite E'. unfold period_out.
  by rewrite emit_queue.
Qed.

(** ** Transmission and replies *)
Lemma length_server_addr addr : length (so_stack o) = SOCKADDR_IN -> length (server_addr o addr) = SOCKADDR_IN.
Proof.
  intros Hs. unfold server_addr, SOCKADDR_IN in *.
  assert (length (put 0 (le16 AF_INET) (so_stack o)) = 16) as H1
    by (rewrite length_put; rewrite ?length_le16; lia).
  assert (length (put 4 (sin_addr (ia_ip4 addr)) (put 0 (le16 AF_INET) (so_stack o))) = 16) as H2
    by (rewrite length_put; rewrite ?length_sin_addr; lia).
  rewrite length_put; rewrite ?length_sin_port; lia.
Qed.

(** The structure of a request. *)
Definition made_context (pkt : buf) (addr : ip_addr_t) (context : Z) (s : server) : dps_retransmit_context_t :=
  mk_rt_context AF_INET (server_sock s) (server_addr o addr) (ch_query_id (hdr_of pkt)) context
    RETRANSMIT_ROUTINE RPT_OWNER_DPS pkt.
(** Whether it is accepted. *)
Definition accepted (pkt : buf) (s : server) (p : requests) : bool :=
  accepts (so_context o (sr_starts s) && so_python o (sr_starts s)) (server_sock s)
    (ch_query_id (hdr_of pkt)) p.

Definition sent_status (s : server) : Z :=
  if (so_sendto o (sr_sends s) <=? 0)%Z then DPS_ERROR else DPS_SUCCESS.

(** The counters of calls, after one that starts a timer or not and sends or
    not. *)
Definition called (start send : bool) (q : rt_queue) (s : server) : server :=
  mk_server (server_sock s) q (sr_timer s) (sr_fds s) (sr_buffer s) (sr_active s) (sr_mallocs s)
    (if start then S (sr_starts s) else sr_starts s) (if send then S (sr_sends s) else sr_sends s)
    (sr_recvs s) (sr_out s).

Lemma server_xmit_spec pkt h body addr context s p :
  srepr s p -> pkt_at pkt h body -> known_type (ch_type h) = true ->
  length (so_stack o) = SOCKADDR_IN ->
  let sent := [Sv_sendto (server_sock s) pkt (server_addr o addr)] in
  exists q,
    SvrCtrl.dps_protocol_xmit o pkt addr context s =
      Done (if (context =? 0)%Z then (sent_status s, sr_emit sent (called false true q s))
            else if accepted pkt s p then (sent_status s, sr_emit sent (called true true q s))
            else (DPS_ERROR_NO_RESOURCES, called true false q s)) /\
    rtrep request q (if negb (context =? 0)%Z && accepted pkt s p
                     then <[ch_query_id (hdr_of pkt) := (made_context pkt addr context s, max_retransmit)]> p
                     else p) [].
Proof.
  intros HR Hp Hk Hst sent. unfold SvrCtrl.dps_protocol_xmit.
  destruct (Z.eqb_spec context 0) as [->|Hc]; cbn [negb andb].
  { exists (sr_queue s). split; [|done]. unfold sendto_client, sent_status. done. }
  assert (dps_get_pkt_hdr pkt 0 zero_client_hdr = Done (hdr_of pkt, Z.of_nat (length body))) as ->
    by (rewrite (hdr_of_pkt _ _ _ Hp); by apply pkt_at_hdr).
  cbn [obind]. unfold start_retransmit.
  destruct (timer_start_spec request (so_context o (sr_starts s)) (so_python o (sr_starts s)) pkt
    (ch_query_id (hdr_of pkt)) (server_sock s) AF_INET (server_addr o addr) context RETRANSMIT_ROUTINE
    RPT_OWNER_DPS (sr_queue s) p [] HR) as (q & E & HRq).
  { rewrite length_server_addr by done. unfold SOCKADDR_IN. cbn. lia. }
  { split_and!; try done; eauto. }
  rewrite E. cbn [obind]. exists q. fold (accepted pkt s p) in HRq |- *.
  assert (new_context pkt (ch_query_id (hdr_of pkt)) (server_sock s) AF_INET (server_addr o addr)
    context RETRANSMIT_ROUTINE RPT_OWNER_DPS = made_context pkt addr context s) as Ea.
  { unfold new_context, made_context. f_equal. apply take_ge. rewrite length_server_addr by done. done. }
  rewrite Ea in HRq. destruct (accepted pkt s p); [|done]. done.
Qed.

Lemma stop_retransmit_spec q s p :
  srepr s p -> exists qu,
    stop_retransmit q s =
      Done (match p !! q with
            | Some (c, _) => (true, rc_context c, sr_with_queue qu s)
            | None => (false, 0%Z, sr_with_queue qu s)
            end) /\ rtrep request qu (delete q p) [].
Proof.
  intros HR. destruct (timer_stop_spec request q 0 (sr_queue s) p [] HR) as (qu & E & HRq).
  exists qu. split; [|done]. unfold stop_retransmit. rewrite E.
  by destruct (p !! q) as [[c n]|].
Qed.
End server.

Inductive svop :=
| V_send (pkt : buf) (addr : ip_addr_t) (context : Z)
| V_reply (query_id : Z)
| V_timer.
Inductive svres := VR_status (status : Z) | VR_context (found : bool) (context : Z) | VR_none.

Definition query_of (pkt : buf) : Z := ch_query_id (hdr_of pkt).
Definition event_query (e : sv_event) : Z :=
  match e with Sv_sendto _ pkt _ => query_of pkt | Sv_server d => ch_query_id (cd_hdr d) end.

(** What the specification keeps: the requests that wait, the calls made and
    what has come out. *)
Record waiting_room := mk_room {
  wa_waits : requests; wa_starts : nat; wa_sends : nat; wa_out : list sv_event }.

Section server.
Context (o : sv_os) (order : list Z -> list Z) (sock : Z).

Definition run_svop (op : svop) (st : stats_tbl * server) : out (svres * (stats_tbl * server)) :=
  let '(t, s) := st in
  match op with
  | V_send pkt addr context =>
      let* (r, s) := SvrCtrl.dps_protocol_xmit o pkt addr context s in Done (VR_status r, (t, s))
  | V_reply q => let* (b, c, s) := stop_retransmit q s in Done (VR_context b c, (t, s))
  | V_timer => let* st := server_timer o order st in Done (VR_none, st)
  end.

(** Only packets of the protocol are sent. *)
Definition sendable (op : svop) : Prop :=
  match op with
  | V_send pkt _ _ => exists h body, pkt_at pkt h body /\ known_type (ch_type h) = true
  | _ => True
  end.

Definition request_of (pkt : buf) (addr : ip_addr_t) (context : Z) : dps_retransmit_context_t :=
  mk_rt_context AF_INET sock (server_addr o addr) (query_of pkt) context RETRANSMIT_ROUTINE
    RPT_OWNER_DPS pkt.

Definition sv_step (op : svop) (a : waiting_room) : svres * waiting_room :=
  match op with
  | V_send pkt addr context =>
      let q := query_of pkt in
      let status := if (so_sendto o (wa_sends a) <=? 0)%Z then DPS_ERROR else DPS_SUCCESS in
      let sent := wa_out a ++ [Sv_sendto sock pkt (server_addr o addr)] in
      if (context =? 0)%Z then
        (VR_status status, mk_room (wa_waits a) (wa_starts a) (S (wa_sends a)) sent)
      else if accepts (so_context o (wa_starts a) && so_python o (wa_starts a)) sock q (wa_waits a) then
        (VR_status status,
          mk_room (<[q := (request_of pkt addr context, max_retransmit)]> (wa_waits a))
            (S (wa_starts a)) (S (wa_sends a)) sent)
      else
        (VR_status DPS_ERROR_NO_RESOURCES,
          mk_room (wa_waits a) (S (wa_starts a)) (wa_sends a) (wa_out a))
  | V_reply q =>
      (match wa_waits a !! q with Some (c, _) => VR_context true (rc_context c) | None => VR_context false 0 end,
        mk_room (delete q (wa_waits a)) (wa_starts a) (wa_sends a) (wa_out a))
  | V_timer =>
      (VR_none, mk_room (older (wa_waits a)) (wa_starts a) (wa_sends a)
                  (wa_out a ++ period_out order (wa_waits a)))
  end.

(** The server is in the state of the specification. *)
Record svrep (t : stats_tbl) (st : stats_tbl * server) (a : waiting_room) : Prop := {
  sw_stats : st.1 = t;
  sw_queue : srepr st.2 (wa_waits a);
  sw_sock : server_sock st.2 = sock;
  sw_starts : sr_starts st.2 = wa_starts a;
  sw_sends : sr_sends st.2 = wa_sends a;
  sw_out : sr_out st.2 = wa_out a
}.

(** The requests that wait are under their own query ids. *)
Definition waits_ok (p : requests) : Prop :=
  forall q c n, p !! q = Some (c, n) -> query_of (rc_data c) = q /\ rc_family c = AF_INET /\ (0 <= n)%Z.

Lemma waits_ok_step op a : waits_ok (wa_waits a) -> waits_ok (wa_waits (sv_step op a).2).
Proof.
  intros Hok. destruct op as [pkt addr context|q|]; cbn [sv_step].
  - destruct (context =? 0)%Z; [done|]. destruct (accepts _ _ _ _); [|done]. cbn.
    intros q c n. destruct (decide (q = query_of pkt)) as [->|Hq].
    + rewrite lookup_insert_eq. intros [= <- <-]. done.
    + rewrite lookup_insert_ne by done. apply Hok.
  - cbn. intros q' c n [_ H]%lookup_delete_Some. by apply Hok.
  - cbn. intros q c n. unfold older. rewrite lookup_omap.
    destruct (wa_waits a !! q) as [[c' n']|] eqn:E; [|done]. cbn. unfold age. cbn.
    destruct (Hok q c' n' E) as (H1 & H2 & H3). destruct (Z.eqb_spec n' 0); [done|].
    intros [= <- <-]. split_and!; [done | done | lia].
Qed.

Lemma waits_ok_all ops a :
  waits_ok (wa_waits a) -> waits_ok (wa_waits (step_all sv_step ops a).2).
Proof.
  revert a. induction ops as [|op ops IH]; intros a Hok; [done|]. cbn.
  assert (waits_ok (wa_waits (sv_step op a).2)) as H by by apply waits_ok_step.
  apply IH in H.
  destruct (sv_step op a) as [r a1]. cbn in H. by destruct (step_all _ ops a1).
Qed.

Context (Ho : forall ks, order ks ≡ₚ ks) (Hst : length (so_stack o) = SOCKADDR_IN).

Lemma svop_refines t op st a :
  svrep t st a -> sendable op ->
  exists st', run_svop op st = Done ((sv_step op a).1, st') /\ svrep t st' (sv_step op a).2.
Proof.
  intros HR Ha. destruct HR as [Et HQ Es Est Esn Eo]. destruct st as [t' s]. cbn [fst snd] in *. subst t'.
  destruct op as [pkt addr context|q|]; cbn [run_svop sv_step].
  - destruct Ha as (h & body & Hp & Hk).
    destruct (server_xmit_spec o pkt h body addr context s _ HQ Hp Hk Hst) as (qu & -> & HRq).
    unfold accepted, sent_status, made_context in *. rewrite Es, Est, Esn in *.
    fold (query_of pkt) in *. fold (request_of pkt addr context) in HRq.
    destruct (context =? 0)%Z; cbn [negb andb obind] in *.
    + eexists. split; [done|]. split; try done; cbn; congruence.
    + destruct (accepts _ _ _ _); cbn [obind]; (eexists; split; [done|]); split; try done; cbn; congruence.
  - destruct (stop_retransmit_spec q s _ HQ) as (qu & -> & HRq).
    destruct (wa_waits a !! q) as [[c n]|] eqn:E; cbn [obind]; (eexists; split; [done|]);
      split; try done; cbn; by rewrite <- ?E.
  - destruct (server_timer_spec o order t s _ Ho HQ) as (qu & E & HRq).
    unfold run_svop. rewrite E. cbn [obind]. eexists. split; [done|]. split; try done. cbn. congruence.
Qed.

(** ** The events of one request *)

(** The events that concern the request with id [q]. *)
Definition about (q : Z) (es : list sv_event) : list sv_event :=
  filter (fun e => event_query e = q) es.

Lemma about_app q es es' : about q (es ++ es') = about q es ++ about q es'.
Proof. apply list.filter_app. Qed.
Lemma about_all q es : Forall (fun e => event_query e = q) es -> about q es = es.
Proof.
  unfold about. induction 1 as [|e es He Hes IH]; [done|]. by rewrite filter_cons_True, IH.
Qed.
Lemma about_none q es : Forall (fun e => event_query e <> q) es -> about q es = [].
Proof.
  unfold about. induction 1 as [|e es He Hes IH]; [done|]. by rewrite filter_cons_False, IH.
Qed.

Lemma about_keys q (f : Z -> list sv_event) keys :
  NoDup keys -> (forall k, k ∈ keys -> Forall (fun e => event_query e = k) (f k)) ->
  about q (flat_map f keys) = if decide (q ∈ keys) then f q else [].
Proof.
  induction keys as [|k keys IH]; intros Hnd Hf; cbn [flat_map].
  { rewrite decide_False by (by intros ?%elem_of_nil). done. }
  apply list.NoDup_cons in Hnd as [Hk Hnd]. rewrite about_app.
  rewrite IH by (done || (intros k' Hk'; apply Hf; by right)).
  specialize (Hf k ltac:(by left)). destruct (decide (q = k)) as [->|Hq].
  - rewrite (decide_False (P := k ∈ keys)) by done. rewrite decide_True by (by left).
    by rewrite app_nil_r, about_all.
  - rewrite about_none by (eapply List.Forall_impl; [|exact Hf]; cbn; congruence). cbn [app].
    apply decide_ext. set_solver.
Qed.

Definition again (c : dps_retransmit_context_t) : sv_event :=
  Sv_sendto (rc_sock_fd c) (rc_data c) (rc_address c).

(** What a period does for one request. *)
Definition period_of (w : option (dps_retransmit_context_t * Z)) : list sv_event :=
  match w with
  | Some (c, n) => if (n =? 0)%Z then [no_answer_to c] else [again c]
  | None => []
  end.

Lemma about_period q p : waits_ok p -> about q (period_out order p) = period_of (p !! q).
Proof.
  intros Hok. unfold period_out. set (keys := order (elements (dom p))).
  assert (NoDup keys) as Hnd by (unfold keys; rewrite Ho; apply NoDup_elements).
  assert (forall k, k ∈ keys <-> is_Some (p !! k)) as Hin
    by (intros k; unfold keys; by rewrite Ho, elem_of_elements, elem_of_dom).
  assert (forall ks, map rt_sent (flat_map (resent p) ks) = flat_map (fun k => map rt_sent (resent p k)) ks)
    as -> by (intros ks; induction ks as [|k ks IH]; [done|]; cbn; by rewrite map_app, IH).
  assert (forall ks, map no_answer_to (omap (expiring p) ks) =
    flat_map (fun k => match expiring p k with Some c => [no_answer_to c] | None => [] end) ks)
    as -> by (intros ks; induction ks as [|k ks IH]; [done|]; cbn; destruct (expiring p k); cbn; by rewrite IH).
  assert (forall k, map rt_sent (resent p k) = match p !! k with
    | Some (c, n) => if (n =? 0)%Z then [] else [again c] | None => [] end) as Hr.
  { intros k. unfold resent, resend. destruct (p !! k) as [[c n]|] eqn:E; [|done].
    destruct (n =? 0)%Z; [done|]. destruct (Hok k c n E) as (_ & Hf & _). by rewrite Hf. }
  rewrite about_app, !about_keys; try done.
  - unfold period_of. destruct (decide (q ∈ keys)) as [Hq|Hq]; rewrite Hin in Hq.
    + rewrite Hr. unfold expiring. destruct (p !! q) as [[c n]|]; [|done]. by destruct (n =? 0)%Z.
    + destruct (p !! q); [|done]. by destruct Hq.
  - intros k Hk. unfold expiring. destruct (p !! k) as [[c n]|] eqn:E; [|constructor].
    destruct (n =? 0)%Z; constructor; [|constructor]. by apply (Hok k c n E).
  - intros k Hk. rewrite Hr. destruct (p !! k) as [[c n]|] eqn:E; [|constructor].
    destruct (n =? 0)%Z; constructor; [|constructor]. by apply (Hok k c n E).
Qed.

(** After [k] periods. *)
Definition outcome (w : option (dps_retransmit_context_t * Z)) (k : nat) : list sv_event :=
  match w with
  | Some (c, n) =>
      replicate (k `min` Z.to_nat n) (again c) ++ if bool_decide (Z.to_nat n < k) then [no_answer_to c] else []
  | None => []
  end.
Definition remains (w : option (dps_retransmit_context_t * Z)) (k : nat)
    : option (dps_retransmit_context_t * Z) :=
  match w with
  | Some (c, n) => if bool_decide (k <= Z.to_nat n) then Some (c, n - Z.of_nat k)%Z else None
  | None => None
  end.

(** An operation that neither sends under the id nor stops its timer. *)
Definition elsewhere (q : Z) (op : svop) : Prop :=
  match op with V_send pkt _ _ => query_of pkt <> q | V_reply q' => q' <> q | V_timer => True end.
Definition is_timer (op : svop) : bool := match op with V_timer => true | _ => false end.
Definition periods (ops : list svop) : nat := length (List.filter is_timer ops).

Lemma outcome_step w k :
  (forall c n, w = Some (c, n) -> 0 <= n)%Z ->
  period_of w ++ outcome (x ← w; age x) k = outcome w (S k) /\
  remains (x ← w; age x) k = remains w (S k).
Proof.
  intros Hw. destruct w as [[c n]|]; [|done]. specialize (Hw c n eq_refl). cbn. unfold age. cbn.
  destruct (Z.eqb_spec n 0) as [->|Hn].
  - cbn. split; [by rewrite ?bool_decide_eq_true_2 by lia | by rewrite bool_decide_eq_false_2 by lia].
  - cbn. replace (Z.to_nat n) with (S (Z.to_nat (n - 1))) by lia. cbn. split.
    + do 2 f_equal. by rewrite (bool_decide_ext (S (Z.to_nat (n - 1)) < S k) (Z.to_nat (n - 1) < k)) by lia.
    + rewrite (bool_decide_ext (S k <= S (Z.to_nat (n - 1))) (k <= Z.to_nat (n - 1))) by lia.
      case_bool_decide; [|done]. do 2 f_equal. lia.
Qed.

Lemma request_outcome q : forall ops a,
  waits_ok (wa_waits a) -> Forall (elsewhere q) ops ->
  let a' := (step_all sv_step ops a).2 in
  exists new, wa_out a' = wa_out a ++ new /\ about q new = outcome (wa_waits a !! q) (periods ops) /\
    wa_waits a' !! q = remains (wa_waits a !! q) (periods ops) /\ waits_ok (wa_waits a').
Proof.
  induction ops as [|op ops IH]; intros a Hok Hops a'.
  { exists []. rewrite app_nil_r. cbn. split_and!; try done.
    - unfold about, outcome. destruct (wa_waits a !! q) as [[c n]|]; [|done].
      by rewrite bool_decide_eq_false_2 by lia.
    - destruct (wa_waits a !! q) as [[c n]|] eqn:E; [|done]. cbn.
      rewrite bool_decide_eq_true_2 by lia. by rewrite Z.sub_0_r. }
  apply List.Forall_cons_iff in Hops as [Hop Hops]. pose proof (waits_ok_step op a Hok) as Hok1.
  destruct (IH (sv_step op a).2 Hok1 Hops) as (new & E & En & Ew & Hok').
  assert (a' = (step_all sv_step ops (sv_step op a).2).2) as Ea'.
  { unfold a'. cbn. destruct (sv_step op a) as [r a1]. cbn. by destruct (step_all sv_step ops a1). }
  rewrite <- Ea' in *. clear Ea'.
  destruct op as [pkt addr context|q'|].
  - assert (exists es, wa_out (sv_step (V_send pkt addr context) a).2 = wa_out a ++ es /\ about q es = [])
      as (es & E1 & E2).
    { cbn. destruct (context =? 0)%Z; [|destruct (accepts _ _ _ _)]; cbn;
        (eexists; split; [done|]) || (exists []; rewrite app_nil_r; done).
      all: apply about_none; constructor; [exact Hop | constructor]. }
    assert (wa_waits (sv_step (V_send pkt addr context) a).2 !! q = wa_waits a !! q) as Eq.
    { cbn. destruct (context =? 0)%Z; [done|]. destruct (accepts _ _ _ _); [|done]. cbn.
      by apply lookup_insert_ne. }
    exists (es ++ new). rewrite E, E1, about_app, E2, En, Eq, app_assoc. rewrite Eq in Ew. done.
  - exists new. cbn in E, En, Ew. rewrite lookup_delete_ne in En, Ew by done. done.
  - exists (period_out order (wa_waits a) ++ new). cbn in E, En, Ew.
    destruct (outcome_step (wa_waits a !! q) (periods ops)) as [O1 O2].
    { intros c n Hc. by apply (Hok q c n). }
    unfold older in En, Ew. rewrite lookup_omap in En, Ew.
    rewrite about_app, about_period by done. rewrite E, app_assoc. split_and!; [done | | | done].
    + rewrite En. exact O1.
    + rewrite Ew. exact O2.
Qed.
End server.

(** ** The theorems *)
Definition room0 (s : server) : waiting_room := mk_room ∅ (sr_starts s) (sr_sends s) (sr_out s).

Section runs.
Context (o : sv_os) (order : list Z -> list Z).
Context (Ho : forall ks, order ks ≡ₚ ks) (Hst : length (so_stack o) = SOCKADDR_IN).

Lemma server_runs t s ops :
  sr_queue s = rt_queue0 -> Forall sendable ops ->
  let step := sv_step o order (server_sock s) in
  exists st, run_all (run_svop o order) ops (t, s) = Done ((step_all step ops (room0 s)).1, st) /\
    svrep (server_sock s) t st (step_all step ops (room0 s)).2.
Proof.
  intros Hq Hops step.
  apply (run_all_refines (run_svop o order) step (fun op _ => sendable op) (fun _ => svrep (server_sock s) t)).
  - intros _ op st a HR Ha. by apply svop_refines.
  - split; cbn; try done. unfold srepr. rewrite Hq. apply rtrep_init.
  - generalize (room0 s). induction Hops as [|op ops Hop Hops IH]; intros a; [done|].
    split; [done | apply IH].
Qed.

(** C14. From an empty queue on, any sequence of transmissions, replies and
    periods of the timer has the results and the outputs of a map from query
    ids to requests: no structure is used after it was freed, and exactly the
    structures of the requests that wait are allocated. *)
Theorem server_waits_refines t s ops :
  sr_queue s = rt_queue0 -> Forall sendable ops ->
  let '(rs, a) := step_all (sv_step o order (server_sock s)) ops (room0 s) in
  exists s', run_all (run_svop o order) ops (t, s) = Done (rs, (t, s')) /\
    sr_out s' = wa_out a /\ srepr s' (wa_waits a) /\
    size (rq_contexts (sr_queue s')) = size (wa_waits a).
Proof.
  intros Hq Hops. destruct (server_runs t s ops Hq Hops) as (st & E & HR).
  destruct (step_all _ ops (room0 s)) as [rs a]. destruct st as [t' s'].
  destruct HR as [Et HQ _ _ _ Eo]. cbn in *. subst t'. exists s'.
  split_and!; try done. by eapply rtrep_contexts.
Qed.

Definition no_request (op : svop) : Prop := match op with V_reply _ => False | _ => True end.

(** C13. A request that is accepted, whatever came before it, is sent at once,
    again at the end of each of the next three periods, and given up at the
    end of the fourth with one notice to its requester; if its reply comes
    before that, the reply gets the context of the request, and otherwise
    none.  Nothing else about it comes out, whatever goes on besides. *)
Theorem server_request_once t s before pkt addr context during :
  let step := sv_step o order (server_sock s) in
  let a := (step_all step before (room0 s)).2 in
  let q := query_of pkt in
  let k := periods during in
  let sent := Sv_sendto (server_sock s) pkt (server_addr o addr) in
  sr_queue s = rt_queue0 -> Forall sendable (before ++ V_send pkt addr context :: during) ->
  context <> 0%Z ->
  accepts (so_context o (wa_starts a) && so_python o (wa_starts a)) (server_sock s) q (wa_waits a) = true ->
  Forall (elsewhere q) during ->
  exists rs s' new,
    run_all (run_svop o order) (before ++ V_send pkt addr context :: during ++ [V_reply q]) (t, s) =
      Done (rs ++ [if decide (k <= 3) then VR_context true context else VR_context false 0], (t, s')) /\
    sr_out s' = wa_out a ++ new /\
    about q new = sent :: replicate (k `min` 3) sent ++
      if decide (k <= 3) then [] else [no_answer_to (request_of o (server_sock s) pkt addr context)].
Proof.
  intros step a q k sent Hq Hops Hc Hacc Hd. set (c := request_of o (server_sock s) pkt addr context).
  set (all := before ++ V_send pkt addr context :: during ++ [V_reply q]).
  assert (Forall sendable all) as Hall.
  { unfold all. rewrite app_comm_cons, app_assoc. apply list.Forall_app. split; [done|].
    by repeat constructor. }
  destruct (server_runs t s all Hq Hall) as ([t' s'] & E & [Et _ _ _ _ Eo]). cbn in Et, Eo. subst t'.
  fold step in E, Eo. unfold all in E, Eo. rewrite step_all_app in E, Eo. fold a in E, Eo.
  cbn [fst snd step_all] in E, Eo.
  set (a1 := mk_room (<[q := (c, max_retransmit)]> (wa_waits a)) (S (wa_starts a)) (S (wa_sends a))
    (wa_out a ++ [sent])).
  assert (exists r, step (V_send pkt addr context) a = (r, a1)) as [r E1].
  { unfold step, sv_step. cbn zeta. fold q. rewrite (proj2 (Z.eqb_neq _ _) Hc), Hacc. by eexists. }
  rewrite E1, step_all_app in E, Eo. cbn [fst snd step_all] in E, Eo.
  assert (waits_ok (wa_waits a1)) as Hok.
  { replace a1 with (step (V_send pkt addr context) a).2 by (by rewrite E1).
    apply waits_ok_step. by apply waits_ok_all. }
  destruct (request_outcome o order (server_sock s) Ho Hst q during a1 Hok Hd) as (new & En & Ea & Ew & _).
  fold step in En, Ew. change (wa_waits a1) with (<[q := (c, max_retransmit)]> (wa_waits a)) in Ea, Ew.
  rewrite lookup_insert_eq in Ea, Ew. cbn [outcome remains] in Ea, Ew.
  set (a2 := (step_all step during a1).2) in *.
  exists ((step_all step before (room0 s)).1 ++ r :: (step_all step during a1).1), s', (sent :: new).
  assert (Z.to_nat max_retransmit = 3) as Em by done. rewrite Em in Ea, Ew. fold k in Ea, Ew.
  split_and!.
  - etransitivity; [exact E|]. rewrite <- app_assoc. cbn [app]. do 4 f_equal. unfold step, sv_step.
    cbn [fst]. do 2 f_equal. rewrite Ew.
    destruct (decide (k <= 3)); [by rewrite bool_decide_eq_true_2 | by rewrite bool_decide_eq_false_2].
  - rewrite Eo. cbn [step sv_step wa_out]. rewrite En. unfold a1. cbn [wa_out].
    by rewrite <- app_assoc.
  - unfold about. rewrite filter_cons_True by done. f_equal. fold (about q new). rewrite Ea. f_equal.
    destruct (decide (k <= 3)); [by rewrite bool_decide_eq_false_2 by lia | by rewrite bool_decide_eq_true_2 by lia].
Qed.
End runs.
