(* ===== verification/EndToEnd.v ===== *)
(** * A client and a server

    A client asks where an endpoint is; its datagram reaches the server, which
    answers; the answer reaches the client.  The network carries the bytes of
    a datagram and the address of its sender; each node has its own operating
    system, heap, and addresses. *)
From stdpp Require Import gmap.
From S2P Require Export SvrCtrl Exchange ClientRecv.
From S2P Require Export SvrWait ClientStart.

(** ** What the server receives, and what it answers

    A datagram is delivered to the data handler once, with the address it came
    from as reply address; an answer to that address reaches the sender. *)
(** ** Addresses on the wire *)
Definition inet_bytes (a : ip_addr_t) : list Z :=
  le16 AF_INET ++ sin_port (ia_port a) ++ sin_addr (ia_ip4 a).

Lemma put_inet a stack :
  8 <= length stack ->
  put 2 (sin_port (ia_port a)) (put 4 (sin_addr (ia_ip4 a)) (put 0 (le16 AF_INET) stack)) =
  inet_bytes a ++ drop 8 stack.
Proof.
  intros Hl. do 8 (destruct stack as [|? stack]; [simpl in Hl; lia|]). reflexivity.
Qed.

Lemma sockaddr_inet stack a :
  length stack = SOCKADDR_STORAGE -> sock_ok a -> ia_family a = AF_INET ->
  sockaddr stack a = inet_bytes a ++ take 8 (drop 8 stack).
Proof.
  intros Hs Ha Hf. unfold sockaddr. rewrite sockaddr_len_eq by done. unfold sockaddr_len.
  rewrite decide_True by done. unfold sa. rewrite copy_inet by done. cbn [snd].
  rewrite put_inet by (rewrite Hs; unfold SOCKADDR_STORAGE; lia).
  by rewrite take_app_ge by (cbn; lia).
Qed.

(** The address of a sender, as the server notes it. *)
Definition noted (a : ip_addr_t) : ip_addr_t :=
  mk_ip_addr AF_INET (ia_port a) 0 0 (set_ip4 zero_ip (ia_ip4 a)).

Lemma note_inet a rest d ip :
  sock_ok a -> d = mk_ip_addr AF_INET (ia_port d) 0 0 ip -> drop 4 ip = drop 4 zero_ip ->
  note_sender (inet_bytes a ++ rest) d = noted a.
Proof.
  intros (_ & Hp & _ & Hby) -> Hip. unfold note_sender, noted. cbn [ia_family ia_xport_type ia_port_http ia_ip].
  rewrite Z.eqb_refl. unfold set_ip4. rewrite Hip.
  pose proof (get_ip4_in32 _ Hby) as H4. fold (ia_ip4 a) in H4.
  pose proof (of_be16_be16 _ Hp) as E16. pose proof (of_be32_be32 _ H4) as E32.
  unfold inet_bytes, sin_port, sin_addr. rewrite u16_small by done. rewrite (u32_small (ia_ip4 a)) by done.
  cbn [be16 be32 le16 app byte_at List.nth] in *. rewrite E16, E32. by rewrite !u32_small.
Qed.

Section server.
Context (o : sv_os) (fuel : nat) (heap_counts : Z -> Z * Z) (stack_addr : ip_addr_t).

(** The answer goes back to where the request came from. *)
Lemma answer_address a stack :
  length stack = SOCKADDR_STORAGE -> length (so_stack o) = SOCKADDR_IN -> sock_ok a ->
  ia_family a = AF_INET ->
  take 8 (server_addr o (noted a)) = take 8 (sockaddr stack a).
Proof.
  intros Hs Ho Ha Hf. rewrite sockaddr_inet by done. unfold server_addr.
  rewrite put_inet by (rewrite Ho; unfold SOCKADDR_IN; lia).
  assert (inet_bytes (noted a) = inet_bytes a) as ->.
  { unfold inet_bytes, noted, ia_ip4. cbn [ia_port ia_ip]. destruct Ha as (_ & _ & _ & Hby).
    pose proof (get_ip4_in32 _ Hby) as H4. do 3 f_equal. unfold set_ip4.
    rewrite u32_small by done. fold (ia_ip4 a) in *.
    destruct (of_le32_le32 (ia_ip4 a) H4) as (b0 & b1 & b2 & b3 & -> & E). exact E. }
  reflexivity.
Qed.

(** ** One datagram *)
Lemma requests_loop_S n al d t s :
  requests_loop o fuel heap_counts stack_addr (S n) al d t s =
  (let '(bytes_read, al, ca, s) := recvfrom_client o al s in
   if (bytes_read <=? 0)%Z then Done (t, s)
   else
     let d := note_sender ca d in
     let* (_, (t, w)) :=
       dps_process_rcvd_pkt (H := server_env o) fuel heap_counts stack_addr (sr_buffer s) d (t, Done s) in
     let* s := w in
     requests_loop o fuel heap_counts stack_addr n al d t s).
Proof. done. Qed.

(** The server when the datagram [data] is in its buffer. *)
Definition having (data : list Z) (s : server) : server :=
  mk_server (server_sock s) (sr_queue s) (sr_timer s) (sr_fds s) (put 0 data (sr_buffer s))
    (sr_active s) (sr_mallocs s) (sr_starts s) (sr_sends s) (S (sr_recvs s)) (sr_out s).

Lemma first_request data a stack h body t s :
  so_recv o (sr_recvs s) = Some (data, sockaddr stack a) ->
  length stack = SOCKADDR_STORAGE -> sock_ok a -> ia_family a = AF_INET ->
  length (sr_buffer s) = DPS_MAX_BUFF_SZ -> length data <= DPS_MAX_BUFF_SZ -> pkt_at data h body ->
  exists n al, pkt_at (sr_buffer (having data s)) h body /\
  SvrCtrl.dps_process_data_rcvd o fuel heap_counts stack_addr (t, s) =
    (let* (_, (t, w)) := dps_process_rcvd_pkt (H := server_env o) fuel heap_counts stack_addr (sr_buffer (having data s))
                           (noted a) (t, Done (having data s)) in
     let* s := w in
     let* st := requests_loop o fuel heap_counts stack_addr (S n) al (noted a) t s in
     Done (DOVE_STATUS_OK, st)).
Proof.
  intros Hr Hs Ha Hf Hb Hl Hp. assert (0 < length data) as Hpos.
  { destruct Hp as ((Hlp & _) & _). unfold wire_pkt in Hlp. rewrite length_app, length_wire_pkt_hdr in Hlp.
    unfold DPS_PKT_HDR_LEN in Hlp. lia. }
  assert (exists k, Z.to_nat MAX_REQUESTS = S (S k)) as [k Ek]
    by (exists (Z.to_nat 49998); unfold MAX_REQUESTS; lia).
  pose proof (length_sockaddr stack a Hs Ha) as Hla. unfold sockaddr_len in Hla.
  rewrite decide_True in Hla by done.
  exists k, (length (sockaddr stack a)). split.
  { apply pkt_at_put; [done | lia]. }
  unfold SvrCtrl.dps_process_data_rcvd. cbn [fst snd]. rewrite Ek, requests_loop_S. unfold recvfrom_client.
  rewrite Hr, (take_ge data), (take_ge (sockaddr stack a)) by (unfold SOCKADDR_IN; lia).
  cbn zeta iota. rewrite (proj2 (Z.leb_gt (Z.of_nat (length data)) 0)) by lia.
  assert (put 0 (sockaddr stack a) (replicate SOCKADDR_IN 0%Z) = sockaddr stack a) as ->
    by (unfold put; rewrite take_0, drop_ge, app_nil_r by (rewrite length_replicate; unfold SOCKADDR_IN; lia); done).
  rewrite (sockaddr_inet stack a), (note_inet a _ sender0 zero_ip) by done.
  cbn [sr_buffer sr_with_buffer]. fold (having data s).
  destruct (dps_process_rcvd_pkt _ _ _ _ _ _) as [[ret [t1 w]]| |]; [|done|done]. cbn [obind].
  by destruct w.
Qed.

(** One message more for the data handler. *)
Record handed (s s' : server) (d : dps_client_data_t) : Prop := {
  ha_out : sr_out s' = sr_out s ++ [Sv_server d];
  ha_sock : server_sock s' = server_sock s;
  ha_queue : sr_queue s' = sr_queue s;
  ha_active : sr_active s' = sr_active s;
  ha_sends : sr_sends s' = sr_sends s
}.

Lemma request_received h body t s :
  is_Some (so_heap o (sr_mallocs s)) -> exists s',
  receive_request (H := server_env o) h body (t, Done s) = Done (DPS_SUCCESS, (t, Done s')) /\
  handed s s' (mk_client_data 0 h body) /\ sr_recvs s' = sr_recvs s.
Proof.
  intros [b Hb]. unfold receive_request, receive_msg, with_msg, dps_alloc_buff.
  cbn [malloc_buff server_env in_server SvrCtrl.malloc_packet]. rewrite Hb. cbn [andb].
  eexists. split; [reflexivity|]. by split.
Qed.

Lemma no_more n al d t s :
  so_recv o (sr_recvs s) = None -> exists s',
  requests_loop o fuel heap_counts stack_addr (S n) al d t s = Done (t, s') /\
  sr_out s' = sr_out s /\ server_sock s' = server_sock s /\ sr_queue s' = sr_queue s /\
  sr_active s' = sr_active s /\ sr_sends s' = sr_sends s.
Proof.
  intros Hr. rewrite requests_loop_S. unfold recvfrom_client. rewrite Hr. cbn zeta iota.
  change (-1 <=? 0)%Z with true. cbn iota. by eexists.
Qed.

Lemma served data a stack h x t s :
  so_recv o (sr_recvs s) = Some (data, sockaddr stack a) -> so_recv o (S (sr_recvs s)) = None ->
  length stack = SOCKADDR_STORAGE -> sock_ok a -> ia_family a = AF_INET ->
  length (sr_buffer s) = DPS_MAX_BUFF_SZ -> length data <= DPS_MAX_BUFF_SZ ->
  pkt_at data h (wire_loc_req x) -> ch_type h = DPS_ENDPOINT_LOC_REQ -> loc_req_ok x -> 3 < fuel ->
  is_Some (so_heap o (sr_mallocs s)) ->
  exists x' s', loc_req_from (noted a) x x' /\
    SvrCtrl.dps_process_data_rcvd o fuel heap_counts stack_addr (t, s) =
      Done (DOVE_STATUS_OK, (count incr_recv DPS_ENDPOINT_LOC_REQ t, s')) /\
    handed s s' (mk_client_data 0 (from h (noted a)) (Body_endpoint_loc_req x')).
Proof.
  intros Hr Hr2 Hs Ha Hf Hb Hl Hp Hty Hx Hfu Hm.
  destruct (first_request data a stack h _ t s Hr Hs Ha Hf Hb Hl Hp) as (n & al & Hp' & ->).
  destruct (rcvd_loc_req (H := server_env o) fuel heap_counts stack_addr
    (sr_buffer (having data s)) (noted a) h x (t, Done (having data s)) Hp' Hty Hx Hfu) as (x' & Hx' & ->).
  destruct (request_received (from h (noted a)) (Body_endpoint_loc_req x') t (having data s) Hm)
    as (s1 & -> & Hh & Er). unfold account. cbn [obind]. rewrite Z.eqb_refl. cbn iota.
  destruct (no_more n al (noted a) (count incr_recv DPS_ENDPOINT_LOC_REQ t) s1) as (s2 & -> & Eo & Es & Eq & Ea & En).
  { by rewrite Er. }
  exists x', s2. split; [done|]. split; [done|]. destruct Hh. split; cbn in *; congruence.
Qed.
End server.

(** ** Both ends *)
#[export] Instance server_laws (o : sv_os) :
  (forall n b, so_heap o n = Some b -> length b = DPS_MAX_BUFF_SZ) ->
  EnvLaws (out server) (H := server_env o).
Proof.
  intros Hh. split. intros w m w'. cbn [malloc_buff server_env]. unfold in_server, SvrCtrl.malloc_packet.
  destruct w as [s| |]; [|done..]. intros [= H _]. by eapply Hh.
Qed.

#[export] Instance client_laws (o : os) fuel :
  (forall n b, os_heap o n = Some b -> length b = DPS_MAX_BUFF_SZ) ->
  EnvLaws (out client) (H := client_env o fuel).
Proof.
  intros Hh. split. intros w m w'. cbn [malloc_buff client_env].
  unfold in_client, ClientCtrl.malloc_packet.
  destruct w as [c| |]; [|done..]. intros [= H _]. by eapply Hh.
Qed.

Lemma repr_queryId q s T : repr s T -> repr (with_queryId q s) T.
Proof. intros [L HR]. exists L. split; apply HR. Qed.

(** ** The client asks *)

(** The query id a message gets. *)
Definition given_id (c : dps_client_data_t) (cl : client) : Z :=
  if (ch_query_id (cd_hdr c) =? 0)%Z then (RawTimer.raw_proto_query_id_generate (cl_timer cl)).1
  else ch_query_id (cd_hdr c).
(** The header it is sent with. *)
Definition asking_hdr (c : dps_client_data_t) (cl : client) : dps_client_hdr_t :=
  let h := cd_hdr c in
  mk_client_hdr (ch_type h) (ch_sub_type h) (ch_client_id h) DPS_TRANSACTION_NORMAL (ch_vnid h)
    (ch_resp_status h) (given_id c cl) (ch_reply_addr h).

Section client.
Context (o : os) (fuel : nat).

(** A client that can send the message [c] and wait for its answer. *)
Record can_ask (c : dps_client_data_t) (cl : client) (m : gmap Z ip_addr_t) (T : nat -> list node)
    : Prop := {
  ca_stack : length (os_stack o) = SOCKADDR_STORAGE;
  ca_heap n b : os_heap o n = Some b -> length b = DPS_MAX_BUFF_SZ;
  ca_alloc : is_Some (os_heap o (cl_mallocs cl));
  ca_repr : crepr cl m T;
  ca_servers : servers_ok m;
  ca_addr : explicit (ch_reply_addr (cd_hdr c)) = true -> sock_ok (ch_reply_addr (cd_hdr c));
  ca_known : explicit (ch_reply_addr (cd_hdr c)) = true \/ m <> ∅;
  ca_socket : sv_inuse (cl_svr cl) <> 0%Z;
  ca_table : vt_mallocs (cl_table cl) <= fuel;
  ca_sendto : (0 < os_sendto o (cl_sends cl))%Z;
  ca_data : os_data o (cl_sends cl) = true;
  ca_node : os_node o (rt_mallocs (cl_timer cl)) = true;
  ca_context : cd_context c <> 0%Z;
  ca_id : (0 < given_id c cl < 2147483648)%Z;
  ca_room : length (T (bucket_of (given_id c cl))) < fuel;
  ca_fresh k : k ∈ T (bucket_of (given_id c cl)) -> pt_pktId k <> given_id c cl
}.

(** The timers of a client that has asked. *)
Definition asking (c : dps_client_data_t) (cl : client) (T T1 : nat -> list node) : Prop :=
  let q := given_id c cl in
  exists n, pt_pktId n = q /\ pt_context n = cd_context c /\
    T1 = upd T (bucket_of q) (T (bucket_of q) ++ [n]).

Lemma client_asks c x t cl m T :
  can_ask c cl m T -> cd_body c = Body_endpoint_loc_req x -> ch_type (cd_hdr c) = DPS_ENDPOINT_LOC_REQ ->
  loc_req_ok x -> hdr_ok (asking_hdr c cl) ->
  exists pkt dst c1 cl1 T1, destination m (ch_vnid (cd_hdr c)) (ch_reply_addr (cd_hdr c)) dst /\
    dps_protocol_client_send (H := client_env o fuel) c (t, Done cl) =
      Done (DPS_SUCCESS, c1, (count incr_sent DPS_ENDPOINT_LOC_REQ t, Done cl1)) /\
    cl_out cl1 = cl_out cl ++ [datagram o pkt dst cl] /\
    pkt_at pkt (asking_hdr c cl) (wire_loc_req x) /\ length pkt <= DPS_MAX_BUFF_SZ /\
    cl_table cl1 = cl_table cl /\ cl_svr cl1 = cl_svr cl /\ cl_recvs cl1 = cl_recvs cl /\
    repr (cl_timer cl1) T1 /\ asking c cl T T1.
Proof.
  intros [] Eb Et Hx Hh. destruct ca_alloc0 as [b Hb].
  set (cl0 := mk_client (cl_table cl) (cl_timer cl) (cl_fds cl) (cl_svr cl) (last_sent_time cl)
    (S (cl_mallocs cl)) (cl_times cl) (cl_sends cl) (cl_recvs cl) (cl_out cl)).
  assert (malloc_buff (Env := client_env o fuel) (Done cl) = (Some b, Done cl0)) as Em
    by (cbn; rewrite Hb; done).
  assert (exists tm, assign_query_id (H := client_env o fuel) c (Done cl0) =
      (set_hdr c (asking_hdr c cl), Done (cl_with_timer tm cl0)) /\ repr tm T /\
      rt_mallocs tm = rt_mallocs (cl_timer cl)) as (tm & Eq & HT2 & Emal).
  { unfold assign_query_id, asking_hdr, given_id. cbn [dps_server client_env].
    destruct (ch_query_id (cd_hdr c) =? 0)%Z.
    - eexists. split; [reflexivity|]. split; [apply repr_queryId, ca_repr0 | done].
    - exists (cl_timer cl). split; [done|]. split; [apply ca_repr0 | done]. }
  set (cl2 := cl_with_timer tm cl0) in *.
  destruct (loc_req_fits c x Eb Hx) as [Hok Hfit].
  destruct (client_send_packet (H := client_env o fuel) (H0 := client_laws o fuel ca_heap0) c t (Done cl)
    (replicate sizeof_client_data 0%Z ++ drop sizeof_client_data b) (Done cl0)
    (set_hdr c (asking_hdr c cl)) (Done cl2)) as (pkt & Hp & Hlen & E).
  all: try exact Hfit; try (rewrite ?Et, ?Eb; done).
  { unfold dps_alloc_buff. by rewrite Em. }
  unfold sent_body, wire_body in Hp. rewrite Eb in Hp.
  destruct (xmit_spec o fuel ca_stack0 pkt (with_reply_addr (asking_hdr c cl) zero_ip_addr)
    (Z.of_nat (length (wire_loc_req x))) (ch_reply_addr (cd_hdr c)) (cd_context c) cl2 m T)
    as (dst & cl1 & Hd & Ex & Eo & Etab & Hti & Esv & Erc & _); try done.
  { split; [apply ca_repr0 | done]. }
  { by apply (pkt_at_hdr _ _ _ zero_client_hdr). }
  { right. cbn [cl2 cl_timer cl_with_timer]. rewrite Emal. by split_and!; try (cbn; lia). }
  rewrite decide_False in Hti by done. exists pkt, dst. do 2 eexists. eexists.
  split; [exact Hd|]. rewrite E, Eb, Et.
  cbn [Env.dps_protocol_xmit client_env in_client cd_hdr set_hdr asking_hdr ch_reply_addr cd_context].
  rewrite Ex. rewrite Eb in Hlen. split; [reflexivity|]. do 2 (split; [done|]). split; [exact Hlen|].
  do 3 (split; [done|]). split; [exact Hti|].
  exists (waiting o pkt (with_reply_addr (asking_hdr c cl) zero_ip_addr) dst (cd_context c) cl2).
  by split_and!.
Qed.
End client.

(** ** The server answers *)
Lemma server_answers o c y t s :
  (forall n b, so_heap o n = Some b -> length b = DPS_MAX_BUFF_SZ) ->
  is_Some (so_heap o (sr_mallocs s)) -> (0 < so_sendto o (sr_sends s))%Z -> sr_active s = true ->
  cd_body c = Body_endpoint_loc_reply y -> ch_type (cd_hdr c) = DPS_ENDPOINT_LOC_REPLY ->
  ch_resp_status (cd_hdr c) = 0%Z -> cd_context c = 0%Z -> reply_ok y -> hdr_ok (cd_hdr c) ->
  DPS_PKT_HDR_LEN + length (wire_endpoint_loc_reply y) <= DPS_MAX_BUFF_SZ ->
  exists pkt s',
    dps_protocol_client_send (H := server_env o) c (t, Done s) =
      Done (DPS_SUCCESS, c, (count incr_sent DPS_ENDPOINT_LOC_REPLY t, Done s')) /\
    sr_out s' = sr_out s ++ [Sv_sendto (server_sock s) pkt (server_addr o (ch_reply_addr (cd_hdr c)))] /\
    pkt_at pkt (cd_hdr c) (wire_endpoint_loc_reply y) /\ length pkt <= DPS_MAX_BUFF_SZ /\
    sr_queue s' = sr_queue s.
Proof.
  intros Hheap [b Hb] Hs Ha Eb Et Est Ec Hy Hh Hfit.
  set (s1 := mk_server (server_sock s) (sr_queue s) (sr_timer s) (sr_fds s) (sr_buffer s) (sr_active s)
    (S (sr_mallocs s)) (sr_starts s) (sr_sends s) (sr_recvs s) (sr_out s)).
  assert (malloc_buff (Env := server_env o) (Done s) = (Some b, Done s1)) as Em
    by (cbn; rewrite Hb; done).
  destruct (client_send_packet (H := server_env o) (H0 := server_laws o Hheap) c t (Done s)
    (replicate sizeof_client_data 0%Z ++ drop sizeof_client_data b) (Done s1) c (Done s1))
    as (pkt & Hp & Hlen & E).
  all: try (rewrite ?Et, ?Eb; done).
  { unfold body_ok. by rewrite Eb. }
  { unfold wire_body. by rewrite Eb. }
  { cbn. by rewrite Ha. }
  { unfold dps_alloc_buff. by rewrite Em. }
  unfold sent_body, wire_body in Hp. rewrite Eb, Est in Hp. rewrite Eb in Hlen.
  exists pkt. rewrite E, Eb, Et, Ec. cbn [Env.dps_protocol_xmit server_env in_server].
  unfold SvrCtrl.dps_protocol_xmit, sendto_client. cbn [Z.eqb sr_sends s1].
  rewrite (proj2 (Z.leb_gt _ _) Hs). eexists. split; [reflexivity|]. by split_and!.
Qed.

(** ** All of it *)

(** A server to which one datagram comes, from an IPv4 address, and whose
    calls to the operating system succeed. *)
Record can_serve (o : sv_os) (s : server) (data : buf) (stack : list Z) (a : ip_addr_t) : Prop := {
  cs_heap n : exists b, so_heap o n = Some b /\ length b = DPS_MAX_BUFF_SZ;
  cs_sendto n : (0 < so_sendto o n)%Z;
  cs_stack : length (so_stack o) = SOCKADDR_IN;
  cs_buffer : length (sr_buffer s) = DPS_MAX_BUFF_SZ;
  cs_active : sr_active s = true;
  cs_first : so_recv o (sr_recvs s) = Some (data, sockaddr stack a);
  cs_last : so_recv o (S (sr_recvs s)) = None;
  cs_sender : length stack = SOCKADDR_STORAGE /\ sock_ok a /\ ia_family a = AF_INET
}.

(** What the data handler answers to a request. *)
Definition answers (d r : dps_client_data_t) (y : dps_endpoint_loc_reply_t) : Prop :=
  cd_body r = Body_endpoint_loc_reply y /\ ch_type (cd_hdr r) = DPS_ENDPOINT_LOC_REPLY /\
  ch_query_id (cd_hdr r) = ch_query_id (cd_hdr d) /\ ch_vnid (cd_hdr r) = ch_vnid (cd_hdr d) /\
  ch_reply_addr (cd_hdr r) = ch_reply_addr (cd_hdr d) /\ ch_resp_status (cd_hdr r) = 0%Z /\
  cd_context r = 0%Z /\ hdr_ok (cd_hdr r) /\ reply_ok y /\
  DPS_PKT_HDR_LEN + length (wire_endpoint_loc_reply y) <= DPS_MAX_BUFF_SZ.

(** A client to which one datagram comes. *)
Record can_hear (o : os) (fuel : nat) (cl : client) (data : buf) (stack : list Z) (a : ip_addr_t)
    (y : dps_endpoint_loc_reply_t) : Prop := {
  ch_stack : length (os_stack o) = SOCKADDR_STORAGE;
  ch_heap : is_Some (os_heap o (cl_mallocs cl));
  ch_buffer : length (sv_buff (cl_svr cl)) = DPS_MAX_BUFF_SZ;
  ch_first : os_recv o (cl_recvs cl) = Some (data, sockaddr stack a);
  ch_last : os_recv o (S (cl_recvs cl)) = None;
  ch_sender : length stack = SOCKADDR_STORAGE /\ sock_ok a;
  ch_reply : loc_ok room_endpoint_loc_reply fuel (elr_version y) (elr_vnid y) (elr_mac y)
    (elr_vm_ip_addr y) (elr_tunnel_info y)
}.

Lemma answered_asking c cl T T1 :
  asking c cl T T1 -> (forall k, k ∈ T (bucket_of (given_id c cl)) -> pt_pktId k <> given_id c cl) ->
  context_of T1 (given_id c cl) = cd_context c /\ forall i, answered T1 (given_id c cl) i = T i.
Proof.
  intros (n & En & Ec & ->) Hf. unfold context_of, answered, upd.
  rewrite decide_True by done. rewrite take_out_snoc by done. split; [done|].
  intros i. cbn [snd]. repeat case_decide; congruence.
Qed.

(** C2. A client asks for a location, a server is asked and answers, and the
    client has its answer.  The request goes to the address given, or else to
    the server known for the network; it is handed to the data handler as it
    was made, under the query id the client gave it; the answer is sent to the
    address the datagram came from, and is delivered to the client as it was
    made, once, with the context of the request, whose timer has gone.  From
    then on the server is known for the network. *)
Theorem location_resolved (o : os) (fuel : nat) c x cl m T t :
  can_ask o fuel c cl m T -> cd_body c = Body_endpoint_loc_req x ->
  ch_type (cd_hdr c) = DPS_ENDPOINT_LOC_REQ -> loc_req_ok x -> hdr_ok (asking_hdr c cl) ->
  exists req dst c1 cl1, destination m (ch_vnid (cd_hdr c)) (ch_reply_addr (cd_hdr c)) dst /\
    dps_protocol_client_send (H := client_env o fuel) c (t, Done cl) =
      Done (DPS_SUCCESS, c1, (count incr_sent DPS_ENDPOINT_LOC_REQ t, Done cl1)) /\
    cl_out cl1 = cl_out cl ++ [datagram o req dst cl] /\
    cl_svr cl1 = cl_svr cl /\ cl_recvs cl1 = cl_recvs cl /\
  forall so sfuel hc sa s ts stack me, can_serve so s req stack me -> 3 < sfuel ->
  exists x' s1, loc_req_from (noted me) x x' /\
    SvrCtrl.dps_process_data_rcvd so sfuel hc sa (ts, s) =
      Done (DOVE_STATUS_OK, (count incr_recv DPS_ENDPOINT_LOC_REQ ts, s1)) /\
    let d := mk_client_data 0 (from (asking_hdr c cl) (noted me)) (Body_endpoint_loc_req x') in
    handed s s1 d /\
  forall r y tr, answers d r y ->
  exists ans to s2,
    dps_protocol_client_send (H := server_env so) r (tr, Done s1) =
      Done (DPS_SUCCESS, r, (count incr_sent DPS_ENDPOINT_LOC_REPLY tr, Done s2)) /\
    sr_out s2 = sr_out s1 ++ [Sv_sendto (server_sock s1) ans to] /\
    take 8 to = take 8 (sockaddr stack me) /\
  forall o' hc' sa' socket stack' home tc, can_hear o' fuel cl1 ans stack' home y ->
  let sender := learnt (mk_ip_addr AF_INET 0 0 0 zero_ip) home in
  exists y' cl2, y' ≡ y /\
    ClientCtrl.dps_process_data_rcvd o' fuel hc' sa' socket 0 (tc, cl1) =
      Done (DPS_SUCCESS, (count incr_recv DPS_ENDPOINT_LOC_REPLY tc, cl2)) /\
    cl_out cl2 = cl_out cl1 ++ [Cl_client (mk_client_data (cd_context c) (from (cd_hdr r) sender)
      (Body_endpoint_loc_reply y'))] /\
    crepr cl2 (if room_for (os_entry o') (cl_table cl1) m (ch_vnid (cd_hdr c))
               then <[ch_vnid (cd_hdr c) := sender]> m else m) T.
Proof.
  intros Hcan Eb Et Hx Hh.
  destruct (client_asks o fuel c x t cl m T Hcan Eb Et Hx Hh) as
    (req & dst & c1 & cl1 & T1 & Hd & E1 & Eo & Hp & Hlen & Etab & Esv & Erc & HT1 & Hask).
  exists req, dst, c1, cl1. do 5 (split; [done|]).
  intros so sfuel hc sa s ts stack me [Hheap Hsend Hst Hbuf Hact Hr1 Hr2 (Hstack & Hme & Hf)] Hsf.
  destruct (Hheap (sr_mallocs s)) as (b & Hb & _).
  destruct (served so sfuel hc sa req me stack (asking_hdr c cl) x ts s) as (x' & s1 & Hx' & E2 & Hhd);
    try done.
  exists x', s1. do 2 (split; [done|]). intros d. split; [done|].
  intros r y tr (Er & Ert & Eq & Ev & Ea & Est & Ec & Hhr & Hy & Hfit).
  destruct (server_answers so r y tr s1) as (ans & s2 & E3 & Eo3 & Hp3 & Hlen3 & _); try done.
  { intros n b' Hb'. destruct (Hheap n) as (b2 & H1 & H2). congruence. }
  { destruct (Hheap (sr_mallocs s1)) as (b2 & H1 & _). by eexists. }
  { by rewrite (ha_active _ _ _ Hhd). }
  exists ans, (server_addr so (ch_reply_addr (cd_hdr r))), s2. do 2 (split; [done|]).
  split; [rewrite Ea; by apply answer_address|].
  intros o' hc' sa' socket stack' home tc [Hst' Hheap' Hbuf' Hr1' Hr2' (Hs' & Hhome) Hly] sender.
  pose proof (ca_id _ _ _ _ _ _ Hcan) as Hid. pose proof (ca_fresh _ _ _ _ _ _ Hcan) as Hfr.
  destruct (answered_asking c cl T T1 Hask Hfr) as [Hctx Hans].
  change (ch_query_id (cd_hdr d)) with (given_id c cl) in Eq.
  change (ch_vnid (cd_hdr d)) with (ch_vnid (cd_hdr c)) in Ev.
  destruct (reply_datagram o' fuel hc' sa' Hst' socket ans home stack' (cd_hdr r) y tc cl1 m T1)
    as (y' & cl2 & Hy' & E4 & Eo4 & Hrep); try done.
  { split; [rewrite Etab; apply (ca_repr _ _ _ _ _ _ Hcan) | done]. }
  { by rewrite Eq. }
  { rewrite Etab. apply (ca_table _ _ _ _ _ _ Hcan). }
  { rewrite Eq. destruct Hask as (n & _ & _ & ->). unfold upd. rewrite decide_True by done.
    rewrite length_app. pose proof (ca_room _ _ _ _ _ _ Hcan). cbn. lia. }
  exists y', cl2. rewrite Eq, Hctx in Eo4. rewrite Eq, Ev in Hrep. do 3 (split; [done|]).
  destruct Hrep as [H1 H2]. split; [done|]. by eapply repr_ext.
Qed.

(** ** The theorems on the server evaluated

    A server whose queue is empty, in front of an operating system whose
    calls succeed. *)
(** One datagram arrives. *)
Definition sample_svos (datagram : buf) : sv_os :=
  mk_sv_os (fun _ => Some (replicate DPS_MAX_BUFF_SZ 0%Z)) (fun _ => true) (fun _ => true)
    (fun _ => 200%Z)
    (fun n => if decide (n = 0) then Some (datagram, sockaddr sample_stack peer) else None)
    9 true true (fun _ => true) (replicate 16 170%Z).
Definition sample_server0 : server :=
  mk_server 9 rt_queue0 rtimer1 fd_process0 (replicate DPS_MAX_BUFF_SZ 0%Z) true 0 0 0 0 [].

Lemma same_order : forall ks : list Z, id ks ≡ₚ ks.
Proof. done. Qed.
Lemma sample_so_stack d : length (so_stack (sample_svos d)) = SOCKADDR_IN.
Proof. reflexivity. Qed.
(** The server announces a location to a switch. *)
Lemma announce_sendable addr context : sendable (V_send loc_reply_pkt addr context).
Proof. exists loc_reply_hdr, (wire_endpoint_loc_reply sample_loc_reply). split; [exact loc_reply_at | done]. Qed.

Definition announced : Z := ch_query_id loc_reply_hdr.
Lemma announced_id : query_of loc_reply_pkt = announced.
Proof. unfold query_of. by rewrite (hdr_of_pkt _ _ _ loc_reply_at). Qed.

Example server_waits_refines_witness :
  exists s', run_all (run_svop (sample_svos []) id)
      [V_send loc_reply_pkt sample_switch 77; V_timer; V_reply announced; V_reply announced]
      (dps_pkt_stats_tbl, sample_server0) =
    Done ([VR_status DPS_SUCCESS; VR_none; VR_context true 77; VR_context false 0],
      (dps_pkt_stats_tbl, s')) /\ size (rq_contexts (sr_queue s')) = 0.
Proof.
  pose proof (server_waits_refines (sample_svos []) id same_order (sample_so_stack [])
    dps_pkt_stats_tbl sample_server0
    [V_send loc_reply_pkt sample_switch 77; V_timer; V_reply announced; V_reply announced]
    eq_refl ltac:(repeat constructor; apply announce_sendable)) as H.
  destruct (step_all _ _ _) as [rs a] eqn:E. destruct H as (s' & H1 & _ & _ & H4).
  exists s'. vm_compute in E. injection E as <- <-. split; [exact H1 | exact H4].
Defined.

Example server_request_once_witness :
  exists rs s' new, run_all (run_svop (sample_svos []) id)
      ([V_timer] ++ V_send loc_reply_pkt sample_switch 77 :: [V_timer; V_timer; V_timer; V_timer] ++
       [V_reply (query_of loc_reply_pkt)]) (dps_pkt_stats_tbl, sample_server0) =
    Done (rs ++ [VR_context false 0], (dps_pkt_stats_tbl, s')) /\ sr_out s' = [] ++ new /\
    about (query_of loc_reply_pkt) new =
      replicate 4 (Sv_sendto 9 loc_reply_pkt (server_addr (sample_svos []) sample_switch)) ++
      [no_answer_to (request_of (sample_svos []) 9 loc_reply_pkt sample_switch 77)].
Proof.
  exact (server_request_once (sample_svos []) id same_order (sample_so_stack [])
    dps_pkt_stats_tbl sample_server0 [V_timer] loc_reply_pkt sample_switch 77
    [V_timer; V_timer; V_timer; V_timer] eq_refl
    ltac:(repeat constructor; apply announce_sendable) ltac:(discriminate) ltac:(reflexivity)
    ltac:(repeat constructor)).
Defined.

(** A switch asks, the server answers. *)
Definition question : dps_client_data_t :=
  sample_msg DPS_ENDPOINT_LOC_REQ 41 (Body_endpoint_loc_req sample_loc_req).
Definition answer (d : dps_client_data_t) : dps_client_data_t :=
  mk_client_data 0
    (mk_client_hdr DPS_ENDPOINT_LOC_REPLY 0 2 DPS_TRANSACTION_NORMAL (ch_vnid (cd_hdr d)) 0
       (ch_query_id (cd_hdr d)) (ch_reply_addr (cd_hdr d))) (Body_endpoint_loc_reply sample_loc_reply).

Lemma sample_can_ask s inuse :
  maps s two_servers -> vt_mallocs s <= 4 -> inuse <> 0%Z ->
  can_ask (sample_os true []) 9 question (sample_client inuse fd_process0 s) two_servers no_timers.
Proof.
  intros HR Hn Hi. split; try done.
  - intros n b [= <-]. apply length_replicate.
  - exact (sample_crepr inuse fd_process0 s HR).
  - exact two_servers_ok.
  - intros _. exact peer_ok.
  - by left.
  - exact (table_fuel inuse fd_process0 s Hn).
  - apply no_timers_short.
  - intros k Hk. by apply elem_of_nil in Hk.
Qed.

Lemma sample_can_serve data :
  can_serve (sample_svos data) sample_server0 data sample_stack peer.
Proof.
  split; try done.
  - intros n. eexists. split; [done | apply length_replicate].
  - by split; [|split; [apply peer_ok|]].
Qed.

Example location_resolved_witness :
  exists s, maps s two_servers /\
  let o := sample_os true [] in
  let cl := sample_client 1 fd_process0 s in
  exists req dst c1 cl1 s1 x',
    dps_protocol_client_send (H := client_env o 9) question (dps_pkt_stats_tbl, Done cl) =
      Done (DPS_SUCCESS, c1, (count incr_sent DPS_ENDPOINT_LOC_REQ dps_pkt_stats_tbl, Done cl1)) /\
    cl_out cl1 = cl_out cl ++ [datagram o req dst cl] /\
    let d := mk_client_data 0 (from (asking_hdr question cl) (noted peer)) (Body_endpoint_loc_req x') in
    handed sample_server0 s1 d /\
  exists ans to s2,
    sr_out s2 = sr_out s1 ++ [Sv_sendto (server_sock s1) ans to] /\
  let o' := sample_os true ans in
  exists y' cl2, y' ≡ sample_loc_reply /\
    ClientCtrl.dps_process_data_rcvd o' 9 (fun _ => (0, 0)%Z) zero_ip_addr 9 0 (dps_pkt_stats_tbl, cl1) =
      Done (DPS_SUCCESS, (count incr_recv DPS_ENDPOINT_LOC_REPLY dps_pkt_stats_tbl, cl2)) /\
    cl_out cl2 = cl_out cl1 ++ [Cl_client (mk_client_data 77 (from (cd_hdr (answer d))
      (learnt (mk_ip_addr AF_INET 0 0 0 zero_ip) peer)) (Body_endpoint_loc_reply y'))].
Proof.
  destruct two_servers_table as (s & HR & Hn). exists s. split; [exact HR|]. intros o cl.
  destruct (location_resolved o 9 question sample_loc_req cl two_servers no_timers dps_pkt_stats_tbl
    (sample_can_ask s 1 HR Hn ltac:(discriminate)) eq_refl eq_refl ltac:(decided) ltac:(decided))
    as (req & dst & c1 & cl1 & _ & E1 & Eo & Esv & Erc & Hserve).
  destruct (Hserve (sample_svos req) 9 (fun _ => (0, 0)%Z) zero_ip_addr sample_server0 dps_pkt_stats_tbl
    sample_stack peer (sample_can_serve req) ltac:(lia)) as (x' & s1 & _ & _ & Hh & Hans).
  set (d := mk_client_data 0 (from (asking_hdr question cl) (noted peer)) (Body_endpoint_loc_req x')).
  exists req, dst, c1, cl1, s1, x'. split; [exact E1|]. split; [exact Eo|]. split; [exact Hh|].
  destruct (Hans (answer d) sample_loc_reply dps_pkt_stats_tbl) as (ans & to & s2 & _ & Es & _ & Hhear).
  { split_and!; try reflexivity; decided. }
  exists ans, to, s2. split; [exact Es|].
  destruct (Hhear (sample_os true ans) (fun _ => (0, 0)%Z) zero_ip_addr 9%Z sample_stack peer
    dps_pkt_stats_tbl) as (y' & cl2 & Hy & E4 & Eo4 & _).
  { split; [reflexivity | by eexists | | by rewrite Erc | by rewrite Erc | by split; [|apply peer_ok] |].
    - rewrite Esv. apply length_replicate.
    - exact loc_reply_ok. }
  exists y', cl2. split; [exact Hy|]. split; [exact E4 | exact Eo4].
Defined.
