(* ===== verification/HaTask.v ===== *)
(** * Two gateways that watch each other: [odgw/dgadmin/dgwy_vlan_ha_task.c]

    A gateway connects to its peers and sends each of them, every five
    seconds, the list of its MAC addresses; a peer from which nothing comes is
    declared down to the control task.  [dgwy_ctrl_task.c] follows. *)
From S2P Require Export Prelude.
#[local] Open Scope Z_scope.

Definition MAX_PEERS : nat := 2%nat.
Definition MAX_POLLFD : nat := 8%nat.
Definition MAX_IF_MACS : nat := 8%nat.
Definition VLAN_HA_MSG_LEN : nat := 50%nat.
Definition DGWY_HA_KEEP_ALIVE_TIMOUT : Z := 30.
Definition CLOCKS_PER_SEC : Z := 1000000.
Definition EAGAIN : Z := 11.
Definition POLLIN : Z := 1.
Definition DGWY_HA_TASK_TIMER_EVENT : Z := 1.
Definition DGWY_HA_TASK_MSG_EVENT : Z := 2.
Definition DGWY_PEER_UP : Z := 3.
Definition DGWY_PEER_DOWN : Z := 4.

(** A [char] is signed. *)
Definition i8 (z : Z) : Z := (z + 128) mod 256 - 128.
Definition int32 (z : Z) : Z := (z + 2147483648) mod 4294967296 - 2147483648.

(** ** State *)

(** [fdRead] is never used.  [pr_state]: 0 unused, 1 inactive, 2 active. *)
Record dgwy_ha_peer_table_t := mk_peer {
  peer_ipv4 : Z; local_ipv4 : Z; pr_state : Z; fdRead : Z; fdWrite : Z; pr_last : Z }.
Definition no_peer : dgwy_ha_peer_table_t := mk_peer 0 0 0 0 0 0.
Definition with_state (x : Z) (p : dgwy_ha_peer_table_t) : dgwy_ha_peer_table_t :=
  mk_peer (peer_ipv4 p) (local_ipv4 p) x (fdRead p) (fdWrite p) (pr_last p).
Definition with_fd (x : Z) (p : dgwy_ha_peer_table_t) : dgwy_ha_peer_table_t :=
  mk_peer (peer_ipv4 p) (local_ipv4 p) (pr_state p) (fdRead p) x (pr_last p).
Definition with_last (x : Z) (p : dgwy_ha_peer_table_t) : dgwy_ha_peer_table_t :=
  mk_peer (peer_ipv4 p) (local_ipv4 p) (pr_state p) (fdRead p) (fdWrite p) x.

(** What the task does to the rest of the system. *)
Inductive ha_event :=
| Ha_connect (fd peer local : Z)
| Ha_close (fd : Z)
| Ha_send (fd : Z) (data : list Z)
| Ha_notify (type ip state : Z)
| Ha_listen_start
| Ha_start_timer.

(** [ha_calls] counts the calls of the rest of the system. *)
Record ha_task := mk_ha {
  ha_fds : list Z; idxPoll : Z; ha_peers : list dgwy_ha_peer_table_t;
  vlan_ha_local_msg : list Z; vlan_ha_peer_msg : list Z; ha_startFlg : bool;
  ha_calls : nat; ha_out : list ha_event }.

Definition ha_task0 : ha_task :=
  mk_ha (replicate MAX_POLLFD 0) 0 (replicate MAX_PEERS no_peer) (replicate VLAN_HA_MSG_LEN 0)
    (replicate VLAN_HA_MSG_LEN 0) false 0%nat [].

Definition ha_emit (es : list ha_event) (s : ha_task) : ha_task :=
  mk_ha (ha_fds s) (idxPoll s) (ha_peers s) (vlan_ha_local_msg s) (vlan_ha_peer_msg s) (ha_startFlg s)
    (ha_calls s) (ha_out s ++ es).
Definition ha_with_fds (x : list Z) (n : Z) (s : ha_task) : ha_task :=
  mk_ha x n (ha_peers s) (vlan_ha_local_msg s) (vlan_ha_peer_msg s) (ha_startFlg s) (ha_calls s) (ha_out s).
Definition ha_with_peers (x : list dgwy_ha_peer_table_t) (s : ha_task) : ha_task :=
  mk_ha (ha_fds s) (idxPoll s) x (vlan_ha_local_msg s) (vlan_ha_peer_msg s) (ha_startFlg s)
    (ha_calls s) (ha_out s).
Definition ha_with_local (x : list Z) (s : ha_task) : ha_task :=
  mk_ha (ha_fds s) (idxPoll s) (ha_peers s) x (vlan_ha_peer_msg s) (ha_startFlg s) (ha_calls s) (ha_out s).
Definition ha_with_peer_msg (x : list Z) (s : ha_task) : ha_task :=
  mk_ha (ha_fds s) (idxPoll s) (ha_peers s) (vlan_ha_local_msg s) x (ha_startFlg s) (ha_calls s) (ha_out s).
Definition ha_started (s : ha_task) : ha_task :=
  mk_ha (ha_fds s) (idxPoll s) (ha_peers s) (vlan_ha_local_msg s) (vlan_ha_peer_msg s) true
    (ha_calls s) (ha_out s).
Definition set_peer (i : nat) (f : dgwy_ha_peer_table_t -> dgwy_ha_peer_table_t) (s : ha_task) : ha_task :=
  ha_with_peers (alter f i (ha_peers s)) s.

(** The rest of the system: what the [n]-th call answers.  [ho_macs] is what
    [dgwy_svc_table_get] finds: the addresses of the service. *)
Record ha_os := mk_ha_os {
  ho_socket : nat -> Z; ho_connect : nat -> bool; ho_send : nat -> Z; ho_clock : nat -> Z;
  ho_malloc : nat -> bool; ho_queue : nat -> bool; ho_macs : nat -> option (list (list Z));
  ho_peername : nat -> option (Z * Z); ho_poll : nat -> Z * list Z;
  ho_read : nat -> option (list Z) * Z }.

Section task.
Context (o : ha_os).

(** One call more. *)
Definition call {A} (f : nat -> A) (s : ha_task) : A * ha_task :=
  (f (ha_calls s),
   mk_ha (ha_fds s) (idxPoll s) (ha_peers s) (vlan_ha_local_msg s) (vlan_ha_peer_msg s)
     (ha_startFlg s) (S (ha_calls s)) (ha_out s)).

(** ** The descriptors of the connections that were accepted *)
Definition add_fds_list (fd : Z) (s : ha_task) : Z * ha_task :=
  if (Z.of_nat MAX_POLLFD <=? idxPoll s) then (-1, s)
  else
    match list_find (fun x => x = 0) (ha_fds s) with
    | Some (i, _) => (0, ha_with_fds (<[i := fd]> (ha_fds s)) (idxPoll s + 1) s)
    | None => (0, s)
    end.

Definition rem_fds (fd : Z) (s : ha_task) : Z * ha_task :=
  if (fd <=? 0) then (0, s)
  else
    match list_find (fun x => x = fd) (ha_fds s) with
    | Some (i, _) => (0, ha_with_fds (<[i := 0]> (ha_fds s)) (idxPoll s - 1) s)
    | None => (0, s)
    end.

(** ** MAC addresses *)

(** [dgadmutil.c]: the first byte is the number of addresses. *)
Definition not_zero (mac : list Z) : bool := existsb (fun b => negb (b =? 0)) mac.
Definition get_all_mac_addess (svcp : option (list (list Z))) (buf : list Z) : Z * list Z :=
  match svcp with
  | Some ifmacList =>
      let macs := List.filter not_zero (take MAX_IF_MACS ifmacList) in
      let ret := Z.of_nat (length macs) in
      let bytes := u8 ret :: concat macs in
      (ret, bytes ++ replicate (VLAN_HA_MSG_LEN - length bytes) 0)
  | None => (-1, buf)
  end.

Definition mac_at (msg : list Z) (i : nat) : out (list Z) :=
  if decide (1 + 6 * i + 6 <= length msg)%nat then Done (take 6 (drop (1 + 6 * i) msg)) else Fault.
Fixpoint mac_from (k i : nat) (mac msg : list Z) : out bool :=
  match k with
  | O => Done false
  | S k =>
      let* m := mac_at msg i in
      if bool_decide (m = mac) then Done true else mac_from k (S i) mac msg
  end.
Definition count_at (msg : list Z) : out Z := let* b := of_option (msg !! 0%nat) in Done (i8 b).
Definition is_mac_found_in_peer (mac : list Z) (s : ha_task) : out bool :=
  let* n := count_at (vlan_ha_peer_msg s) in
  if (n =? 0) then Done false else mac_from (Z.to_nat n) 0%nat mac (vlan_ha_peer_msg s).

(** ** Connections to the peers *)
Definition connect_peer (peer local : Z) (s : ha_task) : Z * ha_task :=
  let '(sd, s) := call (ho_socket o) s in
  if (sd <? 0) then (-1, s)
  else
    let '(ok, s) := call (ho_connect o) s in
    let s := ha_emit [Ha_connect sd peer local] s in
    if negb ok then (-1, ha_emit [Ha_close sd] s) else (sd, s).
(** [fd = connect_peer(...); if(fd>0) ... fdWrite = fd]. *)
Definition reconnect (i : nat) (p : dgwy_ha_peer_table_t) (s : ha_task) : bool * ha_task :=
  let '(fd, s) := connect_peer (peer_ipv4 p) (local_ipv4 p) s in
  if (0 <? fd) then (true, set_peer i (with_fd fd) s) else (false, s).

(** A message to the control task. *)
Definition notify_ctrl (type ip state : Z) (s : ha_task) : ha_task :=
  let '(ok, s) := call (ho_queue o) s in
  if ok then ha_emit [Ha_notify type ip state] s else s.

Definition peer_at (i : nat) (s : ha_task) : out dgwy_ha_peer_table_t := of_option (ha_peers s !! i).

Definition send_to_peer (i : nat) (data : list Z) (s : ha_task) : out (Z * ha_task) :=
  let* p := peer_at i s in
  let '(wrote, s) := call (ho_send o) s in
  Done (wrote, ha_emit [Ha_send (fdWrite p) data] s).

(** The message to a peer that is connected. *)
Definition keep_alive_send (i : nat) (s : ha_task) : out ha_task :=
  let* n := count_at (vlan_ha_local_msg s) in
  let ret := n * 6 + 1 in
  if (0 <? ret) then
    if decide (Z.to_nat ret <= length (vlan_ha_local_msg s))%nat then
      let data := take (Z.to_nat ret) (vlan_ha_local_msg s) in
      let* (wrote, s) := send_to_peer i data s in
      if (wrote =? ret) then Done s
      else
        let* p := peer_at i s in
        let s := set_peer i (with_fd 0) (ha_emit [Ha_close (fdWrite p)] s) in
        let '(connected, s) := reconnect i p s in
        if connected then let* (_, s) := send_to_peer i data s in Done s else Done s
    else Fault
  else Done s.

(** Nothing has come for too long. *)
Definition keep_alive_check (i : nat) (s : ha_task) : out ha_task :=
  let* p := peer_at i s in
  if (pr_state p =? 2) then
    let '(now, s) := call (ho_clock o) s in
    let timsince := int32 (Z.quot (now - pr_last p) CLOCKS_PER_SEC) in
    if (DGWY_HA_KEEP_ALIVE_TIMOUT <? timsince) then
      let '(msg, s) := call (ho_malloc o) s in
      if msg then Done (notify_ctrl DGWY_PEER_DOWN (peer_ipv4 p) 1 (set_peer i (with_state 1) s))
      else Done s
    else Done s
  else Done s.

Definition keep_alive_peer (i : nat) (s : ha_task) : out ha_task :=
  let* p := peer_at i s in
  if (peer_ipv4 p =? 0) then Done s
  else if (0 <? fdWrite p) then
    let* s := keep_alive_send i s in
    keep_alive_check i s
  else
    Done (reconnect i p (set_peer i (with_fd 0) s)).2.

Fixpoint keep_alive_from (k i : nat) (s : ha_task) : out ha_task :=
  match k with
  | O => Done s
  | S k => let* s := keep_alive_peer i s in keep_alive_from k (S i) s
  end.
Definition keep_alive_peers (s : ha_task) : out ha_task :=
  let* n := count_at (vlan_ha_local_msg s) in
  let s :=
    if (n <? 4) then
      let '(svcp, s) := call (ho_macs o) s in
      ha_with_local (get_all_mac_addess svcp (vlan_ha_local_msg s)).2 s
    else s in
  keep_alive_from MAX_PEERS 0%nat s.

(** ** Messages from the peers *)
Definition update_peer (i : nat) (s : ha_task) : out ha_task :=
  let* p := peer_at i s in
  let '(now, s) := call (ho_clock o) s in
  let s := set_peer i (with_last now) s in
  let s :=
    if (pr_state p =? 1) then
      let '(msg, s) := call (ho_malloc o) s in
      if msg then notify_ctrl DGWY_PEER_UP (peer_ipv4 p) 2 s else s
    else s in
  Done (set_peer i (with_state 2) s).
Fixpoint update_peer_from (k i : nat) (ip : Z) (s : ha_task) : out ha_task :=
  match k with
  | O => Done s
  | S k =>
      let* p := peer_at i s in
      let* s := if (ip =? peer_ipv4 p) then update_peer i s else Done s in
      update_peer_from k (S i) ip s
  end.
Definition update_peer_clock (ip : Z) (s : ha_task) : out ha_task := update_peer_from MAX_PEERS 0%nat ip s.

(** [getpeername] gives a family and the address. *)
Definition PF_INET : Z := 2.
Definition process_peer_msg (s : ha_task) : out (Z * ha_task) :=
  let '(peer, s) := call (ho_peername o) s in
  match peer with
  | None => Done (-1, s)
  | Some (family, ip) =>
      if (family =? PF_INET) then let* s := update_peer_clock ip s in Done (0, s) else Done (0, s)
  end.

(** The scan for the peer and for an unused slot. *)
Fixpoint find_slot (k i : nat) (peer : Z) (emptyIdx : option nat) (s : ha_task) : out (bool * option nat) :=
  match k with
  | O => Done (false, emptyIdx)
  | S k =>
      let* p := peer_at i s in
      if (peer =? peer_ipv4 p) then Done (true, emptyIdx)
      else
        let emptyIdx := match emptyIdx with Some _ => emptyIdx | None => if (pr_state p =? 0) then Some i else None end in
        find_slot k (S i) peer emptyIdx s
  end.
Definition update_peers_table (peer local : Z) (s : ha_task) : out (Z * ha_task) :=
  let* (found, emptyIdx) := find_slot MAX_PEERS 0%nat peer None s in
  if (found : bool) then Done (0, s)
  else
    match emptyIdx with
    | Some i =>
        let* p := peer_at i s in
        let '(now, s) := call (ho_clock o) s in
        let p := mk_peer peer local 1 (fdRead p) (fdWrite p) now in
        Done (0, (reconnect i p (set_peer i (fun _ => p) s)).2)
    | None => Done (-1, s)
    end.

(** ** A round of [poll]

    [pfds] are the descriptors when it starts.  [read] gives the bytes, none
    at the end of the connection, and [errno] as it is then. *)
Definition receive_from (fd : Z) (s : ha_task) : out ha_task :=
  let '(r, s) := call (ho_read o) s in
  match r with
  | (Some (b :: data), _) =>
      let buf := take 1024 (b :: data) in
      let ret := Z.of_nat (length buf) in
      let* n := count_at (vlan_ha_peer_msg s) in
      let s :=
        if (n <? 4) && ((i8 b * 6 + 1 <=? ret) && (ret <? Z.of_nat VLAN_HA_MSG_LEN))
        then ha_with_peer_msg (buf ++ drop (length buf) (vlan_ha_peer_msg s)) s
        else s in
      let* (_, s) := process_peer_msg s in Done s
  | (_, errno) => Done (if negb (errno =? EAGAIN) then (rem_fds fd s).2 else s)
  end.
Fixpoint receive_all (pfds : list Z) (revents : list Z) (s : ha_task) : out ha_task :=
  match pfds with
  | [] => Done s
  | fd :: pfds =>
      let* s := if (hd 0 revents =? POLLIN) then receive_from fd s else Done s in
      receive_all pfds (tl revents) s
  end.
Definition dgwy_ha_state_poll (s : ha_task) : out (Z * ha_task) :=
  if (idxPoll s <=? 0) then Done (-1, s)
  else
    let pfds := List.filter (fun fd => negb (fd =? 0)) (ha_fds s) in
    let '((rv, revents), s) := call (ho_poll o) s in
    if (rv =? -1) || (rv =? 0) then Done (0, s)
    else let* s := receive_all pfds revents s in Done (0, s).

(** ** The task *)
Inductive ha_msg :=
| DGWY_HA_START
| DGWY_HA_SKT_ACCEPTED (fdConnected : Z)
| DGWY_HA_CTRL_PEER_IPV4 (peer local : Z)
| Ha_other.

Definition ha_message (m : ha_msg) (s : ha_task) : out ha_task :=
  match m with
  | DGWY_HA_START =>
      let s := ha_started s in
      let '(lmsg, s) := call (ho_malloc o) s in
      if lmsg then
        let '(ok, s) := call (ho_queue o) s in
        Done (if ok then ha_emit [Ha_listen_start] s else s)
      else Done s
  | DGWY_HA_SKT_ACCEPTED fd => Done (add_fds_list fd s).2
  | DGWY_HA_CTRL_PEER_IPV4 peer local => let* (_, s) := update_peers_table peer local s in Done s
  | Ha_other => Done s
  end.
Fixpoint ha_messages (ms : list ha_msg) (s : ha_task) : out ha_task :=
  match ms with
  | [] => Done s
  | m :: ms => let* s := ha_message m s in ha_messages ms s
  end.

(** One pass of the loop of [dgwy_ha_task_main]: [events] is what
    [recv_event] gives, nothing when it fails, and [ms] the messages that
    are in the queue. *)
Definition ha_cycle (events : option Z) (ms : list ha_msg) (s : ha_task) : out ha_task :=
  let* s := if ha_startFlg s then let* (_, s) := dgwy_ha_state_poll s in Done s else Done s in
  match events with
  | None => Done s
  | Some ev =>
      let* s :=
        if negb (Z.land ev DGWY_HA_TASK_TIMER_EVENT =? 0)
        then keep_alive_peers (ha_emit [Ha_start_timer] s) else Done s in
      if negb (Z.land ev DGWY_HA_TASK_MSG_EVENT =? 0) then ha_messages ms s else Done s
  end.
Fixpoint ha_cycles (cs : list (option Z * list ha_msg)) (s : ha_task) : out ha_task :=
  match cs with
  | [] => Done s
  | (ev, ms) :: cs => let* s := ha_cycle ev ms s in ha_cycles cs s
  end.
End task.
