(* ===== verification/HaTasks.v ===== *)
(** * The task that watches the peers: it runs safely and tells each change once *)
From S2P Require Export HaTask.
From stdpp Require Export relations.
#[local] Open Scope Z_scope.

(** ** What the task of [HaTask] may do, step by step

    Every pass of the loop is a sequence of small steps; what holds at the
    start and is kept by each step holds for ever. *)
(** ** The invariant *)
Definition slot_ok (p : dgwy_ha_peer_table_t) : Prop :=
  0 <= fdWrite p /\ (pr_state p = 0 \/ pr_state p = 1 \/ pr_state p = 2) /\
  (pr_state p = 0 <-> peer_ipv4 p = 0).
Definition used_fds (fds : list Z) : list Z := List.filter (fun fd => negb (fd =? 0)) fds.

(** A list of MAC addresses: the count is of addresses there is room for. *)
Definition msg_ok (msg : list Z) : Prop :=
  length msg = VLAN_HA_MSG_LEN /\ exists b, msg !! 0%nat = Some b /\ i8 b <= 8.
(** The list of the gateway's own: the count, as many addresses, none of them
    0, and zeros to the end. *)
Definition listing (macs : list (list Z)) : list Z :=
  Z.of_nat (length macs) :: concat macs
  ++ replicate (VLAN_HA_MSG_LEN - (1 + 6 * length macs)) 0.
Definition own_list (msg : list Z) : Prop :=
  exists macs, msg = listing macs /\ (length macs <= 8)%nat /\
    Forall (fun mac => length mac = 6%nat /\ not_zero mac = true) macs.
(** A message of a peer is as long as its count says, or longer, but not too
    long. *)
Definition whole (data : list Z) : Prop :=
  (length data < VLAN_HA_MSG_LEN)%nat /\
  exists b, data !! 0%nat = Some b /\ i8 b * 6 + 1 <= Z.of_nat (length data).
(** The list of the peer's: nothing yet, or a whole message that came, over
    what was there before. *)
Definition peer_list (came : list Z -> Prop) (msg : list Z) : Prop :=
  msg = replicate VLAN_HA_MSG_LEN 0 \/
  exists data old, came data /\ whole data /\ length old = VLAN_HA_MSG_LEN /\
    msg = data ++ drop (length data) old.

Record ha_ok (s : ha_task) : Prop := {
  ok_fds : length (ha_fds s) = MAX_POLLFD;
  ok_idx : idxPoll s = Z.of_nat (length (used_fds (ha_fds s)));
  ok_peers : length (ha_peers s) = MAX_PEERS;
  ok_slots i p : ha_peers s !! i = Some p -> slot_ok p;
  ok_distinct i j p q : ha_peers s !! i = Some p -> ha_peers s !! j = Some q ->
    peer_ipv4 p = peer_ipv4 q -> peer_ipv4 p <> 0 -> i = j;
  ok_local : msg_ok (vlan_ha_local_msg s);
  ok_own : own_list (vlan_ha_local_msg s);
  ok_peer_msg : msg_ok (vlan_ha_peer_msg s)
}.

(** The notices to the control task about a peer. *)
Definition notice (ip : Z) (e : ha_event) : option Z :=
  match e with Ha_notify _ ip' st => if ip' =? ip then Some st else None | _ => None end.
Definition notices (ip : Z) (es : list ha_event) : list Z := omap (notice ip) es.

Definition with_calls (k : nat) (s : ha_task) : ha_task :=
  mk_ha (ha_fds s) (idxPoll s) (ha_peers s) (vlan_ha_local_msg s) (vlan_ha_peer_msg s) (ha_startFlg s)
    k (ha_out s).
Definition silent (e : ha_event) : bool := match e with Ha_notify _ _ _ => false | _ => true end.

(** ** The steps

    [sure] is that no allocation and no queue fails; [came] are the messages
    that may come; [J] are the slots that may be touched. *)
Inductive ha_step (sure : Prop) (came : list Z -> Prop) (J : nat -> Prop) (s : ha_task)
    : ha_task -> Prop :=
| Step_call k : ha_step sure came J s (with_calls k s)
| Step_emit e : silent e = true -> ha_step sure came J s (ha_emit [e] s)
| Step_start : ha_step sure came J s (ha_started s)
| Step_fd i x : J i -> 0 <= x -> ha_step sure came J s (set_peer i (with_fd x) s)
| Step_local msg : msg_ok msg -> own_list msg -> ha_step sure came J s (ha_with_local msg s)
| Step_heard data : came data -> whole data ->
    ha_step sure came J s
      (ha_with_peer_msg (data ++ drop (length data) (vlan_ha_peer_msg s)) s)
| Step_add fd i : fd <> 0 -> ha_fds s !! i = Some 0 ->
    ha_step sure came J s (ha_with_fds (<[i := fd]> (ha_fds s)) (idxPoll s + 1) s)
| Step_rem fd i : fd <> 0 -> ha_fds s !! i = Some fd ->
    ha_step sure came J s (ha_with_fds (<[i := 0]> (ha_fds s)) (idxPoll s - 1) s)
| Step_new i p peer local now : J i -> ha_peers s !! i = Some p -> pr_state p = 0 -> peer <> 0 ->
    (forall j q, ha_peers s !! j = Some q -> peer_ipv4 q <> peer) ->
    ha_step sure came J s (set_peer i (fun _ => mk_peer peer local 1 (fdRead p) (fdWrite p) now) s)
| Step_down i p k (told : bool) : J i -> ha_peers s !! i = Some p -> pr_state p = 2 -> (sure -> told = true) ->
    ha_step sure came J s (ha_emit (if told then [Ha_notify DGWY_PEER_DOWN (peer_ipv4 p) 1] else [])
                      (with_calls k (set_peer i (with_state 1) s)))
| Step_up i p now k (told : bool) : J i -> ha_peers s !! i = Some p -> peer_ipv4 p <> 0 ->
    (sure -> told = (pr_state p =? 1)) -> (told = true -> pr_state p = 1) ->
    ha_step sure came J s (set_peer i (with_state 2)
      (ha_emit (if told then [Ha_notify DGWY_PEER_UP (peer_ipv4 p) 2] else [])
         (with_calls k (set_peer i (with_last now) s)))).

(** ** What the steps keep *)
Definition one (x : Z) : nat := if (x =? 0) then 0%nat else 1%nat.
Lemma one_fd fd : fd <> 0 -> one fd = 1%nat.
Proof. intros H. unfold one. by rewrite (proj2 (Z.eqb_neq _ _) H). Qed.
Lemma used_insert (fds : list Z) (i : nat) (x y : Z) :
  fds !! i = Some x ->
  (length (used_fds (<[i := y]> fds)) + one x = length (used_fds fds) + one y)%nat.
Proof.
  unfold used_fds. revert i. induction fds as [|z fds IH]; intros [|i] Hx; cbn in *; try done.
  - injection Hx as ->. unfold one. destruct (x =? 0), (y =? 0); cbn; lia.
  - specialize (IH i Hx). destruct (z =? 0); cbn; [exact IH | by f_equal].
Qed.

(** A change of one slot that keeps its address keeps the invariant of slots. *)
Lemma slots_alter f i (ps : list dgwy_ha_peer_table_t) :
  (forall p, ps !! i = Some p -> slot_ok p -> slot_ok (f p) /\ peer_ipv4 (f p) = peer_ipv4 p) ->
  (forall j p, ps !! j = Some p -> slot_ok p) ->
  forall j p, alter f i ps !! j = Some p -> slot_ok p /\ exists q, ps !! j = Some q /\ peer_ipv4 q = peer_ipv4 p.
Proof.
  intros Hf Hok j p Hj. destruct (decide (i = j)) as [<-|Hne].
  - rewrite list_lookup_alter_eq in Hj. apply fmap_Some in Hj as (q & Hq & ->).
    destruct (Hf q Hq (Hok _ _ Hq)). eauto.
  - rewrite list_lookup_alter_ne in Hj by done. eauto.
Qed.

Lemma ok_alter f i s :
  ha_ok s -> (forall p, ha_peers s !! i = Some p -> slot_ok p -> slot_ok (f p) /\ peer_ipv4 (f p) = peer_ipv4 p) ->
  ha_ok (set_peer i f s).
Proof.
  intros [] Hf. split; cbn; try done.
  - by rewrite length_alter.
  - intros j p Hj. by apply (slots_alter f i (ha_peers s) Hf ok_slots0 j p).
  - intros j k p q Hj Hk Hpq Hp.
    destruct (slots_alter f i (ha_peers s) Hf ok_slots0 j p Hj) as (_ & p' & Hp' & E).
    destruct (slots_alter f i (ha_peers s) Hf ok_slots0 k q Hk) as (_ & q' & Hq' & E').
    apply (ok_distinct0 j k p' q'); congruence.
Qed.

Lemma ok_same s s' :
  ha_fds s' = ha_fds s -> idxPoll s' = idxPoll s -> ha_peers s' = ha_peers s ->
  vlan_ha_local_msg s' = vlan_ha_local_msg s -> vlan_ha_peer_msg s' = vlan_ha_peer_msg s ->
  ha_ok s -> ha_ok s'.
Proof. intros E1 E2 E3 E4 E5 []. split; congruence || (rewrite ?E1, ?E2, ?E3; done). Qed.

Lemma over_ok data old :
  whole data -> length old = VLAN_HA_MSG_LEN -> msg_ok (data ++ drop (length data) old).
Proof.
  unfold whole, msg_ok, VLAN_HA_MSG_LEN. intros (Hd & b & Hb & Hn) Hold. split.
  - rewrite length_app, length_drop. lia.
  - exists b. split; [by apply lookup_app_l_Some | lia].
Qed.
Lemma step_heard sure came J s s' :
  ha_step sure came J s s' -> length (vlan_ha_peer_msg s) = VLAN_HA_MSG_LEN ->
  peer_list came (vlan_ha_peer_msg s) -> peer_list came (vlan_ha_peer_msg s').
Proof. intros Hst Hl Hp. destruct Hst; cbn; try exact Hp. right. by do 2 eexists. Qed.
Lemma step_ok sure came J s s' : ha_step sure came J s s' -> ha_ok s -> ha_ok s'.
Proof.
  intros Hst Hok. destruct Hst as
    [k|e _| |i x _ Hx|msg Hm Hw|data _ Hm|fd i Hfd Hi|fd i Hfd Hi|i p peer local now _ Hp Hs Hne Hnew
    |i p k told _ Hp Hs _|i p now k told _ Hp Hne _ _].
  - by eapply ok_same, Hok.
  - by eapply ok_same, Hok.
  - by eapply ok_same, Hok.
  - apply ok_alter; [done|]. intros p _ (_ & H). done.
  - by destruct Hok.
  - destruct Hok. split; cbn; try done. apply over_ok; [done | apply ok_peer_msg0].
  - pose proof (used_insert _ i 0 fd Hi) as Hu. rewrite (one_fd fd Hfd) in Hu.
    change (one 0) with 0%nat in Hu.
    destruct Hok. split; cbn -[used_fds]; try done; [by rewrite length_insert | lia].
  - pose proof (used_insert _ i fd 0 Hi) as Hu. rewrite (one_fd fd Hfd) in Hu.
    change (one 0) with 0%nat in Hu.
    destruct Hok. split; cbn -[used_fds]; try done; [by rewrite length_insert | lia].
  - pose proof Hok as []. set (q := mk_peer peer local 1 (fdRead p) (fdWrite p) now).
    assert (slot_ok q) as Hq by (destruct (ok_slots0 i p Hp) as (H & _); split; [exact H|]; unfold q; cbn; lia).
    assert (forall j r, alter (fun _ => q) i (ha_peers s) !! j = Some r ->
      (j = i /\ r = q) \/ (j <> i /\ ha_peers s !! j = Some r)) as Hl.
    { intros j r Hj. destruct (decide (i = j)) as [<-|Hij].
      - rewrite list_lookup_alter_eq in Hj. apply fmap_Some in Hj as (? & _ & ->). by left.
      - rewrite list_lookup_alter_ne in Hj by done. right. by split. }
    split; cbn; try done; [by rewrite length_alter | |].
    + intros j r [[-> ->]|[_ Hr]]%Hl; [done | by apply (ok_slots0 j)].
    + intros j k r r' [[-> ->]|[Hj Hr]]%Hl [[-> ->]|[Hk Hr']]%Hl E He; try done.
      * cbn in E. by destruct (Hnew k r' Hr').
      * cbn in E. by destruct (Hnew j r Hr).
      * by apply (ok_distinct0 j k r r').
  - eapply (ok_same (set_peer i (with_state 1) s)); try done. apply ok_alter; [done|].
    intros q Hq (H1 & H2 & H3). assert (q = p) as -> by congruence. split; [|done].
    split_and!; cbn; [done | lia | lia].
  - assert (ha_ok (set_peer i (with_last now) s)) as H1.
    { apply ok_alter; [done|]. intros q Hq (A1 & A2 & A3). done. }
    eapply (ok_same _ (ha_emit _ (with_calls k (set_peer i (with_last now) s)))) in H1; try done.
    apply ok_alter; [exact H1|]. cbn. intros q Hq (A1 & A2 & A3). split; [|done].
    rewrite list_lookup_alter_eq, Hp in Hq. injection Hq as <-. cbn in *.
    split_and!; cbn; [done | lia | lia].
Qed.

(** ** What the control task is told *)

(** Notices alternate, from an inactive peer on. *)
Fixpoint alternates (st : Z) (l : list Z) : Prop :=
  match l with
  | [] => True
  | x :: l => x <> st /\ (x = 1 \/ x = 2) /\ alternates x l
  end.
Definition last_notice (l : list Z) : Z := foldl (fun _ x => x) 1 l.

Lemma last_notice_snoc l x : last_notice (l ++ [x]) = x.
Proof. unfold last_notice. by rewrite foldl_app. Qed.
Lemma alternates_snoc st l x :
  alternates st l -> x <> foldl (fun _ x => x) st l -> x = 1 \/ x = 2 -> alternates st (l ++ [x]).
Proof.
  revert st. induction l as [|y l IH]; intros st Hl Hx Hv; [by split_and!|].
  destruct Hl as (H1 & H2 & Hl). cbn. split_and!; [done | done | by apply IH].
Qed.

Record told (s : ha_task) : Prop := {
  to_alternates ip : ip <> 0 -> alternates 1 (notices ip (ha_out s));
  to_state i p : ha_peers s !! i = Some p -> peer_ipv4 p <> 0 ->
    last_notice (notices (peer_ipv4 p) (ha_out s)) = pr_state p;
  to_none ip : ip <> 0 -> (forall i p, ha_peers s !! i = Some p -> peer_ipv4 p <> ip) ->
    notices ip (ha_out s) = []
}.

Lemma notices_app ip es es' : notices ip (es ++ es') = notices ip es ++ notices ip es'.
Proof. apply omap_app. Qed.
Lemma notices_silent ip e es : silent e = true -> notices ip (es ++ [e]) = notices ip es.
Proof. intros He. rewrite notices_app. destruct e; try done; by rewrite app_nil_r. Qed.

Lemma told_same s s' :
  (forall ip, notices ip (ha_out s') = notices ip (ha_out s)) -> ha_peers s' = ha_peers s ->
  told s -> told s'.
Proof.
  intros E1 E2 [H1 H2 H3]. split.
  - intros ip Hip. rewrite E1. by apply H1.
  - intros i p. rewrite E2, E1. apply H2.
  - intros ip Hip. rewrite E2, E1. by apply H3.
Qed.

(** One slot changes, and what was told about it. *)
Lemma told_slot s s' i p p' l :
  ha_ok s -> told s -> ha_peers s !! i = Some p -> ha_peers s' = <[i := p']> (ha_peers s) ->
  peer_ipv4 p <> 0 -> peer_ipv4 p' = peer_ipv4 p ->
  (forall ip, notices ip (ha_out s') = notices ip (ha_out s) ++ if peer_ipv4 p =? ip then l else []) ->
  (l = [] /\ pr_state p' = pr_state p \/
   l = [pr_state p'] /\ pr_state p' <> pr_state p /\ (pr_state p' = 1 \/ pr_state p' = 2)) ->
  told s'.
Proof.
  intros Hok [H1 H2 H3] Hp Ep Hne Eip En Hl. pose proof (H2 i p Hp Hne) as Hlast.
  assert (forall j q, ha_peers s' !! j = Some q -> j = i /\ q = p' \/
    j <> i /\ ha_peers s !! j = Some q) as Hslot.
  { intros j q. rewrite Ep. destruct (decide (i = j)) as [<-|Hj].
    - rewrite list_lookup_insert_eq by (by eapply lookup_lt_Some). intros [= <-]. by left.
    - rewrite list_lookup_insert_ne by done. by right. }
  split.
  - intros ip Hip. rewrite En. destruct (Z.eqb_spec (peer_ipv4 p) ip) as [<-|]; [|by rewrite app_nil_r; apply H1].
    destruct Hl as [[-> _]|(-> & Hd & Hv)]; [by rewrite app_nil_r; apply H1|].
    apply alternates_snoc; [by apply H1 | | done]. unfold last_notice in Hlast. by rewrite Hlast.
  - intros j q Hj Hq. rewrite En. destruct (Hslot j q Hj) as [[-> ->]|[Hij Hq']].
    + rewrite Eip, Z.eqb_refl. destruct Hl as [[-> ->]|(-> & _)]; [by rewrite app_nil_r | apply last_notice_snoc].
    + destruct (Z.eqb_spec (peer_ipv4 p) (peer_ipv4 q)) as [E|]; [|rewrite app_nil_r; by apply (H2 j)].
      destruct Hij. symmetry. by apply (ok_distinct s Hok i j p q).
  - intros ip Hip Hno. rewrite En. destruct (Z.eqb_spec (peer_ipv4 p) ip) as [E|E].
    + destruct (Hno i p'); [|congruence]. rewrite Ep. apply list_lookup_insert_eq. by eapply lookup_lt_Some.
    + rewrite app_nil_r. apply H3; [done|]. intros j q Hq. destruct (decide (i = j)) as [<-|Hij].
      * by replace q with p by congruence.
      * apply (Hno j). rewrite Ep. by rewrite list_lookup_insert_ne.
Qed.

Lemma alter_insert (f : dgwy_ha_peer_table_t -> dgwy_ha_peer_table_t) (i : nat)
    (ps : list dgwy_ha_peer_table_t) p :
  ps !! i = Some p -> alter f i ps = <[i := f p]> ps.
Proof.
  intros Hp. apply list_eq. intros j. destruct (decide (i = j)) as [<-|Hj].
  - rewrite list_lookup_alter_eq, list_lookup_insert_eq, Hp by (by eapply lookup_lt_Some). done.
  - by rewrite list_lookup_alter_ne, list_lookup_insert_ne.
Qed.
Lemma alter_none (f : dgwy_ha_peer_table_t -> dgwy_ha_peer_table_t) (i : nat)
    (ps : list dgwy_ha_peer_table_t) : ps !! i = None -> alter f i ps = ps.
Proof.
  intros Hp. apply list_eq. intros j. destruct (decide (i = j)) as [<-|Hj].
  - by rewrite list_lookup_alter_eq, Hp.
  - by rewrite list_lookup_alter_ne.
Qed.

Lemma notices_told ip (b : bool) type a st :
  notices ip (if b then [Ha_notify type a st] else []) = if a =? ip then (if b then [st] else []) else [].
Proof. destruct b; cbn; [|by destruct (a =? ip)]. by destruct (a =? ip). Qed.

Lemma told_alter f i s :
  ha_ok s -> told s ->
  (forall p, ha_peers s !! i = Some p -> peer_ipv4 (f p) = peer_ipv4 p /\ pr_state (f p) = pr_state p) ->
  told (set_peer i f s).
Proof.
  intros Hok Ht Hf. destruct (ha_peers s !! i) as [p|] eqn:Hp.
  - destruct (Hf p eq_refl) as [E1 E2]. destruct (decide (peer_ipv4 p = 0)) as [H0|H0].
    + destruct Ht as [H1 H2 H3].
      assert (forall j q, ha_peers (set_peer i f s) !! j = Some q -> peer_ipv4 q <> 0 -> ha_peers s !! j = Some q)
        as Hback.
      { intros j q. cbn. rewrite (alter_insert f i _ p Hp). destruct (decide (i = j)) as [<-|Hj].
        - rewrite list_lookup_insert_eq by (by eapply lookup_lt_Some). intros [= <-]. congruence.
        - by rewrite list_lookup_insert_ne. }
      split; [exact H1 | intros j q Hj Hq; apply (H2 j); [by apply Hback | done]|].
      intros ip Hip Hno. apply H3; [done|]. intros j q Hq E. destruct (decide (i = j)) as [<-|Hj].
      * congruence.
      * apply (Hno j q); [|done]. cbn. by rewrite list_lookup_alter_ne.
    + eapply (told_slot s _ i p (f p) []); try done; [cbn; by apply alter_insert | | by left].
      intros ip. cbn. by case_match; rewrite app_nil_r.
  - eapply told_same, Ht; [done|]. cbn. by apply alter_none.
Qed.

Lemma step_told (sure : Prop) came J s s' : sure -> ha_step sure came J s s' -> ha_ok s -> told s -> told s'.
Proof.
  intros Hsure Hst Hok Ht. destruct Hst as
    [k|e He| |i x _ Hx|msg Hm Hw|data _ Hm|fd i Hfd Hi|fd i Hfd Hi|i p peer local now _ Hp Hs Hne Hnew
    |i p k b _ Hp Hs Hb|i p now k b _ Hp Hne Hb _];
    try (by eapply told_same, Ht).
  - eapply told_same, Ht; [|done]. intros ip. by apply notices_silent.
  - by apply told_alter.
  - destruct Ht as [H1 H2 H3]. pose proof (ok_slots s Hok i p Hp) as (_ & _ & H0).
    assert (peer_ipv4 p = 0) as Hp0 by (by apply H0). split; [exact H1 | |].
    + intros j q. cbn. destruct (decide (i = j)) as [<-|Hj].
      * rewrite list_lookup_alter_eq, Hp. intros [= <-] _.
        change (last_notice (notices peer (ha_out s)) = 1). by rewrite H3.
      * rewrite list_lookup_alter_ne by done. apply H2.
    + intros ip Hip Hno. apply H3; [done|]. intros j q Hq. destruct (decide (i = j)) as [<-|Hj]; [congruence|].
      apply (Hno j). cbn. by rewrite list_lookup_alter_ne.
  - rewrite (Hb Hsure). pose proof (ok_slots s Hok i p Hp) as (_ & _ & H0).
    eapply (told_slot s _ i p (with_state 1 p) [1]); try done; [cbn; by apply alter_insert | intros E; lia | |].
    + intros ip. etransitivity; [apply notices_app|]. f_equal. exact (notices_told ip true _ _ _).
    + right. cbn. split_and!; [done | lia | by left].
  - rewrite (Hb Hsure). pose proof (ok_slots s Hok i p Hp) as (_ & Hst & H0).
    eapply (told_slot s _ i p (with_state 2 (with_last now p)) (if pr_state p =? 1 then [2] else [])); try done.
    + cbn. rewrite (alter_insert _ i _ p Hp).
      rewrite (alter_insert _ i _ (with_last now p)) by (apply list_lookup_insert_eq; by eapply lookup_lt_Some).
      by rewrite list_insert_insert_eq.
    + intros ip. etransitivity; [apply notices_app|]. f_equal. exact (notices_told ip (pr_state p =? 1) _ _ _).
    + cbn. destruct (Z.eqb_spec (pr_state p) 1); [right; split_and!; [done | lia | by right] | left; split; [done | lia]].
Qed.

(** ** The task of [HaTask] runs by the steps of [HaSpec] *)
Lemma steps_ok sure came J s s' : rtc (ha_step sure came J) s s' -> ha_ok s -> ha_ok s'.
Proof. induction 1; [done|]. eauto using step_ok. Qed.
Lemma steps_heard sure came J s s' :
  rtc (ha_step sure came J) s s' -> ha_ok s ->
  peer_list came (vlan_ha_peer_msg s) -> peer_list came (vlan_ha_peer_msg s').
Proof.
  induction 1 as [|s0 s1 s2 H _ IH]; [done|]. intros Hok Hp. apply IH; [by eapply step_ok|].
  eapply step_heard; [exact H|apply (ok_peer_msg s0 Hok)|done].
Qed.
Lemma steps_told (sure : Prop) came J s s' :
  sure -> rtc (ha_step sure came J) s s' -> ha_ok s -> told s -> told s'.
Proof. intros Hs. induction 1; [done|]. eauto using step_ok, step_told. Qed.

Lemma ha_emit_nil s : ha_emit [] s = s.
Proof. destruct s. unfold ha_emit. cbn. by rewrite app_nil_r. Qed.
Lemma call_eq {A} (f : nat -> A) s : call f s = (f (ha_calls s), with_calls (S (ha_calls s)) s).
Proof. done. Qed.

(** ** The addresses of a service that are not zero *)
Definition service_macs (ifmacList : list (list Z)) : list (list Z) :=
  List.filter not_zero (take MAX_IF_MACS ifmacList).

Lemma length_macs (macs : list (list Z)) :
  (forall mac, mac ∈ macs -> length mac = 6%nat) -> length (concat macs) = (6 * length macs)%nat.
Proof.
  intros H6. induction macs as [|mac macs IH]; [done|]. cbn. rewrite length_app, IH.
  - rewrite (H6 mac) by (by left). lia.
  - intros m Hm. apply H6. by right.
Qed.
Lemma service_macs_ok l :
  (forall mac, mac ∈ l -> length mac = 6%nat) ->
  (length (service_macs l) <= 8)%nat /\ (forall mac, mac ∈ service_macs l -> length mac = 6%nat) /\
  length (concat (service_macs l)) = (6 * length (service_macs l))%nat.
Proof.
  intros Hl.
  assert (forall mac, mac ∈ service_macs l -> length mac = 6%nat) as H6.
  { intros mac Hm. apply Hl. apply list_elem_of_In, List.filter_In in Hm as [Hm _].
    apply list_elem_of_In in Hm. apply elem_of_take in Hm as (k & Hk & _). by apply list_elem_of_lookup_2 in Hk. }
  split_and!; [|done | by apply length_macs].
  unfold service_macs. etrans; [apply List.filter_length_le|]. rewrite length_take. unfold MAX_IF_MACS. lia.
Qed.

(** Emissions and calls, from the last. *)
Ltac back := repeat (eapply rtc_r; [|first [by apply Step_emit | apply Step_call]]); try apply rtc_refl.

Section run.
Context (o : ha_os) (J : nat -> Prop).

(** No allocation and no queue fails. *)
Definition supplied : Prop := forall n, ho_malloc o n = true /\ ho_queue o n = true.
(** What [read] gives. *)
Definition given (data : list Z) : Prop := exists n e, ho_read o n = (Some data, e).
#[local] Abbreviation steps := (rtc (ha_step supplied given J)).

(** [m] completes, by steps. *)
Definition goes (s : ha_task) (m : out ha_task) : Prop := exists s', m = Done s' /\ steps s s'.

Lemma goes_id s : goes s (Done s).
Proof. by exists s. Qed.
Lemma goes_done s s' : steps s s' -> goes s (Done s').
Proof. by exists s'. Qed.
Lemma goes_bind s m k :
  goes s m -> (forall s', steps s s' -> goes s' (k s')) -> goes s (obind m k).
Proof.
  intros (s1 & -> & H1) Hk. destruct (Hk s1 H1) as (s2 & E & H2). exists s2.
  split; [exact E | by etrans].
Qed.
Lemma goes_after s s1 m : steps s s1 -> goes s1 m -> goes s m.
Proof. intros H1 (s2 & E & H2). exists s2. split; [done | by etrans]. Qed.

Lemma steps_call s k : steps s (with_calls k s).
Proof. apply rtc_once, Step_call. Qed.

(** ** Connections *)
Lemma connect_peer_goes peer local s :
  exists fd s', connect_peer o peer local s = (fd, s') /\ steps s s' /\ ha_peers s' = ha_peers s.
Proof.
  unfold connect_peer. rewrite call_eq. cbn zeta iota.
  destruct (ho_socket o _ <? 0); [do 2 eexists; split_and!; [done | apply steps_call | done]|].
  rewrite call_eq. cbn zeta iota. destruct (ho_connect o _); cbn [negb]; do 2 eexists; split_and!; try done.
  - back.
  - back.
Qed.
Lemma reconnect_goes i p s : J i -> exists b s', reconnect o i p s = (b, s') /\ steps s s'.
Proof.
  intros HJ. unfold reconnect. destruct (connect_peer_goes (peer_ipv4 p) (local_ipv4 p) s) as (fd & s1 & -> & H & _).
  destruct (Z.ltb_spec 0 fd); do 2 eexists; (split; [done|]); [|done].
  eapply rtc_r; [done|]. apply Step_fd; [done | lia].
Qed.

Lemma peer_at_ok i s : ha_ok s -> (i < MAX_PEERS)%nat ->
  exists p, peer_at i s = Done p /\ ha_peers s !! i = Some p.
Proof.
  intros Hok Hi. destruct (lookup_lt_is_Some_2 (ha_peers s) i) as [p Hp].
  { rewrite (ok_peers s Hok). exact Hi. }
  exists p. unfold peer_at. by rewrite Hp.
Qed.
Lemma count_ok msg : msg_ok msg -> exists n, count_at msg = Done n /\ n <= 8.
Proof. intros (_ & b & Hb & H). exists (i8 b). unfold count_at. by rewrite Hb. Qed.

Lemma send_to_peer_goes i data s : ha_ok s -> (i < MAX_PEERS)%nat ->
  exists wrote s', send_to_peer o i data s = Done (wrote, s') /\ steps s s'.
Proof.
  intros Hok Hi. destruct (peer_at_ok i s Hok Hi) as (p & Ep & _). unfold send_to_peer. rewrite Ep.
  cbn [obind]. rewrite call_eq. cbn zeta iota. do 2 eexists. split; [done|].
  back.
Qed.

Lemma keep_alive_send_goes i s : J i -> ha_ok s -> (i < MAX_PEERS)%nat -> goes s (keep_alive_send o i s).
Proof.
  intros HJ Hok Hi. unfold keep_alive_send. destruct (count_ok _ (ok_local s Hok)) as (n & -> & Hn).
  cbn [obind]. destruct (Z.ltb_spec 0 (n * 6 + 1)); [|apply goes_id].
  rewrite decide_True by (rewrite (proj1 (ok_local s Hok)); unfold VLAN_HA_MSG_LEN; lia).
  destruct (send_to_peer_goes i (take (Z.to_nat (n * 6 + 1)) (vlan_ha_local_msg s)) s Hok Hi)
    as (wrote & s1 & -> & H1). cbn [obind]. apply (goes_after s s1); [done|].
  pose proof (steps_ok _ _ _ _ _ H1 Hok) as Hok1. destruct (wrote =? _); [apply goes_id|].
  destruct (peer_at_ok i s1 Hok1 Hi) as (p & -> & Hp). cbn [obind].
  set (s2 := set_peer i (with_fd 0) (ha_emit [Ha_close (fdWrite p)] s1)).
  assert (steps s1 s2) as H2.
  { eapply rtc_l; [by apply (Step_emit _ _ _ s1 (Ha_close (fdWrite p)))|]. apply rtc_once, Step_fd; [done | lia]. }
  destruct (reconnect_goes i p s2 HJ) as (b & s3 & -> & H3).
  assert (steps s1 s3) as H13 by (by etrans). apply (goes_after s1 s3); [done|].
  destruct b; [|apply goes_id].
  destruct (send_to_peer_goes i (take (Z.to_nat (n * 6 + 1)) (vlan_ha_local_msg s)) s3) as (w & s4 & -> & H4);
    [by eapply steps_ok | done |]. by apply goes_done.
Qed.

Lemma keep_alive_check_goes i s : J i -> ha_ok s -> (i < MAX_PEERS)%nat -> goes s (keep_alive_check o i s).
Proof.
  intros HJ Hok Hi. unfold keep_alive_check. destruct (peer_at_ok i s Hok Hi) as (p & -> & Hp). cbn [obind].
  destruct (Z.eqb_spec (pr_state p) 2) as [E2|]; [|apply goes_id]. rewrite call_eq. cbn zeta iota.
  destruct (_ <? int32 _); [|apply goes_done, steps_call]. rewrite call_eq. cbn zeta iota.
  destruct (ho_malloc o _); [|apply goes_done; by do 2 (eapply rtc_l; [apply Step_call|])].
  apply goes_done. unfold notify_ctrl. rewrite call_eq. cbn zeta iota.
  set (told := ho_queue o _). set (k := ha_calls _).
  eapply rtc_once. pose proof (Step_down supplied given J s i p (S k) told HJ Hp E2
    ltac:(intros Hs; apply Hs)) as Hst.
  destruct told; [exact Hst|]. rewrite ha_emit_nil in Hst. exact Hst.
Qed.

Lemma keep_alive_peer_goes i s : J i -> ha_ok s -> (i < MAX_PEERS)%nat -> goes s (keep_alive_peer o i s).
Proof.
  intros HJ Hok Hi. unfold keep_alive_peer. destruct (peer_at_ok i s Hok Hi) as (p & -> & Hp). cbn [obind].
  destruct (peer_ipv4 p =? 0); [apply goes_id|]. destruct (0 <? fdWrite p).
  - apply goes_bind; [by apply keep_alive_send_goes|]. intros s1 H1.
    apply keep_alive_check_goes; [done | by eapply steps_ok | done].
  - destruct (reconnect_goes i p (set_peer i (with_fd 0) s) HJ) as (b & s1 & -> & H1).
    apply goes_done. eapply rtc_l; [|exact H1]. apply Step_fd; [done | lia].
Qed.

Lemma keep_alive_from_goes k : (forall i, J i) -> forall i s, ha_ok s -> (i + k <= MAX_PEERS)%nat ->
  goes s (keep_alive_from o k i s).
Proof.
  intros HJ. induction k as [|k IH]; intros i s Hok Hi; [apply goes_id|]. cbn [keep_alive_from].
  apply goes_bind; [apply keep_alive_peer_goes; [done | done | lia]|]. intros s1 H1.
  apply IH; [by eapply steps_ok | lia].
Qed.

(** What the rest of the system gives: the addresses of a service have six
    bytes; a peer that is connected is not 0.0.0.0. *)
Context (Hmacs : forall n l mac, ho_macs o n = Some l -> mac ∈ l -> length mac = 6%nat).
Context (Hname : forall n family ip, ho_peername o n = Some (family, ip) -> ip <> 0).

Lemma macs_ok svcp msg :
  (forall l mac, svcp = Some l -> mac ∈ l -> length mac = 6%nat) -> msg_ok msg -> own_list msg ->
  msg_ok (get_all_mac_addess svcp msg).2 /\ own_list (get_all_mac_addess svcp msg).2.
Proof.
  intros Hl Hmsg Hown. destruct svcp as [l|]; [|done]. cbn [get_all_mac_addess snd].
  fold (service_macs l). destruct (service_macs_ok l) as (Hn & H6 & Hc); [by intros mac; apply (Hl l)|].
  split; [split|].
  - rewrite length_app, length_replicate. cbn [length]. rewrite Hc. unfold VLAN_HA_MSG_LEN. lia.
  - eexists. split; [reflexivity|]. unfold i8, u8.
    rewrite (Z.mod_small (Z.of_nat _)), Z.mod_small by lia. lia.
  - exists (service_macs l). split; [|split; [exact Hn|]].
    + unfold listing. cbn [length]. rewrite Hc, u8_small by (unfold in8; lia). done.
    + apply Forall_forall. intros mac Hm. split; [by apply H6|].
      apply list_elem_of_In, List.filter_In in Hm. apply Hm.
Qed.

(** The gateway's own list is read again. *)
Lemma reread_steps sure came J' s k : ha_ok s ->
  rtc (ha_step sure came J') s
    (ha_with_local (get_all_mac_addess (ho_macs o k) (vlan_ha_local_msg s)).2 (with_calls (S (ha_calls s)) s)).
Proof.
  intros Hok. eapply rtc_l; [apply Step_call|].
  destruct (macs_ok (ho_macs o k) (vlan_ha_local_msg s)) as [Hl Hw];
    [apply Hmacs | apply (ok_local s Hok) | apply (ok_own s Hok)|].
  by apply rtc_once, Step_local.
Qed.
Lemma keep_alive_peers_goes s : (forall i, J i) -> ha_ok s -> goes s (keep_alive_peers o s).
Proof.
  intros HJ Hok. unfold keep_alive_peers. destruct (count_ok _ (ok_local s Hok)) as (n & -> & _). cbn [obind].
  set (s1 := if n <? 4 then _ else _). assert (steps s s1) as H1.
  { unfold s1. destruct (n <? 4); [|done]. rewrite call_eq. cbn zeta iota.
    exact (reread_steps _ _ _ s (ha_calls s) Hok). }
  apply (goes_after s s1); [done|]. apply keep_alive_from_goes; [done | by eapply steps_ok | done].
Qed.

(** ** Messages from the peers *)
Lemma update_peer_goes i p s :
  J i -> ha_ok s -> ha_peers s !! i = Some p -> peer_ipv4 p <> 0 -> goes s (update_peer o i s).
Proof.
  intros HJ Hok Hp Hne. unfold update_peer, peer_at. rewrite Hp. cbn [of_option obind].
  rewrite call_eq. cbn zeta iota.
  pose proof (fun k told => Step_up supplied given J s i p (ho_clock o (ha_calls s)) k told HJ Hp Hne) as Hst.
  destruct (Z.eqb_spec (pr_state p) 1) as [E1|E1].
  - rewrite call_eq. cbn zeta iota. destruct (ho_malloc o _) eqn:Em.
    + unfold notify_ctrl. rewrite call_eq. cbn zeta iota.
      set (k := ha_calls _). set (told := ho_queue o k).
      specialize (Hst (S k) told ltac:(intros Hs; apply Hs) ltac:(done)).
      apply goes_done, rtc_once. destruct told; [exact Hst|]. rewrite ha_emit_nil in Hst. exact Hst.
    + specialize (Hst (S (S (ha_calls s))) false). rewrite ha_emit_nil in Hst.
      apply goes_done, rtc_once. apply Hst; [|done]. intros Hs.
      set (n := ha_calls _) in Em. destruct (Hs n). congruence.
  - specialize (Hst (S (ha_calls s)) false ltac:(done) ltac:(done)). rewrite ha_emit_nil in Hst.
    by apply goes_done, rtc_once.
Qed.

Lemma update_peer_from_goes k ip : (forall i, J i) -> ip <> 0 -> forall i s, ha_ok s -> (i + k <= MAX_PEERS)%nat ->
  goes s (update_peer_from o k i ip s).
Proof.
  intros HJ Hip. induction k as [|k IH]; intros i s Hok Hi; [apply goes_id|]. cbn [update_peer_from].
  destruct (peer_at_ok i s Hok ltac:(lia)) as (p & -> & Hp). cbn [obind].
  apply goes_bind.
  - destruct (Z.eqb_spec ip (peer_ipv4 p)) as [->|]; [by eapply update_peer_goes | apply goes_id].
  - intros s1 H1. apply IH; [by eapply steps_ok | lia].
Qed.

Lemma process_peer_msg_goes s : (forall i, J i) -> ha_ok s -> exists r s', process_peer_msg o s = Done (r, s') /\ steps s s'.
Proof.
  intros HJ Hok. unfold process_peer_msg. rewrite call_eq. cbn zeta iota.
  destruct (ho_peername o _) as [[family ip]|] eqn:En;
    [|do 2 eexists; split; [done | apply steps_call]].
  destruct (family =? PF_INET); [|do 2 eexists; split; [done | apply steps_call]].
  destruct (update_peer_from_goes MAX_PEERS ip HJ (Hname _ _ _ En) 0%nat (with_calls (S (ha_calls s)) s))
    as (s1 & E & H1); [by eapply ok_same, Hok | done |].
  unfold update_peer_clock. rewrite E. do 2 eexists. split; [done|].
  eapply rtc_l; [apply Step_call | exact H1].
Qed.

Lemma find_slot_spec peer s :
  ha_ok s -> exists b e, find_slot MAX_PEERS 0%nat peer None s = Done (b, e) /\
  (b = false -> forall i, e = Some i -> (exists p, ha_peers s !! i = Some p /\ pr_state p = 0) /\
     peer <> 0 /\ forall j q, ha_peers s !! j = Some q -> peer_ipv4 q <> peer).
Proof.
  intros Hok. destruct (peer_at_ok 0%nat s Hok ltac:(unfold MAX_PEERS; lia)) as (p & Ep & Hp).
  destruct (peer_at_ok 1%nat s Hok ltac:(unfold MAX_PEERS; lia)) as (q & Eq & Hq).
  assert (forall j r, ha_peers s !! j = Some r -> r = p \/ r = q) as Hall.
  { intros [|[|j]] r Hr; [left; congruence | right; congruence |].
    apply lookup_lt_Some in Hr. rewrite (ok_peers s Hok) in Hr. unfold MAX_PEERS in Hr. lia. }
  pose proof (ok_slots s Hok _ _ Hp) as (_ & _ & Zp). pose proof (ok_slots s Hok _ _ Hq) as (_ & _ & Zq).
  cbn [find_slot MAX_PEERS]. rewrite Ep, Eq. cbn [obind].
  destruct (Z.eqb_spec peer (peer_ipv4 p)) as [|Np]; [do 2 eexists; split; [done|]; done|].
  destruct (Z.eqb_spec peer (peer_ipv4 q)) as [|Nq]; [do 2 eexists; split; [done|]; done|].
  assert (forall j r, ha_peers s !! j = Some r -> peer_ipv4 r <> peer) as Hno
    by (intros j r Hr; destruct (Hall j r Hr) as [->| ->]; congruence).
  destruct (Z.eqb_spec (pr_state p) 0) as [E0|E0]; [|destruct (Z.eqb_spec (pr_state q) 0) as [E1|E1]];
    do 2 eexists; (split; [done|]); intros _ i [= <-]; (split; [eauto|]); (split; [|done]).
  - intros ->. apply Np. symmetry. by apply Zp.
  - intros ->. apply Nq. symmetry. by apply Zq.
Qed.

Lemma update_peers_table_goes peer local s :
  ha_ok s -> (forall i p, ha_peers s !! i = Some p -> pr_state p = 0 -> J i) ->
  exists r s', update_peers_table o peer local s = Done (r, s') /\ steps s s'.
Proof.
  intros Hok HJ. unfold update_peers_table. destruct (find_slot_spec peer s Hok) as (b & e & -> & Hslot).
  cbn [obind]. destruct b; [by do 2 eexists|]. destruct e as [i|]; [|by do 2 eexists].
  destruct (Hslot eq_refl i eq_refl) as ((p & Hp & H0) & Hne & Hno). unfold peer_at. rewrite Hp.
  cbn [of_option obind]. rewrite call_eq. cbn zeta iota.
  set (p' := mk_peer peer local 1 (fdRead p) (fdWrite p) _).
  pose proof (HJ i p Hp H0) as HJi.
  destruct (reconnect_goes i p' (set_peer i (fun _ => p') (with_calls (S (ha_calls s)) s)) HJi)
    as (b & s1 & -> & H1). do 2 eexists. split; [done|].
  eapply rtc_l; [apply Step_call|]. eapply rtc_l; [|exact H1]. by apply Step_new.
Qed.
End run.

Section run.
Context (o : ha_os).
Context (Hmacs : forall n l mac, ho_macs o n = Some l -> mac ∈ l -> length mac = 6%nat).
Context (Hname : forall n family ip, ho_peername o n = Some (family, ip) -> ip <> 0).

Section poll.
Context (J : nat -> Prop) (Hear : (forall i, J i) \/ forall n, (ho_read o n).1 = None).
#[local] Abbreviation steps := (rtc (ha_step (supplied o) (given o) J)).

(** ** Descriptors *)
Lemma add_fds_goes fd s : fd <> 0 -> steps s (add_fds_list fd s).2.
Proof.
  intros Hfd. unfold add_fds_list. destruct (_ <=? idxPoll s); [done|].
  destruct (list_find _ (ha_fds s)) as [[i x]|] eqn:E; [|done].
  apply list_find_Some in E as (Hi & -> & _). by apply rtc_once, Step_add.
Qed.
Lemma rem_fds_goes fd s : steps s (rem_fds fd s).2.
Proof.
  unfold rem_fds. destruct (Z.leb_spec fd 0); [done|].
  destruct (list_find _ (ha_fds s)) as [[i x]|] eqn:E; [|done].
  apply list_find_Some in E as (Hi & -> & _). apply rtc_once, (Step_rem _ _ _ s fd); [lia | done].
Qed.

(** ** A round of [poll] *)
Lemma receive_from_goes fd s : ha_ok s -> goes o J s (receive_from o fd s).
Proof.
  intros Hok. unfold receive_from. rewrite call_eq. cbn zeta iota.
  set (s0 := with_calls (S (ha_calls s)) s).
  assert (steps s s0) as H0 by apply rtc_once, Step_call.
  assert (ha_ok s0) as Hok0 by (by eapply steps_ok).
  apply (goes_after o J s s0); [done|].
  destruct (ho_read o _) as [[[|b data]|] errno] eqn:Er;
    try (destruct (negb _); [apply goes_done, rem_fds_goes | apply goes_id]).
  assert (forall i, J i) as HJ by (destruct Hear as [|Hno]; [done|]; specialize (Hno (ha_calls s)); by rewrite Er in Hno).
  destruct (count_ok _ (ok_peer_msg s0 Hok0)) as (n & -> & _). cbn [obind].
  set (s1 := if _ && _ then _ else s0).
  assert (steps s0 s1) as H1.
  { unfold s1. destruct ((n <? 4) && _) eqn:E; [|done]. apply andb_prop in E as [_ E].
    apply andb_prop in E as [E1%Z.leb_le E2%Z.ltb_lt].
    assert (take 1024 (b :: data) = b :: data) as Et.
    { apply take_ge. rewrite length_take in E2. unfold VLAN_HA_MSG_LEN in E2. lia. }
    rewrite Et in *. apply rtc_once, Step_heard; [by do 2 eexists|].
    split; [lia|]. by exists b. }
  apply (goes_after o J s0 s1); [done|].
  destruct (process_peer_msg_goes o J Hname s1 HJ) as (r & s2 & -> & H2); [by eapply steps_ok|].
  by apply goes_done.
Qed.

Lemma receive_all_goes pfds : forall revents s, ha_ok s -> goes o J s (receive_all o pfds revents s).
Proof.
  induction pfds as [|fd pfds IH]; intros revents s Hok; [apply goes_id|]. cbn [receive_all].
  apply goes_bind.
  - destruct (hd 0 revents =? POLLIN); [by apply receive_from_goes | apply goes_id].
  - intros s1 H1. apply IH. by eapply steps_ok.
Qed.

Lemma state_poll_goes s : ha_ok s ->
  exists r s', dgwy_ha_state_poll o s = Done (r, s') /\ steps s s'.
Proof.
  intros Hok. unfold dgwy_ha_state_poll. destruct (idxPoll s <=? 0); [by do 2 eexists|].
  rewrite call_eq. cbn zeta iota. destruct (ho_poll o _) as [rv revents].
  set (s0 := with_calls (S (ha_calls s)) s).
  assert (steps s s0) as H0 by apply rtc_once, Step_call.
  destruct (_ || _); [by do 2 eexists|].
  destruct (receive_all_goes (List.filter (fun fd => negb (fd =? 0)) (ha_fds s)) revents s0)
    as (s1 & -> & H1); [by eapply steps_ok|]. do 2 eexists. split; [done | by etrans].
Qed.
End poll.

(** ** The loop *)

(** A socket that is accepted has a descriptor. *)
Definition ha_msg_ok (m : ha_msg) : Prop :=
  match m with DGWY_HA_SKT_ACCEPTED fd => fd <> 0 | _ => True end.
Definition cycle_ok (c : option Z * list ha_msg) : Prop := Forall ha_msg_ok c.2.

Lemma ha_message_goes J m s : ha_ok s -> ha_msg_ok m ->
  (forall i p, ha_peers s !! i = Some p -> pr_state p = 0 -> J i) -> goes o J s (ha_message o m s).
Proof.
  intros Hok Hm HJ. destruct m as [|fd|peer local|]; cbn [ha_message].
  - rewrite call_eq. cbn zeta iota. set (s1 := with_calls _ _).
    assert (rtc (ha_step (supplied o) (given o) J) s s1) as H1 by (eapply rtc_l; [apply Step_start | apply rtc_once, Step_call]).
    apply (goes_after o J s s1); [done|]. clearbody s1. destruct (ho_malloc o _); [|apply goes_id].
    rewrite call_eq. cbn zeta iota. apply goes_done. destruct (ho_queue o _); back.
  - by apply goes_done, add_fds_goes.
  - destruct (update_peers_table_goes o J peer local s Hok HJ) as (r & s1 & -> & H1). by apply goes_done.
  - apply goes_id.
Qed.
#[local] Abbreviation anywhere := (fun _ : nat => True).
Lemma ha_messages_goes ms : forall s, ha_ok s -> Forall ha_msg_ok ms -> goes o anywhere s (ha_messages o ms s).
Proof.
  induction ms as [|m ms IH]; intros s Hok Hms; [apply goes_id|]. cbn [ha_messages].
  apply List.Forall_cons_iff in Hms as [Hm Hms]. apply goes_bind; [by apply ha_message_goes|].
  intros s1 H1. apply IH; [by eapply steps_ok | done].
Qed.

Lemma ha_cycle_goes ev ms s : ha_ok s -> Forall ha_msg_ok ms -> goes o anywhere s (ha_cycle o ev ms s).
Proof.
  intros Hok Hms. unfold ha_cycle. apply goes_bind.
  - destruct (ha_startFlg s); [|apply goes_id].
    destruct (state_poll_goes anywhere (or_introl (fun _ => I)) s Hok) as (r & s1 & -> & H1). by apply goes_done.
  - intros s1 H1. assert (ha_ok s1) as Hok1 by (by eapply steps_ok). destruct ev as [ev|]; [|apply goes_id].
    apply goes_bind.
    + destruct (negb _); [|apply goes_id].
      assert (rtc (ha_step (supplied o) (given o) anywhere) s1 (ha_emit [Ha_start_timer] s1)) as H2 by (by apply rtc_once, Step_emit).
      apply (goes_after o anywhere s1 _ _ H2). apply keep_alive_peers_goes; [done | done | by eapply steps_ok].
    + intros s2 H2. destruct (negb _); [|apply goes_id].
      apply ha_messages_goes; [by eapply steps_ok | done].
Qed.
Lemma ha_cycles_goes cs : forall s, ha_ok s -> Forall cycle_ok cs -> goes o anywhere s (ha_cycles o cs s).
Proof.
  induction cs as [|[ev ms] cs IH]; intros s Hok Hcs; [apply goes_id|]. cbn [ha_cycles].
  apply List.Forall_cons_iff in Hcs as [Hc Hcs]. apply goes_bind; [by apply ha_cycle_goes|].
  intros s1 H1. apply IH; [by eapply steps_ok | done].
Qed.

Lemma ha_task0_ok : ha_ok ha_task0.
Proof.
  assert (forall i p, ha_peers ha_task0 !! i = Some p -> p = no_peer) as H
    by (intros i p Hp; by apply lookup_replicate in Hp as [-> _]).
  split; try done.
  - intros i p ->%H. repeat split; try done. by left.
  - intros i j p q ->%H ->%H _ Hne. by destruct Hne.
  - split; [done|]. exists 0. by split.
  - exists []. split; [reflexivity|]. split; [cbn; lia|done].
  - split; [done|]. exists 0. by split.
Qed.
Lemma ha_task0_told : told ha_task0.
Proof.
  split; try done. intros i p Hp Hne. apply lookup_replicate in Hp as [-> _]. by destruct Hne.
Qed.

(** C33. Whatever the sockets, the clock, the heap and the other tasks do, the
    task runs on for ever without touching memory outside its arrays; the
    table of peers has no peer twice, the descriptors it polls are as many as
    it counts.  The list of its own addresses is a count of 8 at most, as many
    addresses other than 0, and zeros; that of the peer's, once one has come, is
    a message that was read and is as long as its count says or longer, over
    what was there before. *)
Theorem ha_runs_safely cs : Forall cycle_ok cs ->
  exists s, ha_cycles o cs ha_task0 = Done s /\ ha_ok s /\ peer_list (given o) (vlan_ha_peer_msg s).
Proof.
  intros Hcs. destruct (ha_cycles_goes cs ha_task0 ha_task0_ok Hcs) as (s & E & H).
  exists s. split; [done|]. split; [eapply steps_ok; [done | apply ha_task0_ok]|].
  eapply steps_heard; [done | apply ha_task0_ok | by left].
Qed.

(** C34. While memory and queues last, what the control task is told of a peer
    alternates: up, down, up; nothing of a peer that was never configured, and
    the last it was told is the state of the peer. *)
Theorem notices_alternate cs : supplied o -> Forall cycle_ok cs ->
  exists s, ha_cycles o cs ha_task0 = Done s /\
    (forall ip, ip <> 0 -> alternates 1 (notices ip (ha_out s)) /\
      ((forall i p, ha_peers s !! i = Some p -> peer_ipv4 p <> ip) -> notices ip (ha_out s) = [])) /\
    forall i p, ha_peers s !! i = Some p -> peer_ipv4 p <> 0 ->
      last_notice (notices (peer_ipv4 p) (ha_out s)) = pr_state p.
Proof.
  intros Hs Hcs. destruct (ha_cycles_goes cs ha_task0 ha_task0_ok Hcs) as (s & E & H).
  destruct (steps_told _ _ _ _ _ Hs H ha_task0_ok ha_task0_told) as [H1 H2 H3].
  exists s. split; [done|]. split; [|exact H2]. intros ip Hip. split; [by apply H1 | by apply H3].
Qed.
End run.
