(* ===== verification/HaPeers.v ===== *)
(** * What two gateways learn of each other, and when they do not *)
From S2P Require Export HaTasks.
#[local] Open Scope Z_scope.

(** ** A slot that is not touched *)
Lemma step_frame sure came J s s' i p :
  ha_step sure came J s s' -> ~ J i -> ha_ok s -> ha_peers s !! i = Some p -> peer_ipv4 p <> 0 ->
  ha_peers s' !! i = Some p /\ notices (peer_ipv4 p) (ha_out s') = notices (peer_ipv4 p) (ha_out s).
Proof.
  intros Hst HJ Hok Hi Hne.
  assert (forall j q, J j -> ha_peers s !! j = Some q -> (peer_ipv4 q =? peer_ipv4 p) = false) as Hother.
  { intros j q Hj Hq. apply Z.eqb_neq. intros E. apply HJ. by rewrite (ok_distinct s Hok i j p q). }
  destruct Hst as [k|e He| |j x Hj Hx|msg Hm _|data _ Hm|fd j Hfd Hj|fd j Hfd Hj|j q peer local now Hj Hq Hs _ _
    |j q k b Hj Hq Hs _|j q now k b Hj Hq _ _ _]; try done.
  - split; [done|]. by apply notices_silent.
  - split; [|done]. cbn. rewrite list_lookup_alter_ne; [done|]. by intros ->.
  - split; [|done]. cbn. rewrite list_lookup_alter_ne; [done|]. by intros ->.
  - split; [cbn; rewrite list_lookup_alter_ne; [done|]; by intros ->|].
    etransitivity; [apply notices_app|]. rewrite notices_told, (Hother j q Hj Hq). apply app_nil_r.
  - split; [cbn; rewrite !list_lookup_alter_ne; [done|by intros ->..]|].
    etransitivity; [apply notices_app|]. rewrite notices_told, (Hother j q Hj Hq). apply app_nil_r.
Qed.

(** ** A peer that is lost *)

(** The connection to the peer [ip] in the slot [i] is gone while it is thought
    to be there; [l] is what the control task was told. *)
Definition lost (i : nat) (ip : Z) (l : list Z) (s : ha_task) : Prop :=
  ha_ok s /\ exists p, ha_peers s !! i = Some p /\ peer_ipv4 p = ip /\ pr_state p = 2 /\
    fdWrite p = 0 /\ notices ip (ha_out s) = l.

Lemma lost_named i ip l s : lost i ip l s -> ip <> 0.
Proof.
  intros (Hok & p & Hp & <- & Hs & _) E. destruct (ok_slots s Hok i p Hp) as (_ & _ & H). lia.
Qed.

Lemma lost_frame sure came i ip l s s' :
  rtc (ha_step sure came (fun j => j <> i)) s s' -> lost i ip l s -> lost i ip l s'.
Proof.
  induction 1 as [|s s1 s' Hst _ IH]; [done|]. intros HL. apply IH.
  pose proof (lost_named _ _ _ _ HL) as Hne. destruct HL as (Hok & p & Hp & <- & Hs & Hf & Hn).
  destruct (step_frame _ _ _ s s1 i p Hst ltac:(intros []; done) Hok Hp Hne) as [H1 H2].
  split; [by eapply step_ok|]. exists p. by rewrite H2.
Qed.

Section dead.
Context (o : ha_os).
Context (Hmacs : forall n l mac, ho_macs o n = Some l -> mac ∈ l -> length mac = 6%nat).
Context (Hname : forall n family ip, ho_peername o n = Some (family, ip) -> ip <> 0).
Context (Hdead : forall n, ho_connect o n = false) (Hquiet : forall n, (ho_read o n).1 = None).

Lemma connect_dead peer local s :
  exists s', connect_peer o peer local s = (-1, s') /\ ha_peers s' = ha_peers s /\
    forall ip, notices ip (ha_out s') = notices ip (ha_out s).
Proof.
  unfold connect_peer. rewrite call_eq. cbn zeta iota. destruct (_ <? 0); [by eexists|].
  rewrite call_eq, Hdead. cbn zeta iota. cbn [negb]. eexists. split; [done|]. split; [done|].
  intros ip. cbn [ha_out ha_emit with_calls]. by rewrite !notices_silent.
Qed.

Lemma lost_peer_tick i ip l s : (i < MAX_PEERS)%nat -> lost i ip l s ->
  exists s', keep_alive_peer o i s = Done s' /\ lost i ip l s'.
Proof.
  intros Hi HL. pose proof (lost_named _ _ _ _ HL) as Hne. destruct HL as (Hok & p & Hp & <- & Hs & Hf & <-).
  destruct (keep_alive_peer_goes o (fun _ => True) i s I Hok Hi) as (s1 & E & H1).
  exists s1. split; [exact E|]. split; [by eapply steps_ok|]. revert E.
  unfold keep_alive_peer, peer_at. rewrite Hp. cbn [of_option obind].
  rewrite (proj2 (Z.eqb_neq _ _) Hne), Hf. change (0 <? 0) with false. cbn iota. intros [= <-].
  unfold reconnect. destruct (connect_dead (peer_ipv4 p) (local_ipv4 p) (set_peer i (with_fd 0) s))
    as (s2 & -> & E2 & E3). change (0 <? -1) with false. cbn [snd].
  exists (with_fd 0 p). rewrite E2, E3. split; [|done]. cbn. by rewrite list_lookup_alter_eq, Hp.
Qed.

Lemma lost_from k i ip l : forall j s, (j + k <= MAX_PEERS)%nat -> lost i ip l s ->
  exists s', keep_alive_from o k j s = Done s' /\ lost i ip l s'.
Proof.
  induction k as [|k IH]; intros j s Hj HL; [by exists s|]. cbn [keep_alive_from].
  assert (exists s1, keep_alive_peer o j s = Done s1 /\ lost i ip l s1) as (s1 & -> & HL1).
  { destruct (decide (j = i)) as [->|Hne]; [apply lost_peer_tick; [lia | done]|].
    destruct (keep_alive_peer_goes o (fun j => j <> i) j s Hne (proj1 HL) ltac:(lia)) as (s1 & E & H1).
    exists s1. split; [done|]. by eapply lost_frame. }
  cbn [obind]. apply IH; [lia | done].
Qed.

Lemma lost_tick i ip l s : lost i ip l s -> exists s', keep_alive_peers o s = Done s' /\ lost i ip l s'.
Proof.
  intros HL. unfold keep_alive_peers. destruct (count_ok _ (ok_local s (proj1 HL))) as (n & -> & _).
  cbn [obind]. apply lost_from; [done|]. destruct (n <? 4); [|done]. rewrite call_eq. cbn zeta iota.
  eapply lost_frame; [|exact HL]. exact (reread_steps o Hmacs True (fun _ => True) _ s _ (proj1 HL)).
Qed.

Lemma lost_messages i ip l ms : forall s, Forall ha_msg_ok ms -> lost i ip l s ->
  exists s', ha_messages o ms s = Done s' /\ lost i ip l s'.
Proof.
  induction ms as [|m ms IH]; intros s Hms HL; [by exists s|]. cbn [ha_messages].
  apply List.Forall_cons_iff in Hms as [Hm Hms].
  destruct (ha_message_goes o (fun j => j <> i) m s (proj1 HL) Hm) as (s1 & -> & H1).
  { intros j q Hq H0 ->. destruct HL as (_ & p & Hp & _ & H2 & _). assert (q = p) by congruence. subst. lia. }
  cbn [obind]. apply IH; [done|]. by eapply lost_frame.
Qed.

Lemma lost_cycles i ip l cs : forall s, Forall cycle_ok cs -> lost i ip l s ->
  exists s', ha_cycles o cs s = Done s' /\ lost i ip l s'.
Proof.
  induction cs as [|[ev ms] cs IH]; intros s Hcs HL; [by exists s|]. cbn [ha_cycles].
  apply List.Forall_cons_iff in Hcs as [Hc Hcs].
  assert (exists s1, ha_cycle o ev ms s = Done s1 /\ lost i ip l s1) as (s1 & -> & HL1); [|by apply IH].
  unfold ha_cycle.
  assert (exists s1, (if ha_startFlg s then let* (_, s) := dgwy_ha_state_poll o s in Done s else Done s)
    = Done s1 /\ lost i ip l s1) as (s1 & -> & HL1).
  { destruct (ha_startFlg s); [|by exists s].
    destruct (state_poll_goes o Hname (fun j => j <> i) (or_intror Hquiet) s (proj1 HL))
      as (r & s1 & -> & H1).
    exists s1. split; [done|]. by eapply lost_frame. }
  cbn [obind]. destruct ev as [ev|]; [|by exists s1].
  assert (lost i ip l (ha_emit [Ha_start_timer] s1)) as HLt.
  { eapply lost_frame; [|exact HL1]. by apply rtc_once, (Step_emit True (fun _ => True)). }
  destruct (negb _).
  - destruct (lost_tick i ip l _ HLt) as (s2 & -> & HL2). cbn [obind].
    destruct (negb _); [by apply lost_messages | by exists s2].
  - cbn [obind]. destruct (negb _); [by apply lost_messages | by exists s1].
Qed.
End dead.

(** A peer whose connection is lost, and cannot be made again, is never
    declared down: from then on, whatever the clock says, it stays active and
    the control task is told nothing, for as long as nothing comes from it. *)
Theorem lost_peer_unnoticed (o : ha_os) i p s cs :
  (forall n l mac, ho_macs o n = Some l -> mac ∈ l -> length mac = 6%nat) ->
  (forall n family ip, ho_peername o n = Some (family, ip) -> ip <> 0) ->
  (forall n, ho_connect o n = false) -> (forall n, (ho_read o n).1 = None) ->
  ha_ok s -> ha_peers s !! i = Some p -> pr_state p = 2 -> fdWrite p = 0 -> Forall cycle_ok cs ->
  exists s' p', ha_cycles o cs s = Done s' /\ ha_peers s' !! i = Some p' /\
    peer_ipv4 p' = peer_ipv4 p /\ pr_state p' = 2 /\
    notices (peer_ipv4 p) (ha_out s') = notices (peer_ipv4 p) (ha_out s).
Proof.
  intros Hm Hn Hd Hq Hok Hp Hs Hf Hcs.
  destruct (lost_cycles o Hm Hn Hd Hq i (peer_ipv4 p) (notices (peer_ipv4 p) (ha_out s)) cs s Hcs)
    as (s' & E & _ & p' & H1 & H2 & H3 & _ & H5).
  { split; [done|]. by exists p. }
  by exists s', p'.
Qed.

(** A tick on a peer that is connected sends it the addresses, and
    declares it down exactly when it was active and nothing has come from it
    for more than thirty seconds of the clock that is read. *)
Theorem tick_declares (o : ha_os) i p s n :
  supplied o -> ha_ok s -> ha_peers s !! i = Some p -> peer_ipv4 p <> 0 -> 0 < fdWrite p ->
  count_at (vlan_ha_local_msg s) = Done n -> 0 <= n -> ho_send o (ha_calls s) = n * 6 + 1 ->
  let now := ho_clock o (S (ha_calls s)) in
  let gone := (pr_state p =? 2) && (30 <? int32 (Z.quot (now - pr_last p) 1000000)) in
  exists s', keep_alive_peer o i s = Done s' /\
    ha_out s' = ha_out s ++ Ha_send (fdWrite p) (take (Z.to_nat (n * 6 + 1)) (vlan_ha_local_msg s))
      :: (if gone then [Ha_notify DGWY_PEER_DOWN (peer_ipv4 p) 1] else []) /\
    ha_peers s' = if gone then alter (with_state 1) i (ha_peers s) else ha_peers s.
Proof.
  intros Hsup Hok Hp Hne Hfd Hn Hpos Hsend now gone.
  destruct (count_ok _ (ok_local s Hok)) as (n' & En & Hn8). assert (n' = n) as -> by congruence.
  unfold keep_alive_peer, peer_at. rewrite Hp. cbn [of_option obind].
  rewrite (proj2 (Z.eqb_neq _ _) Hne), (proj2 (Z.ltb_lt _ _) Hfd).
  unfold keep_alive_send. rewrite Hn. cbn [obind]. rewrite (proj2 (Z.ltb_lt 0 (n * 6 + 1))) by lia.
  rewrite decide_True by (rewrite (proj1 (ok_local s Hok)); unfold VLAN_HA_MSG_LEN; lia).
  unfold send_to_peer, peer_at. rewrite Hp. cbn [of_option obind]. rewrite call_eq, Hsend.
  cbn zeta iota. cbn [obind]. rewrite Z.eqb_refl.
  set (s1 := ha_emit _ _).
  assert (peer_at i s1 = Done p) as Ep by (unfold peer_at; cbn; by rewrite Hp).
  cbn [obind]. unfold keep_alive_check. rewrite Ep. cbn [obind].
  change ((pr_state p =? 2) && (30 <? int32 (Z.quot (now - pr_last p) 1000000))) with gone.
  unfold gone. destruct (pr_state p =? 2); cbn [andb]; [|by exists s1].
  rewrite call_eq. cbn zeta iota. change (ho_clock o (ha_calls s1)) with now.
  change DGWY_HA_KEEP_ALIVE_TIMOUT with 30. change CLOCKS_PER_SEC with 1000000.
  destruct (30 <? int32 _); [|by eexists]. rewrite call_eq, (proj1 (Hsup _)). cbn zeta iota.
  unfold notify_ctrl. rewrite call_eq, (proj2 (Hsup _)). cbn zeta iota. eexists. split; [done|].
  cbn [ha_out ha_peers ha_emit with_calls set_peer ha_with_peers s1]. by rewrite <- app_assoc.
Qed.

(** ** The addresses of the peer *)
Lemma mac_from_spec (pre : list Z) macs (tl mac : list Z) k : forall i,
  length pre = 1%nat -> (forall m, m ∈ macs -> length m = 6%nat) -> (i + k = length macs)%nat ->
  mac_from k i mac (pre ++ concat macs ++ tl) = Done (bool_decide (mac ∈ drop i macs)).
Proof.
  induction k as [|k IH]; intros i Hpre H6 Hi; cbn [mac_from].
  { rewrite drop_ge by lia. done. }
  destruct (lookup_lt_is_Some_2 macs i) as [m Hm]; [lia|].
  assert (length m = 6%nat) as Hm6 by (by eapply H6, list_elem_of_lookup_2).
  assert (concat macs = concat (take i macs) ++ m ++ concat (drop (S i) macs)) as Ec.
  { rewrite <- (take_drop_middle macs i m Hm) at 1. rewrite concat_app. done. }
  assert (length (concat (take i macs)) = 6 * i)%nat as Hti.
  { rewrite length_macs; [rewrite length_take; pose proof (lookup_lt_Some _ _ _ Hm); lia|].
    intros x Hx. apply H6. apply elem_of_take in Hx as (j & Hj & _). by eapply list_elem_of_lookup_2. }
  unfold mac_at. rewrite decide_True.
  2: { rewrite !length_app, Hpre, Ec, !length_app, Hti, Hm6. lia. }
  assert (take 6 (drop (1 + 6 * i) (pre ++ concat macs ++ tl)) = m) as ->.
  { rewrite Ec, <- !app_assoc, app_assoc, drop_app_length' by (rewrite length_app, Hpre, Hti; lia).
    by rewrite take_app_length' by done. }
  cbn [obind]. rewrite (drop_S macs m i Hm). destruct (bool_decide (m = mac)) eqn:E.
  - apply bool_decide_eq_true in E as ->. by rewrite bool_decide_eq_true_2 by (by left).
  - apply bool_decide_eq_false in E. rewrite IH by (done || lia). f_equal. apply bool_decide_ext.
    rewrite elem_of_cons. naive_solver.
Qed.

(** What the receiver of a packet of addresses knows. *)
Lemma update_peer_from_msg o k ip : forall i s s',
  update_peer_from o k i ip s = Done s' -> vlan_ha_peer_msg s' = vlan_ha_peer_msg s.
Proof.
  induction k as [|k IH]; intros i s s'; cbn [update_peer_from]; [by intros [= <-]|].
  unfold peer_at at 1. destruct (ha_peers s !! i) as [p|] eqn:Hp; [|done]. cbn [of_option obind].
  destruct (ip =? peer_ipv4 p); [|apply IH]. unfold update_peer, peer_at. rewrite Hp.
  cbn [of_option obind]. rewrite call_eq. cbn zeta iota. intros E%IH. rewrite E. cbn.
  destruct (pr_state p =? 1); [|done]. cbn. destruct (ho_malloc o _); [|done].
  unfold notify_ctrl. cbn. by destruct (ho_queue o _).
Qed.
Lemma process_peer_msg_keeps o s r s' :
  process_peer_msg o s = Done (r, s') -> vlan_ha_peer_msg s' = vlan_ha_peer_msg s.
Proof.
  unfold process_peer_msg. rewrite call_eq. cbn zeta iota.
  destruct (ho_peername o _) as [[family ip]|]; [|by intros [= _ <-]].
  destruct (family =? PF_INET); [|by intros [= _ <-]]. unfold update_peer_clock.
  destruct (update_peer_from o _ _ _ _) as [s1| |] eqn:E; [|done..]. cbn [obind]. intros [= _ <-].
  by apply update_peer_from_msg in E.
Qed.

(** What one gateway sends, the other learns: when the packet of addresses
    of the one is read by another that does not know as many as four, it finds
    exactly the addresses of the service of the first. *)
Theorem macs_exchanged (o' : ha_os) l buf fd s n :
  (forall mac, mac ∈ l -> length mac = 6%nat) ->
  (forall n family ip, ho_peername o' n = Some (family, ip) -> ip <> 0) ->
  ha_ok s -> count_at (vlan_ha_peer_msg s) = Done n -> n < 4 ->
  let '(ret, sent) := get_all_mac_addess (Some l) buf in
  (ho_read o' (ha_calls s)).1 = Some (take (Z.to_nat (ret * 6 + 1)) sent) ->
  exists s', receive_from o' fd s = Done s' /\
    forall mac, is_mac_found_in_peer mac s' = Done (bool_decide (mac ∈ service_macs l)).
Proof.
  intros Hl Hname Hok Hn Hn4. cbn [get_all_mac_addess]. fold (service_macs l).
  destruct (service_macs_ok l Hl) as (H8 & H6 & Hlen). set (macs := service_macs l) in *.
  set (k := length macs) in *. set (b := u8 (Z.of_nat k)).
  assert (i8 b = Z.of_nat k) as Hb.
  { unfold b, i8, u8. rewrite (Z.mod_small (Z.of_nat k)), Z.mod_small by lia. lia. }
  assert (take (Z.to_nat (Z.of_nat k * 6 + 1))
    ((b :: concat macs) ++ replicate (VLAN_HA_MSG_LEN - length (b :: concat macs)) 0) = b :: concat macs) as ->.
  { apply take_app_length'. cbn [length]. lia. }
  intros Hr. unfold receive_from. rewrite call_eq. cbn zeta iota.
  destruct (ho_read o' (ha_calls s)) as [r errno]. cbn in Hr. subst r.
  rewrite (take_ge (b :: concat macs)) by (cbn [length]; lia).
  set (s0 := with_calls _ s). change (vlan_ha_peer_msg s0) with (vlan_ha_peer_msg s).
  rewrite Hn. cbn [obind]. rewrite (proj2 (Z.ltb_lt n 4)) by done. rewrite Hb.
  rewrite (proj2 (Z.leb_le _ _)) by (cbn [length]; lia).
  rewrite (proj2 (Z.ltb_lt _ _)) by (cbn [length]; unfold VLAN_HA_MSG_LEN; lia). cbn [andb].
  set (s1 := ha_with_peer_msg _ s0).
  assert (ha_ok s1) as Hok1.
  { eapply (step_ok True (fun _ => True) (fun _ => True) s0), (ok_same s s0); try done.
    apply (Step_heard _ _ _ s0 (b :: concat macs)); [done|]. split; [|exists b; split; [done|]];
      cbn [length]; unfold VLAN_HA_MSG_LEN; lia. }
  destruct (process_peer_msg_goes o' (fun _ => True) Hname s1 (fun _ => I) Hok1) as (r & s2 & E & _).
  rewrite E. cbn [obind]. exists s2. split; [done|]. intros mac.
  unfold is_mac_found_in_peer. rewrite (process_peer_msg_keeps _ _ _ _ E). cbn [vlan_ha_peer_msg s1 ha_with_peer_msg].
  unfold count_at. cbn [app lookup list_lookup of_option obind]. rewrite Hb.
  destruct (Z.eqb_spec (Z.of_nat k) 0) as [E0|E0].
  { assert (macs = []) as -> by (apply length_zero_iff_nil; unfold k in E0; lia). done. }
  rewrite Nat2Z.id. change (b :: ?t) with ([b] ++ t).
  apply (mac_from_spec [b] macs _ mac k 0); [done | done | done].
Qed.

(** ** The theorems on the gateways evaluated *)
Definition gw_macs : list (list Z) :=
  [[2; 0; 94; 0; 83; 1]; [2; 0; 94; 0; 83; 2]] ++ replicate 6 (replicate 6 0).
Definition gw_packet : list Z := [2; 2; 0; 94; 0; 83; 1; 2; 0; 94; 0; 83; 2].
Definition gw_peer : Z := 16777226.

(** All calls succeed; the clock is [now]; every descriptor that is polled has
    a packet from the peer. *)
Definition gw_os (now : Z) : ha_os :=
  mk_ha_os (fun _ => 5) (fun _ => true) (fun _ => 13) (fun _ => now) (fun _ => true) (fun _ => true)
    (fun _ => Some gw_macs) (fun _ => Some (PF_INET, gw_peer)) (fun _ => (1, [1])) (fun _ => (Some gw_packet, 0)).
(** The peer is gone: sending and connecting fail, nothing comes. *)
Definition dead_os (now : Z) : ha_os :=
  mk_ha_os (fun _ => 5) (fun _ => false) (fun _ => -1) (fun _ => now) (fun _ => true) (fun _ => true)
    (fun _ => Some gw_macs) (fun _ => Some (PF_INET, gw_peer)) (fun _ => (0, [])) (fun _ => (None, EAGAIN)).

Lemma gw_macs_ok : forall l mac, Some gw_macs = Some l -> mac ∈ l -> length mac = 6%nat.
Proof.
  intros l mac [= <-]. rewrite list_elem_of_In. cbn. intros H.
  repeat destruct H as [<-|H]; reflexivity || destruct H.
Qed.
Lemma gw_peer_named : forall (n : nat) family ip, Some (PF_INET, gw_peer) = Some (family, ip) -> ip <> 0.
Proof. intros _ family ip [= _ <-]. discriminate. Qed.
Lemma gw_supplied now : supplied (gw_os now).
Proof. done. Qed.

(** A peer is configured and connects; its packet arrives; ticks. *)
Definition gw_day : list (option Z * list ha_msg) :=
  [(Some 2, [DGWY_HA_START; DGWY_HA_CTRL_PEER_IPV4 gw_peer 33554442; DGWY_HA_SKT_ACCEPTED 7]);
   (Some 1, []); (None, [])].
Lemma gw_day_ok : Forall cycle_ok gw_day.
Proof. repeat constructor. discriminate. Qed.

Example ha_runs_safely_witness :
  exists s, ha_cycles (gw_os 0) gw_day ha_task0 = Done s /\ ha_ok s /\
    peer_list (given (gw_os 0)) (vlan_ha_peer_msg s).
Proof. exact (ha_runs_safely (gw_os 0) (fun _ => gw_macs_ok) gw_peer_named gw_day gw_day_ok). Defined.

Example notices_alternate_witness :
  exists s, ha_cycles (gw_os 0) gw_day ha_task0 = Done s /\
    (forall ip, ip <> 0 -> alternates 1 (notices ip (ha_out s)) /\
      ((forall i p, ha_peers s !! i = Some p -> peer_ipv4 p <> ip) -> notices ip (ha_out s) = [])) /\
    (forall i p, ha_peers s !! i = Some p -> peer_ipv4 p <> 0 ->
      last_notice (notices (peer_ipv4 p) (ha_out s)) = pr_state p) /\
    notices gw_peer (ha_out s) = [2].
Proof.
  destruct (notices_alternate (gw_os 0) (fun _ => gw_macs_ok) gw_peer_named gw_day (gw_supplied 0) gw_day_ok)
    as (s & E & H1 & H2). exists s. split; [exact E|]. split; [exact H1|]. split; [exact H2|].
  vm_compute in E. injection E as <-. reflexivity.
Defined.

Lemma ha_cycles_ok o cs s s' :
  (forall n l mac, ho_macs o n = Some l -> mac ∈ l -> length mac = 6%nat) ->
  (forall n family ip, ho_peername o n = Some (family, ip) -> ip <> 0) ->
  ha_cycles o cs s = Done s' -> Forall cycle_ok cs -> ha_ok s -> ha_ok s'.
Proof.
  intros Hm Hn E Hcs Hok. destruct (ha_cycles_goes o Hm Hn cs s Hok Hcs) as (s1 & E1 & H1).
  assert (s1 = s') as <- by congruence. by eapply steps_ok.
Qed.

(** The peer is up; then the connection breaks, in the next tick. *)
Lemma gw_lost : exists s p, ha_ok s /\ ha_peers s !! 0%nat = Some p /\ pr_state p = 2 /\ fdWrite p = 0 /\
  peer_ipv4 p = gw_peer /\ notices gw_peer (ha_out s) = [2].
Proof.
  destruct (ha_cycles (gw_os 0) gw_day ha_task0) as [s1| |] eqn:E1; [|by vm_compute in E1..].
  destruct (ha_cycles (dead_os 1000000) [(Some 1, [])] s1) as [s2| |] eqn:E2.
  - assert (ha_ok s2) as Hok.
    { eapply (ha_cycles_ok (dead_os 1000000)); [exact (fun _ => gw_macs_ok) | exact gw_peer_named | exact E2 | by repeat constructor|].
      eapply (ha_cycles_ok (gw_os 0)); [exact (fun _ => gw_macs_ok) | exact gw_peer_named | exact E1 | exact gw_day_ok | exact ha_task0_ok]. }
    exists s2. vm_compute in E1. injection E1 as <-. vm_compute in E2. injection E2 as <-.
    eexists. split; [exact Hok|]. by vm_compute.
  - vm_compute in E1. injection E1 as <-. by vm_compute in E2.
  - vm_compute in E1. injection E1 as <-. by vm_compute in E2.
Qed.

(** An hour later, after another 720 ticks. *)
Example lost_peer_unnoticed_witness :
  exists s s' p', notices gw_peer (ha_out s) = [2] /\
    ha_cycles (dead_os 3600000000) (replicate 720 (Some 1, [])) s = Done s' /\
    ha_peers s' !! 0%nat = Some p' /\ pr_state p' = 2 /\ notices gw_peer (ha_out s') = [2].
Proof.
  destruct gw_lost as (s & p & Hok & Hp & Hs & Hf & Hip & Hn).
  destruct (lost_peer_unnoticed (dead_os 3600000000) 0%nat p s (replicate 720 (Some 1, []))
    (fun _ => gw_macs_ok) gw_peer_named (fun _ => eq_refl) (fun _ => eq_refl) Hok Hp Hs Hf
    ltac:(apply Forall_replicate; constructor)) as (s' & p' & E & Hp' & _ & Hs' & Hn').
  exists s, s', p'. rewrite Hip in Hn'. split; [exact Hn|]. split; [exact E|]. split; [exact Hp'|].
  split; [exact Hs'|]. rewrite Hn'. exact Hn.
Defined.

Definition gw_up : ha_task :=
  ha_with_peers [mk_peer gw_peer 33554442 2 0 5 0; no_peer]
    (ha_with_local (get_all_mac_addess (Some gw_macs) (replicate VLAN_HA_MSG_LEN 0)).2 ha_task0).
Lemma gw_up_ok : ha_ok gw_up.
Proof.
  assert (forall i p, ha_peers gw_up !! i = Some p -> i = 0%nat /\ p = mk_peer gw_peer 33554442 2 0 5 0 \/ p = no_peer)
    as Hall by (intros [|[|i]] p; cbn; intros [= <-]; eauto).
  split; try done.
  - intros i p [[_ ->]| ->]%Hall; (split; [done|]); split; cbn; try lia; done.
  - intros i j p q [[-> ->]| ->]%Hall [[-> ->]| ->]%Hall; done.
  - split; [done|]. exists 2. done.
  - exists [[2; 0; 94; 0; 83; 1]; [2; 0; 94; 0; 83; 2]]. split; [reflexivity|].
    split; [cbn; lia | by repeat constructor].
  - split; [done|]. exists 0. done.
Qed.

Example tick_declares_witness :
  exists s', keep_alive_peer (gw_os 31000000) 0 gw_up = Done s' /\
    ha_out s' = [Ha_send 5 gw_packet; Ha_notify DGWY_PEER_DOWN gw_peer 1].
Proof.
  destruct (tick_declares (gw_os 31000000) 0%nat (mk_peer gw_peer 33554442 2 0 5 0) gw_up 2
    (gw_supplied _) gw_up_ok eq_refl ltac:(discriminate) eq_refl eq_refl ltac:(discriminate) eq_refl)
    as (s' & E & Ho & _). exists s'. split; [exact E | exact Ho].
Defined.

Example macs_exchanged_witness :
  exists s', receive_from (gw_os 0) 7 gw_up = Done s' /\
    is_mac_found_in_peer [2; 0; 94; 0; 83; 2] s' = Done true /\
    is_mac_found_in_peer [2; 0; 94; 0; 83; 3] s' = Done false.
Proof.
  destruct (macs_exchanged (gw_os 0) gw_macs (replicate VLAN_HA_MSG_LEN 0) 7 gw_up 0
    (fun mac => gw_macs_ok gw_macs mac eq_refl) gw_peer_named gw_up_ok eq_refl eq_refl eq_refl)
    as (s' & E & H). exists s'. split; [exact E|]. split; [exact (H _) | exact (H _)].
Defined.
