(* ===== verification/HaCtrl.v ===== *)
(** * The control task of a gateway, and its listener

    [odgw/dgadmin/dgwy_ctrl_task.c] and [dgwy_ha_listen_task].  The work the
    control task does on its timer is in [dgadmutil.c]; here it is the calls. *)
From S2P Require Export HaTask.
#[local] Open Scope Z_scope.

Definition DGWYCTRLTASK_TIMER_EVENT : Z := 1.
Definition DGWYCTRLTASK_MSG_EVENT : Z := 2.

(** ** The control task *)
Inductive dgwy_ctrl_msg :=
| Ctrl_peer (type ip state : Z)
| Ctrl_other (type : Z).
Inductive ctrl_event :=
| Ct_device_poll | Ct_getinfo | Ct_start_timer | Ct_update_domain_bcast | Ct_dmc_heartbeat
| Ct_retry_dmc_register | Ct_dmc_monitr_cfg | Ct_retry_get_dcs_seed_info | Ct_check_register_tunnel
| Ct_get_vxlan_port | Ct_set_peer_state (ip state : Z) | Ct_unknown.

(** [ct_queue] is the queue [CMSG], of ten messages; [ct_events] the events
    that are pending. *)
Record ctrl_task := mk_ctrl {
  ct_queue : list dgwy_ctrl_msg; ct_events : Z; tunnel_reg_delay_cnt : Z; bcast_update_delay_cnt : Z;
  ct_out : list ctrl_event }.
Definition ctrl_task0 : ctrl_task := mk_ctrl [] 0 0 0 [].
Definition CMSG_LEN : nat := 10.

Definition ct_emit (es : list ctrl_event) (s : ctrl_task) : ctrl_task :=
  mk_ctrl (ct_queue s) (ct_events s) (tunnel_reg_delay_cnt s) (bcast_update_delay_cnt s) (ct_out s ++ es).

(** Every fourth time, and every sixth: the counter is compared before it is
    increased. *)
Definition bcast_update (s : ctrl_task) : ctrl_task :=
  if (2 <? bcast_update_delay_cnt s)
  then ct_emit [Ct_update_domain_bcast]
         (mk_ctrl (ct_queue s) (ct_events s) (tunnel_reg_delay_cnt s) 0 (ct_out s))
  else mk_ctrl (ct_queue s) (ct_events s) (tunnel_reg_delay_cnt s) (bcast_update_delay_cnt s + 1) (ct_out s).
Definition tunnel_register (s : ctrl_task) : ctrl_task :=
  if (4 <? tunnel_reg_delay_cnt s)
  then ct_emit [Ct_check_register_tunnel; Ct_get_vxlan_port]
         (mk_ctrl (ct_queue s) (ct_events s) 0 (bcast_update_delay_cnt s) (ct_out s))
  else mk_ctrl (ct_queue s) (ct_events s) (tunnel_reg_delay_cnt s + 1) (bcast_update_delay_cnt s) (ct_out s).
Definition ctrl_timer (chardev_open : bool) (s : ctrl_task) : ctrl_task :=
  let s := ct_emit ((if chardev_open then [] else [Ct_getinfo]) ++ [Ct_start_timer]) s in
  let s := bcast_update s in
  let s := ct_emit [Ct_dmc_heartbeat; Ct_retry_dmc_register; Ct_dmc_monitr_cfg;
                    Ct_retry_get_dcs_seed_info] s in
  tunnel_register s.

Definition ctrl_message (m : dgwy_ctrl_msg) : list ctrl_event :=
  match m with
  | Ctrl_peer type ip state =>
      if (type =? DGWY_PEER_UP) || (type =? DGWY_PEER_DOWN) then [Ct_set_peer_state ip state] else []
  | Ctrl_other _ => []
  end.
Definition ctrl_messages (s : ctrl_task) : ctrl_task :=
  mk_ctrl [] (ct_events s) (tunnel_reg_delay_cnt s) (bcast_update_delay_cnt s)
    (ct_out s ++ flat_map ctrl_message (ct_queue s)).

(** One pass of the loop; [recv_event] takes all the events that are
    pending. *)
Definition ctrl_cycle (chardev_open : bool) (s : ctrl_task) : ctrl_task :=
  let s := ct_emit [Ct_device_poll] s in
  let recvEvent := Z.land (ct_events s) (Z.lor DGWYCTRLTASK_TIMER_EVENT DGWYCTRLTASK_MSG_EVENT) in
  if (recvEvent =? 0) then s
  else
    let s := mk_ctrl (ct_queue s) (Z.ldiff (ct_events s) recvEvent) (tunnel_reg_delay_cnt s)
               (bcast_update_delay_cnt s) (ct_out s) in
    if negb (Z.land recvEvent DGWYCTRLTASK_TIMER_EVENT =? 0) then ctrl_timer chardev_open s
    else if negb (Z.land recvEvent DGWYCTRLTASK_MSG_EVENT =? 0) then ctrl_messages s
    else ct_emit [Ct_unknown] s.

(** A message of another task, and the timer. *)
Definition ctrl_send (m : dgwy_ctrl_msg) (s : ctrl_task) : bool * ctrl_task :=
  if decide (length (ct_queue s) < CMSG_LEN)%nat then
    (true, mk_ctrl (ct_queue s ++ [m]) (Z.lor (ct_events s) DGWYCTRLTASK_MSG_EVENT)
             (tunnel_reg_delay_cnt s) (bcast_update_delay_cnt s) (ct_out s))
  else (false, s).
Definition ctrl_fire (s : ctrl_task) : ctrl_task :=
  mk_ctrl (ct_queue s) (Z.lor (ct_events s) DGWYCTRLTASK_TIMER_EVENT) (tunnel_reg_delay_cnt s)
    (bcast_update_delay_cnt s) (ct_out s).

Inductive ctrl_op := Op_message (m : dgwy_ctrl_msg) | Op_timer | Op_cycle (chardev_open : bool).
Definition run_ctrl (op : ctrl_op) (s : ctrl_task) : ctrl_task :=
  match op with
  | Op_message m => (ctrl_send m s).2
  | Op_timer => ctrl_fire s
  | Op_cycle chardev => ctrl_cycle chardev s
  end.
Definition run_ctrls (ops : list ctrl_op) (s : ctrl_task) : ctrl_task :=
  foldl (fun s op => run_ctrl op s) s ops.

(** ** The listener *)
Inductive listen_event := Ls_close (fd : Z) | Ls_message (m : ha_msg) | Ls_event | Ls_start_timer.

(** One pass of the loop of [dgwy_ha_listen_task]: [fd] is what [accept]
    gives, [malloc_ok] and [queue_ok] whether a message can be made and sent,
    [events] what [recv_event] gives and [starts] whether a message
    [DGWY_HA_LISTEN_START] is in its queue. *)
Definition listen_cycle (fd : Z) (malloc_ok queue_ok : bool) (events : option Z) (starts : bool)
    (startFlg : bool) : bool * list listen_event :=
  let out :=
    if startFlg then
      if (0 <? fd) then
        if negb malloc_ok then [Ls_close fd]
        else (if queue_ok then [Ls_message (DGWY_HA_SKT_ACCEPTED fd)] else []) ++ [Ls_event]
      else []
    else if malloc_ok then (if queue_ok then [Ls_message DGWY_HA_START] else []) ++ [Ls_event]
    else [] in
  match events with
  | None => (startFlg, out)
  | Some ev =>
      let out := out ++ if negb (Z.land ev DGWY_HA_TASK_TIMER_EVENT =? 0) then [Ls_start_timer] else [] in
      (startFlg || negb (Z.land ev DGWY_HA_TASK_MSG_EVENT =? 0) && starts, out)
  end.

(** ** What becomes of a message *)

Lemma ctrl_timer_same chardev s :
  ct_queue (ctrl_timer chardev s) = ct_queue s /\ ct_events (ctrl_timer chardev s) = ct_events s.
Proof. unfold ctrl_timer, tunnel_register, bcast_update. by repeat case_match. Qed.

(** A pass that takes the timer event does not look at the queue. *)
Lemma ctrl_cycle_timer ch s :
  ct_events s = 1 \/ ct_events s = 3 ->
  ct_queue (ctrl_cycle ch s) = ct_queue s /\ ct_events (ctrl_cycle ch s) = 0.
Proof.
  intros He. unfold ctrl_cycle. cbn [ct_events ct_emit]. destruct He as [E|E]; rewrite E.
  - exact (ctrl_timer_same ch _).
  - exact (ctrl_timer_same ch _).
Qed.
Lemma ctrl_cycle_idle ch s :
  ct_events s = 0 -> ct_queue (ctrl_cycle ch s) = ct_queue s /\ ct_events (ctrl_cycle ch s) = 0.
Proof. intros He. unfold ctrl_cycle. cbn [ct_events ct_emit]. by rewrite He. Qed.

(** A message that is alone is handled in the next pass, after those
    before it, in the order they were sent. *)
Theorem message_handled ms chardev s :
  ct_events s = 0 -> ct_queue s = [] -> ms <> [] -> (length ms <= CMSG_LEN)%nat ->
  let s' := run_ctrls (map Op_message ms ++ [Op_cycle chardev]) s in
  ct_queue s' = [] /\ ct_out s' = ct_out s ++ Ct_device_poll :: flat_map ctrl_message ms.
Proof.
  intros Hev Hq Hms Hlen s'.
  assert (forall l s0, (length (ct_queue s0) + length l <= CMSG_LEN)%nat -> l <> [] ->
    ct_events s0 = 0 \/ ct_events s0 = 2 ->
    run_ctrls (map Op_message l) s0 = mk_ctrl (ct_queue s0 ++ l) 2 (tunnel_reg_delay_cnt s0)
      (bcast_update_delay_cnt s0) (ct_out s0)) as Hsend.
  { intros l. induction l as [|m l IH]; intros s0 Hl Hne Hs0; [done|]. cbn [map run_ctrls foldl run_ctrl].
    assert ((ctrl_send m s0).2 = mk_ctrl (ct_queue s0 ++ [m]) 2 (tunnel_reg_delay_cnt s0)
      (bcast_update_delay_cnt s0) (ct_out s0)) as ->.
    { unfold ctrl_send. rewrite decide_True by (cbn in Hl; lia). cbn [snd].
      by destruct Hs0 as [-> | ->]. }
    destruct l as [|m' l]; [done|]. unfold run_ctrls in IH. rewrite IH; cbn [ct_queue ct_events ct_out
      tunnel_reg_delay_cnt bcast_update_delay_cnt].
    - by rewrite <- app_assoc.
    - rewrite length_app. cbn in Hl |- *. lia.
    - done.
    - by right. }
  unfold s', run_ctrls. rewrite foldl_app. fold (run_ctrls (map Op_message ms) s).
  rewrite Hsend by (rewrite ?Hq; done || by left). rewrite Hq. split; [done|].
  transitivity ((ct_out s ++ [Ct_device_poll]) ++ flat_map ctrl_message ms); [reflexivity|].
  by rewrite <- app_assoc.
Qed.

(** A message that arrives while the timer event is pending waits: the
    pass that takes both events does the work of the timer only, and without
    another message no later pass looks at the queue, however often the timer
    fires. *)
Theorem message_waits m chardev s ops :
  ct_events s = 1 -> ct_queue s = [] ->
  Forall (fun op => match op with Op_message _ => False | _ => True end) ops ->
  ct_queue (run_ctrls (Op_message m :: Op_cycle chardev :: ops) s) = [m].
Proof.
  intros Hev Hq Hops. cbn [run_ctrls foldl run_ctrl]. unfold ctrl_send.
  rewrite Hq, decide_True by (unfold CMSG_LEN; cbn; lia). cbn [snd]. rewrite Hev.
  set (s0 := mk_ctrl _ _ _ _ _).
  assert (forall s1, ct_queue s1 = [m] /\ (ct_events s1 = 0 \/ ct_events s1 = 1) ->
    ct_queue (run_ctrls ops s1) = [m]) as Hrest.
  { induction Hops as [|op ops Hop Hops IH]; intros s1 [Hs1 He]; [done|].
    cbn [run_ctrls foldl]. apply IH. destruct op as [m'| |ch]; [done | |].
    - split; [exact Hs1|]. right. cbn [run_ctrl ctrl_fire ct_events].
      destruct He as [E|E]; by rewrite E.
    - cbn [run_ctrl]. destruct He as [E|E];
        [destruct (ctrl_cycle_idle ch s1 E) as [-> ->] | destruct (ctrl_cycle_timer ch s1 (or_introl E)) as [-> ->]];
        (split; [exact Hs1 | by left]). }
  apply Hrest. destruct (ctrl_cycle_timer chardev s0 (or_intror eq_refl)) as [-> ->].
  split; [done | by left].
Qed.

Example message_handled_witness :
  let s' := run_ctrls (map Op_message [Ctrl_peer DGWY_PEER_UP 7 2; Ctrl_peer DGWY_PEER_DOWN 7 1] ++
    [Op_cycle true]) ctrl_task0 in
  ct_queue s' = [] /\ ct_out s' = [Ct_device_poll; Ct_set_peer_state 7 2; Ct_set_peer_state 7 1].
Proof.
  exact (message_handled [Ctrl_peer DGWY_PEER_UP 7 2; Ctrl_peer DGWY_PEER_DOWN 7 1] true ctrl_task0
    eq_refl eq_refl ltac:(discriminate) ltac:(apply Nat.leb_le; reflexivity)).
Defined.

Example message_waits_witness :
  ct_queue (run_ctrls (Op_message (Ctrl_peer DGWY_PEER_DOWN 7 1) :: Op_cycle true ::
    [Op_timer; Op_cycle true; Op_cycle true]) (ctrl_fire ctrl_task0)) = [Ctrl_peer DGWY_PEER_DOWN 7 1].
Proof.
  exact (message_waits (Ctrl_peer DGWY_PEER_DOWN 7 1) true (ctrl_fire ctrl_task0)
    [Op_timer; Op_cycle true; Op_cycle true] eq_refl eq_refl ltac:(repeat constructor)).
Defined.
