(* ===== verification/GwSlots.v ===== *)
(** * Tables of the gateway: arrays of slots

    Every table of a service ([dgwy_service_list_t]) is an array of a fixed
    size whose unused slots carry a reserved value, searched by the same loop.
    What the loops do to the array, and that the array so kept is a finite map
    of bounded size. *)
From S2P Require Export Prelude.
From stdpp Require Import gmap.
#[local] Open Scope Z_scope.

(** ** The loops *)

Section slots.
Context {A : Type}.

(** [for(i=from; i<MAX; i++) { if(hit) {found=1; break;}
    if((freeidx<0) && free) freeidx=i; }] *)
Fixpoint scan (hit free : A -> bool) (i : nat) (l : list A) (freeidx : option nat)
    : option nat * option nat :=
  match l with
  | [] => (None, freeidx)
  | x :: l =>
      if hit x then (Some i, freeidx)
      else scan hit free (S i) l
             (match freeidx with None => if free x then Some i else None | _ => freeidx end)
  end.

(** [if((!found) && (freeidx>=0)) { list[freeidx] = x; ret = 0; }] *)
Definition insert_slot (hit free : A -> bool) (from : nat) (x : A) (l : list A) : Z * list A :=
  match scan hit free from (drop from l) None with
  | (None, Some f) => (0, <[f := x]> l)
  | _ => (-1, l)
  end.

(** [for(i=from; i<MAX; i++) if(hit) {...; break;}] *)
Fixpoint first_hit (hit : A -> bool) (i : nat) (l : list A) : option nat :=
  match l with
  | [] => None
  | x :: l => if hit x then Some i else first_hit hit (S i) l
  end.
Definition find_slot (hit : A -> bool) (from : nat) (l : list A) : option A :=
  match first_hit hit from (drop from l) with Some i => l !! i | None => None end.
Definition clear_slot (hit : A -> bool) (z : A -> A) (from : nat) (l : list A) : list A :=
  match first_hit hit from (drop from l) with Some i => alter z i l | None => l end.

(** Found: the slot is written over; otherwise the first free slot is. *)
Definition put_slot (hit free : A -> bool) (over : A -> A) (x : A) (l : list A) : list A :=
  match scan hit free 0 l None with
  | (Some i, _) => alter over i l
  | (None, Some f) => <[f := x]> l
  | (None, None) => l
  end.

(** ** Where the loops stop *)

Lemma first_hit_spec hit i l :
  match first_hit hit i l with
  | Some j => (exists k x, j = (i + k)%nat /\ l !! k = Some x /\ hit x = true /\
                 forall m y, (m < k)%nat -> l !! m = Some y -> hit y = false)
  | None => forall x, x ∈ l -> hit x = false
  end.
Proof.
  revert i. induction l as [|x l IH]; intros i; cbn; [by intros x ?%elem_of_nil|].
  destruct (hit x) eqn:Hx.
  - exists 0%nat, x. split_and!; [lia | done | done | lia].
  - specialize (IH (S i)). destruct (first_hit hit (S i) l) as [j|].
    + destruct IH as (k & y & -> & Hy & Hh & Hm). exists (S k), y. split_and!; [lia | done | done |].
      intros [|m] z ?; cbn; [by intros [= ->] | apply Hm; lia].
    + intros y [->|?]%elem_of_cons; eauto.
Qed.

Lemma scan_first hit free i l fr : (scan hit free i l fr).1 = first_hit hit i l.
Proof.
  revert i fr. induction l as [|x l IH]; intros i fr; cbn; [done|]. by destruct (hit x).
Qed.

Lemma scan_free hit free i l fr :
  first_hit hit i l = None ->
  (scan hit free i l fr).2 = match fr with Some f => Some f | None => first_hit free i l end.
Proof.
  revert i fr. induction l as [|x l IH]; intros i fr; cbn; [by destruct fr|].
  destruct (hit x); [done|]. intros H. rewrite IH by done. by destruct fr, (free x).
Qed.

(** An array whose first slot is left alone. *)
Lemma scan_S hit free i l fr :
  scan hit free (S i) l (S <$> fr) =
    (S <$> (scan hit free i l fr).1, S <$> (scan hit free i l fr).2).
Proof.
  revert i fr. induction l as [|x l IH]; intros i fr; cbn; [done|].
  destruct (hit x); [done|]. rewrite <- IH. f_equal. destruct fr; [done|]. by destruct (free x).
Qed.
Lemma insert_slot_1 hit free x y l :
  insert_slot hit free 1 x (y :: l) =
    ((insert_slot hit free 0 x l).1, y :: (insert_slot hit free 0 x l).2).
Proof.
  unfold insert_slot. cbn [drop]. rewrite drop_0. pose proof (scan_S hit free 0 l None) as E.
  cbn in E. rewrite E. by destruct (scan hit free 0 l None) as [[?|] [?|]].
Qed.
Lemma first_hit_S hit i l : first_hit hit (S i) l = S <$> first_hit hit i l.
Proof.
  revert i. induction l as [|x l IH]; intros i; cbn; [done|]. destruct (hit x); [done|]. apply IH.
Qed.
Lemma clear_slot_1 hit z y l : clear_slot hit z 1 (y :: l) = y :: clear_slot hit z 0 l.
Proof.
  unfold clear_slot. cbn [drop]. rewrite drop_0, first_hit_S.
  by destruct (first_hit hit 0 l).
Qed.
Lemma find_slot_1 hit y l : find_slot hit 1 (y :: l) = find_slot hit 0 l.
Proof.
  unfold find_slot. cbn [drop]. rewrite drop_0, first_hit_S.
  by destruct (first_hit hit 0 l).
Qed.

Lemma length_insert_slot hit free from x l : length (insert_slot hit free from x l).2 = length l.
Proof.
  unfold insert_slot. destruct (scan _ _ _ _ _) as [[?|] [?|]]; cbn; [done..| |done].
  apply length_insert.
Qed.
Lemma length_clear_slot hit z from l : length (clear_slot hit z from l) = length l.
Proof. unfold clear_slot. destruct (first_hit _ _ _); [apply length_alter | done]. Qed.
Lemma length_put_slot hit free over x l : length (put_slot hit free over x l) = length l.
Proof.
  unfold put_slot. destruct (scan _ _ _ _ _) as [[?|] [?|]]; cbn;
    rewrite ?length_alter, ?length_insert; done.
Qed.
End slots.
#[export] Hint Rewrite @length_insert_slot @length_clear_slot @length_put_slot : dove.

Lemma alter_slot {A} (f : A -> A) (l : list A) i x : l !! i = Some x -> alter f i l = <[i := f x]> l.
Proof.
  intros Hi. apply list_eq. intros j. destruct (decide (i = j)) as [<-|Hj].
  - rewrite list_lookup_alter_eq, Hi, list_lookup_insert_eq; [done|]. by apply lookup_lt_Some in Hi.
  - by rewrite list_lookup_alter_ne, list_lookup_insert_ne by done.
Qed.

(** ** A table as a finite map *)

Class Slot (A K V : Type) := { used : A -> bool; key : A -> K; val : A -> V }.

Section table.
Context `{Slot A K V} `{Countable K}.
Implicit Types l : list A.

Definition content l : list (K * V) :=
  (fun x => (key x, val x)) <$> List.filter used l.
(** The entries in use, by key. *)
Definition rep l : gmap K V := list_to_map (content l).
(** No two entries in use have the same key. *)
Definition slots_ok l : Prop := NoDup (content l).*1.

#[export] Instance slots_ok_dec l : Decision (slots_ok l).
Proof. unfold slots_ok. apply _. Defined.

(** [hit] is the test of a search for [k]. *)
Definition hits (hit : A -> bool) (k : K) : Prop :=
  forall x, hit x = true <-> used x = true /\ key x = k.

Lemma content_app l l' : content (l ++ l') = content l ++ content l'.
Proof. unfold content. by rewrite List.filter_app, fmap_app. Qed.

Lemma content_middle l l' x :
  content (l ++ x :: l') ≡ₚ (if used x then [(key x, val x)] else []) ++ content (l ++ l').
Proof.
  rewrite !content_app. replace (x :: l') with ([x] ++ l') by done. rewrite content_app.
  unfold content at 2. cbn. destruct (used x); cbn; [|done].
  by rewrite Permutation_middle.
Qed.

Lemma slots_ok_middle l l' x :
  slots_ok (l ++ x :: l') <->
  (used x = true -> rep (l ++ l') !! key x = None) /\ slots_ok (l ++ l').
Proof.
  unfold slots_ok. rewrite content_middle. destruct (used x); cbn.
  - rewrite NoDup_cons. unfold rep. rewrite <- not_elem_of_list_to_map. naive_solver.
  - naive_solver.
Qed.

Lemma rep_middle l l' x :
  slots_ok (l ++ x :: l') ->
  rep (l ++ x :: l') = if used x then <[key x := val x]> (rep (l ++ l')) else rep (l ++ l').
Proof.
  intros Hok. unfold rep. rewrite (list_to_map_proper _ _ Hok (content_middle l l' x)).
  by destruct (used x).
Qed.

Lemma split_at l i x : l !! i = Some x ->
  exists l1 l2, l = l1 ++ x :: l2 /\ (forall y, <[i := y]> l = l1 ++ y :: l2).
Proof.
  intros Hi. exists (take i l), (drop (S i) l). split; [by rewrite take_drop_middle|].
  intros y. apply insert_take_drop. by apply lookup_lt_Some in Hi.
Qed.

(** Reading. *)
Lemma rep_used l i x : slots_ok l -> l !! i = Some x -> used x = true -> rep l !! key x = Some (val x).
Proof.
  intros Hok (l1 & l2 & -> & _)%split_at Hu. rewrite rep_middle, Hu by done. by rewrite lookup_insert_eq.
Qed.

Lemma rep_used_inv l k v : rep l !! k = Some v ->
  exists x, x ∈ l /\ used x = true /\ key x = k /\ val x = v.
Proof.
  intros (x & Hx & Hin)%elem_of_list_to_map_2%list_elem_of_fmap.
  apply list_elem_of_In, List.filter_In in Hin as [Hin ?]. apply list_elem_of_In in Hin.
  simplify_eq. by exists x.
Qed.

Lemma rep_no_hit l hit k : hits hit k -> (forall x, x ∈ l -> hit x = false) -> rep l !! k = None.
Proof.
  intros Hh Hn. destruct (rep l !! k) as [v|] eqn:E; [|done].
  apply rep_used_inv in E as (x & Hin & Hu & Hk & _).
  specialize (Hn x Hin). destruct (Hh x) as [_ Hh']. rewrite Hh' in Hn by done. done.
Qed.

Lemma find_slot_rep l hit k : slots_ok l -> hits hit k ->
  val <$> find_slot hit 0 l = rep l !! k.
Proof.
  intros Hok Hh. unfold find_slot. rewrite drop_0. pose proof (first_hit_spec hit 0 l) as Hf.
  destruct (first_hit hit 0 l) as [j|].
  - destruct Hf as (i & x & -> & Hi & Hx & _). apply Hh in Hx as [Hu <-]. cbn.
    rewrite Hi. cbn. by erewrite rep_used.
  - cbn. by rewrite (rep_no_hit l hit k).
Qed.

(** Room. *)
Lemma size_rep l : slots_ok l -> size (rep l) = length (List.filter used l).
Proof. intros Hok. unfold rep. rewrite map_size_list_to_map by done. apply length_fmap. Qed.

Lemma room l : slots_ok l ->
  (size (rep l) < length l)%nat <-> exists i x, l !! i = Some x /\ used x = false.
Proof.
  intros Hok. rewrite size_rep by done. clear Hok. induction l as [|x l IH]; cbn.
  - split; [lia|]. by intros (i & x & ? & _).
  - pose proof (List.filter_length_le used l). destruct (used x) eqn:Hx; cbn.
    + rewrite <- Nat.succ_lt_mono, IH. split.
      * intros (i & y & ? & ?). by exists (S i), y.
      * intros ([|i] & y & ? & ?); simplify_eq/=; [congruence | by exists i, y].
    + split; [|lia]. intros _. by exists 0%nat, x.
Qed.

(** Writing into a free slot, over a slot, and freeing a slot. *)
Lemma rep_fill l i x y :
  slots_ok l -> l !! i = Some x -> used x = false -> used y = true -> rep l !! key y = None ->
  slots_ok (<[i := y]> l) /\ rep (<[i := y]> l) = <[key y := val y]> (rep l).
Proof.
  intros Hok (l1 & l2 & -> & Hins)%split_at Hx Hy Hn. rewrite Hins.
  rewrite rep_middle, Hx in Hn by done. rewrite (rep_middle l1 l2 x), Hx by done.
  apply slots_ok_middle in Hok as [_ Hok].
  assert (slots_ok (l1 ++ y :: l2)) by by apply slots_ok_middle. split; [done|].
  by rewrite rep_middle, Hy.
Qed.

Lemma rep_over l i x y :
  slots_ok l -> l !! i = Some x -> used x = true -> used y = true -> key y = key x ->
  slots_ok (<[i := y]> l) /\ rep (<[i := y]> l) = <[key x := val y]> (rep l).
Proof.
  intros Hok (l1 & l2 & -> & Hins)%split_at Hx Hy Hk. rewrite Hins.
  rewrite (rep_middle l1 l2 x), Hx by done. apply slots_ok_middle in Hok as [Hn Hok].
  assert (slots_ok (l1 ++ y :: l2)) by (apply slots_ok_middle; rewrite Hk; auto). split; [done|].
  rewrite rep_middle, Hy, Hk by done. by rewrite insert_insert_eq.
Qed.

Lemma rep_free l i x y :
  slots_ok l -> l !! i = Some x -> used x = true -> used y = false ->
  slots_ok (<[i := y]> l) /\ rep (<[i := y]> l) = delete (key x) (rep l).
Proof.
  intros Hok (l1 & l2 & -> & Hins)%split_at Hx Hy. rewrite Hins.
  rewrite (rep_middle l1 l2 x), Hx by done. apply slots_ok_middle in Hok as [Hn Hok].
  assert (slots_ok (l1 ++ y :: l2)) by (apply slots_ok_middle; split; [congruence | done]).
  split; [done|]. rewrite rep_middle, Hy by done. rewrite delete_insert_id; auto.
Qed.
End table.

(** ** The table keeps a map of bounded size *)

Definition add_entry `{Countable K} {V} (cap : nat) (k : K) (v : V) (m : gmap K V) : Z * gmap K V :=
  if decide (m !! k = None /\ (size m < cap)%nat) then (0, <[k := v]> m) else (-1, m).
Definition put_entry `{Countable K} {V} (cap : nat) (k : K) (f : option V -> V) (m : gmap K V) : gmap K V :=
  if decide (m !! k = None /\ (cap <= size m)%nat) then m else <[k := f (m !! k)]> m.

Section promises.
Context `{Slot A K V} `{Countable K}.
Context (free : A -> bool) (Hfree : forall x, free x = negb (used x)).

Lemma scan_cases l hit k fr :
  slots_ok l -> hits hit k -> scan hit free 0 l None = fr ->
  match fr with
  | (Some i, _) => exists x, l !! i = Some x /\ used x = true /\ key x = k /\ rep l !! k = Some (val x)
  | (None, Some f) => (exists x, l !! f = Some x /\ used x = false) /\ rep l !! k = None /\
                      (size (rep l) < length l)%nat
  | (None, None) => rep l !! k = None /\ (length l <= size (rep l))%nat
  end.
Proof.
  intros Hok Hh <-. pose proof (scan_first hit free 0 l None) as H1.
  pose proof (scan_free hit free 0 l None) as H2. pose proof (first_hit_spec hit 0 l) as Hs.
  destruct (scan hit free 0 l None) as [fo fr]. cbn in *. subst fo.
  destruct (first_hit hit 0 l) as [j|].
  - destruct Hs as (i & x & -> & Hi & Hx & _). apply Hh in Hx as [Hu <-].
    exists x. split_and!; [done..|]. by eapply rep_used.
  - rewrite H2 by done. pose proof (first_hit_spec free 0 l) as Hf.
    assert (rep l !! k = None) by by eapply rep_no_hit.
    destruct (first_hit free 0 l) as [j|].
    + destruct Hf as (i & x & -> & Hi & Hx & _). rewrite Hfree in Hx. apply negb_true_iff in Hx.
      split_and!; [by exists x | done |]. apply room; [done|]. by exists i, x.
    + split; [done|]. apply Nat.nlt_ge. intros (i & x & Hi & Hx)%room; [|done].
      apply list_elem_of_lookup_2 in Hi. apply Hf in Hi. rewrite Hfree, Hx in Hi. done.
Qed.

Lemma insert_slot_refines l hit x :
  slots_ok l -> hits hit (key x) -> used x = true ->
  let '(r, l') := insert_slot hit free 0 x l in
  slots_ok l' /\ (r, rep l') = add_entry (length l) (key x) (val x) (rep l).
Proof.
  intros Hok Hh Hu. unfold insert_slot, add_entry. rewrite drop_0.
  destruct (scan hit free 0 l None) as [[i|] [f|]] eqn:E; apply (scan_cases _ _ _ _ Hok Hh) in E.
  - destruct E as (y & _ & _ & _ & E). split; [done|]. rewrite decide_False by (rewrite E; naive_solver). done.
  - destruct E as (y & _ & _ & _ & E). split; [done|]. rewrite decide_False by (rewrite E; naive_solver). done.
  - destruct E as ((y & Hf & Hy) & Hn & Hroom). rewrite decide_True by done.
    destruct (rep_fill l f y x) as [? ->]; [done..|]. done.
  - destruct E as (Hn & Hfull). split; [done|]. rewrite decide_False by lia. done.
Qed.

Lemma put_slot_refines l hit over x f :
  slots_ok l -> hits hit (key x) -> used x = true -> val x = f None ->
  (forall y, used y = true -> key y = key x ->
     used (over y) = true /\ key (over y) = key x /\ val (over y) = f (Some (val y))) ->
  slots_ok (put_slot hit free over x l) /\
  rep (put_slot hit free over x l) = put_entry (length l) (key x) f (rep l).
Proof.
  intros Hok Hh Hu Hv Ho. unfold put_slot, put_entry.
  destruct (scan hit free 0 l None) as [[i|] fr] eqn:E; [|destruct fr as [g|]];
    apply (scan_cases _ _ _ _ Hok Hh) in E.
  - destruct E as (y & Hi & Hy & Hk & E). destruct (Ho y Hy Hk) as (Ho1 & Ho2 & Ho3).
    rewrite decide_False by (rewrite E; naive_solver).
    rewrite (alter_slot _ _ _ _ Hi).
    destruct (rep_over l i y (over y)) as [? ->]; [done..|congruence|]. by rewrite Ho3, Hk, E.
  - destruct E as ((y & Hf & Hy) & Hn & Hroom). rewrite decide_False by lia.
    destruct (rep_fill l g y x) as [? ->]; [done..|]. by rewrite Hv, Hn.
  - destruct E as (Hn & Hfull). by rewrite decide_True.
Qed.
End promises.

Section clearing.
Context `{Slot A K V} `{Countable K}.

(** A search that is not by key clears one of the entries it fits. *)
Lemma clear_slot_one l hit z :
  slots_ok l -> (forall x, used x = true -> used (z x) = false) ->
  (forall x, used x = false -> hit x = true -> z x = x) ->
  slots_ok (clear_slot hit z 0 l) /\
  ((exists x, x ∈ l /\ used x = true /\ hit x = true /\ rep (clear_slot hit z 0 l) = delete (key x) (rep l)) \/
   (rep (clear_slot hit z 0 l) = rep l /\
    ((exists x, x ∈ l /\ used x = false /\ hit x = true) \/ forall x, x ∈ l -> hit x = false))).
Proof.
  intros Hok Hz Hs. unfold clear_slot. rewrite drop_0. pose proof (first_hit_spec hit 0 l) as Hf.
  destruct (first_hit hit 0 l) as [j|]; [|by split; [|right; split; [|right]]].
  destruct Hf as (i & x & -> & Hi & Hx & _). cbn. rewrite (alter_slot _ _ _ _ Hi).
  pose proof (list_elem_of_lookup_2 _ _ _ Hi). destruct (used x) eqn:Hu.
  - destruct (rep_free l i x (z x)) as [? ->]; auto. split; [done|]. left. by exists x.
  - rewrite Hs, list_insert_id by done. split; [done|]. right. split; [done|]. left. by exists x.
Qed.

Lemma clear_slot_refines l hit k z :
  slots_ok l -> hits hit k -> (forall x, used x = true -> key x = k -> used (z x) = false) ->
  slots_ok (clear_slot hit z 0 l) /\ rep (clear_slot hit z 0 l) = delete k (rep l).
Proof.
  intros Hok Hh Hz. unfold clear_slot. rewrite drop_0. pose proof (first_hit_spec hit 0 l) as Hs.
  destruct (first_hit hit 0 l) as [j|].
  - destruct Hs as (i & x & -> & Hi & Hx & _). apply Hh in Hx as [Hu <-]. cbn.
    rewrite (alter_slot _ _ _ _ Hi). by apply rep_free; auto.
  - split; [done|]. rewrite delete_id; [done|]. by eapply rep_no_hit.
Qed.
End clearing.
