(* ===== verification/GwSvc.v ===== *)
(** * The service table of the gateway: its data and its lock

    [GLB_SVC_TABLE] of [odgw/dgadmin/dgadmutil.c] keeps what the gateway has
    been configured with.  Every thread of the gateway that works on it looks
    the service up and takes its lock without waiting, trying again up to 256
    times; what the other threads do to the table between two looks is an
    argument of the model. *)
From S2P Require Export DpsTypes GwSlots.
From stdpp Require Import strings.
#[local] Open Scope Z_scope.

(** ** Sizes and codes *)
Definition SVC_NAME : nat := 128%nat.
Definition INVALID_DOMAIN_ID : Z := 33554431.
Definition MAX_DOMIANS : nat := Z.to_nat 1024.
Definition MAX_IF_MACS : nat := 8%nat.
Definition MAX_VLANS : nat := 16%nat.
Definition MAX_IFIPV4_ADDRESS : nat := Z.to_nat 1024.
Definition MAX_EXTIPV4_ADDRESS : nat := Z.to_nat 1024.
Definition MAX_INTIPV4_ADDRESS : nat := Z.to_nat 1024.
Definition MAX_FWDRULE : nat := Z.to_nat 1024.
Definition MAX_DVMAP : nat := MAX_DOMIANS.
Definition MAX_VNID_SUBNETS : nat := 32%nat.
Definition MAX_EXT_VNIDS : nat := Z.to_nat 1024.
Definition SVC_INDX_START : nat := 1%nat.
Definition MAX_SERVICE_TABLES : nat := 2%nat.
Definition DGWY_TYPE_NONE : Z := 0.
Definition DGWY_TYPE_EXTERNAL : Z := 1.
Definition DGWY_TYPE_VLAN : Z := 2.
Definition DGWY_TYPE_EXT_VLAN : Z := 3.
Definition CMD_ADD_SVC : Z := 0.
Definition CMD_SET_SVC : Z := 1.
Definition CMD_DEL_SVC : Z := 2.
Definition CMD_ADD_IFMAC : Z := 7.
Definition CMD_DEL_IFMAC : Z := 8.
Definition CMD_ADD_IPV4 : Z := 9.
Definition CMD_DEL_EXTVIP : Z := 12.
Definition CMD_ADD_FWD_RULE : Z := 13.
Definition CMD_START : Z := 21.
Definition CMD_STOP : Z := 22.
Definition CMD_SET_DOMAIN_VLAN : Z := 23.
Definition CMD_DEL_DOMAIN_VLAN : Z := 24.
Definition CMD_DOVNET_IPV4 : Z := 28.
Definition CMD_VNID_INFO : Z := 30.
Definition CMD_ADD_EXT_SHARED : Z := 37.
Definition CMD_DEL_EXT_SHARED : Z := 38.
Definition CMD_EXTIF_IPV4 : Z := 40.
Definition DOVE_VLAN_GATEWAY_AGENT_ID : Z := 3.
Definition DOVE_EXTERNAL_GATEWAY_AGENT_ID : Z := 4.
Definition VNID_INFO_STATE_DEDICATED : Z := 0.
Definition VNID_INFO_STATE_EXTMCAST_SLAVE : Z := 2.
Definition VNID_INFO_STATE_NONE : Z := 4.
Definition DPS_MCAST_RECV_JOIN : Z := 7.
Definition DPS_MCAST_RECV_LEAVE : Z := 8.

(** ** Entries *)
Record ifmac_t := mk_ifmac { im_mac : list Z; im_vlan : Z }.
Record ifipv4_t := mk_ifipv4 { ii_ipv4 : Z; ii_mask : Z; ii_nexthop : Z; ii_vlan_id : Z }.
Record extipv4_t := mk_extipv4 {
  ex_port_start : Z; ex_port_end : Z; ex_ipv4 : Z; ex_domain : Z; ex_tenant_id : Z;
  ex_extmcastvnid : Z }.
Record intipv4_t := mk_intipv4 { in_port_start : Z; in_port_end : Z; in_ipv4 : Z }.
Record fwd_rule_t := mk_fwd_rule {
  fw_ipv4 : Z; fw_proto : Z; fw_port : Z; fw_realipv4 : Z; fw_realport : Z; fw_domain : Z;
  fw_pip_min : Z; fw_pip_max : Z }.
Record domain_vlan_map_t := mk_dv { dv_domain : Z; dv_vlans : list Z }.
Record vnid_subnet_t := mk_subnet {
  vs_vnid : Z; vs_IPv4 : Z; vs_IPv4_mask : Z; vs_subnet_mode : Z; vs_IPv4_nexthop : Z }.
Record ext_mcast_vnid_t := mk_mcast { em_ipv4 : Z; em_vnid : Z; em_master : Z }.
Record extshared_vnids_t := mk_shared { es_vnid : Z; es_tenant_id : Z; es_extmcastvnid : Z }.

#[export] Instance ifmac_eq_dec : EqDecision ifmac_t.
Proof. solve_decision. Defined.
#[export] Instance extipv4_eq_dec : EqDecision extipv4_t.
Proof. solve_decision. Defined.
#[export] Instance intipv4_eq_dec : EqDecision intipv4_t.
Proof. solve_decision. Defined.
#[export] Instance fwd_rule_eq_dec : EqDecision fwd_rule_t.
Proof. solve_decision. Defined.

(** What [memset(...,0,...)] leaves. *)
Definition no_ifmac : ifmac_t := mk_ifmac (replicate 6 0) 0.
Definition no_ifipv4 : ifipv4_t := mk_ifipv4 0 0 0 0.
Definition no_extipv4 : extipv4_t := mk_extipv4 0 0 0 0 0 0.
Definition no_intipv4 : intipv4_t := mk_intipv4 0 0 0.
Definition no_fwd_rule : fwd_rule_t := mk_fwd_rule 0 0 0 0 0 0 0 0.
Definition no_dv : domain_vlan_map_t := mk_dv 0 (replicate MAX_VLANS 0).
Definition no_subnet : vnid_subnet_t := mk_subnet 0 0 0 0 0.
Definition no_mcast : ext_mcast_vnid_t := mk_mcast 0 0 0.
Definition no_shared : extshared_vnids_t := mk_shared 0 0 0.

(** ** A service

    [sv_lock] is the state of the mutex; [sv_name] and the tables are arrays
    of the size given above. *)
Record dgwy_service_list_t := mk_svc {
  sv_index : Z;
  sv_name : list Z;
  sv_caller_name : string;
  sv_lock : bool;
  sv_state : Z;
  sv_type : Z;
  sv_mtu : Z;
  sv_dovenet_ipv4 : Z;
  sv_mgmt_ipv4 : Z;
  sv_dmc_ipv4 : Z;
  sv_dmc_port : Z;
  domainList : list Z;
  ifmacList : list ifmac_t;
  ifipv4List : list ifipv4_t;
  extipv4List : list extipv4_t;
  intipv4List : list intipv4_t;
  fwdruleList : list fwd_rule_t;
  dvList : list domain_vlan_map_t;
  vnid_subnet : list vnid_subnet_t;
  ext_mcast_vnids : list ext_mcast_vnid_t;
  extsharedVnidList : list extshared_vnids_t }.
Definition with_caller (c : string) (l : bool) (e : dgwy_service_list_t) : dgwy_service_list_t :=
    mk_svc (sv_index e) (sv_name e) c l (sv_state e) (sv_type e) (sv_mtu e)
    (sv_dovenet_ipv4 e) (sv_mgmt_ipv4 e) (sv_dmc_ipv4 e) (sv_dmc_port e) (domainList e)
    (ifmacList e) (ifipv4List e) (extipv4List e) (intipv4List e) (fwdruleList e) (dvList
    e) (vnid_subnet e) (ext_mcast_vnids e) (extsharedVnidList e).
Definition with_lock (l : bool) (e : dgwy_service_list_t) : dgwy_service_list_t :=
    mk_svc (sv_index e) (sv_name e) (sv_caller_name e) l (sv_state e) (sv_type e)
    (sv_mtu e) (sv_dovenet_ipv4 e) (sv_mgmt_ipv4 e) (sv_dmc_ipv4 e) (sv_dmc_port e)
    (domainList e) (ifmacList e) (ifipv4List e) (extipv4List e) (intipv4List e)
    (fwdruleList e) (dvList e) (vnid_subnet e) (ext_mcast_vnids e) (extsharedVnidList e).
Definition with_entry (i : Z) (n : list Z) (t : Z) (e : dgwy_service_list_t) : dgwy_service_list_t :=
    mk_svc i n (sv_caller_name e) false 1 t (sv_mtu e) (sv_dovenet_ipv4 e) (sv_mgmt_ipv4
    e) (sv_dmc_ipv4 e) (sv_dmc_port e) (domainList e) (ifmacList e) (ifipv4List e)
    (extipv4List e) (intipv4List e) (fwdruleList e) (dvList e) (vnid_subnet e)
    (ext_mcast_vnids e) (extsharedVnidList e).
Definition with_type (t : Z) (e : dgwy_service_list_t) : dgwy_service_list_t :=
    mk_svc (sv_index e) (sv_name e) (sv_caller_name e) (sv_lock e) (sv_state e) t
    (sv_mtu e) (sv_dovenet_ipv4 e) (sv_mgmt_ipv4 e) (sv_dmc_ipv4 e) (sv_dmc_port e)
    (domainList e) (ifmacList e) (ifipv4List e) (extipv4List e) (intipv4List e)
    (fwdruleList e) (dvList e) (vnid_subnet e) (ext_mcast_vnids e) (extsharedVnidList e).
Definition with_mtu (t : Z) (e : dgwy_service_list_t) : dgwy_service_list_t :=
    mk_svc (sv_index e) (sv_name e) (sv_caller_name e) (sv_lock e) (sv_state e) (sv_type
    e) t (sv_dovenet_ipv4 e) (sv_mgmt_ipv4 e) (sv_dmc_ipv4 e) (sv_dmc_port e)
    (domainList e) (ifmacList e) (ifipv4List e) (extipv4List e) (intipv4List e)
    (fwdruleList e) (dvList e) (vnid_subnet e) (ext_mcast_vnids e) (extsharedVnidList e).
Definition with_dovenet (t : Z) (e : dgwy_service_list_t) : dgwy_service_list_t :=
    mk_svc (sv_index e) (sv_name e) (sv_caller_name e) (sv_lock e) (sv_state e) (sv_type
    e) (sv_mtu e) t (sv_mgmt_ipv4 e) (sv_dmc_ipv4 e) (sv_dmc_port e) (domainList e)
    (ifmacList e) (ifipv4List e) (extipv4List e) (intipv4List e) (fwdruleList e) (dvList
    e) (vnid_subnet e) (ext_mcast_vnids e) (extsharedVnidList e).
Definition with_mgmt (t : Z) (e : dgwy_service_list_t) : dgwy_service_list_t :=
    mk_svc (sv_index e) (sv_name e) (sv_caller_name e) (sv_lock e) (sv_state e) (sv_type
    e) (sv_mtu e) (sv_dovenet_ipv4 e) t (sv_dmc_ipv4 e) (sv_dmc_port e) (domainList e)
    (ifmacList e) (ifipv4List e) (extipv4List e) (intipv4List e) (fwdruleList e) (dvList
    e) (vnid_subnet e) (ext_mcast_vnids e) (extsharedVnidList e).
Definition with_dmc (t p : Z) (e : dgwy_service_list_t) : dgwy_service_list_t :=
    mk_svc (sv_index e) (sv_name e) (sv_caller_name e) (sv_lock e) (sv_state e) (sv_type
    e) (sv_mtu e) (sv_dovenet_ipv4 e) (sv_mgmt_ipv4 e) t p (domainList e) (ifmacList e)
    (ifipv4List e) (extipv4List e) (intipv4List e) (fwdruleList e) (dvList e)
    (vnid_subnet e) (ext_mcast_vnids e) (extsharedVnidList e).
Definition with_domains (l : list Z) (e : dgwy_service_list_t) : dgwy_service_list_t :=
    mk_svc (sv_index e) (sv_name e) (sv_caller_name e) (sv_lock e) (sv_state e) (sv_type
    e) (sv_mtu e) (sv_dovenet_ipv4 e) (sv_mgmt_ipv4 e) (sv_dmc_ipv4 e) (sv_dmc_port e) l
    (ifmacList e) (ifipv4List e) (extipv4List e) (intipv4List e) (fwdruleList e) (dvList
    e) (vnid_subnet e) (ext_mcast_vnids e) (extsharedVnidList e).
Definition with_macs (l : list ifmac_t) (e : dgwy_service_list_t) : dgwy_service_list_t :=
    mk_svc (sv_index e) (sv_name e) (sv_caller_name e) (sv_lock e) (sv_state e) (sv_type
    e) (sv_mtu e) (sv_dovenet_ipv4 e) (sv_mgmt_ipv4 e) (sv_dmc_ipv4 e) (sv_dmc_port e)
    (domainList e) l (ifipv4List e) (extipv4List e) (intipv4List e) (fwdruleList e)
    (dvList e) (vnid_subnet e) (ext_mcast_vnids e) (extsharedVnidList e).
Definition with_ifips (l : list ifipv4_t) (e : dgwy_service_list_t) : dgwy_service_list_t :=
    mk_svc (sv_index e) (sv_name e) (sv_caller_name e) (sv_lock e) (sv_state e) (sv_type
    e) (sv_mtu e) (sv_dovenet_ipv4 e) (sv_mgmt_ipv4 e) (sv_dmc_ipv4 e) (sv_dmc_port e)
    (domainList e) (ifmacList e) l (extipv4List e) (intipv4List e) (fwdruleList e)
    (dvList e) (vnid_subnet e) (ext_mcast_vnids e) (extsharedVnidList e).
Definition with_extips (l : list extipv4_t) (e : dgwy_service_list_t) : dgwy_service_list_t :=
    mk_svc (sv_index e) (sv_name e) (sv_caller_name e) (sv_lock e) (sv_state e) (sv_type
    e) (sv_mtu e) (sv_dovenet_ipv4 e) (sv_mgmt_ipv4 e) (sv_dmc_ipv4 e) (sv_dmc_port e)
    (domainList e) (ifmacList e) (ifipv4List e) l (intipv4List e) (fwdruleList e)
    (dvList e) (vnid_subnet e) (ext_mcast_vnids e) (extsharedVnidList e).
Definition with_intips (l : list intipv4_t) (e : dgwy_service_list_t) : dgwy_service_list_t :=
    mk_svc (sv_index e) (sv_name e) (sv_caller_name e) (sv_lock e) (sv_state e) (sv_type
    e) (sv_mtu e) (sv_dovenet_ipv4 e) (sv_mgmt_ipv4 e) (sv_dmc_ipv4 e) (sv_dmc_port e)
    (domainList e) (ifmacList e) (ifipv4List e) (extipv4List e) l (fwdruleList e)
    (dvList e) (vnid_subnet e) (ext_mcast_vnids e) (extsharedVnidList e).
Definition with_rules (l : list fwd_rule_t) (e : dgwy_service_list_t) : dgwy_service_list_t :=
    mk_svc (sv_index e) (sv_name e) (sv_caller_name e) (sv_lock e) (sv_state e) (sv_type
    e) (sv_mtu e) (sv_dovenet_ipv4 e) (sv_mgmt_ipv4 e) (sv_dmc_ipv4 e) (sv_dmc_port e)
    (domainList e) (ifmacList e) (ifipv4List e) (extipv4List e) (intipv4List e) l
    (dvList e) (vnid_subnet e) (ext_mcast_vnids e) (extsharedVnidList e).
Definition with_dvs (l : list domain_vlan_map_t) (e : dgwy_service_list_t) : dgwy_service_list_t :=
    mk_svc (sv_index e) (sv_name e) (sv_caller_name e) (sv_lock e) (sv_state e) (sv_type
    e) (sv_mtu e) (sv_dovenet_ipv4 e) (sv_mgmt_ipv4 e) (sv_dmc_ipv4 e) (sv_dmc_port e)
    (domainList e) (ifmacList e) (ifipv4List e) (extipv4List e) (intipv4List e)
    (fwdruleList e) l (vnid_subnet e) (ext_mcast_vnids e) (extsharedVnidList e).
Definition with_subnets (l : list vnid_subnet_t) (e : dgwy_service_list_t) : dgwy_service_list_t :=
    mk_svc (sv_index e) (sv_name e) (sv_caller_name e) (sv_lock e) (sv_state e) (sv_type
    e) (sv_mtu e) (sv_dovenet_ipv4 e) (sv_mgmt_ipv4 e) (sv_dmc_ipv4 e) (sv_dmc_port e)
    (domainList e) (ifmacList e) (ifipv4List e) (extipv4List e) (intipv4List e)
    (fwdruleList e) (dvList e) l (ext_mcast_vnids e) (extsharedVnidList e).
Definition with_mcasts (l : list ext_mcast_vnid_t) (e : dgwy_service_list_t) : dgwy_service_list_t :=
    mk_svc (sv_index e) (sv_name e) (sv_caller_name e) (sv_lock e) (sv_state e) (sv_type
    e) (sv_mtu e) (sv_dovenet_ipv4 e) (sv_mgmt_ipv4 e) (sv_dmc_ipv4 e) (sv_dmc_port e)
    (domainList e) (ifmacList e) (ifipv4List e) (extipv4List e) (intipv4List e)
    (fwdruleList e) (dvList e) (vnid_subnet e) l (extsharedVnidList e).
Definition with_shared (l : list extshared_vnids_t) (e : dgwy_service_list_t) : dgwy_service_list_t :=
    mk_svc (sv_index e) (sv_name e) (sv_caller_name e) (sv_lock e) (sv_state e) (sv_type
    e) (sv_mtu e) (sv_dovenet_ipv4 e) (sv_mgmt_ipv4 e) (sv_dmc_ipv4 e) (sv_dmc_port e)
    (domainList e) (ifmacList e) (ifipv4List e) (extipv4List e) (intipv4List e)
    (fwdruleList e) (dvList e) (vnid_subnet e) (ext_mcast_vnids e) l.

(** [memset(GLB_SVC_TABLE,0,...)] *)
Definition zero_svc : dgwy_service_list_t :=
  mk_svc 0 (replicate SVC_NAME 0) "" false 0 DGWY_TYPE_NONE 0 0 0 0 0
    (replicate MAX_DOMIANS 0) (replicate MAX_IF_MACS no_ifmac)
    (replicate MAX_IFIPV4_ADDRESS no_ifipv4) (replicate MAX_EXTIPV4_ADDRESS no_extipv4)
    (replicate MAX_EXTIPV4_ADDRESS no_intipv4) (replicate MAX_FWDRULE no_fwd_rule)
    (replicate MAX_DVMAP no_dv) (replicate MAX_VNID_SUBNETS no_subnet)
    (replicate MAX_EXT_VNIDS no_mcast) (replicate MAX_DOMIANS no_shared).

(** [dvList[j].domain = d] *)
Definition with_dv_domain (d : Z) (m : domain_vlan_map_t) : domain_vlan_map_t :=
  mk_dv d (dv_vlans m).
Definition reset_lists (e : dgwy_service_list_t) : dgwy_service_list_t :=
  with_dvs (with_dv_domain INVALID_DOMAIN_ID <$> dvList e)
    (with_domains (replicate MAX_DOMIANS INVALID_DOMAIN_ID) e).

(** The table as [reset_global_svctable] leaves it.  Its first entry is never
    used, and the mark [reset_global_svctable] puts on it is wiped out by the
    [memset] that follows. *)
Definition reset_global_svctable : list dgwy_service_list_t :=
  [zero_svc; reset_lists zero_svc].

(** ** The gateway: what it keeps, and what it sends *)

(** Where a machine is, for the kernel module; ports and addresses are in
    network byte order. *)
Record dgwy_ctrl_ovl_location_t := mk_location {
  lo_cmd : Z; lo_index : Z; lo_is_self : Z; lo_domain : Z; lo_dst_domain : Z;
  lo_endpoint_ip : Z; lo_endpoint_location : Z; lo_ovl_src_location : Z;
  lo_ovl_header_proto : Z; lo_ovl_src_port : Z; lo_ovl_dst_port : Z; lo_ovl_dst_mac : list Z }.

(** Messages to the kernel module; the name of the service, always
    ["APBR"] where it is filled in, is left out.  The arrays of the lists of
    switches and receivers are the entries written; the rest is zero. *)
Inductive nl_msg :=
| Nl_svc_type (cmd ty : Z)
| Nl_svc_ipv4 (cmd ipv4 : Z)
| Nl_svc_extvip (cmd : Z) (extip : extipv4_t)
| Nl_svc_intvip (cmd : Z) (intip : intipv4_t)
| Nl_svc_macs (cmd : Z) (m : ifmac_t)
| Nl_svc_domain (cmd domain : Z)
| Nl_svc_domain_vlans (cmd domain : Z) (vlans : list Z)
| Nl_svc_mtu (cmd mtu : Z)
| Nl_fwdtbl (cmd : Z) (r : fwd_rule_t)
| Nl_global (cmd : Z)
| Nl_dovenet (cmd ipv4 nexthop : Z)
| Nl_vnid_info (vnid state ipv4 : Z)
| Nl_location (l : dgwy_ctrl_ovl_location_t)
| Nl_bcast_lst (cmd domain_id num_v4_switch num_v6_switch sport dport : Z)
    (switch_list source_ip_list : list Z)
| Nl_mcast_lst (cmd vnid mcast_ip : Z) (mcast_mac : list Z) (num_v4_switch sport dport : Z)
    (recv_list : list (Z * Z))
| Nl_ovl_port (cmd port : Z)
| Nl_legacy_nexthop (cmd vnid legacy_ip4 legacy_nexthop : Z).

(** [dgadm_dps_context_t]: what the gateway keeps of a request for the answer. *)
Record dgadm_dps_context_t := mk_ctx { dc_svnid : Z; dc_quid : Z; dc_shared_lookup : Z }.

(** A message for the protocol carries the memory [malloc] gave for its context;
    [Ctx_freed p] is [free(p)] of such memory, [To_ha_task] a message on the
    queue of the high availability task. *)
Inductive gw_event :=
| To_kernel (m : nl_msg)
| To_dps (ctx : option dgadm_dps_context_t) (m : dps_client_data_t)
| Ctx_freed (p : Z)
| To_ha_task (peer_ipv4 local_ipv4 : Z)
| Vlan_up (vlan : Z)
| Vlan_down (vlan : Z).

(** The answers of the system, by the number of questions asked so far:
    [others] is what the other threads make of the table, [nl] what the netlink
    library makes of a message, [heap] the address [malloc] returns, [0] for
    [NULL], and [dps] whether [dps_protocol_client_send] succeeds. *)
Inductive nl_answer := Nl_no_memory | Nl_not_sent | Nl_refused | Nl_done.
Record gw_env := mk_env {
  others : nat -> list dgwy_service_list_t -> list dgwy_service_list_t;
  nl : nat -> nl_answer;
  heap : nat -> Z;
  dps : nat -> bool }.

(** [now] counts the questions, [gw_out] is what was sent, the latest first.  [OVL_PROTO_DST_PORT] and the names in lower case are
    variables of [dgadmutil.c]. *)
Record gwy := mk_gwy {
  svc_table : list dgwy_service_list_t;
  now : nat;
  g_dovenet_ipv4 : Z;
  g_APPBRIDGE_type : Z;
  gMAC : list Z;
  OVL_PROTO_DST_PORT : Z;
  dps_known : bool;
  dps_ctx_quid : Z;
  g_got_dcs_info : Z;
  GLB_STATE : Z;
  gw_out : list gw_event }.

Definition set_table (n : nat) (t : list dgwy_service_list_t) (s : gwy) : gwy :=
  mk_gwy t n (g_dovenet_ipv4 s) (g_APPBRIDGE_type s) (gMAC s) (OVL_PROTO_DST_PORT s)
    (dps_known s) (dps_ctx_quid s) (g_got_dcs_info s) (GLB_STATE s) (gw_out s).
Definition set_dovenet (ip : Z) (s : gwy) : gwy :=
  mk_gwy (svc_table s) (now s) ip (g_APPBRIDGE_type s) (gMAC s) (OVL_PROTO_DST_PORT s)
    (dps_known s) (dps_ctx_quid s) (g_got_dcs_info s) (GLB_STATE s) (gw_out s).
Definition set_bridge_type (t : Z) (s : gwy) : gwy :=
  mk_gwy (svc_table s) (now s) (g_dovenet_ipv4 s) t (gMAC s) (OVL_PROTO_DST_PORT s)
    (dps_known s) (dps_ctx_quid s) (g_got_dcs_info s) (GLB_STATE s) (gw_out s).
Definition set_gMAC (m : list Z) (s : gwy) : gwy :=
  mk_gwy (svc_table s) (now s) (g_dovenet_ipv4 s) (g_APPBRIDGE_type s) m
    (OVL_PROTO_DST_PORT s) (dps_known s) (dps_ctx_quid s) (g_got_dcs_info s) (GLB_STATE s)
    (gw_out s).
Definition set_glb_state (x : Z) (s : gwy) : gwy :=
  mk_gwy (svc_table s) (now s) (g_dovenet_ipv4 s) (g_APPBRIDGE_type s) (gMAC s)
    (OVL_PROTO_DST_PORT s) (dps_known s) (dps_ctx_quid s) (g_got_dcs_info s) x (gw_out s).
Definition set_dcs (x : Z) (s : gwy) : gwy :=
  mk_gwy (svc_table s) (now s) (g_dovenet_ipv4 s) (g_APPBRIDGE_type s) (gMAC s)
    (OVL_PROTO_DST_PORT s) (dps_known s) (dps_ctx_quid s) x (GLB_STATE s) (gw_out s).
Definition set_ovl_port (port : Z) (s : gwy) : gwy :=
  mk_gwy (svc_table s) (now s) (g_dovenet_ipv4 s) (g_APPBRIDGE_type s) (gMAC s) port
    (dps_known s) (dps_ctx_quid s) (g_got_dcs_info s) (GLB_STATE s) (gw_out s).
Definition sent (quid dcs : Z) (ev : gw_event) (s : gwy) : gwy :=
  mk_gwy (svc_table s) (now s) (g_dovenet_ipv4 s) (g_APPBRIDGE_type s) (gMAC s)
    (OVL_PROTO_DST_PORT s) (dps_known s) quid dcs (GLB_STATE s) (ev :: gw_out s).
Definition tick (s : gwy) : gwy := set_table (S (now s)) (svc_table s) s.
Definition emit (ev : gw_event) (s : gwy) : gwy := sent (dps_ctx_quid s) (g_got_dcs_info s) ev s.

(** ** Looking a service up *)

(** [strlen] and [memcmp] of a name of the table with the name asked for;
    [SEPRATE_SVC_MODE] is not defined, so that is ["APBR"] whatever the caller
    passed. *)
Definition APBR : list Z := [65; 80; 66; 82].
Fixpoint strlen (l : list Z) : nat :=
  match l with [] => 0%nat | b :: l => if b =? 0 then 0%nat else S (strlen l) end.
Definition is_named (e : dgwy_service_list_t) : bool :=
  bool_decide (strlen (sv_name e) <> 0%nat /\ strlen (sv_name e) = length APBR
               /\ take (length APBR) (sv_name e) = APBR).

(** The result of a look: not found (0), busy (1), found and locked (2). *)
Inductive look := Absent | Busy | Got (i : nat).

Section gateway.
Context (E : gw_env).

(** The other threads have had their turn; [GLB_SVC_TABLE_LOCK] is taken. *)
Definition look_again (s : gwy) : gwy :=
  set_table (S (now s)) (others E (now s) (svc_table s)) s.
Definition set_entry (i : nat) (e : dgwy_service_list_t) (s : gwy) : gwy :=
  set_table (now s) (<[i := e]> (svc_table s)) s.

Definition dgwy_svc_table_get (caller : string) (s : gwy) : look * gwy :=
  let s := look_again s in
  match first_hit is_named SVC_INDX_START (drop SVC_INDX_START (svc_table s)) with
  | None => (Absent, s)
  | Some i =>
      match svc_table s !! i with
      | Some e =>
          if sv_lock e then (Busy, s)
          else (Got i, set_entry i (with_caller caller true e) s)
      | None => (Absent, s)
      end
  end.

(** [while(1) {... if(retry < 256) {retry++; continue;} return -1; ...}]: the
    loop every function below begins with. *)
Fixpoint svc_lock (retry : nat) (caller : string) (s : gwy) : look * gwy :=
  let '(r, s) := dgwy_svc_table_get caller s in
  match r, retry with
  | Busy, S retry => svc_lock retry caller s
  | _, _ => (r, s)
  end.
Definition RETRIES : nat := Z.to_nat 256.

(** A function that works on the locked service [e] and unlocks it. *)
Definition with_svc {R} (caller : string) (busy absent : R)
    (body : dgwy_service_list_t -> gwy -> R * dgwy_service_list_t * gwy) (s : gwy) : R * gwy :=
  let '(r, s) := svc_lock RETRIES caller s in
  match r with
  | Busy => (busy, s)
  | Absent => (absent, s)
  | Got i =>
      match svc_table s !! i with
      | Some e => let '(r, e, s) := body e s in (r, set_entry i (with_lock false e) s)
      | None => (absent, s)
      end
  end.
(** The work on the service that touches nothing else. *)
Definition pure_body {R} (f : dgwy_service_list_t -> R * dgwy_service_list_t)
    (e : dgwy_service_list_t) (s : gwy) : R * dgwy_service_list_t * gwy :=
  let '(r, e) := f e in (r, e, s).
Definition read_body {R} (f : dgwy_service_list_t -> R) (e : dgwy_service_list_t) (s : gwy)
    : R * dgwy_service_list_t * gwy := (f e, e, s).

(** [svcp->type] once the lock has been given back: the other threads may have
    come in between.  [svcp] points to the only entry there is. *)
Definition type_now (s : gwy) : Z * gwy :=
  let s := look_again s in
  (match svc_table s !! SVC_INDX_START with Some e => sv_type e | None => DGWY_TYPE_NONE end, s).

(** ** Messages to the kernel module: [dgwy_nl_message], [NLA_PUT] and
    [dgwy_nl_send_message]; [-1] when there is no message to send, when it is
    not sent and when it is refused. *)
Definition nl_send (m : nl_msg) (s : gwy) : Z * gwy :=
  match nl E (now s) with
  | Nl_no_memory | Nl_not_sent => (-1, tick s)
  | Nl_refused => (-1, emit (To_kernel m) (tick s))
  | Nl_done => (0, emit (To_kernel m) (tick s))
  end.

(** ** The type of the service *)

(** [memcpy(name, chk_name, inlen)] *)
Definition set_name (e : dgwy_service_list_t) : list Z := APBR ++ drop (length APBR) (sv_name e).
Definition is_free (e : dgwy_service_list_t) : bool := sv_state e =? 0.
Definition create_new_svc_entry (svc_type : Z) (s : gwy) : Z * gwy :=
  let s := look_again s in
  match scan is_named is_free SVC_INDX_START (drop SVC_INDX_START (svc_table s)) None with
  | (None, Some f) =>
      match svc_table s !! f with
      | Some e => (0, set_entry f (with_entry (Z.of_nat f) (set_name e) svc_type e) s)
      | None => (-1, s)
      end
  | _ => (-1, s)
  end.

Definition update_svc_table_type (svc_type : Z) (s : gwy) : Z * gwy :=
  let '(r, s) := svc_lock RETRIES "update_svc_table_type" s in
  match r with
  | Busy => (-1, s)
  | Absent => create_new_svc_entry svc_type s
  | Got i =>
      match svc_table s !! i with
      | Some e => (0, set_entry i (with_lock false (with_type svc_type e)) s)
      | None => (-1, s)
      end
  end.

Definition dgwy_ctrl_set_svc_type (cmd svc_type : Z) (s : gwy) : Z * gwy :=
  let '(r, s) :=
    if (cmd =? CMD_SET_SVC) || (cmd =? CMD_ADD_SVC) then update_svc_table_type svc_type s
    else (0, s) in
  if r =? -1 then (-1, s)
  else nl_send (Nl_svc_type cmd svc_type) (set_bridge_type svc_type s).
End gateway.
