(* ===== verification/GwMsg.v ===== *)
(** * What the gateway asks the DOVE connectivity server

    The functions of [odgw/dgadmin/dgadmutil.c] that fill a
    [dps_client_data_t] and hand it to [dps_protocol_client_send].  All but the
    registration of tunnels work on a structure of the stack that was wiped
    out first. *)
From S2P Require Export GwSvc.
From stdpp Require Import gmap.
#[local] Open Scope Z_scope.

Definition DPS_ENDPOINT_UPDATE_ADD : Z := 1.
Definition DPS_ENDPOINT_UPDATE_DELETE : Z := 2.
Definition DPS_ENDPOINT_UPDATE_VIP_ADD : Z := 3.
Definition DPS_ENDPOINT_UPDATE_VIP_DEL : Z := 4.
Definition DPS_MCAST_SENDER_REGISTER : Z := 9.
Definition DPS_MCAST_SENDER_LEAVE : Z := 10.

(** A query of the kernel module; the addresses and the network are in network
    byte order. *)
Record dgwy_dps_query_list_info_t := mk_query {
  qi_type : Z; qi_domain : Z; qi_ip4 : Z; qi_phyip4 : Z; qi_endpoint_mac : list Z;
  qi_src_ipv4 : Z; qi_src_endpoint_mac : list Z }.
(** [ntohl(info->domain<<8)] *)
Definition domain_horder (info : dgwy_dps_query_list_info_t) : Z :=
  ntohl (u32 (Z.shiftl (qi_domain info) 8)).

(** What [dgwy_tunnel_info_t] says of a tunnel. *)
Record dgwy_tunnel_info_t := mk_tuninfo { ti_type : Z; ti_vnid : Z; ti_dovenet_ipv4 : Z }.

(** Parts of a message. *)
Definition dps_hdr (type sub_type client_id vnid : Z) : dps_client_hdr_t :=
  mk_client_hdr type sub_type client_id 0 vnid 0 0 zero_ip_addr.
Definition ip4_addr (family ip4 : Z) : ip_addr_t :=
  mk_ip_addr family 0 0 0 (set_ip4 zero_ip ip4).
Definition vxlan_tunnel (port ip4 vnid : Z) : dps_tunnel_list_t :=
  mk_tunnel_list 1 [mk_tunnel AF_INET port vnid TUNNEL_TYPE_VXLAN 0 (set_ip4 zero_ip ip4)].

Section messages.
Context (E : gw_env).

(** ** Sending *)

(** [if(g_APPBRIDGE_type==DGWY_TYPE_EXTERNAL) ... else ...] *)
Definition agent_id (s : gwy) : Z :=
  if g_APPBRIDGE_type s =? DGWY_TYPE_EXTERNAL then DOVE_EXTERNAL_GATEWAY_AGENT_ID
  else DOVE_VLAN_GATEWAY_AGENT_ID.

(** [dps_ctx_quid++; if(dps_protocol_client_send(...) != DPS_SUCCESS)
    {g_got_dcs_info=0; ...}] *)
Definition dps_send (ctx : option dgadm_dps_context_t) (m : dps_client_data_t) (s : gwy) : bool * gwy :=
  let ok := dps E (now s) in
  (ok, sent (u32 (dps_ctx_quid s + 1)) (if ok then g_got_dcs_info s else 0) (To_dps ctx m) (tick s)).

(** Without a context: [0] or [-1]. *)
Definition dps_send_plain (hdr : dps_client_hdr_t) (body : dps_client_body) (s : gwy) : Z * gwy :=
  let '(ok, s) := dps_send None (mk_client_data 0 hdr body) s in (if ok then 0 else -1, s).

(** With a context that holds the network and the number of the request; some
    callers give it back when the message cannot be sent. *)
Definition dps_send_ctx (gives_back : bool) (shared_lookup svnid : Z) (hdr : dps_client_hdr_t)
    (body : dps_client_body) (s : gwy) : gwy :=
  let p := heap E (now s) in
  let ctx := if p =? 0 then None else Some (mk_ctx svnid (dps_ctx_quid s) shared_lookup) in
  let '(ok, s) := dps_send ctx (mk_client_data p hdr body) (tick s) in
  if negb ok && gives_back && negb (p =? 0) then emit (Ctx_freed p) s else s.

(** ** Lists of gateways and switches *)
Definition dgwy_request_lst (type vnid : Z) (s : gwy) : Z * gwy :=
  dps_send_plain (dps_hdr type 0 (agent_id s) vnid) (Body_gen_msg_req (mk_gen_msg_req zero_ip_addr)) s.
Definition dgwy_request_bcast_lst : Z -> gwy -> Z * gwy := dgwy_request_lst DPS_BCAST_LIST_REQ.
Definition dgwy_request_extgw_lst : Z -> gwy -> Z * gwy := dgwy_request_lst DPS_EXTERNAL_GW_LIST_REQ.
Definition dgwy_request_vlangw_lst : Z -> gwy -> Z * gwy := dgwy_request_lst DPS_VLAN_GW_LIST_REQ.

(** ** Where a machine is: its MAC and its virtual addresses *)
Definition endpoint_update (sub_type domain vIP pIP : Z) (mac : option (list Z)) (s : gwy) : Z * gwy :=
  dps_send_plain (dps_hdr DPS_ENDPOINT_UPDATE sub_type (agent_id s) domain)
    (Body_endpoint_update (mk_endpoint_update domain (default zero_mac (take 6 <$> mac)) 0
       (ip4_addr 0 vIP) zero_ip_addr (vxlan_tunnel (OVL_PROTO_DST_PORT s) pIP domain))) s.
Definition dgwy_register_mac_location := endpoint_update DPS_ENDPOINT_UPDATE_ADD.
Definition dgwy_register_vip_location := endpoint_update DPS_ENDPOINT_UPDATE_VIP_ADD.
Definition dgwy_deregister_mac_location := endpoint_update DPS_ENDPOINT_UPDATE_DELETE.
Definition dgwy_deregister_vip_location := endpoint_update DPS_ENDPOINT_UPDATE_VIP_DEL.

Definition dgwy_location_unavailable (domain dst_vIP src_vIP pIP : Z) (dst_vMAC src_vMAC : option (list Z))
    (s : gwy) : Z * gwy :=
  dps_send_plain (dps_hdr DPS_VM_MIGRATION_EVENT 0 (agent_id s) domain)
    (Body_vm_migration_event (mk_vm_migration
       (mk_endpoint_info 0 (default zero_mac (take 6 <$> dst_vMAC)) (ip4_addr 0 dst_vIP))
       (mk_endpoint_loc_reply domain (default zero_mac (take 6 <$> src_vMAC)) (ip4_addr 0 src_vIP) 0
          (vxlan_tunnel (OVL_PROTO_DST_PORT s) pIP domain)))) s.

Definition dove_location_mac_update (info : dgwy_dps_query_list_info_t) (s : gwy) : gwy :=
  (dgwy_register_mac_location (domain_horder info) (ntohl (qi_ip4 info)) (ntohl (qi_phyip4 info))
     (Some (qi_endpoint_mac info)) s).2.
Definition dove_location_mac_delete (info : dgwy_dps_query_list_info_t) (s : gwy) : gwy :=
  (dgwy_deregister_mac_location (domain_horder info) (ntohl (qi_ip4 info)) (ntohl (qi_phyip4 info))
     (Some (qi_endpoint_mac info)) s).2.
Definition dove_location_legacy_unavailable (info : dgwy_dps_query_list_info_t) (s : gwy) : gwy :=
  (dgwy_location_unavailable (domain_horder info) (ntohl (qi_ip4 info)) (ntohl (qi_src_ipv4 info))
     (ntohl (qi_phyip4 info)) (Some (qi_endpoint_mac info)) (Some (qi_src_endpoint_mac info)) s).2.
Definition dove_location_vip_delete (info : dgwy_dps_query_list_info_t) (s : gwy) : gwy :=
  (dgwy_deregister_vip_location (domain_horder info) (ntohl (qi_ip4 info)) (ntohl (qi_phyip4 info))
     (Some (qi_endpoint_mac info)) s).2.

(** ** Policies: the question [dove_policy_request] and its shared form ask

    [dove_policy_request] gives up without memory for the context, the shared
    form does not. *)
Definition policy_question (svnid : Z) (info : dgwy_dps_query_list_info_t) : dps_client_body :=
  Body_policy_req (mk_policy_req
    (mk_endpoint_info 0 (take 6 (qi_endpoint_mac info)) (ip4_addr AF_INET (ntohl (qi_ip4 info))))
    (mk_endpoint_info svnid zero_mac zero_ip_addr) zero_ip_addr).
Definition ask_policy (info : dgwy_dps_query_list_info_t) (s : gwy) : gwy :=
  let vnid := domain_horder info in
  if heap E (now s) =? 0 then tick s
  else dps_send_ctx true 0 vnid (dps_hdr DPS_POLICY_REQ 0 (agent_id s) vnid) (policy_question vnid info) s.
Definition ask_policy_of (svnid : Z) (info : dgwy_dps_query_list_info_t) (s : gwy) : gwy :=
  dps_send_ctx false 1 svnid (dps_hdr DPS_POLICY_REQ 0 (agent_id s) svnid) (policy_question svnid info) s.

(** ** Multicast *)
Definition mcast_v4 (info : dgwy_dps_query_list_info_t) : dps_mcast_addr_t :=
  mk_mcast_addr MCAST_ADDR_V4 (take 6 (qi_endpoint_mac info)) (set_ip4 zero_ip (ntohl (qi_ip4 info))).
Definition one_group (a : dps_mcast_addr_t) : dps_mcast_group_record_t := mk_mcast_group_record a 0 0 [].

Definition dove_mcast_dcs_rcvr_notify (info : dgwy_dps_query_list_info_t) (s : gwy) : gwy :=
  if dps_known s then
    match
      (if qi_type info =? DPS_MCAST_RECV_JOIN then Some DPS_MCAST_RECEIVER_JOIN
       else if qi_type info =? DPS_MCAST_RECV_LEAVE then Some DPS_MCAST_RECEIVER_LEAVE
       else None) with
    | Some type =>
        dps_send_ctx false 0 (domain_horder info) (dps_hdr type 0 (agent_id s) (domain_horder info))
          (Body_mcast_receiver (mk_mcast_receiver (ip4_addr AF_INET (ntohl (qi_phyip4 info)))
             zero_ip_addr (one_group (mcast_v4 info)))) s
    | None => s
    end
  else s.

Definition dove_mcast_dcs_sender_notify (info : dgwy_dps_query_list_info_t) (s : gwy) : gwy :=
  if dps_known s then
    match
      (if qi_type info =? DPS_MCAST_SENDER_REGISTER then Some DPS_MCAST_SENDER_REGISTRATION
       else if qi_type info =? DPS_MCAST_SENDER_LEAVE then Some DPS_MCAST_SENDER_DEREGISTRATION
       else None) with
    | Some type =>
        dps_send_ctx true 0 (domain_horder info) (dps_hdr type 0 (agent_id s) (domain_horder info))
          (Body_mcast_sender (mk_mcast_sender (ip4_addr AF_INET (ntohl (qi_phyip4 info)))
             (mk_endpoint_info (domain_horder info) (take 6 (qi_src_endpoint_mac info))
                (ip4_addr AF_INET (ntohl (qi_src_ipv4 info))))
             (mcast_v4 info) zero_ip_addr)) s
    | None => s
    end
  else s.

(** For a network of the gateway itself; a service without a type sends nothing. *)
Definition mcast_mac : list Z := [1; 0; 94; 0; 0; 0].
Definition send_ext_mcast_recv_join (vnid type : Z) (s : gwy) : gwy :=
  if dps_known s then
    let ty := g_APPBRIDGE_type s in
    match
      (if type =? DPS_MCAST_RECV_JOIN then Some DPS_MCAST_RECEIVER_JOIN
       else if type =? DPS_MCAST_RECV_LEAVE then Some DPS_MCAST_RECEIVER_LEAVE else None),
      (if (ty =? DGWY_TYPE_EXTERNAL) || (ty =? DGWY_TYPE_EXT_VLAN)
       then Some DOVE_EXTERNAL_GATEWAY_AGENT_ID
       else if ty =? DGWY_TYPE_VLAN then Some DOVE_VLAN_GATEWAY_AGENT_ID else None) with
    | Some type, Some client =>
        dps_send_ctx false 0 vnid (dps_hdr type 0 client vnid)
          (Body_mcast_receiver (mk_mcast_receiver (ip4_addr AF_INET (ntohl (g_dovenet_ipv4 s)))
             zero_ip_addr (one_group (mk_mcast_addr MCAST_ADDR_MAC mcast_mac zero_ip)))) s
    | _, _ => s
    end
  else s.

(** ** Tunnels of the gateway *)

(** The message itself is allocated: without memory nothing is sent. *)
Definition tunnel_message (type sub_type client_id vnid ip4 : Z) (s : gwy) : gwy :=
  if heap E (now s) =? 0 then tick s
  else
    let s := tick s in
    dps_send_ctx true 0 vnid (dps_hdr type sub_type client_id vnid)
      (Body_tunnel_reg_dereg (mk_tunnel_reg zero_ip_addr
         (vxlan_tunnel (OVL_PROTO_DST_PORT s) (ntohl ip4) vnid))) s.
Definition dove_dps_tunnel_register (info : dgwy_tunnel_info_t) : gwy -> gwy :=
  tunnel_message DPS_TUNNEL_REGISTER 0 (ti_type info) (ti_vnid info) (ti_dovenet_ipv4 info).
Definition dove_dps_tunnel_deregister (info : dgwy_tunnel_info_t) : gwy -> gwy :=
  tunnel_message DPS_TUNNEL_DEREGISTER DPS_TUNNEL_DEREG (ti_type info) (ti_vnid info)
    (ti_dovenet_ipv4 info).
Definition gdb_dove_dps_tunnel_deregister (type vnid : Z) (s : gwy) : gwy :=
  tunnel_message DPS_TUNNEL_DEREGISTER DPS_TUNNEL_DEREG type vnid (g_dovenet_ipv4 s) s.
End messages.
