(* ===== verification/GwTables.v ===== *)
(** * The tables of the service: what is configured and what is taken back

    [update_svc_table_*], [update_svc_*] of [odgw/dgadmin/dgadmutil.c] and
    [delete_svc_*], [check_*] of [dgadmin_generic_api.c].  Each looks the
    service up, takes its lock, works on one table and gives the lock back;
    [-1] when the lock could not be had.  The changes that involve the tunnels
    are in [GwTunnels]. *)
From S2P Require Export GwMsg.
From stdpp Require Import gmap strings.
#[local] Open Scope Z_scope.

(** ** The work on a service, table by table *)

(** Write a table back with the result of the loop. *)
Definition store {A} (wr : list A -> dgwy_service_list_t -> dgwy_service_list_t)
    (e : dgwy_service_list_t) (r : Z * list A) : Z * dgwy_service_list_t := (r.1, wr r.2 e).

Definition mac_zero (m : ifmac_t) : bool := forallb (Z.eqb 0) (im_mac m).

Definition add_domain (domain : Z) (e : dgwy_service_list_t) : Z * dgwy_service_list_t :=
  store with_domains e
    (insert_slot (Z.eqb domain) (Z.eqb INVALID_DOMAIN_ID) 0 domain (domainList e)).
Definition add_ifmac (ifmac : ifmac_t) (e : dgwy_service_list_t) : Z * dgwy_service_list_t :=
  store with_macs e (insert_slot (fun x => bool_decide (x = ifmac)) mac_zero 0 ifmac (ifmacList e)).
(** The first entry is never used. *)
Definition add_ifipv4 (ipv4 mask nexthop vlan_id : Z) (e : dgwy_service_list_t)
    : Z * dgwy_service_list_t :=
  store with_ifips e
    (insert_slot (fun x => ii_ipv4 x =? ipv4) (fun x => ii_ipv4 x =? 0) 1
       (mk_ifipv4 ipv4 mask nexthop (u16 vlan_id)) (ifipv4List e)).
Definition add_extip (extip : extipv4_t) (e : dgwy_service_list_t) : Z * dgwy_service_list_t :=
  store with_extips e
    (insert_slot (fun x => bool_decide (x = extip)) (fun x => ex_ipv4 x =? 0) 0 extip (extipv4List e)).
Definition add_intip (intip : intipv4_t) (e : dgwy_service_list_t) : Z * dgwy_service_list_t :=
  store with_intips e
    (insert_slot (fun x => bool_decide (x = intip)) (fun x => in_ipv4 x =? 0) 0 intip (intipv4List e)).
Definition add_rule (rule : fwd_rule_t) (e : dgwy_service_list_t) : Z * dgwy_service_list_t :=
  store with_rules e
    (insert_slot (fun x => bool_decide (x = rule)) (fun x => fw_ipv4 x =? 0) 0 rule (fwdruleList e)).
Definition add_shared (vnid domain extmcast : Z) (e : dgwy_service_list_t) : Z * dgwy_service_list_t :=
  store with_shared e
    (insert_slot (fun x => es_vnid x =? vnid) (fun x => es_vnid x =? 0) 0
       (mk_shared vnid domain extmcast) (extsharedVnidList e)).

(** [if(oper) {... add or write over ...} else {... the entry is wiped ...}] *)
Definition set_subnet (x : vnid_subnet_t) (oper : bool) (e : dgwy_service_list_t)
    : dgwy_service_list_t :=
  let hit y := (vs_IPv4 y =? vs_IPv4 x) && (vs_vnid y =? vs_vnid x) in
  with_subnets
    (if oper then put_slot hit (fun y => vs_IPv4 y =? 0) (fun _ => x) x (vnid_subnet e)
     else clear_slot hit (fun _ => no_subnet) 0 (vnid_subnet e)) e.
(** An entry that is there keeps its [master]. *)
Definition set_mcast (vnid ipv4 : Z) (oper : bool) (e : dgwy_service_list_t) : dgwy_service_list_t :=
  let hit y := em_vnid y =? vnid in
  with_mcasts
    (if oper then put_slot hit (fun y => em_vnid y =? 0) (fun y => mk_mcast ipv4 (em_vnid y) (em_master y))
                    (mk_mcast ipv4 vnid 0) (ext_mcast_vnids e)
     else clear_slot hit (fun _ => no_mcast) 0 (ext_mcast_vnids e)) e.

Definition same_mac (mac : list Z) (x : ifmac_t) : bool :=
  negb (mac_zero x) && bool_decide (im_mac x = mac).
Definition del_ifmac (mac : list Z) (e : dgwy_service_list_t) : dgwy_service_list_t :=
  with_macs (clear_slot (same_mac mac) (fun _ => no_ifmac) 0 (ifmacList e)) e.
Definition del_ifipv4 (ipv4 : Z) (e : dgwy_service_list_t) : dgwy_service_list_t :=
  with_ifips (clear_slot (fun x => ii_ipv4 x =? ipv4) (fun _ => no_ifipv4) 1 (ifipv4List e)) e.

(** The rules of a forwarded port. *)
Record cli_service_fwdrule_t := mk_cli_rule {
  cl_domain : Z; cl_protocol : Z; cl_IPv4 : Z; cl_port : Z; cl_IPv4_map : Z; cl_port_map : Z }.
Definition rule_match (rule : cli_service_fwdrule_t) (x : fwd_rule_t) : bool :=
  (cl_domain rule =? fw_domain x) && (cl_IPv4 rule =? fw_ipv4 x) && (cl_port rule =? fw_port x)
  && (cl_protocol rule =? fw_proto x).

Section tables.
Context (E : gw_env).

(** ** Changes *)
Definition update (caller : string) (f : dgwy_service_list_t -> Z * dgwy_service_list_t) (s : gwy)
    : Z * gwy := with_svc E caller (-1) (-1) (pure_body f) s.
Definition change (caller : string) (f : dgwy_service_list_t -> dgwy_service_list_t) (s : gwy)
    : Z * gwy := update caller (fun e => (0, f e)) s.

Definition update_svc_table_domain (domain : Z) : gwy -> Z * gwy :=
  update "update_svc_table_domain" (add_domain domain).
Definition update_svc_table_macs (ifmac : ifmac_t) : gwy -> Z * gwy :=
  update "update_svc_table_macs" (add_ifmac ifmac).
Definition update_svc_table_ifipv4 (ipv4 mask nexthop vlan_id : Z) : gwy -> Z * gwy :=
  update "update_svc_table_ifipv4" (add_ifipv4 ipv4 mask nexthop vlan_id).
Definition update_svc_table_intipv4 (intip : intipv4_t) : gwy -> Z * gwy :=
  update "update_svc_table_intipv4" (add_intip intip).
Definition update_svc_table_fwdrule (rule : fwd_rule_t) : gwy -> Z * gwy :=
  update "update_svc_table_fwdrule" (add_rule rule).
Definition update_svc_table_mtu (mtu : Z) : gwy -> Z * gwy :=
  change "update_svc_table_mtu" (with_mtu mtu).
Definition update_svc_dovenet_ipv4 (ipv4 : Z) : gwy -> Z * gwy :=
  change "update_svc_dovenet_ipv4" (with_dovenet ipv4).
Definition update_svc_mgmt_ipv4 (ipv4 : Z) : gwy -> Z * gwy :=
  change "update_svc_mgmt_ipv4" (with_mgmt ipv4).
Definition update_svc_dmc_ipv4 (ipv4 port : Z) : gwy -> Z * gwy :=
  change "update_svc_dmc_ipv4" (with_dmc ipv4 port).
Definition update_svc_vnid_info (vnid IPv4 IPv4_mask IPv4_nexthop state : Z) (oper : bool)
    : gwy -> Z * gwy :=
  change "update_svc_vnid_info"
    (set_subnet (mk_subnet vnid IPv4 IPv4_mask state IPv4_nexthop) oper).
Definition delete_svc_ipv4 (ipv4 : Z) : gwy -> Z * gwy :=
  change "delete_svc_ipv4" (del_ifipv4 ipv4).
(** [0] also when there is no service. *)
Definition delete_svc_nic (mac : list Z) (s : gwy) : Z * gwy :=
  with_svc E "delete_svc_nic" (-1) 0 (pure_body (fun e => (0, del_ifmac mac e))) s.

(** [reset_service]; what it does to [/etc/iproute2] is not modelled.  Only
    the tables named here are wiped. *)
Definition reset_entry (e : dgwy_service_list_t) : dgwy_service_list_t :=
  mk_svc (sv_index e) (replicate SVC_NAME 0) (sv_caller_name e) (sv_lock e) 0 DGWY_TYPE_NONE 0
    (sv_dovenet_ipv4 e) (sv_mgmt_ipv4 e) (sv_dmc_ipv4 e) (sv_dmc_port e)
    (replicate MAX_DOMIANS INVALID_DOMAIN_ID) (replicate MAX_IF_MACS no_ifmac)
    (replicate MAX_IFIPV4_ADDRESS no_ifipv4) (replicate MAX_EXTIPV4_ADDRESS no_extipv4)
    (replicate MAX_EXTIPV4_ADDRESS no_intipv4) (replicate MAX_FWDRULE no_fwd_rule)
    (with_dv_domain INVALID_DOMAIN_ID <$> dvList e) (vnid_subnet e) (ext_mcast_vnids e)
    (extsharedVnidList e).
Definition reset_service : gwy -> Z * gwy := change "reset_service" reset_entry.

(** ** Questions *)
Definition ask {R} (caller : string) (busy absent : R) (f : dgwy_service_list_t -> R) : gwy -> R * gwy :=
  with_svc E caller busy absent (read_body f).
Definition yes_no (b : bool) : Z := if b then 1 else 0.

Definition check_nic_in_service : gwy -> Z * gwy :=
  ask "check_nic_in_service" (-1) 0 (fun e => yes_no (existsb (fun x => negb (mac_zero x)) (ifmacList e))).
Definition check_nic_in_ipv4 : gwy -> Z * gwy :=
  ask "check_nic_in_ipv4" (-1) 0
    (fun e => yes_no (existsb (fun x => negb (ii_ipv4 x =? 0)) (drop 1 (ifipv4List e)))).
Definition get_svc_ipv4_matching_vlan (vlan_id : Z) : gwy -> (Z * option Z) * gwy :=
  ask "get_svc_ipv4_matching_vlan" (-1, None) (-1, None)
    (fun e => match find_slot (fun x => ii_vlan_id x =? vlan_id) 1 (ifipv4List e) with
              | Some x => (1, Some (ii_ipv4 x)) | None => (0, None) end).
Definition get_svc_ipv4_vlan (ipv4 : Z) : gwy -> Z * gwy :=
  ask "get_svc_ipv4_vlan" (-1) (-1)
    (fun e => match find_slot (fun x => ii_ipv4 x =? ipv4) 1 (ifipv4List e) with
              | Some x => ii_vlan_id x | None => 0 end).
Definition check_ipv4_for_vlanmap : gwy -> Z * gwy :=
  ask "check_ipv4_for_vlanmap" (-1) 0
    (fun e => yes_no (existsb (fun x => negb (dv_domain x =? INVALID_DOMAIN_ID)) (dvList e))).
(** Is [ipv4], an address of the gateway, or another of its network in use? *)
Definition check_ipv4_in_extvip (ipv4 : Z) : gwy -> Z * gwy :=
  ask "check_ipv4_in_extvip" (-1) 0
    (fun e =>
       let '(network, mask) :=
         match find_slot (fun x => ii_ipv4 x =? ipv4) 1 (ifipv4List e) with
         | Some x => (Z.land (ii_ipv4 x) (ii_mask x), ii_mask x) | None => (0, 0) end in
       if (network =? 0) || (mask =? 0) then 1
       else yes_no (existsb (fun x => (network =? Z.land (ex_ipv4 x) mask) || (ipv4 =? ex_ipv4 x))
                      (extipv4List e))).
Definition check_extvip_in_fwd_rule (vIPv4 : Z) : gwy -> Z * gwy :=
  ask "check_extvip_in_fwd_rule" (-1) 0
    (fun e => yes_no (existsb (fun x => vIPv4 =? fw_ipv4 x) (fwdruleList e))).
Definition get_svc_fwd_rule_mapIP (rule : cli_service_fwdrule_t) : gwy -> Z * gwy :=
  ask "get_svc_fwd_rule_mapIP" 0 0
    (fun e => match find_slot (rule_match rule) 0 (fwdruleList e) with
              | Some x => fw_realipv4 x | None => 0 end).
Definition is_there_fwd_rule_matching (rule : cli_service_fwdrule_t) : gwy -> Z * gwy :=
  ask "is_there_fwd_rule_matching" (-1) (-1)
    (fun e => yes_no (existsb (rule_match rule) (fwdruleList e))).
Definition get_fwd_rule_count (rule : cli_service_fwdrule_t) : gwy -> Z * gwy :=
  ask "get_fwd_rule_count" (-1) (-1)
    (fun e => Z.of_nat (length (List.filter
       (fun x => (cl_domain rule =? fw_domain x) && (cl_IPv4 rule =? fw_ipv4 x)) (fwdruleList e)))).
(** An answer of [-1] is the address 255.255.255.255. *)
Definition get_extipv4_for_extmcast_vnid (ipv4 : Z) : gwy -> Z * gwy :=
  ask "get_extipv4_for_extmcast_vnid" (u32 (-1)) 0
    (fun e => match find_slot (fun x => let network := Z.land (ii_ipv4 x) (ii_mask x) in
                  negb (network =? 0) && (network =? Z.land ipv4 (ii_mask x))) 1 (ifipv4List e) with
              | Some x => ii_ipv4 x | None => 0 end).
Definition find_vnid_subnet_nexthop (vnid IPv4 : Z) : gwy -> Z * gwy :=
  ask "find_vnid_subnet_nexthop" (u32 (-1)) 0
    (fun e => match find_slot (fun x => negb (vs_IPv4 x =? 0) && (vs_vnid x =? vnid)
                  && (Z.land (vs_IPv4 x) (vs_IPv4_mask x) =? Z.land IPv4 (vs_IPv4_mask x))) 0
                  (vnid_subnet e) with
              | Some x => vs_IPv4_nexthop x | None => 0 end).
Definition is_vnid_subnet_empty (vnid : Z) : gwy -> Z * gwy :=
  ask "is_vnid_subnet_empty" (-1) 1
    (fun e => yes_no (negb (existsb (fun x => vs_vnid x =? vnid) (vnid_subnet e)))).
End tables.
