(* ===== verification/GwTunnels.v ===== *)
(** * The tunnels of the gateway follow its tables

    The changes of [dgadmutil.c] and [dgadmin_generic_api.c] that register or
    deregister tunnels with the server or change the type of the service, and
    the functions [dgwy_ctrl_*] that make a change and tell the kernel module. *)
From S2P Require Export GwTables.
From stdpp Require Import gmap strings.
#[local] Open Scope Z_scope.

Definition int32 (z : Z) : Z := (z + 2147483648) mod 4294967296 - 2147483648.

Section tunnels.
Context (E : gw_env).

(** The type of the service once it also serves external networks, or VLANs. *)
Definition change_type (both alone other : Z) (s : gwy) : gwy :=
  let '(t, s) := type_now E s in
  if t =? other then (dgwy_ctrl_set_svc_type E CMD_SET_SVC both s).2
  else if t =? DGWY_TYPE_NONE then (dgwy_ctrl_set_svc_type E CMD_SET_SVC alone s).2
  else s.
Definition now_external : gwy -> gwy := change_type DGWY_TYPE_EXT_VLAN DGWY_TYPE_EXTERNAL DGWY_TYPE_VLAN.
Definition now_vlan : gwy -> gwy := change_type DGWY_TYPE_EXT_VLAN DGWY_TYPE_VLAN DGWY_TYPE_EXTERNAL.

(** ** Registering *)
Definition external_tunnel (vnid : Z) (s : gwy) : dgwy_tunnel_info_t :=
  mk_tuninfo DOVE_EXTERNAL_GATEWAY_AGENT_ID vnid (g_dovenet_ipv4 s).
Definition vlan_tunnel (vnid : Z) (s : gwy) : dgwy_tunnel_info_t :=
  mk_tuninfo DOVE_VLAN_GATEWAY_AGENT_ID vnid (g_dovenet_ipv4 s).
Definition register_external (vnid : Z) (s : gwy) : gwy :=
  dove_dps_tunnel_register E (external_tunnel vnid s) s.
Definition register_vlan (vnid : Z) (s : gwy) : gwy :=
  dove_dps_tunnel_register E (vlan_tunnel vnid s) s.
Definition deregister_external (vnid : Z) (s : gwy) : gwy :=
  dove_dps_tunnel_deregister E (external_tunnel vnid s) s.
Definition deregister_vlan (vnid : Z) (s : gwy) : gwy :=
  dove_dps_tunnel_deregister E (vlan_tunnel vnid s) s.

(** A network of 24 bits other than 0. *)
Definition real_vnid (d : Z) : bool := (0 <? d) && (d <=? 16777215).

(** [for(...) if(cond) {act; flag=1;}] *)
Definition each {A} (cond : A -> bool) (act : A -> gwy -> gwy) (l : list A) (fs : bool * gwy)
    : bool * gwy :=
  fold_left (fun '(f, s) x => if cond x then (true, act x s) else (f, s)) l fs.

(** [for(iter=0;iter<=range;iter++) ...(domain, minip+iter, ...)] *)
Definition ip_range (pip_min pip_max : Z) : list Z :=
  let minip := ntohl pip_min in
  (fun i => u32 (minip + Z.of_nat i)) <$>
    seq 0 (Z.to_nat (int32 (ntohl pip_max - minip) + 1)).
Definition register_pips (r : fwd_rule_t) (s : gwy) : gwy :=
  fold_left (fun s ip => (dgwy_register_vip_location E (fw_domain r) ip (ntohl (g_dovenet_ipv4 s))
                            (Some (gMAC s)) s).2) (ip_range (fw_pip_min r) (fw_pip_max r)) s.
Definition fwdrule_pip_deregister (ipmin ipmax domain : Z) (s : gwy) : gwy :=
  fold_left (fun s ip => (dgwy_deregister_vip_location E domain ip (ntohl (g_dovenet_ipv4 s))
                            (Some (gMAC s)) s).2) (ip_range ipmin ipmax) s.

(** [check_register_tunnel]: every tunnel is registered, the type of the
    service set by what was found. *)
Definition register_tunnels (e : dgwy_service_list_t) (s : gwy) : (bool * bool) * gwy :=
  let up := negb (g_dovenet_ipv4 s =? 0) in
  let '(ext, s) :=
    each (fun x => up && negb (ex_ipv4 x =? 0) && real_vnid (ex_domain x))
      (fun x => register_external (ex_domain x)) (extipv4List e) (false, s) in
  let '(vlan, s) :=
    each (fun x => up && real_vnid (dv_domain x)) (fun x => register_vlan (dv_domain x))
      (dvList e) (false, s) in
  let '(ext, s) :=
    each (fun x => up && negb (em_vnid x =? 0))
      (fun x s => let s := register_external (em_vnid x) s in
                  if em_master x =? 0 then s
                  else send_ext_mcast_recv_join E (em_vnid x) DPS_MCAST_RECV_JOIN s)
      (ext_mcast_vnids e) (ext, s) in
  let '(ext, s) :=
    each (fun x => up && negb (es_vnid x =? 0)) (fun x => register_external (es_vnid x))
      (extsharedVnidList e) (ext, s) in
  let '(_, s) :=
    each (fun x => negb (fw_ipv4 x =? 0) && negb (fw_pip_min x =? 0)) register_pips
      (fwdruleList e) (false, s) in
  ((ext, vlan), s).
Definition type_of_tunnels (ext vlan : bool) : Z :=
  if ext && vlan then DGWY_TYPE_EXT_VLAN
  else if ext then DGWY_TYPE_EXTERNAL
  else if vlan then DGWY_TYPE_VLAN else DGWY_TYPE_NONE.
Definition check_register_tunnel (s : gwy) : gwy :=
  let '(r, s) :=
    with_svc E "check_register_tunnel" None None
      (fun e s => let '(fl, s) := register_tunnels e s in (Some fl, e, s)) s in
  match r with
  | Some (ext, vlan) => (dgwy_ctrl_set_svc_type E CMD_SET_SVC (type_of_tunnels ext vlan) s).2
  | None => s
  end.

(** ** Deregistering *)

(** [svcp->dvList[i].domain] with [i = MAX_DVMAP] after the search has failed:
    the word behind the array, in this packed structure the network of the
    first subnet. *)
Definition past_dvList (e : dgwy_service_list_t) : Z :=
  match vnid_subnet e with x :: _ => vs_vnid x | [] => 0 end.
Definition deregister_tunnels (vnid : Z) (e : dgwy_service_list_t) (s : gwy) : gwy :=
  let found := existsb (fun x => ex_domain x =? vnid) (extipv4List e)
               || existsb (fun x => es_vnid x =? vnid) (extsharedVnidList e) in
  let s := if found then s else deregister_external vnid s in
  if existsb (fun x => dv_domain x =? vnid) (dvList e) then s
  else deregister_vlan (past_dvList e) s.
Definition check_dregister_tunnel (vnid : Z) (s : gwy) : gwy :=
  (with_svc E "check_dregister_tunnel" tt tt (fun e s => (tt, e, deregister_tunnels vnid e s)) s).2.

(** [check_del_tep]: the gateway goes; every tunnel is taken back. *)
Definition valid_vnid (d : Z) : bool := negb (d =? 0) && negb (d =? INVALID_DOMAIN_ID).
Definition check_del_tep (s : gwy) : gwy :=
  (with_svc E "check_del_tep" tt tt (fun e s =>
     let fs := (false, s) in
     let fs := each (fun x => valid_vnid (em_vnid x)) (fun x => deregister_external (em_vnid x))
                 (ext_mcast_vnids e) fs in
     let fs := each (fun x => valid_vnid (es_vnid x)) (fun x => deregister_external (es_vnid x))
                 (extsharedVnidList e) fs in
     let fs := each (fun x => negb (ex_ipv4 x =? 0) && negb (ex_domain x =? INVALID_DOMAIN_ID))
                 (fun x => deregister_external (ex_domain x)) (extipv4List e) fs in
     let fs := each (fun x => valid_vnid (dv_domain x)) (fun x => deregister_vlan (dv_domain x))
                 (dvList e) fs in
     (tt, e, fs.2)) s).2.

(** A multicast network of the outside. *)
Definition update_svc_table_ext_mcast_vnid (vnid ipv4 : Z) (oper : bool) (s : gwy) : Z * gwy :=
  let '(ret, s) := change E "update_svc_table_ext_mcast_vnid" (set_mcast vnid ipv4 oper) s in
  if ret =? 0 then
    (0, if g_dovenet_ipv4 s =? 0 then s
        else if oper then register_external vnid s else deregister_external vnid s)
  else (-1, s).
Definition vnid_info (vnid state ipv4 : Z) : nl_msg :=
  Nl_vnid_info (Z.shiftr (ntohl vnid) 8) state ipv4.
Definition dgwy_ctrl_unset_ext_mcast_vnid (vnid ipv4 : Z) (s : gwy) : Z * gwy :=
  let '(_, s) := update_svc_table_ext_mcast_vnid vnid ipv4 false s in
  nl_send E (vnid_info vnid VNID_INFO_STATE_NONE ipv4) s.
Definition dgwy_ctrl_set_ext_mcast_vnid (vnid ipv4 : Z) (s : gwy) : Z * gwy :=
  let '(ip, s) := get_extipv4_for_extmcast_vnid E ipv4 s in
  if ip =? 0 then (-1, s)
  else
    let '(_, s) := update_svc_table_ext_mcast_vnid vnid ip true s in
    nl_send E (vnid_info vnid VNID_INFO_STATE_EXTMCAST_SLAVE ip) s.

(** Is no network of the tenant left?  The question has the effect of
    [check_dregister_tunnel] on the network of the first external address. *)
Definition in_tenant (tenantid : Z) (e : dgwy_service_list_t) : bool :=
  existsb (fun x => ex_tenant_id x =? tenantid) (extipv4List e)
  || existsb (fun x => es_tenant_id x =? tenantid) (extsharedVnidList e).
Definition first_domain (e : dgwy_service_list_t) : Z :=
  match extipv4List e with x :: _ => ex_domain x | [] => 0 end.
Definition is_vnid_empty_intenant (tenantid : Z) (s : gwy) : Z * gwy :=
  let '(r, s) :=
    with_svc E "is_vnid_empty_intenant" (-1, None) (1, None)
      (read_body (fun e => (yes_no (negb (in_tenant tenantid e)), Some (first_domain e)))) s in
  match r with
  | (empty, Some vnid) => (empty, check_dregister_tunnel vnid s)
  | (empty, None) => (empty, s)
  end.

(** The last network of a tenant takes the multicast network with it. *)
Definition drop_mcast (always : bool) (tenant extmcast : Z) (s : gwy) : gwy :=
  let '(empty, s) := is_vnid_empty_intenant tenant s in
  if (negb (empty =? 0)) && (negb (extmcast =? 0) || (always && negb (tenant =? 0)))
  then (dgwy_ctrl_unset_ext_mcast_vnid extmcast 0 s).2 else s.

(** ** External addresses and shared networks *)
Definition update_svc_table_extipv4 (extip : extipv4_t) (s : gwy) : Z * gwy :=
  let '(ret, s) := update E "update_svc_table_extipv4" (add_extip extip) s in
  if ret =? 0 then (0, now_external s) else (ret, s).

Definition del_shared (vnid : Z) (e : dgwy_service_list_t) : option extshared_vnids_t * dgwy_service_list_t :=
  let hit x := es_vnid x =? vnid in
  (find_slot hit 0 (extsharedVnidList e),
   with_shared (clear_slot hit (fun _ => no_shared) 0 (extsharedVnidList e)) e).
Definition update_svc_table_extsharedvnids (vnid domain extmcast : Z) (add : bool) (s : gwy) : Z * gwy :=
  if add then
    let '(ret, s) := update E "update_svc_table_extsharedvnids" (add_shared vnid domain extmcast) s in
    if ret =? 0 then (0, now_external s) else (ret, s)
  else
    let '(r, s) :=
      with_svc E "update_svc_table_extsharedvnids" None None (pure_body (del_shared vnid)) s in
    match r with
    | Some x => (0, drop_mcast false (es_tenant_id x) (es_extmcastvnid x) s)
    | None => (-1, s)
    end.

(** The address goes, and the tunnel of its network with the last address. *)
Definition del_extip (vIPv4 : Z) (e : dgwy_service_list_t) : option extipv4_t * dgwy_service_list_t :=
  let hit x := ex_ipv4 x =? vIPv4 in
  (find_slot hit 0 (extipv4List e),
   with_extips (clear_slot hit (fun _ => no_extipv4) 0 (extipv4List e)) e).
Definition delete_svc_extipv4 (vIPv4 : Z) (s : gwy) : (Z * option (Z * Z)) * gwy :=
  let '(r, s) := with_svc E "delete_svc_extipv4" None None
                   (pure_body (fun e => let '(x, e) := del_extip vIPv4 e in (Some x, e))) s in
  match r with
  | Some (Some x) =>
      ((0, Some (ex_tenant_id x, ex_extmcastvnid x)),
       if ex_domain x =? 0 then s else check_dregister_tunnel (ex_domain x) s)
  | Some None => ((0, None), s)
  | None => ((-1, None), s)
  end.

(** A forwarding rule goes with the addresses of its pool. *)
Definition del_rule (rule : cli_service_fwdrule_t) (e : dgwy_service_list_t) (s : gwy)
    : Z * dgwy_service_list_t * gwy :=
  (0, with_rules (clear_slot (rule_match rule) (fun _ => no_fwd_rule) 0 (fwdruleList e)) e,
   match find_slot (rule_match rule) 0 (fwdruleList e) with
   | Some x => fwdrule_pip_deregister (fw_pip_min x) (fw_pip_max x) (cl_domain rule) s
   | None => s
   end).
Definition delete_svc_fwd_rule (rule : cli_service_fwdrule_t) : gwy -> Z * gwy :=
  with_svc E "delete_svc_fwd_rule" (-1) (-1) (del_rule rule).

(** ** VLANs of a network *)

(** The first VLAN goes into slot 0; the others into the first slot that is 0.
    The search of the VLANs does not stop at a match. *)
Definition add_vlan (vlan : Z) (m : domain_vlan_map_t) : Z * domain_vlan_map_t :=
  if existsb (Z.eqb vlan) (dv_vlans m) then (-1, m)
  else match first_hit (Z.eqb 0) 0 (dv_vlans m) with
       | Some i => (0, mk_dv (dv_domain m) (<[i := vlan]> (dv_vlans m)))
       | None => (-1, m)
       end.
(** What a change of the VLANs comes to: nothing, a new network, another VLAN
    of a network, or a network taken away with its first VLAN. *)
Inductive dv_change := Dv_none | Dv_new | Dv_more | Dv_gone (vlan : Z).
Definition change_vlans (cmd domain vlan : Z) (l : list domain_vlan_map_t)
    : dv_change * list domain_vlan_map_t :=
  match scan (fun x => dv_domain x =? domain) (fun x => dv_domain x =? INVALID_DOMAIN_ID) 0 l None with
  | (Some i, _) =>
      match l !! i with
      | Some m =>
          if cmd =? CMD_SET_DOMAIN_VLAN then
            let '(ret, m) := add_vlan vlan m in
            (if ret =? 0 then Dv_more else Dv_none, <[i := m]> l)
          else if cmd =? CMD_DEL_DOMAIN_VLAN then
            (Dv_gone (hd 0 (dv_vlans m)), <[i := with_dv_domain INVALID_DOMAIN_ID no_dv]> l)
          else (Dv_none, l)
      | None => (Dv_none, l)
      end
  | (None, Some f) =>
      if cmd =? CMD_SET_DOMAIN_VLAN then
        (Dv_new, alter (fun m => mk_dv domain (<[0%nat := vlan]> (dv_vlans m))) f l)
      else (Dv_none, l)
  | (None, None) => (Dv_none, l)
  end.
(** While the service is locked a network taken away leaves its multicast group. *)
Definition dvlist_body (cmd domain vlan : Z) (e : dgwy_service_list_t) (s : gwy)
    : dv_change * dgwy_service_list_t * gwy :=
  let '(r, l) := change_vlans cmd domain vlan (dvList e) in
  (r, with_dvs l e,
   match r with Dv_gone _ => send_ext_mcast_recv_join E domain DPS_MCAST_RECV_LEAVE s | _ => s end).
(** The result, and [dvlcfg->vlans[0]] as the call leaves it. *)
Definition update_svc_table_dvlist (cmd domain vlan : Z) (s : gwy) : (Z * Z) * gwy :=
  let '(r, s) := with_svc E "update_svc_table_dvlist" Dv_none Dv_none (dvlist_body cmd domain vlan) s in
  match r with
  | Dv_none => ((-1, vlan), s)
  | Dv_new => ((0, vlan), now_vlan s)
  | Dv_more => ((0, vlan), s)
  | Dv_gone v => ((0, v), s)
  end.
End tunnels.
