(* ===== verification/GwCtrl.v ===== *)
(** * The commands of the gateway: [dgwy_ctrl_*] and [api_dgadmin_*]

    A command changes the service, registers or deregisters tunnels and tells
    the kernel module, in [dgadmutil.c]; [dgadmin_generic_api.c] stops the data
    path around a removal.  Commands that also set up addresses with [ip] and
    [ifconfig] are modelled where they only do so at the end. *)
From S2P Require Export GwTunnels.
From stdpp Require Import gmap strings.
#[local] Open Scope Z_scope.

Section commands.
Context (E : gw_env).

(** [if(... == -1) return -1;] and the message to the kernel. *)
Definition then_tell (m : nl_msg) (r : Z * gwy) : Z * gwy :=
  if r.1 =? -1 then (-1, r.2) else nl_send E m r.2.

Definition dgwy_ctrl_svc_ipv4 (cmd ifipv4 mask nexthop vlan_id : Z) (flags : bool) (s : gwy) : Z * gwy :=
  then_tell (Nl_svc_ipv4 cmd ifipv4)
    (if (cmd =? CMD_ADD_IPV4) && negb (mask =? 0) && negb (nexthop =? 0) && flags
     then update_svc_table_ifipv4 E ifipv4 mask nexthop vlan_id s else (0, s)).

(** The tunnel is registered whatever the command. *)
Definition dgwy_ctrl_svc_extipv4 (cmd : Z) (extip : extipv4_t) (s : gwy) : Z * gwy :=
  let '(r, s) :=
    if cmd =? CMD_DEL_EXTVIP then (0, s) else update_svc_table_extipv4 E extip s in
  if r =? -1 then (-1, s)
  else
    let s := if g_dovenet_ipv4 s =? 0 then s else register_external E (ex_domain extip) s in
    nl_send E (Nl_svc_extvip cmd extip) s.

Definition dgwy_ctrl_svc_intipv4 (cmd : Z) (intip : intipv4_t) (s : gwy) : Z * gwy :=
  then_tell (Nl_svc_intvip cmd intip) (update_svc_table_intipv4 E intip s).

(** The first MAC becomes that of the gateway. *)
Definition dgwy_ctrl_svc_macs (cmd : Z) (m : ifmac_t) (s : gwy) : Z * gwy :=
  then_tell (Nl_svc_macs cmd m)
    (if cmd =? CMD_ADD_IFMAC then
       let s := if forallb (Z.eqb 0) (gMAC s) then set_gMAC (im_mac m) s else s in
       update_svc_table_macs E m s
     else (0, s)).

Definition dgwy_ctrl_svc_domains (cmd domain : Z) (s : gwy) : Z * gwy :=
  then_tell (Nl_svc_domain cmd domain) (update_svc_table_domain E domain s).

(** [vconfig] and [ifconfig] of a VLAN. *)
Definition real_vlan (vlan : Z) : bool := (0 <? vlan) && (vlan <? 4096).
(** [vlans] is the whole array of the request, told to the kernel as the table
    function left it. *)
Definition dgwy_ctrl_svc_domain_vlans (cmd domain : Z) (vlans : list Z) (s : gwy) : Z * gwy :=
  let vlan := hd 0 vlans in
  if cmd =? CMD_SET_DOMAIN_VLAN then
    let '((r, v), s) := update_svc_table_dvlist E cmd domain vlan s in
    if r =? -1 then (-1, s)
    else
      let s := if real_vlan v then emit (Vlan_up v) s else s in
      let s := if g_dovenet_ipv4 s =? 0 then s else register_vlan E domain s in
      nl_send E (Nl_svc_domain_vlans cmd domain (v :: tl vlans)) s
  else if cmd =? CMD_DEL_DOMAIN_VLAN then
    let s := check_dregister_tunnel E domain s in
    let '((r, v), s) := update_svc_table_dvlist E cmd domain vlan s in
    if r =? -1 then (-1, s)
    else
      let s := if real_vlan v then emit (Vlan_down v) s else s in
      nl_send E (Nl_svc_domain_vlans cmd domain (v :: tl vlans)) s
  else nl_send E (Nl_svc_domain_vlans cmd domain vlans) s.

Definition dgwy_ctrl_set_global (cmd : Z) (s : gwy) : Z * gwy :=
  nl_send E (Nl_global cmd) (set_glb_state (if cmd =? CMD_START then 1 else 0) s).

Definition dgwy_ctrl_fwd_rule (cmd : Z) (r : fwd_rule_t) (s : gwy) : Z * gwy :=
  if cmd =? CMD_ADD_FWD_RULE then
    let '(ret, s) := update_svc_table_fwdrule E r s in
    if ret =? -1 then (-1, s) else nl_send E (Nl_fwdtbl cmd r) (register_pips E r s)
  else nl_send E (Nl_fwdtbl cmd r) s.

(** The address of the gateway in the overlay. *)
Definition dgwy_ctrl_set_dovenet_ipv4 (ipv4 nexthop : Z) (s : gwy) : Z * gwy :=
  let '(_, s) := update_svc_dovenet_ipv4 E ipv4 s in
  let s := check_register_tunnel E (set_dovenet ipv4 s) in
  nl_send E (Nl_dovenet CMD_DOVNET_IPV4 ipv4 nexthop) s.
Definition dgwy_ctrl_set_external_ipv4 (ipv4 nexthop : Z) (s : gwy) : Z * gwy :=
  nl_send E (Nl_dovenet CMD_EXTIF_IPV4 ipv4 nexthop) (check_register_tunnel E s).

(** Subnets of a network; without any left the network is dedicated again. *)
Definition dgwy_ctrl_add_vnid_info (vnid IPv4 IPv4_mask IPv4_nexthop state : Z) (s : gwy) : Z * gwy :=
  let '(_, s) := update_svc_vnid_info E vnid IPv4 IPv4_mask IPv4_nexthop state true s in
  nl_send E (vnid_info vnid state 0) s.
Definition dgwy_ctrl_del_vnid_info (vnid IPv4 IPv4_mask IPv4_nexthop state : Z) (s : gwy) : Z * gwy :=
  let '(_, s) := update_svc_vnid_info E vnid IPv4 IPv4_mask IPv4_nexthop state false s in
  let '(empty, s) := is_vnid_subnet_empty E vnid s in
  if empty =? 0 then (0, s) else nl_send E (vnid_info vnid VNID_INFO_STATE_DEDICATED 0) s.

(** Networks shared with the outside. *)
Definition dgwy_ctrl_extshared_vnids (vnid domain extmcast cmd : Z) (s : gwy) : Z * gwy :=
  if cmd =? CMD_ADD_EXT_SHARED then
    let '(r, s) := update_svc_table_extsharedvnids E vnid domain extmcast true s in
    if r =? -1 then (-1, s)
    else (0, if g_dovenet_ipv4 s =? 0 then s else register_external E vnid s)
  else if cmd =? CMD_DEL_EXT_SHARED then
    let '(r, s) := update_svc_table_extsharedvnids E vnid domain extmcast false s in
    if r =? -1 then (-1, s)
    else (0, check_register_tunnel E (check_dregister_tunnel E vnid s))
  else (0, s).

(** ** The interface of the command line and of the REST server *)

(** [if(ret_val) status = DOVE_SERVICE_ADD_STATUS_FAIL;]: [true] is success. *)
Definition status_of (r : Z * gwy) : bool * gwy := (r.1 =? 0, r.2).

Definition api_dgadmin_add_domain_vlan (domain vlan : Z) (s : gwy) : bool * gwy :=
  status_of (dgwy_ctrl_svc_domain_vlans CMD_SET_DOMAIN_VLAN domain (vlan :: replicate 15 0) s).
Definition api_dgadmin_del_domain_vlan (domain vlan : Z) (s : gwy) : bool * gwy :=
  let '(_, s) := dgwy_ctrl_set_global CMD_STOP s in
  let '(ok, s) := status_of
    (dgwy_ctrl_svc_domain_vlans CMD_DEL_DOMAIN_VLAN domain (vlan :: replicate 15 0) s) in
  let '(_, s) := dgwy_ctrl_set_global CMD_START s in (ok, s).
Definition api_dgadmin_add_vnid_subnetv4 (vnid IPv4 IPv4_mask IPv4_nexthop mode : Z) (s : gwy) : bool * gwy :=
  status_of (dgwy_ctrl_add_vnid_info vnid IPv4 IPv4_mask IPv4_nexthop mode s).
Definition api_dgadmin_del_vnid_subnetv4 (vnid IPv4 IPv4_mask IPv4_nexthop mode : Z) (s : gwy) : bool * gwy :=
  status_of (dgwy_ctrl_del_vnid_info vnid IPv4 IPv4_mask IPv4_nexthop mode s).
Definition api_dgadmin_add_extshared_vnids (vnid domain extmcast : Z) (s : gwy) : bool * gwy :=
  status_of (dgwy_ctrl_extshared_vnids vnid domain extmcast CMD_ADD_EXT_SHARED s).
Definition api_dgadmin_del_extshared_vnids (vnid : Z) (s : gwy) : bool * gwy :=
  status_of (dgwy_ctrl_extshared_vnids vnid 0 0 CMD_DEL_EXT_SHARED s).
Definition api_dgadmin_unset_ext_mcast_vnid (vnid ipv4 : Z) (s : gwy) : bool * gwy :=
  status_of (dgwy_ctrl_unset_ext_mcast_vnid E vnid ipv4 s).
Definition api_dgadmin_del_extmcastvnid (vnid domainid : Z) (s : gwy) : bool * gwy :=
  let '(empty, s) := is_vnid_empty_intenant E domainid s in
  (true, if empty =? 0 then s else (dgwy_ctrl_unset_ext_mcast_vnid E vnid 0 s).2).
End commands.

(** ** What the gateway is told, by the command line, the REST server and the
    kernel module *)
Inductive gw_cmd :=
| Gw_type (cmd svc_type : Z)
| Gw_ipv4 (cmd ifipv4 mask nexthop vlan_id : Z) (flags : bool)
| Gw_del_ipv4 (ipv4 : Z)
| Gw_extipv4 (cmd : Z) (extip : extipv4_t)
| Gw_del_extipv4 (ipv4 : Z)
| Gw_intipv4 (cmd : Z) (intip : intipv4_t)
| Gw_macs (cmd : Z) (m : ifmac_t)
| Gw_del_nic (mac : list Z)
| Gw_domain (cmd domain : Z)
| Gw_vlans (cmd domain : Z) (vlans : list Z)
| Gw_del_vlan (domain vlan : Z)
| Gw_global (cmd : Z)
| Gw_rule (cmd : Z) (r : fwd_rule_t)
| Gw_del_rule (r : cli_service_fwdrule_t)
| Gw_dovenet (ipv4 nexthop : Z)
| Gw_external (ipv4 nexthop : Z)
| Gw_subnet (vnid ipv4 mask nexthop state : Z) (add : bool)
| Gw_shared (vnid domain extmcast cmd : Z)
| Gw_mcast (vnid ipv4 : Z) (add : bool)
| Gw_del_mcast (vnid domainid : Z)
| Gw_reset
| Gw_leave
| Gw_lists (vnid : Z)
| Gw_location (q : dgwy_dps_query_list_info_t)
| Gw_location_gone (q : dgwy_dps_query_list_info_t)
| Gw_vip_gone (q : dgwy_dps_query_list_info_t)
| Gw_legacy (q : dgwy_dps_query_list_info_t)
| Gw_policy (q : dgwy_dps_query_list_info_t)
| Gw_policy_of (svnid : Z) (q : dgwy_dps_query_list_info_t)
| Gw_receiver (q : dgwy_dps_query_list_info_t)
| Gw_sender (q : dgwy_dps_query_list_info_t).
Definition gw_run (E : gw_env) (c : gw_cmd) (s : gwy) : gwy :=
  match c with
  | Gw_type cmd t => (dgwy_ctrl_set_svc_type E cmd t s).2
  | Gw_ipv4 cmd a m n v f => (dgwy_ctrl_svc_ipv4 E cmd a m n v f s).2
  | Gw_del_ipv4 a => (delete_svc_ipv4 E a s).2
  | Gw_extipv4 cmd x => (dgwy_ctrl_svc_extipv4 E cmd x s).2
  | Gw_del_extipv4 a => (delete_svc_extipv4 E a s).2
  | Gw_intipv4 cmd x => (dgwy_ctrl_svc_intipv4 E cmd x s).2
  | Gw_macs cmd m => (dgwy_ctrl_svc_macs E cmd m s).2
  | Gw_del_nic m => (delete_svc_nic E m s).2
  | Gw_domain cmd d => (dgwy_ctrl_svc_domains E cmd d s).2
  | Gw_vlans cmd d l => (dgwy_ctrl_svc_domain_vlans E cmd d l s).2
  | Gw_del_vlan d v => (api_dgadmin_del_domain_vlan E d v s).2
  | Gw_global cmd => (dgwy_ctrl_set_global E cmd s).2
  | Gw_rule cmd r => (dgwy_ctrl_fwd_rule E cmd r s).2
  | Gw_del_rule r => (delete_svc_fwd_rule E r s).2
  | Gw_dovenet a n => (dgwy_ctrl_set_dovenet_ipv4 E a n s).2
  | Gw_external a n => (dgwy_ctrl_set_external_ipv4 E a n s).2
  | Gw_subnet v a m n st add =>
      (if add then api_dgadmin_add_vnid_subnetv4 E v a m n st s
       else api_dgadmin_del_vnid_subnetv4 E v a m n st s).2
  | Gw_shared v d m cmd => (dgwy_ctrl_extshared_vnids E v d m cmd s).2
  | Gw_mcast v a add =>
      (if add then dgwy_ctrl_set_ext_mcast_vnid E v a s else dgwy_ctrl_unset_ext_mcast_vnid E v a s).2
  | Gw_del_mcast v d => (api_dgadmin_del_extmcastvnid E v d s).2
  | Gw_reset => (reset_service E s).2
  | Gw_leave => check_del_tep E s
  | Gw_lists v => (dgwy_request_vlangw_lst E v (dgwy_request_extgw_lst E v (dgwy_request_bcast_lst E v s).2).2).2
  | Gw_location q => dove_location_mac_update E q s
  | Gw_location_gone q => dove_location_mac_delete E q s
  | Gw_vip_gone q => dove_location_vip_delete E q s
  | Gw_legacy q => dove_location_legacy_unavailable E q s
  | Gw_policy q => ask_policy E q s
  | Gw_policy_of v q => ask_policy_of E v q s
  | Gw_receiver q => dove_mcast_dcs_rcvr_notify E q s
  | Gw_sender q => dove_mcast_dcs_sender_notify E q s
  end.
Definition gw_runs (E : gw_env) (cs : list gw_cmd) (s : gwy) : gwy :=
  fold_left (fun s c => gw_run E c s) cs s.
