(* ===== verification/GwRefine.v ===== *)
(** * The tables of the service are the configuration they mean

    Each operation on a locked service keeps the arrays in order and does to
    the configuration what the specification says. *)
From S2P Require Export GwTables GwTunnels.
From stdpp Require Import gmap strings.
#[local] Open Scope Z_scope.

(** ** What the tables of the service mean

    The configuration of a gateway as finite maps of bounded size, and what
    each operation on the service does to it.  [svc_abs] reads the
    configuration off a service; [svc_ok] says that the arrays are used as the
    loops expect. *)
(** ** The arrays as tables *)
#[export] Instance domain_slot : Slot Z Z unit :=
  {| used d := negb (d =? INVALID_DOMAIN_ID); key d := d; val _ := tt |}.
#[export] Instance ifmac_slot : Slot ifmac_t (list Z * Z) unit :=
  {| used x := negb (mac_zero x); key x := (im_mac x, im_vlan x); val _ := tt |}.
#[export] Instance ifipv4_slot : Slot ifipv4_t Z (Z * Z * Z) :=
  {| used x := negb (ii_ipv4 x =? 0); key := ii_ipv4;
     val x := (ii_mask x, ii_nexthop x, ii_vlan_id x) |}.
Definition extip_key (x : extipv4_t) :=
  (ex_ipv4 x, ex_domain x, ex_port_start x, ex_port_end x, ex_tenant_id x, ex_extmcastvnid x).
#[export] Instance extipv4_slot : Slot extipv4_t (Z * Z * Z * Z * Z * Z) unit :=
  {| used x := negb (ex_ipv4 x =? 0); key := extip_key; val _ := tt |}.
#[export] Instance intipv4_slot : Slot intipv4_t (Z * Z * Z) unit :=
  {| used x := negb (in_ipv4 x =? 0); key x := (in_ipv4 x, in_port_start x, in_port_end x);
     val _ := tt |}.
Definition rule_key (x : fwd_rule_t) :=
  (fw_domain x, fw_ipv4 x, fw_port x, fw_proto x, fw_realipv4 x, fw_realport x, fw_pip_min x, fw_pip_max x).
#[export] Instance rule_slot : Slot fwd_rule_t (Z * Z * Z * Z * Z * Z * Z * Z) unit :=
  {| used x := negb (fw_ipv4 x =? 0); key := rule_key; val _ := tt |}.
#[export] Instance subnet_slot : Slot vnid_subnet_t (Z * Z) (Z * Z * Z) :=
  {| used x := negb (vs_IPv4 x =? 0); key x := (vs_vnid x, vs_IPv4 x);
     val x := (vs_IPv4_mask x, vs_subnet_mode x, vs_IPv4_nexthop x) |}.
#[export] Instance mcast_slot : Slot ext_mcast_vnid_t Z (Z * Z) :=
  {| used x := negb (em_vnid x =? 0); key := em_vnid; val x := (em_ipv4 x, em_master x) |}.
#[export] Instance shared_slot : Slot extshared_vnids_t Z (Z * Z) :=
  {| used x := negb (es_vnid x =? 0); key := es_vnid; val x := (es_tenant_id x, es_extmcastvnid x) |}.
(** The VLANs of a network are an array of their own. *)
Definition vlan_slot : Slot Z Z unit :=
  {| used v := negb (v =? 0); key v := v; val _ := tt |}.
Definition vlan_set (l : list Z) : gmap Z unit := rep (H := vlan_slot) l.
#[export] Instance dv_slot : Slot domain_vlan_map_t Z (gmap Z unit) :=
  {| used x := negb (dv_domain x =? INVALID_DOMAIN_ID); key := dv_domain;
     val x := vlan_set (dv_vlans x) |}.

(** ** A configuration *)
Record config := mk_config {
  c_mtu : Z; c_dovenet : Z; c_mgmt : Z; c_dmc : Z * Z;
  c_domains : gmap Z unit; c_macs : gmap (list Z * Z) unit; c_ips : gmap Z (Z * Z * Z);
  c_exts : gmap (Z * Z * Z * Z * Z * Z) unit; c_ints : gmap (Z * Z * Z) unit;
  c_rules : gmap (Z * Z * Z * Z * Z * Z * Z * Z) unit; c_vlans : gmap Z (gmap Z unit);
  c_subnets : gmap (Z * Z) (Z * Z * Z); c_mcasts : gmap Z (Z * Z); c_shared : gmap Z (Z * Z) }.
Definition svc_abs (e : dgwy_service_list_t) : config :=
  mk_config (sv_mtu e) (sv_dovenet_ipv4 e) (sv_mgmt_ipv4 e) (sv_dmc_ipv4 e, sv_dmc_port e)
    (rep (domainList e)) (rep (ifmacList e)) (rep (drop 1 (ifipv4List e))) (rep (extipv4List e))
    (rep (intipv4List e)) (rep (fwdruleList e)) (rep (dvList e)) (rep (vnid_subnet e))
    (rep (ext_mcast_vnids e)) (rep (extsharedVnidList e)).

(** The VLANs of a network: each once, none in a slot that is not in use. *)
Definition dv_ok (m : domain_vlan_map_t) : Prop :=
  length (dv_vlans m) = MAX_VLANS /\ slots_ok (H := vlan_slot) (dv_vlans m) /\
  (dv_domain m = INVALID_DOMAIN_ID -> dv_vlans m = replicate MAX_VLANS 0).
Record svc_ok (e : dgwy_service_list_t) : Prop := {
  ok_domains : slots_ok (domainList e) /\ length (domainList e) = MAX_DOMIANS;
  ok_macs : slots_ok (ifmacList e) /\ length (ifmacList e) = MAX_IF_MACS;
  ok_ips : slots_ok (drop 1 (ifipv4List e)) /\ length (ifipv4List e) = MAX_IFIPV4_ADDRESS;
  ok_exts : slots_ok (extipv4List e) /\ length (extipv4List e) = MAX_EXTIPV4_ADDRESS;
  ok_ints : slots_ok (intipv4List e) /\ length (intipv4List e) = MAX_INTIPV4_ADDRESS;
  ok_rules : slots_ok (fwdruleList e) /\ length (fwdruleList e) = MAX_FWDRULE;
  ok_dvs : slots_ok (dvList e) /\ length (dvList e) = MAX_DVMAP /\ Forall dv_ok (dvList e);
  ok_subnets : slots_ok (vnid_subnet e) /\ length (vnid_subnet e) = MAX_VNID_SUBNETS;
  ok_mcasts : slots_ok (ext_mcast_vnids e) /\ length (ext_mcast_vnids e) = MAX_EXT_VNIDS;
  ok_shared : slots_ok (extsharedVnidList e) /\ length (extsharedVnidList e) = MAX_DOMIANS }.

(** ** The operations *)
Inductive svc_op :=
| Op_domain (domain : Z)
| Op_mac (m : ifmac_t)
| Op_del_mac (mac : list Z)
| Op_ip (ipv4 mask nexthop vlan_id : Z)
| Op_del_ip (ipv4 : Z)
| Op_ext (x : extipv4_t)
| Op_del_ext (ipv4 : Z)
| Op_int (x : intipv4_t)
| Op_rule (r : fwd_rule_t)
| Op_share (vnid tenant extmcast : Z)
| Op_unshare (vnid : Z)
| Op_subnet (x : vnid_subnet_t) (oper : bool)
| Op_mcast (vnid ipv4 : Z) (oper : bool)
| Op_vlan (domain vlan : Z)
| Op_del_vlans (domain : Z)
| Op_mtu (mtu : Z)
| Op_dovenet (ipv4 : Z)
| Op_mgmt (ipv4 : Z)
| Op_dmc (ipv4 port : Z).

(** What the function does with the service while it holds the lock. *)
Definition done_unless {A} (x : option A) (e : dgwy_service_list_t) : Z * dgwy_service_list_t :=
  (match x with Some _ => 0 | None => -1 end, e).
Definition vlans_body (cmd domain vlan : Z) (e : dgwy_service_list_t) : Z * dgwy_service_list_t :=
  let '(r, l) := change_vlans cmd domain vlan (dvList e) in
  (match r with Dv_none => -1 | _ => 0 end, with_dvs l e).
Definition op_body (o : svc_op) (e : dgwy_service_list_t) : Z * dgwy_service_list_t :=
  match o with
  | Op_domain d => add_domain d e
  | Op_mac m => add_ifmac m e
  | Op_del_mac mac => (0, del_ifmac mac e)
  | Op_ip a b c d => add_ifipv4 a b c d e
  | Op_del_ip a => (0, del_ifipv4 a e)
  | Op_ext x => add_extip x e
  | Op_del_ext a => (0, (del_extip a e).2)
  | Op_int x => add_intip x e
  | Op_rule r => add_rule r e
  | Op_share v t m => add_shared v t m e
  | Op_unshare v => let '(x, e) := del_shared v e in done_unless x e
  | Op_subnet x oper => (0, set_subnet x oper e)
  | Op_mcast v a oper => (0, set_mcast v a oper e)
  | Op_vlan d v => vlans_body CMD_SET_DOMAIN_VLAN d v e
  | Op_del_vlans d => vlans_body CMD_DEL_DOMAIN_VLAN d 0 e
  | Op_mtu m => (0, with_mtu m e)
  | Op_dovenet a => (0, with_dovenet a e)
  | Op_mgmt a => (0, with_mgmt a e)
  | Op_dmc a p => (0, with_dmc a p e)
  end.

(** Nobody asks for an entry that looks like an unused slot. *)
Definition op_ok (o : svc_op) : Prop :=
  match o with
  | Op_domain d | Op_vlan d _ | Op_del_vlans d => d <> INVALID_DOMAIN_ID
  | Op_mac m => mac_zero m = false
  | Op_ip a _ _ _ | Op_del_ip a | Op_del_ext a => a <> 0
  | Op_ext x => ex_ipv4 x <> 0
  | Op_int x => in_ipv4 x <> 0
  | Op_rule r => fw_ipv4 r <> 0
  | Op_share v _ _ | Op_unshare v | Op_mcast v _ _ => v <> 0
  | Op_subnet x _ => vs_IPv4 x <> 0
  | _ => True
  end /\ match o with Op_vlan _ v => v <> 0 | _ => True end.
#[export] Instance op_ok_dec o : Decision (op_ok o).
Proof. unfold op_ok. destruct o; apply _. Defined.

(** ** The specification: the result and the new configuration

    Removing a MAC or an external address takes one of the entries that carry
    it, if there is one. *)
Definition set_domains x c := mk_config (c_mtu c) (c_dovenet c) (c_mgmt c) (c_dmc c) x (c_macs c)
  (c_ips c) (c_exts c) (c_ints c) (c_rules c) (c_vlans c) (c_subnets c) (c_mcasts c) (c_shared c).
Definition set_macs x c := mk_config (c_mtu c) (c_dovenet c) (c_mgmt c) (c_dmc c) (c_domains c) x
  (c_ips c) (c_exts c) (c_ints c) (c_rules c) (c_vlans c) (c_subnets c) (c_mcasts c) (c_shared c).
Definition set_ips x c := mk_config (c_mtu c) (c_dovenet c) (c_mgmt c) (c_dmc c) (c_domains c)
  (c_macs c) x (c_exts c) (c_ints c) (c_rules c) (c_vlans c) (c_subnets c) (c_mcasts c) (c_shared c).
Definition set_exts x c := mk_config (c_mtu c) (c_dovenet c) (c_mgmt c) (c_dmc c) (c_domains c)
  (c_macs c) (c_ips c) x (c_ints c) (c_rules c) (c_vlans c) (c_subnets c) (c_mcasts c) (c_shared c).
Definition set_ints x c := mk_config (c_mtu c) (c_dovenet c) (c_mgmt c) (c_dmc c) (c_domains c)
  (c_macs c) (c_ips c) (c_exts c) x (c_rules c) (c_vlans c) (c_subnets c) (c_mcasts c) (c_shared c).
Definition set_rules x c := mk_config (c_mtu c) (c_dovenet c) (c_mgmt c) (c_dmc c) (c_domains c)
  (c_macs c) (c_ips c) (c_exts c) (c_ints c) x (c_vlans c) (c_subnets c) (c_mcasts c) (c_shared c).
Definition set_vlans x c := mk_config (c_mtu c) (c_dovenet c) (c_mgmt c) (c_dmc c) (c_domains c)
  (c_macs c) (c_ips c) (c_exts c) (c_ints c) (c_rules c) x (c_subnets c) (c_mcasts c) (c_shared c).
Definition set_subnets x c := mk_config (c_mtu c) (c_dovenet c) (c_mgmt c) (c_dmc c) (c_domains c)
  (c_macs c) (c_ips c) (c_exts c) (c_ints c) (c_rules c) (c_vlans c) x (c_mcasts c) (c_shared c).
Definition set_mcasts x c := mk_config (c_mtu c) (c_dovenet c) (c_mgmt c) (c_dmc c) (c_domains c)
  (c_macs c) (c_ips c) (c_exts c) (c_ints c) (c_rules c) (c_vlans c) (c_subnets c) x (c_shared c).
Definition set_shared x c := mk_config (c_mtu c) (c_dovenet c) (c_mgmt c) (c_dmc c) (c_domains c)
  (c_macs c) (c_ips c) (c_exts c) (c_ints c) (c_rules c) (c_vlans c) (c_subnets c) (c_mcasts c) x.

(** An entry more, if it is new and there is room. *)
Definition adds `{Countable K} {V} (cap : nat) (k : K) (v : V) (m : gmap K V)
    (set : gmap K V -> config) (r : Z) (c' : config) : Prop :=
  let '(r0, m') := add_entry cap k v m in r = r0 /\ c' = set m'.
(** One of the entries that [sel] picks is gone, or there was none. *)
Definition removes_one `{Countable K} {V} (sel : K -> Prop) (m m' : gmap K V) : Prop :=
  (exists k v, sel k /\ m !! k = Some v /\ m' = delete k m) \/
  ((forall k, sel k -> m !! k = None) /\ m' = m).

Definition spec_step (o : svc_op) (c : config) (r : Z) (c' : config) : Prop :=
  match o with
  | Op_domain d => adds MAX_DOMIANS d tt (c_domains c) (fun m => set_domains m c) r c'
  | Op_mac x => adds MAX_IF_MACS (key x) tt (c_macs c) (fun m => set_macs m c) r c'
  | Op_ip a b n v => adds (MAX_IFIPV4_ADDRESS - 1) a (b, n, u16 v) (c_ips c) (fun m => set_ips m c) r c'
  | Op_ext x => adds MAX_EXTIPV4_ADDRESS (key x) tt (c_exts c) (fun m => set_exts m c) r c'
  | Op_int x => adds MAX_INTIPV4_ADDRESS (key x) tt (c_ints c) (fun m => set_ints m c) r c'
  | Op_rule x => adds MAX_FWDRULE (key x) tt (c_rules c) (fun m => set_rules m c) r c'
  | Op_share v t m => adds MAX_DOMIANS v (t, m) (c_shared c) (fun m => set_shared m c) r c'
  | Op_unshare v =>
      r = (if decide (c_shared c !! v = None) then -1 else 0) /\ c' = set_shared (delete v (c_shared c)) c
  | Op_del_mac mac => r = 0 /\ exists m, removes_one (fun k => k.1 = mac /\ forallb (Z.eqb 0) mac = false) (c_macs c) m /\ c' = set_macs m c
  | Op_del_ip a => r = 0 /\ c' = set_ips (delete a (c_ips c)) c
  | Op_del_ext a => r = 0 /\ exists m, removes_one (fun '(ip, _, _, _, _, _) => ip = a) (c_exts c) m /\ c' = set_exts m c
  | Op_subnet x oper =>
      r = 0 /\ c' = set_subnets
        (if oper then put_entry MAX_VNID_SUBNETS (key x) (fun _ => val x) (c_subnets c)
         else delete (key x) (c_subnets c)) c
  | Op_mcast v a oper =>
      r = 0 /\ c' = set_mcasts
        (if oper then put_entry MAX_EXT_VNIDS v (fun o => (a, default 0 (snd <$> o))) (c_mcasts c)
         else delete v (c_mcasts c)) c
  | Op_vlan d v =>
      match c_vlans c !! d with
      | Some vs => let '(r0, vs) := add_entry MAX_VLANS v tt vs in
                   r = r0 /\ c' = set_vlans (<[d := vs]> (c_vlans c)) c
      | None => adds MAX_DVMAP d {[v := tt]} (c_vlans c) (fun m => set_vlans m c) r c'
      end
  | Op_del_vlans d =>
      r = (if decide (c_vlans c !! d = None) then -1 else 0) /\ c' = set_vlans (delete d (c_vlans c)) c
  | Op_mtu x => r = 0 /\ c' = mk_config x (c_dovenet c) (c_mgmt c) (c_dmc c) (c_domains c) (c_macs c)
      (c_ips c) (c_exts c) (c_ints c) (c_rules c) (c_vlans c) (c_subnets c) (c_mcasts c) (c_shared c)
  | Op_dovenet x => r = 0 /\ c' = mk_config (c_mtu c) x (c_mgmt c) (c_dmc c) (c_domains c) (c_macs c)
      (c_ips c) (c_exts c) (c_ints c) (c_rules c) (c_vlans c) (c_subnets c) (c_mcasts c) (c_shared c)
  | Op_mgmt x => r = 0 /\ c' = mk_config (c_mtu c) (c_dovenet c) x (c_dmc c) (c_domains c) (c_macs c)
      (c_ips c) (c_exts c) (c_ints c) (c_rules c) (c_vlans c) (c_subnets c) (c_mcasts c) (c_shared c)
  | Op_dmc x p => r = 0 /\ c' = mk_config (c_mtu c) (c_dovenet c) (c_mgmt c) (x, p) (c_domains c)
      (c_macs c) (c_ips c) (c_exts c) (c_ints c) (c_rules c) (c_vlans c) (c_subnets c) (c_mcasts c)
      (c_shared c)
  end.

(** The test of a search is by key. *)
Ltac by_key :=
  intros ?; cbn; unfold extip_key, rule_key;
  rewrite ?andb_true_iff, ?negb_true_iff, ?Z.eqb_neq, ?Z.eqb_eq, ?bool_decide_eq_true;
  repeat match goal with
  | x : ifmac_t |- _ => destruct x
  | x : extipv4_t |- _ => destruct x
  | x : intipv4_t |- _ => destruct x
  | x : fwd_rule_t |- _ => destruct x
  end; cbn in *; naive_solver congruence.
(** The other tables are as they were. *)
Ltac others_ok H := destruct H; constructor; cbn; done.

(** ** One table: an entry more *)
Section one_more.
Context `{Slot A K V} `{Countable K}.
Lemma adds_refines (free : A -> bool) hit x l cap (set : gmap K V -> config) r l' :
  (forall x, free x = negb (used x)) ->
  slots_ok l /\ length l = cap -> hits hit (key x) -> used x = true ->
  insert_slot hit free 0 x l = (r, l') ->
  (slots_ok l' /\ length l' = cap) /\ adds cap (key x) (val x) (rep l) set r (set (rep l')).
Proof.
  intros Hf [Hok Hl] Hh Hu Ei.
  pose proof (insert_slot_refines free Hf l hit x Hok Hh Hu) as HR.
  pose proof (length_insert_slot hit free 0 x l) as Hl'. rewrite Ei in HR, Hl'. cbn in Hl'.
  destruct HR as [? HR]. rewrite Hl in HR. unfold adds. rewrite <- HR.
  by rewrite Hl', Hl.
Qed.
End one_more.

Ltac slot_free :=
  intros ?; symmetry; etransitivity; [apply negb_involutive|]; first [done | apply Z.eqb_sym].

(** ** VLANs *)
Lemma vlan_set_empty : vlan_set (replicate MAX_VLANS 0) = ∅.
Proof. done. Qed.
Lemma vlan_set_one v : v <> 0 -> vlan_set (<[0%nat := v]> (replicate MAX_VLANS 0)) = {[v := tt]}.
Proof.
  intros Hv. unfold vlan_set, rep, content. cbn. rewrite (proj2 (Z.eqb_neq v 0)) by done. done.
Qed.

Lemma add_vlan_refines v m r m' :
  v <> 0 -> dv_ok m -> dv_domain m <> INVALID_DOMAIN_ID -> add_vlan v m = (r, m') ->
  dv_ok m' /\ dv_domain m' = dv_domain m /\
  (r, vlan_set (dv_vlans m')) = add_entry MAX_VLANS v tt (vlan_set (dv_vlans m)).
Proof.
  intros Hv (Hl & Hs & Hd) Hdom. unfold add_vlan, add_entry, vlan_set.
  destruct (existsb (Z.eqb v) (dv_vlans m)) eqn:Hx.
  { intros [= <- <-]. split_and!; [done..|]. rewrite decide_False; [done|]. intros [Hn _].
    apply existsb_exists in Hx as (y & Hy%list_elem_of_In & <-%Z.eqb_eq).
    apply list_elem_of_lookup in Hy as [i Hi].
    rewrite (rep_used (H := vlan_slot) _ i v) in Hn; [done..|]. cbn. by apply negb_true_iff, Z.eqb_neq. }
  assert (rep (H := vlan_slot) (dv_vlans m) !! v = None) as Hn.
  { apply (rep_no_hit (H := vlan_slot) _ (Z.eqb v)); [unfold hits; by_key|]. intros y Hy.
    apply not_true_iff_false. intros E. apply not_true_iff_false in Hx. apply Hx.
    apply existsb_exists. exists y. by rewrite <- list_elem_of_In. }
  pose proof (first_hit_spec (Z.eqb 0) 0 (dv_vlans m)) as Hf.
  destruct (first_hit (Z.eqb 0) 0 (dv_vlans m)) as [j|]; intros [= <- <-].
  - destruct Hf as (i & y & -> & Hi & <-%Z.eqb_eq & _). cbn [dv_domain dv_vlans Nat.add].
    destruct (rep_fill (H := vlan_slot) _ i 0 v Hs Hi eq_refl) as [Hok ->];
      [by apply negb_true_iff, Z.eqb_neq | done |].
    rewrite decide_True; [|split; [done|]; rewrite <- Hl; apply (room (H := vlan_slot)); eauto].
    split_and!; [|done|done]. split_and!; cbn; [by rewrite length_insert | done | done].
  - split_and!; [done..|]. rewrite decide_False; [done|]. intros [_ Hr]. rewrite <- Hl in Hr.
    apply (room (H := vlan_slot)) in Hr as (i & y & Hi%list_elem_of_lookup_2 & Hy); [|done].
    apply Hf in Hi. cbn in Hy. apply negb_false_iff, Z.eqb_eq in Hy as ->. done.
Qed.

Definition dvs_ok (l : list domain_vlan_map_t) : Prop :=
  slots_ok l /\ length l = MAX_DVMAP /\ Forall dv_ok l.

Lemma dv_free (x : domain_vlan_map_t) : (dv_domain x =? INVALID_DOMAIN_ID) = negb (used x).
Proof. cbn. by rewrite negb_involutive. Qed.

Lemma dvs_set l i m : dvs_ok l -> slots_ok (<[i := m]> l) -> dv_ok m -> dvs_ok (<[i := m]> l).
Proof.
  intros (_ & Hl & Hf) Hs Hm. split_and!; [done | by rewrite length_insert | by apply Forall_insert].
Qed.

Lemma add_vlans_refines d v l r l' c :
  d <> INVALID_DOMAIN_ID -> v <> 0 -> dvs_ok l -> c_vlans c = rep l ->
  change_vlans CMD_SET_DOMAIN_VLAN d v l = (r, l') ->
  dvs_ok l' /\ spec_step (Op_vlan d v) c (match r with Dv_none => -1 | _ => 0 end) (set_vlans (rep l') c).
Proof.
  intros Hd Hv Hok Hc. unfold change_vlans. cbn [spec_step]. rewrite Hc.
  destruct (scan (fun x => dv_domain x =? d) _ 0 l None) as [fo fr] eqn:E.
  pose proof Hok as (Hs & Hl & Hf). apply (scan_cases _ dv_free l _ d) in E; [|done|by_key].
  destruct fo as [i|].
  - destruct E as (m & Hi & Hu & <- & ->). rewrite Hi. cbn [Z.eqb Pos.eqb CMD_SET_DOMAIN_VLAN].
    destruct (add_vlan v m) as [ret m'] eqn:Ea. cbn [fst].
    apply add_vlan_refines in Ea as (Hm' & Hdom & Ea);
      [|done|by eapply Forall_lookup_1|by apply negb_true_iff, Z.eqb_neq in Hu].
    destruct (rep_over l i m m') as [Hs' Hr]; [done..|cbn; by rewrite Hdom|done|].
    intros [= <- <-]. split; [by apply dvs_set|]. rewrite Hr. cbn [val dv_slot]. rewrite <- Ea.
    split; [|done]. unfold add_entry in Ea. case_decide; injection Ea as -> _; done.
  - destruct fr as [f|].
    + destruct E as ((m & Hi & Hu) & Hn & Hroom). rewrite Hn. cbn [Z.eqb Pos.eqb CMD_SET_DOMAIN_VLAN].
      rewrite (alter_slot _ _ _ _ Hi). intros [= <- <-].
      assert (dv_domain m = INVALID_DOMAIN_ID) as Hinv by (cbn in Hu; by apply negb_false_iff, Z.eqb_eq in Hu).
      pose proof (Forall_lookup_1 _ _ _ _ Hf Hi) as (_ & _ & Hz). rewrite Hz by done.
      set (m' := mk_dv d (<[0%nat := v]> (replicate MAX_VLANS 0))).
      destruct (rep_fill l f m m') as [Hs' ->]; [done..|by apply negb_true_iff, Z.eqb_neq|done|].
      split.
      * apply dvs_set; [done..|]. split_and!; [done| |intros Ed; by destruct Hd].
        apply (rep_fill (H := vlan_slot) (replicate MAX_VLANS 0) 0 0 v); [|done..| |done].
        -- by apply (bool_decide_unpack _).
        -- by apply negb_true_iff, Z.eqb_neq.
      * unfold adds, add_entry. rewrite decide_True by (split; [done|lia]).
        cbn [val key dv_slot m' dv_vlans dv_domain]. by rewrite vlan_set_one.
    + destruct E as (Hn & Hfull). rewrite Hn. intros [= <- <-]. split; [done|].
      unfold adds, add_entry. rewrite decide_False by lia. split; [done|]. destruct c; cbn in *. by subst.
Qed.

Lemma del_vlans_refines d l r l' c :
  d <> INVALID_DOMAIN_ID -> dvs_ok l -> c_vlans c = rep l ->
  change_vlans CMD_DEL_DOMAIN_VLAN d 0 l = (r, l') ->
  dvs_ok l' /\ spec_step (Op_del_vlans d) c (match r with Dv_none => -1 | _ => 0 end) (set_vlans (rep l') c).
Proof.
  intros Hd Hok Hc. unfold change_vlans. cbn [spec_step]. rewrite Hc.
  destruct (scan (fun x => dv_domain x =? d) _ 0 l None) as [fo fr] eqn:E.
  pose proof Hok as (Hs & Hl & Hf). apply (scan_cases _ dv_free l _ d) in E; [|done|by_key].
  destruct fo as [i|].
  - destruct E as (m & Hi & Hu & <- & Hn). rewrite Hi, Hn.
    cbn [Z.eqb Pos.eqb CMD_DEL_DOMAIN_VLAN CMD_SET_DOMAIN_VLAN]. intros [= <- <-].
    destruct (rep_free l i m (with_dv_domain INVALID_DOMAIN_ID no_dv)) as [Hs' ->]; [done..|].
    split; [|by rewrite decide_False]. apply dvs_set; [done..|]. by apply (bool_decide_unpack _).
  - assert (rep l !! d = None) as Hn by (destruct fr; tauto).
    assert (set_vlans (rep l) c = c) as Ec by (destruct c; cbn in *; by subst).
    rewrite Hn, decide_True, delete_id, Ec by done. destruct fr; intros [= <- <-]; done.
Qed.

(** ** The first address is never used *)
Lemma ips_cons (l : list ifipv4_t) : length l = MAX_IFIPV4_ADDRESS -> exists x l1, l = x :: l1 /\ drop 1 l = l1.
Proof. destruct l as [|x l]; [done|]. intros _. by exists x, l. Qed.

Lemma add_ifipv4_refines a b n v e r e' :
  a <> 0 -> svc_ok e -> add_ifipv4 a b n v e = (r, e') ->
  svc_ok e' /\ spec_step (Op_ip a b n v) (svc_abs e) r (svc_abs e').
Proof.
  intros Ha Hok. unfold add_ifipv4, store. destruct (ok_ips _ Hok) as [Hs Hl].
  destruct (ips_cons _ Hl) as (x & l & El & Ed). rewrite Ed in Hs. rewrite El, insert_slot_1.
  destruct (insert_slot _ _ 0 _ l) as [r0 l'] eqn:Ei. intros [= <- <-].
  rewrite El in Hl. injection Hl as Hl.
  eapply (adds_refines _ _ _ _ (MAX_IFIPV4_ADDRESS - 1) (fun m => set_ips m (svc_abs e))) in Ei
    as [[Hs' Hl'] Hadd]; [|slot_free|split; [done|by rewrite Hl]|by_key|by apply negb_true_iff, Z.eqb_neq].
  split.
  - destruct Hok; constructor; cbn; try done. split; [done|]. by rewrite Hl'.
  - cbn [spec_step]. unfold svc_abs at 1 3. cbn [c_ips]. rewrite Ed. exact Hadd.
Qed.

Lemma del_ifipv4_refines a e :
  a <> 0 -> svc_ok e -> svc_ok (del_ifipv4 a e) /\ spec_step (Op_del_ip a) (svc_abs e) 0 (svc_abs (del_ifipv4 a e)).
Proof.
  intros Ha Hok. unfold del_ifipv4. destruct (ok_ips _ Hok) as [Hs Hl].
  destruct (ips_cons _ Hl) as (x & l & El & Ed). rewrite Ed in Hs. rewrite El, clear_slot_1.
  destruct (clear_slot_refines l (fun x => ii_ipv4 x =? a) a (fun _ => no_ifipv4)) as [Hs' Hr];
    [done|by_key|done|]. split.
  - destruct Hok; constructor; cbn; try done. split; [done|].
    rewrite length_clear_slot. by rewrite El in Hl.
  - split; [done|]. change (svc_abs (with_ifips ?l e)) with (set_ips (rep (drop 1 l)) (svc_abs e)).
    f_equal. cbn [drop svc_abs c_ips]. by rewrite drop_0, Hr, Ed.
Qed.

(** ** Removals that are not by key *)
Lemma del_ifmac_refines mac e :
  svc_ok e -> svc_ok (del_ifmac mac e) /\ spec_step (Op_del_mac mac) (svc_abs e) 0 (svc_abs (del_ifmac mac e)).
Proof.
  intros Hok. destruct (ok_macs _ Hok) as [Hs Hl]. unfold del_ifmac.
  assert (forall x, same_mac mac x = true <-> im_mac x = mac /\ mac_zero x = false) as Hm.
  { intros x. unfold same_mac. rewrite andb_true_iff, negb_true_iff, bool_decide_eq_true. tauto. }
  destruct (clear_slot_one (ifmacList e) (same_mac mac) (fun _ => no_ifmac)) as [Hs' Hr]; [done..| |].
  { intros x Hu [_ Hz]%Hm. cbn in Hu. by rewrite Hz in Hu. }
  split; [destruct Hok; constructor; cbn; try done; by rewrite length_clear_slot|].
  split; [done|]. eexists. split; [|reflexivity]. cbn [svc_abs c_macs with_macs ifmacList].
  assert (forall k, k.1 = mac /\ forallb (Z.eqb 0) mac = false ->
    (forall x, x ∈ ifmacList e -> same_mac mac x = false) -> rep (ifmacList e) !! k = None) as Hnone.
  { intros k [<- Hz] Hn. destruct (rep (ifmacList e) !! k) eqn:Ek; [|done].
    apply rep_used_inv in Ek as (x & Hin & _ & <- & _). specialize (Hn x Hin). cbn in *.
    destruct (Hm x) as [_ Hx]. by rewrite Hx in Hn. }
  destruct Hr as [(x & Hin & Hu & Hh & ->)|[-> [(x & _ & Hu & Hh)|Hn]]].
  - left. apply Hm in Hh as [<- Hz]. apply list_elem_of_lookup in Hin as [i Hi].
    exists (key x), tt. split_and!; [done|done|by erewrite rep_used|done].
  - apply Hm in Hh as [_ Hz]. cbn in Hu. by rewrite Hz in Hu.
  - right. split; [|done]. intros k Hk. by apply Hnone.
Qed.

Lemma del_extip_refines a e :
  a <> 0 -> svc_ok e ->
  svc_ok (del_extip a e).2 /\ spec_step (Op_del_ext a) (svc_abs e) 0 (svc_abs (del_extip a e).2).
Proof.
  intros Ha Hok. destruct (ok_exts _ Hok) as [Hs Hl]. unfold del_extip. cbn [snd].
  destruct (clear_slot_one (extipv4List e) (fun x => ex_ipv4 x =? a) (fun _ => no_extipv4))
    as [Hs' Hr]; [done..| |].
  { intros x Hu <-%Z.eqb_eq. cbn in Hu. by apply negb_false_iff, Z.eqb_eq in Hu. }
  split; [destruct Hok; constructor; cbn; try done; by rewrite length_clear_slot|].
  split; [done|]. eexists. split; [|reflexivity]. cbn [svc_abs c_exts with_extips extipv4List].
  destruct Hr as [(x & Hin & Hu & Hh & ->)|[-> [(x & _ & Hu & Hh)|Hn]]].
  - left. apply Z.eqb_eq in Hh. apply list_elem_of_lookup in Hin as [i Hi].
    exists (key x), tt. split_and!; [done|by erewrite rep_used|done].
  - apply Z.eqb_eq in Hh. cbn in Hu. apply negb_false_iff, Z.eqb_eq in Hu. congruence.
  - right. split; [|done]. intros k Hk. destruct (rep (extipv4List e) !! k) eqn:Ek; [|done].
    apply rep_used_inv in Ek as (x & Hin & _ & <- & _). specialize (Hn x Hin). cbn in Hk.
    by rewrite Hk, Z.eqb_refl in Hn.
Qed.

(** ** Every operation *)
Ltac one_more wr set Hok :=
  unfold add_domain, add_ifmac, add_extip, add_intip, add_rule, add_shared, store;
  let r := fresh "r" in let l := fresh "l" in let Ei := fresh "Ei" in
  destruct (insert_slot _ _ _ _ _) as [r l] eqn:Ei; intros [= <- <-];
  match goal with e : dgwy_service_list_t |- _ =>
  eapply (adds_refines _ _ _ _ _ (fun m => set m (svc_abs e))) in Ei as [? Ha];
    [split; [others_ok Hok|exact Ha] | slot_free | apply Hok | by_key
    | cbn; first [by apply negb_true_iff, Z.eqb_neq | by apply negb_true_iff]]
  end.
Lemma op_body_refines o e r e' :
  op_ok o -> svc_ok e -> op_body o e = (r, e') -> svc_ok e' /\ spec_step o (svc_abs e) r (svc_abs e').
Proof.
  intros [Ho Hv] Hok. destruct o; cbn [op_body op_ok] in *; unfold store.
  - (* domain *) one_more with_domains set_domains Hok.
  - (* mac *) one_more with_macs set_macs Hok.
  - (* del_mac *) intros [= <- <-]. by apply del_ifmac_refines.
  - (* ip *) by apply add_ifipv4_refines.
  - (* del_ip *) intros [= <- <-]. by apply del_ifipv4_refines.
  - (* ext *) one_more with_extips set_exts Hok.
  - (* del_ext *) intros [= <- <-]. by apply del_extip_refines.
  - (* int *) one_more with_intips set_ints Hok.
  - (* rule *) one_more with_rules set_rules Hok.
  - (* share *) one_more with_shared set_shared Hok.
  - (* unshare *)
    unfold del_shared, done_unless. intros [= <- <-]. destruct (ok_shared _ Hok) as [Hs Hl].
    assert (hits (fun x => es_vnid x =? vnid) vnid) as Hh by by_key.
    destruct (clear_slot_refines _ _ vnid (fun _ => no_shared) Hs Hh) as [Hs' Hr]; [done|].
    split; [destruct Hok; constructor; cbn; try done; by rewrite length_clear_slot|].
    pose proof (find_slot_rep _ _ _ Hs Hh) as Hf. cbn [spec_step svc_abs c_shared]. split.
    + rewrite <- Hf. by destruct (find_slot _ _ _).
    + by rewrite <- Hr.
  - (* subnet *)
    intros [= <- <-]. destruct (ok_subnets _ Hok) as [Hs Hl]. unfold set_subnet.
    assert (hits (fun y => (vs_IPv4 y =? vs_IPv4 x) && (vs_vnid y =? vs_vnid x)) (key x)) as Hh.
    { intros y. cbn. rewrite andb_true_iff, negb_true_iff, Z.eqb_neq, !Z.eqb_eq. naive_solver congruence. }
    destruct oper.
    + destruct (put_slot_refines (fun y => vs_IPv4 y =? 0) ltac:(slot_free) _ _ (fun _ => x) x
                  (fun _ => val x) Hs Hh) as [Hs' Hr]; [by apply negb_true_iff, Z.eqb_neq|done| |].
      { intros _ _ _. split_and!; [by apply negb_true_iff, Z.eqb_neq|done|done]. }
      split; [destruct Hok; constructor; cbn; try done; by rewrite length_put_slot|].
      split; [done|]. cbn [svc_abs c_subnets]. by rewrite <- Hl, <- Hr.
    + destruct (clear_slot_refines _ _ _ (fun _ => no_subnet) Hs Hh) as [Hs' Hr]; [done|].
      split; [destruct Hok; constructor; cbn; try done; by rewrite length_clear_slot|].
      split; [done|]. cbn [svc_abs c_subnets]. by rewrite <- Hr.
  - (* mcast *)
    intros [= <- <-]. destruct (ok_mcasts _ Hok) as [Hs Hl]. unfold set_mcast.
    assert (hits (fun y => em_vnid y =? vnid) vnid) as Hh by by_key.
    destruct oper.
    + destruct (put_slot_refines (fun y => em_vnid y =? 0) ltac:(slot_free) _ _
                  (fun y => mk_mcast ipv4 (em_vnid y) (em_master y)) (mk_mcast ipv4 vnid 0)
                  (fun o => (ipv4, default 0 (snd <$> o))) Hs Hh)
        as [Hs' Hr]; [by apply negb_true_iff, Z.eqb_neq|done|done|].
      split; [destruct Hok; constructor; cbn; try done; by rewrite length_put_slot|].
      split; [done|]. cbn [key mcast_slot em_vnid] in Hr. cbn [svc_abs c_mcasts]. by rewrite <- Hl, <- Hr.
    + destruct (clear_slot_refines _ _ _ (fun _ => no_mcast) Hs Hh) as [Hs' Hr]; [done|].
      split; [destruct Hok; constructor; cbn; try done; by rewrite length_clear_slot|].
      split; [done|]. cbn [svc_abs c_mcasts]. by rewrite <- Hr.
  - (* vlan *)
    unfold vlans_body. destruct (change_vlans _ _ _ _) as [r0 l'] eqn:Ec. intros [= <- <-].
    apply (add_vlans_refines _ _ _ _ _ (svc_abs e)) in Ec as [Hl Hc]; [|done..|apply Hok|done].
    split; [others_ok Hok|exact Hc].
  - (* del_vlans *)
    unfold vlans_body. destruct (change_vlans _ _ _ _) as [r0 l'] eqn:Ec. intros [= <- <-].
    apply (del_vlans_refines _ _ _ _ (svc_abs e)) in Ec as [Hl Hc]; [|done|apply Hok|done].
    split; [others_ok Hok|exact Hc].
  - (* mtu *) intros [= <- <-]. split; [others_ok Hok|done].
  - (* dovenet *) intros [= <- <-]. split; [others_ok Hok|done].
  - (* mgmt *) intros [= <- <-]. split; [others_ok Hok|done].
  - (* dmc *) intros [= <- <-]. split; [others_ok Hok|done].
Qed.
