(* ===== verification/GwLin.v ===== *)
(** * Threads on one service: every operation happens at one instant

    Whatever the other threads of the gateway do to the table between two
    looks at it, an operation either finds no service or a busy one 257 times,
    and changes nothing, or acts at one look on the service as it is then. *)
From S2P Require Export GwRefine.
From stdpp Require Import gmap strings.
#[local] Open Scope Z_scope.

(** The service is the second of two entries. *)
Definition table_ok (t : list dgwy_service_list_t) : Prop :=
  match t with [_; e] => svc_ok e | _ => False end.
Definition the_service (t : list dgwy_service_list_t) : option dgwy_service_list_t := t !! 1%nat.
Definition busy (t : list dgwy_service_list_t) : bool :=
  match the_service t with Some e => is_named e && sv_lock e | None => false end.

Section threads.
Context (E : gw_env).

(** What the functions of the code do for each operation; where a function
    goes on after it has given the lock back, its work under the lock. *)
Definition run_op (o : svc_op) : gwy -> Z * gwy :=
  match o with
  | Op_domain d => update_svc_table_domain E d
  | Op_mac m => update_svc_table_macs E m
  | Op_del_mac mac => delete_svc_nic E mac
  | Op_ip a b c d => update_svc_table_ifipv4 E a b c d
  | Op_del_ip a => delete_svc_ipv4 E a
  | Op_ext x => update E "update_svc_table_extipv4" (add_extip x)
  | Op_del_ext a => change E "delete_svc_extipv4" (fun e => (del_extip a e).2)
  | Op_int x => update_svc_table_intipv4 E x
  | Op_rule r => update_svc_table_fwdrule E r
  | Op_share v t m => update E "update_svc_table_extsharedvnids" (add_shared v t m)
  | Op_unshare v => update E "update_svc_table_extsharedvnids"
                      (fun e => let '(x, e) := del_shared v e in done_unless x e)
  | Op_subnet x oper => update_svc_vnid_info E (vs_vnid x) (vs_IPv4 x) (vs_IPv4_mask x)
                          (vs_IPv4_nexthop x) (vs_subnet_mode x) oper
  | Op_mcast v a oper => change E "update_svc_table_ext_mcast_vnid" (set_mcast v a oper)
  | Op_vlan d v => update E "update_svc_table_dvlist" (vlans_body CMD_SET_DOMAIN_VLAN d v)
  | Op_del_vlans d => update E "update_svc_table_dvlist" (vlans_body CMD_DEL_DOMAIN_VLAN d 0)
  | Op_mtu m => update_svc_table_mtu E m
  | Op_dovenet a => update_svc_dovenet_ipv4 E a
  | Op_mgmt a => update_svc_mgmt_ipv4 E a
  | Op_dmc a p => update_svc_dmc_ipv4 E a p
  end.
(** The answer without a service. *)
Definition no_service (o : svc_op) : Z := match o with Op_del_mac _ => 0 | _ => -1 end.
Definition op_caller (o : svc_op) : string :=
  match o with
  | Op_domain _ => "update_svc_table_domain" | Op_mac _ => "update_svc_table_macs"
  | Op_del_mac _ => "delete_svc_nic" | Op_ip _ _ _ _ => "update_svc_table_ifipv4"
  | Op_del_ip _ => "delete_svc_ipv4" | Op_ext _ => "update_svc_table_extipv4"
  | Op_del_ext _ => "delete_svc_extipv4" | Op_int _ => "update_svc_table_intipv4"
  | Op_rule _ => "update_svc_table_fwdrule"
  | Op_share _ _ _ | Op_unshare _ => "update_svc_table_extsharedvnids"
  | Op_subnet _ _ => "update_svc_vnid_info" | Op_mcast _ _ _ => "update_svc_table_ext_mcast_vnid"
  | Op_vlan _ _ | Op_del_vlans _ => "update_svc_table_dvlist" | Op_mtu _ => "update_svc_table_mtu"
  | Op_dovenet _ => "update_svc_dovenet_ipv4" | Op_mgmt _ => "update_svc_mgmt_ipv4"
  | Op_dmc _ _ => "update_svc_dmc_ipv4"
  end.
Lemma run_op_locked o s :
  run_op o s = with_svc E (op_caller o) (-1) (no_service o) (pure_body (op_body o)) s.
Proof. destruct o; try reflexivity. by destruct x. Qed.

(** ** Looks *)

(** The table at the [k]th look from [n] on, nothing changed in between by
    this thread. *)
Fixpoint seen (n k : nat) (t : list dgwy_service_list_t) : list dgwy_service_list_t :=
  match k with O => t | S k => others E (n + k) (seen n k t) end.

Lemma seen_S n k t : seen (S n) k (others E n t) = seen n (S k) t.
Proof.
  induction k as [|k IH]; cbn; [by rewrite Nat.add_0_r|]. rewrite IH. cbn. by rewrite Nat.add_succ_r.
Qed.

Context (Hothers : forall n t, table_ok t -> table_ok (others E n t)).

Lemma seen_ok n k t : table_ok t -> table_ok (seen n k t).
Proof. intros Ht. induction k as [|k IH]; cbn; auto. Qed.

Lemma get_spec caller s :
  table_ok (svc_table s) ->
  let t := others E (now s) (svc_table s) in
  exists e, the_service t = Some e /\
  dgwy_svc_table_get E caller s =
    if is_named e then
      if sv_lock e then (Busy, set_table (S (now s)) t s)
      else (Got 1, set_table (S (now s)) (<[1%nat := with_caller caller true e]> t) s)
    else (Absent, set_table (S (now s)) t s).
Proof.
  intros Hs t. pose proof (Hothers (now s) _ Hs) as Ht. fold t in Ht. unfold dgwy_svc_table_get.
  unfold look_again. cbn [svc_table set_table]. fold t.
  destruct t as [|e0 [|e [|? ?]]]; try done. exists e. split; [done|]. cbn [SVC_INDX_START drop first_hit].
  destruct (is_named e); [|done]. change ([e0; e] !! SVC_INDX_START) with (Some e). cbn. by destruct (sv_lock e).
Qed.

(** The lock is had at the first look that finds the service free. *)
Lemma svc_lock_spec retry caller s r s' :
  table_ok (svc_table s) -> svc_lock E retry caller s = (r, s') ->
  exists k, (k <= retry)%nat /\ let t := seen (now s) (S k) (svc_table s) in
    (forall j, (j < k)%nat -> busy (seen (now s) (S j) (svc_table s)) = true) /\
    exists e, the_service t = Some e /\
      ((is_named e = false /\ r = Absent /\ s' = set_table (now s + S k) t s) \/
       (busy t = true /\ k = retry /\ r = Busy /\ s' = set_table (now s + S k) t s) \/
       (is_named e = true /\ sv_lock e = false /\ r = Got 1 /\
        s' = set_table (now s + S k) (<[1%nat := with_caller caller true e]> t) s)).
Proof.
  revert s. induction retry as [|retry IH]; intros s Hs; cbn [svc_lock];
    destruct (get_spec caller s Hs) as (e & He & Eg); rewrite Eg; clear Eg;
    set (t := others E (now s) (svc_table s)) in *.
  - exists 0%nat. split; [done|]. cbn [seen]. rewrite Nat.add_0_r. fold t.
    split; [lia|]. exists e. split; [done|]. rewrite Nat.add_1_r. unfold busy. rewrite He.
    destruct (is_named e); [destruct (sv_lock e)|]; injection H as <- <-; auto 10.
  - destruct (is_named e) eqn:Hn; [destruct (sv_lock e) eqn:Hl|].
    + intros HL. apply IH in HL as (k & Hk & Hb & e' & He' & HL); [|by apply Hothers].
      cbn [svc_table set_table now] in *. subst t. rewrite !(seen_S (now s)) in *.
      exists (S k). split; [lia|]. cbv zeta. split.
      * intros [|j] Hj; [|rewrite <- seen_S; apply Hb; lia]. cbn [seen].
        rewrite Nat.add_0_r. unfold busy. by rewrite He, Hn, Hl.
      * exists e'. split; [done|]. rewrite Nat.add_succ_comm in HL.
        destruct HL as [?|[(?&?&?&?)|?]]; auto 10.
    + intros [= <- <-]. exists 0%nat. split; [lia|]. cbn [seen]. rewrite Nat.add_0_r. fold t.
      split; [lia|]. exists e. rewrite Nat.add_1_r. auto 10.
    + intros [= <- <-]. exists 0%nat. split; [lia|]. cbn [seen]. rewrite Nat.add_0_r. fold t.
      split; [lia|]. exists e. rewrite Nat.add_1_r. auto 10.
Qed.

(** The function that works on the service: not at all, or once, at the look
    that finds the service free. *)
Lemma with_svc_spec {R} caller (b a : R) body s r s' :
  table_ok (svc_table s) -> with_svc E caller b a body s = (r, s') ->
  exists k t, (k <= RETRIES)%nat /\ seen (now s) (S k) (svc_table s) = t /\ table_ok t /\
    (forall j, (j < k)%nat -> busy (seen (now s) (S j) (svc_table s)) = true) /\
    exists e, the_service t = Some e /\
      ((is_named e = false /\ r = a /\ s' = set_table (now s + S k) t s) \/
       (busy t = true /\ k = RETRIES /\ r = b /\ s' = set_table (now s + S k) t s) \/
       (is_named e = true /\ sv_lock e = false /\ exists e' s1,
          body (with_caller caller true e)
            (set_table (now s + S k) (<[1%nat := with_caller caller true e]> t) s) = (r, e', s1) /\
          s' = set_entry 1 (with_lock false e') s1)).
Proof.
  intros Hs. unfold with_svc. destruct (svc_lock E RETRIES caller s) as [x s1] eqn:HL.
  apply svc_lock_spec in HL as (k & Hk & Hb & e & He & HL); [|done].
  pose proof (seen_ok (now s) (S k) _ Hs) as Ht.
  intros Hr. exists k. eexists. split; [done|]. split; [reflexivity|]. split; [done|]. split; [done|].
  exists e. split; [done|].
  destruct HL as [(Hn & -> & ->)|[(Hbu & -> & -> & ->)|(Hn & Hl & -> & ->)]].
  - injection Hr as <- <-. auto.
  - injection Hr as <- <-. auto 10.
  - right; right. split; [done|]. split; [done|]. cbn [svc_table set_table] in Hr.
    assert (<[1%nat := with_caller caller true e]> (seen (now s) (S k) (svc_table s)) !! 1%nat
            = Some (with_caller caller true e)) as Hi by (apply list_lookup_insert_eq; by eapply lookup_lt_Some).
    rewrite Hi in Hr. destruct (body _ _) as [[r' e'] s2]. injection Hr as <- <-. eauto.
Qed.
End threads.

(** ** One operation *)
Lemma svc_ok_locked c b e : svc_ok (with_caller c b e) <-> svc_ok e.
Proof. split; intros []; by split. Qed.
Lemma svc_ok_unlocked b e : svc_ok (with_lock b e) <-> svc_ok e.
Proof. split; intros []; by split. Qed.

(** *** The gateway as it starts *)
Lemma reset_ok : svc_ok (reset_lists zero_svc).
Proof.
  split; try (split; [vm_compute; constructor|reflexivity]).
  split; [vm_compute; constructor|]. split; [reflexivity|].
  cbn [reset_lists zero_svc dvList with_dvs with_domains]. rewrite fmap_replicate.
  apply list.Forall_replicate. split; [reflexivity|]. split; [vm_compute; constructor|done].
Qed.
Definition gwy0 (t : list dgwy_service_list_t) : gwy :=
  mk_gwy t 0 0 DGWY_TYPE_NONE (replicate 6 0) 0 true 0 0 0 [].
Definition named_svc (b : bool) : dgwy_service_list_t :=
  with_lock b (with_entry 1 (set_name zero_svc) DGWY_TYPE_EXT_VLAN (reset_lists zero_svc)).
Lemma named_svc_ok b : svc_ok (named_svc b).
Proof. destruct reset_ok. by split. Qed.
Definition with_others (f : nat -> list dgwy_service_list_t -> list dgwy_service_list_t) : gw_env :=
  mk_env f (fun _ => Nl_done) (fun _ => 0) (fun _ => true).

(** C19.  Whatever the other threads do to the service table between two
    looks at it, an operation of [dgadmutil.c] on the service (adding or
    removing a network, a MAC, an address, an external or an internal address,
    a forwarding rule, a shared network, a subnet, a multicast mapping or a
    VLAN, setting a size or one of the three special addresses) looks at most
    257 times, all of them but the last at a busy service.  At the last look it finds no
    service, or a busy one for the 257th time, and leaves the table alone, or it acts there and
    then on the service as it is at that moment: it does to its configuration
    (finite maps of bounded size) what the specification of the operation
    says, with the answer the specification says, changes nothing else, and
    gives the lock back. *)
Theorem svc_op_atomic E o s r s' :
  op_ok o -> (forall n t, table_ok t -> table_ok (others E n t)) -> table_ok (svc_table s) ->
  run_op E o s = (r, s') ->
  table_ok (svc_table s') /\ gw_out s' = gw_out s /\
  exists k, (k <= RETRIES)%nat /\ now s' = (now s + S k)%nat /\
    (forall j, (j < k)%nat -> busy (seen E (now s) (S j) (svc_table s)) = true) /\
    let t := seen E (now s) (S k) (svc_table s) in
    exists e, the_service t = Some e /\
      ((is_named e = false /\ r = no_service o /\ svc_table s' = t) \/
       (busy t = true /\ k = RETRIES /\ r = -1 /\ svc_table s' = t) \/
       (is_named e = true /\ sv_lock e = false /\ exists e', svc_table s' = <[1%nat := e']> t /\
          sv_lock e' = false /\ spec_step o (svc_abs e) r (svc_abs e'))).
Proof.
  intros Ho Hoth Hs. rewrite run_op_locked. intros Hr.
  apply (with_svc_spec E Hoth) in Hr as (k & t & Hk & Et & Ht & Hb & e & He & Hr); [|done].
  destruct Hr as [(Hn & -> & ->)|[(Hbu & -> & -> & ->)|(Hn & Hl & e' & s1 & Hbody & ->)]].
  - split; [done|]. split; [done|]. exists k. rewrite Et. eauto 10.
  - split; [done|]. split; [done|]. exists RETRIES. rewrite Et. eauto 12.
  - unfold pure_body in Hbody. destruct (op_body o _) as [r' e1] eqn:Eo. injection Hbody as -> -> <-.
    destruct t as [|e0 [|e1 [|? ?]]]; try done. injection He as ->.
    apply op_body_refines in Eo as [Hok' Hspec]; [|done|by apply svc_ok_locked].
    split; [by apply svc_ok_unlocked|]. split; [done|]. exists k. split; [done|]. split; [done|].
    split; [done|]. cbv zeta. rewrite Et. exists e. split; [done|]. right; right. eauto 10.
Qed.

(** The service is busy at the first look, and has changed its size when it is
    had at the second. *)
Definition one_look_busy (n : nat) (t : list dgwy_service_list_t) : list dgwy_service_list_t :=
  match n with 1%nat => match t with [e0; e] => [e0; with_lock false (with_mtu 1400 e)] | _ => t end | _ => t end.
Lemma one_look_busy_ok n t : table_ok t -> table_ok (one_look_busy n t).
Proof.
  destruct n as [|[|n]]; cbn; try done. destruct t as [|e0 [|e [|? ?]]]; try done. intros []. by split.
Qed.
Lemma svc_op_atomic_witness :
  let E := with_others one_look_busy in
  let s := gwy0 [zero_svc; named_svc true] in
  (run_op E (Op_vlan 5 100) s).1 = 0 /\ now (run_op E (Op_vlan 5 100) s).2 = 2%nat /\
  table_ok (svc_table (run_op E (Op_vlan 5 100) s).2).
Proof.
  split; [vm_compute; reflexivity|]. split; [vm_compute; reflexivity|].
  set (s := gwy0 _). destruct (run_op _ _ s) as [r s'] eqn:Er.
  apply (svc_op_atomic (with_others one_look_busy) (Op_vlan 5 100) s r s').
  - split; discriminate.
  - exact one_look_busy_ok.
  - exact (named_svc_ok true).
  - exact Er.
Defined.
