(* ===== verification/GwSound.v ===== *)
(** * Every command keeps the widths, and sends messages the protocol encodes *)
From S2P Require Export GwCtrl Protocol GwLin.
From stdpp Require Import gmap strings.
#[local] Open Scope Z_scope.

(** ** Whatever the gateway is told, it asks for in messages the protocol sends

    The widths of what a service keeps, that every command preserves them, and
    that every message the gateway hands to [dps_protocol_client_send] is one
    the protocol encodes. *)
(** ** A message that is sent as its wire packet *)
Create HintDb gwy.

Definition encodable (m : dps_client_data_t) : Prop :=
  let ty := ch_type (cd_hdr m) in
  well_typed ty (cd_body m) = true /\ known_type ty = true /\ body_ok m /\ cd_body m <> Body_none /\
  (DPS_PKT_HDR_LEN + length (wire_body m) <= send_room (cd_body m))%nat /\
  is_tunnel_info (cd_body m) = false.
Definition event_ok (ev : gw_event) : Prop :=
  match ev with To_dps _ m => encodable m | _ => True end.

Lemma zero_ip_wf : wf_ip zero_ip.
Proof. split; [reflexivity|]. repeat constructor; unfold in8; lia. Qed.
Lemma set_ip4_wf x : wf_ip (set_ip4 zero_ip x).
Proof.
  split; [reflexivity|]. unfold set_ip4. apply list.Forall_app. split; [|apply Forall_drop, zero_ip_wf].
  unfold le32. repeat constructor; apply u8_in || (unfold in8; Z.div_mod_to_equations; lia).
Qed.
Lemma zero_addr_wf : wf_addr zero_ip_addr.
Proof. split; [apply zero_ip_wf|]. unfold in16. cbn. lia. Qed.
Lemma ip4_addr_wf f x : wf_addr (ip4_addr f x).
Proof. split; [apply set_ip4_wf|]. unfold in16. cbn. lia. Qed.
Lemma zero_mac_wf : wf_mac zero_mac.
Proof. split; [reflexivity|]. repeat constructor; unfold in8; lia. Qed.
Lemma take_mac_wf m : wf_mac m -> wf_mac (take 6 m).
Proof. intros [Hl Hm]. split; [rewrite length_take; lia|]. by apply Forall_take. Qed.
Lemma opt_mac_wf (m : option (list Z)) :
  (forall x, m = Some x -> wf_mac x) -> wf_mac (default zero_mac (take 6 <$> m)).
Proof. destruct m; cbn; [intros H; by apply take_mac_wf, H | intros _; apply zero_mac_wf]. Qed.
Lemma vxlan_wf port ip vnid : in16 port -> in32 vnid -> wf_tunnels (vxlan_tunnel port ip vnid).
Proof.
  intros Hp Hv. split; [split; cbn; lia|]. constructor; [|constructor].
  split_and!; [apply set_ip4_wf | done | done | done | done].
Qed.

Lemma length_wire_addr a : wf_addr a -> (length (wire_ip a) <= 20)%nat.
Proof.
  intros [[Hl _] _]. unfold wire_ip. destruct (is_v4 _); [len|]. destruct (_ =? _); len.
Qed.
#[export] Hint Resolve zero_ip_wf set_ip4_wf zero_addr_wf ip4_addr_wf zero_mac_wf take_mac_wf
  opt_mac_wf vxlan_wf ntohl_in32 : gwy.

(** ** The messages *)
Lemma wf_mac_len m : wf_mac m -> length m = 6%nat.
Proof. by intros [? _]. Qed.
Lemma length_ip4_addr f x : length (ia_ip (ip4_addr f x)) = 16%nat.
Proof. reflexivity. Qed.
Lemma length_set_ip4 x : length (set_ip4 zero_ip x) = 16%nat.
Proof. reflexivity. Qed.
Lemma no_srcs_wf : wf_srcs 0 0 [].
Proof. split; [constructor|]. split; [done|]. cbn. lia. Qed.
Lemma one_tunnel port ip vnid : in16 (tl_num_of_tunnels (vxlan_tunnel port ip vnid)).
Proof. unfold in16. cbn. lia. Qed.
#[export] Hint Resolve no_srcs_wf one_tunnel : gwy.
Lemma length_wire_vxlan port ip vnid : length (wire_tunnel_list (tunnels (vxlan_tunnel port ip vnid))) = 20%nat.
Proof. reflexivity. Qed.
(** A type and a body that go together, and a body that is well formed and
    fits in a buffer. *)
Definition body_fits (c : dps_client_data_t) : Prop :=
  body_ok c /\ (length (wire_body c) <= 400)%nat.
Lemma encodable_fits c :
  well_typed (ch_type (cd_hdr c)) (cd_body c) = true -> known_type (ch_type (cd_hdr c)) = true ->
  is_tunnel_info (cd_body c) = false -> cd_body c <> Body_none -> body_fits c -> encodable c.
Proof.
  intros Ht Hk Hi Hn [Hok Hl]. split_and!; try done.
  assert (4096 <= send_room (cd_body c))%nat; [destruct (cd_body c); cbv [send_room DPS_MAX_BUFF_SZ DPS_SEND_BUFF_SZ]; lia|].
  change DPS_PKT_HDR_LEN with 20%nat. lia.
Qed.

(** The parts of a message, each well formed; and its length, part by part. *)
Ltac parts := unfold body_ok; cbn [cd_body];
  unfold wf_endpoint_update, reply_ok, wf_endpoint_loc_reply, wf_loc, info_ok, wf_mcast_grp_rec,
    wf_mcast_addr;
  cbn -[wf_addr wf_mac wf_tunnels wf_ip ip4_addr zero_ip_addr vxlan_tunnel zero_mac take
    default set_ip4 zero_ip ntohl];
  repeat match goal with |- _ /\ _ => split end; auto with gwy; try by left.
Ltac lengths := pose proof (length_wire_client _ zero_addr_wf);
  cbn [wire_body cd_body];
  unfold wire_vm_migration, wire_policy_req, wire_endpoint_update, wire_endpoint_loc_reply, wire_loc,
    wire_mcast_sender, wire_endpoint_info, wire_mcast_receiver, wire_mcast_grp_rec,
    wire_mcast_addr, wire_srcs;
  cbn -[wire_tlv wire_client wire_ip wire_vmac wire_euid wire_ip4 wire_ip6 w32 lit pad vxlan_tunnel
    wire_tunnel_list tunnels ip4_addr zero_ip_addr zero_mac take app length set_ip4 zero_ip];
  repeat match goal with
    | |- context [if ?b then wire_ip6 _ else wire_ip4 _] => destruct b
    | |- context [wire_ip (ip4_addr ?f ?a)] => generalize (wire_ip (ip4_addr f a)) (length_wire_addr _ (ip4_addr_wf f a)); intros ? ?
    end;
  autorewrite with dove; rewrite ?length_wire_vxlan, ?length_ip4_addr;
  change (length zero_mac) with 6%nat; change (length (ia_ip zero_ip_addr)) with 16%nat;
  rewrite ?length_set_ip4; cbn [length]; lia.

Lemma gen_req_fits ctx h : body_fits (mk_client_data ctx h (Body_gen_msg_req (mk_gen_msg_req zero_ip_addr))).
Proof.
  split; [parts|lengths].
Qed.
Lemma endpoint_update_fits ctx h vnid mac ip port pip :
  wf_mac mac -> in16 port -> in32 vnid ->
  body_fits (mk_client_data ctx h (Body_endpoint_update (mk_endpoint_update vnid mac 0 (ip4_addr 0 ip)
    zero_ip_addr (vxlan_tunnel port pip vnid)))).
Proof.
  intros Hm Hp Hv. pose proof (wf_mac_len _ Hm). split; [parts|lengths].
Qed.

Lemma vm_migration_fits ctx h vnid mac mac' ip ip' port pip :
  wf_mac mac -> wf_mac mac' -> in16 port -> in32 vnid ->
  body_fits (mk_client_data ctx h (Body_vm_migration_event (mk_vm_migration
    (mk_endpoint_info 0 mac (ip4_addr 0 ip))
    (mk_endpoint_loc_reply vnid mac' (ip4_addr 0 ip') 0 (vxlan_tunnel port pip vnid))))).
Proof.
  intros Hm Hm' Hp Hv. pose proof (wf_mac_len _ Hm). pose proof (wf_mac_len _ Hm').
  split; [parts|lengths].
Qed.
Lemma policy_question_fits ctx h svnid info :
  wf_mac (qi_endpoint_mac info) -> body_fits (mk_client_data ctx h (policy_question svnid info)).
Proof.
  intros Hm%take_mac_wf. pose proof (wf_mac_len _ Hm). unfold policy_question. split; [parts|lengths].
Qed.
Lemma mcast_receiver_fits ctx h ip ty mac u :
  wf_mac mac -> wf_ip u -> ty = MCAST_ADDR_V4 \/ ty = MCAST_ADDR_MAC ->
  body_fits (mk_client_data ctx h (Body_mcast_receiver (mk_mcast_receiver (ip4_addr AF_INET ip)
    zero_ip_addr (one_group (mk_mcast_addr ty mac u))))).
Proof.
  intros Hm Hu Hty. pose proof (wf_mac_len _ Hm). assert (length u = 16%nat) by apply Hu.
  split; [parts|lengths].
Qed.
Lemma mcast_sender_fits ctx h ip vnid mac vip mac' x :
  wf_mac mac -> wf_mac mac' ->
  body_fits (mk_client_data ctx h (Body_mcast_sender (mk_mcast_sender (ip4_addr AF_INET ip)
    (mk_endpoint_info vnid mac (ip4_addr AF_INET vip))
    (mk_mcast_addr MCAST_ADDR_V4 mac' (set_ip4 zero_ip x)) zero_ip_addr))).
Proof.
  intros Hm Hm'. pose proof (wf_mac_len _ Hm). pose proof (wf_mac_len _ Hm'). split; [parts|lengths].
Qed.
Lemma tunnel_reg_fits ctx h port ip vnid :
  in16 port -> in32 vnid ->
  body_fits (mk_client_data ctx h (Body_tunnel_reg_dereg (mk_tunnel_reg zero_ip_addr
    (vxlan_tunnel port ip vnid)))).
Proof. intros Hp Hv. split; [parts|lengths]. Qed.

(** ** What the gateway keeps is of the width it is declared with *)
Record svc_typed (e : dgwy_service_list_t) : Prop := {
  ty_exts : Forall (fun x => in32 (ex_domain x)) (extipv4List e);
  ty_mcasts : Forall (fun x => in32 (em_vnid x)) (ext_mcast_vnids e);
  ty_shared : Forall (fun x => in32 (es_vnid x)) (extsharedVnidList e);
  ty_masts : Forall (fun x => in32 (es_extmcastvnid x)) (extsharedVnidList e);
  ty_dvs : Forall (fun x => in32 (dv_domain x)) (dvList e);
  ty_subnets : Forall (fun x => in32 (vs_vnid x)) (vnid_subnet e);
  ty_rules : Forall (fun x => in32 (fw_domain x)) (fwdruleList e) }.
Definition table_typed (t : list dgwy_service_list_t) : Prop :=
  length t = MAX_SERVICE_TABLES /\ Forall svc_typed t.
Record gw_ok (s : gwy) : Prop := {
  gw_table : table_typed (svc_table s);
  gw_mac : wf_mac (gMAC s);
  gw_port : in16 (OVL_PROTO_DST_PORT s);
  gw_sent : Forall event_ok (gw_out s) }.
Definition keeps {R} (f : gwy -> R * gwy) : Prop := forall s, gw_ok s -> gw_ok (f s).2.
Definition kept (f : gwy -> gwy) : Prop := forall s, gw_ok s -> gw_ok (f s).

(** One step of a function whose parts are known to keep the widths. *)
Ltac gw_step :=
  match goal with
  | |- gw_ok (snd (_, _)) => cbn [fst snd]
  | |- context [match ?t with (_, _) => _ end] =>
      lazymatch type of t with
      | (_ * gwy)%type =>
          let H := fresh "Hs" in
          assert (gw_ok t.2) as H by auto with gwy; destruct t as [? ?]; cbn [fst snd] in H |- *
      | _ => destruct t as [? ?] eqn:?
      end
  | |- context [if ?b then _ else _] => destruct b eqn:?
  | |- context [match ?o with Some _ => _ | None => _ end] => destruct o eqn:?
  | _ => progress cbn [fst snd]
  end.
Ltac gw_steps := repeat gw_step; auto with gwy.

(** ** The tables *)
Section slots.
Context {A : Type} (P : A -> Prop).
Lemma Forall_insert_slot hit free from x l :
  P x -> Forall P l -> Forall P (insert_slot hit free from x l).2.
Proof.
  intros Hx Hl. unfold insert_slot. destruct (scan _ _ _ _ _) as [[|] [|]]; cbn;
    auto using Forall_insert.
Qed.
Lemma Forall_alter_slot f i l : (forall x, P x -> P (f x)) -> Forall P l -> Forall P (alter f i l).
Proof. intros Hf Hl. apply Forall_alter; [done|]. auto. Qed.
Lemma Forall_clear_slot hit z from l :
  (forall x, P x -> P (z x)) -> Forall P l -> Forall P (clear_slot hit z from l).
Proof. intros Hz Hl. unfold clear_slot. destruct (first_hit _ _ _); [by apply Forall_alter_slot|done]. Qed.
Lemma Forall_put_slot hit free over x l :
  P x -> (forall y, P y -> P (over y)) -> Forall P l -> Forall P (put_slot hit free over x l).
Proof.
  intros Hx Ho Hl. unfold put_slot. destruct (scan _ _ _ _ _) as [[i|] [j|]]; cbn;
    auto using Forall_alter_slot, Forall_insert.
Qed.
Lemma Forall_find_slot hit from l x : Forall P l -> find_slot hit from l = Some x -> P x.
Proof.
  intros Hl. unfold find_slot. destruct (first_hit _ _ _) as [i|]; [|done].
  intros Hi. by eapply Forall_lookup_1.
Qed.
End slots.

(** ** The work on a service *)
Lemma invalid_in32 : in32 INVALID_DOMAIN_ID.
Proof. unfold in32, INVALID_DOMAIN_ID. lia. Qed.
Ltac typed := intros []; split; cbn in *; auto.
Lemma add_extip_typed x e : in32 (ex_domain x) -> svc_typed e -> svc_typed (add_extip x e).2.
Proof. intros Hx. typed. by apply Forall_insert_slot. Qed.
Lemma add_rule_typed r e : in32 (fw_domain r) -> svc_typed e -> svc_typed (add_rule r e).2.
Proof. intros Hx. typed. by apply Forall_insert_slot. Qed.
Lemma add_shared_typed v t m e : in32 v -> in32 m -> svc_typed e -> svc_typed (add_shared v t m e).2.
Proof. intros Hx Hm. typed; by apply Forall_insert_slot. Qed.
Lemma set_subnet_typed x oper e : in32 (vs_vnid x) -> svc_typed e -> svc_typed (set_subnet x oper e).
Proof.
  intros Hx. typed. destruct oper; [by apply Forall_put_slot|].
  apply Forall_clear_slot; [|done]. intros; cbn; unfold in32; lia.
Qed.
Lemma set_mcast_typed v a oper e : in32 v -> svc_typed e -> svc_typed (set_mcast v a oper e).
Proof.
  intros Hx. typed. destruct oper; [by apply Forall_put_slot|].
  apply Forall_clear_slot; [|done]. intros; cbn; unfold in32; lia.
Qed.
Lemma del_shared_typed v e : svc_typed e -> svc_typed (del_shared v e).2.
Proof. typed; (apply Forall_clear_slot; [|done]; intros; cbn; unfold in32; lia). Qed.
Lemma del_extip_typed a e : svc_typed e -> svc_typed (del_extip a e).2.
Proof. typed. apply Forall_clear_slot; [|done]. intros; cbn; unfold in32; lia. Qed.
Lemma change_vlans_typed cmd d v l : in32 d -> Forall (fun x => in32 (dv_domain x)) l ->
  Forall (fun x => in32 (dv_domain x)) (change_vlans cmd d v l).2.
Proof.
  intros Hd Hl. unfold change_vlans. destruct (scan _ _ _ _ _) as [[i|] [j|]]; try done.
  1,2: destruct (l !! i) as [m|] eqn:Hi; [|done]; destruct (cmd =? _);
    [unfold add_vlan; destruct (existsb _ _); [|destruct (first_hit _ _ _)]; cbn;
     apply Forall_insert; try done; by apply (Forall_lookup_1 _ _ _ _ Hl Hi)|].
  1,2: destruct (cmd =? _); [|done]; cbn; by apply Forall_insert, invalid_in32.
  destruct (cmd =? _); [|done]. cbn. by apply Forall_alter_slot.
Qed.
Lemma reset_entry_typed e : svc_typed e -> svc_typed (reset_entry e).
Proof.
  typed; try (apply list.Forall_replicate; cbn; unfold in32; lia).
  apply list.Forall_fmap. eapply Forall_impl; [done|]. intros x _. apply invalid_in32.
Qed.

Definition query_typed (q : dgwy_dps_query_list_info_t) : Prop :=
  wf_mac (qi_endpoint_mac q) /\ wf_mac (qi_src_endpoint_mac q).

(** ** The functions of the gateway, one after the other *)
Section keeps.
Context (E : gw_env) (Hothers : forall n t, table_typed t -> table_typed (others E n t)).

Lemma set_table_ok n t s : table_typed t -> gw_ok s -> gw_ok (set_table n t s).
Proof. by intros Ht []. Qed.
Lemma tick_ok s : gw_ok s -> gw_ok (tick s).
Proof. by intros []. Qed.
Lemma sent_ok q d ev s : event_ok ev -> gw_ok s -> gw_ok (sent q d ev s).
Proof. intros Hev []. split; try done. by constructor. Qed.
Lemma emit_ok ev s : event_ok ev -> gw_ok s -> gw_ok (emit ev s).
Proof. apply sent_ok. Qed.
Lemma set_dovenet_ok ip s : gw_ok s -> gw_ok (GwSvc.set_dovenet ip s).
Proof. by intros []. Qed.
Lemma set_bridge_type_ok t s : gw_ok s -> gw_ok (set_bridge_type t s).
Proof. by intros []. Qed.
Lemma set_glb_state_ok x s : gw_ok s -> gw_ok (set_glb_state x s).
Proof. by intros []. Qed.
Lemma set_gMAC_ok m s : wf_mac m -> gw_ok s -> gw_ok (set_gMAC m s).
Proof. by intros Hm []. Qed.
Lemma look_again_ok s : gw_ok s -> gw_ok (look_again E s).
Proof. intros []. apply set_table_ok; [by apply Hothers | by split]. Qed.
Lemma set_entry_ok i e s : svc_typed e -> gw_ok s -> gw_ok (set_entry i e s).
Proof.
  intros He []. apply set_table_ok; [|by split]. destruct gw_table0. split; [by rewrite length_insert | by apply Forall_insert].
Qed.
Lemma entry_typed s i e : gw_ok s -> svc_table s !! i = Some e -> svc_typed e.
Proof. intros [[_ Ht]] Hi. by eapply Forall_lookup_1. Qed.
Lemma with_lock_typed b e : svc_typed e -> svc_typed (with_lock b e).
Proof. by intros []. Qed.
Lemma with_caller_typed c b e : svc_typed e -> svc_typed (with_caller c b e).
Proof. by intros []. Qed.
Lemma with_type_typed t e : svc_typed e -> svc_typed (GwSvc.with_type t e).
Proof. by intros []. Qed.
Lemma with_entry_typed i n t e : svc_typed e -> svc_typed (with_entry i n t e).
Proof. by intros []. Qed.
#[local] Hint Resolve set_table_ok tick_ok sent_ok emit_ok set_dovenet_ok set_bridge_type_ok
  set_glb_state_ok set_gMAC_ok look_again_ok set_entry_ok with_lock_typed with_caller_typed
  with_type_typed with_entry_typed : gwy.
#[local] Hint Extern 2 (svc_typed _) => eapply entry_typed; [|eassumption] : gwy.
#[local] Hint Extern 1 (event_ok _) => exact I : gwy.

Lemma nl_send_ok m s : gw_ok s -> gw_ok (nl_send E m s).2.
Proof. intros Hs. unfold nl_send. destruct (nl E (now s)); cbn; auto with gwy. Qed.
Lemma svc_table_get_ok c s : gw_ok s -> gw_ok (dgwy_svc_table_get E c s).2.
Proof.
  intros Hs. unfold dgwy_svc_table_get. cbv zeta. apply look_again_ok in Hs.
  destruct (first_hit _ _ _) as [i|]; [|done]. destruct (_ !! i) eqn:Hi; [|done].
  destruct (sv_lock _); cbn; auto with gwy.
Qed.
Lemma svc_lock_ok n c s : gw_ok s -> gw_ok (svc_lock E n c s).2.
Proof.
  revert s. induction n as [|n IH]; intros s Hs; cbn [svc_lock]; pose proof (svc_table_get_ok c s Hs) as H;
    destruct (dgwy_svc_table_get E c s) as [[]]; cbn in *; auto.
Qed.
Lemma with_svc_ok {R} c (busy absent : R) body s :
  (forall e s, svc_typed e -> gw_ok s -> svc_typed (body e s).1.2 /\ gw_ok (body e s).2) ->
  gw_ok s -> gw_ok (with_svc E c busy absent body s).2.
Proof.
  intros Hb Hs. unfold with_svc. pose proof (svc_lock_ok RETRIES c s Hs) as H.
  destruct (svc_lock _ _ _ _) as [[| |i] s1]; cbn in *; try done.
  destruct (svc_table s1 !! i) as [e|] eqn:Hi; [|done].
  destruct (Hb e s1) as [? ?]; [by eapply entry_typed|done|].
  destruct (body e s1) as [[r e'] s2]. cbn in *. auto with gwy.
Qed.
Lemma pure_ok {R} c (busy absent : R) f s :
  (forall e, svc_typed e -> svc_typed (f e).2) -> gw_ok s ->
  gw_ok (with_svc E c busy absent (pure_body f) s).2.
Proof.
  intros Hf. apply with_svc_ok. intros e s' He Hs. unfold pure_body. specialize (Hf e He).
  by destruct (f e).
Qed.
Lemma change_ok c f s : (forall e, svc_typed e -> svc_typed (f e)) -> gw_ok s -> gw_ok (change E c f s).2.
Proof. intros Hf. by apply pure_ok. Qed.
Lemma ask_ok {R} c (busy absent : R) f s : gw_ok s -> gw_ok (ask E c busy absent f s).2.
Proof. apply with_svc_ok. done. Qed.
Lemma type_now_ok s : gw_ok s -> gw_ok (type_now E s).2.
Proof. intros Hs. by apply look_again_ok. Qed.
#[local] Hint Resolve nl_send_ok svc_table_get_ok svc_lock_ok change_ok @ask_ok type_now_ok : gwy.

(** *** The type of the service *)
Lemma create_new_svc_entry_ok t s : gw_ok s -> gw_ok (create_new_svc_entry E t s).2.
Proof.
  intros Hs%look_again_ok. unfold create_new_svc_entry. cbv zeta.
  destruct (scan _ _ _ _ _) as [[|] [f|]]; try done. destruct (_ !! f) eqn:Hf; [|done].
  cbn. auto with gwy.
Qed.
Lemma update_svc_table_type_ok t s : gw_ok s -> gw_ok (update_svc_table_type E t s).2.
Proof.
  intros Hs. unfold update_svc_table_type.
  pose proof (svc_lock_ok RETRIES "update_svc_table_type" s Hs) as H.
  destruct (svc_lock _ _ _ _) as [[| |i] s1]; cbn in *; try done; [by apply create_new_svc_entry_ok|].
  destruct (_ !! i) eqn:Hi; cbn; auto with gwy.
Qed.
#[local] Hint Resolve create_new_svc_entry_ok update_svc_table_type_ok : gwy.
Lemma set_svc_type_ok cmd t s : gw_ok s -> gw_ok (dgwy_ctrl_set_svc_type E cmd t s).2.
Proof. intros Hs. unfold dgwy_ctrl_set_svc_type. destruct (_ || _); gw_steps. Qed.
#[local] Hint Resolve set_svc_type_ok : gwy.
Lemma change_type_ok a b c s : gw_ok s -> gw_ok (change_type E a b c s).
Proof. intros Hs. unfold change_type. gw_steps. Qed.
#[local] Hint Resolve change_type_ok : gwy.

(** *** Messages *)
Lemma dps_send_ok ctx m s : encodable m -> gw_ok s -> gw_ok (dps_send E ctx m s).2.
Proof. intros Hm Hs. cbn. auto with gwy. Qed.
Lemma dps_send_plain_ok h b s :
  encodable (mk_client_data 0 h b) -> gw_ok s -> gw_ok (dps_send_plain E h b s).2.
Proof. intros Hm Hs. cbn. auto with gwy. Qed.
Lemma dps_send_ctx_ok g sh v h b s :
  (forall p, encodable (mk_client_data p h b)) -> gw_ok s -> gw_ok (dps_send_ctx E g sh v h b s).
Proof.
  intros Hm Hs. unfold dps_send_ctx, dps_send. cbv zeta iota.
  destruct (_ && _); [apply emit_ok; [done|]|]; (apply sent_ok; [apply Hm | auto with gwy]).
Qed.

Lemma request_lst_ok ty v s :
  ty = DPS_BCAST_LIST_REQ \/ ty = DPS_EXTERNAL_GW_LIST_REQ \/ ty = DPS_VLAN_GW_LIST_REQ -> gw_ok s ->
  gw_ok (dgwy_request_lst E ty v s).2.
Proof.
  intros Ht Hs. apply dps_send_plain_ok; [|done].
  apply encodable_fits; try done; [..|apply gen_req_fits]; by destruct Ht as [-> | [-> | ->]].
Qed.
Lemma endpoint_update_ok sub d vip pip mac s :
  in32 d -> (forall m, mac = Some m -> wf_mac m) -> gw_ok s ->
  gw_ok (endpoint_update E sub d vip pip mac s).2.
Proof.
  intros Hd Hm Hs. apply dps_send_plain_ok; [|done]. apply encodable_fits; try done.
  apply endpoint_update_fits; auto with gwy. apply Hs.
Qed.
Lemma location_unavailable_ok d vip vip' pip mac mac' s :
  in32 d -> (forall m, mac = Some m -> wf_mac m) -> (forall m, mac' = Some m -> wf_mac m) -> gw_ok s ->
  gw_ok (dgwy_location_unavailable E d vip vip' pip mac mac' s).2.
Proof.
  intros Hd Hm Hm' Hs. apply dps_send_plain_ok; [|done]. apply encodable_fits; try done.
  apply vm_migration_fits; auto with gwy. apply Hs.
Qed.
Lemma tunnel_message_ok ty sub c v ip s :
  ty = DPS_TUNNEL_REGISTER \/ ty = DPS_TUNNEL_DEREGISTER -> in32 v -> gw_ok s ->
  gw_ok (tunnel_message E ty sub c v ip s).
Proof.
  intros Ht Hv Hs. unfold tunnel_message. destruct (_ =? _); [auto with gwy|].
  apply dps_send_ctx_ok; [|auto with gwy]. intros p.
  apply encodable_fits; try done; [by destruct Ht as [-> | ->] .. |].
  apply tunnel_reg_fits; [apply Hs | done].
Qed.
#[local] Hint Resolve tunnel_message_ok endpoint_update_ok : gwy.

(** *** Questions of the kernel module *)
Lemma horder_in32 q : in32 (domain_horder q).
Proof. apply ntohl_in32. Qed.
Lemma some_mac_wf (m x : list Z) : wf_mac m -> Some m = Some x -> wf_mac x.
Proof. by intros ? [= <-]. Qed.
#[local] Hint Resolve horder_in32 some_mac_wf : gwy.

Lemma location_ok sub q s : query_typed q -> gw_ok s ->
  gw_ok (endpoint_update E sub (domain_horder q) (ntohl (qi_ip4 q)) (ntohl (qi_phyip4 q))
    (Some (qi_endpoint_mac q)) s).2.
Proof. intros [Hm _] Hs. apply endpoint_update_ok; eauto with gwy. Qed.
Lemma legacy_unavailable_ok q s : query_typed q -> gw_ok s -> gw_ok (dove_location_legacy_unavailable E q s).
Proof. intros [Hm Hm'] Hs. apply location_unavailable_ok; eauto with gwy. Qed.
Lemma policy_ok g sh v q s : query_typed q -> gw_ok s ->
  gw_ok (dps_send_ctx E g sh v (dps_hdr DPS_POLICY_REQ 0 (agent_id s) v) (policy_question v q) s).
Proof.
  intros [Hm _] Hs. apply dps_send_ctx_ok; [|done]. intros p.
  apply encodable_fits; try done. by apply policy_question_fits.
Qed.
Lemma ask_policy_of_ok v q s : query_typed q -> gw_ok s -> gw_ok (ask_policy_of E v q s).
Proof. apply policy_ok. Qed.
Lemma ask_policy_ok q s : query_typed q -> gw_ok s -> gw_ok (ask_policy E q s).
Proof.
  intros Hq Hs. unfold ask_policy. cbv zeta. destruct (_ =? _); [auto with gwy|]. by apply policy_ok.
Qed.
Lemma mcast_rcvr_ok q s : query_typed q -> gw_ok s -> gw_ok (dove_mcast_dcs_rcvr_notify E q s).
Proof.
  intros [Hm _] Hs. unfold dove_mcast_dcs_rcvr_notify. destruct (dps_known s); [|done].
  apply take_mac_wf in Hm. destruct (_ =? _); [|destruct (_ =? _); [|done]]; (apply dps_send_ctx_ok; [|done]; intros p;
    apply encodable_fits; try done; apply mcast_receiver_fits; auto with gwy).
Qed.
Lemma mcast_sender_ok q s : query_typed q -> gw_ok s -> gw_ok (dove_mcast_dcs_sender_notify E q s).
Proof.
  intros [Hm Hm'] Hs. unfold dove_mcast_dcs_sender_notify. destruct (dps_known s); [|done].
  apply take_mac_wf in Hm, Hm'. destruct (_ =? _); [|destruct (_ =? _); [|done]]; (apply dps_send_ctx_ok; [|done]; intros p;
    apply encodable_fits; try done; by apply mcast_sender_fits).
Qed.
Lemma mcast_mac_wf : wf_mac mcast_mac.
Proof. split; [done|]. repeat constructor; unfold in8; lia. Qed.
Lemma recv_join_ok v ty s : gw_ok s -> gw_ok (send_ext_mcast_recv_join E v ty s).
Proof.
  intros Hs. unfold send_ext_mcast_recv_join. destruct (dps_known s); [|done]. cbv zeta.
  destruct (ty =? _); [|destruct (ty =? _); [|done]];
    (destruct (_ || _); [|destruct (_ =? _); [|done]]); (apply dps_send_ctx_ok; [|done]; intros p;
    apply encodable_fits; try done; apply mcast_receiver_fits; auto using mcast_mac_wf with gwy).
Qed.
#[local] Hint Resolve recv_join_ok : gwy.

(** *** Tunnels *)
Lemma register_ok ip c v s : in32 v -> gw_ok s ->
  gw_ok (dove_dps_tunnel_register E (mk_tuninfo c v ip) s).
Proof. intros Hv Hs. apply tunnel_message_ok; auto. Qed.
Lemma deregister_ok ip c v s : in32 v -> gw_ok s ->
  gw_ok (dove_dps_tunnel_deregister E (mk_tuninfo c v ip) s).
Proof. intros Hv Hs. apply tunnel_message_ok; auto. Qed.
#[local] Hint Resolve register_ok deregister_ok : gwy.
#[local] Hint Unfold register_external register_vlan deregister_external deregister_vlan
  external_tunnel vlan_tunnel : gwy.

Lemma each_ok {A} (P : A -> Prop) cond act l f s :
  Forall P l -> (forall x s, P x -> gw_ok s -> gw_ok (act x s)) -> gw_ok s ->
  gw_ok (each cond act l (f, s)).2.
Proof.
  intros Hl Ha. unfold each. revert f s. induction Hl as [|x l Hx _ IH]; intros f s Hs; cbn; [done|].
  destruct (cond x); auto.
Qed.
Lemma pips_ok (f : Z -> gwy -> gwy) l s :
  (forall ip s, gw_ok s -> gw_ok (f ip s)) -> gw_ok s -> gw_ok (fold_left (fun s ip => f ip s) l s).
Proof. intros Hf. revert s. induction l as [|x l IH]; intros s Hs; cbn; auto. Qed.
Lemma register_pips_ok r s : in32 (fw_domain r) -> gw_ok s -> gw_ok (register_pips E r s).
Proof.
  intros Hr. apply (pips_ok (fun ip s => (dgwy_register_vip_location E (fw_domain r) ip
    (ntohl (g_dovenet_ipv4 s)) (Some (gMAC s)) s).2)).
  intros ip s' Hs. apply endpoint_update_ok; eauto using some_mac_wf, gw_mac.
Qed.
Lemma deregister_pips_ok a b d s : in32 d -> gw_ok s -> gw_ok (fwdrule_pip_deregister E a b d s).
Proof.
  intros Hr. apply (pips_ok (fun ip s => (dgwy_deregister_vip_location E d ip
    (ntohl (g_dovenet_ipv4 s)) (Some (gMAC s)) s).2)).
  intros ip s' Hs. apply endpoint_update_ok; eauto using some_mac_wf, gw_mac.
Qed.
#[local] Hint Resolve register_pips_ok deregister_pips_ok : gwy.

Ltac go_through := match goal with
  | He : svc_typed ?e |- gw_ok (each ?c ?a ?l (?f, ?s)).2 =>
      eapply each_ok; [first [apply (ty_exts e He) | apply (ty_dvs e He) | apply (ty_mcasts e He)
        | apply (ty_shared e He) | apply (ty_rules e He)] | cbn; intros ? ? ? ? | ]
  end.
Ltac each_table He :=
  match goal with
  | |- context [each ?c ?a ?l ?fs] =>
      assert (gw_ok (each c a l fs).2);
      [go_through; repeat autounfold with gwy; try destruct (_ =? _); auto with gwy
      | destruct (each c a l fs) as [? ?]; cbn [fst snd] in *]
  end.
Lemma register_tunnels_ok e s : svc_typed e -> gw_ok s -> gw_ok (register_tunnels E e s).2.
Proof. intros He Hs. unfold register_tunnels. cbv zeta. repeat each_table He. done. Qed.
Lemma check_register_tunnel_ok s : gw_ok s -> gw_ok (check_register_tunnel E s).
Proof.
  intros Hs. unfold check_register_tunnel.
  match goal with |- gw_ok (let '(_, _) := ?t in _) => assert (gw_ok t.2) as H end.
  { apply with_svc_ok; [|done]. intros e s' He Hs'. pose proof (register_tunnels_ok e s' He Hs').
    by destruct (register_tunnels E e s'). }
  gw_steps.
Qed.
#[local] Hint Resolve check_register_tunnel_ok : gwy.

Lemma past_in32 e : svc_typed e -> in32 (past_dvList e).
Proof.
  intros He. pose proof (ty_subnets e He) as H. unfold past_dvList.
  destruct (vnid_subnet e); [unfold in32; lia|]. by inversion H.
Qed.
Lemma first_in32 e : svc_typed e -> in32 (first_domain e).
Proof.
  intros He. pose proof (ty_exts e He) as H. unfold first_domain.
  destruct (extipv4List e); [unfold in32; lia|]. by inversion H.
Qed.
#[local] Hint Resolve past_in32 first_in32 : gwy.
Lemma deregister_tunnels_ok v e s :
  in32 v -> svc_typed e -> gw_ok s -> gw_ok (deregister_tunnels E v e s).
Proof.
  intros Hv He Hs. unfold deregister_tunnels. cbv zeta. repeat autounfold with gwy.
  destruct (_ || _), (existsb _ _); auto with gwy.
Qed.
Lemma check_dregister_tunnel_ok v s : in32 v -> gw_ok s -> gw_ok (check_dregister_tunnel E v s).
Proof.
  intros Hv. apply with_svc_ok. intros e s' He Hs'. split; [done|]. by apply deregister_tunnels_ok.
Qed.
Lemma check_del_tep_ok s : gw_ok s -> gw_ok (check_del_tep E s).
Proof.
  apply with_svc_ok. intros e s' He Hs'. split; [done|]. cbv zeta. repeat each_table He. done.
Qed.
#[local] Hint Resolve check_dregister_tunnel_ok check_del_tep_ok set_mcast_typed : gwy.

Lemma update_mcast_ok v a oper s :
  in32 v -> gw_ok s -> gw_ok (update_svc_table_ext_mcast_vnid E v a oper s).2.
Proof. intros Hv Hs. unfold update_svc_table_ext_mcast_vnid. repeat autounfold with gwy. gw_steps. Qed.
#[local] Hint Resolve update_mcast_ok : gwy.
Lemma unset_mcast_ok v a s : in32 v -> gw_ok s -> gw_ok (dgwy_ctrl_unset_ext_mcast_vnid E v a s).2.
Proof. intros Hv Hs. unfold dgwy_ctrl_unset_ext_mcast_vnid. gw_steps. Qed.
Lemma ext_mcast_ip_ok a s : gw_ok s -> gw_ok (get_extipv4_for_extmcast_vnid E a s).2.
Proof. apply ask_ok. Qed.
#[local] Hint Resolve unset_mcast_ok ext_mcast_ip_ok : gwy.
Lemma set_mcast_ok v a s : in32 v -> gw_ok s -> gw_ok (dgwy_ctrl_set_ext_mcast_vnid E v a s).2.
Proof. intros Hv Hs. unfold dgwy_ctrl_set_ext_mcast_vnid. gw_steps. Qed.

(** What a lookup returns of a locked service keeps its width. *)
Lemma read_prop {R} (P : R -> Prop) c (busy absent : R) f s :
  P busy -> P absent -> (forall e, svc_typed e -> P (f e).1) -> gw_ok s ->
  P (with_svc E c busy absent (pure_body f) s).1.
Proof.
  intros Hb Ha Hf Hs. unfold with_svc. pose proof (svc_lock_ok RETRIES c s Hs) as H.
  destruct (svc_lock _ _ _ _) as [[| |i] s1]; cbn in *; try done.
  destruct (svc_table s1 !! i) as [e|] eqn:Hi; [|done]. unfold pure_body.
  specialize (Hf e). destruct (f e). cbn in *. apply Hf. by eapply entry_typed.
Qed.
Lemma is_vnid_empty_ok t s : gw_ok s -> gw_ok (is_vnid_empty_intenant E t s).2.
Proof.
  intros Hs. unfold is_vnid_empty_intenant.
  set (f := fun e => (yes_no (negb (in_tenant t e)), Some (first_domain e))).
  pose proof (read_prop (fun r => forall v, r.2 = Some v -> in32 v) "is_vnid_empty_intenant"
    (-1, None) (1, None) (fun e => (f e, e)) s) as Hv.
  assert (Ho : gw_ok (with_svc E "is_vnid_empty_intenant" (-1, None) (1, None) (pure_body (fun e => (f e, e))) s).2)
    by (apply pure_ok; auto).
  change (read_body f) with (pure_body (fun e => (f e, e))).
  destruct (with_svc _ _ _ _ _ _) as [[e [v|]] s']; cbn in *; [|done].
  apply check_dregister_tunnel_ok; [|done]. apply Hv; try done. by intros e0 He0 v0 [= <-]; auto with gwy.
Qed.
#[local] Hint Resolve is_vnid_empty_ok : gwy.
Lemma drop_mcast_ok b t v s : in32 v -> gw_ok s -> gw_ok (drop_mcast E b t v s).
Proof. intros Hv Hs. unfold drop_mcast. gw_steps. Qed.
#[local] Hint Resolve drop_mcast_ok set_mcast_ok : gwy.

(** *** External addresses, shared networks, rules and VLANs *)
Lemma update_extip_ok x s : in32 (ex_domain x) -> gw_ok s -> gw_ok (update_svc_table_extipv4 E x s).2.
Proof.
  intros Hx Hs. unfold update_svc_table_extipv4, now_external.
  match goal with |- gw_ok (let '(_, _) := ?t in _).2 => assert (gw_ok t.2) end.
  { apply pure_ok; [|done]. intros e. by apply add_extip_typed. }
  gw_steps.
Qed.
Lemma update_shared_ok v d m add s :
  in32 v -> in32 m -> gw_ok s -> gw_ok (update_svc_table_extsharedvnids E v d m add s).2.
Proof.
  intros Hv Hm Hs. unfold update_svc_table_extsharedvnids, now_external. destruct add.
  - match goal with |- gw_ok (let '(_, _) := ?t in _).2 => assert (gw_ok t.2) end.
    { apply pure_ok; [|done]. intros e. by apply add_shared_typed. }
    gw_steps.
  - match goal with |- gw_ok (let '(_, _) := ?t in _).2 => assert (gw_ok t.2) end.
    { apply pure_ok; [|done]. apply del_shared_typed. }
    pose proof (read_prop (fun r => forall x, r = Some x -> in32 (es_extmcastvnid x))
      "update_svc_table_extsharedvnids" None None (del_shared v) s) as Hr.
    destruct (with_svc _ _ _ _ _ s) as [[x|] s1]; cbn in *; [|done]. apply drop_mcast_ok; [|done].
    apply Hr; try done. intros e He x0. eapply (Forall_find_slot (fun x => in32 (es_extmcastvnid x))).
    by apply ty_masts.
Qed.
Lemma delete_extip_ok a s : gw_ok s -> gw_ok (delete_svc_extipv4 E a s).2.
Proof.
  intros Hs. unfold delete_svc_extipv4.
  set (f := fun e => let '(x, e) := del_extip a e in (Some x, e)).
  assert (Hf : forall e, svc_typed e -> svc_typed (f e).2) by apply del_extip_typed.
  pose proof (pure_ok "delete_svc_extipv4" None None f s Hf Hs) as H.
  pose proof (read_prop (fun r => forall x, r = Some (Some x) -> in32 (ex_domain x))
    "delete_svc_extipv4" None None f s) as Hr.
  destruct (with_svc _ _ _ _ _ s) as [[[x|]|] s1]; cbn in *; try done.
  destruct (_ =? _); [done|]. apply check_dregister_tunnel_ok; [|done]. apply Hr; try done.
  intros e He x0. cbn. intros [= Hx]. revert Hx.
  eapply (Forall_find_slot (fun x => in32 (ex_domain x))). by apply ty_exts.
Qed.
Lemma delete_rule_ok r s : in32 (cl_domain r) -> gw_ok s -> gw_ok (delete_svc_fwd_rule E r s).2.
Proof.
  intros Hr. apply with_svc_ok. intros e s' He Hs'. split.
  - cbn. revert He. typed. apply Forall_clear_slot; [|done]. intros; cbn; unfold in32; lia.
  - cbn. destruct (find_slot _ _ _); auto with gwy.
Qed.
Lemma update_dvlist_ok cmd d v s : in32 d -> gw_ok s -> gw_ok (update_svc_table_dvlist E cmd d v s).2.
Proof.
  intros Hd Hs. unfold update_svc_table_dvlist, now_vlan.
  match goal with |- gw_ok (let '(_, _) := ?t in _).2 => assert (gw_ok t.2) end.
  { apply with_svc_ok; [|done]. intros e s' He Hs'. unfold dvlist_body.
    pose proof (change_vlans_typed cmd d v (dvList e) Hd (ty_dvs e He)) as Hl.
    destruct (change_vlans _ _ _ _) as [r l]. cbn in *. split; [by destruct He|]. destruct r; auto with gwy. }
  destruct (with_svc _ _ _ _ _ s) as [[] s1]; cbn [fst snd] in *; auto with gwy.
Qed.
#[local] Hint Resolve update_extip_ok update_shared_ok delete_extip_ok delete_rule_ok update_dvlist_ok : gwy.

(** *** Commands *)
Lemma then_tell_ok m r : gw_ok r.2 -> gw_ok (then_tell E m r).2.
Proof. destruct r. unfold then_tell. cbn. intros Hs. gw_steps. Qed.
Lemma with_list_ok c (f : dgwy_service_list_t -> Z * dgwy_service_list_t) s :
  (forall e, svc_typed e -> svc_typed (f e).2) -> gw_ok s -> gw_ok (update E c f s).2.
Proof. apply pure_ok. Qed.
Lemma ifipv4_ok a b c d s : gw_ok s -> gw_ok (update_svc_table_ifipv4 E a b c d s).2.
Proof. apply with_list_ok. intros e. typed. Qed.
Lemma intipv4_ok x s : gw_ok s -> gw_ok (update_svc_table_intipv4 E x s).2.
Proof. apply with_list_ok. intros e. typed. Qed.
Lemma svc_macs_list_ok x s : gw_ok s -> gw_ok (update_svc_table_macs E x s).2.
Proof. apply with_list_ok. intros e. typed. Qed.
Lemma domain_ok d s : gw_ok s -> gw_ok (update_svc_table_domain E d s).2.
Proof. apply with_list_ok. intros e. typed. Qed.
Lemma fwdrule_ok r s : in32 (fw_domain r) -> gw_ok s -> gw_ok (update_svc_table_fwdrule E r s).2.
Proof. intros Hr. apply with_list_ok. intros e. by apply add_rule_typed. Qed.
Lemma dovenet_ok a s : gw_ok s -> gw_ok (update_svc_dovenet_ipv4 E a s).2.
Proof. apply change_ok. intros e. typed. Qed.
Lemma vnid_info_ok v a b c d oper s : in32 v -> gw_ok s -> gw_ok (update_svc_vnid_info E v a b c d oper s).2.
Proof. intros Hv. apply change_ok. intros e. by apply set_subnet_typed. Qed.
Lemma subnet_empty_ok v s : gw_ok s -> gw_ok (is_vnid_subnet_empty E v s).2.
Proof. apply ask_ok. Qed.
#[local] Hint Resolve then_tell_ok ifipv4_ok intipv4_ok svc_macs_list_ok domain_ok fwdrule_ok dovenet_ok
  vnid_info_ok subnet_empty_ok : gwy.

(** What a command carries is of the width it is declared with. *)
Definition cmd_typed (c : gw_cmd) : Prop :=
  match c with
  | Gw_extipv4 _ x => in32 (ex_domain x)
  | Gw_macs _ m => wf_mac (im_mac m)
  | Gw_vlans _ d _ | Gw_del_vlan d _ => in32 d
  | Gw_rule _ r => in32 (fw_domain r)
  | Gw_del_rule r => in32 (cl_domain r)
  | Gw_subnet v _ _ _ _ _ | Gw_mcast v _ _ | Gw_del_mcast v _ => in32 v
  | Gw_shared v _ m _ => in32 v /\ in32 m
  | Gw_location q | Gw_location_gone q | Gw_vip_gone q | Gw_legacy q | Gw_policy q
  | Gw_policy_of _ q | Gw_receiver q | Gw_sender q => query_typed q
  | _ => True
  end.

Lemma svc_macs_ok cmd m s : wf_mac (im_mac m) -> gw_ok s -> gw_ok (dgwy_ctrl_svc_macs E cmd m s).2.
Proof. intros Hm Hs. unfold dgwy_ctrl_svc_macs. cbv zeta. destruct (cmd =? _), (forallb (Z.eqb 0) (gMAC s)); auto with gwy. Qed.
Lemma svc_extipv4_ok cmd x s : in32 (ex_domain x) -> gw_ok s -> gw_ok (dgwy_ctrl_svc_extipv4 E cmd x s).2.
Proof.
  intros Hx Hs. unfold dgwy_ctrl_svc_extipv4. cbv zeta.
  assert (gw_ok (if cmd =? CMD_DEL_EXTVIP then (0, s) else update_svc_table_extipv4 E x s).2) as H
    by (destruct (_ =? _); auto with gwy).
  destruct (if _ =? _ then _ else _) as [r s1]. cbn [fst snd] in *. repeat autounfold with gwy. gw_steps.
Qed.
Lemma svc_vlans_ok cmd d l s : in32 d -> gw_ok s -> gw_ok (dgwy_ctrl_svc_domain_vlans E cmd d l s).2.
Proof.
  intros Hd Hs. unfold dgwy_ctrl_svc_domain_vlans. cbv zeta.
  destruct (_ =? _).
  { pose proof (update_dvlist_ok cmd d (hd 0 l) s Hd Hs) as H.
    destruct (update_svc_table_dvlist _ _ _ _ _) as [[r v] s1]. cbn [fst snd] in *.
    destruct (r =? -1), (real_vlan v); repeat autounfold with gwy; cbn [fst snd]; gw_steps. }
  destruct (_ =? _); [|auto with gwy].
  pose proof (update_dvlist_ok cmd d (hd 0 l) _ Hd (check_dregister_tunnel_ok d s Hd Hs)) as H.
  destruct (update_svc_table_dvlist _ _ _ _ _) as [[r v] s1]. cbn [fst snd] in *.
  destruct (r =? -1), (real_vlan v); cbn [fst snd]; gw_steps.
Qed.
#[local] Hint Resolve svc_macs_ok svc_extipv4_ok svc_vlans_ok : gwy.
Lemma set_global_ok cmd s : gw_ok s -> gw_ok (dgwy_ctrl_set_global E cmd s).2.
Proof. intros Hs. unfold dgwy_ctrl_set_global. auto with gwy. Qed.
#[local] Hint Resolve set_global_ok : gwy.
Lemma shared_vnids_ok v d m cmd s : in32 v -> in32 m -> gw_ok s -> gw_ok (dgwy_ctrl_extshared_vnids E v d m cmd s).2.
Proof.
  intros Hv Hm Hs. unfold dgwy_ctrl_extshared_vnids. repeat autounfold with gwy. gw_steps.
Qed.
#[local] Hint Resolve shared_vnids_ok : gwy.

Lemma del_vlan_ok d v s : in32 d -> gw_ok s -> gw_ok (api_dgadmin_del_domain_vlan E d v s).2.
Proof.
  intros Hd Hs. unfold api_dgadmin_del_domain_vlan. gw_step.
  pose proof (svc_vlans_ok CMD_DEL_DOMAIN_VLAN d (v :: replicate 15 0) _ Hd Hs0) as H.
  unfold status_of. gw_steps.
Qed.
Lemma del_subnet_ok v a b c d s : in32 v -> gw_ok s -> gw_ok (dgwy_ctrl_del_vnid_info E v a b c d s).2.
Proof. intros Hv Hs. unfold dgwy_ctrl_del_vnid_info. gw_steps. Qed.
Lemma add_subnet_ok v a b c d s : in32 v -> gw_ok s -> gw_ok (dgwy_ctrl_add_vnid_info E v a b c d s).2.
Proof. intros Hv Hs. unfold dgwy_ctrl_add_vnid_info. gw_steps. Qed.
Lemma fwd_rule_ok cmd r s : in32 (fw_domain r) -> gw_ok s -> gw_ok (dgwy_ctrl_fwd_rule E cmd r s).2.
Proof. intros Hr Hs. unfold dgwy_ctrl_fwd_rule. gw_steps. Qed.
Lemma set_dovenet_ipv4_ok a n s : gw_ok s -> gw_ok (dgwy_ctrl_set_dovenet_ipv4 E a n s).2.
Proof. intros Hs. unfold dgwy_ctrl_set_dovenet_ipv4. gw_steps. Qed.
#[local] Hint Resolve del_vlan_ok add_subnet_ok del_subnet_ok fwd_rule_ok set_dovenet_ipv4_ok location_ok
  legacy_unavailable_ok ask_policy_ok ask_policy_of_ok mcast_rcvr_ok mcast_sender_ok request_lst_ok : gwy.

Lemma gw_run_ok c s : cmd_typed c -> gw_ok s -> gw_ok (gw_run E c s).
Proof.
  intros Hc Hs. destruct c; cbn [gw_run cmd_typed] in *; auto with gwy.
  - unfold dgwy_ctrl_svc_ipv4. destruct (_ && _); auto with gwy.
  - apply change_ok; [|done]. intros e. typed.
  - unfold dgwy_ctrl_svc_intipv4. auto with gwy.
  - apply pure_ok; [|done]. intros e. typed.
  - unfold dgwy_ctrl_svc_domains. auto with gwy.
  - unfold dgwy_ctrl_set_external_ipv4. auto with gwy.
  - destruct add; cbn; auto with gwy.
  - destruct Hc. auto with gwy.
  - destruct add; auto with gwy.
  - unfold api_dgadmin_del_extmcastvnid. gw_steps.
  - apply change_ok; [|done]. apply reset_entry_typed.
  - do 3 (apply request_lst_ok; [auto|]). done.
  - by apply location_ok.
  - by apply location_ok.
  - by apply location_ok.
Qed.
Lemma gw_runs_ok cs s : Forall cmd_typed cs -> gw_ok s -> gw_ok (gw_runs E cs s).
Proof. intros Hc. revert s. induction Hc as [|c cs Hc _ IH]; intros s Hs; [done|].
  apply IH. by apply gw_run_ok.
Qed.
End keeps.

(** ** The whole *)
Lemma encodable_sent `{EnvLaws W} m t w :
  encodable m -> dps_server && negb (dps_cluster_is_local_node_active w) = false ->
  dps_protocol_client_send m (t, w) =
    count_sent (send_packet (send_err (cd_body m)) (send_status (cd_body m)) (ch_type (cd_hdr m))
      (sent_body m) m w) t.
Proof.
  intros (Hty & Hk & Hok & Hne & Hf & Ht) Hact. unfold dps_protocol_client_send. rewrite Hact, Hk.
  rewrite call_send_refines; [|done..|congruence]. unfold count_sent.
  destruct (send_packet _ _ _ _ _ _) as [[[r c'] w']| |]; try done. cbn [obind].
  by destruct (r =? DPS_SUCCESS).
Qed.

(**  Whatever commands a gateway is given, in whatever order, by the
    command line, the REST server and the kernel module, with whatever memory,
    netlink and other threads do, everything it keeps stays of the width it is
    declared with, and every message it hands to the protocol (the requests
    for lists, the registrations of machines, addresses and tunnels, the
    questions for policies, the multicast notices) is sent: the protocol lays
    out its wire packet, hands it to the socket layer and counts it. *)
Theorem gateway_messages_sent E cs s :
  (forall n t, table_typed t -> table_typed (others E n t)) ->
  Forall cmd_typed cs -> gw_ok s ->
  gw_ok (gw_runs E cs s) /\
  forall ctx m, To_dps ctx m ∈ gw_out (gw_runs E cs s) ->
  forall W `(EnvLaws W) t w, dps_server && negb (dps_cluster_is_local_node_active w) = false ->
  dps_protocol_client_send m (t, w) =
    count_sent (send_packet (send_err (cd_body m)) (send_status (cd_body m)) (ch_type (cd_hdr m))
      (sent_body m) m w) t.
Proof.
  intros Hoth Hcs Hs. pose proof (gw_runs_ok E Hoth cs s Hcs Hs) as H. split; [done|].
  intros ctx m Hm W ? ? t w Hw. apply encodable_sent; [|done].
  apply list_elem_of_lookup_1 in Hm as [i Hi].
  exact (Forall_lookup_1 _ _ _ _ (gw_sent _ H) Hi).
Qed.

Lemma zero_typed : svc_typed zero_svc.
Proof. split; apply list.Forall_replicate; cbn; unfold in32; lia. Qed.
Lemma reset_lists_typed e : svc_typed e -> svc_typed (reset_lists e).
Proof. typed. apply list.Forall_fmap. eapply Forall_impl; [done|]. intros x _. apply invalid_in32. Qed.
Lemma start_typed b : table_typed [zero_svc; named_svc b].
Proof.
  split; [done|].
  constructor; [apply zero_typed|]. constructor; [|constructor].
  apply with_lock_typed, with_entry_typed, reset_lists_typed, zero_typed.
Qed.
Lemma start_ok b : gw_ok (gwy0 [zero_svc; named_svc b]).
Proof.
  split; [apply start_typed | | unfold in16; cbn; lia | constructor].
  split; [done|]. repeat constructor; unfold in8; lia.
Qed.

(** A VLAN, the address of the gateway and a machine. *)
Definition sample_cmds : list gw_cmd :=
  [Gw_vlans CMD_SET_DOMAIN_VLAN 7 (100 :: replicate 15 0); Gw_dovenet 16777343 0;
   Gw_location (mk_query 0 458752 167772161 167772162 (replicate 6 17) 0 (replicate 6 0))].
Definition sample_env : gw_env :=
  mk_env (fun _ t => t) (fun _ => Nl_done) (fun n => 4096 + Z.of_nat n) (fun _ => true).
Definition asked (s : gwy) : list (Z * Z) :=
  omap (fun ev => match ev with To_dps _ m => Some (ch_type (cd_hdr m), ch_vnid (cd_hdr m)) | _ => None end)
    (rev (gw_out s)).
Lemma gateway_messages_sent_witness :
  let s := gwy0 [zero_svc; named_svc false] in
  asked (gw_runs sample_env sample_cmds s) = [(DPS_TUNNEL_REGISTER, 7); (DPS_ENDPOINT_UPDATE, 7)] /\
  gw_ok (gw_runs sample_env sample_cmds s).
Proof.
  split; [vm_compute; reflexivity|].
  apply (gateway_messages_sent sample_env sample_cmds (gwy0 [zero_svc; named_svc false])).
  - done.
  - repeat constructor; try (unfold in32; lia); unfold in8; lia.
  - exact (start_ok false).
Defined.
