(* ===== verification/GwTold.v ===== *)
(** * What the server is told about the tunnels of the gateway

    The messages that [check_register_tunnel], [check_dregister_tunnel] and the
    removal of a VLAN send, read off the tables of the service. *)
From S2P Require Export GwLin GwCtrl WireGet.
From stdpp Require Import gmap strings.
#[local] Open Scope Z_scope.

(** The IPv4 addresses a message is about, as they are read off its body: those
    of the tunnels, behind that of the machine, or that of who joins a group. *)
Definition addresses (b : dps_client_body) : list Z :=
  match b with
  | Body_tunnel_reg_dereg x => te_ip4 <$> tunnels (tr_tunnel_info x)
  | Body_endpoint_update x => ia_ip4 (eu_vm_ip_addr x) :: (te_ip4 <$> tunnels (eu_tunnel_info x))
  | Body_mcast_receiver x => [ia_ip4 (mr_tunnel_endpoint x)]
  | _ => []
  end.
(** A message as its type, the agent that speaks, the network, and the addresses. *)
Definition saying : Type := Z * Z * Z * list Z.
Definition gist (m : dps_client_data_t) : saying :=
  (ch_type (cd_hdr m), ch_client_id (cd_hdr m), ch_vnid (cd_hdr m), addresses (cd_body m)).
Definition said (ev : gw_event) : list saying :=
  match ev with To_dps _ m => [gist m] | _ => [] end.
(** In the order they were sent. *)
Definition told (s : gwy) : list saying := concat (said <$> reverse (gw_out s)).

(** What decides what is said of a tunnel. *)
Definition like (s0 s : gwy) : Prop :=
  g_dovenet_ipv4 s = g_dovenet_ipv4 s0 /\ g_APPBRIDGE_type s = g_APPBRIDGE_type s0 /\
  dps_known s = dps_known s0.
(** [act] only sends [l]. *)
Definition says (s0 : gwy) (act : gwy -> gwy) (l : list saying) : Prop :=
  forall s, like s0 s -> like s0 (act s) /\ told (act s) = told s ++ l.

(** The address of the gateway in the overlay, where its tunnels end. *)
Definition overlay_ip (s : gwy) : Z := ntohl (g_dovenet_ipv4 s).
Definition external_msg (s : gwy) (ty vnid : Z) : saying :=
  (ty, DOVE_EXTERNAL_GATEWAY_AGENT_ID, vnid, [overlay_ip s]).
Definition vlan_msg (s : gwy) (ty vnid : Z) : saying :=
  (ty, DOVE_VLAN_GATEWAY_AGENT_ID, vnid, [overlay_ip s]).
(** Who joins and leaves multicast groups: nobody without a type. *)
Definition joiner (s : gwy) : option Z :=
  if dps_known s then
    if (g_APPBRIDGE_type s =? DGWY_TYPE_EXTERNAL) || (g_APPBRIDGE_type s =? DGWY_TYPE_EXT_VLAN)
    then Some DOVE_EXTERNAL_GATEWAY_AGENT_ID
    else if g_APPBRIDGE_type s =? DGWY_TYPE_VLAN then Some DOVE_VLAN_GATEWAY_AGENT_ID else None
  else None.
Definition group_msg (s : gwy) (ty vnid : Z) : list saying :=
  match joiner s with Some c => [(ty, c, vnid, [overlay_ip s])] | None => [] end.

(** ** The tunnels of the tables *)
Definition external_tunnels (e : dgwy_service_list_t) : list Z :=
  ex_domain <$> List.filter (fun x => negb (ex_ipv4 x =? 0) && real_vnid (ex_domain x)) (extipv4List e).
Definition vlan_tunnels (e : dgwy_service_list_t) : list Z :=
  dv_domain <$> List.filter (fun x => real_vnid (dv_domain x)) (dvList e).
Definition mcast_msgs (s : gwy) (e : dgwy_service_list_t) : list saying :=
  x ← List.filter (fun x => negb (em_vnid x =? 0)) (ext_mcast_vnids e);
  external_msg s DPS_TUNNEL_REGISTER (em_vnid x) ::
    (if em_master x =? 0 then [] else group_msg s DPS_MCAST_RECEIVER_JOIN (em_vnid x)).
Definition shared_tunnels (e : dgwy_service_list_t) : list Z :=
  es_vnid <$> List.filter (fun x => negb (es_vnid x =? 0)) (extsharedVnidList e).
(** The addresses of the pool of a rule, from the first to the last; one that
    would have 2^31 or more, going round the address space when the last is
    below the first, has none. *)
Definition pool_size (r : fwd_rule_t) : Z := (ntohl (fw_pip_max r) - ntohl (fw_pip_min r)) mod 2 ^ 32 + 1.
Definition pool (r : fwd_rule_t) : list Z :=
  if 2 ^ 31 <? pool_size r then []
  else (fun i => (ntohl (fw_pip_min r) + i) mod 2 ^ 32) <$> seqZ 0 (pool_size r).
Definition pool_msgs (s : gwy) (e : dgwy_service_list_t) : list saying :=
  r ← List.filter (fun x => negb (fw_ipv4 x =? 0) && negb (fw_pip_min x =? 0)) (fwdruleList e);
  (fun ip => (DPS_ENDPOINT_UPDATE, agent_id s, fw_domain r, [ip; overlay_ip s])) <$> pool r.
(** The tunnels only when the gateway has an address in the overlay. *)
Definition tunnel_msgs (s : gwy) (e : dgwy_service_list_t) : list saying :=
  (if g_dovenet_ipv4 s =? 0 then []
   else (external_msg s DPS_TUNNEL_REGISTER <$> external_tunnels e)
        ++ (vlan_msg s DPS_TUNNEL_REGISTER <$> vlan_tunnels e)
        ++ mcast_msgs s e
        ++ (external_msg s DPS_TUNNEL_REGISTER <$> shared_tunnels e))
  ++ pool_msgs s e.

(** ** The parts *)
Lemma fmap_as_bind {A B} (f : A -> B) l : f <$> l = l ≫= (fun x => [f x]).
Proof. induction l as [|x l IH]; cbn; [done|]. by rewrite IH. Qed.
Lemma msg_as_bind {A B C} (g : B -> C) (f : A -> B) l : g <$> (f <$> l) = l ≫= (fun x => [g (f x)]).
Proof. rewrite <- list_fmap_compose. apply fmap_as_bind. Qed.
Lemma filter_none {A} (l : list A) : List.filter (fun _ => false) l = [].
Proof. by induction l. Qed.
Lemma existsb_none {A} (l : list A) : existsb (fun _ => false) l = false.
Proof. by induction l. Qed.
Lemma told_sent q d ev s : told (sent q d ev s) = told s ++ said ev.
Proof.
  unfold told. cbn [sent gw_out]. rewrite reverse_cons, fmap_app, concat_app. cbn. by rewrite app_nil_r.
Qed.
Lemma like_refl s : like s s.
Proof. done. Qed.
Lemma says_id s0 : says s0 (fun s => s) [].
Proof. intros s Hs. by rewrite app_nil_r. Qed.
Lemma says_then s0 f g l l' : says s0 f l -> says s0 g l' -> says s0 (fun s => g (f s)) (l ++ l').
Proof.
  intros Hf Hg s Hs. destruct (Hf s Hs) as [H1 E1]. destruct (Hg _ H1) as [H2 E2]. split; [done|].
  by rewrite E2, E1, app_assoc.
Qed.
Lemma says_fold {A} s0 (f : A -> gwy -> gwy) (g : A -> list saying) l :
  (forall x, says s0 (f x) (g x)) -> says s0 (fun s => fold_left (fun s x => f x s) l s) (l ≫= g).
Proof.
  intros Hf. induction l as [|x l IH]; intros s Hs; [by apply says_id|]. cbn.
  apply (says_then s0 (f x) (fun s => fold_left (fun s x => f x s) l s)); auto.
Qed.
Lemma says_each {A} s0 cond (act : A -> gwy -> gwy) (g : A -> list saying) l f :
  (forall x, says s0 (act x) (g x)) ->
  says s0 (fun s => (each cond act l (f, s)).2) (List.filter cond l ≫= g).
Proof.
  intros Hf. unfold each. revert f. induction l as [|x l IH]; intros f s Hs; [by apply says_id|].
  cbn. destruct (cond x); [|by apply IH].
  apply (says_then s0 (act x) (fun s => (fold_left _ l (true, s)).2)); [done|apply IH|done].
Qed.
Lemma each_flag {A} cond (act : A -> gwy -> gwy) l f s :
  (each cond act l (f, s)).1 = f || existsb cond l.
Proof.
  unfold each. revert f s. induction l as [|x l IH]; intros f s; cbn; [by rewrite orb_false_r|].
  destruct (cond x); rewrite IH; [by rewrite orb_true_r|done].
Qed.

Section told.
Context (E : gw_env) (Hheap : forall n, heap E n <> 0).

Lemma dps_send_told ctx m s : told (dps_send E ctx m s).2 = told s ++ [gist m].
Proof. unfold dps_send. cbv zeta. cbn [snd]. by rewrite told_sent. Qed.
Lemma dps_send_ctx_told g sh v h b s :
  told (dps_send_ctx E g sh v h b s) = told s ++ [gist (mk_client_data 0 h b)].
Proof.
  unfold dps_send_ctx, dps_send. cbv zeta iota.
  destruct (_ && _); unfold emit; rewrite !told_sent; cbn; by rewrite ?app_nil_r.
Qed.
Lemma dps_send_ctx_like s0 g sh v h b s : like s0 s -> like s0 (dps_send_ctx E g sh v h b s).
Proof. unfold dps_send_ctx, dps_send. cbv zeta iota. by destruct (_ && _). Qed.
Lemma dps_send_plain_told h b s :
  told (dps_send_plain E h b s).2 = told s ++ [gist (mk_client_data 0 h b)].
Proof. unfold dps_send_plain. pose proof (dps_send_told None (mk_client_data 0 h b) s) as H. by destruct (dps_send _ _ _ _). Qed.

Lemma ip4_of_ntohl v : get_ip4 (set_ip4 zero_ip (ntohl v)) = ntohl v.
Proof. rewrite get_set_ip4. pose proof (ntohl_in32 v) as H. unfold in32 in H. apply Z.mod_small. lia. Qed.
Lemma tunnel_at port v d : te_ip4 <$> tunnels (vxlan_tunnel port (ntohl v) d) = [ntohl v].
Proof. change ([get_ip4 (set_ip4 zero_ip (ntohl v))] = [ntohl v]). by rewrite ip4_of_ntohl. Qed.
Lemma tunnel_message_says s0 ty sub c v ip :
  says s0 (tunnel_message E ty sub c v ip) [(ty, c, v, [ntohl ip])].
Proof.
  intros s Hs. unfold tunnel_message. destruct (heap E (now s) =? 0) eqn:H0; [by apply Z.eqb_eq, Hheap in H0|].
  split; [by apply dps_send_ctx_like|]. rewrite dps_send_ctx_told. unfold gist.
  cbn -[tunnels ntohl]. by rewrite tunnel_at.
Qed.
Lemma register_external_says s0 v : says s0 (register_external E v) [external_msg s0 DPS_TUNNEL_REGISTER v].
Proof. intros s Hs. unfold external_msg, overlay_ip. rewrite <- (proj1 Hs). by apply tunnel_message_says. Qed.
Lemma register_vlan_says s0 v : says s0 (register_vlan E v) [vlan_msg s0 DPS_TUNNEL_REGISTER v].
Proof. intros s Hs. unfold vlan_msg, overlay_ip. rewrite <- (proj1 Hs). by apply tunnel_message_says. Qed.
Lemma deregister_external_says s0 v :
  says s0 (deregister_external E v) [external_msg s0 DPS_TUNNEL_DEREGISTER v].
Proof. intros s Hs. unfold external_msg, overlay_ip. rewrite <- (proj1 Hs). by apply tunnel_message_says. Qed.
Lemma deregister_vlan_says s0 v : says s0 (deregister_vlan E v) [vlan_msg s0 DPS_TUNNEL_DEREGISTER v].
Proof. intros s Hs. unfold vlan_msg, overlay_ip. rewrite <- (proj1 Hs). by apply tunnel_message_says. Qed.
Lemma vip_says s0 sub d vip mac : in32 vip ->
  says s0 (fun s => (endpoint_update E sub d vip (overlay_ip s) mac s).2)
    [(DPS_ENDPOINT_UPDATE, agent_id s0, d, [vip; overlay_ip s0])].
Proof.
  intros Hv s (H1 & H2 & H3). split; [done|].
  unfold endpoint_update. rewrite dps_send_plain_told. unfold gist, agent_id. cbn -[tunnels ntohl set_ip4].
  unfold overlay_ip. rewrite tunnel_at, H1, H2. unfold ia_ip4. cbn [ia_ip ip4_addr].
  by rewrite get_set_ip4, u32_small.
Qed.
Lemma join_says s0 v ty ty' :
  (ty = DPS_MCAST_RECV_JOIN /\ ty' = DPS_MCAST_RECEIVER_JOIN) \/
  (ty = DPS_MCAST_RECV_LEAVE /\ ty' = DPS_MCAST_RECEIVER_LEAVE) ->
  says s0 (send_ext_mcast_recv_join E v ty) (group_msg s0 ty' v).
Proof.
  intros Ht s Hs. assert (H := Hs). destruct H as (_ & H2 & H3).
  unfold send_ext_mcast_recv_join, group_msg, joiner. rewrite <- H2, <- H3.
  pose proof (says_id s0 s Hs) as Hid. destruct (dps_known s); [|done]. cbv zeta.
  assert ((if ty =? DPS_MCAST_RECV_JOIN then Some DPS_MCAST_RECEIVER_JOIN
           else if ty =? DPS_MCAST_RECV_LEAVE then Some DPS_MCAST_RECEIVER_LEAVE else None) = Some ty') as ->
    by (destruct Ht as [[-> ->]|[-> ->]]; done).
  destruct (_ || _); [|destruct (_ =? _); [|done]]; (split; [by apply dps_send_ctx_like|]; rewrite dps_send_ctx_told; unfold gist, overlay_ip; rewrite <- (proj1 Hs);
     cbn -[ntohl set_ip4 get_ip4]; unfold ia_ip4; cbn [ia_ip ip4_addr]; by rewrite ip4_of_ntohl).
Qed.

(** The loop over the pool of a rule. *)
Lemma ip_range_pool r : ip_range (fw_pip_min r) (fw_pip_max r) = pool r.
Proof.
  unfold ip_range, pool, pool_size, int32. set (lo := ntohl (fw_pip_min r)). set (hi := ntohl (fw_pip_max r)).
  change (2 ^ 32) with 4294967296. change (2 ^ 31) with 2147483648. cbv zeta.
  set (d := (hi - lo) mod 4294967296).
  assert (0 <= d < 4294967296) as Hd by (by apply Z.mod_pos_bound).
  assert ((hi - lo + 2147483648) mod 4294967296 - 2147483648
          = if d <? 2147483648 then d else d - 4294967296) as ->.
  { rewrite <- Z.add_mod_idemp_l by done. fold d. destruct (Z.ltb_spec d 2147483648).
    - rewrite Z.mod_small; lia.
    - rewrite <- (Z.mod_unique (d + 2147483648) 4294967296 1 (d - 2147483648)); lia. }
  destruct (Z.ltb_spec 2147483648 (d + 1)), (Z.ltb_spec d 2147483648); try lia.
  - by replace (Z.to_nat _) with 0%nat by lia.
  - unfold seqZ. rewrite <- list_fmap_compose. apply list_fmap_ext. intros i x _. cbn.
    unfold u32. f_equal. lia.
Qed.
Lemma pool_in32 r : Forall in32 (pool r).
Proof.
  unfold pool. destruct (_ <? _); [done|]. apply Forall_fmap, Forall_true. intros i. cbn.
  unfold in32. Z.div_mod_to_equations. lia.
Qed.
(** A pool that does not go round the address space. *)
Lemma pool_between r :
  ntohl (fw_pip_min r) <= ntohl (fw_pip_max r) < ntohl (fw_pip_min r) + 2 ^ 31 ->
  pool r = seqZ (ntohl (fw_pip_min r)) (ntohl (fw_pip_max r) - ntohl (fw_pip_min r) + 1).
Proof.
  unfold pool, pool_size. pose proof (ntohl_in32 (fw_pip_min r)) as Hlo.
  pose proof (ntohl_in32 (fw_pip_max r)) as Hhi. unfold in32 in *.
  generalize dependent (ntohl (fw_pip_max r)). generalize dependent (ntohl (fw_pip_min r)).
  intros lo Hlo hi Hhi Hr.
  rewrite (Z.mod_small (_ - _)) by lia. rewrite (proj2 (Z.ltb_ge _ _)) by lia.
  unfold seqZ. rewrite <- list_fmap_compose. apply list_fmap_ext. intros i x Hx. cbn.
  apply lookup_seq in Hx as [-> Hx]. rewrite Z.mod_small by lia. lia.
Qed.
Lemma says_fold_in {A} s0 (f : A -> gwy -> gwy) (g : A -> saying) l :
  Forall (fun x => says s0 (f x) [g x]) l ->
  says s0 (fun s => fold_left (fun s x => f x s) l s) (g <$> l).
Proof.
  induction 1 as [|x l Hx _ IH]; intros s Hs; [by apply says_id|]. cbn.
  by apply (says_then s0 (f x) (fun s => fold_left (fun s x => f x s) l s) [g x]).
Qed.
Lemma register_pips_says s0 r :
  says s0 (register_pips E r)
    ((fun ip => (DPS_ENDPOINT_UPDATE, agent_id s0, fw_domain r, [ip; overlay_ip s0])) <$> pool r).
Proof.
  intros s Hs. unfold register_pips. rewrite ip_range_pool.
  apply (says_fold_in s0 (fun ip s => (dgwy_register_vip_location E (fw_domain r) ip
    (overlay_ip s) (Some (gMAC s)) s).2)); [|done].
  eapply Forall_impl; [apply pool_in32|]. intros ip Hip s' Hs'. by apply vip_says.
Qed.

(** Whether there is a tunnel for the outside, and one for a VLAN. *)
Definition has_external (s : gwy) (e : dgwy_service_list_t) : bool :=
  negb (g_dovenet_ipv4 s =? 0) &&
  (existsb (fun x => negb (ex_ipv4 x =? 0) && real_vnid (ex_domain x)) (extipv4List e)
   || existsb (fun x => negb (em_vnid x =? 0)) (ext_mcast_vnids e)
   || existsb (fun x => negb (es_vnid x =? 0)) (extsharedVnidList e)).
Definition has_vlan (s : gwy) (e : dgwy_service_list_t) : bool :=
  negb (g_dovenet_ipv4 s =? 0) && existsb (fun x => real_vnid (dv_domain x)) (dvList e).

Lemma each_step {A} s0 cond (act : A -> gwy -> gwy) g l f s :
  (forall x, says s0 (act x) (g x)) -> like s0 s ->
  exists s', each cond act l (f, s) = (f || existsb cond l, s') /\ like s0 s' /\
             told s' = told s ++ (List.filter cond l ≫= g).
Proof.
  intros Hg Hs. pose proof (each_flag cond act l f s) as Hf.
  destruct (says_each s0 cond act g l f Hg s Hs) as [H1 H2].
  destruct (each cond act l (f, s)) as [f' s']. cbn in *. subst f'. eauto.
Qed.
Ltac each_of s0 g Hs :=
  match goal with
  | |- context [each ?c ?a ?l (?f, ?s)] =>
      let s' := fresh "s" in let Hl := fresh "Hs" in let He := fresh "Et" in
      destruct (each_step s0 c a g l f s) as (s' & -> & Hl & He); [ |exact Hs|]
  end.

Lemma register_tunnels_says s0 e s : like s0 s ->
  like s0 (register_tunnels E e s).2 /\
  told (register_tunnels E e s).2 = told s ++ tunnel_msgs s0 e /\
  (register_tunnels E e s).1 = (has_external s0 e, has_vlan s0 e).
Proof.
  intros Hs. unfold register_tunnels, has_external, has_vlan, tunnel_msgs. cbv zeta.
  assert (Hd := proj1 Hs). rewrite <- Hd. clear Hd.
  each_of s0 (fun x => [external_msg s0 DPS_TUNNEL_REGISTER (ex_domain x)]) Hs; [intros x; apply register_external_says|].
  each_of s0 (fun x => [vlan_msg s0 DPS_TUNNEL_REGISTER (dv_domain x)]) Hs0; [intros x; apply register_vlan_says|].
  each_of s0 (fun x => external_msg s0 DPS_TUNNEL_REGISTER (em_vnid x) ::
      (if em_master x =? 0 then [] else group_msg s0 DPS_MCAST_RECEIVER_JOIN (em_vnid x))) Hs1.
  { intros x. destruct (em_master x =? 0); [apply register_external_says|].
    apply (says_then s0 (register_external E (em_vnid x)) _ [_]); [apply register_external_says|].
    apply join_says. by left. }
  each_of s0 (fun x => [external_msg s0 DPS_TUNNEL_REGISTER (es_vnid x)]) Hs2; [intros x; apply register_external_says|].
  each_of s0 (fun r => (fun ip => (DPS_ENDPOINT_UPDATE, agent_id s0, fw_domain r, [ip; overlay_ip s0])) <$> pool r) Hs3; [intros x; apply register_pips_says|].
  cbn [fst snd]. split; [done|]. rewrite Et3, Et2, Et1, Et0, Et. destruct (_ =? 0); cbn [negb andb].
  - by rewrite !filter_none, !existsb_none, !app_nil_r.
  - unfold external_tunnels, vlan_tunnels, shared_tunnels. rewrite !msg_as_bind, !app_assoc. done.
Qed.

(** ** Under the lock *)
Lemma told_set_table n t s : told (set_table n t s) = told s.
Proof. done. Qed.
Lemma get_out c s : gw_out (dgwy_svc_table_get E c s).2 = gw_out s.
Proof.
  unfold dgwy_svc_table_get. cbv zeta. destruct (first_hit _ _ _) as [i|]; [|done].
  destruct (_ !! i); [|done]. by destruct (sv_lock _).
Qed.
Lemma lock_out n c s : gw_out (svc_lock E n c s).2 = gw_out s.
Proof.
  revert s. induction n as [|n IH]; intros s; cbn [svc_lock]; pose proof (get_out c s) as H;
    destruct (dgwy_svc_table_get E c s) as [[] s1]; cbn in *; try done. by rewrite IH.
Qed.
Lemma nl_told m s : told (nl_send E m s).2 = told s.
Proof.
  unfold nl_send. destruct (nl E (now s)); cbn [snd]; try done; unfold emit; rewrite told_sent;
    apply app_nil_r.
Qed.
Lemma same_told s s' : gw_out s' = gw_out s -> told s' = told s.
Proof. unfold told. by intros ->. Qed.
Lemma set_type_told cmd t s : told (dgwy_ctrl_set_svc_type E cmd t s).2 = told s.
Proof.
  unfold dgwy_ctrl_set_svc_type.
  assert (gw_out (update_svc_table_type E t s).2 = gw_out s) as Hu.
  { unfold update_svc_table_type. pose proof (lock_out RETRIES "update_svc_table_type" s) as H.
    destruct (svc_lock _ _ _ _) as [[| |i] s1]; cbn [snd] in *; try done.
    - unfold create_new_svc_entry. cbv zeta. destruct (scan _ _ _ _ _) as [[|] [f|]]; try done.
      by destruct (_ !! f).
    - by destruct (_ !! i). }
  destruct (_ || _).
  - destruct (update_svc_table_type E t s) as [r s1]. cbn [snd] in *. destruct (r =? -1); cbn [snd];
      [|rewrite nl_told]; by apply same_told.
  - cbn. by rewrite nl_told.
Qed.
End told.


(** A service with a VLAN for network 7 and an external address for network 9. *)
Definition two_tunnels : dgwy_service_list_t :=
  (op_body (Op_ext (mk_extipv4 80 443 167772161 9 1 0)) (op_body (Op_vlan 7 100) (named_svc false)).2).2.
Lemma two_tunnels_ok : svc_ok two_tunnels.
Proof.
  refine (proj1 (op_body_refines (Op_ext _) _ _ _ _ _ (surjective_pairing _))); [by split|].
  refine (proj1 (op_body_refines (Op_vlan 7 100) _ _ _ _ _ (surjective_pairing _))); [by split|].
  apply named_svc_ok.
Qed.
Definition with_address (s : gwy) : gwy := GwSvc.set_dovenet 16777343 s.
Definition quiet_env : gw_env :=
  mk_env (fun _ t => t) (fun _ => Nl_done) (fun n => 4096 + Z.of_nat n) (fun _ => true).
Lemma quiet_heap n : heap quiet_env n <> 0.
Proof. cbn. lia. Qed.

(** ** Taking tunnels back *)
Section back.
Context (E : gw_env) (Hheap : forall n, heap E n <> 0).

Definition external_left (v : Z) (e : dgwy_service_list_t) : bool :=
  existsb (fun x => ex_domain x =? v) (extipv4List e)
  || existsb (fun x => es_vnid x =? v) (extsharedVnidList e).
Definition vlan_left (v : Z) (e : dgwy_service_list_t) : bool :=
  existsb (fun x => dv_domain x =? v) (dvList e).
(** What the code sends; a team would expect [v] for the VLAN as well. *)
Definition dereg_msgs (s0 : gwy) (v : Z) (e : dgwy_service_list_t) : list saying :=
  (if external_left v e then [] else [external_msg s0 DPS_TUNNEL_DEREGISTER v])
  ++ (if vlan_left v e then [] else [vlan_msg s0 DPS_TUNNEL_DEREGISTER (past_dvList e)]).

Lemma deregister_tunnels_says s0 v e : says s0 (deregister_tunnels E v e) (dereg_msgs s0 v e).
Proof.
  intros s Hs. unfold deregister_tunnels, dereg_msgs. cbv zeta. fold (external_left v e). fold (vlan_left v e).
  destruct (external_left v e), (vlan_left v e); cbn [app].
  - by apply says_id.
  - by apply deregister_vlan_says.
  - by apply deregister_external_says.
  - apply (says_then s0 (deregister_external E v) (deregister_vlan E (past_dvList e)) [_] [_]);
      auto using deregister_external_says, deregister_vlan_says.
Qed.

Context (Hoth : forall n t, table_ok t -> table_ok (others E n t)).

(** What a function says that does [body] under the lock. *)
Lemma with_svc_told {R} c (b a : R) body g s :
  table_ok (svc_table s) ->
  (forall e, says s (fun s' => (body e s').2) (g e)) ->
  exists k e l, (k <= RETRIES)%nat /\ the_service (seen E (now s) (S k) (svc_table s)) = Some e /\
    told (with_svc E c b a body s).2 = told s ++ l /\
    (l = [] /\ is_named e && negb (sv_lock e) = false \/
     is_named e && negb (sv_lock e) = true /\ l = g (with_caller c true e)).
Proof.
  intros Hs Hb. destruct (with_svc E c b a body s) as [r s'] eqn:Er.
  apply (with_svc_spec E Hoth) in Er as (k & t & Hk & Et & _ & _ & e & He & Er); [|done].
  exists k, e. rewrite Et. cbn [snd].
  destruct Er as [(Hn & -> & ->)|[(Hbu & -> & -> & ->)|(Hn & Hl & e' & s2 & Hbody & ->)]].
  - exists []. rewrite Hn, app_nil_r. auto 7.
  - exists []. unfold busy in Hbu. rewrite He in Hbu. apply andb_true_iff in Hbu as [-> ->].
    rewrite app_nil_r. auto 7.
  - set (s1 := set_table (now s + S k) _ s) in Hbody.
    destruct (Hb (with_caller c true e) s1) as [_ Ht]; [done|]. rewrite Hbody in Ht. cbn [snd] in Ht.
    exists (g (with_caller c true e)). rewrite Hn, Hl. split; [done|]. split; [done|].
    split; [exact Ht|]. by right.
Qed.
Lemma with_svc_table {R} c (b a : R) body s :
  table_ok (svc_table s) -> (forall e s, svc_ok e -> svc_ok (body e s).1.2 /\ svc_table (body e s).2 = svc_table s) ->
  table_ok (svc_table (with_svc E c b a body s).2).
Proof.
  intros Hs Hb. destruct (with_svc E c b a body s) as [r s'] eqn:Er.
  apply (with_svc_spec E Hoth) in Er as (k & t & Hk & Et & Ht & _ & e & He & Er); [|done]. cbn [snd].
  destruct Er as [(Hn & -> & ->)|[(Hbu & -> & -> & ->)|(Hn & Hl & e' & s2 & Hbody & ->)]]; [done..|].
  destruct t as [|e0 [|e1 [|? ?]]]; try done. injection He as ->.
  destruct (Hb (with_caller c true e) (set_table (now s + S k) (<[1%nat:=with_caller c true e]> [e0; e]) s))
    as [H1 H2]; [by apply svc_ok_locked|].
  rewrite Hbody in H1, H2. cbn [fst snd] in *. unfold set_entry. cbn [svc_table set_table].
  rewrite H2. cbn. by apply svc_ok_unlocked.
Qed.

Lemma check_dregister_tunnel_told v s : table_ok (svc_table s) ->
  exists k e, (k <= RETRIES)%nat /\ the_service (seen E (now s) (S k) (svc_table s)) = Some e /\
    told (check_dregister_tunnel E v s) =
      told s ++ if is_named e && negb (sv_lock e) then dereg_msgs s v e else [].
Proof.
  intros Hs. destruct (with_svc_told "check_dregister_tunnel" tt tt
    (fun e s => (tt, e, deregister_tunnels E v e s)) (dereg_msgs s v) s Hs) as (k & e & l & Hk & He & Ht & Hl).
  { intros e. apply deregister_tunnels_says. }
  exists k, e. split; [done|]. split; [done|]. unfold check_dregister_tunnel.
  destruct Hl as [[-> ->]|[-> ->]]; exact Ht.
Qed.
Lemma dps_send_ctx_table g sh v h b s : svc_table (dps_send_ctx E g sh v h b s) = svc_table s.
Proof. unfold dps_send_ctx, dps_send. cbv zeta iota. by destruct (_ && _). Qed.
Lemma check_dregister_tunnel_table v s : table_ok (svc_table s) ->
  table_ok (svc_table (check_dregister_tunnel E v s)).
Proof.
  intros Hs. apply with_svc_table; [done|]. intros e s' He. split; [done|]. cbn [snd].
  assert (Ht : forall ip c ty sub d s, svc_table (tunnel_message E ty sub c d ip s) = svc_table s).
  { intros. unfold tunnel_message. destruct (_ =? _); [done|]. by rewrite dps_send_ctx_table. }
  unfold deregister_tunnels, deregister_vlan, deregister_external, dove_dps_tunnel_deregister. cbv zeta.
  by destruct (_ || _), (existsb _ _); rewrite ?Ht.
Qed.
Lemma update_dvlist_told cmd d v s : table_ok (svc_table s) ->
  exists l, told (update_svc_table_dvlist E cmd d v s).2 = told s ++ l /\
    forall m, m ∈ l -> m.1.1.1 = DPS_MCAST_RECEIVER_LEAVE.
Proof.
  intros Hs. unfold update_svc_table_dvlist.
  destruct (with_svc_told "update_svc_table_dvlist" Dv_none Dv_none (dvlist_body E cmd d v)
    (fun e => match (change_vlans cmd d v (dvList e)).1 with
              | Dv_gone _ => group_msg s DPS_MCAST_RECEIVER_LEAVE d | _ => [] end) s Hs)
    as (k & e & l & _ & _ & Ht & Hl).
  { intros e. unfold dvlist_body. destruct (change_vlans _ _ _ _) as [[] dv]; cbn [fst snd];
      try apply says_id. apply join_says. by right. }
  exists l. split.
  - destruct (with_svc _ _ _ _ _ s) as [[] s1]; cbn [snd] in *; rewrite <- Ht; try done.
    unfold now_vlan, change_type. cbn [type_now]. destruct (_ =? _); [by rewrite set_type_told|].
    destruct (_ =? _); [by rewrite set_type_told|]. done.
  - intros m Hm. destruct Hl as [[-> _]|[_ ->]]; [by apply elem_of_nil in Hm|].
    destruct (change_vlans _ _ _ _) as [[] dv]; cbn in Hm; try by apply elem_of_nil in Hm.
    unfold group_msg in Hm. destruct (joiner s); [|by apply elem_of_nil in Hm].
    apply list_elem_of_singleton in Hm as ->. done.
Qed.
End back.

(** C36.  A gateway that takes back what a network [v] no longer needs
    ([check_dregister_tunnel]) and gets hold of its service deregisters the
    outside tunnel of [v] when no external address and no shared network of
    [v] is left.  When no VLAN of [v] is left it reads past the end of
    [dvList] and deregisters a VLAN tunnel of the network of its first subnet,
    whether that network has VLANs or not, and not that of [v]. *)
Theorem wrong_tunnel_deregistered E v s :
  (forall n, heap E n <> 0) -> (forall n t, table_ok t -> table_ok (others E n t)) ->
  table_ok (svc_table s) ->
  exists k e, (k <= RETRIES)%nat /\ the_service (seen E (now s) (S k) (svc_table s)) = Some e /\
    told (check_dregister_tunnel E v s) = told s ++
      if is_named e && negb (sv_lock e) then
        (if external_left v e then [] else [external_msg s DPS_TUNNEL_DEREGISTER v]) ++
        (if vlan_left v e then []
         else [vlan_msg s DPS_TUNNEL_DEREGISTER (match vnid_subnet e with x :: _ => vs_vnid x | [] => 0 end)])
      else [].
Proof. intros Hh Ho Hs. by apply check_dregister_tunnel_told. Qed.

(** Network 7 has a VLAN and the only subnet; network 9 has gone. *)
Definition one_subnet : dgwy_service_list_t :=
  (op_body (Op_subnet (mk_subnet 7 167772160 4294967040 0 167772161) true) two_tunnels).2.
Lemma one_subnet_ok : svc_ok one_subnet.
Proof.
  refine (proj1 (op_body_refines (Op_subnet _ true) _ _ _ _ _ (surjective_pairing _))); [by split|].
  apply two_tunnels_ok.
Qed.
Lemma wrong_tunnel_deregistered_witness :
  let s := with_address (gwy0 [zero_svc; one_subnet]) in
  told (check_dregister_tunnel quiet_env 8 s) =
    [external_msg s DPS_TUNNEL_DEREGISTER 8; vlan_msg s DPS_TUNNEL_DEREGISTER 7] /\
  exists k e, (k <= RETRIES)%nat /\ the_service (seen quiet_env (now s) (S k) (svc_table s)) = Some e.
Proof.
  split; [vm_compute; reflexivity|].
  destruct (wrong_tunnel_deregistered quiet_env 8 (with_address (gwy0 [zero_svc; one_subnet])))
    as (k & e & Hk & He & _).
  - exact quiet_heap.
  - done.
  - exact one_subnet_ok.
  - by exists k, e.
Defined.

(** ** Removing a VLAN *)
Definition vlan_there (v : Z) (t : list dgwy_service_list_t) : Prop :=
  exists e, the_service t = Some e /\ vlan_left v e = true.
Lemma seen_keeps E (P : list dgwy_service_list_t -> Prop) n k t :
  (forall n t, P t -> P (others E n t)) -> P t -> P (seen E n k t).
Proof. intros Ho Ht. induction k as [|k IH]; cbn; auto. Qed.

(**  Removing the VLANs of a network that has some never deregisters
    the VLAN tunnel of the network: the question whether VLANs of it are left
    is asked before they are removed.  This holds whatever the other threads
    do, as long as they leave the network its VLANs. *)
Theorem vlan_tunnel_stays E d vlans s :
  (forall n, heap E n <> 0) ->
  (forall n t, table_ok t -> table_ok (others E n t)) ->
  (forall n t, vlan_there d t -> vlan_there d (others E n t)) ->
  table_ok (svc_table s) -> vlan_there d (svc_table s) ->
  exists l, told (dgwy_ctrl_svc_domain_vlans E CMD_DEL_DOMAIN_VLAN d vlans s).2 = told s ++ l /\
    forall v a, (DPS_TUNNEL_DEREGISTER, DOVE_VLAN_GATEWAY_AGENT_ID, v, a) ∉ l.
Proof.
  intros Hh Ho Hv Hs Hd. unfold dgwy_ctrl_svc_domain_vlans. cbv zeta.
  change (CMD_DEL_DOMAIN_VLAN =? CMD_SET_DOMAIN_VLAN) with false.
  change (CMD_DEL_DOMAIN_VLAN =? CMD_DEL_DOMAIN_VLAN) with true. cbv iota.
  destruct (check_dregister_tunnel_told E Hh Ho d s Hs) as (k & e & _ & He & Ht).
  destruct (update_dvlist_told E Ho CMD_DEL_DOMAIN_VLAN d (hd 0 vlans) (check_dregister_tunnel E d s))
    as (l & Hl & Hm); [by apply check_dregister_tunnel_table|].
  pose proof (seen_keeps E _ (now s) (S k) _ Hv Hd) as (e' & He' & Hleft).
  rewrite He in He'. injection He' as <-.
  exists ((if is_named e && negb (sv_lock e) then dereg_msgs s d e else []) ++ l). split.
  - rewrite app_assoc, <- Ht. destruct (update_svc_table_dvlist _ _ _ _ _) as [[r v] s2]. cbn [snd] in Hl.
    rewrite <- Hl. destruct (r =? -1); [done|]. cbv zeta. rewrite nl_told.
    destruct (real_vlan v); [|done]. unfold emit. rewrite told_sent. apply app_nil_r.
  - intros v a [Hin|Hin]%elem_of_app.
    + destruct (_ && _); [|by apply elem_of_nil in Hin]. unfold dereg_msgs in Hin. rewrite Hleft, app_nil_r in Hin.
      destruct (external_left d e); [by apply elem_of_nil in Hin|].
      by apply list_elem_of_singleton in Hin.
    + apply Hm in Hin. discriminate.
Qed.
Lemma vlan_tunnel_stays_witness :
  let s := with_address (gwy0 [zero_svc; one_subnet]) in
  told (dgwy_ctrl_svc_domain_vlans quiet_env CMD_DEL_DOMAIN_VLAN 7 [100] s).2 =
    [external_msg s DPS_TUNNEL_DEREGISTER 7] /\
  exists l, told (dgwy_ctrl_svc_domain_vlans quiet_env CMD_DEL_DOMAIN_VLAN 7 [100] s).2 = told s ++ l /\
    forall v a, (DPS_TUNNEL_DEREGISTER, DOVE_VLAN_GATEWAY_AGENT_ID, v, a) ∉ l.
Proof.
  split; [vm_compute; reflexivity|].
  apply (vlan_tunnel_stays quiet_env 7 [100] (with_address (gwy0 [zero_svc; one_subnet]))).
  - exact quiet_heap.
  - done.
  - done.
  - exact one_subnet_ok.
  - exists one_subnet. split; [reflexivity|]. vm_compute. reflexivity.
Defined.
