(* ===== verification/GwReply.v ===== *)
(** * What the gateway makes of the answers of the server

    [dgwy_handle_dps_response] of [odgw/dgadmin/dgadmutil.c] and the handlers
    it calls, for the answers the protocol delivers; and the queries of the
    kernel module ([dgwy_device_poll]) that lead to them.  An answer brings the
    context of its request back: using memory that was given back is a
    [Fault]. *)
From S2P Require Export GwCtrl.
From S2P Require HaTask.
From stdpp Require Import gmap strings.
#[local] Open Scope Z_scope.

Definition MAX_TUNNEL_INFO : Z := 16.
Definition MAX_BROADCAST_MEMBERS_PER_DOMAIN : Z := 64.
Definition MAX_MCAST_RCVER : nat := Z.to_nat 256.
Definition OVL_PROTO : Z := 17.
Definition OVL_PROTO_SRC_PORT : Z := 255.
Definition SHARED_VNID_MARK : Z := 50331647.
Definition VNID_INFO_STATE_EXTMCAST_MASTER : Z := 3.
Definition CMD_UPDATE_OVL_IP : Z := 25.
Definition CMD_BCAST_LIST : Z := 26.
Definition CMD_MCAST_LIST : Z := 27.
Definition CMD_ADDR_RESOLVE : Z := 32.
Definition CMD_SET_OVL_PORT : Z := 33.
Definition CMD_LEGACY_NXTHOP : Z := 34.
Definition CMD_REFRESH_OVL_IP : Z := 35.
Definition CMD_UPDATE_OVL_IP_SHARED : Z := 36.
Definition DPS_LOCATION_QUERY : Z := 1.
Definition DPS_LOCATION_MAC_UPDATE : Z := 2.
Definition DPS_LOCATION_MAC_DELETE : Z := 3.
Definition DPS_LOCATION_VIP_UPDATE : Z := 4.
Definition DPS_LOCATION_VIP_DELETE : Z := 5.
Definition DPS_LOCATION_UNAVAILABLE : Z := 6.
Definition DPS_MCAST_VGW_ALL_RECV_JOIN : Z := 12.
Definition DPS_MCAST_VGW_ALL_RECV_LEAVE : Z := 13.

(** ** The host the gateway runs on

    By the number of questions asked so far: the addresses of its interfaces
    with their masks ([None] when the system call fails), the source address
    [ip route get] prints for a destination, the state of the high availability
    task, and whether a message can be put on the queue of that task.
    [behind] is the memory behind a list of multicast receivers. *)
Record host := mk_host {
  ifaddrs : nat -> option (list (Z * option Z));
  route_src : nat -> Z -> option Z;
  ha : nat -> HaTask.ha_task;
  ha_queue : nat -> bool;
  behind : list Z }.

(** Where a machine is, as the gateway works on it. *)
Record ovl_tunnel_info_t := mk_ovl_tunnel { ot_dst_domain : Z; ot_endpoint_location : Z }.
Record ovl_tunnel_cfg_t := mk_ovl_cfg {
  oc_cmd : Z; oc_domain : Z; oc_endpoint_ip : Z; oc_mac : list Z; oc_location : list ovl_tunnel_info_t }.

(** [htonl(vnid)>>8], [htons]. *)
Definition net_vnid (vnid : Z) : Z := Z.shiftr (ntohl vnid) 8.
Definition htons (v : Z) : Z := v mod 256 * 256 + v / 256 mod 256.

(** ** Sorting: the two nested loops that put the largest first *)
Section sort.
Context {A : Type} (key_of : A -> Z).
(** [for(j=0; j<n; ++j) if(list[j] < list[j+1]) {swap}] *)
Fixpoint bubble (n : nat) (l : list A) : list A :=
  match n, l with
  | S n, x :: ((y :: l') as t) =>
      if key_of x <? key_of y then y :: bubble n (x :: l') else x :: bubble n t
  | _, _ => l
  end.
(** [for(i=0; i<num-1; ++i)] the loop above with [n = num-1-i] *)
Definition sort_descending (l : list A) : list A :=
  fold_left (fun l i => bubble (length l - 1 - i) l) (seq 0 (length l - 1)) l.
End sort.

(** The first [n] elements of an array; there may be fewer. *)
Definition first_of {A} (n : Z) (l : list A) : out (list A) :=
  if decide (Z.to_nat n <= length l)%nat then Done (take (Z.to_nat n) l) else Fault.

(** ** Contexts *)

(** What is at [p], from what was sent and given back, the latest first. *)
Fixpoint ctx_at (p : Z) (l : list gw_event) : option dgadm_dps_context_t :=
  match l with
  | [] => None
  | Ctx_freed q :: l => if q =? p then None else ctx_at p l
  | To_dps (Some c) m :: l => if cd_context m =? p then Some c else ctx_at p l
  | _ :: l => ctx_at p l
  end.
Definition context (p : Z) (s : gwy) : out dgadm_dps_context_t := of_option (ctx_at p (gw_out s)).
(** [if(context) free(context);] *)
Definition give_back (p : Z) (s : gwy) : out gwy :=
  if p =? 0 then Done s else let* _ := context p s in Done (emit (Ctx_freed p) s).
(** ... and [return]. *)
Definition finish (p : Z) (ok : bool) (s : gwy) : out (bool * gwy) :=
  let* s := give_back p s in Done (ok, s).

Section replies.
Context (E : gw_env) (H : host).

(** ** The addresses of the host *)
Definition ask_host {A} (f : nat -> A) (s : gwy) : A * gwy := (f (now s), tick s).
Definition MAX_IFS : nat := 50%nat.

(** Addresses are compared as the text [inet_ntoa] makes of them: 1, 0, or -1
    on an error. *)
Definition chk_self_ipv4 (ip : Z) (s : gwy) : Z * gwy :=
  let '(ifs, s) := ask_host (ifaddrs H) s in
  (match ifs with
   | Some l => if existsb (fun x => x.1 =? ip) (take MAX_IFS l) then 1 else 0
   | None => -1
   end, s).
Definition chk_self_ipv4_getmask (ip : Z) (s : gwy) : (Z * Z) * gwy :=
  let '(ifs, s) := ask_host (ifaddrs H) s in
  (match ifs with
   | Some l =>
       match find_slot (fun x => x.1 =? ip) 0 (take MAX_IFS l) with
       | Some (_, Some mask) => (1, mask)
       | Some (_, None) => (-1, 0)
       | None => (0, 0)
       end
   | None => (-1, 0)
   end, s).
Definition mac_in_peer (mac : list Z) (s : gwy) : out (bool * gwy) :=
  let '(t, s) := ask_host (ha H) s in
  let* b := HaTask.is_mac_found_in_peer (take 6 mac) t in Done (b, s).
(** [popen("ip route get ...")] and [fgets] *)
Definition route_to (ip : Z) (s : gwy) : option Z * gwy := ask_host (fun n => route_src H n ip) s.

(** ** Locations *)

(** The ports of [l] are in host byte order. *)
Definition dgwy_ctrl_location (l : dgwy_ctrl_ovl_location_t) (s : gwy) : Z * gwy :=
  nl_send E (Nl_location (mk_location (lo_cmd l) (u8 (lo_index l)) (lo_is_self l) (lo_domain l)
    (lo_dst_domain l) (lo_endpoint_ip l) (lo_endpoint_location l) (lo_ovl_src_location l)
    (lo_ovl_header_proto l) (htons (lo_ovl_src_port l)) (htons (lo_ovl_dst_port l))
    (lo_ovl_dst_mac l))) s.

Definition locations_of (r : dps_endpoint_loc_reply_t) : out (list ovl_tunnel_info_t) :=
  let* ts := first_of (tl_num_of_tunnels (elr_tunnel_info r)) (tl_tunnel_list (elr_tunnel_info r)) in
  Done ((fun t => mk_ovl_tunnel (net_vnid (elr_vnid r)) (ntohl (te_ip4 t))) <$> ts).
Definition ovl_cfg (cmd domain : Z) (r : dps_endpoint_loc_reply_t) (l : list ovl_tunnel_info_t)
    : ovl_tunnel_cfg_t :=
  mk_ovl_cfg cmd (net_vnid domain) (ntohl (ia_ip4 (elr_vm_ip_addr r))) (take 6 (elr_mac r))
    (sort_descending ot_endpoint_location l).

(** One turn of the loop: nothing is told when the route is not known. *)
Definition tell_location (c : ovl_tunnel_cfg_t) (i : nat) (x : ovl_tunnel_info_t) (s : gwy) : gwy :=
  let '(self, s) := chk_self_ipv4 (ot_endpoint_location x) s in
  let '(src, s) := route_to (ot_endpoint_location x) s in
  match src with
  | Some src =>
      (dgwy_ctrl_location (mk_location (oc_cmd c) (Z.of_nat i) (if self =? 0 then 0 else 1)
         (oc_domain c) (ot_dst_domain x) (oc_endpoint_ip c) (ot_endpoint_location x)
         (if g_dovenet_ipv4 s =? 0 then src else g_dovenet_ipv4 s)
         OVL_PROTO OVL_PROTO_SRC_PORT (OVL_PROTO_DST_PORT s) (oc_mac c)) s).2
  | None => s
  end.
Fixpoint tell_locations (skip0 : bool) (c : ovl_tunnel_cfg_t) (i : nat) (l : list ovl_tunnel_info_t)
    (s : gwy) : gwy :=
  match l with
  | [] => s
  | x :: l =>
      tell_locations skip0 c (S i) l
        (if skip0 && (ot_endpoint_location x =? 0) then s else tell_location c i x s)
  end.

(** The answer to a question about the shared networks: a location of 0 is
    left out. *)
Definition process_dps_loc_resp_shared (p : Z) (r : dps_endpoint_loc_reply_t) (s : gwy) : out gwy :=
  let* ctx := context p s in
  let* l := locations_of r in
  let c := ovl_cfg CMD_UPDATE_OVL_IP_SHARED (dc_svnid ctx) r l in
  Done (tell_locations true c 0 (oc_location c) s).

Definition program_locations (domain : Z) (r : dps_endpoint_loc_reply_t) (l : list ovl_tunnel_info_t)
    (s : gwy) : gwy :=
  let c := ovl_cfg CMD_UPDATE_OVL_IP domain r l in tell_locations false c 0 (oc_location c) s.
Definition handle_dps_loc_reply (p : Z) (r : dps_endpoint_loc_reply_t) (s : gwy) : out (bool * gwy) :=
  if MAX_TUNNEL_INFO <=? tl_num_of_tunnels (elr_tunnel_info r) then finish p false s
  else if p =? 0 then
    let* l := locations_of r in
    Done (true, program_locations (elr_vnid r) r l s)
  else
    let* ctx := context p s in
    let* l := locations_of r in
    if dc_shared_lookup ctx =? 0 then
      let* s := give_back p s in
      Done (true, program_locations (dc_svnid ctx) r l s)
    else if forallb (Z.eqb 0) (take 6 (elr_mac r)) then finish p false s
    else let* s := process_dps_loc_resp_shared p r s in finish p true s.

Definition handle_dps_unsolicited_loc_reply (p : Z) (r : dps_endpoint_loc_reply_t) (s : gwy)
    : out (bool * gwy) :=
  let* s := give_back p s in
  Done (true, (dgwy_ctrl_location (mk_location CMD_REFRESH_OVL_IP 0 0 0 0
                 (ntohl (ia_ip4 (elr_vm_ip_addr r))) 0 0 OVL_PROTO OVL_PROTO_SRC_PORT
                 (OVL_PROTO_DST_PORT s) (take 6 (elr_mac r))) s).2).

(** ** Policies *)

(** [for(i=0; i<numpermits; i++) if(...) {allowed=1; break;}] *)
Fixpoint permitted (n : nat) (svnid dvnid : Z) (rules : list src_dst_vnid_t) : out bool :=
  match n with
  | O => Done false
  | S n =>
      match rules with
      | [] => Fault
      | r :: rules =>
          if (sd_svnid r =? svnid) && (sd_dvnid r =? dvnid) then Done true
          else permitted n svnid dvnid rules
      end
  end.
Definition handle_dps_policy_reply (p : Z) (r : dps_policy_reply_t) (s : gwy) : out (bool * gwy) :=
  if p =? 0 then Done (false, s)
  else
    let* ctx := context p s in
    let pol := pi_dps_policy (pr_dps_policy_info r) in
    let loc := pr_dst_endpoint_loc_reply r in
    let* allowed := permitted (Z.to_nat (pl_num_permit_rules pol)) (dc_svnid ctx) (elr_vnid loc)
                      (pl_src_dst_vnid pol) in
    if allowed then handle_dps_loc_reply p loc s else finish p false s.

Definition handle_dps_update_reply (p : Z) (s : gwy) : out (bool * gwy) := finish p true s.

(** ** Broadcast: the other switches with a route to them *)
Fixpoint bcast_members (l : list Z) (s : gwy) : list (Z * Z) * gwy :=
  match l with
  | [] => ([], s)
  | a :: l =>
      if a =? 0 then bcast_members l s
      else
        let '(self, s) := chk_self_ipv4 (ntohl a) s in
        if self =? 0 then
          let '(src, s) := route_to (ntohl a) s in
          let '(ms, s) := bcast_members l s in
          (match src with Some src => (ntohl a, src) :: ms | None => ms end, s)
        else bcast_members l s
  end.
Definition dgwy_ctrl_bcast_lst (domain num_v6 : Z) (ms : list (Z * Z)) (s : gwy) : Z * gwy :=
  nl_send E (Nl_bcast_lst CMD_BCAST_LIST domain (Z.of_nat (length ms)) num_v6 OVL_PROTO_SRC_PORT
    (OVL_PROTO_DST_PORT s) ms.*1 ms.*2) s.
Definition handle_dps_bcast_reply_lst (p : Z) (b : dps_pkd_tunnel_list_t) (domain : Z) (s : gwy)
    : out (bool * gwy) :=
  if MAX_BROADCAST_MEMBERS_PER_DOMAIN <? pk_num_v4_tunnels b + pk_num_v6_tunnels b then finish p false s
  else
    let* l := first_of (pk_num_v4_tunnels b) (pk_tunnel_list b) in
    let '(ms, s) := bcast_members l s in
    let '(_, s) := dgwy_ctrl_bcast_lst domain (pk_num_v6_tunnels b) ms s in
    finish p true s.

(** ** Multicast receivers

    The records follow each other in memory, words of 32 bits: the network,
    the numbers of addresses, the addresses. *)
Definition pkd_words (r : dps_pkd_tunnel_list_t) : list Z :=
  [pk_vnid r; pk_num_v4_tunnels r + 65536 * pk_num_v6_tunnels r]
  ++ take (Z.to_nat (pk_num_v4_tunnels r + 4 * pk_num_v6_tunnels r)) (pk_tunnel_list r).
Definition word (mem : list Z) (i : nat) : out Z := of_option (mem !! i).

(** The receivers of one record, from address [i] of the [k] left; [tmp] and
    [tun] are [tmp_char_ptr] and [mcast_tunlist].  An address of 0 moves both
    pointers, and the loop goes on behind them.  [true]: the list is full. *)
Fixpoint mcast_record (mem : list Z) (size : nat) (vnid : Z) (k i tmp tun : nat)
    (recv : list (Z * Z)) : out (bool * nat * list (Z * Z)) :=
  match k with
  | O => Done (false, tmp, recv)
  | S k =>
      let* a := word mem (tun + 2 + i) in
      if a =? 0 then mcast_record mem size vnid k (S i) (tmp + size) (tmp + size) recv
      else
        let recv := recv ++ [(vnid, ntohl a)] in
        if decide (MAX_MCAST_RCVER <= length recv)%nat then Done (true, tmp, recv)
        else mcast_record mem size vnid k (S i) tmp tun recv
  end.
(** The [k] records that are left. *)
Fixpoint mcast_records (mem : list Z) (k tun : nat) (recv : list (Z * Z))
    : out (bool * list (Z * Z)) :=
  match k with
  | O => Done (false, recv)
  | S k =>
      let* n := word mem (tun + 1) in
      let n4 := n mod 65536 in
      let n6 := n / 65536 in
      let size := Z.to_nat (2 + n4 + 4 * n6) in
      if (0 <? n4) && (n4 <=? Z.of_nat MAX_MCAST_RCVER) then
        let* v := word mem tun in
        let* (full, tmp, recv) := mcast_record mem size (net_vnid v) (Z.to_nat n4) 0 tun tun recv in
        if (full : bool) then Done (true, recv) else mcast_records mem k (tmp + size) recv
      else mcast_records mem k (tun + size) recv
  end.
Definition handle_dps_mcast_recv_list (p : Z) (m : dps_mcast_receiver_ds_list_t) (domain : Z) (s : gwy)
    : out (bool * gwy) :=
  let* (full, recv) :=
    mcast_records ((md_mcast_recvr_list m ≫= pkd_words) ++ behind H) (Z.to_nat (md_num_of_rec m)) 0 [] in
  if (full : bool) then finish p false s
  else
    let s :=
      match recv with
      | [] => s
      | _ => (nl_send E (Nl_mcast_lst CMD_MCAST_LIST (net_vnid domain)
                (ntohl (ma_mcast_ip4 (md_mcast_addr m))) (take 6 (ma_mcast_mac (md_mcast_addr m)))
                (Z.of_nat (length recv)) OVL_PROTO_SRC_PORT (OVL_PROTO_DST_PORT s) recv) s).2
      end in
    finish p true s.

(** ** The gateways of a network *)

(** [dgwy_ctrl_set_peer_ipv4] *)
Definition dgwy_ctrl_set_peer_ipv4 (ip : Z) (s : gwy) : gwy :=
  let '(ok, s) := ask_host (ha_queue H) s in
  if ok then emit (To_ha_task ip (g_dovenet_ipv4 s)) s else s.
Definition handle_dps_vlangw_reply_lst (p : Z) (t : dps_tunnel_list_t) (vnid : Z) (s : gwy)
    : out (bool * gwy) :=
  if MAX_TUNNEL_INFO <=? tl_num_of_tunnels t then finish p false s
  else
    let* ts := first_of (tl_num_of_tunnels t) (tl_tunnel_list t) in
    finish p true
      (fold_left (fun s x =>
         if negb (vnid =? te_vnid x) then s
         else
           let '(self, s) := chk_self_ipv4 (ntohl (te_ip4 x)) s in
           if self =? 0 then dgwy_ctrl_set_peer_ipv4 (ntohl (te_ip4 x)) s else s) ts s).

(** The gateway's own address in the list, the last one that is; an error of
    [chk_self_ipv4] counts as a match. *)
Fixpoint self_tunnel (l : list Z) (self : Z) (s : gwy) : Z * gwy :=
  match l with
  | [] => (self, s)
  | a :: l =>
      let '(r, s) := chk_self_ipv4 (ntohl a) s in
      self_tunnel l (if r =? 0 then self else a) s
  end.
(** The networks of the service with number [vnid]: the gateway becomes their
    master, or a slave. *)
Fixpoint elect (master : bool) (vnid : Z) (l : list ext_mcast_vnid_t) (s : gwy)
    : list ext_mcast_vnid_t * gwy :=
  match l with
  | [] => ([], s)
  | x :: l =>
      if em_vnid x =? vnid then
        let s :=
          if master then
            let s := if em_master x =? 0
                     then (nl_send E (vnid_info vnid VNID_INFO_STATE_EXTMCAST_MASTER (em_ipv4 x)) s).2
                     else s in
            send_ext_mcast_recv_join E vnid DPS_MCAST_RECV_JOIN s
          else if em_master x =? 1 then
            send_ext_mcast_recv_join E vnid DPS_MCAST_RECV_LEAVE
              (nl_send E (vnid_info vnid VNID_INFO_STATE_EXTMCAST_SLAVE (em_ipv4 x)) s).2
          else s in
        let '(l, s) := elect master vnid l s in
        (mk_mcast (em_ipv4 x) (em_vnid x) (if master then 1 else 0) :: l, s)
      else let '(l, s) := elect master vnid l s in (x :: l, s)
  end.

(** [SVC_LOCK], which waits: [patience] is how often the lock is looked at. *)
Fixpoint svc_wait (patience j : nat) (s : gwy) : out (dgwy_service_list_t * gwy) :=
  match patience with
  | O => Timeout
  | S n =>
      let s := look_again E s in
      let* e := of_option (svc_table s !! j) in
      if sv_lock e then svc_wait n j s else Done (e, set_entry j (with_lock true e) s)
  end.
Definition elect_service (patience : nat) (master : bool) (vnid : Z) (j : nat) (s : gwy) : out gwy :=
  let s := look_again E s in
  let* e := of_option (svc_table s !! j) in
  match strlen (sv_name e) with
  | O => Done s
  | _ =>
      let* (e, s) := svc_wait patience j s in
      let '(l, s) := elect master vnid (ext_mcast_vnids e) s in
      Done (set_entry j (with_lock false (with_mcasts l e)) s)
  end.
Fixpoint elect_services (patience : nat) (master : bool) (vnid : Z) (js : list nat) (s : gwy) : out gwy :=
  match js with
  | [] => Done s
  | j :: js => let* s := elect_service patience master vnid j s in elect_services patience master vnid js s
  end.
Definition services : list nat := seq SVC_INDX_START (MAX_SERVICE_TABLES - SVC_INDX_START).

Definition handle_dps_extgw_reply_lst (patience : nat) (p : Z) (t : dps_tunnel_list_t) (vnid : Z) (s : gwy)
    : out (bool * gwy) :=
  if MAX_TUNNEL_INFO <=? tl_num_of_tunnels t then finish p false s
  else
    let* ts := first_of (tl_num_of_tunnels t) (tl_tunnel_list t) in
    let ips := te_ip4 <$> ts in
    match sort_descending (fun x => x) ips with
    | [] => finish p true s
    | first :: _ =>
        let '(self, s) := self_tunnel ips 0 s in
        let* s := elect_services patience (first =? self) vnid services s in
        finish p true s
    end.

(** ** The others *)
Definition handle_dps_address_resolve (p : Z) (q : dps_endpoint_loc_req_t) (s : gwy) : out (bool * gwy) :=
  let ready := match nl E (now s) with Nl_no_memory => false | _ => true end in
  let '(_, s) := nl_send E (Nl_location (mk_location CMD_ADDR_RESOLVE 0 0 0 0
                   (ntohl (ia_ip4 (elq_vm_ip_addr q))) 0 0 0 0 0 (take 6 (elq_mac q)))) s in
  finish p ready s.

Definition dgw_ctrl_set_ovl_port (port : Z) (s : gwy) : Z * gwy :=
  match nl E (now s) with
  | Nl_no_memory => (-1, tick s)
  | _ => nl_send E (Nl_ovl_port CMD_SET_OVL_PORT port) (set_ovl_port (u16 port) s)
  end.

(** ** [dgwy_handle_dps_response] *)
Definition lost (status : Z) : bool :=
  (status =? DPS_NO_RESPONSE) || (status =? DPS_ERROR_RETRY) || (status =? DPS_ERROR_NO_ROUTE).
Definition dgwy_handle_dps_response (patience : nat) (rsp : dps_client_data_t) (s : gwy)
    : out (bool * gwy) :=
  let ty := ch_type (cd_hdr rsp) in
  let vnid := ch_vnid (cd_hdr rsp) in
  let p := cd_context rsp in
  let s := if lost (ch_resp_status (cd_hdr rsp)) then set_dcs 0 s else s in
  if DPS_MAX_MSG_TYPE <=? ty then Done (false, s)
  else if ty =? DPS_POLICY_REPLY then
    let* b := as_policy_reply (cd_body rsp) in handle_dps_policy_reply p b s
  else if ty =? DPS_ENDPOINT_LOC_REPLY then
    let* b := as_endpoint_loc_reply (cd_body rsp) in handle_dps_loc_reply p b s
  else if ty =? DPS_UNSOLICITED_ENDPOINT_LOC_REPLY then
    let* b := as_endpoint_loc_reply (cd_body rsp) in handle_dps_unsolicited_loc_reply p b s
  else if ty =? DPS_ENDPOINT_UPDATE_REPLY then handle_dps_update_reply p s
  else if ty =? DPS_BCAST_LIST_REPLY then
    let* b := as_dove_switch_list (cd_body rsp) in handle_dps_bcast_reply_lst p b vnid s
  else if ty =? DPS_MCAST_RECEIVER_DS_LIST then
    let* b := as_mcast_receiver_ds_list (cd_body rsp) in handle_dps_mcast_recv_list p b vnid s
  else if ty =? DPS_REG_DEREGISTER_ACK then Done (true, s)
  else if ty =? DPS_VLAN_GW_LIST_REPLY then
    let* b := as_tunnel_info (cd_body rsp) in handle_dps_vlangw_reply_lst p b vnid s
  else if (ty =? DPS_UNSOLICITED_EXTERNAL_GW_LIST) || (ty =? DPS_EXTERNAL_GW_LIST_REPLY) then
    let* b := as_tunnel_info (cd_body rsp) in handle_dps_extgw_reply_lst patience p b vnid s
  else if (ty =? DPS_POLICY_INVALIDATE) || (ty =? DPS_ADDR_RESOLVE) then
    let* b := as_endpoint_loc_req (cd_body rsp) in handle_dps_address_resolve p b s
  else Done (false, s).

(** ** The queries of the kernel module *)

(** Whether a query concerns the gateway: not an address of the other
    gateway. *)
Definition dgwy_ctrl_set_legacy_nexthop (vnid ipv4 nexthop : Z) (s : gwy) : Z * gwy :=
  nl_send E (Nl_legacy_nexthop CMD_LEGACY_NXTHOP vnid ipv4 nexthop) s.
Definition dove_location_vip_update (info : dgwy_dps_query_list_info_t) (s : gwy) : out gwy :=
  let* (peer, s) := mac_in_peer (qi_endpoint_mac info) s in
  if (peer : bool) then Done s
  else
    let '(_, s) := dgwy_register_vip_location E (domain_horder info) (ntohl (qi_ip4 info))
                     (ntohl (qi_phyip4 info)) (Some (qi_endpoint_mac info)) s in
    let '(nexthop, s) := find_vnid_subnet_nexthop E (domain_horder info) (qi_ip4 info) s in
    Done (if nexthop =? 0 then s
          else (dgwy_ctrl_set_legacy_nexthop (qi_domain info) (qi_ip4 info) nexthop s).2).

(** Every shared network with a subnet the address is in is asked for; the
    subnets are read without the lock of their service, each as it is when it
    is looked at. *)
Definition in_shared_subnet (ip4 : Z) (x : vnid_subnet_t) : bool :=
  negb (vs_IPv4 x =? 0) && negb (vs_subnet_mode x =? 0)
  && (Z.land ip4 (vs_IPv4_mask x) =? Z.land (vs_IPv4_mask x) (vs_IPv4 x)).
Definition ask_subnet (info : dgwy_dps_query_list_info_t) (s : gwy) (ji : nat * nat) : gwy :=
  let s := look_again E s in
  match e ← svc_table s !! ji.1; vnid_subnet e !! ji.2 with
  | Some x => if in_shared_subnet (qi_ip4 info) x then ask_policy_of E (vs_vnid x) info s else s
  | None => s
  end.
Definition dove_policy_request_shared (info : dgwy_dps_query_list_info_t) (s : gwy) : gwy :=
  let '((self, mask), s) := chk_self_ipv4_getmask (qi_ip4 info) s in
  if self =? 1 then
    (dgwy_ctrl_svc_ipv4 E CMD_ADD_IPV4 (qi_ip4 info) mask (qi_ip4 info) 0 false s).2
  else
    fold_left (ask_subnet info) (j ← services; (fun i => (j, i)) <$> seq 0 MAX_VNID_SUBNETS) s.
Definition dove_policy_request (info : dgwy_dps_query_list_info_t) (s : gwy) : out gwy :=
  if dps_known s then
    let* (peer, s) := mac_in_peer (qi_endpoint_mac info) s in
    if (peer : bool) then Done s
    else if ntohl (qi_domain info) =? SHARED_VNID_MARK then Done (dove_policy_request_shared info s)
    else Done (ask_policy E info s)
  else Done s.
Definition dgwy_dps_cli_lookup (domain vmIp : Z) : gwy -> out gwy :=
  dove_policy_request (mk_query 0 (net_vnid domain) vmIp 0 zero_mac 0 zero_mac).

(** Every network of the gateway with VLANs joins its group, or leaves it. *)
Definition vgw_all (caller : string) (type : Z) (s : gwy) : gwy :=
  (with_svc E caller tt tt (fun e s =>
     (tt, e, (each (fun x => negb (g_dovenet_ipv4 s =? 0) && real_vnid (dv_domain x))
                (fun x => send_ext_mcast_recv_join E (dv_domain x) type) (dvList e) (false, s)).2)) s).2.
Definition dove_mcast_dcs_vgw_all_recv_join : gwy -> gwy :=
  vgw_all "dove_mcast_dcs_vgw_all_recv_join" DPS_MCAST_RECV_JOIN.
Definition dove_mcast_dcs_vgw_all_recv_leave : gwy -> gwy :=
  vgw_all "dove_mcast_dcs_vgw_all_recv_leave" DPS_MCAST_RECV_LEAVE.

Definition device_query (info : dgwy_dps_query_list_info_t) (s : gwy) : out gwy :=
  let ty := qi_type info in
  if ty =? DPS_LOCATION_QUERY then dove_policy_request info s
  else if ty =? DPS_LOCATION_VIP_UPDATE then dove_location_vip_update info s
  else Done
    (if ty =? DPS_LOCATION_MAC_UPDATE then dove_location_mac_update E info s
     else if ty =? DPS_LOCATION_MAC_DELETE then dove_location_mac_delete E info s
     else if ty =? DPS_LOCATION_VIP_DELETE then dove_location_vip_delete E info s
     else if ty =? DPS_LOCATION_UNAVAILABLE then dove_location_legacy_unavailable E info s
     else if (ty =? DPS_MCAST_RECV_JOIN) || (ty =? DPS_MCAST_RECV_LEAVE) then
       dove_mcast_dcs_rcvr_notify E info s
     else if (ty =? DPS_MCAST_SENDER_REGISTER) || (ty =? DPS_MCAST_SENDER_LEAVE) then
       dove_mcast_dcs_sender_notify E info s
     else if ty =? DPS_MCAST_VGW_ALL_RECV_JOIN then dove_mcast_dcs_vgw_all_recv_join s
     else if ty =? DPS_MCAST_VGW_ALL_RECV_LEAVE then dove_mcast_dcs_vgw_all_recv_leave s
     else s).
(** What one read of the device brings. *)
Fixpoint dgwy_device_poll (buf : list dgwy_dps_query_list_info_t) (s : gwy) : out gwy :=
  match buf with
  | [] => Done s
  | info :: buf => let* s := device_query info s in dgwy_device_poll buf s
  end.
End replies.

(** ** What happens to a gateway *)
Inductive gw_input :=
| In_cmd (c : gw_cmd)
| In_ovl_port (port : Z)
| In_lookup (domain vmIp : Z)
| In_poll (buf : list dgwy_dps_query_list_info_t)
| In_answer (rsp : dps_client_data_t).
Definition gw_serve (E : gw_env) (H : host) (patience : nat) (i : gw_input) (s : gwy) : out gwy :=
  match i with
  | In_cmd c => Done (gw_run E c s)
  | In_ovl_port port => Done (dgw_ctrl_set_ovl_port E port s).2
  | In_lookup domain vmIp => dgwy_dps_cli_lookup E H domain vmIp s
  | In_poll buf => dgwy_device_poll E H buf s
  | In_answer rsp => let* r := dgwy_handle_dps_response E H patience rsp s in Done r.2
  end.
Fixpoint gw_serves (E : gw_env) (H : host) (patience : nat) (l : list gw_input) (s : gwy) : out gwy :=
  match l with
  | [] => Done s
  | i :: l => let* s := gw_serve E H patience i s in gw_serves E H patience l s
  end.
