(* ===== verification/DhAnswer.v ===== *)
(** * The data handler: what its clients and Python may rely on

    Every message has the body of its type and every call ends; every context
    was told; a question is answered with what Python says; an update goes to
    the other replicas; a message of another node's domain goes there. *)
From Stdlib Require Import Ascii.
From stdpp Require Import gmap strings relations.
From S2P Require Export GwReply DhSound.
#[local] Open Scope Z_scope.

(** Before [dcs_protocol_handler_start]. *)
Definition dh_idle : dh := mk_dh false 0 ∅ 1 0 [].
Lemma idle_sound : sound dh_idle.
Proof. split; [split; [done|]|split; [done|]]; intros *; by rewrite ?lookup_empty. Qed.

(** ** An interpreter for the examples *)
Inductive py_obj :=
| P_none
| P_num (z : Z)
| P_str (b : list Z)
| P_list (l : list py_obj)
| P_tuple (l : list py_obj).
Fixpoint units (fmt : string) : list Ascii.ascii :=
  match fmt with
  | EmptyString => []
  | String "#"%char fmt => units fmt
  | String c fmt => c :: units fmt
  end.
Definition arg (u : Ascii.ascii) (o : py_obj) : option (py_arg py_obj) :=
  match u, o with
  | "O"%char, _ => Some (A_obj o)
  | "z"%char, P_none => Some (A_str None)
  | "z"%char, P_str b => Some (A_str (Some b))
  | "z"%char, _ => None
  | _, P_num z => Some (A_int z)
  | _, _ => None
  end.
Fixpoint stored (u : list Ascii.ascii) (l : list py_obj) : list (py_arg py_obj) :=
  match u, l with
  | c :: u, o :: l => match arg c o with Some a => a :: stored u l | None => [] end
  | _, _ => []
  end.
Definition parsed (fmt : string) (o : py_obj) : list (py_arg py_obj) :=
  match o with P_tuple l => stored (units fmt) l | _ => stored (units fmt) [o] end.
Definition sample_py (answer : py_fun -> list py_val -> list (c_fun * py_obj) * option py_obj) : py_env :=
  mk_py_env py_obj parsed
    (fun o => match o with P_list l => Some l | _ => None end) (fun _ => Some [])
    (fun o => match o with P_num _ => true | _ => false end)
    (fun o => match o with P_num z => z | _ => 0 end)
    (fun _ => answer) (fun _ => true) (fun _ => true) (fun _ => DPS_SUCCESS) (fun _ _ => 0)
    (fun _ _ => zero_ip_addr) (fun _ _ => mk_tunnel 0 0 0 0 0 zero_ip) (fun _ => [])
    (mk_ip_addr AF_INET 902 0 0 ([10; 0; 0; 1] ++ replicate 12 0)) false.

Definition ip16 (k : Z) : list Z := replicate 15 0 ++ [k].
Definition replies (l : list py_obj) : list (c_fun * py_obj) * option py_obj := ([], Some (P_tuple l)).
(** Network 9 is of another node; the domain has three replicas, the second of
    them this node. *)
Definition sample_answer (f : py_fun) (args : list py_val) : list (c_fun * py_obj) * option py_obj :=
  match f, args with
  | Is_VNID_Handled_Locally, V_int 9 :: _ => replies [P_num 0; P_num 0; P_num 5]
  | Is_VNID_Handled_Locally, _ => replies [P_num 0; P_num 1; P_num 5]
  | Endpoint_Location_vIP, _ =>
      replies [P_num 0; P_num 8; P_num 3; P_list [P_num 167772161; P_num 167772162]; P_list [P_str (ip16 1)];
               P_str (replicate 6 17); P_str [10; 0; 0; 9]; P_num 0]
  | Policy_Resolution_vIP, _ =>
      replies [P_num 0; P_num 8; P_num 3; P_list [P_num 167772161]; P_list []; P_str (replicate 6 17);
               P_str [10; 0; 0; 9]; P_num 2; P_num 60; P_num DPS_POLICY_TYPE_CONNECTIVITY;
               P_str [0; 0; 1; 0]]
  | ReplicationQueryIDGenerate, _ =>
      replies [P_num 0;
               P_list [P_tuple [P_num AF_INET; P_str [10; 0; 0; 2]; P_num 902];
                       P_tuple [P_num AF_INET; P_str [10; 0; 0; 1]; P_num 902];
                       P_tuple [P_num AF_INET6; P_str (ip16 3); P_num 903]];
               P_list [P_num 11; P_num 12; P_num 13]]
  | Endpoint_Update, V_int domain :: _ =>
      replies [P_num 0; P_num (if domain =? 0 then 0 else 1); P_num 1; P_list []]
  | Domain_Get_Random_Remote_Node, _ => replies [P_num 0; P_num AF_INET; P_str [10; 0; 0; 2]; P_num 902]
  | _, _ => ([], Some P_none)
  end.
Definition smp : py_env := sample_py sample_answer.
Definition sample_hdr (type vnid : Z) : dps_client_hdr_t :=
  mk_client_hdr type 0 DPS_SWITCH_AGENT_ID DPS_TRANSACTION_NORMAL vnid DPS_NO_ERR 7
    (mk_ip_addr AF_INET 902 0 0 ([10; 0; 0; 7] ++ replicate 12 0)).
Definition v4 (k : Z) : ip_addr_t := mk_ip_addr AF_INET 902 0 0 ([10; 0; 0; k] ++ replicate 12 0).
Definition sample_location (vnid : Z) : dps_client_data_t :=
  mk_client_data 0 (sample_hdr DPS_ENDPOINT_LOC_REQ vnid)
    (Body_endpoint_loc_req (mk_endpoint_loc_req vnid (replicate 6 17) (v4 9) (v4 7))).
Definition sample_update : dps_client_data_t :=
  mk_client_data 0 (sample_hdr DPS_ENDPOINT_UPDATE 7)
    (Body_endpoint_update (mk_endpoint_update 7 (replicate 6 17) 1 (v4 9) (v4 7)
       (mk_tunnel_list 1 [mk_tunnel AF_INET 0 7 TUNNEL_TYPE_VXLAN 0 (ia_ip (v4 7))]))).
Definition sample_args : py_obj :=
  P_tuple [P_str [10; 0; 0; 7]; P_num 902; P_num 0; P_num 7; P_num 21; P_num 0;
           P_list [P_tuple [P_num 7; P_num 8]; P_tuple [P_num 8; P_num 7]]].
Definition sample_ack (context : Z) : dps_client_data_t :=
  mk_client_data context (sample_hdr DPS_GENERAL_ACK 7) Body_none.
Definition ready : dh := mk_dh true 0 ∅ 1 0 [].
Lemma ready_sound : sound ready.
Proof. split; [split; [done|]|split; [done|]]; intros *; by rewrite ?lookup_empty. Qed.

(** ** Messages of the right type, and an end *)

(** C5. Every message the data handler sends carries the body of its type,
    whatever messages arrive and whatever Python calls and answers, in every
    run that does not leave its memory.  When Python names no shared address
    space for the address space all networks share ([one_shared]), no message
    and no call goes on for ever: the update of an endpoint calls itself once
    at most. *)
Theorem data_handler_messages E fuel l :
  Forall (input_typed E) l ->
  (forall s, dh_serves E fuel l dh_idle = Done s ->
     forall m, In (Dh_sent m) (dh_out s) -> well_typed (ch_type (cd_hdr m)) (cd_body m) = true) /\
  (one_shared E -> (1 < fuel)%nat -> dh_serves E fuel l dh_idle <> Timeout).
Proof.
  intros Hl. split.
  - intros s Hs. apply (dh_serves_moves E (fun _ => True)) in Hs; [|done|by apply Forall_true|apply idle_sound].
    apply (moves_sound _ _ _ _ Hs idle_sound).
  - intros Hone Hf. by apply dh_serves_ends.
Qed.

(** A server that is started, asked, told of an endpoint whose network has the
    shared one beside it, and has a client told its policies. *)
Definition sample_run : list (dh_input smp) :=
  [In_start; In_message (sample_location 7); In_message (sample_location 9); In_message sample_update;
   @In_python smp C_send_all_connectivity_policies sample_args; In_message (sample_ack 3)].
Lemma sample_typed : Forall (input_typed smp) sample_run.
Proof. repeat constructor. Qed.
Lemma smp_one_shared : one_shared smp.
Proof. intros n args calls o [= <- <-] r sh v l [= _ <- _ _]. done. Qed.
Lemma data_handler_messages_witness :
  match dh_serves smp 2 sample_run dh_idle with
  | Done s => forall m, In (Dh_sent m) (dh_out s) -> well_typed (ch_type (cd_hdr m)) (cd_body m) = true
  | _ => False
  end.
Proof.
  destruct (data_handler_messages smp 2 sample_run sample_typed) as [H Ht].
  specialize (Ht smp_one_shared ltac:(lia)).
  destruct (dh_serves smp 2 sample_run dh_idle) eqn:Hs;
    [exact (H _ eq_refl)| |exfalso; exact (Ht eq_refl)].
  exfalso. revert Hs. vm_compute. discriminate.
Defined.

(** ** Contexts *)
Definition is_context (kv : Z * block) : Prop := match kv.2 with Blk_context _ => True | _ => False end.
#[export] Instance is_context_dec kv : Decision (is_context kv).
Proof. unfold is_context. destruct (kv.2); apply _. Defined.
Definition live (s : dh) : Z := Z.of_nat (size (filter is_context (dh_blocks s))).
Definition told (s : dh) : Prop :=
  forall p c, dh_blocks s !! p = Some (Blk_context c) ->
  exists m, In (Dh_sent m) (dh_out s) /\ cd_context m = p /\ ch_type (cd_hdr m) = cx_original_msg_type c.
Definition accounted (E : py_env) (s : dh) : Prop :=
  told s /\ dh_unsolicited s <= live s /\
  ((forall n, py_sends E n = DPS_SUCCESS) -> dh_unsolicited s = live s).

Lemma move_told E acks s s' : dh_move E acks s s' -> told s -> told s'.
Proof.
  intros Hm Ht. destruct Hm; intros q c' Hq; cbn in Hq |- *; try exact (Ht _ _ Hq).
  all: try (apply lookup_insert_Some in Hq as [[<- Hq]|[_ Hq]]; [simplify_eq|]).
  all: try apply lookup_delete_Some in Hq as [_ Hq].
  all: try (apply Ht in Hq as (m' & Hin & Hm'); exists m'; rewrite ?in_app_iff; by auto).
  - exists m. rewrite in_app_iff. cbn. by auto.
  - exact (Ht _ _ Hq).
Qed.
Lemma live_insert_message p m (b : gmap Z block) :
  (forall c, b !! p <> Some (Blk_context c)) ->
  filter is_context (<[p := Blk_message m]> b) = filter is_context b.
Proof.
  intros Hp. rewrite map_filter_insert_False by (unfold is_context; cbn; tauto).
  rewrite map_filter_delete. apply delete_id, map_lookup_filter_None. right. intros x Hx Hc.
  destruct x; [by eapply Hp|done].
Qed.
Lemma live_delete_message p x (b : gmap Z block) :
  b !! p = Some x -> is_message x -> filter is_context (delete p b) = filter is_context b.
Proof.
  intros Hp Hx. rewrite map_filter_delete. apply delete_id, map_lookup_filter_None. right.
  intros y Hy Hc. rewrite Hp in Hy. simplify_eq. by destruct y.
Qed.
Lemma live_alloc c s :
  fresh s -> live (dh_alloc (Blk_context c) s) = live s + 1.
Proof.
  intros [_ Hf]. unfold live. cbn. rewrite map_filter_insert_True by done.
  rewrite map_size_insert_None; [lia|]. apply map_lookup_filter_None. left.
  destruct (dh_blocks s !! dh_next s) eqn:Hn; [|done]. apply Hf in Hn. lia.
Qed.
Lemma live_acked p c s :
  dh_blocks s !! p = Some (Blk_context c) ->
  Z.of_nat (size (filter is_context (delete p (dh_blocks s)))) = live s - 1.
Proof.
  intros Hp. unfold live. rewrite map_filter_delete.
  assert (filter is_context (dh_blocks s) !! p = Some (Blk_context c)) as Hf
    by (by apply map_lookup_filter_Some).
  rewrite map_size_delete_Some by by eexists.
  assert (size (filter is_context (dh_blocks s)) <> 0)%nat; [|lia].
  intros Hz. apply map_size_empty_iff in Hz. by rewrite Hz, lookup_empty in Hf.
Qed.
Lemma move_accounted E acks s s' : dh_move E acks s s' -> fresh s -> accounted E s -> accounted E s'.
Proof.
  intros Hm Hf (Ht & Hle & Heq). split; [by eapply move_told|]. pose proof Hf as [_ Hb].
  assert (forall c, dh_blocks s !! dh_next s <> Some (Blk_context c)) as Hno.
  { intros c Hc. apply Hb in Hc. lia. }
  destruct Hm; cbn [dh_unsolicited dh_emit dh_count dh_tick dh_with_blocks dh_with_started]; try done.
  - unfold live in *. cbn in *. split; [lia|]. intros Ha. by rewrite Ha in *.
  - unfold dh_emit, dh_count at 1 2. change (live _) with (live (dh_alloc (Blk_context c) s)).
    rewrite live_alloc by done. cbn. split; [lia|]. intros Ha. rewrite Heq by done. lia.
  - change (live _) with (Z.of_nat (size (filter is_context (delete (dh_next s) (dh_blocks s))))).
    rewrite delete_id; [done|]. destruct (dh_blocks s !! dh_next s) eqn:Hn; [|done]. apply Hb in Hn. lia.
  - unfold live, dh_alloc. cbn. rewrite live_insert_message by done. done.
  - unfold live. cbn. rewrite live_insert_message; [done|]. intros c Hc. congruence.
  - unfold live. cbn. by erewrite live_delete_message.
  - change (live _) with (Z.of_nat (size (filter is_context (delete p (dh_blocks s))))).
    erewrite live_acked by done. split; [lia|]. intros Ha. rewrite Heq by done. lia.
Qed.
Lemma moves_accounted E acks s s' :
  rtc (dh_move E acks) s s' -> fresh s -> accounted E s -> accounted E s'.
Proof.
  induction 1; eauto using move_accounted, move_fresh.
Qed.

(** C6. After any run, every context that is still there was told: a message of
    the type it notes was sent with it.  The count of outstanding messages is
    never above the number of contexts, and is that number as long as no
    message is refused. *)
Theorem contexts_accounted E fuel l s :
  Forall (input_typed E) l -> dh_serves E fuel l dh_idle = Done s ->
  (forall p c, dh_blocks s !! p = Some (Blk_context c) ->
    exists m, In (Dh_sent m) (dh_out s) /\ cd_context m = p /\
      ch_type (cd_hdr m) = cx_original_msg_type c) /\
  dh_unsolicited s <= live s /\
  ((forall n, py_sends E n = DPS_SUCCESS) -> dh_unsolicited s = live s).
Proof.
  intros Hl Hs. apply (dh_serves_moves E (fun _ => True)) in Hs; [|done|by apply Forall_true|apply idle_sound].
  eapply moves_accounted in Hs; [exact Hs|apply idle_sound|].
  split; [|by unfold live]. intros p c Hp. change (dh_blocks dh_idle) with (∅ : gmap Z block) in Hp. by rewrite lookup_empty in Hp.
Qed.
Lemma contexts_accounted_witness :
  exists s, dh_serves smp 2 sample_run dh_idle = Done s /\ dh_unsolicited s = live s.
Proof.
  destruct (dh_serves smp 2 sample_run dh_idle) as [s| |] eqn:Hs.
  - exists s. split; [reflexivity|]. apply (contexts_accounted smp 2 sample_run s sample_typed Hs).
    intros n. reflexivity.
  - exfalso. revert Hs. vm_compute. discriminate.
  - exfalso. revert Hs. vm_compute. discriminate.
Defined.

(** ** Questions and their answers

    Python answers at once: it can be asked, and calls nothing in turn. *)
Section answers.
Context (E : py_env).

Definition answered (n : nat) (f : py_fun) (args : list py_val) (o : object E) : Prop :=
  py_builds E n = true /\ py_answer E (S n) f args = ([], Some o).
Definition asked (f : py_fun) (args : list py_val) (s : dh) : dh :=
  dh_emit (Py_called f args) (dh_tick (dh_tick s)).
Lemma py_call_answered f args o s :
  answered (dh_now s) f args o -> py_call E f args s = Done (Returned o, asked f args s).
Proof.
  intros [Hb Ha]. unfold py_call, py_eval. rewrite Hb. cbn [dh_now dh_tick]. by rewrite Ha.
Qed.

(** What the objects of a list stand for. *)
Definition is_number (o : object E) (z : Z) : Prop := parse_I E o = Some z.
Definition is_string16 (o : object E) (b : list Z) : Prop := parse_z E o = Some b /\ length b = 16%nat.
Definition numbers (o : object E) (v : list Z) : Prop :=
  exists l, py_list E o = Some l /\ Forall2 is_number l v.
Definition strings16 (o : object E) (v : list (list Z)) : Prop :=
  exists l, py_list E o = Some l /\ Forall2 is_string16 l v.
(** A tunnel, and the address it is to have. *)
Definition leads_to (vnid : Z) (a : Z + list Z) (t : dps_tunnel_endpoint_t) : Prop :=
  te_vnid t = vnid /\ te_tunnel_type t = TUNNEL_TYPE_VXLAN /\
  match a with
  | inl z => te_family t = AF_INET /\ te_ip4 t = ntohl z
  | inr b => te_family t = AF_INET6 /\ take 16 (te_ip t) = b
  end.

Lemma gather_fills {A B} (val : object E -> A -> Prop) (R : A -> B -> Prop) room f l v acc :
  (forall j o a, (j < room)%nat -> val o a -> exists b, f j o = Done (Some b) /\ R a b) ->
  Forall2 val l v -> (length acc + length l <= room)%nat ->
  exists bs, gather E room f l acc = Done (acc ++ bs) /\ Forall2 R v bs.
Proof.
  intros Hf Hl. revert acc. induction Hl as [|o a l v Ho _ IH]; intros acc Hroom; cbn [gather].
  - exists []. by rewrite app_nil_r.
  - cbn in Hroom. rewrite decide_False by lia.
    destruct (Hf (length acc) o a) as (b & -> & Hb); [lia|done|]. cbn [obind].
    destruct (IH (acc ++ [b])) as (bs & -> & Hbs); [rewrite length_app; cbn; lia|].
    exists (b :: bs). rewrite <- app_assoc. by split; [|constructor].
Qed.
Lemma u32_ntohl z : u32 (ntohl z) = ntohl z.
Proof. pose proof (ntohl_in32 z) as H. unfold in32 in H. apply Z.mod_small. lia. Qed.
Lemma ip4_of_set u x f a : ia_ip4 (with_ip f (set_ip4 u (ntohl x)) a) = ntohl x.
Proof. unfold ia_ip4. cbn [ia_ip with_ip]. by rewrite get_set_ip4, u32_ntohl. Qed.
Lemma reply_tunnel4_fills room vnid n j o z :
  (j < room)%nat -> parse_I E o = Some z ->
  exists t, reply_tunnel4 E room vnid n j o = Done (Some t) /\ leads_to vnid (inl z) t.
Proof.
  intros Hj Ho. unfold reply_tunnel4, vnid_tunnel4. rewrite Ho, decide_False by lia.
  eexists. split; [reflexivity|]. repeat split. unfold te_ip4. cbn [te_ip]. by rewrite get_set_ip4, u32_ntohl.
Qed.
Lemma reply_tunnel6_fills room vnid n j o b :
  (j < room)%nat -> parse_z E o = Some b /\ length b = 16%nat ->
  exists t, reply_tunnel6 E room vnid n j o = Done (Some t) /\ leads_to vnid (inr b) t.
Proof.
  intros Hj [Ho Hb]. unfold reply_tunnel6, vnid_tunnel6, memcpy_ip.
  rewrite Ho, decide_False by lia. rewrite decide_True by lia.
  eexists. split; [reflexivity|]. repeat split. cbn. rewrite take_app_le, take_ge by lia. done.
Qed.

(** All the addresses, those of IPv4 first, as long as there is room or
    memory. *)
Lemma location_tunnels_fills room vnid n o4 o6 v4 v6 s :
  numbers o4 v4 -> strings16 o6 v6 ->
  let big := (room <? length v4 + length v6)%nat in
  big = false \/ py_mallocs E (dh_now s) = true ->
  exists ts, location_tunnels E room vnid n o4 o6 s =
    Done (big, mk_tunnel_list (u16 (Z.of_nat (length ts))) ts, if big then dh_tick s else s) /\
    Forall2 (leads_to vnid) ((inl <$> v4) ++ (inr <$> v6)) ts.
Proof.
  intros (l4 & Hl4 & H4) (l6 & Hl6 & H6) big Hbig.
  pose proof (Forall2_length H4) as L4. pose proof (Forall2_length H6) as L6.
  unfold location_tunnels, list_size, items_of. rewrite Hl4, Hl6. cbn [default].
  assert ((Z.of_nat room <? Z.of_nat (length l4) + Z.of_nat (length l6)) = big) as Hsz.
  { unfold big. rewrite <- L4, <- L6. destruct (Nat.ltb_spec room (length l4 + length l6)); lia. }
  rewrite Hsz. assert (big && negb (py_mallocs E (dh_now s)) = false) as ->.
  { destruct Hbig as [Hb|Hb]; rewrite Hb; by destruct big. }
  cbn iota. set (room' := if big && _ then _ else _).
  assert (length l4 + length l6 <= room')%nat as Hroom.
  { unfold room'. destruct Hbig as [Hb|Hm].
    - rewrite Hb. cbn. unfold big in Hb. apply Nat.ltb_ge in Hb. lia.
    - rewrite Hm, andb_true_r. destruct big eqn:Hb; [lia|]. unfold big in Hb. apply Nat.ltb_ge in Hb. lia. }
  unfold id. rewrite !Nat2Z.id, !take_ge by lia.
  destruct (gather_fills is_number (fun a => leads_to vnid (inl a)) (length l4) (reply_tunnel4 E room' vnid n) l4 v4 [])
    as (t4 & -> & Ht4); [intros; apply reply_tunnel4_fills; [lia|done]|done|cbn; lia|].
  cbn [obind app]. pose proof (Forall2_length Ht4) as LT.
  destruct (gather_fills is_string16 (fun a => leads_to vnid (inr a)) (length l6 + length t4)
              (reply_tunnel6 E room' vnid n) l6 v6 t4) as (t6 & -> & Ht6);
    [intros; apply reply_tunnel6_fills; [lia|done]|done|lia|].
  cbn [obind]. exists (t4 ++ t6). split.
  - destruct Hbig as [Hb|Hm]; [by rewrite Hb|]. by rewrite Hm, andb_true_r.
  - apply Forall2_app; apply Forall2_fmap_l; done.
Qed.

(** What is added to the trace of a question: the question and the reply. *)
Definition reply_sent (f : py_fun) (args : list py_val) (m : dps_client_data_t) (s s' : dh) : Prop :=
  dh_out s' = dh_out s ++ [Py_called f args; Dh_sent m] /\ dh_blocks s' = dh_blocks s /\
  dh_unsolicited s' = dh_unsolicited s.
Lemma asked_reply (b : bool) f args m s :
  ch_resp_status (cd_hdr m) = DPS_NO_ERR ->
  reply_sent f args m s
    (dps_msg_send_inline E m (if b then dh_tick (asked f args s) else asked f args s)).
Proof.
  intros Hm. unfold dps_msg_send_inline. rewrite Hm. unfold reply_sent. cbn.
  destruct b; cbn; by rewrite <- app_assoc.
Qed.

Definition location_args (domain : Z) (h : dps_client_hdr_t) (q : dps_endpoint_loc_req_t) : list py_val :=
  let client := to_net (elq_dps_client_addr q) in
  [V_int domain; V_int (ch_client_id h); V_int (ia_family client); V_str (ia_ip client);
   V_int (elq_vnid q); V_int AF_INET; V_int (ntohl (ia_ip4 (elq_vm_ip_addr q)))].

(** C4. A question for the location of an IPv4 address that Python can answer
    is answered once, to the client it names and under its query id, with the
    network, the MAC address and the version Python says, and with a tunnel for
    every address Python lists, those of IPv4 first, in order; no context is
    left behind. *)
Theorem location_answered domain msg q o dvg version o4 o6 v4 v6 mac ip gateway s :
  cd_body msg = Body_endpoint_loc_req q ->
  by_mac (elq_vm_ip_addr q) = false -> ia_family (elq_vm_ip_addr q) = AF_INET ->
  answered (dh_now s) Endpoint_Location_vIP (location_args domain (cd_hdr msg) q) o ->
  py_parse E "IIIOOz#z#I" o =
    [A_int DPS_NO_ERR; A_int dvg; A_int version; A_obj o4; A_obj o6; A_str (Some mac); A_str (Some ip);
     A_int gateway] ->
  numbers o4 v4 -> strings16 o6 v6 -> length mac = 6%nat -> length ip = 4%nat ->
  (length v4 + length v6 <= 16)%nat \/ py_mallocs E (S (S (dh_now s))) = true ->
  exists m r s',
    dps_msg_endpoint_request E domain msg s = Done (DPS_SUCCESS, s') /\
    reply_sent Endpoint_Location_vIP (location_args domain (cd_hdr msg) q) m s s' /\
    cd_context m = 0 /\ cd_body m = Body_endpoint_loc_reply r /\
    cd_hdr m = server_reply_hdr DPS_ENDPOINT_LOC_REPLY
      (if gateway =? 0 then DPS_ENDPOINT_LOC_REPLY_VM else DPS_ENDPOINT_LOC_REPLY_GW) DPS_NO_ERR
      (cd_hdr msg) (elq_dps_client_addr q) /\
    elr_vnid r = dvg /\ elr_mac r = mac /\ elr_version r = version /\
    ia_family (elr_vm_ip_addr r) = AF_INET /\ ia_ip4 (elr_vm_ip_addr r) = ntohl (get_ip4 ip) /\
    tl_num_of_tunnels (elr_tunnel_info r) = u16 (Z.of_nat (length v4 + length v6)) /\
    Forall2 (leads_to dvg) ((inl <$> v4) ++ (inr <$> v6)) (tl_tunnel_list (elr_tunnel_info r)).
Proof.
  intros Hb Hm Hf Ha Hp H4 H6 Hmac Hip Hroom.
  unfold dps_msg_endpoint_request. rewrite Hb. cbn [as_endpoint_loc_req obind]. rewrite Hm, Hf.
  change (AF_INET =? AF_INET) with true. cbn iota.
  match goal with |- context [obind ?c _] =>
    change c with (py_call E Endpoint_Location_vIP (location_args domain (cd_hdr msg) q) s) end.
  rewrite (py_call_answered _ _ _ _ Ha). cbn [obind]. rewrite Hp. change (DPS_NO_ERR =? DPS_NO_ERR) with true.
  cbn iota. unfold reply_mac, mac6, reply_vip, is_packed4, from_packed, is_packed4. rewrite Hmac, Hip.
  cbn [decide obind Nat.eqb]. rewrite decide_True by lia. cbn [obind].
  destruct (location_tunnels_fills 16 dvg (dh_now s) o4 o6 v4 v6
              (asked Endpoint_Location_vIP (location_args domain (cd_hdr msg) q) s) H4 H6)
    as (ts & Ht & Hts).
  { destruct Hroom as [Hroom|]; [left; by apply Nat.ltb_ge|by right]. }
  rewrite Ht. cbn [obind].
  eexists _, _, _. split; [reflexivity|]. split; [by apply asked_reply|].
  cbn. repeat split; rewrite ?take_ge by lia; try done.
  - exact (ip4_of_set _ _ _ _).
  - apply Forall2_length in Hts. rewrite length_app, !length_fmap in Hts. by rewrite Hts.
Qed.

Lemma permitted_one (b : bool) svnid dvnid :
  permitted (Z.to_nat (if b then 1 else 0)) svnid dvnid [mk_rule svnid dvnid] = Done b.
Proof.
  destruct b; [|reflexivity]. change (Z.to_nat 1) with 1%nat.
  cbn [permitted sd_svnid sd_dvnid]. by rewrite !Z.eqb_refl.
Qed.
Definition policy_asked (domain : Z) (h : dps_client_hdr_t) (q : dps_policy_req_t) : py_fun * list py_val :=
  let client := to_net (pq_dps_client_addr q) in
  let svnid := ei_vnid (pq_src_endpoint q) in
  let vIP := ei_vm_ip_addr (pq_dst_endpoint q) in
  if by_mac vIP
  then (Policy_Resolution_vMac, [V_int domain; V_int svnid; V_str (take 6 (ei_mac (pq_dst_endpoint q)))])
  else (Policy_Resolution_vIP,
        [V_int domain; V_int (ch_client_id h); V_int (ia_family client); V_str (ia_ip client);
         V_int svnid; V_int (ia_family vIP);
         if ia_family vIP =? AF_INET then V_int (ntohl (ia_ip4 vIP)) else V_str (ia_ip vIP)]).

(** C3. A question for a policy, by address or by MAC address, that Python can
    answer with up to fifteen tunnels is answered once, to the client it names
    and under its query id, with those tunnels, in order; and what the gateway
    makes of the reply is the decision of Python: traffic from the network of
    the question to that of the answer is permitted if and only if the action
    of the policy says so. *)
Theorem policy_decided domain msg q o dvg version o4 o6 v4 v6 mac ip policy_version ttl action s :
  cd_body msg = Body_policy_req q ->
  (let '(f, args) := policy_asked domain (cd_hdr msg) q in answered (dh_now s) f args o) ->
  py_parse E "IIIOOz#z#IIIz#" o =
    [A_int DPS_NO_ERR; A_int dvg; A_int version; A_obj o4; A_obj o6; A_str (Some mac); A_str (Some ip);
     A_int policy_version; A_int ttl; A_int DPS_POLICY_TYPE_CONNECTIVITY; A_str (Some action)] ->
  numbers o4 v4 -> strings16 o6 v6 -> length mac = 6%nat -> length ip = 4%nat -> length action = 4%nat ->
  (length v4 + length v6 <= 15)%nat ->
  exists m r s',
    dps_msg_policy_request E domain msg s = Done (DPS_SUCCESS, s') /\
    (let '(f, args) := policy_asked domain (cd_hdr msg) q in reply_sent f args m s s') /\
    cd_body m = Body_policy_reply r /\ ch_type (cd_hdr m) = DPS_POLICY_REPLY /\
    ch_vnid (cd_hdr m) = ch_vnid (cd_hdr msg) /\ ch_query_id (cd_hdr m) = ch_query_id (cd_hdr msg) /\
    ch_reply_addr (cd_hdr m) = pq_dps_client_addr q /\ ch_resp_status (cd_hdr m) = DPS_NO_ERR /\
    let loc := pr_dst_endpoint_loc_reply r in
    let info := pr_dps_policy_info r in
    let policy := pi_dps_policy info in
    elr_vnid loc = dvg /\ elr_mac loc = mac /\
    pi_version info = policy_version /\ pi_ttl info = ttl /\
    Forall2 (leads_to dvg) ((inl <$> v4) ++ (inr <$> v6)) (tl_tunnel_list (elr_tunnel_info loc)) /\
    permitted (Z.to_nat (pl_num_permit_rules policy)) (ei_vnid (pq_src_endpoint q)) (elr_vnid loc)
      (pl_src_dst_vnid policy) = Done (le16_at action 2 =? DPS_CONNECTIVITY_ALLOW).
Proof.
  intros Hb Ha Hp H4 H6 Hmac Hip Hact Hroom. unfold dps_msg_policy_request.
  rewrite Hb. cbn [as_policy_req obind]. set (q' := policy_asked domain (cd_hdr msg) q) in *.
  match goal with |- context [obind ?c _] => assert (c = py_call E q'.1 q'.2 s) as -> end.
  { unfold q', policy_asked. by destruct (by_mac _). }
  clearbody q'. destruct q' as [f args]. cbn [fst snd]. rewrite (py_call_answered _ _ _ _ Ha). cbn [obind]. rewrite Hp.
  change (DPS_NO_ERR =? DPS_NO_ERR) with true. cbn iota.
  unfold reply_mac, mac6, reply_vip, from_packed, is_packed4. rewrite Hmac, Hip.
  cbn [obind Nat.eqb]. rewrite decide_True by lia. cbn [obind].
  destruct (location_tunnels_fills 15 dvg (dh_now s) o4 o6 v4 v6 (asked f args s) H4 H6) as (ts & Ht & Hts).
  { left. apply Nat.ltb_ge. lia. }
  assert ((15 <? length v4 + length v6)%nat = false) as Hbig by (apply Nat.ltb_ge; lia).
  rewrite Hbig in Ht. rewrite Ht. cbn [obind].
  unfold reply_policy, action_allows. rewrite Hact, decide_True by lia.
  change (DPS_POLICY_TYPE_CONNECTIVITY =? _) with true. cbn [obind].
  eexists _, _, _. split; [reflexivity|]. split; [by apply (asked_reply false)|].
  cbn. repeat split; rewrite ?take_ge by lia; try done.
  exact (permitted_one _ _ _).
Qed.
End answers.

Definition sample_loc_req : dps_endpoint_loc_req_t := mk_endpoint_loc_req 7 (replicate 6 17) (v4 9) (v4 7).
Ltac objects := repeat (constructor; [try (split; reflexivity); reflexivity|]); constructor.
Lemma location_answered_witness :
  exists m s', dps_msg_endpoint_request smp 5 (sample_location 7) ready = Done (DPS_SUCCESS, s') /\
    In (Dh_sent m) (dh_out s') /\ ch_query_id (cd_hdr m) = 7.
Proof.
  destruct (location_answered smp 5 (sample_location 7) sample_loc_req
    (P_tuple [P_num 0; P_num 8; P_num 3; P_list [P_num 167772161; P_num 167772162]; P_list [P_str (ip16 1)];
              P_str (replicate 6 17); P_str [10; 0; 0; 9]; P_num 0]) 8 3
    (P_list [P_num 167772161; P_num 167772162]) (P_list [P_str (ip16 1)])
    [167772161; 167772162] [ip16 1] (replicate 6 17) [10; 0; 0; 9] 0 ready)
    as (m & r & s' & H & Hs & _ & _ & Hh & _); try reflexivity.
  - split; reflexivity.
  - eexists. split; [reflexivity|objects].
  - eexists. split; [reflexivity|objects].
  - left. cbn. lia.
  - exists m, s'. split; [exact H|]. split; [|by rewrite Hh].
    destruct Hs as [-> _]. right. left. reflexivity.
Defined.
Definition sample_policy_req : dps_policy_req_t :=
  mk_policy_req (mk_endpoint_info 0 (replicate 6 17) (v4 9)) (mk_endpoint_info 7 (replicate 6 34) (v4 8)) (v4 7).
Lemma policy_decided_witness :
  exists m r s',
    dps_msg_policy_request smp 5
      (mk_client_data 0 (sample_hdr DPS_POLICY_REQ 7) (Body_policy_req sample_policy_req)) ready
      = Done (DPS_SUCCESS, s') /\
    In (Dh_sent m) (dh_out s') /\ cd_body m = Body_policy_reply r /\
    permitted (Z.to_nat (pl_num_permit_rules (pi_dps_policy (pr_dps_policy_info r)))) 7 8
      (pl_src_dst_vnid (pi_dps_policy (pr_dps_policy_info r))) = Done true.
Proof.
  destruct (policy_decided smp 5
    (mk_client_data 0 (sample_hdr DPS_POLICY_REQ 7) (Body_policy_req sample_policy_req)) sample_policy_req
    (P_tuple [P_num 0; P_num 8; P_num 3; P_list [P_num 167772161]; P_list []; P_str (replicate 6 17);
              P_str [10; 0; 0; 9]; P_num 2; P_num 60; P_num DPS_POLICY_TYPE_CONNECTIVITY;
              P_str [0; 0; 1; 0]]) 8 3
    (P_list [P_num 167772161]) (P_list []) [167772161] [] (replicate 6 17) [10; 0; 0; 9] 2 60 [0; 0; 1; 0] ready)
    as (m & r & s' & H & Hs & Hb & _ & _ & _ & _ & _ & Hv & _ & _ & _ & _ & Hp); try reflexivity.
  - split; reflexivity.
  - eexists. split; [reflexivity|objects].
  - eexists. split; [reflexivity|objects].
  - cbn. lia.
  - exists m, r, s'. split; [exact H|]. rewrite Hv in Hp. split; [|split; [exact Hb|exact Hp]].
    destruct Hs as [-> _]. right. left. reflexivity.
Defined.

(** ** Replication *)
Record replica := mk_replica { rp_family : Z; rp_ip : list Z; rp_port : Z; rp_qid : Z }.
Definition rp_local (E : py_env) (r : replica) : bool := is_local_ip E (rp_ip r).
(** An address: four bytes, or sixteen. *)
Definition rp_ok (r : replica) : Prop :=
  if rp_family r =? AF_INET then length (rp_ip r) = 4%nat else length (rp_ip r) = 16%nat.
(** The message [m] is the update [m0] for the replica [r]. *)
Record copy_for (m0 : dps_client_data_t) (r : replica) (m : dps_client_data_t) : Prop := {
  copy_body : cd_body m = cd_body m0;
  copy_context : cd_context m = 0;
  copy_type : ch_type (cd_hdr m) = ch_type (cd_hdr m0);
  copy_sub_type : ch_sub_type (cd_hdr m) = ch_sub_type (cd_hdr m0);
  copy_vnid : ch_vnid (cd_hdr m) = ch_vnid (cd_hdr m0);
  copy_client : ch_client_id (cd_hdr m) = ch_client_id (cd_hdr m0);
  copy_transaction : ch_transaction_type (cd_hdr m) = DPS_TRANSACTION_REPLICATION;
  copy_status : ch_resp_status (cd_hdr m) = DPS_NO_ERR;
  copy_qid : ch_query_id (cd_hdr m) = rp_qid r;
  copy_family : ia_family (ch_reply_addr (cd_hdr m)) = rp_family r;
  copy_port : ia_port (ch_reply_addr (cd_hdr m)) = rp_port r;
  copy_addr : if rp_family r =? AF_INET
              then ia_ip4 (ch_reply_addr (cd_hdr m)) = ntohl (get_ip4 (rp_ip r))
              else ia_ip (ch_reply_addr (cd_hdr m)) = rp_ip r }.

Section replication.
Context (E : py_env).
Definition names (o : object E) (r : replica) : Prop :=
  py_parse E "Hz#H" o = [A_int (rp_family r); A_str (Some (rp_ip r)); A_int (rp_port r)] /\ rp_ok r.
Definition numbered (o : object E) (r : replica) : Prop := parse_I E o = Some (rp_qid r).
Definition local_qid (q : Z) (rs : list replica) : Z :=
  foldl (fun q r => if rp_local E r then rp_qid r else q) q rs.

Lemma replica_addr_ok n r a :
  rp_ok r -> let a' := replica_addr E n (rp_family r) (rp_port r) (rp_ip r) a in
  ia_family a' = rp_family r /\ ia_port a' = rp_port r /\
  if rp_family r =? AF_INET then ia_ip4 a' = ntohl (get_ip4 (rp_ip r)) else ia_ip a' = rp_ip r.
Proof.
  unfold rp_ok, replica_addr, swap_ip4, ia_ip4. intros Hr. split; [done|]. split; [done|]. cbn [ia_ip with_ip].
  destruct (_ =? AF_INET).
  - rewrite get_set_ip4, u32_ntohl. f_equal.
    destruct (rp_ip r) as [|b0 [|b1 [|b2 [|b3 [|]]]]]; try discriminate Hr. reflexivity.
  - rewrite take_app_le, take_ge by lia. done.
Qed.
Definition same_update (m0 m : dps_client_data_t) : Prop :=
  readdressed (ch_reply_addr (cd_hdr m0)) 0 m = readdressed (ch_reply_addr (cd_hdr m0)) 0 (replica_copy m0).
Lemma same_copy m0 m r n :
  same_update m0 m -> rp_ok r ->
  let m' := readdressed (replica_addr E n (rp_family r) (rp_port r) (rp_ip r) (ch_reply_addr (cd_hdr m)))
              (rp_qid r) m in
  copy_for m0 r m' /\ same_update m0 m'.
Proof.
  intros Hm Hr m'. split; [|by destruct m, m0].
  destruct (replica_addr_ok n r (ch_reply_addr (cd_hdr m)) Hr) as (Hf & Hp & Ha).
  unfold same_update, readdressed, replica_copy in Hm. injection Hm as H1 H2 H3 H4 H5 H6 H7 H8.
  by constructor.
Qed.
Lemma replicate_to_sends d p la lq rs m0 m q s :
  p <> 0 -> Forall2 names la rs -> Forall2 numbered lq rs -> same_update m0 m ->
  exists ms s', replicate_to E d p la lq m q s = Done (local_qid q rs, s') /\
    dh_out s' = dh_out s ++ (Dh_sent <$> ms) /\ dh_blocks s' = dh_blocks s /\
    dh_unsolicited s' = dh_unsolicited s /\
    Forall2 (copy_for m0) (filter (fun r => rp_local E r = false) rs) ms.
Proof.
  intros Hp Hla. revert lq m q s.
  induction Hla as [|oa r la rs [Hoa Hok] _ IH]; intros lq m q s Hlq Hm; cbn [replicate_to].
  - exists [], s. cbn. by rewrite app_nil_r.
  - apply Forall2_cons_inv_r in Hlq as (oq & lq' & Hoq & Hlq & ->). rewrite Hoa. cbn [head tail].
    cbn [mbind option_bind]. rewrite Hoq.
    change (str_bytes (Some (rp_ip r))) with (rp_ip r).
    rewrite filter_cons. fold (rp_local E r).
    change (local_qid q (r :: rs)) with (local_qid (if rp_local E r then rp_qid r else q) rs).
    destruct (rp_local E r) eqn:Hl.
    + rewrite decide_False by done. by apply IH.
    + rewrite decide_True by done. apply Z.eqb_neq in Hp as Hp'. rewrite Hp'. cbn [client_send obind].
      destruct (same_copy m0 m r (dh_now s) Hm Hok) as [Hc Hs].
      set (m' := readdressed _ _ _) in *.
      destruct (IH lq' m' q (dh_emit (Dh_sent m') (dh_tick s)) Hlq Hs) as (ms & s' & -> & Ho & Hb & Hu & Hcs).
      exists (m' :: ms), s'. split; [done|]. split; [by rewrite Ho; cbn; rewrite <- app_assoc|].
      split; [done|]. split; [done|]. by constructor.
Qed.

(** C8. An update that fits its buffer and whose replicas Python names is sent
    to every replica that is not this node, in their order, as it came but
    marked as a copy, to the address and under the query id of the replica;
    the result is the query id of this node, or 0 when it is no replica. *)
Theorem update_replicated domain msg reply size o addrs qids la lq rs s :
  reply <> 0 -> size <= Z.of_nat sizeof_client_data -> py_builds E (dh_now s) = true ->
  answered E (S (dh_now s)) ReplicationQueryIDGenerate
    [V_int domain; V_int (ch_transaction_type (cd_hdr msg)); V_ptr reply] o ->
  py_parse E "IOO" o = [A_int DPS_NO_ERR; A_obj addrs; A_obj qids] ->
  py_list E addrs = Some la -> py_list E qids = Some lq ->
  Forall2 names la rs -> Forall2 numbered lq rs ->
  exists ms s', dps_update_replicate E domain msg reply size s = Done (DPS_NO_ERR, local_qid 0 rs, s') /\
    dh_out s' = dh_out s ++ Py_called ReplicationQueryIDGenerate
                   [V_int domain; V_int (ch_transaction_type (cd_hdr msg)); V_ptr reply]
                 :: (Dh_sent <$> ms) /\
    Forall2 (copy_for msg) (filter (fun r => rp_local E r = false) rs) ms /\
    dh_blocks s' = dh_blocks s /\ dh_unsolicited s' = dh_unsolicited s.
Proof.
  intros Hr Hsz Hb Ha Hp Hla Hlq Hn Hq. unfold dps_update_replicate.
  rewrite (proj2 (Z.ltb_ge _ _)) by done. cbn [obind orb]. rewrite Hb. cbn [negb].
  rewrite (py_call_answered E _ _ o (dh_tick s) Ha). cbn [obind]. rewrite Hp.
  change (DPS_NO_ERR =? DPS_NO_ERR) with true. cbn iota. unfold items_of. rewrite Hla, Hlq. cbn [default]. unfold id.
  match goal with |- context [asked ?f ?a ?s0] => set (s1 := asked f a s0) end.
  destruct (replicate_to_sends domain reply la lq rs msg (replica_copy msg) 0 s1 Hr Hn Hq) as (ms & s' & -> & Ho & Hbl & Hu & Hc); [done|].
  cbn [obind]. exists ms, s'. split; [done|]. rewrite Ho. cbn. by rewrite <- app_assoc.
Qed.
End replication.

Definition sample_replicas : list replica :=
  [mk_replica AF_INET [10; 0; 0; 2] 902 11; mk_replica AF_INET [10; 0; 0; 1] 902 12;
   mk_replica AF_INET6 (ip16 3) 903 13].
Lemma update_replicated_witness :
  exists ms s', dps_update_replicate smp 5 sample_update 1 144 ready = Done (DPS_NO_ERR, 12, s') /\
    length ms = 2%nat /\ forall m, In m ms -> In (Dh_sent m) (dh_out s').
Proof.
  destruct (update_replicated smp 5 sample_update 1 144
    (P_tuple [P_num 0;
       P_list [P_tuple [P_num AF_INET; P_str [10; 0; 0; 2]; P_num 902];
               P_tuple [P_num AF_INET; P_str [10; 0; 0; 1]; P_num 902];
               P_tuple [P_num AF_INET6; P_str (ip16 3); P_num 903]];
       P_list [P_num 11; P_num 12; P_num 13]])
    (P_list [P_tuple [P_num AF_INET; P_str [10; 0; 0; 2]; P_num 902];
             P_tuple [P_num AF_INET; P_str [10; 0; 0; 1]; P_num 902];
             P_tuple [P_num AF_INET6; P_str (ip16 3); P_num 903]])
    (P_list [P_num 11; P_num 12; P_num 13])
    [P_tuple [P_num AF_INET; P_str [10; 0; 0; 2]; P_num 902];
     P_tuple [P_num AF_INET; P_str [10; 0; 0; 1]; P_num 902];
     P_tuple [P_num AF_INET6; P_str (ip16 3); P_num 903]]
    [P_num 11; P_num 12; P_num 13] sample_replicas ready)
    as (ms & s' & H & Ho & Hms & _); try reflexivity; try lia.
  - vm_compute. discriminate.
  - split; reflexivity.
  - objects.
  - objects.
  - exists ms, s'. split; [exact H|]. split; [by apply Forall2_length in Hms|].
    intros m Hm. rewrite Ho. right. apply (in_map Dh_sent _ _ Hm).
Defined.

(** ** A domain of another node *)
Section elsewhere.
Context (E : py_env).
Definition vnid_question (h : dps_client_hdr_t) : list py_val :=
  [V_int (ch_vnid h); V_int (ch_transaction_type h)].

(** C9. A request of a client for a network that another node keeps goes to the
    node Python names: the same message, under the same query id, with the
    address of the node for its own and without context; nothing else is sent
    and nothing is kept. *)
Theorem remote_forwarded fuel msg o domain o' r s :
  let h := cd_hdr msg in
  started s = true -> ch_transaction_type h = DPS_TRANSACTION_NORMAL ->
  ch_type h < DPS_MAX_MSG_TYPE -> dps_msg_forward_remote (ch_type h) = true ->
  ch_resp_status h <> DPS_ERROR_RETRY ->
  answered E (dh_now s) Is_VNID_Handled_Locally (vnid_question h) o ->
  py_parse E "III" o = [A_int DOVE_STATUS_OK; A_int 0; A_int domain] ->
  answered E (S (S (dh_now s))) Domain_Get_Random_Remote_Node [V_int domain] o' ->
  py_parse E "IHz#H" o' =
    [A_int DOVE_STATUS_OK; A_int (rp_family r); A_str (Some (rp_ip r)); A_int (rp_port r)] ->
  rp_ok r ->
  exists to s', dps_protocol_send_to_server E fuel msg s = Done (DPS_SUCCESS, s') /\
    dh_out s' = dh_out s ++
      [Py_called Is_VNID_Handled_Locally (vnid_question h);
       Py_called Domain_Get_Random_Remote_Node [V_int domain];
       Dh_sent (mk_client_data 0 (mk_client_hdr (ch_type h) (ch_sub_type h) (ch_client_id h)
                  (ch_transaction_type h) (ch_vnid h) (ch_resp_status h) (ch_query_id h) to)
                  (cd_body msg))] /\
    dh_blocks s' = dh_blocks s /\
    ia_family to = rp_family r /\ ia_port to = rp_port r /\
    if rp_family r =? AF_INET then ia_ip4 to = ntohl (get_ip4 (rp_ip r))
    else take 16 (ia_ip to) = rp_ip r.
Proof.
  intros h Hst Htr Hty Hfw Hret Ha Hp Ha' Hp' Hr. unfold dps_protocol_send_to_server. fold h.
  rewrite Hst. cbn [negb]. fold (vnid_question h). rewrite (py_call_answered E _ _ _ _ Ha). cbn [obind].
  rewrite Hp. cbn [obind]. change (DOVE_STATUS_OK =? DOVE_STATUS_OK) with true. cbn [negb].
  change (0 =? 0) with true. cbn iota. rewrite Htr. change (DPS_TRANSACTION_NORMAL =? _) with true. cbn iota.
  rewrite (proj2 (Z.leb_gt _ _)) by done. rewrite Hfw.
  unfold dps_msg_forward_if_necessary, dps_get_domain_random_remote_node.
  set (s1 := asked _ _ s). assert (dh_now s1 = S (S (dh_now s))) as Hn by done. rewrite <- Hn in Ha'.
  rewrite (py_call_answered E _ _ _ _ Ha'). cbn [obind]. rewrite Hp'.
  change (DOVE_STATUS_OK =? DOVE_STATUS_OK) with true. cbn [str_bytes default].
  unfold memcpy_ip. assert (length (rp_ip r) <= 16)%nat as Hlen.
  { unfold rp_ok in Hr. destruct (_ =? _); lia. }
  rewrite decide_True by done. cbn [obind]. change (DOVE_STATUS_OK =? DOVE_STATUS_OK) with true. cbn iota.
  unfold dps_msg_send_inline. apply Z.eqb_neq in Hret. fold h. cbn [cd_hdr readdressed ch_resp_status].
  rewrite Hret. cbn [obind].
  eexists _, _. split; [reflexivity|]. split. {
    unfold s1, asked. cbn [dh_out client_send snd dh_emit dh_tick]. rewrite <- !app_assoc. cbn [app].
    unfold readdressed. cbn [cd_hdr cd_context cd_body]. fold h. by rewrite ?Htr. }
  split; [done|]. split; [done|]. split; [done|]. unfold rp_ok in Hr. unfold ia_ip4, swap_ip4.
  cbn [ia_ip with_ip to_net ia_family with_port]. unfold swap_ip4. destruct (_ =? AF_INET).
  - rewrite get_set_ip4, u32_ntohl. f_equal.
    destruct (rp_ip r) as [|b0 [|b1 [|b2 [|b3 [|]]]]]; try discriminate Hr. reflexivity.
  - unfold id. rewrite take_app_le, take_ge by lia. done.
Qed.

(** With the domain named once the call would be built as the one for an IPv4
    address is, with the bytes of the address for its number. *)
Example one_domain_builds domain client family addr vnid vIP :
  Py_BuildValue "(IIIz#IIz#)" [C_int domain; C_int client; C_int family; C_ptr addr; C_int 16;
                               C_int vnid; C_int AF_INET6; C_ptr vIP; C_int 16]
  = Done [V_int domain; V_int client; V_int family; V_str (take 16 addr); V_int vnid;
          V_int AF_INET6; V_str (take 16 vIP)].
Proof. reflexivity. Qed.

(** C37. One question for the location of an IPv6 address whose first four
    bytes are not all zero, in a network this node keeps, stops the server:
    the arguments for Python name the domain twice, and the family of the
    client is taken for the address of a string. *)
Theorem ipv6_location_faults fuel msg o local domain q s :
  let h := cd_hdr msg in
  started s = true -> ch_type h = DPS_ENDPOINT_LOC_REQ -> cd_body msg = Body_endpoint_loc_req q ->
  ia_family (elq_vm_ip_addr q) = AF_INET6 -> by_mac (elq_vm_ip_addr q) = false ->
  answered E (dh_now s) Is_VNID_Handled_Locally (vnid_question h) o ->
  py_parse E "III" o = [A_int DOVE_STATUS_OK; A_int local; A_int domain] -> local <> 0 ->
  dps_protocol_send_to_server E fuel msg s = Fault.
Proof.
  intros h Hst Hty Hb Hf Hm Ha Hp Hl. unfold dps_protocol_send_to_server. fold h.
  rewrite Hst. cbn [negb]. fold (vnid_question h). rewrite (py_call_answered E _ _ _ _ Ha). cbn [obind].
  rewrite Hp. cbn [obind]. change (DOVE_STATUS_OK =? DOVE_STATUS_OK) with true. cbn [negb].
  apply Z.eqb_neq in Hl. rewrite Hl, Hty. cbn.
  unfold dps_msg_endpoint_request. rewrite Hb. cbn [as_endpoint_loc_req obind]. by rewrite Hm, Hf.
Qed.
End elsewhere.

Lemma remote_forwarded_witness :
  exists m s', dps_protocol_send_to_server smp 2 (sample_location 9) ready = Done (DPS_SUCCESS, s') /\
    In (Dh_sent m) (dh_out s') /\ cd_body m = cd_body (sample_location 9).
Proof.
  destruct (remote_forwarded smp 2 (sample_location 9) (P_tuple [P_num 0; P_num 0; P_num 5]) 5
    (P_tuple [P_num 0; P_num AF_INET; P_str [10; 0; 0; 2]; P_num 902])
    (mk_replica AF_INET [10; 0; 0; 2] 902 0) ready) as (to & s' & H & Ho & _); try reflexivity.
  - discriminate.
  - split; reflexivity.
  - split; reflexivity.
  - eexists _, s'. split; [exact H|]. rewrite Ho. split; [right; right; left; reflexivity|reflexivity].
Defined.
Lemma ipv6_location_faults_witness :
  dps_protocol_send_to_server smp 2
    (mk_client_data 0 (sample_hdr DPS_ENDPOINT_LOC_REQ 7)
       (Body_endpoint_loc_req (mk_endpoint_loc_req 7 (replicate 6 17)
          (mk_ip_addr AF_INET6 0 0 0 ([32; 1; 13; 184] ++ replicate 12 1)) (v4 7)))) ready = Fault.
Proof.
  apply (ipv6_location_faults smp 2 _ (P_tuple [P_num 0; P_num 1; P_num 5]) 1 5
    (mk_endpoint_loc_req 7 (replicate 6 17)
       (mk_ip_addr AF_INET6 0 0 0 ([32; 1; 13; 184] ++ replicate 12 1)) (v4 7))); try reflexivity.
  - split; reflexivity.
  - discriminate.
Defined.

(** ** What is told is acknowledged *)
Section acknowledged.
Context (E : py_env).
Lemma from_packed4 b a : length b = 4%nat -> exists a', from_packed b a = Done a'.
Proof. intros Hb. unfold from_packed, is_packed4. rewrite Hb. cbn. eauto. Qed.
Lemma dh_free_live p b s :
  p <> 0 -> dh_blocks s !! p = Some b -> dh_free p s = Done (dh_with_blocks (delete p (dh_blocks s)) s).
Proof. intros Hp Hb. unfold dh_free. apply Z.eqb_neq in Hp. by rewrite Hp, Hb. Qed.
Definition notice (c : unsolicited_msg_context_t) (status : Z) : list py_val :=
  let a := cx_dps_client_location c in
  [V_int (cx_original_msg_type c); V_int status; V_int (cx_vnid_id c); V_int (ia_family a); V_str (ia_ip a)].
Lemma context_acknowledged p c ack domain o s :
  p <> 0 -> dh_blocks s !! p = Some (Blk_context c) -> cd_context ack = p ->
  cx_original_msg_type c = DPS_UNSOLICITED_VNID_POLICY_LIST ->
  answered E (dh_now s) Handle_Unsolicited_Message_Reply (notice c (ch_resp_status (cd_hdr ack))) o ->
  exists s', dps_msg_general_ack E domain ack s = Done (DPS_SUCCESS, s') /\
    dh_out s' = dh_out s ++ [Py_called Handle_Unsolicited_Message_Reply (notice c (ch_resp_status (cd_hdr ack)))] /\
    dh_blocks s' = delete p (dh_blocks s) /\ dh_unsolicited s' = dh_unsolicited s - 1.
Proof.
  intros Hp Hc <- Hty Ha. unfold dps_msg_general_ack, told_context, ack_call.
  apply Z.eqb_neq in Hp as Hp'. rewrite Hp', Hc. cbn [obind]. fold (notice c (ch_resp_status (cd_hdr ack))).
  rewrite Hty. cbn [existsb]. rewrite Z.eqb_refl. cbn [orb obind].
  rewrite (py_call_answered E _ _ _ _ Ha). cbn [obind].
  rewrite (dh_free_live _ (Blk_context c)) by done. cbn [obind]. eexists. split; [reflexivity|]. done.
Qed.
Lemma rules_gathered l rules :
  (length l <= room_bulk)%nat ->
  Forall2 (fun o r => py_parse E "II" o = [A_int (sd_svnid r); A_int (sd_dvnid r)]) l rules ->
  gather E room_bulk (policy_rule E) l [] = Done rules.
Proof.
  intros Hroom Hr.
  destruct (gather_fills E (fun o r => py_parse E "II" o = [A_int (sd_svnid r); A_int (sd_dvnid r)]) eq
              room_bulk (policy_rule E) l rules []) as (bs & Hg & Hbs); [|done|cbn; lia|].
  - intros j o r _ Ho. unfold policy_rule. rewrite Ho. exists r. by destruct r.
  - rewrite Hg. cbn [app]. f_equal. symmetry. by apply list_eq_Forall2.
Qed.

Lemma policies_told args ip port vnid query_id x o l rules s :
  py_parse E "z#HIIIiO" args =
    [A_str (Some ip); A_int port; A_int 0; A_int vnid; A_int query_id; A_int x; A_obj o] ->
  py_list E o = Some l -> gather E room_bulk (policy_rule E) l [] = Done rules -> length ip = 4%nat ->
  py_mallocs E (dh_now s) = true -> py_sends E (S (dh_now s)) = DPS_SUCCESS ->
  exists m c s1, send_all_connectivity_policies E args s = Done (DPS_SUCCESS, s1) /\
    dh_out s1 = dh_out s ++ [Dh_sent m] /\ dh_blocks s1 = <[dh_next s := Blk_context c]> (dh_blocks s) /\
    cd_context m = dh_next s /\ ch_type (cd_hdr m) = DPS_UNSOLICITED_VNID_POLICY_LIST /\
    ch_vnid (cd_hdr m) = vnid /\
    cd_body m = Body_bulk_vnid_policy (mk_bulk_policy (Z.of_nat (length rules)) 0 rules) /\
    cx_vnid_id c = vnid /\ cx_original_msg_type c = DPS_UNSOLICITED_VNID_POLICY_LIST /\
    ia_family (cx_dps_client_location c) = AF_INET /\ take 4 (ia_ip (cx_dps_client_location c)) = ip.
Proof.
  intros Hp Hl Hr Hip Hal Hsend.
  unfold send_all_connectivity_policies. rewrite Hp, Hl. change (0 =? 0) with true. cbn iota.
  rewrite Hr. cbn [obind].
  unfold unsolicited_context, keep_packed, memcpy_ip, dh_malloc. rewrite Hal, decide_True by lia. cbn [obind].
  unfold policy_server_hdr, node_hdr, from_packed, is_packed4. rewrite Hip. cbn [Nat.eqb obind].
  unfold send_unsolicited, client_send. cbn [dh_now dh_count dh_tick]. rewrite Hsend.
  eexists _, _, _. split; [reflexivity|]. do 9 (split; [done|]).
  cbn [cx_dps_client_location with_ip ia_ip]. by rewrite take_app_le, take_ge by lia.
Qed.

(** C7. When Python has a client told the policies of a network, the client is
    sent exactly the rules Python lists, in order, with a context.  When an
    acknowledgement with that context comes, whatever messages and calls came
    before it, acknowledgements of other contexts among them, Python is told of
    the network and of the client it named, with the status of the
    acknowledgement, and the context is given back. *)
Theorem policies_acknowledged args ip port vnid query_id x o l rules s :
  sound s ->
  py_parse E "z#HIIIiO" args =
    [A_str (Some ip); A_int port; A_int 0; A_int vnid; A_int query_id; A_int x; A_obj o] ->
  py_list E o = Some l -> (length l <= room_bulk)%nat -> length ip = 4%nat ->
  Forall2 (fun o r => py_parse E "II" o = [A_int (sd_svnid r); A_int (sd_dvnid r)]) l rules ->
  py_mallocs E (dh_now s) = true -> py_sends E (S (dh_now s)) = DPS_SUCCESS ->
  exists m a s1, send_all_connectivity_policies E args s = Done (DPS_SUCCESS, s1) /\
    dh_out s1 = dh_out s ++ [Dh_sent m] /\ cd_context m = dh_next s /\
    ch_type (cd_hdr m) = DPS_UNSOLICITED_VNID_POLICY_LIST /\ ch_vnid (cd_hdr m) = vnid /\
    cd_body m = Body_bulk_vnid_policy (mk_bulk_policy (Z.of_nat (length rules)) 0 rules) /\
    take 4 a = ip /\
    forall fuel inputs s2 ack domain o',
      Forall (input_typed E) inputs -> Forall (fun i => ~ acks_context E i (cd_context m)) inputs ->
      dh_serves E fuel inputs s1 = Done s2 -> cd_context ack = cd_context m ->
      let told_back :=
        [V_int (ch_type (cd_hdr m)); V_int (ch_resp_status (cd_hdr ack)); V_int vnid; V_int AF_INET; V_str a] in
      answered E (dh_now s2) Handle_Unsolicited_Message_Reply told_back o' ->
      exists s3, dps_msg_general_ack E domain ack s2 = Done (DPS_SUCCESS, s3) /\
        dh_out s3 = dh_out s2 ++ [Py_called Handle_Unsolicited_Message_Reply told_back] /\
        dh_blocks s3 = delete (cd_context m) (dh_blocks s2) /\ dh_unsolicited s3 = dh_unsolicited s2 - 1.
Proof.
  intros Hs Hp Hl Hroom Hip Hr Hal Hsend.
  destruct (policies_told args ip port vnid query_id x o l rules s) as
    (m & c & s1 & H1 & Ho & Hb & Hm & Hty & Hv & Hbody & Hcv & Hct & Hcf & Hca); try done;
    [by apply rules_gathered|].
  exists m, (ia_ip (cx_dps_client_location c)), s1. do 7 (split; [done|]).
  intros fuel inputs s2 ack domain o' Hi Hna Hrun Hctx told_back Ha.
  assert (sound s1) as Hs1.
  { eapply moves_sound; [|exact Hs]. by eapply (send_all_connectivity_policies_runs E (fun _ => False)). }
  assert (rtc (dh_move E (fun p => p <> cd_context m)) s1 s2) as Hmoves.
  { eapply dh_serves_moves; [exact Hi| |exact Hs1|exact Hrun].
    revert Hna. apply Forall_impl. intros i Hn p Hack ->. by destruct Hn. }
  assert (notice c (ch_resp_status (cd_hdr ack)) = told_back) as Hn.
  { unfold told_back, notice. by rewrite Hct, Hcv, Hcf, Hty. }
  clearbody told_back. subst told_back. destruct Hs as [[Hpos _] _].
  apply (context_acknowledged _ c _ domain o'); [lia| |exact Hctx|exact Hct|exact Ha].
  eapply moves_keep_context; [exact Hmoves|intros Hn; by apply Hn|apply Hs1|]. rewrite Hb, Hm. apply lookup_insert_eq.
Qed.
End acknowledged.

Lemma policies_acknowledged_witness :
  exists s1 s3, send_all_connectivity_policies smp sample_args ready = Done (DPS_SUCCESS, s1) /\
    dps_msg_general_ack smp 5 (sample_ack 1) s1 = Done (DPS_SUCCESS, s3) /\ dh_unsolicited s3 = 0.
Proof.
  destruct (policies_acknowledged smp sample_args [10; 0; 0; 7] 902 7 21 0
    (P_list [P_tuple [P_num 7; P_num 8]; P_tuple [P_num 8; P_num 7]])
    [P_tuple [P_num 7; P_num 8]; P_tuple [P_num 8; P_num 7]] [mk_rule 7 8; mk_rule 8 7] ready)
    as (m & a & s1 & H1 & _ & Hm & _ & _ & _ & _ & Hack); try reflexivity.
  - exact ready_sound.
  - vm_compute. lia.
  - objects.
  - destruct (Hack 0%nat [] s1 (sample_ack 1) 5 P_none) as (s3 & H3 & _ & _ & Hc).
    + constructor.
    + constructor.
    + reflexivity.
    + by rewrite Hm.
    + split; reflexivity.
    + exists s1, s3. split; [exact H1|]. split; [exact H3|]. rewrite Hc.
      injection H1 as <-. reflexivity.
Defined.
