(* ===== verification/NodeMsg.v ===== *)
(** * What the nodes of the server tell each other

    The nodes of a cluster tell each other what they serve and who is up:
    requests over HTTP whose bodies are JSON texts.  Here are the senders
    ([data_handler/src/statistics.c], [heartbeat.c], the functions of
    [cluster_database.c] that Python calls) and the receivers (the handlers of
    [controller_protocol/src/rest_req_handler.c] and the functions of
    [cluster_database.c] that call Python). *)
From stdpp Require Import strings.
From Stdlib Require Import Ascii.
From S2P Require Export DhPy.
#[local] Open Scope Z_scope.

(** ** Libraries *)

(** What [json_pack] packs: [i] and [I], [s], [o]. *)
Inductive json_field (J : Type) :=
| J_int (z : Z)
| J_str (s : string)
| J_obj (j : J).
Arguments J_int {J} z.
Arguments J_str {J} s.
Arguments J_obj {J} j.

(** Jansson, without its memory. *)
Class json_lib := {
  json_t : Type;
  json_pack : list (string * json_field json_t) -> option json_t;
  json_array_of : list json_t -> json_t;
  json_object_get : json_t -> string -> option json_t;
  json_is_object : json_t -> bool;
  json_elements : json_t -> option (list json_t);
  json_integer : json_t -> option Z;
  json_string : json_t -> option string;
  json_dumps : json_t -> option string;
  json_loads : string -> option json_t }.

(** Addresses and their texts.  [inet_pton] gives what it returns and the
    bytes it writes. *)
Class inet_lib := {
  inet_ntop : Z -> ip_union -> option string;
  inet_pton : Z -> string -> Z * list Z }.

(** ** Texts *)
Fixpoint strchr (c : ascii) (s : string) : bool :=
  match s with
  | EmptyString => false
  | String d s => if ascii_dec c d then true else strchr c s
  end.
(** A buffer up to its first 0. *)
Fixpoint c_string (s : string) : string :=
  match s with
  | EmptyString => EmptyString
  | String c s => if ascii_dec c zero then EmptyString else String c (c_string s)
  end.
Definition string_char (c : ascii) : string := String c EmptyString.
(** The tokens [strtok_r] gives one after the other; none is empty. *)
Fixpoint tokens_from (sep : ascii) (tok s : string) : list string :=
  match s with
  | EmptyString => if decide (tok = "") then [] else [tok]
  | String c s =>
      if ascii_dec c sep then
        (if decide (tok = "") then [] else [tok]) ++ tokens_from sep "" s
      else tokens_from sep (tok ++ string_char c) s
  end.
Definition tokens (sep : ascii) (s : string) : list string := tokens_from sep "" s.

Definition digit (c : ascii) : option Z :=
  let n := Z.of_N (N_of_ascii c) - 48 in if (0 <=? n) && (n <=? 9) then Some n else None.
(** The value of the digits and what is behind them. *)
Fixpoint digits (v : Z) (s : string) : Z * string :=
  match s with
  | EmptyString => (v, s)
  | String c r => match digit c with Some d => digits (10 * v + d) r | None => (v, s) end
  end.
Definition is_space (c : ascii) : bool :=
  let n := N_of_ascii c in ((n =? 32) || ((9 <=? n) && (n <=? 13)))%N.
Fixpoint skip_space (s : string) : string :=
  match s with
  | String c r => if is_space c then skip_space r else s
  | EmptyString => s
  end.
Definition strtol (s : string) : Z * string :=
  match skip_space s with
  | String c r =>
      if ascii_dec c "-" then let '(v, e) := digits 0 r in (- v, e)
      else if ascii_dec c "+" then digits 0 r
      else digits 0 (String c r)
  | EmptyString => (0, s)
  end.
Definition LONG_MAX : Z := 9223372036854775807.
Definition atoi (s : string) : Z := i32 (Z.max (- LONG_MAX - 1) (Z.min LONG_MAX (strtol s).1)).

(** ** The interpreter and the process *)

(** Methods of the classes of [statistics.py] and [cluster_database.py]. *)
Inductive node_fun :=
| Domain_List_Get | Statistics_Load_Balancing_Get | Statistics_General_Statistics_Get
| Statistics_Load_Balancing_Update
| Node_Update_Domain_Statistics | Node_Heartbeat | Node_Heartbeat_Request | Node_Heartbeat_Process
| Nodes_Update | Nodes_Status | Node_Touch | Node_Show_Load.
(** The C functions of this part that they may call. *)
Inductive node_cfun :=
| C_send_heartbeat_to | C_send_heartbeat_request_to | C_send_nodes_status_to
| C_set_cluster_config_version | C_set_leader.

(** As in [py_env], functions of the number of the call.  [nd_allocs] is
    whether the memory for a JSON object or text, a buffer or a request is
    there. *)
Record node_env := mk_node_env {
  nd_object : Type;
  nd_parse : string -> nd_object -> list (py_arg nd_object);
  nd_list : nd_object -> option (list nd_object);
  nd_answer : nat -> node_fun -> list py_val -> list (node_cfun * nd_object) * option nd_object;
  nd_builds : nat -> bool;
  nd_allocs : nat -> bool;
  nd_stale_word : nat -> nat -> Z;
  nd_stale_addr : nat -> nat -> ip_addr_t;
  nd_stale_text : nat -> string;
  nd_uuid : string;
  nd_local_ip : ip_addr_t;
  nd_role_assigned : Z;
  nd_statistics_to_leader : bool;
  nd_controller_set : bool }.

(** ** State *)
Inductive http_cmd := HTTP_GET | HTTP_POST | HTTP_PUT | HTTP_DELETE | HTTP_OTHER.
(** [Nd_request] is a request to the node of that address, [Nd_controller] one
    to the controller; [Nd_registration] is [dps_appliance_registration()] and
    [Nd_query] the query of the nodes of the cluster. *)
Inductive node_event :=
| Nd_request (cmd : http_cmd) (uri node : string) (body : option string)
| Nd_controller (cmd : http_cmd) (uri : string) (body : option string)
| Nd_called (f : node_fun) (args : list py_val)
| Nd_reply (code : Z)
| Nd_registration
| Nd_query
| Nd_task_gone.

Record reporting := mk_reporting {
  dps_statistics_sample_interval : Z; dps_statistics_send : bool;
  dps_heartbeat_sample_interval : Z; dps_heartbeat_send : bool }.
Record leader_info := mk_leader_info {
  fLocalLeader : Z; dps_cluster_leader : ip_addr_t; dps_cluster_leader_ip_string : string }.
(** [nd_gil] counts how often this thread holds the lock of the interpreter. *)
Record node := mk_node {
  nd_reporting : reporting; nd_leader : leader_info; cluster_config_version : Z;
  dps_appliance_registration_needed : Z; last_heartbeat_to_dmc_is_success : Z;
  dps_heartbeat_to_dmc_send_count : Z; nd_gil : Z; nd_now : nat; nd_out : list node_event }.

Definition nd_with_reporting (x : reporting) (s : node) : node :=
  mk_node x (nd_leader s) (cluster_config_version s) (dps_appliance_registration_needed s)
    (last_heartbeat_to_dmc_is_success s) (dps_heartbeat_to_dmc_send_count s) (nd_gil s) (nd_now s)
    (nd_out s).
Definition nd_with_leader (x : leader_info) (s : node) : node :=
  mk_node (nd_reporting s) x (cluster_config_version s) (dps_appliance_registration_needed s)
    (last_heartbeat_to_dmc_is_success s) (dps_heartbeat_to_dmc_send_count s) (nd_gil s) (nd_now s)
    (nd_out s).
Definition nd_with_version (x : Z) (s : node) : node :=
  mk_node (nd_reporting s) (nd_leader s) x (dps_appliance_registration_needed s)
    (last_heartbeat_to_dmc_is_success s) (dps_heartbeat_to_dmc_send_count s) (nd_gil s) (nd_now s)
    (nd_out s).
Definition nd_with_registration (x : Z) (s : node) : node :=
  mk_node (nd_reporting s) (nd_leader s) (cluster_config_version s) x
    (last_heartbeat_to_dmc_is_success s) (dps_heartbeat_to_dmc_send_count s) (nd_gil s) (nd_now s)
    (nd_out s).
Definition nd_with_dmc (success count : Z) (s : node) : node :=
  mk_node (nd_reporting s) (nd_leader s) (cluster_config_version s)
    (dps_appliance_registration_needed s) success count (nd_gil s) (nd_now s) (nd_out s).
Definition nd_hold (k : Z) (s : node) : node :=
  mk_node (nd_reporting s) (nd_leader s) (cluster_config_version s)
    (dps_appliance_registration_needed s) (last_heartbeat_to_dmc_is_success s)
    (dps_heartbeat_to_dmc_send_count s) (nd_gil s + k) (nd_now s) (nd_out s).
Definition nd_tick (s : node) : node :=
  mk_node (nd_reporting s) (nd_leader s) (cluster_config_version s)
    (dps_appliance_registration_needed s) (last_heartbeat_to_dmc_is_success s)
    (dps_heartbeat_to_dmc_send_count s) (nd_gil s) (S (nd_now s)) (nd_out s).
Definition nd_emit (e : node_event) (s : node) : node :=
  mk_node (nd_reporting s) (nd_leader s) (cluster_config_version s)
    (dps_appliance_registration_needed s) (last_heartbeat_to_dmc_is_success s)
    (dps_heartbeat_to_dmc_send_count s) (nd_gil s) (nd_now s) (nd_out s ++ [e]).
(** [PyGILState_Ensure] and [PyGILState_Release] *)
Definition gil_ensure : node -> node := nd_hold 1.
Definition gil_release : node -> node := nd_hold (-1).

Definition DPS_REST_HTTPD_PORT : Z := 1888.
Definition LARGE_REST_BUFFER_SIZE : Z := 2097152.
Definition MAX_NODES_ON_STACK : Z := 8.
Definition HTTP_OK : Z := 200.
Definition HTTP_BADREQUEST : Z := 400.
Definition HTTP_BADMETHOD : Z := 405.
Definition HTTP_ENTITYTOOLARGE : Z := 413.
Definition CAN_BE_DCS : Z := 1.
Definition DPS_CLUSTER_STATISTICS_URI : string := "/api/dove/dps/stats".
Definition DPS_CLUSTER_HEARTBEAT_URI : string := "/api/dove/dps/heartbeat".
Definition DPS_CLUSTER_HEARTBEAT_REQUEST_URI : string := "/api/dove/dps/heartbeatreq".
Definition DPS_CLUSTER_NODE_STATUS_URI : string := "/api/dove/dps/nodestatus".
Definition DPS_DOVE_CONTROLLER_DPS_HEARTBEAT_URI : string := "/controller/sb/v2/opendove/odmc/odcs/".

Section nodes.
Context (E : node_env) {J : json_lib} {I : inet_lib}.
Implicit Types s : node.

(** ** JSON texts in requests *)
Definition nd_alloc s : bool * node := (nd_allocs E (nd_now s), nd_tick s).
Definition js_pack (l : list (string * json_field json_t)) s : option json_t * node :=
  let '(ok, s) := nd_alloc s in (if ok then json_pack l else None, s).
(** A buffer that [inet_ntop] leaves alone when it fails. *)
Definition ip_text (a : ip_addr_t) s : string * node :=
  (default (nd_stale_text E (nd_now s)) (inet_ntop (ia_family a) (ia_ip a)), nd_tick s).

(** The body ends with the 0 of the text. *)
Definition dps_rest_client_fill_evhttp (js_res : option json_t) s : option string * node :=
  match js_res with
  | None => (None, s)
  | Some j =>
      let '(ok, s) := nd_alloc s in
      match (if ok then json_dumps j else None) with
      | None => (None, s)
      | Some text =>
          let '(ok, s) := nd_alloc s in
          (if ok then Some (text ++ string_char zero)%string else None, s)
      end
  end.
Definition dps_rest_client_json_send_to_dps_node (js_res : option json_t) (uri : string)
    (cmd_type : http_cmd) (dps_node_ip : ip_addr_t) s : node :=
  let '(text, s) := ip_text dps_node_ip s in
  let '(ok, s) := nd_alloc s in
  if negb ok then s
  else let '(body, s) := dps_rest_client_fill_evhttp js_res s in
       nd_emit (Nd_request cmd_type uri text body) s.

(** ** Heart beats *)
Definition dps_form_json_heartbeat s : option json_t * node :=
  let '(text, s) := ip_text (nd_local_ip E) s in
  js_pack [("ip_family", J_int (ia_family (nd_local_ip E)));
           ("dcs_config_version", J_int (i32 (cluster_config_version s)));
           ("ip", J_str text); ("canBeDCS", J_int CAN_BE_DCS);
           ("isDCS", J_int (nd_role_assigned E))] s.
Definition dps_form_json_heartbeat_to_dps_node (factive config_version : Z) s : option json_t * node :=
  js_pack [("Active", J_int factive); ("Config_Version", J_int config_version);
           ("UUID", J_str (nd_uuid E));
           ("Cluster_Leader", J_str (dps_cluster_leader_ip_string (nd_leader s)))] s.
Definition dps_heartbeat_send_to_dove_controller s : node :=
  let '(js_res, s) := dps_form_json_heartbeat s in
  match js_res with
  | None => s
  | Some j =>
      let '(body, s) := dps_rest_client_fill_evhttp (Some j) s in
      nd_emit (Nd_controller HTTP_PUT (DPS_DOVE_CONTROLLER_DPS_HEARTBEAT_URI ++ nd_uuid E)%string body) s
  end.
Definition dps_rest_heartbeat_send_to_dps_node (dps_node : ip_addr_t) (factive config_version : Z) s
    : node :=
  if negb (dps_heartbeat_send (nd_reporting s)) then s
  else
    let '(js_res, s) := dps_form_json_heartbeat_to_dps_node factive config_version s in
    match js_res with
    | None => s
    | Some j =>
        dps_rest_client_json_send_to_dps_node (Some j) DPS_CLUSTER_HEARTBEAT_URI HTTP_PUT dps_node s
    end.
Definition dps_rest_heartbeat_request_send_to_dps_node (dps_node : ip_addr_t) s : node :=
  if negb (dps_heartbeat_send (nd_reporting s)) then s
  else
    dps_rest_client_json_send_to_dps_node None DPS_CLUSTER_HEARTBEAT_REQUEST_URI HTTP_PUT dps_node s.

(** ** The status of the nodes

    The status shares its storage with [port_http].  What [config_version] says
    is not used. *)
Fixpoint nodes_status_json (l : list ip_addr_t) (js_nodes : list json_t) s : list json_t * node :=
  match l with
  | [] => (js_nodes, s)
  | curr_node :: l =>
      let '(text, s) := ip_text curr_node s in
      let '(js_node_state, s) :=
        js_pack [("ip_address", J_str text); ("status", J_int (ia_port_http curr_node))] s in
      match js_node_state with
      | None => (js_nodes, s)
      | Some j => nodes_status_json l (js_nodes ++ [j]) s
      end
  end.
Definition dps_form_json_node_status_json (js_nodes : json_t) s : option json_t * node :=
  let '(js_node, s) :=
    js_pack [("Config_Version", J_int (cluster_config_version s)); ("UUID", J_str (nd_uuid E));
             ("Cluster_Leader", J_str (dps_cluster_leader_ip_string (nd_leader s)))] s in
  match js_node with
  | None => (None, s)
  | Some js_node => js_pack [("dps_node", J_obj js_node); ("nodes_status", J_obj js_nodes)] s
  end.
Definition dps_rest_nodes_status_send_to (dps_node : ip_addr_t) (config_version : Z)
    (nodes_status : list ip_addr_t) s : node :=
  if negb (dps_heartbeat_send (nd_reporting s)) then s
  else
    let '(ok, s) := nd_alloc s in
    if negb ok then s
    else
      let '(js_nodes, s) := nodes_status_json nodes_status [] s in
      let '(js_res, s) := dps_form_json_node_status_json (json_array_of js_nodes) s in
      match js_res with
      | None => s
      | Some j =>
          dps_rest_client_json_send_to_dps_node (Some j) DPS_CLUSTER_NODE_STATUS_URI HTTP_PUT
            dps_node s
      end.

(** ** What Python calls *)
Definition remote_node (b : list Z) (n : nat) : out ip_addr_t :=
  let* a := keep_packed b (nd_stale_addr E n 0) in
  Done (mk_ip_addr (ia_family a) (ia_port a) (ia_xport_type a) DPS_REST_HTTPD_PORT (ia_ip a)).
Definition dps_cluster_send_heartbeat_to (args : nd_object E) s : out node :=
  match nd_parse E "iLz#" args with
  | [A_int factive; A_int config_version; A_str (Some remote_ip)] =>
      let* a := remote_node remote_ip (nd_now s) in
      Done (dps_rest_heartbeat_send_to_dps_node a factive config_version (nd_tick s))
  | _ => Done (nd_tick s)
  end.
Definition dps_cluster_send_heartbeat_request_to (args : nd_object E) s : out node :=
  match nd_parse E "z#" args with
  | [A_str (Some remote_ip)] =>
      let* a := remote_node remote_ip (nd_now s) in
      Done (dps_rest_heartbeat_request_send_to_dps_node a (nd_tick s))
  | _ => Done (nd_tick s)
  end.
Definition dps_cluster_set_cluster_config_version (args : nd_object E) s : node :=
  match nd_parse E "L" args with [A_int v] => nd_with_version v s | _ => s end.
(** The address keeps the bytes that are not written. *)
Definition dps_cluster_set_leader (args : nd_object E) s : out node :=
  match nd_parse E "Iz#H" args with
  | [A_int local_leader; A_str leader_ip; A_int leader_port] =>
      let old := nd_leader s in
      match leader_ip with
      | None =>
          Done (nd_with_leader (mk_leader_info local_leader (dps_cluster_leader old)
                                  (dps_cluster_leader_ip_string old)) s)
      | Some b =>
          let* a := keep_packed b (dps_cluster_leader old) in
          let a := with_port leader_port a in
          Done (nd_with_leader
                  (mk_leader_info local_leader a
                     (default (dps_cluster_leader_ip_string old) (inet_ntop (ia_family a) (ia_ip a)))) s)
      end
  | _ => Done s
  end.
(** [status] is written as four bytes, the last two into the address. *)
Definition status_elem (n j : nat) (o : nd_object E) : out (option ip_addr_t) :=
  match nd_parse E "z#I" o with
  | [A_str node_ip; A_int status] =>
      let a := nd_stale_addr E n (S j) in
      let a := mk_ip_addr (ia_family a) (ia_port a) (ia_xport_type a) (u16 status)
                 (le16 (status / 65536) ++ drop 2 (ia_ip a)) in
      let* a := keep_packed (str_bytes node_ip) a in Done (Some a)
  | _ => Done None
  end.
Fixpoint status_elems (n : nat) (l : list (nd_object E)) (acc : list ip_addr_t)
    : out (list ip_addr_t) :=
  match l with
  | [] => Done acc
  | o :: l =>
      let* r := status_elem n (length acc) o in
      status_elems n l (match r with Some a => acc ++ [a] | None => acc end)
  end.
Definition dps_cluster_send_nodes_status_to (args : nd_object E) s : out node :=
  match nd_parse E "Lz#O" args with
  | [A_int config_version; A_str remote_ip; A_obj pyNodeList] =>
      match nd_list E pyNodeList with
      | None => Done (nd_tick s)
      | Some l =>
          let n := nd_now s in
          let* a := remote_node (str_bytes remote_ip) n in
          let '(ok, s) := nd_alloc s in
          if negb ok then Done s
          else
            let* nodes_status := status_elems n l [] in
            Done (dps_rest_nodes_status_send_to a config_version nodes_status s)
      end
  | _ => Done (nd_tick s)
  end.

Definition run_node_cfun (f : node_cfun) (args : nd_object E) s : out node :=
  match f with
  | C_send_heartbeat_to => dps_cluster_send_heartbeat_to args s
  | C_send_heartbeat_request_to => dps_cluster_send_heartbeat_request_to args s
  | C_send_nodes_status_to => dps_cluster_send_nodes_status_to args s
  | C_set_cluster_config_version => Done (dps_cluster_set_cluster_config_version args s)
  | C_set_leader => dps_cluster_set_leader args s
  end.
Fixpoint run_node_cfuns (l : list (node_cfun * nd_object E)) s : out node :=
  match l with
  | [] => Done s
  | (f, args) :: l => let* s := run_node_cfun f args s in run_node_cfuns l s
  end.

(** ** Calling Python *)
Definition nd_build s : bool * node := (nd_builds E (nd_now s), nd_tick s).
(** [None] when the arguments cannot be built or the method raises. *)
Definition nd_call (f : node_fun) (args : list py_val) s : out (option (nd_object E) * node) :=
  let '(ok, s) := nd_build s in
  if negb ok then Done (None, s)
  else
    let '(calls, r) := nd_answer E (nd_now s) f args in
    let* s := run_node_cfuns calls (nd_emit (Nd_called f args) (nd_tick s)) in
    Done (r, s).
(** A call whose answer is not used, or only for the log. *)
Definition nd_tell (f : node_fun) (args : list py_val) s : out node :=
  let* (_, s) := nd_call f args (gil_ensure s) in Done (gil_release s).
Definition ip_args (a : ip_addr_t) : list py_val := [V_int (ia_family a); V_str (take 16 (ia_ip a))].

Definition dps_cluster_update_statistics (domain_id : Z) (dps_node : ip_addr_t)
    (endpoints tunnels endpoint_updates endpoint_lookups policy_lookups : Z) s : out node :=
  nd_tell Node_Update_Domain_Statistics
    (ip_args dps_node ++ [V_int domain_id; V_int endpoints; V_int tunnels; V_int endpoint_updates;
                          V_int endpoint_lookups; V_int policy_lookups]) s.
Definition dps_cluster_node_heartbeat (node_ip : ip_addr_t) (factive dmc_config_version : Z) s
    : out node :=
  nd_tell Node_Heartbeat (ip_args node_ip ++ [V_int dmc_config_version; V_int factive]) s.
Definition dps_cluster_node_heartbeat_request (node_ip : ip_addr_t) s : out node :=
  nd_tell Node_Heartbeat_Request (ip_args node_ip) s.
Definition dps_cluster_node_heartbeat_process (dps_heartbeat_process : Z) s : out node :=
  nd_tell Node_Heartbeat_Process [V_int dps_heartbeat_process] s.
Definition dps_cluster_node_touch (node_ip : ip_addr_t) s : out node :=
  nd_tell Node_Touch (ip_args node_ip) s.
Definition dps_cluster_node_show_load (node_ip : ip_addr_t) s : out node :=
  nd_tell Node_Show_Load (ip_args node_ip) s.

(** A list of tuples, one for each node; [None] when one cannot be built. *)
Fixpoint node_tuples (last : ip_addr_t -> Z) (nodes : list ip_addr_t) s : option (list py_val) * node :=
  match nodes with
  | [] => (Some [], s)
  | a :: nodes =>
      let '(ok, s) := nd_build s in
      if negb ok then (None, s)
      else let '(l, s) := node_tuples last nodes s in
           ((fun l => V_tuple (ip_args a ++ [V_int (last a)]) :: l) <$> l, s)
  end.
Definition node_list (last : ip_addr_t -> Z) (nodes : list ip_addr_t) s : option (list py_val) * node :=
  let '(ok, s) := nd_build s in if ok then node_tuples last nodes s else (None, s).
Definition dps_cluster_nodes_from_dmc_update (nodes : list ip_addr_t) s : out node :=
  let '(l, s) := node_list ia_port nodes (gil_ensure s) in
  match l with
  | None => Done (gil_release s)
  | Some l => let* (_, s) := nd_call Nodes_Update [V_list l] s in Done (gil_release s)
  end.
Definition dps_cluster_nodes_status_from_leader (leader : ip_addr_t) (config_version : Z)
    (nodes : list ip_addr_t) s : out node :=
  let '(l, s) := node_list ia_port_http nodes (gil_ensure s) in
  match l with
  | None => Done (gil_release s)
  | Some l =>
      let* (_, s) := nd_call Nodes_Status (ip_args leader ++ [V_int config_version; V_list l]) s in
      Done (gil_release s)
  end.

(** ** Requests that arrive

    [rq_peer] is the text of the address and the port of the connection,
    [rq_body] the bytes of the input buffer. *)
Record http_request := mk_request {
  rq_cmd : http_cmd; rq_uri : string; rq_body : option string; rq_peer : option (string * Z) }.
Implicit Types req : http_request.

(** What [inet_pton] does not write stays as it was. *)
Definition inet_pton_into (family : Z) (text : string) (u : ip_union) : Z * ip_union :=
  let '(ret, b) := inet_pton family text in (ret, b ++ drop (length b) u).
Definition text_family (text : string) : Z := if strchr ":" text then AF_INET6 else AF_INET.
Definition dps_rest_remote_node_get req s : Z * ip_addr_t * node :=
  let a := nd_stale_addr E (nd_now s) 0 in
  match rq_peer req with
  | None => (-1, a, nd_tick s)
  | Some (remote_host, remote_port) =>
      let family := text_family remote_host in
      let '(ret_val, u) := inet_pton_into family remote_host (ia_ip a) in
      (ret_val, mk_ip_addr family (ia_port a) (ia_xport_type a) (u16 remote_port) u, nd_tick s)
  end.
Definition dps_rest_node_touch req s : out node :=
  let '(ret_val, remote_ip, s) := dps_rest_remote_node_get req s in
  if ret_val =? 1 then dps_cluster_node_touch remote_ip s else Done s.

(** The text of the body, when the buffer has room for it and its 0. *)
Definition body_text (size : Z) req : option string :=
  b ← rq_body req;
  if Z.of_nat (String.length b) >? size - 1 then None else Some (c_string b).
Definition body_json (size : Z) req : option json_t := t ← body_text size req; json_loads t.
Definition get_int (j : json_t) (k : string) : option Z := v ← json_object_get j k; json_integer v.
Definition get_str (j : json_t) (k : string) : option string :=
  v ← json_object_get j k; json_string v.
Definition send_reply (code : Z) s : node := nd_emit (Nd_reply code) s.
(** [res_code] stays [HTTP_BADREQUEST] unless the work is done. *)
Definition replied (m : option (out node)) s : out node :=
  match m with
  | None => Done (send_reply HTTP_BADREQUEST s)
  | Some m => let* s := m in Done (send_reply HTTP_OK s)
  end.

Definition node_stats (js_id : json_t) : option (Z * Z * Z * Z * Z) :=
  domain_id ← get_int js_id "id";
  endpoints ← get_int js_id "endpoints_count";
  endpoint_update ← get_int js_id "endpoint_update_count";
  endpoint_lookup ← get_int js_id "endpoint_lookup_count";
  policy_lookup ← get_int js_id "policy_lookup_count";
  Some (u32 domain_id, u32 endpoints, u32 endpoint_update, u32 endpoint_lookup, u32 policy_lookup).
Fixpoint dps_req_handler_process_node_stats_array (node_ip : ip_addr_t) (js_stats : list json_t) s
    : out node :=
  match js_stats with
  | [] => Done s
  | js_id :: js_stats =>
      let* s :=
        match node_stats js_id with
        | None => Done s
        | Some (domain_id, endpoints, endpoint_update, endpoint_lookup, policy_lookup) =>
            dps_cluster_update_statistics domain_id node_ip endpoints 0 endpoint_update
              endpoint_lookup policy_lookup s
        end in
      dps_req_handler_process_node_stats_array node_ip js_stats s
  end.
(** [node_ip] is all zero first; [-1] of [inet_pton] passes. *)
Definition reporting_node (js_node : json_t) : option ip_addr_t :=
  family ← get_int js_node "family";
  node_ipstr ← get_str js_node "ip";
  let '(ret, u) := inet_pton_into (u16 family) node_ipstr zero_ip in
  if ret =? 0 then None else Some (mk_ip_addr (u16 family) 0 0 0 u).
Definition dps_req_handler_node_statistics req s : out node :=
  match rq_cmd req with
  | HTTP_GET => Done (send_reply HTTP_BADREQUEST s)
  | HTTP_PUT =>
      replied
        (js_root ← body_json LARGE_REST_BUFFER_SIZE req;
         js_node ← json_object_get js_root "dps_node";
         if json_is_object js_node then
           node_ip ← reporting_node js_node;
           _ ← get_str js_node "UUID";
           _ ← get_str js_node "Cluster_Leader";
           js_stats ← json_object_get js_root "statistics";
           l ← json_elements js_stats;
           Some (dps_req_handler_process_node_stats_array node_ip l s)
         else None) s
  | _ => Done (send_reply HTTP_BADMETHOD s)
  end.

Definition dps_req_handler_node_heartbeat req s : out node :=
  match rq_cmd req with
  | HTTP_PUT =>
      let '(n, remote_ip, s) := dps_rest_remote_node_get req s in
      replied
        (if n =? 1 then
           js_root ← body_json 1024 req;
           factive ← get_int js_root "Active";
           config_version ← get_int js_root "Config_Version";
           _ ← get_str js_root "UUID";
           _ ← get_str js_root "Cluster_Leader";
           Some (dps_cluster_node_heartbeat remote_ip (i32 factive) config_version s)
         else None) s
  | _ => Done (send_reply HTTP_BADMETHOD s)
  end.
Definition dps_req_handler_node_heartbeat_request req s : out node :=
  match rq_cmd req with
  | HTTP_PUT =>
      let '(n, remote_ip, s) := dps_rest_remote_node_get req s in
      replied (if n =? 1 then Some (dps_cluster_node_heartbeat_request remote_ip s) else None) s
  | _ => Done (send_reply HTTP_BADMETHOD s)
  end.

(** Both families of texts are read as IPv4. *)
Definition status_node (js_node : json_t) : option ip_addr_t :=
  if json_is_object js_node then
    node_ipstr ← get_str js_node "ip_address";
    status ← get_int js_node "status";
    let '(ret_val, u) := inet_pton_into AF_INET node_ipstr zero_ip in
    if ret_val =? 1 then Some (mk_ip_addr (text_family node_ipstr) 0 0 (u16 (u32 status)) u) else None
  else None.
(** Up to the first that is no node. *)
Fixpoint status_nodes (js_nodes : list json_t) : list ip_addr_t :=
  match js_nodes with
  | [] => []
  | js :: js_nodes => match status_node js with Some a => a :: status_nodes js_nodes | None => [] end
  end.
Definition dps_req_handler_process_node_status_array (node_ip : ip_addr_t) (config_version : Z)
    (js_nodes : list json_t) s : out node :=
  let total_nodes := Z.of_nat (length js_nodes) in
  let '(ok, s) := if total_nodes >? MAX_NODES_ON_STACK then nd_alloc s else (true, s) in
  if negb ok then Done s
  else
    let ipnodes := status_nodes js_nodes in
    if decide (length ipnodes = length js_nodes)
    then dps_cluster_nodes_status_from_leader node_ip config_version ipnodes s
    else Done s.
Definition dps_req_handler_node_status req s : out node :=
  match rq_cmd req with
  | HTTP_PUT =>
      let '(n, remote_ip, s) := dps_rest_remote_node_get req s in
      match rq_body req with
      | Some b =>
          if (n =? 1) && (Z.of_nat (String.length b) >? LARGE_REST_BUFFER_SIZE - 1)
          then Done (send_reply HTTP_ENTITYTOOLARGE s)
          else
            replied
              (if n =? 1 then
                 js_root ← body_json LARGE_REST_BUFFER_SIZE req;
                 js_node ← json_object_get js_root "dps_node";
                 if json_is_object js_node then
                   config_version ← get_int js_node "Config_Version";
                   _ ← get_str js_node "UUID";
                   _ ← get_str js_node "Cluster_Leader";
                   js_nodes ← json_object_get js_root "nodes_status";
                   l ← json_elements js_nodes;
                   Some (dps_req_handler_process_node_status_array remote_ip config_version l s)
                 else None
               else None) s
      | None => Done (send_reply HTTP_BADREQUEST s)
      end
  | _ => Done (send_reply HTTP_BADMETHOD s)
  end.

(** ** Statistics *)
Record dps_object_load_balancing_t := mk_load_balancing {
  lb_domain_id : Z; lb_sample_interval : Z; lb_endpoint_update_count : Z;
  lb_endpoint_lookup_count : Z; lb_policy_lookup_count : Z; lb_endpoints_count : Z }.

(** The [i]-th number a tuple is parsed into: what is not stored stays. *)
Definition parsed (n : nat) (l : list (py_arg (nd_object E))) (i : nat) : Z :=
  match l !! i with Some (A_int z) => u32 z | _ => u32 (nd_stale_word E n i) end.
Definition ret_code_of (l : list (py_arg (nd_object E))) (old : Z) : Z :=
  match l with A_int z :: _ => i32 z | _ => old end.

Definition dps_statistics_domain_load_balancing_get (load_balancing : dps_object_load_balancing_t) s
    : out (Z * dps_object_load_balancing_t * node) :=
  let* (strret, s) :=
    nd_call Statistics_Load_Balancing_Get [V_int (lb_domain_id load_balancing)] (gil_ensure s) in
  let s := gil_release s in
  match strret with
  | None => Done (DOVE_STATUS_NO_MEMORY, load_balancing, s)
  | Some strret =>
      let l := nd_parse E "IIIII" strret in
      let n := nd_now s in
      let ret_code := ret_code_of l DOVE_STATUS_NO_MEMORY in
      if ret_code =? DPS_NO_ERR then
        Done (ret_code,
              mk_load_balancing (lb_domain_id load_balancing)
                (u32 (dps_statistics_sample_interval (nd_reporting s)))
                (parsed n l 1) (parsed n l 2) (parsed n l 3) (parsed n l 4), s)
      else Done (ret_code, load_balancing, s)
  end.

(** The counts of two calls, one second apart.  [Retained] is an end in the
    middle: the lock is not given back. *)
Record general_counts := mk_general_counts {
  gs_endpoint_update : Z; gs_endpoint_lookup : Z; gs_policy_lookup : Z; gs_multicast_lookup : Z;
  gs_internal_gw_lookup : Z }.
Record dps_object_general_statistics_t := mk_general_statistics {
  gs_domain_id : Z; gs_counts : general_counts; gs_endpoint_update_rate : Z;
  gs_endpoint_lookup_rate : Z; gs_policy_lookup_rate : Z }.
Inductive sample := Retained | Sampled (ret_code : Z) (counts : general_counts).
Definition stale_counts (n : nat) : general_counts :=
  let w i := u32 (nd_stale_word E n i) in mk_general_counts (w 1%nat) (w 2%nat) (w 3%nat) (w 4%nat) (w 5%nat).
Definition general_sample (domain_id ret_code : Z) s : out (sample * node) :=
  let* (strret, s) := nd_call Statistics_General_Statistics_Get [V_int domain_id] (gil_ensure s) in
  match strret with
  | None => Done (Retained, s)
  | Some strret =>
      let l := nd_parse E "IIIIII" strret in
      let n := nd_now s in
      Done (Sampled (ret_code_of l ret_code)
              (mk_general_counts (parsed n l 1) (parsed n l 2) (parsed n l 3) (parsed n l 4)
                 (parsed n l 5)), gil_release s)
  end.
Definition general_result (g : dps_object_general_statistics_t) (ret_code : Z)
    (before now : general_counts) : Z * dps_object_general_statistics_t :=
  (ret_code,
   if ret_code =? DPS_NO_ERR then
     mk_general_statistics (gs_domain_id g) now
       (u32 (gs_endpoint_update now - gs_endpoint_update before))
       (u32 (gs_endpoint_lookup now - gs_endpoint_lookup before))
       (u32 (gs_policy_lookup now - gs_policy_lookup before))
   else g).
Definition dps_statistics_domain_general_statistics_get (g : dps_object_general_statistics_t) s
    : out (Z * dps_object_general_statistics_t * node) :=
  let n := nd_now s in
  let* (r, s) := general_sample (gs_domain_id g) DOVE_STATUS_NO_MEMORY s in
  match r with
  | Retained => Done (general_result g DOVE_STATUS_NO_MEMORY (stale_counts n) (stale_counts (S n)), s)
  | Sampled ret_code before =>
      if negb (ret_code =? DPS_NO_ERR)
      then Done (general_result g ret_code before (stale_counts (S n)), s)
      else
        let* (r, s) := general_sample (gs_domain_id g) ret_code s in
        Done (match r with
              | Retained => general_result g ret_code before (stale_counts (S n))
              | Sampled ret_code now => general_result g ret_code before now
              end, s)
  end.

Definition dps_statistics_update_per_domain (domain : Z) s : out node :=
  nd_tell Statistics_Load_Balancing_Update [V_int (u32 domain)] s.
Definition dps_form_json_load_balancing_json (js_stats : json_t) s : option json_t * node :=
  let '(text, s) := ip_text (nd_local_ip E) s in
  let '(js_node, s) :=
    js_pack [("family", J_int (ia_family (nd_local_ip E))); ("ip", J_str text);
             ("UUID", J_str (nd_uuid E));
             ("Cluster_Leader", J_str (dps_cluster_leader_ip_string (nd_leader s)))] s in
  match js_node with
  | None => (None, s)
  | Some js_node => js_pack [("dps_node", J_obj js_node); ("statistics", J_obj js_stats)] s
  end.
(** [i] takes an [int]. *)
Definition load_balancing_json (lb : dps_object_load_balancing_t) s : option json_t * node :=
  js_pack [("id", J_int (i32 (lb_domain_id lb)));
           ("sample_interval", J_int (i32 (lb_sample_interval lb)));
           ("endpoint_update_count", J_int (i32 (lb_endpoint_update_count lb)));
           ("endpoint_lookup_count", J_int (i32 (lb_endpoint_lookup_count lb)));
           ("policy_lookup_count", J_int (i32 (lb_policy_lookup_count lb)));
           ("endpoints_count", J_int (i32 (lb_endpoints_count lb)))] s.
Definition dps_statistics_report_to_cluster_leader (js_stats : json_t) s : node :=
  let '(js_res, s) := dps_form_json_load_balancing_json js_stats s in
  match js_res with
  | None => s
  | Some j =>
      dps_rest_client_json_send_to_dps_node (Some j) DPS_CLUSTER_STATISTICS_URI HTTP_PUT
        (dps_cluster_leader (nd_leader s)) s
  end.
Fixpoint collect (domains : list string) (js_stats : list json_t) s : out (option (list json_t) * node) :=
  match domains with
  | [] => Done (Some js_stats, s)
  | token :: domains =>
      let domain := atoi token in
      let* s := dps_statistics_update_per_domain domain s in
      let* (_, lb, s) :=
        dps_statistics_domain_load_balancing_get (mk_load_balancing (u32 domain) 0 0 0 0 0) s in
      let '(js_one_stat, s) := load_balancing_json lb s in
      match js_one_stat with
      | None => Done (None, s)
      | Some j => collect domains (js_stats ++ [j]) s
      end
  end.
Definition string_of_bytes (b : list Z) : string :=
  foldr (fun z => String (ascii_of_N (Z.to_N z))) EmptyString b.
(** [strdup] of what is no string is one of [NULL]. *)
Definition dps_statistics_process s : out node :=
  if negb (dps_statistics_send (nd_reporting s)) then Done s
  else
    let* (strret, s) := nd_call Domain_List_Get [] (gil_ensure s) in
    match strret with
    | None => Done (gil_release s)
    | Some strret =>
        match nd_parse E "z" strret with
        | [A_str (Some domain_list)] =>
            let s := gil_release s in
            if negb (nd_statistics_to_leader E) then Done s
            else
              let '(ok, s) := nd_alloc s in
              if negb ok then Done s
              else
                let* (js_stats, s) := collect (tokens "," (c_string (string_of_bytes domain_list))) [] s in
                match js_stats with
                | None => Done s
                | Some l => Done (dps_statistics_report_to_cluster_leader (json_array_of l) s)
                end
        | _ => Fault
        end
    end.

(** ** The tasks and their intervals

    A turn is what a task does when its wait returns [rc]; the statistics task
    is gone when it was woken. *)
Definition ETIMEDOUT : Z := 110.
Definition statistics_turn (rc : Z) s : out (bool * node) :=
  if rc =? ETIMEDOUT then let* s := dps_statistics_process s in Done (true, s)
  else if rc =? 0 then Done (false, nd_emit Nd_task_gone s)
  else Done (true, s).
Definition set_dps_appliance_registration_needed (value : Z) s : node :=
  nd_with_registration (u8 value) s.
Definition get_dps_appliance_registration_needed s : Z := dps_appliance_registration_needed s.
Definition heartbeat_turn (rc : Z) s : node :=
  if negb (rc =? ETIMEDOUT) then s
  else
    let s :=
      if dps_heartbeat_send (nd_reporting s) && nd_controller_set E then
        let s := nd_with_dmc 0 (dps_heartbeat_to_dmc_send_count s) s in
        let s := dps_heartbeat_send_to_dove_controller s in
        nd_with_dmc (last_heartbeat_to_dmc_is_success s)
          (i32 (dps_heartbeat_to_dmc_send_count s + 1)) s
      else s in
    if get_dps_appliance_registration_needed s =? 0 then s
    else
      let s := nd_emit Nd_registration s in
      if nd_role_assigned E =? 0 then s else nd_emit Nd_query s.

Definition set_statistics_interval (interval : Z) s : node :=
  let r := nd_reporting s in
  let off := interval =? 0 in
  nd_with_reporting
    (mk_reporting (if off then 60 else interval) (negb off) (dps_heartbeat_sample_interval r)
       (dps_heartbeat_send r)) s.
Definition get_statistics_interval s : Z :=
  if dps_statistics_send (nd_reporting s) then dps_statistics_sample_interval (nd_reporting s) else 0.
Definition set_heartbeat_interval (interval : Z) s : out node :=
  let r := nd_reporting s in
  let off := interval =? 0 in
  let s :=
    nd_with_reporting
      (mk_reporting (dps_statistics_sample_interval r) (dps_statistics_send r)
         (if off then 60 else interval) (negb off)) s in
  dps_cluster_node_heartbeat_process (if off then 0 else 1) s.
Definition get_heartbeat_interval s : Z :=
  if dps_heartbeat_send (nd_reporting s) then dps_heartbeat_sample_interval (nd_reporting s) else 0.
End nodes.
