(* ===== verification/NodeTold.v ===== *)
(** * What the nodes of the server tell each other arrives

    The theorems about [NodeMsg]: what the libraries are relied on for, the
    lock of the interpreter, and that heart beats, the status of the nodes and
    statistics reach the Python of the other node as they left. *)
From stdpp Require Import gmap strings.
From Stdlib Require Import Ascii.
From S2P Require Export NodeMsg.
#[local] Open Scope Z_scope.

(** ** What the libraries promise *)
Definition in64 (z : Z) : Prop := - 9223372036854775808 <= z < 9223372036854775808.
(** Characters other than 0 that need no UTF-8. *)
Fixpoint plain (t : string) : bool :=
  match t with
  | EmptyString => true
  | String c t => ((0 <? N_of_ascii c) && (N_of_ascii c <? 128))%N && plain t
  end.
Definition holds {J : json_lib} (f : json_field json_t) (v : json_t) : Prop :=
  match f with
  | J_int z => in64 z -> json_integer v = Some z
  | J_str t => json_string v = Some t
  | J_obj j => v = j
  end.
Definition plain_field {J : json_lib} (f : json_field json_t) : bool :=
  match f with J_str t => plain t | _ => true end.
Class json_laws (J : json_lib) : Prop := {
  json_pack_some l : Forall (fun x => plain_field x.2 = true) l -> is_Some (json_pack l);
  json_pack_object l j : json_pack l = Some j -> json_is_object j = true;
  json_pack_get l j k f :
    json_pack l = Some j -> NoDup l.*1 -> (k, f) ∈ l ->
    exists v, json_object_get j k = Some v /\ holds f v;
  json_array_elements l : json_elements (json_array_of l) = Some l;
  json_dumps_some j : json_is_object j = true -> is_Some (json_dumps j);
  json_dumps_text j t : json_dumps j = Some t -> c_string (t ++ string_char zero) = t;
  json_loads_dumps j t : json_dumps j = Some t -> json_loads t = Some j }.
(** Texts of IPv6 addresses have a colon, those of IPv4 addresses none. *)
Class inet_laws (I : inet_lib) : Prop := {
  inet_text4 u : wf_ip u ->
    exists t, inet_ntop AF_INET u = Some t /\ plain t = true /\ strchr ":" t = false /\
      inet_pton AF_INET t = (1, take 4 u);
  inet_text6 u : wf_ip u ->
    exists t, inet_ntop AF_INET6 u = Some t /\ plain t = true /\ strchr ":" t = true /\
      inet_pton AF_INET6 t = (1, u);
  inet_colon t : strchr ":" t = true -> inet_pton AF_INET t = (0, []) }.

(** ** Texts of numbers *)
Definition dec_char (d : Z) : ascii := ascii_of_N (Z.to_N (48 + d)).
Fixpoint dec_from (fuel : nat) (n : Z) (acc : string) : string :=
  match fuel with
  | O => acc
  | S fuel =>
      let acc := String (dec_char (n mod 10)) acc in
      if n <? 10 then acc else dec_from fuel (n / 10) acc
  end.
(** [str] of a number of at most twenty digits. *)
Definition dec (n : Z) : string := dec_from 20 n EmptyString.
(** [','.join] *)
Fixpoint joined (sep : ascii) (l : list string) : string :=
  match l with
  | [] => EmptyString
  | [t] => t
  | t :: l => (t ++ String sep (joined sep l))%string
  end.

Lemma digit_dec d : 0 <= d < 10 -> digit (dec_char d) = Some d.
Proof.
intros H. assert (d = 0 \/ d = 1 \/ d = 2 \/ d = 3 \/ d = 4 \/ d = 5 \/ d = 6 \/ d = 7 \/ d = 8 \/ d = 9) by lia.
by destruct_or!; subst.
Qed.
Lemma digits_dec_from fuel n acc :
  0 <= n < 10 ^ Z.of_nat fuel -> digits 0 (dec_from fuel n acc) = digits n acc.
Proof.
revert n acc. induction fuel as [|fuel IH]; intros n acc H.
- rewrite Z.pow_0_r in H. by replace n with 0 by lia.
- assert (0 <= n mod 10 < 10) by (apply Z.mod_pos_bound; lia). cbn [dec_from].
  destruct (n <? 10) eqn:Hn.
  + apply Z.ltb_lt in Hn. cbn [digits]. rewrite digit_dec by lia. f_equal. rewrite Z.mod_small by lia. lia.
  + apply Z.ltb_ge in Hn. rewrite IH.
    * cbn [digits]. rewrite digit_dec by lia. f_equal. pose proof (Z.div_mod n 10). lia.
    * rewrite Nat2Z.inj_succ, Z.pow_succ_r in H by lia.
      split; [apply Z.div_pos; lia | apply Z.div_lt_upper_bound; lia].
Qed.

(** Texts of digits only. *)
Fixpoint all_digits (t : string) : bool :=
  match t with String c t => bool_decide (is_Some (digit c)) && all_digits t | EmptyString => true end.
Lemma all_digits_dec_from fuel n acc :
  0 <= n -> all_digits acc = true -> all_digits (dec_from fuel n acc) = true.
Proof.
revert n acc. induction fuel as [|fuel IH]; intros n acc H Ha; [done|]. cbn [dec_from].
assert (all_digits (String (dec_char (n mod 10)) acc) = true) as Hs.
{ cbn [all_digits]. rewrite digit_dec by (apply Z.mod_pos_bound; lia). by rewrite Ha. }
destruct (n <? 10); [done|]. apply IH; [apply Z.div_pos; lia | done].
Qed.
Lemma dec_not_empty n : dec n <> "".
Proof.
assert (forall fuel m acc, acc <> "" -> dec_from fuel m acc <> "") as H.
{ induction fuel as [|fuel IH]; intros m acc Ha; [done|]. cbn [dec_from]. destruct (m <? 10); [done | by apply IH]. }
unfold dec. cbn [dec_from]. destruct (n <? 10); [done|]. by apply (H 19%nat).
Qed.
(** Every character, by looking. *)
Lemma all_ascii (P : ascii -> bool) : 
  forallb (fun n => P (ascii_of_nat n)) (seq 0 256) = true -> forall c, P c = true.
Proof.
intros H c. rewrite forallb_forall in H. rewrite <- (ascii_nat_embedding c). apply H.
apply in_seq. pose proof (nat_ascii_bounded c). lia.
Qed.
Lemma digit_char c :
  is_Some (digit c) -> is_space c = false /\ c <> "-"%char /\ c <> "+"%char /\ c <> ","%char.
Proof.
intros H. pose proof (all_ascii (fun c => negb (bool_decide (is_Some (digit c))) ||
  (negb (is_space c) && negb (bool_decide (c = "-"%char)) && negb (bool_decide (c = "+"%char)) &&
   negb (bool_decide (c = ","%char)))) eq_refl c) as Hc.
cbn beta in Hc. rewrite (bool_decide_true _ H) in Hc. cbn [negb orb] in Hc. repeat rewrite andb_true_iff in Hc. rewrite !negb_true_iff in Hc.
destruct Hc as [[[Hc H1] H2] H3]. apply bool_decide_eq_false in H1, H2, H3. done.
Qed.
Lemma strtol_digits t : all_digits t = true -> t <> "" -> strtol t = digits 0 t.
Proof.
intros H Hn. destruct t as [|c t]; [done|]. cbn [all_digits] in H. apply andb_true_iff in H as [Hc _].
apply bool_decide_eq_true in Hc. destruct (digit_char c Hc) as (Hsp & Hm & Hp & _).
unfold strtol. cbn [skip_space]. rewrite Hsp. destruct (ascii_dec c "-"); [done|]. by destruct (ascii_dec c "+").
Qed.
Lemma atoi_dec n : 0 <= n < 4294967296 -> atoi (dec n) = i32 n.
Proof.
intros H. unfold atoi.
rewrite strtol_digits by (apply dec_not_empty || by apply all_digits_dec_from; [lia|]).
unfold dec. rewrite digits_dec_from by lia. cbn [digits fst]. unfold LONG_MAX. by rewrite Z.min_r, Z.max_r by lia.
Qed.

(** ** Texts of lists *)
Lemma app_cons c (t u : string) : (String c t ++ u)%string = String c (t ++ u).
Proof. reflexivity. Qed.
Lemma app_empty_r (t : string) : (t ++ "")%string = t.
Proof. induction t as [|c t IH]; [done|]. by rewrite app_cons, IH. Qed.
Lemma app_char_assoc (t u : string) c : ((t ++ string_char c) ++ u)%string = (t ++ String c u)%string.
Proof. induction t as [|d t IH]; [done|]. by rewrite !app_cons, IH. Qed.
Lemma tokens_token sep t rest tok :
  strchr sep t = false ->
  tokens_from sep tok (t ++ rest) = tokens_from sep (tok ++ t) rest.
Proof.
revert tok. induction t as [|c t IH]; intros tok H; [by rewrite app_empty_r|].
rewrite app_cons. cbn [tokens_from strchr] in *. destruct (ascii_dec sep c); [done|].
destruct (ascii_dec c sep); [congruence|]. rewrite IH by done. by rewrite app_char_assoc.
Qed.
Lemma tokens_joined sep l :
  Forall (fun t => t <> "" /\ strchr sep t = false) l -> tokens sep (joined sep l) = l.
Proof.
induction 1 as [|t l [Ht Hs] Hl IH]; [done|]. unfold tokens in *. destruct l as [|u l].
- cbn [joined]. rewrite <- (app_empty_r t) at 1. rewrite tokens_token by done. cbn. by rewrite decide_False.
- change (joined sep (t :: u :: l)) with (t ++ String sep (joined sep (u :: l)))%string.
  rewrite tokens_token by done. cbn [tokens_from]. destruct (ascii_dec sep sep); [|done].
  change ("" ++ t)%string with t. rewrite decide_False by done. by rewrite IH.
Qed.
Lemma all_digits_no_comma t : all_digits t = true -> strchr "," t = false.
Proof.
induction t as [|c t IH]; [done|]. cbn [all_digits strchr]. intros [Hc H]%andb_true_iff.
apply bool_decide_eq_true, digit_char in Hc as (_ & _ & _ & Hc). destruct (ascii_dec "," c); [congruence | by apply IH].
Qed.
Lemma tokens_decs l : Forall (fun n => 0 <= n) l -> tokens "," (joined "," (dec <$> l)) = dec <$> l.
Proof.
intros H. apply tokens_joined, Forall_fmap. eapply Forall_impl; [|exact H]. intros n Hn.
split; [apply dec_not_empty|]. apply all_digits_no_comma. by apply all_digits_dec_from.
Qed.

(** ** Sending only

    What the C functions that Python calls and the senders do to the record of
    a node: requests, under the lock as it is. *)
Definition is_request (e : node_event) : bool :=
  match e with Nd_request _ _ _ _ | Nd_controller _ _ _ => true | _ => false end.
Definition sends_only (s s' : node) : Prop :=
  exists l, nd_out s' = nd_out s ++ l /\ Forall (fun e => is_request e = true) l /\ nd_gil s' = nd_gil s.
#[export] Instance sends_only_preorder : PreOrder sends_only.
Proof.
split; [by intros s; exists []; rewrite app_nil_r|].
intros s1 s2 s3 (l & H1 & Hl & Hg) (l' & H2 & Hl' & Hg'). exists (l ++ l').
split_and!; [by rewrite H2, H1, app_assoc | by apply Forall_app | congruence].
Qed.
Lemma sends_nothing s s' : nd_out s' = nd_out s -> nd_gil s' = nd_gil s -> sends_only s s'.
Proof. intros H Hg. exists []. by rewrite app_nil_r. Qed.
Lemma sends_request e s : is_request e = true -> sends_only s (nd_emit e s).
Proof. intros H. exists [e]. by repeat constructor. Qed.

Section sound.
Context (E : node_env) {J : json_lib} {I : inet_lib}.

Lemma js_pack_sends l s r : js_pack E l s = r -> sends_only s r.2.
Proof. unfold js_pack, nd_alloc. intros <-. by apply sends_nothing. Qed.
Lemma ip_text_sends a s r : ip_text E a s = r -> sends_only s r.2.
Proof. unfold ip_text. intros <-. by apply sends_nothing. Qed.
Lemma fill_sends j s r : dps_rest_client_fill_evhttp E j s = r -> sends_only s r.2.
Proof.
unfold dps_rest_client_fill_evhttp, nd_alloc. intros <-. destruct j as [j|]; [|done].
destruct (if nd_allocs E (nd_now s) then json_dumps j else None); by apply sends_nothing.
Qed.
Lemma alloc_sends s r : nd_alloc E s = r -> sends_only s r.2.
Proof. intros <-. by apply sends_nothing. Qed.

Ltac sends_pair lem x :=
  let H := fresh "H" in
  destruct x eqn:H; apply lem in H; cbn [snd] in H; etransitivity; [exact H|]; clear H.
Ltac sends_by lem :=
  match goal with
  | |- sends_only _ (let '(_, _) := ?x in _) => sends_pair lem x
  | |- sends_only _ (let '(_, _) := ?x in _).2 => sends_pair lem x
  end.
Ltac send_step :=
  first
    [ reflexivity
    | sends_by js_pack_sends | sends_by ip_text_sends | sends_by fill_sends | sends_by alloc_sends
    | apply sends_request; reflexivity | exact (js_pack_sends _ _ _ eq_refl)
    | match goal with |- sends_only _ (match ?x with _ => _ end) => destruct x end
    | match goal with |- sends_only _ (match ?x with _ => _ end).2 => destruct x end ].
Ltac sends := repeat send_step.

Lemma json_send_sends j uri cmd ip s :
  sends_only s (dps_rest_client_json_send_to_dps_node E j uri cmd ip s).
Proof. unfold dps_rest_client_json_send_to_dps_node. sends. Qed.
Lemma heartbeat_send_sends ip a v s : sends_only s (dps_rest_heartbeat_send_to_dps_node E ip a v s).
Proof.
unfold dps_rest_heartbeat_send_to_dps_node, dps_form_json_heartbeat_to_dps_node. sends. apply json_send_sends.
Qed.
Lemma request_send_sends ip s : sends_only s (dps_rest_heartbeat_request_send_to_dps_node E ip s).
Proof. unfold dps_rest_heartbeat_request_send_to_dps_node. sends. apply json_send_sends. Qed.
Lemma controller_send_sends s : sends_only s (dps_heartbeat_send_to_dove_controller E s).
Proof. unfold dps_heartbeat_send_to_dove_controller, dps_form_json_heartbeat. sends. Qed.
Lemma status_json_sends l js s r : nodes_status_json E l js s = r -> sends_only s r.2.
Proof.
intros <-. revert js s. induction l as [|a l IH]; intros js s; cbn [nodes_status_json]; [done|]. sends. apply IH.
Qed.
Lemma node_status_json_sends j s r : dps_form_json_node_status_json E j s = r -> sends_only s r.2.
Proof. intros <-. unfold dps_form_json_node_status_json. sends. Qed.
Lemma status_send_sends ip v l s : sends_only s (dps_rest_nodes_status_send_to E ip v l s).
Proof.
unfold dps_rest_nodes_status_send_to. repeat first [sends_by status_json_sends | sends_by node_status_json_sends | send_step].
apply json_send_sends.
Qed.
Lemma load_json_sends j s r : dps_form_json_load_balancing_json E j s = r -> sends_only s r.2.
Proof. intros <-. unfold dps_form_json_load_balancing_json. sends. Qed.
Lemma report_sends j s : sends_only s (dps_statistics_report_to_cluster_leader E j s).
Proof.
unfold dps_statistics_report_to_cluster_leader. repeat first [sends_by load_json_sends | send_step].
apply json_send_sends.
Qed.

(** ** What Python calls *)

(** Python gives addresses of at most sixteen bytes. *)
Definition py_fits : Prop :=
  forall fmt o b, fmt <> "z" -> A_str (Some b) ∈ nd_parse E fmt o -> (length b <= 16)%nat.

Lemma keep_packed_fits b a : (length b <= 16)%nat -> exists a', keep_packed b a = Done a'.
Proof. intros H. unfold keep_packed, memcpy_ip. rewrite decide_True by done. eauto. Qed.
Lemma remote_node_fits b n : (length b <= 16)%nat -> exists a, remote_node E b n = Done a.
Proof.
intros H. unfold remote_node. destruct (keep_packed_fits b (nd_stale_addr E n 0) H) as [a ->]. cbn [obind]. eauto.
Qed.
Lemma remote_node_none n : exists a, remote_node E [] n = Done a.
Proof. apply remote_node_fits. cbn. lia. Qed.

Lemma run_node_cfun_sends f o s s' : run_node_cfun E f o s = Done s' -> sends_only s s'.
Proof.
destruct f; cbn [run_node_cfun];
  unfold dps_cluster_send_heartbeat_to, dps_cluster_send_heartbeat_request_to,
    dps_cluster_send_nodes_status_to, dps_cluster_set_cluster_config_version, dps_cluster_set_leader;
  intros Hr; repeat first [progress inv_done | case_match]; try by apply sends_nothing.
- etransitivity; [|apply heartbeat_send_sends]. by apply sends_nothing.
- etransitivity; [|apply request_send_sends]. by apply sends_nothing.
- by apply (alloc_sends s (b, s')).
- etransitivity; [by apply (alloc_sends s (b, n)) | apply status_send_sends].
Qed.
Lemma run_node_cfuns_sends l s s' : run_node_cfuns E l s = Done s' -> sends_only s s'.
Proof.
revert s. induction l as [|[f o] l IH]; intros s H; cbn [run_node_cfuns] in H; [by inv_done|].
apply obind_Done_inv in H as (s1 & H1 & H). etransitivity; [by eapply run_node_cfun_sends | by apply IH].
Qed.

Lemma status_elems_fits n l acc : py_fits -> exists r, status_elems E n l acc = Done r.
Proof.
intros Hf. revert acc. induction l as [|o l IH]; intros acc; cbn [status_elems]; [eauto|].
assert (exists r, status_elem E n (length acc) o = Done r) as [r ->]; [|apply IH].
unfold status_elem. destruct (nd_parse E "z#I" o) as [|[] [|[] []]] eqn:Hp; eauto.
destruct (keep_packed_fits (str_bytes s) (mk_ip_addr (ia_family (nd_stale_addr E n (S (length acc))))
  (ia_port (nd_stale_addr E n (S (length acc)))) (ia_xport_type (nd_stale_addr E n (S (length acc)))) (u16 z)
  (le16 (z / 65536) ++ drop 2 (ia_ip (nd_stale_addr E n (S (length acc))))))) as [a Ha].
{ destruct s as [b|]; [|cbn; lia]. apply (Hf "z#I" o b); [done|]. rewrite Hp. by left. }
cbn zeta. rewrite Ha. cbn [obind]. eauto.
Qed.
Lemma run_node_cfun_fits f o s : py_fits -> exists s', run_node_cfun E f o s = Done s'.
Proof.
intros Hf. destruct f; cbn [run_node_cfun];
  unfold dps_cluster_send_heartbeat_to, dps_cluster_send_heartbeat_request_to,
    dps_cluster_send_nodes_status_to, dps_cluster_set_leader; [..|eauto|].
- destruct (nd_parse E "iLz#" o) as [|[] [|[] [|[|[b|]|] []]]] eqn:Hp; eauto.
  destruct (remote_node_fits b (nd_now s)) as [a ->]; [|cbn [obind]; eauto].
  apply (Hf "iLz#" o); [done|]. rewrite Hp. by right; right; left.
- destruct (nd_parse E "z#" o) as [|[|[b|]|] []] eqn:Hp; eauto.
  destruct (remote_node_fits b (nd_now s)) as [a ->]; [|cbn [obind]; eauto].
  apply (Hf "z#" o); [done|]. rewrite Hp. by left.
- destruct (nd_parse E "Lz#O" o) as [|[] [|[|b|] [|[| |l] []]]] eqn:Hp; eauto.
  destruct (nd_list E l) as [l'|]; [|eauto].
  destruct (remote_node_fits (str_bytes b) (nd_now s)) as [a ->].
  { destruct b as [b|]; [|cbn; lia]. apply (Hf "Lz#O" o); [done|]. rewrite Hp. by right; left. }
  cbn [obind]. destruct (nd_alloc E s) as [[] s1]; [|cbn; eauto]. cbn [negb].
  destruct (status_elems_fits (nd_now s) l' [] Hf) as [r ->]. cbn [obind]. eauto.
- destruct (nd_parse E "Iz#H" o) as [|[] [|[|[b|]|] [|[] []]]] eqn:Hp; eauto.
  destruct (keep_packed_fits b (dps_cluster_leader (nd_leader s))) as [a ->]; [|cbn [obind]; eauto].
  apply (Hf "Iz#H" o); [done|]. rewrite Hp. by right; left.
Qed.
Lemma run_node_cfuns_fits l s : py_fits -> exists s', run_node_cfuns E l s = Done s'.
Proof.
intros Hf. revert s. induction l as [|[f o] l IH]; intros s; cbn [run_node_cfuns]; [eauto|].
destruct (run_node_cfun_fits f o s Hf) as [s1 ->]. apply IH.
Qed.

(** ** Calls *)
Definition called_of (e : node_event) : option (node_fun * list py_val) :=
  match e with Nd_called f args => Some (f, args) | _ => None end.
Definition reply_of (e : node_event) : option Z :=
  match e with Nd_reply code => Some code | _ => None end.
Definition request_of (e : node_event) : option (http_cmd * string * string * option string) :=
  match e with Nd_request cmd uri node body => Some (cmd, uri, node, body) | _ => None end.
Definition calls (s : node) : list (node_fun * list py_val) := omap called_of (nd_out s).
Definition replies (s : node) : list Z := omap reply_of (nd_out s).
Definition requests (s : node) : list (http_cmd * string * string * option string) :=
  omap request_of (nd_out s).

Lemma sends_only_seen s s' :
  sends_only s s' -> calls s' = calls s /\ replies s' = replies s /\ nd_gil s' = nd_gil s.
Proof.
intros (l & Ho & Hl & Hg). unfold calls, replies. rewrite Ho, !omap_app.
assert (omap called_of l = [] /\ omap reply_of l = []) as [-> ->].
{ clear Ho. induction Hl as [|e l He Hl IH]; [done|]. by destruct e. }
by rewrite !app_nil_r.
Qed.

(** One call of Python, and whatever it then sends. *)
Definition told (f : node_fun) (args : list py_val) (s s' : node) : Prop :=
  calls s' = calls s ++ [(f, args)] /\ replies s' = replies s /\ nd_gil s' = nd_gil s.
Lemma emit_called f args s :
  calls (nd_emit (Nd_called f args) s) = calls s ++ [(f, args)] /\
  replies (nd_emit (Nd_called f args) s) = replies s.
Proof. unfold calls, replies. cbn [nd_emit nd_out]. rewrite !omap_app. by rewrite app_nil_r. Qed.
Lemma nd_call_gil f args s r s' : nd_call E f args s = Done (r, s') -> nd_gil s' = nd_gil s.
Proof.
unfold nd_call, nd_build. destruct (nd_builds E (nd_now s)); cbn [negb]; [|by intros [= <- <-]].
destruct (nd_answer E _ f args) as [l o]. intros H. inv_done.
match goal with H : run_node_cfuns _ _ _ = Done _ |- _ => apply run_node_cfuns_sends in H as (? & _ & _ & ->) end.
done.
Qed.
Lemma nd_tell_gil f args s s' : nd_tell E f args s = Done s' -> nd_gil s' = nd_gil s.
Proof.
unfold nd_tell. intros H. apply obind_Done_inv in H as ([r s1] & H & [= <-]).
apply nd_call_gil in H. cbn in *. lia.
Qed.
(** What the [n]-th question is answered with. *)
Definition answers (n : nat) (f : node_fun) (args : list py_val) : option (nd_object E) :=
  (nd_answer E n f args).2.
Lemma nd_call_told f args s :
  nd_builds E (nd_now s) = true -> py_fits ->
  exists s', nd_call E f args s = Done (answers (S (nd_now s)) f args, s') /\ told f args s s'.
Proof.
intros Hb Hf. unfold nd_call, nd_build, answers. rewrite Hb. cbn [negb]. change (nd_now (nd_tick s)) with (S (nd_now s)).
destruct (nd_answer E (S (nd_now s)) f args) as [l o].
destruct (run_node_cfuns_fits l (nd_emit (Nd_called f args) (nd_tick (nd_tick s))) Hf) as [s' Hs].
rewrite Hs. cbn [obind snd]. eexists. split; [done|].
apply run_node_cfuns_sends, sends_only_seen in Hs as (Hc & Hr & Hg).
destruct (emit_called f args (nd_tick (nd_tick s))) as [Hc' Hr']. by unfold told; rewrite Hc, Hr, Hg, Hc', Hr'.
Qed.
Lemma nd_tell_told f args s :
  (forall n, nd_builds E n = true) -> py_fits ->
  exists s', nd_tell E f args s = Done s' /\ told f args s s'.
Proof.
intros Hb Hf. unfold nd_tell. destruct (nd_call_told f args (gil_ensure s) (Hb _) Hf) as (s1 & -> & Hc & Hr & Hg).
cbn [obind]. eexists. split; [done|]. split_and!; [done | done |]. cbn in *. lia.
Qed.

(** ** The lock of the interpreter *)
Lemma node_list_gil last l s r : node_list E last l s = r -> nd_gil r.2 = nd_gil s.
Proof.
intros <-. unfold node_list, nd_build. destruct (nd_builds E (nd_now s)); [|done].
change (nd_gil s) with (nd_gil (nd_tick s)). generalize (nd_tick s) as s1. clear s.
induction l as [|a l IH]; intros s; cbn [node_tuples]; [done|]. unfold nd_build.
destruct (nd_builds E (nd_now s)); cbn [negb]; [|done].
specialize (IH (nd_tick s)). by destruct (node_tuples E last l (nd_tick s)).
Qed.
Lemma nodes_update_gil l s s' : dps_cluster_nodes_from_dmc_update E l s = Done s' -> nd_gil s' = nd_gil s.
Proof.
unfold dps_cluster_nodes_from_dmc_update. destruct (node_list E ia_port l (gil_ensure s)) as [o s1] eqn:H.
apply node_list_gil in H. cbn in H. destruct o as [o|]; intros Hd.
- apply obind_Done_inv in Hd as ([r s2] & Hd & [= <-]). apply nd_call_gil in Hd. cbn in *. lia.
- injection Hd as <-. cbn. lia.
Qed.
Lemma nodes_status_gil a v l s s' :
  dps_cluster_nodes_status_from_leader E a v l s = Done s' -> nd_gil s' = nd_gil s.
Proof.
unfold dps_cluster_nodes_status_from_leader.
destruct (node_list E ia_port_http l (gil_ensure s)) as [o s1] eqn:H.
apply node_list_gil in H. cbn in H. destruct o as [o|]; intros Hd.
- apply obind_Done_inv in Hd as ([r s2] & Hd & [= <-]). apply nd_call_gil in Hd. cbn in *. lia.
- injection Hd as <-. cbn. lia.
Qed.
Lemma load_get_gil lb s r lb' s' :
  dps_statistics_domain_load_balancing_get E lb s = Done (r, lb', s') -> nd_gil s' = nd_gil s.
Proof.
unfold dps_statistics_domain_load_balancing_get. intros Hd. apply obind_Done_inv in Hd as ([o s1] & H & Hd).
apply nd_call_gil in H. cbn in H, Hd. assert (s' = gil_release s1) as -> by (repeat case_match; by inv_done).
cbn. lia.
Qed.
Lemma collect_gil l js s r s' : collect E l js s = Done (r, s') -> nd_gil s' = nd_gil s.
Proof.
revert js s. induction l as [|t l IH]; intros js s; cbn [collect]; [by intros [= <- <-]|]. intros Hd.
apply obind_Done_inv in Hd as (s1 & H1 & Hd). apply nd_tell_gil in H1.
apply obind_Done_inv in Hd as ([[c lb] s2] & H2 & Hd). apply load_get_gil in H2.
destruct (load_balancing_json E lb s2) as [j s3] eqn:H3. apply js_pack_sends, sends_only_seen in H3 as (_ & _ & H3).
cbn in H3. destruct j as [j|]; [apply IH in Hd | injection Hd as <- <-]; congruence.
Qed.
Lemma process_gil s s' : dps_statistics_process E s = Done s' -> nd_gil s' = nd_gil s.
Proof.
unfold dps_statistics_process, nd_alloc. destruct (negb _); [by intros [= <-]|]. intros Hd.
apply obind_Done_inv in Hd as ([o s1] & H1 & Hd). apply nd_call_gil in H1. cbn in H1.
destruct o as [o|]; [|injection Hd as <-; cbn; lia].
destruct (nd_parse E "z" o) as [|[|[b|]|] []]; try discriminate Hd. cbn zeta in Hd.
destruct (negb (nd_statistics_to_leader E)); [injection Hd as <-; cbn; lia|].
destruct (negb _); [injection Hd as <-; cbn; lia|].
apply obind_Done_inv in Hd as ([r s2] & Hc & Hd). apply collect_gil in Hc. cbn in Hc.
destruct r as [r|]; injection Hd as <-; [|lia].
pose proof (sends_only_seen _ _ (report_sends (json_array_of r) s2)) as (_ & _ & ->). lia.
Qed.
Lemma stats_array_gil ip l s s' :
  dps_req_handler_process_node_stats_array E ip l s = Done s' -> nd_gil s' = nd_gil s.
Proof.
revert s. induction l as [|js l IH]; intros s; cbn [dps_req_handler_process_node_stats_array]; [by intros [= <-]|].
intros Hd. apply obind_Done_inv in Hd as (s1 & H1 & Hd). apply IH in Hd. rewrite Hd.
destruct (node_stats js) as [[[[[] ?] ?] ?]|]; [by apply nd_tell_gil in H1 | by injection H1 as <-].
Qed.
Lemma replied_gil m s s' :
  (forall k s1, m = Some k -> k = Done s1 -> nd_gil s1 = nd_gil s) ->
  replied m s = Done s' -> nd_gil s' = nd_gil s.
Proof.
intros Hm. unfold replied. destruct m as [k|]; [|by intros [= <-]].
intros Hd. apply obind_Done_inv in Hd as (s1 & Hk & [= <-]). exact (Hm k s1 eq_refl Hk).
Qed.
Lemma remote_node_get_gil req s r : dps_rest_remote_node_get E req s = r -> nd_gil r.2 = nd_gil s.
Proof.
intros <-. unfold dps_rest_remote_node_get. destruct (rq_peer req) as [[h p]|]; [|done].
cbn zeta. by destruct (inet_pton_into _ _ _).
Qed.

(** What a thread of a node does: its tasks, requests that arrive, commands and
    what Python calls. *)
Inductive node_op :=
| Op_statistics (rc : Z) | Op_heartbeat (rc : Z)
| Op_node_statistics (req : http_request) | Op_node_heartbeat (req : http_request)
| Op_node_heartbeat_request (req : http_request) | Op_node_status (req : http_request)
| Op_touch (req : http_request)
| Op_load_balancing (lb : dps_object_load_balancing_t) | Op_nodes_update (nodes : list ip_addr_t)
| Op_show_load (node_ip : ip_addr_t)
| Op_statistics_interval (interval : Z) | Op_heartbeat_interval (interval : Z)
| Op_registration (value : Z) | Op_python (f : node_cfun) (args : nd_object E).
Definition run_node_op (o : node_op) (s : node) : out node :=
  match o with
  | Op_statistics rc => let* (_, s) := statistics_turn E rc s in Done s
  | Op_heartbeat rc => Done (heartbeat_turn E rc s)
  | Op_node_statistics req => dps_req_handler_node_statistics E req s
  | Op_node_heartbeat req => dps_req_handler_node_heartbeat E req s
  | Op_node_heartbeat_request req => dps_req_handler_node_heartbeat_request E req s
  | Op_node_status req => dps_req_handler_node_status E req s
  | Op_touch req => dps_rest_node_touch E req s
  | Op_load_balancing lb =>
      let* (_, _, s) := dps_statistics_domain_load_balancing_get E lb s in Done s
  | Op_nodes_update nodes => dps_cluster_nodes_from_dmc_update E nodes s
  | Op_show_load node_ip => dps_cluster_node_show_load E node_ip s
  | Op_statistics_interval interval => Done (set_statistics_interval interval s)
  | Op_heartbeat_interval interval => set_heartbeat_interval E interval s
  | Op_registration value => Done (set_dps_appliance_registration_needed value s)
  | Op_python f args => run_node_cfun E f args s
  end.

Lemma heartbeat_turn_gil rc s : nd_gil (heartbeat_turn E rc s) = nd_gil s.
Proof.
unfold heartbeat_turn. destruct (negb (rc =? ETIMEDOUT)); [done|].
assert (forall s1, nd_gil s1 = nd_gil s ->
  nd_gil (if get_dps_appliance_registration_needed s1 =? 0 then s1
    else let s2 := nd_emit Nd_registration s1 in
         if nd_role_assigned E =? 0 then s2 else nd_emit Nd_query s2) = nd_gil s) as H.
{ intros s1 H1. destruct (_ =? 0); [done|]. by destruct (_ =? 0). }
apply H. destruct (_ && _); [|done].
exact (proj2 (proj2 (sends_only_seen _ _
  (controller_send_sends (nd_with_dmc 0 (dps_heartbeat_to_dmc_send_count s) s))))).
Qed.
Lemma statistics_handler_gil req s s' :
  dps_req_handler_node_statistics E req s = Done s' -> nd_gil s' = nd_gil s.
Proof.
unfold dps_req_handler_node_statistics. destruct (rq_cmd req); try by intros [= <-].
apply replied_gil. intros k s1 Hk Hd. subst k.
repeat (apply bind_Some in Hk as (? & _ & Hk)). destruct (json_is_object _); [|done].
repeat (apply bind_Some in Hk as (? & _ & Hk)). injection Hk as Hk. by apply stats_array_gil in Hk.
Qed.
Lemma heartbeat_handler_gil req s s' :
  dps_req_handler_node_heartbeat E req s = Done s' -> nd_gil s' = nd_gil s.
Proof.
unfold dps_req_handler_node_heartbeat. destruct (rq_cmd req); try by intros [= <-].
destruct (dps_rest_remote_node_get E req s) as [[n a] s0] eqn:Hg. apply remote_node_get_gil in Hg. cbn in Hg.
rewrite <- Hg. apply replied_gil. intros k s1 Hk Hd. subst k. destruct (n =? 1); [|done].
repeat (apply bind_Some in Hk as (? & _ & Hk)). injection Hk as Hk. by apply nd_tell_gil in Hk.
Qed.
Lemma request_handler_gil req s s' :
  dps_req_handler_node_heartbeat_request E req s = Done s' -> nd_gil s' = nd_gil s.
Proof.
unfold dps_req_handler_node_heartbeat_request. destruct (rq_cmd req); try by intros [= <-].
destruct (dps_rest_remote_node_get E req s) as [[n a] s0] eqn:Hg. apply remote_node_get_gil in Hg. cbn in Hg.
rewrite <- Hg. apply replied_gil. intros k s1 Hk Hd. subst k. destruct (n =? 1); [|done].
injection Hk as Hk. by apply nd_tell_gil in Hk.
Qed.
Lemma status_array_gil a v l s s' :
  dps_req_handler_process_node_status_array E a v l s = Done s' -> nd_gil s' = nd_gil s.
Proof.
unfold dps_req_handler_process_node_status_array, nd_alloc. destruct (_ >? _).
all: destruct (negb _); [by intros [= <-]|]; destruct (decide _); [|by intros [= <-]].
all: intros Hd; by apply nodes_status_gil in Hd.
Qed.
Lemma status_handler_gil req s s' :
  dps_req_handler_node_status E req s = Done s' -> nd_gil s' = nd_gil s.
Proof.
unfold dps_req_handler_node_status. destruct (rq_cmd req); try by intros [= <-].
destruct (dps_rest_remote_node_get E req s) as [[n a] s0] eqn:Hg. apply remote_node_get_gil in Hg. cbn in Hg.
rewrite <- Hg. destruct (rq_body req); [|by intros [= <-]]. destruct (_ && _); [by intros [= <-]|].
apply replied_gil. intros k sx Hk Hd. subst k. destruct (n =? 1); [|done].
repeat (apply bind_Some in Hk as (? & _ & Hk)). destruct (json_is_object _); [|done].
repeat (apply bind_Some in Hk as (? & _ & Hk)). injection Hk as Hk. by apply status_array_gil in Hk.
Qed.

(** Whatever Python answers and whatever arrives, every operation between
    nodes gives back the lock of the interpreter as often as it takes it. *)
Theorem lock_balanced o s s' : run_node_op o s = Done s' -> nd_gil s' = nd_gil s.
Proof.
destruct o; cbn [run_node_op]; try by intros [= <-].
- intros H. apply obind_Done_inv in H as ([b s1] & H & [= <-]). revert H. unfold statistics_turn.
  destruct (rc =? ETIMEDOUT); [|destruct (rc =? 0); by intros [= _ <-]].
  intros H. apply obind_Done_inv in H as (s2 & H & [= _ <-]). by apply process_gil.
- intros [= <-]. apply heartbeat_turn_gil.
- apply statistics_handler_gil.
- apply heartbeat_handler_gil.
- apply request_handler_gil.
- apply status_handler_gil.
- unfold dps_rest_node_touch. destruct (dps_rest_remote_node_get E req s) as [[n a] s0] eqn:Hg.
  apply remote_node_get_gil in Hg. cbn in Hg. rewrite <- Hg. destruct (n =? 1); [apply nd_tell_gil | by intros [= <-]].
- intros H. apply obind_Done_inv in H as ([[r lb'] s1] & H & [= <-]). by apply load_get_gil in H.
- apply nodes_update_gil.
- apply nd_tell_gil.
- unfold set_heartbeat_interval. intros H. by apply nd_tell_gil in H.
- intros H. by apply run_node_cfun_sends, sends_only_seen in H as (_ & _ & ->).
Qed.
End sound.

(** ** From one node to the other

    Memory is there and addresses that were not written are sixteen bytes. *)
Record sane (E : node_env) : Prop := {
  sane_allocs n : nd_allocs E n = true;
  sane_builds n : nd_builds E n = true;
  sane_stale n i : wf_ip (ia_ip (nd_stale_addr E n i)) }.
(** The address of a node as Python packs it. *)
Definition packed_ip (b : list Z) : Prop := (length b = 4%nat \/ length b = 16%nat) /\ Forall in8 b.
Definition packed_family (b : list Z) : Z := if is_packed4 b then AF_INET else AF_INET6.
Definition same_address (family : Z) (u v : ip_union) : Prop :=
  if family =? AF_INET then take 4 u = take 4 v else u = v.
(** The connection of a node with that address. *)
Definition peer_of {I : inet_lib} (family : Z) (u : ip_union) (peer : string) : Prop :=
  (family = AF_INET \/ family = AF_INET6) /\ wf_ip u /\ inet_ntop family u = Some peer.

Section delivery.
Context {J : json_lib} {I : inet_lib} {JL : json_laws J} {IL : inet_laws I}.

Lemma js_pack_sane E l s : sane E -> js_pack E l s = (json_pack l, nd_tick s).
Proof. intros [Ha _ _]. unfold js_pack, nd_alloc. by rewrite Ha. Qed.
Lemma pack_int l j k z :
  json_pack l = Some j -> NoDup l.*1 -> (k, J_int z) ∈ l -> in64 z -> get_int j k = Some z.
Proof.
intros H Hn Hi Hz. destruct (json_pack_get l j k _ H Hn Hi) as (v & Hv & Hh). unfold get_int. rewrite Hv.
by apply Hh.
Qed.
Lemma pack_str l j k t :
  json_pack l = Some j -> NoDup l.*1 -> (k, J_str t) ∈ l -> get_str j k = Some t.
Proof.
intros H Hn Hi. destruct (json_pack_get l j k _ H Hn Hi) as (v & Hv & Hh). unfold get_str. by rewrite Hv.
Qed.
Lemma pack_obj l j k o :
  json_pack l = Some j -> NoDup l.*1 -> (k, J_obj o) ∈ l -> json_object_get j k = Some o.
Proof. intros H Hn Hi. destruct (json_pack_get l j k _ H Hn Hi) as (v & Hv & ->). done. Qed.

Definition extends (s s' : node) : Prop := calls s' = calls s /\ replies s' = replies s.
Lemma send_sane E j uri cmd ip s t :
  sane E -> json_is_object j = true -> inet_ntop (ia_family ip) (ia_ip ip) = Some t ->
  exists body,
    (exists s', dps_rest_client_json_send_to_dps_node E (Some j) uri cmd ip s = s' /\
       requests s' = requests s ++ [(cmd, uri, t, Some body)]) /\
    forall size peer, Z.of_nat (String.length body) <= size - 1 ->
      body_json size (mk_request cmd uri (Some body) peer) = Some j.
Proof.
intros [Ha _ _] Hj Ht. destruct (json_dumps_some j Hj) as [text Hd]. exists (text ++ string_char zero)%string.
split.
- eexists. split; [done|]. unfold dps_rest_client_json_send_to_dps_node, ip_text, nd_alloc. rewrite Ha, Ht.
  cbn [negb dps_rest_client_fill_evhttp nd_alloc default]. unfold nd_alloc. rewrite !Ha, Hd.
  unfold requests. cbn [nd_emit nd_out nd_tick]. rewrite omap_app. done.
- intros size peer Hs. unfold body_json, body_text. cbn [rq_body mbind option_bind].
  destruct (_ >? _) eqn:Hc; [lia|]. cbn. rewrite (json_dumps_text j) by done. by apply json_loads_dumps.
Qed.

Lemma text_of_packed b u :
  packed_ip b -> wf_ip u ->
  exists t, inet_ntop (packed_family b) (b ++ drop (length b) u) = Some t /\ plain t = true /\
    strchr ":" t = negb (is_packed4 b) /\ inet_pton (packed_family b) t = (1, b).
Proof.
intros [Hl Hb] [Hu Hu']. assert (wf_ip (b ++ drop (length b) u)) as Hw.
{ split; [rewrite length_app, length_drop; lia|]. apply Forall_app. split; [done | by apply Forall_drop]. }
unfold packed_family, is_packed4. destruct Hl as [Hl|Hl]; rewrite Hl; cbn; rewrite Hl in Hw.
- destruct (inet_text4 _ Hw) as (t & Ht & Hpl & Hc & Hp). exists t.
  split_and!; try done. rewrite Hp. f_equal. apply take_app_length'. lia.
- destruct (inet_text6 _ Hw) as (t & Ht & Hpl & Hc & Hp). exists t.
  split_and!; try done. rewrite Hp. f_equal. rewrite drop_ge by lia. by rewrite app_nil_r.
Qed.
Lemma remote_node_packed E b n :
  sane E -> packed_ip b ->
  exists a t, remote_node E b n = Done a /\ ia_family a = packed_family b /\
    inet_ntop (ia_family a) (ia_ip a) = Some t /\ inet_pton (packed_family b) t = (1, b).
Proof.
intros [_ _ Hs] Hb. destruct (text_of_packed b _ Hb (Hs n 0%nat)) as (t & Ht & _ & _ & Hp).
unfold remote_node, keep_packed, memcpy_ip. rewrite decide_True by (destruct Hb as [[]]; lia). cbn [obind].
eexists _, t. by split_and!.
Qed.

(** Who sent a request is told from the text of the connection. *)
Lemma remote_node_peer E cmd uri body family u peer port s :
  sane E -> peer_of family u peer ->
  exists a s', dps_rest_remote_node_get E (mk_request cmd uri body (Some (peer, port))) s = (1, a, s') /\
    ia_family a = family /\ same_address family (ia_ip a) u /\ length (ia_ip a) = 16%nat /\
    calls s' = calls s /\ replies s' = replies s.
Proof.
intros [_ _ Hs] (Hf & Hu & Ht). unfold dps_rest_remote_node_get. cbn [rq_peer].
destruct (Hs (nd_now s) 0%nat) as [Hl _]. destruct Hu as [Hul Hu8].
assert (text_family peer = family /\ inet_pton family peer = (1, if family =? AF_INET then take 4 u else u)) as [-> Hp].
{ unfold text_family. destruct Hf as [-> | ->].
  - destruct (inet_text4 u (conj Hul Hu8)) as (t & Ht' & _ & Hc & Hp). rewrite Ht in Ht'. injection Ht' as ->.
    by rewrite Hc.
  - destruct (inet_text6 u (conj Hul Hu8)) as (t & Ht' & _ & Hc & Hp). rewrite Ht in Ht'. injection Ht' as ->.
    by rewrite Hc. }
unfold inet_pton_into. rewrite Hp. eexists _, _. split; [done|]. cbn [ia_family ia_ip].
unfold same_address. destruct Hf as [-> | ->]; cbn [AF_INET AF_INET6 Z.eqb Pos.eqb].
- split_and!; try done.
  + rewrite take_app_length' by (rewrite length_take; lia). done.
  + rewrite length_app, length_drop, !length_take. lia.
- split_and!; try done.
  + rewrite drop_ge by lia. by rewrite app_nil_r.
  + rewrite length_app, length_drop. lia.
Qed.
Lemma send_reply_seen code s :
  calls (send_reply code s) = calls s /\ replies (send_reply code s) = replies s ++ [code].
Proof. unfold calls, replies, send_reply. cbn [nd_emit nd_out]. rewrite !omap_app. by rewrite app_nil_r. Qed.

Lemma plain_pack l :
  forallb (fun x => plain_field x.2) l = true -> exists j, json_pack l = Some j.
Proof.
intros H. apply json_pack_some, Forall_forall. intros x Hx. rewrite forallb_forall in H.
by apply H.
Qed.
Ltac keys :=
  match goal with
  | |- NoDup _ => apply (bool_decide_eq_true_1 _); reflexivity
  | |- _ ∈ _ => set_solver
  end.

(** C12. A heart beat that Python has sent is one request to the node it names;
    the Python of the node that takes it, whoever that is, is told once, with
    the address of the sender, whether it is active and the version of its
    configuration, and the sender is answered that all is well. *)
Theorem heartbeat_told Es args s factive version b :
  sane Es -> dps_heartbeat_send (nd_reporting s) = true ->
  plain (nd_uuid Es) = true -> plain (dps_cluster_leader_ip_string (nd_leader s)) = true ->
  nd_parse Es "iLz#" args = [A_int factive; A_int version; A_str (Some b)] ->
  - 2147483648 <= factive < 2147483648 -> in64 version -> packed_ip b ->
  exists host body s',
    dps_cluster_send_heartbeat_to Es args s = Done s' /\
    requests s' = requests s ++ [(HTTP_PUT, DPS_CLUSTER_HEARTBEAT_URI, host, Some body)] /\
    inet_pton (packed_family b) host = (1, b) /\
    forall Er r family u peer port,
      sane Er -> py_fits Er -> peer_of family u peer -> Z.of_nat (String.length body) <= 1023 ->
      exists r' v,
        dps_req_handler_node_heartbeat Er
          (mk_request HTTP_PUT DPS_CLUSTER_HEARTBEAT_URI (Some body) (Some (peer, port))) r = Done r' /\
        same_address family v u /\
        calls r' = calls r ++
          [(Node_Heartbeat, [V_int family; V_str v; V_int version; V_int factive])] /\
        replies r' = replies r ++ [HTTP_OK].
Proof.
intros Hs Hon Hu Hl Hp Hfa Hv Hb. destruct (remote_node_packed Es b (nd_now s) Hs Hb) as (a & host & Ha & Hf & Ht & Hn).
set (l := [("Active", J_int factive); ("Config_Version", J_int version); ("UUID", J_str (nd_uuid Es));
           ("Cluster_Leader", J_str (dps_cluster_leader_ip_string (nd_leader (nd_tick s))))] : list (string * json_field json_t)).
destruct (plain_pack l) as [j Hj]. { cbn. change (nd_leader (nd_tick s)) with (nd_leader s). by rewrite Hu, Hl. }
destruct (send_sane Es j DPS_CLUSTER_HEARTBEAT_URI HTTP_PUT a (nd_tick (nd_tick s)) host Hs
  (json_pack_object _ _ Hj) Ht) as (body & (s' & Hsend & Hreq) & Hbody).
exists host, body, s'. split_and!; [|done|done|].
- unfold dps_cluster_send_heartbeat_to. rewrite Hp, Ha. cbn [obind]. unfold dps_rest_heartbeat_send_to_dps_node.
  change (nd_reporting (nd_tick s)) with (nd_reporting s). rewrite Hon. cbn [negb].
  unfold dps_form_json_heartbeat_to_dps_node. rewrite js_pack_sane by done. fold l. rewrite Hj. by rewrite <- Hsend.
- intros Er r family u peer port Hr Hpy Hpeer Hsize.
  destruct (remote_node_peer Er HTTP_PUT DPS_CLUSTER_HEARTBEAT_URI (Some body) family u peer port r Hr Hpeer)
    as (ra & r1 & Hget & Hfam & Hsame & Hlen & Hc1 & Hr1).
  destruct (nd_tell_told Er Node_Heartbeat (ip_args ra ++ [V_int version; V_int factive]) r1
    (sane_builds _ Hr) Hpy) as (r2 & Hr2 & Hc2 & Hr2' & _).
  exists (send_reply HTTP_OK r2), (ia_ip ra). split.
  { unfold dps_req_handler_node_heartbeat. cbn [rq_cmd]. rewrite Hget. cbn iota. rewrite Hbody by lia.
    cbn [mbind option_bind]. rewrite (pack_int l j "Active" factive), (pack_int l j "Config_Version" version),
      (pack_str l j "UUID" (nd_uuid Es)), (pack_str l j "Cluster_Leader" (dps_cluster_leader_ip_string (nd_leader s)));
      try done; try (unfold l; keys); [|unfold in64; lia].
    change (1 =? 1) with true. cbn [mbind option_bind replied]. unfold dps_cluster_node_heartbeat.
    replace (i32 factive) with factive by (unfold i32; rewrite Z.mod_small; lia). by rewrite Hr2. }
  destruct (send_reply_seen HTTP_OK r2) as [-> ->]. rewrite Hc2, Hr2', Hc1, Hr1. split_and!; [done | | done].
  unfold ip_args. rewrite Hfam. by rewrite take_ge by lia.
Qed.

(** *** The status of the nodes *)

(** A node of the list of Python and its element of the array. *)
Definition same_node (x : list Z * Z) (a : ip_addr_t) : Prop :=
  ia_port_http a = u16 x.2 /\
  exists t, inet_ntop (ia_family a) (ia_ip a) = Some t /\ plain t = true /\
    strchr ":" t = negb (is_packed4 x.1) /\ inet_pton (packed_family x.1) t = (1, x.1).
Definition node_object E (x : list Z * Z) (o : nd_object E) : Prop :=
  packed_ip x.1 /\ nd_parse E "z#I" o = [A_str (Some x.1); A_int x.2].
Lemma status_elem_node E n j o x :
  sane E -> node_object E x o -> exists a, status_elem E n j o = Done (Some a) /\ same_node x a.
Proof.
intros [_ _ Hs] [Hb Hp]. unfold status_elem. rewrite Hp. cbn zeta. unfold keep_packed, memcpy_ip. cbn [str_bytes default ia_ip].
rewrite decide_True by (destruct Hb as [[]]; cbn [id default]; lia). cbn [obind]. eexists. split; [done|]. split; [done|].
destruct (text_of_packed x.1 (ia_ip (nd_stale_addr E n (S j))) Hb (Hs _ _)) as (t & Ht & H).
exists t. split; [|done]. cbn [with_ip ia_family ia_ip]. rewrite <- Ht. unfold packed_family. f_equal.
unfold str_bytes, default, id. f_equal. destruct (Hs n (S j)) as [Hl _].
destruct Hb as [[Hb|Hb] _]; rewrite Hb.
- rewrite (drop_app_ge _ _ 4) by (cbn; lia). rewrite drop_drop. done.
- rewrite !drop_ge; [done | lia | rewrite length_app, length_drop; cbn; lia].
Qed.
Lemma status_elems_nodes E n os nodes acc :
  sane E -> Forall2 (node_object E) nodes os ->
  exists l, status_elems E n os acc = Done (acc ++ l) /\ Forall2 same_node nodes l.
Proof.
intros Hs H. revert acc. induction H as [|x o nodes os Hx H IH]; intros acc; cbn [status_elems].
- exists []. by rewrite app_nil_r.
- destruct (status_elem_node E n (length acc) o x Hs Hx) as (a & -> & Ha). cbn [obind].
  destruct (IH (acc ++ [a])) as (l & -> & Hl). exists (a :: l). by rewrite <- app_assoc; split; [|constructor].
Qed.

Definition state_fields (t : string) (status : Z) : list (string * json_field json_t) :=
  [("ip_address", J_str t); ("status", J_int status)].
(** A node and its object in the JSON array. *)
Definition node_json (x : list Z * Z) (j : json_t) : Prop :=
  exists t, plain t = true /\ strchr ":" t = negb (is_packed4 x.1) /\
    inet_pton (packed_family x.1) t = (1, x.1) /\ json_pack (state_fields t (u16 x.2)) = Some j.
Lemma nodes_json E nodes l js s :
  sane E -> Forall2 same_node nodes l ->
  exists js' s', nodes_status_json E l js s = (js ++ js', s') /\ Forall2 node_json nodes js' /\
    nd_leader s' = nd_leader s /\ cluster_config_version s' = cluster_config_version s /\
    requests s' = requests s.
Proof.
intros Hs H. revert js s. induction H as [|x a nodes l (Hst & t & Ht & Hpl & Hc & Hp) H IH]; intros js s.
- exists [], s. by rewrite app_nil_r.
- cbn [nodes_status_json]. unfold ip_text. rewrite Ht, js_pack_sane, Hst by done. cbn [default].
  destruct (plain_pack (state_fields t (u16 x.2))) as [j Hj]; [cbn; by rewrite Hpl|].
  unfold state_fields in Hj. unfold id. rewrite Hj.
  destruct (IH (js ++ [j]) (nd_tick (nd_tick s))) as (js' & s' & -> & Hjs & Hle & Hve & Hre).
  exists (j :: js'), s'. rewrite <- app_assoc. split_and!; try done. constructor; [|done]. by exists t.
Qed.

Lemma status_node_json x j :
  packed_ip x.1 -> node_json x j ->
  status_node j =
    if is_packed4 x.1 then Some (mk_ip_addr AF_INET 0 0 (u16 x.2) (x.1 ++ replicate 12 0)) else None.
Proof.
intros Hb (t & Hpl & Hc & Hp & Hj). unfold status_node. rewrite (json_pack_object _ _ Hj).
rewrite (pack_str _ _ "ip_address" t Hj), (pack_int _ _ "status" (u16 x.2) Hj);
  try (unfold state_fields; keys); [|pose proof (u16_in x.2); unfold in16, in64 in *; lia].
cbn [mbind option_bind]. unfold inet_pton_into, text_family. rewrite Hc. unfold packed_family in Hp.
destruct Hb as [Hl _]. destruct (is_packed4 x.1) eqn:H4; cbn [negb].
- rewrite Hp. change (1 =? 1) with true. cbn iota. f_equal. f_equal.
  + rewrite (u32_small (u16 x.2)), u16_small; [done | apply u16_in |].
    pose proof (u16_in x.2). unfold in16, in32 in *. lia.
  + unfold is_packed4 in H4. apply Nat.eqb_eq in H4. rewrite H4. done.
- rewrite inet_colon by done. done.
Qed.
Lemma status_nodes_json nodes js :
  Forall (fun x => packed_ip x.1) nodes -> Forall2 node_json nodes js ->
  if forallb (fun x => is_packed4 x.1) nodes
  then status_nodes js =
         (fun x => mk_ip_addr AF_INET 0 0 (u16 x.2) (x.1 ++ replicate 12 0)) <$> nodes
  else length (status_nodes js) <> length js.
Proof.
intros Hb H. induction H as [|x j nodes js Hx H IH]; [done|]. inversion Hb as [|? ? Hxb Hbs]; subst.
specialize (IH Hbs). cbn [forallb status_nodes]. rewrite (status_node_json x j) by done.
destruct (is_packed4 x.1); cbn [andb]; [|done]. destruct (forallb _ nodes).
- by rewrite IH.
- cbn [length]. lia.
Qed.

Lemma node_list_sane E last l s :
  sane E -> exists s', node_list E last l s = (Some ((fun a => V_tuple (ip_args a ++ [V_int (last a)])) <$> l), s') /\
    calls s' = calls s /\ replies s' = replies s.
Proof.
intros [_ Hb _]. unfold node_list, nd_build. rewrite Hb.
assert (forall s, exists s', node_tuples E last l s =
  (Some ((fun a => V_tuple (ip_args a ++ [V_int (last a)])) <$> l), s') /\ calls s' = calls s /\ replies s' = replies s) as H.
{ induction l as [|a l IH]; intros s1; cbn [node_tuples]; [by eexists|]. unfold nd_build. rewrite Hb. cbn [negb].
  destruct (IH (nd_tick s1)) as (s2 & -> & Hc & Hr). eexists. split; [done|]. by rewrite Hc, Hr. }
apply (H (nd_tick s)).
Qed.
Lemma from_leader_told E a v l s :
  sane E -> py_fits E ->
  exists s', dps_cluster_nodes_status_from_leader E a v l s = Done s' /\
    calls s' = calls s ++ [(Nodes_Status, ip_args a ++ [V_int v;
      V_list ((fun b => V_tuple (ip_args b ++ [V_int (ia_port_http b)])) <$> l)])] /\
    replies s' = replies s.
Proof.
intros Hs Hf. unfold dps_cluster_nodes_status_from_leader.
destruct (node_list_sane E ia_port_http l (gil_ensure s) Hs) as (s1 & -> & Hc & Hr).
match goal with |- context [nd_call E Nodes_Status ?args s1] =>
  destruct (nd_call_told E Nodes_Status args s1 (sane_builds _ Hs _) Hf) as (s2 & -> & Hc2 & Hr2 & _) end.
cbn [obind]. eexists. split; [done|]. change (calls (gil_release s2)) with (calls s2).
change (replies (gil_release s2)) with (replies s2). by rewrite Hc2, Hr2, Hc, Hr.
Qed.

Lemma status_array_told E a v js nodes s :
  sane E -> py_fits E -> Forall (fun x => packed_ip x.1) nodes -> Forall2 node_json nodes js ->
  exists s', dps_req_handler_process_node_status_array E a v js s = Done s' /\ replies s' = replies s /\
    calls s' = calls s ++
      (if forallb (fun x => is_packed4 x.1) nodes
       then [(Nodes_Status, ip_args a ++ [V_int v;
               V_list ((fun x => V_tuple [V_int AF_INET; V_str (x.1 ++ replicate 12 0); V_int (u16 x.2)]) <$> nodes)])]
       else []).
Proof.
intros Hs Hf Hb Hj. unfold dps_req_handler_process_node_status_array.
assert (exists s1, (if Z.of_nat (length js) >? MAX_NODES_ON_STACK then nd_alloc E s else (true, s)) = (true, s1) /\
  calls s1 = calls s /\ replies s1 = replies s) as (s1 & -> & Hc & Hr).
{ unfold nd_alloc. rewrite (sane_allocs _ Hs). destruct (_ >? _); by eexists. }
cbn [negb]. pose proof (status_nodes_json nodes js Hb Hj) as Hn. destruct (forallb _ nodes) eqn:Hall.
- rewrite Hn, decide_True by (rewrite length_fmap; by apply Forall2_length in Hj).
  destruct (from_leader_told E a v ((fun x => mk_ip_addr AF_INET 0 0 (u16 x.2) (x.1 ++ replicate 12 0)) <$> nodes) s1 Hs Hf)
    as (s2 & -> & Hc2 & Hr2). exists s2. rewrite Hc2, Hr2, Hc, Hr. split_and!; [done | done |].
  rewrite <- list_fmap_compose, (Forall_fmap_ext_1 _ (fun x => V_tuple [V_int AF_INET; V_str (x.1 ++ replicate 12 0); V_int (u16 x.2)]));
    [done|].
  apply Forall_forall. intros x Hx. rewrite forallb_forall in Hall. specialize (Hall x Hx).
  unfold is_packed4 in Hall. apply Nat.eqb_eq in Hall. unfold compose, ip_args. cbn [ia_family ia_ip ia_port_http].
  rewrite take_ge by (rewrite length_app, length_replicate; lia). done.
- rewrite decide_False by done. exists s1. by rewrite app_nil_r.
Qed.

(** C11. A list of nodes that Python has sent is one request to the node it
    names.  When all have IPv4 addresses the Python of that node is told once,
    with the address of the sender, the version of the configuration of the
    sender whatever version it gave, and every node with its status, in order.
    With one IPv6 address among them it is told nothing; the answer is the
    same. *)
Theorem node_status_told Es args s version b pylist objects nodes :
  sane Es -> dps_heartbeat_send (nd_reporting s) = true ->
  plain (nd_uuid Es) = true -> plain (dps_cluster_leader_ip_string (nd_leader s)) = true ->
  nd_parse Es "Lz#O" args = [A_int version; A_str (Some b); A_obj pylist] -> packed_ip b ->
  nd_list Es pylist = Some objects -> Forall2 (node_object Es) nodes objects ->
  in64 (cluster_config_version s) ->
  exists host body s',
    dps_cluster_send_nodes_status_to Es args s = Done s' /\
    requests s' = requests s ++ [(HTTP_PUT, DPS_CLUSTER_NODE_STATUS_URI, host, Some body)] /\
    inet_pton (packed_family b) host = (1, b) /\
    forall Er r family u peer port,
      sane Er -> py_fits Er -> peer_of family u peer ->
      Z.of_nat (String.length body) <= LARGE_REST_BUFFER_SIZE - 1 ->
      exists r' v,
        dps_req_handler_node_status Er
          (mk_request HTTP_PUT DPS_CLUSTER_NODE_STATUS_URI (Some body) (Some (peer, port))) r = Done r' /\
        same_address family v u /\ replies r' = replies r ++ [HTTP_OK] /\
        calls r' = calls r ++
          (if forallb (fun x => is_packed4 x.1) nodes
           then [(Nodes_Status,
                  [V_int family; V_str v; V_int (cluster_config_version s);
                   V_list ((fun x => V_tuple [V_int AF_INET; V_str (x.1 ++ replicate 12 0); V_int (u16 x.2)])
                             <$> nodes)])]
           else []).
Proof.
intros Hs Hon Hu Hl Hp Hb Hli Hno Hver.
destruct (remote_node_packed Es b (nd_now s) Hs Hb) as (a & host & Ha & Hf & Ht & Hn).
destruct (status_elems_nodes Es (nd_now s) objects nodes [] Hs Hno) as (l & Hel & Hsame). cbn [app] in Hel.
destruct (nodes_json Es nodes l [] (nd_tick (nd_tick s)) Hs Hsame) as (js & s2 & Hjs & Hj & Hle & Hve & Hre).
set (l1 := [("Config_Version", J_int (cluster_config_version s2)); ("UUID", J_str (nd_uuid Es));
  ("Cluster_Leader", J_str (dps_cluster_leader_ip_string (nd_leader s2)))] : list (string * json_field json_t)).
destruct (plain_pack l1) as [j1 Hj1]. { cbn. rewrite Hle. change (nd_leader (nd_tick (nd_tick s))) with (nd_leader s). by rewrite Hu, Hl. }
set (l2 := [("dps_node", J_obj j1); ("nodes_status", J_obj (json_array_of js))] : list (string * json_field json_t)).
destruct (plain_pack l2) as [j2 Hj2]; [done|].
destruct (send_sane Es j2 DPS_CLUSTER_NODE_STATUS_URI HTTP_PUT a (nd_tick (nd_tick s2)) host Hs
  (json_pack_object _ _ Hj2) Ht) as (body & (s' & Hsend & Hreq) & Hbody).
exists host, body, s'. split_and!; [| | done |].
- unfold dps_cluster_send_nodes_status_to. rewrite Hp, Hli. cbn [str_bytes default]. unfold id. rewrite Ha. cbn [obind].
  unfold nd_alloc. rewrite (sane_allocs _ Hs). cbn [negb]. rewrite Hel. cbn [obind].
  unfold dps_rest_nodes_status_send_to. change (nd_reporting (nd_tick s)) with (nd_reporting s). rewrite Hon. cbn [negb].
  unfold nd_alloc. rewrite (sane_allocs _ Hs). cbn [negb]. rewrite Hjs. cbn [app].
  unfold dps_form_json_node_status_json. rewrite js_pack_sane by done. fold l1. rewrite Hj1.
  rewrite js_pack_sane by done. fold l2. rewrite Hj2. by rewrite <- Hsend.
- change (requests (nd_tick (nd_tick s2))) with (requests s2) in Hreq. by rewrite Hreq, Hre.
- intros Er r family u peer port Hr Hpy Hpeer Hsize.
  destruct (remote_node_peer Er HTTP_PUT DPS_CLUSTER_NODE_STATUS_URI (Some body) family u peer port r Hr Hpeer)
    as (ra & r1 & Hget & Hfam & Hsa & Hlen & Hc1 & Hr1).
  assert (Forall (fun x => packed_ip x.1) nodes) as Hpk by (clear -Hno; induction Hno as [|? ? ? ? []]; by constructor).
  destruct (status_array_told Er ra (cluster_config_version s) js nodes r1 Hr Hpy Hpk Hj) as (r2 & Hr2 & Hrep & Hcal).
  exists (send_reply HTTP_OK r2), (ia_ip ra). split.
  { unfold dps_req_handler_node_status. cbn [rq_cmd]. rewrite Hget. cbn iota. cbn [rq_body].
    destruct (_ && _) eqn:Hbig; [lia|]. rewrite Hbody by lia. change (1 =? 1) with true. cbn [mbind option_bind].
    rewrite (pack_obj l2 j2 "dps_node" j1) by first [done | unfold l2; keys]. cbn [mbind option_bind].
    rewrite (json_pack_object _ _ Hj1).
    rewrite (pack_int l1 j1 "Config_Version" (cluster_config_version s2)), (pack_str l1 j1 "UUID" (nd_uuid Es)),
      (pack_str l1 j1 "Cluster_Leader" (dps_cluster_leader_ip_string (nd_leader s2)));
      try done; try (unfold l1; keys); [|by rewrite Hve].
    rewrite (pack_obj l2 j2 "nodes_status" (json_array_of js)) by first [done | unfold l2; keys].
    cbn [mbind option_bind]. rewrite json_array_elements. cbn [mbind option_bind replied]. rewrite Hve.
    change (cluster_config_version (nd_tick (nd_tick s))) with (cluster_config_version s). by rewrite Hr2. }
  destruct (send_reply_seen HTTP_OK r2) as [-> ->]. rewrite Hcal, Hrep, Hc1, Hr1. split_and!; [done | done |].
  unfold ip_args. rewrite Hfam. by rewrite take_ge by lia.
Qed.

(** *** Statistics *)
Definition domain_counts : Type := Z * Z * Z * Z.
Definition bytes_of (t : string) : list Z := Z.of_N ∘ N_of_ascii <$> String.list_ascii_of_string t.

(** What Python knows of its domains: it names them and answers for each with
    its counts (updates, lookups, look-ups of policies, end points), or not.  The
    methods of [statistics.py] call no C function. *)
Record reports (E : node_env) (domains : list Z) (counts : Z -> option domain_counts) : Prop := {
  reports_quiet n f args :
    f ∈ [Domain_List_Get; Statistics_Load_Balancing_Get; Statistics_Load_Balancing_Update] ->
    (nd_answer E n f args).1 = [];
  reports_domains n :
    exists o, answers E n Domain_List_Get [] = Some o /\
      nd_parse E "z" o = [A_str (Some (bytes_of (joined "," (dec <$> domains))))];
  reports_counts n d :
    match counts d with
    | Some (u, l, p, e) =>
        exists o, answers E n Statistics_Load_Balancing_Get [V_int d] = Some o /\
          nd_parse E "IIIII" o = [A_int DPS_NO_ERR; A_int u; A_int l; A_int p; A_int e]
    | None =>
        answers E n Statistics_Load_Balancing_Get [V_int d] = None \/
        exists o code rest, answers E n Statistics_Load_Balancing_Get [V_int d] = Some o /\
          nd_parse E "IIIII" o = A_int code :: rest /\ i32 code <> DPS_NO_ERR
    end }.
Definition told_counts (c : option domain_counts) : list py_val :=
  match c with
  | Some (u, l, p, e) => [V_int (u32 e); V_int 0; V_int (u32 u); V_int (u32 l); V_int (u32 p)]
  | None => [V_int 0; V_int 0; V_int 0; V_int 0; V_int 0]
  end.
Definition told_ip (a : ip_addr_t) : ip_union :=
  if ia_family a =? AF_INET then take 4 (ia_ip a) ++ replicate 12 0 else ia_ip a.

Lemma u32_i32 z : u32 (i32 z) = u32 z.
Proof. unfold u32, i32. Z.div_mod_to_equations. lia. Qed.
Lemma i32_in64 z : in64 (i32 z).
Proof. unfold in64, i32. Z.div_mod_to_equations. lia. Qed.
Lemma string_of_bytes_of t : string_of_bytes (bytes_of t) = t.
Proof.
induction t as [|c t IH]; [done|]. unfold bytes_of in *. cbn. rewrite N2Z.id, ascii_N_embedding. by f_equal.
Qed.
Lemma c_string_digits t : strchr zero t = false -> c_string t = t.
Proof.
induction t as [|c t IH]; [done|]. cbn [strchr c_string]. destruct (ascii_dec zero c); [done|].
destruct (ascii_dec c zero); [congruence|].
intros H. by rewrite IH.
Qed.
Lemma strchr_app c t u : strchr c (t ++ u) = strchr c t || strchr c u.
Proof. induction t as [|d t IH]; [done|]. rewrite app_cons. cbn [strchr]. by destruct (ascii_dec c d). Qed.
Lemma digits_no_zero t : all_digits t = true -> strchr zero t = false.
Proof.
induction t as [|c t IH]; [done|]. cbn [all_digits strchr]. intros [Hc H]%andb_true_iff.
destruct (ascii_dec zero c) as [<-|]; [done | by apply IH].
Qed.
Lemma joined_no_zero l : Forall (fun n => 0 <= n) l -> strchr zero (joined "," (dec <$> l)) = false.
Proof.
induction 1 as [|n l Hn Hl IH]; [done|]. assert (strchr zero (dec n) = false) as Hd.
{ apply digits_no_zero. by apply all_digits_dec_from. }
destruct l as [|m l]; [done|]. cbn [fmap list_fmap joined]. rewrite strchr_app, Hd. cbn [orb]. exact IH.
Qed.

Lemma quiet_call E domains counts f args s :
  sane E -> reports E domains counts ->
  f ∈ [Domain_List_Get; Statistics_Load_Balancing_Get; Statistics_Load_Balancing_Update] ->
  nd_call E f args s =
    Done (answers E (S (nd_now s)) f args, nd_emit (Nd_called f args) (nd_tick (nd_tick s))).
Proof.
intros [_ Hb _] Hr Hf. pose proof (reports_quiet _ _ _ Hr (S (nd_now s)) f args Hf) as Hq.
unfold nd_call, nd_build, answers. rewrite Hb. cbn [negb]. change (nd_now (nd_tick s)) with (S (nd_now s)).
destruct (nd_answer E (S (nd_now s)) f args) as [l o]. cbn in Hq. by subst l.
Qed.

Definition stat_fields (d interval : Z) (c : option domain_counts) : list (string * json_field json_t) :=
  let '(u, l, p, e) := default (0, 0, 0, 0) c in
  [("id", J_int (i32 d)); ("sample_interval", J_int interval);
   ("endpoint_update_count", J_int (i32 (u32 u))); ("endpoint_lookup_count", J_int (i32 (u32 l)));
   ("policy_lookup_count", J_int (i32 (u32 p))); ("endpoints_count", J_int (i32 (u32 e)))].
Definition stat_json (counts : Z -> option domain_counts) (d : Z) (j : json_t) : Prop :=
  exists interval, json_pack (stat_fields d interval (counts d)) = Some j.
(** What the rest of a turn relies on. *)
Definition unchanged (s s' : node) : Prop :=
  requests s' = requests s /\ nd_leader s' = nd_leader s.
Lemma load_balancing_counts E domains counts d s :
  sane E -> reports E domains counts -> in32 d ->
  exists code lb s' interval,
    dps_statistics_domain_load_balancing_get E (mk_load_balancing d 0 0 0 0 0) s = Done (code, lb, s') /\
    lb = (let '(u, l, p, e) := default (0, 0, 0, 0) (counts d) in
          mk_load_balancing d interval (u32 u) (u32 l) (u32 p) (u32 e)) /\ unchanged s s'.
Proof.
intros Hs Hr Hd. unfold dps_statistics_domain_load_balancing_get. cbn [lb_domain_id].
rewrite (quiet_call E domains counts) by (done || set_solver). cbn [obind].
pose proof (reports_counts _ _ _ Hr (S (nd_now (gil_ensure s))) d) as Hc.
assert (forall s1 f args, s1 = gil_release (nd_emit (Nd_called f args) (nd_tick (nd_tick (gil_ensure s)))) ->
  unchanged s s1) as Hun.
{ intros s1 f args ->. split; [|done]. unfold requests. cbn. rewrite omap_app. by rewrite app_nil_r. }
destruct (counts d) as [[[[u l] p] e]|].
- destruct Hc as (o & -> & ->). cbn. eexists _, _, _, _. split_and!; [done | done | by eapply Hun].
- destruct Hc as [-> | (o & code & rest & -> & -> & Hne)].
  + eexists _, _, _, _. split_and!; [done | done | by eapply Hun].
  + unfold ret_code_of. cbn zeta. apply Z.eqb_neq in Hne. rewrite Hne.
    eexists _, _, _, _. split_and!; [done | done | by eapply Hun].
Qed.
Lemma collect_counts E domains counts ds js s :
  sane E -> reports E domains counts -> Forall in32 ds ->
  exists js' s', collect E (dec <$> ds) js s = Done (Some (js ++ js'), s') /\
    Forall2 (stat_json counts) ds js' /\ unchanged s s'.
Proof.
intros Hs Hr H. revert js s. induction H as [|d ds Hd H IH]; intros js s; cbn [fmap list_fmap collect].
- exists [], s. by rewrite app_nil_r.
- rewrite atoi_dec by (unfold in32 in Hd; lia). unfold dps_statistics_update_per_domain, nd_tell.
  rewrite (quiet_call E domains counts) by (done || set_solver). cbn [obind]. rewrite u32_i32, u32_small by done.
  match goal with |- context [dps_statistics_domain_load_balancing_get E _ ?s1] => set (s1' := s1) end.
  assert (unchanged s s1') as [Hq1 Hl1].
  { split; [|done]. unfold s1', requests. cbn. rewrite omap_app. by rewrite app_nil_r. }
  destruct (load_balancing_counts E domains counts d s1' Hs Hr Hd) as (code & lb & s2 & iv & -> & -> & Hq2 & Hl2).
  cbn [obind]. unfold load_balancing_json. rewrite js_pack_sane by done.
  destruct (plain_pack (stat_fields d (i32 iv) (counts d))) as [j Hj]; [by unfold stat_fields; destruct (default _ _) as [[[] ?] ?]|].
  assert (json_pack (stat_fields d (i32 iv) (counts d)) = Some j) as Hj' by done.
  unfold stat_fields in Hj. destruct (default (0, 0, 0, 0) (counts d)) as [[[u l] p] e].
  cbn [lb_domain_id lb_sample_interval lb_endpoint_update_count lb_endpoint_lookup_count lb_policy_lookup_count lb_endpoints_count].
  rewrite Hj. destruct (IH (js ++ [j]) (nd_tick s2)) as (js' & s' & -> & Hjs & Hq & Hl).
  exists (j :: js'), s'. rewrite <- app_assoc. split_and!; [done | | ].
  + constructor; [by exists (i32 iv) | done].
  + split; [rewrite Hq; change (requests (nd_tick s2)) with (requests s2) | rewrite Hl; change (nd_leader (nd_tick s2)) with (nd_leader s2)]; congruence.
Qed.

Lemma node_stats_json counts d j :
  in32 d -> stat_json counts d j ->
  node_stats j =
    let '(u, l, p, e) := default (0, 0, 0, 0) (counts d) in Some (d, u32 e, u32 u, u32 l, u32 p).
Proof.
intros Hd [iv Hj]. unfold stat_fields in Hj. destruct (default (0, 0, 0, 0) (counts d)) as [[[u l] p] e].
unfold node_stats. set (fs := [_; _; _; _; _; _]) in Hj.
rewrite (pack_int fs j "id" (i32 d)), (pack_int fs j "endpoints_count" (i32 (u32 e))),
  (pack_int fs j "endpoint_update_count" (i32 (u32 u))), (pack_int fs j "endpoint_lookup_count" (i32 (u32 l))),
  (pack_int fs j "policy_lookup_count" (i32 (u32 p))) by first [done | apply i32_in64 | unfold fs; keys].
cbn [mbind option_bind]. rewrite !u32_i32, (u32_small d), !(u32_small (u32 _)) by (done || apply u32_in). done.
Qed.
Definition told_update (a : ip_addr_t) (counts : Z -> option domain_counts) (d : Z) : node_fun * list py_val :=
  (Node_Update_Domain_Statistics, ip_args a ++ V_int d :: told_counts (counts d)).
Lemma stats_array_told E a counts ds js s :
  sane E -> py_fits E -> Forall in32 ds -> Forall2 (stat_json counts) ds js ->
  exists s', dps_req_handler_process_node_stats_array E a js s = Done s' /\
    replies s' = replies s /\ calls s' = calls s ++ (told_update a counts <$> ds).
Proof.
intros Hs Hf Hd H. revert s. induction H as [|d j ds js Hj H IH]; intros s; cbn [dps_req_handler_process_node_stats_array].
- exists s. by rewrite app_nil_r.
- inversion Hd as [|? ? Hd1 Hds]; subst. rewrite (node_stats_json counts d) by done.
  assert (exists s1, (match (let '(u, l, p, e) := default (0, 0, 0, 0) (counts d) in Some (d, u32 e, u32 u, u32 l, u32 p)) with
    | None => Done s
    | Some (domain_id, endpoints, endpoint_update, endpoint_lookup, policy_lookup) =>
        dps_cluster_update_statistics E domain_id a endpoints 0 endpoint_update endpoint_lookup policy_lookup s
    end) = Done s1 /\ told Node_Update_Domain_Statistics (ip_args a ++ V_int d :: told_counts (counts d)) s s1) as (s1 & -> & Ht).
  { unfold told_counts. destruct (counts d) as [[[[u l] p] e]|]; cbn [default];
      unfold dps_cluster_update_statistics; apply nd_tell_told; try done; apply (sane_builds _ Hs). }
  cbn [obind]. destruct Ht as (Hc & Hr & _). destruct (IH Hds s1) as (s2 & -> & Hr2 & Hc2). exists s2.
  rewrite Hc2, Hr2, Hc, Hr, <- app_assoc. done.
Qed.

Definition node_fields (E : node_env) (t leader : string) : list (string * json_field json_t) :=
  [("family", J_int (ia_family (nd_local_ip E))); ("ip", J_str t); ("UUID", J_str (nd_uuid E));
   ("Cluster_Leader", J_str leader)].
Lemma text_of_ip a :
  ia_family a = AF_INET \/ ia_family a = AF_INET6 -> wf_ip (ia_ip a) ->
  exists t, inet_ntop (ia_family a) (ia_ip a) = Some t /\ plain t = true /\
    inet_pton_into (ia_family a) t zero_ip = (1, told_ip a).
Proof.
intros Hf Hw. unfold told_ip, inet_pton_into. destruct Hf as [-> | ->].
- destruct (inet_text4 _ Hw) as (t & Ht & Hpl & _ & Hp). exists t. rewrite Hp. split_and!; try done.
  f_equal. destruct Hw as [Hl _]. rewrite length_take, Hl. done.
- destruct (inet_text6 _ Hw) as (t & Ht & Hpl & _ & Hp). exists t. rewrite Hp. split_and!; try done.
  f_equal. destruct Hw as [Hl _]. rewrite drop_ge by (cbn; lia). by rewrite app_nil_r.
Qed.
Lemma reporting_node_json E t leader j :
  ia_family (nd_local_ip E) = AF_INET \/ ia_family (nd_local_ip E) = AF_INET6 ->
  inet_pton_into (ia_family (nd_local_ip E)) t zero_ip = (1, told_ip (nd_local_ip E)) ->
  json_pack (node_fields E t leader) = Some j ->
  reporting_node j = Some (mk_ip_addr (ia_family (nd_local_ip E)) 0 0 0 (told_ip (nd_local_ip E))) /\
  get_str j "UUID" = Some (nd_uuid E) /\ get_str j "Cluster_Leader" = Some leader.
Proof.
intros Hf Hp Hj. unfold reporting_node. assert (in16 (ia_family (nd_local_ip E))) as H16 by (by destruct Hf as [-> | ->]).
rewrite (pack_int _ j "family" (ia_family (nd_local_ip E)) Hj), (pack_str _ j "ip" t Hj),
  (pack_str _ j "UUID" (nd_uuid E) Hj), (pack_str _ j "Cluster_Leader" leader Hj);
  try (unfold node_fields; keys); [|unfold in16, in64 in *; lia].
cbn [mbind option_bind]. rewrite (u16_small _ H16), Hp. done.
Qed.

(** C10. A turn of the statistics sends one request to the leader; the Python of
    the node that takes it is told of every domain, in order, what the Python
    of the sender counted, under the address of the sender, or nothing but
    zeros for a domain it did not answer for; the sender is answered that all
    is well. *)
Theorem statistics_told Es s domains counts host :
  sane Es -> reports Es domains counts -> Forall in32 domains ->
  dps_statistics_send (nd_reporting s) = true -> nd_statistics_to_leader Es = true ->
  plain (nd_uuid Es) = true -> plain (dps_cluster_leader_ip_string (nd_leader s)) = true ->
  ia_family (nd_local_ip Es) = AF_INET \/ ia_family (nd_local_ip Es) = AF_INET6 ->
  wf_ip (ia_ip (nd_local_ip Es)) ->
  inet_ntop (ia_family (dps_cluster_leader (nd_leader s))) (ia_ip (dps_cluster_leader (nd_leader s)))
    = Some host ->
  exists body s',
    dps_statistics_process Es s = Done s' /\
    requests s' = requests s ++ [(HTTP_PUT, DPS_CLUSTER_STATISTICS_URI, host, Some body)] /\
    forall Er r peer,
      sane Er -> py_fits Er -> Z.of_nat (String.length body) <= LARGE_REST_BUFFER_SIZE - 1 ->
      exists r',
        dps_req_handler_node_statistics Er
          (mk_request HTTP_PUT DPS_CLUSTER_STATISTICS_URI (Some body) peer) r = Done r' /\
        replies r' = replies r ++ [HTTP_OK] /\
        calls r' = calls r ++
          ((fun d => (Node_Update_Domain_Statistics,
                      [V_int (ia_family (nd_local_ip Es)); V_str (told_ip (nd_local_ip Es)); V_int d]
                        ++ told_counts (counts d))) <$> domains).
Proof.
intros Hs Hr Hd Hon Hto Hu Hl Hf Hw Ht. destruct (text_of_ip _ Hf Hw) as (text & Htext & Hpl & Hpt).
unfold dps_statistics_process. rewrite Hon. cbn [negb]. rewrite (quiet_call Es domains counts) by (done || set_solver).
cbn [obind]. destruct (reports_domains _ _ _ Hr (S (nd_now (gil_ensure s)))) as (o & -> & ->). cbn zeta. rewrite Hto.
unfold nd_alloc. rewrite (sane_allocs _ Hs). cbn [negb].
assert (Forall (fun n => 0 <= n) domains) as Hpos by (eapply Forall_impl; [|exact Hd]; intros; unfold in32 in *; lia).
rewrite string_of_bytes_of, (c_string_digits (joined _ _)), tokens_decs by (done || by apply joined_no_zero).
match goal with |- context [collect Es _ [] ?s1] => set (s1' := s1) end.
assert (unchanged s s1') as [Hq1 Hl1].
{ split; [|done]. unfold s1', requests. cbn. rewrite omap_app. by rewrite app_nil_r. }
destruct (collect_counts Es domains counts domains [] s1' Hs Hr Hd) as (js & s2 & -> & Hjs & Hq2 & Hl2).
cbn [app obind]. set (leader := dps_cluster_leader_ip_string (nd_leader s)) in *.
destruct (plain_pack (node_fields Es text leader)) as [j1 Hj1]; [cbn; by rewrite Hpl, Hu, Hl|].
set (l2 := [("dps_node", J_obj j1); ("statistics", J_obj (json_array_of js))] : list (string * json_field json_t)).
destruct (plain_pack l2) as [j2 Hj2]; [done|].
assert (nd_leader s2 = nd_leader s) as Hle by congruence.
destruct (send_sane Es j2 DPS_CLUSTER_STATISTICS_URI HTTP_PUT (dps_cluster_leader (nd_leader s))
  (nd_tick (nd_tick (nd_tick s2))) host Hs (json_pack_object _ _ Hj2) Ht) as (body & (s' & Hsend & Hreq) & Hbody).
exists body, s'. split_and!.
- unfold dps_statistics_report_to_cluster_leader, dps_form_json_load_balancing_json, ip_text. rewrite Htext.
  cbn [default]. unfold id. rewrite js_pack_sane by done. cbn [nd_tick nd_leader]. rewrite Hle. fold leader. fold (node_fields Es text leader).
  rewrite Hj1, js_pack_sane by done. fold l2. rewrite Hj2. cbn [nd_tick nd_leader]. rewrite Hle. by rewrite <- Hsend.
- rewrite Hreq. change (requests (nd_tick (nd_tick (nd_tick s2)))) with (requests s2). by rewrite Hq2, Hq1.
- intros Er r peer Her Hpy Hsize.
  destruct (stats_array_told Er (mk_ip_addr (ia_family (nd_local_ip Es)) 0 0 0 (told_ip (nd_local_ip Es))) counts domains js r
    Her Hpy Hd Hjs) as (r1 & Hr1 & Hrep & Hcal).
  destruct (reporting_node_json Es text leader j1 Hf Hpt Hj1) as (Hrn & Huu & Hcl).
  exists (send_reply HTTP_OK r1). split.
  { unfold dps_req_handler_node_statistics. cbn [rq_cmd]. rewrite Hbody by lia. cbn [mbind option_bind].
    rewrite (pack_obj l2 j2 "dps_node" j1) by first [done | unfold l2; keys]. cbn [mbind option_bind].
    rewrite (json_pack_object _ _ Hj1), Hrn, Huu, Hcl. cbn [mbind option_bind].
    rewrite (pack_obj l2 j2 "statistics" (json_array_of js)) by first [done | unfold l2; keys].
    cbn [mbind option_bind]. rewrite json_array_elements. cbn [mbind option_bind replied]. by rewrite Hr1. }
  destruct (send_reply_seen HTTP_OK r1) as [-> ->]. rewrite Hrep, Hcal. split; [done|]. do 2 f_equal.
  unfold told_update, ip_args. cbn [ia_family ia_ip].
  assert (length (told_ip (nd_local_ip Es)) = 16%nat) as Hlen.
  { unfold told_ip. destruct Hw as [Hw _]. destruct (_ =? _); [rewrite length_app, length_take, length_replicate; lia | done]. }
  by rewrite take_ge by lia.
Qed.
End delivery.

(** ** The general statistics of a domain

    Two samples a second apart: a call that fails ends the loop before the lock
    is given back, and the status is still that of the first. *)

(** C38. When Python answers the first question for the statistics of a domain
    and not the second, the controller is answered that all is well with counts
    nobody set, and the thread keeps the lock of the interpreter for good. *)
Theorem general_statistics_kept (E : node_env) g s o rest :
  (forall n, nd_builds E n = true) ->
  nd_answer E (S (nd_now s)) Statistics_General_Statistics_Get [V_int (gs_domain_id g)] = ([], Some o) ->
  nd_parse E "IIIIII" o = A_int DPS_NO_ERR :: rest ->
  nd_answer E (S (S (S (nd_now s)))) Statistics_General_Statistics_Get [V_int (gs_domain_id g)] = ([], None) ->
  forall {J : json_lib} {I : inet_lib},
  exists g' s',
    dps_statistics_domain_general_statistics_get E g s = Done (DPS_NO_ERR, g', s') /\
    gs_counts g' = stale_counts E (S (nd_now s)) /\ nd_gil s' = nd_gil s + 1.
Proof.
intros Hb H1 Hp H2 J I. unfold dps_statistics_domain_general_statistics_get, general_sample, nd_call, nd_build.
change (nd_now (gil_ensure s)) with (nd_now s). rewrite Hb. cbn [negb nd_now nd_tick gil_ensure nd_hold].
rewrite H1. cbn [run_node_cfuns obind]. rewrite Hp. cbn [ret_code_of]. change (negb (i32 DPS_NO_ERR =? DPS_NO_ERR)) with false.
cbn [nd_now nd_tick gil_ensure gil_release nd_hold nd_emit]. rewrite Hb. cbn [negb]. rewrite H2.
cbn [run_node_cfuns obind]. eexists _, _. split_and!; [done | done |]. cbn. lia.
Qed.

(** ** A cluster of two *)

(** JSON values as trees: leaves are numbers and strings, nodes of label 1
    objects and of label 2 arrays; texts are those of their codes. *)
Definition smp_json_t : Type := gen_tree (Z + string).
Definition smp_field (f : json_field smp_json_t) : smp_json_t :=
  match f with J_int z => GenLeaf (inl z) | J_str t => GenLeaf (inr t) | J_obj j => j end.
Definition smp_member (x : string * json_field smp_json_t) : smp_json_t :=
  GenNode 0 [GenLeaf (inr x.1); smp_field x.2].
Fixpoint smp_find (l : list smp_json_t) (k : string) : option smp_json_t :=
  match l with
  | GenNode _ [GenLeaf (inr k'); v] :: l => if decide (k' = k) then Some v else smp_find l k
  | _ => None
  end.
Fixpoint smp_bits (p : positive) : string :=
  match p with
  | xH => EmptyString
  | xO p => String "0" (smp_bits p)
  | xI p => String "1" (smp_bits p)
  end.
Fixpoint smp_unbits (t : string) : positive :=
  match t with
  | EmptyString => xH
  | String c t => if ascii_dec c "0" then xO (smp_unbits t) else xI (smp_unbits t)
  end.
#[local] Instance smp_json : json_lib := {|
  json_t := smp_json_t;
  json_pack l := Some (GenNode 1 (smp_member <$> l));
  json_array_of l := GenNode 2 l;
  json_object_get j k := match j with GenNode 1 l => smp_find l k | _ => None end;
  json_is_object j := match j with GenNode 1 _ => true | _ => false end;
  json_elements j := match j with GenNode 2 l => Some l | _ => None end;
  json_integer j := match j with GenLeaf (inl z) => Some z | _ => None end;
  json_string j := match j with GenLeaf (inr t) => Some t | _ => None end;
  json_dumps j := Some (smp_bits (encode j));
  json_loads t := decode (smp_unbits t) |}.
Lemma smp_find_member l k f :
  NoDup l.*1 -> (k, f) ∈ l -> smp_find (smp_member <$> l) k = Some (smp_field f).
Proof.
induction l as [|[k' f'] l IH]; cbn [fmap list_fmap fst smp_find smp_member snd]; intros Hn Hi; [by inversion Hi|].
inversion Hn as [|? ? Hk Hnd]; subst.
assert ((k, f) = (k', f') \/ (k, f) ∈ l) as [[= <- <-]|Hl] by (by apply elem_of_cons); [by rewrite decide_True|].
destruct (decide (k' = k)) as [->|]; [|by apply IH]. destruct Hk. apply list_elem_of_fmap. by exists (k, f).
Qed.
Lemma smp_unbits_bits p : smp_unbits (smp_bits p) = p.
Proof. by induction p as [p IH|p IH|]; cbn; rewrite ?IH. Qed.
#[local] Instance smp_json_laws : json_laws smp_json.
Proof.
split; cbn; try done.
- by intros l j [= <-].
- intros l j k f [= <-] Hn Hi. exists (smp_field f). split; [by apply smp_find_member|]. by destruct f.
- intros j t [= <-]. by induction (encode j) as [p IH|p IH|]; [..|done]; cbn [smp_bits]; rewrite app_cons;
    cbn [c_string]; destruct (ascii_dec _ zero); [done | by rewrite IH | done | by rewrite IH].
- intros j t [= <-]. by rewrite smp_unbits_bits, decode_encode.
Qed.

(** IPv4 addresses as four decimals between dots; of IPv6 addresses all sixteen
    bytes between colons. *)
Definition smp_bytes (sep : ascii) (n : nat) (t : string) : option (list Z) :=
  let l := tokens sep t in
  if decide (length l = n /\ Forall (fun t => all_digits t = true) l)
  then Some ((fun t => (digits 0 t).1) <$> l) else None.
#[local] Instance smp_inet : inet_lib := {|
  inet_ntop family u :=
    if family =? AF_INET then Some (joined "." (dec <$> take 4 u))
    else if family =? AF_INET6 then Some (joined ":" (dec <$> u)) else None;
  inet_pton family t :=
    let r := if family =? AF_INET then if strchr ":" t then None else smp_bytes "." 4 t
             else smp_bytes ":" 16 t in
    match r with Some b => (1, b) | None => (0, []) end |}.
Lemma strchr_joined c sep l :
  Forall (fun t => strchr c t = false) l -> c <> sep -> strchr c (joined sep l) = false.
Proof.
intros H Hc. induction H as [|t l Ht H IH]; [done|]. destruct l as [|u l]; [done|].
change (joined sep (t :: u :: l)) with (t ++ String sep (joined sep (u :: l)))%string.
rewrite strchr_app, Ht. cbn [orb strchr]. by destruct (ascii_dec c sep).
Qed.
Lemma strchr_digits c t : digit c = None -> all_digits t = true -> strchr c t = false.
Proof.
intros Hc. induction t as [|d t IH]; [done|]. cbn [all_digits strchr]. intros [Hd H]%andb_true_iff.
apply bool_decide_eq_true in Hd as [z Hz]. destruct (ascii_dec c d); [congruence | by apply IH].
Qed.
Lemma dec_all_digits n : in8 n -> all_digits (dec n) = true.
Proof. intros H. apply all_digits_dec_from; [unfold in8 in H; lia | done]. Qed.
Lemma plain_app t u : plain (t ++ u) = plain t && plain u.
Proof. induction t as [|c t IH]; [done|]. rewrite app_cons. cbn [plain]. by rewrite IH, andb_assoc. Qed.
Lemma plain_digits t : all_digits t = true -> plain t = true.
Proof.
induction t as [|c t IH]; [done|]. cbn [all_digits plain]. intros [Hc H]%andb_true_iff. rewrite (IH H), andb_true_r.
apply bool_decide_eq_true in Hc.
pose proof (all_ascii (fun c => negb (bool_decide (is_Some (digit c))) ||
  ((0 <? N_of_ascii c) && (N_of_ascii c <? 128))%N) eq_refl c) as Hall.
cbn beta in Hall. by rewrite (bool_decide_true _ Hc) in Hall.
Qed.
Lemma plain_joined sep l :
  plain (string_char sep) = true -> Forall (fun t => plain t = true) l -> plain (joined sep l) = true.
Proof.
intros Hs H. induction H as [|t l Ht H IH]; [done|]. destruct l as [|u l]; [done|].
change (joined sep (t :: u :: l)) with (t ++ (string_char sep ++ joined sep (u :: l)))%string.
by rewrite !plain_app, Ht, Hs, IH.
Qed.
Lemma smp_bytes_joined sep b :
  digit sep = None -> Forall in8 b -> smp_bytes sep (length b) (joined sep (dec <$> b)) = Some b.
Proof.
intros Hs H. unfold smp_bytes. rewrite tokens_joined.
- rewrite decide_True.
  + f_equal. rewrite <- list_fmap_compose. rewrite <- (list_fmap_id b) at 2. apply Forall_fmap_ext_1.
    eapply Forall_impl; [|exact H]. intros n Hn. unfold compose, dec. rewrite digits_dec_from; [done|].
    unfold in8 in Hn. lia.
  + split; [by rewrite length_fmap|]. apply Forall_fmap. eapply Forall_impl; [|exact H]. apply dec_all_digits.
- apply Forall_fmap. eapply Forall_impl; [|exact H]. intros n Hn. split; [apply dec_not_empty|].
  apply strchr_digits; [done | by apply dec_all_digits].
Qed.
#[local] Instance smp_inet_laws : inet_laws smp_inet.
Proof.
assert (forall u, Forall in8 u -> Forall (fun t => plain t = true) (dec <$> u)) as Hp.
{ intros u H. apply Forall_fmap. eapply Forall_impl; [|exact H]. intros n Hn. by apply plain_digits, dec_all_digits. }
split.
- intros u [Hl Hu]. assert (Forall in8 (take 4 u)) as H4 by by apply Forall_take.
  assert (strchr ":" (joined "." (dec <$> take 4 u)) = false) as Hc.
  { apply strchr_joined; [|done]. apply Forall_fmap. eapply Forall_impl; [|exact H4]. intros n Hn.
    by apply strchr_digits, dec_all_digits. }
  eexists. split_and!; [done | by apply plain_joined, Hp | done |]. cbn [inet_pton smp_inet].
  change (AF_INET =? AF_INET) with true. cbn iota. rewrite Hc.
  replace 4%nat with (length (take 4 u)) at 1 by (rewrite length_take; lia). by rewrite smp_bytes_joined.
- intros u [Hl Hu]. eexists. split_and!; [done | by apply plain_joined, Hp | |].
  + destruct u as [|b [|c u]]; [done..|]. cbn [fmap list_fmap].
    change (joined ":" (dec b :: dec c :: (dec <$> u)))
      with (dec b ++ String ":" (joined ":" (dec c :: (dec <$> u))))%string.
    rewrite strchr_app. cbn [strchr]. by rewrite orb_true_r.
  + cbn [inet_pton smp_inet]. change (AF_INET6 =? AF_INET) with false. cbn iota.
    replace 16%nat with (length u). by rewrite smp_bytes_joined.
- intros t Ht. cbn. by rewrite Ht.
Qed.

(** The node 10.0.0.1 with the domains 1 and 7: Python answers for 7 only, and
    only the first question for its general statistics. *)
Definition smp_parse (fmt : string) (o : Z) : list (py_arg Z) :=
  if o =? 0 then [A_int 1; A_int 42; A_str (Some [10; 0; 0; 2])]
  else if o =? 1 then [A_int 41; A_str (Some [10; 0; 0; 2]); A_obj 2]
  else if o =? 3 then [A_str (Some [10; 0; 0; 2]); A_int 1]
  else if o =? 4 then [A_str (Some [10; 0; 0; 3]); A_int 0]
  else if o =? 5 then
    if decide (fmt = "z") then [A_str (Some (bytes_of (joined "," (dec <$> [1; 7]))))] else []
  else if o =? 6 then [A_int DPS_NO_ERR; A_int 5; A_int 6; A_int 4294967295; A_int 8]
  else if o =? 8 then [A_int 41; A_str (Some [10; 0; 0; 2]); A_obj 9]
  else if o =? 10 then [A_str (Some (replicate 16 254)); A_int 1]
  else [].
Definition smp_answer (n : nat) (f : node_fun) (args : list py_val) : list (node_cfun * Z) * option Z :=
  match f, args with
  | Domain_List_Get, _ => ([], Some 5)
  | Statistics_Load_Balancing_Get, [V_int 7] => ([], Some 6)
  | Statistics_Load_Balancing_Get, _ => ([], None)
  | Statistics_General_Statistics_Get, _ => ([], if decide (n < 2)%nat then Some 6 else None)
  | Node_Heartbeat, _ => ([(C_send_nodes_status_to, 1)], Some 7)
  | _, _ => ([], Some 7)
  end.
Definition smp_ip : ip_union := [10; 0; 0; 1] ++ replicate 12 0.
Definition smp_node : node_env := {|
  nd_object := Z;
  nd_parse := smp_parse;
  nd_list o := if o =? 2 then Some [3; 4] else if o =? 9 then Some [3; 10] else None;
  nd_answer := smp_answer;
  nd_builds _ := true;
  nd_allocs _ := true;
  nd_stale_word _ _ := 3735928559;
  nd_stale_addr _ _ := mk_ip_addr 0 0 0 0 smp_ip;
  nd_stale_text _ := "";
  nd_uuid := "u";
  nd_local_ip := mk_ip_addr AF_INET 0 0 0 smp_ip;
  nd_role_assigned := 1;
  nd_statistics_to_leader := true;
  nd_controller_set := true |}.
Definition smp_start : node :=
  mk_node (mk_reporting 30 true 15 true)
    (mk_leader_info 0 (mk_ip_addr AF_INET 0 0 0 ([10; 0; 0; 2] ++ replicate 12 0)) "l") 42 0 0 0 0 0 [].
Lemma smp_sane : sane smp_node.
Proof. split; [done..|]. intros n i. split; [done|]. cbn. by repeat constructor. Qed.
Lemma smp_fits : py_fits smp_node.
Proof.
intros fmt o b Hz Hi. cbn in Hi. unfold smp_parse in Hi. rewrite (decide_False (P := fmt = "z")) in Hi by done.
repeat case_match; repeat (apply elem_of_cons in Hi as [Hi|Hi]; [try discriminate Hi; injection Hi as ->; cbn; lia|]).
all: by inversion Hi.
Qed.
Lemma smp_packed : packed_ip [10; 0; 0; 2].
Proof. split; [by left|]. by repeat constructor. Qed.
Lemma smp_peer : peer_of AF_INET smp_ip "10.0.0.1".
Proof. split_and!; [by left | | done]. split; [done|]. by repeat constructor. Qed.

Lemma heartbeat_told_witness :
  exists host body s',
    dps_cluster_send_heartbeat_to smp_node 0 smp_start = Done s' /\
    requests s' = [(HTTP_PUT, DPS_CLUSTER_HEARTBEAT_URI, host, Some body)] /\
    exists r' v,
      dps_req_handler_node_heartbeat smp_node
        (mk_request HTTP_PUT DPS_CLUSTER_HEARTBEAT_URI (Some body) (Some ("10.0.0.1"%string, 5000))) smp_start = Done r' /\
      same_address AF_INET v smp_ip /\
      calls r' = [(Node_Heartbeat, [V_int AF_INET; V_str v; V_int 42; V_int 1])] /\ replies r' = [HTTP_OK].
Proof.
destruct (heartbeat_told smp_node 0 smp_start 1 42 [10; 0; 0; 2] smp_sane eq_refl eq_refl eq_refl eq_refl
  ltac:(lia) ltac:(unfold in64; lia) smp_packed) as (host & body & s' & Hs & Hr & _ & Hd).
exists host, body, s'. split; [exact Hs|]. split; [exact Hr|].
apply (Hd smp_node smp_start AF_INET smp_ip "10.0.0.1"%string 5000 smp_sane smp_fits smp_peer).
vm_compute in Hs. injection Hs as <-. vm_compute in Hr. injection Hr as _ <-. by vm_compute.
Defined.
Lemma general_statistics_kept_witness :
  exists g' s',
    dps_statistics_domain_general_statistics_get smp_node
      (mk_general_statistics 7 (mk_general_counts 0 0 0 0 0) 0 0 0) smp_start = Done (DPS_NO_ERR, g', s') /\
    gs_counts g' = stale_counts smp_node 1 /\ nd_gil s' = 1.
Proof. exact (general_statistics_kept smp_node (mk_general_statistics 7 (mk_general_counts 0 0 0 0 0) 0 0 0) smp_start 6 _ (fun _ => eq_refl) eq_refl eq_refl eq_refl). Defined.
Lemma lock_balanced_witness :
  exists s', run_node_op smp_node (Op_statistics smp_node ETIMEDOUT) smp_start = Done s' /\ nd_gil s' = 0.
Proof.
destruct (run_node_op smp_node (Op_statistics smp_node ETIMEDOUT) smp_start) as [s'| |] eqn:H;
  [|vm_compute in H; discriminate H..].
exists s'. split; [reflexivity|]. exact (lock_balanced smp_node _ _ _ H).
Defined.

Lemma smp_node_objects : Forall2 (node_object smp_node) [([10; 0; 0; 2], 1); ([10; 0; 0; 3], 0)] [3; 4].
Proof. repeat (constructor; [split; [split; [by left | by repeat constructor] | done]|]). constructor. Qed.
Lemma node_status_told_witness :
  exists host body s',
    dps_cluster_send_nodes_status_to smp_node 1 smp_start = Done s' /\
    requests s' = [(HTTP_PUT, DPS_CLUSTER_NODE_STATUS_URI, host, Some body)] /\
    exists r' v,
      dps_req_handler_node_status smp_node
        (mk_request HTTP_PUT DPS_CLUSTER_NODE_STATUS_URI (Some body) (Some ("10.0.0.1"%string, 5000))) smp_start
        = Done r' /\
      same_address AF_INET v smp_ip /\ replies r' = [HTTP_OK] /\
      calls r' = [(Nodes_Status,
        [V_int AF_INET; V_str v; V_int 42;
         V_list [V_tuple [V_int AF_INET; V_str ([10; 0; 0; 2] ++ replicate 12 0); V_int 1];
                 V_tuple [V_int AF_INET; V_str ([10; 0; 0; 3] ++ replicate 12 0); V_int 0]]])].
Proof.
destruct (node_status_told smp_node 1 smp_start 41 [10; 0; 0; 2] 2 [3; 4] [([10; 0; 0; 2], 1); ([10; 0; 0; 3], 0)]
  smp_sane eq_refl eq_refl eq_refl eq_refl smp_packed eq_refl smp_node_objects ltac:(vm_compute; split; discriminate || reflexivity))
  as (host & body & s' & Hs & Hr & _ & Hd).
exists host, body, s'. split; [exact Hs|]. split; [exact Hr|].
apply (Hd smp_node smp_start AF_INET smp_ip "10.0.0.1"%string 5000 smp_sane smp_fits smp_peer).
vm_compute in Hs. injection Hs as <-. vm_compute in Hr. injection Hr as _ <-. by vm_compute.
Defined.

Definition smp_counts (d : Z) : option domain_counts :=
  if d =? 7 then Some (5, 6, 4294967295, 8) else None.
Lemma smp_reports : reports smp_node [1; 7] smp_counts.
Proof.
split.
- intros n f args Hf. repeat (apply elem_of_cons in Hf as [->|Hf]; [cbn; by repeat case_match|]). by inversion Hf.
- intros n. by exists 5.
- intros n d. unfold smp_counts. destruct (d =? 7) eqn:Hd.
  + apply Z.eqb_eq in Hd as ->. by exists 6.
  + left. unfold answers. cbn. destruct d as [|p|p]; [done| |done]. repeat (destruct p as [p|p|]; try done).
Qed.
Lemma statistics_told_witness :
  exists body s',
    dps_statistics_process smp_node smp_start = Done s' /\
    requests s' = [(HTTP_PUT, DPS_CLUSTER_STATISTICS_URI, "10.0.0.2"%string, Some body)] /\
    exists r',
      dps_req_handler_node_statistics smp_node
        (mk_request HTTP_PUT DPS_CLUSTER_STATISTICS_URI (Some body) None) smp_start = Done r' /\
      replies r' = [HTTP_OK] /\
      calls r' = [(Node_Update_Domain_Statistics,
                   [V_int AF_INET; V_str smp_ip; V_int 1; V_int 0; V_int 0; V_int 0; V_int 0; V_int 0]);
                  (Node_Update_Domain_Statistics,
                   [V_int AF_INET; V_str smp_ip; V_int 7; V_int 8; V_int 0; V_int 5; V_int 6; V_int 4294967295])].
Proof.
destruct (statistics_told smp_node smp_start [1; 7] smp_counts "10.0.0.2" smp_sane smp_reports
  ltac:(by repeat constructor) eq_refl eq_refl eq_refl eq_refl (or_introl eq_refl)
  ltac:(split; [done | by repeat constructor]) eq_refl) as (body & s' & Hs & Hr & Hd).
exists body, s'. split; [exact Hs|]. split; [exact Hr|].
apply (Hd smp_node smp_start None smp_sane smp_fits).
vm_compute in Hs. injection Hs as <-. vm_compute in Hr. injection Hr as <-. by vm_compute.
Defined.
