(* ===== verification/GwAnswer.v ===== *)
(** * What the answers of the server come to

    The theorems about [GwReply]: policies are enforced, one gateway becomes the
    master of a network, contexts are used and given back once, receivers are
    passed on, and what the gateway sends in between is sent. *)
From S2P Require Export GwSound GwReply.
From stdpp Require Import gmap strings sorting.
#[local] Open Scope Z_scope.

(** ** The sort *)
Section sort.
Context {A : Type} (key_of : A -> Z).
Definition at_least (x y : A) : Prop := key_of y <= key_of x.

Lemma bubble_spec n l : (n < length l)%nat ->
  exists a m, bubble key_of n l = a ++ m :: drop (S n) l /\ a ++ [m] ≡ₚ take (S n) l /\
    Forall (fun x => at_least x m) (take (S n) l).
Proof.
  revert l. induction n as [|n IH]; intros [|x l] Hl; cbn in Hl; try lia.
  - exists [], x. split; [done|]. split; [done|]. repeat constructor. unfold at_least. lia.
  - destruct l as [|y l]; cbn in Hl; [lia|]. cbn [bubble].
    destruct (key_of x <? key_of y) eqn:Hxy.
    + apply Z.ltb_lt in Hxy. destruct (IH (x :: l)) as (a & m & -> & Hp & Hm); [cbn; lia|].
      exists (y :: a), m. split; [done|]. cbn [take] in *. split.
      * cbn. rewrite Hp. apply Permutation_swap.
      * apply Forall_cons in Hm as [? Hm]. unfold at_least in *. repeat constructor; [done|lia|done].
    + apply Z.ltb_ge in Hxy. destruct (IH (y :: l)) as (a & m & -> & Hp & Hm); [cbn; lia|].
      exists (x :: a), m. split; [done|]. cbn [take] in *. split.
      * cbn. by rewrite Hp.
      * apply Forall_cons in Hm as [? Hm]. unfold at_least in *. repeat constructor; [lia|done..].
Qed.

Lemma passes_spec l k : (k <= length l - 1)%nat ->
  exists a b, fold_left (fun l i => bubble key_of (length l - 1 - i) l) (seq 0 k) l = a ++ b /\
    length b = k /\ a ++ b ≡ₚ l /\ StronglySorted at_least b /\
    Forall (fun x => Forall (at_least x) b) a.
Proof.
  induction k as [|k IH]; intros Hk.
  - exists l, []. cbn. rewrite app_nil_r. split_and!; try done; [constructor|]. by apply Forall_true.
  - destruct IH as (a & b & Ef & Hb & Hp & Hs & Hab); [lia|].
    rewrite seq_S, fold_left_app, Ef. cbn. assert (length a + k = length l)%nat as Hl
      by (rewrite <- Hp, length_app; lia).
    replace (length (a ++ b) - 1 - k)%nat with (length a - 1)%nat by (rewrite length_app; lia).
    destruct (bubble_spec (length a - 1) (a ++ b)) as (a' & m & -> & Hp' & Hm); [rewrite length_app; lia|].
    replace (S (length a - 1)) with (length a) in * by lia.
    rewrite take_app_length in *. rewrite drop_app_length.
    exists a', (m :: b). split; [done|]. split; [cbn; lia|].
    assert (Forall (fun x => at_least x m /\ Forall (at_least x) b) (a' ++ [m])) as Ha.
    { rewrite Hp'. apply Forall_and. done. }
    apply list.Forall_app in Ha as [Ha Hmb]. apply list.Forall_singleton in Hmb as [_ Hmb]. split_and!.
    + rewrite <- Hp, <- Hp', <- app_assoc. done.
    + by constructor.
    + eapply Forall_impl; [done|]. intros x [? ?]. by constructor.
Qed.

Lemma sort_descending_spec l :
  sort_descending key_of l ≡ₚ l /\ StronglySorted at_least (sort_descending key_of l).
Proof.
  unfold sort_descending. destruct (passes_spec l (length l - 1)) as (a & b & -> & Hb & Hp & Hs & Hab); [done|].
  split; [done|]. assert (length a + length b = length l)%nat by by rewrite <- length_app, Hp.
  destruct a as [|x [|y a]]; cbn in *; [done| |lia].
  constructor; [done|]. by apply Forall_cons in Hab as [? _].
Qed.
Lemma sort_descending_first l x l' : sort_descending key_of l = x :: l' ->
  x ∈ l /\ Forall (at_least x) l.
Proof.
  destruct (sort_descending_spec l) as [Hp Hs]. intros E. rewrite E in *. split.
  - rewrite <- Hp. left.
  - rewrite <- Hp. apply StronglySorted_inv in Hs as [_ ?]. constructor; [unfold at_least; lia|done].
Qed.
End sort.

(** ** Contexts stay until they are given back *)

(** Every context that was live is. *)
Definition quiet (s s' : gwy) : Prop :=
  forall p, is_Some (ctx_at p (gw_out s)) -> is_Some (ctx_at p (gw_out s')).
Definition live (p : Z) (s : gwy) : Prop := p = 0 \/ is_Some (ctx_at p (gw_out s)).
#[export] Instance quiet_preorder : PreOrder quiet.
Proof. split; [by intros s p | intros s1 s2 s3 ? ? p ?; auto]. Qed.
Lemma quiet_live p s s' : quiet s s' -> live p s -> live p s'.
Proof. intros Hq [?|?]; [by left | right; auto]. Qed.
Create HintDb quiet.

Lemma give_back_live p s : live p s ->
  give_back p s = Done (if p =? 0 then s else emit (Ctx_freed p) s).
Proof.
  intros Hp. unfold give_back, context. destruct (p =? 0) eqn:Ep; [done|]. apply Z.eqb_neq in Ep.
  destruct Hp as [?|[c ->]]; [lia|done].
Qed.
Definition gone (p : Z) (s : gwy) : Prop := p <> 0 -> ctx_at p (gw_out s) = None.
Lemma finish_live p ok s : live p s -> exists s', finish p ok s = Done (ok, s') /\ gone p s'.
Proof.
  intros Hp. unfold finish. rewrite give_back_live by done. eexists. split; [reflexivity|].
  intros Hp0. apply Z.eqb_neq in Hp0. rewrite Hp0. cbn. by rewrite Z.eqb_refl.
Qed.
(** The result of a handler that gives the context back. *)
Definition ends (p : Z) (r : out (bool * gwy)) : Prop := exists ok s', r = Done (ok, s') /\ gone p s'.
Lemma finish_ends p ok s : live p s -> ends p (finish p ok s).
Proof. intros (s' & -> & ?)%(finish_live p ok). by exists ok, s'. Qed.

Lemma quiet_kernel s m : quiet s (emit (To_kernel m) s).
Proof. by intros p. Qed.
Lemma quiet_sent s q d c m : quiet s (sent q d (To_dps c m) s).
Proof. intros p ?. cbn. destruct c as [c|]; [|done]. destruct (_ =? _); [by eexists | done]. Qed.
Lemma quiet_ha s a b : quiet s (emit (To_ha_task a b) s).
Proof. by intros p. Qed.
Lemma quiet_table s n t : quiet s (set_table n t s).
Proof. by intros p. Qed.
#[export] Hint Resolve quiet_kernel quiet_sent quiet_ha quiet_table quiet_live : quiet.
#[export] Hint Extern 1 (quiet ?s ?s) => reflexivity : quiet.

Section quiet.
Context (E : gw_env) (H : host).
Implicit Types s : gwy.

Lemma quiet_tick s : quiet s (tick s).
Proof. by intros p. Qed.
Lemma quiet_nl m s : quiet s (nl_send E m s).2.
Proof. unfold nl_send. destruct (nl E _); by intros p. Qed.
Lemma quiet_look s : quiet s (look_again E s).
Proof. by intros p. Qed.
Lemma quiet_ctx_kept sh v h b s : quiet s (dps_send_ctx E false sh v h b s).
Proof.
  unfold dps_send_ctx, dps_send. cbv zeta iota. rewrite andb_false_r. cbn [andb].
  etrans; [apply quiet_tick|]. etrans; [apply quiet_tick|]. apply quiet_sent.
Qed.
Lemma quiet_join v ty s : quiet s (send_ext_mcast_recv_join E v ty s).
Proof.
  unfold send_ext_mcast_recv_join. destruct (dps_known s); [|done]. cbv zeta.
  destruct (if ty =? _ then _ else _); [|done]. destruct (if _ || _ then _ else _); [|done].
  apply quiet_ctx_kept.
Qed.
Lemma quiet_self ip s : quiet s (chk_self_ipv4 H ip s).2.
Proof. by intros p. Qed.
Lemma quiet_route ip s : quiet s (route_to H ip s).2.
Proof. by intros p. Qed.
Lemma quiet_location c i x s : quiet s (tell_location E H c i x s).
Proof.
  unfold tell_location. cbn. destruct (route_src _ _ _); [|by intros p].
  etrans; [apply quiet_tick|]. etrans; [apply quiet_tick|]. apply quiet_nl.
Qed.
Lemma quiet_locations b c i l s : quiet s (tell_locations E H b c i l s).
Proof.
  revert i s. induction l as [|x l IH]; intros i s; cbn; [done|].
  destruct (_ && _); [apply IH|]. etrans; [apply quiet_location | apply IH].
Qed.
Lemma quiet_members l s : quiet s (bcast_members H l s).2.
Proof.
  revert s. induction l as [|a l IH]; intros s; cbn; [done|]. destruct (a =? 0); [apply IH|].
  destruct (_ =? 0); [|etrans; [apply quiet_tick | apply IH]].
  pose proof (IH (tick (tick s))) as Hq. destruct (bcast_members H l (tick (tick s))). cbn in *.
  etrans; [apply quiet_tick|]. etrans; [apply quiet_tick|]. done.
Qed.
Lemma quiet_peer ip s : quiet s (dgwy_ctrl_set_peer_ipv4 H ip s).
Proof. unfold dgwy_ctrl_set_peer_ipv4. cbn. destruct (ha_queue _ _); by intros p. Qed.
Lemma quiet_peers vnid ts s :
  quiet s (fold_left (fun s x =>
         if negb (vnid =? te_vnid x) then s
         else
           let '(self, s) := chk_self_ipv4 H (ntohl (te_ip4 x)) s in
           if self =? 0 then dgwy_ctrl_set_peer_ipv4 H (ntohl (te_ip4 x)) s else s) ts s).
Proof.
  revert s. induction ts as [|x ts IH]; intros s; [done|]. cbn [fold_left].
  etrans; [|apply IH]. destruct (negb _); [done|]. cbn. destruct (_ =? 0); [|apply quiet_tick].
  etrans; [apply quiet_tick | apply quiet_peer].
Qed.
Lemma quiet_self_tunnel l self s : quiet s (self_tunnel H l self s).2.
Proof.
  revert self s. induction l as [|a l IH]; intros self s; cbn; [done|].
  etrans; [apply quiet_tick | apply IH].
Qed.
Lemma quiet_elect b vnid l s : quiet s (elect E b vnid l s).2.
Proof.
  revert s. induction l as [|x l IH]; intros s; cbn -[send_ext_mcast_recv_join nl_send]; [done|].
  destruct (_ =? vnid).
  - match goal with |- context [elect E b vnid l ?t] => assert (quiet s t) as Hq; [|pose proof (IH t) as Hi] end.
    { destruct b; [etrans; [|apply quiet_join]; destruct (_ =? 0); [apply quiet_nl|done]|].
      destruct (_ =? 1); [|done]. etrans; [apply quiet_nl | apply quiet_join]. }
    destruct (elect E b vnid l _). cbn in *. by etrans.
  - specialize (IH s). by destruct (elect E b vnid l s).
Qed.
End quiet.
#[export] Hint Resolve quiet_tick quiet_nl quiet_look quiet_join quiet_self quiet_route quiet_location
  quiet_locations quiet_members quiet_peer quiet_peers quiet_self_tunnel quiet_elect : quiet.

(** ** Arrays of an answer *)
Lemma first_of_counted {A} n (l : list A) : wf_counted n l -> first_of n l = Done (counted n l).
Proof. intros [? ?]. unfold first_of. by rewrite decide_True by lia. Qed.
Lemma locations_done r : wf_tunnels (elr_tunnel_info r) ->
  locations_of r = Done ((fun t => mk_ovl_tunnel (net_vnid (elr_vnid r)) (ntohl (te_ip4 t)))
                           <$> tunnels (elr_tunnel_info r)).
Proof. intros [Hc _]. unfold locations_of. by rewrite first_of_counted. Qed.

(** Does a rule let the network of the request reach the network of the answer? *)
Definition allows (svnid dvnid : Z) (r : src_dst_vnid_t) : bool :=
  (sd_svnid r =? svnid) && (sd_dvnid r =? dvnid).
Lemma permitted_spec n svnid dvnid rules : (n <= length rules)%nat ->
  permitted n svnid dvnid rules = Done (existsb (allows svnid dvnid) (take n rules)).
Proof.
  revert rules. induction n as [|n IH]; intros [|r rules] Hn; cbn in *; try lia; [done..|].
  unfold allows at 1. destruct (_ && _); [done|]. apply IH. lia.
Qed.

(** The receivers of a record; one with too many is passed over. *)
Definition receivers_of (r : dps_pkd_tunnel_list_t) : list (Z * Z) :=
  if pk_num_v4_tunnels r <=? Z.of_nat MAX_MCAST_RCVER then
    (fun a => (net_vnid (pk_vnid r), ntohl a)) <$> take (Z.to_nat (pk_num_v4_tunnels r)) (pk_tunnel_list r)
  else [].
(** A record whose counts have their width and without the address 0. *)
Definition record_ok (r : dps_pkd_tunnel_list_t) : Prop :=
  in16 (pk_num_v4_tunnels r) /\ in16 (pk_num_v6_tunnels r) /\
  (Z.to_nat (pk_num_v4_tunnels r) + 4 * Z.to_nat (pk_num_v6_tunnels r) <= length (pk_tunnel_list r))%nat /\
  Forall (fun a => a <> 0) (take (Z.to_nat (pk_num_v4_tunnels r)) (pk_tunnel_list r)).
Definition fill (recv : list (Z * Z)) : bool * list (Z * Z) :=
  if decide (length recv < MAX_MCAST_RCVER)%nat then (false, recv) else (true, take MAX_MCAST_RCVER recv).

Lemma length_pkd r : record_ok r ->
  length (pkd_words r) = Z.to_nat (2 + pk_num_v4_tunnels r + 4 * pk_num_v6_tunnels r).
Proof. intros (H4 & H6 & Hl & _). unfold in16 in *. unfold pkd_words. rewrite length_app, length_take. cbn. lia. Qed.

Lemma fill_take recv l : (MAX_MCAST_RCVER <= length recv)%nat -> fill (recv ++ l) = (true, take MAX_MCAST_RCVER recv).
Proof.
  intros Hl. unfold fill. rewrite decide_False by (rewrite length_app; lia).
  by rewrite take_app_le.
Qed.

Lemma mcast_record_spec mem size v addrs i tmp tun recv :
  (forall j a, addrs !! j = Some a -> mem !! (tun + 2 + (i + j))%nat = Some a) ->
  Forall (fun a => a <> 0) addrs -> (length recv < MAX_MCAST_RCVER)%nat ->
  mcast_record mem size v (length addrs) i tmp tun recv =
    let '(full, l) := fill (recv ++ ((fun a => (v, ntohl a)) <$> addrs)) in Done (full, tmp, l).
Proof.
  revert i recv. induction addrs as [|a addrs IH]; intros i recv Hm Hz Hr.
  - cbn [length mcast_record]. cbn. rewrite app_nil_r. unfold fill. by rewrite decide_True.
  - apply Forall_cons in Hz as [Ha Hz]. cbn [length mcast_record].
    unfold word. pose proof (Hm 0%nat a eq_refl) as E0. rewrite Nat.add_0_r in E0. rewrite E0. cbn [of_option obind].
    apply Z.eqb_neq in Ha. rewrite Ha, fmap_cons. cbv zeta.
    set (recv' := recv ++ [(v, ntohl a)]).
    assert (forall l, recv ++ (v, ntohl a) :: l = recv' ++ l) as -> by (intros; unfold recv'; by rewrite <- app_assoc).
    case_decide as Hd.
    + rewrite fill_take by done. rewrite take_ge; [done|]. unfold recv' in *. rewrite length_app in *. cbn in *. lia.
    + apply IH; [|done|lia]. intros j b Hj. specialize (Hm (S j) b Hj).
      by replace (S i + j)%nat with (i + S j)%nat by lia.
Qed.

Lemma lookup_mid {A} (pre l post : list A) j : (j < length l)%nat ->
  (pre ++ l ++ post) !! (length pre + j)%nat = l !! j.
Proof. intros Hj. rewrite lookup_app_r, lookup_app_l by lia. f_equal. lia. Qed.

Lemma mcast_records_spec pre rs post recv :
  Forall record_ok rs -> (length recv < MAX_MCAST_RCVER)%nat ->
  mcast_records (pre ++ (rs ≫= pkd_words) ++ post) (length rs) (length pre) recv =
    Done (fill (recv ++ (rs ≫= receivers_of))).
Proof.
  revert pre recv. induction rs as [|r rs IH]; intros pre recv Hrs Hr.
  - cbn. rewrite app_nil_r. unfold fill. by rewrite decide_True.
  - apply Forall_cons in Hrs as [Hok Hrs]. pose proof (length_pkd r Hok) as Hlen.
    destruct Hok as (H4 & H6 & Hl & Hz). unfold in16 in *.
    cbn [mbind list_bind]. rewrite <- !app_assoc. set (mem := pre ++ _).
    assert (Hmem : forall j, (j < length (pkd_words r))%nat -> mem !! (length pre + j)%nat = pkd_words r !! j)
      by (intros; by apply lookup_mid).
    assert (Hnext : forall recv, (length recv < MAX_MCAST_RCVER)%nat ->
        mcast_records mem (length rs) (length pre + length (pkd_words r)) recv =
        Done (fill (recv ++ (rs ≫= receivers_of)))).
    { intros recv' Hr'. rewrite <- (IH (pre ++ pkd_words r) recv' Hrs Hr').
      by rewrite length_app, <- !app_assoc. }
    cbn [length mcast_records]. unfold word at 1. rewrite Hmem by lia. cbn [pkd_words app lookup list_lookup of_option obind].
    set (n := pk_num_v4_tunnels r + 65536 * pk_num_v6_tunnels r).
    replace (n mod 65536) with (pk_num_v4_tunnels r) by (subst n; Z.div_mod_to_equations; lia).
    replace (n / 65536) with (pk_num_v6_tunnels r) by (subst n; Z.div_mod_to_equations; lia).
    cbv zeta. rewrite <- Hlen.
    assert (Hskip : receivers_of r = [] ->
        mcast_records mem (length rs) (length pre + length (pkd_words r)) recv =
        Done (fill (recv ++ receivers_of r ++ (rs ≫= receivers_of)))).
    { intros ->. by apply Hnext. }
    unfold receivers_of in Hskip |- * at 1. destruct (_ <=? Z.of_nat MAX_MCAST_RCVER); [|rewrite andb_false_r; by apply Hskip].
    destruct (0 <? pk_num_v4_tunnels r) eqn:E0; cbn [andb].
    2: { apply Hskip. apply Z.ltb_ge in E0. by replace (pk_num_v4_tunnels r) with 0 by lia. }
    clear Hskip. unfold word. rewrite <- (Nat.add_0_r (length pre)) at 1. rewrite Hmem by lia.
    cbn [pkd_words app lookup list_lookup of_option obind].
    set (addrs := take (Z.to_nat (pk_num_v4_tunnels r)) (pk_tunnel_list r)) in *.
    assert (Hal : length addrs = Z.to_nat (pk_num_v4_tunnels r)) by (unfold addrs; rewrite length_take; lia).
    rewrite <- Hal. rewrite mcast_record_spec; [|..|done|done].
    2: { intros j a Hj. replace (length pre + 2 + (0 + j))%nat with (length pre + (2 + j))%nat by lia.
         pose proof (lookup_lt_Some _ _ _ Hj). rewrite Hmem by lia. cbn.
         etrans; [apply lookup_take_lt; lia|]. rewrite <- Hj. symmetry. apply lookup_take_lt. lia. }
    rewrite app_assoc. set (l := recv ++ _). destruct (decide (length l < MAX_MCAST_RCVER)%nat) as [Hd|Hd].
    + unfold fill at 1. rewrite decide_True by done. by apply Hnext.
    + rewrite fill_take by lia. unfold fill. by rewrite decide_False.
Qed.

(** ** Every answer is handled, and its context given back *)
Section ends.
Context (E : gw_env) (H : host).
Implicit Types s : gwy.

Lemma ends_after p ok s s' : quiet s s' -> live p s -> ends p (finish p ok s').
Proof. intros Hq Hp. apply finish_ends. by eapply quiet_live. Qed.
Lemma ends_gone p ok s : gone p s -> ends p (Done (ok, s)).
Proof. intros Hg. by exists ok, s. Qed.

(** After the context was given back nothing the gateway sends brings it back. *)
Definition same_ctx (s s' : gwy) : Prop := forall p, ctx_at p (gw_out s') = ctx_at p (gw_out s).
Lemma same_location c i x s : same_ctx s (tell_location E H c i x s).
Proof.
  intros p. unfold tell_location. cbn. destruct (route_src _ _ _); [|done].
  unfold dgwy_ctrl_location, nl_send. by destruct (nl E _).
Qed.
Lemma same_locations b c i l s : same_ctx s (tell_locations E H b c i l s).
Proof.
  revert i s. induction l as [|x l IH]; intros i s p; cbn [tell_locations]; [done|]. rewrite IH.
  destruct (_ && _); [done|]. apply same_location.
Qed.

Lemma loc_reply_ends p r s : wf_tunnels (elr_tunnel_info r) -> live p s ->
  ends p (handle_dps_loc_reply E H p r s).
Proof.
  intros Hr Hp. unfold handle_dps_loc_reply. destruct (_ <=? _); [by apply finish_ends|].
  rewrite locations_done by done. destruct (p =? 0) eqn:E0.
  { apply ends_gone. apply Z.eqb_eq in E0. intros ?. lia. }
  assert (Hg := give_back_live p s Hp). rewrite E0 in Hg. apply Z.eqb_neq in E0.
  destruct Hp as [?|[c Hc]]; [lia|]. unfold context. rewrite Hc. cbn [of_option obind].
  destruct (dc_shared_lookup c =? 0).
  - rewrite Hg. cbn [obind]. apply ends_gone. intros _. unfold program_locations. rewrite same_locations.
    cbn. by rewrite Z.eqb_refl.
  - destruct (forallb _ _); [apply finish_ends; right; by eexists|].
    unfold process_dps_loc_resp_shared, context. rewrite Hc, locations_done by done. cbn [of_option obind].
    eapply ends_after; [apply quiet_locations|]. right. by eexists.
Qed.
Lemma unsolicited_ends p r s : live p s -> ends p (handle_dps_unsolicited_loc_reply E p r s).
Proof.
  intros Hp. unfold handle_dps_unsolicited_loc_reply. rewrite give_back_live by done. cbn [obind].
  apply ends_gone. intros Hp0. apply Z.eqb_neq in Hp0. rewrite Hp0. unfold dgwy_ctrl_location, nl_send.
  destruct (nl E _); cbn; by rewrite Z.eqb_refl.
Qed.
Lemma policy_reply_ends p r s :
  wf_tunnels (elr_tunnel_info (pr_dst_endpoint_loc_reply r)) ->
  wf_policy (pi_dps_policy (pr_dps_policy_info r)) -> live p s ->
  ends p (handle_dps_policy_reply E H p r s).
Proof.
  intros Ht [[_ Hr] _] Hp. unfold handle_dps_policy_reply. destruct (p =? 0) eqn:E0.
  { apply ends_gone. apply Z.eqb_eq in E0. intros ?. lia. }
  assert (Hp' := Hp). apply Z.eqb_neq in E0. destruct Hp as [?|[c Hc]]; [lia|].
  unfold context. rewrite Hc. cbn [of_option obind]. rewrite permitted_spec by done. cbn [obind].
  destruct (existsb _ _); [by apply loc_reply_ends | by apply finish_ends].
Qed.
Lemma bcast_ends p b d s :
  wf_packed (pk_num_v4_tunnels b) (pk_num_v6_tunnels b) (pk_tunnel_list b) -> live p s ->
  ends p (handle_dps_bcast_reply_lst E H p b d s).
Proof.
  intros (_ & H4 & _ & Hl) Hp. unfold handle_dps_bcast_reply_lst. destruct (_ <? _); [by apply finish_ends|].
  rewrite first_of_counted by (split; lia). cbn [obind].
  pose proof (quiet_members H (counted (pk_num_v4_tunnels b) (pk_tunnel_list b)) s) as Hq.
  destruct (bcast_members _ _ _) as [ms s1]. cbn [snd] in Hq. unfold dgwy_ctrl_bcast_lst.
  match goal with |- context [nl_send E ?m s1] => pose proof (quiet_nl E m s1) as Hq'; destruct (nl_send E m s1) as [z s2] end.
  eapply ends_after; [|done]. by etrans.
Qed.
Lemma mcast_done m : wf_counted (md_num_of_rec m) (md_mcast_recvr_list m) -> Forall record_ok (ds_lists m) ->
  mcast_records ((md_mcast_recvr_list m ≫= pkd_words) ++ behind H) (Z.to_nat (md_num_of_rec m)) 0 [] =
    Done (fill (ds_lists m ≫= receivers_of)).
Proof.
  intros Hc Hok. pose proof (length_counted _ _ Hc) as Hl. unfold ds_lists in *.
  rewrite <- (take_drop (Z.to_nat (md_num_of_rec m)) (md_mcast_recvr_list m)) at 1.
  rewrite bind_app, <- app_assoc. fold (counted (md_num_of_rec m) (md_mcast_recvr_list m)).
  rewrite <- Hl at 2. apply (mcast_records_spec [] _ _ []); [done|]. cbn. unfold MAX_MCAST_RCVER. lia.
Qed.
Lemma mcast_ends p m d s :
  wf_counted (md_num_of_rec m) (md_mcast_recvr_list m) -> Forall record_ok (ds_lists m) -> live p s ->
  ends p (handle_dps_mcast_recv_list E H p m d s).
Proof.
  intros Hc Hok Hp. unfold handle_dps_mcast_recv_list. rewrite mcast_done by done. cbn [obind].
  destruct (fill _) as [[] l]; [by apply finish_ends|]. eapply ends_after; [|done].
  destruct l; auto with quiet.
Qed.
Lemma vlangw_ends p t v s : wf_tunnels t -> live p s -> ends p (handle_dps_vlangw_reply_lst H p t v s).
Proof.
  intros [Hc _] Hp. unfold handle_dps_vlangw_reply_lst. destruct (_ <=? _); [by apply finish_ends|].
  rewrite first_of_counted by done. cbn [obind]. eapply ends_after; [apply quiet_peers|done].
Qed.
Lemma resolve_ends p q s : live p s -> ends p (handle_dps_address_resolve E p q s).
Proof.
  intros Hp. unfold handle_dps_address_resolve. cbv zeta.
  match goal with |- context [nl_send E ?m s] => pose proof (quiet_nl E m s) as Hq'; destruct (nl_send E m s) as [z s2] end.
  by eapply ends_after.
Qed.
End ends.

(** *** Waiting for the lock of the service *)

(** The other threads keep the table and, again and again, leave the service
    unlocked. *)
Definition fair (E : gw_env) : Prop :=
  (forall n t, length t = MAX_SERVICE_TABLES -> length (others E n t) = MAX_SERVICE_TABLES) /\
  (forall n, exists k, (n <= k)%nat /\
     forall t e, others E k t !! SVC_INDX_START = Some e -> sv_lock e = false).
Definition table_len (s : gwy) : Prop := length (svc_table s) = MAX_SERVICE_TABLES.

Lemma svc_wait_done E s : fair E -> table_len s ->
  exists n0 e s', quiet s s' /\ table_len s' /\ forall n, (n0 <= n)%nat ->
    svc_wait E n SVC_INDX_START s = Done (e, s').
Proof.
  intros [Hlen Hfree] Hs. destruct (Hfree (now s)) as (k & Hk & Hkf).
  remember (k - now s)%nat as d eqn:Hd. revert s Hs Hk Hd. induction d as [|d IH]; intros s Hs Hk Hd.
  all: assert (table_len (look_again E s)) as Hl by by apply Hlen.
  all: destruct (lookup_lt_is_Some_2 (svc_table (look_again E s)) SVC_INDX_START) as [e He];
    [rewrite Hl; unfold SVC_INDX_START, MAX_SERVICE_TABLES; lia|].
  all: assert (Hdone : sv_lock e = false -> exists n0 e s', quiet s s' /\ table_len s' /\
      forall n, (n0 <= n)%nat -> svc_wait E n SVC_INDX_START s = Done (e, s')).
  1,3: intros Hf; exists 1%nat, e, (set_entry SVC_INDX_START (with_lock true e) (look_again E s));
    split; [by intros p|]; split; [unfold table_len; cbn; by rewrite length_insert, Hl|];
    intros [|n] Hn; [lia|]; cbn [svc_wait]; rewrite He; cbn [of_option obind]; by rewrite Hf.
  - apply Hdone. apply (Hkf (svc_table s) e). by replace k with (now s) by lia.
  - destruct (sv_lock e) eqn:Hlk; [|by apply Hdone].
    destruct (IH (look_again E s)) as (n0 & e' & s' & Hq & Hl' & Hw); [done|cbn; lia..|].
    exists (S n0), e', s'. split; [etrans; [apply quiet_look|done]|]. split; [done|].
    intros [|n] Hn; [lia|]. cbn [svc_wait]. rewrite He. cbn [of_option obind]. rewrite Hlk. apply Hw. lia.
Qed.

Lemma elect_service_done E b vnid s : fair E -> table_len s ->
  exists n0 s', quiet s s' /\ forall n, (n0 <= n)%nat -> elect_service E n b vnid SVC_INDX_START s = Done s'.
Proof.
  intros HE Hs. assert (table_len (look_again E s)) as Hl by by apply HE.
  destruct (lookup_lt_is_Some_2 (svc_table (look_again E s)) SVC_INDX_START) as [e He];
    [rewrite Hl; unfold SVC_INDX_START, MAX_SERVICE_TABLES; lia|].
  destruct (svc_wait_done E (look_again E s) HE Hl) as (n0 & e' & s' & Hq & Hl' & Hw).
  unfold elect_service. rewrite He. cbn [of_option obind]. destruct (strlen (sv_name e)) as [|k].
  { exists 0%nat, (look_again E s). split; [apply quiet_look | done]. }
  pose proof (quiet_elect E b vnid (ext_mcast_vnids e') s') as Hqe.
  destruct (elect E b vnid (ext_mcast_vnids e') s') as [l s2] eqn:El.
  eexists n0, _. split; [|intros n Hn; rewrite Hw by done; cbn [obind]; by rewrite El].
  etrans; [apply quiet_look|]. etrans; [exact Hq|]. etrans; [exact Hqe|]. apply quiet_table.
Qed.

Lemma extgw_ends E H p t vnid s : fair E -> table_len s -> wf_tunnels t -> live p s ->
  exists n0 ok s', (forall n, (n0 <= n)%nat ->
    handle_dps_extgw_reply_lst E H n p t vnid s = Done (ok, s')) /\ gone p s'.
Proof.
  intros HE Hs [Hc _] Hp.
  assert (Hfin : forall ok s1, quiet s s1 -> exists s', finish p ok s1 = Done (ok, s') /\ gone p s')
    by (intros; apply finish_live; eauto with quiet).
  unfold handle_dps_extgw_reply_lst. destruct (_ <=? _).
  { destruct (Hfin false s) as (s' & -> & ?); [done|]. by exists 0%nat, false, s'. }
  rewrite first_of_counted by done. cbn [obind]. fold (tunnels t).
  destruct (sort_descending _ _) as [|x l].
  { destruct (Hfin true s) as (s' & -> & ?); [done|]. by exists 0%nat, true, s'. }
  pose proof (quiet_self_tunnel H (te_ip4 <$> tunnels t) 0 s) as Hq.
  assert (Hsl : forall l self s, table_len s -> table_len (self_tunnel H l self s).2).
  { clear. intros l. induction l as [|a l IH]; intros self s Hs; [done|]. by apply IH. }
  specialize (Hsl (te_ip4 <$> tunnels t) 0 s Hs).
  destruct (self_tunnel _ _ _ _) as [self s1]. cbn [snd] in *.
  destruct (elect_service_done E (x =? self) vnid s1 HE Hsl) as (n0 & s2 & Hq2 & Hn).
  destruct (Hfin true s2) as (s' & Hs' & Hg); [by etrans|].
  exists n0, true, s'. split; [|done]. intros n Hle.
  change services with [SVC_INDX_START]. cbn [elect_services]. rewrite Hn by done. exact Hs'.
Qed.

(** ** Every answer *)

(** The answers that bring a context back and have it given back; the others
    are the acknowledgement of a tunnel, and what the protocol returns when
    there was no answer: the request itself. *)
Definition gives_back (ty : Z) : bool :=
  existsb (Z.eqb ty)
    [DPS_POLICY_REPLY; DPS_ENDPOINT_LOC_REPLY; DPS_UNSOLICITED_ENDPOINT_LOC_REPLY;
     DPS_ENDPOINT_UPDATE_REPLY; DPS_BCAST_LIST_REPLY; DPS_MCAST_RECEIVER_DS_LIST;
     DPS_VLAN_GW_LIST_REPLY; DPS_UNSOLICITED_EXTERNAL_GW_LIST; DPS_EXTERNAL_GW_LIST_REPLY;
     DPS_POLICY_INVALIDATE; DPS_ADDR_RESOLVE].
(** A message the server can encode, whose lists of receivers hold no address
    0. *)
Definition answer_ok (m : dps_client_data_t) : Prop :=
  well_typed (ch_type (cd_hdr m)) (cd_body m) = true /\ body_ok m /\
  match cd_body m with Body_mcast_receiver_ds_list x => Forall record_ok (ds_lists x) | _ => True end.

(** Comparisons of constants. *)
Ltac test_is t :=
  let v := eval vm_compute in t in
  match v with true => change t with true | false => change t with false end.
Ltac tests :=
  repeat match goal with
  | |- context [?a =? ?b] => test_is (a =? b)
  | |- context [?a <=? ?b] => test_is (a <=? b)
  | |- context [gives_back ?t] => test_is (gives_back t)
  end; cbn [orb].

(** C22.  Every answer of the server is handled.  For a message the server can
    encode, without the address 0 among its receivers, whatever the host, the
    heap and the kernel answer: if its context is [NULL] or memory the gateway
    allocated and has not given back, and the other threads now and then leave
    the service unlocked, then the handler returns, it reads no memory that was
    given back and no entry behind an array, and the context
    has been given back exactly once, except after the acknowledgement of a
    tunnel, a request that comes back unanswered and a message of any other
    type, whose context is left as it was. *)
Theorem answer_handled E H m s :
  fair E -> table_len s -> answer_ok m -> live (cd_context m) s ->
  exists n0 ok s', (forall n, (n0 <= n)%nat -> dgwy_handle_dps_response E H n m s = Done (ok, s')) /\
    if gives_back (ch_type (cd_hdr m)) then gone (cd_context m) s'
    else ctx_at (cd_context m) (gw_out s') = ctx_at (cd_context m) (gw_out s).
Proof.
  intros HE Hs (Hty & Hb & Hr) Hp. unfold dgwy_handle_dps_response. cbv zeta.
  set (s1 := if lost _ then _ else _). set (p := cd_context m) in *.
  assert (live p s1 /\ table_len s1 /\ gw_out s1 = gw_out s) as (Hp1 & Hs1 & Ho) by (subst s1; by destruct (lost _)).
  set (ty := ch_type (cd_hdr m)) in *. unfold body_ok in Hb.
  assert (Hnow : forall r, ends p r -> exists n0 ok s', (forall n, (n0 <= n)%nat -> r = Done (ok, s')) /\ gone p s').
  { intros r (ok & s' & -> & Hg). by exists 0%nat, ok, s'. }
  assert (Hkeep : forall ok : bool, exists n0 ok' s', (forall n, (n0 <= n)%nat -> Done (ok, s1) = Done (ok', s')) /\
      ctx_at p (gw_out s') = ctx_at p (gw_out s)).
  { intros ok. exists 0%nat, ok, s1. by rewrite Ho. }
  destruct (cd_body m) eqn:Eb; unfold well_typed in Hty; cbn [existsb] in Hty; rewrite ?orb_false_r in Hty;
    rewrite ?orb_true_iff, ?Z.eqb_eq in Hty;
    destruct_or? Hty; try discriminate Hty; rewrite ?Hty; tests.
  all: try exact (Hkeep _).
  all: cbn [as_endpoint_loc_req as_endpoint_loc_reply as_policy_reply as_dove_switch_list
            as_mcast_receiver_ds_list as_tunnel_info obind].
  all: try (apply extgw_ends; [done|done|apply Hb|done]).
  all: apply Hnow.
  all: try (by apply finish_ends).
  all: try (by apply resolve_ends).
  all: try (by apply unsolicited_ends).
  - apply loc_reply_ends; [|done]. apply Hb.
  - destruct Hb as (Hb & Hpol & _). apply policy_reply_ends; [apply Hb | done..].
  - by apply bcast_ends.
  - destruct Hb as (_ & Hc & _). by apply mcast_ends.
  - apply vlangw_ends; [apply Hb | done].
Qed.

(** A service that is never left locked. *)
Definition unlocked (n : nat) (t : list dgwy_service_list_t) : list dgwy_service_list_t :=
  alter (with_lock false) SVC_INDX_START t.
Definition fair_env : gw_env :=
  mk_env unlocked (fun _ => Nl_done) (fun n => 8192 + Z.of_nat n) (fun _ => true).
Lemma fair_env_fair : fair fair_env.
Proof.
  split; [intros n t Ht; cbn; unfold unlocked; by rewrite length_alter|].
  intros n. exists n. split; [done|]. intros t e. cbn. unfold unlocked.
  rewrite list_lookup_alter_eq. destruct (t !! _); intros [= <-]. done.
Qed.
(** 10.0.0.1 is the host's own, every address but 10.0.0.9 has a route. *)
Definition sample_host : host :=
  mk_host (fun _ => Some [(16777226, Some 255)])
    (fun _ ip => if ip =? 150994954 then None else Some 16777226) (fun _ => HaTask.ha_task0)
    (fun _ => true) [].
Definition sample_ctx : dgadm_dps_context_t := mk_ctx 7 0 0.
(** The gateway has asked for the policy of network 7, with context 4096. *)
Definition asked_gwy : gwy :=
  sent 1 0 (To_dps (Some sample_ctx)
              (mk_client_data 4096 (dps_hdr DPS_POLICY_REQ 0 3 7) Body_none))
    (gwy0 [zero_svc; named_svc false]).
Definition at_ip (ip : Z) : dps_tunnel_endpoint_t := mk_tunnel AF_INET 8472 9 0 0 (set_ip4 zero_ip ip).
Definition sample_reply (rules : list src_dst_vnid_t) (ips : list Z) : dps_policy_reply_t :=
  mk_policy_reply (mk_policy_info 0 0 0
      (mk_policy 0 DPS_POLICY_TYPE_CONNECTIVITY (Z.of_nat (length rules)) 0 rules))
    (mk_endpoint_loc_reply 9 (replicate 6 2) (ip4_addr AF_INET 167772200) 0
       (mk_tunnel_list (Z.of_nat (length ips)) (at_ip <$> ips))).
Definition sample_answer : dps_client_data_t :=
  mk_client_data 4096 (dps_hdr DPS_POLICY_REPLY 0 3 7)
    (Body_policy_reply (sample_reply [mk_rule 7 8; mk_rule 7 9] [167772162; 167772161])).
Lemma at_ips_wf ips : Forall wf_tunnel (at_ip <$> ips).
Proof.
  induction ips as [|ip ips IH]; cbn; constructor; [|done].
  split; [apply set_ip4_wf|]. cbn. unfold in16, in32. lia.
Qed.
Lemma sample_reply_ok rules ips :
  Z.of_nat (policy_type_len (mk_policy 0 DPS_POLICY_TYPE_CONNECTIVITY (Z.of_nat (length rules)) 0 rules)) < 65536 ->
  reply_ok (pr_dst_endpoint_loc_reply (sample_reply rules ips)) /\
  wf_policy (pi_dps_policy (pr_dps_policy_info (sample_reply rules ips))).
Proof.
  intros Hr. split.
  - split; [|by left]. split; [|split].
    + split; [done|]. repeat constructor; unfold in8; lia.
    + apply ip4_addr_wf.
    + split; [split; cbn; rewrite ?length_fmap; lia|]. apply Forall_take, at_ips_wf.
  - split; [split; cbn; lia|]. split; [split; cbn; lia|]. exact Hr.
Qed.
Lemma answer_handled_witness :
  exists n0 ok s', (forall n, (n0 <= n)%nat ->
    dgwy_handle_dps_response fair_env sample_host n sample_answer asked_gwy = Done (ok, s')) /\
    gone 4096 s'.
Proof.
  apply (answer_handled fair_env sample_host sample_answer asked_gwy fair_env_fair).
  - reflexivity.
  - split; [reflexivity|]. split; [|exact I].
    destruct (sample_reply_ok [mk_rule 7 8; mk_rule 7 9] [167772162; 167772161]) as [H1 H2]; [reflexivity|].
    split; [exact H1|]. split; [exact H2|]. left. reflexivity.
  - right. eexists. reflexivity.
Defined.

(** ** Policies are enforced *)

(** What the kernel module was told, in order. *)
Definition kernel (s : gwy) : list nl_msg :=
  omap (fun ev => match ev with To_kernel m => Some m | _ => None end) (reverse (gw_out s)).
Lemma kernel_sent q d ev s :
  kernel (sent q d ev s) = kernel s ++ match ev with To_kernel m => [m] | _ => [] end.
Proof. unfold kernel. cbn [sent gw_out]. rewrite reverse_cons, omap_app. by destruct ev. Qed.

(** A host whose addresses and routes do not change while the answer is
    handled, and a kernel module that takes every message. *)
Record steady (E : gw_env) (H : host) (ifs : list Z) (route : Z -> option Z) : Prop := {
  st_ifs : forall n, exists l, ifaddrs H n = Some l /\ (take MAX_IFS l).*1 = ifs;
  st_route : forall n ip, route_src H n ip = route ip;
  st_nl : forall n, nl E n = Nl_done }.

(** Whether the answer may be used for the request: a rule permits it, and an
    answer about a shared network names a machine. *)
Definition usable (c : dgadm_dps_context_t) (r : dps_policy_reply_t) : bool :=
  let pol := pi_dps_policy (pr_dps_policy_info r) in
  let loc := pr_dst_endpoint_loc_reply r in
  existsb (allows (dc_svnid c) (elr_vnid loc)) (counted (pl_num_permit_rules pol) (pl_src_dst_vnid pol))
  && (tl_num_of_tunnels (elr_tunnel_info loc) <? MAX_TUNNEL_INFO)
  && ((dc_shared_lookup c =? 0) || negb (forallb (Z.eqb 0) (take 6 (elr_mac loc)))).
(** What the kernel is told of the [i]-th location; nothing without a route,
    and for a shared network nothing of the location 0. *)
Definition location_told (ifs : list Z) (route : Z -> option Z) (own port : Z)
    (c : dgadm_dps_context_t) (r : dps_endpoint_loc_reply_t) (i : nat) (a : Z) : option nl_msg :=
  if negb (dc_shared_lookup c =? 0) && (a =? 0) then None
  else
    src ← route a;
    Some (Nl_location (mk_location
      (if dc_shared_lookup c =? 0 then CMD_UPDATE_OVL_IP else CMD_UPDATE_OVL_IP_SHARED)
      (u8 (Z.of_nat i)) (if bool_decide (a ∈ ifs) then 1 else 0)
      (net_vnid (dc_svnid c)) (net_vnid (elr_vnid r)) (ntohl (ia_ip4 (elr_vm_ip_addr r))) a
      (if own =? 0 then src else own) OVL_PROTO (htons OVL_PROTO_SRC_PORT) (htons port)
      (take 6 (elr_mac r)))).

Section policy.
Context (E : gw_env) (H : host) (ifs : list Z) (route : Z -> option Z) (HS : steady E H ifs route).

Lemma self_steady ip s : chk_self_ipv4 H ip s = (if bool_decide (ip ∈ ifs) then 1 else 0, tick s).
Proof.
  unfold chk_self_ipv4, ask_host. destruct (st_ifs _ _ _ _ HS (now s)) as (l & -> & <-). f_equal.
  assert (existsb (fun x => x.1 =? ip) (take MAX_IFS l) = bool_decide (ip ∈ (take MAX_IFS l).*1)) as ->; [|done].
  apply eq_bool_prop_intro. rewrite bool_decide_spec, Is_true_true, existsb_exists, list_elem_of_fmap. split.
  - intros (x & Hx%list_elem_of_In & Hip%Z.eqb_eq). by exists x.
  - intros (x & -> & Hx%list_elem_of_In). exists x. by rewrite Z.eqb_refl.
Qed.

Lemma omap_id_cons {A} (x : option A) l : omap id (x :: l) = option_list x ++ omap id l.
Proof. by destruct x. Qed.

(** One location. *)
Definition told_of (c : ovl_tunnel_cfg_t) (own port : Z) (i : nat) (x : ovl_tunnel_info_t) : option nl_msg :=
  src ← route (ot_endpoint_location x);
  Some (Nl_location (mk_location (oc_cmd c) (u8 (Z.of_nat i))
    (if bool_decide (ot_endpoint_location x ∈ ifs) then 1 else 0) (oc_domain c) (ot_dst_domain x)
    (oc_endpoint_ip c) (ot_endpoint_location x) (if own =? 0 then src else own)
    OVL_PROTO (htons OVL_PROTO_SRC_PORT) (htons port) (oc_mac c))).
Definition alike (s s' : gwy) : Prop :=
  g_dovenet_ipv4 s' = g_dovenet_ipv4 s /\ OVL_PROTO_DST_PORT s' = OVL_PROTO_DST_PORT s.
Lemma tell_location_steady c i x s :
  let s' := tell_location E H c i x s in
  alike s s' /\
  kernel s' = kernel s ++ option_list (told_of c (g_dovenet_ipv4 s) (OVL_PROTO_DST_PORT s) i x).
Proof.
  cbv zeta. unfold tell_location. rewrite self_steady. unfold route_to, ask_host. cbv beta iota zeta.
  rewrite (st_route _ _ _ _ HS). unfold told_of. destruct (route _) as [src|]; cbn [mbind option_bind option_list].
  - unfold dgwy_ctrl_location, nl_send. rewrite (st_nl _ _ _ _ HS). cbn [snd]. split; [done|].
    unfold emit. rewrite kernel_sent. cbn. by destruct (bool_decide _).
  - by rewrite app_nil_r.
Qed.
Lemma tell_locations_steady b c i l s :
  kernel (tell_locations E H b c i l s) =
    kernel s ++ omap id (imap (fun j x => if b && (ot_endpoint_location x =? 0) then None
      else told_of c (g_dovenet_ipv4 s) (OVL_PROTO_DST_PORT s) (i + j) x) l).
Proof.
  revert i s. induction l as [|x l IH]; intros i s; cbn [tell_locations]; [cbn; by rewrite app_nil_r|].
  rewrite IH. cbn [imap]. rewrite Nat.add_0_r, omap_id_cons, app_assoc.
  assert (forall s', alike s s' -> kernel s' = kernel s ++ option_list (if b && (ot_endpoint_location x =? 0)
      then None else told_of c (g_dovenet_ipv4 s) (OVL_PROTO_DST_PORT s) i x) ->
    kernel s' ++ omap id (imap (fun j x => if b && (ot_endpoint_location x =? 0) then None
      else told_of c (g_dovenet_ipv4 s') (OVL_PROTO_DST_PORT s') (S i + j) x) l) =
    (kernel s ++ option_list (if b && (ot_endpoint_location x =? 0)
      then None else told_of c (g_dovenet_ipv4 s) (OVL_PROTO_DST_PORT s) i x)) ++
    omap id (imap ((fun j x => if b && (ot_endpoint_location x =? 0) then None
      else told_of c (g_dovenet_ipv4 s) (OVL_PROTO_DST_PORT s) (i + j) x) ∘ S) l)) as Hstep.
  { intros s' [-> ->] ->. do 2 f_equal. apply imap_ext. intros j y _. cbn [compose].
    by rewrite Nat.add_succ_comm. }
  destruct (tell_location_steady c i x s) as [Ha Hk]. apply Hstep; destruct (b && _); try done.
  cbn. by rewrite app_nil_r.
Qed.
End policy.

Section enforced.
Context (E : gw_env) (H : host) (ifs : list Z) (route : Z -> option Z) (HS : steady E H ifs route).

Lemma told_sorted b c cmd domain r :
  wf_tunnels (elr_tunnel_info r) -> net_vnid domain = net_vnid (dc_svnid c) ->
  cmd = (if dc_shared_lookup c =? 0 then CMD_UPDATE_OVL_IP else CMD_UPDATE_OVL_IP_SHARED) ->
  b = negb (dc_shared_lookup c =? 0) ->
  exists l ls, locations_of r = Done l /\
    ls ≡ₚ (fun t => ntohl (te_ip4 t)) <$> tunnels (elr_tunnel_info r) /\
    StronglySorted (fun x y => y <= x) ls /\
    forall s, kernel (tell_locations E H b (ovl_cfg cmd domain r l) 0 (oc_location (ovl_cfg cmd domain r l)) s) =
      kernel s ++ omap id (imap (location_told ifs route (g_dovenet_ipv4 s) (OVL_PROTO_DST_PORT s) c r) ls).
Proof.
  intros Ht Hd -> ->. rewrite locations_done by done. set (l := _ <$> _). exists l. cbn [ovl_cfg oc_location].
  destruct (sort_descending_spec ot_endpoint_location l) as [Hp Hs]. set (sl := sort_descending _ l) in *.
  exists (ot_endpoint_location <$> sl). split; [done|]. split_and!.
  - rewrite Hp. subst l. by rewrite <- list_fmap_compose.
  - clear -Hs. induction Hs as [|x sl Hs IH Hx]; cbn; constructor; [done|]. by apply list.Forall_fmap.
  - intros s. rewrite (tell_locations_steady E H ifs route HS). do 2 f_equal. rewrite imap_fmap.
    apply imap_ext. intros i x Hx. cbn [compose Nat.add]. unfold location_told, told_of.
    assert (ot_dst_domain x = net_vnid (elr_vnid r)) as ->.
    { assert (x ∈ l) as Hin by (rewrite <- Hp; by eapply list_elem_of_lookup_2).
      subst l. by apply list_elem_of_fmap in Hin as (t & -> & _). }
    cbn [ovl_cfg oc_cmd oc_domain oc_endpoint_ip oc_mac]. by rewrite Hd.
Qed.
Lemma kernel_freed p s : kernel (emit (Ctx_freed p) s) = kernel s.
Proof. unfold emit. rewrite kernel_sent. by rewrite app_nil_r. Qed.
End enforced.

(** C21.  Policies are enforced.  When the server answers a question for a
    policy, and the context of the question is there: if, and only if, one of
    the rules of the answer permits the network of the question to reach the
    network of the answer, there are fewer than 16 locations, and an answer about a
    shared network names a machine, the kernel module is told of the locations:
    of each one with a route, in descending order with its place in the order,
    from the address of the gateway in the overlay, or from that of the
    route when it has none, with the network of the question as the source,
    and of the location 0 only for a network that is not shared.
    Otherwise it is told nothing, and the answer is an error. *)
Theorem policy_enforced E H ifs route p r c s :
  steady E H ifs route -> reply_ok (pr_dst_endpoint_loc_reply r) ->
  wf_policy (pi_dps_policy (pr_dps_policy_info r)) ->
  p <> 0 -> ctx_at p (gw_out s) = Some c ->
  let loc := pr_dst_endpoint_loc_reply r in
  exists s' ls, handle_dps_policy_reply E H p r s = Done (usable c r, s') /\
    ls ≡ₚ (fun t => ntohl (te_ip4 t)) <$> tunnels (elr_tunnel_info loc) /\
    StronglySorted (fun x y => y <= x) ls /\
    kernel s' = kernel s ++
      if usable c r
      then omap id (imap (location_told ifs route (g_dovenet_ipv4 s) (OVL_PROTO_DST_PORT s) c loc) ls)
      else [].
Proof.
  intros HS Hr [[_ Hrules] _] Hp Hc loc. assert (Ht : wf_tunnels (elr_tunnel_info loc)) by apply Hr.
  pose proof (give_back_live p s (or_intror (ex_intro _ c Hc))) as Hg.
  apply Z.eqb_neq in Hp. rewrite Hp in Hg. unfold handle_dps_policy_reply, context.
  rewrite Hp, Hc. cbn [of_option obind]. rewrite permitted_spec by done. cbn [obind].
  unfold usable. fold loc. unfold counted.
  set (ok := existsb _ _). set (small := tl_num_of_tunnels _ <? _).
  destruct (told_sorted E H ifs route HS (negb (dc_shared_lookup c =? 0)) c _ (dc_svnid c) loc Ht eq_refl eq_refl eq_refl)
    as (l & ls & Hl & Hls & Hsort & Hk).
  assert (Hno : forall s', kernel s' = kernel s -> exists s'' ls, Done (false, s') = Done (false, s'') /\
      ls ≡ₚ (fun t => ntohl (te_ip4 t)) <$> tunnels (elr_tunnel_info loc) /\
      StronglySorted (fun x y => y <= x) ls /\ kernel s'' = kernel s ++ []).
  { intros s' Hs'. exists s', ls. by rewrite app_nil_r. }
  destruct ok; cbn [andb].
  2: { unfold finish. rewrite Hg. apply Hno, kernel_freed. }
  unfold handle_dps_loc_reply. fold loc. replace (MAX_TUNNEL_INFO <=? _) with (negb small)
    by (unfold small; by rewrite Z.leb_antisym).
  destruct small; cbn [negb andb].
  2: { unfold finish. rewrite Hg. apply Hno, kernel_freed. }
  unfold context. rewrite Hp, Hc, Hl. cbn [of_option obind].
  destruct (dc_shared_lookup c =? 0) eqn:Esh; cbn [orb negb] in *.
  - rewrite Hg. cbn [obind]. eexists _, ls. split; [reflexivity|]. split; [done|]. split; [done|].
    unfold program_locations. rewrite Hk. by rewrite kernel_freed.
  - destruct (forallb _ _); cbn [negb]; unfold finish.
    { rewrite Hg. apply Hno, kernel_freed. }
    unfold process_dps_loc_resp_shared, context. rewrite Hc, Hl. cbn [of_option obind].
    set (s1 := tell_locations _ _ _ _ _ _ _).
    assert (Hq : quiet s s1) by apply quiet_locations.
    rewrite give_back_live by (right; apply Hq; by eexists). rewrite Hp. cbn [obind].
    eexists _, ls. split; [reflexivity|]. split; [done|]. split; [done|]. rewrite kernel_freed. apply Hk.
Qed.

Lemma sample_steady :
  steady fair_env sample_host [16777226] (fun ip => if ip =? 150994954 then None else Some 16777226).
Proof. split; [|done..]. intros n. by exists [(16777226, Some 255)]. Qed.
Lemma policy_enforced_witness :
  let r := sample_reply [mk_rule 7 8; mk_rule 7 9] [167772162; 167772161] in
  usable sample_ctx r = true /\
  exists s' ls, handle_dps_policy_reply fair_env sample_host 4096 r asked_gwy = Done (true, s') /\
    ls ≡ₚ [33554442; 16777226] /\ StronglySorted (fun x y => y <= x) ls /\
    kernel s' = omap id (imap (location_told [16777226]
      (fun ip => if ip =? 150994954 then None else Some 16777226) 0 0 sample_ctx
      (pr_dst_endpoint_loc_reply r)) ls).
Proof.
  split; [reflexivity|].
  destruct (sample_reply_ok [mk_rule 7 8; mk_rule 7 9] [167772162; 167772161]) as [H1 H2]; [reflexivity|].
  apply (policy_enforced fair_env sample_host _ _ 4096 _ sample_ctx asked_gwy sample_steady H1 H2);
    [discriminate | reflexivity].
Defined.

(** ** One gateway is the master of a network *)
Section election.
Context (E : gw_env) (H : host) (ifs : list Z)
  (Hifs : forall n, exists l, ifaddrs H n = Some l /\ (take MAX_IFS l).*1 = ifs).

Lemma self_known ip s : chk_self_ipv4 H ip s = (if bool_decide (ip ∈ ifs) then 1 else 0, tick s).
Proof.
  apply (self_steady fair_env (mk_host (ifaddrs H) (fun _ _ => None) (ha H) (ha_queue H) (behind H))
           ifs (fun _ => None)). by split.
Qed.
(** The only address of the list that is the host's own is [own]. *)
Lemma self_tunnel_own own l self s :
  (forall a, a ∈ l -> ntohl a ∈ ifs <-> a = own) ->
  (self_tunnel H l self s).1 = if bool_decide (own ∈ l) then own else self.
Proof.
  revert self s. induction l as [|a l IH]; intros self s Ha; cbn [self_tunnel]; [done|].
  rewrite self_known. assert (forall b, b ∈ l -> ntohl b ∈ ifs <-> b = own) as Hl
    by (intros b Hb; apply Ha; by right).
  specialize (Ha a (list_elem_of_here a l)). rewrite IH by done. clear IH Hl.
  repeat case_bool_decide; cbn [Z.eqb]; rewrite ?elem_of_cons in *; naive_solver.
Qed.
Lemma elect_spec (b : bool) vnid l s :
  Forall (fun x => em_vnid x = vnid -> em_master x = if b then 1 else 0) (elect E b vnid l s).1 /\
  Forall2 (fun x y => em_vnid y = em_vnid x /\ em_ipv4 y = em_ipv4 x /\ (em_vnid x <> vnid -> y = x))
    l (elect E b vnid l s).1.
Proof.
  revert s. induction l as [|x l IH]; intros s; cbn -[send_ext_mcast_recv_join nl_send]; [by split|].
  destruct (em_vnid x =? vnid) eqn:Ex.
  - match goal with |- context [elect E b vnid l ?t] => specialize (IH t) end.
    destruct (elect E b vnid l _) as [l' s']. cbn in *. destruct IH as [IH1 IH2]. split; constructor; try done.
    apply Z.eqb_eq in Ex. naive_solver.
  - specialize (IH s). destruct (elect E b vnid l s) as [l' s']. cbn in *. destruct IH as [IH1 IH2].
    apply Z.eqb_neq in Ex. by split; constructor.
Qed.

(** The service keeps its name, whatever the other threads do. *)
Context (Hnamed : forall n t e, others E n t !! SVC_INDX_START = Some e -> strlen (sv_name e) <> 0%nat).
Lemma svc_wait_lookup n j s e s' : svc_wait E n j s = Done (e, s') ->
  svc_table s' !! j = Some (with_lock true e).
Proof.
  revert s. induction n as [|n IH]; intros s; cbn [svc_wait]; [done|].
  destruct (svc_table (look_again E s) !! j) as [e0|] eqn:He; cbn [of_option obind]; [|done].
  destruct (sv_lock e0); [apply IH|]. intros [= -> <-]. cbn. apply list_lookup_insert_eq. by eapply lookup_lt_Some.
Qed.
Lemma nl_table m s : svc_table (nl_send E m s).2 = svc_table s.
Proof. unfold nl_send. by destruct (nl E _). Qed.
Lemma join_table v ty s : svc_table (send_ext_mcast_recv_join E v ty s) = svc_table s.
Proof.
  unfold send_ext_mcast_recv_join. destruct (dps_known s); [|done]. cbv zeta.
  destruct (if ty =? _ then _ else _); [|done]. destruct (if _ || _ then _ else _); [|done].
  unfold dps_send_ctx, dps_send. cbv zeta iota. by destruct (_ && _).
Qed.
Lemma elect_table b vnid l s : svc_table (elect E b vnid l s).2 = svc_table s.
Proof.
  revert s. induction l as [|x l IH]; intros s; cbn -[send_ext_mcast_recv_join nl_send]; [done|].
  destruct (_ =? vnid).
  - match goal with |- context [elect E b vnid l ?t] =>
      assert (svc_table t = svc_table s) as Ht; [|pose proof (IH t) as Hi] end.
    { destruct b; [rewrite join_table; destruct (_ =? 0); [apply nl_table|done]|].
      destruct (_ =? 1); [|done]. by rewrite join_table, nl_table. }
    destruct (elect E b vnid l _). cbn in *. congruence.
  - specialize (IH s). by destruct (elect E b vnid l s).
Qed.
Lemma elect_service_spec n (b : bool) vnid s s' :
  elect_service E n b vnid SVC_INDX_START s = Done s' ->
  exists e, svc_table s' !! SVC_INDX_START = Some e /\ sv_lock e = false /\
    Forall (fun x => em_vnid x = vnid -> em_master x = if b then 1 else 0) (ext_mcast_vnids e).
Proof.
  unfold elect_service. destruct (svc_table (look_again E s) !! _) as [e0|] eqn:He0; cbn [of_option obind]; [|done].
  apply Hnamed in He0. destruct (strlen (sv_name e0)) as [|k]; [done|]. clear He0.
  destruct (svc_wait E n SVC_INDX_START (look_again E s)) as [[e s1]| |] eqn:Hw; cbn [obind]; try done.
  apply svc_wait_lookup in Hw. pose proof (elect_spec b vnid (ext_mcast_vnids e) s1) as [Hl _].
  pose proof (elect_table b vnid (ext_mcast_vnids e) s1) as Ht.
  destruct (elect E b vnid (ext_mcast_vnids e) s1) as [l s2]. cbn [fst snd] in *. intros [= <-].
  eexists. split; [cbn; apply list_lookup_insert_eq; rewrite Ht; by eapply lookup_lt_Some|]. by split.
Qed.
Lemma finish_table p ok s ok' s' : finish p ok s = Done (ok', s') -> ok' = ok /\ svc_table s' = svc_table s.
Proof.
  unfold finish, give_back, context. destruct (p =? 0); [by intros [= <- <-]|].
  destruct (ctx_at p (gw_out s)); cbn [of_option obind]; [|done]. by intros [= <- <-].
Qed.

(** The gateway's part: it is the master if its address is the highest. *)
Lemma election_spec n p t vnid own s s' :
  wf_tunnels t -> tunnels t <> [] ->
  (forall a, a ∈ te_ip4 <$> tunnels t -> ntohl a ∈ ifs <-> a = own) -> own ∈ te_ip4 <$> tunnels t ->
  handle_dps_extgw_reply_lst E H n p t vnid s = Done (true, s') ->
  exists e, svc_table s' !! SVC_INDX_START = Some e /\ sv_lock e = false /\
    Forall (fun x => em_vnid x = vnid ->
      em_master x = if bool_decide (Forall (fun a => a <= own) (te_ip4 <$> tunnels t)) then 1 else 0)
      (ext_mcast_vnids e).
Proof.
  intros [Hc _] Hne Hown Hin. unfold handle_dps_extgw_reply_lst. destruct (_ <=? _).
  { intros Hf. by apply finish_table in Hf as [? _]. }
  rewrite first_of_counted by done. cbn [obind]. fold (tunnels t). set (ips := te_ip4 <$> tunnels t) in *.
  destruct (sort_descending (fun x => x) ips) as [|x l] eqn:Es.
  { destruct (sort_descending_spec (fun x : Z => x) ips) as [Hp _]. rewrite Es in Hp.
    apply Permutation_nil_l in Hp. subst ips. by destruct (tunnels t). }
  destruct (sort_descending_first _ _ _ _ Es) as [Hx Hmax]. unfold at_least in Hmax.
  pose proof (self_tunnel_own own ips 0 s Hown) as Hself. rewrite bool_decide_true in Hself by done.
  destruct (self_tunnel _ _ _ _) as [self s1]. cbn [fst] in Hself. subst self.
  change services with [SVC_INDX_START]. cbn [elect_services].
  destruct (elect_service E n (x =? own) vnid SVC_INDX_START s1) as [s2| |] eqn:Ee; cbn [obind]; try done.
  intros [_ Ht]%finish_table. apply elect_service_spec in Ee as (e & He & Hl & Hm). rewrite <- Ht in He.
  exists e. split; [done|]. split; [done|].
  replace (bool_decide _) with (x =? own); [done|]. apply eq_bool_prop_intro.
  rewrite bool_decide_spec, Is_true_true, Z.eqb_eq. split; [by intros ->|].
  intros Hall. rewrite Forall_forall in Hall, Hmax. pose proof (Hall x Hx). pose proof (Hmax own Hin). lia.
Qed.
End election.

(** [own] is the one address of the list that is the host's. *)
Definition own_tunnel (H : host) (own : Z) (t : dps_tunnel_list_t) : Prop :=
  own ∈ te_ip4 <$> tunnels t /\
  exists ifs, (forall n, exists l, ifaddrs H n = Some l /\ (take MAX_IFS l).*1 = ifs) /\
    forall a, a ∈ te_ip4 <$> tunnels t -> ntohl a ∈ ifs <-> a = own.
Definition keeps_name (E : gw_env) : Prop :=
  forall n t e, others E n t !! SVC_INDX_START = Some e -> strlen (sv_name e) <> 0%nat.
(** Every entry of the service for the network says [b]. *)
Definition mastery (b : bool) (vnid : Z) (s : gwy) : Prop :=
  exists e, svc_table s !! SVC_INDX_START = Some e /\ sv_lock e = false /\
    Forall (fun x => em_vnid x = vnid -> em_master x = if b then 1 else 0) (ext_mcast_vnids e).
Definition highest (a : Z) (t : dps_tunnel_list_t) : bool :=
  bool_decide (Forall (fun b => b <= a) (te_ip4 <$> tunnels t)).

(** A list of tunnels that is not too long is never refused. *)
Lemma extgw_accepts E H n p t vnid s ok s' :
  wf_tunnels t -> tl_num_of_tunnels t < MAX_TUNNEL_INFO ->
  handle_dps_extgw_reply_lst E H n p t vnid s = Done (ok, s') -> ok = true.
Proof.
  intros [Hc _] Hn. unfold handle_dps_extgw_reply_lst.
  rewrite (proj2 (Z.leb_gt _ _) Hn), first_of_counted by done. cbn [obind].
  destruct (sort_descending _ _) as [|x l]; [by intros [? _]%finish_table|].
  destruct (self_tunnel _ _ _ _) as [self s1].
  destruct (elect_services _ _ _ _ _ _); cbn [obind]; try done. by intros [? _]%finish_table.
Qed.
Lemma election_done E H own p t vnid s :
  fair E -> keeps_name E -> table_len s -> live p s ->
  wf_tunnels t -> tl_num_of_tunnels t < MAX_TUNNEL_INFO -> own_tunnel H own t ->
  exists n0 s', (forall n, (n0 <= n)%nat ->
      handle_dps_extgw_reply_lst E H n p t vnid s = Done (true, s')) /\
    mastery (highest own t) vnid s'.
Proof.
  intros HE HN Hs Hp Hw Hn (Hin & ifs & Hifs & Hown).
  destruct (extgw_ends E H p t vnid s HE Hs Hw Hp) as (n0 & ok & s' & Hd & _).
  assert (ok = true) as -> by (eapply extgw_accepts; [exact Hw|exact Hn|by apply (Hd n0)]).
  exists n0, s'. split; [exact Hd|].
  eapply (election_spec E H ifs); eauto. intros Ht. rewrite Ht in Hin. by apply elem_of_nil in Hin.
Qed.
Lemma one_highest a1 t1 a2 t2 :
  te_ip4 <$> tunnels t1 ≡ₚ te_ip4 <$> tunnels t2 ->
  a1 ∈ te_ip4 <$> tunnels t1 -> a2 ∈ te_ip4 <$> tunnels t2 -> a1 <> a2 ->
  (highest a1 t1 && highest a2 t2) = false.
Proof.
  intros Hp I1 I2 Hne. apply andb_false_iff. unfold highest. rewrite !bool_decide_eq_false, Hp.
  rewrite Hp in I1.
  destruct (decide (a1 <= a2)); [left|right]; intros Hall; rewrite Forall_forall in Hall.
  - specialize (Hall a2 I2). lia.
  - specialize (Hall a1 I1). lia.
Qed.

(** What one gateway needs to take part: a service with a name that is left
    unlocked now and then, a context that is there, a list of fewer than 16
    tunnels, and [getifaddrs] that names one address of the list, its own. *)
Record takes_part (E : gw_env) (H : host) (own p : Z) (t : dps_tunnel_list_t) (s : gwy) : Prop := {
  part_fair : fair E;
  part_name : keeps_name E;
  part_table : table_len s;
  part_context : live p s;
  part_tunnels : wf_tunnels t;
  part_few : tl_num_of_tunnels t < MAX_TUNNEL_INFO;
  part_own : own_tunnel H own t }.

(** C23.  Of the gateways that share a network to the outside one becomes the
    master of its multicast traffic.  When two gateways that take part are
    told of the same tunnels, in whatever order, both handle the list to its
    end, whatever the other threads of either do in between: every entry of
    their services for the network then says master at a gateway whose address
    is the highest of the list and slave at one whose address is not; they
    are never both masters, and the services are unlocked again. *)
Theorem one_master E1 H1 a1 p1 t1 s1 E2 H2 a2 p2 t2 s2 vnid :
  takes_part E1 H1 a1 p1 t1 s1 -> takes_part E2 H2 a2 p2 t2 s2 ->
  te_ip4 <$> tunnels t1 ≡ₚ te_ip4 <$> tunnels t2 -> a1 <> a2 ->
  exists n0 s1' s2',
    (forall n, (n0 <= n)%nat ->
       handle_dps_extgw_reply_lst E1 H1 n p1 t1 vnid s1 = Done (true, s1') /\
       handle_dps_extgw_reply_lst E2 H2 n p2 t2 vnid s2 = Done (true, s2')) /\
    mastery (highest a1 t1) vnid s1' /\ mastery (highest a2 t2) vnid s2' /\
    (highest a1 t1 && highest a2 t2) = false.
Proof.
  intros P1 P2 Hp Hne.
  destruct (election_done E1 H1 a1 p1 t1 vnid s1) as (m1 & s1' & D1 & M1); [apply P1..|].
  destruct (election_done E2 H2 a2 p2 t2 vnid s2) as (m2 & s2' & D2 & M2); [apply P2..|].
  exists (m1 `max` m2)%nat, s1', s2'. split; [intros n Hn; split; [apply D1|apply D2]; lia|].
  split; [exact M1|]. split; [exact M2|].
  apply one_highest; [exact Hp|apply (part_own _ _ _ _ _ _ P1)|apply (part_own _ _ _ _ _ _ P2)|exact Hne].
Qed.

Definition host_at (ip : Z) : host :=
  mk_host (fun _ => Some [(ntohl ip, Some 255)]) (fun _ _ => None) (fun _ => HaTask.ha_task0)
    (fun _ => true) [].
(** The other threads give the lock back, and would give a name to a service
    without. *)
Definition naming_env : gw_env :=
  mk_env (fun _ t => match t with [e0; e] => [e0; named_svc false] | _ => [] end)
    (fun _ => Nl_done) (fun n => 8192 + Z.of_nat n) (fun _ => true).
Definition tunnels_at (ips : list Z) : dps_tunnel_list_t :=
  mk_tunnel_list (Z.of_nat (length ips)) (at_ip <$> ips).
Lemma naming_env_fair : fair naming_env.
Proof.
  split.
  - intros n [|e0 [|e [|? ?]]] Ht; try discriminate Ht. reflexivity.
  - intros n. exists n. split; [done|]. intros [|e0 [|e [|? ?]]] e'; cbn; try done. by intros [= <-].
Qed.
Lemma naming_env_keeps : keeps_name naming_env.
Proof. intros n [|e0 [|e [|? ?]]] e'; cbn; try done. by intros [= <-]. Qed.
Lemma tunnels_at_wf ips : wf_tunnels (tunnels_at ips).
Proof. split; [split; cbn; rewrite ?length_fmap; lia|]. apply Forall_take, at_ips_wf. Qed.
Lemma two_take_part ip ips :
  ip = 5 \/ ip = 7 -> ips = [5; 7] \/ ips = [7; 5] ->
  takes_part naming_env (host_at ip) ip 0 (tunnels_at ips) (gwy0 [zero_svc; named_svc false]).
Proof.
  intros Hip Hips. constructor.
  - exact naming_env_fair.
  - exact naming_env_keeps.
  - reflexivity.
  - by left.
  - apply tunnels_at_wf.
  - by destruct Hips as [-> | ->].
  - assert (te_ip4 <$> tunnels (tunnels_at ips) = ips) as Et by (by destruct Hips as [-> | ->]).
    split; [rewrite Et; destruct Hip as [-> | ->], Hips as [-> | ->]; set_solver|].
    exists [ntohl ip]. split; [intros n; by exists [(ntohl ip, Some 255)]|]. rewrite Et. intros a Ha.
    rewrite list_elem_of_singleton. split; [|by intros ->]. intros Hnt.
    destruct Hip as [-> | ->], Hips as [-> | ->]; apply elem_of_cons in Ha as [-> |Ha];
      try (apply list_elem_of_singleton in Ha as ->); done.
Qed.
Lemma one_master_witness :
  let s := gwy0 [zero_svc; named_svc false] in
  exists n0 s1 s2,
    handle_dps_extgw_reply_lst naming_env (host_at 5) n0 0 (tunnels_at [5; 7]) 3 s = Done (true, s1) /\
    handle_dps_extgw_reply_lst naming_env (host_at 7) n0 0 (tunnels_at [7; 5]) 3 s = Done (true, s2) /\
    mastery false 3 s1 /\ mastery true 3 s2.
Proof.
  intros s.
  destruct (one_master naming_env (host_at 5) 5 0 (tunnels_at [5; 7]) s
              naming_env (host_at 7) 7 0 (tunnels_at [7; 5]) s 3) as (n0 & s1 & s2 & D & M1 & M2 & _).
  - apply two_take_part; by left.
  - apply two_take_part; by right.
  - apply Permutation_swap.
  - discriminate.
  - destruct (D n0 (le_n n0)) as [D1 D2]. exists n0, s1, s2. split; [exact D1|]. split; [exact D2|].
    split; [exact M1 | exact M2].
Defined.

(** ** Multicast receivers are passed on *)

(**  The receivers of a multicast group reach the kernel module.  For a
    list the server can encode, without the address 0, with a live context:
    when there are between 1 and 255 receivers the kernel module is told of
    all of them, each with its network, in the order of the list, and of
    nothing when there are none; 256 or more are an error and it is told
    nothing; records of more than 256 addresses are passed over.  The context
    is given back in each case. *)
Theorem receivers_passed_on E H p m domain s :
  wf_counted (md_num_of_rec m) (md_mcast_recvr_list m) -> Forall record_ok (ds_lists m) -> live p s ->
  nl E (now s) = Nl_done ->
  let recv := ds_lists m ≫= receivers_of in
  exists s', handle_dps_mcast_recv_list E H p m domain s =
      Done (bool_decide (length recv < MAX_MCAST_RCVER)%nat, s') /\ gone p s' /\
    kernel s' = kernel s ++
      if bool_decide (0 < length recv < MAX_MCAST_RCVER)%nat
      then [Nl_mcast_lst CMD_MCAST_LIST (net_vnid domain) (ntohl (ma_mcast_ip4 (md_mcast_addr m)))
              (take 6 (ma_mcast_mac (md_mcast_addr m))) (Z.of_nat (length recv)) OVL_PROTO_SRC_PORT
              (OVL_PROTO_DST_PORT s) recv]
      else [].
Proof.
  intros Hc Hok Hp Hnl recv. unfold handle_dps_mcast_recv_list. rewrite mcast_done by done. cbn [obind].
  fold recv. clearbody recv. unfold fill. case_decide as Hd.
  - rewrite bool_decide_true by done. destruct recv as [|x recv].
    + destruct (finish_live p true s Hp) as (s' & Hs' & Hg). exists s'. split; [done|]. split; [done|].
      unfold finish in Hs'. rewrite give_back_live in Hs' by done. injection Hs' as <-.
      rewrite app_nil_r. destruct (p =? 0); [done | apply kernel_freed].
    + rewrite bool_decide_true by (cbn in *; lia).
      match goal with |- context [nl_send E ?m s] => pose proof (quiet_nl E m s) as Hq; set (msg := m) in * end.
      destruct (finish_live p true (nl_send E msg s).2 (quiet_live _ _ _ Hq Hp)) as (s' & Hs' & Hg).
      exists s'. split; [done|]. split; [done|]. unfold finish in Hs'.
      rewrite give_back_live in Hs' by (by eapply quiet_live). injection Hs' as <-.
      assert (kernel (nl_send E msg s).2 = kernel s ++ [msg]) as <-.
      { unfold nl_send. rewrite Hnl. unfold emit. cbn [snd]. by rewrite kernel_sent. }
      destruct (p =? 0); [done | apply kernel_freed].
  - rewrite !bool_decide_false by lia. destruct (finish_live p false s Hp) as (s' & Hs' & Hg).
    exists s'. split; [done|]. split; [done|]. unfold finish in Hs'. rewrite give_back_live in Hs' by done.
    injection Hs' as <-. rewrite app_nil_r. destruct (p =? 0); [done | apply kernel_freed].
Qed.
Definition sample_group (recs : list dps_pkd_tunnel_list_t) : dps_mcast_receiver_ds_list_t :=
  mk_mcast_ds_list zero_mcast_addr (Z.of_nat (length recs)) recs.
Lemma receivers_passed_on_witness :
  let m := sample_group [mk_pkd_tunnel_list 1 2 0 [5; 6]; mk_pkd_tunnel_list 2 1 1 [7; 0; 0; 0; 1]] in
  exists s', handle_dps_mcast_recv_list fair_env sample_host 4096 m 9 asked_gwy = Done (true, s') /\
    gone 4096 s' /\
    kernel s' = [Nl_mcast_lst CMD_MCAST_LIST 589824 0 zero_mac 3 255 0
                   [(65536, 83886080); (65536, 100663296); (131072, 117440512)]].
Proof.
  apply (receivers_passed_on fair_env sample_host 4096
    (sample_group [mk_pkd_tunnel_list 1 2 0 [5; 6]; mk_pkd_tunnel_list 2 1 1 [7; 0; 0; 0; 1]]) 9 asked_gwy).
  - split; cbn; lia.
  - repeat constructor; unfold in16; cbn; lia.
  - right. by eexists.
  - reflexivity.
Defined.

(** An address 0 moves the pointer to the next record in the middle of the
    loop over the addresses: a receiver of the second record is told with the
    network of the first, the second record is passed over, and the loop reads
    behind the list. *)
Lemma zero_receiver_misread :
  let r v a b := mk_pkd_tunnel_list v 2 0 [a; b] in
  mcast_records ([r 1 0 5; r 2 6 7; r 3 8 9] ≫= pkd_words) 2 0 [] =
    Done (false, [(65536, 117440512); (196608, 134217728); (196608, 150994944)]) /\
  handle_dps_mcast_recv_list fair_env sample_host 4096 (sample_group [r 1 0 5; r 2 6 7; r 3 8 9]) 9 asked_gwy
    = Fault.
Proof. split; vm_compute; reflexivity. Qed.

(** ** Contexts that are never given back *)

(** The acknowledgement of a tunnel, and a question for a policy that comes
    back unanswered. *)
Lemma ack_keeps_context (E : gw_env) (H : host) n m s :
  ch_type (cd_hdr m) = DPS_REG_DEREGISTER_ACK \/ ch_type (cd_hdr m) = DPS_POLICY_REQ ->
  exists ok s', dgwy_handle_dps_response E H n m s = Done (ok, s') /\ gw_out s' = gw_out s.
Proof.
  intros Hty. unfold dgwy_handle_dps_response. cbv zeta. set (s1 := if lost _ then _ else _).
  assert (gw_out s1 = gw_out s) by (subst s1; by destruct (lost _)).
  destruct Hty as [-> | ->]; tests; eauto.
Qed.
(** With an error of the system call every gateway takes every address for its
    own. *)
Lemma error_counts_as_self (H : host) ip s : ifaddrs H (now s) = None -> (self_tunnel H [ip] 0 s).1 = ip.
Proof. intros He. cbn. unfold chk_self_ipv4, ask_host. by rewrite He. Qed.

(** ** What a gateway sends, whatever happens to it *)

(** A result that, when there is one, satisfies [P]. *)
Definition post {A} (P : A -> Prop) (r : out A) : Prop := forall a, r = Done a -> P a.
Lemma post_done {A} (P : A -> Prop) a : P a -> post P (Done a).
Proof. by intros ? ? [= <-]. Qed.
Lemma post_bind {A B} (P : A -> Prop) (Q : B -> Prop) m (k : A -> out B) :
  post P m -> (forall a, P a -> post Q (k a)) -> post Q (obind m k).
Proof. intros Hm Hk b (a & Ha & Hb)%obind_Done_inv. by eapply Hk; [apply Hm|]. Qed.
Lemma post_any {A} (r : out A) : post (fun _ => True) r.
Proof. done. Qed.

Section converse.
Context (E : gw_env) (H : host)
  (Hothers : forall n t, table_typed t -> table_typed (others E n t)).
Abbreviation okp := (post (fun r : bool * gwy => gw_ok r.2)).
Abbreviation oks := (post gw_ok).

Lemma set_dcs_ok x s : gw_ok s -> gw_ok (set_dcs x s).
Proof. by intros []. Qed.
Lemma set_ovl_port_ok x s : in16 x -> gw_ok s -> gw_ok (set_ovl_port x s).
Proof. by intros Hx []. Qed.
#[local] Hint Resolve set_table_ok tick_ok emit_ok look_again_ok set_entry_ok with_lock_typed nl_send_ok
  recv_join_ok set_dcs_ok set_ovl_port_ok : gwy.
#[local] Hint Extern 1 (event_ok _) => exact I : gwy.

Lemma give_back_ok p s : gw_ok s -> oks (give_back p s).
Proof.
  intros Hs. unfold give_back. destruct (p =? 0); [by apply post_done|].
  apply (post_bind (fun _ => True)); [apply post_any|]. intros _ _. apply post_done. auto with gwy.
Qed.
Lemma finish_ok p ok s : gw_ok s -> okp (finish p ok s).
Proof.
  intros Hs. eapply post_bind; [by apply give_back_ok|]. intros s' Hs'. by apply post_done.
Qed.
Lemma tell_location_ok c i x s : gw_ok s -> gw_ok (tell_location E H c i x s).
Proof.
  intros Hs. unfold tell_location, chk_self_ipv4, route_to, ask_host. cbv beta iota zeta.
  destruct (route_src _ _ _); [|auto with gwy]. unfold dgwy_ctrl_location. auto with gwy.
Qed.
Lemma tell_locations_ok b c i l s : gw_ok s -> gw_ok (tell_locations E H b c i l s).
Proof.
  revert i s. induction l as [|x l IH]; intros i s Hs; cbn [tell_locations]; [done|]. apply IH.
  destruct (_ && _); [done | by apply tell_location_ok].
Qed.
Lemma loc_answer_ok p r s : gw_ok s -> okp (handle_dps_loc_reply E H p r s).
Proof.
  intros Hs. unfold handle_dps_loc_reply. destruct (_ <=? _); [by apply finish_ok|]. destruct (p =? 0).
  { eapply post_bind; [apply post_any|]. intros l _. apply post_done. by apply tell_locations_ok. }
  eapply post_bind; [apply post_any|]. intros c _. eapply post_bind; [apply post_any|]. intros l _.
  destruct (_ =? 0).
  { eapply post_bind; [by apply give_back_ok|]. intros s' Hs'. apply post_done. by apply tell_locations_ok. }
  destruct (forallb _ _); [by apply finish_ok|].
  eapply (post_bind gw_ok); [|intros s' Hs'; by apply finish_ok].
  unfold process_dps_loc_resp_shared. eapply post_bind; [apply post_any|]. intros c' _.
  eapply post_bind; [apply post_any|]. intros l' _. apply post_done. by apply tell_locations_ok.
Qed.
Lemma policy_reply_ok p r s : gw_ok s -> okp (handle_dps_policy_reply E H p r s).
Proof.
  intros Hs. unfold handle_dps_policy_reply. destruct (p =? 0); [by apply post_done|].
  eapply post_bind; [apply post_any|]. intros c _. cbv zeta.
  eapply post_bind; [apply post_any|]. intros a _. destruct (a : bool); [by apply loc_answer_ok | by apply finish_ok].
Qed.
Lemma unsolicited_ok p r s : gw_ok s -> okp (handle_dps_unsolicited_loc_reply E p r s).
Proof.
  intros Hs. eapply post_bind; [by apply give_back_ok|]. intros s' Hs'. apply post_done.
  unfold dgwy_ctrl_location. cbn [snd]. auto with gwy.
Qed.
Lemma bcast_members_ok l s : gw_ok s -> gw_ok (bcast_members H l s).2.
Proof.
  revert s. induction l as [|a l IH]; intros s Hs; cbn [bcast_members]; [done|]. destruct (a =? 0); [by apply IH|].
  unfold chk_self_ipv4, route_to, ask_host. cbv beta iota zeta. destruct (_ =? 0); [|apply IH; auto with gwy].
  assert (gw_ok (bcast_members H l (tick (tick s))).2) as Hi by (apply IH; auto with gwy).
  by destruct (bcast_members _ _ _).
Qed.
Lemma bcast_ok p b d s : gw_ok s -> okp (handle_dps_bcast_reply_lst E H p b d s).
Proof.
  intros Hs. unfold handle_dps_bcast_reply_lst. destruct (_ <? _); [by apply finish_ok|].
  eapply post_bind; [apply post_any|]. intros l _. pose proof (bcast_members_ok l s Hs) as Hm.
  destruct (bcast_members _ _ _) as [ms s1]. unfold dgwy_ctrl_bcast_lst.
  match goal with |- context [nl_send E ?m s1] => pose proof (nl_send_ok E m s1 Hm); destruct (nl_send E m s1) end.
  by apply finish_ok.
Qed.
Lemma mcast_ok p m d s : gw_ok s -> okp (handle_dps_mcast_recv_list E H p m d s).
Proof.
  intros Hs. eapply post_bind; [apply post_any|]. intros [full l] _. cbn. destruct full; [by apply finish_ok|].
  apply finish_ok. destruct l; auto with gwy.
Qed.
Lemma vlangw_ok p t v s : gw_ok s -> okp (handle_dps_vlangw_reply_lst H p t v s).
Proof.
  intros Hs. unfold handle_dps_vlangw_reply_lst. destruct (_ <=? _); [by apply finish_ok|].
  eapply post_bind; [apply post_any|]. intros ts _. apply finish_ok. revert s Hs.
  induction ts as [|x ts IH]; intros s Hs; [done|]. cbn [fold_left]. apply IH. destruct (negb _); [done|].
  unfold chk_self_ipv4, ask_host. cbv beta iota zeta. destruct (_ =? 0); [|auto with gwy].
  unfold dgwy_ctrl_set_peer_ipv4, ask_host. cbv beta iota zeta. destruct (ha_queue _ _); auto with gwy.
Qed.
Lemma self_tunnel_ok l self s : gw_ok s -> gw_ok (self_tunnel H l self s).2.
Proof. revert self s. induction l as [|a l IH]; intros self s Hs; [done|]. apply IH. by apply tick_ok. Qed.
Lemma elect_ok b vnid l s : Forall (fun x => in32 (em_vnid x)) l -> gw_ok s ->
  Forall (fun x => in32 (em_vnid x)) (elect E b vnid l s).1 /\ gw_ok (elect E b vnid l s).2.
Proof.
  intros Hl. revert s. induction Hl as [|x l Hx Hl IH]; intros s Hs; cbn -[send_ext_mcast_recv_join nl_send]; [done|].
  destruct (_ =? vnid).
  - match goal with |- context [elect E b vnid l ?t] => assert (gw_ok t) as Ht; [|specialize (IH t Ht)] end.
    { destruct b; [apply recv_join_ok; destruct (_ =? 0); auto with gwy|]. destruct (_ =? 1); auto with gwy. }
    destruct (elect E b vnid l _). cbn in *. destruct IH. split; [by constructor | done].
  - specialize (IH s Hs). destruct (elect E b vnid l s). cbn in *. destruct IH. split; [by constructor | done].
Qed.
Lemma svc_wait_ok n j s : gw_ok s -> post (fun r => svc_typed r.1 /\ gw_ok r.2) (svc_wait E n j s).
Proof.
  revert s. induction n as [|n IH]; intros s Hs; cbn [svc_wait]; [done|].
  assert (gw_ok (look_again E s)) as Hl by by apply look_again_ok.
  destruct (svc_table (look_again E s) !! j) as [e|] eqn:He; cbn [of_option obind]; [|done].
  pose proof (entry_typed _ _ _ Hl He) as Ht. destruct (sv_lock e); [by apply IH|].
  apply post_done. cbn. auto with gwy.
Qed.
Lemma extgw_ok n p t v s : gw_ok s -> okp (handle_dps_extgw_reply_lst E H n p t v s).
Proof.
  intros Hs. unfold handle_dps_extgw_reply_lst. destruct (_ <=? _); [by apply finish_ok|].
  eapply post_bind; [apply post_any|]. intros ts _. destruct (sort_descending _ _) as [|x l]; [by apply finish_ok|].
  pose proof (self_tunnel_ok (te_ip4 <$> ts) 0 s Hs) as H1. destruct (self_tunnel _ _ _ _) as [self s1].
  cbn [snd] in H1. eapply (post_bind gw_ok); [|intros s' Hs'; by apply finish_ok].
  generalize services. intros js. revert s1 H1. induction js as [|j js IH]; intros s1 H1; cbn [elect_services]; [by apply post_done|].
  eapply (post_bind gw_ok); [|intros s' Hs'; by apply IH]. unfold elect_service.
  eapply post_bind; [apply post_any|]. intros e _. assert (gw_ok (look_again E s1)) by by apply look_again_ok.
  destruct (strlen _); [by apply post_done|]. eapply post_bind; [by apply svc_wait_ok|]. intros [e' s2] [He' H2].
  cbn [fst snd] in *. destruct (elect_ok (x =? self) v (ext_mcast_vnids e') s2 (ty_mcasts e' He') H2) as [Hm Hs2].
  destruct (elect _ _ _ _ _) as [l' s3]. apply post_done, set_entry_ok; [by destruct He' | done].
Qed.
Lemma resolve_ok p q s : gw_ok s -> okp (handle_dps_address_resolve E p q s).
Proof.
  intros Hs. unfold handle_dps_address_resolve. cbv zeta.
  match goal with |- context [nl_send E ?m s] => pose proof (nl_send_ok E m s Hs); destruct (nl_send E m s) end.
  by apply finish_ok.
Qed.
Lemma response_ok n m s : gw_ok s -> okp (dgwy_handle_dps_response E H n m s).
Proof.
  intros Hs. unfold dgwy_handle_dps_response. cbv zeta. set (s1 := if lost _ then _ else _).
  assert (gw_ok s1) as H1 by (subst s1; destruct (lost _); auto with gwy). clearbody s1.
  repeat match goal with |- okp (if ?b then _ else _) => destruct b end;
    try match goal with |- okp (Done _) => by apply post_done end;
    try match goal with |- okp (obind _ _) => eapply post_bind; [apply post_any|]; intros b _ end.
  - by apply policy_reply_ok.
  - by apply loc_answer_ok.
  - by apply unsolicited_ok.
  - by apply finish_ok.
  - by apply bcast_ok.
  - by apply mcast_ok.
  - by apply vlangw_ok.
  - by apply extgw_ok.
  - by apply resolve_ok.
Qed.

(** *** Queries of the kernel module *)
Lemma mac_in_peer_ok mac s : gw_ok s -> okp (mac_in_peer H mac s).
Proof. intros Hs. eapply post_bind; [apply post_any|]. intros b _. apply post_done. cbn [snd]. by apply tick_ok. Qed.
Lemma vip_update_ok q s : query_typed q -> gw_ok s -> oks (dove_location_vip_update E H q s).
Proof.
  intros Hq Hs. eapply post_bind; [by apply mac_in_peer_ok|]. intros [peer s1] H1. cbn in H1.
  destruct peer; [by apply post_done|].
  assert (gw_ok (dgwy_register_vip_location E (domain_horder q) (ntohl (qi_ip4 q)) (ntohl (qi_phyip4 q))
    (Some (qi_endpoint_mac q)) s1).2) as H2 by by apply location_ok.
  destruct (dgwy_register_vip_location _ _ _ _ _ _) as [r s2]. cbn [snd] in H2.
  pose proof (ask_ok E Hothers "find_vnid_subnet_nexthop" (u32 (-1)) 0
    (fun e => match find_slot (fun x => negb (vs_IPv4 x =? 0) && (vs_vnid x =? domain_horder q)
                  && (Z.land (vs_IPv4 x) (vs_IPv4_mask x) =? Z.land (qi_ip4 q) (vs_IPv4_mask x))) 0
                  (vnid_subnet e) with
              | Some x => vs_IPv4_nexthop x | None => 0 end) s2 H2) as H3. fold (find_vnid_subnet_nexthop E (domain_horder q) (qi_ip4 q)) in H3.
  destruct (find_vnid_subnet_nexthop _ _ _ _) as [nh s3]. cbn [snd] in H3. apply post_done.
  destruct (nh =? 0); [done|]. by apply nl_send_ok.
Qed.
Lemma request_shared_ok q s : query_typed q -> gw_ok s -> gw_ok (dove_policy_request_shared E H q s).
Proof.
  intros Hq Hs. unfold dove_policy_request_shared, chk_self_ipv4_getmask, ask_host. cbv beta iota zeta.
  assert (H1 : gw_ok (tick s)) by auto with gwy.
  match goal with |- gw_ok (let '(_, _) := ?t in _) => destruct t as [self mask] end.
  destruct (self =? 1). { unfold dgwy_ctrl_svc_ipv4. rewrite andb_false_r. cbn. auto with gwy. }
  generalize (services ≫= fun j => (fun i => (j, i)) <$> seq 0 MAX_VNID_SUBNETS).
  revert H1. generalize (tick s). clear s Hs. intros s H1 l. revert s H1.
  induction l as [|ji l IH]; intros s H1; [done|]. cbn [fold_left]. apply IH. unfold ask_subnet. cbv zeta.
  assert (gw_ok (look_again E s)) by by apply look_again_ok.
  destruct (svc_table _ !! ji.1 ≫= _) as [x|]; [|done]. destruct (in_shared_subnet _ _); [|done].
  by apply ask_policy_of_ok.
Qed.
Lemma policy_request_ok q s : query_typed q -> gw_ok s -> oks (dove_policy_request E H q s).
Proof.
  intros Hq Hs. unfold dove_policy_request. destruct (dps_known s); [|by apply post_done].
  eapply post_bind; [by apply mac_in_peer_ok|]. intros [peer s1] H1. cbn in H1.
  destruct peer; [by apply post_done|]. destruct (_ =? _); apply post_done.
  - by apply request_shared_ok.
  - by apply ask_policy_ok.
Qed.
Lemma vgw_all_ok c ty s : gw_ok s -> gw_ok (vgw_all E c ty s).
Proof.
  intros Hs. apply with_svc_ok; [done| |done]. intros e s' He Hs'. split; [done|]. cbn [snd].
  apply (each_ok (fun _ => True)); [by apply Forall_true| |done]. intros. by apply recv_join_ok.
Qed.
Lemma device_query_ok q s : query_typed q -> gw_ok s -> oks (device_query E H q s).
Proof.
  intros Hq Hs. unfold device_query. cbv zeta.
  destruct (_ =? _); [by apply policy_request_ok|]. destruct (_ =? _); [by apply vip_update_ok|]. apply post_done.
  repeat match goal with |- gw_ok (if ?b then _ else _) => destruct b end;
    by first [apply legacy_unavailable_ok | apply mcast_rcvr_ok | apply mcast_sender_ok | apply vgw_all_ok
             | apply location_ok | idtac].
Qed.

(** What comes in is of the width it is declared with. *)
Definition input_typed (i : gw_input) : Prop :=
  match i with
  | In_cmd c => cmd_typed c
  | In_poll buf => Forall query_typed buf
  | _ => True
  end.
Lemma gw_serve_ok n i s : input_typed i -> gw_ok s -> oks (gw_serve E H n i s).
Proof.
  intros Hi Hs. destruct i; cbn [gw_serve input_typed] in *.
  - apply post_done. by apply gw_run_ok.
  - apply post_done. unfold dgw_ctrl_set_ovl_port.
    assert (gw_ok (set_ovl_port (u16 port) s)) by (apply set_ovl_port_ok; [apply u16_in|done]).
    destruct (nl E (now s)); first [by apply nl_send_ok | by apply tick_ok].
  - apply policy_request_ok; [|done]. split; apply zero_mac_wf.
  - revert s Hs. induction Hi as [|q buf Hq Hb IH]; intros s Hs; cbn [dgwy_device_poll]; [by apply post_done|].
    eapply post_bind; [by apply device_query_ok|]. auto.
  - eapply post_bind; [by apply response_ok|]. intros r Hr. by apply post_done.
Qed.
Lemma gw_serves_ok n l s : Forall input_typed l -> gw_ok s -> oks (gw_serves E H n l s).
Proof.
  intros Hl. revert s. induction Hl as [|i l Hi Hl IH]; intros s Hs; cbn [gw_serves]; [by apply post_done|].
  eapply post_bind; [by apply gw_serve_ok|]. auto.
Qed.

(** *** ... and it goes on *)

(** The high availability task always has a list of addresses to look into. *)
Context (Hha : forall n mac, exists b, HaTask.is_mac_found_in_peer mac (ha H n) = Done b).
Lemma mac_in_peer_done mac s : exists r, mac_in_peer H mac s = Done r.
Proof.
  unfold mac_in_peer, ask_host. cbv beta iota zeta. destruct (Hha (now s) (take 6 mac)) as [b ->]. by eexists.
Qed.
Lemma policy_request_done q s : exists s', dove_policy_request E H q s = Done s'.
Proof.
  unfold dove_policy_request. destruct (dps_known s); [|by eexists].
  destruct (mac_in_peer_done (qi_endpoint_mac q) s) as [[peer s1] ->]. cbn [obind].
  destruct peer; [by eexists|]. destruct (_ =? _); by eexists.
Qed.
Lemma device_query_done q s : exists s', device_query E H q s = Done s'.
Proof.
  unfold device_query. cbv zeta. destruct (_ =? _); [apply policy_request_done|].
  destruct (_ =? _); [|by eexists]. unfold dove_location_vip_update.
  destruct (mac_in_peer_done (qi_endpoint_mac q) s) as [[peer s1] ->]. cbn [obind].
  destruct peer; [by eexists|]. destruct (dgwy_register_vip_location _ _ _ _ _ _) as [r s2].
  destruct (find_vnid_subnet_nexthop _ _ _ _) as [nh s3]. by eexists.
Qed.
Lemma device_poll_done buf s : exists s', dgwy_device_poll E H buf s = Done s'.
Proof.
  revert s. induction buf as [|q buf IH]; intros s; cbn [dgwy_device_poll]; [by eexists|].
  destruct (device_query_done q s) as [s' ->]. apply IH.
Qed.

(** An answer is one the server can encode, to a question whose context is
    there when it comes. *)
Definition comes (i : gw_input) (s : gwy) : Prop :=
  input_typed i /\
  match i with In_answer m => answer_ok m /\ live (cd_context m) s | _ => True end.
Fixpoint come (l : list gw_input) (s : gwy) : Prop :=
  match l with
  | [] => True
  | i :: l => comes i s /\ forall n s', gw_serve E H n i s = Done s' -> come l s'
  end.
Context (Hfair : fair E).
Lemma gw_serve_done i s : comes i s -> gw_ok s ->
  exists n0 s', forall n, (n0 <= n)%nat -> gw_serve E H n i s = Done s'.
Proof.
  intros [_ Hi] Hs. destruct i; cbn [gw_serve].
  - by exists 0%nat, (gw_run E c s).
  - by exists 0%nat, (dgw_ctrl_set_ovl_port E port s).2.
  - destruct (policy_request_done (mk_query 0 (net_vnid domain) vmIp 0 zero_mac 0 zero_mac) s) as [s' Hs'].
    by exists 0%nat, s'.
  - destruct (device_poll_done buf s) as [s' Hs']. by exists 0%nat, s'.
  - destruct Hi as [Ha Hl]. destruct (answer_handled E H rsp s Hfair) as (n0 & ok & s' & Hn & _); [apply Hs|done..|].
    exists n0, s'. intros n Hle. by rewrite Hn.
Qed.
Lemma gw_serves_done l s : come l s -> gw_ok s ->
  exists n0 s', gw_ok s' /\ forall n, (n0 <= n)%nat -> gw_serves E H n l s = Done s'.
Proof.
  revert s. induction l as [|i l IH]; intros s Hl Hs; [by exists 0%nat, s|]. destruct Hl as [Hi Hl].
  destruct (gw_serve_done i s Hi Hs) as (n0 & s1 & Hn0). assert (H1 := Hn0 n0 (le_n _)).
  assert (gw_ok s1) as Hs1 by (eapply gw_serve_ok; [apply Hi|done|exact H1]).
  destruct (IH s1 (Hl _ _ H1) Hs1) as (n1 & s' & Hs' & Hn1). exists (n0 `max` n1)%nat, s'. split; [done|].
  intros n Hn. cbn [gw_serves]. rewrite Hn0 by lia. apply Hn1. lia.
Qed.
End converse.

(** C20.  A gateway works on, and what it sends is sent.  Whatever happens to
    it, in whatever order (commands of the command line and of the REST server,
    queries of the kernel module, answers of the server), with whatever memory, netlink, host
    and other threads do, as long as these now and then leave the service
    unlocked and every answer is one the server can encode, without the address
    0 among multicast receivers, to a question whose
    context has not been given back: it takes it all, everything it keeps
    stays of the width it is declared with, and every message it hands to the
    protocol is sent: the protocol lays out its wire packet, hands it to the
    socket layer and counts it, or counts it as failed when there is no buffer. *)
Theorem gateway_conversation E H l s :
  (forall n t, table_typed t -> table_typed (others E n t)) -> fair E ->
  (forall n mac, exists b, HaTask.is_mac_found_in_peer mac (ha H n) = Done b) ->
  come E H l s -> gw_ok s ->
  exists n0 s', (forall n, (n0 <= n)%nat -> gw_serves E H n l s = Done s') /\ gw_ok s' /\
  forall ctx m, To_dps ctx m ∈ gw_out s' ->
  forall W `(EnvLaws W) t w, dps_server && negb (dps_cluster_is_local_node_active w) = false ->
  dps_protocol_client_send m (t, w) =
    count_sent (send_packet (send_err (cd_body m)) (send_status (cd_body m)) (ch_type (cd_hdr m))
      (sent_body m) m w) t.
Proof.
  intros Hoth Hfair Hha Hl Hs. destruct (gw_serves_done E H Hoth Hha Hfair l s Hl Hs) as (n0 & s' & Hs' & Hn).
  exists n0, s'. split; [done|]. split; [done|]. intros ctx m Hm W ? ? t w Hw.
  apply encodable_sent; [|done]. apply list_elem_of_lookup_1 in Hm as [i Hi].
  exact (Forall_lookup_1 _ _ _ _ (gw_sent _ Hs') Hi).
Qed.

(** A question for a policy, and its answer. *)
Definition sample_inputs : list gw_input :=
  [In_poll [mk_query DPS_LOCATION_QUERY 458752 33554442 0 (replicate 6 17) 0 (replicate 6 0)];
   In_answer (mk_client_data 8193 (dps_hdr DPS_POLICY_REPLY 0 3 7)
     (Body_policy_reply (sample_reply [mk_rule 7 8; mk_rule 7 9] [167772162; 167772161])))].
Lemma unlocked_typed n t : table_typed t -> table_typed (unlocked n t).
Proof.
  intros [Hl Ht]. unfold unlocked. split; [by rewrite length_alter|]. apply Forall_alter; [done|].
  intros x _ Hx. by apply with_lock_typed.
Qed.
Lemma gateway_conversation_witness :
  let s := gwy0 [zero_svc; named_svc false] in
  exists n0 s', (forall n, (n0 <= n)%nat -> gw_serves fair_env sample_host n sample_inputs s = Done s') /\
    gw_ok s'.
Proof.
  destruct (gateway_conversation fair_env sample_host sample_inputs (gwy0 [zero_svc; named_svc false]))
    as (n0 & s' & Hn & Hok & _).
  - exact unlocked_typed.
  - exact fair_env_fair.
  - intros n mac. exists false. reflexivity.
  - split.
    + split; [|exact I]. constructor; [|constructor].
      split; (split; [reflexivity|]); repeat constructor; unfold in8; lia.
    + intros n s1. set (q := mk_query _ _ _ _ _ _ _).
      assert (gw_serve fair_env sample_host n (In_poll [q]) (gwy0 [zero_svc; named_svc false]) =
        Done (ask_policy fair_env q (tick (gwy0 [zero_svc; named_svc false])))) as -> by reflexivity.
      intros Hs1. injection Hs1 as <-. split; [|done]. split; [exact I|]. split.
      * split; [reflexivity|]. split; [|exact I].
        destruct (sample_reply_ok [mk_rule 7 8; mk_rule 7 9] [167772162; 167772161]) as [H1 H2]; [reflexivity|].
        split; [exact H1|]. split; [exact H2|]. left. reflexivity.
      * right. eexists. vm_compute. reflexivity.
  - exact (start_ok false).
  - exists n0, s'. exact (conj Hn Hok).
Defined.
